(* ===== verification/_CoqProject ===== *)
-Q . S2P
Prelude.v
Json.v
Sql.v
Proto.v
Registry.v
AuthSql.v
RouteStore.v
OwnerScope.v
Net.v
AuthText.v
Sha256.v
JsonText.v
ProxyToken.v
Url.v
TerminalRoutes.v
TerminalRoutesProps.v
SessionRuntime.v
Writer.v
Service.v
ProxySession.v
Dispatch.v
DispatchProps.v
Tasks.v
Submit.v
TaskProps.v
SubmitProps.v
Connect.v
ConnectProps.v
WorkerTerminal.v
WorkerRecovery.v
WorkerResource.v
WorkerProps.v
WorkerClaims.v
WorkerRecoveryClaims.v
WorkerExecutor.v
EndToEnd.v
Accounts.v
Auth.v
AuthProps.v
AuthClaims.v
Rest.v
RestProps.v
RestClaims.v
Proxy.v
ProxyProps.v
ProxyClaims.v
Source.v
ConsoleConfig.v
Startup.v
StartupProps.v
StartupClaims.v
ParseFloat.v
DockerConfig.v
ReverseProxy.v
WorkerProxy.v
WorkerProxyProps.v
DockerClaims.v
WorkerClient.v
WorkerClientClaims.v
McpSchema.v
McpTools.v
McpExport.v
McpServer.v
McpProps.v
McpClaims.v
McpToolProps.v
McpToolClaims.v
FilePath.v
SysConfig.v
SysExecutor.v
SysClient.v
SysProps.v
SysClaims.v
E2bClient.v
E2bTerminal.v
E2bInv.v
E2bClaims.v
E2bCommands.v
E2bCommandClaims.v
E2bWorker.v
