(* ===== verification/Prelude.v ===== *)
(** Onlyboxes, its console and its workers: a verification development

    * The program

    The console (src/console, Go) accepts tasks from account owners and runs
    them on workers that connect to it.  A worker holds one stream; the console
    keeps its session in memory, sends it commands and waits for results.
    Terminal sessions live inside a worker, so the console remembers which
    worker holds which session (a route), persists confirmed routes in SQLite,
    and recovers them after a restart or a reconnection.  Session ids are scoped
    by owner before they leave the console and unscoped in results.

    The parts and the files that model them, in the order of the library; a file
    holds a Module of its name, and the Modules named with it:

    - [Prelude]: Go strings (TrimSpace, ToLower, ...), machine integers, time,
      the error values of the console and [errors.Is]; tactics and hints.
    - [Json]: encoding/json as the console uses it: values, Valid, Unmarshal into
      structs and maps, Marshal.
    - [Sql]: the SQLite tables (persistence/sqlc), one definition per generated
      query with its constraints and cascades, statements that may fail, and
      transactions (persistence/db.go WithTx).
    - [Proto]: the messages of the worker protocol.
    - [Registry]: internal/registry: registration, heartbeats, listing, paging,
      statistics, pruning, credentials.
    - [RouteStore]: the persistence interface of routes as the class
      [TerminalSessionRouteStore] with its laws [RouteStoreLaws], which the
      SQLite store satisfies; the proxy route store; the integrity of the tables
      under every operation, also those of [AuthSql] on accounts, which it follows.
    - [OwnerScope]: grpcserver/task_owner_scope.go.
    - [TerminalRoutes], [TerminalRoutesProps] (with [TerminalRoutesInv]):
      grpcserver/terminal_session_routes.go, proved against the class of
      [RouteStore]: operations, the invariant they keep, properties of every
      reachable state.
    - [SessionRuntime]: grpcserver/session_runtime.go, a connected worker's
      session: slots per capability, pending commands and their channels.
    - [Writer]: writerLoop of service_connect.go, the goroutine that sends what
      is queued on a session.
    - [Service]: the state of RegistryService (service.go) and its settings.
    - [Dispatch], [DispatchProps]: service_dispatch.go and
      terminal_session_lease.go: scheduling, attempts, retries, lease renewal.
    - [Tasks], [Submit], [TaskProps], [SubmitProps]: task.go and
      task_worker_sys_routing.go: the life cycle of tasks.
    - [Connect], [ConnectProps]: service_connect.go and
      service_credentials_runtime.go: provisioning and revoking workers, and a
      worker's stream from its hello to its end.

    The docker worker (src/worker/worker-docker, Go) is the program at the other
    end of the stream.  It keeps the terminal sessions as containers, runs the
    commands in them and reports what survived a restart:

    - [Net]: net/netip addresses and prefixes, as the container networks use them.
    - [WorkerTerminal]: runner/terminal_exec.go: the session manager, the claim
      of a session by a command, opening, executing, cleaning up, the janitor,
      the lease renewal.
    - [WorkerRecovery]: runner/session_recovery.go: the containers found after a
      restart and the answer to the console's recovery request.
    - [WorkerResource]: runner/terminal_resource.go: validating, reading and
      exporting files of a session.
    - [WorkerProps], [WorkerClaims], [WorkerRecoveryClaims]: the invariant of the
      manager, the steps every operation is made of, and the properties of every
      run of the worker.
    - [WorkerExecutor]: runner/capability_executor.go and python_runtime.go: the
      dispatch of a command to its capability and the replies.
    - [EndToEnd]: the console of [OwnerScope], [TerminalRoutes] and [Connect] and
      the worker of [WorkerExecutor] composed: what one sends the other accepts.

    The console's HTTP side (src/console/internal/httpapi) decides who a request
    comes from:

    - [AuthText]: the text it works on: names and their keys, masks, bearer
      headers, just-in-time tokens, base64url.
    - [AuthSql]: the queries on accounts, trusted tokens and API keys.
    - [Accounts]: console_auth.go, console_auth_account.go,
      console_auth_session.go, api_keys_auth.go, mcp_auth.go, jit_auth.go: the state [ConsoleAuth], creating and removing accounts,
      tokens and keys, sessions, the first administrator.
    - [Auth]: the middlewares and handlers of those files and of
      console_auth_handlers.go and request_owner.go, the routes of NewRouter
      (worker_handler.go) and what guards each of them.
    - [AuthProps] (with [AuthInv] and [AuthOps]), [AuthClaims]: the invariant of the
      tables, the specification of every middleware and operation, and the
      properties of every request.
    - [Rest]: the handlers of workers (worker_handler.go, worker_stats.go),
      terminal sessions (session_handler.go), tasks (task_handler.go), commands
      (command_handler.go) and metadata (sandbox_metadata.go), and the routes
      that run them behind the middlewares of [Auth].
    - [RestProps], [RestClaims]: what an account can see and change through
      them, and what becomes of the requests they hand to the service.

    Proxy routes are public host names that lead to a port inside a terminal
    session:

    - [Sha256], [JsonText], [ProxyToken], [Url]: crypto/sha256 and crypto/hmac,
      the JSON text that is signed, src/api/proxytoken/token.go, net/url.
    - [ProxySession]: what a connected worker advertises
      (grpcserver/proxy_routes.go), called by [Connect].
    - [Proxy]: the rest of grpcserver/proxy_routes.go and
      httpapi/proxy_routes.go: resolving and authorizing, the route table, its
      handlers and its restoration.
    - [ProxyProps], [ProxyClaims]: the invariant that ties the proxy routes to
      the terminal session routes, and what the handlers guarantee.

    The start of the two programs, and the worker's side of the connection and of
    the proxy:

    - [Source], [ConsoleConfig]: console/internal/config: settings from the
      environment and a TOML file.
    - [Startup], [StartupProps], [StartupClaims]: main of console/cmd/console:
      opening, restoring, configuring, the timers.
    - [ParseFloat], [DockerConfig]: strconv.ParseFloat; the docker worker's
      settings (internal/config), their checks (runner.go, sandbox_proxy.go,
      docker_network.go) and its hello (hello_builder.go).
    - [ReverseProxy], [WorkerProxy], [WorkerProxyProps]: net/http headers and
      httputil.ReverseProxy; runner/sandbox_proxy.go.
    - [DockerClaims]: settings, hello, endpoint and proxy, composed with the
      console of [Connect], [ProxySession] and [Proxy].
    - [WorkerClient], [WorkerClientClaims]: runner/session_client.go and Run of
      runner.go: handshake, heartbeats, received frames, reconnection.

    The MCP server of the console (src/console/internal/httpapi) offers the
    capabilities as tools of language models:

    - [McpSchema]: mcp_tool_specs.go: the schemas as a store of
      maps that can be shared, deep copies, overrides of names and texts.
    - [McpTools]: mcp_errors.go, mcp_tool_handlers.go, mcp_resource_registry.go:
      the tools, which submit tasks to the service of [Tasks].
    - [McpExport]: mcp_export_file.go and internal/objectstore.
    - [McpServer]: mcp_handler.go and tool_capability.go: the registration of the
      tools and the filter of the list of tools.
    - [McpProps] (with [McpSchemaProps]), [McpToolProps], [McpClaims],
      [McpToolClaims]: their properties.

    The host worker (src/worker/worker-sys) runs commands and reads files on its
    own machine:

    - [FilePath]: path/filepath.
    - [SysConfig]: internal/config and hello_builder.go.
    - [SysExecutor]: computer_use.go, read_image.go, capability_executor.go.
    - [SysClient]: session_client.go and runner.go.
    - [SysProps], [SysClaims]: their properties.

    The bridge to e2b (src/worker/worker-bridge-e2b) keeps its terminal sessions
    in sandboxes of a service:

    - [E2bClient]: e2b/client.go: the client of the service and of the daemon in a
      sandbox, with the stream of a command and the signals that stop it.
    - [E2bTerminal]: runner/terminal_exec.go and session_recovery.go: the critical
      sections of the session manager, one definition each.
    - [E2bSteps] of [E2bTerminal]: the goroutines as programs of these sections: what a command, the
      janitor, a shutdown and a recovery do, one section or one answer of the
      service at a time, in any order.
    - [E2bCommands] (with [E2bExecutor]): what each command does with its session and in
      the sandbox (terminal_exec.go, terminal_resource.go, python_runtime.go), and
      its frame (capability_executor.go).
    - [E2bWorker]: internal/config, hello_builder.go, session_client.go, runner.go;
      the loops it shares with the docker worker are those of [WorkerClient].
    - [E2bInv] (with [E2bProps] and [E2bLease]): the two invariants of the steps, about the
      counters and about the time the service keeps a sandbox; [E2bClaims],
      [E2bCommandClaims]: the properties.

    * How state and effects are modelled

    State is passed explicitly.  The service is the record [RegistryService]:
    the route table, the sessions by node id and the session objects by session
    id (so that a reference survives the replacement of a table entry), the task
    runtime records, the request reservations, the database connection.  A
    database statement is a function [M] of the connection, whose list of faults
    says which statements fail; a failed statement or commit leaves the tables
    unchanged.  Fallible operations return [res]; errors are data and are
    compared the way [errors.Is] compares them.

    An operation that the source runs under a mutex is one step.  Where the
    source blocks, the model takes from its environment what the outside decided
    ([attempt_env], [submit_env], [connect_env], [frame_env]): the clock, fresh ids, the end of a context,
    which case of a select is taken, and a function that is what all other
    goroutines did to the state meanwhile.  Theorems about such operations hold
    for every environment, with hypotheses on the other goroutines where they
    say so.  The goroutine started by [SubmitTask] is returned as a [task_job].
    A stream is its handshake and then a list of events, each the case that its
    select took; the two selects of the writer are a step function.  An operation
    made of several critical sections that do not wait, such as the choice of a
    session, is one step, except for [Connect] and the cleanup of a session,
    whose sections are interleaved.

    In the worker, the manager is the record [terminalSessionManager]; what docker,
    the clock and the other goroutines do is an environment again ([exec_env],
    [recover_env], [command_env]): the result of every docker command is an
    input, and the field [others] is what the rest of the worker did while the
    manager's mutex was not held.

    A request is an environment ([auth_env], [init_env]) and a [Request]; the
    candidates of a randomised loop are the list [tries].  What other requests do
    between two statements of a handler is the field [ae_others].  The handlers of
    [Rest] work on [RegistryService] with a [rest_env], which holds the
    environments of the service's operations; a panic that gin recovers is the
    answer [panicked].

    The proxy routes and the service are the record [World].  The service reports
    every terminal session it removes ([revoked] of [TerminalRoutes]), and
    [settle] makes the calls of the revoker before anything else runs; a request
    has a [proxy_env].

    In the worker's client a select is an input that says which case was taken:
    a heartbeat loop is its list of [beat]s, a run its list of [round]s.  The
    sandbox proxy gets the response of the container from its environment and
    returns the request the container got.

    A call of an MCP tool has an [mcp_env] for the service under it; the schemas
    are a heap of maps, so that an override which wrote into a shared schema would
    show.  A readImage command of the host worker sees the file system at a
    [moment] for each of its system calls, so that whatever changes in between is
    part of the model; a session of the host worker is a step relation.

    The bridge to e2b is a step relation too: a configuration is the manager, the
    goroutines, when the service will end each sandbox, and the time.  A request
    to the service takes effect at a moment between its start and its answer, and
    one that failed may have taken effect.  An [execution] is what the manager and
    the service answer to one command; [e2b_commands_follow_their_steps] ties the
    two together.

    All definitions are executable.  The recursions are structural, on lists or
    on the number of attempts that the source itself bounds; copies of schemas
    are bounded by their depth [schemaDepth], which is enough for all of them
    ([exposed_schemas_are_consistent]).  Integers that can overflow are kept at their width with [i64],
    [i32] or [u64].

    * What the theorems show

    - Routes: the table, its index and the database agree in every reachable
      state; sessions never move between workers; commits persist first;
      reservations are shared and released once; restart, recovery, pruning,
      listing and deletion do exactly what they should.
    - Sessions: the slot counters are exact, results are delivered once, closing
      fails every waiter, queued frames are sent in order and control frames are
      not held up.
    - Connections: only a worker with its secret is admitted, it has one session
      at a time, the stream keeps all accounts on which dispatching relies and
      cleans up only after itself; a provisioned worker can connect, a revoked
      one is gone, a worker-sys offers only its two capabilities.
    - Dispatch: the least loaded eligible worker is taken, a confirmed session
      is served only by its worker, every attempt returns its slot, no worker is
      tried twice, the outcome decides the fate of the route.
    - Tasks: an executed task is settled, or that its failure could not be stored
      was handed to the hook of the service (which does nothing unless it is
      replaced); terminal rows are final, request ids
      are idempotent and released, owners are isolated in submission, reading,
      cancellation and results, start-up recovery settles everything.
    - Registry: registration cannot change a provisioned worker's owner,
      heartbeats need the current session, the scheduling list is the online
      set, pruning and paging are exact, the database stays consistent.
    - Worker: sessions and reservations stay within the limits, a reservation is
      returned only after the removal of the container, a session only
      moves forward from creation to removal, a claim has exactly the documented
      outcomes, the first command opens its session, expired sessions are
      removed by the janitor, shutdown leaves nothing, a renewal never shortens
      a lease, and a recovered session is one the worker really has.
    - End to end: a command is executed in the container of a session of its own
      owner and nowhere else, and the reply comes back under the id the owner used, a refusal of the worker is
      understood by the console, both agree on the lease, the containers of
      python runs are removed.
    - Accounts: the tables stay consistent under every request; a route behind
      a middleware only runs for the account or token it requires; a token names
      exactly its owner; accounts cannot touch each other's tokens and keys;
      deleting an account removes everything it had; only a logged-in
      administrator makes accounts; a just-in-time account is the same one for
      the same identity; registration, password changes and new tokens do what
      they promise.
    - Handlers: an account that is no administrator sees and changes only its
      own computers and terminal sessions, an accepted task can be followed by
      its owner and by nobody else, what the handlers submit is never refused
      for its form, and the metadata agrees with the dispatcher.
    - Proxy routes: a route exists only as long as its terminal session stays on
      its worker, within the limits of the account and the session; a proxied
      request reaches the session the owner named and no other; a created route
      is served under the URL it was given, also after a restart; accounts touch
      only their own routes; a worker verifies exactly the tokens that were
      signed for it; requests go only to allowed networks and domains.
    - Start: settings are in their ranges whatever is configured, the routes in
      memory are exactly those of the database that have not expired, and they
      satisfy the invariants of every later step.
    - Worker connection and proxy: the hello of a worker is one the console
      takes, with the endpoint it listens on; the handshake sends a report the
      console understands; heartbeats come in bounded time and the session ends
      with the second missing answer; reconnection never stops; a request enters
      a container only with a token for it and without the internal headers, and
      one let through by the console arrives in the container of its session.
    - MCP: a call with bad input is refused before anything is submitted and
      with the code of invalid parameters; a tool of a terminal does what the
      command of the REST interface does; an image arrives as the bytes the worker
      sent; an exported file is stored under the configured prefix; hidden tools
      are not listed under any name; an override changes its own tool only.
    - Host worker: only files inside the allowed paths are read, wherever links
      lead; only whitelisted commands run; a slot is held by each command that
      runs and by nothing else.
    - Bridge to e2b: a session is reserved, used and given back exactly once,
      whatever interleaves, and the sessions stay within the limit; the service
      keeps every sandbox at least until the lease that was confirmed; a command
      leaves no process behind unnoticed and its output is cut at the limit; an
      export sends the file or fails, never more than the limit; texts of a client
      stay inside their word of a shell command.

    * Limits

    Nil receivers and nil interfaces are not modelled, but for the optional parts
    of the handlers in [Rest].  ToLower and EqualFold act
    on ASCII letters.  A JSON payload is its value, not its bytes, except in the
    payload of a route token; [%q] is used on plain text.  [net/url] is that of
    Go 1.24.  The order in which Go visits a map is that of [map_to_list].
    The round-robin counter stays below 2^63.  [bindTerminalSessionRoute] and
    [updateTerminalSessionRouteLease], which only tests call, are modelled but
    are not steps of the reachable states.  Fresh ids are inputs.  The keyed hash of
    credentials is a parameter.  Logging is left out.  The examples at the end of
    [ConnectProps], [WorkerClaims], [AuthClaims], [RestClaims], [StartupClaims], [DockerClaims], [McpToolClaims], [SysClaims] and [E2bClaims] show schedules and failures in which the
    code does not do what it means to.  The text that docker prints is an input
    of the worker; where a reply is marshalled, the output of a command is taken
    to be valid UTF-8.

    Of e2b the steps of [E2bSteps] assume that a new sandbox has an id of its own,
    that the service takes a timeout only for a sandbox that it keeps, and that it
    connects to the sandbox it is asked for.  Recoveries are otherwise as the code
    has them, with the duplicates they kill.  The counters are exact in all of
    these runs; that confirmed leases are kept is shown of the runs without
    recoveries and of those whose recoveries are [calm] (of [E2bInv]), and an
    example shows what else can happen.

    For accounts the hash functions, bcrypt, the text of random strings and the JSON decoding
    of a just-in-time payload are parameters.  The values that the middlewares
    put into the gin context and into the request context are one field.

    The tables of accounts and those of workers and tasks are one database in the
    program; [ConsoleAuth] and [RegistryService] each hold a connection to their part.

    A TOML file is the tree its decoder returns.  HTTP bodies, trailers and interim
    responses are not modelled.

    Not modelled: the servers' sockets and their shutdown, the transport of MCP,
    static files, the worker for boxlite, the generated RPC code of e2b and the
    programs that run inside its sandboxes, the web consoles.
*)
From stdpp Require Export base gmap strings list fin_maps sorting.
From Stdlib Require Export ZArith Lia Ascii.
#[global] Open Scope Z_scope.

(** * Go strings

    A Go string is a byte string: [string] of [ascii].  [strings.TrimSpace]
    removes leading and trailing runes that [unicode.IsSpace] accepts; the
    runes are recognised here by their UTF-8 encodings, of one byte
    ([is_space1]), two bytes (U+0085, U+00A0) and three bytes (U+1680,
    U+2000..U+200A, U+2028, U+2029, U+202F, U+205F, U+3000). *)
Module GoStrings.

Definition byte (a : ascii) : Z := Z.of_N (N_of_ascii a).

Definition is_space1 (a : ascii) : bool :=
  let b := byte a in ((9 <=? b) && (b <=? 13)) || (b =? 32).

Definition is_space2 (a b : ascii) : bool :=
  (byte a =? 0xC2) && ((byte b =? 0x85) || (byte b =? 0xA0)).

Definition is_space3 (a b c : ascii) : bool :=
  let x := byte c in
  ((byte a =? 0xE1) && (byte b =? 0x9A) && (x =? 0x80)) ||
  ((byte a =? 0xE2) && (byte b =? 0x80) &&
     (((0x80 <=? x) && (x <=? 0x8A)) || (x =? 0xA8) || (x =? 0xA9) || (x =? 0xAF))) ||
  ((byte a =? 0xE2) && (byte b =? 0x81) && (x =? 0x9F)) ||
  ((byte a =? 0xE3) && (byte b =? 0x80) && (x =? 0x80)).

(** [strings.TrimLeftFunc(s, unicode.IsSpace)]. *)
Fixpoint trim_left (s : string) : string :=
  match s with
  | String a s1 =>
      if is_space1 a then trim_left s1 else
      match s1 with
      | String b s2 =>
          if is_space2 a b then trim_left s2 else
          match s2 with
          | String c s3 => if is_space3 a b c then trim_left s3 else s
          | EmptyString => s
          end
      | EmptyString => s
      end
  | EmptyString => s
  end.

(** The same on the reversed string: the bytes of an encoding come last first. *)
Fixpoint trim_left_rev (s : string) : string :=
  match s with
  | String a s1 =>
      if is_space1 a then trim_left_rev s1 else
      match s1 with
      | String b s2 =>
          if is_space2 b a then trim_left_rev s2 else
          match s2 with
          | String c s3 => if is_space3 c b a then trim_left_rev s3 else s
          | EmptyString => s
          end
      | EmptyString => s
      end
  | EmptyString => s
  end.

Definition trim_right (s : string) : string :=
  String.rev (trim_left_rev (String.rev s)).

(** [strings.TrimSpace]. *)
Definition trim (s : string) : string := trim_right (trim_left s).

(** [strings.ToLower] on ASCII letters; other bytes are kept. *)
Definition lower_ascii (a : ascii) : ascii :=
  let b := N_of_ascii a in
  if ((65 <=? b) && (b <=? 90))%N then ascii_of_N (b + 32)%N else a.

Fixpoint to_lower (s : string) : string :=
  match s with
  | String a s => String (lower_ascii a) (to_lower s)
  | EmptyString => EmptyString
  end.

(** [strings.EqualFold], ASCII folding. *)
Definition equal_fold (s t : string) : bool := bool_decide (to_lower s = to_lower t).

(** [strings.HasPrefix], [strings.TrimPrefix]. *)
Definition has_prefix (p s : string) : bool := String.prefix p s.

Fixpoint drop_str (n : nat) (s : string) : string :=
  match n, s with
  | O, _ => s
  | S n, String _ s => drop_str n s
  | S _, EmptyString => EmptyString
  end.

Definition trim_prefix (p s : string) : string :=
  if has_prefix p s then drop_str (String.length p) s else s.

(** [strings.SplitN(s, sep, 2)] for a one-byte separator: the text before its
    first occurrence and, if there is one, the text after it. *)
Fixpoint cut (sep : ascii) (s : string) : string * option string :=
  match s with
  | EmptyString => (EmptyString, None)
  | String a s' =>
      if Ascii.eqb a sep then (EmptyString, Some s')
      else let '(x, y) := cut sep s' in (String a x, y)
  end.

(** [strings.SplitN(s, sep, n)]: at most [n] fields (n > 0). *)
Fixpoint split_n (n : nat) (sep : ascii) (s : string) : list string :=
  match n with
  | O => []
  | S O => [s]
  | S n' => match cut sep s with
            | (x, None) => [x]
            | (x, Some y) => x :: split_n n' sep y
            end
  end.

Fixpoint contains_char (c : ascii) (s : string) : bool :=
  match s with
  | EmptyString => false
  | String a s => Ascii.eqb a c || contains_char c s
  end.

Fixpoint forall_char (p : ascii -> bool) (s : string) : bool :=
  match s with
  | EmptyString => true
  | String a s => p a && forall_char p s
  end.

End GoStrings.
#[global] Arguments GoStrings.trim : simpl never.
Export GoStrings.

(** ** Lemmas on strings *)
Section string_lemmas.

Lemma string_app_nil_l t : "" +:+ t = t.
Proof. reflexivity. Qed.

Lemma string_app_cons a s t : String a s +:+ t = String a (s +:+ t).
Proof. reflexivity. Qed.

Lemma string_app_nil_r s : s +:+ "" = s.
Proof. induction s as [|a s IH]; [done|]. by rewrite string_app_cons, IH. Qed.

Lemma string_app_assoc s t u : (s +:+ t) +:+ u = s +:+ t +:+ u.
Proof. induction s as [|a s IH]; [done|]. by rewrite !string_app_cons, IH. Qed.

Lemma rev_app_spec s t : String.rev_app s t = String.rev s +:+ t.
Proof.
  revert t. unfold String.rev. induction s as [|a s IH]; intros t; [done|].
  cbn. by rewrite IH, (IH (String a "")), string_app_assoc.
Qed.

Lemma string_rev_cons a s : String.rev (String a s) = String.rev s +:+ String a "".
Proof. unfold String.rev at 1. cbn. apply rev_app_spec. Qed.

Lemma string_rev_app s t : String.rev (s +:+ t) = String.rev t +:+ String.rev s.
Proof.
  induction s as [|a s IH].
  - by rewrite string_app_nil_r.
  - by rewrite string_app_cons, !string_rev_cons, IH, string_app_assoc.
Qed.

Lemma string_rev_involutive s : String.rev (String.rev s) = s.
Proof.
  induction s as [|a s IH]; [done|].
  rewrite string_rev_cons, string_rev_app, IH. done.
Qed.

Lemma string_app_eq_nil s t : s +:+ t = "" -> s = "" /\ t = "".
Proof. destruct s; [by rewrite string_app_nil_l|by rewrite string_app_cons]. Qed.

Lemma string_rev_nil s : String.rev s = "" -> s = "".
Proof. intros H. rewrite <- (string_rev_involutive s), H. done. Qed.

(** A string on which a left trim does nothing. *)
Lemma trim_left_suffix s : exists p, s = p +:+ trim_left s.
Proof.
  cut (forall n s, (String.length s <= n)%nat -> exists p, s = p +:+ trim_left s); [eauto|].
  clear s. intros n. induction n as [|n IH]; intros s Hn.
  { destruct s; [by exists ""|cbn in Hn; lia]. }
  destruct s as [|a [|b [|c s]]]; cbn in *; try (by exists "").
  - destruct (is_space1 a); [by exists (String a "")|by exists ""].
  - destruct (is_space1 a).
    { destruct (IH (String b "")) as [p Hp]; [cbn; lia|]. exists (String a p). rewrite string_app_cons. by f_equal. }
    destruct (is_space2 a b); [by exists (String a (String b ""))|by exists ""].
  - destruct (is_space1 a).
    { destruct (IH (String b (String c s))) as [p Hp]; [cbn; lia|].
      exists (String a p). rewrite string_app_cons. by f_equal. }
    destruct (is_space2 a b).
    { destruct (IH (String c s)) as [p Hp]; [cbn; lia|].
      exists (String a (String b p)). rewrite !string_app_cons. by do 2 f_equal. }
    destruct (is_space3 a b c); [|by exists ""].
    destruct (IH s) as [p Hp]; [lia|]. exists (String a (String b (String c p))). rewrite !string_app_cons. by do 3 f_equal.
Qed.

Definition no_lead (s : string) : bool :=
  match s with
  | EmptyString => true
  | String a s1 =>
      negb (is_space1 a) &&
      match s1 with
      | EmptyString => true
      | String b s2 =>
          negb (is_space2 a b) &&
          match s2 with EmptyString => true | String c _ => negb (is_space3 a b c) end
      end
  end.

Definition no_lead_rev (s : string) : bool :=
  match s with
  | EmptyString => true
  | String a s1 =>
      negb (is_space1 a) &&
      match s1 with
      | EmptyString => true
      | String b s2 =>
          negb (is_space2 b a) &&
          match s2 with EmptyString => true | String c _ => negb (is_space3 c b a) end
      end
  end.

Lemma no_lead_trim_left s : no_lead s = true -> trim_left s = s.
Proof.
  destruct s as [|a [|b [|c s]]]; cbn; try done;
  destruct (is_space1 a); cbn; try done; destruct (is_space2 a b); cbn; try done.
  destruct (is_space3 a b c); done.
Qed.

Lemma no_lead_rev_trim s : no_lead_rev s = true -> trim_left_rev s = s.
Proof.
  destruct s as [|a [|b [|c s]]]; cbn; try done;
  destruct (is_space1 a); cbn; try done; destruct (is_space2 b a); cbn; try done.
  destruct (is_space3 c b a); done.
Qed.

Lemma trim_left_no_lead s : no_lead (trim_left s) = true.
Proof.
  cut (forall n s, (String.length s <= n)%nat -> no_lead (trim_left s) = true); [eauto|].
  clear s. intros n. induction n as [|n IH]; intros s Hn.
  { destruct s; cbn in *; [done|lia]. }
  destruct s as [|a [|b [|c s]]]; [done|..]; cbn [trim_left] in *.
  - destruct (is_space1 a) eqn:E; cbn; [done|by rewrite E].
  - destruct (is_space1 a) eqn:E1; [apply (IH (String b "")); cbn in *; lia|].
    destruct (is_space2 a b) eqn:E2; cbn; [done|by rewrite E1, E2].
  - destruct (is_space1 a) eqn:E1; [apply (IH (String b (String c s))); cbn in *; lia|].
    destruct (is_space2 a b) eqn:E2; [apply (IH (String c s)); cbn in *; lia|].
    destruct (is_space3 a b c) eqn:E3; [apply IH; cbn in *; lia|cbn; by rewrite E1, E2, E3].
Qed.

Lemma trim_left_rev_no_lead s : no_lead_rev (trim_left_rev s) = true.
Proof.
  cut (forall n s, (String.length s <= n)%nat -> no_lead_rev (trim_left_rev s) = true); [eauto|].
  clear s. intros n. induction n as [|n IH]; intros s Hn.
  { destruct s; cbn in *; [done|lia]. }
  destruct s as [|a [|b [|c s]]]; [done|..]; cbn [trim_left_rev] in *.
  - destruct (is_space1 a) eqn:E; cbn; [done|by rewrite E].
  - destruct (is_space1 a) eqn:E1; [apply (IH (String b "")); cbn in *; lia|].
    destruct (is_space2 b a) eqn:E2; cbn; [done|by rewrite E1, E2].
  - destruct (is_space1 a) eqn:E1; [apply (IH (String b (String c s))); cbn in *; lia|].
    destruct (is_space2 b a) eqn:E2; [apply (IH (String c s)); cbn in *; lia|].
    destruct (is_space3 c b a) eqn:E3; [apply IH; cbn in *; lia|cbn; by rewrite E1, E2, E3].
Qed.

Lemma trim_left_rev_suffix s : exists p, s = p +:+ trim_left_rev s.
Proof.
  cut (forall n s, (String.length s <= n)%nat -> exists p, s = p +:+ trim_left_rev s); [eauto|].
  clear s. intros n. induction n as [|n IH]; intros s Hn.
  { destruct s; [by exists ""|cbn in Hn; lia]. }
  destruct s as [|a [|b [|c s]]]; cbn in *; try (by exists "").
  - destruct (is_space1 a); [by exists (String a "")|by exists ""].
  - destruct (is_space1 a).
    { destruct (IH (String b "")) as [p Hp]; [cbn; lia|]. exists (String a p). rewrite string_app_cons. by f_equal. }
    destruct (is_space2 b a); [by exists (String a (String b ""))|by exists ""].
  - destruct (is_space1 a).
    { destruct (IH (String b (String c s))) as [p Hp]; [cbn; lia|].
      exists (String a p). rewrite string_app_cons. by f_equal. }
    destruct (is_space2 b a).
    { destruct (IH (String c s)) as [p Hp]; [cbn; lia|].
      exists (String a (String b p)). rewrite !string_app_cons. by do 2 f_equal. }
    destruct (is_space3 c b a); [|by exists ""].
    destruct (IH s) as [p Hp]; [lia|]. exists (String a (String b (String c p))). rewrite !string_app_cons. by do 3 f_equal.
Qed.

Lemma no_lead_prefix s t : no_lead (s +:+ t) = true -> no_lead s = true.
Proof.
  destruct s as [|a [|b [|c s]]]; rewrite ?string_app_cons; cbn; try done.
  - destruct (is_space1 a); done.
  - destruct (is_space1 a); [done|]. destruct (is_space2 a b); done.
Qed.

Lemma trim_right_prefix s : exists p, s = trim_right s +:+ p.
Proof.
  unfold trim_right. destruct (trim_left_rev_suffix (String.rev s)) as [p Hp].
  exists (String.rev p). rewrite <- string_rev_app, <- Hp, string_rev_involutive. done.
Qed.

(** The result of a trim carries no space at either end. *)
Lemma trim_no_lead s : no_lead (trim s) = true.
Proof.
  unfold trim. destruct (trim_right_prefix (trim_left s)) as [p Hp].
  eapply no_lead_prefix. rewrite <- Hp. apply trim_left_no_lead.
Qed.

Lemma trim_no_lead_rev s : no_lead_rev (String.rev (trim s)) = true.
Proof. unfold trim, trim_right. rewrite string_rev_involutive. apply trim_left_rev_no_lead. Qed.

Lemma trimmed_intro s :
  no_lead s = true -> no_lead_rev (String.rev s) = true -> trim s = s.
Proof.
  intros H1 H2. unfold trim, trim_right.
  by rewrite (no_lead_trim_left s), no_lead_rev_trim, string_rev_involutive.
Qed.

Lemma trim_trim s : trim (trim s) = trim s.
Proof. apply trimmed_intro; [apply trim_no_lead|apply trim_no_lead_rev]. Qed.

Lemma trim_empty : trim "" = "".
Proof. reflexivity. Qed.

(** Case folding touches neither spaces nor the bytes of multi-byte runes. *)
Lemma lower_space1 a : is_space1 (lower_ascii a) = is_space1 a.
Proof. by destruct a as [[] [] [] [] [] [] [] []]. Qed.

Lemma lower_byte_hi a v :
  0x80 <= v -> (byte (lower_ascii a) =? v) = (byte a =? v).
Proof.
  intros Hv. unfold byte, lower_ascii.
  destruct ((65 <=? N_of_ascii a)%N && (N_of_ascii a <=? 90)%N) eqn:E; [|done].
  apply andb_true_iff in E as [E1%N.leb_le E2%N.leb_le].
  rewrite N_ascii_embedding by lia.
  destruct (Z.eqb_spec (Z.of_N (N_of_ascii a + 32)) v), (Z.eqb_spec (Z.of_N (N_of_ascii a)) v); lia.
Qed.

Lemma lower_byte_range a lo hi :
  0x80 <= lo ->
  (lo <=? byte (lower_ascii a)) && (byte (lower_ascii a) <=? hi)
  = (lo <=? byte a) && (byte a <=? hi).
Proof.
  intros Hv. unfold byte, lower_ascii.
  destruct ((65 <=? N_of_ascii a)%N && (N_of_ascii a <=? 90)%N) eqn:E; [|done].
  apply andb_true_iff in E as [E1%N.leb_le E2%N.leb_le].
  rewrite N_ascii_embedding by lia.
  destruct (Z.leb_spec lo (Z.of_N (N_of_ascii a + 32))), (Z.leb_spec lo (Z.of_N (N_of_ascii a)));
    cbn; try lia.
Qed.

Lemma lower_space2 a b : is_space2 (lower_ascii a) (lower_ascii b) = is_space2 a b.
Proof. unfold is_space2. by rewrite !lower_byte_hi by lia. Qed.

Lemma lower_space3 a b c :
  is_space3 (lower_ascii a) (lower_ascii b) (lower_ascii c) = is_space3 a b c.
Proof. unfold is_space3. by rewrite !lower_byte_hi, !lower_byte_range by lia. Qed.

Lemma lower_ascii_idemp a : lower_ascii (lower_ascii a) = lower_ascii a.
Proof. by destruct a as [[] [] [] [] [] [] [] []]. Qed.

Lemma to_lower_idemp s : to_lower (to_lower s) = to_lower s.
Proof. induction s as [|a s IH]; cbn; [done|]. by rewrite lower_ascii_idemp, IH. Qed.

Lemma to_lower_app s t : to_lower (s +:+ t) = to_lower s +:+ to_lower t.
Proof. induction s as [|a s IH]; [done|]. rewrite string_app_cons. cbn. by rewrite IH. Qed.

Lemma to_lower_rev s : to_lower (String.rev s) = String.rev (to_lower s).
Proof.
  induction s as [|a s IH]; [done|].
  cbn [to_lower]. by rewrite !string_rev_cons, to_lower_app, IH.
Qed.

#[local] Ltac lower_ih IH t :=
  let H := fresh in
  pose proof (IH t) as H; cbn in H;
  rewrite ?lower_space1, ?lower_space2, ?lower_space3 in H; apply H; lia.

Lemma to_lower_trim_left s : to_lower (trim_left s) = trim_left (to_lower s).
Proof.
  cut (forall n s, (String.length s <= n)%nat -> to_lower (trim_left s) = trim_left (to_lower s)); [eauto|].
  clear s. intros n. induction n as [|n IH]; intros s Hn.
  { destruct s; cbn in *; [done|lia]. }
  destruct s as [|a [|b [|c s]]]; [done|..]; cbn [trim_left to_lower];
    rewrite ?lower_space1, ?lower_space2, ?lower_space3; cbn in Hn.
  - by destruct (is_space1 a).
  - destruct (is_space1 a); [lower_ih IH (String b "")|]. by destruct (is_space2 a b).
  - destruct (is_space1 a); [lower_ih IH (String b (String c s))|].
    destruct (is_space2 a b); [lower_ih IH (String c s)|].
    destruct (is_space3 a b c); [lower_ih IH s|done].
Qed.

Lemma to_lower_trim_left_rev s : to_lower (trim_left_rev s) = trim_left_rev (to_lower s).
Proof.
  cut (forall n s, (String.length s <= n)%nat -> to_lower (trim_left_rev s) = trim_left_rev (to_lower s)); [eauto|].
  clear s. intros n. induction n as [|n IH]; intros s Hn.
  { destruct s; cbn in *; [done|lia]. }
  destruct s as [|a [|b [|c s]]]; [done|..]; cbn [trim_left_rev to_lower];
    rewrite ?lower_space1, ?lower_space2, ?lower_space3; cbn in Hn.
  - by destruct (is_space1 a).
  - destruct (is_space1 a); [lower_ih IH (String b "")|]. by destruct (is_space2 b a).
  - destruct (is_space1 a); [lower_ih IH (String b (String c s))|].
    destruct (is_space2 b a); [lower_ih IH (String c s)|].
    destruct (is_space3 c b a); [lower_ih IH s|done].
Qed.

Lemma to_lower_trim s : to_lower (trim s) = trim (to_lower s).
Proof.
  unfold trim, trim_right.
  by rewrite to_lower_rev, to_lower_trim_left_rev, to_lower_rev, to_lower_trim_left.
Qed.

(** Joining trimmed, non-empty strings around an ASCII byte that is no space
    gives a trimmed string: a rune of several bytes cannot straddle it. *)
Definition plain (c : ascii) : bool := negb (is_space1 c) && (byte c <? 0x80).

Lemma plain_space2 c a : plain c = true -> is_space2 c a = false /\ is_space2 a c = false.
Proof.
  unfold plain, is_space2. intros [_ H%Z.ltb_lt]%andb_true_iff.
  split; [destruct (Z.eqb_spec (byte c) 0xC2)|
          destruct (Z.eqb_spec (byte c) 0x85), (Z.eqb_spec (byte c) 0xA0)];
    cbn; try lia; by rewrite ?andb_false_r.
Qed.

Lemma plain_space3 c a b :
  plain c = true ->
  is_space3 c a b = false /\ is_space3 a c b = false /\ is_space3 a b c = false.
Proof.
  unfold plain, is_space3. intros [_ H%Z.ltb_lt]%andb_true_iff.
  assert (forall v, 0x80 <= v -> (byte c =? v) = false) as Hne
    by (intros v Hv; destruct (Z.eqb_spec (byte c) v); lia).
  assert ((0x80 <=? byte c) = false) as Hle by (destruct (Z.leb_spec 0x80 (byte c)); lia).
  rewrite !Hne, Hle by lia. repeat (rewrite ?andb_false_r, ?andb_false_l; cbn). auto.
Qed.

Lemma no_lead_plain c s : plain c = true -> no_lead (String c s) = true.
Proof.
  intros Hc. unfold no_lead.
  assert (is_space1 c = false) as -> by (unfold plain in Hc; by destruct (is_space1 c)).
  destruct s as [|b [|d s]]; cbn; try done; rewrite (proj1 (plain_space2 c b Hc)); [done|].
  by rewrite (proj1 (plain_space3 c b d Hc)).
Qed.

Lemma no_lead_rev_app_plain s c t :
  plain c = true -> s <> "" -> no_lead_rev s = true -> no_lead_rev (s +:+ String c t) = true.
Proof.
  intros Hc Hs. destruct s as [|a [|b [|d s]]]; rewrite ?string_app_cons, ?string_app_nil_l; cbn; try done.
  - intros H. rewrite andb_true_r in H. rewrite H. cbn.
    rewrite (proj1 (plain_space2 c a Hc)). cbn. destruct t as [|e t]; [done|].
    by rewrite (proj1 (proj2 (plain_space3 c e a Hc))).
  - destruct (is_space1 a), (is_space2 b a); cbn; try done. intros _.
    by rewrite (proj1 (plain_space3 c b a Hc)).
Qed.

(** Trimming stops at such a byte. *)
Lemma trim_left_rev_plain c s t : plain c = true -> trim_left_rev (s +:+ String c t) <> "".
Proof.
  intros Hc. assert (is_space1 c = false) as Hc1 by (unfold plain in Hc; by destruct (is_space1 c)).
  revert s. assert (forall n s, (String.length s <= n)%nat -> trim_left_rev (s +:+ String c t) <> "") as H; [|intros s; by eapply H].
  intros n. induction n as [|n IH]; intros [|a s] Hn; cbn in Hn; try lia; rewrite ?string_app_cons, ?string_app_nil_l; cbn [trim_left_rev].
  1-2: rewrite Hc1; destruct t as [|b [|d t]]; try done; rewrite (proj2 (plain_space2 c b Hc)); [done|];
    by rewrite (proj2 (proj2 (plain_space3 c d b Hc))).
  destruct (is_space1 a); [apply IH; lia|]. destruct s as [|b s]; rewrite ?string_app_cons, ?string_app_nil_l.
  - rewrite (proj1 (plain_space2 c a Hc)). destruct t as [|e t]; [done|]. by rewrite (proj1 (proj2 (plain_space3 c e a Hc))).
  - cbn in Hn. destruct (is_space2 b a); [apply IH; lia|]. destruct s as [|d s]; rewrite ?string_app_cons, ?string_app_nil_l.
    + by rewrite (proj1 (plain_space3 c b a Hc)).
    + cbn in Hn. destruct (is_space3 d b a); [apply IH; lia|done].
Qed.

Lemma trim_plain c s : plain c = true -> trim (String c s) <> "".
Proof.
  intros Hc. unfold trim, trim_right. rewrite no_lead_trim_left by (by apply no_lead_plain).
  rewrite string_rev_cons. intros H%string_rev_nil. by apply (trim_left_rev_plain c (String.rev s) "") in H.
Qed.

Lemma trimmed_join c s t :
  plain c = true -> trim t = t -> t <> "" -> no_lead (s +:+ String c t) = true ->
  trim (s +:+ String c t) = s +:+ String c t.
Proof.
  intros Hc Ht Hne Hl. apply trimmed_intro; [done|].
  rewrite string_rev_app, string_rev_cons, string_app_assoc, string_app_cons, string_app_nil_l.
  apply no_lead_rev_app_plain; [done| |].
  - by intros ?%string_rev_nil.
  - rewrite <- Ht. apply trim_no_lead_rev.
Qed.

(** Splitting at a separator that does not occur in the first field. *)
Lemma cut_app sep s t :
  contains_char sep s = false -> cut sep (s +:+ String sep t) = (s, Some t).
Proof.
  induction s as [|a s IH]; cbn.
  - rewrite string_app_nil_l. cbn. by rewrite Ascii.eqb_refl.
  - intros [Ha Hs]%orb_false_iff. rewrite string_app_cons. cbn. by rewrite Ha, IH.
Qed.

Lemma cut_some sep s x y :
  cut sep s = (x, Some y) -> s = x +:+ String sep y /\ contains_char sep x = false.
Proof.
  revert x y. induction s as [|a s IH]; cbn; intros x y H; [done|].
  destruct (Ascii.eqb_spec a sep) as [->|Hne]; simplify_eq; [done|].
  destruct (cut sep s) as [x' y'] eqn:E; simplify_eq.
  destruct (IH _ _ eq_refl) as [-> Hc]. rewrite string_app_cons. split; [done|].
  cbn. rewrite Hc, orb_false_r. by apply Ascii.eqb_neq.
Qed.

Lemma has_prefix_app p s : has_prefix p (p +:+ s) = true.
Proof.
  unfold has_prefix. induction p as [|a p IH]; rewrite ?string_app_cons; cbn; [by destruct s|].
  by destruct (ascii_dec a a).
Qed.

Lemma drop_str_app p s : drop_str (String.length p) (p +:+ s) = s.
Proof. induction p as [|a p IH]; rewrite ?string_app_cons; cbn; [by destruct s|done]. Qed.

Lemma trim_prefix_app p s : trim_prefix p (p +:+ s) = s.
Proof. unfold trim_prefix. by rewrite has_prefix_app, drop_str_app. Qed.

Lemma has_prefix_inv p s : has_prefix p s = true -> s = p +:+ trim_prefix p s.
Proof.
  intros H. unfold trim_prefix. rewrite H. revert s H. unfold has_prefix.
  induction p as [|a p IH]; intros [|b s]; cbn; try done.
  destruct (ascii_dec a b) as [->|]; [|done]. intros ?. rewrite string_app_cons. by rewrite <- IH.
Qed.

Lemma string_app_inj_sep sep s s' t t' :
  contains_char sep s = false -> contains_char sep s' = false ->
  s +:+ String sep t = s' +:+ String sep t' -> s = s' /\ t = t'.
Proof.
  intros H H' E. assert (cut sep (s +:+ String sep t) = cut sep (s' +:+ String sep t')) as E' by congruence.
  rewrite !cut_app in E' by done. by simplify_eq.
Qed.

End string_lemmas.

Create HintDb gostr.
Create Rewrite HintDb gostr.
#[export] Hint Resolve trim_trim to_lower_idemp : gostr.
#[export] Hint Rewrite trim_trim to_lower_idemp to_lower_trim : gostr.

(** * Machine integers

    Go's [int64] and [uint64] wrap around; the model keeps them as [Z] in
    range and applies the wrap at every arithmetic operation of the source. *)
Module Ints.

Definition u64 (z : Z) : Z := z mod 2 ^ 64.
Definition i64 (z : Z) : Z := (z + 2 ^ 63) mod 2 ^ 64 - 2 ^ 63.
Definition i32 (z : Z) : Z := (z + 2 ^ 31) mod 2 ^ 32 - 2 ^ 31.

Definition is_i64 (z : Z) : bool := (- 2 ^ 63 <=? z) && (z <? 2 ^ 63).
Definition is_u64 (z : Z) : bool := (0 <=? z) && (z <? 2 ^ 64).

Lemma i64_id z : - 2 ^ 63 <= z < 2 ^ 63 -> i64 z = z.
Proof. intros H. unfold i64. rewrite Z.mod_small; lia. Qed.

Lemma u64_id z : 0 <= z < 2 ^ 64 -> u64 z = z.
Proof. intros H. unfold u64. by rewrite Z.mod_small. Qed.

Lemma u64_range z : 0 <= u64 z < 2 ^ 64.
Proof. unfold u64. apply Z.mod_pos_bound. lia. Qed.

Lemma i64_range z : - 2 ^ 63 <= i64 z < 2 ^ 63.
Proof. unfold i64. pose proof (Z.mod_pos_bound (z + 2 ^ 63) (2 ^ 64)). lia. Qed.

Lemma i32_id z : - 2 ^ 31 <= z < 2 ^ 31 -> i32 z = z.
Proof. intros H. unfold i32. rewrite Z.mod_small; lia. Qed.

End Ints.
Export Ints.

(** * Time

    A [time.Time] is its number of nanoseconds since the Unix epoch; the zero
    [time.Time] (January 1, year 1) is one such number.  A [time.Duration] is
    an [int64] number of nanoseconds. *)
Module GoTime.

Definition time := Z.
Definition duration := Z.

Definition zero_time : time := -62135596800 * 10 ^ 9.
Definition is_zero (t : time) : bool := t =? zero_time.

Definition millisecond : duration := 10 ^ 6.
Definition second : duration := 10 ^ 9.
Definition minute : duration := 60 * second.

(** [Time.UnixMilli], [time.UnixMilli], [Duration.Milliseconds]. *)
Definition unix_milli (t : time) : Z := t / 10 ^ 6.
Definition of_unix_milli (ms : Z) : time := ms * 10 ^ 6.
Definition milliseconds (d : duration) : Z := Z.quot d (10 ^ 6).

Definition time_add (t : time) (d : duration) : time := t + d.

(** [Time.Sub] saturates at the bounds of [Duration]. *)
Definition time_sub (t u : time) : duration :=
  Z.max (- 2 ^ 63) (Z.min (2 ^ 63 - 1) (t - u)).

Lemma unix_milli_of_unix_milli ms : unix_milli (of_unix_milli ms) = ms.
Proof. unfold unix_milli, of_unix_milli. by rewrite Z.div_mul by lia. Qed.

Lemma unix_milli_mono t u : t <= u -> unix_milli t <= unix_milli u.
Proof. intros. unfold unix_milli. apply Z.div_le_mono; lia. Qed.

End GoTime.
Export GoTime.

(** * Errors

    The error values of the console: gRPC status errors, the sentinel errors
    of the packages, a worker's command error, [context] errors, and database
    errors.  [Wrapped pre e post] is [fmt.Errorf] with the text [pre], a [%w]
    verb for [e] and the text [post]; [errors.Is] and [errors.As] look through
    it. *)
Module Errors.

Inductive code :=
  | InvalidArgument | NotFound | PermissionDenied | FailedPrecondition
  | Unauthenticated | Unavailable | Internal | CodeDeadlineExceeded | CodeCanceled | CodeUnknown.

Inductive sentinel :=
  | ErrNodeNotFound | ErrSessionMismatch | ErrPersistenceDBRequired
  | ErrTerminalSessionRouteNodeConflict | ErrProxyRouteTerminalSessionNotFound
  | ErrNoEchoWorker | ErrEchoTimeout | ErrNoCapabilityWorker | ErrNoWorkerCapacity
  | ErrTargetWorkerOffline | ErrTargetWorkerCapabilityUnavailable | ErrTaskRequestInProgress
  | ErrTaskNotFound | ErrTaskTerminal | ErrTaskTransitionNotApplied
  | ErrTerminalSessionNotFound | ErrTerminalSessionUnavailable | ErrTerminalLeaseInvalid
  | ErrTerminalSessionRetryRouteConflict
  | ErrProxySessionNotFound | ErrProxyWorkerUnavailable | ErrInvalidWorkerType
  | ErrInvalidToken | ErrExpiredToken
  | ErrContextDeadlineExceeded | ErrContextCanceled | ErrNoRows | ErrEOF
  | errAccountUsernameRequired | errAccountUsernameTooLong | errAccountPasswordRequired
  | errAccountCurrentPasswordRequired | errAccountNewPasswordRequired | errAccountCurrentPasswordInvalid
  | errAccountRegistrationDisabled | errAccountRegistrationConflict | errAccountNotFound
  | errAccountDeleteSelfForbidden | errAccountDeleteAdminForbidden | errTrustedTokenNameRequired
  | errTrustedTokenNameTooLong | errTrustedTokenNameConflict | errTrustedTokenValueRequired
  | errTrustedTokenValueTooLong | errTrustedTokenValueWhitespace | errTrustedTokenValueConflict
  | errTrustedTokenNotFound | errTrustedTokenGenerateFailed | errTrustedTokenIDGenerateFailed
  | errAPIKeyNameRequired | errAPIKeyNameTooLong | errAPIKeyNameConflict
  | errAPIKeyNotFound | errAPIKeyGenerateFailed | errAPIKeyIDGenerateFailed.

Inductive error :=
  | StatusError (c : code) (msg : string)
  | Sentinel (s : sentinel)
  | CommandExecutionError (code msg : string)
  | TerminalRecoveryValidationError (msg : string)
  | DBError (msg : string)
  | ErrorString (msg : string)
  | Wrapped (pre : string) (e : error) (post : string).

#[export] Instance code_eq_dec : EqDecision code.
Proof. solve_decision. Defined.
#[export] Instance sentinel_eq_dec : EqDecision sentinel.
Proof. solve_decision. Defined.
#[export] Instance error_eq_dec : EqDecision error.
Proof. solve_decision. Defined.

(** A Go result pair [(value, err)]: the value when [err == nil]. *)
Inductive res (A : Type) := Ok (a : A) | Err (e : error).
#[global] Arguments Ok {A} a.
#[global] Arguments Err {A} e.

Definition is_ok {A} (r : res A) : bool := match r with Ok _ => true | Err _ => false end.

(** [errors.Is] for a sentinel, [errors.As] for a [*CommandExecutionError]. *)
Fixpoint error_is (e : error) (s : sentinel) : bool :=
  match e with
  | Sentinel s' => bool_decide (s' = s)
  | Wrapped _ e _ => error_is e s
  | _ => false
  end.

Fixpoint as_command_error (e : error) : option (string * string) :=
  match e with
  | CommandExecutionError c m => Some (c, m)
  | Wrapped _ e _ => as_command_error e
  | _ => None
  end.

Lemma error_is_refl s : error_is (Sentinel s) s = true.
Proof. by apply bool_decide_eq_true. Qed.

(** [status.Code]: looks through wrapping; anything else is [Unknown]. *)
Fixpoint status_code (e : error) : code :=
  match e with
  | StatusError c _ => c
  | Wrapped _ e _ => status_code e
  | _ => CodeUnknown
  end.

(** [err.Error()]. *)
Definition sentinel_message (x : sentinel) : string :=
  match x with
  | ErrNodeNotFound => "worker node not found"
  | ErrSessionMismatch => "worker session mismatch"
  | ErrPersistenceDBRequired => "registry store requires non-nil persistence db"
  | ErrTerminalSessionRouteNodeConflict => "terminal session route belongs to another worker"
  | ErrProxyRouteTerminalSessionNotFound => "proxy route terminal session not found"
  | ErrNoEchoWorker => "no online worker supports echo"
  | ErrEchoTimeout => "echo command timed out"
  | ErrNoCapabilityWorker => "no online worker supports capability"
  | ErrNoWorkerCapacity => "no online worker capacity for capability"
  | ErrTargetWorkerOffline => "target worker-sys is offline"
  | ErrTargetWorkerCapabilityUnavailable => "target worker-sys does not support capability"
  | ErrTaskRequestInProgress => "task request already in progress"
  | ErrTaskNotFound => "task not found"
  | ErrTaskTerminal => "task already completed"
  | ErrTaskTransitionNotApplied => "task state transition was not applied"
  | ErrTerminalSessionNotFound => "terminal session not found"
  | ErrTerminalSessionUnavailable => "terminal session is unavailable"
  | ErrTerminalLeaseInvalid => "terminal session lease is invalid"
  | ErrTerminalSessionRetryRouteConflict => "terminal session route points to an attempted worker"
  | ErrProxySessionNotFound => "proxy session not found"
  | ErrProxyWorkerUnavailable => "proxy worker unavailable"
  | ErrInvalidWorkerType => "invalid worker type"
  | ErrInvalidToken => "invalid route token"
  | ErrExpiredToken => "route token expired"
  | ErrContextDeadlineExceeded => "context deadline exceeded"
  | ErrContextCanceled => "context canceled"
  | ErrNoRows => "sql: no rows in result set"
  | ErrEOF => "EOF"
  | errAccountUsernameRequired => "username is required"
  | errAccountUsernameTooLong => "username length must be <= 64"
  | errAccountPasswordRequired => "password is required"
  | errAccountCurrentPasswordRequired => "current_password is required"
  | errAccountNewPasswordRequired => "new_password is required"
  | errAccountCurrentPasswordInvalid => "invalid current password"
  | errAccountRegistrationDisabled => "registration is disabled"
  | errAccountRegistrationConflict => "username already exists"
  | errAccountNotFound => "account not found"
  | errAccountDeleteSelfForbidden => "cannot delete current account"
  | errAccountDeleteAdminForbidden => "cannot delete admin account"
  | errTrustedTokenNameRequired => "name is required"
  | errTrustedTokenNameTooLong => "name length must be <= 64"
  | errTrustedTokenNameConflict => "token name already exists"
  | errTrustedTokenValueRequired => "token is required"
  | errTrustedTokenValueTooLong => "token length must be <= 256"
  | errTrustedTokenValueWhitespace => "token must not contain whitespace"
  | errTrustedTokenValueConflict => "token already exists"
  | errTrustedTokenNotFound => "token not found"
  | errTrustedTokenGenerateFailed => "failed to generate token"
  | errTrustedTokenIDGenerateFailed => "failed to generate token id"
  | errAPIKeyNameRequired => "name is required"
  | errAPIKeyNameTooLong => "name length must be <= 64"
  | errAPIKeyNameConflict => "api key name already exists"
  | errAPIKeyNotFound => "api key not found"
  | errAPIKeyGenerateFailed => "failed to generate api key"
  | errAPIKeyIDGenerateFailed => "failed to generate api key id"
  end.

(** [CommandExecutionError.Error]. *)
Definition command_error_message (code msg : string) : string :=
  let c := trim code in let m := trim msg in
  if bool_decide (c = "") && bool_decide (m = "") then "command execution failed"
  else if bool_decide (c = "") then m
  else if bool_decide (m = "") then c else c +:+ ": " +:+ m.

Definition code_name (c : code) : string :=
  match c with
  | InvalidArgument => "InvalidArgument" | NotFound => "NotFound" | PermissionDenied => "PermissionDenied"
  | FailedPrecondition => "FailedPrecondition" | Unauthenticated => "Unauthenticated"
  | Unavailable => "Unavailable" | Internal => "Internal" | CodeDeadlineExceeded => "DeadlineExceeded"
  | CodeCanceled => "Canceled" | CodeUnknown => "Unknown"
  end.

Fixpoint error_message (e : error) : string :=
  match e with
  | StatusError c msg => "rpc error: code = " +:+ code_name c +:+ " desc = " +:+ msg
  | Sentinel x => sentinel_message x
  | CommandExecutionError c m => command_error_message c m
  | TerminalRecoveryValidationError msg | DBError msg | ErrorString msg => msg
  | Wrapped pre e post => pre +:+ error_message e +:+ post
  end.

End Errors.
Export Errors.

(** * Numbers as text *)
Module GoNum.

(** [strconv.Atoi]; [%q] is written for text that needs no escapes. *)
Fixpoint digits (acc : Z) (s : string) : option Z :=
  match s with
  | EmptyString => Some acc
  | String c s => if (48 <=? byte c) && (byte c <=? 57) then digits (10 * acc + (byte c - 48)) s else None
  end.

Definition Atoi (s : string) : res Z :=
  let q := String (ascii_of_nat 34) EmptyString in
  let fail (why : string) : res Z := Err (ErrorString ("strconv.Atoi: parsing " +:+ q +:+ s +:+ q +:+ ": " +:+ why)) in
  let number (neg : bool) (t : string) : res Z :=
    match (if bool_decide (t = "") then None else digits 0 t) with
    | None => fail "invalid syntax"
    | Some n => let z := if neg then - n else n in if is_i64 z then Ok z else fail "value out of range"
    end in
  match s with
  | String c t => if byte c =? 45 then number true t else if byte c =? 43 then number false t else number false s
  | EmptyString => fail "invalid syntax"
  end.

End GoNum.
Export GoNum.

(** * Automation shared by the components *)

(** Case analysis on every boolean test and option match of the goal or of a
    hypothesis, with the equations simplified. *)
Ltac split_ifs :=
  repeat (case_match; simplify_eq/=; try done).

Ltac bool_prop :=
  repeat match goal with
  | H : (_ && _)%bool = true |- _ => apply andb_true_iff in H as [? ?]
  | H : (_ || _)%bool = false |- _ => apply orb_false_iff in H as [? ?]
  | H : negb _ = true |- _ => apply negb_true_iff in H
  | H : negb _ = false |- _ => apply negb_false_iff in H
  | H : bool_decide _ = true |- _ => apply bool_decide_eq_true in H
  | H : bool_decide _ = false |- _ => apply bool_decide_eq_false in H
  | H : (_ <=? _)%Z = true |- _ => apply Z.leb_le in H
  | H : (_ <=? _)%Z = false |- _ => apply Z.leb_gt in H
  | H : (_ <? _)%Z = true |- _ => apply Z.ltb_lt in H
  | H : (_ <? _)%Z = false |- _ => apply Z.ltb_ge in H
  | H : (_ =? _)%Z = true |- _ => apply Z.eqb_eq in H
  | H : (_ =? _)%Z = false |- _ => apply Z.eqb_neq in H
  end.

(** Folds that keep a property of the accumulator. *)
Lemma foldl_inv {A B} (P : A -> Prop) (f : A -> B -> A) l a :
  P a -> (forall a x, x ∈ l -> P a -> P (f a x)) -> P (foldl f a l).
Proof.
  revert a. induction l as [|x l IH]; intros a Ha Hf; cbn; [done|].
  apply IH; [apply Hf; [by left|done]|]. intros a' y Hy. apply Hf. by right.
Qed.
