(* ===== verification/Json.v ===== *)
(** JSON payloads and the parts of [encoding/json] the console uses.

    A payload ([[]byte]) is represented by what it denotes: no bytes at all,
    bytes that are not JSON, or the JSON value of the text.  White space and
    escapes of a valid text are therefore not part of the model; the order and
    the duplicates of an object's members are.  [json.Unmarshal] into a struct
    walks the members in order, matches a member's name to a field without
    regard to case, assigns the last occurrence, leaves the field alone on
    [null], and remembers a type error while it goes on decoding. *)
From S2P Require Import Prelude.

Module Json.

(** [JInt] is a number literal without fraction or exponent, [JReal] any other. *)
Inductive json :=
  | JNull
  | JBool (b : bool)
  | JInt (z : Z)
  | JReal (text : string)
  | JString (s : string)
  | JArray (l : list json)
  | JObject (members : list (string * json)).

Inductive payload :=
  | PEmpty
  | PInvalid (raw : string)
  | PJson (v : json).

(** [len(payload) == 0] and [json.Valid]. *)
Definition payload_empty (p : payload) : bool :=
  match p with PEmpty => true | _ => false end.

Definition json_valid (p : payload) : bool :=
  match p with PJson _ => true | _ => false end.

(** The last member with this exact key (decoding into a Go map). *)
Definition member (k : string) (ms : list (string * json)) : option json :=
  foldl (fun acc kv => if bool_decide (kv.1 = k) then Some kv.2 else acc) None ms.

(** [json.Unmarshal] into a map: the members, each key once with its last
    value, as [json.Marshal] writes them back (sorted by key). *)
Definition to_map (ms : list (string * json)) : gmap string json :=
  foldl (fun m kv => <[kv.1 := kv.2]> m) ∅ ms.

(** Decoding of one member into a field of the given Go type: the new value
    and whether a type error was recorded. *)
Definition dec_string (v : json) (old : string) : string * bool :=
  match v with
  | JString s => (s, false)
  | JNull => (old, false)
  | _ => (old, true)
  end.

Definition dec_bool (v : json) (old : bool) : bool * bool :=
  match v with
  | JBool b => (b, false)
  | JNull => (old, false)
  | _ => (old, true)
  end.

(** [int] and [int64] are both 64-bit here. *)
Definition dec_int (v : json) (old : Z) : Z * bool :=
  match v with
  | JInt z => if is_i64 z then (z, false) else (old, true)
  | JNull => (old, false)
  | _ => (old, true)
  end.

(** [*int]: [null] stores the nil pointer; otherwise a fresh int is decoded. *)
Definition dec_int_ptr (v : json) (old : option Z) : option Z * bool :=
  match v with
  | JNull => (None, false)
  | _ => let '(z, bad) := dec_int v (default 0 old) in
         if bad then (Some (default 0 old), true) else (Some z, false)
  end.

(** [map[string]string]: [null] stores the nil map; a member of another type
    records an error and stores the zero string under its key. *)
Definition dec_string_map (v : json) (old : option (gmap string string))
    : option (gmap string string) * bool :=
  match v with
  | JNull => (None, false)
  | JObject ms =>
      let '(m, bad) := foldl (fun acc kv =>
          let '(m, bad) := acc in
          let '(s, bad') := dec_string kv.2 "" in
          (<[kv.1 := s]> m, bad || bad')) (default ∅ old, false) ms in
      (Some m, bad)
  | _ => (old, true)
  end.

(** The member loop of struct decoding: [field] gives, for a member's name,
    the decoder of the field it matches. *)
Definition dec_fields {S : Type} (field : string -> option (json -> S -> S * bool))
    (ms : list (string * json)) (s : S) : S * bool :=
  foldl (fun acc kv =>
    let '(s, bad) := acc in
    match field kv.1 with
    | Some dec => let '(s', bad') := dec kv.2 s in (s', bad || bad')
    | None => (s, bad)
    end) (s, false) ms.

(** [json.Unmarshal(data, &s)] for a struct: [None] is a non-nil error. *)
Definition unmarshal_struct {S : Type} (field : string -> option (json -> S -> S * bool))
    (zero : S) (p : payload) : option S :=
  match p with
  | PJson (JObject ms) =>
      let '(s, bad) := dec_fields field ms zero in if bad then None else Some s
  | PJson JNull => Some zero
  | _ => None
  end.

(** [json.Unmarshal] into a [map[string]T]: [Some None] is the nil map that
    [null] stores. *)
Definition unmarshal_map (p : payload) : option (option (gmap string json)) :=
  match p with
  | PJson (JObject ms) => Some (Some (to_map ms))
  | PJson JNull => Some None
  | _ => None
  end.

Definition marshal_map (m : gmap string json) : payload :=
  PJson (JObject (merge_sort (fun a b => String.le a.1 b.1) (map_to_list m))).

Lemma json_valid_empty p : json_valid p = true -> payload_empty p = false.
Proof. by destruct p. Qed.

End Json.
Export Json.
