(* ===== verification/Sql.v ===== *)
(** The console's database: the tables of console/db/migrations, the queries
    of console/internal/persistence/sqlc, and transactions.

    A table is a finite map from its primary key.  A connection carries the
    tables and a schedule of faults: every statement takes the next entry of
    the schedule and fails with that driver error, leaving the tables as they
    are, when the entry says so.  The error paths of the callers are therefore
    reachable by choosing a schedule, and a statement about all schedules
    covers every pattern of database failures.  Constraint violations are
    errors too.  Foreign keys are enforced ([PRAGMA foreign_keys=ON]). *)
From S2P Require Import Prelude.
From S2P Require Import Json.

Module Sql.

(** ** Rows (sqlc/models.go) *)
Record WorkerNode := mkWorkerNode {
  wn_SessionID : string;
  wn_Provisioned : bool;
  wn_NodeName : string;
  wn_ExecutorKind : string;
  wn_Version : string;
  wn_RegisteredAtUnixMs : Z;
  wn_LastSeenAtUnixMs : Z }.

Record WorkerCredential := mkWorkerCredential {
  wc_SecretHash : string;
  wc_HashAlgo : string;
  wc_CreatedAtUnixMs : Z;
  wc_UpdatedAtUnixMs : Z }.

Inductive TaskStatus :=
  | Queued | Dispatched | Running | Succeeded | Failed | Timeout | Canceled.

Record Task := mkTask {
  t_OwnerID : string;
  t_RequestID : string;
  t_Capability : string;
  t_InputJson : payload;
  t_Status : TaskStatus;
  t_CommandID : string;
  t_ResultJson : payload;
  t_ErrorCode : string;
  t_ErrorMessage : string;
  t_CreatedAtUnixMs : Z;
  t_UpdatedAtUnixMs : Z;
  t_DeadlineAtUnixMs : Z;
  t_CompletedAtUnixMs : Z;
  t_ExpiresAtUnixMs : Z }.

Record RouteRow := mkRouteRow {
  r_NodeID : string;
  r_LeaseExpiresUnixMs : Z;
  r_LastUsedUnixMs : Z;
  r_CreatedAtUnixMs : Z;
  r_UpdatedAtUnixMs : Z }.

Record ProxyRow := mkProxyRow {
  p_OwnerID : string;
  p_SessionID : string;
  p_ScopedSessionID : string;
  p_WorkerID : string;
  p_Port : Z;
  p_CreatedAtUnixMs : Z;
  p_ExpiresAtUnixMs : Z }.

Record Account := mkAccount {
  a_Username : string;
  a_UsernameKey : string;
  a_PasswordHash : string;
  a_HashAlgo : string;
  a_IsAdmin : bool;
  a_CreatedAtUnixMs : Z;
  a_UpdatedAtUnixMs : Z }.

Record TrustedToken := mkTrustedToken {
  tt_AccountID : string;
  tt_Name : string;
  tt_NameKey : string;
  tt_TokenHash : string;
  tt_TokenMasked : string;
  tt_Generated : bool;
  tt_CreatedAtUnixMs : Z;
  tt_UpdatedAtUnixMs : Z }.

Record ApiKey := mkApiKey {
  k_AccountID : string;
  k_Name : string;
  k_NameKey : string;
  k_KeyHash : string;
  k_KeyMasked : string;
  k_CreatedAtUnixMs : Z;
  k_UpdatedAtUnixMs : Z }.

#[export] Instance TaskStatus_eq_dec : EqDecision TaskStatus.
Proof. solve_decision. Defined.

Record DB := mkDB {
  worker_nodes : gmap string WorkerNode;
  worker_capabilities : gmap (string * string) Z;
  worker_labels : gmap (string * string) string;
  worker_credentials : gmap string WorkerCredential;
  tasks : gmap string Task;
  terminal_session_routes : gmap string RouteRow;
  proxy_routes : gmap string ProxyRow;
  accounts : gmap string Account;
  trusted_tokens : gmap string TrustedToken;
  api_keys : gmap string ApiKey }.

Definition empty_db : DB := mkDB ∅ ∅ ∅ ∅ ∅ ∅ ∅ ∅ ∅ ∅.

Definition with_nodes f d := mkDB (f (worker_nodes d)) (worker_capabilities d) (worker_labels d) (worker_credentials d)
  (tasks d) (terminal_session_routes d) (proxy_routes d)
  (accounts d) (trusted_tokens d) (api_keys d).
Definition with_capabilities f d := mkDB (worker_nodes d) (f (worker_capabilities d)) (worker_labels d) (worker_credentials d)
  (tasks d) (terminal_session_routes d) (proxy_routes d)
  (accounts d) (trusted_tokens d) (api_keys d).
Definition with_labels f d := mkDB (worker_nodes d) (worker_capabilities d) (f (worker_labels d)) (worker_credentials d)
  (tasks d) (terminal_session_routes d) (proxy_routes d)
  (accounts d) (trusted_tokens d) (api_keys d).
Definition with_credentials f d := mkDB (worker_nodes d) (worker_capabilities d) (worker_labels d) (f (worker_credentials d))
  (tasks d) (terminal_session_routes d) (proxy_routes d)
  (accounts d) (trusted_tokens d) (api_keys d).
Definition with_tasks f d := mkDB (worker_nodes d) (worker_capabilities d) (worker_labels d) (worker_credentials d)
  (f (tasks d)) (terminal_session_routes d) (proxy_routes d)
  (accounts d) (trusted_tokens d) (api_keys d).
Definition with_routes f d := mkDB (worker_nodes d) (worker_capabilities d) (worker_labels d) (worker_credentials d)
  (tasks d) (f (terminal_session_routes d)) (proxy_routes d)
  (accounts d) (trusted_tokens d) (api_keys d).
Definition with_proxy_routes f d := mkDB (worker_nodes d) (worker_capabilities d) (worker_labels d) (worker_credentials d)
  (tasks d) (terminal_session_routes d) (f (proxy_routes d))
  (accounts d) (trusted_tokens d) (api_keys d).
Definition with_accounts f d := mkDB (worker_nodes d) (worker_capabilities d) (worker_labels d) (worker_credentials d)
  (tasks d) (terminal_session_routes d) (proxy_routes d)
  (f (accounts d)) (trusted_tokens d) (api_keys d).
Definition with_tokens f d := mkDB (worker_nodes d) (worker_capabilities d) (worker_labels d) (worker_credentials d)
  (tasks d) (terminal_session_routes d) (proxy_routes d)
  (accounts d) (f (trusted_tokens d)) (api_keys d).
Definition with_api_keys f d := mkDB (worker_nodes d) (worker_capabilities d) (worker_labels d) (worker_credentials d)
  (tasks d) (terminal_session_routes d) (proxy_routes d)
  (accounts d) (trusted_tokens d) (f (api_keys d)).

(** ** Statements and transactions *)
Record Conn := mkConn { data : DB; faults : list (option string) }.

Definition M (A : Type) : Type := Conn -> res A * Conn.

#[export] Instance M_ret : MRet M := fun A a c => (Ok a, c).
#[export] Instance M_bind : MBind M := fun A B f m c =>
  match m c with
  | (Ok a, c') => f a c'
  | (Err e, c') => (Err e, c')
  end.
Definition fail {A} (e : error) : M A := fun c => (Err e, c).

(** [catch m]: the caller looks at the error instead of returning it. *)
Definition catch {A} (m : M A) : M (res A) := fun c =>
  let '(r, c') := m c in (Ok r, c').

(** One statement: the scheduled fault, or the effect on the tables. *)
Definition stmt {A} (f : DB -> res (A * DB)) : M A := fun c =>
  match faults c with
  | Some msg :: fs => (Err (DBError msg), mkConn (data c) fs)
  | fs => match f (data c) with
          | Ok (a, d) => (Ok a, mkConn d (tail fs))
          | Err e => (Err e, mkConn (data c) (tail fs))
          end
  end.

Definition read {A} (f : DB -> A) : M A := stmt (fun d => Ok (f d, d)).
Definition write {A} (f : DB -> A * DB) : M A := stmt (fun d => Ok (f d)).

(** A read of one row; no row is [sql.ErrNoRows]. *)
Definition one_row {A} (f : DB -> option A) (d : DB) : res (A * DB) :=
  match f d with Some a => Ok (a, d) | None => Err (Sentinel ErrNoRows) end.
Definition read_one {A} (f : DB -> option A) : M A := stmt (one_row f).

(** [DB.WithTx]: begin, the body, commit; a failed body or commit leaves the
    tables as they were at the start. *)
Definition WithTx {A} (body : M A) : M A := fun c =>
  match read (fun _ => tt) c with
  | (Err e, c1) => (Err e, c1)
  | (Ok _, c1) =>
      match body c1 with
      | (Err e, c2) => (Err e, mkConn (data c) (faults c2))
      | (Ok a, c2) =>
          match read (fun _ => tt) c2 with
          | (Err e, c3) => (Err e, mkConn (data c) (faults c3))
          | (Ok _, c3) => (Ok a, c3)
          end
      end
  end.

Fixpoint for_each {A} (f : A -> M unit) (l : list A) : M unit :=
  match l with
  | [] => mret tt
  | x :: l => f x ≫= (fun _ => for_each f l)
  end.

(** ** Selections on tables *)

(** The rows a [DELETE ... WHERE p] keeps, and how many it removes. *)
Definition keep `{Countable K} {V} (p : K -> V -> bool) (m : gmap K V) : gmap K V :=
  filter (fun kv => p kv.1 kv.2 = false) m.
Definition select `{Countable K} {V} (p : K -> V -> bool) (m : gmap K V) : gmap K V :=
  filter (fun kv => p kv.1 kv.2 = true) m.
Definition count `{Countable K} {V} (p : K -> V -> bool) (m : gmap K V) : Z :=
  Z.of_nat (size (select p m)).

(** [ORDER BY] on text columns compares bytes. *)
Definition rel_of {A} (le : A -> A -> bool) : relation A := fun x y => le x y = true.
#[export] Instance rel_of_dec {A} (le : A -> A -> bool) : RelDecision (rel_of le) :=
  fun x y => bool_eq_dec (le x y) true.
Definition order_by {A} (le : A -> A -> bool) (l : list A) : list A :=
  merge_sort (rel_of le) l.

Definition str_le (a b : string) : bool := bool_decide (String.le a b).

(** [ON DELETE CASCADE] from worker_nodes and from terminal_session_routes. *)
Definition cascade_nodes (gone : string -> bool) (d : DB) : DB :=
  with_capabilities (keep (fun k _ => gone k.1))
    (with_labels (keep (fun k _ => gone k.1))
      (with_credentials (keep (fun k _ => gone k)) d)).

Definition cascade_routes (gone : string -> string -> bool) (d : DB) : DB :=
  with_proxy_routes (keep (fun _ p => gone (p_ScopedSessionID p) (p_WorkerID p))) d.

Definition delete_nodes (p : string -> WorkerNode -> bool) (d : DB) : Z * DB :=
  (count p (worker_nodes d),
   cascade_nodes (fun n => match worker_nodes d !! n with Some w => p n w | None => false end)
     (with_nodes (keep p) d)).

Definition delete_routes (p : string -> RouteRow -> bool) (d : DB) : Z * DB :=
  (count p (terminal_session_routes d),
   cascade_routes (fun s n => match terminal_session_routes d !! s with
                              | Some r => bool_decide (r_NodeID r = n) && p s r
                              | None => false end)
     (with_routes (keep p) d)).

(** ** Worker queries (sqlc/workers.sql.go) *)
Definition GetWorkerNodeByID (n : string) : M WorkerNode :=
  read_one (fun d => worker_nodes d !! n).

Definition node_le (a b : string * WorkerNode) : bool :=
  (wn_RegisteredAtUnixMs a.2 <? wn_RegisteredAtUnixMs b.2) ||
  ((wn_RegisteredAtUnixMs a.2 =? wn_RegisteredAtUnixMs b.2) && str_le a.1 b.1).

Definition ListWorkerNodesOrdered : M (list (string * WorkerNode)) :=
  read (fun d => order_by node_le (map_to_list (worker_nodes d))).

Definition UpsertWorkerNode (n : string) (row : WorkerNode) : M unit :=
  write (fun d => (tt, with_nodes <[n := row]> d)).

Definition InsertProvisionedWorkerNodeIfAbsent (n nodeName : string) (registered lastSeen : Z) : M Z :=
  write (fun d => match worker_nodes d !! n with
    | Some _ => (0, d)
    | None => (1, with_nodes <[n := mkWorkerNode "" true nodeName "" "" registered lastSeen]> d)
    end).

Definition DeleteWorkerNodeByID (n : string) : M Z :=
  write (delete_nodes (fun k _ => bool_decide (k = n))).

Definition DeleteOfflineRuntimeWorkers (lastSeen : Z) : M Z :=
  write (delete_nodes (fun _ w => negb (wn_Provisioned w) && (wn_LastSeenAtUnixMs w <? lastSeen))).

(** [UPDATE worker_nodes SET ... WHERE node_id = ? AND p]. *)
Definition update_node (n : string) (p : WorkerNode -> bool) (f : WorkerNode -> WorkerNode) (d : DB) : Z * DB :=
  match worker_nodes d !! n with
  | Some w => if p w then (1, with_nodes <[n := f w]> d) else (0, d)
  | None => (0, d)
  end.

Definition set_last_seen (ms : Z) (w : WorkerNode) : WorkerNode :=
  mkWorkerNode (wn_SessionID w) (wn_Provisioned w) (wn_NodeName w) (wn_ExecutorKind w)
    (wn_Version w) (wn_RegisteredAtUnixMs w) ms.
Definition clear_session_id (w : WorkerNode) : WorkerNode :=
  mkWorkerNode "" (wn_Provisioned w) (wn_NodeName w) (wn_ExecutorKind w)
    (wn_Version w) (wn_RegisteredAtUnixMs w) (wn_LastSeenAtUnixMs w).

Definition UpdateWorkerHeartbeatBySession (ms : Z) (n sid : string) : M Z :=
  write (update_node n (fun w => bool_decide (wn_SessionID w = sid)) (set_last_seen ms)).

Definition ClearWorkerSessionByNode (n : string) : M Z :=
  write (update_node n (fun _ => true) clear_session_id).

Definition ClearWorkerSessionByNodeAndSession (n sid : string) : M Z :=
  write (update_node n (fun w => bool_decide (wn_SessionID w = sid)) clear_session_id).

Definition ClearAllWorkerSessions : M Z :=
  write (fun d => (count (fun _ w => negb (bool_decide (wn_SessionID w = ""))) (worker_nodes d),
                   with_nodes (fmap clear_session_id) d)).

Definition pair_le {A} (a b : (string * string) * A) : bool :=
  if bool_decide (a.1.1 = b.1.1) then str_le a.1.2 b.1.2 else str_le a.1.1 b.1.1.

Definition ListWorkerCapabilitiesAll : M (list ((string * string) * Z)) :=
  read (fun d => order_by pair_le (map_to_list (worker_capabilities d))).

Definition ListWorkerCapabilitiesByNode (n : string) : M (list (string * Z)) :=
  read (fun d => (fun kv => (kv.1.2, kv.2)) <$>
    order_by pair_le (map_to_list (select (fun k _ => bool_decide (k.1 = n)) (worker_capabilities d)))).

Definition DeleteWorkerCapabilitiesByNode (n : string) : M unit :=
  write (fun d => (tt, with_capabilities (keep (fun k _ => bool_decide (k.1 = n))) d)).

(** An insert into a child table needs the parent row. *)
Definition needs_node {A} (n : string) (f : DB -> A * DB) : M A :=
  stmt (fun d => match worker_nodes d !! n with
    | Some _ => Ok (f d)
    | None => Err (DBError "FOREIGN KEY constraint failed")
    end).

Definition InsertWorkerCapability (n name : string) (maxInflight : Z) : M unit :=
  needs_node n (fun d => (tt, with_capabilities <[(n, name) := maxInflight]> d)).

Definition ListWorkerLabelsAll : M (list ((string * string) * string)) :=
  read (fun d => order_by pair_le (map_to_list (worker_labels d))).

Definition ListWorkerLabelsByNode (n : string) : M (list (string * string)) :=
  read (fun d => (fun kv => (kv.1.2, kv.2)) <$>
    order_by pair_le (map_to_list (select (fun k _ => bool_decide (k.1 = n)) (worker_labels d)))).

Definition DeleteWorkerLabelsByNode (n : string) : M unit :=
  write (fun d => (tt, with_labels (keep (fun k _ => bool_decide (k.1 = n))) d)).

Definition InsertWorkerLabel (n key value : string) : M unit :=
  needs_node n (fun d => (tt, with_labels <[(n, key) := value]> d)).

(** The joins return one row per matching capability row. *)
Definition ListOnlineWorkerNodeIDsByCapability (cap : string) (lastSeen : Z) : M (list string) :=
  read (fun d => order_by str_le (omap (fun kv =>
      let '((n, name), _) := kv in
      match worker_nodes d !! n with
      | Some w => if bool_decide (to_lower name = cap) && (lastSeen <=? wn_LastSeenAtUnixMs w)
                     && negb (bool_decide (wn_SessionID w = "")) then Some n else None
      | None => None
      end) (map_to_list (worker_capabilities d)))).

Definition label_is (d : DB) (n key value : string) : bool :=
  bool_decide (worker_labels d !! (n, key) = Some value).

Definition ListWorkerNodeIDsByOwnerAndType (owner type : string) : M (list string) :=
  read (fun d => order_by str_le (omap (fun kv =>
      let '(n, _) := kv in
      if label_is d n "obx.owner_id" owner && label_is d n "obx.worker_type" type
      then Some n else None) (map_to_list (worker_nodes d)))).

Definition ListOnlineWorkerNodeIDsByOwnerTypeAndCapability
    (cap owner type : string) (lastSeen : Z) : M (list string) :=
  read (fun d => order_by str_le (omap (fun kv =>
      let '((n, name), _) := kv in
      match worker_nodes d !! n with
      | Some w => if bool_decide (to_lower name = cap)
                     && label_is d n "obx.owner_id" owner && label_is d n "obx.worker_type" type
                     && (lastSeen <=? wn_LastSeenAtUnixMs w)
                     && negb (bool_decide (wn_SessionID w = "")) then Some n else None
      | None => None
      end) (map_to_list (worker_capabilities d)))).

Definition GetWorkerCredentialByNode (n : string) : M WorkerCredential :=
  read_one (fun d => worker_credentials d !! n).

Definition ListWorkerCredentials : M (list (string * WorkerCredential)) :=
  read (fun d => order_by (fun a b => str_le a.1 b.1) (map_to_list (worker_credentials d))).

Definition InsertWorkerCredentialIfAbsent (n hash algo : string) (now : Z) : M Z :=
  stmt (fun d => match worker_credentials d !! n, worker_nodes d !! n with
    | Some _, _ => Ok (0, d)
    | None, Some _ => Ok (1, with_credentials <[n := mkWorkerCredential hash algo now now]> d)
    | None, None => Err (DBError "FOREIGN KEY constraint failed")
    end).

Definition DeleteWorkerCredentialByNode (n : string) : M Z :=
  write (fun d => (count (fun k _ => bool_decide (k = n)) (worker_credentials d),
                   with_credentials (delete n) d)).

(** ** Terminal session route queries (sqlc/terminal_session_routes.sql.go) *)
Definition UpsertTerminalSessionRoute (s : string) (row : RouteRow) : M Z :=
  stmt (fun d =>
    if r_LeaseExpiresUnixMs row <=? 0 then Err (DBError "CHECK constraint failed") else
    match terminal_session_routes d !! s with
    | None => Ok (1, with_routes <[s := row]> d)
    | Some old =>
        if bool_decide (r_NodeID old = r_NodeID row)
        then Ok (1, with_routes <[s := mkRouteRow (r_NodeID old)
               (Z.max (r_LeaseExpiresUnixMs old) (r_LeaseExpiresUnixMs row))
               (Z.max (r_LastUsedUnixMs old) (r_LastUsedUnixMs row))
               (r_CreatedAtUnixMs old)
               (Z.max (r_UpdatedAtUnixMs old) (r_UpdatedAtUnixMs row))]> d)
        else Ok (0, d)
    end).

Definition DeleteTerminalSessionRouteBySessionAndNode (s n : string) : M Z :=
  write (delete_routes (fun k r => bool_decide (k = s) && bool_decide (r_NodeID r = n))).

Definition DeleteTerminalSessionRoutesByNode (n : string) : M Z :=
  write (delete_routes (fun _ r => bool_decide (r_NodeID r = n))).

Definition DeleteExpiredTerminalSessionRoutes (now : Z) : M Z :=
  write (delete_routes (fun _ r => r_LeaseExpiresUnixMs r <=? now)).

Definition route_le (a b : string * RouteRow) : bool :=
  if bool_decide (r_NodeID a.2 = r_NodeID b.2) then str_le a.1 b.1
  else str_le (r_NodeID a.2) (r_NodeID b.2).

Definition ListActiveTerminalSessionRoutes (now : Z) : M (list (string * RouteRow)) :=
  read (fun d => order_by route_le
    (map_to_list (select (fun _ r => now <? r_LeaseExpiresUnixMs r) (terminal_session_routes d)))).

Definition GetTerminalSessionRouteBySession (s : string) : M RouteRow :=
  read_one (fun d => terminal_session_routes d !! s).

(** ** Proxy route queries (sqlc/proxy_routes.sql.go) *)
Definition InsertProxyRoute (key : string) (row : ProxyRow) : M Z :=
  stmt (fun d =>
    if negb ((1 <=? p_Port row) && (p_Port row <=? 65535) && (p_CreatedAtUnixMs row <? p_ExpiresAtUnixMs row))
    then Err (DBError "CHECK constraint failed") else
    match proxy_routes d !! key with
    | Some _ => Ok (0, d)
    | None =>
        let parent := match terminal_session_routes d !! p_ScopedSessionID row with
                      | Some r => bool_decide (r_NodeID r = p_WorkerID row)
                      | None => false end in
        if bool_decide (is_Some (accounts d !! p_OwnerID row)) && parent
        then Ok (1, with_proxy_routes <[key := row]> d)
        else Err (DBError "FOREIGN KEY constraint failed")
    end).

Definition DeleteProxyRouteByKeyAndOwner (key owner : string) : M Z :=
  write (fun d =>
    let p := fun k r => bool_decide (k = key) && bool_decide (p_OwnerID r = owner) in
    (count p (proxy_routes d), with_proxy_routes (keep p) d)).

Definition DeleteExpiredProxyRoutes (now : Z) : M Z :=
  write (fun d =>
    let p := fun (_ : string) r => p_ExpiresAtUnixMs r <=? now in
    (count p (proxy_routes d), with_proxy_routes (keep p) d)).

Definition proxy_le (a b : string * ProxyRow) : bool :=
  (p_CreatedAtUnixMs a.2 <? p_CreatedAtUnixMs b.2) ||
  ((p_CreatedAtUnixMs a.2 =? p_CreatedAtUnixMs b.2) && str_le a.1 b.1).

Definition ListActiveProxyRoutes (now : Z) : M (list (string * ProxyRow)) :=
  read (fun d => order_by proxy_le
    (map_to_list (select (fun _ r => now <? p_ExpiresAtUnixMs r) (proxy_routes d)))).

(** ** Task queries (sqlc/tasks.sql.go, sqlc/maintenance.sql.go) *)
Definition nonterminal (st : TaskStatus) : bool :=
  match st with Queued | Dispatched | Running => true | _ => false end.

Definition InsertTask (id : string) (row : Task) : M unit :=
  stmt (fun d => match tasks d !! id with
    | Some _ => Err (DBError "UNIQUE constraint failed: tasks.task_id")
    | None =>
        if negb (bool_decide (t_RequestID row = "")) &&
           (0 <? count (fun _ t => bool_decide (t_OwnerID t = t_OwnerID row)
                   && bool_decide (t_RequestID t = t_RequestID row)) (tasks d))
        then Err (DBError "UNIQUE constraint failed: tasks.owner_id, tasks.request_id")
        else Ok (tt, with_tasks <[id := row]> d)
    end).

Definition GetTaskByID (id : string) : M Task := read_one (fun d => tasks d !! id).

Definition GetTaskByOwnerAndRequest (owner request : string) : M (string * Task) :=
  read_one (fun d => head (map_to_list (select (fun _ t =>
    bool_decide (t_OwnerID t = owner) && bool_decide (t_RequestID t = request)) (tasks d)))).

(** [UPDATE tasks SET ... WHERE task_id = ? AND status IN (queued, dispatched, running)]. *)
Definition update_task (id : string) (f : Task -> Task) (d : DB) : Z * DB :=
  match tasks d !! id with
  | Some t => if nonterminal (t_Status t) then (1, with_tasks <[id := f t]> d) else (0, d)
  | None => (0, d)
  end.

Definition task_dispatched (now : Z) (t : Task) : Task :=
  mkTask (t_OwnerID t) (t_RequestID t) (t_Capability t) (t_InputJson t) Dispatched (t_CommandID t)
    (t_ResultJson t) (t_ErrorCode t) (t_ErrorMessage t) (t_CreatedAtUnixMs t) now
    (t_DeadlineAtUnixMs t) (t_CompletedAtUnixMs t) (t_ExpiresAtUnixMs t).

Definition task_running (cmd : string) (now : Z) (t : Task) : Task :=
  mkTask (t_OwnerID t) (t_RequestID t) (t_Capability t) (t_InputJson t) Running cmd
    (t_ResultJson t) (t_ErrorCode t) (t_ErrorMessage t) (t_CreatedAtUnixMs t) now
    (t_DeadlineAtUnixMs t) (t_CompletedAtUnixMs t) (t_ExpiresAtUnixMs t).

Definition task_terminal (st : TaskStatus) (result : payload) (ecode emsg : string)
    (updated completed expires : Z) (t : Task) : Task :=
  mkTask (t_OwnerID t) (t_RequestID t) (t_Capability t) (t_InputJson t) st (t_CommandID t)
    result ecode emsg (t_CreatedAtUnixMs t) updated (t_DeadlineAtUnixMs t) completed expires.

Definition MarkTaskDispatched (now : Z) (id : string) : M Z :=
  write (update_task id (task_dispatched now)).

Definition MarkTaskRunning (cmd : string) (now : Z) (id : string) : M Z :=
  write (update_task id (task_running cmd now)).

Definition MarkTaskTerminal (st : TaskStatus) (result : payload) (ecode emsg : string)
    (updated completed expires : Z) (id : string) : M Z :=
  write (update_task id (task_terminal st result ecode emsg updated completed expires)).

Definition expired_task (now : Z) (t : Task) : bool :=
  negb (nonterminal (t_Status t)) && (0 <? t_ExpiresAtUnixMs t) && (t_ExpiresAtUnixMs t <=? now).

Definition DeleteExpiredTerminalTasks (now : Z) : M Z :=
  write (fun d => (count (fun _ t => expired_task now t) (tasks d),
                   with_tasks (keep (fun _ t => expired_task now t)) d)).

Definition fail_on_startup (updated completed expires : Z) (t : Task) : Task :=
  if nonterminal (t_Status t)
  then mkTask (t_OwnerID t) (t_RequestID t) (t_Capability t) (t_InputJson t) Failed (t_CommandID t)
         (t_ResultJson t) "console_restarted" "task interrupted by console restart"
         (t_CreatedAtUnixMs t) updated (t_DeadlineAtUnixMs t) completed expires
  else t.

Definition MarkNonTerminalTasksFailedOnStartup (updated completed expires : Z) : M Z :=
  write (fun d => (count (fun _ t => nonterminal (t_Status t)) (tasks d),
                   with_tasks (fmap (fail_on_startup updated completed expires)) d)).

(** ** Lemmas *)
Lemma lookup_keep `{Countable K} {V} (p : K -> V -> bool) (m : gmap K V) k :
  keep p m !! k = (m !! k ≫= fun v => if p k v then None else Some v).
Proof.
  unfold keep. rewrite map_lookup_filter. destruct (m !! k) as [v|]; cbn; [|done].
  destruct (p k v) eqn:E; cbn; case_guard; cbn in *; congruence.
Qed.

Lemma lookup_select `{Countable K} {V} (p : K -> V -> bool) (m : gmap K V) k :
  select p m !! k = (m !! k ≫= fun v => if p k v then Some v else None).
Proof.
  unfold select. rewrite map_lookup_filter. destruct (m !! k) as [v|]; cbn; [|done].
  destruct (p k v) eqn:E; cbn; case_guard; cbn in *; congruence.
Qed.

Lemma lookup_keep_Some `{Countable K} {V} (p : K -> V -> bool) (m : gmap K V) k v :
  keep p m !! k = Some v <-> m !! k = Some v /\ p k v = false.
Proof.
  rewrite lookup_keep. destruct (m !! k) as [v'|]; cbn; [|naive_solver].
  destruct (p k v') eqn:E; split; [done|intros [[= <-] ?]|intros [= <-]|by intros [[= <-] ?]];
    [congruence|done].
Qed.

Lemma lookup_select_Some `{Countable K} {V} (p : K -> V -> bool) (m : gmap K V) k v :
  select p m !! k = Some v <-> m !! k = Some v /\ p k v = true.
Proof.
  rewrite lookup_select. destruct (m !! k) as [v'|]; cbn; [|naive_solver].
  destruct (p k v') eqn:E; split; [intros [= <-]|by intros [[= <-] ?]|done|intros [[= <-] ?]];
    [done|congruence].
Qed.

Lemma count_zero `{Countable K} {V} (p : K -> V -> bool) (m : gmap K V) :
  (0 <? count p m) = false <-> (forall k v, m !! k = Some v -> p k v = false).
Proof.
  unfold count. rewrite Z.ltb_ge. split.
  - intros Hs k v Hk. destruct (p k v) eqn:E; [|done]. exfalso.
    assert (select p m !! k = Some v) as Hsel by (by apply lookup_select_Some).
    assert (size (select p m) = 0%nat) as Hz by lia.
    apply map_size_empty_iff in Hz. by rewrite Hz, lookup_empty in Hsel.
  - intros Hall. replace (select p m) with (∅ : gmap K V); [by rewrite map_size_empty|].
    symmetry. apply map_eq. intros k. rewrite lookup_empty, lookup_select.
    destruct (m !! k) eqn:E; cbn; [|done]. by rewrite (Hall _ _ E).
Qed.

Lemma count_pos `{Countable K} {V} (p : K -> V -> bool) (m : gmap K V) k v :
  m !! k = Some v -> p k v = true -> 0 < count p m.
Proof.
  intros Hk Hp. destruct (0 <? count p m) eqn:E; [by apply Z.ltb_lt|].
  rewrite count_zero in E. rewrite (E _ _ Hk) in Hp. done.
Qed.

Lemma filter_bool {A} (p : A -> bool) l : filter (fun x => p x = true) l = List.filter p l.
Proof. induction l as [|x l IH]; [done|]. rewrite filter_cons, IH. cbn. case_decide; by destruct (p x). Qed.

(** Counting rows is counting the matching entries of the table's listing. *)
Lemma count_list `{Countable K} {V} (p : K -> V -> bool) (m : gmap K V) :
  count p m = Z.of_nat (length (List.filter (fun kv => p kv.1 kv.2) (map_to_list m))).
Proof.
  unfold count, select. rewrite <- filter_bool, map_filter_alt, <- length_map_to_list.
  rewrite map_to_list_to_map; [done|].
  eapply sublist_NoDup; [apply (NoDup_fst_map_to_list m)|]. apply fmap_sublist, sublist_filter.
Qed.

Lemma elem_of_order_by {A} (le : A -> A -> bool) l x : x ∈ order_by le l <-> x ∈ l.
Proof. unfold order_by. by rewrite merge_sort_Permutation. Qed.

Lemma NoDup_order_by {A} (le : A -> A -> bool) l : NoDup (order_by le l) <-> NoDup l.
Proof. unfold order_by. by rewrite merge_sort_Permutation. Qed.

(** The three ways a statement can end. *)
Lemma stmt_cases {A} (f : DB -> res (A * DB)) c :
  (exists msg fs, stmt f c = (Err (DBError msg), mkConn (data c) fs)) \/
  (exists e fs, f (data c) = Err e /\ stmt f c = (Err e, mkConn (data c) fs)) \/
  (exists a d fs, f (data c) = Ok (a, d) /\ stmt f c = (Ok a, mkConn d fs)).
Proof.
  unfold stmt. destruct (faults c) as [|[msg|] fs]; [|left; eauto|];
    (destruct (f (data c)) as [[a d]|e]; [right; right|right; left]); eauto.
Qed.

Lemma stmt_ok {A} (f : DB -> res (A * DB)) c a c' :
  stmt f c = (Ok a, c') -> f (data c) = Ok (a, data c').
Proof.
  intros H. destruct (stmt_cases f c) as [(?&?&E)|[(?&?&?&E)|(?&?&?&?&E)]];
    rewrite E in H; by simplify_eq/=.
Qed.

Lemma stmt_err {A} (f : DB -> res (A * DB)) c e c' :
  stmt f c = (Err e, c') -> data c' = data c.
Proof.
  intros H. destruct (stmt_cases f c) as [(?&?&E)|[(?&?&?&E)|(?&?&?&?&E)]];
    rewrite E in H; by simplify_eq/=.
Qed.

(** A connection that never fails runs every statement. *)
Lemma stmt_no_fault {A} (f : DB -> res (A * DB)) d a d' :
  f d = Ok (a, d') -> stmt f (mkConn d []) = (Ok a, mkConn d' []).
Proof. intros H. unfold stmt. cbn. by rewrite H. Qed.

Lemma read_data {A} (f : DB -> A) c : data (read f c).2 = data c.
Proof.
  unfold read. destruct (stmt_cases (fun d => Ok (f d, d)) c)
    as [(?&?&E)|[(?&?&?&E)|(?&?&?&?&E)]]; rewrite E; by simplify_eq/=.
Qed.

(** An aborted transaction changes nothing. *)
Lemma WithTx_err {A} (body : M A) c e c' :
  WithTx body c = (Err e, c') -> data c' = data c.
Proof.
  unfold WithTx. destruct (read _ c) as [[]] eqn:E1; intros H; simplify_eq.
  - destruct (body c0) as [[]]; simplify_eq; [|done].
    destruct (read _ c1) as [[]]; by simplify_eq.
  - pose proof (read_data (fun _ => tt) c) as Hd. by rewrite E1 in Hd.
Qed.

Lemma WithTx_ok {A} (body : M A) c a c' :
  WithTx body c = (Ok a, c') ->
  exists c1 c2, data c1 = data c /\ body c1 = (Ok a, c2) /\ data c' = data c2.
Proof.
  unfold WithTx. destruct (read _ c) as [[] c1] eqn:E1; intros H; simplify_eq.
  destruct (body c1) as [[] c2] eqn:E2; simplify_eq.
  destruct (read _ c2) as [[] c3] eqn:E3; simplify_eq.
  exists c1, c2. pose proof (read_data (fun _ => tt) c) as Hd. rewrite E1 in Hd.
  pose proof (read_data (fun _ => tt) c2) as Hd'. rewrite E3 in Hd'. auto.
Qed.

(** Inversion of successful sequences. *)
Lemma bind_ok {A B} (m : M A) (f : A -> M B) c b c' :
  (m ≫= f) c = (Ok b, c') -> exists a c1, m c = (Ok a, c1) /\ f a c1 = (Ok b, c').
Proof. unfold mbind, M_bind. destruct (m c) as [[a|e] c1]; intros; simplify_eq; eauto. Qed.

Lemma bind_err {A B} (m : M A) (f : A -> M B) c e c' :
  (m ≫= f) c = (Err e, c') ->
  m c = (Err e, c') \/ exists a c1, m c = (Ok a, c1) /\ f a c1 = (Err e, c').
Proof. unfold mbind, M_bind. destruct (m c) as [[a|e'] c1]; intros; simplify_eq; eauto. Qed.

Lemma write_ok {A} (f : DB -> A * DB) c a c' :
  write f c = (Ok a, c') -> f (data c) = (a, data c').
Proof. intros H%stmt_ok. by simplify_eq. Qed.

Lemma read_ok {A} (f : DB -> A) c a c' :
  read f c = (Ok a, c') -> f (data c) = a /\ data c' = data c.
Proof. intros H%stmt_ok. by simplify_eq. Qed.

Lemma catch_data {A} (m : M A) c r c' :
  catch m c = (Ok r, c') -> m c = (r, c').
Proof. unfold catch. destruct (m c); intros; by simplify_eq. Qed.

Lemma catch_ok {A} (m : M A) c : catch m c = (Ok (m c).1, (m c).2).
Proof. unfold catch. by destruct (m c). Qed.

Lemma read_one_cases {A} (f : DB -> option A) c :
  data (read_one f c).2 = data c /\
  ((exists msg, (read_one f c).1 = Err (DBError msg)) \/
   (f (data c) = None /\ (read_one f c).1 = Err (Sentinel ErrNoRows)) \/
   (exists a, f (data c) = Some a /\ (read_one f c).1 = Ok a)).
Proof.
  unfold read_one. destruct (stmt_cases (one_row f) c) as [(?&?&E)|[(?&?&Ef&E)|(?&?&?&Ef&E)]];
    rewrite E; cbn; [eauto|..]; unfold one_row in Ef; destruct (f (data c)) eqn:Hf;
    simplify_eq; split; eauto 6.
Qed.

(** ** Preservation of a table invariant, composed by instance search *)
Class Preserves {A} (I : DB -> Prop) (m : M A) : Prop :=
  preserves : forall c, I (data c) -> I (data (m c).2).

Section preserves.
Context (I : DB -> Prop).

#[export] Instance preserves_ret {A} (a : A) : Preserves I (mret a).
Proof. by intros c H. Qed.

#[export] Instance preserves_fail {A} e : Preserves I (fail (A := A) e).
Proof. by intros c H. Qed.

#[export] Instance preserves_bind {A B} (m : M A) (f : A -> M B) :
  Preserves I m -> (forall a, Preserves I (f a)) -> Preserves I (m ≫= f).
Proof.
  intros Hm Hf c H. specialize (Hm c H). unfold mbind, M_bind.
  destruct (m c) as [[a|e] c']; [by apply Hf|done].
Qed.

#[export] Instance preserves_catch {A} (m : M A) : Preserves I m -> Preserves I (catch m).
Proof. intros Hm c H. specialize (Hm c H). unfold catch. by destruct (m c). Qed.

#[export] Instance preserves_read {A} (f : DB -> A) : Preserves I (read f).
Proof. intros c H. by rewrite read_data. Qed.

Lemma preserves_stmt {A} (f : DB -> res (A * DB)) :
  (forall d a d', I d -> f d = Ok (a, d') -> I d') -> Preserves I (stmt f).
Proof.
  intros Hf c H. destruct (stmt_cases f c) as [(?&?&E)|[(?&?&?&E)|(?&?&?&Ef&E)]];
    rewrite E; cbn; eauto.
Qed.

#[export] Instance preserves_read_one {A} (f : DB -> option A) : Preserves I (read_one f).
Proof. apply preserves_stmt. intros d a d' H E. unfold one_row in E. case_match; by simplify_eq. Qed.

Lemma preserves_write {A} (f : DB -> A * DB) :
  (forall d, I d -> I (f d).2) -> Preserves I (write f).
Proof. intros Hf. apply preserves_stmt. intros d a d' H [= E]. specialize (Hf d H). by rewrite E in Hf. Qed.

#[export] Instance preserves_WithTx {A} (body : M A) : Preserves I body -> Preserves I (WithTx body).
Proof.
  intros Hb c H. destruct (WithTx body c) as [[a|e] c'] eqn:E; cbn.
  - apply WithTx_ok in E as (c1&c2&E1&E2&->). specialize (Hb c1). rewrite E2, E1 in Hb. auto.
  - by rewrite (WithTx_err _ _ _ _ E).
Qed.

#[export] Instance preserves_for_each {A} (f : A -> M unit) l :
  (forall x, Preserves I (f x)) -> Preserves I (for_each f l).
Proof. intros Hf. induction l; cbn; apply _. Qed.
End preserves.

End Sql.
Export Sql.
