(* ===== verification/Proto.v ===== *)
(** The messages of the worker protocol (api/proto/registry/v1/registry.proto,
    api/gen/go/registry/v1/registry.pb.go).  A repeated message field is a list
    of pointers in Go; the code checks them against nil, so they are [option]s
    here.  [GetX] accessors of a nil message return the zero value. *)
From S2P Require Import Prelude.
From S2P Require Import Json.

Module Proto.

Record CapabilityDeclaration := mkCapability {
  cd_Name : string;
  cd_MaxInflight : Z }.

Record TerminalSessionCapacity := mkCapacity {
  MaxActiveSessions : Z;
  ActiveSessionCount : Z }.

Record ConnectHello := mkHello {
  NodeId : string;
  NodeName : string;
  ExecutorKind : string;
  Labels : gmap string string;
  Version : string;
  Capabilities : list (option CapabilityDeclaration);
  WorkerSecret : string;
  HelloTerminalSessionCapacity : option TerminalSessionCapacity }.

Record HeartbeatFrame := mkHeartbeat {
  hb_NodeId : string;
  hb_SessionId : string;
  hb_ActiveSessionCount : Z }.

Record TerminalSessionRecoveryCandidate := mkCandidate {
  cand_SessionId : string;
  cand_LeaseExpiresUnixMs : Z }.

(** An enum value may be any int32 on the wire; [STATUS_OTHER] is one the
    schema does not name. *)
Inductive RecoveryStatus :=
  | STATUS_UNSPECIFIED | RECOVERED | MISSING | INVALID | STATUS_OTHER (z : Z).

#[export] Instance RecoveryStatus_eq_dec : EqDecision RecoveryStatus.
Proof. solve_decision. Defined.

Record TerminalSessionRecoveryResult := mkRecoveryResult {
  rr_SessionId : string;
  rr_Status : RecoveryStatus }.

Definition TerminalSessionRecoveryReport := list (option TerminalSessionRecoveryResult).

Record CommandDispatch := mkDispatch {
  cmd_CommandId : string;
  cmd_Capability : string;
  cmd_PayloadJson : payload;
  cmd_DeadlineUnixMs : Z }.

Record CommandResult := mkResult {
  cr_CommandId : string;
  cr_Error : option (string * string);
  cr_PayloadJson : payload;
  cr_CompletedUnixMs : Z }.

Inductive ConnectRequest :=
  | Hello (h : ConnectHello)
  | Heartbeat (h : HeartbeatFrame)
  | CommandResultFrame (r : CommandResult)
  | RecoveryReport (r : TerminalSessionRecoveryReport)
  | NoPayload.

Inductive ConnectResponse :=
  | ConnectAck (sessionID : string) (intervalSec : Z) (candidates : list TerminalSessionRecoveryCandidate)
  | HeartbeatAck (intervalSec : Z)
  | CommandDispatchFrame (d : CommandDispatch)
  | RecoveryAck.

End Proto.
Export Proto.
