(* ===== verification/Registry.v ===== *)
(** The worker registry (console/internal/registry): worker nodes with their
    labels, capabilities and credentials, kept in the database.  One
    definition per method of [Store], as a computation over a connection. *)
From S2P Require Import Prelude.
From S2P Require Import Json.
From S2P Require Import Sql.
From S2P Require Import Proto.

Module Registry.

Inductive WorkerStatus := StatusAll | StatusOnline | StatusOffline.
#[export] Instance WorkerStatus_eq_dec : EqDecision WorkerStatus.
Proof. solve_decision. Defined.

Definition LabelOwnerIDKey : string := "obx.owner_id".
Definition LabelWorkerTypeKey : string := "obx.worker_type".
Definition WorkerTypeNormal : string := "normal".
Definition WorkerTypeSys : string := "worker-sys".

Record Worker := mkWorker {
  w_NodeID : string;
  w_SessionID : string;
  w_Provisioned : bool;
  w_NodeName : string;
  w_ExecutorKind : string;
  w_Capabilities : list CapabilityDeclaration;
  w_Labels : gmap string string;
  w_Version : string;
  w_RegisteredAt : time;
  w_LastSeenAt : time }.

Record WorkerView := mkWorkerView { v_Worker : Worker; v_Status : WorkerStatus }.

Record WorkerStats := mkWorkerStats { Total : Z; Online : Z; Offline : Z; Stale : Z }.

Record ProvisionedWorker := mkProvisioned { pw_NodeID : string; pw_Labels : gmap string string }.

(** ** store_helpers.go *)
Definition statusOf (lastSeenAt now : time) (offlineTTL : duration) : WorkerStatus :=
  if time_sub now lastSeenAt <=? offlineTTL then StatusOnline else StatusOffline.

Definition cloneProtoCapabilities (cs : list (option CapabilityDeclaration)) : list CapabilityDeclaration :=
  omap (fun c => match c with
    | None => None
    | Some c => let name := trim (cd_Name c) in
                if bool_decide (name = "") then None else Some (mkCapability name (cd_MaxInflight c))
    end) cs.

Definition mergeLabels (base override : gmap string string) : gmap string string :=
  override ∪ base.

Definition mergeLabelsPreserveKeys (base override : gmap string string) (protectedKeys : list string)
    : gmap string string :=
  foldl (fun merged key =>
    let trimmedKey := trim key in
    if bool_decide (trimmedKey = "") then merged
    else match base !! trimmedKey with
         | Some baseValue => <[trimmedKey := baseValue]> merged
         | None => merged
         end) (mergeLabels base override) protectedKeys.

Definition shortNodeID (nodeID : string) : string :=
  if (String.length nodeID <=? 8)%nat then nodeID else String.substring 0 8 nodeID.

Definition normalizeCapabilityName (capability : string) : string := trim (to_lower capability).
Definition normalizeWorkerType (workerType : string) : string := trim (to_lower workerType).

Definition resolveWorkerType (labels : gmap string string) : string :=
  normalizeWorkerType (default "" (labels !! LabelWorkerTypeKey)).

(** ** store_worker_lifecycle.go *)
Definition labels_of_rows (rows : list (string * string)) : gmap string string :=
  foldl (fun m kv => <[kv.1 := kv.2]> m) ∅ rows.

Definition Upsert (req : ConnectHello) (sessionID : string) (now : time) : M unit :=
  let nodeID := trim (NodeId req) in
  if bool_decide (nodeID = "") then fail (ErrorString "node_id is required") else
  let sessionID := trim sessionID in
  if bool_decide (sessionID = "") then fail (ErrorString "session_id is required") else
  let nodeName := trim (NodeName req) in
  existing ← catch (GetWorkerNodeByID nodeID);
  match existing with
  | Err e => if error_is e ErrNoRows then mret None else fail e
  | Ok node => mret (Some node)
  end ≫= fun existingNode =>
  let nodeName := match existingNode with
                  | Some node => if bool_decide (nodeName = "") then wn_NodeName node else nodeName
                  | None => nodeName end in
  let provisioned := match existingNode with Some node => wn_Provisioned node | None => false end in
  labels ← (if provisioned
            then existingLabels ← ListWorkerLabelsByNode nodeID;
                 mret (mergeLabelsPreserveKeys (labels_of_rows existingLabels) (Labels req)
                         [LabelOwnerIDKey; LabelWorkerTypeKey])
            else mret (Labels req));
  let capabilities := cloneProtoCapabilities (Capabilities req) in
  let nowMS := unix_milli now in
  WithTx (
    UpsertWorkerNode nodeID (mkWorkerNode sessionID provisioned nodeName
      (ExecutorKind req) (Version req) nowMS nowMS) ≫= fun _ =>
    DeleteWorkerCapabilitiesByNode nodeID ≫= fun _ =>
    for_each (fun c => InsertWorkerCapability nodeID (cd_Name c) (cd_MaxInflight c)) capabilities ≫= fun _ =>
    DeleteWorkerLabelsByNode nodeID ≫= fun _ =>
    for_each (fun kv => InsertWorkerLabel nodeID kv.1 kv.2) (map_to_list labels)).

(** One iteration of the loop of [SeedProvisionedWorkers]; the result is the
    number of workers it added. *)
Definition seedProvisionedWorker (registeredMS lastSeenMS : Z) (worker : ProvisionedWorker) : M Z :=
  let nodeID := trim (pw_NodeID worker) in
  if bool_decide (nodeID = "") then mret 0 else
  let nodeName := "worker-" +:+ shortNodeID nodeID in
  r ← catch (WithTx (
    rows ← InsertProvisionedWorkerNodeIfAbsent nodeID nodeName registeredMS lastSeenMS;
    if rows =? 0 then mret rows
    else for_each (fun kv => InsertWorkerLabel nodeID kv.1 kv.2) (map_to_list (pw_Labels worker)) ≫= fun _ =>
         mret rows));
  mret (match r with Ok inserted => if inserted =? 1 then 1 else 0 | Err _ => 0 end).

Definition SeedProvisionedWorkers (workers : list ProvisionedWorker) (now : time) (offlineTTL : duration) : M Z :=
  let lastSeenAt := if 0 <? offlineTTL then time_add now (i64 (- i64 (offlineTTL + second)))
                    else time_add now (- second) in
  let registeredMS := unix_milli now in
  let lastSeenMS := unix_milli lastSeenAt in
  foldl (fun m w => added ← m; n ← seedProvisionedWorker registeredMS lastSeenMS w; mret (added + n))
    (mret 0) workers.

Definition Delete (nodeID : string) : M bool :=
  let trimmedNodeID := trim nodeID in
  if bool_decide (trimmedNodeID = "") then mret false else
  r ← catch (DeleteWorkerNodeByID trimmedNodeID);
  mret (match r with Ok rows => 0 <? rows | Err _ => false end).

Definition TouchWithSession (nodeID sessionID : string) (now : time) : M unit :=
  rows ← UpdateWorkerHeartbeatBySession (unix_milli now) (trim nodeID) (trim sessionID);
  if 0 <? rows then mret tt else
  r ← catch (GetWorkerNodeByID (trim nodeID));
  match r with
  | Err e => if error_is e ErrNoRows then fail (Sentinel ErrNodeNotFound) else fail e
  | Ok node => if bool_decide (wn_SessionID node = trim sessionID) then mret tt
               else fail (Sentinel ErrSessionMismatch)
  end.

Definition ClearSession (nodeID sessionID : string) : M unit :=
  _ ← ClearWorkerSessionByNodeAndSession (trim nodeID) (trim sessionID); mret tt.

Definition ClearSessionByNode (nodeID : string) : M unit :=
  _ ← ClearWorkerSessionByNode (trim nodeID); mret tt.

(** ** store_query.go *)

(** Errors of a query give an empty answer. *)
Definition or_else {A} (fallback : A) (m : M A) : M A :=
  r ← catch m; mret (match r with Ok a => a | Err _ => fallback end).

Definition worker_of_row (nodeID : string) (node : WorkerNode)
    (capabilities : list CapabilityDeclaration) (labels : gmap string string) : Worker :=
  mkWorker nodeID (wn_SessionID node) (wn_Provisioned node) (wn_NodeName node) (wn_ExecutorKind node)
    capabilities labels (wn_Version node)
    (of_unix_milli (wn_RegisteredAtUnixMs node)) (of_unix_milli (wn_LastSeenAtUnixMs node)).

(** The filter of the loop of [listFilteredViews]. *)
Definition view_matches (status workerStatus : WorkerStatus) (ownerID workerType : string)
    (labels : gmap string string) : bool :=
  (bool_decide (status = StatusAll) || bool_decide (status = workerStatus)) &&
  (bool_decide (ownerID = "") ||
   (bool_decide (trim (default "" (labels !! LabelOwnerIDKey)) = ownerID) &&
    (bool_decide (workerType = "") || bool_decide (resolveWorkerType labels = workerType)))).

Definition listFilteredViews (status : WorkerStatus) (now : time) (offlineTTL : duration)
    (ownerID workerType : string) : M (list WorkerView) :=
  or_else [] (
    nodes ← ListWorkerNodesOrdered;
    capabilityRows ← ListWorkerCapabilitiesAll;
    labelRows ← ListWorkerLabelsAll;
    let normalizedOwnerID := trim ownerID in
    let normalizedWorkerType := normalizeWorkerType workerType in
    mret (omap (fun kv =>
      let '(nodeID, node) := kv in
      let capabilities := omap (fun row => if bool_decide (row.1.1 = nodeID)
                                 then Some (mkCapability row.1.2 (i32 row.2)) else None) capabilityRows in
      let labels := labels_of_rows (omap (fun row => if bool_decide (row.1.1 = nodeID)
                                 then Some (row.1.2, row.2) else None) labelRows) in
      let worker := worker_of_row nodeID node capabilities labels in
      let workerStatus := statusOf (w_LastSeenAt worker) now offlineTTL in
      if view_matches status workerStatus normalizedOwnerID normalizedWorkerType labels
      then Some (mkWorkerView worker workerStatus) else None) nodes)).

(** The page of a list: [filtered[start:end]] with the source's clamping and
    [int] arithmetic.  [None] is the run-time panic of a slice expression with
    bounds out of range. *)
Definition paginate {A} (page pageSize : Z) (filtered : list A) : option (list A * Z) :=
  let total := Z.of_nat (length filtered) in
  let page := if page <=? 0 then 1 else page in
  let pageSize := if pageSize <=? 0 then 20 else pageSize in
  let start := i64 (i64 (page - 1) * pageSize) in
  if total <=? start then Some ([], total) else
  let stop := i64 (start + pageSize) in
  let stop := if total <? stop then total else stop in
  if (start <? 0) || (stop <? start) then None
  else Some (take (Z.to_nat (stop - start)) (drop (Z.to_nat start) filtered), total).

Definition ListScoped (status : WorkerStatus) (page pageSize : Z) (now : time) (offlineTTL : duration)
    (ownerID workerType : string) : M (option (list WorkerView * Z)) :=
  filtered ← listFilteredViews status now offlineTTL ownerID workerType;
  mret (paginate page pageSize filtered).

Definition ListByOwnerAndType (ownerID workerType : string) (now : time) (offlineTTL : duration)
    : M (list WorkerView) :=
  listFilteredViews StatusAll now offlineTTL ownerID workerType.

Definition GetByNodeID (nodeID : string) (now : time) (offlineTTL : duration) : M (option WorkerView) :=
  let trimmedNodeID := trim nodeID in
  if bool_decide (trimmedNodeID = "") then mret None else
  or_else None (
    node ← GetWorkerNodeByID trimmedNodeID;
    capabilityRows ← ListWorkerCapabilitiesByNode trimmedNodeID;
    labelRows ← ListWorkerLabelsByNode trimmedNodeID;
    let capabilities := (fun row => mkCapability row.1 (i32 row.2)) <$> capabilityRows in
    let worker := worker_of_row trimmedNodeID node capabilities (labels_of_rows labelRows) in
    mret (Some (mkWorkerView worker (statusOf (w_LastSeenAt worker) now offlineTTL)))).

Definition LabelsByNodeID (nodeID : string) : M (gmap string string) :=
  let trimmedNodeID := trim nodeID in
  if bool_decide (trimmedNodeID = "") then mret ∅ else
  or_else ∅ (labelRows ← ListWorkerLabelsByNode trimmedNodeID; mret (labels_of_rows labelRows)).

Definition WorkerTypeByNodeID (nodeID : string) : M string :=
  labels ← LabelsByNodeID nodeID; mret (resolveWorkerType labels).

Definition stats_of (now : time) (staleAfter : duration) (workers : list WorkerView) : WorkerStats :=
  foldl (fun st v =>
    mkWorkerStats (Total st + 1)
      (if bool_decide (v_Status v = StatusOnline) then Online st + 1 else Online st)
      (if bool_decide (v_Status v = StatusOnline) then Offline st else Offline st + 1)
      (if staleAfter <? time_sub now (w_LastSeenAt (v_Worker v)) then Stale st + 1 else Stale st))
    (mkWorkerStats 0 0 0 0) workers.

Definition StatsScoped (now : time) (offlineTTL staleAfter : duration) (ownerID workerType : string)
    : M WorkerStats :=
  workers ← listFilteredViews StatusAll now offlineTTL ownerID workerType;
  mret (stats_of now staleAfter workers).

Definition ListNodeIDsByOwnerAndType (ownerID workerType : string) : M (list string) :=
  let trimmedOwnerID := trim ownerID in
  let normalizedWorkerType := normalizeWorkerType workerType in
  if bool_decide (trimmedOwnerID = "") || bool_decide (normalizedWorkerType = "") then mret [] else
  or_else [] (ListWorkerNodeIDsByOwnerAndType trimmedOwnerID normalizedWorkerType).

Definition ListOnlineNodeIDsByOwnerTypeAndCapability (ownerID workerType capability : string)
    (now : time) (offlineTTL : duration) : M (list string) :=
  let trimmedOwnerID := trim ownerID in
  let normalizedWorkerType := normalizeWorkerType workerType in
  let normalizedCapability := normalizeCapabilityName capability in
  if bool_decide (trimmedOwnerID = "") || bool_decide (normalizedWorkerType = "")
     || bool_decide (normalizedCapability = "") then mret [] else
  or_else [] (ListOnlineWorkerNodeIDsByOwnerTypeAndCapability normalizedCapability trimmedOwnerID
    normalizedWorkerType (unix_milli (time_add now (i64 (- offlineTTL))))).

Definition ListOnlineNodeIDsByCapability (capability : string) (now : time) (offlineTTL : duration)
    : M (list string) :=
  let trimmed := normalizeCapabilityName capability in
  if bool_decide (trimmed = "") then mret [] else
  or_else [] (ListOnlineWorkerNodeIDsByCapability trimmed (unix_milli (time_add now (i64 (- offlineTTL))))).

Definition PruneOffline (now : time) (offlineTTL : duration) : M Z :=
  or_else 0 (DeleteOfflineRuntimeWorkers (unix_milli (time_add now (i64 (- offlineTTL))))).

(** ** store_credentials.go *)
Definition GetCredentialHash (nodeID : string) : M (option string) :=
  let trimmedNodeID := trim nodeID in
  if bool_decide (trimmedNodeID = "") then mret None else
  or_else None (
    credential ← GetWorkerCredentialByNode trimmedNodeID;
    let secretHash := trim (wc_SecretHash credential) in
    mret (if bool_decide (secretHash = "") then None else Some secretHash)).

Definition PutCredentialHashIfAbsent (nodeID secretHash hashAlgo : string) (now : time) : M bool :=
  let trimmedNodeID := trim nodeID in
  let trimmedHash := trim secretHash in
  let trimmedHashAlgo := trim hashAlgo in
  if bool_decide (trimmedNodeID = "") || bool_decide (trimmedHash = "") || bool_decide (trimmedHashAlgo = "")
  then mret false else
  or_else false (
    inserted ← InsertWorkerCredentialIfAbsent trimmedNodeID trimmedHash trimmedHashAlgo (unix_milli now);
    mret (inserted =? 1)).

Definition DeleteCredential (nodeID : string) : M bool :=
  let trimmedNodeID := trim nodeID in
  if bool_decide (trimmedNodeID = "") then mret false else
  or_else false (deleted ← DeleteWorkerCredentialByNode trimmedNodeID; mret (deleted =? 1)).

Definition ListCredentialHashes : M (gmap string string) :=
  or_else ∅ (
    credentials ← ListWorkerCredentials;
    mret (foldl (fun values kv =>
      let nodeID := trim kv.1 in
      let secretHash := trim (wc_SecretHash kv.2) in
      if bool_decide (nodeID = "") || bool_decide (secretHash = "") then values
      else <[nodeID := secretHash]> values) ∅ credentials)).

(** ** Lemmas *)
Lemma labels_of_rows_list_to_map rows :
  NoDup rows.*1 -> labels_of_rows rows = list_to_map rows.
Proof.
  intros Hnd. transitivity (list_to_map (M := gmap string string) (reverse rows)).
  - clear Hnd. induction rows as [|[k v] rows IH] using rev_ind; [done|].
    unfold labels_of_rows. rewrite foldl_app, reverse_snoc. cbn. f_equal. exact IH.
  - apply list_to_map_proper; [|apply reverse_Permutation].
    by rewrite reverse_Permutation.
Qed.

Definition label_rows (n : string) (m : gmap (string * string) string) : list (string * string) :=
  (fun kv => (kv.1.2, kv.2)) <$>
    order_by pair_le (map_to_list (select (fun k _ => bool_decide (k.1 = n)) m)).

Lemma elem_of_label_rows n m k v : (k, v) ∈ label_rows n m <-> m !! (n, k) = Some v.
Proof.
  unfold label_rows. rewrite list_elem_of_fmap. split.
  - intros ([[n' k'] v']&[= -> ->]&Hin). rewrite elem_of_order_by, elem_of_map_to_list in Hin.
    apply lookup_select_Some in Hin as [? ?]. by bool_prop; subst.
  - intros H. exists ((n, k), v). split; [done|].
    rewrite elem_of_order_by, elem_of_map_to_list, lookup_select_Some. split; [done|].
    by apply bool_decide_eq_true.
Qed.

Lemma NoDup_label_rows n m : NoDup (label_rows n m).*1.
Proof.
  unfold label_rows. rewrite <- list_fmap_compose.
  apply NoDup_fmap_2_strong.
  - intros [[n1 k1] v1] [[n2 k2] v2]. rewrite !elem_of_order_by, !elem_of_map_to_list, !lookup_select_Some.
    cbn. intros [H1 ?] [H2 ?] ->. bool_prop. subst. by simplify_eq.
  - apply NoDup_order_by, NoDup_map_to_list.
Qed.

Lemma lookup_label_rows n m k : labels_of_rows (label_rows n m) !! k = m !! (n, k).
Proof.
  rewrite labels_of_rows_list_to_map by apply NoDup_label_rows.
  apply option_eq. intros v.
  rewrite <- elem_of_list_to_map by apply NoDup_label_rows. apply elem_of_label_rows.
Qed.

(** Inserting rows for one worker. *)
Definition insert_rows {V} (n : string) (l : list (string * V)) (m : gmap (string * string) V) :=
  foldl (fun m kv => <[(n, kv.1) := kv.2]> m) m l.

Lemma lookup_insert_rows {V} n (l : list (string * V)) m n' k :
  insert_rows n l m !! (n', k) =
  if decide (n' = n) then
    match list_to_map (M := gmap string V) (reverse l) !! k with Some v => Some v | None => m !! (n, k) end
  else m !! (n', k).
Proof.
  revert m. induction l as [|[k1 v1] l IH] using rev_ind; intros m.
  { cbn. case_decide; [by subst|done]. }
  unfold insert_rows. rewrite foldl_app. cbn. fold (insert_rows n l m).
  rewrite reverse_snoc. cbn. rewrite lookup_insert, IH. rewrite lookup_insert.
  destruct (decide (n' = n)) as [->|Hn]; cbn.
  - destruct (decide (k1 = k)) as [->|]; [by rewrite decide_True|].
    rewrite decide_False by congruence. done.
  - rewrite decide_False by congruence. done.
Qed.

Lemma insert_labels_ok n l c c' :
  for_each (fun kv => InsertWorkerLabel n kv.1 kv.2) l c = (Ok tt, c') ->
  data c' = with_labels (insert_rows n l) (data c).
Proof.
  revert c. induction l as [|kv l IH]; intros c; cbn [for_each].
  { intros [= ->]. by destruct (data c'). }
  intros ([]&c1&H1&H2)%bind_ok. rewrite (IH _ H2).
  apply stmt_ok in H1. case_match; simplify_eq. by rewrite <- H1.
Qed.

Lemma insert_capabilities_ok n l c c' :
  for_each (fun cd => InsertWorkerCapability n (cd_Name cd) (cd_MaxInflight cd)) l c = (Ok tt, c') ->
  data c' = with_capabilities (insert_rows n ((fun cd => (cd_Name cd, cd_MaxInflight cd)) <$> l)) (data c).
Proof.
  revert c. induction l as [|kv l IH]; intros c; cbn [for_each].
  { intros [= ->]. by destruct (data c'). }
  intros ([]&c1&H1&H2)%bind_ok. rewrite (IH _ H2).
  apply stmt_ok in H1. case_match; simplify_eq. by rewrite <- H1.
Qed.

(** The labels and the node row a registration writes. *)
Definition registered_provisioned (d : DB) (n : string) : bool :=
  match worker_nodes d !! n with Some w => wn_Provisioned w | None => false end.

Definition registered_labels (d : DB) (n : string) (req : ConnectHello) : gmap string string :=
  if registered_provisioned d n
  then mergeLabelsPreserveKeys (labels_of_rows (label_rows n (worker_labels d))) (Labels req)
         [LabelOwnerIDKey; LabelWorkerTypeKey]
  else Labels req.

Definition registered_name (d : DB) (n : string) (req : ConnectHello) : string :=
  match worker_nodes d !! n with
  | Some w => if bool_decide (trim (NodeName req) = "") then wn_NodeName w else trim (NodeName req)
  | None => trim (NodeName req)
  end.

Definition registered_db (d : DB) (req : ConnectHello) (sid : string) (now : time) : DB :=
  let n := trim (NodeId req) in
  with_labels (fun m => insert_rows n (map_to_list (registered_labels d n req))
                 (keep (fun k _ => bool_decide (k.1 = n)) m))
    (with_capabilities (fun m => insert_rows n
         ((fun cd => (cd_Name cd, cd_MaxInflight cd)) <$> cloneProtoCapabilities (Capabilities req))
         (keep (fun k _ => bool_decide (k.1 = n)) m))
      (with_nodes <[n := mkWorkerNode (trim sid) (registered_provisioned d n) (registered_name d n req)
          (ExecutorKind req) (Version req) (unix_milli now) (unix_milli now)]> d)).

Lemma Upsert_ok req sid now c c' :
  Upsert req sid now c = (Ok tt, c') ->
  trim (NodeId req) <> "" /\ trim sid <> "" /\ data c' = registered_db (data c) req sid now.
Proof.
  unfold Upsert. case_bool_decide as Hn; [done|]. case_bool_decide as Hs; [done|].
  intros (existing&c1&H1&H)%bind_ok. apply catch_data in H1.
  apply bind_ok in H as (node&c2&H2&H). apply bind_ok in H as (labels&c3&H3&H).
  split; [done|]. split; [done|].
  destruct (read_one_cases (fun d => worker_nodes d !! trim (NodeId req)) c) as [Hd Hcase].
  unfold GetWorkerNodeByID in H1. rewrite H1 in Hd, Hcase. cbn in Hd, Hcase.
  assert (node = worker_nodes (data c) !! trim (NodeId req) /\ data c2 = data c) as [Hnode Hd2].
  { destruct Hcase as [[msg ->]|[[Hnone ->]|(w&Hw&->)]]; rewrite ?error_is_refl in H2;
      cbn in H2; unfold mret, M_ret, fail in H2; simplify_eq;
      by rewrite ?Hnone, ?Hw. }
  assert (labels = registered_labels (data c) (trim (NodeId req)) req /\ data c3 = data c) as [-> Hd3].
  { unfold registered_labels, registered_provisioned. rewrite <- Hnode.
    destruct (match node with Some n => wn_Provisioned n | None => false end).
    - apply bind_ok in H3 as (rows&c4&H4&H5). apply read_ok in H4 as [<- H4']. unfold mret, M_ret in H5. simplify_eq.
      by rewrite H4', Hd2.
    - unfold mret, M_ret in H3. by simplify_eq. }
  apply WithTx_ok in H as (c5&c6&H5&H&->).
  apply bind_ok in H as ([]&c7&H7&H). apply write_ok in H7. simplify_eq/=.
  apply bind_ok in H as ([]&c8&H8&H). apply write_ok in H8. simplify_eq/=.
  apply bind_ok in H as ([]&c9&H9&H). apply insert_capabilities_ok in H9.
  apply bind_ok in H as ([]&c10&H10&H). apply write_ok in H10. simplify_eq/=.
  apply insert_labels_ok in H. rewrite H, <- H10, H9, <- H8, <- H7, H5, Hd3.
  reflexivity.
Qed.

Lemma Upsert_err req sid now c e c' :
  Upsert req sid now c = (Err e, c') -> data c' = data c.
Proof.
  unfold Upsert. case_bool_decide as Hn; [unfold fail; intros [=]; by subst|].
  case_bool_decide as Hs; [unfold fail; intros [=]; by subst|].
  intros [H|(existing&c1&H1&H)]%bind_err; [by rewrite catch_ok in H|].
  apply catch_data in H1.
  pose proof (proj1 (read_one_cases (fun d => worker_nodes d !! trim (NodeId req)) c)) as Hd.
  unfold GetWorkerNodeByID in H1. rewrite H1 in Hd. cbn in Hd. rewrite <- Hd. clear Hd H1.
  apply bind_err in H as [H|(node&c2&H2&H)].
  { destruct existing; [done|]. case_match; unfold mret, M_ret, fail in H; by simplify_eq. }
  assert (data c2 = data c1) as <-.
  { clear H. unfold mret, M_ret, fail in H2. destruct existing as [|e0]; [|case_match]; by simplify_eq. }
  apply bind_err in H as [H|(labels&c3&H3&H)].
  { case_match; [|done]. apply bind_err in H as [H|(rows&c4&H4&H)]; [|done].
    by apply stmt_err in H. }
  apply WithTx_err in H. rewrite H. case_match; unfold mret, M_ret in H3; [|by simplify_eq].
  apply bind_ok in H3 as (rows&c4&H4&H5). apply read_ok in H4 as [_ H4']. by simplify_eq.
Qed.

Lemma lookup_registered_labels d req sid now n k :
  worker_labels (registered_db d req sid now) !! (n, k) =
  if decide (n = trim (NodeId req)) then registered_labels d n req !! k else worker_labels d !! (n, k).
Proof.
  cbn. rewrite lookup_insert_rows, !lookup_keep. case_decide as Hn.
  - subst n. rewrite list_to_map_proper with (l2 := map_to_list (registered_labels d (trim (NodeId req)) req)).
    + rewrite list_to_map_to_list. destruct (registered_labels d _ req !! k); [done|].
      destruct (worker_labels d !! _); cbn; [|done]. by rewrite bool_decide_eq_true_2.
    + rewrite reverse_Permutation. apply NoDup_fst_map_to_list.
    + apply reverse_Permutation.
  - destruct (worker_labels d !! (n, k)); cbn; [|done]. by rewrite bool_decide_eq_false_2.
Qed.

Lemma lookup_preserved_key base override k :
  k = LabelOwnerIDKey \/ k = LabelWorkerTypeKey ->
  mergeLabelsPreserveKeys base override [LabelOwnerIDKey; LabelWorkerTypeKey] !! k =
  match base !! k with Some v => Some v | None => (override ∪ base) !! k end.
Proof.
  intros Hk. unfold mergeLabelsPreserveKeys, mergeLabels. cbn [foldl].
  change (trim LabelOwnerIDKey) with LabelOwnerIDKey.
  change (trim LabelWorkerTypeKey) with LabelWorkerTypeKey.
  rewrite !bool_decide_eq_false_2 by done.
  assert (LabelOwnerIDKey <> LabelWorkerTypeKey) by done.
  destruct Hk as [-> | ->]; destruct (base !! LabelOwnerIDKey) eqn:E1, (base !! LabelWorkerTypeKey) eqn:E2;
    simplify_map_eq; done.
Qed.

(** Restarting the loop of [stats_of] from any counters. *)
Lemma stats_of_sum now staleAfter ws st :
  Total st = Online st + Offline st ->
  let st' := foldl (fun st v =>
    mkWorkerStats (Total st + 1)
      (if bool_decide (v_Status v = StatusOnline) then Online st + 1 else Online st)
      (if bool_decide (v_Status v = StatusOnline) then Offline st else Offline st + 1)
      (if staleAfter <? time_sub now (w_LastSeenAt (v_Worker v)) then Stale st + 1 else Stale st)) st ws in
  Total st' = Online st' + Offline st' /\ Total st' = Total st + Z.of_nat (length ws) /\
  Stale st <= Stale st' <= Stale st + Z.of_nat (length ws).
Proof.
  revert st. induction ws as [|w ws IH]; intros st Hst; [cbn; lia|].
  cbn [foldl length]. match goal with |- context [foldl _ ?x ws] => specialize (IH x) end.
  cbn in IH. destruct (bool_decide _); destruct IH as (?&?&?); try (cbn; lia);
    (split; [done|]); split; cbn in *; destruct (staleAfter <? _); lia.
Qed.

(** ** Theorems *)

(** A registration either leaves the database untouched or replaces
    the worker's row, its capabilities and its labels in one step; a
    provisioned worker stays provisioned and keeps the owner and the type it
    was created with whatever labels its hello carries, and no other worker's
    labels or row change. *)
Theorem upsert_protects_provisioning req sid now c :
  match Upsert req sid now c with
  | (Err _, c') => data c' = data c
  | (Ok _, c') =>
      let n := trim (NodeId req) in
      (exists w, worker_nodes (data c') !! n = Some w /\ wn_SessionID w = trim sid /\
         wn_LastSeenAtUnixMs w = unix_milli now /\
         wn_Provisioned w = registered_provisioned (data c) n) /\
      (registered_provisioned (data c) n = true ->
         forall k v, (k = LabelOwnerIDKey \/ k = LabelWorkerTypeKey) ->
           worker_labels (data c) !! (n, k) = Some v -> worker_labels (data c') !! (n, k) = Some v) /\
      (forall m, m <> n -> worker_nodes (data c') !! m = worker_nodes (data c) !! m /\
         forall k, worker_labels (data c') !! (m, k) = worker_labels (data c) !! (m, k))
  end.
Proof.
  destruct (Upsert req sid now c) as [[[]|e] c'] eqn:E; [|by apply Upsert_err in E].
  apply Upsert_ok in E as (Hn&Hs&Hd). rewrite Hd. split_and!.
  - eexists. cbn. rewrite lookup_insert_eq. eauto.
  - intros Hp k v Hk Hv. rewrite lookup_registered_labels, decide_True by done.
    unfold registered_labels. rewrite Hp, lookup_preserved_key by done.
    by rewrite lookup_label_rows, Hv.
  - intros m Hm. split; [by cbn; rewrite lookup_insert_ne|].
    intros k. by rewrite lookup_registered_labels, decide_False.
Qed.

(** A heartbeat moves a worker's last-seen time only under the
    session the worker currently holds: with that session the row is stamped
    and nothing else changes; an unknown worker gives [ErrNodeNotFound], any
    other session [ErrSessionMismatch], and neither these nor a database error
    change anything. *)
Theorem heartbeat_requires_current_session n sid now c :
  let '(r, c') := TouchWithSession n sid now c in
  match r with
  | Ok _ => exists w, worker_nodes (data c) !! trim n = Some w /\ wn_SessionID w = trim sid /\
              data c' = with_nodes <[trim n := set_last_seen (unix_milli now) w]> (data c)
  | Err (Sentinel ErrNodeNotFound) => worker_nodes (data c) !! trim n = None /\ data c' = data c
  | Err (Sentinel ErrSessionMismatch) =>
      (exists w, worker_nodes (data c) !! trim n = Some w /\ wn_SessionID w <> trim sid) /\ data c' = data c
  | Err _ => data c' = data c
  end.
Proof.
  unfold TouchWithSession, UpdateWorkerHeartbeatBySession, write, mbind, M_bind.
  destruct (stmt_cases (fun d => Ok (update_node (trim n) (fun w => bool_decide (wn_SessionID w = trim sid))
              (set_last_seen (unix_milli now)) d)) c) as [(?&?&E)|[(?&?&?&E)|(rows&d&fs&Ef&E)]];
    rewrite E; [done|done|].
  injection Ef as Ef. unfold update_node in Ef.
  set (c1 := mkConn d fs).
  destruct (worker_nodes (data c) !! trim n) as [w|] eqn:Ew; [case_bool_decide as Hs|]; simplify_eq.
  { cbn. exists w. auto. }
  all: cbn [Z.ltb Z.compare]; rewrite catch_ok;
    destruct (read_one_cases (fun d => worker_nodes d !! trim n) c1) as [Hd Hc];
    unfold GetWorkerNodeByID; cbn in Hd, Hc;
    destruct Hc as [[msg Hc]|[[Hn Hc]|(w'&Hw'&Hc)]]; rewrite Hc, ?error_is_refl; cbn; try done;
    rewrite Ew in *; simplify_eq.
  rewrite bool_decide_eq_false_2 by done. cbn. eauto.
Qed.

(** The worker set used for scheduling is the online set: a worker
    is listed for a capability exactly when it has a live session, declares
    the capability (any case) and was seen within the offline window, up to
    the millisecond to which the database rounds. *)
Theorem online_workers_listed cap now ttl d n fs :
  normalizeCapabilityName cap <> "" -> - 2 ^ 63 < ttl < 2 ^ 63 ->
  n ∈ match (ListOnlineNodeIDsByCapability cap now ttl (mkConn d (None :: fs))).1 with
      | Ok l => l | Err _ => [] end <->
  exists w name v, worker_nodes d !! n = Some w /\ worker_capabilities d !! (n, name) = Some v /\
    to_lower name = normalizeCapabilityName cap /\ wn_SessionID w <> "" /\
    unix_milli (now - ttl) <= wn_LastSeenAtUnixMs w.
Proof.
  intros Hcap Httl. unfold ListOnlineNodeIDsByCapability. rewrite bool_decide_eq_false_2 by done.
  unfold or_else, mbind, M_bind. rewrite catch_ok. cbn [stmt].
  unfold ListOnlineWorkerNodeIDsByCapability, read, stmt. cbn.
  rewrite elem_of_order_by, list_elem_of_omap. split.
  - intros ([[n' name] v]&Hin&Hf). rewrite elem_of_map_to_list in Hin.
    destruct (worker_nodes d !! n') as [w|] eqn:Ew; [|done]. case_match; simplify_eq. bool_prop.
    unfold time_add in *. rewrite i64_id in * by lia. exists w, name, v. by replace (now - ttl) with (now + - ttl) by lia.
  - intros (w&name&v&Hw&Hc&Hl&Hs&Ht). exists ((n, name), v). rewrite elem_of_map_to_list. split; [done|].
    rewrite Hw, bool_decide_eq_true_2, (bool_decide_eq_false_2 (wn_SessionID w = "")) by done.
    unfold time_add. rewrite i64_id by lia. replace (now + - ttl) with (now - ttl) by lia.
    by rewrite (proj2 (Z.leb_le _ _) Ht).
Qed.

(** A worker shown online is within the scheduling window. *)
Lemma statusOf_online_listed lastSeenMs now ttl :
  - 2 ^ 63 < ttl < 2 ^ 63 - 1 ->
  statusOf (of_unix_milli lastSeenMs) now ttl = StatusOnline -> unix_milli (now - ttl) <= lastSeenMs.
Proof.
  unfold statusOf, time_sub, of_unix_milli, unix_milli. intros Ht H. case_match eqn:E; [|done]. bool_prop.
  assert (now - ttl <= lastSeenMs * 10 ^ 6) by lia.
  transitivity (lastSeenMs * 10 ^ 6 / 10 ^ 6); [apply Z.div_le_mono; lia|]. by rewrite Z.div_mul by lia.
Qed.

(** The offline pruner removes exactly the workers that were not
    provisioned by the console and were last seen before the offline window,
    with their labels and capabilities, and never a provisioned worker. *)
Theorem prune_offline_exact now ttl d fs n :
  - 2 ^ 63 < ttl < 2 ^ 63 ->
  let d' := data (PruneOffline now ttl (mkConn d (None :: fs))).2 in
  worker_nodes d' !! n =
    match worker_nodes d !! n with
    | Some w => if negb (wn_Provisioned w) && (wn_LastSeenAtUnixMs w <? unix_milli (now - ttl))
                then None else Some w
    | None => None
    end /\
  (forall k, worker_labels d' !! (n, k) =
    match worker_nodes d !! n with
    | Some w => if negb (wn_Provisioned w) && (wn_LastSeenAtUnixMs w <? unix_milli (now - ttl))
                then None else worker_labels d !! (n, k)
    | None => worker_labels d !! (n, k)
    end).
Proof.
  intros Httl d'. subst d'. unfold PruneOffline, or_else, mbind, M_bind. rewrite catch_ok.
  unfold DeleteOfflineRuntimeWorkers, write, stmt. cbn.
  unfold time_add. rewrite i64_id by lia. replace (now + - ttl) with (now - ttl) by lia. split.
  - rewrite lookup_keep. by destruct (worker_nodes d !! n).
  - intros k. rewrite lookup_keep. cbn.
    destruct (worker_labels d !! (n, k)), (worker_nodes d !! n); cbn; try done; by case_match.
Qed.

Lemma paginate_slice {A} (page pageSize : Z) (l : list A) :
  1 <= page -> 1 <= pageSize -> page * pageSize < 2 ^ 63 ->
  paginate page pageSize l =
    Some (take (Z.to_nat pageSize) (drop (Z.to_nat ((page - 1) * pageSize)) l), Z.of_nat (length l)).
Proof.
  intros Hp Hs Hov. unfold paginate.
  rewrite (proj2 (Z.leb_gt page 0)), (proj2 (Z.leb_gt pageSize 0)) by lia.
  rewrite (i64_id (page - 1)) by nia. rewrite (i64_id ((page - 1) * pageSize)) by nia.
  destruct (Z.leb_spec (Z.of_nat (length l)) ((page - 1) * pageSize)) as [Hle|Hgt].
  { rewrite drop_ge by lia. by rewrite take_nil. }
  rewrite i64_id by nia. set (start := (page - 1) * pageSize) in *.
  assert (0 <= start) by nia.
  rewrite (proj2 (Z.ltb_ge start 0)) by lia. cbn [orb].
  destruct (Z.ltb_spec (Z.of_nat (length l)) (start + pageSize)) as [Hlt|Hge].
  - rewrite (proj2 (Z.ltb_ge _ start)) by lia. do 2 f_equal.
    rewrite !take_ge; [done|rewrite length_drop; lia..].
  - rewrite (proj2 (Z.ltb_ge _ start)) by lia. do 3 f_equal. lia.
Qed.

(** A page of the worker list is the slice at its offset: while the
    offset fits the machine integer, the call cannot panic, returns the
    elements from [(page-1)*pageSize] on, at most [pageSize] of them, and the
    total; so every element is on exactly the page its index belongs to. Past
    that bound the offset wraps around: on a one-worker list, page
    92233720368547760 with page size 100 makes the slice expression panic. *)
Theorem paginate_spec {A} (page pageSize : Z) (l : list A) (x : A) :
  1 <= page -> 1 <= pageSize -> page * pageSize < 2 ^ 63 ->
  paginate page pageSize l =
    Some (take (Z.to_nat pageSize) (drop (Z.to_nat ((page - 1) * pageSize)) l), Z.of_nat (length l)) /\
  paginate 92233720368547760 100 [x] = None.
Proof. intros. split; [by apply paginate_slice|vm_compute; reflexivity]. Qed.

(** The counters of the worker statistics add up: every worker is
    counted once, as online or as offline, and at most once as stale. *)
Theorem stats_add_up now staleAfter ws :
  let st := stats_of now staleAfter ws in
  Total st = Z.of_nat (length ws) /\ Total st = Online st + Offline st /\ 0 <= Stale st <= Total st.
Proof.
  pose proof (stats_of_sum now staleAfter ws (mkWorkerStats 0 0 0 0) eq_refl) as H.
  cbn zeta in *. unfold stats_of. cbn in *. lia.
Qed.

(** ** The hypotheses hold: a database of one connected worker *)
Definition demo_registry : DB :=
  mkDB {[ "w1" := mkWorkerNode "sid" false "" "docker" "1" 0 1000 ]} {[ ("w1", "terminalExec") := 2 ]} ∅ ∅ ∅ ∅ ∅ ∅ ∅ ∅.

Lemma online_workers_listed_witness :
  "w1" ∈ match (ListOnlineNodeIDsByCapability "TERMINALEXEC" (of_unix_milli 2000) (60 * second) (mkConn demo_registry [None])).1 with
         | Ok l => l | Err _ => [] end.
Proof.
  apply (online_workers_listed "TERMINALEXEC" (of_unix_milli 2000) (60 * second) demo_registry "w1" []); [by vm_compute..|].
  exists (mkWorkerNode "sid" false "" "docker" "1" 0 1000), "terminalExec", 2. split_and!; by vm_compute.
Defined.

Lemma prune_offline_exact_witness :
  worker_nodes (data (PruneOffline (of_unix_milli 200000) (60 * second) (mkConn demo_registry [None])).2) !! "w1" = None.
Proof.
  apply (prune_offline_exact (of_unix_milli 200000) (60 * second) demo_registry [] "w1"). by vm_compute.
Defined.

Lemma paginate_spec_witness : paginate 2 2 [10; 20; 30] = Some ([30], 3) /\ paginate 92233720368547760 100 [0] = None.
Proof. apply (paginate_spec 2 2 [10; 20; 30] 0); lia. Defined.

End Registry.
Export Registry.
