(* ===== verification/AuthSql.v ===== *)
(** The queries on accounts, trusted tokens and API keys
    (console/internal/persistence/sqlc: accounts.sql.go, tokens.sql.go,
    api_keys.sql.go), with the constraints of their tables. *)
From S2P Require Import Prelude.
From S2P Require Import Sql.

Module AuthSql.

(** [isSQLiteConstraintError]: true of a UNIQUE or PRIMARY KEY violation, not
    of a FOREIGN KEY or CHECK violation, whose extended codes are others. *)
Fixpoint isSQLiteConstraintError (e : error) : bool :=
  match e with
  | DBError msg => has_prefix "UNIQUE constraint failed" msg
  | Wrapped _ e _ => isSQLiteConstraintError e
  | _ => false
  end.

(** [LIMIT 1] of a selection, with the primary key of the row. *)
Definition first_row {V} (p : string -> V -> bool) (m : gmap string V) : option (string * V) :=
  head (map_to_list (select p m)).
Definition exists_row {V} (p : string -> V -> bool) (m : gmap string V) : bool := 0 <? count p m.

(** ** Accounts *)
Definition CountAccounts : M Z := read (fun d => Z.of_nat (size (accounts d))).
Definition CountAdminAccounts : M Z := read (fun d => count (fun _ a => a_IsAdmin a) (accounts d)).

Definition GetAccountByID (id : string) : M Account := read_one (fun d => accounts d !! id).
Definition has_username_key (key : string) (_ : string) (a : Account) : bool :=
  bool_decide (a_UsernameKey a = key).
Definition GetAccountByUsernameKey (key : string) : M (string * Account) :=
  read_one (fun d => first_row (has_username_key key) (accounts d)).

Definition oldest_first (a b : string * Account) : bool :=
  (a_CreatedAtUnixMs a.2 <? a_CreatedAtUnixMs b.2) ||
  ((a_CreatedAtUnixMs a.2 =? a_CreatedAtUnixMs b.2) && str_le a.1 b.1).
Definition GetFirstAdminAccount : M (string * Account) :=
  read_one (fun d => head (order_by oldest_first (map_to_list (select (fun _ a => a_IsAdmin a) (accounts d))))).

Definition newest_first (a b : string * Account) : bool :=
  (a_CreatedAtUnixMs b.2 <? a_CreatedAtUnixMs a.2) ||
  ((a_CreatedAtUnixMs a.2 =? a_CreatedAtUnixMs b.2) && str_le a.1 b.1).
(** A negative OFFSET is no offset, a negative LIMIT no limit. *)
Definition limit_offset {A} (limit offset : Z) (l : list A) : list A :=
  let rest := drop (Z.to_nat offset) l in
  if limit <? 0 then rest else take (Z.to_nat limit) rest.
Definition ListAccountsPage (limit offset : Z) : M (list (string * Account)) :=
  read (fun d => limit_offset limit offset (order_by newest_first (map_to_list (accounts d)))).

Definition InsertAccount (id : string) (row : Account) : M unit :=
  stmt (fun d =>
    match accounts d !! id with
    | Some _ => Err (DBError "UNIQUE constraint failed: accounts.account_id")
    | None =>
        if exists_row (has_username_key (a_UsernameKey row)) (accounts d)
        then Err (DBError "UNIQUE constraint failed: accounts.username_key")
        else Ok (tt, with_accounts <[id := row]> d)
    end).

(** [ON DELETE CASCADE] from accounts. *)
Definition cascade_accounts (gone : string -> bool) (d : DB) : DB :=
  with_tokens (keep (fun _ t => gone (tt_AccountID t)))
    (with_api_keys (keep (fun _ k => gone (k_AccountID k)))
      (with_proxy_routes (keep (fun _ p => gone (p_OwnerID p))) d)).
Definition delete_account (p : Account -> bool) (id : string) (d : DB) : Z * DB :=
  match accounts d !! id with
  | Some a => if p a then (1, cascade_accounts (fun x => bool_decide (x = id)) (with_accounts (delete id) d))
              else (0, d)
  | None => (0, d)
  end.
Definition DeleteAccountByID (id : string) : M Z := write (delete_account (fun _ => true) id).
Definition DeleteNonAdminAccountByID (id : string) : M Z := write (delete_account (fun a => negb (a_IsAdmin a)) id).

Definition set_password (hash algo : string) (ms : Z) (a : Account) : Account :=
  mkAccount (a_Username a) (a_UsernameKey a) hash algo (a_IsAdmin a) (a_CreatedAtUnixMs a) ms.
Definition UpdateAccountPasswordByID (hash algo : string) (ms : Z) (id : string) : M Z :=
  write (fun d => match accounts d !! id with
    | Some a => (1, with_accounts <[id := set_password hash algo ms a]> d)
    | None => (0, d)
    end).

(** ** Trusted tokens *)
Definition token_named (account key : string) (_ : string) (t : TrustedToken) : bool :=
  bool_decide (tt_AccountID t = account) && bool_decide (tt_NameKey t = key).
Definition token_hashed (hash : string) (_ : string) (t : TrustedToken) : bool :=
  bool_decide (tt_TokenHash t = hash).

Definition GetTrustedTokenByAccountAndNameKey (account key : string) : M (string * TrustedToken) :=
  read_one (fun d => first_row (token_named account key) (trusted_tokens d)).
Definition GetTrustedTokenByHash (hash : string) : M (string * TrustedToken) :=
  read_one (fun d => first_row (token_hashed hash) (trusted_tokens d)).
Definition GetTrustedTokenByID (id : string) : M TrustedToken :=
  read_one (fun d => trusted_tokens d !! id).

Definition token_le (a b : string * TrustedToken) : bool :=
  (tt_CreatedAtUnixMs a.2 <? tt_CreatedAtUnixMs b.2) ||
  ((tt_CreatedAtUnixMs a.2 =? tt_CreatedAtUnixMs b.2) && str_le a.1 b.1).
Definition ListTrustedTokensByAccount (account : string) : M (list (string * TrustedToken)) :=
  read (fun d => order_by token_le
    (map_to_list (select (fun _ t => bool_decide (tt_AccountID t = account)) (trusted_tokens d)))).

Definition InsertTrustedToken (id : string) (row : TrustedToken) : M unit :=
  stmt (fun d =>
    match trusted_tokens d !! id with
    | Some _ => Err (DBError "UNIQUE constraint failed: trusted_tokens.token_id")
    | None =>
        if exists_row (token_named (tt_AccountID row) (tt_NameKey row)) (trusted_tokens d)
        then Err (DBError "UNIQUE constraint failed: trusted_tokens.account_id, trusted_tokens.name_key") else
        if exists_row (token_hashed (tt_TokenHash row)) (trusted_tokens d)
        then Err (DBError "UNIQUE constraint failed: trusted_tokens.token_hash") else
        match accounts d !! tt_AccountID row with
        | None => Err (DBError "FOREIGN KEY constraint failed")
        | Some _ => Ok (tt, with_tokens <[id := row]> d)
        end
    end).

Definition DeleteTrustedTokenByIDAndAccount (id account : string) : M Z :=
  write (fun d =>
    let p := fun k t => bool_decide (k = id) && bool_decide (tt_AccountID t = account) in
    (count p (trusted_tokens d), with_tokens (keep p) d)).

(** ** API keys *)
Definition key_named (account key : string) (_ : string) (k : ApiKey) : bool :=
  bool_decide (k_AccountID k = account) && bool_decide (k_NameKey k = key).
Definition key_hashed (hash : string) (_ : string) (k : ApiKey) : bool :=
  bool_decide (k_KeyHash k = hash).

Definition GetAPIKeyByAccountAndNameKey (account key : string) : M (string * ApiKey) :=
  read_one (fun d => first_row (key_named account key) (api_keys d)).
Definition GetAPIKeyByHash (hash : string) : M (string * ApiKey) :=
  read_one (fun d => first_row (key_hashed hash) (api_keys d)).
Definition GetAPIKeyByID (id : string) : M ApiKey :=
  read_one (fun d => api_keys d !! id).

Definition api_key_le (a b : string * ApiKey) : bool :=
  (k_CreatedAtUnixMs a.2 <? k_CreatedAtUnixMs b.2) ||
  ((k_CreatedAtUnixMs a.2 =? k_CreatedAtUnixMs b.2) && str_le a.1 b.1).
Definition ListAPIKeysByAccount (account : string) : M (list (string * ApiKey)) :=
  read (fun d => order_by api_key_le
    (map_to_list (select (fun _ k => bool_decide (k_AccountID k = account)) (api_keys d)))).

Definition InsertAPIKey (id : string) (row : ApiKey) : M unit :=
  stmt (fun d =>
    match api_keys d !! id with
    | Some _ => Err (DBError "UNIQUE constraint failed: api_keys.api_key_id")
    | None =>
        if exists_row (key_named (k_AccountID row) (k_NameKey row)) (api_keys d)
        then Err (DBError "UNIQUE constraint failed: api_keys.account_id, api_keys.name_key") else
        if exists_row (key_hashed (k_KeyHash row)) (api_keys d)
        then Err (DBError "UNIQUE constraint failed: api_keys.key_hash") else
        match accounts d !! k_AccountID row with
        | None => Err (DBError "FOREIGN KEY constraint failed")
        | Some _ => Ok (tt, with_api_keys <[id := row]> d)
        end
    end).

Definition DeleteAPIKeyByIDAndAccount (id account : string) : M Z :=
  write (fun d =>
    let p := fun k r => bool_decide (k = id) && bool_decide (k_AccountID r = account) in
    (count p (api_keys d), with_api_keys (keep p) d)).

End AuthSql.
Export AuthSql.
