(* ===== verification/RouteStore.v ===== *)
(** The persisted terminal session routes and proxy routes
    (console/internal/registry/store_terminal_session_routes.go and
    store_proxy_routes.go), the interface [terminalSessionRouteStore] through
    which the route table of the service uses them, and the invariants of the
    database under every operation of the store. *)
From S2P Require Import Prelude.
From S2P Require Import Json.
From S2P Require Import Sql.
From S2P Require Import Proto.
From S2P Require Import Registry.
From S2P Require Import AuthSql.

Module RouteStore.

(** A route as the store's callers see it: its scoped session id and its row. *)
Definition TerminalSessionRoute : Type := string * RouteRow.
Definition TerminalSessionRouteRef : Type := string * string.

Definition LoadActiveTerminalSessionRoutes (nowUnixMs : Z) : M (list TerminalSessionRoute) :=
  ListActiveTerminalSessionRoutes nowUnixMs.

Definition trim_route (s : string) (r : RouteRow) : RouteRow :=
  mkRouteRow (trim (r_NodeID r)) (r_LeaseExpiresUnixMs r) (r_LastUsedUnixMs r)
    (r_CreatedAtUnixMs r) (r_UpdatedAtUnixMs r).

Definition UpsertConfirmedTerminalSessionRoute (s : string) (route : RouteRow) : M unit :=
  let scoped := trim s in
  let route := trim_route s route in
  if bool_decide (scoped = "") || bool_decide (r_NodeID route = "") || (r_LeaseExpiresUnixMs route <=? 0)
  then fail (ErrorString "invalid terminal session route") else
  rows ← UpsertTerminalSessionRoute scoped route;
  if rows =? 0 then fail (Sentinel ErrTerminalSessionRouteNodeConflict) else mret tt.

Definition DeleteTerminalSessionRoute (scopedSessionID expectedNodeID : string) : M bool :=
  rows ← DeleteTerminalSessionRouteBySessionAndNode (trim scopedSessionID) (trim expectedNodeID);
  mret (0 <? rows).

Definition DeleteTerminalSessionRoutes (routes : list TerminalSessionRouteRef) : M unit :=
  WithTx (for_each (fun ref =>
    _ ← DeleteTerminalSessionRouteBySessionAndNode (trim ref.1) (trim ref.2); mret tt) routes).

Definition DeleteTerminalSessionRoutesByNode (nodeID : string) : M Z :=
  Sql.DeleteTerminalSessionRoutesByNode (trim nodeID).

Definition DeleteExpiredTerminalSessionRoutes (nowUnixMs : Z) : M Z :=
  Sql.DeleteExpiredTerminalSessionRoutes nowUnixMs.

(** ** store_proxy_routes.go *)
Definition ProxyRoute : Type := string * ProxyRow.

Definition normalizeProxyRoute (route : ProxyRoute) : ProxyRoute :=
  let '(key, p) := route in
  (trim key, mkProxyRow (trim (p_OwnerID p)) (trim (p_SessionID p)) (trim (p_ScopedSessionID p))
               (trim (p_WorkerID p)) (p_Port p) (p_CreatedAtUnixMs p) (p_ExpiresAtUnixMs p)).

Definition validProxyRoute (route : ProxyRoute) : bool :=
  let '(key, p) := route in
  negb (bool_decide (key = "")) && negb (bool_decide (p_OwnerID p = "")) &&
  negb (bool_decide (p_SessionID p = "")) && negb (bool_decide (p_ScopedSessionID p = "")) &&
  negb (bool_decide (p_WorkerID p = "")) &&
  (1 <=? p_Port p) && (p_Port p <=? 65535) && (p_CreatedAtUnixMs p <? p_ExpiresAtUnixMs p).

Definition InsertProxyRoute (route : ProxyRoute) : M bool :=
  let route := normalizeProxyRoute route in
  if negb (validProxyRoute route) then fail (ErrorString "invalid proxy route") else
  let '(key, p) := route in
  WithTx (
    lookup ← catch (GetTerminalSessionRouteBySession (p_ScopedSessionID p));
    match lookup with
    | Err e => if error_is e ErrNoRows then fail (Sentinel ErrProxyRouteTerminalSessionNotFound) else fail e
    | Ok terminalRoute =>
        if negb (bool_decide (r_NodeID terminalRoute = p_WorkerID p)) ||
           (r_LeaseExpiresUnixMs terminalRoute <=? p_CreatedAtUnixMs p)
        then fail (Sentinel ErrProxyRouteTerminalSessionNotFound)
        else rows ← Sql.InsertProxyRoute key p; mret (0 <? rows)
    end).

Definition DeleteProxyRoute (routeKey ownerID : string) : M bool :=
  rows ← DeleteProxyRouteByKeyAndOwner (trim routeKey) (trim ownerID); mret (0 <? rows).

Definition DeleteExpiredProxyRoutes (nowUnixMs : Z) : M Z := Sql.DeleteExpiredProxyRoutes nowUnixMs.

Definition LoadActiveProxyRoutes (nowUnixMs : Z) : M (list ProxyRoute) := ListActiveProxyRoutes nowUnixMs.

(** ** The interface the route table of the service relies on *)

(** [terminalSessionRouteStore] (grpcserver/terminal_session_routes.go): the
    operations, over an abstract store state. *)
Class TerminalSessionRouteStore (St : Type) := {
  store_load : Z -> St -> res (list TerminalSessionRoute) * St;
  store_upsert : string -> RouteRow -> St -> res unit * St;
  store_delete : string -> string -> St -> res bool * St;
  store_delete_many : list TerminalSessionRouteRef -> St -> res unit * St;
  store_delete_by_node : string -> St -> res Z * St;
  store_delete_expired : Z -> St -> res Z * St }.

(** The row an accepted upsert leaves. *)
Definition merge_row (old : option RouteRow) (new : RouteRow) : RouteRow :=
  match old with
  | None => new
  | Some old => mkRouteRow (r_NodeID old)
      (Z.max (r_LeaseExpiresUnixMs old) (r_LeaseExpiresUnixMs new))
      (Z.max (r_LastUsedUnixMs old) (r_LastUsedUnixMs new))
      (r_CreatedAtUnixMs old)
      (Z.max (r_UpdatedAtUnixMs old) (r_UpdatedAtUnixMs new))
  end.

Definition same_ref (ref : TerminalSessionRouteRef) (s : string) (r : RouteRow) : bool :=
  bool_decide (s = trim ref.1) && bool_decide (r_NodeID r = trim ref.2).

(** What it promises: the persisted rows; a failed operation leaves them
    alone; a successful one has exactly the stated effect, and an upsert is
    accepted only if no other worker holds the session. *)
Class RouteStoreLaws (St : Type) `{TerminalSessionRouteStore St} := {
  rows : St -> gmap string RouteRow;
  load_rows now st : rows (store_load now st).2 = rows st;
  load_ok now st l st' : store_load now st = (Ok l, st') ->
    NoDup l.*1 /\ forall s r, (s, r) ∈ l <-> rows st !! s = Some r /\ now < r_LeaseExpiresUnixMs r;
  upsert_err s r st e st' : store_upsert s r st = (Err e, st') -> rows st' = rows st;
  upsert_ok s r st a st' : store_upsert s r st = (Ok a, st') ->
    0 < r_LeaseExpiresUnixMs r /\
    (forall old, rows st !! trim s = Some old -> r_NodeID old = trim (r_NodeID r)) /\
    rows st' = <[trim s := merge_row (rows st !! trim s) (trim_route s r)]> (rows st);
  delete_err s n st e st' : store_delete s n st = (Err e, st') -> rows st' = rows st;
  delete_ok s n st b st' : store_delete s n st = (Ok b, st') -> rows st' = keep (same_ref (s, n)) (rows st);
  delete_many_err refs st e st' : store_delete_many refs st = (Err e, st') -> rows st' = rows st;
  delete_many_ok refs st a st' : store_delete_many refs st = (Ok a, st') ->
    rows st' = keep (fun s r => existsb (fun ref => same_ref ref s r) refs) (rows st);
  delete_by_node_err n st e st' : store_delete_by_node n st = (Err e, st') -> rows st' = rows st;
  delete_by_node_ok n st z st' : store_delete_by_node n st = (Ok z, st') ->
    rows st' = keep (fun _ r => bool_decide (r_NodeID r = trim n)) (rows st);
  delete_expired_err now st e st' : store_delete_expired now st = (Err e, st') -> rows st' = rows st;
  delete_expired_ok now st z st' : store_delete_expired now st = (Ok z, st') ->
    rows st' = keep (fun _ r => r_LeaseExpiresUnixMs r <=? now) (rows st) }.

(** [registry.Store] implements it. *)
#[export] Instance registry_route_store : TerminalSessionRouteStore Conn := {|
  store_load := LoadActiveTerminalSessionRoutes;
  store_upsert := UpsertConfirmedTerminalSessionRoute;
  store_delete := DeleteTerminalSessionRoute;
  store_delete_many := DeleteTerminalSessionRoutes;
  store_delete_by_node := DeleteTerminalSessionRoutesByNode;
  store_delete_expired := DeleteExpiredTerminalSessionRoutes |}.

Section laws.

Lemma keep_ext `{Countable K} {V} (p q : K -> V -> bool) (m : gmap K V) :
  (forall k v, m !! k = Some v -> p k v = q k v) -> keep p m = keep q m.
Proof.
  intros Hpq. apply map_eq. intros k. rewrite !lookup_keep.
  destruct (m !! k) eqn:E; cbn; [|done]. by rewrite (Hpq _ _ E).
Qed.

Lemma keep_keep `{Countable K} {V} (p q : K -> V -> bool) (m : gmap K V) :
  keep q (keep p m) = keep (fun k v => p k v || q k v) m.
Proof.
  apply map_eq. intros k. rewrite !lookup_keep.
  destruct (m !! k); cbn; [|done]. by destruct (p k v); cbn.
Qed.

Lemma keep_none `{Countable K} {V} (m : gmap K V) : keep (fun _ _ => false) m = m.
Proof. apply map_eq. intros k. rewrite lookup_keep. by destruct (m !! k). Qed.

Lemma delete_routes_rows p c z c' :
  write (delete_routes p) c = (Ok z, c') ->
  terminal_session_routes (data c') = keep p (terminal_session_routes (data c)).
Proof. intros H%write_ok. apply (f_equal snd) in H. cbn [snd] in H. by rewrite <- H. Qed.

Lemma delete_routes_each_ok refs c c' :
  for_each (fun ref => _ ← DeleteTerminalSessionRouteBySessionAndNode (trim ref.1) (trim ref.2); mret tt)
    refs c = (Ok tt, c') ->
  terminal_session_routes (data c') =
  keep (fun s r => existsb (fun ref => same_ref ref s r) refs) (terminal_session_routes (data c)).
Proof.
  revert c. induction refs as [|ref refs IH]; intros c; cbn [for_each existsb].
  { unfold mret, M_ret. intros [= ->]. by rewrite keep_none. }
  intros ([]&c1&H1&H2)%bind_ok. apply bind_ok in H1 as (z&c2&H1&H3).
  unfold mret, M_ret in H3. simplify_eq. apply delete_routes_rows in H1.
  by rewrite (IH _ H2), H1, keep_keep.
Qed.

Lemma registry_upsert_ok s r c a c' :
  UpsertConfirmedTerminalSessionRoute s r c = (Ok a, c') ->
  0 < r_LeaseExpiresUnixMs r /\
  (forall old, terminal_session_routes (data c) !! trim s = Some old -> r_NodeID old = trim (r_NodeID r)) /\
  terminal_session_routes (data c') =
    <[trim s := merge_row (terminal_session_routes (data c) !! trim s) (trim_route s r)]>
      (terminal_session_routes (data c)).
Proof.
  unfold UpsertConfirmedTerminalSessionRoute. case_match eqn:Ev; [done|].
  cbn in Ev. bool_prop. intros (z&c1&Hq1&Hq2)%bind_ok.
  case_match; unfold mret, M_ret, fail in Hq2; simplify_eq. apply stmt_ok in Hq1. cbn in Hq1.
  rewrite (proj2 (Z.leb_gt (r_LeaseExpiresUnixMs r) 0)) in Hq1 by done. split; [done|].
  destruct (terminal_session_routes (data c) !! trim s) as [old|] eqn:Es.
  - case_match; simplify_eq. bool_prop. split; [by intros ? [= <-]|]. match goal with H : _ = data _ |- _ => by rewrite <- H end.
  - simplify_eq. split; [done|]. match goal with H : _ = data _ |- _ => by rewrite <- H end.
Qed.

Lemma registry_upsert_err s r c e c' :
  UpsertConfirmedTerminalSessionRoute s r c = (Err e, c') ->
  terminal_session_routes (data c') = terminal_session_routes (data c).
Proof.
  unfold UpsertConfirmedTerminalSessionRoute. case_match; [unfold fail; intros [=]; by subst|].
  intros [Hq|(z&c1&Hq1&Hq2)]%bind_err; [apply stmt_err in Hq; by rewrite Hq|].
  apply stmt_ok in Hq1. unfold mret, M_ret, fail in Hq2. case_match eqn:Ez; simplify_eq. bool_prop. subst.
  repeat case_match; simplify_eq. congruence.
Qed.

#[export, refine] Instance registry_route_laws : RouteStoreLaws Conn := {|
  rows := fun c => terminal_session_routes (data c) |}.
Proof.
  - intros now st. cbn. unfold LoadActiveTerminalSessionRoutes, ListActiveTerminalSessionRoutes.
    by rewrite read_data.
  - intros now st l st' H. apply read_ok in H as [<- H']. split.
    + apply NoDup_fmap_2_strong; [|apply NoDup_order_by, NoDup_map_to_list].
      intros [s1 r1] [s2 r2]. rewrite !elem_of_order_by, !elem_of_map_to_list. cbn. intros H1 H2 ->. by simplify_eq.
    + intros s r. rewrite elem_of_order_by, elem_of_map_to_list, lookup_select_Some, Z.ltb_lt. done.
  - intros s r st e st'. apply registry_upsert_err.
  - intros s r st a st'. apply registry_upsert_ok.
  - intros s n st e st' [H|(z&c1&H1&H2)]%bind_err; [apply stmt_err in H; by rewrite H|done].
  - intros s n st b st' (z&c1&H1&H2)%bind_ok. unfold mret, M_ret in H2. simplify_eq.
    by apply delete_routes_rows in H1.
  - intros refs st e st' H%WithTx_err. by rewrite H.
  - intros refs st [] st' (c1&c2&Hc1&Hc2&Hc3)%WithTx_ok. apply delete_routes_each_ok in Hc2. by rewrite Hc3, Hc2, Hc1.
  - intros n st e st' H%stmt_err. by rewrite H.
  - intros n st z st'. apply delete_routes_rows.
  - intros now st e st' H%stmt_err. by rewrite H.
  - intros now st z st'. apply delete_routes_rows.
Defined.

End laws.

(** ** Database invariant *)

(** Referential integrity and column checks: every capability, label and
    credential row has its worker; every proxy route has its account and a
    terminal session route on the worker it names; leases are positive. *)
Record db_ok (d : DB) : Prop := {
  ok_capabilities n k v : worker_capabilities d !! (n, k) = Some v -> is_Some (worker_nodes d !! n);
  ok_labels n k v : worker_labels d !! (n, k) = Some v -> is_Some (worker_nodes d !! n);
  ok_credentials n c : worker_credentials d !! n = Some c -> is_Some (worker_nodes d !! n);
  ok_proxy_owner k p : proxy_routes d !! k = Some p -> is_Some (accounts d !! p_OwnerID p);
  ok_proxy_route k p : proxy_routes d !! k = Some p ->
    exists r, terminal_session_routes d !! p_ScopedSessionID p = Some r /\ r_NodeID r = p_WorkerID p;
  ok_proxy_port k p : proxy_routes d !! k = Some p -> 1 <= p_Port p <= 65535;
  ok_route_lease s r : terminal_session_routes d !! s = Some r -> 0 < r_LeaseExpiresUnixMs r }.


(** The operations of the store, as the service and the pruners call them, and the
    statements on accounts, which the proxy routes refer to. *)
Inductive store_op :=
  | OpUpsert (req : ConnectHello) (sid : string) (now : time)
  | OpSeed (ws : list ProvisionedWorker) (now : time) (ttl : duration)
  | OpDelete (n : string)
  | OpTouch (n sid : string) (now : time)
  | OpClearSession (n sid : string)
  | OpClearSessionByNode (n : string)
  | OpPruneOffline (now : time) (ttl : duration)
  | OpPutCredential (n hash algo : string) (now : time)
  | OpDeleteCredential (n : string)
  | OpUpsertRoute (s : string) (r : RouteRow)
  | OpDeleteRoute (s n : string)
  | OpDeleteRoutes (refs : list TerminalSessionRouteRef)
  | OpDeleteRoutesByNode (n : string)
  | OpDeleteExpiredRoutes (now : Z)
  | OpInsertProxyRoute (r : ProxyRoute)
  | OpDeleteProxyRoute (k o : string)
  | OpDeleteExpiredProxyRoutes (now : Z)
  | OpInsertAccount (id : string) (row : Account)
  | OpDeleteNonAdminAccount (id : string)
  | OpDeleteAccount (id : string).

Definition ignore {A} (m : M A) : M unit := _ ← catch m; mret tt.

Definition run_op (op : store_op) : M unit :=
  match op with
  | OpUpsert req sid now => ignore (Upsert req sid now)
  | OpSeed ws now ttl => ignore (SeedProvisionedWorkers ws now ttl)
  | OpDelete n => ignore (Delete n)
  | OpTouch n sid now => ignore (TouchWithSession n sid now)
  | OpClearSession n sid => ignore (ClearSession n sid)
  | OpClearSessionByNode n => ignore (ClearSessionByNode n)
  | OpPruneOffline now ttl => ignore (PruneOffline now ttl)
  | OpPutCredential n h a now => ignore (PutCredentialHashIfAbsent n h a now)
  | OpDeleteCredential n => ignore (DeleteCredential n)
  | OpUpsertRoute s r => ignore (UpsertConfirmedTerminalSessionRoute s r)
  | OpDeleteRoute s n => ignore (DeleteTerminalSessionRoute s n)
  | OpDeleteRoutes refs => ignore (DeleteTerminalSessionRoutes refs)
  | OpDeleteRoutesByNode n => ignore (DeleteTerminalSessionRoutesByNode n)
  | OpDeleteExpiredRoutes now => ignore (DeleteExpiredTerminalSessionRoutes now)
  | OpInsertProxyRoute r => ignore (InsertProxyRoute r)
  | OpDeleteProxyRoute k o => ignore (DeleteProxyRoute k o)
  | OpDeleteExpiredProxyRoutes now => ignore (DeleteExpiredProxyRoutes now)
  | OpInsertAccount id row => ignore (InsertAccount id row)
  | OpDeleteNonAdminAccount id => ignore (DeleteNonAdminAccountByID id)
  | OpDeleteAccount id => ignore (DeleteAccountByID id)
  end.


(** *** Each statement keeps the invariant *)
Section statements.

Ltac ok_fields H := destruct H; split; cbn; eauto.

Lemma keep_lookup_is_Some `{Countable K} {V} (p : K -> V -> bool) (m : gmap K V) k v :
  keep p m !! k = Some v -> m !! k = Some v.
Proof. by intros [? ?]%lookup_keep_Some. Qed.

Lemma insert_is_Some {V} (m : gmap string V) k v k' :
  is_Some (m !! k') -> is_Some (<[k := v]> m !! k').
Proof. rewrite lookup_insert. case_decide; eauto. Qed.

#[local] Hint Resolve keep_lookup_is_Some insert_is_Some : core.

Lemma db_ok_with_nodes_insert n w d : db_ok d -> db_ok (with_nodes <[n := w]> d).
Proof. intros H. ok_fields H. Qed.

Lemma db_ok_update_node n p f d : db_ok d -> db_ok (update_node n p f d).2.
Proof.
  intros H. unfold update_node. destruct (worker_nodes d !! n); [|done].
  case_match; [by apply db_ok_with_nodes_insert|done].
Qed.

Lemma db_ok_delete_nodes p d : db_ok d -> db_ok (delete_nodes p d).2.
Proof.
  intros H. destruct H as [Hc Hl Hr Ho Hp Hport Hlease].
  assert (forall n, is_Some (worker_nodes d !! n) ->
            match worker_nodes d !! n with Some w => p n w | None => false end = false ->
            is_Some (keep p (worker_nodes d) !! n)) as Hkeep.
  { intros n [w Hw] Hp0. rewrite Hw in Hp0. exists w. by apply lookup_keep_Some. }
  split; cbn; eauto.
  - intros n k v [E E']%lookup_keep_Some. eauto.
  - intros n k v [E E']%lookup_keep_Some. eauto.
  - intros n c [E E']%lookup_keep_Some. eauto.
Qed.

Lemma db_ok_delete_routes p d : db_ok d -> db_ok (delete_routes p d).2.
Proof.
  intros H. destruct H as [Hc Hl Hr Ho Hp Hport Hlease]. split; cbn; eauto.
  intros k q [E Hgone]%lookup_keep_Some. destruct (Hp _ _ E) as (r&Hr'&Hn).
  rewrite Hr' in Hgone. rewrite bool_decide_eq_true_2 in Hgone by done. cbn in Hgone.
  exists r. split; [|done]. by apply lookup_keep_Some.
Qed.

Lemma db_ok_keep_proxy p d : db_ok d -> db_ok (with_proxy_routes (keep p) d).
Proof. intros H. ok_fields H. Qed.

#[export] Instance ok_UpsertWorkerNode n w : Preserves db_ok (UpsertWorkerNode n w).
Proof. apply preserves_write. intros d H. by apply db_ok_with_nodes_insert. Qed.

#[export] Instance ok_InsertProvisioned n nm r l :
  Preserves db_ok (InsertProvisionedWorkerNodeIfAbsent n nm r l).
Proof. apply preserves_write. intros d H. case_match; [done|by apply db_ok_with_nodes_insert]. Qed.

#[export] Instance ok_DeleteWorkerNodeByID n : Preserves db_ok (DeleteWorkerNodeByID n).
Proof. apply preserves_write. intros d. apply db_ok_delete_nodes. Qed.

#[export] Instance ok_DeleteOffline l : Preserves db_ok (DeleteOfflineRuntimeWorkers l).
Proof. apply preserves_write. intros d. apply db_ok_delete_nodes. Qed.

#[export] Instance ok_Heartbeat ms n s : Preserves db_ok (UpdateWorkerHeartbeatBySession ms n s).
Proof. apply preserves_write. intros d. apply db_ok_update_node. Qed.

#[export] Instance ok_ClearByNode n : Preserves db_ok (ClearWorkerSessionByNode n).
Proof. apply preserves_write. intros d. apply db_ok_update_node. Qed.

#[export] Instance ok_ClearByNodeAndSession n s : Preserves db_ok (ClearWorkerSessionByNodeAndSession n s).
Proof. apply preserves_write. intros d. apply db_ok_update_node. Qed.

#[export] Instance ok_DeleteCaps n : Preserves db_ok (DeleteWorkerCapabilitiesByNode n).
Proof. apply preserves_write. intros d H. ok_fields H. Qed.

#[export] Instance ok_DeleteLabels n : Preserves db_ok (DeleteWorkerLabelsByNode n).
Proof. apply preserves_write. intros d H. ok_fields H. Qed.

#[export] Instance ok_InsertCap n k v : Preserves db_ok (InsertWorkerCapability n k v).
Proof.
  apply preserves_stmt. intros d [] d' H E. case_match eqn:En; simplify_eq. ok_fields H.
  intros n' k' v' Hl. destruct (decide ((n, k) = (n', k'))); simplify_map_eq; eauto.
Qed.

#[export] Instance ok_InsertLabel n k v : Preserves db_ok (InsertWorkerLabel n k v).
Proof.
  apply preserves_stmt. intros d [] d' H E. case_match eqn:En; simplify_eq. ok_fields H.
  intros n' k' v' Hl. destruct (decide ((n, k) = (n', k'))); simplify_map_eq; eauto.
Qed.

#[export] Instance ok_InsertCredential n h a now : Preserves db_ok (InsertWorkerCredentialIfAbsent n h a now).
Proof.
  apply preserves_stmt. intros d r d' H E. repeat case_match; simplify_eq; [done|]. ok_fields H.
  intros n' c Hl. destruct (decide (n = n')); simplify_map_eq; eauto.
Qed.

#[export] Instance ok_DeleteCredential n : Preserves db_ok (DeleteWorkerCredentialByNode n).
Proof.
  apply preserves_write. intros d H. ok_fields H. intros n' c [? Hl]%lookup_delete_Some. eauto.
Qed.

#[export] Instance ok_UpsertRoute s r : Preserves db_ok (UpsertTerminalSessionRoute s r).
Proof.
  apply preserves_stmt. intros d z d' H E.
  destruct (r_LeaseExpiresUnixMs r <=? 0) eqn:El; [done|]. bool_prop.
  destruct H as [Hc Hl Hr Ho Hp Hport Hlease].
  destruct (terminal_session_routes d !! s) as [old|] eqn:Es.
  - case_match; simplify_eq; [|done]. bool_prop. split; cbn; eauto.
    + intros k p Hk. destruct (Hp _ _ Hk) as (r'&Hr'&Hn).
      destruct (decide (s = p_ScopedSessionID p)) as [->|]; simplify_map_eq; eauto.
    + intros s' r'. rewrite lookup_insert. case_decide; [|by eauto].
      intros [= <-]. cbn. lia.
  - simplify_eq. split; cbn; eauto.
    + intros k p Hk. destruct (Hp _ _ Hk) as (r'&Hr'&Hn).
      exists r'. split; [|done]. rewrite lookup_insert_ne; [done|congruence].
    + intros s' r'. rewrite lookup_insert. case_decide; [intros [= <-]; lia|by eauto].
Qed.

#[export] Instance ok_DeleteRoute s n : Preserves db_ok (DeleteTerminalSessionRouteBySessionAndNode s n).
Proof. apply preserves_write. intros d. apply db_ok_delete_routes. Qed.

#[export] Instance ok_DeleteRoutesByNode n : Preserves db_ok (Sql.DeleteTerminalSessionRoutesByNode n).
Proof. apply preserves_write. intros d. apply db_ok_delete_routes. Qed.

#[export] Instance ok_DeleteExpiredRoutes now : Preserves db_ok (Sql.DeleteExpiredTerminalSessionRoutes now).
Proof. apply preserves_write. intros d. apply db_ok_delete_routes. Qed.

#[export] Instance ok_InsertProxy k p : Preserves db_ok (Sql.InsertProxyRoute k p).
Proof.
  apply preserves_stmt. intros d z d' H E. cbv zeta in E.
  case_match eqn:Ec; [done|]. bool_prop. case_match; simplify_eq; [done|].
  case_match eqn:Ep; simplify_eq. bool_prop.
  assert (exists r, terminal_session_routes d !! p_ScopedSessionID p = Some r /\ r_NodeID r = p_WorkerID p).
  { destruct (terminal_session_routes d !! p_ScopedSessionID p) as [r|]; [|done].
    bool_prop. eauto. }
  ok_fields H; intros k' p' Hl; destruct (decide (k = k')); simplify_map_eq; eauto.
Qed.

#[export] Instance ok_DeleteProxy k o : Preserves db_ok (DeleteProxyRouteByKeyAndOwner k o).
Proof. apply preserves_write. intros d. apply db_ok_keep_proxy. Qed.

#[export] Instance ok_DeleteExpiredProxy now : Preserves db_ok (Sql.DeleteExpiredProxyRoutes now).
Proof. apply preserves_write. intros d. apply db_ok_keep_proxy. Qed.

#[export] Instance ok_InsertAccount id row : Preserves db_ok (InsertAccount id row).
Proof.
  apply preserves_stmt. intros d u d' H E. repeat case_match; simplify_eq. ok_fields H.
Qed.

Lemma db_ok_delete_account p id d : db_ok d -> db_ok (delete_account p id d).2.
Proof.
  intros H. unfold delete_account. destruct (accounts d !! id) as [a|]; [|done]. destruct (p a); [|done].
  destruct H as [Hc Hl Hr Ho Hp Hport Hlease]. split; cbn; eauto; intros k q [Hk Hgone]%lookup_keep_Some; eauto.
  apply bool_decide_eq_false in Hgone. rewrite lookup_delete_ne by done. eauto.
Qed.

#[export] Instance ok_DeleteAccount id : Preserves db_ok (DeleteAccountByID id).
Proof. apply preserves_write. intros d. apply db_ok_delete_account. Qed.

#[export] Instance ok_DeleteNonAdminAccount id : Preserves db_ok (DeleteNonAdminAccountByID id).
Proof. apply preserves_write. intros d. apply db_ok_delete_account. Qed.

End statements.

#[export] Instance ok_if {A} (b : bool) (m1 m2 : M A) (I : DB -> Prop) :
  Preserves I m1 -> Preserves I m2 -> Preserves I (if b then m1 else m2).
Proof. by destruct b. Qed.

#[export] Instance ok_ignore {A} (m : M A) I : Preserves I m -> Preserves I (ignore m).
Proof. unfold ignore. apply _. Qed.

#[export] Instance ok_or_else {A} (a : A) (m : M A) I : Preserves I m -> Preserves I (or_else a m).
Proof. unfold or_else. apply _. Qed.

Lemma ok_Upsert req sid now : Preserves db_ok (Upsert req sid now).
Proof.
  unfold Upsert. repeat (apply ok_if; [apply _|]).
  apply preserves_bind; [unfold GetWorkerNodeByID; apply _|]. intros existing.
  apply preserves_bind; [destruct existing; apply _|]. intros node.
  apply preserves_bind; [unfold ListWorkerLabelsByNode; apply _|]. intros labels. apply _.
Qed.

Lemma ok_seed1 r l w : Preserves db_ok (seedProvisionedWorker r l w).
Proof. unfold seedProvisionedWorker. apply _. Qed.

Lemma ok_Seed ws now ttl : Preserves db_ok (SeedProvisionedWorkers ws now ttl).
Proof.
  unfold SeedProvisionedWorkers. generalize (mret (M := M) 0) (preserves_ret db_ok 0).
  induction ws as [|w ws IH]; cbn; [done|]. intros m Hm. apply IH.
  apply preserves_bind; [done|]. intros a. apply preserves_bind; [apply ok_seed1|]. apply _.
Qed.

Lemma ok_Touch n sid now : Preserves db_ok (TouchWithSession n sid now).
Proof.
  unfold TouchWithSession. apply preserves_bind; [apply _|]. intros rows. apply ok_if; [apply _|].
  apply preserves_bind; [unfold GetWorkerNodeByID; apply _|]. intros []; apply _.
Qed.

Lemma ok_InsertProxyRoute r : Preserves db_ok (InsertProxyRoute r).
Proof.
  unfold InsertProxyRoute. apply ok_if; [apply _|]. destruct (normalizeProxyRoute r) as [k p].
  apply preserves_WithTx. apply preserves_bind; [unfold GetTerminalSessionRouteBySession; apply _|].
  intros []; apply _.
Qed.

#[export] Instance ok_run_op op : Preserves db_ok (run_op op).
Proof.
  destruct op; cbn; apply ok_ignore; auto using ok_Upsert, ok_Seed, ok_Touch, ok_InsertProxyRoute;
    [unfold Delete|unfold ClearSession|unfold ClearSessionByNode|unfold PruneOffline
    |unfold PutCredentialHashIfAbsent|unfold DeleteCredential|unfold UpsertConfirmedTerminalSessionRoute
    |unfold DeleteTerminalSessionRoute|unfold DeleteTerminalSessionRoutes
    |unfold DeleteTerminalSessionRoutesByNode|unfold DeleteExpiredTerminalSessionRoutes
    |unfold DeleteProxyRoute|unfold DeleteExpiredProxyRoutes|..]; apply _.
Qed.




End RouteStore.
Export RouteStore.
