(* ===== verification/OwnerScope.v ===== *)
(** Owner scoping of terminal sessions
    (console/internal/grpcserver/task_owner_scope.go): the session id a client
    sees is private to its owner; workers and the route table only see the
    scoped id [obx:<owner>:<session>].  The functions that scope task inputs
    and restore task results, their round trips, and the separation of owners. *)
From S2P Require Import Prelude.
From S2P Require Import Json.

Module OwnerScope.

Definition taskOwnerScopePrefix : string := "obx".
Definition taskOwnerScopeSeparator : ascii := ":".
Definition taskRequestScopeSeparator : ascii := "000".
Definition taskCapabilityTerminalExec : string := "terminalexec".
Definition taskCapabilityTerminalLeaseRenew : string := "terminalleaserenew".
Definition taskCapabilityTerminalResource : string := "terminalresource".
Definition taskCapabilityTerminalProxy : string := "terminalproxy".
Definition taskOwnerScopeInvalidPayloadCode : string := "invalid_payload".
Definition taskOwnerScopeInvalidPayloadMessage : string := "session_id owner mismatch".

Inductive terminalSessionIntent := terminalSessionIntentUnknown | terminalSessionIntentKnownNew.

#[export] Instance terminalSessionIntent_eq_dec : EqDecision terminalSessionIntent.
Proof. solve_decision. Defined.

Definition normalizeCapability (capability : string) : string := trim (to_lower capability).

Definition normalizeTaskOwnerID (ownerID : string) : string := trim ownerID.

Definition taskRequestScopeKey (ownerID requestID : string) : string :=
  normalizeTaskOwnerID ownerID +:+ String taskRequestScopeSeparator (trim requestID).

(** ** Session ids *)

(** [strings.Join(parts, ":")] for a head and a tail. *)
Definition join_sep (a b : string) : string := a +:+ String taskOwnerScopeSeparator b.

Definition scopeTerminalSessionID (ownerID externalSessionID : string) : string :=
  let normalizedOwnerID := normalizeTaskOwnerID ownerID in
  let normalizedSessionID := trim externalSessionID in
  if bool_decide (normalizedOwnerID = "") || bool_decide (normalizedSessionID = "")
  then normalizedSessionID
  else join_sep taskOwnerScopePrefix (join_sep normalizedOwnerID normalizedSessionID).

(** [^[A-Za-z0-9][A-Za-z0-9._:-]{0,255}$]. *)
Definition is_alnum (a : ascii) : bool :=
  let b := byte a in
  ((65 <=? b) && (b <=? 90)) || ((97 <=? b) && (b <=? 122)) || ((48 <=? b) && (b <=? 57)).

Definition is_session_char (a : ascii) : bool :=
  let b := byte a in
  is_alnum a || (b =? 46) || (b =? 95) || (b =? 58) || (b =? 45).

Definition externalTerminalSessionIDPattern (s : string) : bool :=
  match s with
  | String a s' => is_alnum a && forall_char is_session_char s' &&
                   (Z.of_nat (String.length s') <=? 255)
  | EmptyString => false
  end.

Definition validateExternalTerminalSessionID (sessionID : string) : res unit :=
  if externalTerminalSessionIDPattern sessionID then Ok tt
  else Err (StatusError InvalidArgument
    "session_id must contain only letters, numbers, '.', '_', ':', or '-'").

Definition parseScopedTerminalSessionID (scopedSessionID : string) : option (string * string) :=
  match split_n 3 taskOwnerScopeSeparator (trim scopedSessionID) with
  | [prefix; owner; session] =>
      if negb (bool_decide (prefix = taskOwnerScopePrefix)) then None else
      let ownerID := trim owner in
      let sessionID := trim session in
      if bool_decide (ownerID = "") || bool_decide (sessionID = "") then None
      else Some (ownerID, sessionID)
  | _ => None
  end.

Definition scope_prefix (owner : string) : string :=
  join_sep taskOwnerScopePrefix (join_sep owner "").

Definition unscopeTerminalSessionID (ownerID scopedSessionID : string) : option string :=
  let normalizedOwnerID := normalizeTaskOwnerID ownerID in
  let normalizedSessionID := trim scopedSessionID in
  if bool_decide (normalizedSessionID = "") then None else
  if bool_decide (normalizedOwnerID = "") then Some normalizedSessionID else
  let prefix := scope_prefix normalizedOwnerID in
  if negb (has_prefix prefix normalizedSessionID) then None else
  let externalSessionID := trim (trim_prefix prefix normalizedSessionID) in
  if bool_decide (externalSessionID = "") then None else Some externalSessionID.

(** grpcserver/terminal_session_routes.go *)
Definition isValidPersistedTerminalSessionID (sessionID : string) : bool :=
  match split_n 3 taskOwnerScopeSeparator (trim sessionID) with
  | [prefix; owner; session] =>
      bool_decide (prefix = taskOwnerScopePrefix) &&
      negb (bool_decide (trim owner = "")) && negb (bool_decide (trim session = ""))
  | _ => false
  end.

(** ** Payloads *)
Record terminalExecScopedPayload := mkExec {
  ex_Command : string;
  ex_SessionID : string;
  ex_CreateIfMissing : bool;
  ex_LeaseTTLSec : option Z }.

Record terminalResourceScopedPayload := mkResource {
  rs_SessionID : string;
  rs_FilePath : string;
  rs_Action : string;
  rs_SignedURL : string;
  rs_Headers : option (gmap string string) }.

Record terminalLeaseRenewPayload := mkLeaseRenew {
  lr_SessionID : string;
  lr_LeaseTTLSec : Z }.

(** The field a member's name selects. *)
Definition exec_field (k : string)
    : option (json -> terminalExecScopedPayload -> terminalExecScopedPayload * bool) :=
  if equal_fold k "command" then Some (fun v s =>
    let '(x, b) := dec_string v (ex_Command s) in
    (mkExec x (ex_SessionID s) (ex_CreateIfMissing s) (ex_LeaseTTLSec s), b))
  else if equal_fold k "session_id" then Some (fun v s =>
    let '(x, b) := dec_string v (ex_SessionID s) in
    (mkExec (ex_Command s) x (ex_CreateIfMissing s) (ex_LeaseTTLSec s), b))
  else if equal_fold k "create_if_missing" then Some (fun v s =>
    let '(x, b) := dec_bool v (ex_CreateIfMissing s) in
    (mkExec (ex_Command s) (ex_SessionID s) x (ex_LeaseTTLSec s), b))
  else if equal_fold k "lease_ttl_sec" then Some (fun v s =>
    let '(x, b) := dec_int_ptr v (ex_LeaseTTLSec s) in
    (mkExec (ex_Command s) (ex_SessionID s) (ex_CreateIfMissing s) x, b))
  else None.

Definition unmarshal_exec : payload -> option terminalExecScopedPayload :=
  unmarshal_struct exec_field (mkExec "" "" false None).

Definition resource_field (k : string)
    : option (json -> terminalResourceScopedPayload -> terminalResourceScopedPayload * bool) :=
  if equal_fold k "session_id" then Some (fun v s =>
    let '(x, b) := dec_string v (rs_SessionID s) in
    (mkResource x (rs_FilePath s) (rs_Action s) (rs_SignedURL s) (rs_Headers s), b))
  else if equal_fold k "file_path" then Some (fun v s =>
    let '(x, b) := dec_string v (rs_FilePath s) in
    (mkResource (rs_SessionID s) x (rs_Action s) (rs_SignedURL s) (rs_Headers s), b))
  else if equal_fold k "action" then Some (fun v s =>
    let '(x, b) := dec_string v (rs_Action s) in
    (mkResource (rs_SessionID s) (rs_FilePath s) x (rs_SignedURL s) (rs_Headers s), b))
  else if equal_fold k "signed_url" then Some (fun v s =>
    let '(x, b) := dec_string v (rs_SignedURL s) in
    (mkResource (rs_SessionID s) (rs_FilePath s) (rs_Action s) x (rs_Headers s), b))
  else if equal_fold k "headers" then Some (fun v s =>
    let '(x, b) := dec_string_map v (rs_Headers s) in
    (mkResource (rs_SessionID s) (rs_FilePath s) (rs_Action s) (rs_SignedURL s) x, b))
  else None.

Definition unmarshal_resource : payload -> option terminalResourceScopedPayload :=
  unmarshal_struct resource_field (mkResource "" "" "" "" None).

(** [json.Marshal] with the [omitempty] tags of the structs. *)
Definition omit_if (b : bool) (m : string * json) : list (string * json) := if b then [] else [m].

Definition marshal_exec (p : terminalExecScopedPayload) : payload :=
  PJson (JObject (
    ("command", JString (ex_Command p)) ::
    omit_if (bool_decide (ex_SessionID p = "")) ("session_id", JString (ex_SessionID p)) ++
    omit_if (negb (ex_CreateIfMissing p)) ("create_if_missing", JBool (ex_CreateIfMissing p)) ++
    match ex_LeaseTTLSec p with None => [] | Some z => [("lease_ttl_sec", JInt z)] end)).

Definition marshal_headers (m : gmap string string) : json :=
  JObject ((fun kv => (kv.1, JString kv.2)) <$> merge_sort (fun a b => String.le a.1 b.1) (map_to_list m)).

Definition marshal_resource (p : terminalResourceScopedPayload) : payload :=
  PJson (JObject (
    ("session_id", JString (rs_SessionID p)) :: ("file_path", JString (rs_FilePath p)) ::
    omit_if (bool_decide (rs_Action p = "")) ("action", JString (rs_Action p)) ++
    omit_if (bool_decide (rs_SignedURL p = "")) ("signed_url", JString (rs_SignedURL p)) ++
    match rs_Headers p with
    | Some m => omit_if (bool_decide (m = ∅)) ("headers", marshal_headers m)
    | None => []
    end)).

Definition marshal_lease_renew (p : terminalLeaseRenewPayload) : payload :=
  PJson (JObject [("session_id", JString (lr_SessionID p)); ("lease_ttl_sec", JInt (lr_LeaseTTLSec p))]).

(** ** Upload headers *)
Definition isAllowedTerminalResourceUploadHeader (name : string) : bool :=
  has_prefix "x-amz-" name || bool_decide (name = "content-type") || bool_decide (name = "content-md5").

Definition canonicalTerminalResourceUploadHeaderName (name : string) : string :=
  if bool_decide (name = "content-type") then "Content-Type"
  else if bool_decide (name = "content-md5") then "Content-MD5" else name.

Definition filter_header (filtered : gmap string string) (kv : string * string) : gmap string string :=
  let normalizedName := to_lower (trim kv.1) in
  if bool_decide (normalizedName = "") then filtered else
  if negb (isAllowedTerminalResourceUploadHeader normalizedName) then filtered else
  <[canonicalTerminalResourceUploadHeaderName normalizedName := kv.2]> filtered.

Definition filterTerminalResourceUploadHeaders (headers : option (gmap string string))
    : option (gmap string string) :=
  let filtered := foldl filter_header ∅ (map_to_list (default ∅ headers)) in
  if bool_decide (filtered = ∅) then None else Some filtered.

(** ** Task inputs and results *)
Definition terminalSessionIntentForTaskInput (capability : string) (inputJSON : payload)
    : terminalSessionIntent :=
  if negb (bool_decide (normalizeCapability capability = taskCapabilityTerminalExec)) || payload_empty inputJSON
  then terminalSessionIntentUnknown
  else match unmarshal_exec inputJSON with
       | None => terminalSessionIntentUnknown
       | Some p => if bool_decide (trim (ex_SessionID p) = "") then terminalSessionIntentKnownNew
                   else terminalSessionIntentUnknown
       end.

(** [newTerminalSessionIDFn]: [None] is the nil function. *)
Definition scopeTaskInputByOwner (newTerminalSessionIDFn : option (res string))
    (capability ownerID : string) (inputJSON : payload) : res payload :=
  let normalizedOwnerID := normalizeTaskOwnerID ownerID in
  if bool_decide (normalizedOwnerID = "") || payload_empty inputJSON then Ok inputJSON else
  if bool_decide (capability = taskCapabilityTerminalExec) then
    match unmarshal_exec inputJSON with
    | None => Ok inputJSON
    | Some p =>
        let scoped sessionID create :=
          Ok (marshal_exec (mkExec (ex_Command p) (scopeTerminalSessionID normalizedOwnerID sessionID)
                create (ex_LeaseTTLSec p))) in
        let sessionID := trim (ex_SessionID p) in
        if bool_decide (sessionID = "") then
          match newTerminalSessionIDFn with
          | Some (Ok created) =>
              let sessionID := trim created in
              if bool_decide (sessionID = "") then Err (StatusError Internal "failed to create session_id")
              else scoped sessionID true
          | _ => Err (StatusError Internal "failed to create session_id")
          end
        else match validateExternalTerminalSessionID sessionID with
             | Err e => Err e
             | Ok _ => scoped sessionID (ex_CreateIfMissing p)
             end
    end
  else if bool_decide (capability = taskCapabilityTerminalResource) then
    match unmarshal_resource inputJSON with
    | None => Ok inputJSON
    | Some p =>
        let sessionID := trim (rs_SessionID p) in
        if bool_decide (sessionID = "") then Ok inputJSON else
        match validateExternalTerminalSessionID sessionID with
        | Err e => Err e
        | Ok _ => Ok (marshal_resource (mkResource (scopeTerminalSessionID normalizedOwnerID sessionID)
                    (rs_FilePath p) (rs_Action p) (rs_SignedURL p)
                    (filterTerminalResourceUploadHeaders (rs_Headers p))))
        end
    end
  else Ok inputJSON.

(** [None] is the result [(nil, false)]. *)
Definition restoreTaskResultOwnerScope (ownerID capability : string) (resultJSON : payload) : option payload :=
  let normalizedOwnerID := normalizeTaskOwnerID ownerID in
  if bool_decide (normalizedOwnerID = "") || payload_empty resultJSON then Some resultJSON else
  if negb (bool_decide (capability = taskCapabilityTerminalExec)) &&
     negb (bool_decide (capability = taskCapabilityTerminalResource)) then Some resultJSON else
  match unmarshal_map resultJSON with
  | None => Some resultJSON
  | Some decoded =>
      match default ∅ decoded !! "session_id" with
      | Some (JString sessionID) =>
          match unscopeTerminalSessionID normalizedOwnerID sessionID with
          | None => None
          | Some externalSessionID =>
              Some (marshal_map (<["session_id" := JString externalSessionID]> (default ∅ decoded)))
          end
      | _ => Some resultJSON
      end
  end.

(** ** Lemmas *)

(** An owner id that the scoped form can represent: not blank, no separator. *)
Definition good_owner (o : string) : Prop :=
  trim o <> "" /\ contains_char taskOwnerScopeSeparator (trim o) = false.

Section scope_lemmas.

Lemma scope_unfold o s :
  trim o <> "" -> trim s <> "" ->
  scopeTerminalSessionID o s = join_sep taskOwnerScopePrefix (join_sep (trim o) (trim s)).
Proof.
  intros Ho Hs. unfold scopeTerminalSessionID, normalizeTaskOwnerID. by rewrite !bool_decide_false.
Qed.

Lemma join_assoc a b c : join_sep a (join_sep b c) = join_sep (join_sep a b) c.
Proof. unfold join_sep. by rewrite string_app_assoc, string_app_cons. Qed.

Lemma scope_prefix_join o s : scope_prefix o +:+ s = join_sep taskOwnerScopePrefix (join_sep o s).
Proof. unfold scope_prefix, join_sep. by rewrite !string_app_assoc, string_app_cons, string_app_assoc, string_app_cons, string_app_nil_l. Qed.

Lemma scoped_trimmed o s :
  trim s = s -> s <> "" ->
  trim (join_sep taskOwnerScopePrefix (join_sep o s)) = join_sep taskOwnerScopePrefix (join_sep o s).
Proof.
  intros Hs Hne. rewrite join_assoc. unfold join_sep at 1 3.
  apply trimmed_join; [done..|].
  unfold join_sep, taskOwnerScopePrefix. rewrite !string_app_cons. by apply no_lead_plain.
Qed.

Lemma scope_trim o s : scopeTerminalSessionID (trim o) (trim s) = scopeTerminalSessionID o s.
Proof. unfold scopeTerminalSessionID, normalizeTaskOwnerID. by rewrite !trim_trim. Qed.

Lemma trim_scope o s :
  trim o <> "" -> trim s <> "" -> trim (scopeTerminalSessionID o s) = scopeTerminalSessionID o s.
Proof. intros Ho Hs. rewrite scope_unfold by done. apply scoped_trimmed; [apply trim_trim|done]. Qed.

Lemma scope_nonempty o s : trim o <> "" -> trim s <> "" -> scopeTerminalSessionID o s <> "".
Proof.
  intros Ho Hs. rewrite scope_unfold by done. unfold join_sep, taskOwnerScopePrefix. by rewrite string_app_cons.
Qed.

Lemma split_scoped o s :
  contains_char taskOwnerScopeSeparator o = false ->
  split_n 3 taskOwnerScopeSeparator (join_sep taskOwnerScopePrefix (join_sep o s)) =
  [taskOwnerScopePrefix; o; s].
Proof.
  intros Ho. cbn [split_n]. unfold join_sep at 1. rewrite cut_app by reflexivity.
  unfold join_sep. by rewrite cut_app.
Qed.

Lemma parse_scope o s :
  good_owner o -> trim s <> "" ->
  parseScopedTerminalSessionID (scopeTerminalSessionID o s) = Some (trim o, trim s).
Proof.
  intros [Ho Hc] Hs. unfold parseScopedTerminalSessionID.
  rewrite trim_scope, scope_unfold, split_scoped by done.
  rewrite !trim_trim, (bool_decide_true (_ = taskOwnerScopePrefix)) by done. by rewrite !bool_decide_false.
Qed.

Lemma parse_scoped_inv x o s :
  parseScopedTerminalSessionID x = Some (o, s) ->
  isValidPersistedTerminalSessionID x = true /\ trim o = o /\ o <> "" /\ trim s = s /\ s <> "".
Proof.
  unfold parseScopedTerminalSessionID, isValidPersistedTerminalSessionID. intros H.
  repeat case_match; simplify_eq. bool_prop. subst.
  rewrite !trim_trim, (bool_decide_true (_ = taskOwnerScopePrefix)) by done. by rewrite !bool_decide_false.
Qed.

Lemma unscope_scope o s :
  trim s <> "" -> unscopeTerminalSessionID o (scopeTerminalSessionID o s) = Some (trim s).
Proof.
  intros Hs. unfold unscopeTerminalSessionID, normalizeTaskOwnerID.
  destruct (decide (trim o = "")) as [Ho|Ho].
  - unfold scopeTerminalSessionID, normalizeTaskOwnerID. rewrite Ho.
    rewrite (bool_decide_true ("" = "")) by done. cbn [orb]. by rewrite trim_trim, bool_decide_false.
  - rewrite trim_scope, (bool_decide_false (trim o = "")), (bool_decide_false (_ = ""))
      by auto using scope_nonempty.
    rewrite scope_unfold, <- scope_prefix_join, has_prefix_app, trim_prefix_app, trim_trim by done.
    cbn [negb]. by rewrite bool_decide_false.
Qed.

(** What [unscope] accepts is exactly the owner's name space. *)
Lemma unscope_inv o x s :
  trim o <> "" -> unscopeTerminalSessionID o x = Some s ->
  exists s', trim x = join_sep taskOwnerScopePrefix (join_sep (trim o) s') /\ s = trim s' /\ s <> "".
Proof.
  unfold unscopeTerminalSessionID, normalizeTaskOwnerID. intros Ho H.
  rewrite (bool_decide_false (trim o = "")) in H by done. repeat case_match; simplify_eq.
  bool_prop. exists (trim_prefix (scope_prefix (trim o)) (trim x)).
  rewrite <- scope_prefix_join. split; [by apply has_prefix_inv|done].
Qed.

Lemma join_scope_inj o o' s s' :
  contains_char taskOwnerScopeSeparator o = false -> contains_char taskOwnerScopeSeparator o' = false ->
  join_sep taskOwnerScopePrefix (join_sep o s) = join_sep taskOwnerScopePrefix (join_sep o' s') ->
  o = o' /\ s = s'.
Proof.
  intros Ho Ho' [_ E]%string_app_inj_sep; [|done..]. by apply string_app_inj_sep in E.
Qed.

Lemma fold_headers (l : list (string * string)) (m : gmap string string) :
  foldl (fun acc kv => let '(m, bad) := acc in let '(s, bad') := dec_string kv.2 "" in
           (<[kv.1 := s]> m, bad || bad')) (m, false) ((fun kv => (kv.1, JString kv.2)) <$> l) =
  (foldl (fun m kv => <[kv.1 := kv.2]> m) m l, false).
Proof. revert m. induction l as [|[k v] l IH]; intros m; cbn; [done|]. by rewrite IH. Qed.

Lemma fold_insert_lookup {V} (l : list (string * V)) (m : gmap string V) k :
  NoDup l.*1 ->
  foldl (fun m kv => <[kv.1 := kv.2]> m) m l !! k =
  match (list_to_map l : gmap string V) !! k with Some v => Some v | None => m !! k end.
Proof.
  revert m. induction l as [|[k' v'] l IH]; intros m; cbn; [done|].
  intros [Hk Hl]%NoDup_cons. rewrite IH by done. destruct (decide (k = k')) as [->|Hne].
  - rewrite lookup_insert_eq. rewrite not_elem_of_list_to_map_1 by done. by rewrite lookup_insert_eq.
  - by rewrite !lookup_insert_ne.
Qed.

Lemma fold_insert_sorted {V} (m : gmap string V) le `{!RelDecision le} :
  foldl (fun m kv => <[kv.1 := kv.2]> m) ∅ (merge_sort le (map_to_list m)) = m.
Proof.
  assert (merge_sort le (map_to_list m) ≡ₚ map_to_list m) as Hp by apply merge_sort_Permutation.
  apply map_eq. intros k. rewrite fold_insert_lookup.
  - rewrite lookup_empty, (list_to_map_proper _ (map_to_list m)), list_to_map_to_list; [by destruct (m !! k)| |done].
    rewrite Hp. apply NoDup_fst_map_to_list.
  - rewrite Hp. apply NoDup_fst_map_to_list.
Qed.

Lemma to_map_marshal m ms : marshal_map m = PJson (JObject ms) -> to_map ms = m.
Proof. intros [= <-]. apply fold_insert_sorted. Qed.

(** Resolves the field a literal member name selects. *)
Ltac resolve_fields :=
  repeat match goal with
  | |- context [exec_field ?k] =>
      let f := eval cbv -[dec_string dec_bool dec_int_ptr] in (exec_field k) in
      change (exec_field k) with f
  | |- context [resource_field ?k] =>
      let f := eval cbv -[dec_string dec_string_map] in (resource_field k) in
      change (resource_field k) with f
  end.

(** A worker decodes the payload the console encoded. *)
Lemma unmarshal_marshal_exec p :
  (forall z, ex_LeaseTTLSec p = Some z -> is_i64 z = true) -> unmarshal_exec (marshal_exec p) = Some p.
Proof.
  destruct p as [cmd sid cr ttl]. cbn. intros Hz. unfold unmarshal_exec, marshal_exec, unmarshal_struct, dec_fields.
  cbn [ex_Command ex_SessionID ex_CreateIfMissing ex_LeaseTTLSec].
  destruct (decide (sid = "")) as [->|]; [rewrite bool_decide_true by done|rewrite bool_decide_false by done];
    destruct cr, ttl as [z|]; unfold omit_if;
    cbn [negb app foldl fst snd]; resolve_fields; cbn -[is_i64]; rewrite ?(Hz _ eq_refl); done.
Qed.

Lemma unmarshal_marshal_resource p :
  rs_Headers p <> Some ∅ -> unmarshal_resource (marshal_resource p) = Some p.
Proof.
  destruct p as [sid path act url hs]. cbn. intros Hh.
  unfold unmarshal_resource, marshal_resource, unmarshal_struct, dec_fields.
  cbn [rs_SessionID rs_FilePath rs_Action rs_SignedURL rs_Headers].
  destruct (decide (act = "")) as [->|]; [rewrite bool_decide_true by done|rewrite bool_decide_false by done];
    (destruct (decide (url = "")) as [->|]; [rewrite bool_decide_true by done|rewrite bool_decide_false by done]);
    (destruct hs as [m|]; [rewrite (bool_decide_false (m = ∅)) by congruence|]);
    unfold omit_if, marshal_headers; cbn [app foldl fst snd]; resolve_fields; cbn -[merge_sort]; try done;
    rewrite fold_headers;
    exact (f_equal (fun h => Some (mkResource _ _ _ _ (Some h))) (fold_insert_sorted m _)).
Qed.

Lemma filter_headers_allowed h m :
  filterTerminalResourceUploadHeaders h = Some m -> m <> ∅ /\
  forall k v, m !! k = Some v -> exists n,
    k = canonicalTerminalResourceUploadHeaderName n /\ isAllowedTerminalResourceUploadHeader n = true /\
    exists n0, to_lower (trim n0) = n /\ default ∅ h !! n0 = Some v.
Proof.
  unfold filterTerminalResourceUploadHeaders. case_match eqn:E; [done|]. bool_prop. intros [= <-]. split; [done|].
  clear E. set (P := fun (f : gmap string string) => forall k v, f !! k = Some v -> exists n,
    k = canonicalTerminalResourceUploadHeaderName n /\ isAllowedTerminalResourceUploadHeader n = true /\
    exists n0, to_lower (trim n0) = n /\ default ∅ h !! n0 = Some v).
  assert (forall l f, (forall kv, kv ∈ l -> default ∅ h !! kv.1 = Some kv.2) -> P f -> P (foldl filter_header f l)) as Hl.
  { intros l. induction l as [|kv l IH]; intros f Hin Hf; cbn; [done|].
    apply IH; [intros; apply Hin; by right|]. unfold filter_header. case_match; [done|]. case_match eqn:Ea; [done|].
    bool_prop. intros k v. rewrite lookup_insert. case_decide; [|by apply Hf]. intros [= <-].
    eexists. split_and!; [done..|]. exists kv.1. split; [done|]. apply Hin. by left. }
  apply Hl; [|by intros ? ?].
  intros [k v] ?%elem_of_map_to_list. done.
Qed.

Lemma unmarshal_exec_lease input p z :
  unmarshal_exec input = Some p -> ex_LeaseTTLSec p = Some z -> is_i64 z = true.
Proof.
  set (P := fun q => forall z, ex_LeaseTTLSec q = Some z -> is_i64 z = true).
  assert (forall ms q bad, P q -> P (foldl (fun acc kv => let '(s, bad) := acc in
    match exec_field kv.1 with
    | Some dec => let '(s', bad') := dec kv.2 s in (s', bad || bad')
    | None => (s, bad)
    end) (q, bad) ms).1) as Hfold.
  { intros ms. induction ms as [|[k v] ms IH]; intros q bad Hq; cbn -[is_i64]; [done|].
    destruct (exec_field k) as [dec|] eqn:Ek; [|by apply IH].
    destruct (dec v q) as [q' bad'] eqn:Ed. apply IH. unfold exec_field in Ek.
    repeat case_match; simplify_eq; intros z'; cbn -[is_i64]; try apply Hq; try done.
    all: try (destruct v; cbn -[is_i64] in *; simplify_eq; by auto).
    destruct v; cbn -[is_i64] in *; simplify_eq; try done;
      try (intros [= <-]; destruct (ex_LeaseTTLSec q) eqn:Eq; cbn -[is_i64] in *; [by apply Hq|done]).
    destruct (is_i64 z0) eqn:Ez; simplify_eq; intros [= <-]; [done|].
    destruct (ex_LeaseTTLSec q) eqn:Eq; cbn -[is_i64] in *; [by apply Hq|done]. }
  unfold unmarshal_exec, unmarshal_struct, dec_fields. intros H. revert z.
  repeat case_match; simplify_eq; [by intros ?|].
  match goal with E : foldl _ (?z, _) ?ms = _ |- _ => specialize (Hfold ms z false); rewrite E in Hfold end.
  by apply Hfold.
Qed.

End scope_lemmas.

(** ** Properties *)

(** Scoping a client's session id under its owner and
    parsing or unscoping the result gives back the owner and the session, and
    the scoped id is one the restore from the database accepts. *)
Theorem scoped_session_round_trip (o s : string) :
  good_owner o -> trim s <> "" ->
  parseScopedTerminalSessionID (scopeTerminalSessionID o s) = Some (trim o, trim s) /\
  unscopeTerminalSessionID o (scopeTerminalSessionID o s) = Some (trim s) /\
  isValidPersistedTerminalSessionID (scopeTerminalSessionID o s) = true.
Proof.
  intros Ho Hs. split_and!; [by apply parse_scope|by apply unscope_scope|].
  eapply parse_scoped_inv. by apply parse_scope.
Qed.

Lemma scoped_session_round_trip_witness :
  parseScopedTerminalSessionID (scopeTerminalSessionID " acc_1 " "s:1") = Some ("acc_1", "s:1") /\
  unscopeTerminalSessionID " acc_1 " (scopeTerminalSessionID " acc_1 " "s:1") = Some "s:1" /\
  isValidPersistedTerminalSessionID (scopeTerminalSessionID " acc_1 " "s:1") = true.
Proof. apply (scoped_session_round_trip " acc_1 " "s:1"); by vm_compute. Defined.

(** Two owners never share a scoped session id, whatever
    session ids they choose, and one owner cannot unscope another's. *)
Theorem owners_have_disjoint_sessions (o o' s s' : string) :
  good_owner o -> good_owner o' -> trim s <> "" -> trim s' <> "" -> trim o <> trim o' ->
  scopeTerminalSessionID o s <> scopeTerminalSessionID o' s' /\
  unscopeTerminalSessionID o' (scopeTerminalSessionID o s) = None.
Proof.
  intros [Ho Hc] [Ho' Hc'] Hs Hs' Hne. split.
  - rewrite !scope_unfold by done. by intros [? _]%join_scope_inj.
  - destruct (unscopeTerminalSessionID o' _) as [x|] eqn:E; [|done].
    apply unscope_inv in E as (s1&E&_); [|done].
    rewrite trim_scope, scope_unfold in E by done. by apply join_scope_inj in E as [? _].
Qed.

Lemma owners_have_disjoint_sessions_witness :
  scopeTerminalSessionID "alice" "bob:s" <> scopeTerminalSessionID "bob" "s" /\
  unscopeTerminalSessionID "bob" (scopeTerminalSessionID "alice" "bob:s") = None.
Proof. apply (owners_have_disjoint_sessions "alice" "bob" "bob:s" "s"); by vm_compute. Defined.

(** The separator in an owner id would break it: session ids may contain it. *)
Example owner_with_separator_collides :
  scopeTerminalSessionID "a:b" "c" = scopeTerminalSessionID "a" "b:c".
Proof. reflexivity. Qed.

Lemma exec_input_scoped newID o input p out :
  trim o <> "" -> unmarshal_exec input = Some p ->
  scopeTaskInputByOwner newID taskCapabilityTerminalExec o input = Ok out ->
  exists s create,
    trim s <> "" /\
    unmarshal_exec out = Some (mkExec (ex_Command p) (scopeTerminalSessionID o s) create (ex_LeaseTTLSec p)) /\
    if bool_decide (trim (ex_SessionID p) = "")
    then newID = Some (Ok s) /\ create = true
    else s = trim (ex_SessionID p) /\ create = ex_CreateIfMissing p /\
         externalTerminalSessionIDPattern s = true.
Proof.
  intros Ho Hp. unfold scopeTaskInputByOwner, normalizeTaskOwnerID.
  rewrite (bool_decide_false (trim o = "")), Hp, (bool_decide_true (taskCapabilityTerminalExec = _)) by done.
  destruct (payload_empty input) eqn:Ei; [by destruct input|]. cbn [orb].
  pose proof (fun z => unmarshal_exec_lease _ _ z Hp) as Hz.
  assert (forall s c, unmarshal_exec (marshal_exec (mkExec (ex_Command p) (scopeTerminalSessionID (trim o) (trim s)) c
    (ex_LeaseTTLSec p))) = Some (mkExec (ex_Command p) (scopeTerminalSessionID o s) c (ex_LeaseTTLSec p))) as Hrt.
  { intros s c. rewrite scope_trim. apply unmarshal_marshal_exec, Hz. }
  case_match eqn:Es.
  - intros H. repeat case_match; simplify_eq. bool_prop. eexists _, _. split_and!; [|apply Hrt|done..]. done.
  - unfold validateExternalTerminalSessionID. destruct (externalTerminalSessionIDPattern _) eqn:Epat; intros; simplify_eq.
    bool_prop. exists (trim (ex_SessionID p)), (ex_CreateIfMissing p). rewrite <- (trim_trim (ex_SessionID p)) at 2.
    split_and!; [by rewrite trim_trim|apply Hrt|done..].
Qed.

(** A decodable terminalExec input that is accepted for an owner
    reaches the worker with the same command and lease, and with a session id
    scoped to that owner: the client's own id if it gave one (which then
    matches the pattern for session ids), otherwise a fresh one, with
    [create_if_missing] set. *)
Theorem terminal_exec_input_is_scoped newID o input p out :
  trim o <> "" -> unmarshal_exec input = Some p ->
  scopeTaskInputByOwner newID taskCapabilityTerminalExec o input = Ok out ->
  exists s create,
    trim s <> "" /\
    unmarshal_exec out = Some (mkExec (ex_Command p) (scopeTerminalSessionID o s) create (ex_LeaseTTLSec p)) /\
    if bool_decide (trim (ex_SessionID p) = "")
    then newID = Some (Ok s) /\ create = true
    else s = trim (ex_SessionID p) /\ create = ex_CreateIfMissing p /\
         externalTerminalSessionIDPattern s = true.
Proof. apply exec_input_scoped. Qed.

Lemma terminal_exec_input_is_scoped_witness :
  exists s create, trim s <> "" /\
    unmarshal_exec (PJson (JObject [("command", JString "ls"); ("session_id", JString "obx:alice:s1");
                                    ("lease_ttl_sec", JInt 60)])) =
      Some (mkExec "ls" (scopeTerminalSessionID "alice" s) create (Some 60)) /\
    if bool_decide (trim "s1" = "")
    then None = Some (Ok s) /\ create = true
    else s = trim "s1" /\ create = false /\ externalTerminalSessionIDPattern s = true.
Proof.
  apply (terminal_exec_input_is_scoped None "alice"
    (PJson (JObject [("COMMAND", JString "ls"); ("session_id", JString "s1"); ("lease_ttl_sec", JInt 60)]))
    (mkExec "ls" "s1" false (Some 60))); by vm_compute.
Defined.

Lemma resource_input_scoped newID o input p :
  trim o <> "" -> unmarshal_resource input = Some p -> trim (rs_SessionID p) <> "" ->
  match scopeTaskInputByOwner newID taskCapabilityTerminalResource o input with
  | Err e => status_code e = InvalidArgument /\
             externalTerminalSessionIDPattern (trim (rs_SessionID p)) = false
  | Ok out => exists headers,
      externalTerminalSessionIDPattern (trim (rs_SessionID p)) = true /\
      unmarshal_resource out = Some (mkResource (scopeTerminalSessionID o (rs_SessionID p))
        (rs_FilePath p) (rs_Action p) (rs_SignedURL p) headers) /\
      forall k v, default ∅ headers !! k = Some v -> exists n,
        k = canonicalTerminalResourceUploadHeaderName n /\ isAllowedTerminalResourceUploadHeader n = true /\
        exists n0, to_lower (trim n0) = n /\ default ∅ (rs_Headers p) !! n0 = Some v
  end.
Proof.
  intros Ho Hp Hs. unfold scopeTaskInputByOwner, normalizeTaskOwnerID.
  rewrite (bool_decide_false (trim o = "")), Hp, (bool_decide_false (taskCapabilityTerminalResource = _)),
    (bool_decide_true (taskCapabilityTerminalResource = _)), (bool_decide_false (trim (rs_SessionID p) = "")) by done.
  destruct (payload_empty input) eqn:Ei; [by destruct input|]. cbn [orb].
  unfold validateExternalTerminalSessionID. destruct (externalTerminalSessionIDPattern _) eqn:Epat; [|done].
  exists (filterTerminalResourceUploadHeaders (rs_Headers p)). split; [done|].
  destruct (filterTerminalResourceUploadHeaders (rs_Headers p)) as [m|] eqn:Ef.
  - apply filter_headers_allowed in Ef as [Hm Hall]. split; [|done].
    rewrite scope_trim. apply unmarshal_marshal_resource. cbn. congruence.
  - split; [rewrite scope_trim; by apply unmarshal_marshal_resource|]. by intros k v.
Qed.

(** A decodable terminalResource input with a session id is
    either refused or reaches the worker with the session scoped to the owner
    and with no upload header outside the allowed set; the headers that remain
    carry the client's values. *)
Theorem terminal_resource_input_is_scoped newID o input p :
  trim o <> "" -> unmarshal_resource input = Some p -> trim (rs_SessionID p) <> "" ->
  match scopeTaskInputByOwner newID taskCapabilityTerminalResource o input with
  | Err e => status_code e = InvalidArgument /\
             externalTerminalSessionIDPattern (trim (rs_SessionID p)) = false
  | Ok out => exists headers,
      externalTerminalSessionIDPattern (trim (rs_SessionID p)) = true /\
      unmarshal_resource out = Some (mkResource (scopeTerminalSessionID o (rs_SessionID p))
        (rs_FilePath p) (rs_Action p) (rs_SignedURL p) headers) /\
      forall k v, default ∅ headers !! k = Some v -> exists n,
        k = canonicalTerminalResourceUploadHeaderName n /\ isAllowedTerminalResourceUploadHeader n = true /\
        exists n0, to_lower (trim n0) = n /\ default ∅ (rs_Headers p) !! n0 = Some v
  end.
Proof. apply resource_input_scoped. Qed.

Lemma terminal_resource_input_is_scoped_witness :
  match scopeTaskInputByOwner None taskCapabilityTerminalResource "alice"
    (PJson (JObject [("session_id", JString "s1"); ("file_path", JString "/a");
      ("headers", JObject [("Content-MD5", JString "x"); ("Authorization", JString "y")])])) with
  | Err e => status_code e = InvalidArgument /\ externalTerminalSessionIDPattern (trim "s1") = false
  | Ok out => exists headers,
      externalTerminalSessionIDPattern (trim "s1") = true /\
      unmarshal_resource out = Some (mkResource (scopeTerminalSessionID "alice" "s1") "/a" "" "" headers) /\
      forall k v, default ∅ headers !! k = Some v -> exists n,
        k = canonicalTerminalResourceUploadHeaderName n /\ isAllowedTerminalResourceUploadHeader n = true /\
        exists n0, to_lower (trim n0) = n /\
          (<["Content-MD5" := "x"]> (<["Authorization" := "y"]> ∅) : gmap string string) !! n0 = Some v
  end.
Proof.
  exact (terminal_resource_input_is_scoped None "alice"
    (PJson (JObject [("session_id", JString "s1"); ("file_path", JString "/a");
      ("headers", JObject [("Content-MD5", JString "x"); ("Authorization", JString "y")])]))
    (mkResource "s1" "/a" "" "" (Some (<["Content-MD5" := "x"]> (<["Authorization" := "y"]> ∅))))
    ltac:(by vm_compute) ltac:(by vm_compute) ltac:(by vm_compute)).
Defined.

(** A result that names a session of [o'], read for [o]. *)
Lemma restore_scope (o o' s cap : string) (ms : list (string * json)) :
  good_owner o -> good_owner o' -> trim s <> "" ->
  cap = taskCapabilityTerminalExec \/ cap = taskCapabilityTerminalResource ->
  to_map ms !! "session_id" = Some (JString (scopeTerminalSessionID o' s)) ->
  if bool_decide (trim o = trim o')
  then exists ms', restoreTaskResultOwnerScope o cap (PJson (JObject ms)) = Some (PJson (JObject ms')) /\
                   to_map ms' = <["session_id" := JString (trim s)]> (to_map ms)
  else restoreTaskResultOwnerScope o cap (PJson (JObject ms)) = None.
Proof.
  intros [Ho Hc] [Ho' Hc'] Hs Hcap Hsid. unfold restoreTaskResultOwnerScope, normalizeTaskOwnerID.
  rewrite (bool_decide_false (trim o = "")) by done. cbn [orb payload_empty].
  assert (negb (bool_decide (cap = taskCapabilityTerminalExec)) &&
          negb (bool_decide (cap = taskCapabilityTerminalResource)) = false) as ->
    by (destruct Hcap as [-> | ->]; reflexivity).
  cbn [unmarshal_map]. change (default ∅ (Some (to_map ms))) with (to_map ms). rewrite Hsid. case_bool_decide as Eo.
  - assert (scopeTerminalSessionID o' s = scopeTerminalSessionID (trim o) s) as ->
      by (rewrite !scope_unfold, trim_trim by (rewrite ?trim_trim; done); by rewrite Eo).
    rewrite unscope_scope by done. unfold marshal_map. eexists. split; [done|]. by eapply to_map_marshal.
  - destruct (unscopeTerminalSessionID _ _) as [x|] eqn:E; [|done].
    apply unscope_inv in E as (s1&E&_); [|by rewrite trim_trim].
    rewrite trim_scope, scope_unfold, trim_trim in E by done. by apply join_scope_inj in E as [? _].
Qed.

(** A terminal result that names a session of owner [o'] is
    shown to owner [o] only if they are the same, and then with the client's
    own session id in place of the scoped one and every other member kept. *)
Theorem task_result_scope_is_restored (o o' s cap : string) (ms : list (string * json)) :
  good_owner o -> good_owner o' -> trim s <> "" ->
  cap = taskCapabilityTerminalExec \/ cap = taskCapabilityTerminalResource ->
  to_map ms !! "session_id" = Some (JString (scopeTerminalSessionID o' s)) ->
  if bool_decide (trim o = trim o')
  then exists ms', restoreTaskResultOwnerScope o cap (PJson (JObject ms)) = Some (PJson (JObject ms')) /\
                   to_map ms' = <["session_id" := JString (trim s)]> (to_map ms)
  else restoreTaskResultOwnerScope o cap (PJson (JObject ms)) = None.
Proof. apply restore_scope. Qed.

Lemma task_result_scope_is_restored_witness :
  if bool_decide (trim "bob" = trim "alice")
  then exists ms', restoreTaskResultOwnerScope "bob" taskCapabilityTerminalExec
          (PJson (JObject [("stdout", JString "x"); ("session_id", JString "obx:alice:s1")])) = Some (PJson (JObject ms')) /\
          to_map ms' = <["session_id" := JString (trim "s1")]>
            (to_map [("stdout", JString "x"); ("session_id", JString "obx:alice:s1")])
  else restoreTaskResultOwnerScope "bob" taskCapabilityTerminalExec
          (PJson (JObject [("stdout", JString "x"); ("session_id", JString "obx:alice:s1")])) = None.
Proof.
  apply (task_result_scope_is_restored "bob" "alice" "s1"); [by vm_compute..|by left|by vm_compute].
Defined.

End OwnerScope.
Export OwnerScope.
