(* ===== verification/Net.v ===== *)
(** net and net/netip as the console and the workers use them: parsing,
    classifying and printing IP addresses, CIDR prefixes, and host:port pairs.

    An address is its number: 32 bits ([V4]) or 128 bits ([V6], with its zone). *)
From S2P Require Import Prelude.

Module Net.

Inductive Addr := V4 (n : Z) | V6 (n : Z) (zone : string).

#[export] Instance Addr_eq_dec : EqDecision Addr.
Proof. solve_decision. Defined.

Definition is_digit (a : ascii) : bool := (48 <=? byte a) && (byte a <=? 57).

(** ** [netip.ParseAddr] *)

(** [parseIPv4Fields]: [first] at the start of the text, [prev_dot] right after a
    dot; [fields] are the octets read so far, the last one first. *)
Fixpoint parse_v4_fields (s : string) (start : bool) (prev_dot : bool) (val : Z) (digits : nat) (fields : list Z)
    : option (list Z) :=
  match s with
  | EmptyString => if (length fields <? 3)%nat then None else Some (val :: fields)
  | String a rest =>
      if is_digit a then
        if bool_decide (digits = 1%nat) && (val =? 0) then None else
        let val := val * 10 + (byte a - 48) in
        if 255 <? val then None else parse_v4_fields rest false false val (S digits) fields
      else if Ascii.eqb a "." then
        if start || bool_decide (rest = "") || prev_dot then None else
        if bool_decide (length fields = 3%nat) then None else
        parse_v4_fields rest false true 0 0 (val :: fields)
      else None
  end.

Definition v4_number (fields : list Z) : Z := foldr (fun f acc => f + 256 * acc) 0 fields.

Definition parse_v4 (s : string) : option Z := v4_number <$> parse_v4_fields s true false 0 0 [].

Definition hex_value (a : ascii) : option Z :=
  let b := byte a in
  if is_digit a then Some (b - 48)
  else if (97 <=? b) && (b <=? 102) then Some (b - 87)
  else if (65 <=? b) && (b <=? 70) then Some (b - 55) else None.

(** The hexadecimal digits at the start of [s]: their number, their value (at
    most four digits, otherwise [None]) and what follows. *)
Fixpoint hex_group (s : string) (off : nat) (acc : Z) : option (nat * Z * string) :=
  match s with
  | String a rest =>
      match hex_value a with
      | Some d => if (3 <? off)%nat then None else hex_group rest (S off) (acc * 16 + d)
      | None => Some (off, acc, s)
      end
  | EmptyString => Some (off, acc, s)
  end.

(** The loop of [parseIPv6] over 16-bit groups ([groups], the last one first; an
    embedded IPv4 address counts for two); [ellipsis]: how many groups were
    before the [::]. At most eight rounds. *)
Fixpoint parse_v6_groups (rounds : nat) (s : string) (groups : list Z) (ellipsis : option nat)
    : option (list Z * option nat) :=
  match rounds with
  | O => if bool_decide (s = "") then Some (groups, ellipsis) else None
  | S rounds =>
      if (8 <=? length groups)%nat then (if bool_decide (s = "") then Some (groups, ellipsis) else None) else
      match hex_group s 0 0 with
      | None => None
      | Some (off, acc, rest) =>
          if bool_decide (off = 0%nat) then None else
          match rest with
          | EmptyString => Some (acc :: groups, ellipsis)
          | String a rest' =>
              if Ascii.eqb a "." then
                if bool_decide (ellipsis = None) && negb (bool_decide (length groups = 6%nat)) then None else
                if (6 <? length groups)%nat then None else
                match parse_v4 s with
                | Some n => Some (n mod 65536 :: n / 65536 :: groups, ellipsis)
                | None => None
                end
              else if negb (Ascii.eqb a ":") then None else
              match rest' with
              | EmptyString => None
              | String b rest'' =>
                  if Ascii.eqb b ":" then
                    match ellipsis with
                    | Some _ => None
                    | None =>
                        let groups := acc :: groups in
                        if bool_decide (rest'' = "") then Some (groups, Some (length groups))
                        else parse_v6_groups rounds rest'' groups (Some (length groups))
                    end
                  else parse_v6_groups rounds rest' (acc :: groups) ellipsis
              end
          end
      end
  end.

Definition v6_number (groups : list Z) : Z := foldl (fun acc g => acc * 65536 + g) 0 groups.

(** [groups] in order, with the zeros of the ellipsis. *)
Definition expand_groups (groups : list Z) (ellipsis : option nat) : option (list Z) :=
  let n := length groups in
  match ellipsis with
  | None => if bool_decide (n = 8%nat) then Some groups else None
  | Some e => if (n <? 8)%nat then Some (take e groups ++ replicate (8 - n) 0 ++ drop e groups) else None
  end.

Definition parse_v6 (s : string) : option Addr :=
  let '(s, zone) := cut "%" s in
  if bool_decide (zone = Some "") then None else
  let zone := default "" zone in
  let '(s, ellipsis) := match s with
                        | String a (String b rest) =>
                            if Ascii.eqb a ":" && Ascii.eqb b ":" then (rest, Some 0%nat) else (s, None)
                        | _ => (s, None)
                        end in
  if bool_decide (ellipsis = Some 0%nat) && bool_decide (s = "") then Some (V6 0 zone) else
  match parse_v6_groups 8 s [] ellipsis with
  | Some (groups, ellipsis) => (fun gs => V6 (v6_number gs) zone) <$> expand_groups (reverse groups) ellipsis
  | None => None
  end.

(** The first of the three characters decides. *)
Fixpoint addr_kind (s : string) : option ascii :=
  match s with
  | EmptyString => None
  | String a s => if Ascii.eqb a "." || Ascii.eqb a ":" || Ascii.eqb a "%" then Some a else addr_kind s
  end.

Definition ParseAddr (s : string) : option Addr :=
  match addr_kind s with
  | Some a => if Ascii.eqb a "." then V4 <$> parse_v4 s else if Ascii.eqb a ":" then parse_v6 s else None
  | None => None
  end.

(** ** Classification *)
Definition octet (n : Z) (i : Z) : Z := (n / 256 ^ i) mod 256.

Definition Zone (a : Addr) : string := match a with V4 _ => "" | V6 _ z => z end.

Definition Unmap (a : Addr) : Addr :=
  match a with
  | V6 n _ => if n / 2 ^ 32 =? 0xffff then V4 (n mod 2 ^ 32) else a
  | V4 _ => a
  end.

Definition IsUnspecified (a : Addr) : bool := bool_decide (a = V4 0) || bool_decide (a = V6 0 "").

Definition IsLoopback (a : Addr) : bool :=
  match Unmap a with V4 n => octet n 3 =? 127 | V6 n _ => n =? 1 end.
Definition IsMulticast (a : Addr) : bool :=
  match Unmap a with V4 n => Z.land (octet n 3) 0xf0 =? 0xe0 | V6 n _ => n / 2 ^ 120 =? 0xff end.
Definition IsLinkLocalUnicast (a : Addr) : bool :=
  match Unmap a with
  | V4 n => (octet n 3 =? 169) && (octet n 2 =? 254)
  | V6 n _ => Z.land (n / 2 ^ 112) 0xffc0 =? 0xfe80
  end.

Definition IsGlobalUnicast (a : Addr) : bool :=
  if bool_decide (a = V4 0) || bool_decide (a = V4 (2 ^ 32 - 1)) then false
  else negb (bool_decide (a = V6 0 "")) && negb (IsLoopback a) && negb (IsMulticast a) && negb (IsLinkLocalUnicast a).

(** ** [Addr.String] *)
Definition digit_char (d : Z) : ascii := ascii_of_nat (Z.to_nat (48 + d)).

Definition dec_octet (b : Z) : string :=
  if 100 <=? b then String (digit_char (b / 100)) (String (digit_char ((b / 10) mod 10)) (String (digit_char (b mod 10)) ""))
  else if 10 <=? b then String (digit_char (b / 10)) (String (digit_char (b mod 10)) "")
  else String (digit_char b) "".

Definition print_v4 (n : Z) : string :=
  dec_octet (octet n 3) +:+ "." +:+ dec_octet (octet n 2) +:+ "." +:+ dec_octet (octet n 1) +:+ "." +:+ dec_octet (octet n 0).

Definition hex_char (d : Z) : ascii := ascii_of_nat (Z.to_nat (if d <? 10 then 48 + d else 87 + d)).

Definition hex_group16 (g : Z) : string :=
  let d i := hex_char ((g / 16 ^ i) mod 16) in
  if 0x1000 <=? g then String (d 3) (String (d 2) (String (d 1) (String (d 0) "")))
  else if 0x100 <=? g then String (d 2) (String (d 1) (String (d 0) ""))
  else if 0x10 <=? g then String (d 1) (String (d 0) "") else String (d 0) "".

Definition group_of (n : Z) (i : nat) : Z := (n / 65536 ^ (7 - Z.of_nat i)) mod 65536.

(** The zeros at the start of [gs]. *)
Fixpoint zero_run (gs : list Z) : nat :=
  match gs with
  | g :: gs => if g =? 0 then S (zero_run gs) else 0
  | [] => 0
  end.

(** The first longest run of at least two zero groups: its start and length. *)
Definition longest_run (gs : list Z) : nat * nat :=
  foldl (fun best i => let l := zero_run (drop i gs) in
           if (2 <=? l)%nat && (best.2 <? l)%nat then (i, l) else best) (0%nat, 0%nat) (seq 0 (length gs)).

Fixpoint join (sep : string) (l : list string) : string :=
  match l with
  | [] => ""
  | [x] => x
  | x :: l => x +:+ sep +:+ join sep l
  end.

Definition print_groups (gs : list Z) : string :=
  let '(start, len) := longest_run gs in
  if bool_decide (len = 0%nat) then join ":" (hex_group16 <$> gs)
  else join ":" (hex_group16 <$> take start gs) +:+ "::" +:+ join ":" (hex_group16 <$> drop (start + len) gs).

Definition AddrString (a : Addr) : string :=
  match a with
  | V4 n => print_v4 n
  | V6 n z =>
      (if n / 2 ^ 32 =? 0xffff then "::ffff:" +:+ print_v4 (n mod 2 ^ 32) else print_groups (group_of n <$> seq 0 8)) +:+
      (if bool_decide (z = "") then "" else "%" +:+ z)
  end.

(** ** [netip.Prefix] *)
Record Prefix := mkPrefix { p_addr : Addr; p_bits : Z }.

#[export] Instance Prefix_eq_dec : EqDecision Prefix.
Proof. solve_decision. Defined.

(** [Contains]: no zones, the same family. *)
Definition Contains (p : Prefix) (a : Addr) : bool :=
  match p_addr p, a with
  | V4 n, V4 m => n / 2 ^ (32 - p_bits p) =? m / 2 ^ (32 - p_bits p)
  | V6 n "", V6 m "" => n / 2 ^ (128 - p_bits p) =? m / 2 ^ (128 - p_bits p)
  | _, _ => false
  end.

(** ** [net.SplitHostPort] and [net.JoinHostPort]; [None] is an error. *)
Definition SplitHostPort (hostport : string) : option (string * string) :=
  match hostport with
  | String "[" rest =>
      match cut "]" rest with
      | (host, Some (String ":" port)) =>
          if contains_char ":" port || contains_char "[" rest || contains_char "]" port then None else Some (host, port)
      | _ => None
      end
  | _ =>
      match cut ":" hostport with
      | (host, Some port) =>
          if contains_char ":" port || contains_char "[" hostport || contains_char "]" hostport then None else Some (host, port)
      | _ => None
      end
  end.

Definition JoinHostPort (host port : string) : string :=
  if contains_char ":" host then "[" +:+ host +:+ "]:" +:+ port else host +:+ ":" +:+ port.

Example split_examples :
  SplitHostPort "10.0.0.7:8091" = Some ("10.0.0.7", "8091") /\ SplitHostPort "[fd00::7]:80" = Some ("fd00::7", "80") /\
  SplitHostPort "fd00::7:80" = None /\ SplitHostPort "[::1]" = None /\ SplitHostPort "host" = None /\
  SplitHostPort ":80" = Some ("", "80") /\ SplitHostPort "[a]b:1" = None /\ SplitHostPort "a]:1" = None.
Proof. vm_compute. done. Qed.

Example parse_examples :
  ParseAddr "10.1.2.3" = Some (V4 167838211) /\ ParseAddr "10.1.2.03" = None /\ ParseAddr "1.2.3" = None /\
  ParseAddr "::1" = Some (V6 1 "") /\ ParseAddr "fe80::1%eth0" = Some (V6 (0xfe80 * 2 ^ 112 + 1) "eth0") /\
  ParseAddr "::ffff:1.2.3.4" = Some (V6 (0xffff * 2 ^ 32 + 16909060) "") /\ ParseAddr "1:2:3:4:5:6:7::" = Some (V6 (0x00010002000300040005000600070000) "") /\
  ParseAddr "1:2:3:4:5:6:7:8::" = None /\ ParseAddr "1::2::3" = None /\ ParseAddr "12345::" = None /\ ParseAddr "localhost" = None.
Proof. vm_compute. done. Qed.

Example print_examples :
  AddrString (V4 167838211) = "10.1.2.3" /\ AddrString (V6 1 "") = "::1" /\ AddrString (V6 0 "") = "::" /\
  AddrString (V6 (0x00010000000000020000000000000003) "") = "1:0:0:2::3" /\
  AddrString (V6 (0xfe80 * 2 ^ 112 + 1) "eth0") = "fe80::1%eth0".
Proof. vm_compute. done. Qed.

End Net.
Export Net.
