(* ===== verification/AuthText.v ===== *)
(** The text of credentials: names and values of tokens and accounts, the
    bearer header, masks, and just-in-time tokens (console/internal/httpapi:
    mcp_auth.go, api_keys_auth.go, console_auth_account.go, jit_auth.go). *)
From S2P Require Import Prelude.
From S2P Require Import Json.
From S2P Require Import OwnerScope.

Module AuthText.

(** ** Runes *)

Definition between (lo hi : Z) (a : ascii) : bool := (lo <=? byte a) && (byte a <=? hi).
Definition is_cont (a : ascii) : bool := between 0x80 0xBF a.

(** The second byte that [utf8.DecodeRune] accepts after a first byte of a
    three or four byte encoding. *)
Definition accept3 (a b : ascii) : bool :=
  (between 0xE0 0xE0 a && between 0xA0 0xBF b) ||
  (between 0xED 0xED a && between 0x80 0x9F b) ||
  ((between 0xE1 0xEC a || between 0xEE 0xEF a) && is_cont b).
Definition accept4 (a b : ascii) : bool :=
  (between 0xF0 0xF0 a && between 0x90 0xBF b) ||
  (between 0xF1 0xF3 a && is_cont b) ||
  (between 0xF4 0xF4 a && between 0x80 0x8F b).

(** [utf8.RuneCountInString]: a byte that starts no valid encoding counts one. *)
Fixpoint rune_count (s : string) : Z :=
  match s with
  | EmptyString => 0
  | String a s1 =>
      1 + match s1 with
          | String b s2 =>
              if between 0xC2 0xDF a && is_cont b then rune_count s2 else
              match s2 with
              | String c s3 =>
                  if accept3 a b && is_cont c then rune_count s3 else
                  match s3 with
                  | String d s4 =>
                      if accept4 a b && is_cont c && is_cont d then rune_count s4 else rune_count s1
                  | EmptyString => rune_count s1
                  end
              | EmptyString => rune_count s1
              end
          | EmptyString => 0
          end
  end.

(** Whether a rune that [unicode.IsSpace] accepts occurs in the string: no
    byte that starts such an encoding can continue another one. *)
Fixpoint has_space (s : string) : bool :=
  match s with
  | EmptyString => false
  | String a s1 =>
      is_space1 a ||
      match s1 with
      | String b s2 =>
          is_space2 a b || match s2 with String c _ => is_space3 a b c | EmptyString => false end
      | EmptyString => false
      end || has_space s1
  end.

(** [strings.Fields]; [cur] is the field being read, if any. *)
Definition flush (cur : string) (rest : list string) : list string :=
  if bool_decide (cur = "") then rest else cur :: rest.

Fixpoint fields_from (cur : string) (s : string) : list string :=
  match s with
  | EmptyString => flush cur []
  | String a s1 =>
      if is_space1 a then flush cur (fields_from "" s1) else
      match s1 with
      | String b s2 =>
          if is_space2 a b then flush cur (fields_from "" s2) else
          match s2 with
          | String c s3 =>
              if is_space3 a b c then flush cur (fields_from "" s3)
              else fields_from (cur +:+ String a "") s1
          | EmptyString => fields_from (cur +:+ String a "") s1
          end
      | EmptyString => fields_from (cur +:+ String a "") s1
      end
  end.
Definition fields (s : string) : list string := fields_from "" s.

(** [strings.Repeat], [s[:n]], [strings.Trim] with a set of ASCII characters. *)
Fixpoint repeat_char (a : ascii) (n : nat) : string :=
  match n with O => "" | S n => String a (repeat_char a n) end.

Fixpoint take_str (n : nat) (s : string) : string :=
  match n, s with
  | S n, String a s => String a (take_str n s)
  | _, _ => EmptyString
  end.

Fixpoint trim_left_set (p : ascii -> bool) (s : string) : string :=
  match s with
  | String a s' => if p a then trim_left_set p s' else s
  | EmptyString => s
  end.
Definition trim_set (p : ascii -> bool) (s : string) : string :=
  String.rev (trim_left_set p (String.rev (trim_left_set p s))).

(** ** Names, values and masks *)
Definition maxAccountUsernameRunes : Z := 64.
Definition maxTrustedTokenNameRunes : Z := 64.
Definition maxTrustedTokenLength : Z := 256.
Definition maxAPIKeyNameRunes : Z := 64.

Definition len (s : string) : Z := Z.of_nat (String.length s).

(** The three functions share their shape; the errors and the limit differ. *)
Definition normalize_name (required too_long : sentinel) (limit : Z) (value : string) : res (string * string) :=
  let trimmed := trim value in
  if bool_decide (trimmed = "") then Err (Sentinel required) else
  if limit <? rune_count trimmed then Err (Sentinel too_long) else
  Ok (trimmed, to_lower trimmed).

Definition normalizeAccountUsername : string -> res (string * string) :=
  normalize_name errAccountUsernameRequired errAccountUsernameTooLong maxAccountUsernameRunes.
Definition normalizeTokenName : string -> res (string * string) :=
  normalize_name errTrustedTokenNameRequired errTrustedTokenNameTooLong maxTrustedTokenNameRunes.
Definition normalizeAPIKeyName : string -> res (string * string) :=
  normalize_name errAPIKeyNameRequired errAPIKeyNameTooLong maxAPIKeyNameRunes.

Definition normalizeTokenValue (value : string) : res string :=
  let trimmed := trim value in
  if bool_decide (trimmed = "") then Err (Sentinel errTrustedTokenValueRequired) else
  if maxTrustedTokenLength <? len trimmed then Err (Sentinel errTrustedTokenValueTooLong) else
  if has_space trimmed then Err (Sentinel errTrustedTokenValueWhitespace) else
  Ok trimmed.

Definition maskToken (token : string) : string :=
  let trimmed := trim token in
  if bool_decide (trimmed = "") then "" else
  let n := String.length trimmed in
  if (n <=? 8)%nat then repeat_char "*" n else
  take_str 4 trimmed +:+ repeat_char "*" (Nat.max 6 (n - 8)) +:+ drop_str (n - 4) trimmed.

Definition parseBearerToken (value : string) : option string :=
  let trimmed := trim value in
  if bool_decide (trimmed = "") then None else
  match fields trimmed with
  | [scheme; token] =>
      if negb (equal_fold scheme "Bearer") then None else
      let token := trim token in
      if bool_decide (token = "") then None else Some token
  | _ => None
  end.

(** ** Just-in-time tokens (jit_auth.go) *)
Definition jitTokenPrefix : string := "obx_jit_v1.".
Definition dashboardJitTokenPrefix : string := "obx_dashboard_jit_v1.".
Definition dashboardJitScope : string := "dashboard".
Definition jitAccountIDPrefix : string := "acc_jit_".
Definition jitAccountIDIssuerMaxLen : nat := 20.
Definition jitAccountIDSubjectMaxLen : nat := 20.
Definition jitAccountIDHashHexLen : nat := 12.
Definition jitUsernamePrefix : string := "jit_".
Definition jitUsernameHashHexLen : nat := 24.

Definition isJITToken (token : string) : bool := has_prefix jitTokenPrefix (trim token).
Definition isDashboardJITToken (token : string) : bool := has_prefix dashboardJitTokenPrefix (trim token).

Record jitTokenClaims := mkClaims {
  jc_Issuer : string;
  jc_Subject : string;
  jc_Scope : string;
  jc_ExpiresAtUnixMs : Z }.

Definition claims_field (name : string) : option (json -> jitTokenClaims -> jitTokenClaims * bool) :=
  if equal_fold name "iss" then Some (fun v c =>
    let '(s, bad) := dec_string v (jc_Issuer c) in
    (mkClaims s (jc_Subject c) (jc_Scope c) (jc_ExpiresAtUnixMs c), bad))
  else if equal_fold name "sub" then Some (fun v c =>
    let '(s, bad) := dec_string v (jc_Subject c) in
    (mkClaims (jc_Issuer c) s (jc_Scope c) (jc_ExpiresAtUnixMs c), bad))
  else if equal_fold name "scope" then Some (fun v c =>
    let '(s, bad) := dec_string v (jc_Scope c) in
    (mkClaims (jc_Issuer c) (jc_Subject c) s (jc_ExpiresAtUnixMs c), bad))
  else if equal_fold name "exp" then Some (fun v c =>
    let '(z, bad) := dec_int v (jc_ExpiresAtUnixMs c) in
    (mkClaims (jc_Issuer c) (jc_Subject c) (jc_Scope c) z, bad))
  else None.
Definition unmarshal_claims : payload -> option jitTokenClaims :=
  unmarshal_struct claims_field (mkClaims "" "" "" 0).

Record jitAccountIdentity := mkIdentity {
  ji_Issuer : string;
  ji_Subject : string;
  ji_AccountID : string;
  ji_Username : string }.

(** The loop of [normalizeJITAccountIDPart]: bytes outside the set, and so the
    bytes of every longer rune, become one dash per run. *)
Definition id_char (a : ascii) : bool :=
  between 97 122 a || between 48 57 a || Ascii.eqb a "_" || Ascii.eqb a "-".

Fixpoint dash_runs (lastDash : bool) (s : string) : string :=
  match s with
  | EmptyString => EmptyString
  | String a s =>
      if id_char a then String a (dash_runs false s)
      else if lastDash then dash_runs true s
      else String "-" (dash_runs true s)
  end.

Definition dash_or_underscore (a : ascii) : bool := Ascii.eqb a "-" || Ascii.eqb a "_".

Definition normalizeJITAccountIDPart (value : string) (maxLen : nat) : string :=
  let normalized := to_lower (trim value) in
  if bool_decide (normalized = "") || (maxLen =? 0)%nat then "" else
  let cleaned := trim_set dash_or_underscore (dash_runs false normalized) in
  if bool_decide (cleaned = "") then "" else
  if (maxLen <? String.length cleaned)%nat
  then trim_set dash_or_underscore (take_str maxLen cleaned)
  else cleaned.

(** [base64.RawURLEncoding.DecodeString]: no padding, line breaks skipped,
    unused low bits of the last character ignored. *)
Definition url_value (c : ascii) : option Z :=
  if between 65 90 c then Some (byte c - 65) else
  if between 97 122 c then Some (byte c - 71) else
  if between 48 57 c then Some (byte c + 4) else
  if Ascii.eqb c "-" then Some 62 else
  if Ascii.eqb c "_" then Some 63 else None.

Definition octet (z : Z) : ascii := ascii_of_N (Z.to_N (Z.land z 255)).

Fixpoint url_groups (vs : list Z) : option (list ascii) :=
  match vs with
  | [] => Some []
  | [_] => None
  | [a; b] => Some [octet (Z.lor (Z.shiftl a 2) (Z.shiftr b 4))]
  | [a; b; c] => Some [octet (Z.lor (Z.shiftl a 2) (Z.shiftr b 4)); octet (Z.lor (Z.shiftl b 4) (Z.shiftr c 2))]
  | a :: b :: c :: d :: rest =>
      (fun bs => octet (Z.lor (Z.shiftl a 2) (Z.shiftr b 4)) :: octet (Z.lor (Z.shiftl b 4) (Z.shiftr c 2))
                 :: octet (Z.lor (Z.shiftl c 6) d) :: bs) <$> url_groups rest
  end.

Definition raw_url_decode (s : string) : option string :=
  vs ← mapM url_value (List.filter (fun c => negb (byte c =? 10) && negb (byte c =? 13)) (String.list_ascii_of_string s));
  String.string_of_list_ascii <$> url_groups vs.

(** What the code takes from crypto and encoding: [sha256_hex] is the hex text
    of a SHA-256 digest, [hmac_sha256 key msg] the bytes of an HMAC,
    [json_value] the value of a JSON text. *)
Record crypto := mkCrypto {
  sha256_hex : string -> string;
  hmac_sha256 : string -> string -> string;
  json_value : string -> payload }.

Record jitTokenVerifier := mkVerifier {
  jv_key : string;
  jv_tokenPrefix : string;
  jv_requiredScope : string }.

Definition newJITTokenVerifier (key : string) : option jitTokenVerifier :=
  let trimmed := trim key in
  if bool_decide (trimmed = "") then None else Some (mkVerifier trimmed jitTokenPrefix "").
Definition newDashboardJITTokenVerifier (key : string) : option jitTokenVerifier :=
  let trimmed := trim key in
  if bool_decide (trimmed = "") then None
  else Some (mkVerifier trimmed dashboardJitTokenPrefix dashboardJitScope).

Section jit.
Context (cr : crypto).

Definition deriveJITAccountIdentity (claims : jitTokenClaims) : option jitAccountIdentity :=
  let rawIssuer := trim (jc_Issuer claims) in
  let rawSubject := trim (jc_Subject claims) in
  if bool_decide (rawIssuer = "") || bool_decide (rawSubject = "") then None else
  let issuerPart := normalizeJITAccountIDPart rawIssuer jitAccountIDIssuerMaxLen in
  let subjectPart := normalizeJITAccountIDPart rawSubject jitAccountIDSubjectMaxLen in
  if bool_decide (issuerPart = "") || bool_decide (subjectPart = "") then None else
  let digestHex := sha256_hex cr (rawIssuer +:+ String (ascii_of_nat 0) rawSubject) in
  Some (mkIdentity rawIssuer rawSubject
    (jitAccountIDPrefix +:+ issuerPart +:+ "_" +:+ subjectPart +:+ "_" +:+ take_str jitAccountIDHashHexLen digestHex)
    (jitUsernamePrefix +:+ take_str jitUsernameHashHexLen digestHex)).

Definition claims_allowed (v : jitTokenVerifier) (now : time) (claims : jitTokenClaims) : bool :=
  (bool_decide (jv_requiredScope v = "") || bool_decide (trim (jc_Scope claims) = jv_requiredScope v)) &&
  negb ((0 <? jc_ExpiresAtUnixMs claims) && (jc_ExpiresAtUnixMs claims <=? unix_milli now)).

Definition verify (v : option jitTokenVerifier) (now : time) (token : string) : option jitAccountIdentity :=
  v ← v;
  if bool_decide (jv_key v = "") then None else
  let trimmedToken := trim token in
  let prefix := if bool_decide (jv_tokenPrefix v = "") then jitTokenPrefix else jv_tokenPrefix v in
  if negb (has_prefix prefix trimmedToken) then None else
  match split_n 2 "." (trim_prefix prefix trimmedToken) with
  | [part0; part1] =>
      let payloadEncoded := trim part0 in
      let signatureEncoded := trim part1 in
      if bool_decide (payloadEncoded = "") || bool_decide (signatureEncoded = "") then None else
      signature ← raw_url_decode signatureEncoded;
      if negb (bool_decide (signature = hmac_sha256 cr (jv_key v) (prefix +:+ payloadEncoded))) then None else
      payloadJSON ← raw_url_decode payloadEncoded;
      claims ← unmarshal_claims (json_value cr payloadJSON);
      if negb (claims_allowed v now claims) then None else
      deriveJITAccountIdentity claims
  | _ => None
  end.

End jit.

(** ** Lemmas *)

(** An account id: not empty, made of the characters of [id_char]. *)
Definition good_id (s : string) : Prop := s <> "" /\ forall_char id_char s = true.

Definition is_hex (a : ascii) : bool := between 48 57 a || between 97 102 a.

Lemma forall_char_app p s t : forall_char p (s +:+ t) = forall_char p s && forall_char p t.
Proof. induction s as [|a s IH]; [done|]. rewrite string_app_cons. cbn. by rewrite IH, andb_assoc. Qed.

Lemma forall_char_mono (p q : ascii -> bool) s :
  (forall a, p a = true -> q a = true) -> forall_char p s = true -> forall_char q s = true.
Proof. intros Hpq. induction s as [|a s IH]; [done|]. cbn. intros [Ha Hs]%andb_true_iff. by rewrite (Hpq a Ha), IH. Qed.

Lemma forall_char_take p n s : forall_char p s = true -> forall_char p (take_str n s) = true.
Proof.
  revert s. induction n as [|n IH]; intros [|a s]; cbn; try done.
  intros [Ha Hs]%andb_true_iff. by rewrite Ha, IH.
Qed.

Lemma forall_char_rev p s : forall_char p (String.rev s) = forall_char p s.
Proof.
  induction s as [|a s IH]; [done|]. rewrite string_rev_cons, forall_char_app, IH. cbn.
  by rewrite andb_true_r, andb_comm.
Qed.

Lemma forall_char_contains p c s : p c = false -> forall_char p s = true -> contains_char c s = false.
Proof.
  intros Hc. induction s as [|a s IH]; [done|]. cbn. intros [Ha Hs]%andb_true_iff.
  rewrite IH by done. destruct (Ascii.eqb_spec a c) as [->|]; [congruence|done].
Qed.

(** Text of plain characters is not trimmed. *)
Lemma plain_trimmed s : forall_char plain s = true -> trim s = s.
Proof.
  intros H. apply trimmed_intro.
  - destruct s as [|a s]; [done|]. cbn in H. apply andb_true_iff in H as [Ha _]. by apply no_lead_plain.
  - rewrite <- forall_char_rev in H. destruct (String.rev s) as [|a t]; [done|].
    cbn in H. apply andb_true_iff in H as [Ha _]. destruct t as [|b t]; cbn.
    + unfold plain in Ha. by destruct (is_space1 a).
    + rewrite (proj2 (plain_space2 a b Ha)). unfold plain in Ha. destruct (is_space1 a) eqn:E1; [done|]. cbn.
      destruct t as [|c t]; [done|]. assert (plain a = true) as Hp by (unfold plain; by rewrite E1).
      by rewrite (proj2 (proj2 (plain_space3 a c b Hp))).
Qed.

Lemma between_spec lo hi a : between lo hi a = true <-> lo <= byte a <= hi.
Proof. unfold between. rewrite andb_true_iff, !Z.leb_le. done. Qed.

Lemma id_char_plain a : id_char a = true -> plain a = true.
Proof. by destruct a as [[] [] [] [] [] [] [] []]; vm_compute. Qed.

Lemma hex_id_char a : is_hex a = true -> id_char a = true.
Proof. by destruct a as [[] [] [] [] [] [] [] []]; vm_compute. Qed.

Lemma good_id_trim s : good_id s -> trim s = s.
Proof. intros [_ H]. apply plain_trimmed. revert H. apply forall_char_mono, id_char_plain. Qed.

Lemma good_id_owner s : good_id s -> good_owner s.
Proof.
  intros H. unfold good_owner. rewrite (good_id_trim s H). destruct H as [H1 H2]. split; [done|].
  by apply (forall_char_contains id_char).
Qed.

Lemma good_id_app s t : s <> "" -> forall_char id_char s = true -> forall_char id_char t = true -> good_id (s +:+ t).
Proof.
  intros Hs Hs' Ht. split; [|by rewrite forall_char_app, Hs', Ht].
  by intros [? _]%string_app_eq_nil.
Qed.

Lemma dash_runs_chars b s : forall_char id_char (dash_runs b s) = true.
Proof.
  revert b. induction s as [|a s IH]; intros b; [done|]. cbn. destruct (id_char a) eqn:E; cbn; [by rewrite E, IH|].
  destruct b; cbn; by rewrite ?IH.
Qed.

Lemma trim_left_set_suffix p s : exists t, s = t +:+ trim_left_set p s.
Proof.
  induction s as [|a s [t IH]]; [by exists ""|]. cbn. destruct (p a); [|by exists ""].
  exists (String a t). rewrite string_app_cons. by f_equal.
Qed.

Lemma trim_set_chars q p s : forall_char q s = true -> forall_char q (trim_set p s) = true.
Proof.
  intros H. unfold trim_set. rewrite forall_char_rev.
  destruct (trim_left_set_suffix p s) as [t Ht]. rewrite Ht, forall_char_app in H.
  apply andb_true_iff in H as [_ H]. rewrite <- forall_char_rev in H.
  destruct (trim_left_set_suffix p (String.rev (trim_left_set p s))) as [u Hu].
  rewrite Hu, forall_char_app in H. by apply andb_true_iff in H as [_ H].
Qed.

Lemma string_length_app s t : String.length (s +:+ t) = (String.length s + String.length t)%nat.
Proof. induction s as [|a s IH]; [done|]. rewrite string_app_cons. cbn. by rewrite IH. Qed.

Lemma string_length_rev s : String.length (String.rev s) = String.length s.
Proof. induction s as [|a s IH]; [done|]. rewrite string_rev_cons, string_length_app, IH. cbn. lia. Qed.

Lemma trim_set_length p s : (String.length (trim_set p s) <= String.length s)%nat.
Proof.
  unfold trim_set. rewrite string_length_rev.
  destruct (trim_left_set_suffix p s) as [t Ht].
  destruct (trim_left_set_suffix p (String.rev (trim_left_set p s))) as [u Hu].
  apply (f_equal String.length) in Ht, Hu. rewrite string_length_app in Ht, Hu. rewrite string_length_rev in Hu. lia.
Qed.

Lemma take_str_length n s : (String.length (take_str n s) <= n)%nat.
Proof. revert s. induction n as [|n IH]; intros [|a s]; cbn; try lia. specialize (IH s). lia. Qed.

Lemma jit_part_ok v n :
  forall_char id_char (normalizeJITAccountIDPart v n) = true /\
  (String.length (normalizeJITAccountIDPart v n) <= n)%nat.
Proof.
  unfold normalizeJITAccountIDPart.
  destruct (bool_decide (to_lower (trim v) = "") || (n =? 0)%nat); [cbn; split; [done|lia]|].
  set (c := trim_set _ (dash_runs _ _)).
  assert (forall_char id_char c = true) as Hc by apply trim_set_chars, dash_runs_chars.
  destruct (bool_decide (c = "")); [cbn; split; [done|lia]|].
  destruct (Nat.ltb_spec n (String.length c)) as [Hl|Hl]; [|done].
  split; [by apply trim_set_chars, forall_char_take|].
  etrans; [apply trim_set_length|apply take_str_length].
Qed.

(** The digest is written in hexadecimal. *)
Record crypto_ok (cr : crypto) : Prop := {
  sha_hex x : forall_char is_hex (sha256_hex cr x) = true }.

Lemma jit_identity_ok cr claims i :
  crypto_ok cr -> deriveJITAccountIdentity cr claims = Some i ->
  good_id (ji_AccountID i) /\ good_id (ji_Username i) /\
  (String.length (ji_AccountID i) <= 62)%nat /\ has_prefix jitAccountIDPrefix (ji_AccountID i) = true.
Proof.
  intros Hcr H. unfold deriveJITAccountIdentity in H.
  set (ra := trim _) in H. set (rb := trim (jc_Subject _)) in H.
  destruct (bool_decide (ra = "") || _); [done|].
  destruct (jit_part_ok ra jitAccountIDIssuerMaxLen) as [Hp Hpl], (jit_part_ok rb jitAccountIDSubjectMaxLen) as [Hq Hql].
  set (p := normalizeJITAccountIDPart ra _) in *. set (q := normalizeJITAccountIDPart rb _) in *.
  destruct (bool_decide (p = "") || _); [done|]. apply (inj Some) in H. subst i.
  cbn [ji_AccountID ji_Username]. set (h := sha256_hex cr _).
  assert (forall n, forall_char id_char (take_str n h) = true) as Hh.
  { intros n. apply forall_char_take. eapply forall_char_mono; [apply hex_id_char|apply Hcr]. }
  pose proof (take_str_length jitAccountIDHashHexLen h) as Hl.
  unfold jitAccountIDIssuerMaxLen, jitAccountIDSubjectMaxLen, jitAccountIDHashHexLen in *.
  split_and!.
  - apply good_id_app; [done..|]. rewrite !forall_char_app, Hp, Hq, Hh. done.
  - by apply good_id_app.
  - rewrite !string_length_app. change (String.length jitAccountIDPrefix) with 8%nat.
    change (String.length "_") with 1%nat. lia.
  - apply has_prefix_app.
Qed.

(** Ids made of the prefix and hexadecimal digits are not ids of this kind. *)
Lemma jit_id_not_hex s hex : forall_char is_hex hex = true -> has_prefix jitAccountIDPrefix s = true -> s <> "acc_" +:+ hex.
Proof.
  intros Hh Hs ->. apply has_prefix_inv in Hs. unfold jitAccountIDPrefix in Hs at 1.
  rewrite !string_app_cons, !string_app_nil_l in Hs. injection Hs as Hs. rewrite Hs in Hh. by vm_compute in Hh.
Qed.

(** ** The bearer header *)
Lemma fields_nospace t cur : has_space t = false -> fields_from cur t = flush (cur +:+ t) [].
Proof.
  revert cur. induction t as [|a t IH]; intros cur H; cbn.
  - by rewrite string_app_nil_r.
  - cbn in H. apply orb_false_iff in H as [[-> H2]%orb_false_iff Ht].
    assert (fields_from (cur +:+ String a "") t = flush (cur +:+ String a t) []) as Hrec.
    { rewrite IH by done. by rewrite string_app_assoc, string_app_cons, string_app_nil_l. }
    destruct t as [|b t]; [done|]. apply orb_false_iff in H2 as [-> H3].
    destruct t as [|c t]; [done|]. by rewrite H3.
Qed.

Lemma parse_bearer token :
  token <> "" -> trim token = token -> has_space token = false ->
  parseBearerToken ("Bearer " +:+ token) = Some token.
Proof.
  intros Hne Ht Hs. unfold parseBearerToken.
  assert (trim ("Bearer " +:+ token) = "Bearer " +:+ token) as Htr.
  { apply trimmed_intro; [by apply no_lead_plain|].
    change ("Bearer " +:+ token) with ("Bearer" +:+ String " " token).
    rewrite string_rev_app, string_rev_cons. apply no_lead_rev_app_plain; [done|by intros []%string_app_eq_nil|].
    pose proof (trim_no_lead_rev token) as Hr. rewrite Ht in Hr.
    destruct (String.rev token) as [|a [|b [|c t]]] eqn:E; [by apply string_rev_nil in E|..];
      rewrite ?string_app_cons, ?string_app_nil_l; revert Hr; cbn; destruct (is_space1 a); try done; by destruct (is_space2 b a). }
  rewrite Htr, bool_decide_false by done.
  assert (fields ("Bearer " +:+ token) = ["Bearer"; token]) as ->.
  { destruct token as [|a t]; [done|].
    change (fields ("Bearer " +:+ String a t)) with ("Bearer" :: fields_from "" (String a t)).
    rewrite fields_nospace by done. unfold flush. by rewrite bool_decide_false. }
  cbn. rewrite Ht. by rewrite bool_decide_false.
Qed.

Lemma token_value_ok v t : normalizeTokenValue v = Ok t -> t <> "" /\ trim t = t /\ has_space t = false.
Proof.
  unfold normalizeTokenValue. intros H. destruct (bool_decide_reflect (trim v = "")); [done|].
  destruct (maxTrustedTokenLength <? len (trim v)); [done|]. destruct (has_space (trim v)) eqn:E; [done|].
  simplify_eq. by rewrite trim_trim.
Qed.

Lemma plain_has_space s : forall_char plain s = true -> has_space s = false.
Proof.
  induction s as [|a s IH]; [done|]. cbn. intros [Ha Hs]%andb_true_iff. rewrite IH by done.
  assert (is_space1 a = false) as -> by (unfold plain in Ha; by destruct (is_space1 a)). cbn.
  destruct s as [|b s]; [done|]. rewrite (proj1 (plain_space2 a b Ha)). cbn.
  destruct s as [|c s]; [done|]. by rewrite (proj1 (plain_space3 a b c Ha)).
Qed.

Lemma name_ok r l n v x k :
  normalize_name r l n v = Ok (x, k) -> x <> "" /\ trim x = x /\ k = to_lower x /\ rune_count x <= n /\ x = trim v.
Proof.
  unfold normalize_name. intros H. destruct (bool_decide_reflect (trim v = "")); [done|].
  destruct (Z.ltb_spec n (rune_count (trim v))); [done|]. simplify_eq. by rewrite trim_trim.
Qed.

End AuthText.
Export AuthText.
