(* ===== verification/Sha256.v ===== *)
(** SHA-256 and HMAC-SHA256 (crypto/sha256 and crypto/hmac, FIPS 180-4 and
    RFC 2104), on strings of bytes. *)
From S2P Require Import Prelude.

Module Sha256.

(** ** 32-bit words *)
Definition word (z : Z) : Z := z mod 2 ^ 32.
Definition rotr (n x : Z) : Z := Z.lor (Z.shiftr x n) (word (Z.shiftl x (32 - n))).
Definition wnot (x : Z) : Z := 2 ^ 32 - 1 - x.

Definition Ch (x y z : Z) : Z := Z.lxor (Z.land x y) (Z.land (wnot x) z).
Definition Maj (x y z : Z) : Z := Z.lxor (Z.lxor (Z.land x y) (Z.land x z)) (Z.land y z).
Definition S0 (x : Z) : Z := Z.lxor (Z.lxor (rotr 2 x) (rotr 13 x)) (rotr 22 x).
Definition S1 (x : Z) : Z := Z.lxor (Z.lxor (rotr 6 x) (rotr 11 x)) (rotr 25 x).
Definition s0 (x : Z) : Z := Z.lxor (Z.lxor (rotr 7 x) (rotr 18 x)) (Z.shiftr x 3).
Definition s1 (x : Z) : Z := Z.lxor (Z.lxor (rotr 17 x) (rotr 19 x)) (Z.shiftr x 10).

(** The first [n] primes from [p] on. *)
Definition is_prime (p : Z) : bool := forallb (fun d => negb (p mod Z.of_nat d =? 0)) (seq 2 (Z.to_nat (Z.sqrt p - 1))).
Fixpoint primes (fuel n : nat) (p : Z) : list Z :=
  match fuel, n with
  | S fuel, S n' => if is_prime p then p :: primes fuel n' (p + 1) else primes fuel n (p + 1)
  | _, _ => []
  end.

(** The integer cube root, bit by bit. *)
Fixpoint cube_root (bits : nat) (acc x : Z) : Z :=
  match bits with
  | O => acc
  | S bits => let y := acc + 2 ^ Z.of_nat bits in cube_root bits (if y * y * y <=? x then y else acc) x
  end.

(** The first 32 bits of the fractional parts of the cube roots of the first 64
    primes, and of the square roots of the first eight. *)
Definition round_constants : list Z :=
  Eval vm_compute in (fun p => word (cube_root 35 0 (p * 2 ^ 96))) <$> primes 400 64 2.
Definition initial_words : list Z := Eval vm_compute in (fun p => word (Z.sqrt (p * 2 ^ 64))) <$> primes 400 8 2.

(** The working variables a to h. *)
Record state := mkState { ha : Z; hb : Z; hc : Z; hd : Z; he : Z; hf : Z; hg : Z; hh : Z }.

Definition initial : state :=
  Eval vm_compute in
    let w i := nth i initial_words 0 in
    mkState (w 0%nat) (w 1%nat) (w 2%nat) (w 3%nat) (w 4%nat) (w 5%nat) (w 6%nat) (w 7%nat).

Definition round (v : state) (kw : Z * Z) : state :=
  let t1 := hh v + S1 (he v) + Ch (he v) (hf v) (hg v) + kw.1 + kw.2 in
  let t2 := S0 (ha v) + Maj (ha v) (hb v) (hc v) in
  mkState (word (t1 + t2)) (ha v) (hb v) (hc v) (word (hd v + t1)) (he v) (hf v) (hg v).

(** The message schedule, the last sixteen words first. *)
Fixpoint schedule (n : nat) (recent : list Z) : list Z :=
  match n with
  | O => recent
  | S n =>
      let w i := nth i recent 0 in
      schedule n (word (s1 (w 1%nat) + w 6%nat + s0 (w 14%nat) + w 15%nat) :: recent)
  end.

Definition compress (h : state) (block : list Z) : state :=
  let ws := rev (schedule 48 (rev block)) in
  let v := foldl round h (zip round_constants ws) in
  mkState (word (ha h + ha v)) (word (hb h + hb v)) (word (hc h + hc v)) (word (hd h + hd v))
    (word (he h + he v)) (word (hf h + hf v)) (word (hg h + hg v)) (word (hh h + hh v)).

(** ** Bytes *)
Definition byte_char (z : Z) : ascii := ascii_of_N (Z.to_N (z mod 256)).
Definition bytes_of (s : string) : list Z := byte <$> String.list_ascii_of_string s.
Definition of_bytes (l : list Z) : string := String.string_of_list_ascii (byte_char <$> l).

Definition word_bytes (w : Z) : list Z := [w / 2 ^ 24; (w / 2 ^ 16) mod 256; (w / 2 ^ 8) mod 256; w mod 256].

Fixpoint words_of (bs : list Z) : list Z :=
  match bs with
  | a :: b :: c :: d :: bs => (((a * 256 + b) * 256 + c) * 256 + d) :: words_of bs
  | _ => []
  end.

Fixpoint blocks (fuel : nat) (ws : list Z) : list (list Z) :=
  match fuel, ws with
  | S fuel, _ :: _ => take 16 ws :: blocks fuel (drop 16 ws)
  | _, _ => []
  end.

(** A one bit, zeros, and the length in bits on 64 bits. *)
Definition padded (bs : list Z) : list Z :=
  let n := Z.of_nat (length bs) in
  bs ++ [0x80] ++ replicate (Z.to_nat ((55 - n) mod 64)) 0 ++
  word_bytes (word (8 * n / 2 ^ 32)) ++ word_bytes (word (8 * n)).

Definition digest_bytes (h : state) : list Z :=
  word_bytes (ha h) ++ word_bytes (hb h) ++ word_bytes (hc h) ++ word_bytes (hd h) ++
  word_bytes (he h) ++ word_bytes (hf h) ++ word_bytes (hg h) ++ word_bytes (hh h).

Definition sha256_bytes (bs : list Z) : list Z :=
  let ws := words_of (padded bs) in
  digest_bytes (foldl compress initial (blocks (length ws) ws)).

Definition Sum256 (s : string) : string := of_bytes (sha256_bytes (bytes_of s)).
Definition Size : Z := 32.

(** [hmac.New(sha256.New, key)], one [Write], [Sum(nil)]. *)
Definition hmac_block : nat := 64.
Definition hmac (key msg : string) : string :=
  let k := bytes_of key in
  let k := if (hmac_block <? length k)%nat then sha256_bytes k else k in
  let k := k ++ replicate (hmac_block - length k) 0 in
  let inner := sha256_bytes ((Z.lxor 0x36 <$> k) ++ bytes_of msg) in
  of_bytes (sha256_bytes ((Z.lxor 0x5c <$> k) ++ inner)).

(** [hex.EncodeToString]. *)
Definition hex_digit (d : Z) : ascii := byte_char (if d <? 10 then 48 + d else 87 + d).
Fixpoint hex (s : string) : string :=
  match s with
  | EmptyString => ""
  | String a s => String (hex_digit (byte a / 16)) (String (hex_digit (byte a mod 16)) (hex s))
  end.

(** Test vectors of FIPS 180-4 and RFC 4231. *)
Example sha256_empty : hex (Sum256 "") = "e3b0c44298fc1c149afbf4c8996fb92427ae41e4649b934ca495991b7852b855".
Proof. vm_compute. reflexivity. Qed.
Example sha256_abc : hex (Sum256 "abc") = "ba7816bf8f01cfea414140de5dae2223b00361a396177a9cb410ff61f20015ad".
Proof. vm_compute. reflexivity. Qed.
Example sha256_two_blocks : hex (Sum256 "abcdbcdecdefdefgefghfghighijhijkijkljklmklmnlmnomnopnopq") =
  "248d6a61d20638b8e5c026930c3e6039a33ce45964ff2167f6ecedd419db06c1".
Proof. vm_compute. reflexivity. Qed.
Example hmac_jefe : hex (hmac "Jefe" "what do ya want for nothing?") =
  "5bdcc146bf60754e6a042426089575c75a003f089d2739839dec58b964ec3843".
Proof. vm_compute. reflexivity. Qed.

Lemma length_of_bytes l : String.length (of_bytes l) = length l.
Proof. unfold of_bytes. induction l as [|a l IH]; [done|]. cbn. by rewrite IH. Qed.

Lemma length_sha256 bs : length (sha256_bytes bs) = 32%nat.
Proof. reflexivity. Qed.

Lemma length_Sum256 s : String.length (Sum256 s) = 32%nat.
Proof. exact (length_of_bytes _). Qed.

Lemma length_hmac key msg : String.length (hmac key msg) = 32%nat.
Proof. exact (length_of_bytes _). Qed.

#[global] Opaque hmac Sum256.

End Sha256.
Export Sha256.
