(* ===== verification/JsonText.v ===== *)
(** JSON texts (encoding/json): the compact text [json.Marshal] writes, the
    value [json.Unmarshal] reads from a text, and that the second undoes the
    first.  The other files work on JSON values ([Json.json]); the tokens whose
    text is signed go through this one. *)
From stdpp Require Import pretty.
From S2P Require Import Prelude.
From S2P Require Import Json.
From S2P Require Import OwnerScope.
From S2P Require Import AuthText.
Local Open Scope Z_scope.

Module JsonText.

Definition quote : ascii := ascii_of_nat 34.
Definition backslash : ascii := ascii_of_nat 92.
Definition chr (z : Z) : ascii := ascii_of_N (Z.to_N z).
Definition is_hi (a : ascii) : bool := 0x80 <=? byte a.

(** ** Runes *)

(** The encoding of one rune at the start of the string, if it is valid. *)
Definition valid_rune (s : string) : option (string * string) :=
  match s with
  | String a s1 =>
      if byte a <? 0x80 then Some (String a "", s1) else
      match s1 with
      | String b s2 =>
          if between 0xC2 0xDF a && is_cont b then Some (String a (String b ""), s2) else
          match s2 with
          | String c s3 =>
              if accept3 a b && is_cont c then Some (String a (String b (String c "")), s3) else
              match s3 with
              | String d s4 =>
                  if accept4 a b && is_cont c && is_cont d
                  then Some (String a (String b (String c (String d ""))), s4) else None
              | EmptyString => None
              end
          | EmptyString => None
          end
      | EmptyString => None
      end
  | EmptyString => None
  end.

(** [utf8.EncodeRune] of U+FFFD. *)
Definition replacement : string := String (chr 0xEF) (String (chr 0xBF) (String (chr 0xBD) "")).

Definition encode_rune (r : Z) : string :=
  if r <? 0x80 then String (chr r) "" else
  if r <? 0x800 then String (chr (0xC0 + r / 64)) (String (chr (0x80 + r mod 64)) "") else
  if (0xD800 <=? r) && (r <=? 0xDFFF) then replacement else
  if r <? 0x10000 then
    String (chr (0xE0 + r / 4096)) (String (chr (0x80 + (r / 64) mod 64)) (String (chr (0x80 + r mod 64)) ""))
  else
    String (chr (0xF0 + r / 262144)) (String (chr (0x80 + (r / 4096) mod 64))
      (String (chr (0x80 + (r / 64) mod 64)) (String (chr (0x80 + r mod 64)) ""))).

(** ** Writing *)
Definition hex_lower (d : Z) : ascii := chr (if d <? 10 then 48 + d else 87 + d).

Definition u_escape (z : Z) : string :=
  String backslash (String "u" (String (hex_lower (z / 4096)) (String (hex_lower ((z / 256) mod 16))
    (String (hex_lower ((z / 16) mod 16)) (String (hex_lower (z mod 16)) ""))))).

(** One ASCII character, with [escapeHTML]. *)
Definition ascii_text (a : ascii) : string :=
  let z := byte a in
  if (z =? 34) || (z =? 92) then String backslash (String a "") else
  if z =? 8 then String backslash "b" else
  if z =? 12 then String backslash "f" else
  if z =? 10 then String backslash "n" else
  if z =? 13 then String backslash "r" else
  if z =? 9 then String backslash "t" else
  if (z <? 32) || (z =? 60) || (z =? 62) || (z =? 38) then u_escape z else String a "".

(** A rune of more than one byte: the line and paragraph separators are escaped. *)
Definition wide_text (r : string) : string :=
  if bool_decide (r = encode_rune 0x2028) then u_escape 0x2028 else
  if bool_decide (r = encode_rune 0x2029) then u_escape 0x2029 else r.

Fixpoint string_text (fuel : nat) (s : string) : string :=
  match fuel, s with
  | S fuel, String a s1 =>
      if byte a <? 0x80 then ascii_text a +:+ string_text fuel s1 else
      match valid_rune s with
      | Some (r, s') => wide_text r +:+ string_text fuel s'
      | None => u_escape 0xFFFD +:+ string_text fuel s1
      end
  | _, _ => ""
  end.

Definition quoted (s : string) : string :=
  String quote (string_text (String.length s) s) +:+ String quote "".

Fixpoint sep_by (sep : ascii) (l : list string) : string :=
  match l with
  | [] => ""
  | [x] => x
  | x :: l => x +:+ String sep (sep_by sep l)
  end.

Fixpoint json_text (v : json) : string :=
  match v with
  | JNull => "null"
  | JBool b => if b then "true" else "false"
  | JInt z => pretty z
  | JReal t => t
  | JString s => quoted s
  | JArray l => String "[" (sep_by "," (map json_text l)) +:+ "]"
  | JObject ms => String "{" (sep_by "," (map (fun kv => quoted kv.1 +:+ String ":" (json_text kv.2)) ms)) +:+ "}"
  end.

(** ** Reading *)
Definition json_space (a : ascii) : bool := (byte a =? 32) || (byte a =? 9) || (byte a =? 10) || (byte a =? 13).
Fixpoint skip_space (s : string) : string :=
  match s with
  | String a s' => if json_space a then skip_space s' else s
  | EmptyString => s
  end.

Definition json_digit (a : ascii) : bool := between 48 57 a.
Fixpoint span_digits (s : string) : string * string :=
  match s with
  | String a s' => if json_digit a then let '(d, r) := span_digits s' in (String a d, r) else ("", s)
  | EmptyString => ("", s)
  end.

Definition hex_value (a : ascii) : option Z :=
  if between 48 57 a then Some (byte a - 48) else
  if between 97 102 a then Some (byte a - 87) else
  if between 65 70 a then Some (byte a - 55) else None.

Definition hex4 (s : string) : option (Z * string) :=
  match s with
  | String a (String b (String c (String d s))) =>
      a ← hex_value a; b ← hex_value b; c ← hex_value c; d ← hex_value d;
      Some (((a * 16 + b) * 16 + c) * 16 + d, s)
  | _ => None
  end.

(** The second half of a surrogate pair. *)
Definition low_half (s : string) : option (Z * string) :=
  match s with
  | String a (String b s) =>
      if Ascii.eqb a backslash && Ascii.eqb b "u" then
        '(r, s) ← hex4 s; if (0xDC00 <=? r) && (r <=? 0xDFFF) then Some (r, s) else None
      else None
  | _ => None
  end.

(** After a backslash: the bytes of the character and what follows. *)
Definition escape (s : string) : option (string * string) :=
  match s with
  | String c s =>
      let z := byte c in
      if (z =? 34) || (z =? 92) || (z =? 47) then Some (String c "", s) else
      if z =? 98 then Some (String (chr 8) "", s) else
      if z =? 102 then Some (String (chr 12) "", s) else
      if z =? 110 then Some (String (chr 10) "", s) else
      if z =? 114 then Some (String (chr 13) "", s) else
      if z =? 116 then Some (String (chr 9) "", s) else
      if z =? 117 then
        '(r, s) ← hex4 s;
        if (0xD800 <=? r) && (r <=? 0xDBFF) then
          match low_half s with
          | Some (r2, s) => Some (encode_rune (0x10000 + (r - 0xD800) * 1024 + (r2 - 0xDC00)), s)
          | None => Some (replacement, s)
          end
        else Some (encode_rune r, s)
      else None
  | EmptyString => None
  end.

(** One character of a string literal. *)
Definition literal_char (s : string) : option (string * string) :=
  match s with
  | String a s1 =>
      if byte a <? 32 then None else
      if Ascii.eqb a backslash then escape s1 else
      match valid_rune s with
      | Some x => Some x
      | None => Some (replacement, s1)
      end
  | EmptyString => None
  end.

Fixpoint literal (fuel : nat) (s : string) : option (string * string) :=
  match fuel, s with
  | S fuel, String a s1 =>
      if Ascii.eqb a quote then Some ("", s1) else
      '(c, s) ← literal_char s;
      '(t, s) ← literal fuel s;
      Some (c +:+ t, s)
  | _, _ => None
  end.

(** The fraction or the exponent of a number, if there is one. *)
Definition fraction (s : string) : option (string * string) :=
  match s with
  | String c s1 =>
      if Ascii.eqb c "." then
        let '(d, r) := span_digits s1 in if bool_decide (d = "") then None else Some (String c d, r)
      else Some ("", s)
  | EmptyString => Some ("", s)
  end.

Definition exponent (s : string) : option (string * string) :=
  match s with
  | String c s1 =>
      if Ascii.eqb c "e" || Ascii.eqb c "E" then
        let '(sign, s2) := match s1 with
          | String p s2 => if Ascii.eqb p "+" || Ascii.eqb p "-" then (String p "", s2) else ("", s1)
          | EmptyString => ("", s1)
          end in
        let '(d, r) := span_digits s2 in
        if bool_decide (d = "") then None else Some (String c (sign +:+ d), r)
      else Some ("", s)
  | EmptyString => Some ("", s)
  end.

Definition natural (s : string) : option (string * string) :=
  match s with
  | String c s1 =>
      if Ascii.eqb c "0" then Some ("0", s1) else
      if json_digit c then Some (span_digits s) else None
  | EmptyString => None
  end.

Definition number (s : string) : option (json * string) :=
  let '(neg, s) := match s with
    | String c s1 => if Ascii.eqb c "-" then (true, s1) else (false, s)
    | EmptyString => (false, s)
    end in
  '(n, s) ← natural s;
  '(f, s) ← fraction s;
  '(e, s) ← exponent s;
  if bool_decide (f = "") && bool_decide (e = "")
  then z ← digits 0 n; Some (JInt (if neg then - z else z), s)
  else Some (JReal ((if neg then "-" else "") +:+ n +:+ f +:+ e), s).

Definition keyword (word : string) (v : json) (s : string) : option (json * string) :=
  if has_prefix word s then Some (v, drop_str (String.length word) s) else None.

Definition maxNestingDepth : nat := Z.to_nat 10000.

(** [value]: white space, then a value; [depth] is how many more objects and
    arrays may be open. [members] and [elements] start inside. *)
Fixpoint value (fuel depth : nat) (s : string) : option (json * string) :=
  match fuel with
  | O => None
  | S fuel =>
      match skip_space s with
      | EmptyString => None
      | String c s1 =>
          if Ascii.eqb c quote then '(t, s) ← literal (S (String.length s1)) s1; Some (JString t, s) else
          if Ascii.eqb c "{" then
            match depth with
            | O => None
            | S depth =>
                match skip_space s1 with
                | String c s2 => if Ascii.eqb c "}" then Some (JObject [], s2)
                                 else '(ms, s) ← members fuel depth s1; Some (JObject ms, s)
                | EmptyString => None
                end
            end else
          if Ascii.eqb c "[" then
            match depth with
            | O => None
            | S depth =>
                match skip_space s1 with
                | String c s2 => if Ascii.eqb c "]" then Some (JArray [], s2)
                                 else '(l, s) ← elements fuel depth s1; Some (JArray l, s)
                | EmptyString => None
                end
            end else
          if Ascii.eqb c "t" then keyword "true" (JBool true) (String c s1) else
          if Ascii.eqb c "f" then keyword "false" (JBool false) (String c s1) else
          if Ascii.eqb c "n" then keyword "null" JNull (String c s1) else
          number (String c s1)
      end
  end
with members (fuel depth : nat) (s : string) : option (list (string * json) * string) :=
  match fuel with
  | O => None
  | S fuel =>
      match skip_space s with
      | String c s1 =>
          if Ascii.eqb c quote then
            '(k, s) ← literal (S (String.length s1)) s1;
            match skip_space s with
            | String c s =>
                if Ascii.eqb c ":" then
                  '(v, s) ← value fuel depth s;
                  match skip_space s with
                  | String c s =>
                      if Ascii.eqb c "," then '(ms, s) ← members fuel depth s; Some ((k, v) :: ms, s) else
                      if Ascii.eqb c "}" then Some ([(k, v)], s) else None
                  | EmptyString => None
                  end
                else None
            | EmptyString => None
            end
          else None
      | EmptyString => None
      end
  end
with elements (fuel depth : nat) (s : string) : option (list json * string) :=
  match fuel with
  | O => None
  | S fuel =>
      '(v, s) ← value fuel depth s;
      match skip_space s with
      | String c s =>
          if Ascii.eqb c "," then '(l, s) ← elements fuel depth s; Some (v :: l, s) else
          if Ascii.eqb c "]" then Some ([v], s) else None
      | EmptyString => None
      end
  end.

(** What a text denotes. *)
Definition read_json (s : string) : payload :=
  if bool_decide (s = "") then PEmpty else
  match value (S (2 * String.length s)) maxNestingDepth s with
  | Some (v, rest) => if bool_decide (skip_space rest = "") then PJson v else PInvalid s
  | None => PInvalid s
  end.

Definition q : string := String quote "".
Example read_examples :
  read_json ("{" +:+ q +:+ "a" +:+ q +:+ ": [1, -20, true], " +:+ q +:+ "b" +:+ q +:+ ":1.5e3 }") =
    PJson (JObject [("a", JArray [JInt 1; JInt (-20); JBool true]); ("b", JReal "1.5e3")]) /\
  read_json "01" = PInvalid "01" /\ read_json "" = PEmpty /\ read_json " null " = PJson JNull /\
  read_json "[1,]" = PInvalid "[1,]".
Proof. vm_compute. done. Qed.

(** ** Integers *)
Section integers.

Lemma pretty_char_digit n : (n < 10)%N -> json_digit (pretty_N_char n) = true /\ byte (pretty_N_char n) = 48 + Z.of_N n.
Proof.
  intros H. assert (exists k, (k < 10)%nat /\ n = N.of_nat k) as (k&Hk&->) by (exists (N.to_nat n); lia).
  do 10 (destruct k as [|k]; [by vm_compute|]). lia.
Qed.

Lemma pretty_go_digits n : forall s,
  forall_char json_digit s = true ->
  forall_char json_digit (pretty_N_go n s) = true /\ digits 0 (pretty_N_go n s) = digits (Z.of_N n) s.
Proof.
  induction (N.lt_wf_0 n) as [n _ IH]. intros s Hs. destruct (decide (0 < n)%N) as [Hn|].
  - rewrite pretty_N_go_step by done. pose proof (N.mod_lt n 10 ltac:(done)) as Hm.
    destruct (pretty_char_digit _ Hm) as [Hd Hb].
    destruct (IH (n / 10)%N (N.div_lt n 10 Hn eq_refl) (String (pretty_N_char (n mod 10)) s)) as [H1 H2].
    { cbn [forall_char]. by rewrite Hd. }
    split; [done|]. rewrite H2. cbn [digits]. unfold json_digit, between in Hd. rewrite Hd, Hb. f_equal.
    pose proof (N.div_mod n 10 ltac:(done)). lia.
  - assert (n = 0%N) as -> by lia. by rewrite pretty_N_go_0.
Qed.

Lemma pretty_go_lead n : forall s, (0 < n)%N ->
  exists c t, pretty_N_go n s = String c t /\ json_digit c = true /\ c <> "0"%char.
Proof.
  induction (N.lt_wf_0 n) as [n _ IH]. intros s Hn. rewrite pretty_N_go_step by done.
  destruct (decide (n < 10)%N) as [Hs|].
  - rewrite N.div_small, pretty_N_go_0 by done. rewrite N.mod_small by done.
    destruct (pretty_char_digit _ Hs) as [Hd Hb]. eexists _, _. split_and!; [done..|].
    intros E. rewrite E in Hb. change (byte "0"%char) with 48 in Hb. lia.
  - apply IH; [by apply N.div_lt|]. apply N.div_str_pos. lia.
Qed.

(** The decimal text of a positive number. *)
Lemma pretty_pos_text p :
  exists c t, pretty (N.pos p) = String c t /\ json_digit c = true /\ c <> "0"%char /\
    forall_char json_digit (String c t) = true /\ digits 0 (String c t) = Some (Z.pos p).
Proof.
  unfold pretty, pretty_N. rewrite decide_False by done.
  destruct (pretty_go_lead (N.pos p) "" ltac:(lia)) as (c&t&E&Hc&H0).
  destruct (pretty_go_digits (N.pos p) "" eq_refl) as [Hd Hv]. rewrite E in *. by eauto 10.
Qed.

(** What may follow a value inside a text. *)
Definition delim (s : string) : Prop :=
  match s with
  | EmptyString => True
  | String c _ => c = ","%char \/ c = "}"%char \/ c = "]"%char
  end.

Lemma span_digits_app d rest : forall_char json_digit d = true -> delim rest -> span_digits (d +:+ rest) = (d, rest).
Proof.
  intros Hd Hr. induction d as [|c d IH]; cbn [forall_char] in *.
  - destruct rest as [|c rest]; [done|]. cbn. by destruct Hr as [->|[->| ->]].
  - apply andb_true_iff in Hd as [Hc Hd]. rewrite string_app_cons. cbn [span_digits]. rewrite Hc. by rewrite IH.
Qed.

Lemma no_fraction rest : delim rest -> fraction rest = Some ("", rest) /\ exponent rest = Some ("", rest).
Proof. destruct rest as [|c rest]; [done|]. by intros [->|[->| ->]]. Qed.

Lemma natural_text c t rest :
  json_digit c = true -> c <> "0"%char -> forall_char json_digit (String c t) = true -> delim rest ->
  natural (String c t +:+ rest) = Some (String c t, rest).
Proof.
  intros Hc H0 Hd Hr. change (String c t +:+ rest) with (String c (t +:+ rest)). unfold natural.
  destruct (Ascii.eqb_spec c "0"); [done|]. rewrite Hc. by rewrite <- (span_digits_app (String c t) rest).
Qed.

Lemma number_text z rest : delim rest -> number (pretty z +:+ rest) = Some (JInt z, rest).
Proof.
  intros Hr. destruct (no_fraction _ Hr) as [Hf He]. destruct z as [|p|p].
  - change (pretty 0 +:+ rest) with (String "0" rest). cbn -[fraction exponent]. rewrite Hf. cbn -[exponent]. by rewrite He.
  - change (pretty (Z.pos p)) with (pretty (N.pos p)). destruct (pretty_pos_text p) as (c&t&->&Hc&H0&Hd&Hv).
    pose proof (natural_text c t rest Hc H0 Hd Hr) as Hn.
    rewrite string_app_cons in *. unfold number.
    destruct (Ascii.eqb_spec c "-"); [by subst|]. cbv beta iota zeta. rewrite Hn. cbn -[digits fraction exponent].
    rewrite Hf. cbn -[digits exponent]. rewrite He. cbn -[digits]. by rewrite Hv.
  - change (pretty (Z.neg p)) with ("-" +:+ pretty (N.pos p)). destruct (pretty_pos_text p) as (c&t&->&Hc&H0&Hd&Hv).
    pose proof (natural_text c t rest Hc H0 Hd Hr) as Hn. unfold number.
    change (("-" +:+ String c t) +:+ rest) with (String "-" (String c t +:+ rest)). cbv beta iota zeta.
    change (Ascii.eqb "-" "-") with true. cbv beta iota zeta. rewrite Hn. cbn -[digits fraction exponent].
    rewrite Hf. cbn -[digits exponent]. rewrite He. cbn -[digits]. by rewrite Hv.
Qed.

(** A number starts with its sign or a digit. *)
Lemma pretty_lead (z : Z) : exists c t, pretty z = String c t /\ (c = "-"%char \/ json_digit c = true).
Proof.
  destruct z as [|p|p]; [by eexists _, _; split; [done|right]| |by eexists _, _; split; [done|left]].
  change (pretty (Z.pos p)) with (pretty (N.pos p)). destruct (pretty_pos_text p) as (c&t&->&Hc&_). eauto.
Qed.

End integers.

(** ** Strings *)

(** Valid UTF-8. *)
Fixpoint utf8_runes (fuel : nat) (s : string) : bool :=
  match s, fuel with
  | EmptyString, _ => true
  | _, O => false
  | _, S fuel => match valid_rune s with Some (_, s') => utf8_runes fuel s' | None => false end
  end.
Definition utf8_ok (s : string) : bool := utf8_runes (String.length s) s.

Section strings.

Lemma valid_rune_app s r s' t : valid_rune s = Some (r, s') ->
  s = r +:+ s' /\ valid_rune (s +:+ t) = Some (r, s' +:+ t) /\ exists a r', r = String a r'.
Proof.
  unfold valid_rune at 1. intros H. repeat case_match; simplify_eq; (split; [done|]; split; [|eauto]);
    rewrite !string_app_cons; unfold valid_rune; repeat match goal with E : ?x = _ |- context[?x] => rewrite E end; done.
Qed.

(** One character is written and read back. *)
Lemma ascii_char_text a rest : byte a < 0x80 ->
  literal_char (ascii_text a +:+ rest) = Some (String a "", rest) /\
  exists c t, ascii_text a = String c t /\ Ascii.eqb c quote = false.
Proof.
  intros H. destruct a as [[] [] [] [] [] [] [] []]; try (by vm_compute in H);
    (split; [reflexivity|eexists _, _; split; reflexivity]).
Qed.

Lemma wide_first a s r s' : (byte a <? 0x80) = false -> valid_rune (String a s) = Some (r, s') ->
  exists r', r = String a r' /\ Ascii.eqb a quote = false /\ Ascii.eqb a backslash = false /\ (byte a <? 32) = false.
Proof.
  intros Ha Hr. destruct (valid_rune_app _ _ _ "" Hr) as (E&_&b&r'&->). cbn in E. injection E as <- _.
  exists r'. split; [done|]. apply Z.ltb_ge in Ha.
  split_and!; [destruct (Ascii.eqb_spec a quote); [subst; by vm_compute in Ha|done]
              |destruct (Ascii.eqb_spec a backslash); [subst; by vm_compute in Ha|done]|lia].
Qed.

Lemma wide_char_text a s r s' rest : (byte a <? 0x80) = false -> valid_rune (String a s) = Some (r, s') ->
  literal_char (wide_text r +:+ rest) = Some (r, rest) /\
  exists c t, wide_text r = String c t /\ Ascii.eqb c quote = false.
Proof.
  intros Ha Hr. destruct (wide_first _ _ _ _ Ha Hr) as (r'&E&Hq&Hb&Hs). unfold wide_text.
  case_bool_decide as E1; [rewrite E1; split; [reflexivity|by eexists _, _]|].
  case_bool_decide as E2; [rewrite E2; split; [reflexivity|by eexists _, _]|].
  split; [|rewrite E; eauto]. destruct (valid_rune_app _ _ _ "" Hr) as (E0&_&_).
  assert (valid_rune r = Some (r, "")) as Hrr.
  { clear -Hr Ha. unfold valid_rune in Hr. rewrite Ha in Hr. repeat case_match; simplify_eq; unfold valid_rune;
      repeat match goal with E : ?x = _ |- context[?x] => rewrite E end; done. }
  destruct (valid_rune_app _ _ _ rest Hrr) as (_&Hv&_). rewrite E in Hv |- *. rewrite string_app_cons in Hv |- *.
  unfold literal_char. rewrite Hs, Hb, Hv. done.
Qed.

(** A string literal is read back as the string it was written for. *)
Lemma literal_text n : forall s fuel rest,
  utf8_runes n s = true -> (String.length s <= n)%nat -> (String.length (string_text n s) < fuel)%nat ->
  literal fuel (string_text n s +:+ String quote rest) = Some (s, rest).
Proof.
  induction n as [|n IH]; intros [|a s] fuel rest Hu Hn Hf; try (destruct fuel; [cbn in Hf; lia|reflexivity]).
  { cbn in Hn. lia. }
  cbn [utf8_runes] in Hu. destruct (valid_rune (String a s)) as [[r s']|] eqn:Er; [|done].
  destruct (valid_rune_app _ _ _ "" Er) as (Es&_&b&r'&Eb).
  assert (String.length s' <= n)%nat as Hs'.
  { apply (f_equal String.length) in Es. rewrite Eb, string_app_cons in Es. cbn in Es, Hn.
    rewrite string_length_app in Es. lia. }
  assert (exists w, string_text (S n) (String a s) = w +:+ string_text n s' /\
    (forall rest, literal_char (w +:+ rest) = Some (r, rest)) /\ exists c t, w = String c t /\ Ascii.eqb c quote = false)
    as (w&Ew&Hw&c&t&Ec&Hq).
  { cbn [string_text]. destruct (byte a <? 0x80) eqn:Ha.
    - unfold valid_rune in Er. rewrite Ha in Er. simplify_eq. exists (ascii_text b). split; [done|].
      apply Z.ltb_lt in Ha. split; [|by apply (ascii_char_text b "")]. intros x. by apply ascii_char_text.
    - rewrite Er. exists (wide_text r). split; [done|]. split; [|by eapply (wide_char_text a s r s' "")].
      intros x. by eapply wide_char_text. }
  rewrite Ew in *. rewrite string_length_app in Hf. destruct fuel as [|fuel]; [lia|].
  rewrite string_app_assoc. specialize (Hw (string_text n s' +:+ String quote rest)). rewrite Ec in Hw, Hf |- *.
  cbn in Hf. rewrite string_app_cons in Hw |- *. cbn [literal]. rewrite Hq, Hw. cbn -[literal].
  rewrite IH by (done || lia). cbn. by rewrite Es.
Qed.

Lemma quoted_text s rest : utf8_ok s = true ->
  exists body, quoted s +:+ rest = String quote body /\
    (String.length body < String.length (quoted s +:+ rest))%nat /\
    literal (S (String.length body)) body = Some (s, rest).
Proof.
  intros Hs. unfold quoted. rewrite string_app_assoc, !string_app_cons. change ("" +:+ rest) with rest.
  eexists. split; [done|]. split; [by cbn; lia|]. apply literal_text; [done|lia|].
  rewrite string_length_app. lia.
Qed.

End strings.

(** ** Values *)

Lemma json_rect_nested (P : json -> Prop) :
  P JNull -> (forall b, P (JBool b)) -> (forall z, P (JInt z)) -> (forall t, P (JReal t)) -> (forall s, P (JString s)) ->
  (forall l, Forall P l -> P (JArray l)) -> (forall ms, Forall (fun kv => P kv.2) ms -> P (JObject ms)) ->
  forall v, P v.
Proof.
  intros Hn Hb Hi Hr Hs Ha Ho. fix F 1. intros [| | | | |l|ms]; [apply Hn|apply Hb|apply Hi|apply Hr|apply Hs| |].
  - apply Ha. induction l; constructor; auto.
  - apply Ho. induction ms as [|[k v] ms IH]; constructor; [apply F|exact IH].
Qed.

(** The values whose text is fixed by the value: integers, and strings of
    valid UTF-8. *)
Fixpoint printable (v : json) : bool :=
  match v with
  | JReal _ => false
  | JString s => utf8_ok s
  | JArray l => forallb printable l
  | JObject ms => forallb (fun kv => utf8_ok kv.1 && printable kv.2) ms
  | _ => true
  end.

Fixpoint json_depth (v : json) : nat :=
  match v with
  | JArray l => S (foldr (fun v n => Nat.max (json_depth v) n) 0%nat l)
  | JObject ms => S (foldr (fun kv n => Nat.max (json_depth kv.2) n) 0%nat ms)
  | _ => 0%nat
  end.

Definition member_text (kv : string * json) : string := quoted kv.1 +:+ String ":" (json_text kv.2).

Section values.

(** The text [v] was written as is read as [v]. *)
Definition reads_back (v : json) : Prop :=
  printable v = true -> forall fuel depth rest, delim rest ->
  (2 * String.length (json_text v) <= fuel)%nat -> (json_depth v <= depth)%nat ->
  value fuel depth (json_text v +:+ rest) = Some (v, rest).

Lemma digit_cases c : json_digit c = true \/ c = "-"%char ->
  json_space c = false /\ c <> "]"%char /\ Ascii.eqb c quote = false /\ Ascii.eqb c "{" = false /\ Ascii.eqb c "[" = false /\
  Ascii.eqb c "t" = false /\ Ascii.eqb c "f" = false /\ Ascii.eqb c "n" = false.
Proof. intros [H| ->]; [|by vm_compute]. destruct c as [[] [] [] [] [] [] [] []]; try (by vm_compute in H); by vm_compute. Qed.

Lemma text_lead v : printable v = true ->
  exists c t, json_text v = String c t /\ json_space c = false /\ c <> "]"%char.
Proof.
  destruct v as [|[]|z|t|s|l|ms]; intros H; try discriminate H; try (by eexists _, _).
  destruct (pretty_lead z) as (c&t&E&Hc). cbn [json_text]. rewrite E. exists c, t. destruct (digit_cases c); tauto.
Qed.

Lemma skip_char c s : json_space c = false -> skip_space (String c s) = String c s.
Proof. cbn. by intros ->. Qed.

Lemma keyword_app w v rest : keyword w v (w +:+ rest) = Some (v, rest).
Proof. unfold keyword. by rewrite has_prefix_app, drop_str_app. Qed.

Lemma delim_space rest : delim rest -> skip_space rest = rest.
Proof. destruct rest as [|c rest]; [done|]. by intros [->|[->| ->]]. Qed.

Lemma string_reads_back s : reads_back (JString s).
Proof.
  intros Hp fuel depth rest Hr Hf Hd. cbn [printable] in Hp. cbn [json_text] in *.
  destruct (quoted_text s rest Hp) as (body&E&_&Hl). destruct fuel as [|fuel]; [unfold quoted in Hf; rewrite string_app_cons in Hf; cbn in Hf; lia|]. rewrite E.
  cbn [value]. change (skip_space (String quote body)) with (String quote body). cbv beta iota.
  change (Ascii.eqb quote quote) with true. cbv beta iota. by rewrite Hl.
Qed.

Lemma int_reads_back z : reads_back (JInt z).
Proof.
  intros _ fuel depth rest Hr Hf _. cbn [json_text] in *. pose proof (number_text z rest Hr) as Hn.
  destruct (pretty_lead z) as (c&t&E&Hc). rewrite E in *. destruct fuel as [|fuel]; [cbn in Hf; lia|].
  destruct (digit_cases c ltac:(tauto)) as (Hs&_&H1&H2&H3&H4&H5&H6). rewrite string_app_cons in *.
  cbn [value skip_space]. rewrite Hs. cbv beta iota. by rewrite H1, H2, H3, H4, H5, H6.
Qed.

Lemma elements_text l : Forall reads_back l -> l <> [] -> forallb printable l = true -> forall fuel depth rest,
  (2 * String.length (sep_by "," (map json_text l)) < fuel)%nat -> (foldr (fun v n => Nat.max (json_depth v) n) 0 l <= depth)%nat ->
  elements fuel depth (sep_by "," (map json_text l) +:+ String "]" rest) = Some (l, rest).
Proof.
  induction 1 as [|v l Hv Hl IH]; [done|]. intros _ Hp fuel depth rest Hf Hd. cbn [forallb] in Hp.
  apply andb_true_iff in Hp as [Hp1 Hp2]. destruct fuel as [|fuel]; [lia|]. cbn [foldr] in Hd. destruct l as [|v2 l].
  - cbn [map sep_by] in *. cbn [elements]. rewrite (Hv Hp1) by (cbn; auto || lia). done.
  - change (sep_by "," (map json_text (v :: v2 :: l))) with (json_text v +:+ String "," (sep_by "," (map json_text (v2 :: l)))) in *.
    rewrite string_length_app in Hf. cbn [String.length] in Hf. rewrite string_app_assoc, string_app_cons. cbn [elements].
    rewrite (Hv Hp1) by (cbn; auto || lia). unfold mbind, option_bind. rewrite skip_char by done.
    cbv beta iota. change (Ascii.eqb "," ",") with true. cbv beta iota. by rewrite IH by (done || lia).
Qed.

Lemma member_reads kv fuel depth rest c : reads_back kv.2 -> utf8_ok kv.1 = true -> printable kv.2 = true ->
  c = ","%char \/ c = "}"%char -> (2 * String.length (member_text kv) <= fuel)%nat -> (json_depth kv.2 <= depth)%nat ->
  members (S fuel) depth (member_text kv +:+ String c rest) =
    if Ascii.eqb c "," then '(ms, s) ← members fuel depth rest; Some (kv :: ms, s) else Some ([kv], rest).
Proof.
  intros Hv Hk Hp Hc Hf Hd. unfold member_text in *. rewrite string_app_assoc, string_app_cons.
  destruct (quoted_text kv.1 (String ":" (json_text kv.2 +:+ String c rest)) Hk) as (body&E&_&Hl). rewrite E.
  cbn [members]. change (skip_space (String quote body)) with (String quote body). cbv beta iota.
  change (Ascii.eqb quote quote) with true. cbv beta iota. rewrite Hl. unfold mbind, option_bind.
  rewrite skip_char by done. cbv beta iota. change (Ascii.eqb ":" ":") with true. cbv beta iota.
  rewrite string_length_app in Hf. cbn [String.length] in Hf.
  assert (delim (String c rest)) as Hr by (destruct Hc as [->| ->]; cbn; auto).
  rewrite (Hv Hp) by (done || lia). destruct kv as [k v].
  destruct Hc as [->| ->]; reflexivity.
Qed.

Lemma members_text ms : Forall (fun kv => reads_back kv.2) ms -> ms <> [] ->
  forallb (fun kv => utf8_ok kv.1 && printable kv.2) ms = true -> forall fuel depth rest,
  (2 * String.length (sep_by "," (map member_text ms)) < fuel)%nat ->
  (foldr (fun kv n => Nat.max (json_depth kv.2) n) 0 ms <= depth)%nat ->
  members fuel depth (sep_by "," (map member_text ms) +:+ String "}" rest) = Some (ms, rest).
Proof.
  induction 1 as [|kv ms Hv Hl IH]; [done|]. intros _ Hp fuel depth rest Hf Hd. cbn [forallb] in Hp. bool_prop.
  destruct fuel as [|fuel]; [lia|]. cbn [foldr] in Hd. destruct ms as [|kv2 ms].
  - cbn [map sep_by] in *. rewrite member_reads by (auto || lia). done.
  - change (sep_by "," (map member_text (kv :: kv2 :: ms))) with
      (member_text kv +:+ String "," (sep_by "," (map member_text (kv2 :: ms)))) in *.
    rewrite string_length_app in Hf. cbn [String.length] in Hf. rewrite string_app_assoc, string_app_cons.
    rewrite member_reads by (auto || lia). change (Ascii.eqb "," ",") with true. cbv beta iota. by rewrite IH by (done || lia).
Qed.

Lemma array_text l : json_text (JArray l) = String "[" (sep_by "," (map json_text l) +:+ "]").
Proof. reflexivity. Qed.
Lemma object_text ms : json_text (JObject ms) = String "{" (sep_by "," (map member_text ms) +:+ "}").
Proof. reflexivity. Qed.

Lemma sep_by_lead x l rest c t : x = String c t -> exists t', sep_by "," (x :: l) +:+ rest = String c t'.
Proof. intros ->. destruct l; cbn [sep_by]; rewrite ?string_app_cons; eauto. Qed.

Lemma value_text v : reads_back v.
Proof.
  induction v as [|b|z|t|s|l IH|ms IH] using json_rect_nested; try (by intros H); auto using string_reads_back, int_reads_back.
  - intros _ [|fuel] depth rest _ Hf _; [cbn in Hf; lia|]. exact (keyword_app "null" JNull rest).
  - intros _ [|fuel] depth rest _ Hf _; [destruct b; cbn in Hf; lia|]. destruct b; [exact (keyword_app "true" _ rest)|exact (keyword_app "false" _ rest)].
  - intros Hp fuel depth rest Hr Hf Hd. rewrite array_text in *. cbn [String.length] in Hf. rewrite string_length_app in Hf.
    cbn [String.length] in Hf. destruct fuel as [|fuel]; [lia|]. destruct depth as [|depth]; [cbn in Hd; lia|].
    destruct l as [|v l]; [reflexivity|]. rewrite string_app_cons, string_app_assoc. change ("]" +:+ rest) with (String "]" rest).
    pose proof (elements_text (v :: l) IH ltac:(done) Hp fuel depth rest) as He.
    cbn [printable forallb] in Hp. apply andb_true_iff in Hp as [Hp _]. destruct (text_lead v Hp) as (c&t&Ec&Hs&Hn).
    destruct (sep_by_lead (json_text v) (map json_text l) (String "]" rest) c t Ec) as [t' Et].
    cbn [value]. rewrite skip_char by done. cbv beta iota. change (Ascii.eqb "[" quote) with false.
    change (Ascii.eqb "[" "{") with false. change (Ascii.eqb "[" "[") with true. cbv beta iota.
    cbn [map] in *. rewrite Et, skip_char by done. destruct (Ascii.eqb_spec c "]"); [done|].
    rewrite <- Et, He; [done|lia|cbn in Hd |- *; lia].
  - intros Hp fuel depth rest Hr Hf Hd. rewrite object_text in *. cbn [String.length] in Hf. rewrite string_length_app in Hf.
    cbn [String.length] in Hf. destruct fuel as [|fuel]; [lia|]. destruct depth as [|depth]; [cbn in Hd; lia|].
    destruct ms as [|kv ms]; [reflexivity|]. rewrite string_app_cons, string_app_assoc. change ("}" +:+ rest) with (String "}" rest).
    pose proof (members_text (kv :: ms) IH ltac:(done) Hp fuel depth rest) as He.
    destruct (sep_by_lead (member_text kv) (map member_text ms) (String "}" rest) quote _ eq_refl) as [t' Et].
    cbn [value]. rewrite skip_char by done. cbv beta iota. change (Ascii.eqb "{" quote) with false.
    change (Ascii.eqb "{" "{") with true. cbv beta iota. cbn [map] in *. rewrite Et, skip_char by done.
    change (Ascii.eqb quote "}") with false. cbv beta iota. rewrite <- Et, He; [done|lia|cbn in Hd |- *; lia].
Qed.

(** [json.Unmarshal] reads the value [json.Marshal] wrote. *)
Lemma read_json_text v : printable v = true -> (json_depth v <= maxNestingDepth)%nat -> read_json (json_text v) = PJson v.
Proof.
  intros Hp Hd. unfold read_json. destruct (text_lead v Hp) as (c&t&E&_).
  rewrite bool_decide_eq_false_2 by (rewrite E; done).
  pose proof (value_text v Hp (S (2 * String.length (json_text v))) maxNestingDepth "" I ltac:(lia) Hd) as H.
  rewrite string_app_nil_r in H. by rewrite H.
Qed.

End values.

(** ** The length of a text *)
Section lengths.

Lemma valid_rune_shorter s r s' : valid_rune s = Some (r, s') -> (String.length s = String.length r + String.length s')%nat /\ (1 <= String.length r)%nat.
Proof.
  intros H. destruct (valid_rune_app _ _ _ "" H) as (E&_&a&r'&Er). split; [by rewrite E, string_length_app|].
  rewrite Er. cbn. lia.
Qed.

Lemma string_text_length n : forall s, (String.length (string_text n s) <= 6 * String.length s)%nat.
Proof.
  induction n as [|n IH]; intros [|a s]; cbn [string_text String.length]; try lia.
  assert (forall a, String.length (ascii_text a) <= 6)%nat as Ha by (intros x; unfold ascii_text; repeat case_match; cbn; lia).
  destruct (byte a <? 0x80); [rewrite string_length_app; specialize (IH s); specialize (Ha a); lia|].
  destruct (valid_rune (String a s)) as [[r s']|] eqn:E; rewrite string_length_app.
  - apply valid_rune_shorter in E as [E1 E2]. cbn in E1. specialize (IH s').
    assert (String.length (wide_text r) <= 6 * String.length r)%nat; [|lia].
    unfold wide_text. repeat case_match; cbn [u_escape String.length]; try lia.
  - specialize (IH s). change (String.length (u_escape _)) with 6%nat. lia.
Qed.

Lemma quoted_length s : (String.length (quoted s) <= 6 * String.length s + 2)%nat.
Proof.
  unfold quoted. rewrite string_length_app. cbn [String.length]. pose proof (string_text_length (String.length s) s). lia.
Qed.

Lemma pretty_go_length k : forall n s, (n < 10 ^ N.of_nat k)%N -> (String.length (pretty_N_go n s) <= k + String.length s)%nat.
Proof.
  induction k as [|k IH]; intros n s Hn.
  - change (10 ^ N.of_nat 0)%N with 1%N in Hn. assert (n = 0%N) as -> by lia. by rewrite pretty_N_go_0.
  - destruct (decide (0 < n)%N) as [Hp|]; [|assert (n = 0%N) as -> by lia; rewrite pretty_N_go_0; lia].
    rewrite pretty_N_go_step by done. etrans; [apply IH|cbn [String.length]; lia].
    apply N.Div0.div_lt_upper_bound. by rewrite Nat2N.inj_succ, N.pow_succ_r' in Hn.
Qed.

Lemma pretty_length (z : Z) k : 0 <= z < 10 ^ Z.of_nat k -> (0 < k)%nat -> (String.length (pretty z) <= k)%nat.
Proof.
  intros Hz Hk. destruct z as [|p|p]; [cbn; lia| |lia]. change (pretty (Z.pos p)) with (pretty (N.pos p)).
  unfold pretty, pretty_N. rewrite decide_False by done. etrans; [apply (pretty_go_length k)|cbn; lia].
  apply N2Z.inj_lt. rewrite N2Z.inj_pow, nat_N_Z. apply Hz.
Qed.

End lengths.

End JsonText.
Export JsonText.
