(* ===== verification/ProxyToken.v ===== *)
(** Route tokens (api/proxytoken/token.go): the key a worker secret gives, the
    claims the console signs for a proxied request, and how a worker verifies
    them.  A token is text: the claims are written as JSON, in base64url, and
    signed with HMAC-SHA256 over the text itself. *)
From S2P Require Import Prelude.
From S2P Require Import Json.
From S2P Require Import OwnerScope.
From S2P Require Import AuthText.
From S2P Require Import JsonText.
From S2P Require Import Sha256.

Module ProxyToken.

Definition Prefix : string := "obx_route_v1.".
Definition HeaderName : string := "X-Onlyboxes-Route-Token".
Definition ProxyEndpointLabel : string := "obx.proxy_endpoint".
Definition ProxyDirectLabel : string := "obx.proxy_direct".
Definition ProxyDirectE2B : string := "e2b".
Definition keyDerivationLabel : string := "onlyboxes/proxy-route/v1".
Definition maxTokenLength : Z := 4096.

Record Claims := mkClaims {
  WorkerID : string;
  SessionID : string;
  Port : Z;
  ExpiresAtUnixMs : Z }.

#[export] Instance Claims_eq_dec : EqDecision Claims.
Proof. solve_decision. Defined.

(** ** [base64.RawURLEncoding.EncodeToString] *)
Definition url_char (v : Z) : ascii :=
  chr (if v <? 26 then 65 + v else if v <? 52 then 71 + v else if v <? 62 then v - 4 else if v =? 62 then 45 else 95).

Fixpoint sextets (bs : list ascii) : list Z :=
  match bs with
  | [] => []
  | [a] => [byte a / 4; (byte a mod 4) * 16]
  | [a; b] => [byte a / 4; (byte a mod 4) * 16 + byte b / 16; (byte b mod 16) * 4]
  | a :: b :: c :: rest =>
      byte a / 4 :: (byte a mod 4) * 16 + byte b / 16 :: (byte b mod 16) * 4 + byte c / 64 :: byte c mod 64 :: sextets rest
  end.

Definition raw_url_encode (s : string) : string :=
  String.string_of_list_ascii (url_char <$> sextets (String.list_ascii_of_string s)).

(** ** token.go *)
Definition DeriveKey (workerSecret : string) : res string :=
  let secret := trim workerSecret in
  if bool_decide (secret = "") then Err (ErrorString "worker secret is required") else
  Ok (hmac secret keyDerivationLabel).

Definition validateClaims (claims : Claims) : res unit :=
  if bool_decide (trim (WorkerID claims) = "") then Err (ErrorString "worker_id is required") else
  if bool_decide (trim (SessionID claims) = "") then Err (ErrorString "session_id is required") else
  if (Port claims <? 1) || (65535 <? Port claims) then Err (ErrorString "port must be between 1 and 65535") else
  if ExpiresAtUnixMs claims <=? 0 then Err (ErrorString "exp is required") else
  Ok tt.

Definition claims_json (claims : Claims) : json :=
  JObject [("worker_id", JString (WorkerID claims)); ("session_id", JString (SessionID claims));
           ("port", JInt (Port claims)); ("exp", JInt (ExpiresAtUnixMs claims))].

Definition Sign (key : string) (claims : Claims) : res string :=
  if bool_decide (key = "") then Err (ErrorString "route token key is required") else
  match validateClaims claims with
  | Err e => Err e
  | Ok _ =>
      let payloadEncoded := raw_url_encode (json_text (claims_json claims)) in
      let signedValue := Prefix +:+ payloadEncoded in
      Ok (signedValue +:+ "." +:+ raw_url_encode (hmac key signedValue))
  end.

Definition claims_field (name : string) : option (json -> Claims -> Claims * bool) :=
  if equal_fold name "worker_id" then Some (fun v c =>
    let '(x, bad) := dec_string v (WorkerID c) in (mkClaims x (SessionID c) (Port c) (ExpiresAtUnixMs c), bad))
  else if equal_fold name "session_id" then Some (fun v c =>
    let '(x, bad) := dec_string v (SessionID c) in (mkClaims (WorkerID c) x (Port c) (ExpiresAtUnixMs c), bad))
  else if equal_fold name "port" then Some (fun v c =>
    let '(x, bad) := dec_int v (Port c) in (mkClaims (WorkerID c) (SessionID c) x (ExpiresAtUnixMs c), bad))
  else if equal_fold name "exp" then Some (fun v c =>
    let '(x, bad) := dec_int v (ExpiresAtUnixMs c) in (mkClaims (WorkerID c) (SessionID c) (Port c) x, bad))
  else None.

Definition unmarshal_claims : payload -> option Claims := unmarshal_struct claims_field (mkClaims "" "" 0 0).

(** [strings.Split] at a one-byte separator. *)
Definition split (sep : ascii) (s : string) : list string := split_n (S (String.length s)) sep s.

(** [wall] is [time.Now()], used when [now] is the zero time. *)
Definition Verify (wall : time) (key token : string) (now : time) : res Claims :=
  if bool_decide (key = "") then Err (Sentinel ErrInvalidToken) else
  let token := trim token in
  if bool_decide (token = "") || (maxTokenLength <? len token) || negb (has_prefix Prefix token)
  then Err (Sentinel ErrInvalidToken) else
  match split "." (trim_prefix Prefix token) with
  | [payloadEncoded; signatureEncoded] =>
      if bool_decide (payloadEncoded = "") || bool_decide (signatureEncoded = "") then Err (Sentinel ErrInvalidToken) else
      match raw_url_decode signatureEncoded with
      | None => Err (Sentinel ErrInvalidToken)
      | Some signature =>
          if negb (len signature =? Size) then Err (Sentinel ErrInvalidToken) else
          if negb (bool_decide (signature = hmac key (Prefix +:+ payloadEncoded))) then Err (Sentinel ErrInvalidToken) else
          match raw_url_decode payloadEncoded ≫= fun payload => unmarshal_claims (read_json payload) with
          | None => Err (Sentinel ErrInvalidToken)
          | Some claims =>
              if negb (is_ok (validateClaims claims)) then Err (Sentinel ErrInvalidToken) else
              let now := if is_zero now then wall else now in
              if ExpiresAtUnixMs claims <=? unix_milli now then Err (Sentinel ErrExpiredToken) else
              Ok claims
          end
      end
  | _ => Err (Sentinel ErrInvalidToken)
  end.

(** ** base64url is undone by decoding *)
Section base64.

Lemma byte_range a : 0 <= byte a < 256.
Proof. unfold byte. pose proof (N_ascii_bounded a). lia. Qed.

Lemma url_char_value v : 0 <= v < 64 -> url_value (url_char v) = Some v /\ plain (url_char v) = true /\ url_char v <> "."%char.
Proof.
  intros H. assert (exists n, (n < 64)%nat /\ v = Z.of_nat n) as (n&Hn&->) by (exists (Z.to_nat v); lia).
  do 64 (destruct n as [|n]; [by vm_compute|]). lia.
Qed.

Lemma list_ind3 {A} (P : list A -> Prop) :
  P [] -> (forall a, P [a]) -> (forall a b, P [a; b]) -> (forall a b c l, P l -> P (a :: b :: c :: l)) -> forall l, P l.
Proof.
  intros H0 H1 H2 H3. fix F 1. intros [|a [|b [|c l]]]; [apply H0|apply H1|apply H2|apply H3, F].
Qed.

Lemma sextets_range bs : Forall (fun v => 0 <= v < 64) (sextets bs).
Proof.
  induction bs as [|a|a b|a b c rest IH] using list_ind3;
    cbn [sextets]; repeat constructor; try done;
    repeat match goal with |- context[byte ?a] => pose proof (byte_range a); generalize dependent (byte a); intros end;
    Z.div_mod_to_equations; lia.
Qed.

Lemma lor_add a b k : 0 <= k -> 0 <= b < 2 ^ k -> Z.lor (Z.shiftl a k) b = a * 2 ^ k + b.
Proof.
  intros Hk Hb. rewrite <- Z.shiftl_mul_pow2 by done. rewrite Z.add_nocarry_lxor, Z.lxor_lor; [done| |].
  all: apply Z.bits_inj'; intros n Hn; rewrite Z.land_spec, Z.bits_0; destruct (decide (n < k)).
  all: try (rewrite Z.shiftl_spec_low by lia; done).
  all: rewrite <- (Z.mod_small b (2 ^ k)) by done; rewrite Z.mod_pow2_bits_high by lia; by rewrite andb_false_r.
Qed.

Lemma octet_chr z a : z mod 256 = byte a -> octet z = a.
Proof.
  intros H. unfold octet. change 255 with (Z.ones 8). rewrite Z.land_ones by done. change (2 ^ 8) with 256. rewrite H.
  unfold byte. rewrite N2Z.id. apply ascii_N_embedding.
Qed.

Lemma octet_join a b k l c : 0 <= k -> 0 <= l -> 0 <= b / 2 ^ l < 2 ^ k -> (a * 2 ^ k + b / 2 ^ l) mod 256 = byte c ->
  octet (Z.lor (Z.shiftl a k) (Z.shiftr b l)) = c.
Proof. intros. apply octet_chr. rewrite Z.shiftr_div_pow2, lor_add by done. done. Qed.

Lemma url_groups_sextets bs : url_groups (sextets bs) = Some bs.
Proof.
  induction bs as [|a|a b|a b c rest IH] using list_ind3;
    [done| | |]; cbn [sextets url_groups].
  - pose proof (byte_range a). do 2 f_equal. apply octet_join; [done..| |]; Z.div_mod_to_equations; lia.
  - pose proof (byte_range a). pose proof (byte_range b). do 2 f_equal; [|f_equal].
    all: apply octet_join; [done..| |]; Z.div_mod_to_equations; lia.
  - rewrite IH. cbn. pose proof (byte_range a). pose proof (byte_range b). pose proof (byte_range c). do 2 f_equal; [|f_equal; [|f_equal]].
    1-2: apply octet_join; [done..| |]; Z.div_mod_to_equations; lia.
    apply octet_chr. rewrite lor_add by (done || (Z.div_mod_to_equations; lia)). Z.div_mod_to_equations; lia.
Qed.

Lemma mapM_url_value vs : Forall (fun v => 0 <= v < 64) vs -> mapM url_value (url_char <$> vs) = Some vs.
Proof. intros H. apply mapM_Some. induction H as [|v vs Hv _ IH]; constructor; [|done]. by apply url_char_value. Qed.

Lemma filter_all {A} (p : A -> bool) l : Forall (fun x => p x = true) l -> List.filter p l = l.
Proof. induction 1 as [|x l Hx _ IH]; [done|]. cbn. by rewrite Hx, IH. Qed.

Lemma raw_url_decode_encode s : raw_url_decode (raw_url_encode s) = Some s.
Proof.
  unfold raw_url_decode, raw_url_encode. rewrite String.list_ascii_of_string_of_list_ascii.
  pose proof (sextets_range (String.list_ascii_of_string s)) as H. rewrite filter_all.
  - rewrite mapM_url_value by done. cbn. rewrite url_groups_sextets. cbn. by rewrite String.string_of_list_ascii_of_string.
  - apply Forall_fmap. eapply Forall_impl; [exact H|]. intros v Hv. destruct (url_char_value v Hv) as (_&Hp&_). cbn.
    unfold plain in Hp. apply andb_true_iff in Hp as [Hp _]. unfold is_space1 in Hp. lia.
Qed.

Lemma forall_char_list p l : forall_char p (String.string_of_list_ascii l) = forallb p l.
Proof. induction l as [|a l IH]; [done|]. cbn. by rewrite IH. Qed.

(** The encoded text: no white space, no dots. *)
Definition token_char (a : ascii) : bool := plain a && negb (Ascii.eqb a ".").

Lemma raw_url_encode_chars s : forall_char token_char (raw_url_encode s) = true.
Proof.
  unfold raw_url_encode. rewrite forall_char_list. apply forallb_forall. intros a Ha.
  apply list_elem_of_In, list_elem_of_fmap in Ha as (v&->&Hv).
  pose proof (proj1 (Forall_forall _ _) (sextets_range _) _ Hv) as Hr. cbn in Hr. clear Hv. rename Hr into Hv. destruct (url_char_value v Hv) as (_&Hp&Hd).
  cbn. unfold token_char. rewrite Hp. by destruct (Ascii.eqb_spec (url_char v) ".").
Qed.

Lemma sextets_length bs : (3 * length (sextets bs) <= 4 * length bs + 2)%nat /\ (length bs <= length (sextets bs))%nat.
Proof. induction bs using list_ind3; cbn [sextets length] in *; lia. Qed.

Lemma string_of_list_length l : String.length (String.string_of_list_ascii l) = length l.
Proof. induction l as [|a l IH]; [done|]. cbn. by rewrite IH. Qed.

Lemma raw_url_encode_length s :
  (3 * String.length (raw_url_encode s) <= 4 * String.length s + 2)%nat /\ (String.length s <= String.length (raw_url_encode s))%nat.
Proof.
  unfold raw_url_encode. rewrite string_of_list_length, length_fmap.
  pose proof (sextets_length (String.list_ascii_of_string s)) as H.
  assert (length (String.list_ascii_of_string s) = String.length s) as E; [|by rewrite E in H].
  rewrite <- string_of_list_length. by rewrite String.string_of_list_ascii_of_string.
Qed.

Lemma raw_url_encode_nonempty s : s <> "" -> raw_url_encode s <> "".
Proof.
  intros Hs E. pose proof (raw_url_encode_length s) as [_ H]. rewrite E in H. destruct s; [done|]. cbn in H. lia.
Qed.

End base64.

(** ** Signing and verifying *)
Section tokens.

Lemma cut_none sep s : contains_char sep s = false -> cut sep s = (s, None).
Proof.
  induction s as [|a s IH]; [done|]. cbn. destruct (Ascii.eqb a sep); [done|]. intros H. by rewrite IH.
Qed.

Lemma cut_none_inv sep s x : cut sep s = (x, None) -> s = x.
Proof.
  revert x. induction s as [|a s IH]; intros x; cbn; [by intros [= <-]|]. destruct (Ascii.eqb a sep); [done|].
  destruct (cut sep s) as [u o] eqn:E. intros [= <- ->]. by rewrite (IH u).
Qed.

Lemma split_n_nonempty n sep s : split_n (S n) sep s <> [].
Proof. cbn. destruct n; [done|]. by destruct (cut sep s) as [? []]. Qed.

Lemma split_two_inv sep s x y : split sep s = [x; y] -> s = x +:+ String sep y.
Proof.
  unfold split. cbn [split_n]. destruct (String.length s) as [|n] eqn:El; [by destruct s|].
  destruct (cut sep s) as [u [v|]] eqn:Ec; [|done]. apply cut_some in Ec as (->&_). cbn [split_n]. destruct n as [|n].
  - intros [= -> ->]. done.
  - destruct (cut sep v) as [w [z|]] eqn:Ev.
    { intros [= _ _ H]. by destruct (split_n_nonempty n sep z). }
    intros [= -> ->]. by apply cut_none_inv in Ev as ->.
Qed.

Lemma split_two sep x y : contains_char sep x = false -> contains_char sep y = false ->
  split sep (x +:+ String sep y) = [x; y].
Proof.
  intros Hx Hy. unfold split. rewrite string_length_app. cbn [String.length]. rewrite Nat.add_succ_r. cbn [split_n].
  rewrite cut_app by done. f_equal. destruct (String.length x + String.length y)%nat as [|n]; [done|]. cbn [split_n].
  rewrite cut_none by done. done.
Qed.

Lemma claims_decode claims : is_i64 (Port claims) = true -> is_i64 (ExpiresAtUnixMs claims) = true ->
  unmarshal_claims (PJson (claims_json claims)) = Some claims.
Proof.
  intros Hp He. destruct claims as [w s p e]. cbn [Port ExpiresAtUnixMs] in *.
  assert (forall z old, is_i64 z = true -> dec_int (JInt z) old = (z, false)) as Hd.
  { intros z old H. unfold dec_int. by rewrite H. }
  unfold unmarshal_claims, claims_json, unmarshal_struct, dec_fields. cbn [foldl WorkerID SessionID Port ExpiresAtUnixMs fst snd].
  change (claims_field "worker_id") with (Some (fun v c => let '(x, bad) := dec_string v (WorkerID c) in
    (mkClaims x (SessionID c) (Port c) (ExpiresAtUnixMs c), bad))).
  change (claims_field "session_id") with (Some (fun v c => let '(x, bad) := dec_string v (SessionID c) in
    (mkClaims (WorkerID c) x (Port c) (ExpiresAtUnixMs c), bad))).
  change (claims_field "port") with (Some (fun v c => let '(x, bad) := dec_int v (Port c) in
    (mkClaims (WorkerID c) (SessionID c) x (ExpiresAtUnixMs c), bad))).
  change (claims_field "exp") with (Some (fun v c => let '(x, bad) := dec_int v (ExpiresAtUnixMs c) in
    (mkClaims (WorkerID c) (SessionID c) (Port c) x, bad))).
  cbn -[dec_int]. rewrite !Hd by done. done.
Qed.

(** A signed token has two parts and is not changed by trimming. *)
Lemma Sign_shape key claims token : Sign key claims = Ok token ->
  key <> "" /\ validateClaims claims = Ok tt /\
  let payload := raw_url_encode (json_text (claims_json claims)) in
  token = Prefix +:+ payload +:+ String "." (raw_url_encode (hmac key (Prefix +:+ payload))).
Proof.
  unfold Sign. case_bool_decide; [done|]. destruct (validateClaims claims) as [[]|]; [|done]. intros [= <-].
  rewrite string_app_assoc. done.
Qed.

Lemma Sign_token_plain key claims token : Sign key claims = Ok token -> trim token = token.
Proof.
  intros (_&_&->)%Sign_shape. apply plain_trimmed. rewrite forall_char_app. cbn [forall_char].
  rewrite forall_char_app. cbn [forall_char].
  assert (forall s, forall_char plain (raw_url_encode s) = true) as H.
  { intros s. eapply forall_char_mono; [|apply raw_url_encode_chars]. intros a Ha. unfold token_char in Ha. by bool_prop. }
  rewrite !H. done.
Qed.

Lemma valid_claims_bounds claims : validateClaims claims = Ok tt -> 1 <= Port claims <= 65535 /\ 0 < ExpiresAtUnixMs claims.
Proof. unfold validateClaims. repeat case_match; try done. bool_prop. lia. Qed.

(** What [Verify] makes of a signed token. *)
Lemma Verify_Sign wall key claims token now : Sign key claims = Ok token ->
  utf8_ok (WorkerID claims) = true -> utf8_ok (SessionID claims) = true -> is_i64 (ExpiresAtUnixMs claims) = true ->
  (len token <= maxTokenLength) ->
  Verify wall key token now =
    if ExpiresAtUnixMs claims <=? unix_milli (if is_zero now then wall else now) then Err (Sentinel ErrExpiredToken) else Ok claims.
Proof.
  intros Hs Hw Hsid He Hl. pose proof (Sign_token_plain _ _ _ Hs) as Ht. apply Sign_shape in Hs as (Hk&Hv&Hs). cbv zeta in Hs.
  set (payload := raw_url_encode (json_text _)) in Hs. set (sig := raw_url_encode (hmac _ _)) in Hs. unfold Verify.
  rewrite bool_decide_eq_false_2 by done. rewrite Ht, bool_decide_eq_false_2 by (rewrite Hs; done).
  rewrite (proj2 (Z.ltb_ge _ _)) by done. cbn [orb]. rewrite Hs, has_prefix_app, trim_prefix_app. cbn [negb orb].
  assert (forall s, contains_char "." (raw_url_encode s) = false) as Hd.
  { intros s. apply (forall_char_contains token_char); [done|apply raw_url_encode_chars]. }
  rewrite split_two by apply Hd. rewrite bool_decide_eq_false_2 by (apply raw_url_encode_nonempty; done).
  rewrite bool_decide_eq_false_2.
  2:{ apply raw_url_encode_nonempty. intros E. pose proof (length_hmac key (Prefix +:+ payload)) as H. rewrite E in H. discriminate H. }
  cbn [orb]. unfold sig. rewrite raw_url_decode_encode. unfold len. rewrite length_hmac. cbn [negb].
  change (Z.of_nat 32 =? Size) with true. cbn [negb]. rewrite bool_decide_eq_true_2 by done. cbn [negb].
  unfold payload. rewrite raw_url_decode_encode. cbn [mbind option_bind]. rewrite read_json_text.
  - destruct (valid_claims_bounds _ Hv). rewrite claims_decode by (done || (unfold is_i64; lia)). by rewrite Hv.
  - cbn. by rewrite Hw, Hsid.
  - cbn. unfold maxNestingDepth. lia.
Qed.

(** The longest worker id, the prefix of an account's sessions and the longest
    session id fit: their tokens are short enough for [Verify]. *)
Definition maxTokenIDs : nat := 490.

Lemma claims_text_length claims : (1 <= Port claims <= 65535) -> (0 < ExpiresAtUnixMs claims) -> is_i64 (ExpiresAtUnixMs claims) = true ->
  (String.length (json_text (claims_json claims)) <= 71 + 6 * (String.length (WorkerID claims) + String.length (SessionID claims)))%nat.
Proof.
  intros Hp He Hi. unfold claims_json. rewrite object_text.
  cbn [map sep_by]. unfold member_text. cbn [fst snd json_text]. repeat (cbn [String.length]; rewrite ?string_length_app).
  pose proof (quoted_length (WorkerID claims)). pose proof (quoted_length (SessionID claims)).
  pose proof (pretty_length (Port claims) 5 ltac:(change (10 ^ Z.of_nat 5) with 100000; lia) ltac:(lia)).
  pose proof (pretty_length (ExpiresAtUnixMs claims) 19 ltac:(unfold is_i64 in Hi; change (10 ^ Z.of_nat 19) with 10000000000000000000; lia) ltac:(lia)).
  change (String.length (quoted "worker_id")) with 11%nat. change (String.length (quoted "session_id")) with 12%nat.
  change (String.length (quoted "port")) with 6%nat. change (String.length (quoted "exp")) with 5%nat. lia.
Qed.

Lemma Sign_length key claims token : Sign key claims = Ok token -> is_i64 (ExpiresAtUnixMs claims) = true ->
  (String.length (WorkerID claims) + String.length (SessionID claims) <= maxTokenIDs)%nat -> len token <= maxTokenLength.
Proof.
  intros (_&Hv&->)%Sign_shape Hi Hl. destruct (valid_claims_bounds _ Hv) as [Hp He].
  pose proof (claims_text_length _ Hp He Hi) as H1. cbv zeta. set (text := json_text _) in *.
  destruct (raw_url_encode_length text) as [H2 _]. unfold len. rewrite !string_length_app. cbn [String.length].
  set (sig := hmac _ _). destruct (raw_url_encode_length sig) as [H3 _]. unfold sig in H3. rewrite length_hmac in H3. fold sig in H3.
  change (String.length Prefix) with 13%nat. unfold maxTokenIDs, maxTokenLength in *. lia.
Qed.

(** Only tokens signed with the key are accepted, and only until they expire. *)
Lemma Verify_sound wall key token now claims : Verify wall key token now = Ok claims ->
  key <> "" /\ validateClaims claims = Ok tt /\ unix_milli (if is_zero now then wall else now) < ExpiresAtUnixMs claims /\
  exists payload sig text, trim token = Prefix +:+ payload +:+ String "." sig /\
    raw_url_decode sig = Some (hmac key (Prefix +:+ payload)) /\
    raw_url_decode payload = Some text /\ unmarshal_claims (read_json text) = Some claims.
Proof.
  unfold Verify. case_bool_decide; [done|]. destruct (_ || _) eqn:Eg; [done|]. bool_prop.
  destruct (split "." (trim_prefix Prefix (trim token))) as [|p [|g [|]]] eqn:Es; try done.
  destruct (_ || _); [done|]. destruct (raw_url_decode g) as [signature|] eqn:Eg; [|done].
  destruct (negb (len _ =? _)); [done|]. case_bool_decide as Eh; cbn [negb]; [|done]. subst signature.
  destruct (raw_url_decode p) as [text|] eqn:Ep; cbn [mbind option_bind]; [|done].
  destruct (unmarshal_claims (read_json text)) as [c|] eqn:Ec; [|done].
  destruct (validateClaims c) as [[]|] eqn:Ev; cbn [is_ok negb]; [|done].
  destruct (ExpiresAtUnixMs c <=? _) eqn:Ex; [done|]. intros [= <-]. apply Z.leb_gt in Ex.
  split_and!; [done..|]. exists p, g, text. split_and!; [|done..].
  match goal with H : has_prefix _ _ = true |- _ => rewrite (has_prefix_inv _ _ H) end. f_equal. by apply split_two_inv.
Qed.

End tokens.

End ProxyToken.
