(* ===== verification/Url.v ===== *)
(** net/url as the console uses it: [url.Parse] (Go 1.24, the version of
    go.mod) with the parts of the result that are looked at, [Hostname] and
    [Port]. *)
From S2P Require Import Prelude.
From S2P Require Import Json.
From S2P Require Import OwnerScope.
From S2P Require Import AuthText.
From S2P Require Import JsonText.

Module Url.

(** ** Strings *)

(** [strings.HasSuffix], [strings.TrimSuffix]. *)
Definition has_suffix (t s : string) : bool := has_prefix (String.rev t) (String.rev s).
Definition trim_suffix (t s : string) : string :=
  if has_suffix t s then String.rev (drop_str (String.length t) (String.rev s)) else s.

(** The text before and after the last occurrence of a byte. *)
Definition rcut (sep : ascii) (s : string) : option (string * string) :=
  match cut sep (String.rev s) with
  | (after, Some before) => Some (String.rev before, String.rev after)
  | (_, None) => None
  end.

(** The text before the first occurrence of [p], and the rest from there. *)
Fixpoint find_str (p s : string) : option (string * string) :=
  if has_prefix p s then Some ("", s) else
  match s with
  | EmptyString => None
  | String a s => '(x, y) ← find_str p s; Some (String a x, y)
  end.

(** ** Escapes *)
Inductive encoding := encodePath | encodeHost | encodeZone | encodeUserPassword | encodeFragment.

Definition is_ctl (a : ascii) : bool := (byte a <? 32) || (byte a =? 0x7f).
Fixpoint any_char (p : ascii -> bool) (s : string) : bool :=
  match s with EmptyString => false | String a s => p a || any_char p s end.

Definition in_set (set : string) (a : ascii) : bool := contains_char a set.
Definition dquote : string := String (ascii_of_nat 34) "".

(** [!shouldEscape(c, encodeHost)], the same for [encodeZone]. *)
Definition host_char (a : ascii) : bool :=
  is_alnum a || in_set ("!$&'()*+,;=:[]<>" +:+ dquote) a || in_set "-_.~" a.

Definition is_encodeHost (m : encoding) : bool := match m with encodeHost => true | _ => false end.
Definition is_encodeZone (m : encoding) : bool := match m with encodeZone => true | _ => false end.

Fixpoint unescape (m : encoding) (s : string) : option string :=
  match s with
  | EmptyString => Some ""
  | String a s1 =>
      if Ascii.eqb a "%" then
        match s1 with
        | String b (String c s2) =>
            h ← hex_value b; l ← hex_value c;
            let percent := Ascii.eqb b "2" && Ascii.eqb c "5" in
            let v := chr (h * 16 + l) in
            if is_encodeHost m && (h <? 8) && negb percent then None else
            if is_encodeZone m && negb percent && negb (Ascii.eqb v " ") && negb (host_char v) then None else
            t ← unescape m s2; Some (String v t)
        | _ => None
        end
      else if (is_encodeHost m || is_encodeZone m) && (byte a <? 0x80) && negb (host_char a) then None
      else t ← unescape m s1; Some (String a t)
  end.

(** ** Parts of an authority *)
Definition validOptionalPort (port : string) : bool :=
  match port with
  | EmptyString => true
  | String a p => Ascii.eqb a ":" && forall_char json_digit p
  end.

Definition parseHost (host : string) : option string :=
  if has_prefix "[" host then
    '(before, colonPort) ← rcut "]" host;
    if negb (validOptionalPort colonPort) then None else
    match find_str "%25" before with
    | Some (h, z) =>
        h ← unescape encodeHost h; z ← unescape encodeZone z; r ← unescape encodeHost (String "]" colonPort);
        Some (h +:+ z +:+ r)
    | None => unescape encodeHost host
    end
  else
    match rcut ":" host with
    | Some (_, port) => if negb (forall_char json_digit port) then None else unescape encodeHost host
    | None => unescape encodeHost host
    end.

Definition validUserinfo (s : string) : bool :=
  forall_char (fun a => is_alnum a || in_set "-._:~!$&'()*+,;=%@" a) s.

(** Whether there is user information, and the host. *)
Definition parseAuthority (authority : string) : option (bool * string) :=
  match rcut "@" authority with
  | None => host ← parseHost authority; Some (false, host)
  | Some (userinfo, rest) =>
      host ← parseHost rest;
      if negb (validUserinfo userinfo) then None else
      let '(username, password) := cut ":" userinfo in
      _ ← unescape encodeUserPassword username; _ ← unescape encodeUserPassword (default "" password);
      Some (true, host)
  end.

(** ** [url.Parse] *)
Record URL := mkURL {
  u_Scheme : string;
  u_Opaque : string;
  u_User : bool;        (** [User != nil] *)
  u_Host : string;
  u_Path : string;
  u_RawQuery : string;
  u_Fragment : string }.

(** [getScheme]: [None] is an error. *)
Definition scheme_char (first : bool) (a : ascii) : bool :=
  between 97 122 a || between 65 90 a || (negb first && (between 48 57 a || in_set "+-." a)).

Fixpoint scheme_of (first : bool) (s : string) : option (option (string * string)) :=
  match s with
  | EmptyString => Some None
  | String a s1 =>
      if scheme_char first a then
        r ← scheme_of false s1; Some (match r with Some (x, y) => Some (String a x, y) | None => None end)
      else if Ascii.eqb a ":" then if first then None else Some (Some ("", s1))
      else Some None
  end.

Definition getScheme (s : string) : option (string * string) := default ("", s) <$> scheme_of true s.

(** [strings.Cut] at a byte, the second part empty without it. *)
Definition cut2 (sep : ascii) (s : string) : string * string := let '(x, y) := cut sep s in (x, default "" y).

Definition parse_url (rawURL : string) : option URL :=
  if any_char is_ctl rawURL then None else
  if bool_decide (rawURL = "*") then Some (mkURL "" "" false "" "*" "" "") else
  '(scheme, rest) ← getScheme rawURL;
  let scheme := to_lower scheme in
  let '(rest, query) := cut2 "?" rest in
  if negb (has_prefix "/" rest) && negb (bool_decide (scheme = "")) then Some (mkURL scheme rest false "" "" query "") else
  if negb (has_prefix "/" rest) && contains_char ":" (cut2 "/" rest).1 then None else
  let authority := has_prefix "//" rest && (negb (bool_decide (scheme = "")) || negb (has_prefix "///" rest)) in
  '(user, host, rest) ←
    (if authority then
       let '(a, p) := cut "/" (drop_str 2 rest) in
       '(user, host) ← parseAuthority a; Some (user, host, match p with Some p => String "/" p | None => "" end)
     else Some (false, "", rest));
  path ← unescape encodePath rest;
  Some (mkURL scheme "" user host path query "").

Definition Parse (rawURL : string) : option URL :=
  let '(u, frag) := cut2 "#" rawURL in
  url ← parse_url u;
  if bool_decide (frag = "") then Some url else
  f ← unescape encodeFragment frag;
  Some (mkURL (u_Scheme url) (u_Opaque url) (u_User url) (u_Host url) (u_Path url) (u_RawQuery url) f).

Definition splitHostPort (hostPort : string) : string * string :=
  let '(host, port) := match rcut ":" hostPort with
    | Some (h, p) => if forall_char json_digit p then (h, p) else (hostPort, "")
    | None => (hostPort, "")
    end in
  if has_prefix "[" host && has_suffix "]" host
  then (String.rev (drop_str 1 (String.rev (drop_str 1 host))), port) else (host, port).

Definition Hostname (u : URL) : string := (splitHostPort (u_Host u)).1.
Definition URLPort (u : URL) : string := (splitHostPort (u_Host u)).2.

Example parse_url_examples :
  Parse "https://3000-abc.e2b.app" = Some (mkURL "https" "" false "3000-abc.e2b.app" "" "" "") /\
  Parse "HTTPS://u:p@Host:80/a%20b?q=1#f" = Some (mkURL "https" "" true "Host:80" "/a b" "q=1" "f") /\
  Parse "https://a b/" = None /\ Parse "https://a%41/" = None /\ Parse "https:opaque" = Some (mkURL "https" "opaque" false "" "" "" "") /\
  Parse "https://[::1]:443" = Some (mkURL "https" "" false "[::1]:443" "" "" "") /\ Parse ":x" = None /\
  Parse "https://host:8x/" = None /\ Parse "a:b" = Some (mkURL "a" "b" false "" "" "" "") /\ Parse "1:b" = None /\
  (Hostname <$> Parse "https://[fe80::1%25eth0]:80") = Some "fe80::1%eth0" /\
  (URLPort <$> Parse "https://x.e2b.app:8443") = Some "8443".
Proof. vm_compute. done. Qed.

Section suffixes.

Lemma has_suffix_app s t : has_suffix t (s +:+ t) = true.
Proof. unfold has_suffix. rewrite string_rev_app. apply has_prefix_app. Qed.

Lemma string_rev_length s : String.length (String.rev s) = String.length s.
Proof. induction s as [|a s IH]; [done|]. rewrite string_rev_cons, string_length_app, IH. cbn. lia. Qed.

Lemma trim_suffix_app s t : trim_suffix t (s +:+ t) = s.
Proof.
  unfold trim_suffix. rewrite has_suffix_app, string_rev_app, <- (string_rev_length t), drop_str_app.
  apply string_rev_involutive.
Qed.

Lemma has_suffix_inv t s : has_suffix t s = true -> exists x, s = x +:+ t.
Proof.
  unfold has_suffix. intros H%has_prefix_inv. exists (String.rev (trim_prefix (String.rev t) (String.rev s))).
  rewrite <- (string_rev_involutive s), H at 1. by rewrite string_rev_app, string_rev_involutive.
Qed.

End suffixes.

End Url.
Export Url.
