(* ===== verification/TerminalRoutes.v ===== *)
(** The terminal session route table of the service
    (console/internal/grpcserver/terminal_session_routes.go): which worker
    owns which terminal session, provisional reservations, leases, recovery
    after a worker reconnects, and the persisted copy of the confirmed routes.

    Every operation below runs under [terminalRoutesMu], so it is one atomic
    step; its [nowUnixMs] argument is [routeNowUnixMs now].  The store is used
    only through the interface of [RouteStore] ([TerminalSessionRouteStore]
    and its laws), for an arbitrary implementation. *)
From S2P Require Import Prelude.
From S2P Require Import Json.
From S2P Require Import Sql.
From S2P Require Import Proto.
From S2P Require Import RouteStore.
From S2P Require Import OwnerScope.

Module TerminalRoutes.

Inductive terminalSessionRecoveryState :=
  | terminalSessionRecoveryReady
  | terminalSessionRecoveryUnavailable
  | terminalSessionRecoveryReconciling.

Inductive routeReservationReleaseResult :=
  | routeReservationNotOwned | routeReservationStillInUse | routeReservationRemoved.

#[export] Instance recovery_state_eq_dec : EqDecision terminalSessionRecoveryState.
Proof. solve_decision. Defined.
#[export] Instance release_result_eq_dec : EqDecision routeReservationReleaseResult.
Proof. solve_decision. Defined.

Record terminalSessionRoute := mkRoute {
  NodeID : string;
  LastUsedUnixMs : Z;
  LeaseExpiresUnixMs : Z;
  CreatedAtUnixMs : Z;
  RecoveryState : terminalSessionRecoveryState;
  ReservationID : Z;
  ConfirmedReservationID : Z;
  ProvisionalUses : Z }.

Record TerminalSessionView := mkSessionView {
  sv_AccountID : string;
  sv_SessionID : string;
  sv_WorkerID : string;
  sv_Status : string;
  sv_LeaseExpiresUnixMs : Z;
  sv_LastUsedUnixMs : Z;
  sv_CreatedAtUnixMs : Z }.

(** The route fields of [RegistryService].  [revoked] logs the calls of
    [proxyRouteSessionRevoker.RevokeSessionRoutes]; [None] is no revoker. *)
Record Routes (St : Type) := mkRoutes {
  terminalSessionToNode : gmap string terminalSessionRoute;
  terminalNodeToSessionIDIndex : gmap string (gset string);
  terminalRouteReservationSeq : Z;
  terminalRouteTTL : duration;
  lastTerminalRoutePruneUnixMs : Z;
  terminalRouteStore : option St;
  revoked : option (list string) }.
Arguments mkRoutes {St}.
Arguments terminalSessionToNode {St}.
Arguments terminalNodeToSessionIDIndex {St}.
Arguments terminalRouteReservationSeq {St}.
Arguments terminalRouteTTL {St}.
Arguments lastTerminalRoutePruneUnixMs {St}.
Arguments terminalRouteStore {St}.
Arguments revoked {St}.

Definition routeNowUnixMs (wall now : time) : Z :=
  if is_zero now then unix_milli wall else unix_milli now.

Definition terminalRoutePruneMinInterval : duration := 1 * minute.

(** ** Field updates *)
Definition set_last_used (t : Z) (r : terminalSessionRoute) : terminalSessionRoute :=
  mkRoute (NodeID r) t (LeaseExpiresUnixMs r) (CreatedAtUnixMs r) (RecoveryState r)
    (ReservationID r) (ConfirmedReservationID r) (ProvisionalUses r).
Definition set_lease (l : Z) (r : terminalSessionRoute) : terminalSessionRoute :=
  mkRoute (NodeID r) (LastUsedUnixMs r) l (CreatedAtUnixMs r) (RecoveryState r)
    (ReservationID r) (ConfirmedReservationID r) (ProvisionalUses r).
Definition set_created (t : Z) (r : terminalSessionRoute) : terminalSessionRoute :=
  mkRoute (NodeID r) (LastUsedUnixMs r) (LeaseExpiresUnixMs r) t (RecoveryState r)
    (ReservationID r) (ConfirmedReservationID r) (ProvisionalUses r).
Definition set_recovery (x : terminalSessionRecoveryState) (r : terminalSessionRoute) : terminalSessionRoute :=
  mkRoute (NodeID r) (LastUsedUnixMs r) (LeaseExpiresUnixMs r) (CreatedAtUnixMs r) x
    (ReservationID r) (ConfirmedReservationID r) (ProvisionalUses r).
Definition set_reservation (id confirmed uses : Z) (r : terminalSessionRoute) : terminalSessionRoute :=
  mkRoute (NodeID r) (LastUsedUnixMs r) (LeaseExpiresUnixMs r) (CreatedAtUnixMs r) (RecoveryState r)
    id confirmed uses.
Definition set_uses (uses : Z) (r : terminalSessionRoute) : terminalSessionRoute :=
  set_reservation (ReservationID r) (ConfirmedReservationID r) uses r.

Section ops.
Context {St : Type} `{!TerminalSessionRouteStore St}.
Implicit Types (s : Routes St) (sid nid : string) (r : terminalSessionRoute).

Definition with_routes (f : gmap string terminalSessionRoute -> gmap string terminalSessionRoute) s : Routes St :=
  mkRoutes (f (terminalSessionToNode s)) (terminalNodeToSessionIDIndex s) (terminalRouteReservationSeq s)
    (terminalRouteTTL s) (lastTerminalRoutePruneUnixMs s) (terminalRouteStore s) (revoked s).
Definition with_index (f : gmap string (gset string) -> gmap string (gset string)) s : Routes St :=
  mkRoutes (terminalSessionToNode s) (f (terminalNodeToSessionIDIndex s)) (terminalRouteReservationSeq s)
    (terminalRouteTTL s) (lastTerminalRoutePruneUnixMs s) (terminalRouteStore s) (revoked s).
Definition with_seq (n : Z) s : Routes St :=
  mkRoutes (terminalSessionToNode s) (terminalNodeToSessionIDIndex s) n
    (terminalRouteTTL s) (lastTerminalRoutePruneUnixMs s) (terminalRouteStore s) (revoked s).
Definition with_last_prune (t : Z) s : Routes St :=
  mkRoutes (terminalSessionToNode s) (terminalNodeToSessionIDIndex s) (terminalRouteReservationSeq s)
    (terminalRouteTTL s) t (terminalRouteStore s) (revoked s).
Definition with_store (st : option St) s : Routes St :=
  mkRoutes (terminalSessionToNode s) (terminalNodeToSessionIDIndex s) (terminalRouteReservationSeq s)
    (terminalRouteTTL s) (lastTerminalRoutePruneUnixMs s) st (revoked s).
Definition revoke sid s : Routes St :=
  mkRoutes (terminalSessionToNode s) (terminalNodeToSessionIDIndex s) (terminalRouteReservationSeq s)
    (terminalRouteTTL s) (lastTerminalRoutePruneUnixMs s) (terminalRouteStore s)
    ((fun l => l ++ [sid]) <$> revoked s).

Definition put sid r s : Routes St := with_routes <[sid := r]> s.

(** [if s.terminalRouteStore != nil { ... }]. *)
Definition call_store {A} (dflt : A) (f : St -> res A * St) s : res A * Routes St :=
  match terminalRouteStore s with
  | None => (Ok dflt, s)
  | Some st => let '(x, st') := f st in (x, with_store (Some st') s)
  end.

(** The sets of the index: a missing inner map is the empty set. *)
Definition index_of s nid : gset string := default ∅ (terminalNodeToSessionIDIndex s !! nid).

Definition index_add nid sid (idx : gmap string (gset string)) : gmap string (gset string) :=
  <[nid := {[ sid ]} ∪ default ∅ (idx !! nid)]> idx.

Definition index_del nid sid (idx : gmap string (gset string)) : gmap string (gset string) :=
  match idx !! nid with
  | None => idx
  | Some set =>
      let set' := set ∖ {[ sid ]} in
      if bool_decide (set' = ∅) then delete nid idx else <[nid := set']> idx
  end.

(** The service before any route exists. *)
Definition fresh_routes (ttl : duration) (st : option St) (rv : option (list string)) : Routes St :=
  mkRoutes ∅ ∅ 0 ttl 0 st rv.

Definition deleteTerminalSessionRouteLocked sid r s : Routes St :=
  with_index (index_del (NodeID r) sid) (revoke sid (with_routes (delete sid) s)).

(** ** Restore at start-up *)
Definition restore_one (nowUnixMs : Z)
    (acc : res (gmap string terminalSessionRoute * gmap string (gset string)))
    (route : TerminalSessionRoute)
    : res (gmap string terminalSessionRoute * gmap string (gset string)) :=
  match acc with
  | Err e => Err e
  | Ok (routes, index) =>
      let '(scoped, row) := route in
      let sessionID := trim scoped in
      let nodeID := trim (r_NodeID row) in
      if negb (isValidPersistedTerminalSessionID sessionID) || bool_decide (nodeID = "") ||
         (r_LeaseExpiresUnixMs row <=? nowUnixMs)
      then Err (ErrorString "persisted terminal session route is invalid")
      else match routes !! sessionID with
           | Some _ => Err (ErrorString "persisted terminal session route is duplicated")
           | None =>
               Ok (<[sessionID := mkRoute nodeID (r_LastUsedUnixMs row) (r_LeaseExpiresUnixMs row)
                      (r_CreatedAtUnixMs row) terminalSessionRecoveryUnavailable 0 0 0]> routes,
                   index_add nodeID sessionID index)
           end
  end.

Definition RestoreTerminalSessionRoutes (nowUnixMs : Z) s : res unit * Routes St :=
  match terminalRouteStore s with
  | None => (Err (ErrorString "terminal session route store is required"), s)
  | Some st =>
      match store_delete_expired nowUnixMs st with
      | (Err e, st1) => (Err (Wrapped "delete expired terminal session routes: " e ""), with_store (Some st1) s)
      | (Ok _, st1) =>
          match store_load nowUnixMs st1 with
          | (Err e, st2) => (Err (Wrapped "load terminal session routes: " e ""), with_store (Some st2) s)
          | (Ok persisted, st2) =>
              let s := with_store (Some st2) s in
              match foldl (restore_one nowUnixMs) (Ok (∅, ∅)) persisted with
              | Err e => (Err e, s)
              | Ok (routes, index) =>
                  if negb (bool_decide (terminalSessionToNode s = ∅)) ||
                     negb (bool_decide (terminalNodeToSessionIDIndex s = ∅))
                  then (Err (ErrorString "terminal session routes are already initialized"), s)
                  else (Ok tt, with_routes (fun _ => routes) (with_index (fun _ => index) s))
              end
          end
      end
  end.

(** ** Reservation and confirmation *)
Definition bindTerminalSessionRoute (sessionID nodeID : string) (nowUnixMs : Z) s : Routes St :=
  let sid := trim sessionID in
  let nid := trim nodeID in
  if bool_decide (sid = "") || bool_decide (nid = "") then s else
  let existing := terminalSessionToNode s !! sid in
  let s := match existing with
           | Some old => if bool_decide (NodeID old = nid) then s else with_index (index_del (NodeID old) sid) s
           | None => s
           end in
  let created := match existing with
                 | Some old => if 0 <? CreatedAtUnixMs old then CreatedAtUnixMs old else nowUnixMs
                 | None => nowUnixMs
                 end in
  with_index (index_add nid sid)
    (put sid (mkRoute nid nowUnixMs 0 created terminalSessionRecoveryReady 0 0 0) s).

(** A use of an existing route: refresh it, and join its reservation if it is
    provisional. *)
Definition join_route (nowUnixMs : Z) r : terminalSessionRoute * Z :=
  let r := set_last_used nowUnixMs r in
  if ReservationID r =? 0 then (r, 0)
  else (set_uses (u64 (ProvisionalUses r + 1)) r, ReservationID r).

Definition next_reservation (seq : Z) : Z :=
  let n := u64 (seq + 1) in if n =? 0 then u64 (n + 1) else n.

Definition reserveTerminalSessionRoute (sessionID preferredNodeID : string) (nowUnixMs : Z) s
    : (string * Z) * Routes St :=
  let sid := trim sessionID in
  let nid := trim preferredNodeID in
  if bool_decide (sid = "") || bool_decide (nid = "") then (("", 0), s) else
  match terminalSessionToNode s !! sid with
  | Some existing =>
      let '(existing, reservationID) := join_route nowUnixMs existing in
      ((NodeID existing, reservationID), put sid existing s)
  | None =>
      let reservationID := next_reservation (terminalRouteReservationSeq s) in
      let s := with_seq reservationID s in
      ((nid, reservationID),
       with_index (index_add nid sid)
         (put sid (mkRoute nid nowUnixMs 0 0 terminalSessionRecoveryReady reservationID 0 1) s))
  end.

Definition claimTerminalSessionRoute (sessionID : string) (nowUnixMs : Z) s
    : option (string * Z) * Routes St :=
  let sid := trim sessionID in
  if bool_decide (sid = "") then (None, s) else
  match terminalSessionToNode s !! sid with
  | None => (None, s)
  | Some route =>
      if bool_decide (trim (NodeID route) = "") then (None, s) else
      let '(route, reservationID) := join_route nowUnixMs route in
      (Some (NodeID route, reservationID), put sid route s)
  end.

(** The guard shared by confirmation and commit. *)
Definition owns_route (nid : string) (reservationID : Z) r : bool :=
  bool_decide (NodeID r = nid) &&
  ((ReservationID r =? reservationID) || (ConfirmedReservationID r =? reservationID)).

Definition confirmTerminalSessionRoute (sessionID expectedNodeID : string) (reservationID nowUnixMs : Z) s
    : bool * Routes St :=
  let sid := trim sessionID in
  let nid := trim expectedNodeID in
  if bool_decide (sid = "") || bool_decide (nid = "") then (false, s) else
  match terminalSessionToNode s !! sid with
  | None => (false, s)
  | Some route =>
      if negb (owns_route nid reservationID route) then (false, s) else
      let route := set_last_used nowUnixMs route in
      let route := if reservationID =? 0 then route else set_reservation 0 reservationID 0 route in
      (true, put sid route s)
  end.

Definition touchTerminalSessionRoute (sessionID : string) (nowUnixMs : Z) s : option string * Routes St :=
  let sid := trim sessionID in
  if bool_decide (sid = "") then (None, s) else
  match terminalSessionToNode s !! sid with
  | None => (None, s)
  | Some route =>
      if bool_decide (trim (NodeID route) = "") then (None, s)
      else (Some (NodeID route), put sid (set_last_used nowUnixMs route) s)
  end.

Definition extend_lease (l : Z) r : terminalSessionRoute :=
  if LeaseExpiresUnixMs r <? l then set_lease l r else r.

Definition updateTerminalSessionRouteLease (sessionID expectedNodeID : string) (lease nowUnixMs : Z) s
    : bool * Routes St :=
  if lease <=? 0 then (false, s) else
  let sid := trim sessionID in
  let nid := trim expectedNodeID in
  if bool_decide (sid = "") || bool_decide (nid = "") then (false, s) else
  match terminalSessionToNode s !! sid with
  | None => (false, s)
  | Some route =>
      if negb (bool_decide (NodeID route = nid)) || negb (ReservationID route =? 0) then (false, s)
      else (true, put sid (set_recovery terminalSessionRecoveryReady
                             (set_last_used nowUnixMs (extend_lease lease route))) s)
  end.

Definition commitConfirmedTerminalSessionRoute (sessionID expectedNodeID : string)
    (reservationID lease nowUnixMs : Z) s : res bool * Routes St :=
  if lease <=? 0 then (Err (ErrorString "terminal session result is missing a valid lease"), s) else
  let sid := trim sessionID in
  let nid := trim expectedNodeID in
  if bool_decide (sid = "") || bool_decide (nid = "")
  then (Err (ErrorString "terminal session route identity is required"), s) else
  match terminalSessionToNode s !! sid with
  | None => (Ok false, s)
  | Some route =>
      if negb (owns_route nid reservationID route) then (Ok false, s) else
      let route := extend_lease lease route in
      let route := if CreatedAtUnixMs route <=? 0 then set_created nowUnixMs route else route in
      match call_store tt (store_upsert sid (mkRouteRow nid (LeaseExpiresUnixMs route) nowUnixMs
                             (CreatedAtUnixMs route) nowUnixMs)) s with
      | (Err e, s) => (Err (Wrapped "persist terminal session route: " e ""), s)
      | (Ok _, s) =>
          let route := set_recovery terminalSessionRecoveryReady (set_last_used nowUnixMs route) in
          let route := set_reservation 0
            (if reservationID =? 0 then ConfirmedReservationID route else reservationID) 0 route in
          (Ok true, put sid route s)
      end
  end.

Definition terminalSessionRouteSnapshot (sessionID : string) (nowUnixMs : Z) s
    : option terminalSessionRoute * Routes St :=
  let sid := trim sessionID in
  if bool_decide (sid = "") then (None, s) else
  match terminalSessionToNode s !! sid with
  | None => (None, s)
  | Some route =>
      if (0 <? LeaseExpiresUnixMs route) && (LeaseExpiresUnixMs route <=? nowUnixMs) then
        match call_store false (store_delete sid (NodeID route)) s with
        | (Err _, s) => (None, s)
        | (Ok _, s) => (None, deleteTerminalSessionRouteLocked sid route s)
        end
      else (Some route, s)
  end.

(** [for _, ref := range refs { if route, ok := ...; ok && route.NodeID ==
    ref.NodeID { deleteLocked } }]. *)
Definition delete_ref s (ref : TerminalSessionRouteRef) : Routes St :=
  match terminalSessionToNode s !! ref.1 with
  | Some route => if bool_decide (NodeID route = ref.2)
                  then deleteTerminalSessionRouteLocked ref.1 route s else s
  | None => s
  end.

(** ** Recovery of a reconnecting worker *)
Definition recovery_lease s r : Z :=
  if (LeaseExpiresUnixMs r <=? 0) && (0 <? terminalRouteTTL s)
  then i64 (LastUsedUnixMs r + milliseconds (terminalRouteTTL s)) else LeaseExpiresUnixMs r.

Definition classify (nowUnixMs : Z) (nid : string) s
    (acc : list TerminalSessionRecoveryCandidate * list TerminalSessionRouteRef) (sid : string)
    : list TerminalSessionRecoveryCandidate * list TerminalSessionRouteRef :=
  let '(candidates, expired) := acc in
  match terminalSessionToNode s !! sid with
  | None => acc
  | Some route =>
      if negb (bool_decide (NodeID route = nid)) then acc else
      let lease := recovery_lease s route in
      if negb (ReservationID route =? 0) || (lease <=? nowUnixMs)
      then if 0 <? LeaseExpiresUnixMs route then (candidates, expired ++ [(sid, NodeID route)]) else acc
      else (candidates ++ [mkCandidate sid lease], expired)
  end.

Definition reconcile (nid : string) s (c : TerminalSessionRecoveryCandidate) : Routes St :=
  match terminalSessionToNode s !! cand_SessionId c with
  | Some route =>
      if bool_decide (NodeID route = nid)
      then put (cand_SessionId c) (set_recovery terminalSessionRecoveryReconciling
                                     (set_lease (cand_LeaseExpiresUnixMs c) route)) s
      else s
  | None => s
  end.

Definition beginTerminalSessionRecoveryWithError (nodeID : string) (nowUnixMs : Z) s
    : res (list TerminalSessionRecoveryCandidate) * Routes St :=
  let nid := trim nodeID in
  if bool_decide (nid = "") then (Ok [], s) else
  let '(candidates, expired) := foldl (classify nowUnixMs nid s) ([], []) (elements (index_of s nid)) in
  match (match expired with [] => (Ok tt, s) | _ => call_store tt (store_delete_many expired) s end) with
  | (Err e, s) => (Err (Wrapped "delete expired recovery candidates: " e ""), s)
  | (Ok _, s) =>
      let s := foldl delete_ref s expired in
      let s := foldl (reconcile nid) s candidates in
      (Ok (order_by (fun a b => str_le (cand_SessionId a) (cand_SessionId b)) candidates), s)
  end.

Definition mark_unavailable (nid : string) (acc : Z * Routes St) (sid : string) : Z * Routes St :=
  let '(unavailable, s) := acc in
  match terminalSessionToNode s !! sid with
  | None => acc
  | Some route =>
      if negb (bool_decide (NodeID route = nid)) then acc else
      if negb (ReservationID route =? 0) then (unavailable, deleteTerminalSessionRouteLocked sid route s)
      else (unavailable + 1, put sid (set_recovery terminalSessionRecoveryUnavailable route) s)
  end.

Definition markTerminalSessionRoutesUnavailable (nodeID : string) s : Z * Routes St :=
  let nid := trim nodeID in
  if bool_decide (nid = "") then (0, s) else
  foldl (mark_unavailable nid) (0, s) (elements (index_of s nid)).

(** Validation of a recovery report against the candidates sent to the
    session: every result names a candidate, none twice, with a known status,
    and every candidate is covered. *)
Definition valid_status (st : RecoveryStatus) : bool :=
  match st with RECOVERED | MISSING | INVALID => true | _ => false end.

Definition collect_result (candidates : gmap string Z)
    (acc : res (gmap string RecoveryStatus)) (result : option TerminalSessionRecoveryResult)
    : res (gmap string RecoveryStatus) :=
  match acc, result with
  | Err e, _ => Err e
  | Ok results, None => Ok results
  | Ok results, Some result =>
      let sid := trim (rr_SessionId result) in
      match candidates !! sid with
      | None => Err (TerminalRecoveryValidationError "recovery result is not a candidate")
      | Some _ =>
          match results !! sid with
          | Some _ => Err (TerminalRecoveryValidationError "duplicate recovery result")
          | None => if negb (valid_status (rr_Status result))
                    then Err (TerminalRecoveryValidationError "invalid recovery status")
                    else Ok (<[sid := rr_Status result]> results)
          end
      end
  end.

Definition report_results (candidates : gmap string Z) (report : TerminalSessionRecoveryReport)
    : res (gmap string RecoveryStatus) :=
  match foldl (collect_result candidates) (Ok ∅) report with
  | Err e => Err e
  | Ok results => if negb (bool_decide (size results = size candidates))
                  then Err (TerminalRecoveryValidationError "recovery report must cover every candidate")
                  else Ok results
  end.

(** Does the report, or the clock, end this candidate's session? *)
Definition recovery_lost (nowUnixMs : Z) (results : gmap string RecoveryStatus) (sid : string) (lease : Z) : bool :=
  negb (bool_decide (default STATUS_UNSPECIFIED (results !! sid) = RECOVERED)) ||
  ((0 <? lease) && (lease <=? nowUnixMs)).

Definition recovery_refs (nowUnixMs : Z) (nid : string) (results : gmap string RecoveryStatus)
    (candidates : list (string * Z)) s : list TerminalSessionRouteRef :=
  omap (fun c => match terminalSessionToNode s !! c.1 with
    | Some route =>
        if bool_decide (NodeID route = nid) && recovery_lost nowUnixMs results c.1 c.2 &&
           (0 <? LeaseExpiresUnixMs route)
        then Some (c.1, NodeID route) else None
    | None => None
    end) candidates.

Definition recover_one (nowUnixMs : Z) (nid : string) (results : gmap string RecoveryStatus)
    s (c : string * Z) : Routes St :=
  match terminalSessionToNode s !! c.1 with
  | Some route =>
      if negb (bool_decide (NodeID route = nid)) then s else
      if recovery_lost nowUnixMs results c.1 c.2 then deleteTerminalSessionRouteLocked c.1 route s
      else put c.1 (set_last_used nowUnixMs (set_recovery terminalSessionRecoveryReady route)) s
  | None => s
  end.

(** The results are what the session records ([setRecoveryResults]). *)
Definition applyTerminalSessionRecoveryReport (candidates : gmap string Z) (nid : string)
    (report : TerminalSessionRecoveryReport) (nowUnixMs : Z) s
    : res (gmap string RecoveryStatus) * Routes St :=
  match report_results candidates report with
  | Err e => (Err e, s)
  | Ok results =>
      let cands := map_to_list candidates in
      if existsb (fun c => match terminalSessionToNode s !! c.1 with
                           | Some route => negb (bool_decide (NodeID route = nid))
                           | None => false end) cands
      then (Err (TerminalRecoveryValidationError "recovery candidate no longer belongs to worker"), s)
      else
        let deleteRefs := recovery_refs nowUnixMs nid results cands s in
        match (match deleteRefs with [] => (Ok tt, s) | _ => call_store tt (store_delete_many deleteRefs) s end) with
        | (Err e, s) => (Err (Wrapped "persist terminal session recovery report: " e ""), s)
        | (Ok _, s) => (Ok results, foldl (recover_one nowUnixMs nid results) s cands)
        end
  end.

Definition countTerminalSessionRoutesByStateLocked (state : terminalSessionRecoveryState) s : Z :=
  count (fun _ r => bool_decide (RecoveryState r = state) && (ReservationID r =? 0)) (terminalSessionToNode s).

(** ** Release and removal *)
Definition clearTerminalSessionRouteReservation (sessionID expectedNodeID : string) (reservationID : Z) s
    : routeReservationReleaseResult * Routes St :=
  if reservationID =? 0 then (routeReservationNotOwned, s) else
  let sid := trim sessionID in
  let nid := trim expectedNodeID in
  if bool_decide (sid = "") || bool_decide (nid = "") then (routeReservationNotOwned, s) else
  match terminalSessionToNode s !! sid with
  | None => (routeReservationNotOwned, s)
  | Some route =>
      if negb (bool_decide (NodeID route = nid)) || negb (ReservationID route =? reservationID)
      then (routeReservationNotOwned, s)
      else if 1 <? ProvisionalUses route
      then (routeReservationStillInUse, put sid (set_uses (ProvisionalUses route - 1) route) s)
      else (routeReservationRemoved, deleteTerminalSessionRouteLocked sid route s)
  end.

Definition clearTerminalSessionRoute (sessionID expectedNodeID : string) s : res unit * Routes St :=
  let sid := trim sessionID in
  if bool_decide (sid = "") then (Ok tt, s) else
  let nid := trim expectedNodeID in
  match terminalSessionToNode s !! sid with
  | None => (Ok tt, s)
  | Some route =>
      if negb (bool_decide (nid = "")) && negb (bool_decide (NodeID route = nid)) then (Ok tt, s) else
      match (if 0 <? LeaseExpiresUnixMs route then call_store false (store_delete sid (NodeID route)) s
             else (Ok false, s)) with
      | (Err e, s) => (Err (Wrapped "delete terminal session route: " e ""), s)
      | (Ok _, s) => (Ok tt, deleteTerminalSessionRouteLocked sid route s)
      end
  end.

Definition remove_node_route (nid : string) (acc : Z * Routes St) (sid : string) : Z * Routes St :=
  let '(removed, s) := acc in
  match terminalSessionToNode s !! sid with
  | Some route => if bool_decide (NodeID route = nid)
                  then (removed + 1, deleteTerminalSessionRouteLocked sid route s) else acc
  | None => acc
  end.

Definition deleteTerminalSessionRoutesByNode (nodeID : string) s : res Z * Routes St :=
  let nid := trim nodeID in
  if bool_decide (nid = "") then (Ok 0, s) else
  match call_store 0 (store_delete_by_node nid) s with
  | (Err e, s) => (Err (Wrapped "delete terminal session routes for worker: " e ""), s)
  | (Ok _, s) =>
      let '(removed, s) := foldl (remove_node_route nid) (0, s) (elements (index_of s nid)) in (Ok removed, s)
  end.

(** ** Expiry *)
Definition prunable (persistedDeleteSucceeded : bool) (ttl nowUnixMs : Z) r : bool :=
  if 0 <? LeaseExpiresUnixMs r
  then (LeaseExpiresUnixMs r <=? nowUnixMs) && persistedDeleteSucceeded
  else (0 <? ttl) && (LastUsedUnixMs r <=? i64 (nowUnixMs - milliseconds ttl)).

Definition prune_one (ok : bool) (nowUnixMs : Z) (acc : Z * Routes St) (kv : string * terminalSessionRoute)
    : Z * Routes St :=
  let '(removed, s) := acc in
  if prunable ok (terminalRouteTTL s) nowUnixMs kv.2
  then (removed + 1, deleteTerminalSessionRouteLocked kv.1 kv.2 s) else acc.

Definition PruneExpiredTerminalSessionRoutes (nowUnixMs : Z) s : Z * Routes St :=
  let '(x, s) := call_store 0 (store_delete_expired nowUnixMs) s in
  foldl (prune_one (is_ok x) nowUnixMs) (0, s) (map_to_list (terminalSessionToNode s)).

Definition maybePruneTerminalSessionRoutes (nowUnixMs : Z) s : Routes St :=
  let last := lastTerminalRoutePruneUnixMs s in
  if (0 <? last) && (i64 (nowUnixMs - last) <? milliseconds terminalRoutePruneMinInterval) then s
  else (PruneExpiredTerminalSessionRoutes nowUnixMs (with_last_prune nowUnixMs s)).2.

(** ** The owner's view *)
Definition terminalSessionStatusName (state : terminalSessionRecoveryState) : string :=
  match state with
  | terminalSessionRecoveryUnavailable => "unavailable"
  | terminalSessionRecoveryReconciling => "reconciling"
  | terminalSessionRecoveryReady => "ready"
  end.

Definition terminalSessionViewFromRoute (accountID sessionID : string) r : TerminalSessionView :=
  mkSessionView accountID sessionID (NodeID r) (terminalSessionStatusName (RecoveryState r))
    (LeaseExpiresUnixMs r) (LastUsedUnixMs r)
    (if CreatedAtUnixMs r <=? 0 then LastUsedUnixMs r else CreatedAtUnixMs r).

Definition isConfirmedActiveTerminalSessionRoute r (nowUnixMs : Z) : bool :=
  (ReservationID r =? 0) && (nowUnixMs <? LeaseExpiresUnixMs r).

Definition view_le (a b : TerminalSessionView) : bool :=
  if negb (sv_CreatedAtUnixMs a =? sv_CreatedAtUnixMs b) then sv_CreatedAtUnixMs b <? sv_CreatedAtUnixMs a
  else if negb (bool_decide (sv_AccountID a = sv_AccountID b)) then str_le (sv_AccountID a) (sv_AccountID b)
  else str_le (sv_SessionID a) (sv_SessionID b).

Definition lease_expired (nowUnixMs : Z) r : bool :=
  (0 <? LeaseExpiresUnixMs r) && (LeaseExpiresUnixMs r <=? nowUnixMs).

Definition owner_view (normalizedOwnerID : string) (nowUnixMs : Z) (kv : string * terminalSessionRoute)
    : option TerminalSessionView :=
  let '(scopedSessionID, route) := kv in
  if lease_expired nowUnixMs route then None else
  if negb (isConfirmedActiveTerminalSessionRoute route nowUnixMs) then None else
  match parseScopedTerminalSessionID scopedSessionID with
  | None => None
  | Some (accountID, externalSessionID) =>
      if negb (bool_decide (normalizedOwnerID = "")) && negb (bool_decide (accountID = normalizedOwnerID))
      then None else Some (terminalSessionViewFromRoute accountID externalSessionID route)
  end.

Definition ListTerminalSessions (ownerID : string) (nowUnixMs : Z) s : list TerminalSessionView * Routes St :=
  let normalizedOwnerID := normalizeTaskOwnerID ownerID in
  let s := maybePruneTerminalSessionRoutes nowUnixMs s in
  let all := map_to_list (terminalSessionToNode s) in
  let expired := omap (fun kv => if lease_expired nowUnixMs kv.2 then Some (kv.1, NodeID kv.2) else None) all in
  let views := omap (owner_view normalizedOwnerID nowUnixMs) all in
  let s := match expired with
           | [] => s
           | _ => match call_store tt (store_delete_many expired) s with
                  | (Err _, s) => s
                  | (Ok _, s) => foldl delete_ref s expired
                  end
           end in
  (order_by view_le views, s).

Definition GetTerminalSession (ownerID sessionID : string) (nowUnixMs : Z) s
    : option TerminalSessionView * Routes St :=
  let normalizedOwnerID := normalizeTaskOwnerID ownerID in
  let normalizedSessionID := trim sessionID in
  if bool_decide (normalizedOwnerID = "") || bool_decide (normalizedSessionID = "") then (None, s) else
  let scopedSessionID := scopeTerminalSessionID normalizedOwnerID normalizedSessionID in
  match terminalSessionRouteSnapshot scopedSessionID nowUnixMs s with
  | (None, s) => (None, s)
  | (Some route, s) =>
      if isConfirmedActiveTerminalSessionRoute route nowUnixMs
      then (Some (terminalSessionViewFromRoute normalizedOwnerID normalizedSessionID route), s) else (None, s)
  end.

Definition DeleteTerminalSession (ownerID sessionID : string) (nowUnixMs : Z) s : res bool * Routes St :=
  let normalizedOwnerID := normalizeTaskOwnerID ownerID in
  let normalizedSessionID := trim sessionID in
  if bool_decide (normalizedOwnerID = "") || bool_decide (normalizedSessionID = "") then (Ok false, s) else
  let scopedSessionID := scopeTerminalSessionID normalizedOwnerID normalizedSessionID in
  match terminalSessionRouteSnapshot scopedSessionID nowUnixMs s with
  | (None, s) => (Ok false, s)
  | (Some route, s) =>
      if negb (isConfirmedActiveTerminalSessionRoute route nowUnixMs) then (Ok false, s) else
      match clearTerminalSessionRoute scopedSessionID (NodeID route) s with
      | (Err e, s) => (Err e, s)
      | (Ok _, s) => (Ok true, s)
      end
  end.

End ops.

End TerminalRoutes.
Export TerminalRoutes.
