(* ===== verification/TerminalRoutesProps.v ===== *)
(** The terminal session routes of the service: the invariant that the
    operations keep ([TerminalRoutesInv]) and the properties of every reachable
    state ([TerminalRoutesProps]). *)
From S2P Require Import Prelude.
From S2P Require Import Json.
From S2P Require Import Sql.
From S2P Require Import Proto.
From S2P Require Import RouteStore.
From S2P Require Import OwnerScope.
From S2P Require Import TerminalRoutes.

Module TerminalRoutesInv.

Section index.
Implicit Types (idx : gmap string (gset string)) (sid nid : string).

Definition idx_mem idx nid sid : Prop := sid ∈ (default ∅ (idx !! nid) : gset string).

Lemma idx_mem_add idx nid sid nid' sid' :
  idx_mem (index_add nid sid idx) nid' sid' <-> (nid = nid' /\ sid = sid') \/ idx_mem idx nid' sid'.
Proof.
  unfold idx_mem, index_add. rewrite lookup_insert. case_decide; subst; cbn; set_solver.
Qed.

Lemma idx_mem_del idx nid sid nid' sid' :
  idx_mem (index_del nid sid idx) nid' sid' <-> idx_mem idx nid' sid' /\ ~ (nid = nid' /\ sid = sid').
Proof.
  unfold idx_mem, index_del. destruct (idx !! nid) as [set|] eqn:E.
  - case_bool_decide as Es.
    + rewrite lookup_delete. case_decide; subst; cbn; [rewrite E; cbn; set_solver|set_solver].
    + rewrite lookup_insert. case_decide; subst; cbn; [rewrite E; cbn; set_solver|set_solver].
  - split; [|tauto]. intros H. split; [done|]. intros [-> ->]. rewrite E in H. set_solver.
Qed.

Definition idx_nonempty idx : Prop := forall nid set, idx !! nid = Some set -> set <> ∅.

Lemma idx_nonempty_add idx nid sid : idx_nonempty idx -> idx_nonempty (index_add nid sid idx).
Proof.
  intros H nid' set. unfold index_add. rewrite lookup_insert. case_decide; [|by apply H].
  intros [= <-]. set_solver.
Qed.

Lemma idx_nonempty_del idx nid sid : idx_nonempty idx -> idx_nonempty (index_del nid sid idx).
Proof.
  intros H nid' set. unfold index_del. destruct (idx !! nid) eqn:E; [|by apply H].
  case_bool_decide.
  - rewrite lookup_delete. case_decide; [done|apply H].
  - rewrite lookup_insert. case_decide; [by intros [= <-]|apply H].
Qed.
End index.

Section inv.
Context {St : Type} `{RouteStoreLaws St}.
Implicit Types (s : Routes St) (sid nid : string) (r : terminalSessionRoute).

(** The persisted row of a session, if there is a store and a row. *)
Definition row_at s sid : option RouteRow := terminalRouteStore s ≫= fun st => rows st !! sid.

Definition route_ok sid r : Prop :=
  trim sid = sid /\ sid <> "" /\ trim (NodeID r) = NodeID r /\ NodeID r <> "" /\
  (ReservationID r <> 0 -> LeaseExpiresUnixMs r = 0 /\ ConfirmedReservationID r = 0).

Record routes_ok s : Prop := {
  ok_index nid sid : sid ∈ index_of s nid <-> exists r, terminalSessionToNode s !! sid = Some r /\ NodeID r = nid;
  ok_index_nonempty : idx_nonempty (terminalNodeToSessionIDIndex s);
  ok_route sid r : terminalSessionToNode s !! sid = Some r -> route_ok sid r;
  ok_rows sid row : row_at s sid = Some row ->
    0 < r_LeaseExpiresUnixMs row /\
    exists r, terminalSessionToNode s !! sid = Some r /\ ReservationID r = 0 /\
              NodeID r = r_NodeID row /\ LeaseExpiresUnixMs r = r_LeaseExpiresUnixMs row }.

(** Sessions stay on their worker until they are removed, and a removal
    revokes the session's proxy routes. *)
Definition evolves s s' : Prop :=
  exists log, revoked s' = (fun l => l ++ log) <$> revoked s /\
  forall sid r, terminalSessionToNode s !! sid = Some r ->
    (exists r', terminalSessionToNode s' !! sid = Some r' /\ NodeID r' = NodeID r) \/ sid ∈ log.

Definition step_ok s s' : Prop := routes_ok s -> routes_ok s' /\ evolves s s'.

Lemma evolves_same s s' :
  revoked s' = revoked s ->
  (forall sid r, terminalSessionToNode s !! sid = Some r ->
     exists r', terminalSessionToNode s' !! sid = Some r' /\ NodeID r' = NodeID r) -> evolves s s'.
Proof.
  intros Hr Hk. exists []. split; [|by eauto]. rewrite Hr. destruct (revoked s); cbn; by rewrite ?app_nil_r.
Qed.

#[export] Instance evolves_preorder : PreOrder evolves.
Proof.
  split.
  - intros s. apply evolves_same; eauto.
  - intros s1 s2 s3 (l1&E1&H1) (l2&E2&H2). exists (l1 ++ l2). split.
    + rewrite E2, E1. destruct (revoked s1); cbn; by rewrite ?app_assoc.
    + intros sid r Hs.
      destruct (H1 _ _ Hs) as [(r'&Hr'&Hn)|]; [|set_solver].
      destruct (H2 _ _ Hr') as [(r''&Hr''&Hn')|]; [|set_solver].
      left. exists r''. by rewrite Hn'.
Qed.

#[export] Instance step_ok_preorder : PreOrder step_ok.
Proof.
  split; [by intros s|]. intros s1 s2 s3 H1 H2 Hok.
  destruct (H1 Hok) as [Hok2 He]. destruct (H2 Hok2) as [Hok3 He']. split; [done|by etrans].
Qed.

Lemma step_ok_trans s1 s2 s3 : step_ok s1 s2 -> (routes_ok s2 -> step_ok s2 s3) -> step_ok s1 s3.
Proof.
  intros H1 H2 Hok. destruct (H1 Hok) as [Hok2 He]. destruct (H2 Hok2 Hok2) as [Hok3 He'].
  split; [done|by etrans].
Qed.

(** A step may use the invariant of its source. *)
Lemma step_ok_assume s s' : (routes_ok s -> step_ok s s') -> step_ok s s'.
Proof. intros Hs Hok. by apply Hs. Qed.

Lemma row_at_route s sid r row :
  routes_ok s -> terminalSessionToNode s !! sid = Some r -> row_at s sid = Some row ->
  0 < LeaseExpiresUnixMs r /\ ReservationID r = 0 /\ NodeID r = r_NodeID row /\
  LeaseExpiresUnixMs r = r_LeaseExpiresUnixMs row.
Proof.
  intros Hok Hr Hrow. destruct (ok_rows _ Hok _ _ Hrow) as (Hpos&r'&Hr'&?&?&?). simplify_eq. split_and!; [lia|done..].
Qed.

(** *** The primitive steps *)

(** Replacing a route by one that keeps its worker, its confirmation and a
    lease it has. *)
Definition route_keeps r r' : Prop :=
  NodeID r' = NodeID r /\
  (ReservationID r' <> 0 -> ReservationID r <> 0 /\ LeaseExpiresUnixMs r' = LeaseExpiresUnixMs r /\
                            ConfirmedReservationID r' = ConfirmedReservationID r) /\
  (0 < LeaseExpiresUnixMs r -> LeaseExpiresUnixMs r' = LeaseExpiresUnixMs r).

Lemma put_ok s sid r r' :
  terminalSessionToNode s !! sid = Some r -> route_keeps r r' -> step_ok s (put sid r' s).
Proof.
  intros Hr (Hn&Hres&Hlease) Hok. split; [split|].
  - intros nid sid'. unfold index_of. cbn. change (default ∅ _) with (index_of s nid). rewrite (ok_index _ Hok).
    rewrite lookup_insert. case_decide; [subst|done]. rewrite Hr. naive_solver.
  - apply (ok_index_nonempty _ Hok).
  - intros sid' r1. cbn. rewrite lookup_insert. case_decide; [subst|apply (ok_route _ Hok)].
    intros [= <-]. destruct (ok_route _ Hok _ _ Hr) as (?&?&?&?&Hp). unfold route_ok. rewrite Hn.
    split_and!; [done..|]. intros Hne. destruct (Hres Hne) as (?&->&->). auto.
  - intros sid' row Hrow. change (row_at s sid' = Some row) in Hrow.
    destruct (ok_rows _ Hok _ _ Hrow) as (Hpos&r1&Hr1&?&?&?). split; [done|]. cbn.
    rewrite lookup_insert. case_decide; [subst|by eauto]. simplify_eq. exists r'. split_and!; [done| | |].
    + destruct (decide (ReservationID r' = 0)) as [|Hne]; [done|]. by destruct (Hres Hne).
    + congruence.
    + rewrite Hlease; [done|lia].
  - apply evolves_same; [done|]. intros sid' r1 Hr1. cbn. rewrite lookup_insert. case_decide; [|by eauto].
    subst. simplify_eq. eauto.
Qed.

Lemma remove_ok s sid r :
  terminalSessionToNode s !! sid = Some r -> row_at s sid = None ->
  step_ok s (deleteTerminalSessionRouteLocked sid r s).
Proof.
  intros Hr Hrow Hok. split; [split|].
  - intros nid sid'. pose proof (idx_mem_del (terminalNodeToSessionIDIndex s) (NodeID r) sid nid sid') as Hi.
    unfold idx_mem in Hi. unfold index_of. cbn. rewrite Hi. change (default ∅ _) with (index_of s nid).
    rewrite (ok_index _ Hok), lookup_delete. case_decide; [subst|].
    + rewrite Hr. split; [|by intros (?&?&?)]. intros [(r'&[= <-]&?) Hne]. naive_solver.
    + naive_solver.
  - apply idx_nonempty_del, (ok_index_nonempty _ Hok).
  - intros sid' r1. cbn. intros [? Hr1]%lookup_delete_Some. by apply (ok_route _ Hok).
  - intros sid' row Hrow'. change (row_at s sid' = Some row) in Hrow'.
    destruct (ok_rows _ Hok _ _ Hrow') as (Hpos&r1&Hr1&?). split; [done|]. exists r1. cbn.
    rewrite lookup_delete_ne by congruence. done.
  - exists [sid]. split; [done|]. intros sid' r1 Hr1. cbn. destruct (decide (sid = sid')) as [->|];
      [right; set_solver|left]. rewrite lookup_delete_ne by done. eauto.
Qed.

Lemma insert_ok s sid nid r :
  terminalSessionToNode s !! sid = None -> route_ok sid r -> NodeID r = nid ->
  step_ok s (with_index (index_add nid sid) (put sid r s)).
Proof.
  intros Hnone Hr Hn Hok. split; [split|].
  - intros nid' sid'. pose proof (idx_mem_add (terminalNodeToSessionIDIndex s) nid sid nid' sid') as Hi.
    unfold idx_mem in Hi. unfold index_of. cbn. rewrite Hi. change (default ∅ _) with (index_of s nid').
    rewrite (ok_index _ Hok), lookup_insert. case_decide; [subst|naive_solver].
    rewrite Hnone. naive_solver.
  - apply idx_nonempty_add, (ok_index_nonempty _ Hok).
  - intros sid' r1. cbn. rewrite lookup_insert. case_decide; [by intros [= <-]; subst|apply (ok_route _ Hok)].
  - intros sid' row Hrow. change (row_at s sid' = Some row) in Hrow.
    destruct (ok_rows _ Hok _ _ Hrow) as (Hpos&r1&Hr1&?). split; [done|]. exists r1. cbn.
    rewrite lookup_insert_ne by congruence. done.
  - apply evolves_same; [done|]. intros sid' r1 Hr1. cbn. rewrite lookup_insert_ne by congruence. eauto.
Qed.

(** A change of the store only, after which no row is new or different. *)
Definition shrunk s s' : Prop :=
  (exists st, s' = with_store st s) /\ forall sid row, row_at s' sid = Some row -> row_at s sid = Some row.

Lemma shrunk_ok s s' : shrunk s s' -> step_ok s s'.
Proof.
  intros [[st ->] Hrows] [Hi Hne Hr Hrow]. split; [by split; eauto|by apply evolves_same; eauto].
Qed.

Lemma shrunk_refl s : shrunk s s.
Proof. split; [|done]. exists (terminalRouteStore s). by destruct s. Qed.

Lemma same_fields_ok s s' :
  terminalSessionToNode s' = terminalSessionToNode s ->
  terminalNodeToSessionIDIndex s' = terminalNodeToSessionIDIndex s ->
  terminalRouteStore s' = terminalRouteStore s -> revoked s' = revoked s -> step_ok s s'.
Proof.
  intros E1 E2 E3 E4 [Hi Hne Hr Hrow]. split; [split|apply evolves_same; rewrite ?E1; eauto].
  - intros nid sid. unfold index_of. rewrite E1, E2. apply Hi.
  - by rewrite E2.
  - by rewrite E1.
  - intros sid row. unfold row_at. rewrite E1, E3. apply Hrow.
Qed.

(** *** Calls of the store *)

(** The outcome [x] of a deletion that removes the rows [p] selects. *)
Definition store_kept {A} (p : string -> RouteRow -> bool) (x : res A) s s' : Prop :=
  (exists st, s' = with_store st s) /\
  forall sid, row_at s' sid = if is_ok x then row_at s sid ≫= (fun row => if p sid row then None else Some row)
                              else row_at s sid.

Lemma call_store_kept {A} (d : A) f p s x s' :
  (forall st e st', f st = (Err e, st') -> rows st' = rows st) ->
  (forall st a st', f st = (Ok a, st') -> rows st' = keep p (rows st)) ->
  call_store d f s = (x, s') -> store_kept p x s s'.
Proof.
  intros Herr Hok. unfold call_store, store_kept, row_at. destruct (terminalRouteStore s) as [st|] eqn:Est.
  - destruct (f st) as [y st'] eqn:Ef. intros [= <- <-]. split; [eauto|]. intros sid. cbn.
    destruct y as [a|e]; cbn; [by rewrite (Hok _ _ _ Ef), lookup_keep|by rewrite (Herr _ _ _ Ef)].
  - intros [= <- <-]. split; [exists None; destruct s; by cbn in Est; subst|]. intros sid. by rewrite Est.
Qed.

Lemma store_kept_shrunk {A} p (x : res A) s s' : store_kept p x s s' -> shrunk s s'.
Proof.
  intros [Hst Hrows]. split; [done|]. intros sid row. rewrite Hrows.
  destruct (is_ok x); [|done]. destruct (row_at s sid); cbn; [|done]. case_match; [done|by intros [= ->]].
Qed.

Lemma store_kept_routes {A} p (x : res A) s s' :
  store_kept p x s s' -> terminalSessionToNode s' = terminalSessionToNode s /\
  terminalNodeToSessionIDIndex s' = terminalNodeToSessionIDIndex s /\
  terminalRouteTTL s' = terminalRouteTTL s /\ revoked s' = revoked s.
Proof. by intros [[st ->] _]. Qed.

Lemma store_kept_gone {A} p (a : A) s s' sid row :
  store_kept p (Ok a) s s' -> row_at s' sid = Some row -> p sid row = false.
Proof.
  intros [_ Hrows]. rewrite Hrows. cbn. destruct (row_at s sid) as [row'|]; cbn; [|done].
  destruct (p sid row') eqn:E; [done|by intros [= <-]].
Qed.

Lemma call_delete s sid nid x s' :
  call_store false (store_delete sid nid) s = (x, s') -> store_kept (same_ref (sid, nid)) x s s'.
Proof. apply call_store_kept; [apply delete_err|apply delete_ok]. Qed.

Definition in_refs (refs : list TerminalSessionRouteRef) (sid : string) (row : RouteRow) : bool :=
  existsb (fun ref => same_ref ref sid row) refs.

(** [if len(refs) > 0 && s.terminalRouteStore != nil]. *)
Lemma call_delete_refs s refs x s' :
  match refs with [] => (Ok tt, s) | _ => call_store tt (store_delete_many refs) s end = (x, s') ->
  store_kept (in_refs refs) x s s'.
Proof.
  destruct refs as [|ref refs].
  - intros [= <- <-]. split; [exists (terminalRouteStore s); by destruct s|]. intros sid. cbn. by destruct (row_at s sid).
  - apply call_store_kept; [apply delete_many_err|apply delete_many_ok].
Qed.

Lemma call_delete_by_node s nid x s' :
  call_store 0 (store_delete_by_node nid) s = (x, s') ->
  store_kept (fun _ row => bool_decide (r_NodeID row = trim nid)) x s s'.
Proof. apply call_store_kept; [apply delete_by_node_err|apply delete_by_node_ok]. Qed.

Lemma call_delete_expired s now x s' :
  call_store 0 (store_delete_expired now) s = (x, s') ->
  store_kept (fun _ row => r_LeaseExpiresUnixMs row <=? now) x s s'.
Proof. apply call_store_kept; [apply delete_expired_err|apply delete_expired_ok]. Qed.

(** A route whose row, if any, the store just removed has no row. *)
Lemma same_ref_gone s sid r :
  routes_ok s -> terminalSessionToNode s !! sid = Some r ->
  (forall row, row_at s sid = Some row -> same_ref (sid, NodeID r) sid row = false) -> row_at s sid = None.
Proof.
  intros Hok Hr Hgone. destruct (row_at s sid) as [row|] eqn:E; [|done].
  destruct (row_at_route _ _ _ _ Hok Hr E) as (_&_&Hn&_).
  destruct (ok_route _ Hok _ _ Hr) as (Ht&_&Htn&_). specialize (Hgone _ eq_refl). unfold same_ref in Hgone. cbn in Hgone.
  rewrite Ht, Htn, Hn in Hgone. by rewrite !bool_decide_true in Hgone.
Qed.

(** A route without a lease has no row. *)
Lemma no_lease_no_row s sid r :
  routes_ok s -> terminalSessionToNode s !! sid = Some r -> LeaseExpiresUnixMs r <= 0 -> row_at s sid = None.
Proof.
  intros Hok Hr Hl. destruct (row_at s sid) as [row|] eqn:E; [|done].
  destruct (row_at_route _ _ _ _ Hok Hr E). lia.
Qed.

Lemma provisional_no_row s sid r :
  routes_ok s -> terminalSessionToNode s !! sid = Some r -> ReservationID r <> 0 -> row_at s sid = None.
Proof.
  intros Hok Hr Hne. destruct (ok_route _ Hok _ _ Hr) as (_&_&_&_&Hp). destruct (Hp Hne). eapply no_lease_no_row; [done..|lia].
Qed.

(** *** Every operation *)

Lemma join_route_keeps now r : route_keeps r (join_route now r).1.
Proof. unfold join_route. cbn. destruct (ReservationID r =? 0) eqn:E; cbn; repeat split; cbn; auto; bool_prop; done. Qed.

Lemma reserve_step x n now s : step_ok s (reserveTerminalSessionRoute x n now s).2.
Proof.
  unfold reserveTerminalSessionRoute. case_match eqn:Eg; [done|]. bool_prop.
  destruct (terminalSessionToNode s !! trim x) as [r|] eqn:Er.
  - pose proof (join_route_keeps now r) as Hk. destruct (join_route now r) as [r' id]. by eapply put_ok.
  - etrans; [|eapply insert_ok; [exact Er|..]]; [by apply same_fields_ok| |done].
    unfold route_ok. cbn. by rewrite !trim_trim.
Qed.

Lemma claim_step x now s : step_ok s (claimTerminalSessionRoute x now s).2.
Proof.
  unfold claimTerminalSessionRoute. case_match; [done|].
  destruct (terminalSessionToNode s !! trim x) as [r|] eqn:Er; [|done]. case_match; [done|].
  pose proof (join_route_keeps now r) as Hk. destruct (join_route now r) as [r' id]. by eapply put_ok.
Qed.

Lemma confirm_step x n id now s : step_ok s (confirmTerminalSessionRoute x n id now s).2.
Proof.
  unfold confirmTerminalSessionRoute. case_match; [done|].
  destruct (terminalSessionToNode s !! trim x) as [r|] eqn:Er; [|done]. case_match; [done|].
  eapply put_ok; [done|]. by case_match; repeat split; cbn.
Qed.

Lemma touch_step x now s : step_ok s (touchTerminalSessionRoute x now s).2.
Proof.
  unfold touchTerminalSessionRoute. case_match; [done|].
  destruct (terminalSessionToNode s !! trim x) as [r|] eqn:Er; [|done]. case_match; [done|].
  eapply put_ok; [done|]. by repeat split; cbn.
Qed.

Lemma snapshot_step x now s : step_ok s (terminalSessionRouteSnapshot x now s).2.
Proof.
  unfold terminalSessionRouteSnapshot. case_match; [done|].
  destruct (terminalSessionToNode s !! trim x) as [r|] eqn:Er; [|done]. case_match; [|done].
  destruct (call_store _ _ _) as [y s1] eqn:Ec. apply call_delete in Ec.
  pose proof (store_kept_routes _ _ _ _ Ec) as (Hr&_).
  destruct y as [b|e]; cbn; [|by eapply shrunk_ok, store_kept_shrunk].
  eapply step_ok_trans; [by eapply shrunk_ok, store_kept_shrunk|]. intros Hok1.
  apply remove_ok; [by rewrite Hr|]. eapply same_ref_gone; [done|by rewrite Hr|].
  intros row Hrow. by eapply store_kept_gone.
Qed.

(** The state while a list of refs, already deleted from the store, is removed. *)
Definition refs_gone (refs : list TerminalSessionRouteRef) s : Prop :=
  forall ref row, ref ∈ refs -> row_at s ref.1 = Some row -> same_ref ref ref.1 row = false.

Lemma refs_gone_kept refs (a : unit) s s' : store_kept (in_refs refs) (Ok a) s s' -> refs_gone refs s'.
Proof.
  intros Hk ref row Hin Hrow. pose proof (store_kept_gone _ _ _ _ _ _ Hk Hrow) as Hg.
  unfold in_refs in Hg. destruct (same_ref ref ref.1 row) eqn:E; [|done].
  rewrite <- Hg. symmetry. apply existsb_exists. exists ref. split; [by apply list_elem_of_In|done].
Qed.

Lemma delete_ref_rows s ref sid : row_at (delete_ref s ref) sid = row_at s sid.
Proof. unfold delete_ref. by repeat case_match. Qed.

Lemma delete_ref_step refs s ref :
  refs_gone refs s -> ref ∈ refs -> step_ok s (delete_ref s ref).
Proof.
  intros Hgone Hin. unfold delete_ref. destruct (terminalSessionToNode s !! ref.1) as [r|] eqn:Er; [|done].
  case_bool_decide as En; [|done]. apply step_ok_assume. intros Hok. apply remove_ok; [done|].
  eapply same_ref_gone; [done..|]. intros row Hrow. rewrite En. rewrite <- (Hgone ref row Hin Hrow). by destruct ref.
Qed.

Lemma delete_refs_step refs s : refs_gone refs s -> step_ok s (foldl delete_ref s refs).
Proof.
  intros Hgone. apply (foldl_inv (fun s' => step_ok s s' /\ refs_gone refs s')); [done|].
  intros s' ref Hin [Hs Hg]. split.
  - etrans; [done|]. by eapply delete_ref_step.
  - intros ref' row Hin'. rewrite delete_ref_rows. by apply Hg.
Qed.

Lemma list_step owner now s :
  step_ok s (maybePruneTerminalSessionRoutes now s) -> step_ok s (ListTerminalSessions owner now s).2.
Proof.
  intros Hp. unfold ListTerminalSessions. cbn. etrans; [exact Hp|]. generalize (maybePruneTerminalSessionRoutes now s).
  clear Hp s. intros s. set (expired := omap _ _). clearbody expired.
  destruct expired as [|ref refs]; [done|].
  destruct (call_store _ _ _) as [y s1] eqn:Ec. apply (call_delete_refs s (ref :: refs)) in Ec.
  destruct y as [[]|e]; [|by eapply shrunk_ok, store_kept_shrunk].
  etrans; [by eapply shrunk_ok, store_kept_shrunk|]. by eapply delete_refs_step, refs_gone_kept.
Qed.

(** What the prune loop does to the table. *)
Lemma prune_fold ok now l n s :
  let p kv := prunable ok (terminalRouteTTL s) now kv.2 in
  let '(n', s') := foldl (prune_one ok now) (n, s) l in
  n' = n + Z.of_nat (length (List.filter p l)) /\ terminalRouteStore s' = terminalRouteStore s /\
  (forall sid r, (sid, r) ∈ l -> p (sid, r) = true -> terminalSessionToNode s' !! sid = None) /\
  (forall sid, (forall r, (sid, r) ∈ l -> p (sid, r) = false) ->
     terminalSessionToNode s' !! sid = terminalSessionToNode s !! sid) /\
  (forall sid, terminalSessionToNode s !! sid = None -> terminalSessionToNode s' !! sid = None).
Proof.
  revert n s. induction l as [|[k r0] l IH]; intros n s; cbn [foldl].
  { split_and!; [cbn; lia|done|by intros ? ? ?%elem_of_nil|done|done]. }
  cbn [prune_one fst snd]. destruct (prunable ok (terminalRouteTTL s) now r0) eqn:Ep.
  - specialize (IH (n + 1) (deleteTerminalSessionRouteLocked k r0 s)).
    destruct (foldl _ _ l) as [n' s']. destruct IH as (Hn&Hst&Hin&Hout&Hnone). cbn in *. rewrite Ep. cbn.
    split_and!; [lia|done| | |].
    + intros sid r [[= -> ->]|Hl]%elem_of_cons Hp; [|by eapply Hin]. apply Hnone, lookup_delete_eq.
    + intros sid Hall. rewrite Hout; [|intros r Hr; apply Hall; by right].
      apply lookup_delete_ne. intros ->. rewrite (Hall r0) in Ep; [done|by left].
    + intros sid Hs. apply Hnone. rewrite lookup_delete. by case_decide.
  - specialize (IH n s). destruct (foldl _ _ l) as [n' s']. destruct IH as (Hn&Hst&Hin&Hout&Hnone).
    cbn. rewrite Ep. split_and!; [done|done| | |done].
    + intros sid r [[= -> ->]|Hl]%elem_of_cons Hp; [congruence|by eapply Hin].
    + intros sid Hall. apply Hout. intros r Hr. apply Hall. by right.
Qed.

Lemma prune_fold_step ok now l n s :
  NoDup l.*1 -> (forall sid r, (sid, r) ∈ l -> terminalSessionToNode s !! sid = Some r) ->
  (forall sid r, (sid, r) ∈ l -> 0 < LeaseExpiresUnixMs r -> prunable ok (terminalRouteTTL s) now r = true ->
     row_at s sid = None) ->
  step_ok s (foldl (prune_one ok now) (n, s) l).2.
Proof.
  revert n s. induction l as [|[k r0] l IH]; intros n s; cbn [foldl fmap list_fmap fst]; [done|].
  intros [Hk Hnd]%NoDup_cons Hin Hrow. cbn [prune_one fst snd].
  destruct (prunable ok (terminalRouteTTL s) now r0) eqn:Ep.
  - eapply step_ok_trans; [|intros _; apply IH; [done| |]].
    + apply step_ok_assume. intros Hok. apply remove_ok; [apply Hin; by left|].
      destruct (decide (0 < LeaseExpiresUnixMs r0)); [eapply Hrow; [by left|done..]|].
      eapply no_lease_no_row; [done|apply Hin; by left|lia].
    + intros sid r Hl. cbn. rewrite lookup_delete_ne; [apply Hin; by right|]. intros ->.
      apply Hk. apply list_elem_of_fmap. by exists (sid, r).
    + intros sid r Hl. eapply Hrow. by right.
  - apply IH; [done| |]; intros sid r Hl; [apply Hin|eapply Hrow]; by right.
Qed.

Lemma prune_step now s : step_ok s (PruneExpiredTerminalSessionRoutes now s).2.
Proof.
  unfold PruneExpiredTerminalSessionRoutes. destruct (call_store _ _ _) as [x s1] eqn:Ec.
  apply call_delete_expired in Ec. eapply step_ok_trans; [by eapply shrunk_ok, store_kept_shrunk|]. intros Hok.
  apply prune_fold_step; [apply NoDup_fst_map_to_list| |].
  - intros sid r Hl. by apply elem_of_map_to_list.
  - intros sid r Hl%elem_of_map_to_list Hpos Hp. unfold prunable in Hp. rewrite (proj2 (Z.ltb_lt _ _) Hpos) in Hp.
    destruct x as [a|e]; [|by bool_prop]. bool_prop.
    destruct (row_at s1 sid) as [row|] eqn:Erow; [|done].
    pose proof (store_kept_gone _ _ _ _ _ _ Ec Erow) as Hg. cbn in Hg. bool_prop.
    destruct (row_at_route _ _ _ _ Hok Hl Erow) as (_&_&_&?). lia.
Qed.

Lemma maybe_prune_step now s : step_ok s (maybePruneTerminalSessionRoutes now s).
Proof.
  unfold maybePruneTerminalSessionRoutes. case_match; [done|]. etrans; [|apply prune_step]. by apply same_fields_ok.
Qed.

(** *** Removal, recovery and commit *)

Lemma clear_reservation_step x n id s : step_ok s (clearTerminalSessionRouteReservation x n id s).2.
Proof.
  unfold clearTerminalSessionRouteReservation. case_match eqn:E0; [done|]. case_match; [done|].
  destruct (terminalSessionToNode s !! trim x) as [r|] eqn:Er; [|done].
  case_match eqn:Eg; [done|]. bool_prop. case_match.
  - eapply put_ok; [done|]. repeat split; by cbn.
  - apply step_ok_assume. intros Hok. apply remove_ok; [done|]. eapply provisional_no_row; [done..|]. congruence.
Qed.

Lemma clear_step x n s : step_ok s (clearTerminalSessionRoute x n s).2.
Proof.
  unfold clearTerminalSessionRoute. case_match; [done|].
  destruct (terminalSessionToNode s !! trim x) as [r|] eqn:Er; [|done]. case_match; [done|].
  destruct (0 <? LeaseExpiresUnixMs r) eqn:El; bool_prop.
  - destruct (call_store _ _ _) as [y s1] eqn:Ec. apply call_delete in Ec.
    pose proof (store_kept_routes _ _ _ _ Ec) as (Hr&_).
    destruct y as [b|e]; cbn; [|by eapply shrunk_ok, store_kept_shrunk].
    eapply step_ok_trans; [by eapply shrunk_ok, store_kept_shrunk|]. intros Hok1.
    apply remove_ok; [by rewrite Hr|]. eapply same_ref_gone; [done|by rewrite Hr|].
    intros row Hrow. by eapply store_kept_gone.
  - apply step_ok_assume. intros Hok. apply remove_ok; [done|]. by eapply no_lease_no_row.
Qed.

Lemma get_step o x now s : step_ok s (GetTerminalSession o x now s).2.
Proof.
  unfold GetTerminalSession. case_match; [done|]. set (sc := scopeTerminalSessionID _ _).
  pose proof (snapshot_step sc now s) as Hs. destruct (terminalSessionRouteSnapshot sc now s) as [[r|] s1]; cbn in *; [|done].
  by case_match.
Qed.

Lemma delete_session_step o x now s : step_ok s (DeleteTerminalSession o x now s).2.
Proof.
  unfold DeleteTerminalSession. case_match; [done|]. set (sc := scopeTerminalSessionID _ _).
  pose proof (snapshot_step sc now s) as Hs. destruct (terminalSessionRouteSnapshot sc now s) as [[r|] s1]; cbn in *; [|done].
  case_match; [done|]. pose proof (clear_step sc (NodeID r) s1) as Hc.
  destruct (clearTerminalSessionRoute sc (NodeID r) s1) as [[]]; cbn in *; by etrans.
Qed.

Lemma remove_node_route_step nid n s s' sid :
  (forall sid row, row_at s' sid = Some row -> r_NodeID row <> nid) ->
  step_ok s s' -> step_ok s (remove_node_route nid (n, s') sid).2.
Proof.
  intros Hrow Hs. cbn. destruct (terminalSessionToNode s' !! sid) as [r|] eqn:Er; [|done].
  case_bool_decide as En; [|done]. eapply step_ok_trans; [done|]. intros Hok. apply remove_ok; [done|].
  destruct (row_at s' sid) as [row|] eqn:Erow; [|done].
  destruct (row_at_route _ _ _ _ Hok Er Erow) as (_&_&Hn&_). destruct (Hrow _ _ Erow). congruence.
Qed.

Lemma delete_by_node_step n s : step_ok s (deleteTerminalSessionRoutesByNode n s).2.
Proof.
  unfold deleteTerminalSessionRoutesByNode. case_match; [done|].
  destruct (call_store _ _ _) as [y s1] eqn:Ec. apply call_delete_by_node in Ec.
  destruct y as [z|e]; [|by eapply shrunk_ok, store_kept_shrunk].
  set (l := elements _).
  assert (step_ok s (foldl (remove_node_route (trim n)) (0, s1) l).2 /\
          forall sid row, row_at (foldl (remove_node_route (trim n)) (0, s1) l).2 sid = Some row -> r_NodeID row <> trim n) as [Hs _].
  { apply (foldl_inv (fun a => step_ok s a.2 /\ forall sid row, row_at a.2 sid = Some row -> r_NodeID row <> trim n)).
    - split; [by eapply shrunk_ok, store_kept_shrunk|]. intros sid row Hrow.
      pose proof (store_kept_gone _ _ _ _ _ _ Ec Hrow) as Hg. cbn in Hg. rewrite trim_trim in Hg. by bool_prop.
    - intros [k s'] sid _ [Hs Hr]. split; [by apply remove_node_route_step|].
      intros sid' row. cbn. destruct (terminalSessionToNode s' !! sid); [case_match|]; apply Hr. }
  by destruct (foldl _ _ l).
Qed.

Lemma mark_unavailable_step nid s n s' sid :
  step_ok s s' -> step_ok s (mark_unavailable nid (n, s') sid).2.
Proof.
  intros Hs. cbn. destruct (terminalSessionToNode s' !! sid) as [r|] eqn:Er; [|done]. case_match; [done|].
  case_match eqn:Eres; bool_prop; (eapply step_ok_trans; [done|]; intros Hok).
  - apply remove_ok; [done|]. by eapply provisional_no_row.
  - eapply put_ok; [done|]. repeat split; by cbn.
Qed.

Lemma mark_step n s : step_ok s (markTerminalSessionRoutesUnavailable n s).2.
Proof.
  unfold markTerminalSessionRoutesUnavailable. case_match; [done|].
  apply (foldl_inv (fun a => step_ok s a.2)); [done|]. intros [k s'] sid _ Hs. by apply mark_unavailable_step.
Qed.

(** The candidates and the expired routes of a reconnecting worker. *)
Definition candidate_of (now : Z) nid s sid : option TerminalSessionRecoveryCandidate :=
  match terminalSessionToNode s !! sid with
  | Some r => if bool_decide (NodeID r = nid) && (ReservationID r =? 0) && (now <? recovery_lease s r)
              then Some (mkCandidate sid (recovery_lease s r)) else None
  | None => None
  end.

Definition expired_of (now : Z) nid s sid : option TerminalSessionRouteRef :=
  match terminalSessionToNode s !! sid with
  | Some r => if bool_decide (NodeID r = nid) && (negb (ReservationID r =? 0) || (recovery_lease s r <=? now)) &&
                 (0 <? LeaseExpiresUnixMs r) then Some (sid, NodeID r) else None
  | None => None
  end.

Lemma classify_fold now nid s l cs ex :
  foldl (classify now nid s) (cs, ex) l =
  (cs ++ omap (candidate_of now nid s) l, ex ++ omap (expired_of now nid s) l).
Proof.
  revert cs ex. induction l as [|sid l IH]; intros cs ex; cbn; [by rewrite !app_nil_r|].
  unfold candidate_of at 1, expired_of at 1. destruct (terminalSessionToNode s !! sid) as [r|] eqn:Er; [|apply IH].
  case_bool_decide; cbn; [|apply IH].
  rewrite (Z.leb_antisym now). destruct (ReservationID r =? 0), (now <? recovery_lease s r); cbn;
    try (rewrite IH; by rewrite <- app_assoc);
    (destruct (0 <? LeaseExpiresUnixMs r); rewrite IH; [by rewrite <- app_assoc|done]).
Qed.

Lemma delete_refs_sub refs s sid r :
  terminalSessionToNode (foldl delete_ref s refs) !! sid = Some r -> terminalSessionToNode s !! sid = Some r.
Proof.
  revert s. induction refs as [|ref refs IH]; intros s; cbn; [done|]. intros E%IH. revert E.
  unfold delete_ref. repeat case_match; try done. cbn. by intros [? ?]%lookup_delete_Some.
Qed.

Lemma reconcile_fold_step nid (F : string -> Z) cs s :
  (forall c, c ∈ cs -> cand_LeaseExpiresUnixMs c = F (cand_SessionId c)) ->
  (forall c r, c ∈ cs -> terminalSessionToNode s !! cand_SessionId c = Some r ->
     ReservationID r = 0 /\ (0 < LeaseExpiresUnixMs r -> LeaseExpiresUnixMs r = F (cand_SessionId c))) ->
  step_ok s (foldl (reconcile nid) s cs).
Proof.
  intros HF HQ. apply (foldl_inv (fun s' => step_ok s s' /\ forall c r, c ∈ cs ->
    terminalSessionToNode s' !! cand_SessionId c = Some r ->
    ReservationID r = 0 /\ (0 < LeaseExpiresUnixMs r -> LeaseExpiresUnixMs r = F (cand_SessionId c)))); [done|].
  intros s' c Hc [Hs HQ']. unfold reconcile.
  destruct (terminalSessionToNode s' !! cand_SessionId c) as [r|] eqn:Er; [|done].
  case_bool_decide; [|done]. destruct (HQ' _ _ Hc Er) as [Hres Hlease]. split.
  - etrans; [done|]. eapply put_ok; [done|]. repeat split; cbn; [done..|]. intros. rewrite HF by done. by rewrite Hlease.
  - intros c' r' Hc'. cbn. rewrite lookup_insert. case_decide as Eq; [|by apply HQ'].
    intros [= <-]. cbn. split; [done|]. intros _. by rewrite HF, Eq.
Qed.

Lemma begin_recovery_step n now s : step_ok s (beginTerminalSessionRecoveryWithError n now s).2.
Proof.
  unfold beginTerminalSessionRecoveryWithError. case_match; [done|]. rewrite classify_fold. cbn [app].
  set (nid := trim n). set (cs := omap (candidate_of now nid s) _). set (ex := omap (expired_of now nid s) _).
  assert (forall c, c ∈ cs -> exists r, terminalSessionToNode s !! cand_SessionId c = Some r /\
    ReservationID r = 0 /\ cand_LeaseExpiresUnixMs c = recovery_lease s r) as Hcs.
  { intros c (sid&_&Hc)%list_elem_of_omap. unfold candidate_of in Hc. repeat case_match; simplify_eq.
    bool_prop. cbn. eauto. }
  clearbody cs ex. destruct (match ex with [] => _ | _ => _ end) as [y s1] eqn:Ec.
  apply call_delete_refs in Ec. destruct y as [[]|e]; [|by eapply shrunk_ok, store_kept_shrunk].
  etrans; [by eapply shrunk_ok, store_kept_shrunk|]. etrans; [by eapply delete_refs_step, refs_gone_kept|]. cbn.
  pose proof (store_kept_routes _ _ _ _ Ec) as (Hr1&_).
  apply (reconcile_fold_step nid (fun sid => match terminalSessionToNode s !! sid with Some r => recovery_lease s r | None => 0 end)).
  - intros c (r&->&_&->)%Hcs. done.
  - intros c r Hc Hr%delete_refs_sub. rewrite Hr1 in Hr. destruct (Hcs _ Hc) as (r'&Hr'&Hres&_). simplify_eq.
    rewrite Hr. split; [done|]. intros Hpos. unfold recovery_lease. by rewrite (proj2 (Z.leb_gt _ _) Hpos).
Qed.

Lemma apply_report_step cands nid report now s :
  step_ok s (applyTerminalSessionRecoveryReport cands nid report now s).2.
Proof.
  unfold applyTerminalSessionRecoveryReport. destruct (report_results cands report) as [results|]; [|done].
  case_match; [done|]. set (refs := recovery_refs _ _ _ _ _).
  destruct (match refs with [] => _ | _ => _ end) as [y s1] eqn:Ec. apply call_delete_refs in Ec.
  destruct y as [[]|e]; [|by eapply shrunk_ok, store_kept_shrunk].
  pose proof (store_kept_routes _ _ _ _ Ec) as (Hr1&_). cbn [snd].
  apply (foldl_inv (fun s' => step_ok s s' /\ (forall sid, row_at s' sid = row_at s1 sid) /\
    forall sid r', terminalSessionToNode s' !! sid = Some r' -> exists r, terminalSessionToNode s !! sid = Some r /\
      NodeID r = NodeID r' /\ LeaseExpiresUnixMs r = LeaseExpiresUnixMs r')).
  { split; [by eapply shrunk_ok, store_kept_shrunk|]. split; [done|]. rewrite Hr1. eauto. }
  intros s' [sid lease] Hin (Hs&Hrow&Hr). unfold recover_one. cbn [fst snd].
  destruct (terminalSessionToNode s' !! sid) as [r'|] eqn:Er'; [|done].
  case_match eqn:En; [done|]. bool_prop. destruct (Hr _ _ Er') as (r&Er&Hn&Hl). case_match eqn:Elost.
  - split; [|split; [done|intros sid' r1; cbn; intros [? ?]%lookup_delete_Some; by apply Hr]].
    eapply step_ok_trans; [done|]. intros Hok. apply remove_ok; [done|].
    destruct (decide (0 < LeaseExpiresUnixMs r')) as [Hpos|]; [|eapply no_lease_no_row; [done..|lia]].
    eapply same_ref_gone; [done..|]. intros row Hrow'. rewrite Hrow in Hrow'.
    apply (refs_gone_kept _ _ _ _ Ec (sid, NodeID r') row); [|done]. apply list_elem_of_omap.
    exists (sid, lease). split; [done|]. cbn. rewrite Er, bool_decide_true, Elost by congruence.
    rewrite Hl, (proj2 (Z.ltb_lt _ _) Hpos). cbn. by rewrite Hn.
  - split; [|split; [done|]].
    + etrans; [done|]. eapply put_ok; [done|]. repeat split; by cbn.
    + intros sid' r1. cbn. rewrite lookup_insert. case_decide; [|by apply Hr]. intros [= <-]. subst. eauto.
Qed.

(** Writing a row and its route together. *)
Lemma put_row_ok s st sid r r' :
  terminalSessionToNode s !! sid = Some r -> NodeID r' = NodeID r -> ReservationID r' = 0 ->
  (forall sid', sid' <> sid -> row_at (with_store st s) sid' = row_at s sid') ->
  (forall row, row_at (with_store st s) sid = Some row ->
     0 < r_LeaseExpiresUnixMs row /\ NodeID r' = r_NodeID row /\
     LeaseExpiresUnixMs r' = r_LeaseExpiresUnixMs row) ->
  step_ok s (put sid r' (with_store st s)).
Proof.
  intros Hr Hn Hres Hother Hrow Hok. split; [split|].
  - intros nid sid'. unfold index_of. cbn. change (default ∅ _) with (index_of s nid). rewrite (ok_index _ Hok).
    rewrite lookup_insert. case_decide; [subst|done]. rewrite Hr. naive_solver.
  - apply (ok_index_nonempty _ Hok).
  - intros sid' r1. cbn. rewrite lookup_insert. case_decide; [subst|apply (ok_route _ Hok)].
    intros [= <-]. destruct (ok_route _ Hok _ _ Hr) as (?&?&?&?&Hp). unfold route_ok. by rewrite Hn.
  - intros sid' row Hrow'. change (row_at (with_store st s) sid' = Some row) in Hrow'.
    destruct (decide (sid = sid')) as [<-|Hne].
    + destruct (Hrow _ Hrow') as (?&?&?). split; [done|]. exists r'. cbn. by rewrite lookup_insert_eq.
    + rewrite Hother in Hrow' by done. destruct (ok_rows _ Hok _ _ Hrow') as (?&r1&?). split; [done|].
      exists r1. cbn. by rewrite lookup_insert_ne.
  - apply evolves_same; [done|]. intros sid' r1 Hr1. cbn. rewrite lookup_insert. case_decide; [|by eauto].
    subst. simplify_eq. eauto.
Qed.

(** The route a successful commit leaves. *)
Definition committed (reservationID lease now : Z) r : terminalSessionRoute :=
  mkRoute (NodeID r) now (Z.max (LeaseExpiresUnixMs r) lease)
    (if CreatedAtUnixMs r <=? 0 then now else CreatedAtUnixMs r) terminalSessionRecoveryReady 0
    (if reservationID =? 0 then ConfirmedReservationID r else reservationID) 0.

Definition commit_row (lease now : Z) nid r : RouteRow :=
  mkRouteRow nid (Z.max (LeaseExpiresUnixMs r) lease) now (if CreatedAtUnixMs r <=? 0 then now else CreatedAtUnixMs r) now.

(** The branches of a commit. *)
Lemma commit_cases x n id lease now s :
  let sid := trim x in let nid := trim n in
  let '(y, s') := commitConfirmedTerminalSessionRoute x n id lease now s in
  (s' = s /\ y <> Ok true) \/
  exists r, terminalSessionToNode s !! sid = Some r /\ owns_route nid id r = true /\ 0 < lease /\ sid <> "" /\ nid <> "" /\
    ((exists st e st', terminalRouteStore s = Some st /\ y = Err (Wrapped "persist terminal session route: " e "") /\
        store_upsert sid (commit_row lease now nid r) st = (Err e, st') /\ s' = with_store (Some st') s) \/
     (y = Ok true /\ terminalRouteStore s = None /\ s' = put sid (committed id lease now r) s) \/
     (exists st st' a, y = Ok true /\ terminalRouteStore s = Some st /\
        store_upsert sid (commit_row lease now nid r) st = (Ok a, st') /\
        s' = put sid (committed id lease now r) (with_store (Some st') s))).
Proof.
  cbv zeta. unfold commitConfirmedTerminalSessionRoute. destruct (lease <=? 0) eqn:El; [by left|].
  destruct (bool_decide _ || bool_decide _) eqn:Ei; [by left|].
  destruct (terminalSessionToNode s !! trim x) as [r|] eqn:Er; [|by left].
  destruct (owns_route (trim n) id r) eqn:Eo; cbn [negb]; [|by left]. bool_prop.
  set (r1 := extend_lease lease r). set (r2 := if CreatedAtUnixMs r1 <=? 0 then _ else _).
  assert (mkRouteRow (trim n) (LeaseExpiresUnixMs r2) now (CreatedAtUnixMs r2) now = commit_row lease now (trim n) r /\
    set_reservation 0 (if id =? 0 then ConfirmedReservationID r2 else id) 0
      (set_recovery terminalSessionRecoveryReady (set_last_used now r2)) = committed id lease now r) as [Hrow Hc].
  { unfold commit_row, committed. unfold r2, r1, extend_lease. destruct r; cbn.
    destruct (Z.ltb_spec LeaseExpiresUnixMs0 lease); cbn; case_match; cbn;
      [rewrite Z.max_r by lia|rewrite Z.max_r by lia|rewrite Z.max_l by lia|rewrite Z.max_l by lia]; done. }
  cbn in Hc. rewrite Hrow. unfold call_store. destruct (terminalRouteStore s) as [st|] eqn:Est.
  - destruct (store_upsert _ _ _) as [[a|e] st'] eqn:Eu; right; exists r; split_and!; try done.
    + right; right. exists st, st', a. rewrite <- Hc. done.
    + left. eauto 10.
  - right. exists r. split_and!; try done. right; left. rewrite <- Hc. done.
Qed.

Lemma commit_step x n id lease now s : step_ok s (commitConfirmedTerminalSessionRoute x n id lease now s).2.
Proof.
  pose proof (commit_cases x n id lease now s) as Hc. cbv zeta in Hc.
  destruct (commitConfirmedTerminalSessionRoute x n id lease now s) as [y s']. cbn [snd].
  destruct Hc as [[-> _]|(r&Hr&Ho&Hlease&Hsid&Hnid&Hc)]; [done|].
  unfold owns_route in Ho. bool_prop.
  destruct Hc as [(st&e&st'&Est&_&Eu&->)|[(_&Est&->)|(st&st'&a&_&Est&Eu&->)]].
  - apply shrunk_ok. split; [eauto|]. intros sid row. unfold row_at. cbn. rewrite Est. cbn. by rewrite (upsert_err _ _ _ _ _ Eu).
  - replace (put _ _ s) with (put (trim x) (committed id lease now r) (with_store None s))
      by (destruct s; cbn in *; by subst).
    eapply put_row_ok; [done..| |done]. intros sid' Hne. unfold row_at. cbn. by rewrite Est.
  - apply step_ok_assume. intros Hok. apply upsert_ok in Eu as (_&Hold&Hrows). rewrite trim_trim in Hold, Hrows.
    eapply put_row_ok; [done..| |].
    + intros sid' Hne. unfold row_at. cbn. rewrite Est. cbn. by rewrite Hrows, lookup_insert_ne.
    + intros row. unfold row_at. cbn. rewrite Hrows, lookup_insert_eq. intros [= <-].
      assert (row_at s (trim x) = rows st !! trim x) as Hat by (unfold row_at; by rewrite Est).
      destruct (rows st !! trim x) as [old|] eqn:Eold; cbn [merge_row trim_route r_NodeID r_LeaseExpiresUnixMs commit_row].
      * destruct (row_at_route _ _ _ _ Hok Hr Hat) as (Hpos&_&Hn&Hl). cbn. rewrite <- Hl. split_and!; [lia|done|lia].
      * cbn. rewrite trim_trim. split_and!; [lia|done|done].
Qed.

(** *** Restore *)
Definition restored_route (row : RouteRow) : terminalSessionRoute :=
  mkRoute (trim (r_NodeID row)) (r_LastUsedUnixMs row) (r_LeaseExpiresUnixMs row) (r_CreatedAtUnixMs row)
    terminalSessionRecoveryUnavailable 0 0 0.

(** Rows as [UpsertConfirmedTerminalSessionRoute] writes them. *)
Definition rows_wf (m : gmap string RouteRow) : Prop :=
  forall sid row, m !! sid = Some row ->
    trim sid = sid /\ trim (r_NodeID row) = r_NodeID row /\ r_NodeID row <> "" /\ 0 < r_LeaseExpiresUnixMs row.

Definition restorable (now : Z) sid (row : RouteRow) : bool :=
  isValidPersistedTerminalSessionID sid && negb (bool_decide (trim (r_NodeID row) = "")) &&
  (now <? r_LeaseExpiresUnixMs row).

(** The table and the index a list of rows with distinct trimmed keys gives. *)
Lemma restore_fold now l routes idx :
  NoDup l.*1 -> (forall sid row, (sid, row) ∈ l -> trim sid = sid /\ routes !! sid = None) ->
  foldl (restore_one now) (Ok (routes, idx)) l =
  if forallb (fun kv => restorable now kv.1 kv.2) l
  then Ok (foldl (fun m kv => <[kv.1 := restored_route kv.2]> m) routes l,
           foldl (fun i kv => index_add (trim (r_NodeID kv.2)) kv.1 i) idx l)
  else Err (ErrorString "persisted terminal session route is invalid").
Proof.
  revert routes idx. induction l as [|[sid row] l IH]; intros routes idx Hnd Hall; cbn [foldl forallb]; [done|].
  cbn [fmap list_fmap fst] in Hnd. apply NoDup_cons in Hnd as [Hni Hnd].
  destruct (Hall sid row) as [Ht Hnone]; [by left|]. unfold restore_one at 2. cbn [fst snd]. rewrite Ht, Hnone.
  unfold restorable at 1. rewrite (Z.leb_antisym now).
  destruct (isValidPersistedTerminalSessionID sid), (bool_decide (trim (r_NodeID row) = "")),
    (now <? r_LeaseExpiresUnixMs row); cbn [negb orb andb];
    try (clear; induction l; [done|]; cbn; done).
  rewrite IH; [done|done|]. intros sid' row' Hin. split; [apply (Hall sid' row'); by right|].
  rewrite lookup_insert_ne; [apply (Hall sid' row'); by right|]. intros ->.
  apply Hni. apply list_elem_of_fmap. by exists (sid', row').
Qed.

Lemma restore_index l (routes : gmap string terminalSessionRoute) idx :
  NoDup l.*1 -> (forall sid row, (sid, row) ∈ l -> routes !! sid = None) ->
  (forall nid sid, idx_mem idx nid sid <-> exists r, routes !! sid = Some r /\ NodeID r = nid) ->
  idx_nonempty idx ->
  let routes' := foldl (fun m kv => <[kv.1 := restored_route kv.2]> m) routes l in
  let idx' := foldl (fun i kv => index_add (trim (r_NodeID kv.2)) kv.1 i) idx l in
  (forall nid sid, idx_mem idx' nid sid <-> exists r, routes' !! sid = Some r /\ NodeID r = nid) /\ idx_nonempty idx'.
Proof.
  revert routes idx. induction l as [|[sid row] l IH]; intros routes idx Hnd Hall Hi Hne; cbn [foldl fst snd]; [done|].
  cbn [fmap list_fmap fst] in Hnd. apply NoDup_cons in Hnd as [Hni Hnd]. apply IH; [done| | |by apply idx_nonempty_add].
  - intros sid' row' Hin. rewrite lookup_insert_ne; [apply (Hall sid' row'); by right|]. intros ->.
    apply Hni. apply list_elem_of_fmap. by exists (sid', row').
  - intros nid' sid'. rewrite idx_mem_add, Hi, lookup_insert. pose proof (Hall sid row ltac:(by left)) as Hnone.
    case_decide; [subst; rewrite Hnone|]; naive_solver.
Qed.

Lemma fold_restored l (m0 : gmap string terminalSessionRoute) sid :
  NoDup l.*1 ->
  foldl (fun m kv => <[kv.1 := restored_route kv.2]> m) m0 l !! sid =
  match (list_to_map l : gmap string RouteRow) !! sid with Some row => Some (restored_route row) | None => m0 !! sid end.
Proof.
  revert m0. induction l as [|[k v] l IH]; intros m0; cbn; [done|]. intros [Hk Hl]%NoDup_cons. rewrite IH by done.
  destruct (decide (k = sid)) as [->|Hne].
  - rewrite lookup_insert_eq, not_elem_of_list_to_map_1 by done. by rewrite lookup_insert_eq.
  - by rewrite !lookup_insert_ne.
Qed.

(** The outcomes of a restore into a service without routes. *)
Lemma restore_cases now ttl st rv :
  rows_wf (rows st) ->
  let live := keep (fun _ row => r_LeaseExpiresUnixMs row <=? now) (rows st) in
  match RestoreTerminalSessionRoutes now (fresh_routes ttl (Some st) rv) with
  | (Ok _, s) => (forall sid row, live !! sid = Some row -> isValidPersistedTerminalSessionID sid = true) /\
      routes_ok s /\ terminalSessionToNode s = restored_route <$> live /\
      (exists st', terminalRouteStore s = Some st' /\ rows st' = live) /\
      terminalRouteTTL s = ttl /\ revoked s = rv
  | (Err e, s) => terminalSessionToNode s = ∅ /\
      ((exists st' e', store_delete_expired now st = (Err e', st')) \/
       (exists st1 st2 z e', store_delete_expired now st = (Ok z, st1) /\ store_load now st1 = (Err e', st2)) \/
       (exists sid row, live !! sid = Some row /\ isValidPersistedTerminalSessionID sid = false))
  end.
Proof.
  intros Hwf live. unfold RestoreTerminalSessionRoutes. cbn [terminalRouteStore fresh_routes].
  destruct (store_delete_expired now st) as [[z|e] st1] eqn:Ed; [|split; [done|]; left; eauto].
  destruct (store_load now st1) as [[l|e] st2] eqn:El; [|split; [done|]; right; left; eauto 10].
  apply delete_expired_ok in Ed. pose proof (load_rows now st1) as Hrows2. rewrite El in Hrows2. cbn in Hrows2.
  apply load_ok in El as [Hnd Hl].
  assert (forall sid row, (sid, row) ∈ l <-> live !! sid = Some row) as Hlive.
  { intros sid row. rewrite Hl, Ed. fold live. split; [tauto|]. intros Hs. split; [done|].
    apply lookup_keep_Some in Hs as [_ Hs]. by bool_prop. }
  assert (list_to_map l = live) as Hmap.
  { apply map_eq. intros sid. apply option_eq. intros row. rewrite <- elem_of_list_to_map by done. apply Hlive. }
  cbn [with_store terminalSessionToNode terminalNodeToSessionIDIndex].
  rewrite restore_fold; [|done|]; cycle 1.
  { intros sid row Hin%Hlive. apply lookup_keep_Some in Hin as [Hin _]. by destruct (Hwf _ _ Hin). }
  destruct (forallb (fun kv => restorable now kv.1 kv.2) l) eqn:Eall.
  - rewrite !bool_decide_true by done. cbn [negb orb]. rewrite forallb_forall in Eall. cbn.
    assert (forall sid row, live !! sid = Some row -> restorable now sid row = true) as Hvalid.
    { intros sid row Hin. apply (Eall (sid, row)). by apply list_elem_of_In, Hlive. }
    destruct (restore_index l ∅ ∅ Hnd) as [Hi Hne]; [done| |by intros ? ? ?|].
    { intros nid sid. unfold idx_mem. rewrite lookup_empty. cbn. set_solver. }
    assert (foldl (fun m kv => <[kv.1 := restored_route kv.2]> m) ∅ l = restored_route <$> live) as Hroutes.
    { apply map_eq. intros sid. rewrite fold_restored, Hmap, lookup_fmap, lookup_empty by done. by destruct (live !! sid). }
    split; [intros sid row Hs; apply Hvalid in Hs; unfold restorable in Hs; by bool_prop|].
    split; [|split_and!; [done|exists st2; split; [done|by rewrite Hrows2, Ed]|done|done]].
    split; cbn.
    + intros nid sid. apply Hi.
    + done.
    + intros sid r. rewrite Hroutes, lookup_fmap_Some. intros (row&<-&Hs).
      pose proof (Hvalid _ _ Hs) as Hv. unfold restorable in Hv. bool_prop.
      apply lookup_keep_Some in Hs as [Hs _]. destruct (Hwf _ _ Hs) as (Ht&Htn&Hn&_).
      unfold route_ok. cbn. rewrite trim_trim. split_and!; [done| |done..]. by intros ->.
    + intros sid row. unfold row_at. cbn. rewrite Hrows2, Ed. fold live. intros Hs. rewrite Hroutes.
      pose proof Hs as Hs'. apply lookup_keep_Some in Hs' as [Hs' _]. destruct (Hwf _ _ Hs') as (Ht&Htn&Hn&Hpos).
      split; [done|]. exists (restored_route row). rewrite lookup_fmap, Hs. by cbn.
  - split; [done|]. right; right.
    apply not_true_iff_false in Eall. rewrite forallb_forall in Eall.
    destruct (decide (Exists (fun kv => isValidPersistedTerminalSessionID kv.1 = false) l)) as [Hex|Hno].
    + apply Exists_exists in Hex as ([sid row]&Hin&Hv). exists sid, row. by rewrite <- Hlive.
    + exfalso. apply Eall. intros [sid row] Hin%list_elem_of_In. unfold restorable. cbn.
      rewrite <- Forall_Exists_neg, Forall_forall in Hno. specialize (Hno _ Hin). cbn in Hno. apply not_false_iff_true in Hno.
      rewrite Hno. pose proof Hin as Hin'. apply Hlive, lookup_keep_Some in Hin' as [Hin' Hexp]. bool_prop.
      destruct (Hwf _ _ Hin') as (_&Htn&Hn&_). rewrite Htn, bool_decide_false by done. cbn. by apply Z.ltb_lt.
Qed.

End inv.

End TerminalRoutesInv.
Export TerminalRoutesInv.

Module TerminalRoutesProps.

(** The operations the service performs on its table (the callers are in
    service_dispatch.go, service_connect.go, service_credentials_runtime.go,
    proxy_routes.go, main.go and the session handlers).
    [bindTerminalSessionRoute] and [updateTerminalSessionRouteLease] have no
    caller outside the tests: they change a lease without persisting it. *)
Inductive route_op :=
  | OpRestore (now : Z)
  | OpReserve (sid nid : string) (now : Z)
  | OpClaim (sid : string) (now : Z)
  | OpConfirm (sid nid : string) (id now : Z)
  | OpTouchRoute (sid : string) (now : Z)
  | OpCommit (sid nid : string) (id lease now : Z)
  | OpSnapshot (sid : string) (now : Z)
  | OpBeginRecovery (nid : string) (now : Z)
  | OpMarkUnavailable (nid : string)
  | OpReport (candidates : gmap string Z) (nid : string) (report : TerminalSessionRecoveryReport) (now : Z)
  | OpRelease (sid nid : string) (id : Z)
  | OpClear (sid nid : string)
  | OpDeleteByNode (nid : string)
  | OpPrune (now : Z)
  | OpMaybePrune (now : Z)
  | OpList (owner : string) (now : Z)
  | OpGet (owner sid : string) (now : Z)
  | OpDeleteSession (owner sid : string) (now : Z).

Section props.
Context {St : Type} `{RouteStoreLaws St}.
Implicit Types (s : Routes St) (sid nid : string) (r : terminalSessionRoute).

Definition run_route_op (op : route_op) s : Routes St :=
  match op with
  | OpRestore now => (RestoreTerminalSessionRoutes now s).2
  | OpReserve x n now => (reserveTerminalSessionRoute x n now s).2
  | OpClaim x now => (claimTerminalSessionRoute x now s).2
  | OpConfirm x n id now => (confirmTerminalSessionRoute x n id now s).2
  | OpTouchRoute x now => (touchTerminalSessionRoute x now s).2
  | OpCommit x n id lease now => (commitConfirmedTerminalSessionRoute x n id lease now s).2
  | OpSnapshot x now => (terminalSessionRouteSnapshot x now s).2
  | OpBeginRecovery n now => (beginTerminalSessionRecoveryWithError n now s).2
  | OpMarkUnavailable n => (markTerminalSessionRoutesUnavailable n s).2
  | OpReport cs n report now => (applyTerminalSessionRecoveryReport cs n report now s).2
  | OpRelease x n id => (clearTerminalSessionRouteReservation x n id s).2
  | OpClear x n => (clearTerminalSessionRoute x n s).2
  | OpDeleteByNode n => (deleteTerminalSessionRoutesByNode n s).2
  | OpPrune now => (PruneExpiredTerminalSessionRoutes now s).2
  | OpMaybePrune now => maybePruneTerminalSessionRoutes now s
  | OpList o now => (ListTerminalSessions o now s).2
  | OpGet o x now => (GetTerminalSession o x now s).2
  | OpDeleteSession o x now => (DeleteTerminalSession o x now s).2
  end.

(** A service without a store starts empty; one with a store restores its
    routes first (main.go), then any operations follow in any order. *)
Inductive reachable : Routes St -> Prop :=
  | reach_fresh ttl rv : reachable (fresh_routes ttl None rv)
  | reach_restored now ttl st rv s :
      rows_wf (rows st) ->
      RestoreTerminalSessionRoutes now (fresh_routes ttl (Some st) rv) = (Ok tt, s) -> reachable s
  | reach_step op s : reachable s -> reachable (run_route_op op s).

(** A restore of a table that has routes changes nothing but expired rows; of
    an empty one that holds no rows either, nothing. *)
Lemma restore_step now s : step_ok s (RestoreTerminalSessionRoutes now s).2.
Proof.
  apply step_ok_assume. intros Hok. unfold RestoreTerminalSessionRoutes.
  destruct (terminalRouteStore s) as [st|] eqn:Est; [|done].
  destruct (store_delete_expired now st) as [x st1] eqn:Ed.
  assert (call_store 0 (store_delete_expired now) s = (x, with_store (Some st1) s)) as Hk
    by (unfold call_store; by rewrite Est, Ed).
  apply call_delete_expired in Hk.
  destruct x as [z|e]; [|by eapply shrunk_ok, store_kept_shrunk].
  destruct (store_load now st1) as [y st2] eqn:El. pose proof (load_rows now st1) as Hl. rewrite El in Hl. cbn in Hl.
  assert (shrunk s (with_store (Some st2) s)) as Hs.
  { apply store_kept_shrunk in Hk as [_ Hk]. split; [eauto|]. intros sid row. unfold row_at. cbn. rewrite Hl. apply Hk. }
  destruct y as [l|e]; [|by eapply shrunk_ok]. destruct (foldl _ _ l) as [[routes idx]|e] eqn:Ef; [|by eapply shrunk_ok].
  case_match eqn:Einit; [by eapply shrunk_ok|]. cbn in Einit. bool_prop.
  apply load_ok in El as [_ El]. destruct l as [|[sid row] l].
  - cbn in Ef. simplify_eq. cbn. etrans; [by eapply shrunk_ok|]. apply same_fields_ok; by cbn.
  - exfalso. destruct (proj1 (El sid row)) as [Hrow _]; [by left|]. destruct Hs as [_ Hs].
    assert (row_at s sid = Some row) as Hat by (apply Hs; unfold row_at; cbn; by rewrite Hl).
    destruct (ok_rows _ Hok _ _ Hat) as (_&r&Hr&_). 
    match goal with E : terminalSessionToNode s = ∅ |- _ => by rewrite E, lookup_empty in Hr end.
Qed.

Lemma run_route_op_step op s : step_ok s (run_route_op op s).
Proof.
  destruct op; cbn [run_route_op]; auto using restore_step, reserve_step, claim_step, confirm_step, touch_step,
    commit_step, snapshot_step, begin_recovery_step, mark_step, apply_report_step, clear_reservation_step,
    clear_step, delete_by_node_step, prune_step, maybe_prune_step, list_step, get_step, delete_session_step.
Qed.

Lemma reachable_ok s : reachable s -> routes_ok s.
Proof.
  induction 1 as [ttl rv|now ttl st rv s Hwf Hr|op s _ IH].
  - split; cbn; [|done..]. intros nid sid. unfold index_of. cbn. set_solver.
  - pose proof (restore_cases now ttl st rv Hwf) as Hc. rewrite Hr in Hc. by destruct Hc as (_&?&_).
  - by apply run_route_op_step.
Qed.

Lemma reachable_rows_wf s st : reachable s -> terminalRouteStore s = Some st -> rows_wf (rows st).
Proof.
  intros Hok%reachable_ok Hst sid row Hrow.
  assert (row_at s sid = Some row) as Hat by (unfold row_at; by rewrite Hst).
  destruct (ok_rows _ Hok _ _ Hat) as (Hpos&r&Hr&_&Hn&_).
  destruct (ok_route _ Hok _ _ Hr) as (?&_&Ht&Hne&_). by rewrite <- Hn.
Qed.

(** C1: In every reachable state of the route table the per-worker
    index holds exactly the sessions routed to each worker and no empty sets,
    a provisional route has no lease, and every persisted row belongs to a
    confirmed route on the same worker with the same lease. *)
Theorem reachable_routes_consistent s :
  reachable s ->
  (forall nid sid, sid ∈ index_of s nid <-> exists r, terminalSessionToNode s !! sid = Some r /\ NodeID r = nid) /\
  (forall nid set, terminalNodeToSessionIDIndex s !! nid = Some set -> set <> ∅) /\
  (forall sid r, terminalSessionToNode s !! sid = Some r -> ReservationID r <> 0 -> LeaseExpiresUnixMs r = 0) /\
  (forall sid row, row_at s sid = Some row ->
     exists r, terminalSessionToNode s !! sid = Some r /\ ReservationID r = 0 /\
       NodeID r = r_NodeID row /\ LeaseExpiresUnixMs r = r_LeaseExpiresUnixMs row).
Proof.
  intros Hok%reachable_ok. split_and!.
  - apply (ok_index _ Hok).
  - apply (ok_index_nonempty _ Hok).
  - intros sid r Hr Hne. destruct (ok_route _ Hok _ _ Hr) as (_&_&_&_&Hp). by destruct (Hp Hne).
  - intros sid row Hrow. by destruct (ok_rows _ Hok _ _ Hrow).
Qed.

(** C2: No operation moves a session to another worker: after it the
    session is on the same worker or has been removed, and a removed session's
    proxy routes have been revoked. *)
Theorem sessions_stay_or_are_revoked op s sid r log :
  reachable s -> terminalSessionToNode s !! sid = Some r -> revoked s = Some log ->
  let s' := run_route_op op s in
  exists new, revoked s' = Some (log ++ new) /\
    ((exists r', terminalSessionToNode s' !! sid = Some r' /\ NodeID r' = NodeID r) \/ sid ∈ new).
Proof.
  intros Hok%reachable_ok Hr Hlog s'. destruct (run_route_op_step op s Hok) as [_ (new&Hn&Hev)].
  exists new. rewrite Hlog in Hn. split; [done|]. by apply Hev.
Qed.

(** C25: After a restart, restoring from the database brings back
    exactly the persisted sessions whose lease has not expired, each on the
    worker and with the lease it had, unavailable until that worker
    reconnects; a restore that fails installs nothing, and fails only because
    the store fails or a persisted session id is malformed. *)
Theorem restart_restores_confirmed_sessions now ttl rv s st :
  reachable s -> terminalRouteStore s = Some st ->
  match RestoreTerminalSessionRoutes now (fresh_routes ttl (Some st) rv) with
  | (Ok _, s') =>
      (forall sid, terminalSessionToNode s' !! sid =
         (row_at s sid ≫= fun row => if r_LeaseExpiresUnixMs row <=? now then None else Some (restored_route row))) /\
      (forall sid r', terminalSessionToNode s' !! sid = Some r' ->
         exists r, terminalSessionToNode s !! sid = Some r /\ ReservationID r = 0 /\ NodeID r' = NodeID r /\
           LeaseExpiresUnixMs r' = LeaseExpiresUnixMs r /\ now < LeaseExpiresUnixMs r /\
           RecoveryState r' = terminalSessionRecoveryUnavailable)
  | (Err e, s') => terminalSessionToNode s' = ∅ /\
      ((exists st' e', store_delete_expired now st = (Err e', st')) \/
       (exists st1 st2 z e', store_delete_expired now st = (Ok z, st1) /\ store_load now st1 = (Err e', st2)) \/
       (exists sid r, terminalSessionToNode s !! sid = Some r /\ isValidPersistedTerminalSessionID sid = false))
  end.
Proof.
  intros Hs Hst. pose proof (reachable_ok _ Hs) as Hok.
  assert (forall sid, row_at s sid = rows st !! sid) as Hat by (intros; unfold row_at; by rewrite Hst).
  pose proof (restore_cases now ttl st rv (reachable_rows_wf _ _ Hs Hst)) as Hc. cbv zeta in Hc.
  destruct (RestoreTerminalSessionRoutes _ _) as [[[]|e] s'].
  - destruct Hc as (_&_&Hr&_).
    assert (forall sid, terminalSessionToNode s' !! sid = (row_at s sid ≫= fun row =>
      if r_LeaseExpiresUnixMs row <=? now then None else Some (restored_route row))) as Heq.
    { intros sid. rewrite Hr, lookup_fmap, lookup_keep, Hat. destruct (rows st !! sid); cbn; [by case_match|done]. }
    split; [done|]. intros sid r'. rewrite Heq. destruct (row_at s sid) as [row|] eqn:Erow; cbn; [|done].
    case_match eqn:Ee; [done|]. bool_prop. intros [= <-].
    destruct (ok_rows _ Hok _ _ Erow) as (_&r&Hr'&Hres&Hn&Hl).
    destruct (ok_route _ Hok _ _ Hr') as (_&_&Ht&_). exists r. cbn. rewrite <- Hn, Ht, Hl. done.
  - destruct Hc as (He&[Hc|[Hc|(sid&row&Hrow&Hv)]]); split; auto. right; right. exists sid.
    apply lookup_keep_Some in Hrow as [Hrow _]. rewrite <- Hat in Hrow.
    destruct (ok_rows _ Hok _ _ Hrow) as (_&r&Hr&_). eauto.
Qed.

(** A successful commit leaves the session confirmed and ready on
    its worker with a lease that is the larger of the old and the new one, and
    (with a store) a persisted row with that worker and that lease; any other
    outcome, in particular a failure to persist, leaves the table and the rows
    as they were. *)
Theorem commit_persists_before_confirming x n id lease now s :
  reachable s ->
  let '(y, s') := commitConfirmedTerminalSessionRoute x n id lease now s in
  match y with
  | Ok true => exists r, terminalSessionToNode s !! trim x = Some r /\ owns_route (trim n) id r = true /\
      terminalSessionToNode s' = <[trim x := committed id lease now r]> (terminalSessionToNode s) /\
      (terminalRouteStore s <> None -> exists row, row_at s' (trim x) = Some row /\
         r_NodeID row = NodeID r /\ r_LeaseExpiresUnixMs row = Z.max (LeaseExpiresUnixMs r) lease)
  | _ => terminalSessionToNode s' = terminalSessionToNode s /\ forall sid, row_at s' sid = row_at s sid
  end.
Proof.
  intros Hok%reachable_ok. pose proof (commit_cases x n id lease now s) as Hc. cbv zeta in Hc.
  pose proof (commit_step x n id lease now s Hok) as [Hok' _].
  destruct (commitConfirmedTerminalSessionRoute x n id lease now s) as [y s']. cbn [snd] in Hok'.
  destruct Hc as [[-> Hy]|(r&Hr&Ho&_&_&_&[(st&e&st'&Est&->&Eu&->)|[(->&Est&->)|(st&st'&a&->&Est&Eu&->)]])].
  - by destruct y as [[]|].
  - split; [done|]. intros sid. unfold row_at. cbn. rewrite Est. cbn. by rewrite (upsert_err _ _ _ _ _ Eu).
  - exists r. by rewrite Est.
  - exists r. split_and!; [done..|]. intros _.
    apply upsert_ok in Eu as (_&_&Hrows). rewrite trim_trim in Hrows.
    assert (exists row, row_at (put (trim x) (committed id lease now r) (with_store (Some st') s)) (trim x) = Some row)
      as [row Hrow] by (unfold row_at; cbn; rewrite Hrows, lookup_insert_eq; eauto).
    exists row. split; [done|]. destruct (ok_rows _ Hok' _ _ Hrow) as (_&r'&Hr'&_&Hn&Hl).
    cbn in Hr'. rewrite lookup_insert_eq in Hr'. injection Hr' as <-. by rewrite <- Hn, <- Hl.
Qed.

(** ** Reservations *)
Lemma next_reservation_nonzero seq : next_reservation seq <> 0.
Proof. unfold next_reservation. destruct (Z.eqb_spec (u64 (seq + 1)) 0) as [->|]; done. Qed.

(** [k] further requests for the session while it is provisional. *)
Fixpoint claims (k : nat) (x : string) (now : Z) s : list (option (string * Z)) * Routes St :=
  match k with
  | O => ([], s)
  | S k => let '(a, s) := claimTerminalSessionRoute x now s in
           let '(l, s) := claims k x now s in (a :: l, s)
  end.

Fixpoint releases (k : nat) (x n : string) (id : Z) s : list routeReservationReleaseResult * Routes St :=
  match k with
  | O => ([], s)
  | S k => let '(a, s) := clearTerminalSessionRouteReservation x n id s in
           let '(l, s) := releases k x n id s in (a :: l, s)
  end.

Lemma claims_spec k x now s r :
  trim x <> "" -> terminalSessionToNode s !! trim x = Some r -> trim (NodeID r) <> "" -> ReservationID r <> 0 ->
  0 < ProvisionalUses r -> ProvisionalUses r + Z.of_nat k < 2 ^ 64 ->
  let '(l, s') := claims k x now s in
  l = replicate k (Some (NodeID r, ReservationID r)) /\
  exists r', terminalSessionToNode s' !! trim x = Some r' /\ NodeID r' = NodeID r /\ ReservationID r' = ReservationID r /\
    ProvisionalUses r' = ProvisionalUses r + Z.of_nat k.
Proof.
  intros Hx. revert s r. induction k as [|k IH]; intros s r Hr Hn Hres Hpos Hlt; cbn [claims replicate].
  { split; [done|]. exists r. split_and!; [done..|lia]. }
  unfold claimTerminalSessionRoute. rewrite (bool_decide_false (trim x = "")), Hr by done.
  rewrite bool_decide_false by done. unfold join_route. cbn [ReservationID set_last_used].
  rewrite (proj2 (Z.eqb_neq _ _) Hres). cbn [set_uses set_reservation ReservationID ConfirmedReservationID ProvisionalUses NodeID].
  set (r1 := set_uses _ _). specialize (IH (put (trim x) r1 s) r1).
  destruct (claims k x now _) as [l s']. destruct IH as [-> (r'&Hr'&?&?&Hu)];
    [cbn; by rewrite lookup_insert_eq|done|done|cbn; rewrite u64_id; lia|cbn; rewrite u64_id; lia|].
  split; [done|]. exists r'. split_and!; [done..|]. rewrite Hu. cbn. rewrite u64_id; lia.
Qed.

Lemma releases_spec k x n id s r :
  id <> 0 -> trim x <> "" -> terminalSessionToNode s !! trim x = Some r -> NodeID r = trim n -> trim n <> "" ->
  ReservationID r = id -> ProvisionalUses r = Z.of_nat (S k) ->
  let '(l, s') := releases (S k) x n id s in
  l = replicate k routeReservationStillInUse ++ [routeReservationRemoved] /\
  terminalSessionToNode s' !! trim x = None.
Proof.
  intros Hid Hx. revert s r. induction k as [|k IH]; intros s r Hr Hn Hne Hres Hu; cbn [releases replicate app].
  - unfold clearTerminalSessionRouteReservation.
    rewrite (proj2 (Z.eqb_neq _ _) Hid), !(bool_decide_false (trim _ = "")), Hr by done.
    rewrite bool_decide_true, Hres, Z.eqb_refl, Hu by done. cbn. split; [done|]. apply lookup_delete_eq.
  - unfold clearTerminalSessionRouteReservation at 1.
    rewrite (proj2 (Z.eqb_neq _ _) Hid), !(bool_decide_false (trim _ = "")), Hr by done.
    rewrite bool_decide_true, Hres, Z.eqb_refl by done. cbn [negb orb].
    rewrite (proj2 (Z.ltb_lt 1 _)) by lia.
    set (r1 := set_uses (ProvisionalUses r - 1) r). specialize (IH (put (trim x) r1 s) r1).
    cbn [releases] in IH. destruct (clearTerminalSessionRouteReservation x n id (put (trim x) r1 s)) as [a s1].
    destruct (releases k x n id s1) as [l s']. destruct IH as [E ?]; [cbn; by rewrite lookup_insert_eq|done|done|done|cbn; lia|].
    by rewrite E.
Qed.

(** The first request for an unknown session reserves it with a
    fresh non-zero id; requests that arrive meanwhile are given the same
    worker and the same reservation; and the reservation survives until as
    many releases as uses, the last of which removes the session. *)
Theorem reservation_shared_until_last_release x n now k s :
  trim x <> "" -> trim n <> "" -> terminalSessionToNode s !! trim x = None -> Z.of_nat k < 2 ^ 64 - 1 ->
  let '((nid, id), s1) := reserveTerminalSessionRoute x n now s in
  let '(cs, s2) := claims k x now s1 in
  let '(rs, s3) := releases (S k) x n id s2 in
  nid = trim n /\ id <> 0 /\ cs = replicate k (Some (nid, id)) /\
  rs = replicate k routeReservationStillInUse ++ [routeReservationRemoved] /\
  terminalSessionToNode s3 !! trim x = None.
Proof.
  intros Hx Hn Hnone Hk. unfold reserveTerminalSessionRoute.
  rewrite !(bool_decide_false (trim _ = "")), Hnone by done. cbn [orb].
  pose proof (next_reservation_nonzero (terminalRouteReservationSeq s)) as Hid.
  set (id := next_reservation _) in *. set (r := mkRoute _ _ _ _ _ _ _ _). set (s1 := with_index _ _).
  assert (terminalSessionToNode s1 !! trim x = Some r) as Hr by (cbn; by rewrite lookup_insert_eq).
  pose proof (claims_spec k x now s1 r Hx Hr) as Hc.
  destruct (claims k x now s1) as [cs s2]. destruct Hc as [-> (r'&Hr'&Hn'&Hres'&Hu')];
    [cbn; by rewrite trim_trim|done|by cbn|cbn; lia|].
  pose proof (releases_spec k x n id s2 r' Hid Hx Hr' Hn' Hn Hres') as Hrel.
  destruct (releases (S k) x n id s2) as [rs s3]. destruct Hrel as [-> Hgone]; [rewrite Hu'; cbn [ProvisionalUses r]; lia|].
  done.
Qed.

(** Did the store delete its expired rows (or is there no store)? *)
Definition store_pruned (now : Z) s : bool :=
  match terminalRouteStore s with None => true | Some st => is_ok (store_delete_expired now st).1 end.

Lemma prune_exact now s :
  let '(n, s') := PruneExpiredTerminalSessionRoutes now s in
  let gone r := prunable (store_pruned now s) (terminalRouteTTL s) now r in
  terminalSessionToNode s' = keep (fun _ r => gone r) (terminalSessionToNode s) /\
  n = count (fun _ r => gone r) (terminalSessionToNode s).
Proof.
  unfold PruneExpiredTerminalSessionRoutes. destruct (call_store _ _ _) as [x s1] eqn:Ec.
  assert (is_ok x = store_pruned now s) as <-.
  { unfold call_store in Ec. unfold store_pruned. destruct (terminalRouteStore s) as [st|]; [|by simplify_eq].
    destruct (store_delete_expired now st). by simplify_eq. }
  apply call_delete_expired, store_kept_routes in Ec as (Hr&_&Httl&_). rewrite <- Hr, <- Httl.
  pose proof (prune_fold (is_ok x) now (map_to_list (terminalSessionToNode s1)) 0 s1) as Hp. cbv zeta in Hp.
  destruct (foldl _ _ _) as [n s']. destruct Hp as (Hn&_&Hin&Hout&_). split; [|by rewrite count_list, Hn].
  apply map_eq. intros sid. rewrite lookup_keep. destruct (terminalSessionToNode s1 !! sid) as [r|] eqn:Er; cbn.
  - destruct (prunable _ _ _ r) eqn:Ep; [eapply Hin; [by apply elem_of_map_to_list|done]|].
    rewrite Hout; [done|]. intros r' Hr'%elem_of_map_to_list. cbn. by simplify_eq.
  - rewrite Hout; [done|]. intros r' Hr'%elem_of_map_to_list. by simplify_eq.
Qed.

(** A prune removes exactly the routes that are due and counts
    them: a leased route whose lease has passed, provided the store could
    delete its rows, and an unleased route unused for the configured time;
    when the store did, no expired row remains. *)
Theorem prune_removes_exactly_expired_routes now s :
  let '(n, s') := PruneExpiredTerminalSessionRoutes now s in
  let ttl := terminalRouteTTL s in
  n = count (fun _ r => prunable (store_pruned now s) ttl now r) (terminalSessionToNode s) /\
  (forall sid r, terminalSessionToNode s !! sid = Some r ->
     terminalSessionToNode s' !! sid =
     if 0 <? LeaseExpiresUnixMs r
     then (if (LeaseExpiresUnixMs r <=? now) && store_pruned now s then None else Some r)
     else (if (0 <? ttl) && (LastUsedUnixMs r <=? i64 (now - milliseconds ttl)) then None else Some r)) /\
  (forall sid, terminalSessionToNode s !! sid = None -> terminalSessionToNode s' !! sid = None) /\
  (store_pruned now s = true -> forall sid row, row_at s' sid = Some row -> now < r_LeaseExpiresUnixMs row).
Proof.
  pose proof (prune_exact now s) as Hp.
  assert (store_pruned now s = true -> forall sid row,
    row_at (PruneExpiredTerminalSessionRoutes now s).2 sid = Some row -> now < r_LeaseExpiresUnixMs row) as Hrows.
  { intros Hst sid row. unfold PruneExpiredTerminalSessionRoutes. destruct (call_store _ _ _) as [x s1] eqn:Ec.
    pose proof (prune_fold (is_ok x) now (map_to_list (terminalSessionToNode s1)) 0 s1) as Hf. cbv zeta in Hf.
    destruct (foldl _ _ _) as [n s']. destruct Hf as (_&Est&_). unfold row_at. cbn [snd]. rewrite Est.
    change (row_at s1 sid = Some row -> now < r_LeaseExpiresUnixMs row).
    assert (exists z, x = Ok z) as [z ->].
    { unfold call_store in Ec. unfold store_pruned in Hst. destruct (terminalRouteStore s) as [st|]; [|simplify_eq; eauto].
      destruct (store_delete_expired now st) as [[z|e] st']; simplify_eq; eauto. }
    apply call_delete_expired in Ec. intros Hrow. pose proof (store_kept_gone _ _ _ _ _ _ Ec Hrow) as Hg. cbn in Hg. by bool_prop. }
  destruct (PruneExpiredTerminalSessionRoutes now s) as [n s']. destruct Hp as [Hr ->]. split_and!; [done| | |done].
  - intros sid r Er. rewrite Hr, lookup_keep, Er. cbn. unfold prunable. by destruct (0 <? LeaseExpiresUnixMs r).
  - intros sid Er. by rewrite Hr, lookup_keep, Er.
Qed.

(** ** The owner's view *)

Lemma active_not_pruned now s sid r :
  0 <= now -> now < LeaseExpiresUnixMs r ->
  terminalSessionToNode (maybePruneTerminalSessionRoutes now s) !! sid = Some r <->
  terminalSessionToNode s !! sid = Some r.
Proof.
  intros Hnow Hl. unfold maybePruneTerminalSessionRoutes. case_match; [done|].
  pose proof (prune_exact now (with_last_prune now s)) as Hp. destruct (PruneExpiredTerminalSessionRoutes _ _) as [n s'].
  cbn [snd]. destruct Hp as [-> _]. rewrite lookup_keep_Some. cbn [snd terminalSessionToNode with_last_prune].
  split; [tauto|]. intros Hr. split; [done|]. unfold prunable.
  rewrite (proj2 (Z.ltb_lt 0 _)), (proj2 (Z.leb_gt _ _)) by lia. done.
Qed.

(** Listing an owner's sessions shows exactly that owner's confirmed
    sessions with an unexpired lease, each as its route says, and no session
    of anybody else; an empty owner (the administrator) sees all of them. *)
Theorem listed_sessions_are_the_owners o now s v :
  0 <= now ->
  v ∈ (ListTerminalSessions o now s).1 <->
  exists sid r account ext,
    terminalSessionToNode s !! sid = Some r /\ ReservationID r = 0 /\ now < LeaseExpiresUnixMs r /\
    parseScopedTerminalSessionID sid = Some (account, ext) /\ (trim o = "" \/ account = trim o) /\
    v = terminalSessionViewFromRoute account ext r.
Proof.
  intros Hnow. unfold ListTerminalSessions. cbn [fst]. rewrite elem_of_order_by, list_elem_of_omap.
  unfold owner_view, normalizeTaskOwnerID, isConfirmedActiveTerminalSessionRoute, lease_expired. split.
  - intros ([sid r]&Hin%elem_of_map_to_list&Hv). repeat case_match; simplify_eq. bool_prop. subst.
    eexists sid, r, _, _. split_and!; [by eapply active_not_pruned|done|done|done| |done].
    destruct (decide (trim o = "")); [by left|right].
    apply dec_stable. intros Hne.
    match goal with E : negb (bool_decide _) && negb _ = false |- _ => by rewrite !bool_decide_false in E by done end.
  - intros (sid&r&a&e&Hr&Hres&Hl&Hp&Ho&->). exists (sid, r).
    split; [by apply elem_of_map_to_list, active_not_pruned|].
    rewrite Hp, Hres, (proj2 (Z.leb_gt _ _)), (proj2 (Z.ltb_lt now _)), andb_false_r by lia. cbn [negb andb].
    replace (0 =? 0) with true by done. cbn [negb andb].
    destruct Ho as [-> | ->]; [by rewrite (bool_decide_true ("" = ""))|].
    by rewrite (bool_decide_true (trim o = trim o)), andb_false_r.
Qed.

(** Only the session an operation names changes. *)
Definition only_changes sid s s' : Prop :=
  forall sid', sid' <> sid ->
    terminalSessionToNode s' !! sid' = terminalSessionToNode s !! sid' /\ row_at s' sid' = row_at s sid'.

Lemma delete_row_only {A} x n (y : res A) s s' :
  store_kept (same_ref (x, n)) y s s' -> only_changes (trim x) s s'.
Proof.
  intros Hk sid Hne. pose proof (store_kept_routes _ _ _ _ Hk) as (Hr&_). split; [by rewrite Hr|].
  destruct Hk as [_ ->]. destruct (is_ok y); [|done]. destruct (row_at s sid) as [row|]; cbn; [|done].
  unfold same_ref. cbn. by rewrite bool_decide_false.
Qed.

Lemma remove_only sid r s s' : only_changes sid s s' -> only_changes sid s (deleteTerminalSessionRouteLocked sid r s').
Proof.
  intros Hs sid' Hne. destruct (Hs sid' Hne) as [<- <-]. split; [|done]. cbn. by apply lookup_delete_ne.
Qed.

Lemma snapshot_only x now s :
  let '(y, s') := terminalSessionRouteSnapshot x now s in
  only_changes (trim x) s s' /\ forall r, y = Some r -> s' = s /\ terminalSessionToNode s !! trim x = Some r.
Proof.
  unfold terminalSessionRouteSnapshot. destruct (bool_decide (trim x = "")); [done|].
  destruct (terminalSessionToNode s !! trim x) as [r|] eqn:Er; [|done].
  destruct (_ && _); [|split; [done|]; by intros ? [= <-]].
  destruct (call_store _ _ _) as [[b|e] s1] eqn:Ec; apply call_delete, delete_row_only in Ec; rewrite trim_trim in Ec.
  - split; [by apply remove_only|done].
  - done.
Qed.

Lemma clear_only x n s :
  let '(y, s') := clearTerminalSessionRoute x n s in
  only_changes (trim x) s s' /\
  (y = Ok tt -> trim x <> "" -> forall r, terminalSessionToNode s !! trim x = Some r -> NodeID r = trim n ->
     terminalSessionToNode s' !! trim x = None).
Proof.
  unfold clearTerminalSessionRoute. destruct (decide (trim x = "")) as [Ex|Ex];
    [by rewrite bool_decide_true|rewrite bool_decide_false by done].
  destruct (terminalSessionToNode s !! trim x) as [r|] eqn:Er; [|done].
  destruct (negb _ && negb _) eqn:Eg.
  { split; [done|]. intros _ _ r' [= <-] Hn. bool_prop. done. }
  destruct (0 <? LeaseExpiresUnixMs r).
  - destruct (call_store _ _ _) as [[b|e] s1] eqn:Ec; apply call_delete, delete_row_only in Ec; rewrite trim_trim in Ec.
    + split; [by apply remove_only|]. intros. apply lookup_delete_eq.
    + done.
  - split; [by apply remove_only|]. intros. apply lookup_delete_eq.
Qed.

(** Deleting a session of one owner leaves the routes and
    the persisted rows of every other session as they were, whatever the
    outcome; when it reports success the session and its row are gone. *)
Theorem delete_session_touches_only_that_session o x now s :
  reachable s ->
  let '(y, s') := DeleteTerminalSession o x now s in
  only_changes (scopeTerminalSessionID o x) s s' /\
  (y = Ok true -> terminalSessionToNode s' !! scopeTerminalSessionID o x = None /\
                  row_at s' (scopeTerminalSessionID o x) = None).
Proof.
  intros Hs%reachable_ok. destruct (delete_session_step o x now s Hs) as [Hok' _]. revert Hok'.
  unfold DeleteTerminalSession, normalizeTaskOwnerID. destruct (bool_decide _ || bool_decide _) eqn:Eg; [done|].
  bool_prop. rewrite scope_trim. set (sc := scopeTerminalSessionID o x).
  assert (trim sc = sc /\ sc <> "") as [Ht Hne] by (split; [by apply trim_scope|by apply scope_nonempty]).
  pose proof (snapshot_only sc now s) as Hsnap. destruct (terminalSessionRouteSnapshot sc now s) as [[r|] s1];
    rewrite Ht in Hsnap; destruct Hsnap as [Ho Hr]; [|done].
  destruct (Hr r eq_refl) as [-> Er]. destruct (negb _); [done|]. pose proof (clear_only sc (NodeID r) s) as Hc.
  destruct (clearTerminalSessionRoute sc (NodeID r) s) as [[[]|e] s2]; rewrite Ht in Hc; destruct Hc as [Hoc Hgone]; [|done].
  cbn [snd]. intros Hok'. split; [done|]. intros _.
  assert (terminalSessionToNode s2 !! sc = None) as Hn.
  { eapply Hgone; [done..|]. by destruct (ok_route _ Hs _ _ Er) as (_&_&->&_). }
  split; [done|]. destruct (row_at s2 sc) as [row|] eqn:Erow; [|done].
  destruct (ok_rows _ Hok' _ _ Erow) as (_&r'&Hr'&_). congruence.
Qed.

(** ** Recovery of a reconnecting worker *)

Lemma delete_refs_other refs s sid :
  (forall ref, ref ∈ refs -> ref.1 <> sid) ->
  terminalSessionToNode (foldl delete_ref s refs) !! sid = terminalSessionToNode s !! sid.
Proof.
  revert s. induction refs as [|ref refs IH]; intros s Hne; cbn; [done|].
  rewrite IH; [|intros ref' Hin; apply Hne; by right].
  unfold delete_ref. repeat case_match; try done. cbn. apply lookup_delete_ne. apply Hne. by left.
Qed.

Lemma reconcile_other nid cs s sid :
  (forall c, c ∈ cs -> cand_SessionId c <> sid) ->
  terminalSessionToNode (foldl (reconcile nid) s cs) !! sid = terminalSessionToNode s !! sid.
Proof.
  revert s. induction cs as [|c cs IH]; intros s Hne; cbn; [done|].
  rewrite IH; [|intros c' Hin; apply Hne; by right].
  unfold reconcile. repeat case_match; try done. cbn. apply lookup_insert_ne. apply Hne. by left.
Qed.

Lemma reconcile_fold nid cs s c r :
  NoDup (cand_SessionId <$> cs) -> c ∈ cs ->
  terminalSessionToNode s !! cand_SessionId c = Some r -> NodeID r = nid ->
  terminalSessionToNode (foldl (reconcile nid) s cs) !! cand_SessionId c =
  Some (set_recovery terminalSessionRecoveryReconciling (set_lease (cand_LeaseExpiresUnixMs c) r)).
Proof.
  revert s. induction cs as [|c0 cs IH]; intros s Hnd Hin Hr Hn; [by apply elem_of_nil in Hin|].
  cbn in Hnd. apply NoDup_cons in Hnd as [Hni Hnd]. cbn [foldl].
  destruct (decide (cand_SessionId c0 = cand_SessionId c)) as [Eq|Hne].
  - assert (c = c0) as ->.
    { apply elem_of_cons in Hin as [|Hin]; [done|]. destruct Hni. rewrite Eq. by apply list_elem_of_fmap_2. }
    rewrite reconcile_other.
    + unfold reconcile. rewrite Hr, bool_decide_true by done. cbn. by rewrite lookup_insert_eq.
    + intros c' Hin' E'. destruct Hni. rewrite <- E'. by apply list_elem_of_fmap_2.
  - apply elem_of_cons in Hin as [->|Hin]; [done|]. apply IH; [done..| |done].
    unfold reconcile. repeat case_match; try done. cbn. by rewrite lookup_insert_ne.
Qed.

Lemma elem_of_candidates now nid s sid lease :
  routes_ok s ->
  mkCandidate sid lease ∈ omap (candidate_of now nid s) (elements (index_of s nid)) <->
  exists r, terminalSessionToNode s !! sid = Some r /\ NodeID r = nid /\ ReservationID r = 0 /\
    lease = recovery_lease s r /\ now < lease.
Proof.
  intros Hok. rewrite list_elem_of_omap. unfold candidate_of. split.
  - intros (sid'&_&Hc). repeat case_match; simplify_eq. bool_prop. eauto 10.
  - intros (r&Hr&Hnode&Hres&->&Hl). exists sid. rewrite elem_of_elements, (ok_index _ Hok). split; [eauto|].
    rewrite Hr, bool_decide_true, Hres, (proj2 (Z.ltb_lt _ _)) by done. done.
Qed.

Lemma candidates_not_expired now nid s (l : list string) c (ref : TerminalSessionRouteRef) :
  c ∈ omap (candidate_of now nid s) l -> ref ∈ omap (expired_of now nid s) l -> ref.1 <> cand_SessionId c.
Proof.
  intros (sid&_&Hc)%list_elem_of_omap (sid'&_&He)%list_elem_of_omap. unfold candidate_of in Hc. unfold expired_of in He.
  repeat case_match; simplify_eq. bool_prop. cbn. intros ->. simplify_eq.
  repeat match goal with E : (_ || _) = true |- _ => apply orb_true_iff in E as [?|?] end; bool_prop; [done|lia].
Qed.

Lemma candidate_of_sid now nid s sid c : candidate_of now nid s sid = Some c -> cand_SessionId c = sid.
Proof. unfold candidate_of. intros. repeat case_match; by simplify_eq. Qed.

Lemma candidates_NoDup now nid s (l : list string) :
  NoDup l -> NoDup (cand_SessionId <$> omap (candidate_of now nid s) l) /\
  forall c, c ∈ omap (candidate_of now nid s) l -> cand_SessionId c ∈ l.
Proof.
  induction l as [|sid l IH]; intros Hnd; [by split; [apply NoDup_nil_2|intros ? ?%elem_of_nil]|].
  apply NoDup_cons in Hnd as [Hni Hnd]. destruct (IH Hnd) as [IH1 IH2]. cbn.
  destruct (candidate_of now nid s sid) as [c|] eqn:Ec; [|split; [done|]; intros c Hc; right; by apply IH2].
  apply candidate_of_sid in Ec as Hsid. split.
  - cbn. apply NoDup_cons. split; [|done]. rewrite Hsid. intros (c'&Hc'&Hin)%list_elem_of_fmap.
    apply Hni. rewrite Hc'. by apply IH2.
  - intros c' [->|Hin]%elem_of_cons; [rewrite Hsid; by left|right; by apply IH2].
Qed.

(** When a worker reconnects it is asked to recover exactly
    its confirmed sessions whose lease (or, without a lease, whose idle time)
    has not run out, each with that lease, and they are held as reconciling
    meanwhile; if expired rows could not be deleted nothing changes. *)
Theorem recovery_candidates_exact n now s :
  reachable s -> trim n <> "" ->
  let '(y, s') := beginTerminalSessionRecoveryWithError n now s in
  match y with
  | Err _ => terminalSessionToNode s' = terminalSessionToNode s
  | Ok cs => forall sid lease,
      (mkCandidate sid lease ∈ cs <-> exists r, terminalSessionToNode s !! sid = Some r /\ NodeID r = trim n /\
         ReservationID r = 0 /\ lease = recovery_lease s r /\ now < lease) /\
      (mkCandidate sid lease ∈ cs -> exists r', terminalSessionToNode s' !! sid = Some r' /\ NodeID r' = trim n /\
         RecoveryState r' = terminalSessionRecoveryReconciling /\ LeaseExpiresUnixMs r' = lease)
  end.
Proof.
  intros Hok%reachable_ok Hn. unfold beginTerminalSessionRecoveryWithError. rewrite bool_decide_false by done.
  rewrite classify_fold. cbn [app].
  pose proof (fun sid lease => elem_of_candidates now (trim n) s sid lease Hok) as Hcs.
  pose proof (candidates_not_expired now (trim n) s (elements (index_of s (trim n)))) as Hdisj.
  destruct (candidates_NoDup now (trim n) s _ (NoDup_elements (index_of s (trim n)))) as [Hnd _].
  set (cs := omap (candidate_of _ _ _) _) in *. set (ex := omap (expired_of _ _ _) _) in *.
  clearbody cs ex. destruct (match ex with [] => _ | _ => _ end) as [y s1] eqn:Ec. apply call_delete_refs in Ec.
  pose proof (store_kept_routes _ _ _ _ Ec) as (Hr1&_). destruct y as [[]|e]; [|done].
  intros sid lease. rewrite elem_of_order_by. split; [apply Hcs|]. intros Hin.
  destruct (proj1 (Hcs _ _) Hin) as (r&Hr&Hnode&_).
  exists (set_recovery terminalSessionRecoveryReconciling (set_lease lease r)). split; [|done].
  apply (reconcile_fold (trim n) cs _ (mkCandidate sid lease) r); [done..| |done].
  rewrite delete_refs_other; [by rewrite Hr1|]. intros ref Href. by apply (Hdisj _ _ Hin Href).
Qed.

(** *** The worker's report *)

Lemma collect_results_err cands e report : foldl (collect_result cands) (Err e) report = Err e.
Proof. by induction report as [|[] ? IH]. Qed.

(** The results collected so far name candidates, with known statuses. *)
Lemma collect_results cands report results0 results :
  (forall sid st, results0 !! sid = Some st -> is_Some (cands !! sid) /\ valid_status st = true) ->
  foldl (collect_result cands) (Ok results0) report = Ok results ->
  forall sid st, results !! sid = Some st -> is_Some (cands !! sid) /\ valid_status st = true.
Proof.
  revert results0. induction report as [|x report IH]; intros results0 Hres0; cbn [foldl]; [by intros [= <-]|].
  destruct x as [x|]; [|by apply IH]. cbn.
  destruct (cands !! trim (rr_SessionId x)) eqn:Ec; [|by rewrite collect_results_err].
  destruct (results0 !! trim (rr_SessionId x)); [by rewrite collect_results_err|].
  destruct (valid_status (rr_Status x)) eqn:Ev; cbn; [|by rewrite collect_results_err].
  apply IH. intros sid st. rewrite lookup_insert. case_decide; [subst|by apply Hres0]. intros [= <-]. by rewrite Ec.
Qed.

(** An accepted report covers exactly the candidates. *)
Lemma report_covers cands report results :
  report_results cands report = Ok results ->
  forall sid, is_Some (cands !! sid) <-> exists st, results !! sid = Some st /\ valid_status st = true.
Proof.
  unfold report_results. destruct (foldl _ _ _) as [results'|] eqn:Ef; [|done].
  case_match eqn:Es; [done|]. intros [= ->]. bool_prop.
  assert (forall sid st, results !! sid = Some st -> is_Some (cands !! sid) /\ valid_status st = true) as Hsub
    by (eapply collect_results; [|exact Ef]; by intros).
  assert (dom results = dom cands) as Hd.
  { apply set_subseteq_size_eq; [|rewrite !size_dom; lia].
    intros sid [st Hst]%elem_of_dom. apply elem_of_dom. by eapply Hsub. }
  intros sid. rewrite <- elem_of_dom, <- Hd, elem_of_dom. split; [intros [st Hst]|intros (st&->&_); eauto].
  exists st. split; [done|]. by eapply Hsub.
Qed.

Definition recovered_route (now : Z) r : terminalSessionRoute :=
  set_last_used now (set_recovery terminalSessionRecoveryReady r).

Lemma recover_fold now nid results l s sid :
  NoDup l.*1 -> (forall c r, c ∈ l -> terminalSessionToNode s !! c.1 = Some r -> NodeID r = nid) ->
  terminalSessionToNode (foldl (recover_one now nid results) s l) !! sid =
  match (list_to_map l : gmap string Z) !! sid with
  | None => terminalSessionToNode s !! sid
  | Some lease => if recovery_lost now results sid lease then None
                  else recovered_route now <$> terminalSessionToNode s !! sid
  end.
Proof.
  revert s. induction l as [|[k lease] l IH]; intros s Hnd Hn; [done|].
  cbn [fmap list_fmap fst] in Hnd. apply NoDup_cons in Hnd as [Hni Hnd]. cbn [foldl list_to_map foldr uncurry fst snd].
  assert (forall sid', sid' <> k -> terminalSessionToNode (recover_one now nid results s (k, lease)) !! sid' =
    terminalSessionToNode s !! sid') as Hother.
  { intros sid' Hne. unfold recover_one. cbn [fst snd].
    repeat case_match; cbn; by rewrite ?lookup_delete_ne, ?lookup_insert_ne by done. }
  rewrite IH; [|done|].
  - destruct (decide (k = sid)) as [->|Hne].
    + rewrite not_elem_of_list_to_map_1 by done. rewrite lookup_insert_eq. unfold recover_one. cbn [fst snd].
      destruct (terminalSessionToNode s !! sid) as [r|] eqn:Er; [|rewrite Er; by destruct (recovery_lost _ _ _ _)].
      rewrite bool_decide_true by (eapply (Hn (sid, lease)); [by left|done]). cbn [negb].
      destruct (recovery_lost now results sid lease); cbn; [apply lookup_delete_eq|by rewrite lookup_insert_eq].
    + rewrite lookup_insert_ne by done. by rewrite Hother.
  - intros c r Hc Hr. eapply (Hn c); [by right|]. rewrite <- Hother; [done|]. intros Eq.
    apply Hni. rewrite <- Eq. by apply list_elem_of_fmap_2.
Qed.

(** A report is applied only if it covers exactly the
    candidates with known statuses; then every candidate reported recovered
    before its lease ran out becomes ready, every other candidate is removed
    together with its row, and no other session changes.  A refused report, or
    one that could not be persisted, changes nothing. *)
Theorem recovery_report_applied cands nid report now s :
  reachable s ->
  let '(y, s') := applyTerminalSessionRecoveryReport cands nid report now s in
  match y with
  | Err _ => terminalSessionToNode s' = terminalSessionToNode s /\ forall sid, row_at s' sid = row_at s sid
  | Ok results =>
      (forall sid, is_Some (cands !! sid) <-> exists st, results !! sid = Some st /\ valid_status st = true) /\
      (forall sid, cands !! sid = None -> terminalSessionToNode s' !! sid = terminalSessionToNode s !! sid) /\
      (forall sid lease, cands !! sid = Some lease ->
         if bool_decide (results !! sid = Some RECOVERED) && negb ((0 <? lease) && (lease <=? now))
         then terminalSessionToNode s' !! sid = recovered_route now <$> terminalSessionToNode s !! sid
         else terminalSessionToNode s' !! sid = None /\ row_at s' sid = None)
  end.
Proof.
  intros Hok%reachable_ok. destruct (apply_report_step cands nid report now s Hok) as [Hok' _]. revert Hok'.
  unfold applyTerminalSessionRecoveryReport. destruct (report_results cands report) as [results|] eqn:Er; [|done].
  destruct (existsb _ _) eqn:Ex; [done|]. set (refs := recovery_refs _ _ _ _ _).
  destruct (match refs with [] => _ | _ => _ end) as [y s1] eqn:Ec. apply call_delete_refs in Ec.
  pose proof (store_kept_routes _ _ _ _ Ec) as (Hr1&_).
  destruct y as [[]|e]; [|intros _; split; [done|]; by destruct Ec as [_ Ec]].
  cbn [snd]. intros Hok'. pose proof (report_covers _ _ _ Er) as Hcov. split; [done|].
  assert (forall sid, terminalSessionToNode (foldl (recover_one now nid results) s1 (map_to_list cands)) !! sid =
    match cands !! sid with
    | None => terminalSessionToNode s !! sid
    | Some lease => if recovery_lost now results sid lease then None
                    else recovered_route now <$> terminalSessionToNode s !! sid
    end) as Hf.
  { intros sid. rewrite recover_fold, list_to_map_to_list, Hr1; [done|apply NoDup_fst_map_to_list|].
    intros c r Hc Hr. rewrite Hr1 in Hr. apply dec_stable. intros Hne.
    apply not_true_iff_false in Ex. apply Ex. apply existsb_exists. exists c. split; [by apply list_elem_of_In|].
    rewrite Hr. by rewrite bool_decide_false. }
  split; [intros sid Hs; by rewrite Hf, Hs|]. intros sid lease Hs. specialize (Hf sid). rewrite Hs in Hf.
  assert (recovery_lost now results sid lease =
    negb (bool_decide (results !! sid = Some RECOVERED) && negb ((0 <? lease) && (lease <=? now)))) as Elost.
  { unfold recovery_lost. rewrite negb_andb, negb_involutive. do 2 f_equal. apply bool_decide_ext.
    destruct (proj1 (Hcov sid)) as (st&->&_); [by rewrite Hs|]. cbn. naive_solver. }
  rewrite Elost in Hf. destruct (bool_decide _ && _); cbn in Hf; [done|]. split; [done|].
  destruct (row_at _ sid) as [row|] eqn:Erow; [|done]. destruct (ok_rows _ Hok' _ _ Erow) as (_&r&Hr&_). congruence.
Qed.

(** A commit that carries no reservation (id 0) confirms
    and persists a route that another request holds provisionally on the same
    worker: a provisional route has confirmed reservation 0, which the guard
    compares with the id too. *)
Theorem zero_reservation_commits_provisional_route x n lease now s r st a st' :
  reachable s -> terminalSessionToNode s !! trim x = Some r -> NodeID r = trim n -> ReservationID r <> 0 -> 0 < lease ->
  terminalRouteStore s = Some st -> store_upsert (trim x) (commit_row lease now (trim n) r) st = (Ok a, st') ->
  (commitConfirmedTerminalSessionRoute x n 0 lease now s).1 = Ok true /\
  (confirmTerminalSessionRoute x n 0 now s).1 = true.
Proof.
  intros Hok%reachable_ok Hr Hn Hres Hl Hst Hu.
  destruct (ok_route _ Hok _ _ Hr) as (Ht&Hx&Htn&Hne&Hp). destruct (Hp Hres) as [Hlease Hconf].
  assert (owns_route (trim n) 0 r = true) as Ho
    by (unfold owns_route; rewrite bool_decide_true, Hconf by done; by rewrite orb_true_r).
  split.
  - unfold commitConfirmedTerminalSessionRoute. rewrite (proj2 (Z.leb_gt _ _) Hl).
    rewrite !(bool_decide_false (_ = "")), Hr, Ho by congruence. cbn [negb orb].
    replace (mkRouteRow _ _ _ _ _) with (commit_row lease now (trim n) r).
    + unfold call_store. by rewrite Hst, Hu.
    + unfold commit_row, extend_lease. destruct (Z.ltb_spec (LeaseExpiresUnixMs r) lease);
        [rewrite Z.max_r by lia|rewrite Z.max_l by lia]; cbn; by case_match.
  - unfold confirmTerminalSessionRoute. rewrite !(bool_decide_false (_ = "")), Hr, Ho by congruence. done.
Qed.

End props.

(** ** The hypotheses hold: a service over the database of [Sql] *)
Section examples.

Definition run_route_ops (ops : list route_op) (s : Routes Conn) : Routes Conn :=
  foldl (fun s op => run_route_op op s) s ops.

Lemma run_route_ops_reachable ops s : reachable s -> reachable (run_route_ops ops s).
Proof. revert s. induction ops as [|op ops IH]; intros s Hs; [done|]. by apply IH, reach_step. Qed.

Definition demo_start : Routes Conn :=
  (RestoreTerminalSessionRoutes 1000 (fresh_routes (30 * minute) (Some (mkConn empty_db [])) (Some []))).2.

Lemma demo_start_reachable : reachable demo_start.
Proof. by eapply (reach_restored 1000 (30 * minute) (mkConn empty_db []) (Some [])). Qed.

(** Session [s] of [alice] reserved, and committed with a lease. *)
Definition demo_reserved : Routes Conn := run_route_ops [OpReserve "obx:alice:s" "w1" 1000] demo_start.
Definition demo_committed : Routes Conn := run_route_ops [OpCommit "obx:alice:s" "w1" 1 5000 1500] demo_reserved.
Definition demo_conn : Conn := default (mkConn empty_db []) (terminalRouteStore demo_committed).

Lemma demo_reserved_reachable : reachable demo_reserved.
Proof. apply run_route_ops_reachable, demo_start_reachable. Qed.
Lemma demo_committed_reachable : reachable demo_committed.
Proof. apply run_route_ops_reachable, demo_reserved_reachable. Qed.

Definition demo_route : terminalSessionRoute := mkRoute "w1" 1500 5000 1500 terminalSessionRecoveryReady 0 1 0.
Definition demo_provisional : terminalSessionRoute := mkRoute "w1" 1000 0 0 terminalSessionRecoveryReady 1 0 1.

Example demo_committed_route : terminalSessionToNode demo_committed !! "obx:alice:s" = Some demo_route.
Proof. by vm_compute. Qed.

Lemma reachable_routes_consistent_witness :
  exists r, terminalSessionToNode demo_committed !! "obx:alice:s" = Some r /\ ReservationID r = 0 /\
    NodeID r = "w1" /\ LeaseExpiresUnixMs r = 5000.
Proof.
  destruct (reachable_routes_consistent demo_committed demo_committed_reachable) as (_&_&_&Hrow).
  apply (Hrow "obx:alice:s" (mkRouteRow "w1" 5000 1500 1500 1500)). by vm_compute.
Defined.

Lemma sessions_stay_or_are_revoked_witness :
  let s' := run_route_op (OpPrune 6000) demo_committed in
  exists new, revoked s' = Some ([] ++ new) /\
    ((exists r', terminalSessionToNode s' !! "obx:alice:s" = Some r' /\ NodeID r' = "w1") \/ "obx:alice:s" ∈ new).
Proof.
  apply (sessions_stay_or_are_revoked (OpPrune 6000) demo_committed "obx:alice:s" demo_route []);
    [apply demo_committed_reachable|by vm_compute..].
Defined.

Lemma restart_restores_confirmed_sessions_witness :
  match RestoreTerminalSessionRoutes 2000 (fresh_routes (30 * minute) (Some demo_conn) (Some [])) with
  | (Ok _, s') =>
      (forall sid, terminalSessionToNode s' !! sid =
         (row_at demo_committed sid ≫= fun row =>
            if r_LeaseExpiresUnixMs row <=? 2000 then None else Some (restored_route row))) /\
      (forall sid r', terminalSessionToNode s' !! sid = Some r' ->
         exists r, terminalSessionToNode demo_committed !! sid = Some r /\ ReservationID r = 0 /\ NodeID r' = NodeID r /\
           LeaseExpiresUnixMs r' = LeaseExpiresUnixMs r /\ 2000 < LeaseExpiresUnixMs r /\
           RecoveryState r' = terminalSessionRecoveryUnavailable)
  | (Err e, s') => terminalSessionToNode s' = ∅ /\
      ((exists st' e', store_delete_expired 2000 demo_conn = (Err e', st')) \/
       (exists st1 st2 z e', store_delete_expired 2000 demo_conn = (Ok z, st1) /\ store_load 2000 st1 = (Err e', st2)) \/
       (exists sid r, terminalSessionToNode demo_committed !! sid = Some r /\ isValidPersistedTerminalSessionID sid = false))
  end.
Proof.
  apply (restart_restores_confirmed_sessions 2000 (30 * minute) (Some []) demo_committed demo_conn);
    [apply demo_committed_reachable|by vm_compute].
Defined.

(** The restored service has the session back. *)
Example demo_restored :
  terminalSessionToNode (RestoreTerminalSessionRoutes 2000 (fresh_routes (30 * minute) (Some demo_conn) None)).2
    !! "obx:alice:s" = Some (mkRoute "w1" 1500 5000 1500 terminalSessionRecoveryUnavailable 0 0 0).
Proof. by vm_compute. Qed.

Lemma commit_persists_before_confirming_witness :
  let '(y, s') := commitConfirmedTerminalSessionRoute "obx:alice:s" "w1" 1 5000 1500 demo_reserved in
  match y with
  | Ok true => exists r, terminalSessionToNode demo_reserved !! trim "obx:alice:s" = Some r /\
      owns_route (trim "w1") 1 r = true /\
      terminalSessionToNode s' = <[trim "obx:alice:s" := committed 1 5000 1500 r]> (terminalSessionToNode demo_reserved) /\
      (terminalRouteStore demo_reserved <> None -> exists row, row_at s' (trim "obx:alice:s") = Some row /\
         r_NodeID row = NodeID r /\ r_LeaseExpiresUnixMs row = Z.max (LeaseExpiresUnixMs r) 5000)
  | _ => terminalSessionToNode s' = terminalSessionToNode demo_reserved /\
         forall sid, row_at s' sid = row_at demo_reserved sid
  end.
Proof. apply (commit_persists_before_confirming "obx:alice:s" "w1" 1 5000 1500 demo_reserved demo_reserved_reachable). Defined.

Lemma reservation_shared_until_last_release_witness :
  let '((nid, id), s1) := reserveTerminalSessionRoute "obx:alice:t" "w1" 1000 demo_committed in
  let '(cs, s2) := claims 2 "obx:alice:t" 1000 s1 in
  let '(rs, s3) := releases 3 "obx:alice:t" "w1" id s2 in
  nid = trim "w1" /\ id <> 0 /\ cs = replicate 2 (Some (nid, id)) /\
  rs = replicate 2 routeReservationStillInUse ++ [routeReservationRemoved] /\
  terminalSessionToNode s3 !! trim "obx:alice:t" = None.
Proof. apply (reservation_shared_until_last_release "obx:alice:t" "w1" 1000 2 demo_committed); by vm_compute. Defined.

Lemma listed_sessions_are_the_owners_witness :
  mkSessionView "alice" "s" "w1" "ready" 5000 1500 1500 ∈ (ListTerminalSessions " alice" 2000 demo_committed).1.
Proof.
  apply (listed_sessions_are_the_owners " alice" 2000 demo_committed); [lia|].
  exists "obx:alice:s", demo_route, "alice", "s". split_and!; [by vm_compute..|right; by vm_compute|by vm_compute].
Defined.

Lemma delete_session_touches_only_that_session_witness :
  let '(y, s') := DeleteTerminalSession "alice" "s" 2000 demo_committed in
  only_changes (scopeTerminalSessionID "alice" "s") demo_committed s' /\
  (y = Ok true -> terminalSessionToNode s' !! scopeTerminalSessionID "alice" "s" = None /\
                  row_at s' (scopeTerminalSessionID "alice" "s") = None).
Proof. apply (delete_session_touches_only_that_session "alice" "s" 2000 demo_committed demo_committed_reachable). Defined.

Lemma recovery_candidates_exact_witness :
  let '(y, s') := beginTerminalSessionRecoveryWithError "w1" 2000 demo_committed in
  match y with
  | Err _ => terminalSessionToNode s' = terminalSessionToNode demo_committed
  | Ok cs => forall sid lease,
      (mkCandidate sid lease ∈ cs <-> exists r, terminalSessionToNode demo_committed !! sid = Some r /\ NodeID r = trim "w1" /\
         ReservationID r = 0 /\ lease = recovery_lease demo_committed r /\ 2000 < lease) /\
      (mkCandidate sid lease ∈ cs -> exists r', terminalSessionToNode s' !! sid = Some r' /\ NodeID r' = trim "w1" /\
         RecoveryState r' = terminalSessionRecoveryReconciling /\ LeaseExpiresUnixMs r' = lease)
  end.
Proof. apply (recovery_candidates_exact "w1" 2000 demo_committed demo_committed_reachable). by vm_compute. Defined.

Lemma recovery_report_applied_witness :
  let '(y, s') := applyTerminalSessionRecoveryReport {[ "obx:alice:s" := 5000 ]} "w1"
                    [Some (mkRecoveryResult "obx:alice:s" RECOVERED)] 2000 demo_committed in
  match y with
  | Err _ => terminalSessionToNode s' = terminalSessionToNode demo_committed /\
             forall sid, row_at s' sid = row_at demo_committed sid
  | Ok results =>
      (forall sid, is_Some (({[ "obx:alice:s" := 5000 ]} : gmap string Z) !! sid) <->
         exists st, results !! sid = Some st /\ valid_status st = true) /\
      (forall sid, ({[ "obx:alice:s" := 5000 ]} : gmap string Z) !! sid = None ->
         terminalSessionToNode s' !! sid = terminalSessionToNode demo_committed !! sid) /\
      (forall sid lease, ({[ "obx:alice:s" := 5000 ]} : gmap string Z) !! sid = Some lease ->
         if bool_decide (results !! sid = Some RECOVERED) && negb ((0 <? lease) && (lease <=? 2000))
         then terminalSessionToNode s' !! sid = recovered_route 2000 <$> terminalSessionToNode demo_committed !! sid
         else terminalSessionToNode s' !! sid = None /\ row_at s' sid = None)
  end.
Proof.
  apply (recovery_report_applied {[ "obx:alice:s" := 5000 ]} "w1" [Some (mkRecoveryResult "obx:alice:s" RECOVERED)]
    2000 demo_committed demo_committed_reachable).
Defined.

Lemma zero_reservation_commits_provisional_route_witness :
  (commitConfirmedTerminalSessionRoute "obx:alice:s" "w1" 0 5000 1500 demo_reserved).1 = Ok true /\
  (confirmTerminalSessionRoute "obx:alice:s" "w1" 0 1500 demo_reserved).1 = true.
Proof.
  apply (zero_reservation_commits_provisional_route "obx:alice:s" "w1" 5000 1500 demo_reserved demo_provisional
    (default (mkConn empty_db []) (terminalRouteStore demo_reserved)) tt demo_conn);
    [apply demo_reserved_reachable|by vm_compute..].
Defined.

End examples.

End TerminalRoutesProps.
Export TerminalRoutesProps.
