(* ===== verification/SessionRuntime.v ===== *)
(** A connected worker's session (console/internal/grpcserver/session_runtime.go):
    its capabilities and their in-flight limits, the commands that wait for a
    result, the recovery handshake, the outbound queues and the close.

    A [*pendingCommand] owns a channel of capacity one that is written at most
    once and then closed; the channels live in a heap ([channels]) and a
    pending entry refers to its channel by address, because the dispatcher
    keeps the channel after the entry is gone.  Each function runs its critical
    section under the mutex of the fields it touches; [resolvePending],
    [unregisterPending] and [close] take the entries out of the map first and
    then release and signal, which nobody else can observe half-done through
    the map, so each is one step here. *)
From S2P Require Import Prelude.
From S2P Require Import Json.
From S2P Require Import Proto.
From S2P Require Import OwnerScope.
From S2P Require Import Sql.

Module SessionRuntime.

Definition defaultCapabilityMaxInflight : Z := 4.
Definition controlOutboundBufferSize : Z := 32.
Definition commandOutboundBufferSize : Z := 128.
Definition defaultCloseMessage : string := "session closed".

Record commandOutcome := mkOutcome {
  oc_payloadJSON : payload;
  oc_message : string;
  oc_err : option error;
  oc_completedAt : time }.

Record pendingCommand := mkPending {
  pc_resultCh : Z;
  pc_capability : string }.

Record sessionCapability := mkSessionCapability {
  sc_maxInflight : Z;
  sc_inflight : Z }.

Record terminalSessionCapacitySnapshot := mkCapacitySnapshot {
  cs_known : bool;
  cs_maxActiveSessions : Z;
  cs_activeSessionCount : Z;
  cs_observedAt : time }.

(** A result channel: open and empty, or closed with at most one buffered
    outcome. *)
Inductive channel := ChOpen | ChClosed (buffered : option commandOutcome).

Record activeSession := mkSession {
  nodeID : string;
  sessionID : string;
  executorKind : string;
  connectedAt : time;
  lastHeartbeatUnixMs : Z;
  proxyEndpoint : string;
  routeTokenKey : string;
  proxyDirect : string;
  capabilities : gmap string sessionCapability;
  terminalCapacity : terminalSessionCapacitySnapshot;
  recoveryRequired : bool;
  recoveryComplete : bool;
  recoveryCandidates : gmap string Z;
  recoveryResults : gmap string RecoveryStatus;
  controlOutbound : list ConnectResponse;
  commandOutbound : list ConnectResponse;
  closedErr : option error;     (** [Some]: [done] is closed *)
  pending : gmap string pendingCommand;
  channels : gmap Z channel;
  nextChannel : Z }.

Definition with_capabilities (f : gmap string sessionCapability -> gmap string sessionCapability)
    (s : activeSession) : activeSession :=
  mkSession (nodeID s) (sessionID s) (executorKind s) (connectedAt s) (lastHeartbeatUnixMs s)
    (proxyEndpoint s) (routeTokenKey s) (proxyDirect s)
    (f (capabilities s)) (terminalCapacity s) (recoveryRequired s) (recoveryComplete s)
    (recoveryCandidates s) (recoveryResults s) (controlOutbound s) (commandOutbound s)
    (closedErr s) (pending s) (channels s) (nextChannel s).
Definition with_heartbeat (ms : Z) (cap : terminalSessionCapacitySnapshot) (s : activeSession) : activeSession :=
  mkSession (nodeID s) (sessionID s) (executorKind s) (connectedAt s) ms
    (proxyEndpoint s) (routeTokenKey s) (proxyDirect s)
    (capabilities s) cap (recoveryRequired s) (recoveryComplete s)
    (recoveryCandidates s) (recoveryResults s) (controlOutbound s) (commandOutbound s)
    (closedErr s) (pending s) (channels s) (nextChannel s).
Definition with_recovery (complete : bool) (cands : gmap string Z) (results : gmap string RecoveryStatus)
    (s : activeSession) : activeSession :=
  mkSession (nodeID s) (sessionID s) (executorKind s) (connectedAt s) (lastHeartbeatUnixMs s)
    (proxyEndpoint s) (routeTokenKey s) (proxyDirect s)
    (capabilities s) (terminalCapacity s) (recoveryRequired s) complete cands results
    (controlOutbound s) (commandOutbound s) (closedErr s) (pending s) (channels s) (nextChannel s).
Definition with_outbound (control command : list ConnectResponse) (s : activeSession) : activeSession :=
  mkSession (nodeID s) (sessionID s) (executorKind s) (connectedAt s) (lastHeartbeatUnixMs s)
    (proxyEndpoint s) (routeTokenKey s) (proxyDirect s)
    (capabilities s) (terminalCapacity s) (recoveryRequired s) (recoveryComplete s)
    (recoveryCandidates s) (recoveryResults s) control command
    (closedErr s) (pending s) (channels s) (nextChannel s).
Definition with_pending (closed : option error) (p : gmap string pendingCommand) (chs : gmap Z channel) (next : Z)
    (s : activeSession) : activeSession :=
  mkSession (nodeID s) (sessionID s) (executorKind s) (connectedAt s) (lastHeartbeatUnixMs s)
    (proxyEndpoint s) (routeTokenKey s) (proxyDirect s)
    (capabilities s) (terminalCapacity s) (recoveryRequired s) (recoveryComplete s)
    (recoveryCandidates s) (recoveryResults s) (controlOutbound s) (commandOutbound s)
    closed p chs next.

(** The proxy fields, set once when the session is created. *)
Definition with_proxy (endpoint key direct : string) (s : activeSession) : activeSession :=
  mkSession (nodeID s) (sessionID s) (executorKind s) (connectedAt s) (lastHeartbeatUnixMs s)
    endpoint key direct
    (capabilities s) (terminalCapacity s) (recoveryRequired s) (recoveryComplete s)
    (recoveryCandidates s) (recoveryResults s) (controlOutbound s) (commandOutbound s)
    (closedErr s) (pending s) (channels s) (nextChannel s).

(** ** Construction *)
Definition add_capability (set : gmap string sessionCapability) (c : option CapabilityDeclaration)
    : gmap string sessionCapability :=
  match c with
  | None => set
  | Some c =>
      let name := normalizeCapability (cd_Name c) in
      if bool_decide (name = "") then set else
      let maxInflight := if cd_MaxInflight c <=? 0 then defaultCapabilityMaxInflight else cd_MaxInflight c in
      <[name := mkSessionCapability maxInflight 0]> set
  end.

Definition capabilitiesFromHello (hello : ConnectHello) : gmap string sessionCapability :=
  foldl add_capability ∅ (Capabilities hello).

Definition newActiveSessionAt (node session : string) (hello : ConnectHello) (observedAt : time) : activeSession :=
  let caps := capabilitiesFromHello hello in
  let required := bool_decide (is_Some (caps !! taskCapabilityTerminalExec)) in
  let capacity := match HelloTerminalSessionCapacity hello with
    | Some c => mkCapacitySnapshot true (MaxActiveSessions c) (ActiveSessionCount c) observedAt
    | None => mkCapacitySnapshot false 0 0 zero_time
    end in
  mkSession node session (trim (ExecutorKind hello)) observedAt (unix_milli observedAt) "" "" ""
    caps capacity required (negb required) ∅ ∅ [] [] None ∅ ∅ 0.

(** ** Recovery handshake *)
Definition setRecoveryCandidates (candidates : list TerminalSessionRecoveryCandidate) (s : activeSession)
    : activeSession :=
  with_recovery (recoveryComplete s)
    (foldl (fun m c => let sid := trim (cand_SessionId c) in
              if bool_decide (sid = "") then m else <[sid := cand_LeaseExpiresUnixMs c]> m) ∅ candidates)
    (recoveryResults s) s.

Definition recoveryCandidateSnapshot (s : activeSession) : gmap string Z := recoveryCandidates s.

Definition markRecoveryComplete (s : activeSession) : activeSession :=
  with_recovery true (recoveryCandidates s) (recoveryResults s) s.

Definition setRecoveryResults (results : gmap string RecoveryStatus) (s : activeSession) : activeSession :=
  with_recovery (recoveryComplete s) (recoveryCandidates s) results s.

Fixpoint match_results (expected : gmap string RecoveryStatus) (seen : gset string)
    (report : TerminalSessionRecoveryReport) : bool :=
  match report with
  | [] => true
  | None :: _ => false
  | Some result :: report =>
      let sid := trim (rr_SessionId result) in
      match expected !! sid with
      | None => false
      | Some st => bool_decide (st = rr_Status result) && negb (bool_decide (sid ∈ seen)) &&
                   match_results expected ({[ sid ]} ∪ seen) report
      end
  end.

Definition matchesRecoveryResults (report : TerminalSessionRecoveryReport) (s : activeSession) : bool :=
  bool_decide (length report = size (recoveryResults s)) && match_results (recoveryResults s) ∅ report.

Definition isReady (s : activeSession) : bool := negb (recoveryRequired s) || recoveryComplete s.

(** ** Capabilities *)
Definition hasCapability (capability : string) (s : activeSession) : bool :=
  let normalized := normalizeCapability capability in
  if bool_decide (normalized = "") then false else bool_decide (is_Some (capabilities s !! normalized)).

(** The limit is repaired in place when it is not positive. *)
Definition fix_limit (c : sessionCapability) : sessionCapability :=
  if sc_maxInflight c <=? 0 then mkSessionCapability defaultCapabilityMaxInflight (sc_inflight c) else c.

Definition inflightSnapshot (capability : string) (s : activeSession) : option (Z * Z) * activeSession :=
  let normalized := normalizeCapability capability in
  if bool_decide (normalized = "") then (None, s) else
  match capabilities s !! normalized with
  | None => (None, s)
  | Some state =>
      let state := fix_limit state in
      (Some (sc_inflight state, sc_maxInflight state), with_capabilities <[normalized := state]> s)
  end.

Definition allCapabilitiesSnapshot (s : activeSession) : list (string * (Z * Z)) :=
  (fun kv => (kv.1, (sc_inflight kv.2, sc_maxInflight (fix_limit kv.2)))) <$> map_to_list (capabilities s).

Definition tryAcquireCapability (capability : string) (s : activeSession) : bool * activeSession :=
  let normalized := normalizeCapability capability in
  if bool_decide (normalized = "") then (false, s) else
  match capabilities s !! normalized with
  | None => (false, s)
  | Some state =>
      let state := fix_limit state in
      if sc_maxInflight state <=? sc_inflight state
      then (false, with_capabilities <[normalized := state]> s)
      else (true, with_capabilities
              <[normalized := mkSessionCapability (sc_maxInflight state) (sc_inflight state + 1)]> s)
  end.

Definition releaseCapability (capability : string) (s : activeSession) : activeSession :=
  let normalized := normalizeCapability capability in
  if bool_decide (normalized = "") then s else
  match capabilities s !! normalized with
  | None => s
  | Some state =>
      if 0 <? sc_inflight state
      then with_capabilities <[normalized := mkSessionCapability (sc_maxInflight state) (sc_inflight state - 1)]> s
      else s
  end.

Definition setActiveSessionCount (count : Z) (observedAt : time) (s : activeSession) : activeSession :=
  with_heartbeat (lastHeartbeatUnixMs s)
    (mkCapacitySnapshot (cs_known (terminalCapacity s)) (cs_maxActiveSessions (terminalCapacity s)) count observedAt) s.

(** ** Outbound queues *)
Definition sessionError (s : activeSession) : error := default (ErrorString defaultCloseMessage) (closedErr s).

(** [enqueue]: the session closed, the context ended ([ctxErr]), or the frame
    was sent; [None] is a send that is still blocked on a full queue.
    [preferCtx] is the scheduler's choice when both are possible. *)
Definition enqueue (control : bool) (preferCtx : bool) (ctxErr : option error) (response : ConnectResponse)
    (s : activeSession) : option (res unit) * activeSession :=
  match closedErr s with
  | Some _ => (Some (Err (sessionError s)), s)
  | None =>
      let q := if control then controlOutbound s else commandOutbound s in
      let cap := if control then controlOutboundBufferSize else commandOutboundBufferSize in
      let room := Z.of_nat (length q) <? cap in
      match ctxErr with
      | Some e => if preferCtx || negb room then (Some (Err e), s)
                  else (Some (Ok tt), if control then with_outbound (q ++ [response]) (commandOutbound s) s
                                      else with_outbound (controlOutbound s) (q ++ [response]) s)
      | None => if room then (Some (Ok tt), if control then with_outbound (q ++ [response]) (commandOutbound s) s
                                            else with_outbound (controlOutbound s) (q ++ [response]) s)
                else (None, s)
      end
  end.

Definition enqueueControl := enqueue true.
Definition enqueueCommand := enqueue false.

(** ** Pending commands *)
Definition registerPending (commandID capability : string) (s : activeSession) : res Z * activeSession :=
  let id := trim commandID in
  if bool_decide (id = "") then (Err (ErrorString "command_id is required"), s) else
  match closedErr s with
  | Some _ => (Err (sessionError s), s)
  | None =>
      let ch := nextChannel s in
      (Ok ch, with_pending None (<[id := mkPending ch (normalizeCapability capability)]> (pending s))
                (<[ch := ChOpen]> (channels s)) (ch + 1) s)
  end.

(** [closeResult]: once per channel; the buffer has room for the one outcome. *)
Definition closeResult (ch : Z) (outcome : option commandOutcome) (s : activeSession) : activeSession :=
  match channels s !! ch with
  | Some ChOpen => with_pending (closedErr s) (pending s) (<[ch := ChClosed outcome]> (channels s)) (nextChannel s) s
  | _ => s
  end.

Definition take_pending (id : string) (s : activeSession) : option (pendingCommand * activeSession) :=
  match pending s !! id with
  | Some p => Some (p, with_pending (closedErr s) (delete id (pending s)) (channels s) (nextChannel s) s)
  | None => None
  end.

Definition unregisterPending (commandID : string) (s : activeSession) : activeSession :=
  let id := trim commandID in
  if bool_decide (id = "") then s else
  match take_pending id s with
  | None => s
  | Some (p, s) => closeResult (pc_resultCh p) None (releaseCapability (pc_capability p) s)
  end.

(** grpcserver/service_dispatch.go *)
Definition echo_field (k : string) : option (json -> string -> string * bool) :=
  if equal_fold k "message" then Some dec_string else None.

Definition parseEchoPayload (p : payload) : option string :=
  if payload_empty p then None else
  match unmarshal_struct echo_field "" p with
  | None => None
  | Some m => if bool_decide (trim m = "") then None else Some m
  end.

Definition outcome_of (result : CommandResult) (now : time) : commandOutcome :=
  let completedAt := if 0 <? cr_CompletedUnixMs result then of_unix_milli (cr_CompletedUnixMs result) else now in
  match cr_Error result with
  | Some (code, message) => mkOutcome PEmpty "" (Some (CommandExecutionError code message)) completedAt
  | None =>
      if payload_empty (cr_PayloadJson result)
      then mkOutcome PEmpty "" (Some (CommandExecutionError "empty_result" "worker returned empty command result")) completedAt
      else mkOutcome (cr_PayloadJson result) (default "" (parseEchoPayload (cr_PayloadJson result))) None completedAt
  end.

Definition resolvePending (result : CommandResult) (now : time) (s : activeSession) : activeSession :=
  let id := trim (cr_CommandId result) in
  if bool_decide (id = "") then s else
  match take_pending id s with
  | None => s
  | Some (p, s) => closeResult (pc_resultCh p) (Some (outcome_of result now)) (releaseCapability (pc_capability p) s)
  end.

Definition close_entry (err : error) (s : activeSession) (kv : string * pendingCommand) : activeSession :=
  closeResult (pc_resultCh kv.2) (Some (mkOutcome PEmpty "" (Some err) zero_time))
    (releaseCapability (pc_capability kv.2) s).

(** [close]: once; a nil error becomes the default one. *)
Definition close (err : option error) (s : activeSession) : activeSession :=
  match closedErr s with
  | Some _ => s
  | None =>
      let err := default (ErrorString defaultCloseMessage) err in
      let waiting := map_to_list (pending s) in
      foldl (close_entry err) (with_pending (Some err) ∅ (channels s) (nextChannel s) s) waiting
  end.

(** The dispatcher's receive: [None] blocks, [Some None] is a closed channel. *)
Definition receive (ch : Z) (s : activeSession) : option (option commandOutcome) :=
  match channels s !! ch with
  | Some (ChClosed o) => Some o
  | _ => None
  end.

(** ** Accounting of in-flight commands *)

(** How many of the given entries, and of the given names, count against [c]. *)
Definition ncap (c : string) (l : list (string * pendingCommand)) : Z :=
  Z.of_nat (length (List.filter (fun kv => bool_decide (pc_capability kv.2 = c)) l)).
Definition nheld (c : string) (held : list string) : Z :=
  Z.of_nat (length (List.filter (fun d => bool_decide (d = c)) held)).

(** What the dispatchers and the connection do to a session.  [held] are the
    capabilities acquired for a command that is not pending yet: a dispatcher
    acquires, then registers the command or gives the capability back. *)
Inductive session_step : activeSession * list string -> activeSession * list string -> Prop :=
  | step_acquire c s s' held :
      tryAcquireCapability c s = (true, s') ->
      session_step (s, held) (s', normalizeCapability c :: held)
  | step_refused c s s' held :
      tryAcquireCapability c s = (false, s') -> session_step (s, held) (s', held)
  | step_give_back c s held held' :
      held ≡ₚ normalizeCapability c :: held' -> session_step (s, held) (releaseCapability c s, held')
  | step_register id c s s' ch held held' :
      held ≡ₚ normalizeCapability c :: held' -> pending s !! trim id = None ->
      registerPending id c s = (Ok ch, s') -> session_step (s, held) (s', held')
  | step_register_fails id c s s' e held :
      registerPending id c s = (Err e, s') -> session_step (s, held) (s', held)
  | step_unregister id s held : session_step (s, held) (unregisterPending id s, held)
  | step_resolve result now s held : session_step (s, held) (resolvePending result now s, held)
  | step_close e s held : session_step (s, held) (close e s, held)
  | step_snapshot c s held : session_step (s, held) ((inflightSnapshot c s).2, held)
  | step_heartbeat ms n now s held :
      session_step (s, held) (setActiveSessionCount n now (with_heartbeat ms (terminalCapacity s) s), held)
  | step_candidates cs s held : session_step (s, held) (setRecoveryCandidates cs s, held)
  | step_results rs s held : session_step (s, held) (setRecoveryResults rs s, held)
  | step_recovered s held : session_step (s, held) (markRecoveryComplete s, held)
  | step_enqueue control pref ctx r s held : session_step (s, held) ((enqueue control pref ctx r s).2, held).

Inductive session_reachable : activeSession * list string -> Prop :=
  | session_start node sid hello at_ : session_reachable (newActiveSessionAt node sid hello at_, [])
  | session_next x y : session_reachable x -> session_step x y -> session_reachable y.

(** The invariant, with [l] the entries that still occupy a slot. *)
Record slots_ok (s : activeSession) (l : list (string * pendingCommand)) (held : list string) : Prop := {
  so_caps c st : capabilities s !! c = Some st ->
    0 < sc_maxInflight st /\ sc_inflight st = ncap c l + nheld c held /\ sc_inflight st <= sc_maxInflight st;
  so_pending id p : (id, p) ∈ l ->
    is_Some (capabilities s !! pc_capability p) /\ normalizeCapability (pc_capability p) = pc_capability p /\
    pc_capability p <> "" }.

Record session_ok (s : activeSession) (held : list string) : Prop := {
  se_slots : slots_ok s (map_to_list (pending s)) held;
  se_open id p : pending s !! id = Some p -> channels s !! pc_resultCh p = Some ChOpen;
  se_distinct id1 p1 id2 p2 : pending s !! id1 = Some p1 -> pending s !! id2 = Some p2 ->
    pc_resultCh p1 = pc_resultCh p2 -> id1 = id2;
  se_held c : c ∈ held -> is_Some (capabilities s !! c) /\ normalizeCapability c = c /\ c <> "";
  se_next ch : is_Some (channels s !! ch) -> ch < nextChannel s;
  se_closed : closedErr s <> None -> pending s = ∅ }.

Section slots.
Implicit Types (s : activeSession) (held : list string) (l : list (string * pendingCommand)).

Lemma normalize_idemp c : normalizeCapability (normalizeCapability c) = normalizeCapability c.
Proof. unfold normalizeCapability. by rewrite to_lower_trim, to_lower_idemp, trim_trim. Qed.

Lemma ncap_cons c id p l : ncap c ((id, p) :: l) = (if bool_decide (pc_capability p = c) then 1 else 0) + ncap c l.
Proof. unfold ncap. cbn. case_bool_decide; cbn; lia. Qed.

Lemma nheld_cons c d held : nheld c (d :: held) = (if bool_decide (d = c) then 1 else 0) + nheld c held.
Proof. unfold nheld. cbn. case_bool_decide; cbn; lia. Qed.

Lemma filter_length_perm {A} (p : A -> bool) (l1 l2 : list A) :
  l1 ≡ₚ l2 -> length (List.filter p l1) = length (List.filter p l2).
Proof. rewrite <- !filter_bool. by intros ->. Qed.

Lemma ncap_perm c l l' : l ≡ₚ l' -> ncap c l = ncap c l'.
Proof. intros Hp. unfold ncap. by rewrite (filter_length_perm _ _ _ Hp). Qed.

Lemma nheld_perm c h h' : h ≡ₚ h' -> nheld c h = nheld c h'.
Proof. intros Hp. unfold nheld. by rewrite (filter_length_perm _ _ _ Hp). Qed.

Lemma ncap_nonneg c l : 0 <= ncap c l.
Proof. unfold ncap. lia. Qed.
Lemma nheld_nonneg c h : 0 <= nheld c h.
Proof. unfold nheld. lia. Qed.

Lemma slots_ok_perm s l l' h h' : l ≡ₚ l' -> h ≡ₚ h' -> slots_ok s l h -> slots_ok s l' h'.
Proof.
  intros Hl Hh [Hc Hp]. split.
  - intros c st Hs. rewrite <- (ncap_perm c _ _ Hl), <- (nheld_perm c _ _ Hh). by apply Hc.
  - intros id p. rewrite <- Hl. apply Hp.
Qed.

#[export] Instance slots_ok_proper s :
  Proper (Permutation ==> Permutation ==> iff) (slots_ok s).
Proof. intros l l' Hl h h' Hh. split; by apply slots_ok_perm. Qed.

(** Releasing a slot that is accounted for. *)
Lemma release_caps c s st :
  normalizeCapability c = c -> c <> "" -> capabilities s !! c = Some st -> 0 < sc_inflight st ->
  releaseCapability c s =
  with_capabilities <[c := mkSessionCapability (sc_maxInflight st) (sc_inflight st - 1)]> s.
Proof.
  intros Hn Hne Hs Hpos. unfold releaseCapability. rewrite Hn, bool_decide_false, Hs by done.
  by rewrite (proj2 (Z.ltb_lt _ _) Hpos).
Qed.

Lemma slots_update s c st' l held l' held' st :
  slots_ok s l held -> capabilities s !! c = Some st ->
  (forall d, d <> c -> ncap d l' + nheld d held' = ncap d l + nheld d held) ->
  sc_maxInflight st' = sc_maxInflight st -> sc_inflight st' = ncap c l' + nheld c held' ->
  sc_inflight st' <= sc_maxInflight st ->
  (forall id p, (id, p) ∈ l' -> (id, p) ∈ l \/ (pc_capability p = c /\ normalizeCapability c = c /\ c <> "")) ->
  slots_ok (with_capabilities <[c := st']> s) l' held'.
Proof.
  intros [Hc Hp] Hs Hother Hmax Hin Hle Hsub. split; cbn.
  - intros d st0. rewrite lookup_insert. case_decide as Eq.
    + subst. intros [= <-]. destruct (Hc _ _ Hs) as (?&_&_). split_and!; [lia|done|lia].
    + intros Hd. rewrite Hother by done. by apply Hc.
  - intros id p Hin'. rewrite lookup_insert_is_Some'. destruct (Hsub _ _ Hin') as [H|(->&?&?)].
    + destruct (Hp _ _ H) as (?&?&?). auto.
    + auto.
Qed.

Lemma release_entry_ok s id p l held :
  slots_ok s ((id, p) :: l) held -> slots_ok (releaseCapability (pc_capability p) s) l held.
Proof.
  intros Hok. destruct (so_pending _ _ _ Hok id p) as ([st Hs]&Hn&Hne); [by left|].
  destruct (so_caps _ _ _ Hok _ _ Hs) as (Hmax&Hin&Hle). rewrite ncap_cons, bool_decide_true in Hin by done.
  pose proof (ncap_nonneg (pc_capability p) l). pose proof (nheld_nonneg (pc_capability p) held).
  rewrite (release_caps _ _ st) by (done || lia).
  eapply slots_update; [exact Hok|exact Hs| |done|cbn; lia|cbn; lia|intros; left; by right].
  intros d Hd. rewrite ncap_cons, bool_decide_false by done. lia.
Qed.

Lemma give_back_ok s c l held held' :
  held ≡ₚ normalizeCapability c :: held' -> is_Some (capabilities s !! normalizeCapability c) ->
  normalizeCapability c <> "" -> slots_ok s l held -> slots_ok (releaseCapability c s) l held'.
Proof.
  intros Hp [st Hs] Hne Hok%(slots_ok_perm _ _ _ _ _ (Permutation_refl l) Hp).
  destruct (so_caps _ _ _ Hok _ _ Hs) as (Hmax&Hin&Hle). rewrite nheld_cons, bool_decide_true in Hin by done.
  pose proof (ncap_nonneg (normalizeCapability c) l). pose proof (nheld_nonneg (normalizeCapability c) held').
  replace (releaseCapability c s) with (releaseCapability (normalizeCapability c) s)
    by (unfold releaseCapability; by rewrite normalize_idemp).
  rewrite (release_caps _ _ st) by first [done | by rewrite normalize_idemp | lia].
  eapply slots_update; [exact Hok|exact Hs| |done|cbn; lia|cbn; lia|intros; by left].
  intros d Hd. rewrite nheld_cons, bool_decide_false by done. lia.
Qed.

End slots.

Section steps.
Implicit Types (s : activeSession) (held : list string).

Lemma hello_caps hello c st : capabilitiesFromHello hello !! c = Some st ->
  0 < sc_maxInflight st /\ sc_inflight st = 0.
Proof.
  unfold capabilitiesFromHello. revert c st.
  apply (foldl_inv (fun m : gmap string sessionCapability =>
    forall c st, m !! c = Some st -> 0 < sc_maxInflight st /\ sc_inflight st = 0)); [done|].
  intros m [d|] _ Hm c st; [|apply Hm]. unfold add_capability.
  destruct (bool_decide (normalizeCapability (cd_Name d) = "")); [apply Hm|].
  rewrite lookup_insert. case_decide; [|apply Hm]. intros [= <-]. cbn. split; [|done].
  destruct (Z.leb_spec (cd_MaxInflight d) 0); [done|lia].
Qed.

Lemma start_ok node sid hello at_ : session_ok (newActiveSessionAt node sid hello at_) [].
Proof.
  split; cbn; try done.
  - rewrite map_to_list_empty. split; cbn; [|by intros ? ? ?%elem_of_nil].
    intros c st Hc. destruct (hello_caps _ _ _ Hc) as [? ->]. unfold ncap, nheld. cbn. lia.
  - by intros c ?%elem_of_nil.
  - intros ch [? ?]. done.
Qed.

(** A change of the capabilities only. *)
Lemma caps_change_ok s held held' f :
  session_ok s held -> slots_ok (with_capabilities f s) (map_to_list (pending s)) held' ->
  (forall c, c ∈ held' -> is_Some (f (capabilities s) !! c) /\ normalizeCapability c = c /\ c <> "") ->
  session_ok (with_capabilities f s) held'.
Proof. intros [] Hs Hh. by split. Qed.

Lemma fix_limit_id s held c st : session_ok s held -> capabilities s !! c = Some st -> fix_limit st = st.
Proof.
  intros Hok Hs. destruct (so_caps _ _ _ (se_slots _ _ Hok) _ _ Hs) as [Hmax _]. unfold fix_limit.
  by rewrite (proj2 (Z.leb_gt _ _) Hmax).
Qed.

Lemma put_same_caps s c st : capabilities s !! c = Some st -> with_capabilities <[c := st]> s = s.
Proof. intros Hs. unfold with_capabilities. rewrite insert_id by done. by destruct s. Qed.

Lemma acquire_ok c s s' held :
  session_ok s held -> tryAcquireCapability c s = (true, s') -> session_ok s' (normalizeCapability c :: held).
Proof.
  intros Hok. unfold tryAcquireCapability. case_match eqn:En; [done|]. bool_prop.
  destruct (capabilities s !! normalizeCapability c) as [st|] eqn:Es; [|done].
  rewrite (fix_limit_id _ _ _ _ Hok Es). case_match eqn:El; [done|]. bool_prop. intros [= <-].
  destruct (so_caps _ _ _ (se_slots _ _ Hok) _ _ Es) as (Hmax&Hin&_).
  apply (caps_change_ok _ held); [done| |].
  - eapply slots_update; [apply Hok|done| |done| | |by left].
    + intros d Hd. rewrite nheld_cons, bool_decide_false by done. lia.
    + cbn. rewrite nheld_cons, bool_decide_true by done. lia.
    + cbn. lia.
  - intros d. rewrite lookup_insert_is_Some'. intros [->|Hd]%elem_of_cons.
    + rewrite normalize_idemp. auto.
    + destruct (se_held _ _ Hok _ Hd) as (?&?&?). auto.
Qed.

Lemma refused_ok c s s' held :
  session_ok s held -> tryAcquireCapability c s = (false, s') -> s' = s.
Proof.
  intros Hok. unfold tryAcquireCapability. case_match; [by intros [= <-]|].
  destruct (capabilities s !! normalizeCapability c) as [st|] eqn:Es; [|by intros [= <-]].
  rewrite (fix_limit_id _ _ _ _ Hok Es). case_match; [|done]. intros [= <-]. by apply put_same_caps.
Qed.

Lemma snapshot_id c s held : session_ok s held -> (inflightSnapshot c s).2 = s.
Proof.
  intros Hok. unfold inflightSnapshot. case_match; [done|].
  destruct (capabilities s !! normalizeCapability c) as [st|] eqn:Es; [|done].
  rewrite (fix_limit_id _ _ _ _ Hok Es). by apply put_same_caps.
Qed.

Lemma release_frame c s : exists f, releaseCapability c s = with_capabilities f s /\
  forall d, is_Some (f (capabilities s) !! d) <-> is_Some (capabilities s !! d).
Proof.
  unfold releaseCapability. case_match; [exists id; split; [by destruct s|done]|].
  destruct (capabilities s !! normalizeCapability c) as [st|] eqn:Es; [|exists id; split; [by destruct s|done]].
  case_match; [|exists id; split; [by destruct s|done]]. eexists. split; [done|].
  intros d. rewrite lookup_insert_is_Some'. split; [|by auto]. intros [<-|]; [by rewrite Es|done].
Qed.

Lemma give_back_step c s held held' :
  held ≡ₚ normalizeCapability c :: held' -> session_ok s held -> session_ok (releaseCapability c s) held'.
Proof.
  intros Hp Hok. destruct (se_held _ _ Hok (normalizeCapability c)) as (Hs&_&Hne); [rewrite Hp; by left|].
  pose proof (give_back_ok s c _ _ _ Hp Hs Hne (se_slots _ _ Hok)) as Hso.
  destruct (release_frame c s) as (f&Hf&Hdom). rewrite Hf in *. apply (caps_change_ok _ held); [done..|].
  intros d Hd. rewrite Hdom. apply (se_held _ _ Hok). rewrite Hp. by right.
Qed.

Lemma register_ok id c s s' ch held held' :
  held ≡ₚ normalizeCapability c :: held' -> pending s !! trim id = None ->
  registerPending id c s = (Ok ch, s') -> session_ok s held -> session_ok s' held'.
Proof.
  intros Hp Hnone Hr Hok. unfold registerPending in Hr. case_match; [done|]. bool_prop.
  destruct (closedErr s) eqn:Ec; [done|]. simplify_eq.
  destruct (se_held _ _ Hok (normalizeCapability c)) as (Hs&Hn&Hne); [rewrite Hp; by left|].
  assert (forall id p, pending s !! id = Some p -> pc_resultCh p < nextChannel s) as Hlt.
  { intros id' p' Hp'. apply (se_next _ _ Hok). by rewrite (se_open _ _ Hok _ _ Hp'). }
  split; cbn.
  - rewrite map_to_list_insert by done. destruct (se_slots _ _ Hok) as [Hc Hpn]. split; cbn.
    + intros d st Hd. rewrite ncap_cons. cbn. destruct (Hc _ _ Hd) as (?&Hin&?). split_and!; [done| |done].
      rewrite Hin, (nheld_perm _ _ _ Hp), nheld_cons. lia.
    + intros id' p' [[= -> ->]|Hin]%elem_of_cons; [done|by eapply Hpn].
  - intros id' p'. rewrite lookup_insert. case_decide.
    + intros [= <-]. cbn. by rewrite lookup_insert_eq.
    + intros Hp'. rewrite lookup_insert_ne; [by eapply se_open|]. specialize (Hlt _ _ Hp'). lia.
  - intros id1 p1 id2 p2. rewrite !lookup_insert. case_decide; case_decide; [congruence| | |by apply (se_distinct _ _ Hok)].
    + intros [= <-] Hp2. cbn. specialize (Hlt _ _ Hp2). lia.
    + intros Hp1 [= <-]. cbn. specialize (Hlt _ _ Hp1). lia.
  - intros d Hd. apply (se_held _ _ Hok). rewrite Hp. by right.
  - intros ch. rewrite lookup_insert_is_Some'. intros [<-|Hch%(se_next _ _ Hok)]; lia.
  - done.
Qed.

(** A command finishes: its entry goes, its slot is released, its channel is
    closed with the outcome. *)
Lemma finish_ok s id p o held :
  session_ok s held -> pending s !! id = Some p ->
  session_ok (closeResult (pc_resultCh p) o (releaseCapability (pc_capability p)
    (with_pending (closedErr s) (delete id (pending s)) (channels s) (nextChannel s) s))) held.
Proof.
  intros Hok Hp. set (s1 := with_pending _ _ _ _ s).
  assert (slots_ok s1 ((id, p) :: map_to_list (delete id (pending s))) held) as Hs1.
  { pose proof (se_slots _ _ Hok) as Hso.
    apply (slots_ok_perm _ _ ((id, p) :: map_to_list (delete id (pending s))) _ held) in Hso; [|by rewrite map_to_list_delete|done].
    by destruct Hso; split. }
  apply release_entry_ok in Hs1. destruct (release_frame (pc_capability p) s1) as (f&Hf&Hdom). rewrite Hf in *.
  unfold closeResult. cbn. rewrite (se_open _ _ Hok _ _ Hp). split; cbn.
  - by destruct Hs1; split.
  - intros id' p' [Hne Hp']%lookup_delete_Some. rewrite lookup_insert_ne; [by eapply se_open|].
    intros E. apply Hne. symmetry. by eapply (se_distinct _ _ Hok).
  - intros id1 p1 id2 p2 [_ H1]%lookup_delete_Some [_ H2]%lookup_delete_Some. by apply (se_distinct _ _ Hok).
  - intros c Hc. change (capabilities s) with (capabilities s1). rewrite Hdom. by apply (se_held _ _ Hok).
  - intros ch. rewrite lookup_insert_is_Some'. intros [<-|Hch]; apply (se_next _ _ Hok); [|done].
    by rewrite (se_open _ _ Hok _ _ Hp).
  - intros Hcl. rewrite (se_closed _ _ Hok Hcl). apply delete_empty.
Qed.

Lemma unregister_ok id s held : session_ok s held -> session_ok (unregisterPending id s) held.
Proof.
  intros Hok. unfold unregisterPending, take_pending. case_match; [done|].
  destruct (pending s !! trim id) as [p|] eqn:Ep; [|done]. by apply finish_ok.
Qed.

Lemma resolve_ok result now s held : session_ok s held -> session_ok (resolvePending result now s) held.
Proof.
  intros Hok. unfold resolvePending, take_pending. case_match; [done|].
  destruct (pending s !! trim (cr_CommandId result)) as [p|] eqn:Ep; [|done]. by apply finish_ok.
Qed.

(** Closing: every waiting command's slot is released. *)
Lemma close_entry_ok err s kv l held :
  slots_ok s (kv :: l) held -> slots_ok (close_entry err s kv) l held.
Proof.
  destruct kv as [id p]. intros Hok%release_entry_ok. unfold close_entry, closeResult. cbn [fst snd].
  repeat case_match; try done. by destruct Hok; split.
Qed.

Definition same_but_slots s s' : Prop :=
  pending s' = pending s /\ closedErr s' = closedErr s /\ nextChannel s' = nextChannel s /\
  (forall ch, is_Some (channels s' !! ch) <-> is_Some (channels s !! ch)) /\
  (forall c, is_Some (capabilities s' !! c) <-> is_Some (capabilities s !! c)).

Lemma close_entry_frame err s kv : same_but_slots s (close_entry err s kv).
Proof.
  unfold close_entry. destruct (release_frame (pc_capability kv.2) s) as (f&->&Hdom). unfold closeResult.
  repeat case_match; split_and!; cbn; try done. intros ch. rewrite lookup_insert_is_Some'.
  split; [|by auto]. intros [<-|]; [by eexists|done].
Qed.

Lemma close_fold_ok err l s held :
  slots_ok s l held ->
  let s' := foldl (close_entry err) s l in slots_ok s' [] held /\ same_but_slots s s'.
Proof.
  revert s. induction l as [|kv l IH]; intros s Hok; cbn [foldl]; [split; [done|by unfold same_but_slots]|].
  destruct (IH _ (close_entry_ok err _ _ _ _ Hok)) as [Hs Hf]. split; [done|].
  destruct (close_entry_frame err s kv) as (E1&E2&E3&E4&E5). destruct Hf as (F1&F2&F3&F4&F5).
  split_and!; [congruence..| |].
  - intros ch. by rewrite F4.
  - intros c. by rewrite F5.
Qed.

Lemma close_ok e s held : session_ok s held -> session_ok (close e s) held.
Proof.
  intros Hok. unfold close. destruct (closedErr s) eqn:Ec; [done|]. set (err := default _ e).
  set (s0 := with_pending _ _ _ _ s).
  assert (slots_ok s0 (map_to_list (pending s)) held) as Hs0 by (destruct (se_slots _ _ Hok); by split).
  destruct (close_fold_ok err _ _ _ Hs0) as (Hs&(E1&E2&E3&E4&E5)). set (s' := foldl _ _ _) in *. cbn in E1, E2, E3.
  split; rewrite ?E1, ?E3.
  - by rewrite map_to_list_empty.
  - done.
  - done.
  - intros c Hc. rewrite E5. by apply (se_held _ _ Hok).
  - intros ch. rewrite E4. apply (se_next _ _ Hok).
  - done.
Qed.

Lemma same_core_ok s s' held :
  capabilities s' = capabilities s -> pending s' = pending s -> channels s' = channels s ->
  closedErr s' = closedErr s -> nextChannel s' = nextChannel s -> session_ok s held -> session_ok s' held.
Proof.
  intros E1 E2 E3 E4 E5 [[Hc Hp] Ho Hd Hh Hn Hcl]. split; rewrite ?E1, ?E2, ?E3, ?E4, ?E5; try done.
  split; by rewrite E1.
Qed.

Lemma enqueue_core control pref ctx r s :
  let s' := (enqueue control pref ctx r s).2 in
  capabilities s' = capabilities s /\ pending s' = pending s /\ channels s' = channels s /\
  closedErr s' = closedErr s /\ nextChannel s' = nextChannel s.
Proof. cbn. unfold enqueue. by repeat case_match. Qed.

Lemma session_step_ok x y : session_step x y -> session_ok x.1 x.2 -> session_ok y.1 y.2.
Proof.
  intros Hst Hok. destruct Hst; cbn [fst snd] in *.
  - by eapply acquire_ok.
  - by rewrite (refused_ok _ _ _ _ Hok H).
  - by eapply give_back_step.
  - by eapply register_ok.
  - unfold registerPending in H. repeat case_match; by simplify_eq.
  - by apply unregister_ok.
  - by apply resolve_ok.
  - by apply close_ok.
  - by rewrite (snapshot_id _ _ _ Hok).
  - by apply (same_core_ok s).
  - by apply (same_core_ok s).
  - by apply (same_core_ok s).
  - by apply (same_core_ok s).
  - destruct (enqueue_core control pref ctx r s) as (?&?&?&?&?). by apply (same_core_ok s).
Qed.

Lemma session_reachable_ok x : session_reachable x -> session_ok x.1 x.2.
Proof. induction 1; [apply start_ok|by eapply session_step_ok]. Qed.

End steps.

(** ** Properties *)

(** Whatever dispatchers, results, timeouts and disconnects do, the
    number of slots in use of each capability is exactly the number of
    commands pending or about to become pending on it, so it is never negative,
    never exceeds the worker's declared limit, and drops to zero when the last
    of them is gone: no slot leaks and none is released twice. *)
Theorem inflight_counts_commands s held c st :
  session_reachable (s, held) -> capabilities s !! c = Some st ->
  sc_inflight st = ncap c (map_to_list (pending s)) + nheld c held /\
  0 <= sc_inflight st <= sc_maxInflight st /\
  (closedErr s <> None -> held = [] -> sc_inflight st = 0).
Proof.
  intros Hr Hc. apply session_reachable_ok in Hr. cbn in Hr. destruct (so_caps _ _ _ (se_slots _ _ Hr) _ _ Hc) as (_&Hin&Hle).
  pose proof (ncap_nonneg c (map_to_list (pending s))). pose proof (nheld_nonneg c held).
  split_and!; [done|lia|done|]. intros Hcl ->. rewrite Hin, (se_closed _ _ Hr Hcl), map_to_list_empty. done.
Qed.

(** A closed channel stays as it is. *)
Lemma closeResult_keeps ch o ch' o' s :
  channels s !! ch = Some (ChClosed o) -> channels (closeResult ch' o' s) !! ch = Some (ChClosed o).
Proof.
  intros Hc. unfold closeResult. repeat case_match; try done. cbn. rewrite lookup_insert_ne; [done|]. intros ->. congruence.
Qed.

Lemma release_channels c s : channels (releaseCapability c s) = channels s.
Proof. by destruct (release_frame c s) as (f&->&_). Qed.

Lemma closed_channel_step x y ch o :
  session_step x y -> session_ok x.1 x.2 -> channels x.1 !! ch = Some (ChClosed o) ->
  channels y.1 !! ch = Some (ChClosed o).
Proof.
  intros Hst Hok Hc. destruct Hst; cbn [fst snd] in *; try done.
  - unfold tryAcquireCapability in H. repeat case_match; by simplify_eq.
  - by rewrite (refused_ok _ _ _ _ Hok H).
  - by rewrite release_channels.
  - unfold registerPending in H1. repeat case_match; simplify_eq. cbn. rewrite lookup_insert_ne; [done|].
    intros <-. assert (nextChannel s < nextChannel s) as ?; [|lia]. apply (se_next _ _ Hok). by rewrite Hc.
  - unfold registerPending in H. repeat case_match; by simplify_eq.
  - unfold unregisterPending, take_pending. repeat case_match; simplify_eq; try done.
    apply closeResult_keeps. by rewrite release_channels.
  - unfold resolvePending, take_pending. repeat case_match; simplify_eq; try done.
    apply closeResult_keeps. by rewrite release_channels.
  - unfold close. destruct (closedErr s); [done|].
    apply (foldl_inv (fun s' => channels s' !! ch = Some (ChClosed o))); [done|].
    intros s' kv _ Hs'. unfold close_entry. apply closeResult_keeps. by rewrite release_channels.
  - by rewrite (snapshot_id _ _ _ Hok).
  - destruct (enqueue_core control pref ctx r s) as (_&_&->&_). done.
Qed.

(** A result for a pending command is delivered to the channel its
    dispatcher waits on, exactly as the worker sent it, and frees the entry;
    nothing that happens later, a second result, a late unregister or the
    close of the session, changes what was delivered. *)
Theorem result_delivered_exactly_once s held result now p :
  session_reachable (s, held) -> trim (cr_CommandId result) <> "" ->
  pending s !! trim (cr_CommandId result) = Some p ->
  let s' := resolvePending result now s in
  receive (pc_resultCh p) s = None /\
  receive (pc_resultCh p) s' = Some (Some (outcome_of result now)) /\
  pending s' = delete (trim (cr_CommandId result)) (pending s) /\
  (forall result' now', cr_CommandId result' = cr_CommandId result -> resolvePending result' now' s' = s') /\
  forall y, rtc session_step (s', held) y -> receive (pc_resultCh p) y.1 = Some (Some (outcome_of result now)).
Proof.
  intros Hok%session_reachable_ok Hid Hp. cbn in Hok. pose proof (se_open _ _ Hok _ _ Hp) as Hopen.
  pose proof (resolve_ok result now _ _ Hok) as Hok'. cbv zeta.
  assert (resolvePending result now s = closeResult (pc_resultCh p) (Some (outcome_of result now))
    (releaseCapability (pc_capability p) (with_pending (closedErr s) (delete (trim (cr_CommandId result)) (pending s))
      (channels s) (nextChannel s) s))) as Hs'.
  { unfold resolvePending, take_pending. by rewrite bool_decide_false, Hp. }
  assert (channels (resolvePending result now s) !! pc_resultCh p = Some (ChClosed (Some (outcome_of result now))) /\
    pending (resolvePending result now s) = delete (trim (cr_CommandId result)) (pending s)) as [Hch Hpend].
  { rewrite Hs'. destruct (release_frame (pc_capability p) (with_pending (closedErr s)
      (delete (trim (cr_CommandId result)) (pending s)) (channels s) (nextChannel s) s)) as (f&->&_).
    unfold closeResult. cbn. rewrite Hopen. cbn. by rewrite lookup_insert_eq. }
  split_and!.
  - unfold receive. by rewrite Hopen.
  - unfold receive. by rewrite Hch.
  - done.
  - intros result' now' Eq. unfold resolvePending at 1, take_pending. rewrite Eq, Hpend, lookup_delete_eq. by case_match.
  - intros y Hy. unfold receive.
    assert (session_ok y.1 y.2 /\ channels y.1 !! pc_resultCh p = Some (ChClosed (Some (outcome_of result now)))) as [_ ->]; [|done].
    clear Hs' Hpend. remember (resolvePending result now s, held) as x eqn:Ex.
    assert (session_ok x.1 x.2 /\ channels x.1 !! pc_resultCh p = Some (ChClosed (Some (outcome_of result now)))) as Hx
      by (by rewrite Ex). clear Ex. induction Hy as [|x x' y Hst _ IH]; [done|]. destruct Hx as [Hx1 Hx2].
    apply IH. split; [by eapply session_step_ok|by eapply closed_channel_step].
Qed.

Lemma close_fold_delivers reason s held id p l s1 :
  session_ok s held -> pending s !! id = Some p ->
  (id, p) ∈ l -> NoDup l.*1 -> (forall id' p', (id', p') ∈ l -> pending s !! id' = Some p') ->
  channels s1 !! pc_resultCh p = Some ChOpen ->
  channels (foldl (close_entry reason) s1 l) !! pc_resultCh p =
    Some (ChClosed (Some (mkOutcome PEmpty "" (Some reason) zero_time))).
Proof.
  intros Hok Hp. revert s1. induction l as [|[id' p'] l IH]; intros s1 Hin Hnd Hall Hopen; [by apply elem_of_nil in Hin|].
  cbn in Hnd. apply NoDup_cons in Hnd as [Hni Hnd]. cbn [foldl].
  destruct (decide (id' = id)) as [->|Hne].
  - assert (p' = p) as -> by (assert (pending s !! id = Some p') by (apply Hall; by left); congruence).
    apply (foldl_inv (fun s' => channels s' !! pc_resultCh p = Some (ChClosed (Some (mkOutcome PEmpty "" (Some reason) zero_time))))).
    + unfold close_entry, closeResult. cbn [fst snd]. rewrite release_channels, Hopen. cbn. by rewrite lookup_insert_eq.
    + intros s2 kv _ Hs2. unfold close_entry. apply closeResult_keeps. by rewrite release_channels.
  - apply elem_of_cons in Hin as [[= -> ->]|Hin]; [done|]. apply IH; [done..|intros; apply Hall; by right|].
    unfold close_entry, closeResult. cbn [fst snd]. rewrite release_channels.
    repeat case_match; rewrite ?release_channels; try done.
    cbn. rewrite lookup_insert_ne; [by rewrite ?release_channels|]. intros Eq. apply Hne.
    eapply (se_distinct _ _ Hok); [apply Hall; by left|exact Hp|done].
Qed.

(** Closing a session fails every command that still waits with the
    close reason, releases its slot, and refuses all later registrations and
    sends; closing again changes nothing. *)
Theorem close_fails_every_waiter s held e id p :
  session_reachable (s, held) -> closedErr s = None -> pending s !! id = Some p ->
  let reason := default (ErrorString defaultCloseMessage) e in
  let s' := close e s in
  receive (pc_resultCh p) s' = Some (Some (mkOutcome PEmpty "" (Some reason) zero_time)) /\
  pending s' = ∅ /\ (forall e', close e' s' = s') /\
  (forall cid c, trim cid <> "" -> registerPending cid c s' = (Err reason, s')) /\
  (forall control pref ctx r, enqueue control pref ctx r s' = (Some (Err reason), s')).
Proof.
  intros Hok%session_reachable_ok Hcl Hp. cbn in Hok. cbv zeta.
  set (reason := default _ e). set (s0 := with_pending (Some reason) ∅ (channels s) (nextChannel s) s).
  assert (close e s = foldl (close_entry reason) s0 (map_to_list (pending s))) as Hs' by (unfold close; by rewrite Hcl).
  assert (slots_ok s0 (map_to_list (pending s)) held) as Hs0 by (destruct (se_slots _ _ Hok); by split).
  destruct (close_fold_ok reason _ _ _ Hs0) as (_&(E1&E2&_)). rewrite <- Hs' in E1, E2. cbn in E1, E2.
  split_and!.
  - unfold receive. rewrite Hs', (close_fold_delivers _ s held id p); [done..|by apply elem_of_map_to_list|apply NoDup_fst_map_to_list| |exact (se_open _ _ Hok _ _ Hp)].
    intros id' p'. apply elem_of_map_to_list.
  - done.
  - intros e'. unfold close at 1. by rewrite E2.
  - intros cid c Hc. unfold registerPending, sessionError. by rewrite bool_decide_false, E2.
  - intros. unfold enqueue, sessionError. by rewrite E2.
Qed.

(** ** The hypotheses hold: a session with one pending command *)
Section examples.

Definition demo_hello : ConnectHello :=
  mkHello "w1" "" "docker" ∅ "1" [Some (mkCapability "Echo" 2)] "secret" None.
Definition demo_session0 : activeSession := newActiveSessionAt "w1" "sid" demo_hello 0.
Definition demo_session1 : activeSession := (tryAcquireCapability "echo" demo_session0).2.
Definition demo_session : activeSession := (registerPending "c1" "echo" demo_session1).2.

Lemma demo_session_reachable : session_reachable (demo_session, []).
Proof.
  apply (session_next (demo_session1, [normalizeCapability "echo"])); [|apply (step_register "c1" "echo" demo_session1 demo_session 0 _ []); [done|by vm_compute..]].
  apply (session_next (demo_session0, [])); [apply session_start|]. by apply step_acquire.
Qed.

Lemma inflight_counts_commands_witness :
  1 = ncap "echo" (map_to_list (pending demo_session)) + nheld "echo" [] /\ 0 <= 1 <= 2 /\
  (closedErr demo_session <> None -> ([] : list string) = [] -> 1 = 0).
Proof.
  apply (inflight_counts_commands demo_session [] "echo" (mkSessionCapability 2 1) demo_session_reachable). by vm_compute.
Defined.

Definition demo_result : CommandResult := mkResult "c1" None (PJson (JObject [("message", JString "hi")])) 7.

Lemma result_delivered_exactly_once_witness :
  receive 0 (resolvePending demo_result 0 demo_session) =
  Some (Some (mkOutcome (PJson (JObject [("message", JString "hi")])) "hi" None (of_unix_milli 7))).
Proof.
  destruct (result_delivered_exactly_once demo_session [] demo_result 0 (mkPending 0 "echo") demo_session_reachable)
    as (_&Hd&_); [by vm_compute..|]. exact Hd.
Defined.

Lemma close_fails_every_waiter_witness :
  receive 0 (close None demo_session) =
  Some (Some (mkOutcome PEmpty "" (Some (ErrorString defaultCloseMessage)) zero_time)).
Proof.
  destruct (close_fails_every_waiter demo_session [] None "c1" (mkPending 0 "echo") demo_session_reachable)
    as (Hd&_); [by vm_compute..|]. exact Hd.
Defined.

End examples.

End SessionRuntime.
Export SessionRuntime.
