(* ===== verification/Writer.v ===== *)
(** The writer goroutine of a stream (writerLoop of
    console/internal/grpcserver/service_connect.go): it moves the frames that
    other goroutines queued on a session to the stream, control frames before
    commands.

    The loop has two selects. [w_second] says at which one it stands; a step is
    the case the scheduler took, and is possible only if that case is ready. *)
From S2P Require Import Prelude.
From S2P Require Import Proto.
From S2P Require Import SessionRuntime.

Module Writer.

Record writer := mkWriter {
  w_second : bool;
  w_sent : list (bool * ConnectResponse) }.     (** what the stream got; [true]: from the control queue *)

Inductive writer_case := CaseDone | CaseControl | CaseCommand | CaseDefault.

Definition send_frame (control : bool) (r : ConnectResponse) (sendErr : option error) (w : writer) (x : activeSession)
    : option (res unit) * writer * activeSession :=
  match sendErr with
  | Some e => (Some (Err e), w, x)
  | None => (None, mkWriter (negb (w_second w)) (w_sent w ++ [(control, r)]), x)
  end.

(** [None]: the case is not ready. The first component is what the loop
    returned, if it ended; [sendErr] is what [stream.Send] answers. *)
Definition writer_step (c : writer_case) (sendErr : option error) (w : writer) (x : activeSession)
    : option (option (res unit) * writer * activeSession) :=
  match c with
  | CaseDone => match closedErr x with Some _ => Some (Some (Ok tt), w, x) | None => None end
  | CaseControl =>
      match controlOutbound x with
      | r :: q => Some (send_frame true r sendErr w (with_outbound q (commandOutbound x) x))
      | [] => None
      end
  | CaseCommand =>
      match w_second w, commandOutbound x with
      | true, r :: q => Some (send_frame false r sendErr w (with_outbound (controlOutbound x) q x))
      | _, _ => None
      end
  | CaseDefault =>
      match w_second w, closedErr x, controlOutbound x with
      | false, None, [] => Some (None, mkWriter true (w_sent w), x)
      | _, _, _ => None
      end
  end.

(** The writer among the goroutines that queue frames. [run_accepted]: the
    frames that were queued. *)
Inductive writer_event :=
  | WQueue (control preferCtx : bool) (ctxErr : option error) (r : ConnectResponse)
  | WWrite (c : writer_case) (sendErr : option error).

Record writer_run := mkRun {
  run_result : option (res unit);
  run_writer : writer;
  run_session : activeSession;
  run_accepted : list (bool * ConnectResponse) }.

Definition run_event (ev : writer_event) (st : writer_run) : option writer_run :=
  match ev with
  | WQueue control preferCtx ctxErr r =>
      let '(y, x) := enqueue control preferCtx ctxErr r (run_session st) in
      Some (mkRun (run_result st) (run_writer st) x
              (match y with Some (Ok _) => run_accepted st ++ [(control, r)] | _ => run_accepted st end))
  | WWrite c sendErr =>
      match run_result st with
      | Some _ => None
      | None =>
          match writer_step c sendErr (run_writer st) (run_session st) with
          | Some (y, w, x) => Some (mkRun y w x (run_accepted st))
          | None => None
          end
      end
  end.

Fixpoint run_events (evs : list writer_event) (st : writer_run) : option writer_run :=
  match evs with
  | [] => Some st
  | ev :: evs => run_event ev st ≫= run_events evs
  end.

(** ** Lemmas *)
Section writer.
Implicit Types (st : writer_run) (x : activeSession).

Definition from_queue (control : bool) (l : list (bool * ConnectResponse)) : list ConnectResponse :=
  (filter (fun kv => kv.1 = control) l).*2.

Definition queue_of (control : bool) x : list ConnectResponse := if control then controlOutbound x else commandOutbound x.

Lemma from_queue_snoc control l control' r :
  from_queue control (l ++ [(control', r)]) = from_queue control l ++ (if bool_decide (control' = control) then [r] else []).
Proof.
  unfold from_queue. rewrite filter_app, fmap_app. f_equal. rewrite filter_cons, filter_nil. cbn.
  case_decide; case_bool_decide; done.
Qed.

(** Nothing is lost or reordered: what was queued is what was sent and what
    still waits, but for the one frame whose sending failed. *)
Definition in_order st : Prop :=
  exists lost : bool -> list ConnectResponse,
    (forall control, from_queue control (run_accepted st) =
       from_queue control (w_sent (run_writer st)) ++ lost control ++ queue_of control (run_session st)) /\
    (run_result st = None -> lost true = [] /\ lost false = []) /\ (length (lost true) + length (lost false) <= 1)%nat.

Lemma enqueue_queue control preferCtx ctxErr r x control' :
  let '(y, x') := enqueue control preferCtx ctxErr r x in
  queue_of control' x' = queue_of control' x ++ (match y with Some (Ok _) => if bool_decide (control = control') then [r] else [] | _ => [] end).
Proof.
  unfold enqueue. destruct (closedErr x); [by rewrite app_nil_r|].
  destruct ctxErr as [e|], (_ <? _); rewrite ?orb_true_r, ?orb_false_r; try (destruct preferCtx); cbn;
    destruct control, control'; cbn; by rewrite ?app_nil_r.
Qed.

Lemma queue_in_order control preferCtx ctxErr r st st' :
  in_order st -> run_event (WQueue control preferCtx ctxErr r) st = Some st' -> in_order st'.
Proof.
  intros (lost&Hq&Hr&Hl) E. cbn in E. pose proof (enqueue_queue control preferCtx ctxErr r (run_session st)) as He.
  destruct (enqueue _ _ _ _ _) as [y x']. injection E as <-. exists lost. split_and!; [|done|done]. intros control'. cbn.
  rewrite He, !app_assoc, <- (app_assoc _ (lost control')), <- Hq.
  destruct y as [[?|?]|]; rewrite ?app_nil_r; [apply from_queue_snoc|done..].
Qed.

Lemma send_in_order control r sendErr st x1 :
  in_order st -> run_result st = None ->
  queue_of control (run_session st) = r :: queue_of control x1 ->
  queue_of (negb control) (run_session st) = queue_of (negb control) x1 ->
  let '(y, w, x) := send_frame control r sendErr (run_writer st) x1 in in_order (mkRun y w x (run_accepted st)).
Proof.
  intros (lost&Hq&Hr&_) Hn Hown Hother. destruct (Hr Hn) as [L1 L2]. unfold send_frame. destruct sendErr as [e|].
  - exists (fun c => if bool_decide (c = control) then [r] else []). split_and!; [|done|destruct control; vm_compute; lia].
    intros c. cbn [run_accepted run_writer run_session]. rewrite Hq.
    destruct (decide (c = control)) as [->|Hc].
    + rewrite bool_decide_true by done. rewrite Hown. by destruct control; rewrite ?L1, ?L2.
    + rewrite bool_decide_false by done. assert (c = negb control) as -> by (by destruct c, control). rewrite Hother.
      by destruct control; cbn; rewrite ?L1, ?L2.
  - exists (fun _ => []). split_and!; [|done|cbn; lia]. intros c. cbn [run_accepted run_writer run_session w_sent].
    rewrite from_queue_snoc, Hq. destruct (decide (c = control)) as [->|Hc].
    + rewrite bool_decide_true, Hown by done. rewrite <- app_assoc. by destruct control; rewrite ?L1, ?L2.
    + rewrite bool_decide_false, app_nil_r by done. assert (c = negb control) as -> by (by destruct c, control). rewrite Hother.
      by destruct control; cbn; rewrite ?L1, ?L2.
Qed.

Lemma write_in_order c sendErr st st' : in_order st -> run_event (WWrite c sendErr) st = Some st' -> in_order st'.
Proof.
  intros Hi. cbn. destruct (run_result st) as [?|] eqn:Hr; [done|].
  destruct c; cbn.
  - destruct (closedErr _); [|done]. intros [= <-]. destruct Hi as (lost&Hq&Hn&Hl). exists lost. by split_and!.
  - destruct (controlOutbound (run_session st)) as [|r q] eqn:Eq; [done|].
    pose proof (send_in_order true r sendErr st (with_outbound q (commandOutbound (run_session st)) (run_session st)) Hi Hr Eq eq_refl) as H.
    destruct (send_frame _ _ _ _ _) as [[y w] x]. by intros [= <-].
  - destruct (w_second _); [|done]. destruct (commandOutbound (run_session st)) as [|r q] eqn:Eq; [done|].
    pose proof (send_in_order false r sendErr st (with_outbound (controlOutbound (run_session st)) q (run_session st)) Hi Hr Eq eq_refl) as H.
    destruct (send_frame _ _ _ _ _) as [[y w] x]. by intros [= <-].
  - destruct (w_second _); [done|]. destruct (closedErr _); [done|]. destruct (controlOutbound _); [|done]. intros [= <-].
    destruct Hi as (lost&Hq&Hn&Hl). exists lost. split_and!; [done|intros _; by apply Hn|done].
Qed.

Lemma run_in_order evs st st' : in_order st -> run_events evs st = Some st' -> in_order st'.
Proof.
  revert st. induction evs as [|ev evs IH]; intros st Hi; cbn [run_events]; [by intros [= <-]|].
  intros (st1&H1&H2)%bind_Some. eapply IH; [|done]. destruct ev; [by eapply queue_in_order|by eapply write_in_order].
Qed.

(** Once the loop has ended nothing is sent. *)
Lemma run_ended evs st st' : run_events evs st = Some st' -> run_result st <> None -> run_result st' <> None.
Proof.
  revert st. induction evs as [|ev evs IH]; intros st; cbn [run_events]; [by intros [= <-]|].
  intros (st1&H1&H2)%bind_Some Hr. eapply IH; [done|]. destruct ev; cbn in H1.
  - destruct (enqueue _ _ _ _ _). by injection H1 as <-.
  - by destruct (run_result st).
Qed.

(** How many commands can pass a waiting control frame. *)
Definition budget st : nat := if w_second (run_writer st) then 1 else 0.
Definition commands st : nat := length (from_queue false (w_sent (run_writer st))).
Definition controls st : nat := length (from_queue true (w_sent (run_writer st))).

Lemma event_priority ev st st1 :
  run_event ev st = Some st1 -> controlOutbound (run_session st) <> [] ->
  run_result st1 <> None \/ controls st1 = S (controls st) \/
  (controlOutbound (run_session st1) <> [] /\ controls st1 = controls st /\ (commands st1 + budget st1 <= commands st + budget st)%nat).
Proof.
  intros E Hc. destruct ev as [control preferCtx ctxErr r|c sendErr]; cbn in E.
  - pose proof (enqueue_queue control preferCtx ctxErr r (run_session st) true) as He. destruct (enqueue _ _ _ _ _) as [y x'].
    injection E as <-. right; right. split_and!; [|done|done]. cbn in *. rewrite He. by intros [? _]%app_nil.
  - destruct (run_result st); [done|]. unfold budget, commands, controls. destruct c; cbn in E.
    + destruct (closedErr _); [|done]. injection E as <-. by left.
    + destruct (controlOutbound _) as [|r q]; [done|]. destruct sendErr; cbn in E; injection E as <-; [by left|].
      right; left. cbn -[from_queue]. rewrite from_queue_snoc, length_app. case_bool_decide; [cbn; lia|done].
    + destruct (w_second (run_writer st)) eqn:Ew; [|done]. destruct (commandOutbound _) as [|r q]; [done|].
      destruct sendErr; cbn in E; injection E as <-; [by left|]. right; right. cbn -[from_queue]. rewrite !from_queue_snoc, !length_app.
      repeat case_bool_decide; try done. split_and!; cbn -[from_queue]; rewrite ?Ew; cbn; [done|lia|lia].
    + by destruct (w_second (run_writer st)), (closedErr (run_session st)), (controlOutbound (run_session st)).
Qed.

Lemma event_controls ev st st1 : run_event ev st = Some st1 -> (controls st <= controls st1)%nat.
Proof.
  unfold controls. destruct ev as [control preferCtx ctxErr r|c sendErr]; cbn.
  - destruct (enqueue _ _ _ _ _). by intros [= <-].
  - destruct (run_result st); [done|].
    destruct c; cbn; repeat case_match; intros E; simplify_eq; cbn -[from_queue]; try lia;
      match goal with H : send_frame _ _ ?e _ _ = _ |- _ => destruct e; injection H as <- <- <- end; cbn -[from_queue];
      rewrite ?from_queue_snoc, ?length_app; lia.
Qed.

Lemma run_controls evs st st' : run_events evs st = Some st' -> (controls st <= controls st')%nat.
Proof.
  revert st. induction evs as [|ev evs IH]; intros st; cbn [run_events]; [by intros [= <-]|].
  intros (st1&H1&H2)%bind_Some. apply event_controls in H1. apply IH in H2. lia.
Qed.

Lemma run_priority evs st st' :
  run_events evs st = Some st' -> controlOutbound (run_session st) <> [] -> controls st' = controls st -> run_result st' = None ->
  (commands st' + budget st' <= commands st + budget st)%nat.
Proof.
  revert st. induction evs as [|ev evs IH]; intros st; cbn [run_events]; [by intros [= <-]|].
  intros (st1&H1&H2)%bind_Some Hc Hs Hr. pose proof (run_controls _ _ _ H2) as Hm.
  destruct (event_priority _ _ _ H1 Hc) as [He|[He|(Hc1&E1&Hb)]]; [by destruct (run_ended _ _ _ H2 He)|lia|].
  etrans; [|exact Hb]. apply IH; [done|done|congruence|done].
Qed.

End writer.

(** ** Theorem *)

(** The writer keeps the order of each queue: whatever is queued
    meanwhile, the frames queued on it are those that were sent, in order,
    followed by those that wait, except for one frame whose sending ended the
    loop. And commands cannot hold up control frames: while a control frame
    waits and none is sent, at most one command is sent. *)
Theorem writer_keeps_order_and_priority evs st st' :
  in_order st -> run_events evs st = Some st' ->
  in_order st' /\
  (controlOutbound (run_session st) <> [] ->
   controls st' = controls st -> run_result st' = None -> (commands st' <= commands st + 1)%nat).
Proof.
  intros Hi Hrun. split; [by eapply run_in_order|]. intros Hc Hs Hr. pose proof (run_priority _ _ _ Hrun Hc Hs Hr) as H.
  unfold budget in H. destruct (w_second (run_writer st)); lia.
Qed.

(** A heartbeat acknowledgement is queued while a command waits. *)
Section examples.

Definition demo_writer : writer_run := mkRun None (mkWriter true []) demo_session [].
Definition demo_events : list writer_event :=
  [WQueue false false None RecoveryAck; WQueue true false None (HeartbeatAck 5); WWrite CaseCommand None; WWrite CaseControl None].

Lemma writer_keeps_order_and_priority_witness :
  exists st', run_events demo_events demo_writer = Some st' /\ in_order st'.
Proof.
  destruct (run_events demo_events demo_writer) as [st'|] eqn:E; [|by vm_compute in E]. exists st'. split; [done|].
  apply (writer_keeps_order_and_priority demo_events demo_writer st'); [|done].
  exists (fun _ => []). split_and!; [by intros []|done|cbn; lia].
Defined.

End examples.

End Writer.
Export Writer.
