(* ===== verification/Service.v ===== *)
(** The state of [RegistryService] (console/internal/grpcserver/service.go) and
    its database start-up (console/internal/persistence/db.go).

    The route table holds the store: [terminalRouteStore] and [store] are the
    same [*registry.Store] in [NewRegistryService], so the connection in
    [svc_routes] is the database of every other operation too.  Sessions and
    task records are shared by pointer (the table of sessions, the connection's
    goroutine and the dispatchers hold the same [*activeSession]), so both live
    in heaps: a session by its session id, a task record by its task id. *)
From S2P Require Import Prelude.
From S2P Require Import Net.
From S2P Require Import Json.
From S2P Require Import Sql.
From S2P Require Import Proto.
From S2P Require Import Registry.
From S2P Require Import RouteStore.
From S2P Require Import OwnerScope.
From S2P Require Import TerminalRoutes.
From S2P Require Import SessionRuntime.

Module Service.

Inductive WorkerConnectionConflictPolicy :=
  | WorkerConnectionConflictPolicyReplace | WorkerConnectionConflictPolicyReject.

#[export] Instance policy_eq_dec : EqDecision WorkerConnectionConflictPolicy.
Proof. solve_decision. Defined.

Record taskRecord := mkTaskRecord { tr_canceled : bool; tr_done : bool }.

(** [persistence.Hasher] with its key: the keyed hash of a secret, and
    [Equal], which compares the stored hash with that of the secret given. *)
Definition Hasher := string -> string.
Definition Hasher_Equal (h : Hasher) (hash plain : string) : bool := bool_decide (trim hash = h plain).

(** What [ConfigureProxy] sets. *)
Record ProxySettings := mkProxySettings {
  proxyEnabled : bool;
  proxyAllowedWorkerCIDRs : list Net.Prefix;
  proxyAllowedWorkerPorts : list Z;
  proxyAllowedDirectDomains : list string }.

(** The settings, fixed after start-up. *)
Record Config := mkConfig {
  cfg_hasher : option Hasher;
  cfg_credentialHashAlgo : string;
  cfg_heartbeatIntervalSec : Z;
  cfg_offlineTTLSec : Z;
  cfg_policy : WorkerConnectionConflictPolicy;
  cfg_taskRetention : duration;
  cfg_computerUseSessionIDPrefix : string;
  cfg_proxy : ProxySettings }.

Record RegistryService := mkService {
  svc_config : Config;
  svc_routes : Routes Conn;
  svc_sessions : gmap string string;         (** node id -> session id *)
  svc_heap : gmap string activeSession;      (** session id -> session *)
  svc_roundRobin : Z;
  svc_credentials : gmap string string;
  svc_tasks : gset string;                   (** task ids with a runtime record *)
  svc_records : gmap string taskRecord;
  svc_reservations : gset string;
  svc_lastInlineTaskPruneUnixMs : Z;
  svc_critical : list error;                 (** calls of criticalPersistenceFailureFn *)
  svc_markRunning : gmap string error }.     (** the variable [markRunningErr] that an [executeTask]
                                                 shares with its callback, by task id *)

Definition with_svc_config (x : Config) (s : RegistryService) : RegistryService :=
  mkService x (svc_routes s) (svc_sessions s) (svc_heap s) (svc_roundRobin s) (svc_credentials s) (svc_tasks s)
    (svc_records s) (svc_reservations s) (svc_lastInlineTaskPruneUnixMs s) (svc_critical s) (svc_markRunning s).
Definition with_svc_routes (r : Routes Conn) (s : RegistryService) : RegistryService :=
  mkService (svc_config s) r (svc_sessions s) (svc_heap s) (svc_roundRobin s) (svc_credentials s) (svc_tasks s)
    (svc_records s) (svc_reservations s) (svc_lastInlineTaskPruneUnixMs s) (svc_critical s) (svc_markRunning s).
Definition with_svc_sessions (m : gmap string string) (h : gmap string activeSession) (s : RegistryService) : RegistryService :=
  mkService (svc_config s) (svc_routes s) m h (svc_roundRobin s) (svc_credentials s) (svc_tasks s)
    (svc_records s) (svc_reservations s) (svc_lastInlineTaskPruneUnixMs s) (svc_critical s) (svc_markRunning s).
Definition with_svc_round_robin (n : Z) (s : RegistryService) : RegistryService :=
  mkService (svc_config s) (svc_routes s) (svc_sessions s) (svc_heap s) n (svc_credentials s) (svc_tasks s)
    (svc_records s) (svc_reservations s) (svc_lastInlineTaskPruneUnixMs s) (svc_critical s) (svc_markRunning s).
Definition with_svc_credentials (c : gmap string string) (s : RegistryService) : RegistryService :=
  mkService (svc_config s) (svc_routes s) (svc_sessions s) (svc_heap s) (svc_roundRobin s) c (svc_tasks s)
    (svc_records s) (svc_reservations s) (svc_lastInlineTaskPruneUnixMs s) (svc_critical s) (svc_markRunning s).
Definition with_svc_runtime (t : gset string) (r : gmap string taskRecord) (s : RegistryService) : RegistryService :=
  mkService (svc_config s) (svc_routes s) (svc_sessions s) (svc_heap s) (svc_roundRobin s) (svc_credentials s) t
    r (svc_reservations s) (svc_lastInlineTaskPruneUnixMs s) (svc_critical s) (svc_markRunning s).
Definition with_svc_reservations (r : gset string) (s : RegistryService) : RegistryService :=
  mkService (svc_config s) (svc_routes s) (svc_sessions s) (svc_heap s) (svc_roundRobin s) (svc_credentials s)
    (svc_tasks s) (svc_records s) r (svc_lastInlineTaskPruneUnixMs s) (svc_critical s) (svc_markRunning s).
Definition with_svc_last_prune (t : Z) (s : RegistryService) : RegistryService :=
  mkService (svc_config s) (svc_routes s) (svc_sessions s) (svc_heap s) (svc_roundRobin s) (svc_credentials s)
    (svc_tasks s) (svc_records s) (svc_reservations s) t (svc_critical s) (svc_markRunning s).
Definition with_svc_critical (l : list error) (s : RegistryService) : RegistryService :=
  mkService (svc_config s) (svc_routes s) (svc_sessions s) (svc_heap s) (svc_roundRobin s) (svc_credentials s)
    (svc_tasks s) (svc_records s) (svc_reservations s) (svc_lastInlineTaskPruneUnixMs s) l (svc_markRunning s).
Definition with_svc_mark_running (m : gmap string error) (s : RegistryService) : RegistryService :=
  mkService (svc_config s) (svc_routes s) (svc_sessions s) (svc_heap s) (svc_roundRobin s) (svc_credentials s)
    (svc_tasks s) (svc_records s) (svc_reservations s) (svc_lastInlineTaskPruneUnixMs s) (svc_critical s) m.

Definition svc_taskRetention (s : RegistryService) : duration := cfg_taskRetention (svc_config s).
(** [time.Duration(s.offlineTTLSec)*time.Second]; the int32 product fits. *)
Definition offlineTTL (s : RegistryService) : duration := cfg_offlineTTLSec (svc_config s) * second.

Definition svc_conn (s : RegistryService) : option Conn := terminalRouteStore (svc_routes s).
Definition svc_db (s : RegistryService) : option DB := data <$> svc_conn s.

(** A statement or transaction of the store; no store is [unavailable]. *)
Definition run_db {A} (unavailable : error) (m : M A) (s : RegistryService) : res A * RegistryService :=
  match svc_conn s with
  | None => (Err unavailable, s)
  | Some c => let '(r, c') := m c in (r, with_svc_routes (with_store (Some c') (svc_routes s)) s)
  end.

(** An operation of the route table. *)
Definition run_routes {A} (f : Routes Conn -> A * Routes Conn) (s : RegistryService) : A * RegistryService :=
  let '(a, r) := f (svc_routes s) in (a, with_svc_routes r s).

Definition defaultTaskRetentionWindow : duration := 10 * minute.
Definition defaultTerminalRouteTTL : duration := 30 * minute.

Definition defaultComputerUseSessionIDPrefix : string := "CU:".
Definition HashAlgorithmHMACSHA256 : string := "hmac-sha256".

Definition NewRegistryService (store : option Conn) (initialCredentials : gmap string string)
    (heartbeatIntervalSec offlineTTLSec : Z) : RegistryService :=
  mkService (mkConfig None "legacy-plain" heartbeatIntervalSec offlineTTLSec WorkerConnectionConflictPolicyReplace
               defaultTaskRetentionWindow defaultComputerUseSessionIDPrefix (mkProxySettings false [] [] []))
    (fresh_routes defaultTerminalRouteTTL store None) ∅ ∅ 0 initialCredentials ∅ ∅ ∅ 0 [] ∅.

Definition SetComputerUseSessionIDPrefix (prefix : string) (s : RegistryService) : RegistryService :=
  let c := svc_config s in
  let trimmed := trim prefix in
  let trimmed := if bool_decide (trimmed = "") then defaultComputerUseSessionIDPrefix else trimmed in
  with_svc_config (mkConfig (cfg_hasher c) (cfg_credentialHashAlgo c) (cfg_heartbeatIntervalSec c)
    (cfg_offlineTTLSec c) (cfg_policy c) (cfg_taskRetention c) trimmed (cfg_proxy c)) s.

Definition SetWorkerConnectionConflictPolicy (policy : WorkerConnectionConflictPolicy) (s : RegistryService)
    : RegistryService :=
  let c := svc_config s in
  with_svc_config (mkConfig (cfg_hasher c) (cfg_credentialHashAlgo c) (cfg_heartbeatIntervalSec c)
    (cfg_offlineTTLSec c) policy (cfg_taskRetention c) (cfg_computerUseSessionIDPrefix c) (cfg_proxy c)) s.

Definition SetTaskRetention (retention : duration) (s : RegistryService) : RegistryService :=
  if retention <=? 0 then s else
  let c := svc_config s in
  with_svc_config (mkConfig (cfg_hasher c) (cfg_credentialHashAlgo c) (cfg_heartbeatIntervalSec c)
    (cfg_offlineTTLSec c) (cfg_policy c) retention (cfg_computerUseSessionIDPrefix c) (cfg_proxy c)) s.

Definition SetHasher (hasher : option Hasher) (s : RegistryService) : RegistryService :=
  let c := svc_config s in
  with_svc_config (mkConfig hasher (match hasher with Some _ => HashAlgorithmHMACSHA256 | None => "legacy-plain" end)
    (cfg_heartbeatIntervalSec c) (cfg_offlineTTLSec c) (cfg_policy c) (cfg_taskRetention c)
    (cfg_computerUseSessionIDPrefix c) (cfg_proxy c)) s.

(** grpcserver/proxy_routes.go *)
Definition ConfigureProxy (enabled : bool) (allowedWorkerCIDRs : list Net.Prefix) (allowedWorkerPorts : list Z)
    (allowedDirectDomains : list string) (s : RegistryService) : RegistryService :=
  let c := svc_config s in
  with_svc_config (mkConfig (cfg_hasher c) (cfg_credentialHashAlgo c) (cfg_heartbeatIntervalSec c)
    (cfg_offlineTTLSec c) (cfg_policy c) (cfg_taskRetention c) (cfg_computerUseSessionIDPrefix c)
    (mkProxySettings enabled allowedWorkerCIDRs allowedWorkerPorts allowedDirectDomains)) s.

(** [fmt.Errorf(prefix + ": %w", err)] around a statement. *)
Definition wrap_error {A} (prefix : string) (m : M A) : M A := fun c =>
  match m c with
  | (Err e, c) => (Err (Wrapped prefix e ""), c)
  | (Ok a, c) => (Ok a, c)
  end.

Definition defaultTaskRetentionD : Z := 30.
Definition hour : duration := 60 * minute.

(** The recovery statements of [persistence.Open], after the migrations. *)
Definition startup_recovery (taskRetentionDay nowMS : Z) : M unit :=
  let taskRetentionDays := if taskRetentionDay <=? 0 then defaultTaskRetentionD else taskRetentionDay in
  let retentionMS := milliseconds (i64 (i64 (taskRetentionDays * 24) * hour)) in
  _ ← wrap_error "startup recovery terminal session routes: " (Sql.DeleteExpiredTerminalSessionRoutes nowMS);
  let expiresMS := i64 (nowMS + retentionMS) in
  _ ← wrap_error "startup recovery tasks: " (MarkNonTerminalTasksFailedOnStartup nowMS nowMS expiresMS);
  _ ← wrap_error "startup recovery sessions: " ClearAllWorkerSessions;
  mret tt.

Lemma wrap_ok {A} prefix (m : M A) c a c' : wrap_error prefix m c = (Ok a, c') -> m c = (Ok a, c').
Proof. unfold wrap_error. destruct (m c) as [[]]; [by intros [= -> ->]|done]. Qed.

Definition getSession (node : string) (s : RegistryService) : option activeSession :=
  svc_sessions s !! node ≫= fun sid => svc_heap s !! sid.

(** An update of a session object, wherever it is referenced from. *)
Definition update_session (sid : string) (x : activeSession) (s : RegistryService) : RegistryService :=
  with_svc_sessions (svc_sessions s) (<[sid := x]> (svc_heap s)) s.

End Service.
Export Service.
