(* ===== verification/ProxySession.v ===== *)
(** What the proxy knows of a connected worker
    (console/internal/grpcserver/proxy_routes.go): the endpoint or the direct
    mode its hello advertises, checked against the networks, ports and domains
    the console allows, and the key its route tokens are signed with. *)
From stdpp Require Import pretty.
From S2P Require Import Prelude.
From S2P Require Import Json.
From S2P Require Import Net.
From S2P Require Import Proto.
From S2P Require Import OwnerScope.
From S2P Require Import ProxyToken.
From S2P Require Import SessionRuntime.
From S2P Require Import Service.
Local Open Scope Z_scope.

Module ProxySession.

Definition normalizeAllowedProxyEndpoint (raw : string) (allowedCIDRs : list Net.Prefix) (allowedPorts : list Z) : res string :=
  match SplitHostPort (trim raw) with
  | None => Err (ErrorString "proxy endpoint must be an IP address with port")
  | Some (host, rawPort) =>
      match ParseAddr (trim host) with
      | None => Err (ErrorString "proxy endpoint host must be a unicast IP address")
      | Some address =>
          if negb (bool_decide (Zone address = "")) then Err (ErrorString "proxy endpoint host must be a unicast IP address") else
          let address := Unmap address in
          if negb (IsGlobalUnicast address) then Err (ErrorString "proxy endpoint host must be a unicast IP address") else
          match Atoi rawPort with
          | Err _ => Err (ErrorString "proxy endpoint port must be between 1 and 65535")
          | Ok port =>
              if (port <? 1) || (65535 <? port) then Err (ErrorString "proxy endpoint port must be between 1 and 65535") else
              if negb (existsb (fun allowedPort => allowedPort =? port) allowedPorts)
              then Err (ErrorString "proxy endpoint port is outside the allowed worker ports") else
              if negb (existsb (fun prefix => Contains prefix address) allowedCIDRs)
              then Err (ErrorString "proxy endpoint is outside allowed worker CIDRs") else
              Ok (JoinHostPort (AddrString address) (pretty port))
          end
      end
  end.

(** The session with its proxy fields, or the error of the handshake. *)
Definition configureSessionProxy (settings : ProxySettings) (session : activeSession) (hello : ConnectHello)
    (workerSecret : string) : res activeSession :=
  if negb (proxyEnabled settings) then Ok session else
  let rawEndpoint := trim (default "" (Labels hello !! ProxyToken.ProxyEndpointLabel)) in
  let rawDirect := to_lower (trim (default "" (Labels hello !! ProxyToken.ProxyDirectLabel))) in
  if negb (bool_decide (rawEndpoint = "")) && negb (bool_decide (rawDirect = ""))
  then Err (ErrorString "worker cannot advertise both proxy endpoint and direct proxy mode") else
  if negb (bool_decide (rawDirect = "")) then
    if negb (bool_decide (rawDirect = ProxyToken.ProxyDirectE2B)) then Err (ErrorString "unsupported direct proxy mode") else
    if negb (hasCapability taskCapabilityTerminalProxy session)
    then Err (ErrorString "direct proxy worker must declare terminalProxy capability") else
    Ok (with_proxy (proxyEndpoint session) (routeTokenKey session) rawDirect session)
  else if bool_decide (rawEndpoint = "") then Ok session else
  match normalizeAllowedProxyEndpoint rawEndpoint (proxyAllowedWorkerCIDRs settings) (proxyAllowedWorkerPorts settings) with
  | Err e => Err e
  | Ok endpoint =>
      match ProxyToken.DeriveKey workerSecret with
      | Err e => Err (Wrapped "derive proxy route token key: " e "")
      | Ok key => Ok (with_proxy endpoint key (proxyDirect session) session)
      end
  end.

(** An accepted endpoint is an address of the allowed networks and ports. *)
Definition endpoint_allowed (settings : ProxySettings) (endpoint : string) : Prop :=
  exists address port prefix,
    prefix ∈ proxyAllowedWorkerCIDRs settings /\ Contains prefix address = true /\ IsGlobalUnicast address = true /\
    port ∈ proxyAllowedWorkerPorts settings /\ 1 <= port <= 65535 /\
    endpoint = JoinHostPort (AddrString address) (pretty port).

Section lemmas.

Lemma existsb_elem {A} (p : A -> bool) l : existsb p l = true -> exists x, x ∈ l /\ p x = true.
Proof. intros (x&Hx&Hp)%existsb_exists. exists x. by rewrite list_elem_of_In. Qed.

Lemma normalize_allowed settings raw endpoint :
  normalizeAllowedProxyEndpoint raw (proxyAllowedWorkerCIDRs settings) (proxyAllowedWorkerPorts settings) = Ok endpoint ->
  endpoint_allowed settings endpoint.
Proof.
  unfold normalizeAllowedProxyEndpoint. destruct (SplitHostPort _) as [[host rawPort]|]; [|done].
  destruct (ParseAddr _) as [address|]; [|done]. case_bool_decide; cbn [negb]; [|done].
  destruct (IsGlobalUnicast _) eqn:Eu; cbn [negb]; [|done]. destruct (Atoi _) as [port|]; [|done].
  destruct ((port <? 1) || (65535 <? port)) eqn:Ep; [done|]. bool_prop.
  destruct (existsb (fun allowedPort => allowedPort =? port) _) eqn:Eport; cbn [negb]; [|done].
  destruct (existsb (fun prefix => Contains prefix _) _) eqn:Ec; cbn [negb]; [|done].
  intros [= <-]. apply existsb_elem in Eport as (q&Hq&Eq). apply existsb_elem in Ec as (prefix&Hin&Hc).
  apply Z.eqb_eq in Eq as ->. exists (Unmap address), port, prefix. split_and!; try done; lia.
Qed.

(** What a configured session looks like: nothing else of it changes. *)
Definition proxy_of (settings : ProxySettings) (hello : ConnectHello) (secret : string) (x y : activeSession) : Prop :=
  exists endpoint key direct, y = with_proxy endpoint key direct x /\
    (endpoint = proxyEndpoint x \/
     proxyEnabled settings = true /\ endpoint_allowed settings endpoint /\ ProxyToken.DeriveKey secret = Ok key).

Lemma configured settings x hello secret y : configureSessionProxy settings x hello secret = Ok y -> proxy_of settings hello secret x y.
Proof.
  unfold configureSessionProxy. assert (x = with_proxy (proxyEndpoint x) (routeTokenKey x) (proxyDirect x) x) as Ex by by destruct x.
  destruct (proxyEnabled settings) eqn:Ee; cbn [negb]; [|intros [= <-]; rewrite Ex at 2; eexists _, _, _; eauto].
  destruct (_ && _); [done|]. case_bool_decide; cbn [negb].
  - case_bool_decide; [intros [= <-]; rewrite Ex at 2; eexists _, _, _; eauto|].
    destruct (normalizeAllowedProxyEndpoint _ _ _) as [endpoint|] eqn:En; [|done].
    destruct (ProxyToken.DeriveKey secret) as [key|] eqn:Ek; [|done]. intros [= <-].
    eexists _, _, _. split; [done|]. right. split_and!; [done| |done]. by eapply normalize_allowed.
  - repeat case_match; try done. intros [= <-]. eexists _, _, _. eauto.
Qed.

Lemma configured_off settings x hello secret : proxyEnabled settings = false -> configureSessionProxy settings x hello secret = Ok x.
Proof. intros H. unfold configureSessionProxy. by rewrite H. Qed.

(** The two modes of a session that started with neither. *)
Lemma configured_modes settings x hello secret y : configureSessionProxy settings x hello secret = Ok y ->
  proxyEndpoint x = "" -> proxyDirect x = "" ->
  (proxyEndpoint y <> "" -> endpoint_allowed settings (proxyEndpoint y) /\ ProxyToken.DeriveKey secret = Ok (routeTokenKey y) /\ proxyDirect y = "") /\
  (proxyDirect y <> "" -> proxyDirect y = ProxyToken.ProxyDirectE2B /\ hasCapability taskCapabilityTerminalProxy y = true).
Proof.
  intros H Hx Hd. unfold configureSessionProxy in H. destruct (proxyEnabled settings); cbn [negb] in H; [|injection H as <-; by rewrite Hx, Hd].
  destruct (_ && _); [done|]. case_bool_decide as E1; cbn [negb] in H.
  - case_bool_decide as E2; [injection H as <-; by rewrite Hx, Hd|].
    destruct (normalizeAllowedProxyEndpoint _ _ _) as [endpoint|] eqn:En; [|done].
    destruct (ProxyToken.DeriveKey secret) as [key|] eqn:Ek; [|done]. injection H as <-. cbn. rewrite Hd. split; [|done].
    intros _. split_and!; [by eapply normalize_allowed|done|done].
  - case_bool_decide as E3; cbn [negb] in H; [|done]. destruct (hasCapability _ x) eqn:Ec; cbn [negb] in H; [|done]. injection H as <-. cbn. by rewrite Hx.
Qed.

End lemmas.

End ProxySession.
Export ProxySession.
