(* ===== verification/Dispatch.v ===== *)
(** Command dispatch (console/internal/grpcserver/service_dispatch.go): which
    worker session runs a command, one attempt to run it there, the retry over
    workers that refuse a new terminal session for lack of capacity, and the
    callers that dispatch without a task: the echo command and the renewal of
    a terminal session's lease (terminal_session_lease.go).

    The clock, the context, generated ids and the scheduler are arguments: an
    [attempt_env] says what the outside does during one attempt.  Between the
    send and the result of a command every other goroutine of the service may
    run; [ae_others] is what they do to the state meanwhile, an arbitrary
    function here.  A context that is waited on ends eventually, because every
    dispatch has a deadline. *)
From S2P Require Import Prelude.
From S2P Require Import Json.
From S2P Require Import Sql.
From S2P Require Import Proto.
From S2P Require Import Registry.
From S2P Require Import OwnerScope.
From S2P Require Import RouteStore.
From S2P Require Import TerminalRoutes.
From S2P Require Import SessionRuntime.
From S2P Require Import Service.

Module Dispatch.

Definition terminalSessionNotFoundCode : string := "session_not_found".
Definition terminalSessionCapacityExceededCode : string := "session_capacity_exceeded".
Definition terminalSessionUnavailableCode : string := "session_unavailable".
Definition echoCapabilityName : string := "echo".
Definition computerUseCapabilityName : string := "computeruse".
Definition readImageCapabilityName : string := "readimage".
Definition defaultEchoTimeout : duration := 5 * second.
Definition terminalSessionLeaseRenewTimeout : duration := 10 * second.

Record sessionPickOptions := mkPickOptions {
  po_terminalSessionIntent : terminalSessionIntent;
  po_excludedNodeIDs : gset string;
  po_targetNodeID : string }.

Record dispatchAttemptResult := mkAttemptResult {
  dar_outcome : commandOutcome;
  dar_capacityRetryable : bool }.

(** ** Error predicates *)
Definition isCommandErrorCode (err : error) (code : string) : bool :=
  match as_command_error err with
  | Some (c, _) => equal_fold (trim c) code
  | None => false
  end.
Definition isSessionNotFoundCommandError (err : error) : bool := isCommandErrorCode err terminalSessionNotFoundCode.
Definition isSessionCapacityCommandError (err : error) : bool :=
  isCommandErrorCode err terminalSessionCapacityExceededCode.
Definition terminalSessionUnavailableError : error :=
  CommandExecutionError terminalSessionUnavailableCode "terminal session is temporarily unavailable".

(** ** Payloads *)
Definition lease_field (k : string) : option (json -> Z -> Z * bool) :=
  if equal_fold k "lease_expires_unix_ms" then Some dec_int else None.

Definition terminalSessionLeaseExpiresUnixMs (p : payload) : Z :=
  if payload_empty p then 0 else
  match unmarshal_struct lease_field 0 p with
  | Some lease => if lease <=? 0 then 0 else lease
  | None => 0
  end.

Definition lease_renew_field (k : string)
    : option (json -> terminalLeaseRenewPayload -> terminalLeaseRenewPayload * bool) :=
  if equal_fold k "session_id" then Some (fun v s =>
    let '(x, b) := dec_string v (lr_SessionID s) in (mkLeaseRenew x (lr_LeaseTTLSec s), b))
  else if equal_fold k "lease_ttl_sec" then Some (fun v s =>
    let '(x, b) := dec_int v (lr_LeaseTTLSec s) in (mkLeaseRenew (lr_SessionID s) x, b))
  else None.

Definition terminalSessionIDFromPayload (capability : string) (p : payload) : string :=
  if payload_empty p then "" else
  if bool_decide (capability = taskCapabilityTerminalExec)
  then match unmarshal_exec p with Some d => trim (ex_SessionID d) | None => "" end
  else if bool_decide (capability = taskCapabilityTerminalLeaseRenew)
  then match unmarshal_struct lease_renew_field (mkLeaseRenew "" 0) p with
       | Some d => trim (lr_SessionID d) | None => "" end
  else if bool_decide (capability = taskCapabilityTerminalResource)
  then match unmarshal_resource p with Some d => trim (rs_SessionID d) | None => "" end
  else "".

Definition buildEchoPayload (message : string) : payload := PJson (JObject [("message", JString message)]).

(** ** Sessions by reference *)

(** A method call on the session object [sid]. *)
Definition on_session {A} (dflt : A) (sid : string) (f : activeSession -> A * activeSession) (s : RegistryService)
    : A * RegistryService :=
  match svc_heap s !! sid with
  | Some x => let '(a, x') := f x in (a, update_session sid x' s)
  | None => (dflt, s)
  end.

(** [sessions[nodeID]], as a reference. *)
Definition session_ref (node : string) (s : RegistryService) : option (string * activeSession) :=
  match svc_sessions s !! node with
  | Some sid => match svc_heap s !! sid with Some x => Some (sid, x) | None => None end
  | None => None
  end.

Definition session_node (sid : string) (s : RegistryService) : string :=
  match svc_heap s !! sid with Some x => nodeID x | None => "" end.

(** ** Choosing a session *)
Definition isNodeExcluded (node : string) (excluded : gset string) : bool :=
  if bool_decide (excluded = ∅) then false else bool_decide (trim node ∈ excluded).

(** A query of the store; its own fallback covers a failing database. *)
Definition query {A} (dflt : A) (m : M A) (s : RegistryService) : A * RegistryService :=
  match run_db (ErrorString "") m s with
  | (Ok a, s) => (a, s)
  | (Err _, s) => (dflt, s)
  end.

Definition listOnlineNodeIDsForCapability (capability ownerID : string) (now : time) (s : RegistryService)
    : list string * RegistryService :=
  let normalizedCapability := normalizeCapability capability in
  if bool_decide (normalizedCapability = computerUseCapabilityName)
     || bool_decide (normalizedCapability = readImageCapabilityName) then
    let normalizedOwnerID := normalizeTaskOwnerID ownerID in
    if bool_decide (normalizedOwnerID = "") then ([], s)
    else query [] (ListOnlineNodeIDsByOwnerTypeAndCapability normalizedOwnerID WorkerTypeSys normalizedCapability
                     now (offlineTTL s)) s
  else query [] (ListOnlineNodeIDsByCapability normalizedCapability now (offlineTTL s)) s.

(** The order in which the loop visits the nodes: from index [start] on, round
    the list ([start] is the counter as an [int], which is not negative before
    2^63 picks). *)
Definition rotation (start : Z) (nodes : list string) : list string :=
  omap (fun i => nodes !! Z.to_nat (Z.rem (i64 (start + Z.of_nat i)) (Z.of_nat (length nodes))))
    (seq 0 (length nodes)).

Record candidate := mkCand { c_session : string; c_inflight : Z; c_group : nat }.

Definition capacityGroupKnownAvailable : nat := 0.
Definition capacityGroupUnknown : nat := 1.
Definition capacityGroupReportedFull : nat := 2.

Definition capacity_group (capacityAware : bool) (c : terminalSessionCapacitySnapshot) : nat :=
  if negb capacityAware then capacityGroupKnownAvailable
  else if negb (cs_known c) then capacityGroupUnknown
  else if (0 <? cs_maxActiveSessions c) && (cs_maxActiveSessions c <=? cs_activeSessionCount c)
  then capacityGroupReportedFull else capacityGroupKnownAvailable.

(** One turn of the scan: whether the node has a usable session, and the
    candidate if it has room. *)
Definition scan_node (capability : string) (excluded : gset string) (capacityAware : bool)
    (acc : (bool * list candidate) * RegistryService) (node : string) : (bool * list candidate) * RegistryService :=
  let '((hasSession, found), s) := acc in
  if isNodeExcluded node excluded then acc else
  match session_ref node s with
  | None => acc
  | Some (sid, x) =>
      if negb (isReady x) || negb (hasCapability capability x) then acc else
      let '(snap, x') := inflightSnapshot capability x in
      let s := update_session sid x' s in
      match snap with
      | None => ((true, found), s)
      | Some (inflight, maxInflight) =>
          if maxInflight <=? inflight then ((true, found), s)
          else ((true, found ++ [mkCand sid inflight (capacity_group capacityAware (terminalCapacity x))]), s)
      end
  end.

(** [sort.SliceStable] by the in-flight count: the sorted list in which equal
    elements keep their order. *)
Fixpoint insert_candidate (c : candidate) (l : list candidate) : list candidate :=
  match l with
  | [] => [c]
  | d :: l' => if c_inflight d <? c_inflight c then d :: insert_candidate c l' else c :: l
  end.
Definition sort_candidates (l : list candidate) : list candidate := foldr insert_candidate [] l.

Definition in_group (g : nat) (l : list candidate) : list candidate :=
  List.filter (fun c => Nat.eqb (c_group c) g) l.

Definition preference (found : list candidate) : list candidate :=
  sort_candidates (in_group capacityGroupKnownAvailable found) ++
  sort_candidates (in_group capacityGroupUnknown found) ++
  sort_candidates (in_group capacityGroupReportedFull found).

Fixpoint acquire_first (capability : string) (l : list candidate) (s : RegistryService)
    : option string * RegistryService :=
  match l with
  | [] => (None, s)
  | c :: l =>
      match on_session false (c_session c) (tryAcquireCapability capability) s with
      | (true, s) => (Some (c_session c), s)
      | (false, s) => acquire_first capability l s
      end
  end.

Definition pickSessionForCapability (capability ownerID : string) (options : sessionPickOptions) (now : time)
    (s : RegistryService) : res string * RegistryService :=
  match listOnlineNodeIDsForCapability capability ownerID now s with
  | ([], s) => (Err (Sentinel ErrNoCapabilityWorker), s)
  | (nodeIDs, s) =>
      let start := i64 (svc_roundRobin s) in
      let s := with_svc_round_robin (u64 (svc_roundRobin s + 1)) s in
      let capacityAware := bool_decide (normalizeCapability capability = taskCapabilityTerminalExec) &&
                           bool_decide (po_terminalSessionIntent options = terminalSessionIntentKnownNew) in
      let '((hasSession, found), s) :=
        foldl (scan_node capability (po_excludedNodeIDs options) capacityAware) ((false, []), s)
          (rotation start nodeIDs) in
      match acquire_first capability (preference found) s with
      | (Some sid, s) => (Ok sid, s)
      | (None, s) => (Err (Sentinel (if hasSession : bool then ErrNoWorkerCapacity else ErrNoCapabilityWorker)), s)
      end
  end.

Definition pickSessionForNodeAndCapability (node capability : string) (s : RegistryService)
    : res string * RegistryService :=
  let normalizedNodeID := trim node in
  if bool_decide (normalizedNodeID = "") then (Err (Sentinel ErrNoCapabilityWorker), s) else
  match session_ref normalizedNodeID s with
  | None => (Err (Sentinel ErrNoCapabilityWorker), s)
  | Some (sid, x) =>
      if negb (isReady x) || negb (hasCapability capability x) then (Err (Sentinel ErrNoCapabilityWorker), s) else
      match on_session false sid (tryAcquireCapability capability) s with
      | (true, s) => (Ok sid, s)
      | (false, s) => (Err (Sentinel ErrNoWorkerCapacity), s)
      end
  end.

(** grpcserver/task_worker_sys_routing.go *)
Definition checkTargetCapabilityAvailability (node capability : string) (s : RegistryService)
    : res unit * RegistryService :=
  match session_ref (trim node) s with
  | None => (Err (Sentinel ErrTargetWorkerOffline), s)
  | Some (sid, x) =>
      if negb (isReady x) then (Err (Sentinel ErrTargetWorkerOffline), s) else
      if negb (hasCapability capability x) then (Err (Sentinel ErrTargetWorkerCapabilityUnavailable), s) else
      match on_session None sid (inflightSnapshot capability) s with
      | (Some (inflight, maxInflight), s) =>
          if maxInflight <=? inflight then (Err (Sentinel ErrNoWorkerCapacity), s) else (Ok tt, s)
      | (None, s) => (Err (Sentinel ErrNoWorkerCapacity), s)
      end
  end.

(** [clearTerminalSessionRouteReservation] does nothing for reservation id 0,
    so the call sites that test the id first and those that do not are alike. *)
Definition retry_conflict : error := Sentinel ErrTerminalSessionRetryRouteConflict.

(** [for reserveAttempt := 0; reserveAttempt < 2; ...]. *)
Fixpoint tryReserveAndPickTerminalSession (attempts : nat) (capability ownerID terminalSessionID : string)
    (now : time) (options : sessionPickOptions) (s : RegistryService) : res (string * Z) * RegistryService :=
  match attempts with
  | O => (Err (Sentinel ErrNoCapabilityWorker), s)
  | S attempts =>
      match pickSessionForCapability capability ownerID options now s with
      | (Err e, s) => (Err e, s)
      | (Ok sid, s) =>
          let node := session_node sid s in
          let '((resolvedNodeID, reservationID), s) :=
            run_routes (reserveTerminalSessionRoute terminalSessionID node (unix_milli now)) s in
          if bool_decide (resolvedNodeID = node) then (Ok (sid, reservationID), s) else
          let s := (on_session tt sid (fun x => (tt, releaseCapability capability x)) s).2 in
          if isNodeExcluded resolvedNodeID (po_excludedNodeIDs options)
          then (Err retry_conflict,
                (run_routes (clearTerminalSessionRouteReservation terminalSessionID resolvedNodeID reservationID) s).2)
          else
            match pickSessionForNodeAndCapability resolvedNodeID capability s with
            | (Ok sid, s) => (Ok (sid, reservationID), s)
            | (Err e, s) =>
                if negb (error_is e ErrNoCapabilityWorker)
                then (Err e, (run_routes (clearTerminalSessionRouteReservation terminalSessionID resolvedNodeID reservationID) s).2)
                else tryReserveAndPickTerminalSession attempts capability ownerID terminalSessionID now options
                       (run_routes (clearTerminalSessionRoute terminalSessionID resolvedNodeID) s).2
            end
      end
  end.

Definition bound_unavailable (route : option terminalSessionRoute) (s : RegistryService) : bool :=
  match route with
  | Some r =>
      (ReservationID r =? 0) &&
      (negb (bool_decide (RecoveryState r = terminalSessionRecoveryReady)) ||
       match session_ref (NodeID r) s with Some (_, x) => negb (isReady x) | None => true end)
  | None => false
  end.

Definition pickSessionForDispatch (capability ownerID terminalSessionID : string) (options : sessionPickOptions)
    (now : time) (s : RegistryService) : res (string * Z) * RegistryService :=
  let targetNodeID := trim (po_targetNodeID options) in
  if negb (bool_decide (targetNodeID = "")) then
    match pickSessionForNodeAndCapability targetNodeID capability s with
    | (Ok sid, s) => (Ok (sid, 0), s)
    | (Err e, s) =>
        if error_is e ErrNoCapabilityWorker then
          match checkTargetCapabilityAvailability targetNodeID capability s with
          | (Err e', s) => (Err e', s)
          | (Ok _, s) => (Err e, s)
          end
        else (Err e, s)
    end
  else
  let tid := trim terminalSessionID in
  if bool_decide (tid = "") then
    match pickSessionForCapability capability ownerID options now s with
    | (Ok sid, s) => (Ok (sid, 0), s)
    | (Err e, s) => (Err e, s)
    end
  else
  let nowMs := unix_milli now in
  let s := (run_routes (fun r => (tt, maybePruneTerminalSessionRoutes nowMs r)) s).2 in
  let '(route, s) := run_routes (terminalSessionRouteSnapshot tid nowMs) s in
  if bound_unavailable route s then (Err terminalSessionUnavailableError, s) else
  match run_routes (claimTerminalSessionRoute tid nowMs) s with
  | (None, s) => tryReserveAndPickTerminalSession 2 capability ownerID tid now options s
  | (Some (node, reservationID), s) =>
      if isNodeExcluded node (po_excludedNodeIDs options)
      then (Err retry_conflict, (run_routes (clearTerminalSessionRouteReservation tid node reservationID) s).2)
      else
        match pickSessionForNodeAndCapability node capability s with
        | (Ok sid, s) => (Ok (sid, reservationID), s)
        | (Err e, s) =>
            if error_is e ErrNoCapabilityWorker then
              if reservationID =? 0 then (Err terminalSessionUnavailableError, s)
              else tryReserveAndPickTerminalSession 2 capability ownerID tid now options
                     (run_routes (clearTerminalSessionRoute tid node) s).2
            else (Err e, (run_routes (clearTerminalSessionRouteReservation tid node reservationID) s).2)
        end
  end.

(** ** One attempt *)

Inductive ctx_end := CtxDeadline | CtxCanceled.
Definition ctx_error (e : ctx_end) : error :=
  Sentinel (match e with CtxDeadline => ErrContextDeadlineExceeded | CtxCanceled => ErrContextCanceled end).

(** What the outside does during one attempt. *)
Record attempt_env := mkAttemptEnv {
  ae_ctx_head : option ctx_end;      (** [commandCtx.Err()] at the head of the loop *)
  ae_now : time;                     (** the clock while the session is picked *)
  ae_ctx_pick : option ctx_end;      (** [commandCtx.Err()] after a failed pick *)
  ae_commandID : res string;         (** [newCommandIDFn] *)
  ae_deadline : option time;         (** [commandCtx.Deadline()] *)
  ae_ctx_send : option ctx_end;      (** the context while the command is sent *)
  ae_prefer_ctx : bool;              (** the scheduler, when several cases of a select are ready *)
  ae_others : RegistryService -> RegistryService;  (** the other goroutines, until the select wakes *)
  ae_ctx_wait : ctx_end;             (** how the context ends, if it ends first *)
  ae_later : time }.                 (** the clock afterwards *)

Definition on_dispatched := string -> RegistryService -> res unit * RegistryService.

Definition notify (onDispatched : option on_dispatched) (commandID : string) (s : RegistryService)
    : res unit * RegistryService :=
  match onDispatched with Some f => f commandID s | None => (Ok tt, s) end.

(** The error of a failed send, as the attempt reports it. *)
Definition map_send_error (e : error) : error :=
  if error_is e ErrContextDeadlineExceeded then Sentinel ErrContextDeadlineExceeded
  else if error_is e ErrContextCanceled then Sentinel ErrContextCanceled
  else if negb (bool_decide (status_code e = CodeUnknown)) then e
  else StatusError Unavailable "worker session unavailable".

Definition deadline_ms (d : option time) : Z := match d with Some t => unix_milli t | None => 0 end.

Definition rollback (tid node : string) (reservationID : Z) (s : RegistryService)
    : routeReservationReleaseResult * RegistryService :=
  if (reservationID =? 0) || bool_decide (tid = "") then (routeReservationNotOwned, s)
  else run_routes (clearTerminalSessionRouteReservation tid node reservationID) s.

Definition confirm_in_memory (tid node : string) (reservationID : Z) (now : time) (s : RegistryService)
    : RegistryService :=
  if bool_decide (tid = "") then s
  else (run_routes (confirmTerminalSessionRoute tid node reservationID (unix_milli now)) s).2.

Definition commit_route (tid node : string) (reservationID : Z) (p : payload) (now : time) (s : RegistryService)
    : res unit * RegistryService :=
  if bool_decide (tid = "") then (Ok tt, s) else
  match run_routes (commitConfirmedTerminalSessionRoute tid node reservationID
                      (terminalSessionLeaseExpiresUnixMs p) (unix_milli now)) s with
  | (Err e, s) => (Err e, s)
  | (Ok true, s) => (Ok tt, s)
  | (Ok false, s) => (Err (ErrorString "terminal session route changed before persistence"), s)
  end.

(** The select on the result channel: the outcome when one is there and the
    scheduler takes it, the end of the context otherwise. *)
Definition wait_result (env : attempt_env) (sid : string) (ch : Z) (s : RegistryService)
    : res (option commandOutcome) :=
  match svc_heap s !! sid ≫= receive ch with
  | Some o => if ae_prefer_ctx env then Err (ctx_error (ae_ctx_wait env)) else Ok o
  | None => Err (ctx_error (ae_ctx_wait env))
  end.

(** What a received outcome does to the route of the session it ran in. *)
Definition settle_outcome (capability tid node : string) (reservationID : Z) (outcome : commandOutcome) (now : time)
    (s : RegistryService) : res dispatchAttemptResult * RegistryService :=
  let done retryable s := (Ok (mkAttemptResult outcome retryable), s) in
  match oc_err outcome with
  | None =>
      if bool_decide (tid = "") then done false s else
      if bool_decide (capability = taskCapabilityTerminalExec) || bool_decide (capability = taskCapabilityTerminalLeaseRenew)
      then match commit_route tid node reservationID (oc_payloadJSON outcome) now s with
           | (Err e, s) => (Err (StatusError Internal ("persist terminal session route: " +:+ error_message e)), s)
           | (Ok _, s) => done false s
           end
      else done false (confirm_in_memory tid node reservationID now s)
  | Some err =>
      if bool_decide (tid = "") then done false s else
      if isSessionNotFoundCommandError err then
        if negb (reservationID =? 0) then done false (rollback tid node reservationID s).2
        else match run_routes (clearTerminalSessionRoute tid node) s with
             | (Err e, s) => (Err (StatusError Internal ("delete terminal session route: " +:+ error_message e)), s)
             | (Ok _, s) => done false s
             end
      else if isSessionCapacityCommandError err then
        let '(released, s) := rollback tid node reservationID s in
        done (bool_decide (capability = taskCapabilityTerminalExec) && negb (reservationID =? 0) &&
              bool_decide (released = routeReservationRemoved)) s
      else if negb (reservationID =? 0) then done false (confirm_in_memory tid node reservationID now s)
      else done false s
  end.

(** From the send to the return, before the deferred [unregisterPending]. *)
Definition attempt_body (env : attempt_env) (capability : string) (payloadJSON : payload) (tid sid node : string)
    (reservationID : Z) (onDispatched : option on_dispatched) (commandID : string) (ch : Z) (s : RegistryService)
    : res dispatchAttemptResult * RegistryService :=
  let dispatch := CommandDispatchFrame (mkDispatch commandID capability payloadJSON (deadline_ms (ae_deadline env))) in
  let '(sent, s) := on_session None sid (enqueueCommand (ae_prefer_ctx env) (ctx_error <$> ae_ctx_send env) dispatch) s in
  match default (Err (ctx_error (ae_ctx_wait env))) sent with
  | Err e => (Err (map_send_error e), (rollback tid node reservationID s).2)
  | Ok _ =>
      match notify onDispatched commandID s with
      | (Err e, s) =>
          (Err e, if reservationID =? 0 then s else confirm_in_memory tid node reservationID (ae_later env) s)
      | (Ok _, s) =>
          let s := ae_others env s in
          match wait_result env sid ch s with
          | Err e => (Err e, if reservationID =? 0 then s else confirm_in_memory tid node reservationID (ae_later env) s)
          | Ok None => (Err (StatusError Unavailable "worker session closed before command result"),
                        (rollback tid node reservationID s).2)
          | Ok (Some outcome) => settle_outcome capability tid node reservationID outcome (ae_later env) s
          end
      end
  end.

Definition dispatchCommandAttempt (env : attempt_env) (capability : string) (payloadJSON : payload)
    (tid sid : string) (reservationID : Z) (onDispatched : option on_dispatched) (s : RegistryService)
    : res dispatchAttemptResult * RegistryService :=
  let node := session_node sid s in
  let give_back s := (on_session tt sid (fun x => (tt, releaseCapability capability x)) s).2 in
  match ae_commandID env with
  | Err _ => (Err (StatusError Internal "failed to create command_id"), (rollback tid node reservationID (give_back s)).2)
  | Ok commandID =>
      match on_session (Err (ErrorString "")) sid (registerPending commandID capability) s with
      | (Err e, s) => (Err e, (rollback tid node reservationID (give_back s)).2)
      | (Ok ch, s) =>
          let '(r, s) := attempt_body env capability payloadJSON tid sid node reservationID onDispatched commandID ch s in
          (r, (on_session tt sid (fun x => (tt, unregisterPending commandID x)) s).2)
      end
  end.

(** ** The retry loop *)
Record dispatchOptions := mkDispatchOptions {
  do_ownerID : string;
  do_terminalSessionIntent : terminalSessionIntent;
  do_targetNodeID : string;
  do_onDispatched : option on_dispatched }.

Definition no_options : dispatchOptions := mkDispatchOptions "" terminalSessionIntentUnknown "" None.

(** [attemptedNodeIDs] is returned with the result; [attempts] is
    [maxAttempts - attemptIndex + 1]. *)
Fixpoint dispatch_loop (envs : nat -> attempt_env) (capability : string) (payloadJSON : payload) (tid : string)
    (options : dispatchOptions) (attempts : nat) (attempted : list string) (last : option commandOutcome)
    (s : RegistryService) : (res commandOutcome * list string) * RegistryService :=
  match attempts with
  | O => ((match last with Some o => Ok o | None => Err (Sentinel ErrNoCapabilityWorker) end, attempted), s)
  | S attempts =>
      let env := envs (length attempted) in
      match ae_ctx_head env with
      | Some e => ((Err (ctx_error e), attempted), s)
      | None =>
          match pickSessionForDispatch capability (do_ownerID options) tid
                  (mkPickOptions (do_terminalSessionIntent options) (list_to_set attempted) (do_targetNodeID options))
                  (ae_now env) s with
          | (Err e, s) =>
              ((match ae_ctx_pick env with
                | Some e' => Err (ctx_error e')
                | None => match last with Some o => Ok o | None => Err e end
                end, attempted), s)
          | (Ok (sid, reservationID), s) =>
              let attempted := session_node sid s :: attempted in
              match dispatchCommandAttempt env capability payloadJSON tid sid reservationID (do_onDispatched options) s with
              | (Err e, s) => ((Err e, attempted), s)
              | (Ok r, s) =>
                  if negb (dar_capacityRetryable r) then ((Ok (dar_outcome r), attempted), s)
                  else dispatch_loop envs capability payloadJSON tid options attempts attempted (Some (dar_outcome r)) s
              end
          end
      end
  end.

Definition dispatchCommand (envs : nat -> attempt_env) (capability : string) (payloadJSON : payload)
    (options : dispatchOptions) (s : RegistryService) : (res commandOutcome * list string) * RegistryService :=
  let capability := normalizeCapability capability in
  if bool_decide (capability = "") then ((Err (StatusError InvalidArgument "capability is required"), []), s) else
  let payloadJSON := if payload_empty payloadJSON then PJson (JObject []) else payloadJSON in
  let tid := terminalSessionIDFromPayload capability payloadJSON in
  let '(maxAttempts, s) :=
    if bool_decide (capability = taskCapabilityTerminalExec) && negb (bool_decide (tid = "")) then
      let '(nodes, s) := listOnlineNodeIDsForCapability capability (do_ownerID options) (ae_now (envs 0%nat)) s in
      (Nat.max 1 (length nodes), s)
    else (1%nat, s) in
  dispatch_loop envs capability payloadJSON tid options maxAttempts [] None s.

(** ** The echo command *)
Definition DispatchEcho (envs : nat -> attempt_env) (message : string) (s : RegistryService)
    : res string * RegistryService :=
  if bool_decide (trim message = "") then (Err (StatusError InvalidArgument "message is required"), s) else
  match dispatchCommand envs echoCapabilityName (buildEchoPayload message) no_options s with
  | ((Err e, _), s) =>
      (Err (if error_is e ErrNoCapabilityWorker then Sentinel ErrNoEchoWorker
            else if error_is e ErrNoWorkerCapacity then Sentinel ErrNoWorkerCapacity
            else if error_is e ErrContextDeadlineExceeded then Sentinel ErrEchoTimeout
            else e), s)
  | ((Ok outcome, _), s) =>
      (match oc_err outcome with
       | Some e => Err e
       | None => match parseEchoPayload (oc_payloadJSON outcome) with
                 | Some m => Ok m
                 | None => if negb (bool_decide (trim (oc_message outcome) = "")) then Ok (oc_message outcome)
                           else Err (CommandExecutionError "empty_result" "worker returned empty echo result")
                 end
       end, s)
  end.

(** ** Lease renewal (terminal_session_lease.go) *)
Definition renew_result_field (k : string) : option (json -> string * Z -> (string * Z) * bool) :=
  if equal_fold k "session_id" then Some (fun v r => let '(x, b) := dec_string v r.1 in ((x, r.2), b))
  else if equal_fold k "lease_expires_unix_ms" then Some (fun v r => let '(x, b) := dec_int v r.2 in ((r.1, x), b))
  else None.

Definition renew_error (e : error) : error :=
  if error_is e ErrContextDeadlineExceeded then Sentinel ErrContextDeadlineExceeded
  else if error_is e ErrContextCanceled then Sentinel ErrContextCanceled
  else if error_is e ErrTargetWorkerOffline || error_is e ErrTargetWorkerCapabilityUnavailable ||
          error_is e ErrNoCapabilityWorker || error_is e ErrNoWorkerCapacity
  then Sentinel ErrTerminalSessionUnavailable else e.

Definition renew_outcome_error (e : error) : error :=
  if isSessionNotFoundCommandError e then Sentinel ErrTerminalSessionNotFound
  else if isCommandErrorCode e taskOwnerScopeInvalidPayloadCode
  then Wrapped "" (Sentinel ErrTerminalLeaseInvalid) (": " +:+ error_message e)
  else e.

Definition RenewTerminalSessionLease (envs : nat -> attempt_env) (ownerID sessionID : string) (leaseTTLSec : Z)
    (now later : time) (s : RegistryService) : res TerminalSessionView * RegistryService :=
  let owner := normalizeTaskOwnerID ownerID in
  let session := trim sessionID in
  if bool_decide (owner = "") || bool_decide (session = "") then (Err (Sentinel ErrTerminalSessionNotFound), s) else
  if leaseTTLSec <=? 0 then (Err (Sentinel ErrTerminalLeaseInvalid), s) else
  match run_routes (GetTerminalSession owner session (unix_milli now)) s with
  | (None, s) => (Err (Sentinel ErrTerminalSessionNotFound), s)
  | (Some view, s) =>
      if negb (bool_decide (sv_Status view = terminalSessionStatusName terminalSessionRecoveryReady))
      then (Err (Sentinel ErrTerminalSessionUnavailable), s) else
      let scoped := scopeTerminalSessionID owner session in
      match dispatchCommand envs taskCapabilityTerminalLeaseRenew (marshal_lease_renew (mkLeaseRenew scoped leaseTTLSec))
              (mkDispatchOptions owner terminalSessionIntentUnknown (sv_WorkerID view) None) s with
      | ((Err e, _), s) => (Err (renew_error e), s)
      | ((Ok outcome, _), s) =>
          match oc_err outcome with
          | Some e => (Err (renew_outcome_error e), s)
          | None =>
              let invalid := (Err (ErrorString "worker returned invalid terminal lease renewal result"), s) in
              match unmarshal_struct renew_result_field ("", 0) (oc_payloadJSON outcome) with
              | None => invalid
              | Some (rsid, lease) =>
                  if negb (bool_decide (trim rsid = scoped)) || (lease <=? 0) then invalid else
                  match run_routes (GetTerminalSession owner session (unix_milli later)) s with
                  | (None, s) => (Err (ErrorString "renewed terminal session route is unavailable"), s)
                  | (Some updated, s) => (Ok updated, s)
                  end
              end
          end
      end
  end.

End Dispatch.
Export Dispatch.
