(* ===== verification/DispatchProps.v ===== *)
(** Properties of command dispatch: the session that is picked, the slots and
    reservations an attempt uses and gives back, what each outcome does to a
    terminal session's route, and the retry over workers. *)
From S2P Require Import Prelude.
From S2P Require Import Json.
From S2P Require Import Sql.
From S2P Require Import Proto.
From S2P Require Import Registry.
From S2P Require Import RouteStore.
From S2P Require Import OwnerScope.
From S2P Require Import TerminalRoutes.
From S2P Require Import TerminalRoutesProps.
From S2P Require Import SessionRuntime.
From S2P Require Import Service.
From S2P Require Import Dispatch.

Module DispatchProps.

(** The session table and its objects: a table entry refers to a session of
    that node, and every session accounts for its slots; [held] are the slots
    that dispatchers hold for commands not yet pending. *)
Record sessions_ok (held : string -> list string) (s : RegistryService) : Prop := {
  sk_ref n sid : svc_sessions s !! n = Some sid -> exists x, svc_heap s !! sid = Some x /\ nodeID x = n;
  sk_heap sid x : svc_heap s !! sid = Some x -> session_ok x (held sid) }.

Create HintDb route_frame.

(** ** Route operations leave the tasks alone *)
Section routes_frame.
Implicit Types (r : Routes Conn) (s : RegistryService).

Definition stored_tasks r : option (gmap string Task) := (fun c => tasks (data c)) <$> terminalRouteStore r.

Class KeepsTasks {A} (m : M A) : Prop := keeps_tasks : forall T, Preserves (fun d => tasks d = T) m.

#[export] Instance kt_upsert sid row : KeepsTasks (store_upsert sid row).
Proof.
  intros T. cbn. unfold UpsertConfirmedTerminalSessionRoute. case_match; [apply _|].
  apply preserves_bind; [|intros a; case_match; apply _]. apply preserves_stmt. intros d a d' Hd Hf.
  unfold UpsertTerminalSessionRoute in Hf. repeat case_match; by simplify_eq.
Qed.

#[export] Instance kt_delete sid nid : KeepsTasks (store_delete sid nid).
Proof. intros T. cbn. apply preserves_bind; [by apply preserves_write|apply _]. Qed.

#[export] Instance kt_delete_many refs : KeepsTasks (store_delete_many refs).
Proof.
  intros T. cbn. apply preserves_WithTx, preserves_for_each. intros x.
  apply preserves_bind; [by apply preserves_write|apply _].
Qed.

#[export] Instance kt_delete_by_node nid : KeepsTasks (store_delete_by_node nid).
Proof. intros T. by apply preserves_write. Qed.

#[export] Instance kt_delete_expired now : KeepsTasks (store_delete_expired now).
Proof. intros T. by apply preserves_write. Qed.

Lemma call_store_tasks {A} (d : A) f r `{!KeepsTasks f} : stored_tasks (call_store d f r).2 = stored_tasks r.
Proof.
  unfold call_store, stored_tasks. destruct (terminalRouteStore r) as [c|] eqn:Ec; [|by cbn; rewrite Ec].
  pose proof (keeps_tasks (m := f) (tasks (data c)) c eq_refl) as Hk. destruct (f c) as [x c']. cbn in *. by rewrite Hk.
Qed.

Lemma delete_locked_tasks sid x r : stored_tasks (deleteTerminalSessionRouteLocked sid x r) = stored_tasks r.
Proof. done. Qed.

Lemma reserve_tasks x n now r : stored_tasks (reserveTerminalSessionRoute x n now r).2 = stored_tasks r.
Proof. unfold reserveTerminalSessionRoute. by repeat case_match. Qed.

Lemma claim_tasks x now r : stored_tasks (claimTerminalSessionRoute x now r).2 = stored_tasks r.
Proof. unfold claimTerminalSessionRoute. by repeat case_match. Qed.

Lemma confirm_tasks x n id now r : stored_tasks (confirmTerminalSessionRoute x n id now r).2 = stored_tasks r.
Proof. unfold confirmTerminalSessionRoute. by repeat case_match. Qed.

Lemma release_tasks x n id r : stored_tasks (clearTerminalSessionRouteReservation x n id r).2 = stored_tasks r.
Proof. unfold clearTerminalSessionRouteReservation. by repeat case_match. Qed.

Lemma snapshot_tasks x now r : stored_tasks (terminalSessionRouteSnapshot x now r).2 = stored_tasks r.
Proof.
  unfold terminalSessionRouteSnapshot. destruct (bool_decide _); [done|].
  destruct (_ !! _) as [route|]; [|done]. destruct (_ && _); [|done].
  match goal with |- context [call_store ?d ?f r] => pose proof (call_store_tasks d f r) as Hc; destruct (call_store d f r) as [[]] end;
    cbn in *; by rewrite ?delete_locked_tasks.
Qed.

Lemma clear_tasks x n r : stored_tasks (clearTerminalSessionRoute x n r).2 = stored_tasks r.
Proof.
  unfold clearTerminalSessionRoute. destruct (bool_decide _); [done|].
  destruct (_ !! _) as [route|]; [|done]. destruct (_ && _); [done|]. destruct (0 <? _); [|done].
  match goal with |- context [call_store ?d ?f r] => pose proof (call_store_tasks d f r) as Hc; destruct (call_store d f r) as [[]] end;
    cbn in *; by rewrite ?delete_locked_tasks.
Qed.

Lemma commit_tasks x n id lease now r : stored_tasks (commitConfirmedTerminalSessionRoute x n id lease now r).2 = stored_tasks r.
Proof.
  unfold commitConfirmedTerminalSessionRoute. destruct (_ <=? _); [done|]. destruct (_ || _); [done|].
  destruct (_ !! _) as [route|]; [|done]. destruct (negb _); [done|].
  match goal with |- context [call_store ?d ?f r] => pose proof (call_store_tasks d f r) as Hc; destruct (call_store d f r) as [[]] end;
    cbn in *; by rewrite ?delete_locked_tasks.
Qed.

Lemma maybe_prune_tasks now r : stored_tasks (maybePruneTerminalSessionRoutes now r) = stored_tasks r.
Proof.
  unfold maybePruneTerminalSessionRoutes. case_match; [done|]. unfold PruneExpiredTerminalSessionRoutes.
  match goal with |- context [call_store ?d ?f ?r'] => pose proof (call_store_tasks d f r') as Hc; destruct (call_store d f r') as [x r1] end.
  cbn in Hc. set (l := map_to_list _). 
  apply (foldl_inv (fun acc : Z * Routes Conn => stored_tasks acc.2 = stored_tasks r)); [by cbn|].
  intros [k r2] kv _ Hr2. unfold prune_one. by case_match.
Qed.

Lemma get_tasks o x now r : stored_tasks (GetTerminalSession o x now r).2 = stored_tasks r.
Proof.
  unfold GetTerminalSession. case_match; [done|].
  match goal with |- context [terminalSessionRouteSnapshot ?a ?b r] => pose proof (snapshot_tasks a b r) as Hs;
    destruct (terminalSessionRouteSnapshot a b r) as [[]] end; cbn in *; [by case_match|done].
Qed.

End routes_frame.

#[export] Hint Resolve reserve_tasks claim_tasks confirm_tasks release_tasks snapshot_tasks clear_tasks commit_tasks
  maybe_prune_tasks get_tasks : route_frame.
#[export] Hint Resolve reserve_step claim_step confirm_step clear_reservation_step snapshot_step clear_step commit_step
  maybe_prune_step get_step : route_frame.

Section pick.
Implicit Types (s : RegistryService) (held : string -> list string).

Lemma update_session_id sid x s : svc_heap s !! sid = Some x -> update_session sid x s = s.
Proof. intros Hx. unfold update_session, with_svc_sessions. rewrite insert_id by done. by destruct s. Qed.

Lemma session_ref_some node s sid x :
  session_ref node s = Some (sid, x) <-> svc_sessions s !! node = Some sid /\ svc_heap s !! sid = Some x.
Proof.
  unfold session_ref. destruct (svc_sessions s !! node) as [sid'|]; [|naive_solver].
  destruct (svc_heap s !! sid') as [x'|] eqn:E; [|naive_solver]. naive_solver.
Qed.

(** A session a command of this capability may go to. *)
Definition usable (capability : string) (excluded : gset string) s (node : string) : option (string * activeSession) :=
  if isNodeExcluded node excluded then None else
  match session_ref node s with
  | Some (sid, x) => if isReady x && hasCapability capability x then Some (sid, x) else None
  | None => None
  end.

Definition free_slot (capability : string) (x : activeSession) : option Z :=
  match (inflightSnapshot capability x).1 with
  | Some (inflight, maxInflight) => if maxInflight <=? inflight then None else Some inflight
  | None => None
  end.

Definition candidate_of (capability : string) (excluded : gset string) (aware : bool) s (node : string)
    : option candidate :=
  match usable capability excluded s node with
  | Some (sid, x) => match free_slot capability x with
                     | Some n => Some (mkCand sid n (capacity_group aware (terminalCapacity x)))
                     | None => None
                     end
  | None => None
  end.

(** The scan reads: it finds the usable sessions, and those with a free slot. *)
Lemma scan_spec held capability excluded aware s nodes b found :
  sessions_ok held s ->
  foldl (scan_node capability excluded aware) ((b, found), s) nodes =
  ((b || existsb (fun n => bool_decide (is_Some (usable capability excluded s n))) nodes,
    found ++ omap (candidate_of capability excluded aware s) nodes), s).
Proof.
  intros Hok. revert b found. induction nodes as [|n nodes IH]; intros b found; cbn [foldl existsb omap list_omap].
  { by rewrite orb_false_r, app_nil_r. }
  enough (scan_node capability excluded aware ((b, found), s) n =
    ((b || bool_decide (is_Some (usable capability excluded s n)),
      found ++ match candidate_of capability excluded aware s n with Some c => [c] | None => [] end), s)) as ->.
  { rewrite IH, orb_assoc, <- app_assoc. do 2 f_equal. f_equal. by destruct (candidate_of _ _ _ s n). }
  unfold scan_node, candidate_of, usable. destruct (isNodeExcluded n excluded).
  { by rewrite orb_false_r, app_nil_r. }
  destruct (session_ref n s) as [[sid x]|] eqn:Er; [|by rewrite orb_false_r, app_nil_r].
  apply session_ref_some in Er as [_ Hx].
  destruct (isReady x); cbn [negb orb andb]; [|by rewrite orb_false_r, app_nil_r].
  destruct (hasCapability capability x); cbn [negb]; [|by rewrite orb_false_r, app_nil_r].
  unfold free_slot. pose proof (snapshot_id capability x _ (sk_heap _ _ Hok _ _ Hx)) as Hid.
  destruct (inflightSnapshot capability x) as [snap x']. cbn in Hid. subst x'. cbn [fst].
  rewrite update_session_id by done. rewrite orb_true_r.
  destruct snap as [[n1 n2]|]; [|by rewrite app_nil_r].
  destruct (n2 <=? n1); by rewrite ?app_nil_r.
Qed.

(** The order of preference: group first, then the in-flight count. *)
Definition preferred c d : Prop :=
  (c_group c < c_group d)%nat \/ (c_group c = c_group d /\ c_inflight c <= c_inflight d).

Lemma insert_candidate_perm c l : insert_candidate c l ≡ₚ c :: l.
Proof.
  induction l as [|d l IH]; cbn; [done|]. case_match; [|done]. rewrite IH. apply Permutation_swap.
Qed.

Lemma sort_candidates_perm l : sort_candidates l ≡ₚ l.
Proof. induction l as [|c l IH]; cbn; [done|]. by rewrite insert_candidate_perm, IH. Qed.

Lemma insert_candidate_head c d l l' :
  insert_candidate c l = d :: l' -> (forall e l'', l = e :: l'' -> forall f, f ∈ l -> c_inflight e <= c_inflight f) ->
  forall f, f ∈ c :: l -> c_inflight d <= c_inflight f.
Proof.
  destruct l as [|e l]; cbn.
  - intros [= <- <-] _ f Hf. set_solver by lia.
  - intros H Hmin f Hf. specialize (Hmin e l eq_refl). destruct (Z.ltb_spec (c_inflight e) (c_inflight c)) as [Hlt|Hge];
      simplify_eq; apply elem_of_cons in Hf as [->|Hf]; try lia; [by apply Hmin|].
    specialize (Hmin _ Hf). lia.
Qed.

(** The head of a sorted group has the least load of the group. *)
Lemma sort_candidates_head l d l' :
  sort_candidates l = d :: l' -> forall f, f ∈ l -> c_inflight d <= c_inflight f.
Proof.
  revert d l'. induction l as [|c l IH]; cbn; intros d l' H; [done|].
  intros f Hf. eapply insert_candidate_head; [exact H| |].
  - intros e l'' He g Hg. eapply IH; [exact He|]. by rewrite <- (sort_candidates_perm l).
  - by rewrite sort_candidates_perm.
Qed.

Lemma elem_of_in_group g l c : c ∈ in_group g l <-> c ∈ l /\ c_group c = g.
Proof. unfold in_group. rewrite !list_elem_of_In, filter_In, Nat.eqb_eq. done. Qed.

Lemma capacity_group_le aware k : (capacity_group aware k <= 2)%nat.
Proof. unfold capacity_group, capacityGroupKnownAvailable, capacityGroupUnknown, capacityGroupReportedFull. repeat case_match; lia. Qed.

Lemma elem_of_preference l c : (forall d, d ∈ l -> (c_group d <= 2)%nat) -> c ∈ preference l <-> c ∈ l.
Proof.
  intros Hg. unfold preference. rewrite !elem_of_app, !sort_candidates_perm, !elem_of_in_group.
  split; [naive_solver|]. intros Hc. specialize (Hg _ Hc).
  unfold capacityGroupKnownAvailable, capacityGroupUnknown, capacityGroupReportedFull.
  assert (c_group c = 0 \/ c_group c = 1 \/ c_group c = 2)%nat as Hcases by lia. naive_solver.
Qed.

Lemma preference_head l c l' :
  (forall d, d ∈ l -> (c_group d <= 2)%nat) -> preference l = c :: l' -> forall d, d ∈ l -> preferred c d.
Proof.
  intros Hg Hp d Hd. unfold preference in Hp. specialize (Hg _ Hd).
  assert (forall g k, sort_candidates (in_group g l) = c :: k -> c_group c = g /\
    forall d, d ∈ l -> c_group d = g -> c_inflight c <= c_inflight d) as Hs.
  { intros g k Hk. split.
    - assert (c ∈ in_group g l) as Hin; [|by apply elem_of_in_group in Hin as [_ ?]].
      rewrite <- (sort_candidates_perm (in_group g l)), Hk. by left.
    - intros d' Hd' Hgd'. eapply sort_candidates_head; [exact Hk|]. by apply elem_of_in_group. }
  assert (forall g, sort_candidates (in_group g l) = [] -> c_group d <> g) as Hnil.
  { intros g Hn Hgd. assert (d ∈ in_group g l) as Hin by (by apply elem_of_in_group).
    rewrite <- (sort_candidates_perm (in_group g l)), Hn in Hin. by apply elem_of_nil in Hin. }
  unfold preferred, capacityGroupKnownAvailable, capacityGroupUnknown, capacityGroupReportedFull in *.
  destruct (sort_candidates (in_group 0 l)) as [|c0 l0] eqn:E0.
  - apply Hnil in E0. destruct (sort_candidates (in_group 1 l)) as [|c1 l1] eqn:E1.
    + apply Hnil in E1. apply Hs in Hp as [Hcg Hm]. right. split; [lia|]. apply Hm; [done|lia].
    + cbn in Hp. simplify_eq. apply Hs in E1 as [Hcg Hm].
      destruct (decide (c_group d = 1%nat)); [right; split; [lia|by apply Hm]|left; lia].
  - cbn in Hp. simplify_eq. apply Hs in E0 as [Hcg Hm].
    destruct (decide (c_group d = 0%nat)); [right; split; [lia|by apply Hm]|left; lia].
Qed.

(** ** What a step leaves alone *)

(** Everything but the session objects, the routes and the round robin; of the
    database, the task table. *)
Definition rest s :=
  (svc_config s, svc_sessions s, svc_credentials s, svc_tasks s, svc_records s, svc_reservations s,
   svc_lastInlineTaskPruneUnixMs s, svc_critical s, svc_markRunning s, tasks <$> svc_db s).

Lemma rest_sessions s s' : rest s' = rest s -> svc_sessions s' = svc_sessions s.
Proof. unfold rest. by intros [=]. Qed.

(** A read of the database. *)
Lemma query_frame {A} (dflt : A) (m : M A) s :
  (forall c, data (m c).2 = data c) ->
  exists c, (query dflt m s).2 = with_svc_routes (with_store c (svc_routes s)) s /\ svc_db (query dflt m s).2 = svc_db s.
Proof.
  intros Hm. unfold query, run_db. destruct (svc_conn s) as [c|] eqn:Ec.
  - specialize (Hm c). destruct (m c) as [[a|e] c']; cbn in *; exists (Some c'); split; try done;
      unfold svc_db, svc_conn in *; cbn; by rewrite Ec, Hm.
  - exists None. cbn. split; [|done]. unfold svc_conn in Ec. destruct s as [? [] ? ? ? ? ? ? ? ? ? ?]. cbn in *. by subst.
Qed.

Lemma or_else_data {A} (d : A) (m : M A) c : data (m c).2 = data c -> data (or_else d m c).2 = data c.
Proof. intros Hm. unfold or_else, mbind, M_bind. rewrite catch_ok. by destruct (m c) as [[]]. Qed.

Lemma list_online_frame capability owner now s :
  exists c, (listOnlineNodeIDsForCapability capability owner now s).2 = with_svc_routes (with_store c (svc_routes s)) s /\
    svc_db (listOnlineNodeIDsForCapability capability owner now s).2 = svc_db s.
Proof.
  unfold listOnlineNodeIDsForCapability. case_match; [case_match|].
  - exists (svc_conn s). cbn. split; [|done]. by destruct s as [? [] ? ? ? ? ? ? ? ? ? ?].
  - apply query_frame. intros c. unfold ListOnlineNodeIDsByOwnerTypeAndCapability. case_match; [done|].
    apply or_else_data, read_data.
  - apply query_frame. intros c. unfold ListOnlineNodeIDsByCapability. case_match; [done|].
    apply or_else_data, read_data.
Qed.

(** ** The picked session *)

(** The loop visits every node once, as long as the counter fits an [int]. *)
Lemma elem_of_rotation start (nodes : list string) n :
  0 <= start -> start + Z.of_nat (length nodes) < 2 ^ 63 -> n ∈ rotation start nodes <-> n ∈ nodes.
Proof.
  intros H0 Hlt. unfold rotation. rewrite list_elem_of_omap. set (len := Z.of_nat (length nodes)) in *. split.
  - intros (i&_&Hi). by eapply list_elem_of_lookup_2.
  - intros [k Hk]%list_elem_of_lookup_1. pose proof (lookup_lt_Some _ _ _ Hk) as Hlen.
    set (j := (Z.of_nat k - start) mod len). assert (0 <= j < len) as Hj by (apply Z.mod_pos_bound; lia).
    exists (Z.to_nat j). rewrite elem_of_seq. split; [lia|].
    rewrite Z2Nat.id, i64_id by lia. rewrite Z.rem_mod_nonneg by lia.
    replace ((start + j) mod len) with (Z.of_nat k); [by rewrite Nat2Z.id|].
    unfold j. rewrite Z.add_mod_idemp_r by lia. replace (start + (Z.of_nat k - start)) with (Z.of_nat k) by lia.
    by rewrite Z.mod_small by lia.
Qed.

Lemma free_slot_acquire capability x n :
  free_slot capability x = Some n -> exists x', tryAcquireCapability capability x = (true, x').
Proof.
  unfold free_slot, inflightSnapshot, tryAcquireCapability. destruct (bool_decide _); [done|].
  destruct (capabilities x !! normalizeCapability capability) as [st|]; [|done]. cbn.
  destruct (_ <=? _); [done|]. eauto.
Qed.

(** A candidate is a usable session with a free slot. *)
Lemma candidate_some capability excluded aware s node c :
  candidate_of capability excluded aware s node = Some c ->
  exists x n, usable capability excluded s node = Some (c_session c, x) /\ svc_heap s !! c_session c = Some x /\
    free_slot capability x = Some n /\ c = mkCand (c_session c) n (capacity_group aware (terminalCapacity x)).
Proof.
  unfold candidate_of. destruct (usable capability excluded s node) as [[sid x]|] eqn:Eu; [|done].
  destruct (free_slot capability x) as [n|] eqn:Ef; [|done]. intros [= <-]. exists x, n. cbn. split_and!; try done.
  unfold usable in Eu. destruct (isNodeExcluded _ _); [done|]. destruct (session_ref node s) as [[sid' x']|] eqn:Er; [|done].
  destruct (_ && _); [|done]. simplify_eq. by apply session_ref_some in Er as [_ ?].
Qed.

Lemma candidate_group capability excluded aware s node c :
  candidate_of capability excluded aware s node = Some c -> (c_group c <= 2)%nat.
Proof. intros (x&n&_&_&_&->)%candidate_some. apply capacity_group_le. Qed.

Lemma candidate_acquire capability excluded aware s node c :
  candidate_of capability excluded aware s node = Some c ->
  exists x x', svc_heap s !! c_session c = Some x /\ tryAcquireCapability capability x = (true, x').
Proof. intros (x&n&_&Hx&[x' ?]%free_slot_acquire&_)%candidate_some. by exists x, x'. Qed.

(** Giving a slot back undoes taking it. *)
Lemma release_acquire capability x h x' :
  session_ok x h -> tryAcquireCapability capability x = (true, x') -> releaseCapability capability x' = x.
Proof.
  intros Hok. unfold tryAcquireCapability, releaseCapability. case_match eqn:En; [done|].
  destruct (capabilities x !! normalizeCapability capability) as [st|] eqn:Es; [|done].
  rewrite (fix_limit_id _ _ _ _ Hok Es). case_match eqn:El; [done|]. intros [= <-]. cbn. rewrite lookup_insert_eq. cbn.
  destruct (so_caps _ _ _ (se_slots _ _ Hok) _ _ Es) as (_&Hin&_).
  pose proof (ncap_nonneg (normalizeCapability capability) (map_to_list (pending x))).
  pose proof (nheld_nonneg (normalizeCapability capability) h).
  rewrite (proj2 (Z.ltb_lt _ _)) by lia. unfold with_capabilities. cbn. rewrite insert_insert_eq.
  replace (sc_inflight st + 1 - 1) with (sc_inflight st) by lia. rewrite insert_id by (by destruct st). by destruct x.
Qed.

(** One slot of the session was taken, or nothing changed. *)
Definition acquired (capability : string) s s' (r : res string) : Prop :=
  match r with
  | Ok sid => exists x x', svc_heap s !! sid = Some x /\ tryAcquireCapability capability x = (true, x') /\
                svc_heap s' = <[sid := x']> (svc_heap s)
  | Err _ => svc_heap s' = svc_heap s
  end.

Definition online capability owner now s : list string := (listOnlineNodeIDsForCapability capability owner now s).1.
Definition capacity_aware capability (options : sessionPickOptions) : bool :=
  bool_decide (normalizeCapability capability = taskCapabilityTerminalExec) &&
  bool_decide (po_terminalSessionIntent options = terminalSessionIntentKnownNew).

(** The nodes in the order the scan visits them. *)
Definition visited capability owner now s : list string :=
  rotation (i64 (svc_roundRobin s)) (online capability owner now s).

(** The pick is the candidate that nothing else is preferred to; a failure
    says whether a usable session exists. *)
Lemma pick_cases held capability owner options now s :
  sessions_ok held s ->
  let '(r, s') := pickSessionForCapability capability owner options now s in
  let nodes := visited capability owner now s in
  let cand := candidate_of capability (po_excludedNodeIDs options) (capacity_aware capability options) s in
  rest s' = rest s /\ acquired capability s s' r /\
  (exists c, svc_routes s' = with_store c (svc_routes s)) /\ svc_db s' = svc_db s /\
  match r with
  | Ok sid => exists node c, node ∈ nodes /\ cand node = Some c /\ c_session c = sid /\
      forall node' c', node' ∈ nodes -> cand node' = Some c' -> preferred c c'
  | Err e => (forall node, node ∈ nodes -> cand node = None) /\
      e = Sentinel (if existsb (fun n => bool_decide (is_Some (usable capability (po_excludedNodeIDs options) s n))) nodes
                    then ErrNoWorkerCapacity else ErrNoCapabilityWorker)
  end.
Proof.
  intros Hok. unfold pickSessionForCapability, visited, online.
  destruct (list_online_frame capability owner now s) as (c0&Hs1&Hdb).
  destruct (listOnlineNodeIDsForCapability capability owner now s) as [nodes s1]. cbn [fst snd] in *.
  destruct (decide (nodes = [])) as [->|Hne].
  { cbn. split_and!; [unfold rest; by rewrite Hdb, Hs1|by rewrite Hs1|exists c0; by rewrite Hs1|done|set_solver|done]. }
  destruct nodes as [|n0 nodes]; [done|]. subst s1. cbn [svc_roundRobin with_svc_routes].
  set (s2 := with_svc_round_robin _ _). set (aware := capacity_aware capability options).
  set (order := rotation _ (n0 :: nodes)).
  assert (sessions_ok held s2) as Hok2 by (by destruct Hok).
  change (bool_decide _ && bool_decide _) with aware. rewrite (scan_spec held) by done. cbn [orb app].
  change (candidate_of ?a ?b ?c s2) with (candidate_of a b c s). cbv zeta.
  change (fun n => bool_decide (is_Some (usable capability (po_excludedNodeIDs options) s2 n)))
    with (fun n => bool_decide (is_Some (usable capability (po_excludedNodeIDs options) s n))).
  set (cand := candidate_of capability (po_excludedNodeIDs options) aware s). set (found := omap cand order).
  assert (forall c, c ∈ found <-> exists node, node ∈ order /\ cand node = Some c) as Hfound
    by (intros c; by unfold found; rewrite list_elem_of_omap).
  assert (forall c, c ∈ found -> (c_group c <= 2)%nat) as Hgrp.
  { intros c (node&_&Hc)%Hfound. by eapply candidate_group. }
  destruct (preference found) as [|c l] eqn:Ep.
  - cbn. split_and!; [unfold rest; by rewrite <- Hdb|done|by exists c0|done| |done].
    intros node Hn. destruct (cand node) as [c|] eqn:Ec; [|done].
    assert (c ∈ preference found) as Hin by (apply elem_of_preference; [done|]; apply Hfound; eauto).
    rewrite Ep in Hin. by apply elem_of_nil in Hin.
  - assert (c ∈ found) as (node&Hn&Hcn)%Hfound by (rewrite <- elem_of_preference, Ep by done; by left).
    destruct (candidate_acquire _ _ _ _ _ _ Hcn) as (x&x'&Hx&Hacq). cbn [acquire_first]. unfold on_session.
    change (svc_heap s2) with (svc_heap s). rewrite Hx, Hacq. cbn.
    split_and!; [unfold rest; by rewrite <- Hdb|by exists x, x'|by exists c0|done|].
    exists node, c. split_and!; [done..|].
    intros node' c' Hn' Hc'. eapply preference_head; [done|exact Ep|]. apply Hfound. eauto.
Qed.

(** ** The pick for a dispatch: slots and routes *)

(** A step of the route table, and of the database behind it. *)
Definition route_change s s' : Prop :=
  rest s' = rest s /\ svc_heap s' = svc_heap s /\ step_ok (svc_routes s) (svc_routes s').

(** A pick: [r] says whether a slot was taken. *)
Definition pick_step capability s s' (r : res string) : Prop :=
  rest s' = rest s /\ acquired capability s s' r /\ step_ok (svc_routes s) (svc_routes s').

Definition slot_of {A B} (r : res (A * B)) : res A :=
  match r with Ok (a, _) => Ok a | Err e => Err e end.

Lemma run_routes_change {A} (f : Routes Conn -> A * Routes Conn) s :
  (forall r, stored_tasks (f r).2 = stored_tasks r) -> (forall r, step_ok r (f r).2) -> route_change s (run_routes f s).2.
Proof.
  intros Ht Hs. unfold run_routes. specialize (Ht (svc_routes s)). specialize (Hs (svc_routes s)).
  destruct (f (svc_routes s)) as [a r]. cbn in *. split_and!; [|done..]. unfold rest, svc_db, svc_conn. cbn.
  unfold stored_tasks in Ht. f_equal. rewrite <- !option_fmap_compose. apply Ht.
Qed.

Lemma pick_after s s1 s' capability r : route_change s s1 -> pick_step capability s1 s' r -> pick_step capability s s' r.
Proof.
  intros (E1&E2&E3) (F1&F2&F3). split_and!; [by rewrite F1|by unfold acquired in *; rewrite <- E2|by etrans].
Qed.

Lemma pick_then s s1 s' capability r : pick_step capability s s1 r -> route_change s1 s' -> pick_step capability s s' r.
Proof.
  intros (E1&E2&E3) (F1&F2&F3). split_and!; [by rewrite F1|by unfold acquired in *; rewrite F2|by etrans].
Qed.

Lemma pick_err s s' capability e e' : pick_step capability s s' (Err e) -> pick_step capability s s' (Err e').
Proof. done. Qed.

Lemma pick_none s capability e : pick_step capability s s (Err e).
Proof. by split_and!. Qed.

Lemma pick_step_ok held s s' capability e : sessions_ok held s -> pick_step capability s s' (Err e) -> sessions_ok held s'.
Proof. intros [Hr Hh] (E1%rest_sessions&E2&_). cbn in E2. split; by rewrite ?E1, E2. Qed.

Lemma route_change_ok held s s' : sessions_ok held s -> route_change s s' -> sessions_ok held s'.
Proof. intros [Hr Hh] (E1%rest_sessions&E2&_). split; by rewrite ?E1, E2. Qed.

Lemma store_reread s s' c :
  svc_routes s' = with_store c (svc_routes s) -> svc_db s' = svc_db s -> step_ok (svc_routes s) (svc_routes s').
Proof.
  intros Hc Hdb. apply shrunk_ok. split; [by exists c|]. intros sid row. unfold row_at.
  unfold svc_db, svc_conn in Hdb. destruct (terminalRouteStore (svc_routes s')) as [c1|] eqn:E1; [|done].
  destruct (terminalRouteStore (svc_routes s)) as [c2|] eqn:E2; cbn in Hdb; [|done].
  injection Hdb as Hd. cbn. by rewrite Hd.
Qed.

Lemma pick_capability_step held capability owner options now s :
  sessions_ok held s ->
  let '(r, s') := pickSessionForCapability capability owner options now s in pick_step capability s s' r.
Proof.
  intros Hok. pose proof (pick_cases held capability owner options now s Hok) as Hp.
  destruct (pickSessionForCapability _ _ _ _ _) as [r s']. destruct Hp as (Hr&Ha&[c Hc]&Hdb&_).
  split_and!; [done|done|by eapply store_reread].
Qed.

Lemma pick_node_cases held node capability s :
  sessions_ok held s ->
  let '(r, s') := pickSessionForNodeAndCapability node capability s in
  pick_step capability s s' r /\ svc_routes s' = svc_routes s /\
  match r with
  | Ok sid => exists x, session_ref (trim node) s = Some (sid, x) /\ isReady x = true /\ hasCapability capability x = true
  | Err e => e = Sentinel ErrNoCapabilityWorker \/ e = Sentinel ErrNoWorkerCapacity
  end.
Proof.
  intros Hok. unfold pickSessionForNodeAndCapability. destruct (bool_decide _); [split_and!; [by eapply pick_none|done|by left]|].
  destruct (session_ref (trim node) s) as [[sid x]|] eqn:Er; [|split_and!; [by eapply pick_none|done|by left]].
  destruct (isReady x) eqn:E1; cbn [negb orb]; [|split_and!; [by eapply pick_none|done|by left]].
  destruct (hasCapability capability x) eqn:E2; cbn [negb]; [|split_and!; [by eapply pick_none|done|by left]].
  pose proof (proj1 (session_ref_some _ _ _ _) Er) as [_ Hx]. unfold on_session. rewrite Hx.
  destruct (tryAcquireCapability capability x) as [[] x'] eqn:Ea.
  - split_and!; [|done|by exists x]. split_and!; [done|by exists x, x'|done].
  - rewrite (refused_ok _ _ _ _ (sk_heap _ _ Hok _ _ Hx) Ea), update_session_id by done.
    split_and!; [by eapply pick_none|done|by right].
Qed.

(** Taking a slot and giving it back. *)
Lemma give_back_acquired held capability s s1 sid :
  sessions_ok held s -> acquired capability s s1 (Ok sid) ->
  svc_heap (on_session tt sid (fun x => (tt, releaseCapability capability x)) s1).2 = svc_heap s.
Proof.
  intros Hok (x&x'&Hx&Ha&Hh). unfold on_session. rewrite Hh, lookup_insert_eq. cbn.
  rewrite Hh, insert_insert_eq, (release_acquire _ _ _ _ (sk_heap _ _ Hok _ _ Hx) Ha). by rewrite insert_id.
Qed.

Lemma reserve_pick_step held attempts capability owner tid now options s :
  sessions_ok held s ->
  let '(r, s') := tryReserveAndPickTerminalSession attempts capability owner tid now options s in
  pick_step capability s s' (slot_of r).
Proof.
  revert s. induction attempts as [|attempts IH]; intros s Hok; cbn [tryReserveAndPickTerminalSession];
    [by eapply pick_none|].
  pose proof (pick_capability_step held capability owner options now s Hok) as Hp.
  destruct (pickSessionForCapability _ _ _ _ _) as [[sid|e] s1]; [|done].
  pose proof (run_routes_change (reserveTerminalSessionRoute tid (session_node sid s1) (unix_milli now)) s1) as Hr.
  destruct (run_routes (reserveTerminalSessionRoute tid (session_node sid s1) (unix_milli now)) s1) as [[node id] s2].
  cbn [snd] in Hr. specialize (Hr ltac:(auto with route_frame) ltac:(auto with route_frame)).
  pose proof (pick_then _ _ _ _ _ Hp Hr) as Hp2.
  destruct (bool_decide _); [done|].
  set (s3 := (on_session _ _ _ s2).2).
  assert (route_change s s3) as H3.
  { destruct Hp2 as (E1&E2&E3). unfold route_change. subst s3. rewrite (give_back_acquired held capability s) by done.
    split_and!; [|done|]; unfold on_session; destruct (svc_heap s2 !! sid); done. }
  pose proof (route_change_ok _ _ _ Hok H3) as Hok3.
  destruct (isNodeExcluded _ _).
  { eapply pick_after; [exact H3|]. apply (pick_then s3 s3); [by apply (pick_none s3 capability retry_conflict)|].
    apply run_routes_change; auto with route_frame. }
  pose proof (pick_node_cases held node capability s3 Hok3) as Hn.
  destruct (pickSessionForNodeAndCapability _ _ _) as [[sid'|e] s4]; destruct Hn as (Hn&_&He); [by eapply pick_after|].
  destruct (error_is e ErrNoCapabilityWorker); cbn [negb].
  - set (s5 := (run_routes _ s4).2). assert (route_change s4 s5) as H5 by (apply run_routes_change; auto with route_frame).
    assert (route_change s s5) as H05.
    { destruct H3 as (A1&A2&A3), Hn as (B1&B2&B3), H5 as (C1&C2&C3). cbn in B2.
      split_and!; [by rewrite C1, B1|by rewrite C2, B2|by do 2 (etrans; [eassumption|])]. }
    pose proof (IH s5 (route_change_ok _ _ _ Hok H05)) as Hi.
    destruct (tryReserveAndPickTerminalSession _ _ _ _ _ _ s5) as [r s6]. by eapply pick_after.
  - eapply pick_after; [exact H3|]. eapply pick_then; [exact Hn|]. apply run_routes_change; auto with route_frame.
Qed.

Lemma check_target_same held node capability s :
  sessions_ok held s -> (checkTargetCapabilityAvailability node capability s).2 = s.
Proof.
  intros Hok. unfold checkTargetCapabilityAvailability. destruct (session_ref (trim node) s) as [[sid x]|] eqn:Er; [|done].
  destruct (negb _); [done|]. destruct (negb _); [done|]. apply session_ref_some in Er as [_ Hx].
  unfold on_session. rewrite Hx. pose proof (snapshot_id capability x _ (sk_heap _ _ Hok _ _ Hx)) as Hid.
  destruct (inflightSnapshot capability x) as [snap x']. cbn in Hid. subst x'. rewrite update_session_id by done.
  destruct snap as [[]|]; [by destruct (_ <=? _)|done].
Qed.

Lemma prepare_change tid now s :
  let s1 := (run_routes (fun r => (tt, maybePruneTerminalSessionRoutes (unix_milli now) r)) s).2 in
  route_change s s1 /\ route_change s1 (run_routes (terminalSessionRouteSnapshot tid (unix_milli now)) s1).2.
Proof. split; apply run_routes_change; intros r; cbn [snd]; auto with route_frame. Qed.

Lemma route_change_trans s1 s2 s3 : route_change s1 s2 -> route_change s2 s3 -> route_change s1 s3.
Proof. intros (A1&A2&A3) (B1&B2&B3). split_and!; [by rewrite B1|by rewrite B2|by etrans]. Qed.

Lemma claimed_pick_step held capability owner tid node id options now s :
  sessions_ok held s ->
  let '(r, s') :=
    if isNodeExcluded node (po_excludedNodeIDs options)
    then (Err retry_conflict, (run_routes (clearTerminalSessionRouteReservation tid node id) s).2)
    else match pickSessionForNodeAndCapability node capability s with
         | (Ok sid, s) => (Ok (sid, id), s)
         | (Err e, s) =>
             if error_is e ErrNoCapabilityWorker then
               if id =? 0 then (Err terminalSessionUnavailableError, s)
               else tryReserveAndPickTerminalSession 2 capability owner tid now options
                      (run_routes (clearTerminalSessionRoute tid node) s).2
             else (Err e, (run_routes (clearTerminalSessionRouteReservation tid node id) s).2)
         end in
  pick_step capability s s' (slot_of r).
Proof.
  intros Hok. destruct (isNodeExcluded _ _).
  { apply (pick_then s s); [by apply (pick_none s capability retry_conflict)|]. apply run_routes_change; auto with route_frame. }
  pose proof (pick_node_cases held node capability s Hok) as Hn.
  destruct (pickSessionForNodeAndCapability _ _ _) as [[sid|e] s1]; destruct Hn as (Hn&_&_); [done|].
  destruct (error_is e ErrNoCapabilityWorker).
  - destruct (id =? 0); [done|]. set (s2 := (run_routes _ s1).2).
    assert (route_change s1 s2) as H2 by (apply run_routes_change; auto with route_frame).
    assert (route_change s s2) as H02.
    { destruct Hn as (B1&B2&B3), H2 as (C1&C2&C3). cbn in B2. split_and!; [by rewrite C1, B1|by rewrite C2, B2|by etrans]. }
    pose proof (reserve_pick_step held 2 capability owner tid now options s2 (route_change_ok _ _ _ Hok H02)) as Hp.
    destruct (tryReserveAndPickTerminalSession _ _ _ _ _ _ s2) as [r s3]. by eapply pick_after.
  - apply (pick_then s s1); [done|]. apply run_routes_change; auto with route_frame.
Qed.

(** Whatever the pick does, it takes one slot of the session it returns and
    nothing else, or fails and takes none. *)
Lemma pick_dispatch_step held capability owner tid options now s :
  sessions_ok held s ->
  let '(r, s') := pickSessionForDispatch capability owner tid options now s in pick_step capability s s' (slot_of r).
Proof.
  intros Hok. unfold pickSessionForDispatch. destruct (bool_decide (trim (po_targetNodeID options) = "")); cbn [negb].
  2:{ pose proof (pick_node_cases held (trim (po_targetNodeID options)) capability s Hok) as Hn.
      destruct (pickSessionForNodeAndCapability _ _ _) as [[sid|e] s1]; destruct Hn as (Hn&_&_); [done|].
      destruct (error_is e ErrNoCapabilityWorker); [|done].
      pose proof (check_target_same held (trim (po_targetNodeID options)) capability s1 (pick_step_ok _ _ _ _ _ Hok Hn)) as Hc.
      destruct (checkTargetCapabilityAvailability _ _ _) as [[]]; cbn in Hc; by subst. }
  destruct (bool_decide (trim tid = "")).
  { pose proof (pick_capability_step held capability owner options now s Hok) as Hp.
    by destruct (pickSessionForCapability _ _ _ _ _) as [[]]. }
  destruct (prepare_change (trim tid) now s) as [H1 H2]. set (s1 := (run_routes _ s).2) in *.
  destruct (run_routes (terminalSessionRouteSnapshot _ _) s1) as [route s2]. cbn [snd] in H2.
  pose proof (route_change_trans _ _ _ H1 H2) as H02. pose proof (route_change_ok _ _ _ Hok H02) as Hok2.
  destruct (bound_unavailable route s2); [eapply pick_after; [exact H02|by eapply pick_none]|].
  assert (route_change s2 (run_routes (claimTerminalSessionRoute (trim tid) (unix_milli now)) s2).2) as H3
    by (apply run_routes_change; auto with route_frame).
  destruct (run_routes (claimTerminalSessionRoute _ _) s2) as [[[node id]|] s3]; cbn [snd] in H3;
    pose proof (route_change_trans _ _ _ H02 H3) as H03; pose proof (route_change_ok _ _ _ Hok H03) as Hok3.
  - pose proof (claimed_pick_step held capability owner (trim tid) node id options now s3 Hok3) as Hc.
    destruct (if isNodeExcluded _ _ then _ else _) as [r s4]. by eapply pick_after.
  - pose proof (reserve_pick_step held 2 capability owner (trim tid) now options s3 Hok3) as Hp.
    destruct (tryReserveAndPickTerminalSession _ _ _ _ _ _ s3) as [r s4]. by eapply pick_after.
Qed.

End pick.

(** ** Slots over an attempt *)
Section attempt.
Implicit Types (s : RegistryService) (held : string -> list string) (x : activeSession).

Definition upd held (sid : string) (h : list string) : string -> list string :=
  fun k => if bool_decide (k = sid) then h else held k.

(** The other goroutines keep every session's accounts. *)
Definition keeps_sessions (f : RegistryService -> RegistryService) : Prop :=
  forall held s, sessions_ok held s -> sessions_ok held (f s).

Lemma sessions_ok_ext held held' s :
  (forall k, is_Some (svc_heap s !! k) -> held' k = held k) -> sessions_ok held s -> sessions_ok held' s.
Proof. intros E [Hr Hh]. split; [done|]. intros sid x Hx. rewrite E by done. by apply Hh. Qed.

(** A method call on one session. *)
Lemma on_session_ok {A} (d : A) sid f held h s :
  (forall x, svc_heap s !! sid = Some x -> session_ok x (held sid) ->
     session_ok (f x).2 h /\ nodeID (f x).2 = nodeID x) ->
  sessions_ok held s -> sessions_ok (upd held sid h) (on_session d sid f s).2.
Proof.
  intros Hf Hok. unfold on_session. destruct (svc_heap s !! sid) as [x|] eqn:Ex.
  - specialize (Hf x eq_refl (sk_heap _ _ Hok _ _ Ex)). destruct (f x) as [a x']. cbn in Hf. destruct Hf as [Hx' Hn].
    split; cbn.
    + intros n sid' Hs. destruct (sk_ref _ _ Hok _ _ Hs) as (y&Hy&Hny). rewrite lookup_insert.
      case_decide; [|by exists y]. subst sid'. exists x'. split; [done|]. rewrite Hn. congruence.
    + intros sid' y. rewrite lookup_insert. unfold upd. case_decide.
      * intros [= <-]. by rewrite bool_decide_true.
      * rewrite bool_decide_false by done. apply (sk_heap _ _ Hok).
  - apply (sessions_ok_ext held); [|done]. intros k [y Hy]. cbn in Hy. unfold upd. rewrite bool_decide_false; [done|]. intros ->. congruence.
Qed.

(** A method that changes no slot held outside. *)
Lemma on_session_same {A} (d : A) sid f held s :
  (forall x, session_ok x (held sid) -> session_ok (f x).2 (held sid) /\ nodeID (f x).2 = nodeID x) ->
  sessions_ok held s -> sessions_ok held (on_session d sid f s).2.
Proof.
  intros Hf Hok. apply (sessions_ok_ext (upd held sid (held sid))).
  - intros k _. unfold upd. case_bool_decide; congruence.
  - apply on_session_ok; [|done]. intros x _. apply Hf.
Qed.

Lemma release_node c x : nodeID (releaseCapability c x) = nodeID x.
Proof. by destruct (release_frame c x) as (f&->&_). Qed.

Lemma unregister_node id x : nodeID (unregisterPending id x) = nodeID x.
Proof.
  unfold unregisterPending, take_pending. destruct (bool_decide _); [done|]. destruct (pending x !! trim id) as [p|]; [|done].
  unfold closeResult. destruct (channels _ !! _) as [[]|]; cbn; by rewrite release_node.
Qed.

Lemma enqueue_ok control pref ctx r h x :
  session_ok x h -> session_ok (enqueue control pref ctx r x).2 h /\ nodeID (enqueue control pref ctx r x).2 = nodeID x.
Proof.
  intros Hok. split.
  - destruct (enqueue_core control pref ctx r x) as (?&?&?&?&?). by apply (same_core_ok x).
  - unfold enqueue. by repeat case_match.
Qed.

Lemma rollback_change tid node id s : route_change s (rollback tid node id s).2.
Proof. unfold rollback. destruct (_ || _); [by split_and!|]. apply run_routes_change; auto with route_frame. Qed.

Lemma confirm_change tid node id now s : route_change s (confirm_in_memory tid node id now s).
Proof. unfold confirm_in_memory. destruct (bool_decide _); [by split_and!|]. apply run_routes_change; auto with route_frame. Qed.

Lemma commit_change tid node id p now s : route_change s (commit_route tid node id p now s).2.
Proof.
  unfold commit_route. destruct (bool_decide _); [by split_and!|].
  match goal with |- context [run_routes ?f s] => assert (route_change s (run_routes f s).2) as Hc;
    [apply run_routes_change; auto with route_frame|destruct (run_routes f s) as [[[]|]]] end; done.
Qed.

Lemma settle_change capability tid node id outcome now s :
  route_change s (settle_outcome capability tid node id outcome now s).2.
Proof.
  assert (route_change s s) as Hid by by split_and!. unfold settle_outcome. destruct (oc_err outcome) as [err|].
  - destruct (bool_decide (tid = "")); [done|]. destruct (isSessionNotFoundCommandError err).
    + destruct (id =? 0); [|apply rollback_change].
      assert (route_change s (run_routes (clearTerminalSessionRoute tid node) s).2) as Hc
        by (apply run_routes_change; auto with route_frame).
      by destruct (run_routes (clearTerminalSessionRoute tid node) s) as [[]].
    + destruct (isSessionCapacityCommandError err).
      * pose proof (rollback_change tid node id s) as Hr. by destruct (rollback tid node id s).
      * destruct (id =? 0); [done|apply confirm_change].
  - destruct (bool_decide (tid = "")); [done|]. destruct (_ || _); [|apply confirm_change].
    pose proof (commit_change tid node id (oc_payloadJSON outcome) now s) as Hc.
    by destruct (commit_route _ _ _ _ _ _) as [[]].
Qed.

(** What an attempt keeps: a property that the route operations, a send, the
    callback and the other goroutines keep. *)
Lemma attempt_body_keeps (P : RegistryService -> Prop) env capability p tid sid node id onD cmd ch s :
  (forall s s', route_change s s' -> P s -> P s') ->
  (forall s pref ctx r, P s -> P (on_session None sid (enqueueCommand pref ctx r) s).2) ->
  (forall s, P s -> P (ae_others env s)) -> (forall s, P s -> P (notify onD cmd s).2) ->
  P s -> P (attempt_body env capability p tid sid node id onD cmd ch s).2.
Proof.
  intros Hrc Hsend Ho Hd Hok. unfold attempt_body.
  match goal with |- context [on_session ?d sid (enqueueCommand ?a ?b ?c) s] => specialize (Hsend s a b c Hok);
    destruct (on_session d sid (enqueueCommand a b c) s) as [sent s1] end. cbn [snd] in Hsend.
  destruct (default _ sent) as [[]|e]; [|eapply Hrc; [apply rollback_change|done]].
  apply Hd in Hsend. destruct (notify onD cmd s1) as [[[]|e] s2]; cbn [snd] in Hsend.
  - apply Ho in Hsend. destruct (wait_result env sid ch (ae_others env s2)) as [[outcome|]|e]; cbn [snd].
    + eapply Hrc; [apply settle_change|done].
    + eapply Hrc; [apply rollback_change|done].
    + destruct (id =? 0); [done|]. eapply Hrc; [apply confirm_change|done].
  - cbn [snd]. destruct (id =? 0); [done|]. eapply Hrc; [apply confirm_change|done].
Qed.

Lemma attempt_body_ok env capability p tid sid node id onD cmd ch held s :
  keeps_sessions (ae_others env) -> keeps_sessions (fun s => (notify onD cmd s).2) ->
  sessions_ok held s -> sessions_ok held (attempt_body env capability p tid sid node id onD cmd ch s).2.
Proof.
  intros Ho Hd. apply attempt_body_keeps; [|intros; apply on_session_same; [intros; by apply enqueue_ok|done]|apply Ho|apply Hd].
  intros s1 s2 Hc Hok. by eapply route_change_ok.
Qed.

Lemma unregister_gone id x h : session_ok x h -> trim id <> "" -> pending (unregisterPending id x) !! trim id = None.
Proof.
  intros Hok Hne. unfold unregisterPending, take_pending. rewrite bool_decide_false by done.
  destruct (pending x !! trim id) as [p|] eqn:Ep; [|done].
  destruct (release_frame (pc_capability p) (with_pending (closedErr x) (delete (trim id) (pending x)) (channels x)
    (nextChannel x) x)) as (f&->&_). unfold closeResult. repeat case_match; cbn; by rewrite lookup_delete_eq.
Qed.

(** Giving the slot and the reservation back after a failed registration. *)
Lemma give_back_and_roll_back capability tid sid node id held s :
  sessions_ok (upd held sid (normalizeCapability capability :: held sid)) s ->
  let s' := (rollback tid node id (on_session tt sid (fun x => (tt, releaseCapability capability x)) s).2).2 in
  sessions_ok held s' /\ svc_heap s' !! sid = releaseCapability capability <$> svc_heap s !! sid.
Proof.
  set (held' := upd held sid _). intros Hok. cbv zeta. split.
  - eapply route_change_ok; [|apply rollback_change]. apply (sessions_ok_ext (upd held' sid (held sid))).
    + intros k _. unfold held', upd. case_bool_decide; congruence.
    + apply on_session_ok; [|done]. intros x _ Hx. split; [|apply release_node]. cbn.
      eapply give_back_step; [|exact Hx]. unfold held', upd. by rewrite bool_decide_true.
  - destruct (rollback_change tid node id (on_session tt sid (fun x => (tt, releaseCapability capability x)) s).2)
      as (_&->&_). unfold on_session. destruct (svc_heap s !! sid) eqn:Ex; cbn; [by rewrite lookup_insert_eq|by rewrite Ex].
Qed.

Lemma register_node cmd c x ch x' : registerPending cmd c x = (Ok ch, x') -> nodeID x' = nodeID x.
Proof. unfold registerPending. repeat case_match; intros; by simplify_eq. Qed.

Lemma register_err cmd c x e x' : registerPending cmd c x = (Err e, x') -> x' = x.
Proof. unfold registerPending. repeat case_match; intros; by simplify_eq. Qed.

Lemma release_pending c x : pending (releaseCapability c x) = pending x.
Proof. by destruct (release_frame c x) as (f&->&_). Qed.

End attempt.


(** ** What a dispatch leaves alone, whatever the state *)
Section untouched.
Implicit Types (s : RegistryService).

Lemma on_session_rest {A} (d : A) sid f s : rest (on_session d sid f s).2 = rest s.
Proof. unfold on_session. destruct (svc_heap s !! sid) as [x|]; [|done]. by destruct (f x). Qed.

Lemma run_routes_rest {A} (f : Routes Conn -> A * Routes Conn) s :
  (forall r, stored_tasks (f r).2 = stored_tasks r) -> rest (run_routes f s).2 = rest s.
Proof.
  intros Ht. unfold run_routes. specialize (Ht (svc_routes s)). destruct (f (svc_routes s)) as [a r]. cbn in *.
  unfold rest, svc_db, svc_conn. cbn. unfold stored_tasks in Ht. f_equal. rewrite <- !option_fmap_compose. apply Ht.
Qed.

Lemma list_online_rest capability owner now s : rest (listOnlineNodeIDsForCapability capability owner now s).2 = rest s.
Proof. destruct (list_online_frame capability owner now s) as (c&Hs&Hdb). unfold rest. by rewrite Hdb, Hs. Qed.

Lemma scan_rest capability excluded aware nodes acc :
  rest (foldl (scan_node capability excluded aware) acc nodes).2 = rest acc.2.
Proof.
  apply (foldl_inv (fun a : (bool * list candidate) * RegistryService => rest a.2 = rest acc.2)); [done|].
  intros [[b found] s] n _ Hs. unfold scan_node. destruct (isNodeExcluded _ _); [done|].
  destruct (session_ref n s) as [[sid x]|]; [|done]. destruct (_ || _); [done|].
  destruct (inflightSnapshot capability x) as [[[n1 n2]|] x']; [|done]. by destruct (n2 <=? n1).
Qed.

Lemma acquire_first_rest capability l s : rest (acquire_first capability l s).2 = rest s.
Proof.
  revert s. induction l as [|c l IH]; intros s; cbn [acquire_first]; [done|].
  pose proof (on_session_rest false (c_session c) (tryAcquireCapability capability) s) as Hr.
  destruct (on_session _ _ _ s) as [[] s1]; [done|]. by rewrite IH.
Qed.

Lemma pick_capability_rest capability owner options now s :
  rest (pickSessionForCapability capability owner options now s).2 = rest s.
Proof.
  unfold pickSessionForCapability. pose proof (list_online_rest capability owner now s) as Hl.
  destruct (listOnlineNodeIDsForCapability _ _ _ _) as [[|n nodes] s1]; [done|]. cbn [snd] in Hl.
  set (s2 := with_svc_round_robin _ s1). set (aware := _ && _).
  pose proof (scan_rest capability (po_excludedNodeIDs options) aware (rotation (i64 (svc_roundRobin s1)) (n :: nodes)) (false, [], s2)) as Hf.
  destruct (foldl _ _ _) as [[b found] s3]. cbn [snd] in Hf.
  pose proof (acquire_first_rest capability (preference found) s3) as Ha.
  destruct (acquire_first _ _ s3) as [[] s4]; cbn [snd] in *; by rewrite Ha, Hf.
Qed.

Lemma pick_node_rest node capability s : rest (pickSessionForNodeAndCapability node capability s).2 = rest s.
Proof.
  unfold pickSessionForNodeAndCapability. destruct (bool_decide _); [done|]. destruct (session_ref _ s) as [[sid x]|]; [|done].
  destruct (_ || _); [done|]. pose proof (on_session_rest false sid (tryAcquireCapability capability) s) as Hr.
  by destruct (on_session _ _ _ s) as [[] s1].
Qed.

Lemma check_target_rest node capability s : rest (checkTargetCapabilityAvailability node capability s).2 = rest s.
Proof.
  unfold checkTargetCapabilityAvailability. destruct (session_ref _ s) as [[sid x]|]; [|done].
  destruct (negb _); [done|]. destruct (negb _); [done|].
  pose proof (on_session_rest None sid (inflightSnapshot capability) s) as Hr.
  destruct (on_session _ _ _ s) as [[[n1 n2]|] s1]; [by destruct (n2 <=? n1)|done].
Qed.

Lemma reserve_pick_rest attempts capability owner tid now options s :
  rest (tryReserveAndPickTerminalSession attempts capability owner tid now options s).2 = rest s.
Proof.
  revert s. induction attempts as [|attempts IH]; intros s; cbn [tryReserveAndPickTerminalSession]; [done|].
  pose proof (pick_capability_rest capability owner options now s) as H1.
  destruct (pickSessionForCapability _ _ _ _ _) as [[sid|e] s1]; [|done]. cbn [snd] in H1.
  pose proof (run_routes_rest (reserveTerminalSessionRoute tid (session_node sid s1) (unix_milli now)) s1 ltac:(auto with route_frame)) as H2.
  destruct (run_routes _ s1) as [[node id] s2]. cbn [snd] in H2. destruct (bool_decide _); [cbn; congruence|].
  pose proof (on_session_rest tt sid (fun x => (tt, releaseCapability capability x)) s2) as H3.
  set (s3 := (on_session _ _ _ s2).2) in *.
  destruct (isNodeExcluded _ _); [cbn [snd]; rewrite run_routes_rest by auto with route_frame; congruence|].
  pose proof (pick_node_rest node capability s3) as H4.
  destruct (pickSessionForNodeAndCapability _ _ _) as [[sid'|e] s4]; cbn [snd] in *; [congruence|].
  destruct (negb _); [cbn [snd]|rewrite IH]; rewrite run_routes_rest by auto with route_frame; congruence.
Qed.

Lemma pick_dispatch_rest capability owner tid options now s :
  rest (pickSessionForDispatch capability owner tid options now s).2 = rest s.
Proof.
  unfold pickSessionForDispatch. destruct (negb _).
  { pose proof (pick_node_rest (trim (po_targetNodeID options)) capability s) as H1.
    destruct (pickSessionForNodeAndCapability _ _ _) as [[sid|e] s1]; [done|]. destruct (error_is _ _); [|done].
    pose proof (check_target_rest (trim (po_targetNodeID options)) capability s1) as H2.
    destruct (checkTargetCapabilityAvailability _ _ _) as [[]]; cbn [snd] in *; congruence. }
  destruct (bool_decide _).
  { pose proof (pick_capability_rest capability owner options now s) as H1.
    by destruct (pickSessionForCapability _ _ _ _ _) as [[]]. }
  destruct (prepare_change (trim tid) now s) as [(H1&_) (H2&_)]. set (s1 := (run_routes _ s).2) in *.
  destruct (run_routes (terminalSessionRouteSnapshot _ _) s1) as [route s2]. cbn [snd] in H2.
  destruct (bound_unavailable route s2); [cbn; congruence|].
  pose proof (run_routes_rest (claimTerminalSessionRoute (trim tid) (unix_milli now)) s2 ltac:(auto with route_frame)) as H3.
  destruct (run_routes (claimTerminalSessionRoute _ _) s2) as [[[node id]|] s3]; cbn [snd] in H3;
    [|rewrite reserve_pick_rest; congruence].
  destruct (isNodeExcluded _ _); [cbn [snd]; rewrite run_routes_rest by auto with route_frame; congruence|].
  pose proof (pick_node_rest node capability s3) as H4.
  destruct (pickSessionForNodeAndCapability _ _ _) as [[sid'|e] s4]; cbn [snd] in *; [congruence|].
  destruct (error_is _ _); [destruct (id =? 0); [cbn; congruence|rewrite reserve_pick_rest]|cbn [snd]];
    rewrite run_routes_rest by auto with route_frame; congruence.
Qed.

(** A dispatch changes what [rest] describes only through its callback and the
    other goroutines: [P] holds throughout, unless the callback fails, which
    ends the dispatch with [Q]. *)
Section keeps.
Context (P Q : RegistryService -> Prop) (HP : forall s s', rest s' = rest s -> P s -> P s')
  (HQ : forall s s', rest s' = rest s -> Q s -> Q s').

Definition callback_ok (onD : option on_dispatched) : Prop :=
  forall cmd s, P s -> match notify onD cmd s with (Ok _, s') => P s' | (Err _, s') => Q s' end.

Lemma attempt_keeps env capability p tid sid id onD s :
  callback_ok onD -> (forall s, P s -> P (ae_others env s)) -> P s ->
  let '(r, s') := dispatchCommandAttempt env capability p tid sid id onD s in P s' \/ (Q s' /\ exists e, r = Err e).
Proof.
  intros Hd Ho Hs. unfold dispatchCommandAttempt.
  assert (forall s s', route_change s s' -> P s -> P s') as Hrc by (intros s1 s2 (Hr&_); by apply HP).
  assert (forall {A} (d : A) f s, P s -> P (on_session d sid f s).2) as Hon
    by (intros A d f s1; apply HP, on_session_rest).
  destruct (ae_commandID env) as [cmd|e]; [|left; eapply Hrc; [apply rollback_change|by apply Hon]].
  pose proof (Hon _ (Err (ErrorString "")) (registerPending cmd capability) s Hs) as H1.
  destruct (on_session _ _ (registerPending cmd capability) s) as [[ch|e] s1]; cbn [snd] in H1;
    [|left; eapply Hrc; [apply rollback_change|by apply Hon]].
  enough (let '(r, s2) := attempt_body env capability p tid sid (session_node sid s) id onD cmd ch s1 in
    P s2 \/ (Q s2 /\ exists e, r = Err e)) as Hb.
  { destruct (attempt_body _ _ _ _ _ _ _ _ _ _ _) as [r s2]. destruct Hb as [Hb|[Hb He]]; [by left; apply Hon|right].
    split; [|done]. eapply HQ; [apply on_session_rest|done]. }
  unfold attempt_body. set (frame := CommandDispatchFrame _).
  pose proof (Hon _ None (enqueueCommand (ae_prefer_ctx env) (ctx_error <$> ae_ctx_send env) frame) s1 H1) as H2.
  destruct (on_session None _ _ s1) as [sent s2]. cbn [snd] in H2.
  destruct (default _ sent) as [[]|e]; [|left; eapply Hrc; [apply rollback_change|done]].
  specialize (Hd cmd s2 H2). destruct (notify onD cmd s2) as [[[]|e] s3].
  - apply Ho in Hd. pose proof (settle_change capability tid (session_node sid s) id) as Hsc.
    destruct (wait_result env sid ch (ae_others env s3)) as [[outcome|]|e].
    + specialize (Hsc outcome (ae_later env) (ae_others env s3)). destruct (settle_outcome _ _ _ _ _ _ _). left. by eapply Hrc.
    + left. eapply Hrc; [apply rollback_change|done].
    + left. destruct (id =? 0); [done|]. eapply Hrc; [apply confirm_change|done].
  - right. split; [|by eexists]. destruct (id =? 0); [done|].
    destruct (confirm_change tid (session_node sid s) id (ae_later env) s3) as (Hr&_). by eapply HQ.
Qed.

Lemma dispatch_keeps envs capability p options s :
  callback_ok (do_onDispatched options) -> (forall i s, P s -> P (ae_others (envs i) s)) -> P s ->
  let '((r, _), s') := dispatchCommand envs capability p options s in P s' \/ (Q s' /\ exists e, r = Err e).
Proof.
  intros Hd Ho Hs. unfold dispatchCommand. destruct (bool_decide _); [by left|].
  set (cap := normalizeCapability capability). set (p' := if payload_empty p then _ else p). set (tid := terminalSessionIDFromPayload _ _).
  assert (forall n att last s, P s -> let '((r, _), s') := dispatch_loop envs cap p' tid options n att last s in
    P s' \/ (Q s' /\ exists e, r = Err e)) as Hloop.
  { intros n. induction n as [|n IH]; intros att last s1 H1; cbn [dispatch_loop]; [by left|].
    set (env := envs (length att)). destruct (ae_ctx_head env); [by left|].
    pose proof (pick_dispatch_rest cap (do_ownerID options) tid
      (mkPickOptions (do_terminalSessionIntent options) (list_to_set att) (do_targetNodeID options)) (ae_now env) s1) as Hp.
    destruct (pickSessionForDispatch _ _ _ _ _ _) as [[[sid id]|e] s2]; cbn [snd] in Hp;
      apply (HP _ _ Hp) in H1; [|by left].
    pose proof (attempt_keeps env cap p' tid sid id (do_onDispatched options) s2 Hd (Ho _) H1) as Ha.
    destruct (dispatchCommandAttempt _ _ _ _ _ _ _ _) as [[a|e] s3].
    - destruct Ha as [Ha|[_ [e He]]]; [|done]. destruct (negb _); [by left|]. by apply IH.
    - destruct Ha as [Ha|[Ha He]]; [by left|right]. eauto. }
  destruct (_ && _); [|by apply Hloop].
  pose proof (list_online_rest cap (do_ownerID options) (ae_now (envs 0%nat)) s) as Hl.
  destruct (listOnlineNodeIDsForCapability _ _ _ _) as [nodes s1]. apply Hloop. by eapply HP.
Qed.
End keeps.

End untouched.

(** ** Retries *)
Section retries.
Implicit Types (s : RegistryService) (held : string -> list string) (E : gset string).

Definition trimmed_table s : Prop := forall n sid, svc_sessions s !! n = Some sid -> trim n = n.

Lemma excluded_false n E : isNodeExcluded n E = false <-> trim n ∉ E.
Proof.
  unfold isNodeExcluded. case_bool_decide as H0; [subst; set_solver|]. by rewrite bool_decide_eq_false.
Qed.

(** A session reached through the table runs on the node it is listed under. *)
Lemma acquired_node held capability s s' n sid x :
  sessions_ok held s -> session_ref n s = Some (sid, x) -> acquired capability s s' (Ok sid) -> session_node sid s' = n.
Proof.
  intros Hok [Hs Hx]%session_ref_some (y&y'&Hy&Ha&Hh). unfold session_node. rewrite Hh, lookup_insert_eq.
  destruct (sk_ref _ _ Hok _ _ Hs) as (z&Hz&Hn). simplify_eq. unfold tryAcquireCapability in Ha. repeat case_match; by simplify_eq.
Qed.

Lemma session_node_heap s s' sid : svc_heap s' = svc_heap s -> session_node sid s' = session_node sid s.
Proof. unfold session_node. by intros ->. Qed.

Lemma trimmed_rest s s' : rest s' = rest s -> trimmed_table s -> trimmed_table s'.
Proof. intros E1%rest_sessions Ht n sid. rewrite E1. apply Ht. Qed.

Lemma pick_capability_node held capability owner options now s sid s' :
  sessions_ok held s -> trimmed_table s -> pickSessionForCapability capability owner options now s = (Ok sid, s') ->
  session_node sid s' ∉ po_excludedNodeIDs options.
Proof.
  intros Hok Ht E. pose proof (pick_cases held capability owner options now s Hok) as Hp. rewrite E in Hp.
  destruct Hp as (_&Ha&_&_&node&c&_&(x&n&Hu&_)%candidate_some&<-&_).
  unfold usable in Hu. destruct (isNodeExcluded node _) eqn:Ex; [done|]. apply excluded_false in Ex.
  destruct (session_ref node s) as [[sid y]|] eqn:Er; [|done]. destruct (_ && _); [|done]. simplify_eq.
  rewrite (acquired_node held capability s s' node _ x Hok Er Ha).
  apply session_ref_some in Er as [Hs _]. by rewrite <- (Ht _ _ Hs).
Qed.

Lemma pick_node_node held node capability s sid s' :
  sessions_ok held s -> pickSessionForNodeAndCapability node capability s = (Ok sid, s') -> session_node sid s' = trim node.
Proof.
  intros Hok E. pose proof (pick_node_cases held node capability s Hok) as Hn. rewrite E in Hn.
  destruct Hn as ((_&Ha&_)&_&x&Hr&_). by eapply acquired_node.
Qed.

Lemma reserve_pick_node held attempts capability owner tid now options s sid id s' :
  sessions_ok held s -> trimmed_table s ->
  tryReserveAndPickTerminalSession attempts capability owner tid now options s = (Ok (sid, id), s') ->
  session_node sid s' ∉ po_excludedNodeIDs options.
Proof.
  revert s. induction attempts as [|attempts IH]; intros s Hok Ht E; cbn [tryReserveAndPickTerminalSession] in E; [done|].
  pose proof (pick_capability_step held capability owner options now s Hok) as Hp.
  destruct (pickSessionForCapability _ _ _ _ _) as [[sid0|e] s1] eqn:E1; [|done].
  pose proof (pick_capability_node held _ _ _ _ _ _ _ Hok Ht E1) as Hex.
  pose proof (run_routes_change (reserveTerminalSessionRoute tid (session_node sid0 s1) (unix_milli now)) s1) as Hr.
  destruct (run_routes (reserveTerminalSessionRoute tid (session_node sid0 s1) (unix_milli now)) s1) as [[node id0] s2].
  cbn [snd] in Hr. specialize (Hr ltac:(auto with route_frame) ltac:(auto with route_frame)).
  pose proof (pick_then _ _ _ _ _ Hp Hr) as Hp2.
  destruct (bool_decide _); [simplify_eq; destruct Hr as (_&Hh&_); by rewrite (session_node_heap _ _ _ Hh)|].
  set (s3 := (on_session _ _ _ s2).2) in *.
  assert (route_change s s3) as H3.
  { destruct Hp2 as (A1&A2&A3). unfold route_change. subst s3. rewrite (give_back_acquired held capability s) by done.
    split_and!; [|done|]; unfold on_session; destruct (svc_heap s2 !! sid0); done. }
  pose proof (route_change_ok _ _ _ Hok H3) as Hok3.
  destruct (isNodeExcluded node _) eqn:Ex; [done|]. apply excluded_false in Ex.
  pose proof (pick_node_cases held node capability s3 Hok3) as Hn.
  destruct (pickSessionForNodeAndCapability _ _ _) as [[sid'|e] s4] eqn:E4.
  { simplify_eq. by rewrite (pick_node_node held _ _ _ _ _ Hok3 E4). }
  destruct (error_is e ErrNoCapabilityWorker); cbn [negb] in E; [|done]. set (s5 := (run_routes _ s4).2) in *.
  assert (route_change s s5) as H5.
  { assert (route_change s4 s5) as H45 by (apply run_routes_change; auto with route_frame).
    destruct Hn as ((B1&B2&B3)&_&_), H3 as (A1&A2&A3), H45 as (C1&C2&C3). cbn in B2.
    split_and!; [by rewrite C1, B1|by rewrite C2, B2|by do 2 (etrans; [eassumption|])]. }
  apply (IH s5); [exact (route_change_ok _ _ _ Hok H5)| |exact E]. destruct H5 as (H5&_). by eapply trimmed_rest.
Qed.

(** A pick avoids the workers already tried, unless the caller named the
    worker, in which case no reservation is involved. *)
Lemma pick_dispatch_node held capability owner tid options now s sid id s' :
  sessions_ok held s -> trimmed_table s ->
  pickSessionForDispatch capability owner tid options now s = (Ok (sid, id), s') ->
  (trim (po_targetNodeID options) <> "" -> id = 0) /\
  (trim (po_targetNodeID options) = "" -> session_node sid s' ∉ po_excludedNodeIDs options).
Proof.
  intros Hok Ht E. unfold pickSessionForDispatch in E.
  destruct (bool_decide (trim (po_targetNodeID options) = "")) eqn:Etg; cbn [negb] in E; bool_prop.
  2:{ split; [|done]. intros _. destruct (pickSessionForNodeAndCapability _ _ _) as [[]]; [by simplify_eq|].
      destruct (error_is _ _); [|done]. by destruct (checkTargetCapabilityAvailability _ _ _) as [[]]. }
  split; [done|]. intros _. destruct (bool_decide (trim tid = "")).
  { destruct (pickSessionForCapability _ _ _ _ _) as [[]] eqn:E1; [|done]. simplify_eq. by eapply pick_capability_node. }
  destruct (prepare_change (trim tid) now s) as [H1 H2]. set (s1 := (run_routes _ s).2) in *.
  destruct (run_routes (terminalSessionRouteSnapshot _ _) s1) as [route s2]. cbn [snd] in H2.
  pose proof (route_change_trans _ _ _ H1 H2) as H02. destruct (bound_unavailable route s2); [done|].
  assert (route_change s2 (run_routes (claimTerminalSessionRoute (trim tid) (unix_milli now)) s2).2) as H3
    by (apply run_routes_change; auto with route_frame).
  destruct (run_routes (claimTerminalSessionRoute _ _) s2) as [[[node id0]|] s3]; cbn [snd] in H3;
    pose proof (route_change_trans _ _ _ H02 H3) as H03; pose proof (route_change_ok _ _ _ Hok H03) as Hok3;
    assert (trimmed_table s3) as Ht3 by (destruct H03 as (H03&_); by eapply trimmed_rest).
  2:{ by eapply reserve_pick_node. }
  destruct (isNodeExcluded node _) eqn:Ex; [done|]. apply excluded_false in Ex.
  pose proof (pick_node_cases held node capability s3 Hok3) as Hn.
  destruct (pickSessionForNodeAndCapability node capability s3) as [[sid0|e] s4] eqn:E4.
  { simplify_eq. by rewrite (pick_node_node held _ _ _ _ _ Hok3 E4). }
  destruct (error_is e ErrNoCapabilityWorker); [|done]. destruct (id0 =? 0); [done|].
  set (s5 := (run_routes _ s4).2) in *.
  assert (route_change s3 s5) as H5.
  { assert (route_change s4 s5) as H45 by (apply run_routes_change; auto with route_frame).
    destruct Hn as ((B1&B2&B3)&_&_), H45 as (C1&C2&C3). cbn in B2. split_and!; [by rewrite C1|by rewrite C2|by etrans]. }
  eapply reserve_pick_node; [exact (route_change_ok _ _ _ Hok3 H5)| |exact E]. destruct H5 as (H5&_). by eapply trimmed_rest.
Qed.

Lemma attempt_slots env capability p tid sid id onD s held :
  sessions_ok (upd held sid (normalizeCapability capability :: held sid)) s ->
  (forall cmd x, ae_commandID env = Ok cmd -> svc_heap s !! sid = Some x -> pending x !! trim cmd = None) ->
  keeps_sessions (ae_others env) -> (forall cmd, keeps_sessions (fun s => (notify onD cmd s).2)) ->
  let s' := (dispatchCommandAttempt env capability p tid sid id onD s).2 in
  sessions_ok held s' /\
  forall cmd x', ae_commandID env = Ok cmd -> trim cmd <> "" -> svc_heap s' !! sid = Some x' ->
    pending x' !! trim cmd = None.
Proof.
  intros Hok Hfresh Ho Hd. set (held' := upd held sid (normalizeCapability capability :: held sid)) in *.
  destruct (give_back_and_roll_back capability tid sid (session_node sid s) id held s Hok) as [Hback Hheap].
  cbv zeta. unfold dispatchCommandAttempt. destruct (ae_commandID env) as [cmd|e] eqn:Ec; [|done].
  pose proof (on_session_ok (Err (ErrorString "")) sid (registerPending cmd capability) held' (held sid) s) as Hreg.
  destruct (on_session (Err (ErrorString "")) sid (registerPending cmd capability) s) as [reg s1] eqn:Eos.
  cbn [snd] in Hreg. unfold on_session in Eos. destruct (svc_heap s !! sid) as [x|] eqn:Ex.
  2:{ injection Eos as <- <-. cbn [snd]. split; [done|]. intros c x' _ _ Hx'. by rewrite Hheap in Hx'. }
  specialize (Hfresh _ _ eq_refl eq_refl). destruct (registerPending cmd capability x) as [[ch|e] x1] eqn:Er;
    injection Eos as <- Hs1.
  - assert (sessions_ok held s1) as Hok1.
    { apply (sessions_ok_ext (upd held' sid (held sid))); [intros k _; unfold held', upd; case_bool_decide; congruence|].
      apply Hreg; [|done]. intros y [= <-] Hy. rewrite Er. cbn. split; [|by eapply register_node].
      eapply register_ok; [|exact Hfresh|exact Er|exact Hy]. unfold held', upd. by rewrite bool_decide_true. }
    pose proof (attempt_body_ok env capability p tid sid (session_node sid s) id onD cmd ch held s1 Ho (Hd cmd) Hok1) as Hb.
    destruct (attempt_body _ _ _ _ _ _ _ _ _ _ _) as [r s2]. cbn [snd] in *. split.
    + apply on_session_same; [|done]. intros y Hy. split; [by apply unregister_ok|apply unregister_node].
    + intros c x' [= <-] Hc. unfold on_session. destruct (svc_heap s2 !! sid) as [y|] eqn:Ey; [|by cbn; rewrite Ey].
      cbn. rewrite lookup_insert_eq. intros [= <-]. eapply unregister_gone; [by eapply sk_heap|done].
  - apply register_err in Er as ->. rewrite update_session_id in Hs1 by done. subst s1. cbn [snd]. split; [done|].
    intros c x' [= <-] _ Hx'. rewrite Hheap in Hx'. injection Hx' as <-. by rewrite release_pending.
Qed.

Definition fresh_at (cmd sid : string) s : Prop := forall x, svc_heap s !! sid = Some x -> pending x !! trim cmd = None.

(** The other goroutines use other command ids than [ids]. *)
Definition keeps_fresh (ids : list string) (f : RegistryService -> RegistryService) : Prop :=
  forall cmd sid s, cmd ∈ ids -> fresh_at cmd sid s -> fresh_at cmd sid (f s).
Definition keeps_trimmed (f : RegistryService -> RegistryService) : Prop :=
  forall s, trimmed_table s -> trimmed_table (f s).

Lemma on_session_fresh {A} (d : A) sid f cmd sid' s :
  (forall x, sid' = sid -> svc_heap s !! sid = Some x -> pending x !! trim cmd = None -> pending (f x).2 !! trim cmd = None) ->
  fresh_at cmd sid' s -> fresh_at cmd sid' (on_session d sid f s).2.
Proof.
  intros Hf Hs. unfold on_session. destruct (svc_heap s !! sid) as [x|] eqn:Ex; [|done].
  specialize (Hf x). destruct (f x) as [a x']. intros y. cbn in *. rewrite lookup_insert. case_decide as Eq; [|apply Hs].
  subst sid'. intros [= <-]. apply Hf; [done..|]. by apply Hs.
Qed.

Lemma unregister_keeps_fresh id cmd x :
  pending x !! trim cmd = None -> pending (unregisterPending id x) !! trim cmd = None.
Proof.
  intros Hp. unfold unregisterPending, take_pending. destruct (bool_decide _); [done|].
  destruct (pending x !! trim id) as [p|]; [|done].
  destruct (release_frame (pc_capability p) (with_pending (closedErr x) (delete (trim id) (pending x)) (channels x)
    (nextChannel x) x)) as (f&->&_). unfold closeResult. repeat case_match; cbn; rewrite lookup_delete; by case_decide.
Qed.

Lemma on_session_table {A} (d : A) sid f s : svc_sessions (on_session d sid f s).2 = svc_sessions s.
Proof. unfold on_session. destruct (svc_heap s !! sid) as [x|]; [|done]. by destruct (f x). Qed.

Lemma attempt_keeps_trimmed env capability p tid sid id onD s :
  keeps_trimmed (ae_others env) -> (forall cmd, keeps_trimmed (fun s => (notify onD cmd s).2)) -> trimmed_table s ->
  trimmed_table (dispatchCommandAttempt env capability p tid sid id onD s).2.
Proof.
  intros Ho Hd Ht.
  assert (forall s s', svc_sessions s' = svc_sessions s -> trimmed_table s -> trimmed_table s') as Hsame.
  { intros s1 s2 Eq Ht1 n sid'. rewrite Eq. apply Ht1. }
  assert (forall s s', route_change s s' -> trimmed_table s -> trimmed_table s') as Hrc.
  { intros s1 s2 (Hr&_). by apply trimmed_rest. }
  unfold dispatchCommandAttempt. destruct (ae_commandID env) as [cmd|e].
  2:{ eapply Hrc; [apply rollback_change|]. eapply Hsame; [apply on_session_table|done]. }
  destruct (on_session (Err (ErrorString "")) sid (registerPending cmd capability) s) as [reg s1] eqn:Eos.
  assert (trimmed_table s1) as Ht1.
  { eapply Hsame; [|exact Ht]. by rewrite <- (on_session_table (Err (ErrorString "")) sid (registerPending cmd capability) s), Eos. }
  destruct reg as [ch|e].
  - destruct (attempt_body _ _ _ _ _ _ _ _ _ _ _) as [r s2] eqn:Eb.
    eapply Hsame; [apply on_session_table|]. change s2 with (r, s2).2. rewrite <- Eb.
    apply attempt_body_keeps; [done| |apply Ho|apply Hd|done]. intros. eapply Hsame; [apply on_session_table|done].
  - eapply Hrc; [apply rollback_change|]. eapply Hsame; [apply on_session_table|done].
Qed.

Lemma attempt_keeps_fresh ids env capability p tid sid id onD s cmd' sid' :
  keeps_fresh ids (ae_others env) -> (forall cmd, keeps_fresh ids (fun s => (notify onD cmd s).2)) -> cmd' ∈ ids ->
  (forall cmd, ae_commandID env = Ok cmd -> trim cmd = trim cmd' -> sid' <> sid) ->
  fresh_at cmd' sid' s -> fresh_at cmd' sid' (dispatchCommandAttempt env capability p tid sid id onD s).2.
Proof.
  intros Ho Hd Hin Hne Hf.
  assert (forall s s', route_change s s' -> fresh_at cmd' sid' s -> fresh_at cmd' sid' s') as Hrc.
  { intros s1 s2 (_&Hh&_) Hs x. rewrite Hh. apply Hs. }
  assert (forall s, fresh_at cmd' sid' s -> fresh_at cmd' sid' (on_session tt sid (fun x => (tt, releaseCapability capability x)) s).2) as Hrel.
  { intros s1. apply on_session_fresh. intros x _ _ Hp. cbn. by rewrite release_pending. }
  unfold dispatchCommandAttempt. destruct (ae_commandID env) as [cmd|e] eqn:Ec; [|eapply Hrc; [apply rollback_change|by apply Hrel]].
  destruct (on_session (Err (ErrorString "")) sid (registerPending cmd capability) s) as [reg s1] eqn:Eos.
  assert (fresh_at cmd' sid' s1) as Hf1.
  { change s1 with (reg, s1).2. rewrite <- Eos. apply on_session_fresh; [|done]. intros x -> _ Hp.
    assert (trim cmd <> trim cmd') as Hne' by (intros Eq; by apply (Hne cmd)).
    unfold registerPending. destruct (bool_decide _); [done|]. destruct (closedErr x); [done|]. cbn. by rewrite lookup_insert_ne. }
  destruct reg as [ch|e]; [|eapply Hrc; [apply rollback_change|by apply Hrel]].
  destruct (attempt_body _ _ _ _ _ _ _ _ _ _ _) as [r s2] eqn:Eb.
  apply on_session_fresh; [intros x _ _; apply unregister_keeps_fresh|]. change s2 with (r, s2).2. rewrite <- Eb.
  apply attempt_body_keeps; [done| |by intros; apply Ho|by intros; apply (Hd cmd)|done].
  intros s3 pref ctx rr. apply on_session_fresh. intros x _ _ Hp.
  destruct (enqueue_core false pref ctx rr x) as (_&Hpend&_). unfold enqueueCommand. by rewrite Hpend.
Qed.

Lemma zero_not_retryable env capability p tid sid onD s a s' :
  dispatchCommandAttempt env capability p tid sid 0 onD s = (Ok a, s') -> dar_capacityRetryable a = false.
Proof.
  unfold dispatchCommandAttempt. destruct (ae_commandID env) as [cmd|]; [|done].
  destruct (on_session _ _ _ _) as [[ch|] s1]; [|done]. unfold attempt_body.
  destruct (on_session None _ _ _) as [sent s2]. destruct (default _ sent) as [[]|]; [|done].
  destruct (notify onD cmd s2) as [[[]|] s3]; [|done]. destruct (wait_result _ _ _ _) as [[outcome|]|]; [|done..].
  unfold settle_outcome. cbn [Z.eqb negb andb]. rewrite !andb_false_r.
  repeat case_match; intros; by simplify_eq.
Qed.

Lemma acquired_ok held capability s s' sid :
  sessions_ok held s -> rest s' = rest s -> acquired capability s s' (Ok sid) ->
  sessions_ok (upd held sid (normalizeCapability capability :: held sid)) s'.
Proof.
  intros Hok Hs%rest_sessions (x&x'&Hx&Ha&Hh). split.
  - intros n sid'. rewrite Hs, Hh. intros Hn. destruct (sk_ref _ _ Hok _ _ Hn) as (y&Hy&Hny). rewrite lookup_insert.
    case_decide; [|by eauto]. subst sid'. exists x'. split; [done|]. simplify_eq.
    unfold tryAcquireCapability in Ha. repeat case_match; by simplify_eq.
  - intros sid' y. rewrite Hh, lookup_insert. unfold upd. case_decide.
    + intros [= <-]. rewrite bool_decide_true by done. eapply acquire_ok; [by eapply sk_heap|done].
    + rewrite bool_decide_false by done. by apply (sk_heap _ _ Hok).
Qed.

(** The other goroutines while a dispatch waits: they keep the sessions'
    accounts and the table, and use other command ids. *)
Record polite (ids : list string) (f : RegistryService -> RegistryService) : Prop := {
  pl_sessions : keeps_sessions f; pl_fresh : keeps_fresh ids f; pl_trimmed : keeps_trimmed f }.

Record loop_ok held (ids : list string) s : Prop := {
  lo_sessions : sessions_ok held s; lo_trimmed : trimmed_table s;
  lo_fresh cmd sid : cmd ∈ ids -> fresh_at cmd sid s }.

Lemma attempt_loop_ok held ids env capability p tid sid id onD s s1 :
  loop_ok held ids s -> pick_step capability s s1 (Ok sid) ->
  (forall cmd, ae_commandID env = Ok cmd -> cmd ∈ ids /\ trim cmd <> "") ->
  polite ids (ae_others env) -> (forall cmd, polite ids (fun s => (notify onD cmd s).2)) ->
  loop_ok held ids (dispatchCommandAttempt env capability p tid sid id onD s1).2.
Proof.
  intros [Hok Ht Hf] (Hr&Ha&_) Hid [Po1 Po2 Po3] Hd.
  assert (forall cmd sid, cmd ∈ ids -> fresh_at cmd sid s1) as Hf1.
  { intros cmd sid' Hin y. destruct Ha as (x&x'&Hx&Hacq&Hh). rewrite Hh, lookup_insert. case_decide; [|by apply Hf].
    intros [= <-]. subst. specialize (Hf _ _ Hin _ Hx). unfold tryAcquireCapability in Hacq. repeat case_match; by simplify_eq. }
  pose proof (acquired_ok _ _ _ _ _ Hok Hr Ha) as Hok1.
  destruct (attempt_slots env capability p tid sid id onD s1 held Hok1) as [Hs Hown];
    [intros cmd x Hc; apply Hf1, (Hid _ Hc)|done|intros cmd; apply Hd|].
  split; [done|apply attempt_keeps_trimmed; [done|intros; apply Hd|by eapply trimmed_rest]|].
  intros cmd' sid' Hin. destruct (ae_commandID env) as [cmd|e] eqn:Ec.
  - destruct (decide (trim cmd = trim cmd' /\ sid' = sid)) as [[Eq ->]|Hne].
    + intros x Hx. rewrite <- Eq. apply (Hown cmd); [done|by apply Hid|done].
    + eapply attempt_keeps_fresh; [done|intros; apply Hd|done| |by apply Hf1]. rewrite Ec. intros c [= <-]. tauto.
  - eapply attempt_keeps_fresh; [done|intros; apply Hd|done| |by apply Hf1]. by rewrite Ec.
Qed.

Lemma dispatch_loop_attempts held ids envs capability p tid options attempts attempted last s :
  (forall i cmd, ae_commandID (envs i) = Ok cmd -> cmd ∈ ids /\ trim cmd <> "") ->
  (forall i, polite ids (ae_others (envs i))) -> (forall cmd, polite ids (fun s => (notify (do_onDispatched options) cmd s).2)) ->
  loop_ok held ids s -> NoDup attempted -> (trim (do_targetNodeID options) <> "" -> attempted = []) ->
  let '((_, visited), s') := dispatch_loop envs capability p tid options attempts attempted last s in
  loop_ok held ids s' /\ NoDup visited /\ (length visited <= length attempted + attempts)%nat.
Proof.
  intros Hids Ho Hd. revert attempted last s. induction attempts as [|attempts IH]; intros attempted last s Hok Hnd Htg;
    cbn [dispatch_loop]; [split_and!; [done..|lia]|].
  set (env := envs (length attempted)). destruct (ae_ctx_head env); [split_and!; [done..|lia]|].
  set (options' := mkPickOptions _ _ _).
  pose proof (pick_dispatch_step held capability (do_ownerID options) tid options' (ae_now env) s (lo_sessions _ _ _ Hok)) as Hp.
  destruct (pickSessionForDispatch _ _ _ _ _ _) as [[[sid id]|e] s1] eqn:Ep; cbn [slot_of] in Hp.
  2:{ destruct Hp as (Hr&Hh&_). cbn in Hh. split_and!; [|done|lia]. destruct Hok as [[Hs1 Hs2] Ht Hf]. pose proof (rest_sessions _ _ Hr) as Eq.
      split; [split; by rewrite ?Eq, ?Hh|by eapply trimmed_rest|]. intros cmd sid Hin x. rewrite Hh. by apply Hf. }
  destruct (pick_dispatch_node held _ _ _ _ _ _ _ _ _ (lo_sessions _ _ _ Hok) (lo_trimmed _ _ _ Hok) Ep) as [Hz Hn].
  cbn [po_targetNodeID po_excludedNodeIDs options'] in Hz, Hn.
  assert (NoDup (session_node sid s1 :: attempted)) as Hnd'.
  { apply NoDup_cons. split; [|done]. destruct (decide (trim (do_targetNodeID options) = "")) as [E0|E0].
    - specialize (Hn E0). set_solver.
    - rewrite (Htg E0). set_solver. }
  pose proof (attempt_loop_ok held ids env capability p tid sid id (do_onDispatched options) s s1 Hok Hp) as Hat.
  destruct (dispatchCommandAttempt _ _ _ _ _ _ _ s1) as [[a|e] s2] eqn:Ea; cbn [snd] in Hat;
    (specialize (Hat ltac:(intros cmd; apply Hids) (Ho _) Hd)); [|split_and!; [done..|cbn; lia]].
  destruct (dar_capacityRetryable a) eqn:Er; cbn [negb]; [|split_and!; [done..|cbn; lia]].
  specialize (IH (session_node sid s1 :: attempted) (Some (dar_outcome a)) s2 Hat Hnd').
  destruct (dispatch_loop _ _ _ _ _ _ _ _ _) as [[r v] s3]. destruct IH as (?&?&Hlen).
  - intros E0. rewrite (Hz E0) in Ea. apply zero_not_retryable in Ea. congruence.
  - split_and!; [done..|]. cbn in Hlen. lia.
Qed.

End retries.

(** ** What an outcome does to the route it ran on *)
Section outcome.
Implicit Types (s : RegistryService) (r : terminalSessionRoute) (rts : Routes Conn).

(** A route without the attempt's reservation: one use less, or gone. *)
Definition without_use (tid : string) r (m : gmap string terminalSessionRoute) : gmap string terminalSessionRoute :=
  if 1 <? ProvisionalUses r then <[tid := set_uses (ProvisionalUses r - 1) r]> m else delete tid m.

Lemma rollback_cases tid node id s r :
  routes_ok (svc_routes s) -> terminalSessionToNode (svc_routes s) !! tid = Some r -> NodeID r = node ->
  ReservationID r = id -> id <> 0 ->
  let '(x, s') := rollback tid node id s in
  terminalSessionToNode (svc_routes s') = without_use tid r (terminalSessionToNode (svc_routes s)) /\
  svc_conn s' = svc_conn s /\
  x = if 1 <? ProvisionalUses r then routeReservationStillInUse else routeReservationRemoved.
Proof.
  intros Hok Hr Hn Hid Hne. destruct (ok_route _ Hok _ _ Hr) as (Ht&Htne&Hnt&Hnne&_).
  unfold rollback. rewrite (proj2 (Z.eqb_neq _ _) Hne), bool_decide_false by done. cbn [orb].
  unfold run_routes, clearTerminalSessionRouteReservation. rewrite (proj2 (Z.eqb_neq _ _) Hne), Ht, <- Hn, Hnt.
  rewrite (bool_decide_false (tid = "")), (bool_decide_false (NodeID r = "")), Hr by done. cbn [orb].
  rewrite bool_decide_true, Hid, Z.eqb_refl by done. cbn [negb orb]. unfold without_use.
  by destruct (1 <? ProvisionalUses r).
Qed.

Lemma confirm_cases tid node id now s r :
  routes_ok (svc_routes s) -> terminalSessionToNode (svc_routes s) !! tid = Some r -> NodeID r = node -> ReservationID r = id ->
  let s' := confirm_in_memory tid node id now s in
  terminalSessionToNode (svc_routes s') = <[tid :=
    (let r := set_last_used (unix_milli now) r in if id =? 0 then r else set_reservation 0 id 0 r)]>
    (terminalSessionToNode (svc_routes s)) /\ svc_conn s' = svc_conn s.
Proof.
  intros Hok Hr Hn Hid. destruct (ok_route _ Hok _ _ Hr) as (Ht&Htne&Hnt&Hnne&_).
  cbv zeta. unfold confirm_in_memory. rewrite bool_decide_false by done. unfold run_routes, confirmTerminalSessionRoute.
  rewrite Ht, <- Hn, Hnt, (bool_decide_false (tid = "")), (bool_decide_false (NodeID r = "")), Hr by done. cbn [orb].
  unfold owns_route. rewrite bool_decide_true, Hid, Z.eqb_refl by done. by cbn.
Qed.

Lemma rows_same s s' : svc_conn s' = svc_conn s -> forall sid, row_at (svc_routes s') sid = row_at (svc_routes s) sid.
Proof. unfold row_at, svc_conn. intros -> sid. done. Qed.

Lemma clear_cases tid node s r :
  routes_ok (svc_routes s) -> terminalSessionToNode (svc_routes s) !! tid = Some r -> NodeID r = node ->
  let '(x, s') := run_routes (clearTerminalSessionRoute tid node) s in
  terminalSessionToNode (svc_routes s') =
    (if is_ok x then delete tid (terminalSessionToNode (svc_routes s)) else terminalSessionToNode (svc_routes s)) /\
  (is_ok x = true -> row_at (svc_routes s') tid = None) /\
  (forall sid row, row_at (svc_routes s') sid = Some row -> row_at (svc_routes s) sid = Some row).
Proof.
  intros Hok Hr Hn. destruct (ok_route _ Hok _ _ Hr) as (Ht&Htne&Hnt&Hnne&_).
  pose proof (clear_step tid node (svc_routes s) Hok) as [Hok' _].
  unfold run_routes, clearTerminalSessionRoute in *. rewrite Ht, <- Hn, Hnt in *.
  rewrite (bool_decide_false (tid = "")), Hr in * by done. rewrite (bool_decide_true (NodeID r = NodeID r)), andb_false_r in * by done.
  destruct (0 <? LeaseExpiresUnixMs r) eqn:El.
  - destruct (call_store _ _ _) as [y s1] eqn:Ec. pose proof Ec as Hk. apply call_delete in Hk.
    pose proof (store_kept_routes _ _ _ _ Hk) as (Hr1&_). apply store_kept_shrunk in Hk as Hsh. destruct Hsh as [_ Hsh].
    destruct y as [b|e]; cbn [fst snd svc_routes with_svc_routes] in *.
    + split_and!; [cbn; by rewrite Hr1| |exact Hsh]. intros _.
      destruct (row_at (deleteTerminalSessionRouteLocked tid r s1) tid) as [row|] eqn:Erow; [|done].
      destruct (ok_rows _ Hok' _ _ Erow) as (_&r'&Hr'&_). cbn in Hr'. by rewrite lookup_delete_eq in Hr'.
    + by split_and!.
  - bool_prop. split_and!; [done| |done]. intros _. change (row_at (svc_routes s) tid = None). by eapply no_lease_no_row.
Qed.

Lemma commit_route_cases tid node id p now s r :
  routes_ok (svc_routes s) -> terminalSessionToNode (svc_routes s) !! tid = Some r -> NodeID r = node -> ReservationID r = id ->
  let lease := terminalSessionLeaseExpiresUnixMs p in
  let '(y, s') := commit_route tid node id p now s in
  match y with
  | Ok _ => 0 < lease /\ terminalSessionToNode (svc_routes s') =
        <[tid := committed id lease (unix_milli now) r]> (terminalSessionToNode (svc_routes s)) /\
      (svc_conn s <> None -> exists row, row_at (svc_routes s') tid = Some row /\ r_NodeID row = node /\
         r_LeaseExpiresUnixMs row = Z.max (LeaseExpiresUnixMs r) lease)
  | Err _ => terminalSessionToNode (svc_routes s') = terminalSessionToNode (svc_routes s) /\
      forall sid, row_at (svc_routes s') sid = row_at (svc_routes s) sid
  end.
Proof.
  intros Hok Hr Hn Hid. destruct (ok_route _ Hok _ _ Hr) as (Ht&Htne&Hnt&Hnne&_). cbv zeta.
  unfold commit_route. rewrite bool_decide_false by done. unfold run_routes.
  set (lease := terminalSessionLeaseExpiresUnixMs p). pose proof (commit_cases tid node id lease (unix_milli now) (svc_routes s)) as Hc.
  pose proof (commit_step tid node id lease (unix_milli now) (svc_routes s) Hok) as [Hok' _]. cbv zeta in Hc. rewrite Ht in Hc.
  destruct (commitConfirmedTerminalSessionRoute _ _ _ _ _ _) as [y rts']. cbn [snd] in Hok'.
  destruct Hc as [[-> Hy]|(r'&Hr'&_&Hpos&_&_&Hc)]; [by destruct y as [[]|]|]. rewrite Hr in Hr'. injection Hr' as <-.
  destruct Hc as [(st&e&st'&Est&->&Eu&->)|[(->&Est&->)|(st&st'&a&->&Est&Eu&->)]].
  - split; [done|]. intros sid. apply upsert_err in Eu. unfold row_at at 2. rewrite Est.
    change (rows st' !! sid = rows st !! sid). by rewrite Eu.
  - split_and!; [done..|]. unfold svc_conn. by rewrite Est.
  - split_and!; [done..|]. intros _. apply upsert_ok in Eu as (_&_&Hrows). rewrite Ht in Hrows. cbn [svc_routes with_svc_routes].
    assert (is_Some (row_at (put tid (committed id lease (unix_milli now) r) (with_store (Some st') (svc_routes s))) tid))
      as [row Hrow] by (change (is_Some (rows st' !! tid)); rewrite Hrows, lookup_insert_eq; eauto).
    exists row. split; [done|]. destruct (ok_rows _ Hok' _ _ Hrow) as (_&r'&Hr'&_&Hn'&Hl).
    cbn in Hr'. rewrite lookup_insert_eq in Hr'. injection Hr' as <-. by rewrite <- Hn', <- Hl.
Qed.

End outcome.

(** ** Properties *)
Section properties.
Implicit Types (s : RegistryService) (held : string -> list string).

(** A usable session with a free slot, its load and its capacity group. *)
Definition available capability (options : sessionPickOptions) s (node sid : string) (load : Z) (group : nat) : Prop :=
  exists x, usable capability (po_excludedNodeIDs options) s node = Some (sid, x) /\
    free_slot capability x = Some load /\
    group = capacity_group (capacity_aware capability options) (terminalCapacity x).

Lemma candidate_available capability options s node c :
  candidate_of capability (po_excludedNodeIDs options) (capacity_aware capability options) s node = Some c <->
  available capability options s node (c_session c) (c_inflight c) (c_group c).
Proof.
  split.
  - intros (x&n&Hu&_&Hf&->)%candidate_some. exists x. cbn in *. by split_and!.
  - intros (x&Hu&Hf&Hg). unfold candidate_of. rewrite Hu, Hf, <- Hg. by destruct c.
Qed.

(** A command that is not bound to a worker goes to an online worker
    with a free slot that is preferred to no other: workers that report room
    for a new terminal session first, then those that report nothing, then
    the full ones (the distinction is made only for new sessions), and within
    a group the least loaded; exactly one slot of it is taken.  It is refused
    for capacity only if every usable worker is full, and for capability only
    if there is none. *)
Theorem pick_takes_least_loaded_worker held capability owner options now s :
  sessions_ok held s -> 0 <= svc_roundRobin s ->
  svc_roundRobin s + Z.of_nat (length (online capability owner now s)) < 2 ^ 63 ->
  let nodes := online capability owner now s in
  let '(r, s') := pickSessionForCapability capability owner options now s in
  acquired capability s s' r /\
  match r with
  | Ok sid => exists node load group, node ∈ nodes /\ available capability options s node sid load group /\
      forall node' sid' load' group', node' ∈ nodes -> available capability options s node' sid' load' group' ->
        (group < group')%nat \/ (group = group' /\ load <= load')
  | Err e =>
      (forall node sid load group, node ∈ nodes -> ~ available capability options s node sid load group) /\
      ((e = Sentinel ErrNoWorkerCapacity /\
          exists node, node ∈ nodes /\ is_Some (usable capability (po_excludedNodeIDs options) s node)) \/
       (e = Sentinel ErrNoCapabilityWorker /\
          forall node, node ∈ nodes -> usable capability (po_excludedNodeIDs options) s node = None))
  end.
Proof.
  intros Hok H0 Hlt nodes. pose proof (pick_cases held capability owner options now s Hok) as Hp.
  destruct (pickSessionForCapability _ _ _ _ _) as [r s']. destruct Hp as (_&Ha&_&_&Hp). split; [done|].
  assert (forall n, n ∈ visited capability owner now s <-> n ∈ nodes) as Hv.
  { intros n. unfold visited. rewrite i64_id by lia. by apply elem_of_rotation. }
  destruct r as [sid|e].
  - destruct Hp as (node&c&Hn%Hv&Hc%candidate_available&<-&Hbest). exists node, (c_inflight c), (c_group c).
    split_and!; [done..|]. intros node' sid' load' group' Hn' Hav.
    apply (Hbest node' (mkCand sid' load' group')); [by apply Hv|]. by apply candidate_available.
  - destruct Hp as [Hnone ->]. split.
    + intros node sid load group Hn%Hv Hav.
      assert (candidate_of capability (po_excludedNodeIDs options) (capacity_aware capability options) s node =
        Some (mkCand sid load group)) as Hc by (by apply candidate_available). by rewrite Hnone in Hc.
    + set (p := fun n => bool_decide (is_Some (usable capability (po_excludedNodeIDs options) s n))).
      destruct (existsb p _) eqn:Ex.
      * left. split; [done|]. apply existsb_exists in Ex as (n&Hn&Hp'). exists n. split; [by apply Hv, list_elem_of_In|].
        by apply bool_decide_eq_true in Hp'.
      * right. split; [done|]. intros n Hn%Hv. apply eq_None_not_Some. intros Hs.
        assert (existsb p (visited capability owner now s) = true); [|congruence].
        apply existsb_exists. exists n. split; [by apply list_elem_of_In|by apply bool_decide_eq_true].
Qed.

(** A command for a confirmed terminal session with an
    unexpired lease runs on the worker the session is on, or fails and takes
    no slot; it never reaches another worker, never reserves anything, and the
    session stays on its worker with its lease. *)
Theorem confirmed_session_dispatches_to_its_worker held capability owner tid options now s r :
  sessions_ok held s -> routes_ok (svc_routes s) -> trim (po_targetNodeID options) = "" -> trim tid <> "" ->
  terminalSessionToNode (svc_routes s) !! trim tid = Some r -> ReservationID r = 0 ->
  0 <= unix_milli now < LeaseExpiresUnixMs r ->
  let '(y, s') := pickSessionForDispatch capability owner tid options now s in
  (exists r', terminalSessionToNode (svc_routes s') !! trim tid = Some r' /\ NodeID r' = NodeID r /\
     ReservationID r' = 0 /\ LeaseExpiresUnixMs r' = LeaseExpiresUnixMs r) /\
  acquired capability s s' (slot_of y) /\
  match y with
  | Ok (sid, id) => id = 0 /\ svc_sessions s !! NodeID r = Some sid /\
      RecoveryState r = terminalSessionRecoveryReady /\ isNodeExcluded (NodeID r) (po_excludedNodeIDs options) = false
  | Err e => e = terminalSessionUnavailableError \/ e = retry_conflict \/ e = Sentinel ErrNoWorkerCapacity
  end.
Proof.
  intros Hok Hrok Htgt Htid Hr Hres Hlease.
  pose proof (pick_dispatch_step held capability owner tid options now s Hok) as Hstep.
  destruct (pickSessionForDispatch capability owner tid options now s) as [y s'] eqn:E. destruct Hstep as (_&Hacq&_).
  cut ((exists r', terminalSessionToNode (svc_routes s') !! trim tid = Some r' /\ NodeID r' = NodeID r /\
     ReservationID r' = 0 /\ LeaseExpiresUnixMs r' = LeaseExpiresUnixMs r) /\
     match y with Ok (sid, id) => id = 0 /\ svc_sessions s !! NodeID r = Some sid /\
       RecoveryState r = terminalSessionRecoveryReady /\ isNodeExcluded (NodeID r) (po_excludedNodeIDs options) = false
     | Err e => e = terminalSessionUnavailableError \/ e = retry_conflict \/ e = Sentinel ErrNoWorkerCapacity end); [tauto|].
  clear Hacq. unfold pickSessionForDispatch in E. rewrite Htgt in E.
  rewrite (bool_decide_true ("" = "")), (bool_decide_false (trim tid = "")) in E by done. cbn [negb] in E.
  set (rts := maybePruneTerminalSessionRoutes (unix_milli now) (svc_routes s)) in E.
  assert (terminalSessionToNode rts !! trim tid = Some r) as Hr1 by (apply active_not_pruned; [lia..|done]).
  destruct (ok_route _ Hrok _ _ Hr) as (_&_&Hnt&Hne&_).
  assert (terminalSessionRouteSnapshot (trim tid) (unix_milli now) rts = (Some r, rts)) as Hsnap.
  { unfold terminalSessionRouteSnapshot. rewrite trim_trim, bool_decide_false, Hr1 by done.
    rewrite (proj2 (Z.leb_gt _ _)) by lia. by rewrite andb_false_r. }
  unfold run_routes in E. cbn [svc_routes with_svc_routes snd] in E. fold rts in E. rewrite Hsnap in E.
  set (s2 := with_svc_routes rts (with_svc_routes rts s)) in E.
  destruct (bound_unavailable (Some r) s2) eqn:Eb; [injection E as <- <-; split; [by exists r|by left]|].
  cbn in Eb. rewrite Hres in Eb. cbn in Eb. apply orb_false_iff in Eb as [Erec _]. bool_prop.
  assert (claimTerminalSessionRoute (trim tid) (unix_milli now) rts =
    (Some (NodeID r, 0), put (trim tid) (set_last_used (unix_milli now) r) rts)) as Hclaim.
  { unfold claimTerminalSessionRoute. rewrite trim_trim, bool_decide_false, Hr1 by done. rewrite Hnt, bool_decide_false by done.
    unfold join_route. cbn. by rewrite Hres. }
  change (svc_routes s2) with rts in E. rewrite Hclaim in E. set (s3 := with_svc_routes _ s2) in E.
  assert (exists r', terminalSessionToNode (svc_routes s3) !! trim tid = Some r' /\ NodeID r' = NodeID r /\
     ReservationID r' = 0 /\ LeaseExpiresUnixMs r' = LeaseExpiresUnixMs r) as Hr3.
  { exists (set_last_used (unix_milli now) r). cbn. by rewrite lookup_insert_eq. }
  destruct (isNodeExcluded (NodeID r) (po_excludedNodeIDs options)) eqn:Ex.
  { injection E as <- <-. split; [exact Hr3|by right; left]. }
  assert (sessions_ok held s3) as Hok3 by (by destruct Hok).
  pose proof (pick_node_cases held (NodeID r) capability s3 Hok3) as Hn.
  destruct (pickSessionForNodeAndCapability (NodeID r) capability s3) as [[sid|e] s4]; destruct Hn as (_&Hr4&Hn).
  - injection E as <- <-. rewrite Hr4. split; [done|]. destruct Hn as (x&[Hs _]%session_ref_some&_). rewrite Hnt in Hs. done.
  - destruct Hn as [->| ->]; cbn in E; injection E as <- <-; cbn; rewrite Hr4; (split; [done|]); [by left|by right; right].
Qed.

(** However an attempt to run a command ends (no command id,
    session closed, queue full, timeout, cancellation, result, error), the slot
    it was given is free again and its command is no longer pending, while the
    slots of all other commands are untouched; this holds whatever the other
    goroutines do to the sessions meanwhile, as long as they keep the accounts
    of the sessions. *)
Theorem attempt_returns_its_slot env capability p tid sid id onD s held :
  sessions_ok (upd held sid (normalizeCapability capability :: held sid)) s ->
  (forall cmd x, ae_commandID env = Ok cmd -> svc_heap s !! sid = Some x -> pending x !! trim cmd = None) ->
  keeps_sessions (ae_others env) -> (forall cmd, keeps_sessions (fun s => (notify onD cmd s).2)) ->
  let s' := (dispatchCommandAttempt env capability p tid sid id onD s).2 in
  sessions_ok held s' /\
  forall cmd x', ae_commandID env = Ok cmd -> trim cmd <> "" -> svc_heap s' !! sid = Some x' ->
    pending x' !! trim cmd = None.
Proof. apply attempt_slots. Qed.

(** The outcome of a command decides the fate of the terminal
    session it ran in.  Success of an exec or a renewal is reported only after
    the session is confirmed with the worker's lease and (with a store) its row
    is written; if that fails, nothing changed and an internal error is
    reported.  [session_not_found] and [session_capacity_exceeded] undo this
    attempt's use of the reservation ([session_not_found] of a confirmed
    session deletes it with its row), the latter being retried elsewhere only
    if that use was the last.  Any other error keeps the session in memory
    without a lease and writes no row. *)
Theorem outcome_decides_route capability tid node id outcome now s r :
  routes_ok (svc_routes s) -> terminalSessionToNode (svc_routes s) !! tid = Some r -> NodeID r = node -> ReservationID r = id ->
  let before := terminalSessionToNode (svc_routes s) in
  let lease := terminalSessionLeaseExpiresUnixMs (oc_payloadJSON outcome) in
  let '(y, s') := settle_outcome capability tid node id outcome now s in
  let after := terminalSessionToNode (svc_routes s') in
  match oc_err outcome with
  | None =>
      capability = taskCapabilityTerminalExec \/ capability = taskCapabilityTerminalLeaseRenew ->
      match y with
      | Ok a => dar_capacityRetryable a = false /\ 0 < lease /\ after = <[tid := committed id lease (unix_milli now) r]> before /\
          (svc_conn s <> None -> exists row, row_at (svc_routes s') tid = Some row /\ r_NodeID row = node /\
             r_LeaseExpiresUnixMs row = Z.max (LeaseExpiresUnixMs r) lease)
      | Err e => status_code e = Internal /\ after = before /\
          forall sid, row_at (svc_routes s') sid = row_at (svc_routes s) sid
      end
  | Some err =>
      (forall sid row, row_at (svc_routes s') sid = Some row -> row_at (svc_routes s) sid = Some row) /\
      if isSessionNotFoundCommandError err then
        if id =? 0 then match y with
          | Ok _ => after = delete tid before /\ row_at (svc_routes s') tid = None
          | Err e => status_code e = Internal /\ after = before
          end
        else after = without_use tid r before
      else if isSessionCapacityCommandError err then
        after = (if id =? 0 then before else without_use tid r before) /\
        exists a, y = Ok a /\ dar_outcome a = outcome /\
          (dar_capacityRetryable a = true <->
             capability = taskCapabilityTerminalExec /\ id <> 0 /\ ProvisionalUses r <= 1)
      else (id <> 0 -> exists r', after = <[tid := r']> before /\ NodeID r' = node /\ ReservationID r' = 0 /\
              ConfirmedReservationID r' = id /\ LeaseExpiresUnixMs r' = 0)
  end.
Proof.
  intros Hok Hr Hn Hid. destruct (ok_route _ Hok _ _ Hr) as (Ht&Htne&Hnt&Hnne&Hprov). cbv zeta.
  unfold settle_outcome. destruct (oc_err outcome) as [err|]; rewrite (bool_decide_false (tid = "")) by done.
  - destruct (isSessionNotFoundCommandError err).
    + destruct (Z.eqb_spec id 0) as [Hz|Hz]; cbn [negb].
      * pose proof (clear_cases tid node s r Hok Hr Hn) as Hc. destruct (run_routes _ s) as [[[]|e] s'];
          destruct Hc as (Ha&Hrow&Hshr); cbn [is_ok] in *; split; auto.
      * pose proof (rollback_cases tid node id s r Hok Hr Hn Hid Hz) as Hc. destruct (rollback tid node id s) as [x s'].
        destruct Hc as (Ha&Hc&_). cbn [snd]. split; [|done]. intros sid row. by rewrite (rows_same _ _ Hc).
    + destruct (isSessionCapacityCommandError err).
      * destruct (Z.eqb_spec id 0) as [Hz|Hz].
        -- unfold rollback. rewrite Hz. cbn. split; [done|]. split; [done|]. eexists. split_and!; [done..|].
           rewrite !andb_false_r. cbn. naive_solver.
        -- pose proof (rollback_cases tid node id s r Hok Hr Hn Hid Hz) as Hc. destruct (rollback tid node id s) as [x s'].
           destruct Hc as (Ha&Hc&->). split; [intros sid row; by rewrite (rows_same _ _ Hc)|]. split; [done|].
           eexists. split_and!; [done..|]. cbn. rewrite !andb_true_iff, !bool_decide_eq_true.
           destruct (Z.ltb_spec 1 (ProvisionalUses r)); naive_solver lia.
      * destruct (Z.eqb_spec id 0) as [Hz|Hz]; cbn [negb]; [by split|].
        destruct (confirm_cases tid node id now s r Hok Hr Hn Hid) as [Ha Hc]. cbn [snd].
        split; [intros sid row; by rewrite (rows_same _ _ Hc)|]. intros _. rewrite Ha, (proj2 (Z.eqb_neq _ _) Hz).
        eexists. split_and!; [done..|]. cbn. destruct (Hprov ltac:(congruence)). done.
  - destruct (bool_decide _ || bool_decide _) eqn:Ecap.
    2:{ intros [->| ->]; by rewrite bool_decide_true, ?orb_true_r in Ecap. }
    pose proof (commit_route_cases tid node id (oc_payloadJSON outcome) now s r Hok Hr Hn Hid) as Hc. cbv zeta in Hc.
    destruct (commit_route _ _ _ _ _ _) as [[[]|e] s']; intros _; [|by destruct Hc].
    destruct Hc as (?&?&?). by split_and!.
Qed.

(** A dispatch ends after at most as many attempts as there were
    online workers for the capability (at least one), tries no worker twice,
    and returns every slot it took, whatever the workers answer and whatever
    the other goroutines do between its steps. *)
Theorem dispatch_tries_each_worker_once held ids envs capability p options s :
  (forall i cmd, ae_commandID (envs i) = Ok cmd -> cmd ∈ ids /\ trim cmd <> "") ->
  (forall i, polite ids (ae_others (envs i))) ->
  (forall cmd, polite ids (fun s => (notify (do_onDispatched options) cmd s).2)) ->
  loop_ok held ids s ->
  let '((_, visited), s') := dispatchCommand envs capability p options s in
  NoDup visited /\
  (length visited <= Nat.max 1 (length (online (normalizeCapability capability) (do_ownerID options) (ae_now (envs 0%nat)) s)))%nat /\
  sessions_ok held s'.
Proof.
  intros Hids Ho Hd Hok. unfold dispatchCommand. destruct (bool_decide _); [split_and!; [constructor|cbn; lia|apply Hok]|].
  set (p' := if payload_empty p then _ else _). set (tid := terminalSessionIDFromPayload _ p').
  set (cap := normalizeCapability capability). unfold online.
  destruct (list_online_frame cap (do_ownerID options) (ae_now (envs 0%nat)) s) as (c&Hs1&Hdb).
  destruct (listOnlineNodeIDsForCapability cap (do_ownerID options) (ae_now (envs 0%nat)) s) as [nodes s1]. cbn [fst snd] in *.
  assert (loop_ok held ids s1) as Hok1 by (subst s1; by destruct Hok as [[] ? ?]).
  destruct (_ && _).
  - pose proof (dispatch_loop_attempts held ids envs cap p' tid options (Nat.max 1 (length nodes)) [] None s1 Hids Ho Hd Hok1) as Hl.
    destruct (dispatch_loop _ _ _ _ _ _ _ _ _) as [[r v] s2]. destruct Hl as (Hl&?&?); [constructor|done|].
    split_and!; [done..|apply Hl].
  - pose proof (dispatch_loop_attempts held ids envs cap p' tid options 1 [] None s Hids Ho Hd Hok) as Hl.
    destruct (dispatch_loop _ _ _ _ _ _ _ _ _) as [[r v] s2]. destruct Hl as (Hl&?&?); [constructor|done|].
    split_and!; [done|cbn in *; lia|apply Hl].
Qed.

End properties.
(** ** The hypotheses hold: a service with one connected worker *)
Section examples.

Definition demo_worker_hello : ConnectHello :=
  mkHello "w1" "" "docker" ∅ "1" [Some (mkCapability "terminalExec" 2)] "secret" None.
Definition demo_worker : activeSession := markRecoveryComplete (newActiveSessionAt "w1" "sid" demo_worker_hello 0).
Definition demo_tid : string := scopeTerminalSessionID "o1" "s1".
Definition demo_db : DB :=
  mkDB {[ "w1" := mkWorkerNode "sid" false "" "docker" "1" 0 1000 ]} {[ ("w1", "terminalExec") := 2 ]} ∅ ∅ ∅ ∅ ∅ ∅ ∅ ∅.
Definition demo_routes0 : Routes Conn :=
  (RestoreTerminalSessionRoutes 1000 (fresh_routes (30 * minute) (Some (mkConn demo_db [])) None)).2.
(** The session [demo_tid] was created on [w1] and is leased until 50000. *)
Definition demo_routes : Routes Conn :=
  run_route_ops [OpReserve demo_tid "w1" 1000; OpCommit demo_tid "w1" 1 50000 1500] demo_routes0.
Definition demo_service : RegistryService :=
  with_svc_sessions {[ "w1" := "sid" ]} {[ "sid" := demo_worker ]}
    (with_svc_routes demo_routes (NewRegistryService None ∅ 5 60)).
Definition demo_now : time := of_unix_milli 2000.
Definition demo_pick : sessionPickOptions := mkPickOptions terminalSessionIntentUnknown ∅ "".

Example demo_pick_result : (pickSessionForCapability "terminalExec" "o1" demo_pick demo_now demo_service).1 = Ok "sid".
Proof. vm_compute. reflexivity. Qed.
Example demo_dispatch_result : (pickSessionForDispatch "terminalexec" "o1" demo_tid demo_pick demo_now demo_service).1 = Ok ("sid", 0).
Proof. vm_compute. reflexivity. Qed.

Lemma demo_sessions_ok : sessions_ok (fun _ => []) demo_service.
Proof.
  split; cbn.
  - intros n sid [<- <-]%lookup_singleton_Some. exists demo_worker. by rewrite lookup_singleton_eq.
  - intros sid x [<- <-]%lookup_singleton_Some. eapply same_core_ok; [..|apply (start_ok "w1" "sid" demo_worker_hello 0)]; done.
Qed.

Lemma demo_routes_ok : routes_ok demo_routes.
Proof.
  apply reachable_ok, run_route_ops_reachable.
  by eapply (reach_restored 1000 (30 * minute) (mkConn demo_db []) None).
Qed.

Lemma pick_takes_least_loaded_worker_witness :
  available "terminalExec" demo_pick demo_service "w1" "sid" 0 0 /\
  acquired "terminalExec" demo_service (pickSessionForCapability "terminalExec" "o1" demo_pick demo_now demo_service).2 (Ok "sid").
Proof.
  pose proof (pick_takes_least_loaded_worker (fun _ => []) "terminalExec" "o1" demo_pick demo_now demo_service
    demo_sessions_ok ltac:(done) ltac:(by vm_compute)) as H. cbv zeta in H.
  assert ((pickSessionForCapability "terminalExec" "o1" demo_pick demo_now demo_service).1 = Ok "sid") as E by (by vm_compute).
  destruct (pickSessionForCapability "terminalExec" "o1" demo_pick demo_now demo_service) as [r s']. cbn [fst snd] in *. subst r.
  split; [exists demo_worker; by vm_compute|apply H].
Defined.

Definition demo_confirmed : terminalSessionRoute := mkRoute "w1" 1500 50000 1500 terminalSessionRecoveryReady 0 1 0.

Lemma confirmed_session_dispatches_to_its_worker_witness :
  svc_sessions demo_service !! NodeID demo_confirmed = Some "sid" /\
  acquired "terminalexec" demo_service (pickSessionForDispatch "terminalexec" "o1" demo_tid demo_pick demo_now demo_service).2 (Ok "sid").
Proof.
  pose proof (confirmed_session_dispatches_to_its_worker (fun _ => []) "terminalexec" "o1" demo_tid demo_pick demo_now
    demo_service demo_confirmed demo_sessions_ok demo_routes_ok ltac:(by vm_compute) ltac:(by vm_compute) ltac:(by vm_compute)
    ltac:(done) ltac:(by vm_compute)) as H.
  assert ((pickSessionForDispatch "terminalexec" "o1" demo_tid demo_pick demo_now demo_service).1 = Ok ("sid", 0)) as E by (by vm_compute).
  destruct (pickSessionForDispatch "terminalexec" "o1" demo_tid demo_pick demo_now demo_service) as [r s']. cbn [fst snd] in *. subst r.
  destruct H as (_&Ha&_&Hs&_). by split.
Defined.

(** An attempt that waits until its context ends, in an otherwise idle service. *)
Definition demo_env : attempt_env :=
  mkAttemptEnv None demo_now None (Ok "c1") None None false (fun s => s) CtxDeadline demo_now.
Definition demo_picked : RegistryService := (pickSessionForCapability "terminalexec" "o1" demo_pick demo_now demo_service).2.

Lemma demo_picked_ok : sessions_ok (upd (fun _ => []) "sid" ["terminalexec"]) demo_picked.
Proof.
  apply (acquired_ok (fun _ => []) "terminalexec" demo_service demo_picked "sid" demo_sessions_ok).
  - pose proof (pick_capability_step _ "terminalexec" "o1" demo_pick demo_now _ demo_sessions_ok) as H. unfold demo_picked.
    destruct (pickSessionForCapability _ _ _ _ _) as [r s']. apply H.
  - exists demo_worker, (tryAcquireCapability "terminalexec" demo_worker).2. split_and!; [done|by vm_compute..].
Qed.

Lemma attempt_returns_its_slot_witness :
  sessions_ok (fun _ => [])
    (dispatchCommandAttempt demo_env "terminalexec" (PJson (JObject [])) demo_tid "sid" 0 None demo_picked).2.
Proof.
  apply (attempt_returns_its_slot demo_env "terminalexec" (PJson (JObject [])) demo_tid "sid" 0 None demo_picked (fun _ => []));
    [apply demo_picked_ok| |by intros ?|by intros ? ?].
  intros cmd x _ Hx. vm_compute in Hx. injection Hx as <-. done.
Defined.

Definition demo_lease_result : commandOutcome :=
  mkOutcome (PJson (JObject [("lease_expires_unix_ms", JInt 60000)])) "" None demo_now.

Lemma outcome_decides_route_witness :
  terminalSessionToNode (svc_routes
    (settle_outcome taskCapabilityTerminalExec demo_tid "w1" 0 demo_lease_result demo_now demo_service).2) !! demo_tid =
  Some (committed 0 60000 2000 demo_confirmed).
Proof.
  pose proof (outcome_decides_route taskCapabilityTerminalExec demo_tid "w1" 0 demo_lease_result demo_now demo_service
    demo_confirmed demo_routes_ok ltac:(by vm_compute) ltac:(done) ltac:(done)) as H. cbv zeta in H.
  assert (is_ok (settle_outcome taskCapabilityTerminalExec demo_tid "w1" 0 demo_lease_result demo_now demo_service).1 = true)
    as E by (by vm_compute).
  destruct (settle_outcome _ _ _ _ _ _ _) as [[a|e] s']; [|done]. destruct (H (or_introl eq_refl)) as (_&_&Ha&_).
  cbn [snd]. rewrite Ha. apply lookup_insert_eq.
Defined.

Lemma dispatch_tries_each_worker_once_witness :
  let '((_, visited), s') := dispatchCommand (fun _ => demo_env) "terminalExec" PEmpty no_options demo_service in
  NoDup visited /\ (length visited <= 1)%nat /\ sessions_ok (fun _ => []) s'.
Proof.
  apply (dispatch_tries_each_worker_once (fun _ => []) ["c1"] (fun _ => demo_env) "terminalExec" PEmpty no_options demo_service).
  - intros i cmd [= <-]. split; [set_solver|by vm_compute].
  - intros i. split; by intros ?.
  - intros cmd. split; by intros ?.
  - split; [apply demo_sessions_ok| |].
    + intros n sid Hn. cbn in Hn. apply lookup_singleton_Some in Hn as [<- _]. by vm_compute.
    + intros cmd sid _ x Hx. cbn in Hx. by apply lookup_singleton_Some in Hx as [_ <-].
Defined.

End examples.

End DispatchProps.
Export DispatchProps.
