(* ===== verification/Tasks.v ===== *)
(** Tasks (console/internal/grpcserver/task.go): submission, the life cycle of
    a task in the database, cancellation, completion and its fallbacks, and the
    runtime records of the tasks in flight. *)
From S2P Require Import Prelude.
From S2P Require Import Json.
From S2P Require Import Sql.
From S2P Require Import Proto.
From S2P Require Import Registry.
From S2P Require Import OwnerScope.
From S2P Require Import TerminalRoutes.
From S2P Require Import SessionRuntime.
From S2P Require Import Service.
From S2P Require Import Dispatch.
From S2P Require Import DispatchProps.

Module Tasks.

Definition defaultTaskWait : duration := 1500 * millisecond.
Definition defaultTaskTimeout : duration := 60 * second.
Definition maxTaskWait : duration := 60 * second.
Definition maxTaskTimeout : duration := 10 * minute.
Definition inlineTaskPruneMinInterval : duration := 15 * second.
Definition defaultTaskNoWorkerCode : string := "no_worker".
Definition defaultTaskNoCapacityCode : string := "no_capacity".
Definition defaultTaskCanceledCode : string := "canceled".
Definition defaultTaskTimeoutCode : string := "timeout".
Definition defaultTaskDispatchErrCode : string := "dispatch_failed".
Definition defaultTaskPersistErrCode : string := "persistence_error".

Inductive TaskMode := TaskModeSync | TaskModeAsync | TaskModeAuto.

#[export] Instance TaskMode_eq_dec : EqDecision TaskMode.
Proof. solve_decision. Defined.

Definition ParseTaskMode (raw : string) : res TaskMode :=
  let trimmed := trim (to_lower raw) in
  if bool_decide (trimmed = "") then Ok TaskModeAuto
  else if bool_decide (trimmed = "sync") then Ok TaskModeSync
  else if bool_decide (trimmed = "async") then Ok TaskModeAsync
  else if bool_decide (trimmed = "auto") then Ok TaskModeAuto
  else Err (ErrorString "mode must be one of sync|async|auto").

Definition isTaskTerminal (st : TaskStatus) : bool :=
  match st with Succeeded | Failed | Timeout | Canceled => true | _ => false end.

Record TaskSnapshot := mkSnapshot {
  ts_TaskID : string;
  ts_RequestID : string;
  ts_CommandID : string;
  ts_Capability : string;
  ts_Status : TaskStatus;
  ts_ResultJSON : payload;
  ts_ErrorCode : string;
  ts_ErrorMessage : string;
  ts_CreatedAt : time;
  ts_UpdatedAt : time;
  ts_DeadlineAt : time;
  ts_CompletedAt : option time }.

(** [convertDBTask] then [snapshotTask]. *)
Definition snapshotTask (id : string) (t : Task) : TaskSnapshot :=
  mkSnapshot id (t_RequestID t) (t_CommandID t) (t_Capability t) (t_Status t) (t_ResultJson t)
    (t_ErrorCode t) (t_ErrorMessage t) (of_unix_milli (t_CreatedAtUnixMs t)) (of_unix_milli (t_UpdatedAtUnixMs t))
    (of_unix_milli (t_DeadlineAtUnixMs t))
    (if 0 <? t_CompletedAtUnixMs t then Some (of_unix_milli (t_CompletedAtUnixMs t)) else None).

Definition unavailable : error := ErrorString "task store is unavailable".

(** ** Runtime records *)
Definition setTaskRuntime (id : string) (s : RegistryService) : RegistryService :=
  with_svc_runtime ({[ id ]} ∪ svc_tasks s) (<[id := mkTaskRecord false false]> (svc_records s)) s.

Definition completeTaskRuntime (id : string) (s : RegistryService) : RegistryService :=
  if bool_decide (id ∈ svc_tasks s)
  then with_svc_runtime (svc_tasks s ∖ {[ id ]}) (<[id := mkTaskRecord true true]> (svc_records s)) s
  else s.

(** [runtime.cancelOnce.Do(runtime.cancel)] of the record in the table. *)
Definition cancel_runtime (id : string) (s : RegistryService) : RegistryService :=
  if bool_decide (id ∈ svc_tasks s)
  then match svc_records s !! id with
       | Some r => with_svc_runtime (svc_tasks s) (<[id := mkTaskRecord true (tr_done r)]> (svc_records s)) s
       | None => s
       end
  else s.

(** ** Reads *)
Definition getTaskByID (id : string) (s : RegistryService) : option Task * RegistryService :=
  match run_db unavailable (GetTaskByID id) s with
  | (Ok t, s) => (Some t, s)
  | (Err _, s) => (None, s)
  end.

Definition getTaskByOwnerAndRequest (owner request : string) (s : RegistryService)
    : option (string * Task) * RegistryService :=
  match run_db unavailable (GetTaskByOwnerAndRequest owner request) s with
  | (Ok t, s) => (Some t, s)
  | (Err _, s) => (None, s)
  end.

Definition GetTask (taskID ownerID : string) (s : RegistryService) : option TaskSnapshot * RegistryService :=
  let id := trim taskID in
  if bool_decide (id = "") then (None, s) else
  match getTaskByID id s with
  | (Some t, s) => if bool_decide (t_OwnerID t = normalizeTaskOwnerID ownerID)
                   then (Some (snapshotTask id t), s) else (None, s)
  | (None, s) => (None, s)
  end.

(** ** Transitions *)
Definition not_applied (id what : string) : error :=
  Wrapped "" (Sentinel ErrTaskTransitionNotApplied) (": task " +:+ id +:+ " " +:+ what).

Definition markTaskDispatched (id : string) (now : time) (s : RegistryService) : res unit * RegistryService :=
  if bool_decide (trim id = "") then (Err (ErrorString "task_id is required"), s) else
  match run_db unavailable (MarkTaskDispatched (unix_milli now) id) s with
  | (Err e, s) => (Err e, s)
  | (Ok rows, s) => if rows =? 0 then (Err (not_applied id "transition to dispatched"), s) else (Ok tt, s)
  end.

Definition markTaskRunning (id commandID : string) (now : time) (s : RegistryService) : res unit * RegistryService :=
  if bool_decide (trim id = "") then (Err (ErrorString "task_id is required"), s) else
  match run_db unavailable (MarkTaskRunning (trim commandID) (unix_milli now) id) s with
  | (Err e, s) => (Err e, s)
  | (Ok rows, s) => if rows =? 0 then (Err (not_applied id "transition to running"), s) else (Ok tt, s)
  end.

Definition finishTask (taskID : string) (st : TaskStatus) (resultJSON : payload) (errorCode errorMessage : string)
    (completedAt now : time) (s : RegistryService) : res unit * RegistryService :=
  let id := trim taskID in
  if bool_decide (id = "") then (Err (ErrorString "task_id is required"), s) else
  let completedAt := if is_zero completedAt then now else completedAt in
  let '(r, s) := run_db unavailable (MarkTaskTerminal st resultJSON (trim errorCode) (trim errorMessage)
      (unix_milli completedAt) (unix_milli completedAt)
      (unix_milli (time_add completedAt (svc_taskRetention s))) id) s in
  let s := completeTaskRuntime id s in
  match r with
  | Err e => (Err e, s)
  | Ok rows => if rows =? 0 then (Err (not_applied id "terminal transition"), s) else (Ok tt, s)
  end.

(** The row a dispatch error becomes: status, code and message. *)
Definition classify_error (err : error) : TaskStatus * string * string :=
  if error_is err ErrNoCapabilityWorker then (Failed, defaultTaskNoWorkerCode, "no online worker supports capability")
  else if error_is err ErrTargetWorkerOffline then (Failed, defaultTaskNoWorkerCode, sentinel_message ErrTargetWorkerOffline)
  else if error_is err ErrTargetWorkerCapabilityUnavailable
  then (Failed, defaultTaskNoWorkerCode, sentinel_message ErrTargetWorkerCapabilityUnavailable)
  else if error_is err ErrNoWorkerCapacity then (Failed, defaultTaskNoCapacityCode, "no online worker capacity for capability")
  else if error_is err ErrContextDeadlineExceeded then (Timeout, defaultTaskTimeoutCode, "task timed out")
  else if error_is err ErrContextCanceled then (Canceled, defaultTaskCanceledCode, "task canceled")
  else match as_command_error err with
  | Some (code, message) =>
      let code := trim code in
      (Failed, (if bool_decide (code = "") then defaultTaskDispatchErrCode else code), message)
  | None =>
      if bool_decide (status_code err = CodeDeadlineExceeded) then (Timeout, defaultTaskTimeoutCode, "task timed out")
      else (Failed, defaultTaskDispatchErrCode, error_message err)
  end.

Definition finishTaskWithError (id : string) (err : error) (now : time) (s : RegistryService)
    : res unit * RegistryService :=
  let '(st, code, message) := classify_error err in
  finishTask id st PEmpty code message now now s.

Definition failTaskOnPersistenceError (id stage : string) (cause : error) (now : time) (s : RegistryService)
    : res unit * RegistryService :=
  let stage := if bool_decide (trim stage = "") then "unknown_stage" else trim stage in
  let message := "failed to persist task state at " +:+ stage +:+ ": " +:+ error_message cause in
  match finishTask id Failed PEmpty defaultTaskPersistErrCode message now now s with
  | (Ok _, s) => (Ok tt, s)
  | (Err e, s) =>
      let criticalErr := Wrapped ("task " +:+ id +:+ " persistence fallback failed at " +:+ stage +:+ ": original=") cause
                           (" fallback=" +:+ error_message e) in
      (Err criticalErr, with_svc_critical (svc_critical s ++ [criticalErr]) s)
  end.

(** ** Cancellation *)
Definition CancelTask (taskID ownerID : string) (now : time) (s : RegistryService)
    : (res unit * option TaskSnapshot) * RegistryService :=
  let id := trim taskID in
  let notFound := (Err (Sentinel ErrTaskNotFound), None) in
  if bool_decide (id = "") then (notFound, s) else
  let owner := normalizeTaskOwnerID ownerID in
  match getTaskByID id s with
  | (None, s) => (notFound, s)
  | (Some current, s) =>
      if negb (bool_decide (t_OwnerID current = owner)) then (notFound, s) else
      if isTaskTerminal (t_Status current)
      then ((Err (Sentinel ErrTaskTerminal), Some (snapshotTask id current)), s) else
      match finishTask id Canceled PEmpty defaultTaskCanceledCode "task canceled" now now s with
      | (Err e, s) =>
          if error_is e ErrTaskTransitionNotApplied then
            match getTaskByID id s with
            | (None, s) => (notFound, s)
            | (Some latest, s) =>
                if negb (bool_decide (t_OwnerID latest = owner)) then (notFound, s) else
                if isTaskTerminal (t_Status latest)
                then ((Err (Sentinel ErrTaskTerminal), Some (snapshotTask id latest)), s) else ((Err e, None), s)
            end
          else ((Err e, None), s)
      | (Ok _, s) =>
          match getTaskByID id s with
          | (None, s) => (notFound, s)
          | (Some updated, s) => ((Ok tt, Some (snapshotTask id updated)), s)
          end
      end
  end.

(** ** Execution *)

(** The callback of the dispatch; it stores its error in the variable it shares
    with [executeTask]. *)
Definition on_running (id : string) (now : time) : on_dispatched := fun commandID s =>
  match markTaskRunning id commandID now s with
  | (Err e, s) => (Err e, cancel_runtime id (with_svc_mark_running (<[id := e]> (svc_markRunning s)) s))
  | (Ok _, s) => (Ok tt, with_svc_mark_running (delete id (svc_markRunning s)) s)
  end.

(** [string(payload)] of bytes that are not JSON. *)
Definition invalid_text (p : payload) : string :=
  match p with PInvalid raw => raw | _ => "" end.

(** The fallback of the four places that persist a final state. *)
Definition or_fail (id stage : string) (now : time) (x : res unit * RegistryService) : RegistryService :=
  match x with
  | (Ok _, s) => s
  | (Err e, s) => if error_is e ErrTaskTransitionNotApplied then s
                  else (failTaskOnPersistenceError id stage e now s).2
  end.

Definition result_payload (outcome : commandOutcome) : payload :=
  let p := oc_payloadJSON outcome in
  let p := if payload_empty p && negb (bool_decide (trim (oc_message outcome) = ""))
           then buildEchoPayload (oc_message outcome) else p in
  if json_valid p then p else buildEchoPayload (invalid_text p).

Definition settle_result (id ownerID capability : string) (result : res commandOutcome) (now : time) (s : RegistryService)
    : RegistryService :=
  match result with
  | Err e => or_fail id "finish_error" now (finishTaskWithError id e now s)
  | Ok outcome =>
      match oc_err outcome with
      | Some e => or_fail id "finish_error" now (finishTaskWithError id e now s)
      | None =>
          let completedAt := if is_zero (oc_completedAt outcome) then now else oc_completedAt outcome in
          match restoreTaskResultOwnerScope ownerID capability (result_payload outcome) with
          | None => or_fail id "finish_invalid_payload" now
              (finishTask id Failed PEmpty taskOwnerScopeInvalidPayloadCode
                 taskOwnerScopeInvalidPayloadMessage completedAt now s)
          | Some scoped => or_fail id "finish_succeeded" now
              (finishTask id Succeeded scoped "" "" completedAt now s)
          end
      end
  end.

(** [now] is the clock until the command runs, [later] after it ended. *)
Definition executeTask (envs : nat -> attempt_env) (id ownerID capability : string) (inputJSON : payload)
    (intent : terminalSessionIntent) (targetNodeID : string) (now later : time) (s : RegistryService) : RegistryService :=
  match markTaskDispatched id now s with
  | (Err e, s) => if error_is e ErrTaskTransitionNotApplied then s
                  else (failTaskOnPersistenceError id "mark_dispatched" e now s).2
  | (Ok _, s) =>
      let s := with_svc_mark_running (delete id (svc_markRunning s)) s in
      let '((result, _), s) := dispatchCommand envs capability inputJSON
        (mkDispatchOptions ownerID intent targetNodeID (Some (on_running id now))) s in
      match svc_markRunning s !! id with
      | Some e => if error_is e ErrTaskTransitionNotApplied then s
                  else (failTaskOnPersistenceError id "mark_running" e later s).2
      | None => settle_result id ownerID capability result later s
      end
  end.

(** ** Pruning *)
Definition pruneExpiredTasks (now : time) (s : RegistryService) : res unit * RegistryService :=
  match svc_conn s with
  | None => (Ok tt, s)
  | Some _ =>
      match run_db unavailable (DeleteExpiredTerminalTasks (unix_milli now)) s with
      | (Ok _, s) => (Ok tt, s)
      | (Err e, s) => (Err e, s)
      end
  end.

Definition PruneExpiredTasks (now : time) (s : RegistryService) : Z * RegistryService :=
  match run_db unavailable (DeleteExpiredTerminalTasks (unix_milli now)) s with
  | (Ok removed, s) => (removed, s)
  | (Err _, s) => (0, s)
  end.

Definition maybePruneExpiredTasks (now : time) (s : RegistryService) : RegistryService :=
  let last := svc_lastInlineTaskPruneUnixMs s in
  if (0 <? last) && (i64 (unix_milli now - last) <? milliseconds inlineTaskPruneMinInterval) then s
  else (pruneExpiredTasks now (with_svc_last_prune (unix_milli now) s)).2.

(** [isTaskOwnerRequestConflict]: the unique index of (owner, request). *)
Fixpoint contains (needle s : string) : bool :=
  has_prefix needle s || match s with String _ s => contains needle s | EmptyString => false end.

Definition isTaskOwnerRequestConflict (e : error) : bool :=
  let lower := to_lower (error_message e) in
  contains "idx_tasks_owner_request_unique" lower || contains "tasks.owner_id" lower.

(** ** Lemmas *)
Section tasks.
Implicit Types (s : RegistryService) (t : Task).

Lemma terminal_nonterminal st : isTaskTerminal st = negb (nonterminal st).
Proof. by destruct st. Qed.

(** The row of a task, if there is a database. *)
Definition task_at s id : option Task := svc_db s ≫= fun d => tasks d !! id.

Lemma run_db_cases {A} e (m : M A) s :
  (svc_conn s = None /\ run_db e m s = (Err e, s)) \/
  exists c, svc_conn s = Some c /\
    run_db e m s = ((m c).1, with_svc_routes (with_store (Some (m c).2) (svc_routes s)) s).
Proof.
  unfold run_db. destruct (svc_conn s) as [c|]; [right|by left]. exists c. by destruct (m c).
Qed.

(** A statement that fails, or that reads, leaves every task row. *)
Lemma run_db_read {A} e (f : DB -> option A) s : task_at (run_db e (read_one f) s).2 = task_at s.
Proof.
  destruct (run_db_cases e (read_one f) s) as [[_ ->]|(c&Hc&->)]; [done|].
  unfold task_at, svc_db, svc_conn. cbn. unfold svc_conn in Hc. rewrite Hc. cbn.
  by rewrite (proj1 (read_one_cases f c)).
Qed.

Lemma getTaskByID_at id s : task_at (getTaskByID id s).2 = task_at s.
Proof.
  unfold getTaskByID. pose proof (run_db_read unavailable (fun d => tasks d !! id) s) as H.
  unfold GetTaskByID. by destruct (run_db unavailable _ s) as [[]].
Qed.

Lemma getTaskByID_some id s t s' : getTaskByID id s = (Some t, s') -> task_at s id = Some t.
Proof.
  unfold getTaskByID, GetTaskByID.
  destruct (run_db_cases unavailable (read_one (fun d => tasks d !! id)) s) as [[_ ->]|(c&Hc&->)]; [done|].
  unfold task_at, svc_db. rewrite Hc. cbn.
  destruct (read_one_cases (fun d => tasks d !! id) c) as (_&[(m&->)|[(_&->)|(x&Hx&->)]]); [done..|].
  intros [= <- _]. done.
Qed.

Lemma complete_at id s : task_at (completeTaskRuntime id s) = task_at s.
Proof. unfold completeTaskRuntime. by case_match. Qed.

(** The outcomes of an update of one task row. *)
Lemma run_update_cases id f s :
  let '(r, s') := run_db unavailable (write (update_task id f)) s in
  svc_taskRetention s' = svc_taskRetention s /\ svc_critical s' = svc_critical s /\
  svc_tasks s' = svc_tasks s /\ svc_records s' = svc_records s /\
  match r with
  | Err e => task_at s' = task_at s /\ error_is e ErrTaskTransitionNotApplied = false
  | Ok rows =>
      (rows = 1 /\ (exists t, task_at s id = Some t /\ nonterminal (t_Status t) = true /\ task_at s' id = Some (f t)) /\
         forall id', id' <> id -> task_at s' id' = task_at s id') \/
      (rows = 0 /\ task_at s' = task_at s /\ forall t, task_at s id = Some t -> nonterminal (t_Status t) = false)
  end.
Proof.
  destruct (run_db_cases unavailable (write (update_task id f)) s) as [[Hc ->]|(c&Hc&->)]; [done|].
  split_and!; [done..|].
  assert (task_at s = fun id => tasks (data c) !! id) as Hat by (unfold task_at, svc_db; by rewrite Hc).
  set (s' := with_svc_routes _ s).
  assert (task_at s' = fun x => tasks (data (write (update_task id f) c).2) !! x) as Hat' by done.
  rewrite Hat, Hat'. unfold write.
  destruct (stmt_cases (fun d => Ok (update_task id f d)) c) as [(m&fs&E)|[(e&fs&Ef&_)|(rows&d&fs&Ef&E)]]; [|done|];
    rewrite E; cbn [fst snd data]; [done|].
  injection Ef as Ef. unfold update_task in Ef.
  destruct (tasks (data c) !! id) as [t|] eqn:Et; [destruct (nonterminal (t_Status t)) eqn:En|]; simplify_eq.
  - left. split; [done|]. split; [exists t; cbn; by rewrite lookup_insert_eq|]. intros id' Hne. cbn. by rewrite lookup_insert_ne.
  - right. split_and!; [done|done|]. intros t' [= <-]. done.
  - right. split_and!; [done|done|]. by intros t'.
Qed.

(** Finishing a task: it was in progress and is now terminal, or it stays as
    it was and the error says why; its runtime record is closed either way. *)
Lemma finish_cases taskID st result code msg at_ now s :
  trim taskID <> "" -> isTaskTerminal st = true ->
  let '(r, s') := finishTask taskID st result code msg at_ now s in
  svc_critical s' = svc_critical s /\ (trim taskID ∉ svc_tasks s') /\
  match r with
  | Ok _ => (exists t t', task_at s (trim taskID) = Some t /\ nonterminal (t_Status t) = true /\
               task_at s' (trim taskID) = Some t' /\ t_Status t' = st /\ t_ResultJson t' = result /\
               t_ErrorCode t' = trim code /\ t_ErrorMessage t' = trim msg /\ t_OwnerID t' = t_OwnerID t) /\
            forall id', id' <> trim taskID -> task_at s' id' = task_at s id'
  | Err e => task_at s' = task_at s /\
      (error_is e ErrTaskTransitionNotApplied = true ->
         forall t, task_at s (trim taskID) = Some t -> isTaskTerminal (t_Status t) = true)
  end.
Proof.
  intros Hid Hst. unfold finishTask. rewrite bool_decide_false by done. unfold MarkTaskTerminal.
  match goal with |- context [run_db _ (write (update_task _ ?f)) s] => set (upd := f) end.
  pose proof (run_update_cases (trim taskID) upd s) as Hu.
  destruct (run_db unavailable _ s) as [r s1]. destruct Hu as (_&Hcrit&Htasks&Hrecs&Hu).
  assert (svc_critical (completeTaskRuntime (trim taskID) s1) = svc_critical s /\
          (trim taskID ∉ svc_tasks (completeTaskRuntime (trim taskID) s1))) as [Hc Hn].
  { unfold completeTaskRuntime. case_bool_decide; cbn; [split; [done|set_solver]|done]. }
  destruct r as [rows|e].
  - destruct Hu as [(->&(t&Ht&Hnt&Ht')&Hother)|(->&Hsame&Hterm)]; cbn [Z.eqb].
    + split_and!; [done|done|exists t, (upd t)|]; rewrite complete_at; [|done]. by split_and!.
    + split_and!; [done|done|by rewrite complete_at|]. intros _ t Ht. rewrite terminal_nonterminal.
      by rewrite (Hterm _ Ht).
  - destruct Hu as [Hsame Hne]. split_and!; [done|done|by rewrite complete_at|]. by rewrite Hne.
Qed.

Lemma classify_error_terminal err : isTaskTerminal (classify_error err).1.1 = true.
Proof. unfold classify_error. by repeat case_match. Qed.

(** A task is settled: terminal, or its failure to be persisted was the last
    report, after those of [s] and of others. *)
Definition settled id s s' : Prop :=
  (exists t, task_at s' id = Some t /\ isTaskTerminal (t_Status t) = true) \/
  exists before stage cause fallback, svc_critical s' = before ++ [Wrapped ("task " +:+ id +:+ " persistence fallback failed at " +:+ stage +:+ ": original=") cause
      (" fallback=" +:+ error_message fallback)] /\
    svc_critical s `prefix_of` before.

Lemma settled_later id s0 s s' : svc_critical s0 `prefix_of` svc_critical s -> settled id s s' -> settled id s0 s'.
Proof.
  intros Hp [H|(before&stage&cause&fallback&E&Hs)]; [by left|right]. exists before, stage, cause, fallback. split; [done|by etrans].
Qed.

Lemma fail_settles id stage cause now s :
  trim id = id -> id <> "" -> settled id s (failTaskOnPersistenceError id stage cause now s).2.
Proof.
  intros Ht Hne. unfold failTaskOnPersistenceError.
  pose proof (finish_cases id Failed PEmpty defaultTaskPersistErrCode
    ("failed to persist task state at " +:+ (if bool_decide (trim stage = "") then "unknown_stage" else trim stage) +:+ ": " +:+
       error_message cause) now now s) as Hf. rewrite Ht in Hf.
  destruct (finishTask _ _ _ _ _ _ _ _) as [[[]|e] s1]; destruct (Hf Hne eq_refl) as (Hc&_&Hr); cbn [snd].
  - left. destruct Hr as ((t&t'&_&_&Ht'&Hst&_)&_). exists t'. split; [done|]. by rewrite Hst.
  - right. cbn. rewrite Hc. eexists _, _, cause, e. split; [reflexivity|done].
Qed.

Lemma or_fail_settles id stage st result code msg at_ now s t :
  trim id = id -> id <> "" -> isTaskTerminal st = true -> task_at s id = Some t ->
  settled id s (or_fail id stage now (finishTask id st result code msg at_ now s)).
Proof.
  intros Ht Hne Hst Hrow. pose proof (finish_cases id st result code msg at_ now s) as Hf. rewrite Ht in Hf.
  specialize (Hf Hne Hst). unfold or_fail.
  destruct (finishTask id st result code msg at_ now s) as [[[]|e] s1]; destruct Hf as (Hc&_&Hr).
  - left. destruct Hr as ((t0&t'&_&_&Ht'&Hst'&_)&_). exists t'. split; [done|]. by rewrite Hst'.
  - destruct Hr as [Hsame Hna]. destruct (error_is e ErrTaskTransitionNotApplied) eqn:En.
    + left. exists t. rewrite Hsame. split; [done|by apply Hna].
    + apply (settled_later id s s1); [by rewrite Hc|]. by apply fail_settles.
Qed.

Lemma mark_cases id f msg s :
  let x := match run_db unavailable (write (update_task id f)) s with
           | (Err e, s) => (Err e, s)
           | (Ok rows, s) => if rows =? 0 then (Err (not_applied id msg), s) else (Ok tt, s)
           end in
  svc_critical x.2 = svc_critical s /\
  match x.1 with
  | Ok _ => exists t, task_at s id = Some t /\ task_at x.2 id = Some (f t)
  | Err e => task_at x.2 = task_at s /\
      (error_is e ErrTaskTransitionNotApplied = true -> forall t, task_at s id = Some t -> isTaskTerminal (t_Status t) = true)
  end.
Proof.
  pose proof (run_update_cases id f s) as Hu. destruct (run_db unavailable _ s) as [[rows|e] s1];
    destruct Hu as (_&Hc&_&_&Hu); cbv zeta.
  - destruct Hu as [(->&(t&Ht&_&Ht')&_)|(->&Hsame&Hterm)]; cbn; [eauto|].
    split_and!; [done..|]. intros _ t Ht. rewrite terminal_nonterminal. by rewrite (Hterm _ Ht).
  - destruct Hu as [Hsame Hne]. cbn. split_and!; [done..|]. by rewrite Hne.
Qed.

Lemma task_at_rest s s' id : rest s' = rest s -> task_at s' id = task_at s id.
Proof.
  unfold rest. intros E.
  assert (tasks <$> svc_db s' = tasks <$> svc_db s) as Et by congruence.
  unfold task_at. destruct (svc_db s'), (svc_db s); cbn in *; congruence.
Qed.

(** The state of a task while its dispatch goes on, and after its callback
    failed. *)
Definition in_progress (id : string) (critical : list error) s : Prop :=
  (exists t, task_at s id = Some t) /\ critical `prefix_of` svc_critical s /\ svc_markRunning s !! id = None.
Definition callback_failed (id : string) (critical : list error) s : Prop :=
  critical `prefix_of` svc_critical s /\ exists t e, task_at s id = Some t /\ svc_markRunning s !! id = Some e /\
    (error_is e ErrTaskTransitionNotApplied = true -> isTaskTerminal (t_Status t) = true).

Lemma rest_critical s s' : rest s' = rest s -> svc_critical s' = svc_critical s /\ svc_markRunning s' = svc_markRunning s.
Proof. unfold rest. split; congruence. Qed.

Lemma in_progress_rest id c s s' : rest s' = rest s -> in_progress id c s -> in_progress id c s'.
Proof.
  intros E ([t Ht]&Hc&Hm). destruct (rest_critical _ _ E) as [E1 E2]. unfold in_progress.
  rewrite E1, E2, (task_at_rest _ _ _ E). split_and!; [by exists t|done..].
Qed.

Lemma callback_failed_rest id c s s' : rest s' = rest s -> callback_failed id c s -> callback_failed id c s'.
Proof.
  intros E (Hc&t&e&Ht&Hm&Hn). destruct (rest_critical _ _ E) as [E1 E2]. unfold callback_failed.
  rewrite E1, E2, (task_at_rest _ _ _ E). split; [done|]. by exists t, e.
Qed.

Lemma cancel_runtime_frame id s :
  task_at (cancel_runtime id s) = task_at s /\ svc_critical (cancel_runtime id s) = svc_critical s /\
  svc_markRunning (cancel_runtime id s) = svc_markRunning s.
Proof. unfold cancel_runtime. by repeat case_match. Qed.

Lemma on_running_ok id now c :
  trim id <> "" -> callback_ok (in_progress id c) (callback_failed id c) (Some (on_running id now)).
Proof.
  intros Hid cmd s ([t Ht]&Hc&Hm). cbn [notify]. unfold on_running, markTaskRunning, MarkTaskRunning. rewrite bool_decide_false by done.
  pose proof (mark_cases id (task_running (trim cmd) (unix_milli now)) "transition to running" s) as Hk. cbv zeta in Hk.
  destruct (match run_db _ _ s with (Err e, s) => _ | (Ok r, s) => _ end) as [[[]|e] s1]; cbn [fst snd] in Hk;
    destruct Hk as [Hk1 Hk2].
  - destruct Hk2 as (t0&_&Ht1). split_and!; [by exists (task_running (trim cmd) (unix_milli now) t0)|cbn; congruence|cbn; apply lookup_delete_eq].
  - destruct Hk2 as [Hsame Hna]. set (s2 := with_svc_mark_running _ s1). unfold callback_failed.
    destruct (cancel_runtime_frame id s2) as (->&->&->). split; [cbn; congruence|]. exists t, e. cbn.
    split_and!; [change (task_at s1 id = Some t); by rewrite Hsame|apply lookup_insert_eq|]. intros Hn. by apply (Hna Hn).
Qed.

Lemma settle_result_settles id owner capability result now s t :
  trim id = id -> id <> "" -> task_at s id = Some t -> settled id s (settle_result id owner capability result now s).
Proof.
  intros Hid Hne Ht. unfold settle_result. destruct result as [outcome|e]; [destruct (oc_err outcome) as [e|]|].
  - unfold finishTaskWithError. pose proof (classify_error_terminal e). destruct (classify_error e) as [[st code] msg].
    by eapply or_fail_settles.
  - case_match; by eapply or_fail_settles.
  - unfold finishTaskWithError. pose proof (classify_error_terminal e). destruct (classify_error e) as [[st code] msg].
    by eapply or_fail_settles.
Qed.

End tasks.

(** ** Properties *)

(** What the other goroutines leave alone while the task [id] is executed: its row
    stays (in whatever state), reports are not taken back, and the variable of
    this execution is its own. *)
Definition row_kept (id : string) (others : RegistryService -> RegistryService) : Prop := forall s,
  is_Some (task_at s id) -> is_Some (task_at (others s) id) /\ svc_critical s `prefix_of` svc_critical (others s) /\
  svc_markRunning (others s) !! id = svc_markRunning s !! id.

(** C16: Executing a task always settles it: whatever the workers,
    the context and the scheduler do, whichever statements the database fails,
    and whatever the other goroutines do meanwhile short of deleting the task's
    row, afterwards the task is in a terminal state, or that its failure could
    not be stored was handed to the critical persistence failure hook, as the
    last report. *)
Theorem executed_task_is_settled envs id owner capability input intent target now later s t :
  trim id = id -> id <> "" -> task_at s id = Some t ->
  (forall i, row_kept id (ae_others (envs i))) ->
  settled id s (executeTask envs id owner capability input intent target now later s).
Proof.
  intros Ht Hne Hrow Ho. unfold executeTask, markTaskDispatched, MarkTaskDispatched. rewrite bool_decide_false by congruence.
  pose proof (mark_cases id (task_dispatched (unix_milli now)) "transition to dispatched" s) as Hm. cbv zeta in Hm.
  destruct (match run_db _ _ s with (Err e, s) => _ | (Ok r, s) => _ end) as [[[]|e] s1]; cbn [fst snd] in Hm;
    destruct Hm as [Hc Hm]; apply (settled_later id s s1); try by rewrite Hc.
  2:{ destruct Hm as [Hsame Hna]. destruct (error_is e ErrTaskTransitionNotApplied); [left; rewrite Hsame; eauto|].
      by apply fail_settles. }
  destruct Hm as (t0&_&Ht1). set (s2 := with_svc_mark_running _ s1). set (options := mkDispatchOptions _ _ _ _).
  assert (in_progress id (svc_critical s1) s2) as Hip by (split_and!; [by eexists|done|apply lookup_delete_eq]).
  pose proof (dispatch_keeps (in_progress id (svc_critical s1)) (callback_failed id (svc_critical s1))
    (in_progress_rest id _) (callback_failed_rest id _) envs capability input options s2) as Hd.
  destruct (dispatchCommand envs capability input options s2) as [[result visited] s3].
  destruct Hd as [([t3 Ht3]&Hc3&Hm3)|[(Hc3&t3&e&Ht3&Hm3&Hn3) _]]; [apply on_running_ok; congruence| |done|..].
  { intros i s' (Hr&Hc'&Hm'). destruct (Ho i s' Hr) as (Hr2&Hc2&Hm2). split_and!; [done|by etrans|by rewrite Hm2]. }
  - rewrite Hm3. apply (settled_later id s1 s3); [done|]. by eapply settle_result_settles.
  - rewrite Hm3. destruct (error_is e ErrTaskTransitionNotApplied); [left; exists t3; auto|].
    apply (settled_later id s1 s3); [done|]. by apply fail_settles.
Qed.

End Tasks.
Export Tasks.
