(* ===== verification/Submit.v ===== *)
(** Task submission (console/internal/grpcserver/task.go [SubmitTask],
    [resolveSubmitTaskResult], [checkCapabilityAvailability], and
    task_worker_sys_routing.go): validation, routing of the input, idempotent
    request ids, availability, insertion, and waiting for the result.

    The goroutine that executes the task is not run here: [SubmitTask] returns
    what it is started with ([task_job]), and [se_others] is what it and all
    other goroutines do to the state while the submission waits. *)
From S2P Require Import Prelude.
From S2P Require Import Json.
From S2P Require Import Sql.
From S2P Require Import Proto.
From S2P Require Import Registry.
From S2P Require Import OwnerScope.
From S2P Require Import TerminalRoutes.
From S2P Require Import SessionRuntime.
From S2P Require Import Service.
From S2P Require Import Dispatch.
From S2P Require Import DispatchProps.
From S2P Require Import Tasks.

Module Submit.

Record SubmitTaskRequest := mkSubmit {
  sr_Capability : string;
  sr_InputJSON : payload;
  sr_Mode : string;
  sr_Wait : duration;
  sr_Timeout : duration;
  sr_RequestID : string;
  sr_OwnerID : string }.

Record SubmitTaskResult := mkSubmitResult { str_Task : TaskSnapshot; str_Completed : bool }.

Record preparedTaskInput := mkPrepared {
  pt_inputJSON : payload;
  pt_dispatchCapability : string;
  pt_targetNodeID : string;
  pt_immediateResult : option payload }.

(** What the outside does during one submission. *)
Record submit_env := mkSubmitEnv {
  se_now : time;
  se_newTerminalSessionID : option (res string);
  se_taskID : res string;
  se_wait_ctx : option ctx_end;      (** the caller's context, if it ends before the task *)
  se_others : RegistryService -> RegistryService }.

(** The arguments of [go s.executeTask(...)] besides the context. *)
Record task_job := mkJob {
  job_id : string; job_owner : string; job_capability : string; job_input : payload;
  job_intent : terminalSessionIntent; job_target : string }.

(** ** Preparation of the input *)

(** [%q] of a text without quotes, backslashes and control characters. *)
Definition quoted (s : string) : string := String "034"%char s +:+ String "034"%char "".

Definition rawJSONString (raw : option json) : string :=
  match raw with
  | Some (JString s) => trim s
  | _ => ""
  end.

Definition validateWorkerSysTarget (ownerID workerID : string) (now : time) (s : RegistryService)
    : res unit * RegistryService :=
  match svc_conn s with
  | None => (Err (StatusError Unavailable "worker registry is unavailable"), s)
  | Some _ =>
      let '(worker, s) := query None (GetByNodeID workerID now (offlineTTL s)) s in
      let invalid := (Err (StatusError InvalidArgument "worker_id is invalid"), s) in
      match worker with
      | None => invalid
      | Some v =>
          let label k := default "" (w_Labels (v_Worker v) !! k) in
          if negb (bool_decide (trim (label LabelOwnerIDKey) = trim ownerID)) ||
             negb (bool_decide (to_lower (trim (label LabelWorkerTypeKey)) = WorkerTypeSys))
          then invalid else (Ok tt, s)
      end
  end.

Definition status_text (st : WorkerStatus) : string :=
  match st with StatusAll => "all" | StatusOnline => "online" | StatusOffline => "offline" end.

Definition capability_json (c : CapabilityDeclaration) : json :=
  JObject [("name", JString (cd_Name c)); ("max_inflight", JInt (cd_MaxInflight c))].

(** [append([]T(nil), caps...)] of no capabilities is the nil slice. *)
Definition worker_item (v : WorkerView) : json :=
  let w := v_Worker v in
  JObject [("worker_id", JString (w_NodeID w)); ("node_name", JString (w_NodeName w));
           ("status", JString (status_text (v_Status v)));
           ("capabilities", match w_Capabilities w with [] => JNull | cs => JArray (capability_json <$> cs) end)].

Definition workerSysListResult (ownerID : string) (now : time) (s : RegistryService) : payload * RegistryService :=
  let '(workers, s) := query [] (ListByOwnerAndType ownerID WorkerTypeSys now (offlineTTL s)) s in
  (PJson (JObject [("worker_list", JArray (worker_item <$> workers))]), s).

Definition prepareTaskInput (capability ownerID : string) (inputJSON : payload) (now : time) (s : RegistryService)
    : res preparedTaskInput * RegistryService :=
  let prepared := mkPrepared inputJSON (normalizeCapability capability) "" None in
  let prefix := cfg_computerUseSessionIDPrefix (svc_config s) in
  let prefix := if bool_decide (trim prefix = "") then defaultComputerUseSessionIDPrefix else prefix in
  let invalid msg := Err (StatusError InvalidArgument msg) in
  let capability := normalizeCapability capability in
  if bool_decide (capability = computerUseCapabilityName) then
    match unmarshal_map inputJSON with
    | Some (Some p) =>
        match p !! "worker_id" with
        | None =>
            let '(result, s) := workerSysListResult ownerID now s in
            (Ok (mkPrepared inputJSON capability "" (Some result)), s)
        | Some workerIDRaw =>
            let workerID := rawJSONString (Some workerIDRaw) in
            if bool_decide (workerID = "") then (invalid "worker_id is invalid", s) else
            if bool_decide (rawJSONString (p !! "command") = "")
            then (invalid "command is required when worker_id is provided", s) else
            match validateWorkerSysTarget ownerID workerID now s with
            | (Err e, s) => (Err e, s)
            | (Ok _, s) => (Ok (mkPrepared (marshal_map (delete "worker_id" p)) capability workerID None), s)
            end
        end
    | _ => (invalid "invalid computerUse payload", s)
    end
  else if bool_decide (capability = readImageCapabilityName) then
    match unmarshal_map inputJSON with
    | None => (invalid "invalid readImage payload", s)
    | Some p =>
        let sessionID := rawJSONString (default ∅ p !! "session_id") in
        if negb (has_prefix prefix sessionID)
        then (Ok (mkPrepared inputJSON taskCapabilityTerminalResource "" None), s) else
        let workerID := trim (trim_prefix prefix sessionID) in
        if bool_decide (workerID = "")
        then (invalid ("session_id must include a worker_id after reserved prefix " +:+ quoted prefix), s) else
        match validateWorkerSysTarget ownerID workerID now s with
        | (Err e, s) => (Err e, s)
        | (Ok _, s) => (Ok (mkPrepared (marshal_map (<["session_id" := JString "computerUse"]> (default ∅ p)))
                              capability workerID None), s)
        end
    end
  else if bool_decide (capability = taskCapabilityTerminalExec) then
    match unmarshal_exec inputJSON with
    | None => (Ok prepared, s)
    | Some p =>
        let sessionID := trim (ex_SessionID p) in
        if ex_CreateIfMissing p && negb (bool_decide (sessionID = "")) && has_prefix prefix sessionID
        then (invalid ("invalid_payload: session_id uses reserved identifier prefix " +:+ quoted prefix), s)
        else (Ok prepared, s)
    end
  else (Ok prepared, s).

(** ** Availability *)
Fixpoint any_room (capability : string) (nodes : list string) (s : RegistryService) : bool * RegistryService :=
  match nodes with
  | [] => (false, s)
  | node :: nodes =>
      match session_ref node s with
      | None => any_room capability nodes s
      | Some (sid, x) =>
          if negb (hasCapability capability x) then any_room capability nodes s else
          match on_session None sid (inflightSnapshot capability) s with
          | (None, s) => any_room capability nodes s
          | (Some (inflight, maxInflight), s) =>
              if inflight <? maxInflight then (true, s) else any_room capability nodes s
          end
      end
  end.

Definition checkCapabilityAvailability (capability ownerID : string) (now : time) (s : RegistryService)
    : res unit * RegistryService :=
  match listOnlineNodeIDsForCapability capability ownerID now s with
  | ([], s) => (Err (Sentinel ErrNoCapabilityWorker), s)
  | (nodes, s) => match any_room capability nodes s with
                  | (true, s) => (Ok tt, s)
                  | (false, s) => (Err (Sentinel ErrNoWorkerCapacity), s)
                  end
  end.

(** ** Waiting for the result *)
Definition snapshot_now (taskID : string) (s : RegistryService) : res SubmitTaskResult * RegistryService :=
  match getTaskByID taskID s with
  | (None, s) => (Err (Sentinel ErrTaskNotFound), s)
  | (Some t, s) => (Ok (mkSubmitResult (snapshotTask taskID t) (isTaskTerminal (t_Status t))), s)
  end.

(** [runtime]: the task has a runtime record to wait on. *)
Definition resolveSubmitTaskResult (env : submit_env) (taskID : string) (runtime : bool) (mode : TaskMode)
    (s : RegistryService) : res SubmitTaskResult * RegistryService :=
  if bool_decide (trim taskID = "") then (Err (Sentinel ErrTaskNotFound), s) else
  match snapshot_now taskID s with
  | (Err e, s) => (Err e, s)
  | (Ok snap, s) =>
      if bool_decide (mode = TaskModeAsync) || str_Completed snap then (Ok snap, s) else
      if negb runtime then snapshot_now taskID s else
      let s := se_others env s in
      match se_wait_ctx env with
      | Some e => (Err (ctx_error e), s)
      | None => snapshot_now taskID s
      end
  end.

(** ** Submission *)
Definition release_request (key : string) (s : RegistryService) : RegistryService :=
  with_svc_reservations (svc_reservations s ∖ {[ key ]}) s.

Definition internal (msg : string) : error := StatusError Internal msg.

Definition queued_row (ownerID requestID capability : string) (input : payload) (timeout : duration) (now : time) : Task :=
  mkTask ownerID requestID capability input Queued "" PEmpty "" "" (unix_milli now) (unix_milli now)
    (unix_milli (time_add now timeout)) 0 0.

(** From the insertion on; the request is still reserved. *)
Definition submit_insert (env : submit_env) (ownerID requestID capability : string) (prepared : preparedTaskInput)
    (input : payload) (intent : terminalSessionIntent) (mode : TaskMode) (timeout : duration) (s : RegistryService)
    : (res SubmitTaskResult * option task_job) * RegistryService :=
  let key := taskRequestScopeKey ownerID requestID in
  let release s := if bool_decide (requestID = "") then s else release_request key s in
  match se_taskID env with
  | Err _ => ((Err (internal "failed to create task_id"), None), release s)
  | Ok taskID =>
      match run_db unavailable (InsertTask taskID (queued_row ownerID requestID capability input timeout (se_now env))) s with
      | (Err e, s) =>
          match (if negb (bool_decide (requestID = "")) && isTaskOwnerRequestConflict e
                 then getTaskByOwnerAndRequest ownerID requestID s else (None, s)) with
          | (Some (existingID, _), s) =>
              let '(r, s) := resolveSubmitTaskResult env existingID (bool_decide (existingID ∈ svc_tasks s)) mode s in
              ((r, None), release s)
          | (None, s) => ((Err (internal "failed to create task"), None), release s)
          end
      | (Ok _, s) =>
          match pt_immediateResult prepared with
          | Some result =>
              match finishTask taskID Succeeded result "" "" (se_now env) (se_now env) s with
              | (Err _, s) => ((Err (internal "failed to complete task"), None), release s)
              | (Ok _, s) =>
                  let s := release s in
                  match getTaskByID taskID s with
                  | (None, s) => ((Err (internal "failed to load completed task"), None), s)
                  | (Some t, s) => ((Ok (mkSubmitResult (snapshotTask taskID t) true), None), s)
                  end
              end
          | None =>
              let s := release (setTaskRuntime taskID s) in
              let '(r, s) := resolveSubmitTaskResult env taskID true mode s in
              ((r, Some (mkJob taskID ownerID (pt_dispatchCapability prepared) input intent (pt_targetNodeID prepared))), s)
          end
      end
  end.

Definition availability (prepared : preparedTaskInput) (ownerID : string) (now : time) (s : RegistryService)
    : res unit * RegistryService :=
  match pt_immediateResult prepared with
  | Some _ => (Ok tt, s)
  | None => if negb (bool_decide (pt_targetNodeID prepared = ""))
            then checkTargetCapabilityAvailability (pt_targetNodeID prepared) (pt_dispatchCapability prepared) s
            else checkCapabilityAvailability (pt_dispatchCapability prepared) ownerID now s
  end.

(** From the reservation of the request id on. *)
Definition submit_request (env : submit_env) (ownerID requestID capability : string) (prepared : preparedTaskInput)
    (input : payload) (intent : terminalSessionIntent) (mode : TaskMode) (timeout : duration) (s : RegistryService)
    : (res SubmitTaskResult * option task_job) * RegistryService :=
  let key := taskRequestScopeKey ownerID requestID in
  let release s := if bool_decide (requestID = "") then s else release_request key s in
  let continue s :=
    match availability prepared ownerID (se_now env) s with
    | (Err e, s) => ((Err e, None), release s)
    | (Ok _, s) => submit_insert env ownerID requestID capability prepared input intent mode timeout s
    end in
  if bool_decide (requestID = "") then continue s else
  if bool_decide (key ∈ svc_reservations s) then ((Err (Sentinel ErrTaskRequestInProgress), None), s) else
  let s := with_svc_reservations ({[ key ]} ∪ svc_reservations s) s in
  match getTaskByOwnerAndRequest ownerID requestID s with
  | (Some (existingID, _), s) =>
      let '(r, s) := resolveSubmitTaskResult env existingID (bool_decide (existingID ∈ svc_tasks s)) mode s in
      ((r, None), release s)
  | (None, s) => continue s
  end.

Definition SubmitTask (env : submit_env) (req : SubmitTaskRequest) (s : RegistryService)
    : (res SubmitTaskResult * option task_job) * RegistryService :=
  let refuse e s := ((Err e, None), s) in
  let invalid msg := StatusError InvalidArgument msg in
  let capability := normalizeCapability (sr_Capability req) in
  if bool_decide (capability = "") then refuse (invalid "capability is required") s else
  if bool_decide (capability = taskCapabilityTerminalProxy) || bool_decide (capability = taskCapabilityTerminalLeaseRenew)
  then refuse (StatusError PermissionDenied "capability is internal") s else
  let ownerID := normalizeTaskOwnerID (sr_OwnerID req) in
  if bool_decide (ownerID = "") then refuse (invalid "owner_id is required") s else
  match ParseTaskMode (sr_Mode req) with
  | Err e => refuse (invalid (error_message e)) s
  | Ok mode =>
      let inputJSON := if payload_empty (sr_InputJSON req) then PJson (JObject []) else sr_InputJSON req in
      if negb (json_valid inputJSON) then refuse (invalid "input must be valid JSON") s else
      let intent := terminalSessionIntentForTaskInput capability inputJSON in
      match prepareTaskInput capability ownerID inputJSON (se_now env) s with
      | (Err e, s) => refuse e s
      | (Ok prepared, s) =>
          match scopeTaskInputByOwner (se_newTerminalSessionID env) (pt_dispatchCapability prepared) ownerID
                  (pt_inputJSON prepared) with
          | Err e => refuse e s
          | Ok input =>
              let timeout := if sr_Timeout req <=? 0 then defaultTaskTimeout else sr_Timeout req in
              if maxTaskTimeout <? timeout then refuse (invalid "timeout exceeds maximum allowed value") s else
              let wait := if sr_Wait req <=? 0 then defaultTaskWait else sr_Wait req in
              if maxTaskWait <? wait then refuse (invalid "wait exceeds maximum allowed value") s else
              let s := maybePruneExpiredTasks (se_now env) s in
              submit_request env ownerID (trim (sr_RequestID req)) capability prepared input intent mode timeout s
          end
      end
  end.

End Submit.
Export Submit.
