(* ===== verification/TaskProps.v ===== *)
(** Properties of tasks: the life cycle of their rows under every operation,
    ownership, idempotent submission, and the isolation of owners from the
    submission to the dispatch. *)
From S2P Require Import Prelude.
From S2P Require Import Json.
From S2P Require Import Sql.
From S2P Require Import Proto.
From S2P Require Import Registry.
From S2P Require Import OwnerScope.
From S2P Require Import RouteStore.
From S2P Require Import TerminalRoutes.
From S2P Require Import SessionRuntime.
From S2P Require Import Service.
From S2P Require Import Dispatch.
From S2P Require Import DispatchProps.
From S2P Require Import Tasks.
From S2P Require Import Submit.

Module TaskProps.

(** ** The task table over time *)
Section table.
Implicit Types (s : RegistryService) (t : Task) (T : gmap string Task).

Definition tasks_of s : gmap string Task := default ∅ (tasks <$> svc_db s).

Lemma task_at_of s id : task_at s id = tasks_of s !! id.
Proof. unfold task_at, tasks_of. by destruct (svc_db s). Qed.

(** At most one task per owner and request id. *)
Definition unique_requests T : Prop :=
  forall id1 id2 t1 t2, T !! id1 = Some t1 -> T !! id2 = Some t2 ->
    t_OwnerID t1 = t_OwnerID t2 -> t_RequestID t1 = t_RequestID t2 -> t_RequestID t1 <> "" -> id1 = id2.

(** Until time [B] a terminal task does not change, and it disappears only if
    its retention is over. *)
Definition final_until (B : Z) T T' : Prop :=
  forall id t, T !! id = Some t -> isTaskTerminal (t_Status t) = true ->
    T' !! id = Some t \/ 0 < t_ExpiresAtUnixMs t <= B.

Definition task_step (B : Z) s s' : Prop :=
  final_until B (tasks_of s) (tasks_of s') /\ (unique_requests (tasks_of s) -> unique_requests (tasks_of s')).

#[export] Instance task_step_preorder B : PreOrder (task_step B).
Proof.
  split.
  - intros s. split; [|done]. intros id t Ht. by left.
  - intros s1 s2 s3 [H1 U1] [H2 U2]. split; [|by auto]. intros id t Ht Hterm.
    destruct (H1 _ _ Ht Hterm) as [Ht2|]; [|by right]. by apply H2.
Qed.

Lemma task_step_same B s s' : tasks_of s' = tasks_of s -> task_step B s s'.
Proof. intros E. split; rewrite E; [|done]. intros id t Ht _. by left. Qed.

Lemma task_step_rest B s s' : rest s' = rest s -> task_step B s s'.
Proof.
  intros E. apply task_step_same. unfold rest in E. assert (tasks <$> svc_db s' = tasks <$> svc_db s) as Et by congruence.
  unfold tasks_of. by rewrite Et.
Qed.

Lemma task_step_at B s s' : task_at s' = task_at s -> task_step B s s'.
Proof.
  intros E. apply task_step_same. apply map_eq. intros id. by rewrite <- !task_at_of, E.
Qed.

(** One row that is not terminal changes its status. *)
Lemma task_step_update B s s' id t t' :
  task_at s id = Some t -> nonterminal (t_Status t) = true -> task_at s' id = Some t' ->
  t_OwnerID t' = t_OwnerID t -> t_RequestID t' = t_RequestID t ->
  (forall id', id' <> id -> task_at s' id' = task_at s id') -> task_step B s s'.
Proof.
  intros Ht Hn Ht' Ho Hr Hother. split.
  - intros id' u Hu Hterm. destruct (decide (id' = id)) as [->|Hne].
    + rewrite <- task_at_of, Ht in Hu. injection Hu as <-. by rewrite terminal_nonterminal, Hn in Hterm.
    + left. by rewrite <- task_at_of, Hother, task_at_of by done.
  - intros Hu.
    assert (forall k v, tasks_of s' !! k = Some v -> exists v0, tasks_of s !! k = Some v0 /\
      t_OwnerID v = t_OwnerID v0 /\ t_RequestID v = t_RequestID v0) as Hback.
    { intros k v. rewrite <- !task_at_of. destruct (decide (k = id)) as [->|Hne].
      - rewrite Ht'. intros [= <-]. by exists t.
      - rewrite Hother by done. by exists v. }
    intros k1 k2 v1 v2 (w1&Hw1&E1&E2)%Hback (w2&Hw2&E3&E4)%Hback ? ? ?. eapply Hu; [done|done|congruence..].
Qed.

Lemma run_update_step B id f s :
  (forall t, t_OwnerID (f t) = t_OwnerID t /\ t_RequestID (f t) = t_RequestID t) ->
  task_step B s (run_db unavailable (write (update_task id f)) s).2.
Proof.
  intros Hf. pose proof (run_update_cases id f s) as Hu. destruct (run_db unavailable _ s) as [[rows|e] s'].
  - destruct Hu as (_&_&_&_&[(_&(t&Ht&Hn&Ht')&Hother)|(_&Hsame&_)]); [|by apply task_step_at].
    destruct (Hf t). by eapply task_step_update.
  - destruct Hu as (_&_&_&_&Hsame&_). by apply task_step_at.
Qed.

Lemma get_row_step B id s : task_step B s (getTaskByID id s).2.
Proof. apply task_step_at, getTaskByID_at. Qed.

Lemma get_request_at owner request s : task_at (getTaskByOwnerAndRequest owner request s).2 = task_at s.
Proof.
  unfold getTaskByOwnerAndRequest, GetTaskByOwnerAndRequest.
  match goal with |- context [run_db unavailable (read_one ?f) s] => pose proof (run_db_read unavailable f s) as H;
    destruct (run_db unavailable (read_one f) s) as [[]] end; done.
Qed.

Lemma get_request_step B owner request s : task_step B s (getTaskByOwnerAndRequest owner request s).2.
Proof. apply task_step_at, get_request_at. Qed.

Lemma complete_step B id s : task_step B s (completeTaskRuntime id s).
Proof. apply task_step_at, complete_at. Qed.

Lemma finish_step B id st result code msg at_ now s : task_step B s (finishTask id st result code msg at_ now s).2.
Proof.
  unfold finishTask. destruct (bool_decide _); [done|]. unfold MarkTaskTerminal.
  match goal with |- context [run_db _ (write (update_task ?i ?f)) s] =>
    pose proof (run_update_step B i f s ltac:(done)) as Hu; destruct (run_db _ (write (update_task i f)) s) as [[rows|e] s1] end;
    cbn [snd] in *; (etrans; [exact Hu|]); [destruct (rows =? 0)|]; apply complete_step.
Qed.

Lemma fail_step B id stage cause now s : task_step B s (failTaskOnPersistenceError id stage cause now s).2.
Proof.
  unfold failTaskOnPersistenceError.
  match goal with |- context [finishTask ?a ?b ?c ?d ?e ?f ?g s] => pose proof (finish_step B a b c d e f g s) as Hf;
    destruct (finishTask a b c d e f g s) as [[[]|e'] s1] end; cbn [snd] in *; [done|].
  etrans; [exact Hf|]. by apply task_step_same.
Qed.

Lemma or_fail_step B id stage now x s : task_step B s x.2 -> task_step B s (or_fail id stage now x).
Proof.
  intros Hx. destruct x as [[[]|e] s1]; cbn [or_fail snd] in *; [done|]. destruct (error_is _ _); [done|].
  etrans; [exact Hx|]. apply fail_step.
Qed.

Lemma prune_tasks_step B now s : unix_milli now <= B -> task_step B s (run_db unavailable (DeleteExpiredTerminalTasks (unix_milli now)) s).2.
Proof.
  intros HB. destruct (run_db_cases unavailable (DeleteExpiredTerminalTasks (unix_milli now)) s) as [[_ ->]|(c&Hc&->)]; [done|].
  cbn [snd]. set (s' := with_svc_routes _ s).
  assert (tasks_of s = tasks (data c)) as E by (unfold tasks_of, svc_db; by rewrite Hc).
  assert (tasks_of s' = tasks (data (DeleteExpiredTerminalTasks (unix_milli now) c).2)) as E' by done.
  unfold DeleteExpiredTerminalTasks, write in E'.
  destruct (stmt_cases (fun d => Ok (count (fun _ t => expired_task (unix_milli now) t) (tasks d),
    with_tasks (keep (fun _ t => expired_task (unix_milli now) t)) d)) c) as [(m&fs&Es)|[(e&fs&Ef&_)|(n&d&fs&Ef&Es)]]; [|done|];
    rewrite Es in E'; cbn [snd data] in E'; [apply task_step_same; congruence|].
  injection Ef as _ <-. cbn [tasks with_tasks] in E'. split; rewrite E, E'.
  - intros id t Ht Hterm. rewrite lookup_keep, Ht. cbn. destruct (expired_task (unix_milli now) t) eqn:Ee; [|by left].
    right. unfold expired_task in Ee. bool_prop. lia.
  - intros Hu id1 id2 t1 t2 [H1 _]%lookup_keep_Some [H2 _]%lookup_keep_Some. by apply (Hu _ _ _ _ H1 H2).
Qed.

Lemma maybe_prune_tasks_step B now s : unix_milli now <= B -> task_step B s (maybePruneExpiredTasks now s).
Proof.
  intros HB. unfold maybePruneExpiredTasks. destruct (_ && _); [done|]. unfold pruneExpiredTasks.
  set (s1 := with_svc_last_prune _ s). assert (task_step B s s1) as H1 by (by apply task_step_same).
  destruct (svc_conn s1); [|done]. pose proof (prune_tasks_step B now s1 HB) as H2.
  destruct (run_db _ _ s1) as [[]]; cbn [snd] in *; by etrans.
Qed.

Lemma insert_step B id row s : task_step B s (run_db unavailable (InsertTask id row) s).2.
Proof.
  destruct (run_db_cases unavailable (InsertTask id row) s) as [[_ ->]|(c&Hc&->)]; [done|].
  cbn [snd]. set (s' := with_svc_routes _ s).
  assert (tasks_of s = tasks (data c)) as E by (unfold tasks_of, svc_db; by rewrite Hc).
  assert (tasks_of s' = tasks (data (InsertTask id row c).2)) as E' by done.
  unfold InsertTask in E'. match type of E' with context [stmt ?f c] => destruct (stmt_cases f c) as [(m&fs&Es)|[(e&fs&_&Es)|(a&d&fs&Ef&Es)]] end;
    rewrite Es in E'; cbn [snd data] in E'; [apply task_step_same; congruence..|].
  destruct (tasks (data c) !! id) eqn:Eid; [done|]. destruct (_ && _) eqn:Ec; [done|]. simplify_eq. cbn [tasks with_tasks] in E'. split; rewrite E, E'.
  - intros k t Hk _. left. rewrite lookup_insert_ne; [done|congruence].
  - intros Hu.
    assert (forall k t, tasks (data c) !! k = Some t -> t_OwnerID t = t_OwnerID row -> t_RequestID t = t_RequestID row ->
      t_RequestID row <> "" -> False) as Hno.
    { intros k t Hk Ho Hr Hne. rewrite bool_decide_false in Ec by done. cbn in Ec. rewrite count_zero in Ec.
      specialize (Ec _ _ Hk). by rewrite Ho, Hr, !bool_decide_true in Ec. }
    intros k1 k2 t1 t2. rewrite !lookup_insert. destruct (decide (id = k1)), (decide (id = k2)); [congruence| | |intros H1 H2; exact (Hu _ _ _ _ H1 H2)].
    + intros [= <-] H2 Ho Hr Hne. exfalso. eapply (Hno k2); eauto; congruence.
    + intros H1 [= <-] Ho Hr Hne. exfalso. eapply (Hno k1); eauto; congruence.
Qed.

Lemma mark_dispatched_step B id now s : task_step B s (markTaskDispatched id now s).2.
Proof.
  unfold markTaskDispatched. destruct (bool_decide _); [done|]. unfold MarkTaskDispatched.
  pose proof (run_update_step B id (task_dispatched (unix_milli now)) s ltac:(done)) as Hu.
  destruct (run_db _ _ s) as [[rows|e] s1]; [|done]. by destruct (rows =? 0).
Qed.

Lemma on_running_step B id now s0 :
  callback_ok (task_step B s0) (task_step B s0) (Some (on_running id now)).
Proof.
  intros cmd s Hs. cbn [notify]. unfold on_running, markTaskRunning. destruct (bool_decide _).
  { etrans; [exact Hs|]. apply task_step_at. by rewrite (proj1 (cancel_runtime_frame id _)). }
  unfold MarkTaskRunning. pose proof (run_update_step B id (task_running (trim cmd) (unix_milli now)) s ltac:(done)) as Hu.
  destruct (run_db _ _ s) as [[rows|e] s1]; cbn [snd] in Hu; [destruct (rows =? 0)|]; (etrans; [exact Hs|]; etrans; [exact Hu|]);
    apply task_step_at; by rewrite ?(proj1 (cancel_runtime_frame id _)).
Qed.

Lemma settle_result_step B id owner capability result now s : task_step B s (settle_result id owner capability result now s).
Proof.
  unfold settle_result, finishTaskWithError. destruct result as [outcome|e]; [destruct (oc_err outcome) as [e|]|];
    [destruct (classify_error e) as [[st code] msg]|case_match|destruct (classify_error e) as [[st code] msg]];
    apply or_fail_step, finish_step.
Qed.

Lemma execute_step B envs id owner capability input intent target now later s :
  (forall i s, task_step B s (ae_others (envs i) s)) ->
  task_step B s (executeTask envs id owner capability input intent target now later s).
Proof.
  intros Ho. unfold executeTask. pose proof (mark_dispatched_step B id now s) as Hm.
  destruct (markTaskDispatched id now s) as [[[]|e] s1]; cbn [snd] in Hm.
  2:{ destruct (error_is _ _); [done|]. etrans; [exact Hm|apply fail_step]. }
  set (s2 := with_svc_mark_running _ s1). set (options := mkDispatchOptions _ _ _ _).
  assert (task_step B s s2) as H2 by (etrans; [exact Hm|by apply task_step_same]).
  pose proof (dispatch_keeps (task_step B s) (task_step B s)
    (fun s1 s2 E H => transitivity H (task_step_rest B s1 s2 E)) (fun s1 s2 E H => transitivity H (task_step_rest B s1 s2 E))
    envs capability input options s2 (on_running_step B id now s) (fun i s1 H => transitivity H (Ho i s1)) H2) as Hd.
  destruct (dispatchCommand envs capability input options s2) as [[result visited] s3].
  assert (task_step B s s3) as H3 by (destruct Hd as [?|[? _]]; done).
  destruct (svc_markRunning s3 !! id) as [e|]; [destruct (error_is _ _); [done|]|]; (etrans; [exact H3|]);
    [apply fail_step|apply settle_result_step].
Qed.

Lemma get_task_step B taskID owner s : task_step B s (GetTask taskID owner s).2.
Proof.
  unfold GetTask. destruct (bool_decide _); [done|]. pose proof (get_row_step B (trim taskID) s) as Hg.
  destruct (getTaskByID _ s) as [[t|] s1]; [by destruct (bool_decide _)|done].
Qed.

Lemma cancel_step B taskID owner now s : task_step B s (CancelTask taskID owner now s).2.
Proof.
  unfold CancelTask. destruct (bool_decide _); [done|]. pose proof (get_row_step B (trim taskID) s) as Hg.
  destruct (getTaskByID _ s) as [[t|] s1]; cbn [snd] in *; [|done]. destruct (negb _); [done|]. destruct (isTaskTerminal _); [done|].
  match goal with |- context [finishTask ?a ?b ?c ?d ?e ?f ?g s1] => pose proof (finish_step B a b c d e f g s1) as Hf;
    destruct (finishTask a b c d e f g s1) as [[[]|e'] s2] end; cbn [snd] in *.
  - pose proof (get_row_step B (trim taskID) s2) as Hg2. destruct (getTaskByID _ s2) as [[]]; cbn [snd] in *;
      (etrans; [exact Hg|]; etrans; [exact Hf|exact Hg2]).
  - destruct (error_is _ _); [|cbn; by etrans]. pose proof (get_row_step B (trim taskID) s2) as Hg2.
    destruct (getTaskByID _ s2) as [[t2|] s3]; cbn [snd] in *; [destruct (negb _); [|destruct (isTaskTerminal _)]|];
      (etrans; [exact Hg|]; etrans; [exact Hf|exact Hg2]).
Qed.

End table.

(** ** Submission *)

(** Database programs that only read. *)
Class ReadOnly {A} (m : M A) : Prop := read_only : forall D, Preserves (fun d => d = D) m.

Lemma read_only_data {A} (m : M A) c : ReadOnly m -> data (m c).2 = data c.
Proof. intros H. by apply (H (data c)). Qed.

#[export] Instance ro_GetByNodeID node now ttl : ReadOnly (GetByNodeID node now ttl).
Proof. intros D. unfold GetByNodeID. destruct (bool_decide _); apply _. Qed.
#[export] Instance ro_ListByOwnerAndType owner ty now ttl : ReadOnly (ListByOwnerAndType owner ty now ttl).
Proof. intros D. unfold ListByOwnerAndType, listFilteredViews. apply _. Qed.

Section submit.
Implicit Types (s : RegistryService) (t : Task).

Lemma query_rest {A} (d : A) (m : M A) s : ReadOnly m -> rest (query d m s).2 = rest s.
Proof.
  intros Hm. destruct (query_frame d m s) as (c&Hs&Hdb); [intros c; by apply read_only_data|].
  unfold rest. by rewrite Hdb, Hs.
Qed.

Lemma validate_target_rest owner worker now s : rest (validateWorkerSysTarget owner worker now s).2 = rest s.
Proof.
  unfold validateWorkerSysTarget. destruct (svc_conn s); [|done].
  pose proof (query_rest None (GetByNodeID worker now (offlineTTL s)) s _) as Hq.
  destruct (query None _ s) as [v s1]. cbn [snd] in Hq. destruct v as [v|]; [by destruct (_ || _)|done].
Qed.

Lemma prepare_rest capability owner input now s : rest (prepareTaskInput capability owner input now s).2 = rest s.
Proof.
  unfold prepareTaskInput. destruct (bool_decide _).
  - destruct (unmarshal_map input) as [[p|]|]; [|done..]. destruct (p !! "worker_id") as [w|].
    + destruct (bool_decide _); [done|]. destruct (bool_decide _); [done|].
      pose proof (validate_target_rest owner (rawJSONString (Some w)) now s) as Hv.
      by destruct (validateWorkerSysTarget _ _ _ s) as [[[]|e] s1].
    + unfold workerSysListResult. pose proof (query_rest [] (ListByOwnerAndType owner WorkerTypeSys now (offlineTTL s)) s _) as Hq.
      by destruct (query [] _ s) as [v s1].
  - destruct (bool_decide _); [|destruct (bool_decide _); [|done]; destruct (unmarshal_exec input); [|done]; by destruct (_ && _)].
    destruct (unmarshal_map input) as [p|]; [|done]. destruct (negb _); [done|]. destruct (bool_decide _); [done|].
    match goal with |- context [validateWorkerSysTarget owner ?w now s] => pose proof (validate_target_rest owner w now s) as Hv end.
    by destruct (validateWorkerSysTarget _ _ _ s) as [[[]|e] s1].
Qed.

Lemma any_room_rest capability nodes s : rest (any_room capability nodes s).2 = rest s.
Proof.
  revert s. induction nodes as [|node nodes IH]; intros s; [done|]. cbn. destruct (session_ref node s) as [[sid x]|]; [|done].
  destruct (negb _); [done|]. pose proof (on_session_rest None sid (inflightSnapshot capability) s) as Hr.
  destruct (on_session None _ _ s) as [[[a b]|] s1]; cbn [snd] in Hr; [destruct (a <? b); [done|]|]; by rewrite IH.
Qed.

Lemma availability_rest prepared owner now s : rest (availability prepared owner now s).2 = rest s.
Proof.
  unfold availability. destruct (pt_immediateResult prepared); [done|]. destruct (negb _); [apply check_target_rest|].
  unfold checkCapabilityAvailability. pose proof (list_online_rest (pt_dispatchCapability prepared) owner now s) as Hl.
  destruct (listOnlineNodeIDsForCapability _ _ _ s) as [[|n l] s1]; cbn [snd] in Hl; [done|].
  pose proof (any_room_rest (pt_dispatchCapability prepared) (n :: l) s1) as Ha.
  destruct (any_room _ _ s1) as [[] s2]; cbn [snd] in *; congruence.
Qed.

(** What a submission may do: a step of the task table that leaves the
    reservation of [key] as it is. Either part can be left out ([None]), so
    that nothing need be assumed of it. *)
Definition task_part (B : option Z) s s' : Prop := match B with Some B => task_step B s s' | None => True end.
Definition submit_step (B : option Z) (key : option string) s s' : Prop :=
  task_part B s s' /\
  match key with Some k => k ∈ svc_reservations s' <-> k ∈ svc_reservations s | None => True end.

#[export] Instance task_part_preorder B : PreOrder (task_part B).
Proof. destruct B as [B|]; cbn; [apply _|by split]. Qed.

#[export] Instance submit_step_preorder B key : PreOrder (submit_step B key).
Proof.
  split; [intros s; split; [done|by destruct key]|]. intros s1 s2 s3 [T1 K1] [T2 K2]. split; [by etrans|].
  destruct key; [by rewrite K2|done].
Qed.

Lemma task_part_of B s s' : (forall B, task_step B s s') -> task_part B s s'.
Proof. intros H. by destruct B; cbn. Qed.

Lemma submit_step_of B key s s' : (forall B, task_step B s s') -> svc_reservations s' = svc_reservations s -> submit_step B key s s'.
Proof. intros Ht E. split; [by apply task_part_of|]. destruct key; by rewrite ?E. Qed.

Lemma submit_step_rest B key s s' : rest s' = rest s -> submit_step B key s s'.
Proof.
  intros E. apply submit_step_of; [intros; by apply task_step_rest|]. unfold rest in E. congruence.
Qed.

(** Statements and runtime records leave the reservations. *)
Lemma run_db_reservations {A} e (m : M A) s : svc_reservations (run_db e m s).2 = svc_reservations s.
Proof. unfold run_db. destruct (svc_conn s) as [c|]; [|done]. by destruct (m c). Qed.

Lemma get_submit B key id s : submit_step B key s (getTaskByID id s).2.
Proof.
  apply submit_step_of; [intros; apply get_row_step|]. unfold getTaskByID. pose proof (run_db_reservations unavailable (GetTaskByID id) s).
  by destruct (run_db _ _ s) as [[]].
Qed.

Lemma get_request_submit B key owner request s : submit_step B key s (getTaskByOwnerAndRequest owner request s).2.
Proof.
  apply submit_step_of; [intros; apply get_request_step|]. unfold getTaskByOwnerAndRequest.
  pose proof (run_db_reservations unavailable (GetTaskByOwnerAndRequest owner request) s). by destruct (run_db _ _ s) as [[]].
Qed.

Lemma finish_submit B key id st result code msg at_ now s : submit_step B key s (finishTask id st result code msg at_ now s).2.
Proof.
  apply submit_step_of; [intros; apply finish_step|]. unfold finishTask. destruct (bool_decide _); [done|].
  match goal with |- context [run_db unavailable ?m s] => pose proof (run_db_reservations unavailable m s) as H; destruct (run_db unavailable m s) as [r s1] end.
  cbn [snd] in H. rewrite <- H. assert (svc_reservations (completeTaskRuntime (trim id) s1) = svc_reservations s1) as <-
    by (unfold completeTaskRuntime; by destruct (bool_decide _)). destruct r as [rows|]; [by destruct (rows =? 0)|done].
Qed.

Lemma snapshot_submit B key id s : submit_step B key s (snapshot_now id s).2.
Proof. unfold snapshot_now. pose proof (get_submit B key id s) as H. by destruct (getTaskByID id s) as [[]]. Qed.

Lemma resolve_submit B key env id runtime mode s :
  (forall s, submit_step B key s (se_others env s)) -> submit_step B key s (resolveSubmitTaskResult env id runtime mode s).2.
Proof.
  intros Ho. unfold resolveSubmitTaskResult. destruct (bool_decide _); [done|].
  pose proof (snapshot_submit B key id s) as H1. destruct (snapshot_now id s) as [[snap|e] s1]; cbn [snd] in H1; [|done].
  destruct (_ || _); [done|]. destruct (negb runtime); [etrans; [exact H1|apply snapshot_submit]|].
  destruct (se_wait_ctx env); cbn [snd]; (etrans; [exact H1|]); [apply Ho|etrans; [apply Ho|apply snapshot_submit]].
Qed.

(** The same, but the reservation of the request itself is given up. *)
Definition released (B : option Z) (key : option string) (owner request : string) s s' : Prop :=
  task_part B s s' /\
  match key with
  | Some k => k ∈ svc_reservations s' <-> k ∈ svc_reservations s /\ (request = "" \/ k <> taskRequestScopeKey owner request)
  | None => True
  end.

Lemma release_released B key owner request s s1 :
  submit_step B key s s1 ->
  released B key owner request s (if bool_decide (request = "") then s1 else release_request (taskRequestScopeKey owner request) s1).
Proof.
  intros [Ht Hk]. case_bool_decide as Hr; (split; [|destruct key as [k|]; [|done]]).
  - done.
  - rewrite Hk. naive_solver.
  - etrans; [exact Ht|]. apply task_part_of. intros. by apply task_step_same.
  - cbn. rewrite elem_of_difference, elem_of_singleton, Hk. naive_solver.
Qed.

Lemma released_then B key owner request s s1 s2 :
  released B key owner request s s1 -> submit_step B key s1 s2 -> released B key owner request s s2.
Proof. intros [T1 K1] [T2 K2]. split; [by etrans|]. destruct key; [by rewrite K2, K1|done]. Qed.

Lemma then_released B key owner request s s1 s2 :
  submit_step B key s s1 -> released B key owner request s1 s2 -> released B key owner request s s2.
Proof. intros [T1 K1] [T2 K2]. split; [by etrans|]. destruct key; [by rewrite K2, K1|done]. Qed.

Lemma insert_submit B key id row s : submit_step B key s (run_db unavailable (InsertTask id row) s).2.
Proof. apply submit_step_of; [intros; apply insert_step|apply run_db_reservations]. Qed.

Lemma runtime_submit B key id s : submit_step B key s (setTaskRuntime id s).
Proof. apply submit_step_of; [intros; by apply task_step_same|done]. Qed.

Lemma insert_phase B key env owner request capability prepared input intent mode timeout s :
  (forall s, submit_step B key s (se_others env s)) ->
  released B key owner request s (submit_insert env owner request capability prepared input intent mode timeout s).2.
Proof.
  intros Ho. unfold submit_insert. destruct (se_taskID env) as [id|e]; [|by apply release_released].
  match goal with |- context [run_db unavailable (InsertTask id ?row) s] => pose proof (insert_submit B key id row s) as H1;
    destruct (run_db unavailable (InsertTask id row) s) as [[[]|e] s1] end; cbn [snd] in H1; (eapply then_released; [exact H1|]).
  - destruct (pt_immediateResult prepared) as [result|].
    + match goal with |- context [finishTask ?a ?b ?c ?d ?e ?f ?g s1] => pose proof (finish_submit B key a b c d e f g s1) as H2;
        destruct (finishTask a b c d e f g s1) as [[[]|e'] s2] end; cbn [snd] in H2; [|by apply release_released].
      pose proof (release_released B key owner request _ _ H2) as H3. set (s3 := if bool_decide _ then _ else _) in *.
      pose proof (get_submit B key id s3) as H4. destruct (getTaskByID id s3) as [[]]; by eapply released_then.
    + pose proof (release_released B key owner request _ _ (runtime_submit B key id s1)) as H3. set (s3 := if bool_decide _ then _ else _) in *.
      pose proof (resolve_submit B key env id true mode s3 Ho) as H4. destruct (resolveSubmitTaskResult _ _ _ _ s3). by eapply released_then.
  - destruct (negb _ && _); [|by apply release_released].
    pose proof (get_request_submit B key owner request s1) as H2.
    destruct (getTaskByOwnerAndRequest owner request s1) as [[[existing t]|] s2]; cbn [snd] in H2; [|by apply release_released].
    pose proof (resolve_submit B key env existing (bool_decide (existing ∈ svc_tasks s2)) mode s2 Ho) as H3.
    destruct (resolveSubmitTaskResult _ _ _ _ s2) as [r s3]. apply release_released. by etrans.
Qed.

Lemma request_phase B key env owner request capability prepared input intent mode timeout s :
  (forall s, submit_step B key s (se_others env s)) ->
  submit_step B key s (submit_request env owner request capability prepared input intent mode timeout s).2.
Proof.
  intros Ho.
  assert (forall s, released B key owner request s
    (match availability prepared owner (se_now env) s with
     | (Err e, s) => ((Err e, None), if bool_decide (request = "") then s else release_request (taskRequestScopeKey owner request) s)
     | (Ok _, s) => submit_insert env owner request capability prepared input intent mode timeout s
     end : (res SubmitTaskResult * option task_job) * RegistryService).2) as Hc.
  { intros s0. pose proof (submit_step_rest B key _ _ (availability_rest prepared owner (se_now env) s0)) as H1.
    destruct (availability prepared owner (se_now env) s0) as [[[]|e] s1]; cbn [snd] in H1; [|by apply release_released].
    eapply then_released; [exact H1|by apply insert_phase]. }
  unfold submit_request. cbv zeta. case_bool_decide as Hr; [destruct (Hc s) as [T K]; split; [exact T|destruct key; [rewrite K; naive_solver|done]]|].
  case_bool_decide as Hin; [done|]. set (s1 := with_svc_reservations _ s).
  assert (forall s2, released B key owner request s1 s2 -> submit_step B key s s2) as Hfin.
  { intros s2 [T K]. split; [etrans; [|exact T]; apply task_part_of; intros; by apply task_step_same|].
    destruct key as [key|]; [|done]. rewrite K. cbn. rewrite elem_of_union, elem_of_singleton.
    destruct (decide (key = taskRequestScopeKey owner request)); naive_solver. }
  pose proof (get_request_submit B key owner request s1) as H2.
  destruct (getTaskByOwnerAndRequest owner request s1) as [[[existing t]|] s2]; cbn [snd] in H2;
    [|apply Hfin; eapply then_released; [exact H2|apply Hc]].
  pose proof (resolve_submit B key env existing (bool_decide (existing ∈ svc_tasks s2)) mode s2 Ho) as H3.
  destruct (resolveSubmitTaskResult _ _ _ _ s2) as [r s3]. apply Hfin. cbn [snd].
  pose proof (release_released B key owner request s1 s3 ltac:(by etrans)) as Hrel. by rewrite bool_decide_false in Hrel.
Qed.

Definition before (now : time) (B : option Z) : Prop := match B with Some B => unix_milli now <= B | None => True end.

Lemma maybe_prune_submit B key now s : before now B -> submit_step B key s (maybePruneExpiredTasks now s).
Proof.
  intros HB. split; [destruct B; [by apply maybe_prune_tasks_step|done]|]. destruct key as [k|]; [|done].
  assert (svc_reservations (maybePruneExpiredTasks now s) = svc_reservations s) as ->; [|done]. unfold maybePruneExpiredTasks. destruct (_ && _); [done|].
  unfold pruneExpiredTasks. destruct (svc_conn _); [|done]. set (s1 := with_svc_last_prune _ s).
  pose proof (run_db_reservations unavailable (DeleteExpiredTerminalTasks (unix_milli now)) s1) as H.
  by destruct (run_db _ _ s1) as [[]].
Qed.

Lemma submit_task_step B key env req s :
  before (se_now env) B -> (forall s, submit_step B key s (se_others env s)) ->
  submit_step B key s (SubmitTask env req s).2.
Proof.
  intros HB Ho. unfold SubmitTask. destruct (bool_decide (normalizeCapability _ = "")); [done|].
  destruct (bool_decide _ || _); [done|]. destruct (bool_decide (normalizeTaskOwnerID _ = "")); [done|].
  destruct (ParseTaskMode _) as [mode|e]; [|done]. destruct (negb _); [done|].
  match goal with |- context [prepareTaskInput ?c ?o ?i ?n s] => pose proof (submit_step_rest B key _ _ (prepare_rest c o i n s)) as H1;
    destruct (prepareTaskInput c o i n s) as [[prepared|e] s1] end; cbn [snd] in H1; [|done].
  destruct (scopeTaskInputByOwner _ _ _ _) as [input|e]; [|done].
  destruct (maxTaskTimeout <? _); [done|]. destruct (maxTaskWait <? _); [done|].
  etrans; [exact H1|]. etrans; [by apply maybe_prune_submit|]. by apply request_phase.
Qed.

End submit.

(** ** The task table under all operations *)

(** What goroutines do to the service until time [B], composed and nested: an
    operation that waits is interleaved with further transitions. The last
    rule is any operation of a component that does not write the task table
    (the registry, the routes, the connections). *)
Inductive task_trans (B : Z) : RegistryService -> RegistryService -> Prop :=
  | tt_submit env req s :
      unix_milli (se_now env) <= B -> (forall s, task_trans B s (se_others env s)) ->
      task_trans B s (SubmitTask env req s).2
  | tt_execute envs id owner capability input intent target now later s :
      (forall i s, task_trans B s (ae_others (envs i) s)) ->
      task_trans B s (executeTask envs id owner capability input intent target now later s)
  | tt_dispatch envs capability input owner intent target s :
      (forall i s, task_trans B s (ae_others (envs i) s)) ->
      task_trans B s (dispatchCommand envs capability input (mkDispatchOptions owner intent target None) s).2
  | tt_get taskID owner s : task_trans B s (GetTask taskID owner s).2
  | tt_cancel taskID owner now s : task_trans B s (CancelTask taskID owner now s).2
  | tt_prune now s : unix_milli now <= B -> task_trans B s (PruneExpiredTasks now s).2
  | tt_other s s' : tasks_of s' = tasks_of s -> task_trans B s s'
  | tt_then s1 s2 s3 : task_trans B s1 s2 -> task_trans B s2 s3 -> task_trans B s1 s3.

Lemma prune_all_step B now s : unix_milli now <= B -> task_step B s (PruneExpiredTasks now s).2.
Proof.
  intros HB. unfold PruneExpiredTasks. pose proof (prune_tasks_step B now s HB) as H.
  by destruct (run_db _ _ s) as [[]].
Qed.

Lemma dispatch_step B envs capability input owner intent target s :
  (forall i s, task_step B s (ae_others (envs i) s)) ->
  task_step B s (dispatchCommand envs capability input (mkDispatchOptions owner intent target None) s).2.
Proof.
  intros Ho. set (options := mkDispatchOptions _ _ _ _).
  pose proof (dispatch_keeps (task_step B s) (task_step B s)
    (fun s1 s2 E H => transitivity H (task_step_rest B s1 s2 E)) (fun s1 s2 E H => transitivity H (task_step_rest B s1 s2 E))
    envs capability input options s) as Hd.
  destruct (dispatchCommand envs capability input options s) as [[result visited] s1].
  destruct Hd as [?|[? _]]; [by intros cmd s'|intros i s' H; by etrans|done..].
Qed.

Lemma trans_step B s s' : task_trans B s s' -> task_step B s s'.
Proof.
  induction 1.
  - apply (submit_task_step (Some B) None); [done|]. intros s0. by split; [apply H1|].
  - by apply execute_step.
  - by apply dispatch_step.
  - apply get_task_step.
  - apply cancel_step.
  - by apply prune_all_step.
  - by apply task_step_same.
  - by etrans.
Qed.

(** C17: Whatever submissions, executions, cancellations, prunings
    and other operations run until time [B], in any order and interleaved while
    they wait, and whichever statements the database fails: a task that reached
    a terminal state keeps exactly that row, and its row disappears only when
    its retention ended before [B]; and at most one task exists per owner and
    request id. *)
Theorem terminal_tasks_are_final B s s' :
  task_trans B s s' -> final_until B (tasks_of s) (tasks_of s') /\ (unique_requests (tasks_of s) -> unique_requests (tasks_of s')).
Proof. intros H. by apply trans_step. Qed.

(** A service with a finished and a queued task of one owner, and one request. *)
Definition demo_done : Task :=
  mkTask "o1" "r1" "echo" (PJson (JObject [])) Succeeded "c0" (PJson (JObject [])) "" "" 500 900 60500 900 600900.
Definition demo_queued : Task :=
  mkTask "o1" "r2" "echo" (PJson (JObject [])) Queued "" PEmpty "" "" 1000 1000 61000 0 0.
Definition demo_task_service : RegistryService :=
  with_svc_routes (with_store (Some (mkConn (with_tasks (fun _ => {[ "t1" := demo_done; "t2" := demo_queued ]}) demo_db) []))
    demo_routes) demo_service.

Lemma terminal_tasks_are_final_witness :
  tasks_of (PruneExpiredTasks (of_unix_milli 5000) (CancelTask "t2" "o1" demo_now demo_task_service).2).2 !! "t1" = Some demo_done.
Proof.
  destruct (proj1 (terminal_tasks_are_final 5000 demo_task_service _
    (tt_then 5000 _ _ _ (tt_cancel 5000 "t2" "o1" demo_now demo_task_service)
       (tt_prune 5000 (of_unix_milli 5000) _ ltac:(by vm_compute)))) "t1" demo_done) as [H|H];
    [by vm_compute..|exact H|exfalso; destruct H as [_ H]; by vm_compute in H].
Defined.

(** The queued task runs on the worker, whose answer never comes. *)
Lemma executed_task_is_settled_witness :
  settled "t2" demo_task_service
    (executeTask (fun _ => demo_env) "t2" "o1" "terminalExec" (PJson (JObject [])) terminalSessionIntentUnknown "" demo_now demo_now
       demo_task_service).
Proof.
  apply (executed_task_is_settled (fun _ => demo_env) "t2" "o1" "terminalExec" (PJson (JObject [])) terminalSessionIntentUnknown ""
    demo_now demo_now demo_task_service demo_queued); [by vm_compute..|]. intros i s H. by split_and!.
Defined.

End TaskProps.
Export TaskProps.
