(* ===== verification/SubmitProps.v ===== *)
(** Properties of task submission: the release of request ids, idempotent
    resubmission, the isolation of owners up to the job that is started, and
    the access of owners to tasks. *)
From S2P Require Import Prelude.
From S2P Require Import Json.
From S2P Require Import Sql.
From S2P Require Import Proto.
From S2P Require Import Registry.
From S2P Require Import OwnerScope.
From S2P Require Import RouteStore.
From S2P Require Import TerminalRoutes.
From S2P Require Import SessionRuntime.
From S2P Require Import Service.
From S2P Require Import Dispatch.
From S2P Require Import DispatchProps.
From S2P Require Import Tasks.
From S2P Require Import Submit.
From S2P Require Import TaskProps.

Module SubmitProps.

Section jobs.
Implicit Types (s : RegistryService) (t : Task).

Definition submitted_input (req : SubmitTaskRequest) : payload :=
  if payload_empty (sr_InputJSON req) then PJson (JObject []) else sr_InputJSON req.
Definition submitted_capability (req : SubmitTaskRequest) : string := normalizeCapability (sr_Capability req).
Definition submitted_owner (req : SubmitTaskRequest) : string := normalizeTaskOwnerID (sr_OwnerID req).
Definition submitted_request (req : SubmitTaskRequest) : string := trim (sr_RequestID req).

Lemma insert_job env owner request capability prepared input intent mode timeout s r job s' :
  submit_insert env owner request capability prepared input intent mode timeout s = ((r, Some job), s') ->
  pt_immediateResult prepared = None /\ exists id,
    se_taskID env = Ok id /\ job = mkJob id owner (pt_dispatchCapability prepared) input intent (pt_targetNodeID prepared) /\
    (run_db unavailable (InsertTask id (queued_row owner request capability input timeout (se_now env))) s).1 = Ok tt.
Proof.
  unfold submit_insert. destruct (se_taskID env) as [id|e]; [|done].
  destruct (run_db _ _ s) as [[[]|e] s1] eqn:Ei.
  - destruct (pt_immediateResult prepared) as [result|].
    + destruct (finishTask _ _ _ _ _ _ _ s1) as [[[]|]]; [|done]. by destruct (getTaskByID _ _) as [[]].
    + destruct (resolveSubmitTaskResult _ _ _ _ _) as [r1 s2]. intros [= <- <- <-]. split; [done|]. exists id. by rewrite Ei.
  - destruct (if negb _ && _ then _ else _) as [[[existing t]|] s2]; [|done]. by destruct (resolveSubmitTaskResult _ _ _ _ _).
Qed.

Lemma request_job env owner request capability prepared input intent mode timeout s r job s' :
  submit_request env owner request capability prepared input intent mode timeout s = ((r, Some job), s') ->
  exists s0, tasks_of s0 = tasks_of s /\
    submit_insert env owner request capability prepared input intent mode timeout s0 = ((r, Some job), s').
Proof.
  unfold submit_request. cbv zeta.
  assert (forall s0, tasks_of s0 = tasks_of s ->
    (match availability prepared owner (se_now env) s0 with
     | (Err e, s) => ((Err e, None), if bool_decide (request = "") then s else release_request (taskRequestScopeKey owner request) s)
     | (Ok _, s) => submit_insert env owner request capability prepared input intent mode timeout s
     end : (res SubmitTaskResult * option task_job) * RegistryService) = ((r, Some job), s') ->
    exists s0, tasks_of s0 = tasks_of s /\
      submit_insert env owner request capability prepared input intent mode timeout s0 = ((r, Some job), s')) as Hc.
  { intros s0 E0. pose proof (availability_rest prepared owner (se_now env) s0) as Hr.
    destruct (availability prepared owner (se_now env) s0) as [[[]|e] s1]; [|done]. cbn [snd] in Hr. intros E. exists s1. split; [|done].
    apply map_eq. intros id. by rewrite <- E0, <- !task_at_of, (task_at_rest _ _ _ Hr). }
  case_bool_decide; [by apply Hc|]. case_bool_decide; [done|]. set (s1 := with_svc_reservations _ s).
  pose proof (get_request_at owner request s1) as Hg.
  destruct (getTaskByOwnerAndRequest owner request s1) as [[[existing t]|] s2].
  { by destruct (resolveSubmitTaskResult _ _ _ _ _). }
  apply Hc. apply map_eq. intros id. rewrite <- !task_at_of. cbn [snd] in Hg. by rewrite Hg.
Qed.

(** What a started job is made of. *)
Lemma submit_job env req s r job s' :
  SubmitTask env req s = ((r, Some job), s') ->
  exists prepared s1 s2 mode timeout,
    submitted_capability req <> taskCapabilityTerminalProxy /\ submitted_capability req <> taskCapabilityTerminalLeaseRenew /\
    submitted_owner req <> "" /\ job_owner job = submitted_owner req /\
    prepareTaskInput (submitted_capability req) (submitted_owner req) (submitted_input req) (se_now env) s = (Ok prepared, s1) /\
    scopeTaskInputByOwner (se_newTerminalSessionID env) (job_capability job) (submitted_owner req) (pt_inputJSON prepared) =
      Ok (job_input job) /\
    job_capability job = pt_dispatchCapability prepared /\ job_target job = pt_targetNodeID prepared /\
    tasks_of s2 = tasks_of (maybePruneExpiredTasks (se_now env) s1) /\
    (run_db unavailable (InsertTask (job_id job) (queued_row (submitted_owner req) (submitted_request req)
       (submitted_capability req) (job_input job) timeout (se_now env))) s2).1 = Ok tt /\
    submit_insert env (submitted_owner req) (submitted_request req) (submitted_capability req) prepared (job_input job)
      (job_intent job) mode timeout s2 = ((r, Some job), s').
Proof.
  unfold SubmitTask. fold (submitted_capability req) (submitted_owner req) (submitted_input req) (submitted_request req).
  destruct (bool_decide (submitted_capability req = "")); [done|].
  destruct (bool_decide _ || _) eqn:Ec; [done|]. destruct (bool_decide (submitted_owner req = "")) eqn:Eo; [done|].
  destruct (ParseTaskMode _) as [mode|e]; [|done]. destruct (negb _); [done|].
  destruct (prepareTaskInput _ _ _ _ s) as [[prepared|e] s1]; [|done].
  destruct (scopeTaskInputByOwner _ _ _ _) as [input|e] eqn:Es; [|done].
  destruct (maxTaskTimeout <? _); [done|]. destruct (maxTaskWait <? _); [done|].
  intros H. apply request_job in H as (s2&E2&H). pose proof H as Hi. apply insert_job in Hi as (_&id&Hid&->&Hins). bool_prop.
  eexists prepared, s1, s2, mode, _. cbn [job_owner job_capability job_input job_target job_id job_intent]. by split_and!.
Qed.

Lemma prepare_capability capability owner input now s prepared s' :
  prepareTaskInput capability owner input now s = (Ok prepared, s') ->
  pt_dispatchCapability prepared = normalizeCapability capability \/ pt_dispatchCapability prepared = taskCapabilityTerminalResource.
Proof.
  unfold prepareTaskInput. intros H. repeat case_match; simplify_eq; cbn; auto.
Qed.

(** The session a scoped input is routed by. *)
Lemma scoped_input_session newID capability owner input out :
  trim owner <> "" -> capability <> taskCapabilityTerminalLeaseRenew ->
  scopeTaskInputByOwner newID capability owner input = Ok out ->
  terminalSessionIDFromPayload capability out = "" \/
  exists sid, trim sid <> "" /\ terminalSessionIDFromPayload capability out = scopeTerminalSessionID owner sid.
Proof.
  intros Ho Hl H. unfold terminalSessionIDFromPayload. destruct (payload_empty out) eqn:Eo; [by left|].
  destruct (decide (capability = taskCapabilityTerminalExec)) as [->|Hx].
  - rewrite bool_decide_true by done. destruct (unmarshal_exec input) as [p|] eqn:Ep.
    + right. destruct (exec_input_scoped _ _ _ _ _ Ho Ep H) as (sid&create&Hs&->&_). exists sid. split; [done|]. cbn [ex_SessionID].
      by rewrite trim_scope.
    + left. unfold scopeTaskInputByOwner in H. rewrite Ep, (bool_decide_true (taskCapabilityTerminalExec = _)) in H by done. destruct (_ || _); simplify_eq; by rewrite Ep.
  - rewrite (bool_decide_false (capability = taskCapabilityTerminalExec)), (bool_decide_false (capability = taskCapabilityTerminalLeaseRenew)) by done.
    destruct (decide (capability = taskCapabilityTerminalResource)) as [->|Hr]; [|rewrite bool_decide_false by done; by left].
    rewrite bool_decide_true by done. destruct (unmarshal_resource input) as [p|] eqn:Ep.
    + destruct (decide (trim (rs_SessionID p) = "")) as [E|Hne].
      * left. unfold scopeTaskInputByOwner in H. rewrite Ep, (bool_decide_false (taskCapabilityTerminalResource = taskCapabilityTerminalExec)),
          (bool_decide_true (taskCapabilityTerminalResource = _)), (bool_decide_true (trim (rs_SessionID p) = "")) in H by done.
        destruct (_ || _); simplify_eq; by rewrite Ep.
      * pose proof (resource_input_scoped newID owner input p Ho Ep Hne) as Hs. rewrite H in Hs. destruct Hs as (h&_&->&_).
        right. exists (rs_SessionID p). split; [done|]. cbn [rs_SessionID]. by rewrite trim_scope.
    + left. unfold scopeTaskInputByOwner in H. rewrite Ep, (bool_decide_false (taskCapabilityTerminalResource = taskCapabilityTerminalExec)),
          (bool_decide_true (taskCapabilityTerminalResource = _)) in H by done. destruct (_ || _); simplify_eq; by rewrite Ep.
Qed.

(** *** A request that already has its task *)
Definition has_task (owner request id : string) (T : gmap string Task) : Prop :=
  unique_requests T /\ request <> "" /\ exists t, T !! id = Some t /\ t_OwnerID t = owner /\ t_RequestID t = request.

Lemma get_request_found owner request s id t s' :
  getTaskByOwnerAndRequest owner request s = (Some (id, t), s') ->
  tasks_of s !! id = Some t /\ t_OwnerID t = owner /\ t_RequestID t = request.
Proof.
  unfold getTaskByOwnerAndRequest, GetTaskByOwnerAndRequest. set (f := fun d => head _).
  destruct (run_db_cases unavailable (read_one f) s) as [[_ ->]|(c&Hc&->)]; [done|]. unfold tasks_of, svc_db. rewrite Hc. cbn.
  destruct (read_one_cases f c) as (_&[(m&->)|[(_&->)|(x&Hx&->)]]); [done..|]. intros [= -> _].
  unfold f in Hx. apply head_Some_elem_of, elem_of_map_to_list, lookup_select_Some in Hx as [? Hp].
  by apply andb_true_iff in Hp as [?%bool_decide_eq_true ?%bool_decide_eq_true].
Qed.

Lemma has_task_found owner request id id' t s s' :
  has_task owner request id (tasks_of s) -> getTaskByOwnerAndRequest owner request s = (Some (id', t), s') -> id' = id.
Proof.
  intros (Hu&Hne&t0&H0&Ho&Hr) (H1&Ho1&Hr1)%get_request_found. eapply Hu; [exact H1|exact H0|congruence..].
Qed.

Lemma has_task_insert owner request id capability input timeout now id' s :
  has_task owner request id (tasks_of s) ->
  exists e, (run_db unavailable (InsertTask id' (queued_row owner request capability input timeout now)) s).1 = Err e /\
    tasks_of (run_db unavailable (InsertTask id' (queued_row owner request capability input timeout now)) s).2 = tasks_of s.
Proof.
  intros (_&Hne&t&Ht&Ho&Hr). set (row := queued_row _ _ _ _ _ _).
  destruct (run_db_cases unavailable (InsertTask id' row) s) as [[_ ->]|(c&Hc&->)]; [by exists unavailable|].
  assert (tasks_of s = tasks (data c)) as E by (unfold tasks_of, svc_db; by rewrite Hc). rewrite E in *. cbn [fst snd].
  set (s' := with_svc_routes _ s). assert (tasks_of s' = tasks (data (InsertTask id' row c).2)) as -> by done. unfold InsertTask.
  match goal with |- context [stmt ?f c] => destruct (stmt_cases f c) as [(m&fs&->)|[(e&fs&_&->)|(a&d&fs&Ef&_)]] end; cbn; [by eauto..|].
  destruct (tasks (data c) !! id'); [done|].
  assert (0 < count (fun _ t => bool_decide (t_OwnerID t = t_OwnerID row) && bool_decide (t_RequestID t = t_RequestID row)) (tasks (data c))) as Hp.
  { eapply count_pos; [exact Ht|]. by rewrite Ho, Hr, !bool_decide_true. }
  apply Z.ltb_lt in Hp. rewrite Hp, bool_decide_false in Ef by done. by cbn in Ef.
Qed.

Lemma tasks_of_at s s' : task_at s' = task_at s -> tasks_of s' = tasks_of s.
Proof. intros E. apply map_eq. intros id. by rewrite <- !task_at_of, E. Qed.

Lemma tasks_of_rest s s' : rest s' = rest s -> tasks_of s' = tasks_of s.
Proof. intros E. apply map_eq. intros id. by rewrite <- !task_at_of, (task_at_rest _ _ _ E). Qed.

Definition quiet (env : submit_env) : Prop := forall s, tasks_of (se_others env s) = tasks_of s.

Lemma snapshot_now_id id s : tasks_of (snapshot_now id s).2 = tasks_of s /\
  forall res, (snapshot_now id s).1 = Ok res -> ts_TaskID (str_Task res) = id.
Proof.
  unfold snapshot_now. pose proof (tasks_of_at _ _ (getTaskByID_at id s)) as H. destruct (getTaskByID id s) as [[t|] s1]; [|done].
  split; [done|]. by intros res [= <-].
Qed.

Lemma resolve_id env id runtime mode s :
  let '(r, s') := resolveSubmitTaskResult env id runtime mode s in
  (forall res, r = Ok res -> ts_TaskID (str_Task res) = id) /\ (quiet env -> tasks_of s' = tasks_of s).
Proof.
  unfold resolveSubmitTaskResult. destruct (bool_decide _); [done|]. destruct (snapshot_now_id id s) as [H1 H2].
  destruct (snapshot_now id s) as [[snap|e] s1]; cbn [fst snd] in *; [|done].
  destruct (_ || _); [split; [by intros res [= <-]; apply H2|done]|].
  destruct (snapshot_now_id id s1) as [H3 H4]. destruct (snapshot_now_id id (se_others env s1)) as [H5 H6].
  destruct (negb runtime); [destruct (snapshot_now id s1); cbn [fst snd] in *; split; [done|congruence]|].
  destruct (se_wait_ctx env); [split; [done|]; intros Hq; rewrite Hq; congruence|].
  destruct (snapshot_now id (se_others env s1)); cbn [fst snd] in *. split; [done|]. intros Hq. rewrite Hq in H5. congruence.
Qed.

(** What is known of a submission of such a request. *)
Definition repeated (env : submit_env) (id : string) (T : gmap string Task)
    (x : (res SubmitTaskResult * option task_job) * RegistryService) : Prop :=
  x.1.2 = None /\ (forall res, x.1.1 = Ok res -> ts_TaskID (str_Task res) = id) /\ (quiet env -> tasks_of x.2 = T).

Lemma tasks_release owner request s :
  tasks_of (if bool_decide (request = "") then s else release_request (taskRequestScopeKey owner request) s) = tasks_of s.
Proof. by destruct (bool_decide _). Qed.

Lemma insert_repeated env owner request capability prepared input intent mode timeout s id :
  has_task owner request id (tasks_of s) ->
  repeated env id (tasks_of s) (submit_insert env owner request capability prepared input intent mode timeout s).
Proof.
  intros Hh. unfold submit_insert. destruct (se_taskID env) as [nid|e]; [|split_and!; [done|done|intros _; apply tasks_release]].
  destruct (has_task_insert owner request id capability input timeout (se_now env) nid s Hh) as (e&He&Ht).
  destruct (run_db _ _ s) as [r s1]. cbn [fst snd] in He, Ht. subst r.
  assert (repeated env id (tasks_of s) ((Err (internal "failed to create task"), None),
    if bool_decide (request = "") then s1 else release_request (taskRequestScopeKey owner request) s1)) as Hfail.
  { split_and!; [done|done|intros _; by rewrite <- Ht; apply tasks_release]. }
  destruct (negb _ && _); [|done]. pose proof (tasks_of_at _ _ (get_request_at owner request s1)) as Hg.
  pose proof (fun id' t s' => has_task_found owner request id id' t s1 s' ltac:(by rewrite Ht)) as Hf.
  destruct (getTaskByOwnerAndRequest owner request s1) as [[[existing t]|] s2]; cbn [snd] in Hg.
  - specialize (Hf _ _ _ eq_refl) as ->. pose proof (resolve_id env id (bool_decide (id ∈ svc_tasks s2)) mode s2) as Hr.
    destruct (resolveSubmitTaskResult _ _ _ _ s2) as [r s3]. destruct Hr as [Hr1 Hr2].
    split_and!; [done|done|]. intros Hq. cbn [snd]. rewrite tasks_release, Hr2 by done. congruence.
  - split_and!; [done|done|]. intros _. cbn [snd]. rewrite tasks_release. congruence.
Qed.

Lemma request_repeated env owner request capability prepared input intent mode timeout s id :
  has_task owner request id (tasks_of s) ->
  repeated env id (tasks_of s) (submit_request env owner request capability prepared input intent mode timeout s).
Proof.
  intros Hh. pose proof Hh as (_&Hne&_). unfold submit_request. cbv zeta. rewrite (bool_decide_false (request = "")) by done.
  destruct (bool_decide _); [by split_and!|]. set (s1 := with_svc_reservations _ s).
  pose proof (tasks_of_at _ _ (get_request_at owner request s1)) as Hg. change (tasks_of s1) with (tasks_of s) in Hg.
  pose proof (fun id' t s' => has_task_found owner request id id' t s1 s' Hh) as Hf.
  destruct (getTaskByOwnerAndRequest owner request s1) as [[[existing t]|] s2]; cbn [snd] in Hg.
  - specialize (Hf _ _ _ eq_refl) as ->. pose proof (resolve_id env id (bool_decide (id ∈ svc_tasks s2)) mode s2) as Hr.
    destruct (resolveSubmitTaskResult _ _ _ _ s2) as [r s3]. destruct Hr as [Hr1 Hr2].
    split_and!; [done|done|]. intros Hq. cbn [snd]. change (tasks_of s3 = tasks_of s). rewrite Hr2 by done. congruence.
  - pose proof (tasks_of_rest _ _ (availability_rest prepared owner (se_now env) s2)) as Ha.
    destruct (availability prepared owner (se_now env) s2) as [[[]|e] s3]; cbn [snd] in Ha.
    + rewrite <- Hg, <- Ha. apply insert_repeated. by rewrite Ha, Hg.
    + split_and!; [done|done|]. intros _. change (tasks_of s3 = tasks_of s). congruence.
Qed.

(** Pruning keeps the rows that have not expired and adds none. *)
Lemma pruned_tasks_of now s :
  tasks_of (maybePruneExpiredTasks now s) = tasks_of s \/
  tasks_of (maybePruneExpiredTasks now s) = keep (fun _ t => expired_task (unix_milli now) t) (tasks_of s).
Proof.
  unfold maybePruneExpiredTasks. destruct (_ && _); [by left|]. unfold pruneExpiredTasks. set (s1 := with_svc_last_prune _ s).
  change (tasks_of s) with (tasks_of s1). destruct (svc_conn s1) as [c0|] eqn:E1; [|by left].
  destruct (run_db_cases unavailable (DeleteExpiredTerminalTasks (unix_milli now)) s1) as [[_ ->]|(c&Hc&->)]; [by left|].
  assert (tasks_of s1 = tasks (data c)) as -> by (unfold tasks_of, svc_db; by rewrite Hc).
  set (s2 := with_svc_routes _ s1). assert (tasks_of s2 = tasks (data (DeleteExpiredTerminalTasks (unix_milli now) c).2)) as E2 by done.
  unfold DeleteExpiredTerminalTasks, write in *.
  match goal with |- context [stmt ?f c] => destruct (stmt_cases f c) as [(m&fs&Es)|[(e&fs&Ef&_)|(n&d&fs&Ef&Es)]] end; [|done|];
    rewrite Es in *; cbn in *; [by left|right]. by injection Ef as _ <-.
Qed.

Lemma has_task_pruned owner request id now s t :
  unique_requests (tasks_of s) -> request <> "" -> tasks_of s !! id = Some t -> t_OwnerID t = owner -> t_RequestID t = request ->
  expired_task (unix_milli now) t = false ->
  has_task owner request id (tasks_of (maybePruneExpiredTasks now s)) /\ tasks_of (maybePruneExpiredTasks now s) ⊆ tasks_of s.
Proof.
  intros Hu Hne Ht Ho Hr He. destruct (pruned_tasks_of now s) as [->| ->]; [split; [|done]; split_and!; eauto|]. split.
  - split_and!; [|done|exists t; by rewrite lookup_keep_Some]. intros id1 id2 t1 t2 [H1 _]%lookup_keep_Some [H2 _]%lookup_keep_Some.
    exact (Hu _ _ _ _ H1 H2).
  - apply map_subseteq_spec. by intros k v [? _]%lookup_keep_Some.
Qed.

(** *** Targets *)
Lemma GetByNodeID_labels node now ttl c v c' :
  GetByNodeID node now ttl c = (Ok (Some v), c') ->
  is_Some (worker_nodes (data c) !! trim node) /\ forall k, w_Labels (v_Worker v) !! k = worker_labels (data c) !! (trim node, k).
Proof.
  unfold GetByNodeID. destruct (bool_decide _); [done|]. unfold or_else. intros (r&c1&Hc&[= E <-])%bind_ok.
  rewrite catch_ok in Hc. injection Hc as Hr _. subst r.
  match type of E with match (?m c).1 with _ => _ end = _ => destruct (m c) as [[x|e] c2] eqn:Em; cbn in E; [subst x|done] end.
  apply bind_ok in Em as (row&c3&H1&(caps&c4&H2&(labels&c5&H3&[= <- <-])%bind_ok)%bind_ok).
  apply stmt_ok in H1. unfold one_row in H1. apply read_ok in H2 as [_ E2]. apply read_ok in H3 as [<- E3].
  destruct (worker_nodes (data c) !! trim node) as [w|] eqn:Ew; [|done]. injection H1 as _ H1.
  split; [done|]. intros k. cbn. rewrite E2, <- H1. apply (lookup_label_rows (trim node) (worker_labels (data c)) k).
Qed.

Lemma validate_target_ok owner worker now s s' :
  validateWorkerSysTarget owner worker now s = (Ok tt, s') ->
  exists d, svc_db s = Some d /\ is_Some (worker_nodes d !! trim worker) /\
    trim (default "" (worker_labels d !! (trim worker, LabelOwnerIDKey))) = trim owner /\
    to_lower (trim (default "" (worker_labels d !! (trim worker, LabelWorkerTypeKey)))) = WorkerTypeSys.
Proof.
  unfold validateWorkerSysTarget, query, run_db. destruct (svc_conn s) as [c|] eqn:Ec; [|done].
  destruct (GetByNodeID worker now (offlineTTL s) c) as [[[v|]|e] c'] eqn:Eg; [|done..].
  apply GetByNodeID_labels in Eg as [Hn Hl]. rewrite !Hl. destruct (_ || _) eqn:Eb; [done|]. intros _.
  exists (data c). unfold svc_db. rewrite Ec. bool_prop. by split_and!.
Qed.

Lemma prepare_target capability owner input now s prepared s' :
  prepareTaskInput capability owner input now s = (Ok prepared, s') -> pt_targetNodeID prepared <> "" ->
  exists s1, validateWorkerSysTarget owner (pt_targetNodeID prepared) now s = (Ok tt, s1).
Proof.
  unfold prepareTaskInput. intros H Hne. repeat case_match; simplify_eq; cbn in *; try done;
    match goal with H : validateWorkerSysTarget _ _ _ _ = (Ok ?u, _) |- _ => destruct u; eauto end.
Qed.

End jobs.

(** ** Tasks of a database that answers *)
Section healthy.
Implicit Types (s : RegistryService) (t : Task).

Definition healthy s (d : DB) : Prop := svc_conn s = Some (mkConn d []).

Lemma healthy_get s d id : healthy s d -> getTaskByID id s = (tasks d !! id, with_svc_routes (with_store (Some (mkConn d [])) (svc_routes s)) s).
Proof.
  intros H. unfold getTaskByID, run_db. rewrite H. unfold GetTaskByID, read_one, stmt, one_row. cbn.
  by destruct (tasks d !! id).
Qed.

Definition finished (st : TaskStatus) (result : payload) (code msg : string) (at_ : time) s t : Task :=
  mkTask (t_OwnerID t) (t_RequestID t) (t_Capability t) (t_InputJson t) st (t_CommandID t) result (trim code) (trim msg)
    (t_CreatedAtUnixMs t) (unix_milli at_) (t_DeadlineAtUnixMs t) (unix_milli at_)
    (unix_milli (time_add at_ (svc_taskRetention s))).

Lemma healthy_finish s d id st result code msg at_ now t :
  healthy s d -> trim id = id -> id <> "" -> tasks d !! id = Some t -> nonterminal (t_Status t) = true ->
  exists s', finishTask id st result code msg at_ now s = (Ok tt, s') /\
    healthy s' (with_tasks <[id := finished st result code msg (if is_zero at_ then now else at_) s t]> d) /\
    (id ∉ svc_tasks s') /\ (id ∈ svc_tasks s -> svc_records s' !! id = Some (mkTaskRecord true true)) /\
    svc_critical s' = svc_critical s.
Proof.
  intros H Hid Hne Ht Hn. unfold finishTask. rewrite Hid, bool_decide_false by done. unfold run_db. rewrite H.
  unfold MarkTaskTerminal, write, stmt, update_task. cbn. rewrite Ht, Hn. cbn. unfold completeTaskRuntime. cbn.
  case_bool_decide as Hin; eexists; (split; [reflexivity|]); split_and!; try done; cbn; [set_solver|intros _; apply lookup_insert_eq].
Qed.

End healthy.

(** ** Properties *)

(** A submission never leaves its request id reserved: on
    every path, errors of the database and of the wait included, the id is
    reserved afterwards exactly if it was reserved before (by a submission that
    is still running), provided the other goroutines leave it alone while the
    submission waits. *)
Theorem submission_releases_its_request env req s :
  let key := taskRequestScopeKey (sr_OwnerID req) (sr_RequestID req) in
  (forall s, key ∈ svc_reservations (se_others env s) <-> key ∈ svc_reservations s) ->
  key ∈ svc_reservations (SubmitTask env req s).2 <-> key ∈ svc_reservations s.
Proof. intros key Ho. by apply (submit_task_step None (Some key) env req s). Qed.

(** C3: Whatever input an owner submits, the job that is started
    carries that owner, does not run a capability reserved to the console
    itself, and is routed to no terminal session or to one that is scoped to
    that owner. *)
Theorem jobs_use_only_their_owners_sessions env req s r job s' :
  SubmitTask env req s = ((r, Some job), s') ->
  job_owner job = trim (sr_OwnerID req) /\ job_owner job <> "" /\
  normalizeCapability (job_capability job) <> taskCapabilityTerminalProxy /\
  normalizeCapability (job_capability job) <> taskCapabilityTerminalLeaseRenew /\
  let tid := terminalSessionIDFromPayload (normalizeCapability (job_capability job)) (job_input job) in
  tid = "" \/ exists sid, trim sid <> "" /\ tid = scopeTerminalSessionID (job_owner job) sid.
Proof.
  intros (prepared&s1&s2&mode&timeout&Hp&Hl&Ho&Howner&Hprep&Hscope&Hcap&_)%submit_job.
  assert (job_capability job = submitted_capability req \/ job_capability job = taskCapabilityTerminalResource) as Hc.
  { apply prepare_capability in Hprep. rewrite Hcap. unfold submitted_capability in *. by rewrite normalize_idemp in Hprep. }
  assert (normalizeCapability (job_capability job) = job_capability job) as En.
  { destruct Hc as [->| ->]; [apply normalize_idemp|done]. }
  rewrite En, Howner. split_and!; [done|done|by destruct Hc as [->| ->]|by destruct Hc as [->| ->]|].
  eapply scoped_input_session; [by unfold submitted_owner, normalizeTaskOwnerID in *; rewrite trim_trim|by destruct Hc as [->| ->]|done].
Qed.

(** C24: A second submission of a request id whose task is still kept
    starts nothing: no job is started, a result that is returned is that of the
    existing task, and (if nobody else writes the table meanwhile) no row is
    added or changed; only rows whose retention is over may be pruned. This does
    not depend on the database answering the lookup: the unique index refuses
    the insertion. *)
Theorem resubmission_returns_the_existing_task env req s id t :
  unique_requests (tasks_of s) -> tasks_of s !! id = Some t ->
  t_OwnerID t = trim (sr_OwnerID req) -> t_RequestID t = trim (sr_RequestID req) -> t_RequestID t <> "" ->
  expired_task (unix_milli (se_now env)) t = false ->
  let '((r, job), s') := SubmitTask env req s in
  job = None /\ (forall res, r = Ok res -> ts_TaskID (str_Task res) = id) /\ (quiet env -> tasks_of s' ⊆ tasks_of s).
Proof.
  intros Hu Ht Ho Hr Hne He. unfold SubmitTask. destruct (bool_decide _); [done|]. destruct (bool_decide _ || _); [done|].
  destruct (bool_decide _); [done|]. destruct (ParseTaskMode _) as [mode|e]; [|done]. destruct (negb _); [done|].
  match goal with |- context [prepareTaskInput ?c ?o ?i ?n s] => pose proof (tasks_of_rest _ _ (prepare_rest c o i n s)) as H1;
    destruct (prepareTaskInput c o i n s) as [[prepared|e] s1] end; cbn [snd] in H1; [|by rewrite H1].
  destruct (scopeTaskInputByOwner _ _ _ _) as [input|e]; [|by rewrite H1].
  destruct (maxTaskTimeout <? _); [by rewrite H1|]. destruct (maxTaskWait <? _); [by rewrite H1|].
  rewrite <- H1 in *. rewrite Hr in Hne. destruct (has_task_pruned _ _ id (se_now env) s1 t Hu Hne Ht Ho Hr He) as [Hh Hsub].
  match goal with |- context [submit_request ?a ?b ?c ?d ?e ?f ?g ?h ?i ?j] => pose proof (request_repeated a b c d e f g h i j id Hh) as Hx;
    destruct (submit_request a b c d e f g h i j) as [[r job] s2] end. destruct Hx as (Hj&Hres&Hq).
  split_and!; [done|done|]. intros Hquiet. specialize (Hq Hquiet). cbn [snd] in Hq. by rewrite Hq.
Qed.

(** A job that is sent to one chosen worker (computerUse and
    readImage with a worker id) is sent only to a worker that is registered,
    of type worker-sys, and labelled with the submitter's owner id. *)
Theorem chosen_workers_belong_to_the_submitter env req s r job s' :
  SubmitTask env req s = ((r, Some job), s') -> job_target job <> "" ->
  exists d, svc_db s = Some d /\ is_Some (worker_nodes d !! trim (job_target job)) /\
    trim (default "" (worker_labels d !! (trim (job_target job), LabelOwnerIDKey))) = trim (sr_OwnerID req) /\
    to_lower (trim (default "" (worker_labels d !! (trim (job_target job), LabelWorkerTypeKey)))) = WorkerTypeSys.
Proof.
  intros (prepared&s1&s2&mode&timeout&_&_&_&_&Hprep&_&_&Ht&_)%submit_job Hne. rewrite Ht in *.
  destruct (prepare_target _ _ _ _ _ _ _ Hprep Hne) as [s3 Hv]. apply validate_target_ok in Hv.
  unfold submitted_owner, normalizeTaskOwnerID in Hv. by rewrite trim_trim in Hv.
Qed.

(** What the dispatch returned decides the row of the task, if
    the database answers: an error gives the status, code and message it is
    classified as, and no result; a result is stored as succeeded, with the
    owner's own session id restored in it; a result that names somebody else's
    session is withheld and the task fails. The runtime record is closed. *)
Theorem outcome_decides_task id owner capability result now s d t :
  healthy s d -> trim id = id -> id <> "" -> tasks d !! id = Some t -> nonterminal (t_Status t) = true ->
  let s' := settle_result id owner capability result now s in
  svc_critical s' = svc_critical s /\ (id ∉ svc_tasks s') /\ exists t', task_at s' id = Some t' /\
  match (match result with Err e => Some e | Ok outcome => oc_err outcome end), result with
  | Some e, _ =>
      t_Status t' = (classify_error e).1.1 /\ t_ErrorCode t' = trim (classify_error e).1.2 /\
      t_ErrorMessage t' = trim (classify_error e).2 /\ t_ResultJson t' = PEmpty
  | None, Ok outcome =>
      match restoreTaskResultOwnerScope owner capability (result_payload outcome) with
      | Some scoped => t_Status t' = Succeeded /\ t_ResultJson t' = scoped /\ t_ErrorCode t' = ""
      | None => t_Status t' = Failed /\ t_ResultJson t' = PEmpty /\ t_ErrorCode t' = taskOwnerScopeInvalidPayloadCode
      end
  | None, Err _ => False
  end.
Proof.
  intros H Hid Hne Ht Hn.
  assert (forall st r code msg at_ stage,
    let s' := or_fail id stage now (finishTask id st r code msg at_ now s) in
    svc_critical s' = svc_critical s /\ (id ∉ svc_tasks s') /\
    exists t', task_at s' id = Some t' /\ t_Status t' = st /\ t_ErrorCode t' = trim code /\ t_ErrorMessage t' = trim msg /\
      t_ResultJson t' = r) as Hf.
  { intros st r code msg at_ stage. destruct (healthy_finish s d id st r code msg at_ now t H Hid Hne Ht Hn) as (s'&->&Hh&Hi&_&Hc).
    cbn. split_and!; [done|done|]. eexists. unfold task_at, svc_db. rewrite Hh. cbn. by rewrite lookup_insert_eq. }
  unfold settle_result, finishTaskWithError. destruct result as [outcome|e]; [destruct (oc_err outcome) as [e|]|].
  - destruct (classify_error e) as [[st code] msg]. apply Hf.
  - destruct (restoreTaskResultOwnerScope _ _ _) as [scoped|];
      (match goal with |- context [or_fail id ?g now (finishTask id ?a ?b ?c ?d ?e now s)] => destruct (Hf a b c d e g) as (?&?&t'&?&?&?&?&?) end;
        split; [done|]; split; [done|]; exists t'; by split_and!).
  - destruct (classify_error e) as [[st code] msg]. apply Hf.
Qed.

(** To anyone but its owner a task does not exist: it is not
    found by [GetTask], and [CancelTask] reports it as not found and changes
    neither the table nor the task's runtime record. *)
Theorem tasks_are_private_to_their_owner taskID owner now s t :
  task_at s (trim taskID) = Some t -> t_OwnerID t <> trim owner ->
  (GetTask taskID owner s).1 = None /\
  let '(r, s') := CancelTask taskID owner now s in
  r = (Err (Sentinel ErrTaskNotFound), None) /\ tasks_of s' = tasks_of s /\ svc_tasks s' = svc_tasks s /\ svc_records s' = svc_records s.
Proof.
  intros Ht Ho. unfold GetTask, CancelTask. destruct (bool_decide _); [done|].
  pose proof (getTaskByID_some (trim taskID) s) as Hg. pose proof (getTaskByID_at (trim taskID) s) as Ha.
  assert (svc_tasks (getTaskByID (trim taskID) s).2 = svc_tasks s /\ svc_records (getTaskByID (trim taskID) s).2 = svc_records s) as [E1 E2].
  { unfold getTaskByID. destruct (run_db_cases unavailable (GetTaskByID (trim taskID)) s) as [[_ ->]|(c&Hc&->)]; [done|].
    by destruct (GetTaskByID (trim taskID) c).1. }
  destruct (getTaskByID (trim taskID) s) as [[t0|] s1]; cbn [snd] in *; [|split_and!; [done|done|by apply tasks_of_at|done..]].
  specialize (Hg _ _ eq_refl). replace t0 with t in * by congruence. rewrite !bool_decide_false by done. cbn [negb].
  split_and!; [done|done|by apply tasks_of_at|done..].
Qed.

(** An owner's cancellation, if the database answers: a task in
    progress becomes canceled, its runtime record is closed and its execution's
    context canceled; a task that already ended is reported with its final
    state, which does not change. *)
Theorem cancel_ends_a_task_in_progress id owner now s d t :
  healthy s d -> trim id = id -> id <> "" -> tasks d !! id = Some t -> t_OwnerID t = trim owner ->
  let '((r, snap), s') := CancelTask id owner now s in
  if isTaskTerminal (t_Status t)
  then r = Err (Sentinel ErrTaskTerminal) /\ snap = Some (snapshotTask id t) /\ tasks_of s' = tasks_of s
  else r = Ok tt /\ exists t', tasks_of s' = <[id := t']> (tasks_of s) /\ snap = Some (snapshotTask id t') /\
         t_Status t' = Canceled /\ t_ErrorCode t' = defaultTaskCanceledCode /\ t_OwnerID t' = t_OwnerID t /\
         (id ∉ svc_tasks s') /\ (id ∈ svc_tasks s -> svc_records s' !! id = Some (mkTaskRecord true true)).
Proof.
  intros H Hid Hne Ht Ho. unfold CancelTask. rewrite Hid, bool_decide_false by done. rewrite (healthy_get s d id H), Ht.
  set (s1 := with_svc_routes _ s). assert (healthy s1 d) as H1 by done.
  assert (tasks_of s = tasks d /\ tasks_of s1 = tasks d) as [E0 E1] by (unfold tasks_of, svc_db; by rewrite H).
  rewrite Ho, bool_decide_true by done. cbn [negb]. destruct (isTaskTerminal (t_Status t)) eqn:Eterm; [by rewrite E0, E1|].
  rewrite terminal_nonterminal in Eterm. apply negb_false_iff in Eterm.
  destruct (healthy_finish s1 d id Canceled PEmpty defaultTaskCanceledCode "task canceled" now now t H1 Hid Hne Ht Eterm)
    as (s2&->&H2&Hn&Hr&_).
  rewrite (healthy_get s2 _ id H2). cbn [tasks with_tasks]. rewrite lookup_insert_eq. split; [done|].
  rewrite E0. eexists. split_and!; done.
Qed.

(** After the recovery at start-up no task is in progress, no worker
    has a session and no expired terminal route is left: the tasks that were in
    progress failed as interrupted and expire after the retention, and the
    tasks that had ended, the other columns of the workers and the routes that
    have not expired are kept. *)
Theorem startup_recovery_settles_everything days nowMS c c' :
  startup_recovery days nowMS c = (Ok tt, c') -> 1 <= days <= 106751 -> 0 <= nowMS < 2 ^ 62 ->
  (forall id t', tasks (data c') !! id = Some t' -> isTaskTerminal (t_Status t') = true) /\
  (forall id t, tasks (data c) !! id = Some t -> exists t', tasks (data c') !! id = Some t' /\
     if isTaskTerminal (t_Status t) then t' = t
     else t_Status t' = Failed /\ t_ErrorCode t' = "console_restarted" /\ t_ExpiresAtUnixMs t' = nowMS + days * 86400000 /\
          t_OwnerID t' = t_OwnerID t /\ t_RequestID t' = t_RequestID t) /\
  worker_nodes (data c') = clear_session_id <$> worker_nodes (data c) /\
  (forall sid r, terminal_session_routes (data c') !! sid = Some r <->
     terminal_session_routes (data c) !! sid = Some r /\ nowMS < r_LeaseExpiresUnixMs r).
Proof.
  intros H Hd Hn. unfold startup_recovery in H. rewrite (proj2 (Z.leb_gt days 0)) in H by lia. unfold milliseconds, hour, minute, second in H.
  rewrite (i64_id (days * 24)), (i64_id (days * 24 * _)) in H by lia.
  replace (Z.quot _ _) with (days * 86400000) in H by (apply Z.quot_unique_exact; lia). rewrite i64_id in H by lia.
  apply bind_ok in H as (n1&c1&H1%wrap_ok&(n2&c2&H2%wrap_ok&(n3&c3&H3%wrap_ok&[= <-])%bind_ok)%bind_ok).
  apply write_ok in H1, H2, H3. unfold delete_routes in H1. injection H1 as _ H1. injection H2 as _ H2. injection H3 as _ H3.
  rewrite <- H3, <- H2, <- H1. cbn. split_and!.
  - intros id t'. rewrite lookup_fmap, fmap_Some. intros (t&_&->). unfold fail_on_startup.
    destruct (nonterminal (t_Status t)) eqn:E; [done|]. by rewrite terminal_nonterminal, E.
  - intros id t Ht. exists (fail_on_startup nowMS nowMS (nowMS + days * 86400000) t). rewrite lookup_fmap, Ht. split; [done|].
    unfold fail_on_startup. rewrite terminal_nonterminal. by destruct (nonterminal (t_Status t)).
  - done.
  - intros sid r. rewrite lookup_keep_Some. split; intros [? ?]; split; [done|lia|done|lia].
Qed.

(** ** The hypotheses hold: submissions to a service with two workers *)
Definition demo_submit_env : submit_env := mkSubmitEnv demo_now (Some (Ok "s9")) (Ok "t9") None (fun s => s).
Definition demo_req : SubmitTaskRequest :=
  mkSubmit "terminalExec" (PJson (JObject [("command", JString "ls")])) "async" 0 0 "r9" " o1 ".
Definition demo_again : SubmitTaskRequest :=
  mkSubmit "terminalExec" (PJson (JObject [("command", JString "ls")])) "sync" 0 0 "r2" "o1".
(** [w2] is a worker-sys of the owner [o1]. *)
Definition demo_sys_hello : ConnectHello :=
  mkHello "w2" "" "host" ∅ "1" [Some (mkCapability "computerUse" 1)] "secret" None.
Definition demo_sys_service : RegistryService :=
  with_svc_sessions {[ "w2" := "sid2" ]} {[ "sid2" := markRecoveryComplete (newActiveSessionAt "w2" "sid2" demo_sys_hello 0) ]}
    (with_svc_routes (with_store (Some (mkConn (mkDB {[ "w2" := mkWorkerNode "sid2" true "" "host" "1" 0 1000 ]}
       {[ ("w2", "computerUse") := 1 ]} {[ ("w2", LabelOwnerIDKey) := "o1"; ("w2", LabelWorkerTypeKey) := "worker-sys" ]} ∅ ∅ ∅ ∅ ∅ ∅ ∅) []))
       (svc_routes demo_service)) demo_service).
Definition demo_sys_req : SubmitTaskRequest :=
  mkSubmit "computerUse" (PJson (JObject [("worker_id", JString "w2"); ("command", JString "ls")])) "async" 0 0 "" "o1".

Example demo_submit_result :
  (SubmitTask demo_submit_env demo_req demo_task_service).1.2 =
  Some (mkJob "t9" "o1" "terminalexec"
    (PJson (JObject [("command", JString "ls"); ("session_id", JString "obx:o1:s9"); ("create_if_missing", JBool true)]))
    terminalSessionIntentKnownNew "").
Proof. vm_compute. reflexivity. Qed.

Example demo_sys_result :
  (SubmitTask demo_submit_env demo_sys_req demo_sys_service).1.2 =
  Some (mkJob "t9" "o1" "computeruse" (PJson (JObject [("command", JString "ls")])) terminalSessionIntentUnknown "w2").
Proof. vm_compute. reflexivity. Qed.

(** The task of request [r2] is returned; it is not executed a second time. *)
Example demo_again_result :
  (match (SubmitTask demo_submit_env demo_again demo_task_service).1 with
   | (Ok res, None) => Some (ts_TaskID (str_Task res))
   | _ => None
   end) = Some "t2".
Proof. vm_compute. reflexivity. Qed.

Lemma submission_releases_its_request_witness :
  taskRequestScopeKey "o1" "r9" ∈ svc_reservations (SubmitTask demo_submit_env demo_req demo_task_service).2 <->
  taskRequestScopeKey "o1" "r9" ∈ svc_reservations demo_task_service.
Proof. apply (submission_releases_its_request demo_submit_env demo_req demo_task_service). by intros s. Defined.

Lemma jobs_use_only_their_owners_sessions_witness :
  exists job, (SubmitTask demo_submit_env demo_req demo_task_service).1.2 = Some job /\
  job_owner job = trim " o1 " /\ exists sid, trim sid <> "" /\
    terminalSessionIDFromPayload (normalizeCapability (job_capability job)) (job_input job) = scopeTerminalSessionID "o1" sid.
Proof.
  eexists. split; [exact demo_submit_result|].
  pose proof demo_submit_result as E. destruct (SubmitTask demo_submit_env demo_req demo_task_service) as [[r j] s'] eqn:Es.
  cbn [fst snd] in E. subst j. apply jobs_use_only_their_owners_sessions in Es as (Ho&_&_&_&[H|H]); [by vm_compute in H|by split].
Defined.

Lemma unique_demo_tasks : unique_requests (tasks_of demo_task_service).
Proof.
  intros id1 id2 t1 t2 H1 H2 _ Hr _. change (tasks_of demo_task_service) with ({[ "t1" := demo_done; "t2" := demo_queued ]} : gmap string Task) in *.
  apply lookup_insert_Some in H1 as [[<- <-]|[_ [<- <-]%lookup_singleton_Some]], H2 as [[<- <-]|[_ [<- <-]%lookup_singleton_Some]]; done.
Qed.

Lemma resubmission_returns_the_existing_task_witness :
  let '((r, job), s') := SubmitTask demo_submit_env demo_again demo_task_service in
  job = None /\ (forall res, r = Ok res -> ts_TaskID (str_Task res) = "t2") /\
  (quiet demo_submit_env -> tasks_of s' ⊆ tasks_of demo_task_service).
Proof.
  apply (resubmission_returns_the_existing_task demo_submit_env demo_again demo_task_service "t2" demo_queued);
    [exact unique_demo_tasks|by vm_compute..].
Defined.

Lemma chosen_workers_belong_to_the_submitter_witness :
  exists job d, (SubmitTask demo_submit_env demo_sys_req demo_sys_service).1.2 = Some job /\ job_target job = "w2" /\
    svc_db demo_sys_service = Some d /\ trim (default "" (worker_labels d !! (trim "w2", LabelOwnerIDKey))) = trim "o1".
Proof.
  eexists. pose proof demo_sys_result as E. destruct (SubmitTask demo_submit_env demo_sys_req demo_sys_service) as [[r j] s'] eqn:Es.
  cbn [fst snd] in E. subst j. apply chosen_workers_belong_to_the_submitter in Es as (d&Hd&_&Ho&_); [|done].
  exists d. by split_and!.
Defined.

Lemma outcome_decides_task_witness :
  let s' := settle_result "t2" "o1" "echo" (Ok (mkOutcome PEmpty "hi" None demo_now)) demo_now demo_task_service in
  exists t', task_at s' "t2" = Some t' /\ t_Status t' = Succeeded /\ t_ResultJson t' = buildEchoPayload "hi".
Proof.
  destruct (outcome_decides_task "t2" "o1" "echo" (Ok (mkOutcome PEmpty "hi" None demo_now)) demo_now demo_task_service
    (with_tasks (fun _ => {[ "t1" := demo_done; "t2" := demo_queued ]}) demo_db) demo_queued) as (_&_&t'&Ht&Hs&Hr&_);
    [by vm_compute..|]. by exists t'.
Defined.

Lemma tasks_are_private_to_their_owner_witness : (GetTask "t1" "o2" demo_task_service).1 = None.
Proof. apply (tasks_are_private_to_their_owner "t1" "o2" demo_now demo_task_service demo_done); by vm_compute. Defined.

Lemma cancel_ends_a_task_in_progress_witness :
  (CancelTask "t2" "o1" demo_now demo_task_service).1.1 = Ok tt /\
  (CancelTask "t1" "o1" demo_now demo_task_service).1.1 = Err (Sentinel ErrTaskTerminal).
Proof.
  pose proof (cancel_ends_a_task_in_progress "t2" "o1" demo_now demo_task_service
    (with_tasks (fun _ => {[ "t1" := demo_done; "t2" := demo_queued ]}) demo_db) demo_queued
    ltac:(by vm_compute) ltac:(by vm_compute) ltac:(by vm_compute) ltac:(by vm_compute) ltac:(by vm_compute)) as H2.
  pose proof (cancel_ends_a_task_in_progress "t1" "o1" demo_now demo_task_service
    (with_tasks (fun _ => {[ "t1" := demo_done; "t2" := demo_queued ]}) demo_db) demo_done
    ltac:(by vm_compute) ltac:(by vm_compute) ltac:(by vm_compute) ltac:(by vm_compute) ltac:(by vm_compute)) as H1.
  destruct (CancelTask "t2" "o1" demo_now demo_task_service) as [[r2 snap2] s2].
  destruct (CancelTask "t1" "o1" demo_now demo_task_service) as [[r1 snap1] s1]. split; [apply H2|apply H1].
Defined.

Lemma startup_recovery_settles_everything_witness :
  exists t', tasks (data (startup_recovery 30 2000 (mkConn (with_tasks (fun _ => {[ "t2" := demo_queued ]}) demo_db) [])).2) !! "t2" = Some t' /\
    t_Status t' = Failed /\ t_ErrorCode t' = "console_restarted".
Proof.
  set (c := mkConn _ []). destruct (startup_recovery 30 2000 c) as [r c'] eqn:E.
  assert (r = Ok tt) as -> by (assert ((startup_recovery 30 2000 c).1 = Ok tt) as E1 by (by vm_compute); by rewrite E in E1).
  apply startup_recovery_settles_everything in E as (_&H&_); [|lia..]. destruct (H "t2" demo_queued) as (t'&Ht&Hs&Hc&_); [by vm_compute|]. by exists t'.
Defined.

End SubmitProps.
Export SubmitProps.
