(* ===== verification/Connect.v ===== *)
(** Worker credentials and connections
    (console/internal/grpcserver/service_credentials_runtime.go and
    service_connect.go): provisioning and revoking workers, the authentication
    and registration of a stream, its frames, and what happens when it ends.

    A stream is [Connect]: the handshake, then a list of events, each the case
    of the select that the scheduler took, preceded by what the other goroutines
    did. *)
From S2P Require Import Prelude.
From S2P Require Import Json.
From S2P Require Import Sql.
From S2P Require Import Proto.
From S2P Require Import Registry.
From S2P Require Import OwnerScope.
From S2P Require Import RouteStore.
From S2P Require Import TerminalRoutes.
From S2P Require Import SessionRuntime.
From S2P Require Import Service.
From S2P Require Import ProxySession.
From S2P Require Import Dispatch.

Module Connect.

Definition maxNodeIDLength : nat := 128.
Definition maxProvisioningCreateAttempts : nat := 8.
Definition computerUseCapabilityDeclared : string := "computerUse".
Definition readImageCapabilityDeclared : string := "readImage".
Definition defaultWorkerOwnerID : string := "system".

(** The store of the service is never nil; the error is not observable. *)
Definition no_store : error := ErrorString "".

(** ** Credentials *)
Definition getCredential (nodeID : string) (s : RegistryService) : option string * RegistryService :=
  let node := trim nodeID in
  if bool_decide (node = "") then (None, s) else
  match svc_credentials s !! node with
  | Some secret => (Some secret, s)
  | None =>
      match query None (GetCredentialHash node) s with
      | (None, s) => (None, s)
      | (Some hash, s) => (Some hash, with_svc_credentials (<[node := hash]> (svc_credentials s)) s)
      end
  end.

Definition GetWorkerSecret (nodeID : string) (s : RegistryService) : option string * RegistryService :=
  match getCredential nodeID s with
  | (Some secret, s) => if bool_decide (trim secret = "") then (None, s) else (Some secret, s)
  | (None, s) => (None, s)
  end.

Definition putCredentialIfAbsent (nodeID secret : string) (s : RegistryService) : bool * RegistryService :=
  let node := trim nodeID in
  let secret := trim secret in
  if bool_decide (node = "") || bool_decide (secret = "") then (false, s) else
  match svc_credentials s !! node with
  | Some _ => (false, s)
  | None => (true, with_svc_credentials (<[node := secret]> (svc_credentials s)) s)
  end.

Definition deleteCredential (nodeID : string) (s : RegistryService) : bool * RegistryService :=
  let node := trim nodeID in
  if bool_decide (node = "") then (false, s) else
  match svc_credentials s !! node with
  | None => (false, s)
  | Some _ => (true, with_svc_credentials (delete node (svc_credentials s)) s)
  end.

Definition normalizeProvisioningWorkerType (workerType : string) : string :=
  let t := trim (to_lower workerType) in
  if bool_decide (t = WorkerTypeNormal) then WorkerTypeNormal
  else if bool_decide (t = WorkerTypeSys) then WorkerTypeSys else "".

Definition provisioned_labels (ownerID workerType : string) : gmap string string :=
  <["source" := "console-ui"]> (<[LabelOwnerIDKey := ownerID]> (<[LabelWorkerTypeKey := workerType]> ∅)).

(** [ids]: what the generators return at each attempt; the loop has
    [maxProvisioningCreateAttempts] of them. *)
Fixpoint provision_loop (ids : list (res string * res string)) (ownerID workerType : string) (now : time)
    (offlineTTL : duration) (s : RegistryService) : res (string * string) * RegistryService :=
  match ids with
  | [] => (Err (ErrorString "failed to allocate unique worker_id"), s)
  | (Err e, _) :: _ => (Err (Wrapped "generate worker_id: " e ""), s)
  | (Ok _, Err e) :: _ => (Err (Wrapped "generate worker_secret: " e ""), s)
  | (Ok workerID, Ok workerSecret) :: ids =>
      let again s := provision_loop ids ownerID workerType now offlineTTL s in
      let drop s := (query false (Delete workerID) s).2 in
      let '(seeded, s) := query 0 (SeedProvisionedWorkers
        [mkProvisioned workerID (provisioned_labels ownerID workerType)] now offlineTTL) s in
      if negb (seeded =? 1) then again s else
      let c := svc_config s in
      let hashAlgo := if bool_decide (trim (cfg_credentialHashAlgo c) = "") then "legacy-plain" else cfg_credentialHashAlgo c in
      let credential := match cfg_hasher c with Some h => h workerSecret | None => workerSecret end in
      match putCredentialIfAbsent workerID credential s with
      | (false, s) => again (drop s)
      | (true, s) =>
          match query false (PutCredentialHashIfAbsent workerID credential hashAlgo now) s with
          | (false, s) => again (drop (deleteCredential workerID s).2)
          | (true, s) => (Ok (workerID, workerSecret), s)
          end
      end
  end.

Definition CreateProvisionedWorkerForOwner (ids : nat -> res string * res string) (ownerID workerType : string)
    (now : time) (offlineTTL : duration) (s : RegistryService) : res (string * string) * RegistryService :=
  let owner := trim ownerID in
  if bool_decide (owner = "") then (Err (ErrorString "owner_id is required"), s) else
  let ty := normalizeProvisioningWorkerType workerType in
  if bool_decide (ty = "") then (Err (Sentinel ErrInvalidWorkerType), s) else
  provision_loop (ids <$> seq 0 maxProvisioningCreateAttempts) owner ty now offlineTTL s.

Definition CreateProvisionedWorker (ids : nat -> res string * res string) (now : time) (offlineTTL : duration)
    (s : RegistryService) : res (string * string) * RegistryService :=
  CreateProvisionedWorkerForOwner ids defaultWorkerOwnerID WorkerTypeNormal now offlineTTL s.

Definition close_session (sid : string) (e : option error) (s : RegistryService) : RegistryService :=
  (on_session tt sid (fun x => (tt, close e x)) s).2.

Definition disconnectWorker (nodeID reason : string) (s : RegistryService) : RegistryService :=
  let node := trim nodeID in
  if bool_decide (node = "") then s else
  let session := svc_sessions s !! node in
  let s := with_svc_sessions (delete node (svc_sessions s)) (svc_heap s) s in
  let s := (run_db no_store (ClearSessionByNode node) s).2 in
  match session with
  | Some sid => close_session sid (Some (StatusError PermissionDenied reason)) s
  | None => s
  end.

Definition DeleteProvisionedWorker (nodeID : string) (s : RegistryService) : res bool * RegistryService :=
  let node := trim nodeID in
  if bool_decide (node = "") then (Ok false, s) else
  match run_routes (deleteTerminalSessionRoutesByNode node) s with
  | (Err e, s) => (Err e, s)
  | (Ok _, s) =>
      let '(inMemory, s) := deleteCredential node s in
      let '(inDB, s) := query false (DeleteCredential node) s in
      let '(deletedNode, s) := query false (Delete node) s in
      if negb inMemory && negb inDB && negb deletedNode then (Ok false, s)
      else (Ok true, disconnectWorker node "worker credential revoked" s)
  end.

(** ** Errors of the stream *)

(** [status.FromContextError]: [None] where it gives code Unknown. *)
Definition from_context_error (e : error) : option error :=
  if error_is e ErrContextDeadlineExceeded then Some (StatusError CodeDeadlineExceeded (error_message e))
  else if error_is e ErrContextCanceled then Some (StatusError CodeCanceled (error_message e))
  else None.

Definition mapStreamError (e : error) : error :=
  if negb (bool_decide (status_code e = CodeUnknown)) then e
  else match from_context_error e with Some mapped => mapped | None => e end.

Definition context_status (e : ctx_end) : error := default (ctx_error e) (from_context_error (ctx_error e)).

(** ** The hello *)
Definition invalid (msg : string) : error := StatusError InvalidArgument msg.

Definition validateNodeID (nodeID : string) : res unit :=
  if bool_decide (trim nodeID = "") then Err (invalid "node_id is required")
  else if (maxNodeIDLength <? String.length nodeID)%nat then Err (invalid "node_id is too long")
  else Ok tt.

Definition validateHello (hello : ConnectHello) : res unit :=
  match validateNodeID (NodeId hello) with
  | Err e => Err e
  | Ok _ =>
      match HelloTerminalSessionCapacity hello with
      | None => Ok tt
      | Some c =>
          if MaxActiveSessions c <? 0
          then Err (invalid "terminal_session_capacity.max_active_sessions must be non-negative")
          else if ActiveSessionCount c <? 0
          then Err (invalid "terminal_session_capacity.active_session_count must be non-negative")
          else Ok tt
      end
  end.

Definition sysCapabilityMaxInflight (declared : Z) : Z := if declared <=? 0 then 1 else declared.

(** [workerSysAllowedCapabilities]. *)
Definition workerSysAllowedCapabilities (name : string) : option string :=
  if bool_decide (name = computerUseCapabilityName) then Some computerUseCapabilityDeclared
  else if bool_decide (name = readImageCapabilityName) then Some readImageCapabilityDeclared else None.

(** [None]: a capability that worker-sys may not declare. *)
Definition allow_capability (acc : option (gmap string Z)) (c : option CapabilityDeclaration) : option (gmap string Z) :=
  match acc, c with
  | None, _ => None
  | Some m, None => Some m
  | Some m, Some c =>
      let name := normalizeCapability (cd_Name c) in
      match workerSysAllowedCapabilities name with
      | None => None
      | Some _ => Some (<[name := cd_MaxInflight c]> m)
      end
  end.

Definition resolve_sys_hello (hello : ConnectHello) : res ConnectHello :=
  let denied msg := Err (StatusError PermissionDenied msg) in
  match foldl allow_capability (Some ∅) (Capabilities hello) with
  | None => denied ("worker-sys supports only " +:+ computerUseCapabilityDeclared +:+ " and " +:+
                    readImageCapabilityDeclared +:+ " capabilities")
  | Some m =>
      if bool_decide (m = ∅)
      then denied "worker-sys requires at least one of computerUse or readImage capabilities"
      else
        let caps := omap (fun name =>
          match m !! name with
          | Some n => Some (Some (mkCapability (default "" (workerSysAllowedCapabilities name)) (i32 (sysCapabilityMaxInflight n))))
          | None => None
          end) [computerUseCapabilityName; readImageCapabilityName] in
        Ok (mkHello (NodeId hello) (NodeName hello) (ExecutorKind hello) (Labels hello) (Version hello) caps
              (WorkerSecret hello) None)
  end.

Definition resolveHelloByWorkerType (hello : ConnectHello) (s : RegistryService) : res ConnectHello * RegistryService :=
  let '(workerType, s) := query "" (WorkerTypeByNodeID (NodeId hello)) s in
  if negb (bool_decide (workerType = WorkerTypeSys)) then (Ok hello, s) else (resolve_sys_hello hello, s).

(** ** The session table *)
Definition install_session (sid : string) (x : activeSession) (s : RegistryService) : RegistryService :=
  with_svc_sessions (<[nodeID x := sid]> (svc_sessions s)) (svc_heap s) s.

(** The session object [sid] is on the heap. *)
Definition claimSessionIfAvailable (sid : string) (x : activeSession) (now : time) (s : RegistryService)
    : bool * RegistryService :=
  match session_ref (nodeID x) s with
  | None => (true, install_session sid x s)
  | Some (current, c) =>
      match closedErr c with
      | Some _ => (true, install_session sid x s)
      | None =>
          if time_sub now (of_unix_milli (lastHeartbeatUnixMs c)) <=? offlineTTL s then (false, s)
          else (true, install_session sid x
                        (close_session current (Some (StatusError FailedPrecondition "session heartbeat expired")) s))
      end
  end.

Definition swapSession (sid : string) (x : activeSession) (s : RegistryService) : option string * RegistryService :=
  (svc_sessions s !! nodeID x, install_session sid x s).

(** [others]: the other goroutines, between its three critical sections. *)
Definition removeSession (others : nat -> RegistryService -> RegistryService) (sid node : string) (s : RegistryService)
    : RegistryService :=
  if bool_decide (svc_sessions s !! node = Some sid) then
    let s := with_svc_sessions (delete node (svc_sessions s)) (svc_heap s) s in
    let s := (run_routes (markTerminalSessionRoutesUnavailable node) (others 0%nat s)).2 in
    (run_db no_store (ClearSession node sid) (others 1%nat s)).2
  else s.

(** ** Frames *)

(** What the outside does while one frame is handled: the clock, the context of
    the sends, and which case of a select is taken. *)
Record frame_env := mkFrameEnv {
  fe_now : time;
  fe_prefer_ctx : bool;
  fe_ctx : option ctx_end;
  fe_wait : ctx_end }.

Definition send_control (fe : frame_env) (sid : string) (response : ConnectResponse) (s : RegistryService)
    : res unit * RegistryService :=
  let '(sent, s) := on_session None sid (enqueueControl (fe_prefer_ctx fe) (ctx_error <$> fe_ctx fe) response) s in
  (default (Err (ctx_error (fe_wait fe))) sent, s).

Definition touch_error (e : error) : error :=
  if error_is e ErrNodeNotFound then StatusError NotFound "node not found"
  else if error_is e ErrSessionMismatch then StatusError FailedPrecondition "session is outdated"
  else StatusError Internal "failed to update heartbeat".

Definition ack_error (e : error) : error :=
  if negb (bool_decide (status_code e = CodeUnknown)) then e
  else match from_context_error e with
       | Some mapped => mapped
       | None => StatusError Internal "failed to send heartbeat ack"
       end.

Definition handleHeartbeat (fe : frame_env) (sid : string) (hb : HeartbeatFrame) (s : RegistryService)
    : res unit * RegistryService :=
  if bool_decide (trim (hb_SessionId hb) = "") then (Err (invalid "session_id is required"), s) else
  if negb (bool_decide (hb_NodeId hb = session_node sid s)) then (Err (invalid "node_id mismatch"), s) else
  if hb_ActiveSessionCount hb <? 0 then (Err (invalid "active_session_count must be non-negative"), s) else
  match run_db no_store (TouchWithSession (hb_NodeId hb) (hb_SessionId hb) (fe_now fe)) s with
  | (Err e, s) => (Err (touch_error e), s)
  | (Ok _, s) =>
      let s := (on_session tt sid (fun x => (tt, setActiveSessionCount (hb_ActiveSessionCount hb) (fe_now fe)
                  (with_heartbeat (unix_milli (fe_now fe)) (terminalCapacity x) x))) s).2 in
      match send_control fe sid (HeartbeatAck (cfg_heartbeatIntervalSec (svc_config s))) s with
      | (Err e, s) => (Err (ack_error e), s)
      | (Ok _, s) => (Ok tt, s)
      end
  end.

Definition handleCommandResult (sid : string) (result : CommandResult) (now : time) (s : RegistryService)
    : res unit * RegistryService :=
  if bool_decide (trim (cr_CommandId result) = "") then (Err (invalid "command_id is required"), s)
  else (Ok tt, (on_session tt sid (fun x => (tt, resolvePending result now x)) s).2).

Definition handleRecoveryReport (fe : frame_env) (sid : string) (report : TerminalSessionRecoveryReport)
    (s : RegistryService) : res unit * RegistryService :=
  match svc_heap s !! sid with
  | None => (Ok tt, s)
  | Some x =>
      if negb (recoveryRequired x)
      then (Err (invalid "terminal session recovery is not supported by this worker"), s) else
      if isReady x then
        if negb (matchesRecoveryResults report x)
        then (Err (StatusError FailedPrecondition "terminal session recovery report changed after completion"), s)
        else match send_control fe sid RecoveryAck s with
             | (Err _, s) => (Err (StatusError Internal "failed to resend terminal session recovery ack"), s)
             | (Ok _, s) => (Ok tt, s)
             end
      else
        match run_routes (applyTerminalSessionRecoveryReport (recoveryCandidateSnapshot x) (nodeID x) report
                            (unix_milli (fe_now fe))) s with
        | (Err e, s) => (Err (invalid (error_message e)), s)
        | (Ok results, s) =>
            let s := (on_session tt sid (fun x => (tt, setRecoveryResults results x)) s).2 in
            match send_control fe sid RecoveryAck s with
            | (Err _, s) => (Err (StatusError Internal "failed to send terminal session recovery ack"), s)
            | (Ok _, s) => (Ok tt, (on_session tt sid (fun x => (tt, markRecoveryComplete x)) s).2)
            end
        end
  end.

Definition handle_frame (fe : frame_env) (sid : string) (req : ConnectRequest) (s : RegistryService)
    : res unit * RegistryService :=
  match req with
  | Heartbeat hb => handleHeartbeat fe sid hb s
  | CommandResultFrame result => handleCommandResult sid result (fe_now fe) s
  | RecoveryReport report => handleRecoveryReport fe sid report s
  | Hello _ | NoPayload => (Err (invalid "unsupported frame type"), s)
  end.

(** ** The stream *)

(** The case of the select that is taken; [EvSessionDone] can be taken only when
    the session is closed. *)
Inductive conn_event :=
  | EvSessionDone
  | EvContext (e : ctx_end)
  | EvWriter (err : option error)
  | EvFrame (fe : frame_env) (frame : res ConnectRequest).

Definition session_end (sid : string) (s : RegistryService) : res unit :=
  match svc_heap s !! sid with
  | Some x => Err (mapStreamError (sessionError x))
  | None => Ok tt
  end.

(** [Some r]: the handler returns [r]; [None]: the loop goes on. *)
Definition conn_step (sid : string) (ev : conn_event) (s : RegistryService) : option (res unit) * RegistryService :=
  match ev with
  | EvSessionDone =>
      match svc_heap s !! sid ≫= closedErr with
      | Some _ => (Some (session_end sid s), s)
      | None => (None, s)
      end
  | EvContext e => (Some (Err (context_status e)), s)
  | EvWriter None => (Some (session_end sid s), s)
  | EvWriter (Some e) => (Some (Err (mapStreamError e)), s)
  | EvFrame _ (Err e) => (Some (if error_is e ErrEOF then Ok tt else Err (mapStreamError e)), s)
  | EvFrame fe (Ok req) =>
      match handle_frame fe sid req s with
      | (Ok _, s) => (None, s)
      | (Err e, s) => (Some (Err e), s)
      end
  end.

Fixpoint conn_loop (sid : string) (events : list ((RegistryService -> RegistryService) * conn_event)) (s : RegistryService)
    : option (res unit) * RegistryService :=
  match events with
  | [] => (None, s)
  | (others, ev) :: events =>
      match conn_step sid ev (others s) with
      | (Some r, s) => (Some r, s)
      | (None, s) => conn_loop sid events s
      end
  end.

(** What the outside does during the handshake. *)
Record connect_env := mkConnectEnv {
  ce_ctx : option ctx_end;             (** the stream's context on entry *)
  ce_first : res ConnectRequest;       (** the first frame *)
  ce_now : time;
  ce_sessionID : res string;           (** [newSessionIDFn] *)
  ce_claim_now : time;                 (** the clock of [claimSessionIfAvailable] *)
  ce_others : nat -> RegistryService -> RegistryService;   (** the other goroutines, between its steps *)
  ce_ack : frame_env;
  ce_cleanup : nat -> RegistryService -> RegistryService }. (** the same, in the deferred function *)

Definition secret_matches (s : RegistryService) (credential secret : string) : bool :=
  match cfg_hasher (svc_config s) with
  | Some h => Hasher_Equal h credential secret
  | None => bool_decide (credential = secret)
  end.

(** The hello of an authenticated worker, as it is registered. *)
Definition authenticate (env : connect_env) (s : RegistryService) : res ConnectHello * RegistryService :=
  match ce_ctx env with
  | Some e => (Err (context_status e), s)
  | None =>
      match ce_first env with
      | Err e => (Err (if error_is e ErrEOF then invalid "first frame must be hello" else mapStreamError e), s)
      | Ok (Hello hello) =>
          match validateHello hello with
          | Err e => (Err e, s)
          | Ok _ =>
              match getCredential (NodeId hello) s with
              | (None, s) => (Err (StatusError Unauthenticated "unknown worker_id"), s)
              | (Some credential, s) =>
                  let workerSecret := trim (WorkerSecret hello) in
                  if bool_decide (workerSecret = "")
                  then (Err (StatusError Unauthenticated "worker_secret is required"), s) else
                  if negb (secret_matches s credential workerSecret)
                  then (Err (StatusError Unauthenticated "invalid worker credential"), s) else
                  resolveHelloByWorkerType hello s
              end
          end
      | Ok _ => (Err (invalid "first frame must be hello"), s)
      end
  end.

(** The session of an admitted worker: a new object, and with the reject policy
    also its place in the table. *)
Definition open_session (env : connect_env) (hello : ConnectHello) (s : RegistryService) : res string * RegistryService :=
  match ce_sessionID env with
  | Err _ => (Err (StatusError Internal "failed to create session_id"), s)
  | Ok sid =>
      match configureSessionProxy (cfg_proxy (svc_config s)) (newActiveSessionAt (NodeId hello) sid hello (ce_now env))
              hello (trim (WorkerSecret hello)) with
      | Err e => (Err (StatusError InvalidArgument ("invalid proxy endpoint: " +:+ error_message e)), s)
      | Ok x =>
          let s := update_session sid x s in
          match cfg_policy (svc_config s) with
          | WorkerConnectionConflictPolicyReplace => (Ok sid, s)
          | WorkerConnectionConflictPolicyReject =>
              match claimSessionIfAvailable sid x (ce_claim_now env) s with
              | (false, s) => (Err (StatusError FailedPrecondition "worker already has an active connection"), s)
              | (true, s) => (Ok sid, s)
              end
          end
      end
  end.

(** The session takes its place in the table, unless it has it already. *)
Definition take_place (sid : string) (s : RegistryService) : RegistryService :=
  match cfg_policy (svc_config s), svc_heap s !! sid with
  | WorkerConnectionConflictPolicyReplace, Some x =>
      match swapSession sid x s with
      | (Some replaced, s) =>
          close_session replaced (Some (StatusError FailedPrecondition "session replaced by a newer connection")) s
      | (None, s) => s
      end
  | _, _ => s
  end.

(** From the recovery candidates to the acknowledgement. *)
Definition register (env : connect_env) (hello : ConnectHello) (sid : string) (s : RegistryService)
    : res unit * RegistryService :=
  match run_routes (beginTerminalSessionRecoveryWithError (NodeId hello) (unix_milli (ce_now env))) (ce_others env 0%nat s) with
  | (Err e, s) => (Err (StatusError Internal ("prepare terminal session recovery: " +:+ error_message e)), s)
  | (Ok candidates, s) =>
      let s := (on_session tt sid (fun x => (tt, setRecoveryCandidates candidates x)) s).2 in
      let s := take_place sid (ce_others env 1%nat s) in
      match run_db no_store (Upsert hello sid (ce_now env)) (ce_others env 2%nat s) with
      | (Err _, s) => (Err (StatusError Internal "failed to persist worker registration"), s)
      | (Ok _, s) =>
          match send_control (ce_ack env) sid
                  (ConnectAck sid (cfg_heartbeatIntervalSec (svc_config s)) candidates) (ce_others env 3%nat s) with
          | (Err _, s) => (Err (StatusError Internal "failed to send connect ack"), s)
          | (Ok _, s) => (Ok tt, s)
          end
      end
  end.

(** The deferred function of [Connect]. *)
Definition disconnect (others : nat -> RegistryService -> RegistryService) (sid node : string) (r : res unit)
    (s : RegistryService) : RegistryService :=
  close_session sid (match r with Err e => Some e | Ok _ => None end) (others 2%nat (removeSession others sid node s)).

(** [None]: the stream is still open after the events. *)
Definition Connect (env : connect_env) (events : list ((RegistryService -> RegistryService) * conn_event))
    (s : RegistryService) : option (res unit) * RegistryService :=
  match authenticate env s with
  | (Err e, s) => (Some (Err e), s)
  | (Ok hello, s) =>
      match open_session env hello s with
      | (Err e, s) => (Some (Err e), s)
      | (Ok sid, s) =>
          match register env hello sid s with
          | (Err e, s) => (Some (Err e), disconnect (ce_cleanup env) sid (NodeId hello) (Err e) s)
          | (Ok _, s) =>
              match conn_loop sid events s with
              | (Some r, s) => (Some r, disconnect (ce_cleanup env) sid (NodeId hello) r s)
              | (None, s) => (None, s)
              end
          end
      end
  end.

End Connect.
Export Connect.
