(* ===== verification/ConnectProps.v ===== *)
(** Properties of worker credentials and connections: what a stream needs to be
    admitted, what replaces and ends a session, that connections keep the
    accounts on which dispatching relies, and provisioning. *)
From S2P Require Import Prelude.
From S2P Require Import Json.
From S2P Require Import Sql.
From S2P Require Import Proto.
From S2P Require Import Registry.
From S2P Require Import OwnerScope.
From S2P Require Import RouteStore.
From S2P Require Import TerminalRoutes.
From S2P Require Import TerminalRoutesProps.
From S2P Require Import SessionRuntime.
From S2P Require Import Writer.
From S2P Require Import Service.
From S2P Require Import ProxySession.
From S2P Require Import Dispatch.
From S2P Require Import DispatchProps.
From S2P Require Import Tasks.
From S2P Require Import Submit.
From S2P Require Import TaskProps.
From S2P Require Import SubmitProps.
From S2P Require Import Connect.

Module ConnectProps.

(** ** Statements on workers leave the tasks and the routes alone *)
Definition core (d : DB) : gmap string Task * gmap string RouteRow := (tasks d, terminal_session_routes d).

Class KeepsCore {A} (m : M A) : Prop := keeps_core : forall C, Preserves (fun d => core d = C) m.

Section core.

Lemma write_core {A} (f : DB -> A * DB) : (forall d, core (f d).2 = core d) -> KeepsCore (write f).
Proof. intros Hf C. apply preserves_write. intros d. by rewrite Hf. Qed.

Lemma needs_node_core {A} n (f : DB -> A * DB) : (forall d, core (f d).2 = core d) -> KeepsCore (needs_node n f).
Proof.
  intros Hf C. apply preserves_stmt. intros d a d' Hd E. destruct (worker_nodes d !! n); [|done].
  injection E as E. by rewrite <- Hd, <- (Hf d), E.
Qed.

Lemma update_node_core n p f d : core (update_node n p f d).2 = core d.
Proof. unfold update_node. by repeat case_match. Qed.

#[export] Instance core_UpsertWorkerNode n w : KeepsCore (UpsertWorkerNode n w).
Proof. by apply write_core. Qed.
#[export] Instance core_InsertProvisioned n nm r l : KeepsCore (InsertProvisionedWorkerNodeIfAbsent n nm r l).
Proof. apply write_core. intros d. by destruct (worker_nodes d !! n). Qed.
#[export] Instance core_DeleteNode n : KeepsCore (DeleteWorkerNodeByID n).
Proof. by apply write_core. Qed.
#[export] Instance core_Heartbeat ms n sid : KeepsCore (UpdateWorkerHeartbeatBySession ms n sid).
Proof. apply write_core, update_node_core. Qed.
#[export] Instance core_ClearByNode n : KeepsCore (ClearWorkerSessionByNode n).
Proof. apply write_core, update_node_core. Qed.
#[export] Instance core_ClearByNodeAndSession n sid : KeepsCore (ClearWorkerSessionByNodeAndSession n sid).
Proof. apply write_core, update_node_core. Qed.
#[export] Instance core_DeleteCaps n : KeepsCore (DeleteWorkerCapabilitiesByNode n).
Proof. by apply write_core. Qed.
#[export] Instance core_DeleteLabels n : KeepsCore (DeleteWorkerLabelsByNode n).
Proof. by apply write_core. Qed.
#[export] Instance core_InsertCap n k v : KeepsCore (InsertWorkerCapability n k v).
Proof. by apply needs_node_core. Qed.
#[export] Instance core_InsertLabel n k v : KeepsCore (InsertWorkerLabel n k v).
Proof. by apply needs_node_core. Qed.
#[export] Instance core_InsertCredential n h a now : KeepsCore (InsertWorkerCredentialIfAbsent n h a now).
Proof.
  intros C. apply preserves_stmt. intros d b d' Hd E. repeat case_match; by simplify_eq.
Qed.
#[export] Instance core_DeleteCredential n : KeepsCore (DeleteWorkerCredentialByNode n).
Proof. apply write_core. intros d. by repeat case_match. Qed.

#[export] Instance preserves_core {A} (m : M A) C : KeepsCore m -> Preserves (fun d => core d = C) m.
Proof. intros H. apply H. Qed.

#[export] Instance core_Upsert req sid now : KeepsCore (Upsert req sid now).
Proof.
  intros C. unfold Upsert. repeat (apply ok_if; [apply _|]).
  apply preserves_bind; [unfold GetWorkerNodeByID; apply _|]. intros existing.
  apply preserves_bind; [destruct existing; apply _|]. intros node.
  apply preserves_bind; [unfold ListWorkerLabelsByNode; apply _|]. intros labels. apply _.
Qed.
#[export] Instance core_Touch n sid now : KeepsCore (TouchWithSession n sid now).
Proof.
  intros C. unfold TouchWithSession. apply preserves_bind; [apply _|]. intros rows. apply ok_if; [apply _|].
  apply preserves_bind; [unfold GetWorkerNodeByID; apply _|]. intros []; apply _.
Qed.
#[export] Instance core_ClearSession n sid : KeepsCore (ClearSession n sid).
Proof. intros C. unfold ClearSession. apply _. Qed.
#[export] Instance core_ClearSessionByNode n : KeepsCore (ClearSessionByNode n).
Proof. intros C. unfold ClearSessionByNode. apply _. Qed.
#[export] Instance core_Delete n : KeepsCore (Delete n).
Proof. intros C. unfold Delete. apply _. Qed.
#[export] Instance core_Seed ws now ttl : KeepsCore (SeedProvisionedWorkers ws now ttl).
Proof.
  intros C. unfold SeedProvisionedWorkers. generalize (mret (M := M) 0) (preserves_ret (fun d => core d = C) 0).
  induction ws as [|w ws IH]; cbn; [done|]. intros m Hm. apply IH.
  apply preserves_bind; [done|]. intros a. apply preserves_bind; [unfold seedProvisionedWorker; apply _|]. apply _.
Qed.
#[export] Instance core_PutCredential n h a now : KeepsCore (PutCredentialHashIfAbsent n h a now).
Proof. intros C. unfold PutCredentialHashIfAbsent. apply _. Qed.
#[export] Instance core_DropCredential n : KeepsCore (DeleteCredential n).
Proof. intros C. unfold DeleteCredential. apply _. Qed.

(** Reads. *)
#[export] Instance ro_GetCredentialHash n : ReadOnly (GetCredentialHash n).
Proof. intros D. unfold GetCredentialHash, GetWorkerCredentialByNode. apply _. Qed.
#[export] Instance ro_WorkerType n : ReadOnly (WorkerTypeByNodeID n).
Proof. intros D. unfold WorkerTypeByNodeID, LabelsByNodeID, ListWorkerLabelsByNode. apply _. Qed.
#[export] Instance read_only_core {A} (m : M A) : ReadOnly m -> KeepsCore m.
Proof. intros H C c Hc. by rewrite (read_only_data m c H). Qed.

End core.

(** ** Frames keep what dispatching relies on *)
Section calm.
Implicit Types (s : RegistryService) (held : string -> list string) (x : activeSession).

(** Session objects are never dropped while the console runs, and keep their
    node. *)
Definition keeps_nodes s s' : Prop :=
  forall sid x, svc_heap s !! sid = Some x -> exists x', svc_heap s' !! sid = Some x' /\ nodeID x' = nodeID x.

#[export] Instance keeps_nodes_preorder : PreOrder keeps_nodes.
Proof.
  split; [intros s sid x; eauto|]. intros s1 s2 s3 H1 H2 sid x Hx. destruct (H1 _ _ Hx) as (y&Hy&Ey).
  destruct (H2 _ _ Hy) as (z&Hz&Ez). exists z. split; [done|congruence].
Qed.

(** A step that keeps the accounts of every session and the route table's
    invariant, registers no command and no session under an id with surrounding
    space, and leaves the task table. *)
Definition calm s s' : Prop :=
  (forall held, sessions_ok held s -> sessions_ok held s') /\
  (forall cmd sid, fresh_at cmd sid s -> fresh_at cmd sid s') /\
  (trimmed_table s -> trimmed_table s') /\ tasks_of s' = tasks_of s /\ step_ok (svc_routes s) (svc_routes s') /\
  keeps_nodes s s'.

#[export] Instance calm_preorder : PreOrder calm.
Proof.
  split; [by intros s; split_and!; auto|]. intros s1 s2 s3 (A1&B1&C1&D1&E1&F1) (A2&B2&C2&D2&E2&F2).
  split_and!; [auto..|congruence|by etrans|by etrans].
Qed.

(** The table and the sessions are untouched. *)
Lemma calm_same s s' :
  svc_sessions s' = svc_sessions s -> svc_heap s' = svc_heap s -> tasks_of s' = tasks_of s ->
  step_ok (svc_routes s) (svc_routes s') -> calm s s'.
Proof.
  intros E1 E2 E3 E4. split_and!; [|unfold fresh_at; by rewrite E2|unfold trimmed_table; by rewrite E1|done..|].
  - intros held [Hr Hh]. split; by rewrite ?E1, ?E2.
  - intros sid x. rewrite E2. eauto.
Qed.

Lemma calm_on_session {A} (d : A) sid f s :
  (forall h x, session_ok x h -> session_ok (f x).2 h) -> (forall x, nodeID (f x).2 = nodeID x) ->
  (forall k x, pending x !! k = None -> pending (f x).2 !! k = None) -> calm s (on_session d sid f s).2.
Proof.
  intros Hok Hn Hp. split_and!.
  - intros held. apply on_session_same. auto.
  - intros cmd sid'. apply on_session_fresh. auto.
  - unfold trimmed_table. by rewrite on_session_table.
  - unfold on_session. destruct (svc_heap s !! sid) as [x|]; [by destruct (f x)|done].
  - unfold on_session. destruct (svc_heap s !! sid) as [x|]; [by destruct (f x)|done].
  - intros sid' y Hy. unfold on_session. destruct (svc_heap s !! sid) as [x|] eqn:Ex; [|by eauto].
    specialize (Hn x). destruct (f x) as [a x']. cbn in *. rewrite lookup_insert. case_decide as E; [|by eauto].
    subst sid'. exists x'. split; [done|congruence].
Qed.

Lemma calm_run_db {A} e (m : M A) s : KeepsCore m -> calm s (run_db e m s).2.
Proof.
  intros Hm. unfold run_db. destruct (svc_conn s) as [c|] eqn:Ec; [|done]. specialize (Hm (core (data c)) c eq_refl).
  destruct (m c) as [r c']. cbn [snd] in *. injection Hm as Ht Hr. apply calm_same; [done..| |].
  - unfold tasks_of, svc_db. cbn. rewrite Ec. exact Ht.
  - apply shrunk_ok. split; [by exists (Some c')|]. intros sid row. unfold row_at. unfold svc_conn in Ec. rewrite Ec. cbn. by rewrite Hr.
Qed.

Lemma calm_query {A} (d : A) (m : M A) s : KeepsCore m -> calm s (query d m s).2.
Proof.
  intros Hm. unfold query. pose proof (calm_run_db (ErrorString "") m s Hm) as H. by destruct (run_db _ m s) as [[]].
Qed.

Lemma calm_run_routes {A} (f : Routes Conn -> A * Routes Conn) s :
  (forall r, stored_tasks (f r).2 = stored_tasks r) -> (forall r, step_ok r (f r).2) -> calm s (run_routes f s).2.
Proof.
  intros Hf Hs. pose proof (run_routes_rest f s Hf) as Hr. apply calm_same; [by apply rest_sessions| | |].
  - unfold run_routes. by destruct (f (svc_routes s)).
  - unfold rest in Hr. assert (tasks <$> svc_db (run_routes f s).2 = tasks <$> svc_db s) as E by congruence.
    unfold tasks_of. by rewrite E.
  - unfold run_routes. specialize (Hs (svc_routes s)). by destruct (f (svc_routes s)).
Qed.

(** *** The routes of a worker that comes and goes *)
Lemma begin_recovery_tasks n now (r : Routes Conn) : stored_tasks (beginTerminalSessionRecoveryWithError n now r).2 = stored_tasks r.
Proof.
  unfold beginTerminalSessionRecoveryWithError. destruct (bool_decide _); [done|]. destruct (foldl _ _ _) as [cs ex].
  assert (forall y r1, (match ex with [] => (Ok tt, r) | _ => call_store tt (store_delete_many ex) r end) = (y, r1) ->
    stored_tasks r1 = stored_tasks r) as Hc.
  { intros y r1. destruct ex as [|x ex]; [by intros [= <- <-]|]. intros E.
    pose proof (call_store_tasks tt (store_delete_many (x :: ex)) r) as Hk. by rewrite E in Hk. }
  destruct (match ex with [] => _ | _ => _ end) as [y r1]. specialize (Hc _ _ eq_refl). destruct y as [[]|e]; [|done]. cbn [snd].
  apply (foldl_inv (fun r2 => stored_tasks r2 = stored_tasks r)).
  - apply (foldl_inv (fun r2 => stored_tasks r2 = stored_tasks r)); [done|]. intros r2 ref _ Hr2. unfold delete_ref. by repeat case_match.
  - intros r2 c _ Hr2. unfold reconcile. by repeat case_match.
Qed.

Lemma mark_tasks n (r : Routes Conn) : stored_tasks (markTerminalSessionRoutesUnavailable n r).2 = stored_tasks r.
Proof.
  unfold markTerminalSessionRoutesUnavailable. destruct (bool_decide _); [done|].
  apply (foldl_inv (fun a : Z * Routes Conn => stored_tasks a.2 = stored_tasks r)); [done|].
  intros [k r2] sid _ Hr2. unfold mark_unavailable. by repeat case_match.
Qed.

Lemma apply_report_tasks cands nid report now (r : Routes Conn) :
  stored_tasks (applyTerminalSessionRecoveryReport cands nid report now r).2 = stored_tasks r.
Proof.
  unfold applyTerminalSessionRecoveryReport. destruct (report_results cands report) as [results|]; [|done].
  destruct (existsb _ _); [done|]. set (refs := recovery_refs _ _ _ _ _).
  assert (forall y r1, (match refs with [] => (Ok tt, r) | _ => call_store tt (store_delete_many refs) r end) = (y, r1) ->
    stored_tasks r1 = stored_tasks r) as Hc.
  { intros y r1. destruct refs as [|x l]; [by intros [= <- <-]|]. intros E.
    pose proof (call_store_tasks tt (store_delete_many (x :: l)) r) as Hk. by rewrite E in Hk. }
  destruct (match refs with [] => _ | _ => _ end) as [y r1]. specialize (Hc _ _ eq_refl). destruct y as [[]|e]; [|done]. cbn [snd].
  apply (foldl_inv (fun r2 => stored_tasks r2 = stored_tasks r)); [done|]. intros r2 c _ Hr2. unfold recover_one. by repeat case_match.
Qed.

Lemma delete_by_node_tasks n (r : Routes Conn) : stored_tasks (deleteTerminalSessionRoutesByNode n r).2 = stored_tasks r.
Proof.
  unfold deleteTerminalSessionRoutesByNode. destruct (bool_decide _); [done|].
  pose proof (call_store_tasks 0 (store_delete_by_node (trim n)) r) as Hc.
  destruct (call_store 0 _ r) as [[z|e] r1]; cbn [snd] in Hc; [|done].
  assert (stored_tasks (foldl (remove_node_route (trim n)) (0, r1) (elements (index_of r1 (trim n)))).2 = stored_tasks r) as Hf.
  { apply (foldl_inv (fun a : Z * Routes Conn => stored_tasks a.2 = stored_tasks r)); [done|].
    intros [k r2] sid _ Hr2. unfold remove_node_route. by repeat case_match. }
  by destruct (foldl _ _ _).
Qed.

(** *** Frames *)
Lemma close_node e x : nodeID (close e x) = nodeID x.
Proof.
  unfold close. destruct (closedErr x); [done|]. apply (foldl_inv (fun y => nodeID y = nodeID x)); [done|].
  intros y kv _ Hy. unfold close_entry, closeResult. destruct (channels _ !! _) as [[]|]; cbn; by rewrite release_node.
Qed.

Lemma close_pending e x k : pending x !! k = None -> pending (close e x) !! k = None.
Proof.
  intros Hk. unfold close. destruct (closedErr x); [done|].
  apply (foldl_inv (fun y => pending y !! k = None)); [apply lookup_empty|].
  intros y kv _ Hy. by rewrite (proj1 (close_entry_frame _ y kv)).
Qed.

Lemma calm_close sid e s : calm s (close_session sid e s).
Proof.
  apply calm_on_session; cbn; [intros; by apply close_ok|intros; apply close_node|intros; by apply close_pending].
Qed.

Lemma calm_send fe sid r s : calm s (send_control fe sid r s).2.
Proof.
  unfold send_control. set (f := enqueueControl _ _ r).
  pose proof (calm_on_session None sid f s) as H. destruct (on_session None sid f s) as [sent s1]. apply H.
  - intros h x Hx. by apply enqueue_ok.
  - intros x. unfold f, enqueueControl, enqueue. by repeat case_match.
  - intros k x Hk. unfold f, enqueueControl. by destruct (enqueue_core true (fe_prefer_ctx fe) (ctx_error <$> fe_ctx fe) r x) as (_&->&_).
Qed.

Lemma resolve_node result now x : nodeID (resolvePending result now x) = nodeID x.
Proof.
  unfold resolvePending, take_pending. destruct (bool_decide _); [done|]. destruct (pending x !! _) as [p|]; [|done].
  unfold closeResult. destruct (channels _ !! _) as [[]|]; cbn; by rewrite release_node.
Qed.

Lemma resolve_pending result now k x : pending x !! k = None -> pending (resolvePending result now x) !! k = None.
Proof.
  intros Hk. unfold resolvePending, take_pending. destruct (bool_decide _); [done|]. destruct (pending x !! trim _) as [p|]; [|done].
  destruct (release_frame (pc_capability p) (with_pending (closedErr x) (delete (trim (cr_CommandId result)) (pending x)) (channels x)
    (nextChannel x) x)) as (f&->&_). unfold closeResult. destruct (channels _ !! _) as [[]|]; cbn; rewrite lookup_delete; by case_decide.
Qed.

(** A method that touches neither the slots nor the commands. *)
Lemma calm_method {A} (d : A) sid f s :
  (forall x, capabilities (f x).2 = capabilities x /\ pending (f x).2 = pending x /\ channels (f x).2 = channels x /\
     closedErr (f x).2 = closedErr x /\ nextChannel (f x).2 = nextChannel x /\ nodeID (f x).2 = nodeID x) ->
  calm s (on_session d sid f s).2.
Proof.
  intros Hf. apply calm_on_session.
  - intros h x. destruct (Hf x) as (?&?&?&?&?&?). by apply same_core_ok.
  - intros x. apply Hf.
  - intros k x. by destruct (Hf x) as (_&->&_).
Qed.

Lemma calm_heartbeat fe sid hb s : calm s (handleHeartbeat fe sid hb s).2.
Proof.
  unfold handleHeartbeat. destruct (bool_decide (trim _ = "")); [done|]. destruct (negb _); [done|]. destruct (_ <? 0); [done|].
  pose proof (calm_run_db no_store (TouchWithSession (hb_NodeId hb) (hb_SessionId hb) (fe_now fe)) s _) as H1.
  destruct (run_db _ _ s) as [[[]|e] s1]; cbn [snd] in H1; [|done]. set (f := fun x => (tt, setActiveSessionCount _ _ _)).
  pose proof (calm_method tt sid f s1 ltac:(done)) as H2. set (s2 := (on_session tt sid f s1).2) in *.
  pose proof (calm_send fe sid (HeartbeatAck (cfg_heartbeatIntervalSec (svc_config s2))) s2) as H3.
  destruct (send_control _ _ _ s2) as [[[]|e] s3]; cbn [snd] in *; by repeat (etrans; [eassumption|]).
Qed.

Lemma calm_report fe sid report s : calm s (handleRecoveryReport fe sid report s).2.
Proof.
  unfold handleRecoveryReport. destruct (svc_heap s !! sid) as [x|]; [|done]. destruct (negb _); [done|]. destruct (isReady x).
  { destruct (negb _); [done|]. pose proof (calm_send fe sid RecoveryAck s) as H. by destruct (send_control _ _ _ s) as [[[]|]]. }
  pose proof (calm_run_routes (applyTerminalSessionRecoveryReport (recoveryCandidateSnapshot x) (nodeID x) report (unix_milli (fe_now fe))) s
    (apply_report_tasks _ _ _ _) (apply_report_step _ _ _ _)) as H1.
  destruct (run_routes _ s) as [[results|e] s1]; cbn [snd] in H1; [|done].
  pose proof (calm_method tt sid (fun x => (tt, setRecoveryResults results x)) s1 ltac:(done)) as H2.
  set (s2 := (on_session tt sid _ s1).2) in *. pose proof (calm_send fe sid RecoveryAck s2) as H3.
  destruct (send_control _ _ _ s2) as [[[]|e] s3]; cbn [snd] in *; (etrans; [exact H1|]; etrans; [exact H2|]; etrans; [exact H3|]); [|done].
  by apply calm_method.
Qed.

Lemma calm_frame fe sid req s : calm s (handle_frame fe sid req s).2.
Proof.
  destruct req; cbn [handle_frame]; [done|apply calm_heartbeat| |apply calm_report|done].
  unfold handleCommandResult. destruct (bool_decide _); [done|].
  apply calm_on_session; cbn; [intros; by apply resolve_ok|intros; apply resolve_node|intros; by apply resolve_pending].
Qed.

Lemma calm_loop sid events s :
  (forall others ev, (others, ev) ∈ events -> forall s, calm s (others s)) -> calm s (conn_loop sid events s).2.
Proof.
  revert s. induction events as [|[others ev] events IH]; intros s Ho; cbn [conn_loop]; [done|].
  assert (calm s (conn_step sid ev (others s)).2) as H1.
  { etrans; [apply (Ho others ev); by left|]. set (s1 := others s). unfold conn_step.
    destruct ev as [|e|[e|]|fe [req|e]]; try done; [by destruct (_ ≫= _)|].
    pose proof (calm_frame fe sid req s1) as Hf. by destruct (handle_frame fe sid req s1) as [[]]. }
  destruct (conn_step sid ev (others s)) as [[r|] s2]; cbn [snd] in H1; [done|].
  etrans; [exact H1|]. apply IH. intros o e Hin. apply (Ho o e). by right.
Qed.

(** *** The handshake *)

(** A step that only reads, up to the cache of the credentials. *)
Definition probe s s' : Prop :=
  svc_sessions s' = svc_sessions s /\ svc_heap s' = svc_heap s /\ svc_db s' = svc_db s /\ svc_config s' = svc_config s /\
  svc_tasks s' = svc_tasks s /\ exists c, svc_routes s' = with_store c (svc_routes s).

#[export] Instance probe_preorder : PreOrder probe.
Proof.
  split; [intros s; split_and!; try done; exists (svc_conn s); unfold svc_conn; by destruct (svc_routes s)|].
  intros s1 s2 s3 (A1&B1&C1&D1&E1&[c1 F1]) (A2&B2&C2&D2&E2&[c2 F2]). split_and!; [congruence..|].
  exists c2. by rewrite F2, F1.
Qed.

Lemma probe_calm s s' : probe s s' -> calm s s'.
Proof.
  intros (A&B&C&_&_&[c D]). apply calm_same; [done..| |by eapply store_reread]. unfold tasks_of. by rewrite C.
Qed.

Lemma probe_query {A} (d : A) (m : M A) s : ReadOnly m -> probe s (query d m s).2.
Proof.
  intros Hm. destruct (query_frame d m s) as (c&Hs&Hdb); [intros c; by apply read_only_data|].
  split_and!; [by rewrite Hs..|done|by rewrite Hs|by rewrite Hs|]. exists c. by rewrite Hs.
Qed.

(** The credential the console holds for a worker: in memory, or in the
    database. *)
Definition credential_of (node : string) s : option string :=
  match svc_credentials s !! node with
  | Some secret => Some secret
  | None => svc_db s ≫= fun d => worker_credentials d !! node ≫= fun row =>
              let hash := trim (wc_SecretHash row) in if bool_decide (hash = "") then None else Some hash
  end.

Lemma GetCredentialHash_data node c hash :
  (GetCredentialHash node c).1 = Ok (Some hash) ->
  worker_credentials (data c) !! trim node ≫= (fun row =>
    let h := trim (wc_SecretHash row) in if bool_decide (h = "") then None else Some h) = Some hash.
Proof.
  unfold GetCredentialHash. destruct (bool_decide (trim node = "")); [done|]. unfold or_else, GetWorkerCredentialByNode, mbind, M_bind.
  rewrite catch_ok. cbn. destruct (read_one_cases (fun d => worker_credentials d !! trim node) c) as (_&[(m&E)|[(_&E)|(row&Hrow&E)]]);
    destruct (read_one _ c) as [r c']; cbn in E; subst r; cbn; [done..|]. intros [= E]. by rewrite Hrow.
Qed.

Lemma getCredential_spec node s :
  let '(r, s') := getCredential node s in
  probe s s' /\ forall secret, r = Some secret -> trim node <> "" /\ credential_of (trim node) s = Some secret.
Proof.
  unfold getCredential. case_bool_decide as Hn; [done|]. unfold credential_of.
  destruct (svc_credentials s !! trim node) as [secret|] eqn:Ec; [by split; [|intros ? [= ->]]|].
  pose proof (probe_query None (GetCredentialHash (trim node)) s _) as Hp. unfold query, run_db in *. unfold svc_db.
  destruct (svc_conn s) as [c|] eqn:Econn; [|done]. pose proof (GetCredentialHash_data (trim node) c) as Hd. rewrite trim_trim in Hd.
  destruct (GetCredentialHash (trim node) c) as [[[hash|]|e] c']; cbn [fst snd] in *; [|done..].
  split; [exact Hp|]. intros ? [= ->]. by split; [|apply Hd].
Qed.

Lemma authenticate_spec env s :
  let '(r, s') := authenticate env s in
  probe s s' /\ forall hello', r = Ok hello' -> exists hello credential,
    ce_first env = Ok (Hello hello) /\ validateHello hello = Ok tt /\ credential_of (trim (NodeId hello)) s = Some credential /\
    trim (WorkerSecret hello) <> "" /\ secret_matches s credential (trim (WorkerSecret hello)) = true /\
    NodeId hello' = NodeId hello.
Proof.
  unfold authenticate. destruct (ce_ctx env); [done|]. destruct (ce_first env) as [[hello| | | |]|e]; try done.
  destruct (validateHello hello) as [[]|e] eqn:Ev; [|done].
  pose proof (getCredential_spec (NodeId hello) s) as Hg. destruct (getCredential _ s) as [[credential|] s1]; [|by destruct Hg].
  destruct Hg as [Hp Hc]. destruct (Hc _ eq_refl) as [_ Hcred]. case_bool_decide as Hs; [done|].
  assert (secret_matches s1 credential (trim (WorkerSecret hello)) = secret_matches s credential (trim (WorkerSecret hello))) as ->.
  { unfold secret_matches. by destruct Hp as (_&_&_&->&_). }
  destruct (secret_matches s credential _) eqn:Em; cbn [negb]; [|done]. unfold resolveHelloByWorkerType.
  pose proof (probe_query "" (WorkerTypeByNodeID (NodeId hello)) s1 _) as Hq. destruct (query "" _ s1) as [ty s2]. cbn [snd] in Hq.
  assert (probe s s2) as Hp2 by (by etrans).
  destruct (negb _); [split; [done|]; intros hello' [= <-]; by exists hello, credential|].
  split; [done|]. intros hello' Hr. exists hello, credential. split_and!; try done.
  unfold resolve_sys_hello in Hr. repeat case_match; by simplify_eq.
Qed.

(** The session [sid] takes the place of its node in the table. *)
Lemma calm_install sid x s y :
  svc_heap s !! sid = Some y -> nodeID y = nodeID x -> trim (nodeID x) = nodeID x -> calm s (install_session sid x s).
Proof.
  intros Hy Hn Ht. split_and!; try done.
  - intros held [Hr Hh]. split; [|done]. intros n sid'. cbn. rewrite lookup_insert. case_decide as E; [|apply Hr].
    intros [= <-]. exists y. split; [done|congruence].
  - intros Htab n sid'. cbn. rewrite lookup_insert. case_decide as E; [by intros _; subst n|apply Htab].
  - intros sid' z Hz. eauto.
Qed.

Lemma calm_take_place sid s :
  trim (session_node sid s) = session_node sid s -> calm s (take_place sid s).
Proof.
  intros Ht. unfold take_place, session_node in *. destruct (cfg_policy (svc_config s)); [|done].
  destruct (svc_heap s !! sid) as [x|] eqn:Ex; [|done]. cbn.
  pose proof (calm_install sid x s x Ex eq_refl Ht) as Hi. destruct (svc_sessions s !! nodeID x) as [replaced|]; [|done].
  etrans; [exact Hi|apply calm_close].
Qed.

Lemma calm_remove others sid node s :
  (forall i s, calm s (others i s)) -> calm s (removeSession others sid node s).
Proof.
  intros Ho. unfold removeSession. destruct (bool_decide _); [|done]. set (s1 := with_svc_sessions _ _ s).
  assert (calm s s1) as H1.
  { split_and!; try done.
    - intros held [Hr Hh]. split; [|done]. intros n sid'. cbn. rewrite lookup_delete. case_decide; [done|apply Hr].
    - intros Htab n sid'. cbn. rewrite lookup_delete. case_decide; [done|apply Htab].
    - intros sid' z Hz. eauto. }
  etrans; [exact H1|]. etrans; [apply (Ho 0%nat)|].
  etrans; [apply (calm_run_routes (markTerminalSessionRoutesUnavailable node)); [apply mark_tasks|apply mark_step]|].
  etrans; [apply (Ho 1%nat)|]. by apply calm_run_db, _.
Qed.

Lemma calm_disconnect others sid node r s :
  (forall i s, calm s (others i s)) -> calm s (disconnect others sid node r s).
Proof.
  intros Ho. unfold disconnect. etrans; [by apply calm_remove|]. etrans; [apply (Ho 2%nat)|apply calm_close].
Qed.

Lemma calm_node s s' sid x : calm s s' -> svc_heap s !! sid = Some x -> session_node sid s' = nodeID x.
Proof.
  intros (_&_&_&_&_&Hk) Hx. destruct (Hk _ _ Hx) as (y&Hy&E). unfold session_node. by rewrite Hy.
Qed.

Lemma calm_register env hello sid s x :
  (forall i s, calm s (ce_others env i s)) -> svc_heap s !! sid = Some x -> trim (nodeID x) = nodeID x ->
  calm s (register env hello sid s).2.
Proof.
  intros Ho Hx Ht. unfold register.
  pose proof (calm_run_routes (beginTerminalSessionRecoveryWithError (NodeId hello) (unix_milli (ce_now env))) (ce_others env 0%nat s)
    (begin_recovery_tasks _ _) (begin_recovery_step _ _)) as H1.
  destruct (run_routes _ _) as [[candidates|e] s1]; cbn [snd] in H1; (assert (calm s s1) as H1' by (etrans; [apply Ho|exact H1])); [|done].
  pose proof (calm_method tt sid (fun x => (tt, setRecoveryCandidates candidates x)) s1 ltac:(done)) as H2.
  set (s2 := (on_session tt sid _ s1).2) in *. assert (calm s (ce_others env 1%nat s2)) as H3 by (etrans; [exact H1'|]; etrans; [exact H2|apply Ho]).
  assert (calm s (take_place sid (ce_others env 1%nat s2))) as H4.
  { etrans; [exact H3|]. apply calm_take_place. by rewrite (calm_node _ _ _ _ H3 Hx). }
  set (s3 := take_place _ _) in *. assert (calm s (ce_others env 2%nat s3)) as H5 by (etrans; [exact H4|apply Ho]).
  pose proof (calm_run_db no_store (Upsert hello sid (ce_now env)) (ce_others env 2%nat s3) _) as H6.
  destruct (run_db _ _ _) as [[[]|e] s4]; cbn [snd] in H6; (assert (calm s s4) as H6' by (etrans; [exact H5|exact H6])); [|done].
  match goal with |- context [send_control ?fe sid ?r ?s5] => pose proof (calm_send fe sid r s5) as H7;
    destruct (send_control fe sid r s5) as [[[]|e] s6] end; cbn [snd] in *;
    (etrans; [exact H6'|]; etrans; [apply (Ho 3%nat)|exact H7]).
Qed.

(** The same as [calm], where the new session [sid] holds no slot. *)
Definition calm_new (sid : string) s s' : Prop :=
  (forall held, held sid = [] -> sessions_ok held s -> sessions_ok held s') /\
  (trimmed_table s -> trimmed_table s') /\ tasks_of s' = tasks_of s /\ step_ok (svc_routes s) (svc_routes s').

Lemma calm_calm_new sid s s' : calm s s' -> calm_new sid s s'.
Proof. intros (A&B&C&D&E&F). by split_and!; auto. Qed.

Lemma calm_new_then sid s1 s2 s3 : calm_new sid s1 s2 -> calm s2 s3 -> calm_new sid s1 s3.
Proof. intros (A1&C1&D1&E1) (A2&B2&C2&D2&E2&F2). split_and!; [auto..|congruence|by etrans]. Qed.

Lemma new_session_calm sid node hello now endpoint key direct s :
  svc_heap s !! sid = None ->
  calm_new sid s (update_session sid (with_proxy endpoint key direct (newActiveSessionAt node sid hello now)) s).
Proof.
  intros Hf. split_and!; try done. intros held Hh [Hr Hk]. split; cbn.
  - intros n sid' Hn. destruct (Hr _ _ Hn) as (y&Hy&E). exists y. rewrite lookup_insert_ne; [done|congruence].
  - intros sid' y. rewrite lookup_insert. case_decide as E; [|apply Hk]. intros [= <-]. rewrite <- E, Hh.
    eapply same_core_ok; [..|apply (start_ok node sid hello now)]; done.
Qed.

Lemma open_session_calm env hello s sid :
  ce_sessionID env = Ok sid -> svc_heap s !! sid = None -> trim (NodeId hello) = NodeId hello ->
  let '(r, s') := open_session env hello s in
  calm_new sid s s' /\ forall sid', r = Ok sid' -> sid' = sid /\ exists x, svc_heap s' !! sid = Some x /\ nodeID x = NodeId hello.
Proof.
  intros Hsid Hf Ht. unfold open_session. rewrite Hsid.
  destruct (configureSessionProxy _ _ _ _) as [x|e] eqn:Ex; [|split; [apply calm_calm_new; reflexivity|done]].
  apply configured in Ex as (endpoint&key&direct&Ex&_).
  pose proof (new_session_calm sid (NodeId hello) hello (ce_now env) endpoint key direct s Hf) as H1. rewrite <- Ex in H1.
  assert (nodeID x = NodeId hello) as Hnode by by rewrite Ex. set (s1 := update_session sid x s) in *.
  assert (svc_heap s1 !! sid = Some x) as Hx by apply lookup_insert_eq.
  assert (calm_new sid s s1 /\ forall sid', Ok (A := string) sid = Ok sid' -> sid' = sid /\ exists y, svc_heap s1 !! sid = Some y /\ nodeID y = NodeId hello)
    as Hdone by (split; [done|]; intros ? [= <-]; split; [done|]; by exists x).
  destruct (cfg_policy (svc_config s1)); [done|]. unfold claimSessionIfAvailable.
  assert (forall s2, calm s1 s2 -> calm_new sid s (install_session sid x s2) /\
    forall sid', Ok (A := string) sid = Ok sid' -> sid' = sid /\ exists y, svc_heap (install_session sid x s2) !! sid = Some y /\ nodeID y = NodeId hello) as Hin.
  { intros s2 H2. pose proof H2 as (_&_&_&_&_&Hk). destruct (Hk _ _ Hx) as (y&Hy&E). split.
    - eapply calm_new_then; [exact H1|]. etrans; [exact H2|]. apply (calm_install sid x s2 y); congruence.
    - intros ? [= <-]. split; [done|]. exists y. split; [done|]. by rewrite E. }
  destruct (session_ref (nodeID x) s1) as [[current c]|]; [|by apply Hin]. destruct (closedErr c); [by apply Hin|].
  destruct (_ <=? _); [by split|]. apply Hin, calm_close.
Qed.

End calm.

(** ** Who holds the place of a worker *)
Section places.
Implicit Types (s : RegistryService) (x : activeSession).

Lemma close_closed e x : closedErr (close e x) <> None.
Proof.
  unfold close. destruct (closedErr x) as [e'|] eqn:E; [congruence|].
  apply (foldl_inv (fun y => closedErr y <> None)); [done|]. intros y kv _ Hy. by rewrite (proj1 (proj2 (close_entry_frame _ y kv))).
Qed.

(** The sessions of [s], except that those in [old] are closed. *)
Definition closed_in (old : option string) s s' : Prop :=
  forall sid x, svc_heap s !! sid = Some x -> exists x', svc_heap s' !! sid = Some x' /\
    if bool_decide (old = Some sid) then closedErr x' <> None else x' = x.

Lemma close_session_heap sid e s : closed_in (Some sid) s (close_session sid e s).
Proof.
  intros sid' x Hx. unfold close_session, on_session. destruct (svc_heap s !! sid) as [y|] eqn:Ey; cbn.
  - rewrite lookup_insert. case_decide as E.
    + subst sid'. replace y with x by congruence. exists (close e x). rewrite bool_decide_true by done. split; [done|apply close_closed].
    + rewrite bool_decide_false by congruence. eauto.
  - rewrite bool_decide_false by congruence. eauto.
Qed.

Lemma close_session_table sid e s : svc_sessions (close_session sid e s) = svc_sessions s.
Proof. apply on_session_table. Qed.

Lemma close_session_rest sid e s : svc_routes (close_session sid e s) = svc_routes s.
Proof. unfold close_session, on_session. by destruct (svc_heap s !! sid). Qed.

(** Marking the routes of a worker that is gone. *)
Lemma mark_unavailable_one nid k (r : Routes Conn) sid tid (x : terminalSessionRoute) :
  terminalSessionToNode (mark_unavailable nid (k, r) sid).2 !! tid = Some x ->
  (tid <> sid /\ terminalSessionToNode r !! tid = Some x) \/
  (tid = sid /\ (NodeID x = nid -> RecoveryState x = terminalSessionRecoveryUnavailable /\ ReservationID x = 0) /\
   exists y, terminalSessionToNode r !! tid = Some y /\ NodeID y = NodeID x).
Proof.
  unfold mark_unavailable. destruct (terminalSessionToNode r !! sid) as [y|] eqn:Ey; cbn.
  - case_bool_decide as Hn; cbn.
    + destruct (ReservationID y =? 0) eqn:Er; cbn; rewrite ?lookup_insert, ?lookup_delete; case_decide as E; try done; eauto.
      intros [= <-]. right. apply Z.eqb_eq in Er. split_and!; [done|done|]. subst tid. by exists y.
    + destruct (decide (tid = sid)) as [->|]; [|by left]. intros Hx. right. replace x with y in * by congruence.
      split_and!; [done|done|by exists y].
  - destruct (decide (tid = sid)) as [->|]; [congruence|by left].
Qed.

Lemma mark_fold nid l k (r : Routes Conn) tid (x : terminalSessionRoute) :
  terminalSessionToNode (foldl (mark_unavailable nid) (k, r) l).2 !! tid = Some x -> tid ∈ l -> NodeID x = nid ->
  RecoveryState x = terminalSessionRecoveryUnavailable /\ ReservationID x = 0.
Proof.
  revert k r. induction l as [|sid l IH] using rev_ind; intros k r; [by intros _ ?%elem_of_nil|].
  rewrite foldl_app. cbn [foldl]. destruct (foldl (mark_unavailable nid) (k, r) l) as [k1 r1] eqn:E.
  intros [[Hne Hx]|(->&Hx&_)]%mark_unavailable_one Hin Hn; [|auto].
  apply elem_of_app in Hin as [Hin|Hin%list_elem_of_singleton]; [|done]. eapply (IH k r); [by rewrite E|done..].
Qed.

Lemma mark_routes node s tid (x : terminalSessionRoute) :
  routes_ok (svc_routes s) -> trim node <> "" ->
  terminalSessionToNode (svc_routes (run_routes (markTerminalSessionRoutesUnavailable node) s).2) !! tid = Some x -> NodeID x = trim node ->
  RecoveryState x = terminalSessionRecoveryUnavailable /\ ReservationID x = 0.
Proof.
  intros Hok Hne. unfold run_routes, markTerminalSessionRoutesUnavailable. rewrite bool_decide_false by done.
  set (l := elements _). destruct (foldl (mark_unavailable (trim node)) (0, svc_routes s) l) as [k r] eqn:E. cbn. intros Hx Hn.
  eapply (mark_fold (trim node) l 0 (svc_routes s)); [by rewrite E| |done]. apply elem_of_elements.
  assert (forall l k0 (r0 : Routes Conn), terminalSessionToNode (foldl (mark_unavailable (trim node)) (k0, r0) l).2 !! tid = Some x ->
    exists y, terminalSessionToNode r0 !! tid = Some y /\ NodeID y = NodeID x) as Hback.
  { clear. intros l. induction l as [|sid l IH]; intros k r; cbn [foldl]; [by eauto|]. intros Hx.
    destruct (mark_unavailable (trim node) (k, r) sid) as [k1 r1] eqn:E1. destruct (IH _ _ Hx) as (y&Hy&Ey).
    pose proof (mark_unavailable_one (trim node) k r sid tid y) as H1. rewrite E1 in H1. destruct (H1 Hy) as [[_ ?]|(_&_&z&Hz&Ez)];
      [by eauto|]. exists z. split; [done|congruence]. }
  destruct (Hback l 0 (svc_routes s)) as (y&Hy&Ey); [by rewrite E|]. apply (ok_index _ Hok). exists y. split; [done|congruence].
Qed.

End places.

(** ** A worker that is revoked *)
Section revoke.
Implicit Types (s : RegistryService) (d : DB) (n node : string).

Definition set_db d s : RegistryService := with_svc_routes (with_store (Some (mkConn d [])) (svc_routes s)) s.

Lemma healthy_query {A} (dflt : A) (m : M A) s d a d' :
  healthy s d -> m (mkConn d []) = (Ok a, mkConn d' []) -> query dflt m s = (a, set_db d' s).
Proof. intros Hs Hm. unfold query, run_db. by rewrite Hs, Hm. Qed.

Lemma count_key {V} n (m : gmap string V) :
  count (fun k _ => bool_decide (k = n)) m = match m !! n with Some _ => 1 | None => 0 end.
Proof.
  unfold count, select. destruct (m !! n) as [v|] eqn:E.
  - replace (filter _ m) with ({[n := v]} : gmap string V); [by rewrite map_size_singleton|].
    apply map_eq. intros k. apply option_eq. intros w. rewrite lookup_singleton_Some, map_lookup_filter_Some. cbn.
    rewrite bool_decide_eq_true. naive_solver.
  - replace (filter _ m) with (∅ : gmap string V); [done|]. apply map_eq. intros k. apply option_eq. intros w.
    rewrite lookup_empty, map_lookup_filter_Some. cbn. rewrite bool_decide_eq_true. naive_solver.
Qed.

Lemma remove_one nid k (r : Routes Conn) sid tid (x : terminalSessionRoute) :
  terminalSessionToNode (remove_node_route nid (k, r) sid).2 !! tid = Some x <->
  terminalSessionToNode r !! tid = Some x /\ ~ (tid = sid /\ NodeID x = nid).
Proof.
  unfold remove_node_route. destruct (terminalSessionToNode r !! sid) as [y|] eqn:Ey; [|naive_solver].
  case_bool_decide as En; cbn; [|naive_solver]. rewrite lookup_delete. case_decide; naive_solver.
Qed.

Lemma remove_fold nid l k (r : Routes Conn) :
  let r' := (foldl (remove_node_route nid) (k, r) l).2 in
  terminalRouteStore r' = terminalRouteStore r /\
  forall tid (x : terminalSessionRoute), terminalSessionToNode r' !! tid = Some x <->
    terminalSessionToNode r !! tid = Some x /\ ~ (tid ∈ l /\ NodeID x = nid).
Proof.
  revert k r. induction l as [|sid l IH]; intros k r; cbn [foldl].
  - split; [done|]. intros tid x. cbn. pose proof (not_elem_of_nil tid). naive_solver.
  - pose proof (remove_one nid k r sid) as H1.
    assert (terminalRouteStore (remove_node_route nid (k, r) sid).2 = terminalRouteStore r) as E1.
    { unfold remove_node_route. by repeat case_match. }
    destruct (remove_node_route nid (k, r) sid) as [k1 r1]. cbn [snd] in *. destruct (IH k1 r1) as [E2 H2]. split; [congruence|].
    intros tid x. rewrite H2, H1, elem_of_cons. naive_solver.
Qed.

Definition without_routes n d : DB := (delete_routes (fun _ row => bool_decide (r_NodeID row = n)) d).2.

Lemma delete_by_node_healthy node d (r : Routes Conn) :
  routes_ok r -> trim node <> "" -> terminalRouteStore r = Some (mkConn d []) ->
  exists k r', deleteTerminalSessionRoutesByNode node r = (Ok k, r') /\
    terminalRouteStore r' = Some (mkConn (without_routes (trim node) d) []) /\
    forall tid (x : terminalSessionRoute), terminalSessionToNode r' !! tid = Some x <->
      terminalSessionToNode r !! tid = Some x /\ NodeID x <> trim node.
Proof.
  intros Hok Hne Hst. unfold deleteTerminalSessionRoutesByNode. rewrite bool_decide_false by done.
  unfold call_store. rewrite Hst. cbn. rewrite trim_trim. set (r1 := with_store _ r).
  destruct (remove_fold (trim node) (elements (index_of r1 (trim node))) 0 r1) as [E H].
  destruct (foldl _ _ _) as [k r']. exists k, r'. split_and!; [done|done|]. intros tid x. rewrite H, elem_of_elements.
  change (index_of r1) with (index_of r). rewrite (ok_index _ Hok). cbn. naive_solver.
Qed.

Definition without_worker n d : DB :=
  (delete_nodes (fun k _ => bool_decide (k = n)) (with_credentials (delete n) (without_routes n d))).2.

Lemma deleteCredential_eq n s :
  trim n = n -> n <> "" ->
  deleteCredential n s = (bool_decide (is_Some (svc_credentials s !! n)), with_svc_credentials (delete n (svc_credentials s)) s).
Proof.
  intros Ht Hne. unfold deleteCredential. rewrite Ht, bool_decide_false by done.
  destruct (svc_credentials s !! n) as [v|] eqn:E; [by rewrite bool_decide_true by eauto|].
  rewrite bool_decide_false by apply is_Some_None. rewrite (delete_id _ _ E). by destruct s.
Qed.

(** The worker is known to the console or to its database. *)
Definition known_worker n d s : bool :=
  bool_decide (is_Some (svc_credentials s !! n)) || bool_decide (is_Some (worker_credentials d !! n)) ||
  bool_decide (is_Some (worker_nodes d !! n)).

Lemma revoke_eq node d s :
  healthy s d -> routes_ok (svc_routes s) -> trim node <> "" ->
  exists r', terminalRouteStore r' = Some (mkConn (without_worker (trim node) d) []) /\
    (forall tid (x : terminalSessionRoute), terminalSessionToNode r' !! tid = Some x <->
      terminalSessionToNode (svc_routes s) !! tid = Some x /\ NodeID x <> trim node) /\
    let s2 := with_svc_credentials (delete (trim node) (svc_credentials s)) (with_svc_routes r' s) in
    DeleteProvisionedWorker node s =
      if known_worker (trim node) d s then (Ok true, disconnectWorker (trim node) "worker credential revoked" s2) else (Ok false, s2).
Proof.
  intros Hs Hok Hne. set (n := trim node) in *. assert (trim n = n) as Hn by apply trim_trim.
  destruct (delete_by_node_healthy n d (svc_routes s)) as (k&r&E&Est&Hr); [done|by rewrite Hn|exact Hs|]. rewrite Hn in Est, Hr.
  exists (with_store (Some (mkConn (without_worker n d) [])) r). split_and!; [done|done|]. cbn zeta.
  unfold DeleteProvisionedWorker. fold n. rewrite bool_decide_false by done. unfold run_routes. rewrite E.
  rewrite deleteCredential_eq by done.
  set (s1 := with_svc_credentials _ _). assert (healthy s1 (without_routes n d)) as H1 by exact Est.
  assert (query false (DeleteCredential n) s1 =
    (bool_decide (is_Some (worker_credentials d !! n)), set_db (with_credentials (delete n) (without_routes n d)) s1)) as ->.
  { apply (healthy_query _ _ _ _ _ _ H1). unfold DeleteCredential. rewrite Hn, bool_decide_false by done.
    unfold or_else, DeleteWorkerCredentialByNode, write, mbind, M_bind, stmt. cbn -[count]. rewrite count_key.
    change (worker_credentials (cascade_routes _ _)) with (worker_credentials d). by destruct (worker_credentials d !! n). }
  set (s2 := set_db _ s1). set (d2 := with_credentials _ _) in *. assert (healthy s2 d2) as H2 by done.
  assert (query false (Delete n) s2 = (bool_decide (is_Some (worker_nodes d !! n)), set_db (without_worker n d) s2)) as ->.
  { apply (healthy_query _ _ _ _ _ _ H2). unfold Delete. rewrite Hn, bool_decide_false by done.
    unfold catch, DeleteWorkerNodeByID, write, mbind, M_bind, stmt. cbn -[count]. rewrite count_key.
    change (worker_nodes d2) with (worker_nodes d). by destruct (worker_nodes d !! n). }
  unfold known_worker. rewrite <- !negb_orb. by destruct (_ || _).
Qed.

Lemma without_worker_rows n d :
  worker_nodes (without_worker n d) !! n = None /\ worker_credentials (without_worker n d) !! n = None /\
  (forall m, m <> n -> worker_nodes (without_worker n d) !! m = worker_nodes d !! m /\
    worker_credentials (without_worker n d) !! m = worker_credentials d !! m) /\
  (forall tid row, terminal_session_routes (without_worker n d) !! tid = Some row <->
    terminal_session_routes d !! tid = Some row /\ r_NodeID row <> n).
Proof.
  cbn. rewrite !lookup_keep, lookup_delete_eq. split_and!; [|done| |].
  - destruct (worker_nodes d !! n); cbn; [|done]. by rewrite bool_decide_true.
  - intros m Hm. rewrite !lookup_keep, lookup_delete_ne by done. rewrite bool_decide_false by done. split.
    + by destruct (worker_nodes d !! m).
    + destruct (worker_credentials d !! m); [|done]. cbn. by destruct (worker_nodes d !! m).
  - intros tid row. rewrite lookup_keep_Some, bool_decide_eq_false. done.
Qed.

Lemma disconnectWorker_healthy n reason d s :
  healthy s d -> trim n = n -> n <> "" -> worker_nodes d !! n = None ->
  let s' := disconnectWorker n reason s in
  healthy s' d /\ svc_credentials s' = svc_credentials s /\ svc_sessions s' = delete n (svc_sessions s) /\
  terminalSessionToNode (svc_routes s') = terminalSessionToNode (svc_routes s) /\ closed_in (svc_sessions s !! n) s s'.
Proof.
  intros Hs Ht Hne Hw s'. subst s'. unfold disconnectWorker. rewrite Ht, bool_decide_false by done.
  set (s1 := with_svc_sessions _ _ s).
  assert (run_db no_store (ClearSessionByNode n) s1 = (Ok tt, set_db d s1)) as ->.
  { unfold run_db. change (svc_conn s1) with (svc_conn s). rewrite Hs. unfold ClearSessionByNode, ClearWorkerSessionByNode.
    rewrite Ht. unfold write, mbind, M_bind, stmt, update_node. cbn. by rewrite Hw. }
  cbn [snd]. destruct (svc_sessions s !! n) as [sid|].
  - set (s2 := set_db d s1). pose proof (close_session_heap sid (Some (StatusError PermissionDenied reason)) s2) as Hc.
    split_and!; [|unfold close_session, on_session; by case_match|by rewrite close_session_table|by rewrite close_session_rest|exact Hc].
    unfold healthy, svc_conn. by rewrite close_session_rest.
  - split_and!; [done..|]. intros sid x Hx. by exists x.
Qed.

Lemma unknown_worker_refused env events hello s :
  ce_first env = Ok (Hello hello) -> credential_of (trim (NodeId hello)) s = None -> exists e, (Connect env events s).1 = Some (Err e).
Proof.
  intros Hf Hc. unfold Connect. pose proof (authenticate_spec env s) as Ha. destruct (authenticate env s) as [[hello'|e] s1]; [|by exists e].
  destruct Ha as [_ Ha]. destruct (Ha _ eq_refl) as (hello2&cred&Hf2&_&Hc2&_). congruence.
Qed.

End revoke.

(** ** A worker that is provisioned *)
Section provision.
Implicit Types (s : RegistryService) (d : DB) (n : string).

(** Nothing but credentials and the database changes. *)
Definition aside s s' : Prop :=
  svc_sessions s' = svc_sessions s /\ svc_heap s' = svc_heap s /\ svc_config s' = svc_config s /\
  terminalSessionToNode (svc_routes s') = terminalSessionToNode (svc_routes s).

#[export] Instance aside_preorder : PreOrder aside.
Proof. split; [by intros s; split_and!|]. intros s1 s2 s3 (?&?&?&?) (?&?&?&?). split_and!; congruence. Qed.

Lemma aside_query {A} (dflt : A) (m : M A) s : aside s (query dflt m s).2.
Proof. unfold query, run_db. destruct (svc_conn s) as [c|]; [|done]. by destruct (m c) as [[]]. Qed.

Lemma query_not_default {A} (dflt : A) (m : M A) s a s' :
  query dflt m s = (a, s') -> a <> dflt ->
  exists c c', svc_conn s = Some c /\ m c = (Ok a, c') /\ s' = with_svc_routes (with_store (Some c') (svc_routes s)) s.
Proof.
  unfold query, run_db. destruct (svc_conn s) as [c|] eqn:E; [|by intros [= <- <-]].
  destruct (m c) as [[b|e] c'] eqn:Em; [|by intros [= <- <-]]. intros [= <- <-] _. by exists c, c'.
Qed.

Lemma aside_put n secret s : aside s (putCredentialIfAbsent n secret s).2.
Proof. unfold putCredentialIfAbsent. by repeat case_match. Qed.

Lemma aside_drop n s : aside s (deleteCredential n s).2.
Proof. unfold deleteCredential. by repeat case_match. Qed.

Definition stored_secret s (secret : string) : string :=
  match cfg_hasher (svc_config s) with Some h => h secret | None => secret end.

(** The attempt that succeeds. *)
Lemma provision_loop_ok ids owner ty now ttl s id secret s' :
  provision_loop ids owner ty now ttl s = (Ok (id, secret), s') ->
  (Ok id, Ok secret) ∈ ids /\ exists s0 s1 s2 algo, aside s s0 /\
    query 0 (SeedProvisionedWorkers [mkProvisioned id (provisioned_labels owner ty)] now ttl) s0 = (1, s1) /\
    putCredentialIfAbsent id (stored_secret s secret) s1 = (true, s2) /\
    query false (PutCredentialHashIfAbsent id (stored_secret s secret) algo now) s2 = (true, s').
Proof.
  revert s. induction ids as [|[[w|e] [sec|e']] ids IH]; intros s; cbn [provision_loop]; try done.
  assert (forall s1, aside s s1 -> provision_loop ids owner ty now ttl s1 = (Ok (id, secret), s') ->
    (Ok id, Ok secret) ∈ (Ok w, Ok sec) :: ids /\ exists s0 s1 s2 algo, aside s s0 /\
    query 0 (SeedProvisionedWorkers [mkProvisioned id (provisioned_labels owner ty)] now ttl) s0 = (1, s1) /\
    putCredentialIfAbsent id (stored_secret s secret) s1 = (true, s2) /\
    query false (PutCredentialHashIfAbsent id (stored_secret s secret) algo now) s2 = (true, s')) as Hagain.
  { intros s1 H1 [Hin (s2&s3&s4&algo&H2&E)]%IH. split; [by right|]. exists s2, s3, s4, algo. split; [by etrans|].
    unfold stored_secret in *. by destruct H1 as (_&_&<-&_). }
  pose proof (aside_query 0 (SeedProvisionedWorkers [mkProvisioned w (provisioned_labels owner ty)] now ttl) s) as A1.
  destruct (query 0 _ s) as [k s1] eqn:E1. cbn [snd] in A1. destruct (k =? 1) eqn:Ek; cbn [negb]; [|by apply Hagain].
  apply Z.eqb_eq in Ek as ->. fold (stored_secret s1 sec).
  assert (stored_secret s1 sec = stored_secret s sec) as -> by (unfold stored_secret; by destruct A1 as (_&_&->&_)).
  pose proof (aside_put w (stored_secret s sec) s1) as A2. destruct (putCredentialIfAbsent _ _ s1) as [[] s2] eqn:E2; cbn [snd] in A2.
  2:{ apply Hagain. etrans; [exact A1|]. etrans; [exact A2|]. apply aside_query. }
  set (algo := if bool_decide _ then _ else _).
  pose proof (aside_query false (PutCredentialHashIfAbsent w (stored_secret s sec) algo now) s2) as A3.
  destruct (query false (PutCredentialHashIfAbsent _ _ _ _) s2) as [[] s3] eqn:E3; cbn [snd] in A3.
  - intros [= <- <- <-]. split; [by left|]. exists s, s1, s2, algo. by split_and!.
  - apply Hagain. etrans; [exact A1|]. etrans; [exact A2|]. etrans; [exact A3|]. etrans; [apply aside_drop|apply aside_query].
Qed.

Lemma seed_ok id labels now ttl c c' :
  SeedProvisionedWorkers [mkProvisioned id labels] now ttl c = (Ok 1, c') ->
  let n := trim id in
  n <> "" /\ worker_nodes (data c) !! n = None /\
  (exists w, worker_nodes (data c') !! n = Some w /\ wn_Provisioned w = true /\ wn_SessionID w = "") /\
  (forall k v, labels !! k = Some v -> worker_labels (data c') !! (n, k) = Some v) /\
  worker_credentials (data c') = worker_credentials (data c).
Proof.
  unfold SeedProvisionedWorkers. cbn [foldl]. unfold seedProvisionedWorker. cbn [pw_NodeID pw_Labels].
  intros (a&c1&[= <- <-]&(k&c2&Hk&E)%bind_ok)%bind_ok. injection E as Ek <-. assert (k = 1) as -> by lia. destruct (bool_decide (trim id = "")) eqn:Hn; [done|].
  apply bind_ok in Hk as (r&c3&Hc%catch_data&E). injection E as Hr ->. destruct r as [z|e]; [|done].
  destruct (z =? 1) eqn:Hz; [|done]. apply Z.eqb_eq in Hz as ->. apply WithTx_ok in Hc as (c4&c5&D4&Hb&D5).
  apply bind_ok in Hb as (rows&c6&Hi%write_ok&Hb). destruct (rows =? 0) eqn:Er; [by injection Hb as -> ->|].
  apply bind_ok in Hb as ([]&c7&Hl%insert_labels_ok&E). injection E as E7 <-. rewrite D4 in Hi.
  destruct (worker_nodes (data c) !! trim id) eqn:Ew; [by injection Hi as <- _|]. injection Hi as _ E6.
  rewrite D5, Hl, <- E6. apply bool_decide_eq_false in Hn. split_and!; [done|done| | |done].
  - eexists. cbn. rewrite lookup_insert_eq. by split.
  - intros k v Hv. cbn. rewrite lookup_insert_rows, decide_True by done. rewrite (list_to_map_proper _ (map_to_list labels)).
    + by rewrite list_to_map_to_list, Hv.
    + rewrite reverse_Permutation. apply NoDup_fst_map_to_list.
    + apply reverse_Permutation.
Qed.

Lemma put_credential_ok n secret s s' :
  putCredentialIfAbsent n secret s = (true, s') ->
  trim secret <> "" /\ s' = with_svc_credentials (<[trim n := trim secret]> (svc_credentials s)) s.
Proof.
  unfold putCredentialIfAbsent. destruct (bool_decide (trim n = "")); [done|]. case_bool_decide; [done|]. cbn.
  by destruct (svc_credentials s !! trim n); intros [= <-].
Qed.

Lemma store_credential_ok n secret algo now c c' :
  PutCredentialHashIfAbsent n secret algo now c = (Ok true, c') ->
  exists row, worker_credentials (data c') !! trim n = Some row /\ wc_SecretHash row = trim secret /\
    worker_nodes (data c') = worker_nodes (data c) /\ worker_labels (data c') = worker_labels (data c).
Proof.
  unfold PutCredentialHashIfAbsent. destruct (_ || _); [done|]. unfold or_else.
  intros (r&c1&Hc%catch_data&E)%bind_ok. injection E as Hr ->. destruct r as [b|e]; cbn in Hr; [subst b|done].
  apply bind_ok in Hc as (z&c2&Hi%stmt_ok&E). injection E as Ez ->. apply Z.eqb_eq in Ez as ->.
  destruct (worker_credentials (data c) !! trim n); [done|]. destruct (worker_nodes (data c) !! trim n); [|done].
  injection Hi as <-. eexists. cbn. rewrite lookup_insert_eq. by split_and!.
Qed.

(** A hello with the secret of the worker passes. *)
Lemma authenticate_ok env hello credential s :
  ce_ctx env = None -> ce_first env = Ok (Hello hello) -> validateHello hello = Ok tt ->
  svc_credentials s !! trim (NodeId hello) = Some credential -> trim (WorkerSecret hello) <> "" ->
  secret_matches s credential (trim (WorkerSecret hello)) = true ->
  authenticate env s = resolveHelloByWorkerType hello s.
Proof.
  intros Hctx Hf Hv Hc Hs Hm. unfold authenticate, getCredential. rewrite Hctx, Hf, Hv.
  rewrite (bool_decide_false (trim (NodeId hello) = "")).
  - by rewrite Hc, bool_decide_false, Hm by done.
  - unfold validateHello, validateNodeID in Hv. by case_bool_decide.
Qed.

End provision.

(** ** Workers of the type worker-sys *)
Section sys.
Implicit Types (s : RegistryService) (d : DB).

Lemma healthy_worker_type node s d :
  healthy s d -> trim node <> "" ->
  query "" (WorkerTypeByNodeID node) s =
    (normalizeWorkerType (default "" (worker_labels d !! (trim node, LabelWorkerTypeKey))), set_db d s).
Proof.
  intros Hs Hn. apply (healthy_query _ _ _ _ _ _ Hs). unfold WorkerTypeByNodeID, LabelsByNodeID.
  rewrite bool_decide_false by done. unfold or_else, mbind, M_bind, catch, ListWorkerLabelsByNode, read, stmt. cbn -[labels_of_rows].
  unfold resolveWorkerType. fold (label_rows (trim node) (worker_labels d)). by rewrite lookup_label_rows.
Qed.

Definition sys_capability (c : CapabilityDeclaration) : Prop :=
  normalizeCapability (cd_Name c) = computerUseCapabilityName \/ normalizeCapability (cd_Name c) = readImageCapabilityName.

Lemma resolve_sys_ok hello hello' :
  resolve_sys_hello hello = Ok hello' ->
  (forall c, Some c ∈ Capabilities hello -> sys_capability c) /\ (forall c, Some c ∈ Capabilities hello' -> sys_capability c) /\
  HelloTerminalSessionCapacity hello' = None /\ NodeId hello' = NodeId hello.
Proof.
  unfold resolve_sys_hello. destruct (foldl _ _ _) as [m|] eqn:Ef; [|done]. case_bool_decide; [done|]. intros [= <-].
  split_and!; [| |done|done].
  - cut (forall acc m, foldl allow_capability acc (Capabilities hello) = Some m ->
      is_Some acc /\ forall c, Some c ∈ Capabilities hello -> sys_capability c); [by intros H1; apply (H1 _ _ Ef)|].
    generalize (Capabilities hello). clear. induction l as [|c l IH]; intros acc m.
    { intros E. cbn in E. subst acc. split; [done|]. by intros c ?%elem_of_nil. }
    intros [Hacc Hl]%IH. destruct acc as [m1|]; [|by destruct c, Hacc]. split; [done|].
    intros c' [<-|Hin]%elem_of_cons; [|by apply Hl]. cbn in Hacc. unfold workerSysAllowedCapabilities in Hacc.
    unfold sys_capability. case_bool_decide; [by left|]. case_bool_decide; [by right|by destruct Hacc].
  - cbn. intros c Hc. destruct (m !! computerUseCapabilityName), (m !! readImageCapabilityName);
      rewrite ?elem_of_cons, elem_of_nil in Hc; destruct_or?; try done; injection Hc as ->; by (left + right).
Qed.

Lemma capabilities_declared hello name cap :
  capabilitiesFromHello hello !! name = Some cap -> exists c, Some c ∈ Capabilities hello /\ normalizeCapability (cd_Name c) = name.
Proof.
  unfold capabilitiesFromHello. generalize (Capabilities hello). intros l. revert cap.
  induction l as [|c l IH] using rev_ind; intros cap; [by cbn; rewrite lookup_empty|]. rewrite foldl_app. cbn [foldl]. intros H.
  assert (foldl add_capability ∅ l !! name = Some cap \/ exists c', c = Some c' /\ normalizeCapability (cd_Name c') = name) as [Hl|(c'&->&E)].
  { destruct c as [c|]; cbn in H; [|by left]. destruct (bool_decide _); [by left|]. rewrite lookup_insert in H.
    case_decide as E; [right; by exists c|by left]. }
  - destruct (IH _ Hl) as (c'&Hin&E). exists c'. split; [|done]. apply elem_of_app. by left.
  - exists c'. split; [|done]. apply elem_of_app. right. by apply list_elem_of_singleton.
Qed.

Lemma healthy_getCredential node s d r s' : healthy s d -> getCredential node s = (r, s') -> healthy s' d.
Proof.
  intros Hs. unfold getCredential. destruct (bool_decide _); [by intros [= _ <-]|].
  destruct (svc_credentials s !! trim node); [by intros [= _ <-]|]. unfold query, run_db. rewrite Hs.
  unfold GetCredentialHash. destruct (bool_decide _); [by intros [= _ <-]|].
  unfold or_else, mbind, M_bind, catch, GetWorkerCredentialByNode, read_one, stmt, one_row. cbn.
  destruct (worker_credentials d !! trim (trim node)); cbn; [destruct (bool_decide _)|]; by intros [= _ <-].
Qed.

End sys.

(** ** Properties *)

(** A stream, from its first frame to its end, keeps everything on
    which dispatching relies: the slot accounts of all sessions, the invariant
    of the route table, the form of the session table and the task table;
    whatever frames arrive, however it ends, and whatever other goroutines that
    keep the same things do in between. It assumes that the new session id is
    fresh and that the worker's node id has no surrounding space. *)
Theorem connections_keep_the_accounts env events sid held s :
  (forall i s, calm s (ce_others env i s)) -> (forall i s, calm s (ce_cleanup env i s)) ->
  (forall others ev, (others, ev) ∈ events -> forall s, calm s (others s)) ->
  (forall hello, ce_first env = Ok (Hello hello) -> trim (NodeId hello) = NodeId hello) ->
  ce_sessionID env = Ok sid -> svc_heap s !! sid = None -> held sid = [] ->
  sessions_ok held s -> routes_ok (svc_routes s) -> trimmed_table s ->
  let s' := (Connect env events s).2 in
  sessions_ok held s' /\ routes_ok (svc_routes s') /\ trimmed_table s' /\ tasks_of s' = tasks_of s.
Proof.
  intros Ho Hc He Htrim Hsid Hf Hh Hok Hr Ht s'. subst s'.
  enough (calm_new sid s (Connect env events s).2) as (A&B&C&D).
  { split_and!; [by apply A|by apply D|by apply B|done]. }
  unfold Connect. pose proof (authenticate_spec env s) as Ha. destruct (authenticate env s) as [[hello'|e] s1]; destruct Ha as [Hp Ha].
  2:{ by apply calm_calm_new, probe_calm. }
  destruct (Ha _ eq_refl) as (hello&cred&Hfirst&_&_&_&_&En). apply Htrim in Hfirst. rewrite <- En in Hfirst.
  assert (svc_heap s1 !! sid = None) as Hf1 by (by destruct Hp as (_&->&_)).
  pose proof (open_session_calm env hello' s1 sid Hsid Hf1 Hfirst) as Had. destruct (open_session env hello' s1) as [[sid'|e] s2]; destruct Had as [Hn Hs].
  all: assert (calm_new sid s s2) as H2.
  1,3: (destruct (probe_calm _ _ Hp) as (A1&B1&C1&D1&E1&_); destruct Hn as (A2&C2&D2&E2); split_and!; [auto..|congruence|by etrans]).
  2: done.
  destruct (Hs _ eq_refl) as [-> (x&Hx&Hnode)].
  pose proof (calm_register env hello' sid s2 x Ho Hx ltac:(by rewrite Hnode)) as H3.
  destruct (register env hello' sid s2) as [[[]|e] s3]; cbn [snd] in H3; (eapply calm_new_then; [exact H2|]; etrans; [exact H3|]).
  2: by apply calm_disconnect.
  pose proof (calm_loop sid events s3 He) as H4. destruct (conn_loop sid events s3) as [[r|] s4]; cbn [snd] in *; [|done].
  etrans; [exact H4|]. by apply calm_disconnect.
Qed.

(** A stream changes nothing unless its first frame is a valid hello
    with the secret of a worker the console knows: otherwise it is refused, no
    session is created, replaced or closed, and the database and the routes are
    as they were. *)
Theorem only_credentialed_workers_connect env events s :
  let '(r, s') := Connect env events s in
  (exists hello credential, ce_first env = Ok (Hello hello) /\ validateHello hello = Ok tt /\
     credential_of (trim (NodeId hello)) s = Some credential /\
     trim (WorkerSecret hello) <> "" /\ secret_matches s credential (trim (WorkerSecret hello)) = true) \/
  ((exists e, r = Some (Err e)) /\ svc_sessions s' = svc_sessions s /\ svc_heap s' = svc_heap s /\ svc_db s' = svc_db s /\
   terminalSessionToNode (svc_routes s') = terminalSessionToNode (svc_routes s) /\ svc_tasks s' = svc_tasks s).
Proof.
  unfold Connect. pose proof (authenticate_spec env s) as Ha. destruct (authenticate env s) as [[hello'|e] s1]; destruct Ha as [Hp Ha].
  - destruct (Ha _ eq_refl) as (hello&cred&H1&H2&H3&H4&H5&_).
    match goal with |- let '(_, _) := ?x in _ => destruct x end. left. eauto 10.
  - right. destruct Hp as (?&?&?&?&?&[c Hc]). split_and!; [by exists e|done..| |done]. by rewrite Hc.
Qed.

(** A worker has one session. With the replace policy a new stream
    takes the place of its worker and the session it replaces is closed; with the
    reject policy a stream is admitted only if the place is free, its session
    closed, or its heartbeat older than the offline window, in which case that
    session is closed; otherwise nothing changes. No other session is touched. *)
Theorem one_session_per_worker sid x now s :
  svc_heap s !! sid = Some x -> svc_sessions s !! nodeID x <> Some sid ->
  (cfg_policy (svc_config s) = WorkerConnectionConflictPolicyReplace ->
     svc_sessions (take_place sid s) = <[nodeID x := sid]> (svc_sessions s) /\
     closed_in (svc_sessions s !! nodeID x) s (take_place sid s)) /\
  (let '(claimed, s') := claimSessionIfAvailable sid x now s in
   match session_ref (nodeID x) s with
   | Some (old, y) =>
       let alive := bool_decide (closedErr y = None) && (time_sub now (of_unix_milli (lastHeartbeatUnixMs y)) <=? offlineTTL s) in
       claimed = negb alive /\
       if alive then s' = s
       else svc_sessions s' = <[nodeID x := sid]> (svc_sessions s) /\ (exists y', svc_heap s' !! old = Some y' /\ closedErr y' <> None) /\
            forall sid' z, sid' <> old -> svc_heap s !! sid' = Some z -> svc_heap s' !! sid' = Some z
   | None => claimed = true /\ svc_sessions s' = <[nodeID x := sid]> (svc_sessions s) /\ svc_heap s' = svc_heap s
   end).
Proof.
  intros Hx Hne. split.
  - intros Hp. unfold take_place, swapSession. rewrite Hp, Hx. destruct (svc_sessions s !! nodeID x) as [old|].
    + split; [by rewrite close_session_table|]. exact (close_session_heap old _ (install_session sid x s)).
    + split; [done|]. intros sid' y Hy. by exists y.
  - unfold claimSessionIfAvailable. destruct (session_ref (nodeID x) s) as [[old y]|] eqn:Er; [|done].
    apply session_ref_some in Er as [_ Hy]. destruct (closedErr y) as [e|] eqn:Ec.
    { rewrite bool_decide_false by done. cbn. split_and!; [done|done|exists y; by rewrite Ec|done]. }
    rewrite bool_decide_true by done. cbn [andb]. destruct (time_sub _ _ <=? _); [done|]. cbn [negb]. split; [done|].
    set (s1 := close_session old _ s). pose proof (close_session_heap old (Some (StatusError FailedPrecondition "session heartbeat expired")) s) as Hh.
    split_and!; [exact (f_equal (insert (nodeID x) sid) (close_session_table old _ s))| |].
    + destruct (Hh _ _ Hy) as (y'&Hy'&Hcl). rewrite bool_decide_true in Hcl by done. by exists y'.
    + intros sid' z Hsid Hz. destruct (Hh _ _ Hz) as (z'&Hz'&E). rewrite bool_decide_false in E by congruence. by subst z'.
Qed.

(** When a stream ends, its session is closed and leaves its place,
    and (if no other goroutine runs in between) its worker's sessions become
    unavailable and its provisional ones are dropped; if another session has
    taken the place since, the place, the routes and the database are left to
    it. No other session is touched. *)
Theorem disconnect_cleans_up_only_its_own_session sid node r s x :
  svc_heap s !! sid = Some x -> routes_ok (svc_routes s) -> trim node <> "" ->
  let s' := disconnect (fun _ s => s) sid node r s in
  closed_in (Some sid) s s' /\
  (if bool_decide (svc_sessions s !! node = Some sid)
   then svc_sessions s' = delete node (svc_sessions s) /\
        forall tid route, terminalSessionToNode (svc_routes s') !! tid = Some route -> NodeID route = trim node ->
          RecoveryState route = terminalSessionRecoveryUnavailable /\ ReservationID route = 0
   else svc_sessions s' = svc_sessions s /\ svc_routes s' = svc_routes s).
Proof.
  intros Hx Hok Hne s'. subst s'. unfold disconnect, removeSession. case_bool_decide as Hp.
  - set (s1 := with_svc_sessions _ _ s). pose proof (mark_routes node s1) as Hm.
    assert (svc_heap (run_routes (markTerminalSessionRoutesUnavailable node) s1).2 = svc_heap s /\
      svc_sessions (run_routes (markTerminalSessionRoutesUnavailable node) s1).2 = delete node (svc_sessions s)) as [E1 E2].
    { unfold run_routes. by destruct (markTerminalSessionRoutesUnavailable node (svc_routes s1)). }
    set (s2 := (run_routes _ s1).2) in *. set (s3 := (run_db no_store (ClearSession node sid) s2).2).
    assert (svc_heap s3 = svc_heap s2 /\ svc_sessions s3 = svc_sessions s2 /\
      terminalSessionToNode (svc_routes s3) = terminalSessionToNode (svc_routes s2)) as (F1&F2&F3).
    { unfold s3, run_db. destruct (svc_conn s2); [|done]. by destruct (ClearSession _ _ _). }
    split_and!.
    + intros sid' y Hy. apply close_session_heap. by rewrite F1, E1.
    + by rewrite close_session_table, F2, E2.
    + intros tid route. rewrite close_session_rest, F3. by apply Hm.
  - split_and!; [apply close_session_heap|apply close_session_table|apply close_session_rest].
Qed.

(** A worker that is provisioned exists: it got one of the first
    eight generated identities; its row is provisioned and carries the owner and the type it was created for; its secret is stored
    hashed; nothing else of the service changed; and a hello with its id and
    secret passes authentication. The generated secret and the hash have no
    surrounding space, since they are hexadecimal. *)
Theorem provisioned_worker_can_connect ids owner ty now ttl s id secret s' :
  CreateProvisionedWorkerForOwner ids owner ty now ttl s = (Ok (id, secret), s') ->
  trim secret = secret -> secret <> "" -> trim (stored_secret s secret) = stored_secret s secret ->
  (exists i, (i < maxProvisioningCreateAttempts)%nat /\ ids i = (Ok id, Ok secret)) /\ aside s s' /\
  (exists d w row, svc_db s' = Some d /\ worker_nodes d !! trim id = Some w /\ wn_Provisioned w = true /\
     worker_labels d !! (trim id, LabelOwnerIDKey) = Some (trim owner) /\
     worker_labels d !! (trim id, LabelWorkerTypeKey) = Some (normalizeProvisioningWorkerType ty) /\
     worker_credentials d !! trim id = Some row /\ wc_SecretHash row = stored_secret s secret) /\
  forall env hello, ce_ctx env = None -> ce_first env = Ok (Hello hello) -> validateHello hello = Ok tt ->
    NodeId hello = id -> WorkerSecret hello = secret -> authenticate env s' = resolveHelloByWorkerType hello s'.
Proof.
  unfold CreateProvisionedWorkerForOwner. case_bool_decide; [done|]. case_bool_decide; [done|].
  intros [Hin (s0&s1&s2&algo&A0&Q1&P&Q2)]%provision_loop_ok Ht Hne Hst.
  apply list_elem_of_fmap in Hin as (i&Hi&[_ Hlt]%elem_of_seq).
  assert (aside s0 s1) as A1 by (erewrite <- (f_equal snd Q1 : _ = s1); apply aside_query).
  apply query_not_default in Q1 as (c0&c1&_&Hseed&E1); [|done]. apply seed_ok in Hseed as (_&_&(w&Hw&Hp&_)&Hl&_).
  apply put_credential_ok in P as [Hs2 E2]. rewrite Hst in Hs2, E2.
  apply query_not_default in Q2 as (c2&c3&Hc2&Hput&E3); [|done].
  assert (c2 = c1) as -> by (subst s2 s1; cbn in Hc2; congruence).
  apply store_credential_ok in Hput as (row&Hrow&Hh&Hn&Hlab). rewrite Hst in Hh.
  assert (aside s s') as A by (etrans; [exact A0|]; etrans; [exact A1|]; by subst s' s2).
  split_and!; [by exists i|done| |].
  - exists (data c3), w, row. rewrite Hn, Hlab. split_and!; [by subst s'|done|done| | |done..]; by apply Hl.
  - intros env hello Hctx Hf Hv Eid Esec. eapply authenticate_ok; [done..| | |].
    + subst s' s2. cbn. by rewrite Eid, lookup_insert_eq.
    + by rewrite Esec, Ht.
    + rewrite Esec, Ht. unfold secret_matches. destruct A as (_&_&->&_). unfold stored_secret in *.
      destruct (cfg_hasher (svc_config s)); [unfold Hasher_Equal; by rewrite Hst, bool_decide_true|by rewrite bool_decide_true].
Qed.

(** Revoking a worker, with a database that answers, leaves nothing
    of it: its credential is gone from memory and from the database, its row
    and its terminal sessions too, and its session is out of the table and
    closed; other workers and their sessions are untouched; and a stream that
    later says hello with its id is refused. The call reports whether the
    worker was known. *)
Theorem revoked_worker_is_gone node d s :
  healthy s d -> routes_ok (svc_routes s) -> trim node <> "" ->
  let n := trim node in
  let '(r, s') := DeleteProvisionedWorker node s in
  r = Ok (known_worker n d s) /\ credential_of n s' = None /\
  (exists d', healthy s' d' /\ worker_nodes d' !! n = None /\
     (forall m, m <> n -> worker_nodes d' !! m = worker_nodes d !! m /\ worker_credentials d' !! m = worker_credentials d !! m) /\
     (forall tid row, terminal_session_routes d' !! tid = Some row <-> terminal_session_routes d !! tid = Some row /\ r_NodeID row <> n)) /\
  (forall tid route, terminalSessionToNode (svc_routes s') !! tid = Some route <->
     terminalSessionToNode (svc_routes s) !! tid = Some route /\ NodeID route <> n) /\
  (known_worker n d s = true -> svc_sessions s' = delete n (svc_sessions s) /\ closed_in (svc_sessions s !! n) s s') /\
  (forall env events hello, ce_first env = Ok (Hello hello) -> trim (NodeId hello) = n ->
     exists e, (Connect env events s').1 = Some (Err e)).
Proof.
  intros Hs Hok Hne n. destruct (revoke_eq node d s Hs Hok Hne) as (r'&Est&Hr&->). fold n in Est, Hr |- *.
  set (s2 := with_svc_credentials _ _). assert (healthy s2 (without_worker n d)) as H2 by exact Est.
  destruct (without_worker_rows n d) as (Hw&Hc&Hrest&Hrows).
  destruct (disconnectWorker_healthy n "worker credential revoked" _ s2 H2) as (D1&D2&D3&D4&D5); [apply trim_trim|done..|].
  assert (forall s', healthy s' (without_worker n d) -> svc_credentials s' = svc_credentials s2 -> credential_of n s' = None) as Hcred.
  { intros s' H' E. unfold credential_of, svc_db. rewrite E, H'. cbn -[without_worker]. by rewrite lookup_delete_eq, Hc. }
  assert (forall s', credential_of n s' = None -> forall env events hello, ce_first env = Ok (Hello hello) -> trim (NodeId hello) = n ->
     exists e, (Connect env events s').1 = Some (Err e)) as Hrefuse.
  { intros s' H' env events hello Hf Hn. eapply unknown_worker_refused; [done|by rewrite Hn]. }
  destruct (known_worker n d s); (split_and!; [done|by apply Hcred|by exists (without_worker n d)| | |by apply Hrefuse, Hcred]).
  - intros tid route. rewrite D4. apply Hr.
  - intros _. by split.
  - exact Hr.
  - done.
Qed.

(** A worker that was provisioned as worker-sys, with a database
    that answers, is admitted only if all the capabilities it declares are
    computerUse and readImage, and its session offers nothing else, declares no
    terminal capacity and needs no recovery. *)
Theorem sys_workers_only_use_the_computer env d s hello' s' hello :
  healthy s d -> ce_first env = Ok (Hello hello) -> authenticate env s = (Ok hello', s') ->
  normalizeWorkerType (default "" (worker_labels d !! (trim (NodeId hello), LabelWorkerTypeKey))) = WorkerTypeSys ->
  (forall c, Some c ∈ Capabilities hello -> sys_capability c) /\
  forall sid now, let x := newActiveSessionAt (NodeId hello') sid hello' now in
    (forall name cap, capabilities x !! name = Some cap -> name = computerUseCapabilityName \/ name = readImageCapabilityName) /\
    cs_known (terminalCapacity x) = false /\ recoveryRequired x = false.
Proof.
  intros Hs Hf Ha Hty. assert (resolve_sys_hello hello = Ok hello') as Hr.
  { unfold authenticate in Ha. destruct (ce_ctx env); [done|]. rewrite Hf in Ha. destruct (validateHello hello); [|done].
    pose proof (getCredential_spec (NodeId hello) s) as Hg. destruct (getCredential _ s) as [[credential|] s1] eqn:Eg; [|done].
    destruct Hg as [_ Hg]. destruct (Hg _ eq_refl) as [Hn _]. case_bool_decide; [done|]. destruct (negb _); [done|].
    assert (healthy s1 d) as H1 by (by eapply healthy_getCredential).
    unfold resolveHelloByWorkerType in Ha. rewrite (healthy_worker_type _ _ _ H1 Hn), Hty in Ha. by injection Ha as -> _. }
  destruct (resolve_sys_ok _ _ Hr) as (Hdecl&Hcaps&Hcap&_). split; [done|]. intros sid now x.
  assert (forall name cap, capabilities x !! name = Some cap -> name = computerUseCapabilityName \/ name = readImageCapabilityName) as Hx.
  { intros name cap (c&Hin&<-)%capabilities_declared. by apply Hcaps. }
  split_and!; [done|cbn; by rewrite Hcap|]. cbn. apply bool_decide_eq_false. intros [cap Hc]. by destruct (Hx _ _ Hc).
Qed.

(** ** The hypotheses hold, and some behaviours to know about *)
Section examples.

Definition demo_frame : frame_env := mkFrameEnv demo_now false None CtxDeadline.
Definition demo_connect : connect_env :=
  mkConnectEnv None (Ok (Hello demo_worker_hello)) demo_now (Ok "sid9") demo_now (fun _ s => s) demo_frame (fun _ s => s).
(** The service knows [w1], whose old session is [sid]. *)
Definition demo_known : RegistryService := with_svc_credentials {[ "w1" := "secret" ]} demo_service.
Definition demo_report : conn_event := EvFrame demo_frame (Ok (RecoveryReport [Some (mkRecoveryResult demo_tid RECOVERED)])).
Definition demo_beat : conn_event := EvFrame demo_frame (Ok (Heartbeat (mkHeartbeat "w1" "sid9" 1))).
Definition demo_eof : conn_event := EvFrame demo_frame (Err (Sentinel ErrEOF)).
Definition quiet (l : list conn_event) : list ((RegistryService -> RegistryService) * conn_event) := (fun ev => (fun s => s, ev)) <$> l.

(** A worker reconnects, confirms its session and beats; then it leaves. *)
Example reconnect_result :
  let s := (Connect demo_connect (quiet [demo_report; demo_beat]) demo_known).2 in
  svc_sessions s = {[ "w1" := "sid9" ]} /\ (svc_heap s !! "sid" ≫= closedErr) <> None /\
  isReady <$> (svc_heap s !! "sid9") = Some true /\
  RecoveryState <$> (terminalSessionToNode (svc_routes s) !! demo_tid) = Some terminalSessionRecoveryReady.
Proof. vm_compute. done. Qed.

Example leave_result :
  let '(r, s) := Connect demo_connect (quiet [demo_report; demo_beat; demo_eof]) demo_known in
  r = Some (Ok tt) /\ svc_sessions s = ∅ /\
  RecoveryState <$> (terminalSessionToNode (svc_routes s) !! demo_tid) = Some terminalSessionRecoveryUnavailable.
Proof. vm_compute. done. Qed.

(** The old stream gives up its place and marks the routes in two critical
    sections: a worker that reconnects and recovers in between has its sessions
    marked unavailable although its new session is ready. *)
Example late_cleanup_hides_recovered_sessions :
  let others i s := if (i =? 0)%nat then (Connect demo_connect (quiet [demo_report]) s).2 else s in
  let s := disconnect others "sid" "w1" (Ok tt) demo_known in
  svc_sessions s !! "w1" = Some "sid9" /\ isReady <$> (svc_heap s !! "sid9") = Some true /\
  RecoveryState <$> (terminalSessionToNode (svc_routes s) !! demo_tid) = Some terminalSessionRecoveryUnavailable /\
  exists e, (pickSessionForDispatch "terminalexec" "o1" demo_tid demo_pick demo_now s).1 = Err e.
Proof. vm_compute. split_and!; [done..|by eexists]. Qed.

(** Credentials are looked up by the trimmed node id and sessions by the one in
    the hello: with surrounding space the worker gets a second session, no
    command reaches it, and revoking the worker leaves it open. *)
Example padded_node_id_escapes_revocation :
  let hello := mkHello " w1" "" "docker" ∅ "1" [Some (mkCapability "terminalExec" 2)] "secret" None in
  let env := mkConnectEnv None (Ok (Hello hello)) demo_now (Ok "sid9") demo_now (fun _ s => s) demo_frame (fun _ s => s) in
  let s := (DeleteProvisionedWorker "w1" (Connect env [] demo_known).2).2 in
  svc_sessions s !! " w1" = Some "sid9" /\ closedErr <$> (svc_heap s !! "sid9") = Some None.
Proof. vm_compute. done. Qed.

(** A revocation whose statements fail still reports success; the credential
    comes back from the database. *)
Example failed_revocation_is_reported_as_done :
  let d := with_credentials <[ "w1" := mkWorkerCredential "secret" "legacy-plain" 0 0 ]> demo_db in
  let s := with_svc_routes (with_store (Some (mkConn d [None; Some "locked"; Some "locked"])) demo_routes) demo_known in
  let '(r, s') := DeleteProvisionedWorker "w1" s in
  r = Ok true /\ (getCredential "w1" s').1 = Some "secret".
Proof. vm_compute. done. Qed.

(** A worker-sys is held to its capabilities by a query whose failure is read
    as another type. *)
Example failed_type_query_lifts_the_restriction :
  let hello := mkHello "w2" "" "host" ∅ "1" [Some (mkCapability "terminalExec" 2)] "secret" None in
  let s faults := with_svc_routes (with_store ((fun c => mkConn (data c) faults) <$> svc_conn demo_sys_service) (svc_routes demo_sys_service))
    demo_sys_service in
  (exists e, (resolveHelloByWorkerType hello (s [])).1 = Err e) /\
  (resolveHelloByWorkerType hello (s [Some "locked"])).1 = Ok hello.
Proof. vm_compute. split; [by eexists|done]. Qed.

(** The session is in the table and registered before its acknowledgement is
    queued, and the writer already runs: a command that another request
    dispatches in between is the first frame the worker gets, which ends its
    connection. Here [others 3] picks the new session, queues a command and the
    writer sends it; the acknowledgement is still waiting afterwards. *)
Example command_can_precede_the_connect_ack :
  let hello := mkHello "w1" "" "docker" ∅ "1" [Some (mkCapability "echo" 2)] "secret" None in
  let dispatch_now s :=
    match pickSessionForCapability "echo" "o1" demo_pick demo_now s with
    | (Ok sid, s) =>
        (on_session tt sid (fun x =>
           let x := (enqueueCommand false None (CommandDispatchFrame (mkDispatch "c1" "echo" PEmpty 0)) x).2 in
           match run_events [WWrite CaseDefault None; WWrite CaseCommand None] (mkRun None (mkWriter false []) x []) with
           | Some st => (tt, run_session st)
           | None => (tt, x)
           end) s).2
    | (Err _, s) => s
    end in
  let env := mkConnectEnv None (Ok (Hello hello)) demo_now (Ok "sid9") demo_now
               (fun i s => if (i =? 3)%nat then dispatch_now s else s) demo_frame (fun _ s => s) in
  let s := (Connect env [] demo_known).2 in
  (fun x => (controlOutbound x, commandOutbound x, sc_inflight <$> capabilities x !! "echo")) <$> svc_heap s !! "sid9" =
  Some ([ConnectAck "sid9" 5 [mkCandidate demo_tid 50000]], [], Some 1).
Proof. vm_compute. reflexivity. Qed.

Lemma demo_known_ok : sessions_ok (fun _ => []) demo_known.
Proof. destruct demo_sessions_ok as [A B]. by split. Qed.

Lemma connections_keep_the_accounts_witness :
  sessions_ok (fun _ => []) (Connect demo_connect (quiet [demo_report; demo_beat; demo_eof]) demo_known).2.
Proof.
  apply (connections_keep_the_accounts demo_connect (quiet [demo_report; demo_beat; demo_eof]) "sid9" (fun _ => []) demo_known);
    try done.
  - intros others ev (y&[= -> ->]&_)%list_elem_of_fmap s. done.
  - by intros hello [= <-].
  - apply demo_known_ok.
  - apply demo_routes_ok.
  - intros n sid Hn. cbn in Hn. by apply lookup_singleton_Some in Hn as [<- _].
Defined.

(** The session of the new stream, before it has a place. *)
Definition demo_new : activeSession := newActiveSessionAt "w1" "sid9" demo_worker_hello demo_now.
Definition demo_waiting : RegistryService := update_session "sid9" demo_new demo_known.

Lemma one_session_per_worker_witness :
  svc_sessions (take_place "sid9" demo_waiting) !! "w1" = Some "sid9" /\ closed_in (Some "sid") demo_waiting (take_place "sid9" demo_waiting).
Proof.
  destruct (one_session_per_worker "sid9" demo_new demo_now demo_waiting) as [H _]; [by vm_compute..|].
  destruct (H eq_refl) as [E Hc]. split; [by rewrite E|exact Hc].
Defined.

Lemma disconnect_cleans_up_only_its_own_session_witness :
  let s' := disconnect (fun _ s => s) "sid" "w1" (Ok tt) demo_known in
  svc_sessions s' = ∅ /\ closed_in (Some "sid") demo_known s'.
Proof.
  destruct (disconnect_cleans_up_only_its_own_session "sid" "w1" (Ok tt) demo_known demo_worker) as [Hc H];
    [done|apply demo_routes_ok|done|]. rewrite bool_decide_true in H by done. destruct H as [E _]. by split.
Defined.

Lemma provisioned_worker_can_connect_witness :
  exists s', CreateProvisionedWorkerForOwner (fun _ => (Ok "u1", Ok "ab")) " o1 " "Worker-Sys" demo_now minute demo_service =
    (Ok ("u1", "ab"), s') /\ aside demo_service s'.
Proof.
  assert ((CreateProvisionedWorkerForOwner (fun _ => (Ok "u1", Ok "ab")) " o1 " "Worker-Sys" demo_now minute demo_service).1 =
    Ok ("u1", "ab")) as E1 by (by vm_compute).
  destruct (CreateProvisionedWorkerForOwner (fun _ => (Ok "u1", Ok "ab")) " o1 " "Worker-Sys" demo_now minute demo_service)
    as [r s'] eqn:E. cbn [fst] in E1. subst r.
  exists s'. split; [done|].
  apply (provisioned_worker_can_connect (fun _ => (Ok "u1", Ok "ab")) " o1 " "Worker-Sys" demo_now minute demo_service "u1" "ab" s' E);
    by vm_compute.
Defined.

Lemma revoked_worker_is_gone_witness :
  (DeleteProvisionedWorker " w1 " demo_known).1 = Ok true /\ credential_of "w1" (DeleteProvisionedWorker " w1 " demo_known).2 = None.
Proof.
  pose proof (revoked_worker_is_gone " w1 " (data (default (mkConn empty_db []) (svc_conn demo_known))) demo_known
    ltac:(by vm_compute) demo_routes_ok ltac:(done)) as H. cbv zeta in H.
  destruct (DeleteProvisionedWorker " w1 " demo_known) as [r s']. destruct H as (-> & H & _). split; [by vm_compute|exact H].
Defined.

Lemma sys_workers_only_use_the_computer_witness :
  let env := mkConnectEnv None (Ok (Hello demo_sys_hello)) demo_now (Ok "sid9") demo_now (fun _ s => s) demo_frame (fun _ s => s) in
  let s := with_svc_credentials {[ "w2" := "secret" ]} demo_sys_service in
  exists hello', (authenticate env s).1 = Ok hello' /\ recoveryRequired (newActiveSessionAt "w2" "sid9" hello' demo_now) = false.
Proof.
  intros env s. set (hello' := mkHello "w2" "" "host" ∅ "1" [Some (mkCapability "computerUse" 1)] "secret" None).
  assert ((authenticate env s).1 = Ok hello') as E1 by (by vm_compute).
  destruct (authenticate env s) as [r s'] eqn:E. cbn [fst] in E1. subst r. exists hello'. split; [done|].
  apply (sys_workers_only_use_the_computer env (data (default (mkConn empty_db []) (svc_conn s))) s hello' s' demo_sys_hello);
    [by vm_compute|done|done|by vm_compute].
Defined.

End examples.

End ConnectProps.
Export ConnectProps.
