(* ===== verification/WorkerTerminal.v ===== *)
(** The terminal sessions of a Docker worker
    (worker/worker-docker/internal/runner/terminal_exec.go and
    session_recovery.go).

    Session objects live on a heap by reference, since a command keeps its
    session after the table has dropped it. A critical section of the manager's
    mutex is one function on the manager; an operation is its critical sections
    and its docker commands in order, with a function [others] in between that
    is what the other goroutines did. The results of docker commands and the
    clock are inputs; the commands themselves are logged in [m_docker].

    The hash of a session id (SHA-256) is the parameter [c_hash]. *)
From S2P Require Import Prelude.
From S2P Require Import Proto.
From S2P Require Import Net.
From stdpp Require Import pretty.
#[local] Open Scope string_scope.
#[local] Open Scope list_scope.
#[local] Open Scope Z_scope.

Module WorkerTerminal.

Definition terminalExecContainerPrefix : string := "onlyboxes-terminal-v1-".
Definition terminalExecNoSessionMessage : string := "session not found".
Definition terminalExecBusyMessage : string := "session is busy".
Definition terminalExecCapacityMessage : string := "terminal session capacity exceeded".
Definition terminalExecNotReadyMessage : string := "terminal executor is unavailable".
Definition defaultTerminalSessionMaxInflight : Z := 1.
Definition terminalExecCodeSessionNotFound : string := "session_not_found".
Definition terminalExecCodeSessionBusy : string := "session_busy".
Definition terminalExecCodeSessionCapacityExceeded : string := "session_capacity_exceeded".
Definition terminalExecCodeInvalidPayload : string := "invalid_payload".
Definition terminalRecoveryDockerMaxAttempts : nat := 3.
Definition defaultTerminalExecDockerImage : string := "coolfan1024/onlyboxes-runtime:default".
Definition defaultTerminalExecMemoryLimit : string := "256m".
Definition defaultTerminalExecCPULimit : string := "1.0".
Definition defaultTerminalExecPidsLimit : Z := 128.

(** ** Data *)
Definition newTerminalExecError (code message : string) : error := CommandExecutionError (trim code) (trim message).

Definition no_session : error := newTerminalExecError terminalExecCodeSessionNotFound terminalExecNoSessionMessage.
Definition not_ready : error := newTerminalExecError "execution_failed" terminalExecNotReadyMessage.

Record terminalExecRequest := mkExecRequest {
  xr_Command : string;
  xr_SessionID : string;
  xr_CreateIfMissing : bool;
  xr_LeaseTTLSec : option Z }.

Record terminalExecRunResult := mkRunResult {
  rr_SessionID : string;
  rr_Created : bool;
  rr_Stdout : string;
  rr_Stderr : string;
  rr_ExitCode : Z;
  rr_StdoutTruncated : bool;
  rr_StderrTruncated : bool;
  rr_LeaseExpiresUnixMS : Z }.

Record dockerCommandResult := mkDocker {
  dk_Stdout : string;
  dk_Stderr : string;
  dk_ExitCode : Z;
  dk_Err : option error }.

(** [ts_leaseTimer]: when the armed timer fires. [ts_proxyCanceled]: the context
    of the session's proxied requests was canceled. *)
Record terminalSession := mkTSession {
  ts_sessionID : string;
  ts_containerName : string;
  ts_containerIP : string;
  ts_leaseExpiresAt : time;
  ts_leaseTimer : option time;
  ts_proxyCanceled : bool;
  ts_inflight : Z;
  ts_destroying : bool;
  ts_ready : bool;
  ts_initErr : option error;
  ts_capacityReserved : bool }.

Definition with_lease (t : time) (s : terminalSession) : terminalSession :=
  mkTSession (ts_sessionID s) (ts_containerName s) (ts_containerIP s) t (ts_leaseTimer s) (ts_proxyCanceled s)
    (ts_inflight s) (ts_destroying s) (ts_ready s) (ts_initErr s) (ts_capacityReserved s).
Definition with_timer (t : option time) (s : terminalSession) : terminalSession :=
  mkTSession (ts_sessionID s) (ts_containerName s) (ts_containerIP s) (ts_leaseExpiresAt s) t (ts_proxyCanceled s)
    (ts_inflight s) (ts_destroying s) (ts_ready s) (ts_initErr s) (ts_capacityReserved s).
Definition with_canceled (s : terminalSession) : terminalSession :=
  mkTSession (ts_sessionID s) (ts_containerName s) (ts_containerIP s) (ts_leaseExpiresAt s) (ts_leaseTimer s) true
    (ts_inflight s) (ts_destroying s) (ts_ready s) (ts_initErr s) (ts_capacityReserved s).
Definition with_inflight (n : Z) (s : terminalSession) : terminalSession :=
  mkTSession (ts_sessionID s) (ts_containerName s) (ts_containerIP s) (ts_leaseExpiresAt s) (ts_leaseTimer s)
    (ts_proxyCanceled s) n (ts_destroying s) (ts_ready s) (ts_initErr s) (ts_capacityReserved s).
Definition with_destroying (s : terminalSession) : terminalSession :=
  mkTSession (ts_sessionID s) (ts_containerName s) (ts_containerIP s) (ts_leaseExpiresAt s) (ts_leaseTimer s)
    (ts_proxyCanceled s) (ts_inflight s) true (ts_ready s) (ts_initErr s) (ts_capacityReserved s).
Definition with_init (ip : string) (err : option error) (s : terminalSession) : terminalSession :=
  mkTSession (ts_sessionID s) (ts_containerName s) ip (ts_leaseExpiresAt s) (ts_leaseTimer s)
    (ts_proxyCanceled s) (ts_inflight s) (ts_destroying s) true err (ts_capacityReserved s).
Definition with_released (s : terminalSession) : terminalSession :=
  mkTSession (ts_sessionID s) (ts_containerName s) (ts_containerIP s) (ts_leaseExpiresAt s) (ts_leaseTimer s)
    (ts_proxyCanceled s) (ts_inflight s) (ts_destroying s) (ts_ready s) (ts_initErr s) false.

Record terminalSessionManagerConfig := mkTMConfig {
  c_LeaseMinSec : Z;
  c_LeaseMaxSec : Z;
  c_LeaseDefaultSec : Z;
  c_OutputLimitBytes : Z;
  c_ExportMaxBytes : Z;
  c_DockerImage : string;
  c_MemoryLimit : string;
  c_CPULimit : string;
  c_PidsLimit : Z;
  c_DockerNetwork : string;
  c_SessionMaxInflight : Z;
  c_MaxActiveSessions : Z;
  c_PreserveOnClose : bool;
  c_hash : string -> string }.                     (** [terminalSessionIDHash], of the trimmed id *)

(** [m_closed] is also [closeOnce]: only [Close] sets it. *)
Record terminalSessionManager := mkManager {
  m_cfg : terminalSessionManagerConfig;
  m_sessions : gmap string nat;
  m_heap : gmap nat terminalSession;
  m_next : nat;
  m_activeSessionReservations : Z;
  m_closed : bool;
  m_createWG : Z;
  m_cleanupWG : Z;
  m_docker : list (list string) }.

Definition with_table (t : gmap string nat) (m : terminalSessionManager) : terminalSessionManager :=
  mkManager (m_cfg m) t (m_heap m) (m_next m) (m_activeSessionReservations m) (m_closed m) (m_createWG m) (m_cleanupWG m) (m_docker m).
Definition with_heap (h : gmap nat terminalSession) (m : terminalSessionManager) : terminalSessionManager :=
  mkManager (m_cfg m) (m_sessions m) h (m_next m) (m_activeSessionReservations m) (m_closed m) (m_createWG m) (m_cleanupWG m) (m_docker m).
Definition with_active (n : Z) (m : terminalSessionManager) : terminalSessionManager :=
  mkManager (m_cfg m) (m_sessions m) (m_heap m) (m_next m) n (m_closed m) (m_createWG m) (m_cleanupWG m) (m_docker m).
Definition with_wg (create cleanup : Z) (m : terminalSessionManager) : terminalSessionManager :=
  mkManager (m_cfg m) (m_sessions m) (m_heap m) (m_next m) (m_activeSessionReservations m) (m_closed m) create cleanup (m_docker m).
Definition set_closed (m : terminalSessionManager) : terminalSessionManager :=
  mkManager (m_cfg m) (m_sessions m) (m_heap m) (m_next m) (m_activeSessionReservations m) true (m_createWG m) (m_cleanupWG m) (m_docker m).
(** [runDockerCommand], whose result the caller has from its environment. *)
Definition docker (args : list string) (m : terminalSessionManager) : terminalSessionManager :=
  mkManager (m_cfg m) (m_sessions m) (m_heap m) (m_next m) (m_activeSessionReservations m) (m_closed m) (m_createWG m)
    (m_cleanupWG m) (m_docker m ++ [args]).

(** Writing through a reference; [insert_session] allocates. *)
Definition on_ref (l : nat) (f : terminalSession -> terminalSession) (m : terminalSessionManager) : terminalSessionManager :=
  match m_heap m !! l with Some s => with_heap (<[l := f s]> (m_heap m)) m | None => m end.
Definition insert_session (s : terminalSession) (m : terminalSessionManager) : nat * terminalSessionManager :=
  (m_next m, mkManager (m_cfg m) (<[ts_sessionID s := m_next m]> (m_sessions m)) (<[m_next m := s]> (m_heap m)) (S (m_next m))
               (m_activeSessionReservations m + 1) (m_closed m) (m_createWG m) (m_cleanupWG m) (m_docker m)).

(** ** Construction *)
Definition or_default (x d : Z) : Z := if x <=? 0 then d else x.
Definition or_text (x d : string) : string := if bool_decide (trim x = "") then d else trim x.

Definition newTerminalSessionManager (cfg : terminalSessionManagerConfig) : terminalSessionManager :=
  let leaseMinSec := or_default (c_LeaseMinSec cfg) 60 in
  let leaseMaxSec := Z.max (or_default (c_LeaseMaxSec cfg) 1800) leaseMinSec in
  let leaseDefaultSec := Z.min (Z.max (or_default (c_LeaseDefaultSec cfg) 60) leaseMinSec) leaseMaxSec in
  mkManager
    (mkTMConfig leaseMinSec leaseMaxSec leaseDefaultSec (or_default (c_OutputLimitBytes cfg) (1024 * 1024)) (c_ExportMaxBytes cfg)
       (or_text (c_DockerImage cfg) defaultTerminalExecDockerImage) (or_text (c_MemoryLimit cfg) defaultTerminalExecMemoryLimit)
       (or_text (c_CPULimit cfg) defaultTerminalExecCPULimit) (or_default (c_PidsLimit cfg) defaultTerminalExecPidsLimit)
       (trim (c_DockerNetwork cfg)) (or_default (c_SessionMaxInflight cfg) defaultTerminalSessionMaxInflight)
       (Z.max (c_MaxActiveSessions cfg) 0) (c_PreserveOnClose cfg) (c_hash cfg))
    ∅ ∅ 0 0 false 0 0 [].

Definition ActiveSessionCount (m : terminalSessionManager) : Z := i32 (m_activeSessionReservations m).

(** ** Names and messages *)
Definition terminalSessionIDHash (cfg : terminalSessionManagerConfig) (sessionID : string) : string := c_hash cfg (trim sessionID).
Definition terminalSessionResourceName (cfg : terminalSessionManagerConfig) (sessionID : string) : string :=
  terminalExecContainerPrefix +:+ terminalSessionIDHash cfg sessionID.

(** [strings.Contains]. *)
Fixpoint contains_text (s p : string) : bool :=
  has_prefix p s || match s with String _ s => contains_text s p | EmptyString => false end.
Definition isNoSuchContainerMessage (stderr : string) : bool := contains_text (to_lower stderr) "no such container".

Definition truncateByBytes (value : string) (maxBytes : Z) : string * bool :=
  if maxBytes <=? 0 then (value, false)
  else if Z.of_nat (String.length value) <=? maxBytes then (value, false)
  else (String.substring 0 (Z.to_nat maxBytes) value, true).

Definition pythonExecDockerRemoveArgs (containerName : string) : list string := ["rm"; "-f"; containerName].
Definition terminalExecDockerStartArgs (containerName : string) : list string := ["start"; containerName].
Definition terminalExecDockerExecArgs (containerName command : string) : list string := ["exec"; containerName; "sh"; "-lc"; command].

(** ** Leases *)
Definition resolveLeaseDuration (leaseTTLSec : option Z) (m : terminalSessionManager) : res duration :=
  let leaseSec := default (c_LeaseDefaultSec (m_cfg m)) leaseTTLSec in
  if (leaseSec <? c_LeaseMinSec (m_cfg m)) || (c_LeaseMaxSec (m_cfg m) <? leaseSec)
  then Err (newTerminalExecError terminalExecCodeInvalidPayload ("lease_ttl_sec must be between " +:+
         pretty (c_LeaseMinSec (m_cfg m)) +:+ " and " +:+ pretty (c_LeaseMaxSec (m_cfg m))))
  else Ok (i64 (leaseSec * second)).

(** [time.AfterFunc(max(0, time.Until(lease)))] at the time [now]. *)
Definition scheduleSessionLeaseTimerLocked (now : time) (l : nat) (m : terminalSessionManager) : terminalSessionManager :=
  if m_closed m then m
  else on_ref l (fun s => if ts_destroying s then s else with_timer (Some (Z.max now (ts_leaseExpiresAt s))) s) m.

(** The lease of [l] grows to [target]. *)
Definition extend_session_lease (now target : time) (l : nat) (m : terminalSessionManager) : terminalSessionManager :=
  match m_heap m !! l with
  | Some s => if ts_leaseExpiresAt s <? target
              then scheduleSessionLeaseTimerLocked now l (on_ref l (with_lease target) m) else m
  | None => m
  end.

(** ** Removing sessions *)
Definition forceRemoveContainer (containerName : string) (m : terminalSessionManager) : terminalSessionManager :=
  if bool_decide (trim containerName = "") then m else docker (pythonExecDockerRemoveArgs (trim containerName)) m.

Definition releaseCapacityReservation (l : nat) (m : terminalSessionManager) : terminalSessionManager :=
  match m_heap m !! l with
  | Some s =>
      if negb (ts_capacityReserved s) then m else
      let m := on_ref l with_released m in
      if 0 <? m_activeSessionReservations m then with_active (m_activeSessionReservations m - 1) m else m
  | None => m
  end.

Definition others_t := nat -> terminalSessionManager -> terminalSessionManager.

Definition container_of (l : nat) (m : terminalSessionManager) : string :=
  match m_heap m !! l with Some s => ts_containerName s | None => "" end.

Definition cleanupSession (others : others_t) (l : nat) (m : terminalSessionManager) : terminalSessionManager :=
  let m := on_ref l with_canceled m in
  let m := forceRemoveContainer (container_of l m) (others 0%nat m) in
  releaseCapacityReservation l (others 1%nat m).

Definition cleanupTrackedSession (others : others_t) (l : nat) (m : terminalSessionManager) : terminalSessionManager :=
  let m := cleanupSession others l m in with_wg (m_createWG m) (m_cleanupWG m - 1) m.

(** The session leaves the table: it is being destroyed, its timer is stopped and
    its proxied requests are canceled. *)
Definition drop_session (sid : string) (l : nat) (m : terminalSessionManager) : terminalSessionManager :=
  with_table (delete sid (m_sessions m)) (on_ref l (fun s => with_canceled (with_timer None (with_destroying s))) m).

Definition track (m : terminalSessionManager) : terminalSessionManager := with_wg (m_createWG m) (m_cleanupWG m + 1) m.

(** *** Critical sections *)
Definition expired_at (now : time) (s : terminalSession) : bool := negb (ts_destroying s) && (ts_leaseExpiresAt s <=? now).

Definition collect_expired (now : time) (acc : list nat * terminalSessionManager) (kv : string * nat)
    : list nat * terminalSessionManager :=
  let '(expired, m) := acc in
  match m_heap m !! kv.2 with
  | Some s => if expired_at now s then (expired ++ [kv.2], track (drop_session kv.1 kv.2 m)) else acc
  | None => acc
  end.

(** The locked part of [cleanupExpiredSessions]. *)
Definition expire_all (now : time) (m : terminalSessionManager) : list nat * terminalSessionManager :=
  foldl (collect_expired now) ([], m) (map_to_list (m_sessions m)).

(** The locked part of [expireSessionLease]; [true]: the session was removed. *)
Definition expire_one (now : time) (l : nat) (m : terminalSessionManager) : bool * terminalSessionManager :=
  match m_heap m !! l with
  | None => (false, m)
  | Some s =>
      if m_closed m || negb (bool_decide (m_sessions m !! ts_sessionID s = Some l)) || ts_destroying s then (false, m)
      else if now <? ts_leaseExpiresAt s then (false, scheduleSessionLeaseTimerLocked now l m)
      else (true, track (drop_session (ts_sessionID s) l m))
  end.

Definition newSessionLocked (sessionID : string) (leaseTarget now : time) (m : terminalSessionManager)
    : res nat * terminalSessionManager :=
  let max := c_MaxActiveSessions (m_cfg m) in
  if (0 <? max) && (max <=? m_activeSessionReservations m)
  then (Err (newTerminalExecError terminalExecCodeSessionCapacityExceeded terminalExecCapacityMessage), m) else
  let '(l, m) := insert_session (mkTSession sessionID (terminalSessionResourceName (m_cfg m) sessionID) "" leaseTarget None false
                                   1 false false None true) m in
  let m := scheduleSessionLeaseTimerLocked now l m in
  (Ok l, with_wg (m_createWG m + 1) (m_cleanupWG m) m).

Definition claimSession (uuid sessionID : string) (leaseTarget : time) (createIfMissing : bool) (now : time)
    (m : terminalSessionManager) : res (nat * bool) * terminalSessionManager :=
  let create sid := match newSessionLocked sid leaseTarget now m with
                    | (Ok l, m) => (Ok (l, true), m)
                    | (Err e, m) => (Err e, m)
                    end in
  if m_closed m then (Err not_ready, m) else
  if bool_decide (sessionID = "") then create uuid else
  match m_sessions m !! sessionID ≫= fun l => (fun s => (l, s)) <$> m_heap m !! l with
  | Some (l, s) =>
      if ts_destroying s then (Err no_session, m) else
      if c_SessionMaxInflight (m_cfg m) <=? ts_inflight s
      then (Err (newTerminalExecError terminalExecCodeSessionBusy terminalExecBusyMessage), m)
      else (Ok (l, false), extend_session_lease now leaseTarget l (on_ref l (with_inflight (ts_inflight s + 1)) m))
  | None => if negb createIfMissing then (Err no_session, m) else create sessionID
  end.

(** The locked part of [releaseSession]: the lease, and the session if this was
    the last slot of one that is being destroyed. *)
Definition release_slot (sessionID : string) (m : terminalSessionManager)
    : option (time * option nat) * terminalSessionManager :=
  let sid := trim sessionID in
  if bool_decide (sid = "") then (None, m) else
  match m_sessions m !! sid ≫= fun l => (fun s => (l, s)) <$> m_heap m !! l with
  | None => (None, m)
  | Some (l, s) =>
      let n := if 0 <? ts_inflight s then ts_inflight s - 1 else ts_inflight s in
      let m := on_ref l (with_inflight n) m in
      if ts_destroying s && (n =? 0)
      then (Some (ts_leaseExpiresAt s, Some l), track (with_table (delete sid (m_sessions m)) m))
      else (Some (ts_leaseExpiresAt s, None), m)
  end.

(** The locked part of [releaseAndDestroySession]. *)
Definition destroy_slot (sessionID : string) (m : terminalSessionManager) : option nat * terminalSessionManager :=
  let sid := trim sessionID in
  if bool_decide (sid = "") then (None, m) else
  match m_sessions m !! sid ≫= fun l => (fun s => (l, s)) <$> m_heap m !! l with
  | None => (None, m)
  | Some (l, s) =>
      let n := if 0 <? ts_inflight s then ts_inflight s - 1 else ts_inflight s in
      let m := on_ref l (fun s => with_inflight n (with_canceled (with_timer None (with_destroying s)))) m in
      if n =? 0 then (Some l, track (with_table (delete sid (m_sessions m)) m)) else (None, m)
  end.

Definition sessionIsActive (l : nat) (m : terminalSessionManager) : bool :=
  match m_heap m !! l with
  | Some s => bool_decide (m_sessions m !! ts_sessionID s = Some l) && negb (ts_destroying s) && negb (m_closed m)
  | None => false
  end.

(** The locked part of [cleanupInactiveCreatedSession]; [true]: it owned its id. *)
Definition drop_inactive (l : nat) (m : terminalSessionManager) : bool * terminalSessionManager :=
  match m_heap m !! l with
  | Some s => if bool_decide (m_sessions m !! ts_sessionID s = Some l) then (true, drop_session (ts_sessionID s) l m) else (false, m)
  | None => (false, m)
  end.


(** ** Docker *)
Definition dockerCommandFailureMessage (prefix : string) (value : Z) (stderr : string) : string :=
  let message := prefix +:+ "=" +:+ pretty value in
  if bool_decide (trim stderr = "") then message else message +:+ ", stderr=" +:+ trim stderr.

Definition terminalExecDockerCreateArgsWithNetwork (containerName : string) (cfg : terminalSessionManagerConfig) : list string :=
  let sessionHash := trim_prefix terminalExecContainerPrefix (trim containerName) in
  ["create"; "--name"; containerName; "--label"; "onlyboxes.managed=true"; "--label"; "onlyboxes.capability=terminalExec";
   "--label"; "onlyboxes.runtime=worker-docker"; "--label"; "onlyboxes.session_id_hash=" +:+ sessionHash;
   "--label"; "onlyboxes.schema_version=1"; "--memory"; c_MemoryLimit cfg; "--cpus"; c_CPULimit cfg;
   "--pids-limit"; pretty (c_PidsLimit cfg)] ++
  (if bool_decide (trim (c_DockerNetwork cfg) = "") then [] else ["--network"; trim (c_DockerNetwork cfg)]) ++
  [c_DockerImage cfg; "sh"; "-lc"; "while true; do sleep 3600; done"].

Definition quote : string := String (ascii_of_nat 34) "".
Definition terminalExecDockerInspectIPArgs (containerName dockerNetwork : string) : list string :=
  ["inspect"; "--format"; "{{with index .NetworkSettings.Networks " +:+ quote +:+ trim dockerNetwork +:+ quote +:+
                          "}}{{.IPAddress}}{{end}}"; containerName].

Definition failed (what : string) (r : dockerCommandResult) : error :=
  ErrorString (what +:+ dockerCommandFailureMessage "exit code" (dk_ExitCode r) (dk_Stderr r)).

(** [inspectTerminalContainerIP]; [inspect] is what docker answers. *)
Definition inspectTerminalContainerIP (inspect : dockerCommandResult) (containerName : string) (m : terminalSessionManager)
    : res string * terminalSessionManager :=
  let m := docker (terminalExecDockerInspectIPArgs containerName (c_DockerNetwork (m_cfg m))) m in
  let invalid := Err (ErrorString "docker inspect returned an invalid proxy target IP") in
  match dk_Err inspect with
  | Some e => (Err (Wrapped "docker inspect proxy target failed: " e ""), m)
  | None =>
      if negb (dk_ExitCode inspect =? 0) then (Err (failed "docker inspect proxy target failed: " inspect), m) else
      match ParseAddr (trim (dk_Stdout inspect)) with
      | None => (invalid, m)
      | Some a => if IsGlobalUnicast (Unmap a) then (Ok (AddrString (Unmap a)), m) else (invalid, m)
      end
  end.

(** ** Operations *)

(** What the outside does during one command. [xe_wait]: the context ends before
    the session of another caller is ready. *)
Record exec_env := mkXEnv {
  xe_now : time;
  xe_uuid : string;
  xe_create : dockerCommandResult;
  xe_start : dockerCommandResult;
  xe_inspect : dockerCommandResult;
  xe_exec : dockerCommandResult;
  xe_wait : option error;
  xe_others : others_t }.

Definition shift (k : nat) (others : others_t) : others_t := fun i => others (k + i)%nat.

Definition createAndStartContainer (env : exec_env) (containerName : string) (m : terminalSessionManager)
    : res string * terminalSessionManager :=
  let m := docker (terminalExecDockerCreateArgsWithNetwork containerName (m_cfg m)) m in
  match dk_Err (xe_create env) with
  | Some e => (Err (Wrapped "docker create failed: " e ""), m)
  | None =>
      if negb (dk_ExitCode (xe_create env) =? 0) then (Err (failed "docker create failed: " (xe_create env)), m) else
      let m := docker (terminalExecDockerStartArgs containerName) m in
      match dk_Err (xe_start env) with
      | Some e => (Err (Wrapped "docker start failed: " e ""), forceRemoveContainer containerName m)
      | None =>
          if negb (dk_ExitCode (xe_start env) =? 0)
          then (Err (failed "docker start failed: " (xe_start env)), forceRemoveContainer containerName m)
          else if bool_decide (c_DockerNetwork (m_cfg m) = "") then (Ok "", m)
          else match inspectTerminalContainerIP (xe_inspect env) containerName m with
               | (Err e, m) => (Err e, forceRemoveContainer containerName m)
               | (Ok ip, m) => (Ok ip, m)
               end
      end
  end.

Definition releaseSession (others : others_t) (sessionID : string) (m : terminalSessionManager)
    : option time * terminalSessionManager :=
  match release_slot sessionID m with
  | (None, m) => (None, m)
  | (Some (lease, None), m) => (Some lease, m)
  | (Some (lease, Some retired), m) => (Some lease, cleanupTrackedSession (shift 1 others) retired (others 0%nat m))
  end.

Definition releaseAndDestroySession (others : others_t) (sessionID : string) (m : terminalSessionManager)
    : terminalSessionManager :=
  match destroy_slot sessionID m with
  | (None, m) => m
  | (Some retired, m) => cleanupTrackedSession (shift 1 others) retired (others 0%nat m)
  end.

Definition cleanupInactiveCreatedSession (others : others_t) (l : nat) (m : terminalSessionManager) : terminalSessionManager :=
  match drop_inactive l m with
  | (true, m) => cleanupSession (shift 1 others) l (others 0%nat m)
  | (false, m) => forceRemoveContainer (container_of l m) (others 0%nat m)
  end.

Definition session_of (l : nat) (m : terminalSessionManager) : string :=
  match m_heap m !! l with Some s => ts_sessionID s | None => "" end.

Definition create_done (m : terminalSessionManager) : terminalSessionManager := with_wg (m_createWG m - 1) (m_cleanupWG m) m.

(** [None]: the caller still waits. *)
Definition awaitSessionReady (env : exec_env) (l : nat) (created : bool) (m : terminalSessionManager)
    : option (res unit) * terminalSessionManager :=
  let others := xe_others env in
  if created then
    let '(r, m) := createAndStartContainer env (container_of l m) (others 0%nat m) in
    let m := others 1%nat m in
    match r with
    | Err e => (Some (Err e), create_done (releaseAndDestroySession (shift 10 others) (session_of l m) (on_ref l (with_init "" (Some e)) m)))
    | Ok ip =>
        let m := others 2%nat (on_ref l (with_init ip None) m) in
        if sessionIsActive l m then (Some (Ok tt), create_done m)
        else (Some (Err no_session), create_done (cleanupInactiveCreatedSession (shift 10 others) l (others 3%nat m)))
    end
  else
    let m := others 0%nat m in
    match xe_wait env with
    | Some e => (Some (Err e), (releaseSession (shift 10 others) (session_of l m) m).2)
    | None =>
        match m_heap m !! l with
        | Some s =>
            if negb (ts_ready s) then (None, m) else
            match ts_initErr s with
            | Some e => (Some (Err e), (releaseSession (shift 10 others) (ts_sessionID s) m).2)
            | None =>
                let m := others 1%nat m in
                if sessionIsActive l m then (Some (Ok tt), m) else (Some (Err no_session), m)
            end
        | None => (None, m)
        end
    end.

Definition is_ctx_error (e : error) : bool := error_is e ErrContextDeadlineExceeded || error_is e ErrContextCanceled.

(** After the container is ready: the command runs and its slot is given back. *)
Definition run_command (env : exec_env) (l : nat) (created : bool) (command : string) (m : terminalSessionManager)
    : res terminalExecRunResult * terminalSessionManager :=
  let others := shift 30 (xe_others env) in
  let sid := session_of l m in
  let r := xe_exec env in
  let m := others 0%nat (docker (terminalExecDockerExecArgs (container_of l m) command) m) in
  match dk_Err r with
  | Some e =>
      if is_ctx_error e then (Err e, releaseAndDestroySession (shift 1 others) sid m)
      else (Err (Wrapped "docker exec failed: " e ""), (releaseSession (shift 1 others) sid m).2)
  | None =>
      if isNoSuchContainerMessage (dk_Stderr r) then (Err no_session, releaseAndDestroySession (shift 1 others) sid m) else
      let '(stdout, stdoutTruncated) := truncateByBytes (dk_Stdout r) (c_OutputLimitBytes (m_cfg m)) in
      let '(stderr, stderrTruncated) := truncateByBytes (dk_Stderr r) (c_OutputLimitBytes (m_cfg m)) in
      match releaseSession (shift 1 others) sid m with
      | (None, m) => (Err no_session, m)
      | (Some lease, m) => (Ok (mkRunResult sid created stdout stderr (dk_ExitCode r) stdoutTruncated stderrTruncated (unix_milli lease)), m)
      end
  end.

Definition Execute (env : exec_env) (req : terminalExecRequest) (m : terminalSessionManager)
    : option (res terminalExecRunResult) * terminalSessionManager :=
  let command := trim (xr_Command req) in
  if bool_decide (command = "") then (Some (Err (newTerminalExecError terminalExecCodeInvalidPayload "command is required")), m) else
  match resolveLeaseDuration (xr_LeaseTTLSec req) m with
  | Err e => (Some (Err e), m)
  | Ok leaseDuration =>
      match claimSession (xe_uuid env) (trim (xr_SessionID req)) (time_add (xe_now env) leaseDuration) (xr_CreateIfMissing req) (xe_now env) m with
      | (Err e, m) => (Some (Err e), m)
      | (Ok (l, created), m) =>
          match awaitSessionReady env l created m with
          | (None, m) => (None, m)
          | (Some (Err e), m) => (Some (Err e), m)
          | (Some (Ok _), m) => let '(r, m) := run_command env l created command m in (Some r, m)
          end
      end
  end.

(** [ResolveResource] once its request is accepted; [resource] runs docker
    commands in the container of the session. *)
Definition with_resource {A} (env : exec_env) (sid : string)
    (resource : string -> terminalSessionManager -> res A * terminalSessionManager) (m : terminalSessionManager)
    : option (res A) * terminalSessionManager :=
  let others := shift 30 (xe_others env) in
  match claimSession (xe_uuid env) sid zero_time false (xe_now env) m with
  | (Err e, m) => (Some (Err e), m)
  | (Ok (l, _), m) =>
      match awaitSessionReady env l false m with
      | (None, m) => (None, m)
      | (Some (Err e), m) => (Some (Err e), m)
      | (Some (Ok _), m) =>
          let '(r, m) := resource (container_of l m) m in
          let m := others 0%nat m in
          match r with
          | Err e =>
              if is_ctx_error e || bool_decide (fst <$> as_command_error e = Some terminalExecCodeSessionNotFound)
              then (Some (Err e), releaseAndDestroySession (shift 1 others) sid m)
              else (Some (Err e), (releaseSession (shift 1 others) sid m).2)
          | Ok a =>
              match releaseSession (shift 1 others) sid m with
              | (None, m) => (Some (Err no_session), m)
              | (Some _, m) => (Some (Ok a), m)
              end
          end
      end
  end.

Definition RenewLease (sessionID : string) (leaseTTLSec : Z) (now : time) (m : terminalSessionManager)
    : res Z * terminalSessionManager :=
  let sid := trim sessionID in
  if bool_decide (sid = "") then (Err (newTerminalExecError terminalExecCodeInvalidPayload "session_id is required"), m) else
  match resolveLeaseDuration (Some leaseTTLSec) m with
  | Err e => (Err e, m)
  | Ok leaseDuration =>
      if m_closed m then (Err not_ready, m) else
      match m_sessions m !! sid ≫= fun l => (fun s => (l, s)) <$> m_heap m !! l with
      | Some (l, s) =>
          if ts_destroying s || (ts_leaseExpiresAt s <=? now) then (Err no_session, m) else
          let m := extend_session_lease now (time_add now leaseDuration) l m in
          (Ok (match m_heap m !! l with Some s => unix_milli (ts_leaseExpiresAt s) | None => 0 end), m)
      | None => (Err no_session, m)
      end
  end.

(** *** Expiry *)
Definition cleanup_all (others : others_t) (ls : list nat) (m : terminalSessionManager) : terminalSessionManager :=
  foldl (fun m l => cleanupTrackedSession (shift (10 * l) others) l m) m ls.

Definition cleanupExpiredSessions (others : others_t) (now : time) (m : terminalSessionManager) : terminalSessionManager :=
  let '(expired, m) := expire_all now m in cleanup_all (shift 1 others) expired (others 0%nat m).

Definition expireSessionLease (others : others_t) (now : time) (l : nat) (m : terminalSessionManager) : terminalSessionManager :=
  match expire_one now l m with
  | (true, m) => cleanupTrackedSession (shift 1 others) l (others 0%nat m)
  | (false, m) => m
  end.

(** *** Proxy targets *)

(** The second critical section of [ResolveProxyTarget]; [true] when it removed
    an expired session, which is cleaned up in the background. *)
Definition proxy_target (sid : string) (l : nat) (now : time) (m : terminalSessionManager)
    : option string * bool * terminalSessionManager :=
  match m_heap m !! l with
  | None => (None, false, m)
  | Some s =>
      if negb (bool_decide (m_sessions m !! sid = Some l)) || ts_destroying s || bool_decide (is_Some (ts_initErr s)) then (None, false, m) else
      if ts_leaseExpiresAt s <=? now then (None, true, track (drop_session sid l m)) else
      match ParseAddr (trim (ts_containerIP s)) with
      | Some a => if IsUnspecified a then (None, false, m) else (Some (AddrString (Unmap a)), false, m)
      | None => (None, false, m)
      end
  end.

(** [Ok None]: not found. [None]: it still waits for the container. *)
Definition ResolveProxyTarget (others : others_t) (ctxErr : option error) (sessionID : string) (now : time)
    (m : terminalSessionManager) : option (res (option string)) * terminalSessionManager :=
  let sid := trim sessionID in
  if bool_decide (sid = "") then (Some (Ok None), m) else
  match m_sessions m !! sid ≫= fun l => (fun s => (l, s)) <$> m_heap m !! l with
  | None => (Some (Ok None), m)
  | Some (l, s) =>
      if ts_destroying s then (Some (Ok None), m) else
      let m := others 0%nat m in
      match ctxErr with
      | Some e => (Some (Err e), m)
      | None =>
          if negb (bool_decide (ts_ready <$> m_heap m !! l = Some true)) then (None, m) else
          match proxy_target sid l now m with
          | (ip, true, m) => (Some (Ok ip), cleanupTrackedSession (shift 2 others) l (others 1%nat m))
          | (ip, false, m) => (Some (Ok ip), m)
          end
      end
  end.

(** *** Closing *)

(** [others 0]: until all creations are done ([createWG]); [others 1]: until all
    tracked cleanups are done. *)
Definition Close (others : others_t) (m : terminalSessionManager) : terminalSessionManager :=
  if m_closed m then m else
  let m := others 0%nat (set_closed m) in
  let ls := snd <$> map_to_list (m_sessions m) in
  let m := with_table ∅ (foldl (fun m l => on_ref l (with_timer None) m) m ls) in
  let m := others 1%nat m in
  foldl (fun m l => if c_PreserveOnClose (m_cfg m) then releaseCapacityReservation l m
                    else cleanupSession (shift (2 + 10 * l) others) l m) m ls.

End WorkerTerminal.
Export WorkerTerminal.
