(* ===== verification/WorkerRecovery.v ===== *)
(** Recovery of terminal sessions by a Docker worker
    (worker/worker-docker/internal/runner/session_recovery.go): the console
    sends the sessions it remembers, the worker looks for their containers,
    reports which of them it has, and removes containers that nobody remembers. *)
From S2P Require Import Prelude.
From S2P Require Import Proto.
From S2P Require Import WorkerTerminal.

Module WorkerRecovery.

(** What docker answers in one attempt; [rd_labels] decodes the labels that
    [docker inspect] prints as JSON. *)
Record recover_docker := mkRecoverDocker {
  rd_inspect : dockerCommandResult;
  rd_labels : string -> option (gmap string string);
  rd_matching : dockerCommandResult;
  rd_start : dockerCommandResult;
  rd_ip : dockerCommandResult }.

Definition tab : ascii := ascii_of_nat 9.
Definition newline : ascii := ascii_of_nat 10.

(** [strings.Split]. *)
Definition split_all (sep : ascii) (s : string) : list string := split_n (S (String.length s)) sep s.

Definition nonEmptyLines (value : string) : list string :=
  filter (fun line => line <> "") (trim <$> split_all newline value).

Definition docker_failed (r : dockerCommandResult) : bool := bool_decide (is_Some (dk_Err r)) || negb (dk_ExitCode r =? 0).

Definition terminalExecSessionLabelKey : string := "onlyboxes.session_id_hash".
Definition terminalExecSchemaLabelKey : string := "onlyboxes.schema_version".
Definition terminalExecSchemaVersion : string := "1".

Definition inspect_args (containerName : string) : list string :=
  ["inspect"; "--format"; "{{json .Config.Labels}}" +:+ String tab "{{.State.Status}}"; containerName].
Definition matching_args (cfg : terminalSessionManagerConfig) (sessionID : string) : list string :=
  ["ps"; "-a"; "--filter"; "label=" +:+ terminalExecSessionLabelKey +:+ "=" +:+ terminalSessionIDHash cfg sessionID;
   "--filter"; "label=" +:+ terminalExecSchemaLabelKey +:+ "=" +:+ terminalExecSchemaVersion; "--format"; "{{.Names}}"].
Definition orphan_args : list string :=
  ["ps"; "-a"; "--filter"; "label=" +:+ terminalExecSessionLabelKey;
   "--filter"; "label=" +:+ terminalExecSchemaLabelKey +:+ "=" +:+ terminalExecSchemaVersion; "--format"; "{{.Names}}"].

(** The lease of a session that the worker already has is set, not extended. *)
Definition set_session_lease (now lease : time) (l : nat) (m : terminalSessionManager) : terminalSessionManager :=
  scheduleSessionLeaseTimerLocked now l (on_ref l (with_lease lease) m).

(** The first critical section: the status, if it is already decided. *)
Definition recover_known (now : time) (sessionID : string) (lease : time) (m : terminalSessionManager)
    : option RecoveryStatus * terminalSessionManager :=
  if m_closed m then (Some INVALID, m) else
  match m_sessions m !! sessionID ≫= fun l => (fun s => (l, s)) <$> m_heap m !! l with
  | Some (l, s) => if ts_destroying s then (None, m) else (Some RECOVERED, set_session_lease now lease l m)
  | None => (None, m)
  end.

(** The second one: the container is there. *)
Definition recover_insert (now : time) (sessionID containerName ip : string) (lease : time) (m : terminalSessionManager)
    : RecoveryStatus * terminalSessionManager :=
  if m_closed m then (INVALID, m) else
  match m_sessions m !! sessionID ≫= fun l => (fun s => (l, s)) <$> m_heap m !! l with
  | Some (l, s) =>
      if negb (bool_decide (ts_containerName s = containerName)) || ts_destroying s then (INVALID, m)
      else (RECOVERED, set_session_lease now lease l m)
  | None =>
      let '(l, m) := insert_session (mkTSession sessionID containerName ip lease None false 0 false true None true) m in
      (RECOVERED, scheduleSessionLeaseTimerLocked now l m)
  end.

Definition remove_all (names : list string) (m : terminalSessionManager) : terminalSessionManager :=
  foldl (fun m name => forceRemoveContainer name m) m names.

(** From the state that docker reports to the running container. *)
Definition ensure_running (dk : recover_docker) (containerName status : string) (m : terminalSessionManager)
    : ((RecoveryStatus * bool) + string) * terminalSessionManager :=
  let st := trim (to_lower status) in
  let go_on m :=
    if bool_decide (c_DockerNetwork (m_cfg m) = "") then (inr "", m) else
    match inspectTerminalContainerIP (rd_ip dk) containerName m with
    | (Err _, m) => (inl (INVALID, true), m)
    | (Ok ip, m) => (inr ip, m)
    end in
  if bool_decide (st = "running") then go_on m
  else if bool_decide (st ∈ ["created"; "exited"; "stopped"]) then
    let m := docker (terminalExecDockerStartArgs containerName) m in
    if docker_failed (rd_start dk) then (inl (INVALID, true), m) else go_on m
  else (inl (INVALID, false), forceRemoveContainer containerName m).

(** The status and whether to try again. *)
Definition recoverOneAttempt (others : others_t) (dk : recover_docker) (now : time) (sessionID containerName : string) (lease : time)
    (m : terminalSessionManager) : RecoveryStatus * bool * terminalSessionManager :=
  match recover_known now sessionID lease m with
  | (Some status, m) => (status, false, m)
  | (None, m) =>
      let m := docker (inspect_args containerName) (others 0%nat m) in
      if docker_failed (rd_inspect dk) then
        (MISSING, negb (bool_decide (dk_Err (rd_inspect dk) = None) && isNoSuchContainerMessage (dk_Stderr (rd_inspect dk))), m) else
      match cut tab (trim (dk_Stdout (rd_inspect dk))) with
      | (_, None) => (INVALID, false, m)
      | (labelsText, Some status) =>
          let label k := default "" (rd_labels dk labelsText ≫= fun labels => labels !! k) in
          if bool_decide (rd_labels dk labelsText = None)
             || negb (bool_decide (label terminalExecSessionLabelKey = terminalSessionIDHash (m_cfg m) sessionID))
             || negb (bool_decide (label terminalExecSchemaLabelKey = terminalExecSchemaVersion))
          then (INVALID, false, forceRemoveContainer containerName m) else
          let m := docker (matching_args (m_cfg m) sessionID) m in
          if docker_failed (rd_matching dk) then (INVALID, true, m) else
          let names := nonEmptyLines (dk_Stdout (rd_matching dk)) in
          if negb (bool_decide (names = [containerName])) then (INVALID, false, remove_all names m) else
          match ensure_running dk containerName status m with
          | (inl r, m) => (r, m)
          | (inr ip, m) =>
              let '(status, m) := recover_insert now sessionID containerName ip lease (others 1%nat m) in (status, false, m)
          end
      end
  end.

(** [retry i]: the wait before attempt [i + 1] was not cut short. *)
Fixpoint recover_attempts (attempts : nat) (others : others_t) (dk : nat -> recover_docker) (retry : nat -> bool) (now : time)
    (sessionID containerName : string) (lease : time) (m : terminalSessionManager) : RecoveryStatus * terminalSessionManager :=
  let i := (terminalRecoveryDockerMaxAttempts - attempts)%nat in
  match attempts with
  | O => (INVALID, m)
  | S attempts =>
      let '(status, retryable, m) := recoverOneAttempt (shift (10 * i) others) (dk i) now sessionID containerName lease m in
      if negb retryable || bool_decide (attempts = 0%nat) then (status, m)
      else if negb (retry i) then (status, m)
      else recover_attempts attempts others dk retry now sessionID containerName lease (others (10 * i + 5)%nat m)
  end.

Definition recoverOne := recover_attempts terminalRecoveryDockerMaxAttempts.

(** What the outside does during [Recover]; [nat]: the position of the candidate. *)
Record recover_env := mkRecoverEnv {
  re_now : time;
  re_docker : nat -> nat -> recover_docker;
  re_retry : nat -> nat -> bool;
  re_list : dockerCommandResult;
  re_others : nat -> others_t }.

Definition recover_candidate (env : recover_env) (i : nat) (candidate : TerminalSessionRecoveryCandidate) (m : terminalSessionManager)
    : RecoveryStatus * terminalSessionManager :=
  let sessionID := trim (cand_SessionId candidate) in
  let name := terminalSessionResourceName (m_cfg m) sessionID in
  let lease := of_unix_milli (cand_LeaseExpiresUnixMs candidate) in
  if negb (bool_decide (sessionID = "")) && (0 <? cand_LeaseExpiresUnixMs candidate) && (re_now env <? lease)
  then recoverOne (re_others env i) (re_docker env i) (re_retry env i) (re_now env) sessionID name lease m
  else if negb (bool_decide (sessionID = "")) then (INVALID, forceRemoveContainer name m)
  else (INVALID, m).

(** The results so far, the names of the recovered containers, the manager. *)
Fixpoint recover_loop (env : recover_env) (i : nat) (candidates : list (option TerminalSessionRecoveryCandidate))
    (results : list TerminalSessionRecoveryResult) (expected : gset string) (m : terminalSessionManager)
    : list TerminalSessionRecoveryResult * gset string * terminalSessionManager :=
  match candidates with
  | [] => (results, expected, m)
  | None :: candidates => recover_loop env (S i) candidates results expected m
  | Some candidate :: candidates =>
      let sessionID := trim (cand_SessionId candidate) in
      let name := terminalSessionResourceName (m_cfg m) sessionID in
      let '(status, m) := recover_candidate env i candidate m in
      recover_loop env (S i) candidates (results ++ [mkRecoveryResult sessionID status])
        (match status with RECOVERED => {[ name ]} ∪ expected | _ => expected end) m
  end.

Definition orphans (expected : gset string) (stdout : string) : list string :=
  filter (fun name => has_prefix terminalExecContainerPrefix name = true /\ name ∉ expected) (trim <$> split_all newline stdout).

Definition cleanupOrphanContainers (env : recover_env) (expected : gset string) (m : terminalSessionManager) : terminalSessionManager :=
  let m := docker orphan_args m in
  if docker_failed (re_list env) then m else remove_all (orphans expected (dk_Stdout (re_list env))) m.

Definition Recover (env : recover_env) (candidates : list (option TerminalSessionRecoveryCandidate)) (m : terminalSessionManager)
    : list TerminalSessionRecoveryResult * terminalSessionManager :=
  let '(results, expected, m) := recover_loop env 0 candidates [] ∅ m in
  (results, cleanupOrphanContainers env expected m).

End WorkerRecovery.
Export WorkerRecovery.
