(* ===== verification/WorkerResource.v ===== *)
(** Files of a terminal session
    (worker/worker-docker/internal/runner/terminal_resource.go): a probe script
    in the container validates or reads a file, [docker cp] and an upload export
    it. What docker and the upload answer, and the JSON text of the probe, are
    inputs; [base64] is decoded as [base64.StdEncoding] does. *)
From S2P Require Import Prelude.
From S2P Require Import Json.
From S2P Require Import Proto.
From S2P Require Import WorkerTerminal.
From stdpp Require Import pretty.
#[local] Open Scope string_scope.
#[local] Open Scope list_scope.
#[local] Open Scope Z_scope.

Module WorkerResource.

(** ** Base64 *)
Definition b64_value (c : ascii) : option Z :=
  let b := byte c in
  if (65 <=? b) && (b <=? 90) then Some (b - 65)
  else if (97 <=? b) && (b <=? 122) then Some (b - 71)
  else if (48 <=? b) && (b <=? 57) then Some (b + 4)
  else if b =? 43 then Some 62
  else if b =? 47 then Some 63 else None.

Definition b64_pad (c : ascii) : bool := byte c =? 61.

Definition byte_of (z : Z) : ascii := ascii_of_N (Z.to_N (Z.land z 255)).

(** Four characters at a time; padding only in the last group. *)
Fixpoint b64_groups (s : list ascii) : option (list ascii) :=
  match s with
  | [] => Some []
  | a :: b :: c :: d :: rest =>
      match b64_value a, b64_value b with
      | Some va, Some vb =>
          let b1 := byte_of (Z.lor (Z.shiftl va 2) (Z.shiftr vb 4)) in
          if b64_pad c then (if b64_pad d && bool_decide (rest = []) then Some [b1] else None) else
          match b64_value c with
          | None => None
          | Some vc =>
              let b2 := byte_of (Z.lor (Z.shiftl vb 4) (Z.shiftr vc 2)) in
              if b64_pad d then (if bool_decide (rest = []) then Some [b1; b2] else None) else
              match b64_value d with
              | None => None
              | Some vd => (fun bs => b1 :: b2 :: byte_of (Z.lor (Z.shiftl vc 6) vd) :: bs) <$> b64_groups rest
              end
          end
      | _, _ => None
      end
  | _ => None
  end.

(** Line ends are skipped. *)
Definition b64_decode (s : string) : option string :=
  String.string_of_list_ascii <$> b64_groups (filter (fun c => byte c <> 10 /\ byte c <> 13) (String.list_ascii_of_string s)).

Definition b64_char (v : Z) : ascii :=
  byte_of (if v <? 26 then v + 65 else if v <? 52 then v + 71 else if v <? 62 then v - 4 else if v =? 62 then 43 else 47).

(** [base64.StdEncoding.EncodeToString], as [json.Marshal] writes a byte slice. *)
Fixpoint b64_encode_list (s : list ascii) : list ascii :=
  match s with
  | [] => []
  | [a] => [b64_char (Z.shiftr (byte a) 2); b64_char (Z.land (Z.shiftl (byte a) 4) 63); byte_of 61; byte_of 61]
  | [a; b] => [b64_char (Z.shiftr (byte a) 2); b64_char (Z.land (Z.lor (Z.shiftl (byte a) 4) (Z.shiftr (byte b) 4)) 63);
               b64_char (Z.land (Z.shiftl (byte b) 2) 63); byte_of 61]
  | a :: b :: c :: rest =>
      b64_char (Z.shiftr (byte a) 2) :: b64_char (Z.land (Z.lor (Z.shiftl (byte a) 4) (Z.shiftr (byte b) 4)) 63) ::
      b64_char (Z.land (Z.lor (Z.shiftl (byte b) 2) (Z.shiftr (byte c) 6)) 63) :: b64_char (Z.land (byte c) 63) :: b64_encode_list rest
  end.
Definition b64_encode (s : string) : string := String.string_of_list_ascii (b64_encode_list (String.list_ascii_of_string s)).

(** ** Data *)
Definition terminalResourceActionValidate : string := "validate".
Definition terminalResourceActionRead : string := "read".
Definition terminalResourceActionExport : string := "export".
Definition terminalResourceCodeFileTooLarge : string := "file_too_large".

Record terminalResourceRequest := mkResourceRequest {
  rq_SessionID : string;
  rq_FilePath : string;
  rq_Action : string;
  rq_SignedURL : string;
  rq_Headers : option (gmap string string) }.

Record terminalResourceRunResult := mkResourceResult {
  rt_SessionID : string;
  rt_FilePath : string;
  rt_MIMEType : string;
  rt_SizeBytes : Z;
  rt_Blob : string }.

Record terminalResourceProbeResult := mkProbe {
  pb_Error : string;
  pb_Message : string;
  pb_MIMEType : string;
  pb_Size : Z;
  pb_Blob : string }.

Definition probe_field (k : string) : option (json -> terminalResourceProbeResult -> terminalResourceProbeResult * bool) :=
  if equal_fold k "error" then Some (fun v p =>
    let '(x, b) := dec_string v (pb_Error p) in (mkProbe x (pb_Message p) (pb_MIMEType p) (pb_Size p) (pb_Blob p), b))
  else if equal_fold k "message" then Some (fun v p =>
    let '(x, b) := dec_string v (pb_Message p) in (mkProbe (pb_Error p) x (pb_MIMEType p) (pb_Size p) (pb_Blob p), b))
  else if equal_fold k "mime_type" then Some (fun v p =>
    let '(x, b) := dec_string v (pb_MIMEType p) in (mkProbe (pb_Error p) (pb_Message p) x (pb_Size p) (pb_Blob p), b))
  else if equal_fold k "size_bytes" then Some (fun v p =>
    let '(x, b) := dec_int v (pb_Size p) in (mkProbe (pb_Error p) (pb_Message p) (pb_MIMEType p) x (pb_Blob p), b))
  else if equal_fold k "blob" then Some (fun v p =>
    let '(x, b) := dec_string v (pb_Blob p) in (mkProbe (pb_Error p) (pb_Message p) (pb_MIMEType p) (pb_Size p) x, b))
  else None.

(** What the outside answers: the probe's docker command, its output read as
    JSON (with the error of the decoder), the temporary file, [docker cp], the
    upload; [ro_script] is the text of the probe script. *)
Record resource_env := mkResourceEnv {
  ro_script : string;
  ro_probe : dockerCommandResult;
  ro_json : string -> payload;
  ro_json_error : string -> error;
  ro_temp : res string;
  ro_copy : dockerCommandResult;
  ro_put : option error }.

(** ** Helpers *)
Definition normalizeTerminalResourceAction (action : string) : string :=
  let a := trim (to_lower action) in
  if bool_decide (a = "") then terminalResourceActionValidate
  else if bool_decide (a = terminalResourceActionValidate) then terminalResourceActionValidate
  else if bool_decide (a = terminalResourceActionRead) then terminalResourceActionRead
  else if bool_decide (a = terminalResourceActionExport) then terminalResourceActionExport else "".

Definition decodeTerminalResourceProbeOutput (env : resource_env) (stdout : string) : res terminalResourceProbeResult :=
  if bool_decide (trim stdout = "") then Err (ErrorString "empty output") else
  match unmarshal_struct probe_field (mkProbe "" "" "" 0 "") (ro_json env (trim stdout)) with
  | Some p => Ok p
  | None => Err (ro_json_error env (trim stdout))
  end.

Definition tryDecodeTerminalResourceProbeOutput (env : resource_env) (stdout : string) : option terminalResourceProbeResult :=
  match decodeTerminalResourceProbeOutput env stdout with Ok p => Some p | Err _ => None end.

Definition terminalResourceDockerFailureMessage (prefix : string) (value : Z) (stderr stdout : string) : string :=
  let message := dockerCommandFailureMessage prefix value stderr in
  if negb (bool_decide (trim stderr = "")) then message
  else if bool_decide (trim stdout = "") then message
  else let out := if (256 <? String.length (trim stdout))%nat then String.substring 0 256 (trim stdout) +:+ "..." else trim stdout in
       message +:+ ", stdout=" +:+ out.

Definition terminalResourceErrorMessage (code fallback : string) : string :=
  if negb (bool_decide (trim fallback = "")) then trim fallback
  else if bool_decide (trim code = "file_not_found") then "file not found"
  else if bool_decide (trim code = "path_is_directory") then "path is directory"
  else if bool_decide (trim code = "file_too_large") then "file exceeds read limit"
  else "terminal resource operation failed".

Definition terminalExecDockerResourceArgs (env : resource_env) (containerName action filePath : string) (maxReadBytes : Z) : list string :=
  let limit := if maxReadBytes <=? 0 then 1 else maxReadBytes in
  ["exec"; containerName; "python3"; "-c"; ro_script env; "--action"; action; "--file-path"; filePath; "--max-read-bytes"; pretty limit].

Definition terminalExecDockerCopyArgs (containerName filePath targetPath : string) : list string :=
  ["cp"; containerName +:+ ":" +:+ filePath; targetPath].

Definition buildTerminalResourceResult (sessionID filePath : string) (probe : terminalResourceProbeResult) : terminalResourceRunResult :=
  mkResourceResult sessionID filePath (or_text (pb_MIMEType probe) "application/octet-stream") (pb_Size probe) "".

(** ** Operations *)
Definition probe_error (p : terminalResourceProbeResult) : error :=
  newTerminalExecError (trim (pb_Error p)) (terminalResourceErrorMessage (trim (pb_Error p)) (pb_Message p)).

Definition probeTerminalResource (env : resource_env) (containerName filePath action : string) (maxReadBytes : Z) (m : terminalSessionManager)
    : res terminalResourceProbeResult * terminalSessionManager :=
  let r := ro_probe env in
  let m := docker (terminalExecDockerResourceArgs env containerName action filePath maxReadBytes) m in
  match dk_Err r with
  | Some e => (Err (Wrapped "docker exec failed: " e ""), m)
  | None =>
      if isNoSuchContainerMessage (dk_Stderr r) then (Err no_session, m) else
      if negb (dk_ExitCode r =? 0) then
        let failure := Err (ErrorString ("docker exec failed: " +:+
                         terminalResourceDockerFailureMessage "exit code" (dk_ExitCode r) (dk_Stderr r) (dk_Stdout r))) in
        match tryDecodeTerminalResourceProbeOutput env (dk_Stdout r) with
        | Some p => (if bool_decide (trim (pb_Error p) = "") then failure else Err (probe_error p), m)
        | None => (failure, m)
        end
      else
        match decodeTerminalResourceProbeOutput env (dk_Stdout r) with
        | Err e => (Err (Wrapped "invalid terminalResource result: " e ""), m)
        | Ok p => (if bool_decide (trim (pb_Error p) = "") then Ok p else Err (probe_error p), m)
        end
  end.

Definition exportTerminalResource (env : resource_env) (containerName filePath : string) (m : terminalSessionManager)
    : res unit * terminalSessionManager :=
  match ro_temp env with
  | Err e => (Err e, m)
  | Ok tempPath =>
      let r := ro_copy env in
      let m := docker (terminalExecDockerCopyArgs containerName filePath tempPath) m in
      match dk_Err r with
      | Some e => (Err (Wrapped "docker cp failed: " e ""), m)
      | None =>
          if isNoSuchContainerMessage (dk_Stderr r) then (Err no_session, m)
          else if negb (dk_ExitCode r =? 0)
          then (Err (ErrorString ("docker cp failed: " +:+ dockerCommandFailureMessage "exit code" (dk_ExitCode r) (dk_Stderr r))), m)
          else match ro_put env with Some e => (Err e, m) | None => (Ok tt, m) end
      end
  end.

Definition resolveResourceInSession (env : resource_env) (sessionID containerName filePath action : string) (m : terminalSessionManager)
    : res terminalResourceRunResult * terminalSessionManager :=
  let export := bool_decide (action = terminalResourceActionExport) in
  let probeAction := if export then terminalResourceActionValidate else action in
  match probeTerminalResource env containerName filePath probeAction (c_OutputLimitBytes (m_cfg m)) m with
  | (Err e, m) => (Err e, m)
  | (Ok probe, m) =>
      let result := buildTerminalResourceResult sessionID filePath probe in
      if export then
        if (0 <? c_ExportMaxBytes (m_cfg m)) && (c_ExportMaxBytes (m_cfg m) <? pb_Size probe)
        then (Err (newTerminalExecError terminalResourceCodeFileTooLarge "file exceeds export limit"), m)
        else match exportTerminalResource env containerName filePath m with
             | (Err e, m) => (Err e, m)
             | (Ok _, m) => (Ok result, m)
             end
      else if negb (bool_decide (action = terminalResourceActionRead)) then (Ok result, m)
      else if bool_decide (trim (pb_Blob probe) = "") then (Ok result, m)
      else match b64_decode (trim (pb_Blob probe)) with
           | None => (Err (ErrorString "decode resource blob: illegal base64 data"), m)
           | Some blob => (Ok (mkResourceResult (rt_SessionID result) (rt_FilePath result) (rt_MIMEType result) (rt_SizeBytes result) blob), m)
           end
  end.

Definition ResolveResource (env : exec_env) (renv : resource_env) (req : terminalResourceRequest) (m : terminalSessionManager)
    : option (res terminalResourceRunResult) * terminalSessionManager :=
  let sessionID := trim (rq_SessionID req) in
  let filePath := trim (rq_FilePath req) in
  let invalid msg := (Some (Err (newTerminalExecError terminalExecCodeInvalidPayload msg)), m) in
  if bool_decide (sessionID = "") || bool_decide (filePath = "") then invalid "session_id and file_path are required" else
  let action := normalizeTerminalResourceAction (rq_Action req) in
  if bool_decide (action = "") then invalid "action must be validate, read, or export" else
  if bool_decide (action = terminalResourceActionExport) && bool_decide (trim (rq_SignedURL req) = "")
  then invalid "signed_url is required for export"
  else with_resource env sessionID (fun name m => resolveResourceInSession renv sessionID name filePath action m) m.

Example b64_1 : b64_decode "aGVsbG8=" = Some "hello".
Proof. reflexivity. Qed.
Example b64_3 : b64_encode "hello" = "aGVsbG8=" /\ b64_encode "h~" = "aH4=" /\ b64_encode "???" = "Pz8/".
Proof. by vm_compute. Qed.
Example b64_2 : b64_decode "aGk=" = Some "hi" /\ b64_decode "aA==" = Some "h" /\ b64_decode "aA=" = None /\ b64_decode "" = Some "".
Proof. by vm_compute. Qed.

End WorkerResource.
Export WorkerResource.
