(* ===== verification/WorkerProps.v ===== *)
(** Properties of a worker's terminal sessions: the invariant of the manager under
    every interleaving of its operations, the capacity limit, leases, expiry,
    closing, and that a recovery report is one the console accepts. *)
From S2P Require Import Prelude.
From S2P Require Import Proto.
From S2P Require Import Net.
From S2P Require Import WorkerTerminal.
From S2P Require Import WorkerRecovery.
From S2P Require Import WorkerResource.

Module WorkerProps.

(** ** Counting reservations *)
Section count.
Implicit Types (h : gmap nat terminalSession) (s : terminalSession).

Definition reserved h : gmap nat terminalSession := filter (fun kv => ts_capacityReserved kv.2 = true) h.
Definition reserved_count h : Z := Z.of_nat (size (reserved h)).

Lemma reserved_update h l s s' :
  h !! l = Some s -> ts_capacityReserved s' = ts_capacityReserved s -> reserved_count (<[l := s']> h) = reserved_count h.
Proof.
  intros Hl E. unfold reserved_count, reserved. apply (f_equal Z.of_nat). destruct (ts_capacityReserved s) eqn:Es.
  - rewrite map_filter_insert_True by done. apply map_size_insert_Some.
    exists s. by rewrite map_lookup_filter_Some.
  - rewrite map_filter_insert_False by (cbn; congruence). rewrite map_filter_delete, delete_id; [done|].
    apply map_lookup_filter_None. right. cbn. intros ? [= <-]%(eq_trans (eq_sym Hl)). congruence.
Qed.

Lemma reserved_release h l s :
  h !! l = Some s -> ts_capacityReserved s = true -> reserved_count (<[l := with_released s]> h) = reserved_count h - 1.
Proof.
  intros Hl E. unfold reserved_count, reserved. rewrite map_filter_insert_False by done. rewrite map_filter_delete.
  assert (filter (fun kv => ts_capacityReserved kv.2 = true) h !! l = Some s) as Hs by (by rewrite map_lookup_filter_Some).
  rewrite map_size_delete_Some by eauto. assert (size (filter (fun kv : nat * terminalSession => ts_capacityReserved kv.2 = true) h) <> 0%nat) as Hne.
  { intros H0%map_size_empty_inv. rewrite H0 in Hs. by rewrite lookup_empty in Hs. }
  lia.
Qed.

Lemma reserved_alloc h l s :
  h !! l = None -> ts_capacityReserved s = true -> reserved_count (<[l := s]> h) = reserved_count h + 1.
Proof.
  intros Hl E. unfold reserved_count, reserved. rewrite map_filter_insert_True by done. rewrite map_size_insert_None; [lia|].
  apply map_lookup_filter_None. by left.
Qed.

End count.

(** ** The invariant *)
Section invariant.
Implicit Types (m : terminalSessionManager) (s : terminalSession).

(** A session of the table: reserved, within its limit of commands, kept for
    running commands if it is being destroyed, and otherwise with a timer that
    fires no earlier than its lease ends. *)
Record entry_ok m (sid : string) s : Prop := {
  eo_id : ts_sessionID s = sid;
  eo_name : ts_containerName s = terminalSessionResourceName (m_cfg m) sid;
  eo_reserved : ts_capacityReserved s = true;
  eo_inflight : 0 <= ts_inflight s <= c_SessionMaxInflight (m_cfg m);
  eo_destroying : ts_destroying s = true -> 0 < ts_inflight s;
  eo_timer : ts_destroying s = false -> m_closed m = false -> exists t, ts_leaseTimer s = Some t /\ ts_leaseExpiresAt s <= t }.

Record manager_ok m : Prop := {
  mo_cfg : 1 <= c_SessionMaxInflight (m_cfg m);
  mo_table sid l : m_sessions m !! sid = Some l -> exists s, m_heap m !! l = Some s /\ entry_ok m sid s;
  mo_count : m_activeSessionReservations m = reserved_count (m_heap m);
  mo_fresh l s : m_heap m !! l = Some s -> (l < m_next m)%nat;
  mo_names l s : m_heap m !! l = Some s -> ts_containerName s = terminalSessionResourceName (m_cfg m) (ts_sessionID s) }.

(** The session at [l] has left the table for good. *)
Definition dead (l : nat) m : Prop := is_Some (m_heap m !! l) /\ (l < m_next m)%nat /\ forall sid, m_sessions m !! sid <> Some l.

(** The container of the session at [l] is removed, or closing leaves it to the
    next start of the worker. *)
Definition removed (l : nat) m : Prop := forall s, m_heap m !! l = Some s ->
  pythonExecDockerRemoveArgs (trim (ts_containerName s)) ∈ m_docker m \/ c_PreserveOnClose (m_cfg m) = true /\ m_closed m = true.

(** Keeps what identifies a session, and its reservation. *)
Definition keeps_entry (f : terminalSession -> terminalSession) : Prop := forall s,
  ts_capacityReserved (f s) = ts_capacityReserved s /\ ts_sessionID (f s) = ts_sessionID s /\ ts_containerName (f s) = ts_containerName s.

Lemma resource_name_trim cfg sid : trim (terminalSessionResourceName cfg sid) <> "".
Proof. by apply trim_plain. Qed.

Lemma entry_ok_in m m' sid s :
  entry_ok m sid s -> m_cfg m' = m_cfg m -> (m_closed m' = false -> m_closed m = false) -> entry_ok m' sid s.
Proof. intros [??????] E1 E2. split; rewrite ?E1; auto. Qed.

(** Writing through a reference keeps everything, if it keeps the entry. *)
Lemma on_ref_ok l f m :
  manager_ok m -> keeps_entry f ->
  (forall sid s, m_sessions m !! sid = Some l -> m_heap m !! l = Some s -> entry_ok m sid s -> entry_ok m sid (f s)) ->
  manager_ok (on_ref l f m).
Proof.
  intros Hok Hkeep Hf. unfold on_ref. destruct (m_heap m !! l) as [s|] eqn:El; [|done]. destruct Hok as [Hc Ht Hn Hfr Hna].
  split; cbn; [done| |by rewrite (reserved_update _ _ s) by (done || apply Hkeep)| |].
  - intros sid l' Hl'. destruct (Ht _ _ Hl') as (s'&Hs'&He). rewrite lookup_insert. case_decide as E; [|exists s'; split; [done|]; by eapply entry_ok_in].
    subst l'. replace s' with s in * by congruence. exists (f s). split; [done|]. by eapply entry_ok_in; [apply Hf|..].
  - intros l' s'. rewrite lookup_insert. case_decide as E; [subst; intros _; by eapply Hfr|apply Hfr].
  - intros l' s'. rewrite lookup_insert. case_decide as E; [|apply Hna]. intros [= <-]. destruct (Hkeep s) as (_&->&->). by eapply Hna.
Qed.

Lemma on_ref_dead l f m : manager_ok m -> keeps_entry f -> dead l m -> manager_ok (on_ref l f m).
Proof. intros Hok Hres (_&_&Hd). apply on_ref_ok; [done..|]. intros sid s Hs. by destruct (Hd sid). Qed.

Lemma delete_ok sid m : manager_ok m -> manager_ok (with_table (delete sid (m_sessions m)) m).
Proof.
  intros [Hc Ht Hn Hf Hna]. split; cbn; [done| |done..]. intros sid' l [_ Hl]%lookup_delete_Some.
  destruct (Ht _ _ Hl) as (s&Hs&He). exists s. split; [done|]. by eapply entry_ok_in.
Qed.

Lemma other_fields_ok m m' :
  manager_ok m -> m_cfg m' = m_cfg m -> m_sessions m' = m_sessions m -> m_heap m' = m_heap m -> m_next m' = m_next m ->
  m_activeSessionReservations m' = m_activeSessionReservations m -> (m_closed m' = false -> m_closed m = false) -> manager_ok m'.
Proof.
  intros [Hc Ht Hn Hf Hna] E1 E2 E3 E4 E5 E6. split; rewrite ?E1, ?E2, ?E3, ?E4, ?E5; [done| |done..].
  intros sid l Hl. destruct (Ht _ _ Hl) as (s&Hs&He). exists s. split; [done|]. by eapply entry_ok_in.
Qed.

Lemma schedule_ok now l m : manager_ok m -> manager_ok (scheduleSessionLeaseTimerLocked now l m).
Proof.
  intros Hok. unfold scheduleSessionLeaseTimerLocked. destruct (m_closed m) eqn:Ec; [done|].
  apply on_ref_ok; [done|intros s; by destruct (ts_destroying s)|].
  intros sid s _ _ He. destruct (ts_destroying s) eqn:Ed; [done|]. destruct He as [??????].
  split; cbn; [done|done|done|done|congruence|]. intros _ _. eexists. split; [done|]. lia.
Qed.

(** A new lease with its timer. *)
Lemma relet_ok now lease l m :
  manager_ok m -> manager_ok (scheduleSessionLeaseTimerLocked now l (on_ref l (with_lease lease) m)).
Proof.
  intros Hok. unfold scheduleSessionLeaseTimerLocked. replace (m_closed (on_ref l (with_lease lease) m)) with (m_closed m) by (unfold on_ref; by case_match).
  destruct (m_closed m) eqn:Ec.
  - apply on_ref_ok; [done..|]. intros sid s _ _ [??????]. split; cbn; [done|done|done|done|done|congruence].
  - set (g s := if ts_destroying s then s else with_timer (Some (Z.max now (ts_leaseExpiresAt s))) s).
    assert (on_ref l g (on_ref l (with_lease lease) m) = on_ref l (fun s => g (with_lease lease s)) m) as ->.
    { unfold on_ref. destruct (m_heap m !! l) as [s|] eqn:El; [|by rewrite El]. cbn. rewrite lookup_insert_eq. unfold with_heap. cbn.
      by rewrite insert_insert_eq. }
    apply on_ref_ok; [done|intros s; unfold g; cbn; by destruct (ts_destroying s)|].
    intros sid s _ _ [??????]. unfold g. cbn. destruct (ts_destroying s) eqn:Ed; (split; cbn; [done|done|done|done|try congruence; auto|try congruence]).
    intros _ _. eexists. split; [done|]. lia.
Qed.

Lemma extend_ok now target l m : manager_ok m -> manager_ok (extend_session_lease now target l m).
Proof. intros Hok. unfold extend_session_lease. destruct (m_heap m !! l); [|done]. destruct (_ <? _); [by apply relet_ok|done]. Qed.

(** A new session with its timer. *)
Lemma sessions_insert_ok s now m :
  manager_ok m -> ts_containerName s = terminalSessionResourceName (m_cfg m) (ts_sessionID s) -> ts_capacityReserved s = true ->
  0 <= ts_inflight s <= c_SessionMaxInflight (m_cfg m) -> ts_destroying s = false ->
  manager_ok (scheduleSessionLeaseTimerLocked now (m_next m) (insert_session s m).2).
Proof.
  intros [Hc Ht Hn Hf Hna] Hname Hr Hi Hd. assert (m_heap m !! m_next m = None) as Hnone.
  { destruct (m_heap m !! m_next m) as [s0|] eqn:E; [|done]. apply Hf in E. lia. }
  assert (forall s0, ts_sessionID s0 = ts_sessionID s -> ts_containerName s0 = ts_containerName s -> ts_capacityReserved s0 = true -> ts_inflight s0 = ts_inflight s -> ts_destroying s0 = false ->
    (m_closed m = false -> exists t, ts_leaseTimer s0 = Some t /\ ts_leaseExpiresAt s0 <= t) ->
    manager_ok (with_heap (<[m_next m := s0]> (m_heap m)) (insert_session s m).2)) as Hgen.
  { intros s0 E1 E1' E2 E3 E4 E5. split; cbn; [done| |by rewrite reserved_alloc, Hn| |].
    - intros sid l. rewrite !lookup_insert. case_decide as E.
      + intros [= <-]. rewrite decide_True by done. exists s0. split; [done|]. split; cbn; [congruence|congruence|done|lia|congruence|auto].
      + intros Hl. destruct (Ht _ _ Hl) as (s1&Hs1&He). rewrite decide_False; [exists s1; split; [done|]; by eapply entry_ok_in|].
        intros <-. congruence.
    - intros l s1. rewrite lookup_insert. case_decide; [subst; lia|]. intros ?%Hf. lia.
    - intros l s1. rewrite lookup_insert. case_decide; [|apply Hna]. intros [= <-]. by rewrite E1, E1'. }
  unfold scheduleSessionLeaseTimerLocked. change (m_closed (insert_session s m).2) with (m_closed m).
  destruct (m_closed m) eqn:Ec.
  - apply (Hgen s); [done..|]. congruence.
  - unfold on_ref. cbn [insert_session snd m_heap]. rewrite lookup_insert_eq, Hd, insert_insert_eq.
    apply (Hgen (with_timer (Some (Z.max now (ts_leaseExpiresAt s))) s)); [done..|]. intros _. cbn. eexists. split; [done|]. lia.
Qed.


(** Leaving the table. *)
Lemma leave_ok sid l f m :
  manager_ok m -> keeps_entry f -> m_sessions m !! sid = Some l ->
  manager_ok (with_table (delete sid (m_sessions m)) (on_ref l f m)) /\ dead l (with_table (delete sid (m_sessions m)) (on_ref l f m)).
Proof.
  intros Hok Hres Hl. destruct (mo_table _ Hok _ _ Hl) as (s&Hs&He).
  assert (dead l (with_table (delete sid (m_sessions m)) m)) as Hd.
  { split; [by exists s|]. split; [by eapply (mo_fresh _ Hok)|]. cbn. intros sid' [Hne Hl']%lookup_delete_Some. destruct (mo_table _ Hok _ _ Hl') as (s'&Hs'&He').
    apply Hne. rewrite <- (eo_id _ _ _ He), <- (eo_id _ _ _ He'). congruence. }
  assert (with_table (delete sid (m_sessions m)) (on_ref l f m) = on_ref l f (with_table (delete sid (m_sessions m)) m)) as ->.
  { unfold on_ref. cbn. by destruct (m_heap m !! l). }
  split; [apply on_ref_dead; [by apply delete_ok|done..]|]. destruct Hd as (_&Hlt&Hd). unfold dead, on_ref. cbn. rewrite Hs. cbn. by rewrite lookup_insert_eq.
Qed.

Lemma drop_ok sid l m : manager_ok m -> m_sessions m !! sid = Some l -> manager_ok (drop_session sid l m) /\ dead l (drop_session sid l m).
Proof.
  intros Hok Hl. unfold drop_session.
  replace (m_sessions (on_ref l (fun s => with_canceled (with_timer None (with_destroying s))) m)) with (m_sessions m) by (unfold on_ref; by case_match).
  by apply leave_ok.
Qed.

Lemma on_ref_sessions l f m : m_sessions (on_ref l f m) = m_sessions m.
Proof. unfold on_ref. by case_match. Qed.

Lemma released_ok l m : manager_ok m -> dead l m -> manager_ok (releaseCapacityReservation l m).
Proof.
  intros Hok (_&Hlt&Hd). unfold releaseCapacityReservation. destruct (m_heap m !! l) as [s|] eqn:El; [|done].
  destruct (ts_capacityReserved s) eqn:Er; [|done]. cbn [negb]. unfold on_ref. rewrite El. cbn.
  pose proof (reserved_release _ _ _ El Er) as Hrel. destruct Hok as [Hc Ht Hn Hf Hna].
  assert (0 < m_activeSessionReservations m) as Hpos.
  { rewrite Hn. unfold reserved_count in *. lia. }
  apply Z.ltb_lt in Hpos as ->. split; cbn; [done| |lia| |].
  - intros sid l' Hl'. destruct (Ht _ _ Hl') as (s'&Hs'&He). exists s'. rewrite lookup_insert_ne by (intros <-; by destruct (Hd sid)).
    split; [done|]. by eapply entry_ok_in.
  - intros l' s'. rewrite lookup_insert. case_decide; [by subst|apply Hf].
  - intros l' s'. rewrite lookup_insert. case_decide; [|apply Hna]. intros [= <-]. cbn. by apply (Hna l).
Qed.

Lemma slot_lookup m sid l s :
  manager_ok m -> (m_sessions m !! sid ≫= fun l => (fun s => (l, s)) <$> m_heap m !! l) = Some (l, s) ->
  m_sessions m !! sid = Some l /\ m_heap m !! l = Some s /\ entry_ok m sid s.
Proof.
  intros Hok. destruct (m_sessions m !! sid) as [l'|] eqn:El; [|done]. cbn. destruct (mo_table _ Hok _ _ El) as (s'&Hs'&He). rewrite Hs'.
  by intros [= <- <-].
Qed.

Lemma new_session_ok sid lease now m : manager_ok m -> manager_ok (newSessionLocked sid lease now m).2.
Proof.
  intros Hok. unfold newSessionLocked. destruct (_ && _); [done|].
  set (s := mkTSession _ _ _ _ _ _ _ _ _ _ _). pose proof (sessions_insert_ok s now m Hok eq_refl eq_refl) as H. cbn in H.
  eapply other_fields_ok; [apply H; [pose proof (mo_cfg _ Hok); lia|done]|done..].
Qed.

Lemma claim_ok uuid sid lease create now m : manager_ok m -> manager_ok (claimSession uuid sid lease create now m).2.
Proof.
  intros Hok. unfold claimSession. destruct (m_closed m); [done|].
  assert (forall sid, manager_ok (match newSessionLocked sid lease now m with (Ok l, m) => (Ok (l, true), m) | (Err e, m) => (Err e, m) end).2) as Hnew.
  { intros sid'. pose proof (new_session_ok sid' lease now m Hok) as H. by destruct (newSessionLocked _ _ _ _) as [[]]. }
  destruct (bool_decide (sid = "")); [apply Hnew|]. destruct (m_sessions m !! sid ≫= _) as [[l s]|] eqn:E.
  - destruct (slot_lookup _ _ _ _ Hok E) as (Hl&Hs&He). destruct (ts_destroying s) eqn:Ed; [done|].
    destruct (_ <=? _) eqn:Ei; [done|]. apply extend_ok, on_ref_ok; [done..|].
    intros sid' s' Hl' Hs' [H1 H1' H2 H3 H4 H5]. replace s' with s in * by congruence. bool_prop.
    split; cbn; [done|done|done|lia|congruence|done].
  - destruct create; cbn; [apply Hnew|done].
Qed.

Lemma release_ok sid m : manager_ok m ->
  let '(r, m') := release_slot sid m in manager_ok m' /\ forall lease l, r = Some (lease, Some l) -> dead l m'.
Proof.
  intros Hok. unfold release_slot. destruct (bool_decide (trim sid = "")); [done|].
  destruct (m_sessions m !! trim sid ≫= _) as [[l s]|] eqn:E; [|done]. destruct (slot_lookup _ _ _ _ Hok E) as (Hl&Hs&He).
  set (n := if 0 <? ts_inflight s then _ else _). destruct (ts_destroying s && (n =? 0)) eqn:Ed.
  - rewrite on_ref_sessions. destruct (leave_ok (trim sid) l (with_inflight n) m Hok ltac:(done) Hl) as [H1 H2].
    split; [by eapply other_fields_ok|]. by intros ? ? [= <- <-].
  - split; [|done]. apply on_ref_ok; [done..|]. intros sid' s' Hl' Hs' [H1 H1' H2 H3 H4 H5]. replace s' with s in * by congruence.
    assert (0 <= n <= ts_inflight s) as Hn by (unfold n; destruct (0 <? ts_inflight s) eqn:?; bool_prop; lia).
    split; cbn; [done|done|done|lia| |done]. intros Hd. rewrite Hd in Ed. cbn in Ed. bool_prop. lia.
Qed.

Lemma destroy_ok sid m : manager_ok m ->
  let '(r, m') := destroy_slot sid m in manager_ok m' /\ forall l, r = Some l -> dead l m'.
Proof.
  intros Hok. unfold destroy_slot. destruct (bool_decide (trim sid = "")); [done|].
  destruct (m_sessions m !! trim sid ≫= _) as [[l s]|] eqn:E; [|done]. destruct (slot_lookup _ _ _ _ Hok E) as (Hl&Hs&He).
  set (n := if 0 <? ts_inflight s then _ else _). set (f := fun s => with_inflight n _). destruct (n =? 0) eqn:Ed.
  - rewrite on_ref_sessions. destruct (leave_ok (trim sid) l f m Hok ltac:(done) Hl) as [H1 H2].
    split; [by eapply other_fields_ok|]. by intros ? [= <-].
  - split; [|done]. apply on_ref_ok; [done..|]. intros sid' s' Hl' Hs' [H1 H1' H2 H3 H4 H5]. replace s' with s in * by congruence.
    assert (0 <= n <= ts_inflight s) as Hn by (unfold n; destruct (0 <? ts_inflight s) eqn:?; bool_prop; lia).
    bool_prop. split; cbn; [done|done|done|lia|lia|done].
Qed.


(** ** Atomic steps

    Every critical section, every write outside the mutex and every docker
    command is one of these; [rec] says whether recovery may run. *)
Inductive atom (rec : bool) : terminalSessionManager -> terminalSessionManager -> Prop :=
  | at_docker args m : atom rec m (docker args m)
  | at_wg create cleanup m : atom rec m (with_wg create cleanup m)
  | at_init l ip err m : atom rec m (on_ref l (with_init ip err) m)
  | at_cancel l m : atom rec m (on_ref l with_canceled m)
  | at_claim uuid sid lease create now m : atom rec m (claimSession uuid sid lease create now m).2
  | at_release sid m : atom rec m (release_slot sid m).2
  | at_destroy sid m : atom rec m (destroy_slot sid m).2
  | at_drop sid l m : m_sessions m !! sid = Some l -> atom rec m (drop_session sid l m)
  | at_capacity l m : dead l m -> removed l m -> atom rec m (releaseCapacityReservation l m)
  | at_schedule now l m : atom rec m (scheduleSessionLeaseTimerLocked now l m)
  | at_extend now target l m : atom rec m (extend_session_lease now target l m)
  | at_close m : atom rec m (set_closed m)
  | at_stop l m : m_closed m = true -> atom rec m (on_ref l (with_timer None) m)
  | at_clear m : m_closed m = true -> atom rec m (with_table ∅ m)
  | at_relet now lease l m : rec = true -> atom rec m (set_session_lease now lease l m)
  | at_recover s now m : rec = true -> ts_containerName s = terminalSessionResourceName (m_cfg m) (ts_sessionID s) ->
      ts_capacityReserved s = true -> ts_inflight s = 0 -> ts_destroying s = false ->
      atom rec m (scheduleSessionLeaseTimerLocked now (m_next m) (insert_session s m).2).

Lemma on_ref_closed l f m : m_closed (on_ref l f m) = m_closed m.
Proof. unfold on_ref. by case_match. Qed.

Lemma atom_ok rec m m' : atom rec m m' -> manager_ok m -> manager_ok m'.
Proof.
  intros H Hok. destruct H.
  - by eapply other_fields_ok.
  - by eapply other_fields_ok.
  - apply on_ref_ok; [done..|]. intros sid s _ _ [??????]. by split.
  - apply on_ref_ok; [done..|]. intros sid s _ _ [??????]. by split.
  - by apply claim_ok.
  - pose proof (release_ok sid m Hok) as H. by destruct (release_slot sid m) as [r m']; destruct H.
  - pose proof (destroy_ok sid m Hok) as H. by destruct (destroy_slot sid m) as [r m']; destruct H.
  - by apply drop_ok.
  - by apply released_ok.
  - by apply schedule_ok.
  - by apply extend_ok.
  - by eapply other_fields_ok.
  - apply on_ref_ok; [done..|]. intros sid s _ _ [??????]. split; cbn; [done|done|done|done|done|congruence].
  - destruct Hok as [Hc Ht Hn Hf Hna]. split; cbn; [done| |done..]. intros sid l Hl. by rewrite lookup_empty in Hl.
  - by apply relet_ok.
  - apply sessions_insert_ok; [done..| |done]. pose proof (mo_cfg _ Hok). lia.
Qed.

(** What no step takes back. *)
Record same_session (rec : bool) s s' : Prop := {
  ss_id : ts_sessionID s' = ts_sessionID s;
  ss_name : ts_containerName s' = ts_containerName s;
  ss_destroying : ts_destroying s = true -> ts_destroying s' = true;
  ss_released : ts_capacityReserved s = false -> ts_capacityReserved s' = false;
  ss_lease : rec = false -> ts_leaseExpiresAt s <= ts_leaseExpiresAt s' }.

#[export] Instance same_session_preorder rec : PreOrder (same_session rec).
Proof.
  split; [by split|]. intros s1 s2 s3 [A1 B1 C1 D1 E1] [A2 B2 C2 D2 E2]. split; [congruence..|auto|auto|].
  intros Hr. specialize (E1 Hr). specialize (E2 Hr). lia.
Qed.

Record evolve (rec : bool) m m' : Prop := {
  ev_cfg : m_cfg m' = m_cfg m;
  ev_next : (m_next m <= m_next m')%nat;
  ev_closed : m_closed m = true -> m_closed m' = true;
  ev_heap l s : m_heap m !! l = Some s -> exists s', m_heap m' !! l = Some s' /\ same_session rec s s';
  ev_table sid l : m_sessions m' !! sid = Some l -> m_sessions m !! sid = Some l \/ (m_next m <= l)%nat }.

#[export] Instance evolve_preorder rec : PreOrder (evolve rec).
Proof.
  split; [intros m; split; eauto; intros l s Hs; by exists s|].
  intros m1 m2 m3 [A1 B1 C1 D1 E1] [A2 B2 C2 D2 E2]. split; [congruence|lia|auto| |].
  - intros l s (s2&H2&S2)%D1. destruct (D2 _ _ H2) as (s3&H3&S3). exists s3. split; [done|by etrans].
  - intros sid l [H|H]%E2; [by apply E1|right; lia].
Qed.

Lemma evolve_dead rec l m m' : evolve rec m m' -> dead l m -> dead l m'.
Proof. intros [_ Hn _ Hh Ht] ([s Hs]&Hl&Hd). destruct (Hh _ _ Hs) as (s'&Hs'&_). split; [by exists s'|]. split; [lia|]. intros sid [H|H]%Ht; [by destruct (Hd sid)|lia]. Qed.

Lemma evolve_on_ref rec l f m : (forall s, m_heap m !! l = Some s -> same_session rec s (f s)) -> evolve rec m (on_ref l f m).
Proof.
  intros Hf. unfold on_ref. destruct (m_heap m !! l) as [s|] eqn:El; [|done]. split; cbn; [done..| |by left].
  intros l' s' Hs'. rewrite lookup_insert. case_decide as E; [|by exists s'].
  subst l'. exists (f s). split; [done|]. replace s' with s by congruence. by apply Hf.
Qed.

Lemma evolve_same rec m m' :
  m_cfg m' = m_cfg m -> m_next m' = m_next m -> m_closed m' = m_closed m \/ m_closed m' = true -> m_heap m' = m_heap m ->
  (forall sid l, m_sessions m' !! sid = Some l -> m_sessions m !! sid = Some l) -> evolve rec m m'.
Proof.
  intros E1 E2 E3 E4 E5. split; [done|lia|destruct E3 as [-> | ->]; auto| |by left; apply E5].
  rewrite E4. intros l s Hs. by exists s.
Qed.

Lemma evolve_delete rec sid m : evolve rec m (with_table (delete sid (m_sessions m)) m).
Proof. apply evolve_same; [done..|by left|done|]. cbn. by intros sid' l [_ ?]%lookup_delete_Some. Qed.

Lemma evolve_schedule rec now l m : evolve rec m (scheduleSessionLeaseTimerLocked now l m).
Proof.
  unfold scheduleSessionLeaseTimerLocked. destruct (m_closed m); [done|]. apply evolve_on_ref. intros s _.
  destruct (ts_destroying s) eqn:Ed; [done|]. split; cbn; try done; congruence.
Qed.

Lemma evolve_insert rec s m : manager_ok m -> evolve rec m (insert_session s m).2.
Proof.
  intros Hok. split; cbn; [done|lia|done| |].
  - intros l s' Hs'. exists s'. rewrite lookup_insert_ne; [done|]. intros <-. pose proof (mo_fresh _ Hok _ _ Hs'). lia.
  - intros sid l. rewrite lookup_insert. case_decide; [intros [= <-]; right; lia|by left].
Qed.

Lemma evolve_relet rec now lease l m :
  (rec = true \/ forall s, m_heap m !! l = Some s -> ts_leaseExpiresAt s <= lease) -> evolve rec m (set_session_lease now lease l m).
Proof.
  intros Hl. unfold set_session_lease. etrans; [|apply evolve_schedule]. apply evolve_on_ref. intros s Hs. split; cbn; [done..|].
  intros ->. destruct Hl as [?|Hl]; [done|]. by apply Hl.
Qed.

Lemma evolve_extend rec now target l m : evolve rec m (extend_session_lease now target l m).
Proof.
  unfold extend_session_lease. destruct (m_heap m !! l) as [s|] eqn:El; [|done]. destruct (_ <? _) eqn:E; [|done]. bool_prop.
  apply evolve_relet. right. intros s' Hs'. replace s' with s by congruence. lia.
Qed.

Lemma atom_evolve rec m m' : atom rec m m' -> manager_ok m -> evolve rec m m'.
Proof.
  intros H Hok. destruct H.
  - apply evolve_same; auto.
  - apply evolve_same; auto.
  - by apply evolve_on_ref.
  - by apply evolve_on_ref.
  - unfold claimSession. destruct (m_closed m); [done|].
    assert (forall sid, evolve rec m (match newSessionLocked sid lease now m with (Ok l, m) => (Ok (l, true), m) | (Err e, m) => (Err e, m) end).2) as Hnew.
    { intros sid'. unfold newSessionLocked. destruct (_ && _); [done|]. cbn -[scheduleSessionLeaseTimerLocked].
      set (s := mkTSession _ _ _ _ _ _ _ _ _ _ _). etrans; [apply (evolve_insert rec s m Hok)|].
      etrans; [apply (evolve_schedule rec now (m_next m))|]. apply evolve_same; auto. }
    destruct (bool_decide _); [apply Hnew|]. destruct (m_sessions m !! sid ≫= _) as [[l s]|]; [|by destruct create; [apply Hnew|]].
    destruct (ts_destroying s); [done|]. destruct (_ <=? _); [done|]. etrans; [|apply evolve_extend]. by apply evolve_on_ref.
  - unfold release_slot. destruct (bool_decide _); [done|]. destruct (m_sessions m !! trim sid ≫= _) as [[l s]|]; [|done].
    set (n := if 0 <? _ then _ else _). destruct (_ && _); (etrans; [by apply (evolve_on_ref rec l (with_inflight n))|]); [|done].
    etrans; [apply (evolve_delete rec (trim sid))|]. apply evolve_same; auto.
  - unfold destroy_slot. destruct (bool_decide _); [done|]. destruct (m_sessions m !! trim sid ≫= _) as [[l s]|]; [|done].
    set (n := if 0 <? _ then _ else _). destruct (_ =? _);
      (etrans; [by apply (evolve_on_ref rec l (fun s => with_inflight n (with_canceled (with_timer None (with_destroying s)))))|]); [|done].
    etrans; [apply (evolve_delete rec (trim sid))|]. apply evolve_same; auto.
  - unfold drop_session. set (f := fun s => with_canceled (with_timer None (with_destroying s))). rewrite <- (on_ref_sessions l f m).
    etrans; [by apply (evolve_on_ref rec l f)|]. apply evolve_delete.
  - unfold releaseCapacityReservation. destruct (m_heap m !! l) as [s|] eqn:El; [|done]. destruct (negb _); [done|].
    etrans; [by apply (evolve_on_ref rec l with_released)|]. case_match; [apply evolve_same; auto|done].
  - apply evolve_schedule.
  - apply evolve_extend.
  - apply evolve_same; auto.
  - by apply evolve_on_ref.
  - apply evolve_same; auto. cbn. intros sid l. by rewrite lookup_empty.
  - apply evolve_relet. by left.
  - etrans; [apply (evolve_insert rec s m Hok)|]. apply evolve_schedule.
Qed.

(** *** The docker log *)
Lemma docker_on_ref l f m : m_docker (on_ref l f m) = m_docker m.
Proof. unfold on_ref. by destruct (m_heap m !! l). Qed.

Lemma docker_schedule now l m : m_docker (scheduleSessionLeaseTimerLocked now l m) = m_docker m.
Proof. unfold scheduleSessionLeaseTimerLocked. destruct (m_closed m); [done|apply docker_on_ref]. Qed.

Lemma docker_extend now target l m : m_docker (extend_session_lease now target l m) = m_docker m.
Proof. unfold extend_session_lease. destruct (m_heap m !! l); [|done]. destruct (_ <? _); [|done]. by rewrite docker_schedule, docker_on_ref. Qed.

Lemma docker_claim uuid sid lease create now m : m_docker (claimSession uuid sid lease create now m).2 = m_docker m.
Proof.
  unfold claimSession. destruct (m_closed m); [done|].
  assert (forall sid, m_docker (match newSessionLocked sid lease now m with (Ok l, m) => (Ok (l, true), m) | (Err e, m) => (Err e, m) end).2 = m_docker m) as Hnew.
  { intros sid'. unfold newSessionLocked. destruct (_ && _); [done|]. cbn -[scheduleSessionLeaseTimerLocked]. by rewrite docker_schedule. }
  destruct (bool_decide _); [apply Hnew|]. destruct (m_sessions m !! sid ≫= _) as [[l s]|]; [|by destruct create; [apply Hnew|]].
  destruct (ts_destroying s); [done|]. destruct (_ <=? _); [done|]. cbn [snd]. by rewrite docker_extend, docker_on_ref.
Qed.

Lemma docker_release_slot sid m : m_docker (release_slot sid m).2 = m_docker m.
Proof.
  unfold release_slot. destruct (bool_decide _); [done|]. destruct (m_sessions m !! trim sid ≫= _) as [[l s]|]; [|done].
  set (n := if 0 <? _ then _ else _). pose proof (docker_on_ref l (with_inflight n) m) as E. by destruct (_ && _).
Qed.

Lemma docker_destroy_slot sid m : m_docker (destroy_slot sid m).2 = m_docker m.
Proof.
  unfold destroy_slot. destruct (bool_decide _); [done|]. destruct (m_sessions m !! trim sid ≫= _) as [[l s]|]; [|done].
  set (n := if 0 <? _ then _ else _). set (f := fun s => with_inflight n _). pose proof (docker_on_ref l f m) as E. by destruct (_ =? 0).
Qed.

Lemma docker_capacity l m : m_docker (releaseCapacityReservation l m) = m_docker m.
Proof.
  unfold releaseCapacityReservation. destruct (m_heap m !! l) as [s|]; [|done]. destruct (negb _); [done|].
  pose proof (docker_on_ref l with_released m) as E. by destruct (0 <? _).
Qed.

(** The log only grows. *)
Lemma atom_log rec m m' : atom rec m m' -> m_docker m `prefix_of` m_docker m'.
Proof.
  intros Ha.
  destruct Ha; cbn; rewrite ?docker_on_ref, ?docker_claim, ?docker_release_slot, ?docker_destroy_slot, ?docker_capacity, ?docker_schedule, ?docker_extend; try reflexivity.
  - by exists [args].
  - unfold set_session_lease. by rewrite docker_schedule, docker_on_ref.
Qed.

End invariant.

(** ** Operations are sequences of atomic steps *)
Section moves.
Context (rec : bool).
Implicit Types (m : terminalSessionManager) (s : terminalSession) (others : others_t).

Definition moves : terminalSessionManager -> terminalSessionManager -> Prop := rtc (atom rec).
(** The other goroutines also only take atomic steps. *)
Definition others_ok others : Prop := forall i m, manager_ok m -> moves m (others i m).

#[export] Instance moves_preorder : PreOrder moves := rtc_po.

Lemma moves_keep m m' : moves m m' -> manager_ok m -> manager_ok m' /\ evolve rec m m'.
Proof.
  induction 1 as [m|m1 m2 m3 Hs _ IH]; [done|]. intros Hok. destruct IH as [Hok' Hev]; [by eapply atom_ok|].
  split; [done|]. etrans; [by eapply atom_evolve|done].
Qed.

Lemma moves_log m m' : moves m m' -> m_docker m `prefix_of` m_docker m'.
Proof. induction 1 as [m|m1 m2 m3 Ha _ IH]; [done|]. etrans; [by eapply atom_log|exact IH]. Qed.

(** A removed container stays so. *)
Lemma removed_stays l m m' : moves m m' -> manager_ok m -> is_Some (m_heap m !! l) -> removed l m -> removed l m'.
Proof.
  intros Hm Hok [s Hs] Hr. destruct (moves_keep _ _ Hm Hok) as [_ Hev]. destruct (ev_heap _ _ _ Hev _ _ Hs) as (s1&Hs1&Hss).
  intros s' Hs'. replace s' with s1 by congruence. rewrite (ss_name _ _ _ Hss), (ev_cfg _ _ _ Hev). destruct (Hr _ Hs) as [Hin|[Hp Hc]].
  - left. destruct (moves_log _ _ Hm) as [log ->]. apply elem_of_app. by left.
  - right. split; [done|]. by apply (ev_closed _ _ _ Hev).
Qed.

Lemma container_stays l m m' : moves m m' -> manager_ok m -> is_Some (m_heap m !! l) -> container_of l m' = container_of l m.
Proof.
  intros Hm Hok [s Hs]. destruct (moves_keep _ _ Hm Hok) as [_ Hev]. destruct (ev_heap _ _ _ Hev _ _ Hs) as (s'&Hs'&Hss).
  unfold container_of. rewrite Hs, Hs'. apply (ss_name _ _ _ Hss).
Qed.

Lemma removal_removes l m : manager_ok m -> removed l (forceRemoveContainer (container_of l m) m).
Proof.
  intros Hok s Hs. left. unfold forceRemoveContainer, container_of in *. destruct (m_heap m !! l) as [s0|] eqn:Es; [|by rewrite bool_decide_true, Es in Hs].
  pose proof (mo_names _ Hok _ _ Es) as En. rewrite En, bool_decide_false in * by apply resource_name_trim. cbn in Hs. replace s with s0 by congruence.
  rewrite En. cbn. apply elem_of_app. right. by left.
Qed.

Lemma moves_then m m1 m2 :
  manager_ok m -> moves m m1 -> (manager_ok m1 -> evolve rec m m1 -> moves m1 m2) -> moves m m2.
Proof. intros Hok H1 H2. destruct (moves_keep _ _ H1 Hok). etrans; eauto. Qed.

Lemma moves_others others i m m' : others_ok others -> manager_ok m ->
  (manager_ok (others i m) -> evolve rec m (others i m) -> moves (others i m) m') -> moves m m'.
Proof. intros Ho Hok H. eapply moves_then; [done|by apply Ho|done]. Qed.

Lemma moves_atom m m1 m2 : manager_ok m -> atom rec m m1 -> (manager_ok m1 -> evolve rec m m1 -> moves m1 m2) -> moves m m2.
Proof. intros Hok H1 H2. eapply moves_then; [done|by apply rtc_once|done]. Qed.

Lemma shift_ok k others : others_ok others -> others_ok (shift k others).
Proof. intros Ho i m. apply Ho. Qed.
Hint Resolve shift_ok : core.

Lemma remove_moves name m : moves m (forceRemoveContainer name m).
Proof. unfold forceRemoveContainer. destruct (bool_decide _); [done|]. apply rtc_once. constructor. Qed.

Lemma cleanup_moves others l m : others_ok others -> manager_ok m -> dead l m -> moves m (cleanupSession others l m).
Proof.
  intros Ho Hok Hd. unfold cleanupSession. eapply moves_atom; [done|apply (at_cancel rec l)|]. intros H1 E1.
  assert (dead l (on_ref l with_canceled m)) as Hd1 by (by eapply evolve_dead; [apply E1|]).
  rewrite <- (container_stays l _ (others 0%nat (on_ref l with_canceled m))) by (by apply Ho || done || apply Hd1).
  apply (moves_others others 0); [done..|]. intros H2 E2. set (m2 := others 0%nat _) in *. eapply moves_then; [done|apply (remove_moves (container_of l m2))|]. intros H3 E3.
  apply (moves_others others 1); [done..|]. intros H4 E4. set (m3 := forceRemoveContainer _ _) in *.
  assert (dead l m3) as Hd' by (eapply evolve_dead; [apply E3|]; by eapply evolve_dead; [apply E2|]).
  apply rtc_once. constructor; [by eapply evolve_dead|]. eapply removed_stays; [by apply Ho|done|apply Hd'|by apply removal_removes].
Qed.

Lemma tracked_moves others l m : others_ok others -> manager_ok m -> dead l m -> moves m (cleanupTrackedSession others l m).
Proof. intros Ho Hok Hd. unfold cleanupTrackedSession. etrans; [by apply (cleanup_moves others l)|]. apply rtc_once. constructor. Qed.

(** A session that left the table is cleaned up while others run. *)
Lemma retired_moves others k l m : others_ok others -> manager_ok m -> dead l m ->
  moves m (cleanupTrackedSession (shift k others) l (others 0%nat m)).
Proof.
  intros Ho Hok Hd. apply (moves_others others 0); [done..|]. intros H1 E1. apply tracked_moves; [auto|done|]. by eapply evolve_dead.
Qed.

Lemma releaseSession_moves others sid m : others_ok others -> manager_ok m -> moves m (releaseSession others sid m).2.
Proof.
  intros Ho Hok. unfold releaseSession. pose proof (at_release rec sid m) as Hat. pose proof (release_ok sid m Hok) as Hr.
  destruct (release_slot sid m) as [[[lease [l|]]|] m1]; cbn in *; [|by apply rtc_once..].
  destruct Hr as [H1 Hd]. eapply moves_atom; [done|apply Hat|]. intros _ _. apply retired_moves; [done..|]. by eapply Hd.
Qed.

Lemma releaseAndDestroySession_moves others sid m : others_ok others -> manager_ok m -> moves m (releaseAndDestroySession others sid m).
Proof.
  intros Ho Hok. unfold releaseAndDestroySession. pose proof (at_destroy rec sid m) as Hat. pose proof (destroy_ok sid m Hok) as Hr.
  destruct (destroy_slot sid m) as [[l|] m1]; cbn in *; [|by apply rtc_once..].
  destruct Hr as [H1 Hd]. eapply moves_atom; [done|apply Hat|]. intros _ _. apply retired_moves; [done..|]. by eapply Hd.
Qed.

Lemma cleanupInactive_moves others l m : others_ok others -> manager_ok m -> moves m (cleanupInactiveCreatedSession others l m).
Proof.
  intros Ho Hok. unfold cleanupInactiveCreatedSession, drop_inactive.
  assert (moves m (forceRemoveContainer (container_of l m) (others 0%nat m))) as Hrm.
  { apply (moves_others others 0); [done..|]. intros _ _. apply remove_moves. }
  destruct (m_heap m !! l) as [s|]; [|done]. case_bool_decide as El; [|done].
  destruct (drop_ok _ _ _ Hok El) as [H1 Hd]. eapply moves_atom; [done|by apply at_drop|]. intros _ _.
  apply (moves_others others 0); [done..|]. intros H2 E2. apply cleanup_moves; [auto|done|]. by eapply evolve_dead.
Qed.

Lemma inspectIP_moves dk name m : moves m (inspectTerminalContainerIP dk name m).2.
Proof.
  unfold inspectTerminalContainerIP. set (m1 := docker _ m). transitivity m1; [apply rtc_once, at_docker|].
  destruct (dk_Err dk); [done|]. destruct (negb _); [done|]. destruct (ParseAddr _); [|done]. by destruct (IsGlobalUnicast _).
Qed.

Lemma createAndStart_moves env name m : moves m (createAndStartContainer env name m).2.
Proof.
  unfold createAndStartContainer. set (m1 := docker _ m). transitivity m1; [apply rtc_once, at_docker|].
  destruct (dk_Err (xe_create env)); [done|]. destruct (negb _); [done|].
  set (m2 := docker _ m1). transitivity m2; [apply rtc_once, at_docker|]. destruct (dk_Err (xe_start env)); [apply remove_moves|]. destruct (negb _); [apply remove_moves|].
  destruct (bool_decide _); [done|]. pose proof (inspectIP_moves (xe_inspect env) name m2) as H.
  destruct (inspectTerminalContainerIP _ _ _) as [[] m3]; [done|]. etrans; [done|apply remove_moves].
Qed.

Lemma create_done_moves m m' : moves m m' -> moves m (create_done m').
Proof. intros H. etrans; [done|]. apply rtc_once, at_wg. Qed.

Lemma await_moves env l created m : others_ok (xe_others env) -> manager_ok m -> moves m (awaitSessionReady env l created m).2.
Proof.
  intros Ho Hok. unfold awaitSessionReady. destruct created.
  - apply (moves_others (xe_others env) 0); [done..|]. intros H0 _. set (name := container_of l _). set (m0 := xe_others env 0%nat m) in *.
    pose proof (createAndStart_moves env name m0) as Hc. destruct (createAndStartContainer env name m0) as [r m1]. cbn in Hc.
    eapply moves_then; [done|apply Hc|]. intros H1 _. apply (moves_others (xe_others env) 1); [done..|]. intros H2 _.
    destruct r as [ip|e]; cbn; eapply moves_atom; [done|apply (at_init rec l)| |done|apply (at_init rec l)|]; intros H3 _.
    + apply (moves_others (xe_others env) 2); [done..|]. intros H4 _. destruct (sessionIsActive _ _); [apply rtc_once, at_wg|].
      apply (moves_others (xe_others env) 3); [done..|]. intros H5 _. apply create_done_moves, cleanupInactive_moves; auto.
    + apply create_done_moves, releaseAndDestroySession_moves; auto.
  - apply (moves_others (xe_others env) 0); [done..|]. intros H0 _. destruct (xe_wait env); [apply releaseSession_moves; auto|].
    destruct (m_heap _ !! l) as [s|]; [|done]. destruct (negb _); [done|]. destruct (ts_initErr s); [apply releaseSession_moves; auto|].
    apply (moves_others (xe_others env) 1); [done..|]. intros H1 _. by destruct (sessionIsActive _ _).
Qed.

Lemma run_command_moves env l created command m : others_ok (xe_others env) -> manager_ok m ->
  moves m (run_command env l created command m).2.
Proof.
  intros Ho Hok. unfold run_command. set (others := shift 30 _). assert (others_ok others) as Ho' by (by apply shift_ok).
  set (m1 := docker _ m). eapply moves_atom; [done|apply (at_docker rec _ m : atom rec m m1)|]. intros H1 _.
  apply (moves_others others 0); [done..|]. intros H2 _. set (m2 := others 0%nat m1) in *. destruct (dk_Err _) as [e|].
  { destruct (is_ctx_error e); [apply releaseAndDestroySession_moves; auto|apply releaseSession_moves; auto]. }
  destruct (isNoSuchContainerMessage _); [apply releaseAndDestroySession_moves; auto|].
  destruct (truncateByBytes _ _) as [out ot]. destruct (truncateByBytes _ _) as [err et].
  pose proof (releaseSession_moves (shift 1 others) (session_of l m) m2 (shift_ok _ _ Ho') H2) as H.
  by destruct (releaseSession _ _ _) as [[] m3].
Qed.

Lemma Execute_moves env req m : others_ok (xe_others env) -> manager_ok m -> moves m (Execute env req m).2.
Proof.
  intros Ho Hok. unfold Execute. destruct (bool_decide _); [done|]. destruct (resolveLeaseDuration _ _) as [d|]; [|done].
  set (lease := time_add _ _). pose proof (at_claim rec (xe_uuid env) (trim (xr_SessionID req)) lease (xr_CreateIfMissing req) (xe_now env) m) as Hc.
  destruct (claimSession _ _ _ _ _ _) as [[[l created]|] m1]; [|by apply rtc_once]. cbn in Hc.
  eapply moves_atom; [done|apply Hc|]. intros H1 _. pose proof (await_moves env l created m1 Ho H1) as Ha.
  destruct (awaitSessionReady _ _ _ _) as [[[[]|]|] m2]; [|done..]. cbn in Ha. eapply moves_then; [done|apply Ha|]. intros H2 _.
  pose proof (run_command_moves env l created (trim (xr_Command req)) m2 Ho H2) as Hr. by destruct (run_command _ _ _ _ _).
Qed.

Lemma with_resource_moves {A} env sid (f : string -> terminalSessionManager -> res A * terminalSessionManager) m :
  others_ok (xe_others env) -> manager_ok m -> (forall name m, moves m (f name m).2) -> moves m (with_resource env sid f m).2.
Proof.
  intros Ho Hok Hf. unfold with_resource. set (others := shift 30 _). assert (others_ok others) as Ho' by (by apply shift_ok).
  pose proof (at_claim rec (xe_uuid env) sid zero_time false (xe_now env) m) as Hc.
  destruct (claimSession _ _ _ _ _ _) as [[[l created]|] m1]; [|by apply rtc_once]. cbn in Hc.
  eapply moves_atom; [done|apply Hc|]. intros H1 _. pose proof (await_moves env l false m1 Ho H1) as Ha.
  destruct (awaitSessionReady _ _ _ _) as [[[[]|]|] m2]; [|done..]. cbn in Ha. eapply moves_then; [done|apply Ha|]. intros H2 _.
  pose proof (Hf (container_of l m2) m2) as Hr. destruct (f (container_of l m2) m2) as [r m2']. eapply moves_then; [done|apply Hr|]. intros H2' _.
  apply (moves_others others 0); [done..|]. intros H3 _. set (m3 := others 0%nat m2') in *. destruct r as [a|e].
  - pose proof (releaseSession_moves (shift 1 others) sid m3 (shift_ok _ _ Ho') H3) as H.
    by destruct (releaseSession _ _ _) as [[] m4].
  - destruct (_ || _); [apply releaseAndDestroySession_moves; auto|apply releaseSession_moves; auto].
Qed.

Lemma probe_moves env name path action limit m : moves m (probeTerminalResource env name path action limit m).2.
Proof.
  unfold probeTerminalResource. set (m1 := docker _ m). transitivity m1; [apply rtc_once, at_docker|].
  destruct (dk_Err _); [done|]. destruct (isNoSuchContainerMessage _); [done|].
  destruct (negb _); [by destruct (tryDecodeTerminalResourceProbeOutput _ _)|by destruct (decodeTerminalResourceProbeOutput _ _)].
Qed.

Lemma export_moves env name path m : moves m (exportTerminalResource env name path m).2.
Proof.
  unfold exportTerminalResource. destruct (ro_temp env); [|done]. set (m1 := docker _ m). transitivity m1; [apply rtc_once, at_docker|].
  destruct (dk_Err _); [done|]. destruct (isNoSuchContainerMessage _); [done|]. destruct (negb _); [done|]. by destruct (ro_put env).
Qed.

Lemma resource_moves env sid name path action m : moves m (resolveResourceInSession env sid name path action m).2.
Proof.
  unfold resolveResourceInSession. set (pa := if bool_decide _ then _ else _).
  pose proof (probe_moves env name path pa (c_OutputLimitBytes (m_cfg m)) m) as Hp.
  destruct (probeTerminalResource _ _ _ _ _ _) as [[probe|] m1]; [|done]. cbn in Hp. etrans; [apply Hp|]. destruct (bool_decide _).
  - destruct (_ && _); [done|]. pose proof (export_moves env name path m1) as He. by destruct (exportTerminalResource _ _ _ _) as [[] m2].
  - destruct (negb _); [done|]. destruct (bool_decide _); [done|]. by destruct (b64_decode _).
Qed.

Lemma ResolveResource_moves env renv req m : others_ok (xe_others env) -> manager_ok m -> moves m (ResolveResource env renv req m).2.
Proof.
  intros Ho Hok. unfold ResolveResource. destruct (_ || _); [done|]. destruct (bool_decide _); [done|]. destruct (_ && _); [done|].
  apply with_resource_moves; [done..|]. intros. apply resource_moves.
Qed.

Lemma RenewLease_moves sid ttl now m : moves m (RenewLease sid ttl now m).2.
Proof.
  unfold RenewLease. destruct (bool_decide _); [done|]. destruct (resolveLeaseDuration _ _); [|done].
  destruct (m_closed m) eqn:Ec; [done|]. destruct (m_sessions m !! trim sid ≫= _) as [[l s]|]; [|done].
  destruct (_ || _); [done|]. apply rtc_once, at_extend.
Qed.

(** The janitor's critical section: everything it collects has left the table. *)
Lemma collect_moves now kvs ls m :
  manager_ok m -> NoDup kvs.*1 -> (forall k l, (k, l) ∈ kvs -> m_sessions m !! k = Some l) -> Forall (fun l => dead l m) ls ->
  let '(ls', m') := foldl (collect_expired now) (ls, m) kvs in moves m m' /\ Forall (fun l => dead l m') ls'.
Proof.
  revert ls m. induction kvs as [|[k l] kvs IH]; intros ls m Hok Hnd Hin Hls; [done|]. cbn [foldl]. apply NoDup_cons in Hnd as [Hk Hnd].
  unfold collect_expired at 2. cbn [fst snd]. pose proof (Hin k l ltac:(set_solver)) as Hl.
  assert (forall k l, (k, l) ∈ kvs -> m_sessions m !! k = Some l) as Hin' by (intros; apply Hin; set_solver).
  destruct (m_heap m !! l) as [s|]; [|by apply IH]. destruct (expired_at now s); [|by apply IH].
  destruct (drop_ok k l m Hok Hl) as [H1 Hd]. set (m1 := track (drop_session k l m)).
  assert (moves m m1) as Hm. { eapply rtc_l; [by apply at_drop|]. apply rtc_once, at_wg. }
  destruct (moves_keep _ _ Hm Hok) as [H2 E2]. specialize (IH (ls ++ [l]) m1 H2 Hnd).
  destruct (foldl (collect_expired now) (ls ++ [l], m1) kvs) as [ls' m']. destruct IH as [Hm' Hls'].
  - intros k' l' Hk'. unfold m1, track, drop_session. cbn. rewrite lookup_delete_ne; [by apply Hin'|]. intros <-. apply Hk.
    apply list_elem_of_fmap. by exists (k, l').
  - apply Forall_app. split; [|by constructor]. eapply Forall_impl; [done|]. intros l' Hl'. by eapply evolve_dead.
  - split; [by etrans|done].
Qed.

Lemma cleanup_all_moves others ls m : others_ok others -> manager_ok m -> Forall (fun l => dead l m) ls -> moves m (cleanup_all others ls m).
Proof.
  intros Ho. unfold cleanup_all. revert m. induction ls as [|l ls IH]; intros m Hok Hd; [done|]. apply Forall_cons in Hd as [Hl Hls]. cbn [foldl].
  eapply moves_then; [done|apply (tracked_moves (shift (10 * l) others) l m); auto|]. intros H1 E1.
  apply IH; [done|]. eapply Forall_impl; [done|]. intros l' Hl'. by eapply evolve_dead.
Qed.

Lemma cleanupExpired_moves others now m : others_ok others -> manager_ok m -> moves m (cleanupExpiredSessions others now m).
Proof.
  intros Ho Hok. unfold cleanupExpiredSessions, expire_all.
  pose proof (collect_moves now (map_to_list (m_sessions m)) [] m Hok (NoDup_fst_map_to_list _)) as H.
  destruct (foldl _ _ _) as [ls m1]. destruct H as [Hm Hd]; [intros k l; apply elem_of_map_to_list|done|].
  eapply moves_then; [done|apply Hm|]. intros H1 _. apply (moves_others others 0); [done..|]. intros H2 E2.
  apply cleanup_all_moves; [auto|done|]. eapply Forall_impl; [done|]. intros l' Hl'. by eapply evolve_dead.
Qed.

Lemma expireLease_moves others now l m : others_ok others -> manager_ok m -> moves m (expireSessionLease others now l m).
Proof.
  intros Ho Hok. unfold expireSessionLease, expire_one. destruct (m_heap m !! l) as [s|]; [|done].
  destruct (bool_decide (m_sessions m !! ts_sessionID s = Some l)) eqn:El; [|by rewrite orb_true_r].
  apply bool_decide_eq_true in El. destruct (m_closed m || _ || _); [done|]. destruct (now <? _); [apply rtc_once, at_schedule|].
  destruct (drop_ok _ _ _ Hok El) as [H1 Hd]. eapply moves_atom; [done|by apply at_drop|]. intros _ _.
  eapply moves_atom; [done|apply at_wg|]. intros H2 E2. apply retired_moves; [done..|]. by eapply evolve_dead.
Qed.

Lemma proxyTarget_moves others ctx sid now m : others_ok others -> manager_ok m -> moves m (ResolveProxyTarget others ctx sid now m).2.
Proof.
  intros Ho Hok. unfold ResolveProxyTarget. destruct (bool_decide _); [done|]. destruct (m_sessions m !! trim sid ≫= _) as [[l s]|]; [|done].
  destruct (ts_destroying s); [done|]. apply (moves_others others 0); [done..|]. intros H0 _. set (m0 := others 0%nat m) in *.
  destruct ctx; [done|]. destruct (negb _); [done|]. unfold proxy_target. destruct (m_heap m0 !! l) as [s0|]; [|done].
  destruct (bool_decide (m_sessions m0 !! trim sid = Some l)) eqn:El; [|done]. apply bool_decide_eq_true in El.
  destruct (_ || _); [done|]. destruct (_ <=? _); [|by destruct (ParseAddr _) as [a|]; [destruct (IsUnspecified a)|]].
  destruct (drop_ok _ _ _ H0 El) as [H1 Hd]. eapply moves_atom; [done|by apply at_drop|]. intros _ _.
  eapply moves_atom; [done|apply at_wg|]. intros H2 E2. apply (moves_others others 1); [done..|]. intros H3 E3.
  apply tracked_moves; [auto|done|]. eapply evolve_dead; [apply E3|]. by eapply evolve_dead; [apply E2|].
Qed.

Lemma stop_timers_moves ls m : m_closed m = true ->
  moves m (foldl (fun m l => on_ref l (with_timer None) m) m ls) /\ m_closed (foldl (fun m l => on_ref l (with_timer None) m) m ls) = true.
Proof.
  revert m. induction ls as [|l ls IH]; intros m Hc; [done|]. cbn [foldl].
  destruct (IH (on_ref l (with_timer None) m)) as [H1 H2]; [by rewrite on_ref_closed|]. split; [|done].
  eapply rtc_l; [by apply at_stop|done].
Qed.

Lemma stop_timers_shape ls m : let m' := foldl (fun m l => on_ref l (with_timer None) m) m ls in
  m_sessions m' = m_sessions m /\ m_next m' = m_next m.
Proof.
  revert m. induction ls as [|l ls IH]; intros m; [done|]. cbn [foldl]. destruct (IH (on_ref l (with_timer None) m)) as [-> ->].
  unfold on_ref. by destruct (m_heap m !! l).
Qed.

Lemma close_all_moves others ls m : others_ok others -> manager_ok m -> m_closed m = true -> Forall (fun l => dead l m) ls ->
  moves m (foldl (fun m l => if c_PreserveOnClose (m_cfg m) then releaseCapacityReservation l m
                             else cleanupSession (shift (2 + 10 * l) others) l m) m ls).
Proof.
  intros Ho. revert m. induction ls as [|l ls IH]; intros m Hok Hc Hd; [done|]. apply Forall_cons in Hd as [Hl Hls]. cbn [foldl].
  assert (forall m1, moves m m1 -> Forall (fun l => dead l m1) ls) as Hdead.
  { intros m1 Hm1. destruct (moves_keep _ _ Hm1 Hok). eapply Forall_impl; [done|]. intros l' Hl'. by eapply evolve_dead. }
  assert (forall m1, moves m m1 -> manager_ok m1 /\ m_closed m1 = true) as Hkeep.
  { intros m1 Hm1. destruct (moves_keep _ _ Hm1 Hok) as [H1 E1]. split; [done|]. by apply (ev_closed _ _ _ E1). }
  destruct (c_PreserveOnClose (m_cfg m)) eqn:Ep.
  - assert (moves m (releaseCapacityReservation l m)) as Hm by (apply rtc_once, at_capacity; [done|intros s _; by right]). etrans; [done|].
    apply IH; [by apply Hkeep..|by apply Hdead].
  - assert (moves m (cleanupSession (shift (2 + 10 * l) others) l m)) as Hm by (apply cleanup_moves; auto). etrans; [done|].
    apply IH; [by apply Hkeep..|by apply Hdead].
Qed.

Lemma Close_moves others m : others_ok others -> manager_ok m -> moves m (Close others m).
Proof.
  intros Ho Hok. unfold Close. destruct (m_closed m) eqn:Ec; [done|]. eapply moves_atom; [done|apply at_close|]. intros H0 _.
  apply (moves_others others 0); [done..|]. intros H1 E1. set (m1 := others 0%nat (set_closed m)) in *.
  pose proof (ev_closed _ _ _ E1 eq_refl) as Hc. set (ls := snd <$> map_to_list (m_sessions m1)).
  destruct (stop_timers_moves ls m1 Hc) as [H2 Hc2]. destruct (stop_timers_shape ls m1) as [_ Hn]. set (m2 := foldl _ m1 ls) in *.
  eapply moves_then; [done|apply H2|]. intros Hok2 _. eapply moves_atom; [done|by apply at_clear|]. intros Hok3 _.
  apply (moves_others others 1); [done..|]. intros Hok4 E4. apply close_all_moves; [done..|by apply (ev_closed _ _ _ E4)|].
  apply Forall_forall. intros l ([k l']&->&Hl)%list_elem_of_fmap. apply elem_of_map_to_list in Hl. eapply evolve_dead; [apply E4|].
  destruct (mo_table _ H1 _ _ Hl) as (s&Hs&_). destruct (moves_keep _ _ H2 H1) as [_ E2]. destruct (ev_heap _ _ _ E2 _ _ Hs) as (s'&Hs'&_).
  split; [by exists s'|]. split; cbn; [|intros sid; by rewrite lookup_empty]. rewrite Hn. by eapply (mo_fresh _ H1).
Qed.

(** ** Recovery *)
Section recovery.
Context (Hrec : rec = true).

Lemma remove_all_moves names m : moves m (remove_all names m).
Proof.
  unfold remove_all. revert m. induction names as [|name names IH]; intros m; [done|]. cbn [foldl]. etrans; [apply (remove_moves name)|apply IH].
Qed.

Lemma ensure_running_moves dk name status m : moves m (ensure_running dk name status m).2.
Proof.
  unfold ensure_running.
  assert (forall m, moves m (if bool_decide (c_DockerNetwork (m_cfg m) = "") then (inr "", m) else
      match inspectTerminalContainerIP (rd_ip dk) name m with
      | (Err _, m) => (inl (INVALID, true), m) | (Ok ip, m) => (inr ip, m) end).2) as Hgo.
  { intros m'. destruct (bool_decide _); [done|]. pose proof (inspectIP_moves (rd_ip dk) name m') as H.
    by destruct (inspectTerminalContainerIP _ _ _) as [[] m2]. }
  destruct (bool_decide _); [apply Hgo|]. destruct (bool_decide _); [|apply remove_moves].
  set (m1 := docker _ m). transitivity m1; [apply rtc_once, at_docker|]. destruct (docker_failed _); [done|apply Hgo].
Qed.

Lemma recover_known_moves now sid lease m : moves m (recover_known now sid lease m).2.
Proof.
  unfold recover_known. destruct (m_closed m) eqn:Ec; [done|]. destruct (m_sessions m !! sid ≫= _) as [[l s]|]; [|done].
  destruct (ts_destroying s); [done|]. by apply rtc_once, at_relet.
Qed.

Lemma recover_insert_moves now sid name ip lease m : name = terminalSessionResourceName (m_cfg m) sid -> moves m (recover_insert now sid name ip lease m).2.
Proof.
  intros Hname. unfold recover_insert. destruct (m_closed m) eqn:Ec; [done|]. destruct (m_sessions m !! sid ≫= _) as [[l s]|].
  - destruct (_ || _); [done|]. by apply rtc_once, at_relet.
  - apply rtc_once. by apply (at_recover rec (mkTSession sid name ip lease None false 0 false true None true) now m).
Qed.

Lemma attempt_moves others dk now sid name lease m : others_ok others -> manager_ok m -> name = terminalSessionResourceName (m_cfg m) sid ->
  moves m (recoverOneAttempt others dk now sid name lease m).2.
Proof.
  intros Ho Hok Hname. unfold recoverOneAttempt. pose proof (recover_known_moves now sid lease m) as H.
  destruct (recover_known now sid lease m) as [[st|] m0]; [done|]. cbn in H. eapply moves_then; [done|apply H|]. intros H0 E0.
  apply (moves_others others 0); [done..|]. intros H1 E1. set (m1 := docker _ _).
  eapply moves_atom; [done|apply (at_docker rec _ _ : atom rec _ m1)|]. intros H2 _. destruct (docker_failed _); [done|].
  destruct (cut _ _) as [labels [st|]]; [|done]. destruct (_ || _ || _); [apply remove_moves|].
  set (m2 := docker _ m1). eapply moves_atom; [done|apply (at_docker rec _ _ : atom rec _ m2)|]. intros H3 _. destruct (docker_failed _); [done|].
  destruct (negb _); [apply remove_all_moves|]. pose proof (ensure_running_moves dk name st m2) as He.
  destruct (ensure_running dk name st m2) as [[[]|ip] m3]; [done|]. cbn in He. eapply moves_then; [done|apply He|]. intros H4 E4.
  apply (moves_others others 1); [done..|]. intros H5 E5. pose proof (recover_insert_moves now sid name ip lease (others 1%nat m3)) as Hi.
  rewrite (ev_cfg _ _ _ E5), (ev_cfg _ _ _ E4) in Hi. unfold m2, m1 in Hi. cbn in Hi. rewrite (ev_cfg _ _ _ E1), (ev_cfg _ _ _ E0) in Hi. specialize (Hi Hname).
  by destruct (recover_insert _ _ _ _ _ _).
Qed.

Lemma attempts_moves n others dk retry now sid name lease m : others_ok others -> manager_ok m -> name = terminalSessionResourceName (m_cfg m) sid ->
  moves m (recover_attempts n others dk retry now sid name lease m).2.
Proof.
  intros Ho. revert m. induction n as [|n IH]; intros m Hok Hname; [done|]. cbn [recover_attempts]. set (i := (_ - _)%nat).
  pose proof (attempt_moves (shift (10 * i) others) (dk i) now sid name lease m (shift_ok _ _ Ho) Hok Hname) as H.
  destruct (recoverOneAttempt _ _ _ _ _ _ _) as [[st retryable] m1]. cbn in H. destruct (_ || _); [done|]. destruct (negb _); [done|].
  eapply moves_then; [done|apply H|]. intros H1 E1. apply (moves_others others (10 * i + 5)); [done..|]. intros H2 E2.
  apply IH; [done|]. by rewrite (ev_cfg _ _ _ E2), (ev_cfg _ _ _ E1).
Qed.

Lemma candidate_moves env i cand m : others_ok (re_others env i) -> manager_ok m -> moves m (recover_candidate env i cand m).2.
Proof.
  intros Ho Hok. unfold recover_candidate. destruct (_ && _ && _); [by apply attempts_moves|]. destruct (negb _); [apply remove_moves|done].
Qed.

Lemma loop_moves env i cands results expected m : (forall i, others_ok (re_others env i)) -> manager_ok m ->
  moves m (recover_loop env i cands results expected m).2.
Proof.
  intros Ho. revert i results expected m. induction cands as [|[cand|] cands IH]; intros i results expected m Hok; [done| |by apply IH].
  cbn [recover_loop]. pose proof (candidate_moves env i cand m (Ho i) Hok) as H. destruct (recover_candidate env i cand m) as [st m1]. cbn in H.
  eapply moves_then; [done|apply H|]. intros H1 _. by apply IH.
Qed.

Lemma Recover_moves env cands m : (forall i, others_ok (re_others env i)) -> manager_ok m -> moves m (Recover env cands m).2.
Proof.
  intros Ho Hok. unfold Recover. pose proof (loop_moves env 0 cands [] ∅ m Ho Hok) as H.
  destruct (recover_loop _ _ _ _ _ _) as [[results expected] m1]. cbn in H. etrans; [apply H|]. unfold cleanupOrphanContainers.
  cbn [snd]. set (m2 := docker _ m1). transitivity m2; [apply rtc_once, at_docker|]. destruct (docker_failed _); [done|apply remove_all_moves].
Qed.

End recovery.
End moves.
End WorkerProps.
