(* ===== verification/WorkerClaims.v ===== *)
(** What a Docker worker promises about its terminal sessions: one manager, any
    sequence of its operations, any interleaving inside each of them. *)
From S2P Require Import Prelude.
From S2P Require Import Proto.
From S2P Require Import Net.
From S2P Require Import SessionRuntime.
From S2P Require Import TerminalRoutes.
From S2P Require Import WorkerTerminal.
From S2P Require Import WorkerRecovery.
From S2P Require Import WorkerResource.
From S2P Require Import WorkerProps.

Module WorkerClaims.
Import WorkerProps.

Implicit Types (m : terminalSessionManager) (s : terminalSession).

(** ** Sequences of operations *)
Inductive worker_op :=
  | WExecute (env : exec_env) (req : terminalExecRequest)
  | WResource (env : exec_env) (renv : resource_env) (req : terminalResourceRequest)
  | WRenew (sid : string) (ttl : Z) (now : time)
  | WJanitor (others : others_t) (now : time)
  | WTimer (others : others_t) (now : time) (l : nat)
  | WProxy (others : others_t) (ctx : option error) (sid : string) (now : time)
  | WClose (others : others_t)
  | WRecover (env : recover_env) (candidates : list (option TerminalSessionRecoveryCandidate)).

Definition run_op (op : worker_op) m : terminalSessionManager :=
  match op with
  | WExecute env req => (Execute env req m).2
  | WResource env renv req => (ResolveResource env renv req m).2
  | WRenew sid ttl now => (RenewLease sid ttl now m).2
  | WJanitor others now => cleanupExpiredSessions others now m
  | WTimer others now l => expireSessionLease others now l m
  | WProxy others ctx sid now => (ResolveProxyTarget others ctx sid now m).2
  | WClose others => Close others m
  | WRecover env cands => (Recover env cands m).2
  end.

(** The operation is interleaved with atomic steps only, and is a recovery only
    if [rec] allows it. *)
Definition op_ok (rec : bool) (op : worker_op) : Prop :=
  match op with
  | WExecute env _ | WResource env _ _ => others_ok rec (xe_others env)
  | WRenew _ _ _ => True
  | WJanitor others _ | WTimer others _ _ | WProxy others _ _ _ | WClose others => others_ok rec others
  | WRecover env _ => rec = true /\ forall i, others_ok rec (re_others env i)
  end.

Definition run_ops (ops : list worker_op) m : terminalSessionManager := foldl (fun m op => run_op op m) m ops.

Lemma run_op_moves rec op m : op_ok rec op -> manager_ok m -> moves rec m (run_op op m).
Proof.
  intros Hop Hok. destruct op; cbn in *; [by apply Execute_moves|by apply ResolveResource_moves|apply RenewLease_moves
    |by apply cleanupExpired_moves|by apply expireLease_moves|by apply proxyTarget_moves|by apply Close_moves|].
  destruct Hop as [Hrec Ho]. by apply Recover_moves.
Qed.

Lemma run_ops_moves rec ops m : Forall (op_ok rec) ops -> manager_ok m -> moves rec m (run_ops ops m).
Proof.
  intros Hops. revert m. induction Hops as [|op ops Hop _ IH]; intros m Hok; [done|].
  pose proof (run_op_moves rec op m Hop Hok) as Hm. destruct (moves_keep _ _ _ Hm Hok) as [Hok' _].
  etrans; [apply Hm|]. by apply IH.
Qed.

Lemma new_manager_ok cfg : manager_ok (newTerminalSessionManager cfg).
Proof.
  split; cbn; [|intros sid l Hl; by rewrite lookup_empty in Hl|done|intros l s Hl; by rewrite lookup_empty in Hl..].
  unfold or_default, defaultTerminalSessionMaxInflight. destruct (_ <=? 0) eqn:E; bool_prop; lia.
Qed.

(** ** Capacity *)

(** The sessions of the table are among those that hold a reservation. *)
Lemma table_reserved m : manager_ok m -> Z.of_nat (size (m_sessions m)) <= m_activeSessionReservations m.
Proof.
  intros Hok. rewrite (mo_count _ Hok). unfold reserved_count.
  set (f := fun kv : string * nat => kv.2). assert (NoDup (f <$> map_to_list (m_sessions m))) as Hnd.
  { apply NoDup_fmap_2_strong; [|apply NoDup_map_to_list]. intros [k1 l1] [k2 l2] H1%elem_of_map_to_list H2%elem_of_map_to_list.
    unfold f. cbn. intros ->. destruct (mo_table _ Hok _ _ H1) as (s1&Hs1&E1). destruct (mo_table _ Hok _ _ H2) as (s2&Hs2&E2).
    f_equal. rewrite <- (eo_id _ _ _ E1), <- (eo_id _ _ _ E2). congruence. }
  rewrite <- (length_map_to_list (m_sessions m)), <- (length_fmap f), <- size_dom. apply Nat2Z.inj_le.
  rewrite <- (size_list_to_set (C := gset nat) _ Hnd). apply subseteq_size. intros l Hl%elem_of_list_to_set.
  apply list_elem_of_fmap in Hl as ([k l']&->&Hl). apply elem_of_map_to_list in Hl. destruct (mo_table _ Hok _ _ Hl) as (s&Hs&He).
  apply elem_of_dom. exists s. cbn. by apply map_lookup_filter_Some_2; [|apply (eo_reserved _ _ _ He)].
Qed.


(** Steps that do not count. *)
Record uncounted m m' : Prop := {
  un_cfg : m_cfg m' = m_cfg m;
  un_active : m_activeSessionReservations m' = m_activeSessionReservations m }.

#[local] Instance uncounted_preorder : PreOrder uncounted.
Proof. split; [by split|]. intros m1 m2 m3 [A1 B1] [A2 B2]. split; congruence. Qed.










(** *** When a reservation is returned *)

(** Steps that return no reservation. *)
Definition returns_nothing m m' : Prop := forall l s', m_heap m' !! l = Some s' -> ts_capacityReserved s' = false ->
  exists s, m_heap m !! l = Some s /\ ts_capacityReserved s = false.

#[local] Instance returns_nothing_preorder : PreOrder returns_nothing.
Proof. split; [intros m l s; eauto|]. intros m1 m2 m3 H1 H2 l s Hs E. destruct (H2 l s Hs E) as (s2&Hs2&E2). by eapply H1. Qed.















(** C18: Whatever a worker's session manager does, in any order
    and with any interleaving inside each operation, recovery included, it
    stays well formed: a session of the table carries its id and the container
    name derived from it, counts no more commands than the limit, is kept
    while it is being destroyed only while it counts commands, has an
    expiry timer no earlier than its lease, and the number of reservations is
    the number of sessions that hold one, those of the table among them. (The
    count is the number of admitted commands that have not given a slot back; a
    command that outlives its session gives back the slot of the next session of
    that id, see [stale_command_frees_a_foreign_slot], so more commands may run
    than are counted.) *)
Theorem worker_sessions_stay_well_formed cfg ops :
  Forall (op_ok true) ops ->
  let m := run_ops ops (newTerminalSessionManager cfg) in
  manager_ok m /\ Z.of_nat (size (m_sessions m)) <= m_activeSessionReservations m.
Proof.
  intros Hops m. destruct (moves_keep _ _ _ (run_ops_moves true ops _ Hops (new_manager_ok cfg)) (new_manager_ok cfg)) as [Hok _].
  split; [done|]. by apply table_reserved.
Qed.



(** No operation but a recovery takes anything back from a
    session object: its id and container never change, destruction and the
    return of its reservation are final, its lease never gets shorter, and an
    object that left the table never returns to it. *)
Theorem worker_sessions_move_forward cfg ops op :
  Forall (op_ok false) ops -> op_ok false op ->
  let m := run_ops ops (newTerminalSessionManager cfg) in
  let m' := run_op op m in
  (forall l s, m_heap m !! l = Some s ->
     exists s', m_heap m' !! l = Some s' /\ ts_sessionID s' = ts_sessionID s /\ ts_containerName s' = ts_containerName s /\
       (ts_destroying s = true -> ts_destroying s' = true) /\ (ts_capacityReserved s = false -> ts_capacityReserved s' = false) /\
       ts_leaseExpiresAt s <= ts_leaseExpiresAt s') /\
  (forall l, dead l m -> dead l m') /\ (m_closed m = true -> m_closed m' = true).
Proof.
  intros Hops Hop m m'. destruct (moves_keep _ _ _ (run_ops_moves false ops _ Hops (new_manager_ok cfg)) (new_manager_ok cfg)) as [Hok _].
  destruct (moves_keep _ _ _ (run_op_moves false op m Hop Hok) Hok) as [_ Hev]. split; [|split].
  - intros l s Hs. destruct (ev_heap _ _ _ Hev l s Hs) as (s'&Hs'&[]). exists s'. auto 10.
  - intros l. by apply (evolve_dead false).
  - apply (ev_closed _ _ _ Hev).
Qed.

(** ** Claiming a session *)
Definition lease_at (l : nat) m : option time := ts_leaseExpiresAt <$> m_heap m !! l.

Lemma extend_session now target l s m :
  m_heap m !! l = Some s -> exists s', m_heap (extend_session_lease now target l m) !! l = Some s' /\
    ts_leaseExpiresAt s' = Z.max (ts_leaseExpiresAt s) target /\ ts_inflight s' = ts_inflight s /\ ts_destroying s' = ts_destroying s.
Proof.
  intros Hs. unfold extend_session_lease. rewrite Hs. destruct (_ <? _) eqn:E; bool_prop.
  - unfold scheduleSessionLeaseTimerLocked, on_ref. rewrite Hs. cbn [with_heap m_closed m_heap].
    destruct (m_closed m); cbn; rewrite lookup_insert_eq; cbn.
    + eexists. split; [done|]. cbn. split; [lia|done].
    + rewrite lookup_insert_eq. eexists. split; [done|]. destruct (ts_destroying s) eqn:Ed; cbn; (split; [lia|done]).
  - exists s. split; [done|]. split; [lia|done].
Qed.

Lemma extend_table now target l m : m_sessions (extend_session_lease now target l m) = m_sessions m.
Proof.
  unfold extend_session_lease, scheduleSessionLeaseTimerLocked. destruct (m_heap m !! l); [|done]. destruct (_ <? _); [|done].
  destruct (m_closed _); by rewrite !on_ref_sessions.
Qed.

Definition new_session_of m (sid : string) (lease now : time) : terminalSession :=
  mkTSession sid (terminalSessionResourceName (m_cfg m) sid) "" lease (Some (Z.max now lease)) false 1 false false None true.

Lemma new_session_outcome sid lease now m : m_closed m = false ->
  match newSessionLocked sid lease now m with
  | (Err e, m') => m' = m /\ 0 < c_MaxActiveSessions (m_cfg m) <= m_activeSessionReservations m /\
      e = newTerminalExecError terminalExecCodeSessionCapacityExceeded terminalExecCapacityMessage
  | (Ok l, m') => ~ 0 < c_MaxActiveSessions (m_cfg m) <= m_activeSessionReservations m /\ l = m_next m /\
      m' = mkManager (m_cfg m) (<[sid := l]> (m_sessions m)) (<[l := new_session_of m sid lease now]> (m_heap m)) (S l)
             (m_activeSessionReservations m + 1) false (m_createWG m + 1) (m_cleanupWG m) (m_docker m)
  end.
Proof.
  intros Hc. unfold newSessionLocked. destruct (_ && _) eqn:E; bool_prop.
  - split; [done|]. split; [lia|done].
  - cbn [insert_session]. unfold scheduleSessionLeaseTimerLocked. cbn [m_closed]. rewrite Hc. unfold on_ref. cbn [m_heap]. rewrite lookup_insert_eq.
    cbn. split; [lia|]. split; [done|]. unfold with_wg, with_heap. cbn. by rewrite insert_insert_eq.
Qed.

Lemma claim_cases uuid sid lease create now m :
  manager_ok m ->
  let known := m_sessions m !! sid in
  let full := 0 < c_MaxActiveSessions (m_cfg m) <= m_activeSessionReservations m in
  match claimSession uuid sid lease create now m with
  | (Err e, m') => m' = m /\
      ((m_closed m = true /\ e = not_ready) \/
       (m_closed m = false /\ sid <> "" /\ known = None /\ create = false /\ e = no_session) \/
       (m_closed m = false /\ sid <> "" /\ exists l s, known = Some l /\ m_heap m !! l = Some s /\ ts_destroying s = true /\ e = no_session) \/
       (m_closed m = false /\ sid <> "" /\ exists l s, known = Some l /\ m_heap m !! l = Some s /\ ts_destroying s = false /\
          ts_inflight s = c_SessionMaxInflight (m_cfg m) /\ e = newTerminalExecError terminalExecCodeSessionBusy terminalExecBusyMessage) \/
       (m_closed m = false /\ (sid = "" \/ known = None /\ create = true) /\ full /\
          e = newTerminalExecError terminalExecCodeSessionCapacityExceeded terminalExecCapacityMessage))
  | (Ok (l, created), m') => m_closed m = false /\
      exists s, m_heap m' !! l = Some s /\ ts_destroying s = false /\ lease <= ts_leaseExpiresAt s /\
      if created then ~ full /\ l = m_next m /\ (sid = "" \/ known = None /\ create = true) /\
                      m_sessions m' = <[(if bool_decide (sid = "") then uuid else sid) := l]> (m_sessions m) /\
                      ts_inflight s = 1 /\ ts_leaseExpiresAt s = lease
      else m_sessions m' = m_sessions m /\ known = Some l /\ exists s0, m_heap m !! l = Some s0 /\
           ts_inflight s = ts_inflight s0 + 1 /\ ts_leaseExpiresAt s = Z.max (ts_leaseExpiresAt s0) lease
  end.
Proof.
  intros Hok known full. subst known full. unfold claimSession. destruct (m_closed m) eqn:Ec; [by split; [|left]|].
  case_bool_decide as Es.
  { pose proof (new_session_outcome uuid lease now m Ec) as H. destruct (newSessionLocked _ _ _ _) as [[l|e] m'].
    - destruct H as (Hf&->&->). split; [done|]. eexists. cbn. rewrite lookup_insert_eq. split; [done|]. cbn. auto 10 with lia.
    - destruct H as (->&Hf&->). split; [done|]. do 4 right. auto. }
  destruct (m_sessions m !! sid) as [l|] eqn:El; cbn.
  - destruct (mo_table _ Hok _ _ El) as (s&Hs&He). rewrite Hs. cbn. destruct (ts_destroying s) eqn:Ed; [split; [done|]; do 2 right; left; split_and!; [done..|]; by exists l, s|].
    destruct (_ <=? _) eqn:Ei; bool_prop.
    { split; [done|]. do 3 right. left. split_and!; [done..|]. exists l, s. pose proof (eo_inflight _ _ _ He). split_and!; (done || lia). }
    split; [done|]. set (m1 := on_ref l (with_inflight (ts_inflight s + 1)) m).
    assert (m_heap m1 !! l = Some (with_inflight (ts_inflight s + 1) s)) as Hs1 by (unfold m1, on_ref; rewrite Hs; cbn; apply lookup_insert_eq).
    destruct (extend_session now lease l _ m1 Hs1) as (s'&Hs'&E1&E2&E3). exists s'. rewrite E1, E3. cbn.
    split_and!; [done|done|lia|unfold m1; by rewrite extend_table, on_ref_sessions|done|]. by exists s.
  - destruct create; cbn; [|split; [done|]; right; left; auto]. pose proof (new_session_outcome sid lease now m Ec) as H.
    destruct (newSessionLocked _ _ _ _) as [[l|e] m'].
    + destruct H as (Hf&->&->). split; [done|]. eexists. cbn. rewrite lookup_insert_eq. split; [done|]. cbn. auto 10 with lia.
    + destruct H as (->&Hf&->). split; [done|]. do 4 right. auto.
Qed.

(** Claiming a session either fails with exactly one of four
    errors, each under its condition (the manager is closed; the session is
    unknown or being destroyed; it runs its full number of commands; the
    worker is full), and then changes nothing; or it returns a session that
    is not being destroyed, counts this command, and has a lease of at least
    the requested one, the old one if that was longer. *)
Theorem claim_outcomes uuid sid lease create now m :
  manager_ok m ->
  let known := m_sessions m !! sid in
  let full := 0 < c_MaxActiveSessions (m_cfg m) <= m_activeSessionReservations m in
  match claimSession uuid sid lease create now m with
  | (Err e, m') => m' = m /\
      ((m_closed m = true /\ e = not_ready) \/
       (m_closed m = false /\ sid <> "" /\ known = None /\ create = false /\ e = no_session) \/
       (m_closed m = false /\ sid <> "" /\ exists l s, known = Some l /\ m_heap m !! l = Some s /\ ts_destroying s = true /\ e = no_session) \/
       (m_closed m = false /\ sid <> "" /\ exists l s, known = Some l /\ m_heap m !! l = Some s /\ ts_destroying s = false /\
          ts_inflight s = c_SessionMaxInflight (m_cfg m) /\ e = newTerminalExecError terminalExecCodeSessionBusy terminalExecBusyMessage) \/
       (m_closed m = false /\ (sid = "" \/ known = None /\ create = true) /\ full /\
          e = newTerminalExecError terminalExecCodeSessionCapacityExceeded terminalExecCapacityMessage))
  | (Ok (l, created), m') => m_closed m = false /\
      exists s, m_heap m' !! l = Some s /\ ts_destroying s = false /\ lease <= ts_leaseExpiresAt s /\
      if created then ~ full /\ l = m_next m /\ (sid = "" \/ known = None /\ create = true) /\
                      m_sessions m' = <[(if bool_decide (sid = "") then uuid else sid) := l]> (m_sessions m) /\
                      ts_inflight s = 1 /\ ts_leaseExpiresAt s = lease
      else m_sessions m' = m_sessions m /\ known = Some l /\ exists s0, m_heap m !! l = Some s0 /\
           ts_inflight s = ts_inflight s0 + 1 /\ ts_leaseExpiresAt s = Z.max (ts_leaseExpiresAt s0) lease
  end.
Proof. apply claim_cases. Qed.

(** ** One command *)

(** Nobody else touches the manager. *)
Definition quiet : others_t := fun _ m => m.

Lemma quiet_ok rec : others_ok rec quiet.
Proof. by intros i m _. Qed.

Definition docker_ok (r : dockerCommandResult) : Prop := dk_Err r = None /\ dk_ExitCode r = 0.

(** The shape of a session between commands. *)
Definition idle_session m (sid : string) (lease now : time) : terminalSession :=
  mkTSession sid (terminalSessionResourceName (m_cfg m) sid) "" lease (Some (Z.max now lease)) false 0 false true None true.

Section command.
Context (env : exec_env) (Hquiet : xe_others env = quiet).
Context (Hexec : dk_Err (xe_exec env) = None) (Hthere : isNoSuchContainerMessage (dk_Stderr (xe_exec env)) = false).

Definition run_result m (sid : string) (created : bool) (lease : time) : terminalExecRunResult :=
  let limit := c_OutputLimitBytes (m_cfg m) in
  mkRunResult sid created (truncateByBytes (dk_Stdout (xe_exec env)) limit).1 (truncateByBytes (dk_Stderr (xe_exec env)) limit).1
    (dk_ExitCode (xe_exec env)) (truncateByBytes (dk_Stdout (xe_exec env)) limit).2 (truncateByBytes (dk_Stderr (xe_exec env)) limit).2
    (unix_milli lease).

(** A command on a session that is not being destroyed gives its slot back. *)
Lemma run_command_ok l created command s m :
  m_heap m !! l = Some s -> ts_destroying s = false -> 0 < ts_inflight s -> m_sessions m !! ts_sessionID s = Some l ->
  trim (ts_sessionID s) = ts_sessionID s -> ts_sessionID s <> "" ->
  run_command env l created command m =
    (Ok (run_result m (ts_sessionID s) created (ts_leaseExpiresAt s)),
     on_ref l (with_inflight (ts_inflight s - 1)) (docker (terminalExecDockerExecArgs (ts_containerName s) command) m)).
Proof.
  intros Hs Hd Hi Hl Ht Hne. unfold run_command, session_of, container_of. rewrite Hs, Hquiet. unfold shift, quiet. rewrite Hexec, Hthere.
  cbn [m_cfg docker]. unfold run_result. destruct (truncateByBytes (dk_Stdout _) _) as [out ot]. destruct (truncateByBytes (dk_Stderr _) _) as [err et].
  unfold releaseSession, release_slot. rewrite Ht, bool_decide_false by done. cbn [docker m_sessions m_heap]. rewrite Hl. cbn. rewrite Hs. cbn.
  apply Z.ltb_lt in Hi as ->. rewrite Hd. done.
Qed.

Lemma createAndStart_ok name m :
  docker_ok (xe_create env) -> docker_ok (xe_start env) -> c_DockerNetwork (m_cfg m) = "" ->
  createAndStartContainer env name m =
    (Ok "", docker (terminalExecDockerStartArgs name) (docker (terminalExecDockerCreateArgsWithNetwork name (m_cfg m)) m)).
Proof.
  intros [E1 E2] [E3 E4] E5. unfold createAndStartContainer. rewrite E1, E2, E3, E4. cbn [Z.eqb negb docker m_cfg]. by rewrite E5.
Qed.

Lemma first_command req d m :
  manager_ok m -> m_closed m = false -> docker_ok (xe_create env) -> docker_ok (xe_start env) -> c_DockerNetwork (m_cfg m) = "" ->
  trim (xr_Command req) <> "" -> resolveLeaseDuration (xr_LeaseTTLSec req) m = Ok d ->
  let sid := if bool_decide (trim (xr_SessionID req) = "") then xe_uuid env else trim (xr_SessionID req) in
  (trim (xr_SessionID req) = "" \/ xr_CreateIfMissing req = true) -> m_sessions m !! sid = None -> trim sid = sid -> sid <> "" ->
  ~ 0 < c_MaxActiveSessions (m_cfg m) <= m_activeSessionReservations m ->
  let lease := time_add (xe_now env) d in
  let name := terminalSessionResourceName (m_cfg m) sid in
  exists m', Execute env req m = (Some (Ok (run_result m sid true lease)), m') /\
    m_sessions m' = <[sid := m_next m]> (m_sessions m) /\
    m_heap m' = <[m_next m := idle_session m sid lease (xe_now env)]> (m_heap m) /\
    m_activeSessionReservations m' = m_activeSessionReservations m + 1 /\
    m_docker m' = m_docker m ++ [terminalExecDockerCreateArgsWithNetwork name (m_cfg m); terminalExecDockerStartArgs name;
                                 terminalExecDockerExecArgs name (trim (xr_Command req))].
Proof.
  intros Hok Hc Hcr Hst Hnet Hcmd Hd sid Hcreate Hnone Hts Hne Hfree lease name.
  set (m1 := mkManager (m_cfg m) (<[sid := m_next m]> (m_sessions m)) (<[m_next m := new_session_of m sid lease (xe_now env)]> (m_heap m))
               (S (m_next m)) (m_activeSessionReservations m + 1) false (m_createWG m + 1) (m_cleanupWG m) (m_docker m)).
  assert (claimSession (xe_uuid env) (trim (xr_SessionID req)) lease (xr_CreateIfMissing req) (xe_now env) m = (Ok (m_next m, true), m1)) as Hclaim.
  { unfold claimSession. rewrite Hc. unfold sid in *. case_bool_decide as Es.
    - pose proof (new_session_outcome (xe_uuid env) lease (xe_now env) m Hc) as H.
      destruct (newSessionLocked _ _ _ _) as [[l|e] m']; [|tauto]. destruct H as (_&->&->). done.
    - destruct Hcreate as [? | -> ]; [done|]. rewrite Hnone. cbn. pose proof (new_session_outcome (trim (xr_SessionID req)) lease (xe_now env) m Hc) as H.
      destruct (newSessionLocked _ _ _ _) as [[l|e] m']; [|tauto]. destruct H as (_&->&->). done. }
  set (m2 := create_done (on_ref (m_next m) (with_init "" None) (docker (terminalExecDockerStartArgs name)
               (docker (terminalExecDockerCreateArgsWithNetwork name (m_cfg m)) m1)))).
  assert (awaitSessionReady env (m_next m) true m1 = (Some (Ok tt), m2)) as Hready.
  { unfold awaitSessionReady. rewrite Hquiet. unfold quiet.
    assert (container_of (m_next m) m1 = name) as -> by (unfold container_of, m1; cbn; by rewrite lookup_insert_eq).
    rewrite createAndStart_ok by done. cbn [m1 m_cfg]. fold m1. unfold m2. set (m3 := docker _ (docker _ m1)).
    assert (m_heap m3 !! m_next m = Some (new_session_of m sid lease (xe_now env))) as Hs3 by apply lookup_insert_eq.
    assert (m_sessions m3 !! sid = Some (m_next m)) as Hl3 by apply lookup_insert_eq.
    unfold sessionIsActive. rewrite on_ref_sessions, on_ref_closed. unfold on_ref. rewrite Hs3. cbn [with_heap m_heap]. rewrite lookup_insert_eq.
    cbn [with_init new_session_of ts_sessionID ts_destroying]. rewrite Hl3, bool_decide_true by done. done. }
  unfold Execute. rewrite bool_decide_false by done. rewrite Hd. fold lease. rewrite Hclaim, Hready.
  assert (m_heap m2 !! m_next m = Some (with_init "" None (new_session_of m sid lease (xe_now env)))) as Hs2.
  { unfold m2, on_ref, m1. cbn. rewrite lookup_insert_eq. cbn. by rewrite lookup_insert_eq. }
  assert (m_sessions m2 !! sid = Some (m_next m)) as Hl2.
  { unfold m2, m1. cbn. rewrite on_ref_sessions. cbn. by rewrite lookup_insert_eq. }
  rewrite (run_command_ok _ _ _ _ _ Hs2) by (done || (cbn; lia)). unfold m2, m1, on_ref. cbn.
  rewrite lookup_insert_eq. cbn. rewrite lookup_insert_eq. eexists. split; [done|]. cbn. rewrite !insert_insert_eq, <- !app_assoc. done.
Qed.

(** The first command of a session: with a working docker it
    returns the command's output, cut to the limit, under the session's id and
    marked as created; the container was created and started once and ran that
    one command; the session stays in the table, idle, with the requested
    lease and one more reservation. *)
Theorem first_command_opens_the_session req d m :
  manager_ok m -> m_closed m = false -> docker_ok (xe_create env) -> docker_ok (xe_start env) -> c_DockerNetwork (m_cfg m) = "" ->
  trim (xr_Command req) <> "" -> resolveLeaseDuration (xr_LeaseTTLSec req) m = Ok d ->
  let sid := if bool_decide (trim (xr_SessionID req) = "") then xe_uuid env else trim (xr_SessionID req) in
  (trim (xr_SessionID req) = "" \/ xr_CreateIfMissing req = true) -> m_sessions m !! sid = None -> trim sid = sid -> sid <> "" ->
  ~ 0 < c_MaxActiveSessions (m_cfg m) <= m_activeSessionReservations m ->
  let lease := time_add (xe_now env) d in
  let name := terminalSessionResourceName (m_cfg m) sid in
  exists m', Execute env req m = (Some (Ok (run_result m sid true lease)), m') /\
    m_sessions m' = <[sid := m_next m]> (m_sessions m) /\
    m_heap m' = <[m_next m := idle_session m sid lease (xe_now env)]> (m_heap m) /\
    m_activeSessionReservations m' = m_activeSessionReservations m + 1 /\
    m_docker m' = m_docker m ++ [terminalExecDockerCreateArgsWithNetwork name (m_cfg m); terminalExecDockerStartArgs name;
                                 terminalExecDockerExecArgs name (trim (xr_Command req))].
Proof. apply first_command. Qed.

End command.

(** ** Expiry *)
Definition expired_ref (now : time) m (l : nat) : bool := match m_heap m !! l with Some s => expired_at now s | None => false end.

Definition retire (kv : string * nat) m : terminalSessionManager := track (drop_session kv.1 kv.2 m).
Definition dropped s : terminalSession := with_canceled (with_timer None (with_destroying s)).

Lemma retire_heap kv l m : m_heap (retire kv m) !! l = if decide (kv.2 = l) then dropped <$> m_heap m !! l else m_heap m !! l.
Proof.
  unfold retire, track, drop_session, on_ref. cbn. destruct (m_heap m !! kv.2) as [s|] eqn:E; cbn.
  - rewrite lookup_insert. case_decide as El; [subst; by rewrite E|done].
  - case_decide as El; [subst; by rewrite E|done].
Qed.

(** The janitor's critical section retires exactly the expired sessions. *)
Lemma collect_is_retire now kvs ls m : NoDup kvs.*2 ->
  foldl (collect_expired now) (ls, m) kvs =
  (let expired := List.filter (fun kv => expired_ref now m kv.2) kvs in (ls ++ expired.*2, foldl (fun m kv => retire kv m) m expired)).
Proof.
  revert ls m. induction kvs as [|[k l] kvs IH]; intros ls m Hnd; cbn [foldl]; [cbn; by rewrite app_nil_r|].
  apply NoDup_cons in Hnd as [Hl Hnd].
  assert (collect_expired now (ls, m) (k, l) = if expired_ref now m l then (ls ++ [l], retire (k, l) m) else (ls, m)) as ->.
  { unfold collect_expired, expired_ref. cbn. destruct (m_heap m !! l) as [s|]; [|done]. by destruct (expired_at now s). }
  cbn [List.filter snd]. destruct (expired_ref now m l); rewrite IH by done; [|done]. cbn zeta.
  rewrite (filter_ext_in (fun kv => expired_ref now (retire (k, l) m) kv.2) (fun kv => expired_ref now m kv.2)); [cbn; by rewrite <- app_assoc|].
  intros [k' l'] Hin. unfold expired_ref. rewrite retire_heap. cbn. rewrite decide_False; [done|]. intros ->. apply Hl.
  apply list_elem_of_fmap. exists (k', l'). split; [done|]. by apply list_elem_of_In.
Qed.

Lemma retire_all kvs m : NoDup kvs.*2 -> let m' := foldl (fun m kv => retire kv m) m kvs in
  (forall k, m_sessions m' !! k = if decide (k ∈ kvs.*1) then None else m_sessions m !! k) /\
  (forall l, m_heap m' !! l = if decide (l ∈ kvs.*2) then dropped <$> m_heap m !! l else m_heap m !! l) /\ m_docker m' = m_docker m.
Proof.
  revert m. induction kvs as [|[k l] kvs IH]; intros m Hnd; cbn [foldl]; [done|]. apply NoDup_cons in Hnd as [Hl Hnd].
  destruct (IH (retire (k, l) m) Hnd) as (H1&H2&H3). split; [|split].
  - intros k'. rewrite H1. cbn. rewrite lookup_delete. destruct (decide (k = k')) as [<-|Hk].
    + rewrite (decide_True (P := k ∈ k :: _)) by (by left). by destruct (decide _).
    + destruct (decide (k' ∈ kvs.*1)); [by rewrite decide_True by (by right)|]. by rewrite decide_False by (by intros [|]%elem_of_cons).
  - intros l'. rewrite H2, retire_heap. cbn [fst snd fmap list_fmap]. destruct (decide (l = l')) as [<-|Hl'].
    + by rewrite decide_False, decide_True by (done || by left).
    + destruct (decide (l' ∈ kvs.*2)); [by rewrite decide_True by (by right)|]. by rewrite decide_False by (by intros [|]%elem_of_cons).
  - rewrite H3. unfold retire, track, drop_session, on_ref. cbn. by destruct (m_heap m !! l).
Qed.

(** Returning a reservation; removing a container before that. *)
Lemma release_effect l s m : m_heap m !! l = Some s ->
  let m' := releaseCapacityReservation l m in
  m_sessions m' = m_sessions m /\ m_docker m' = m_docker m /\ m_cfg m' = m_cfg m /\ m_closed m' = m_closed m /\
  forall l', m_heap m' !! l' = if decide (l = l') then Some (with_released s) else m_heap m !! l'.
Proof.
  intros Hs. unfold releaseCapacityReservation, on_ref. rewrite Hs. destruct (ts_capacityReserved s) eqn:Er; cbn.
  - destruct (0 <? _); cbn; (do 4 (split; [done|])); intros l'; by rewrite lookup_insert.
  - do 4 (split; [done|]). intros l'. case_decide as El; [|done]. subst l'. rewrite Hs. f_equal. destruct s; cbn in *. by rewrite Er.
Qed.

Lemma cleanup_effect k l s m : m_heap m !! l = Some s -> trim (ts_containerName s) <> "" ->
  let m' := cleanupSession (shift k quiet) l m in
  m_sessions m' = m_sessions m /\ m_docker m' = m_docker m ++ [pythonExecDockerRemoveArgs (trim (ts_containerName s))] /\
  m_cfg m' = m_cfg m /\ m_closed m' = m_closed m /\
  forall l', m_heap m' !! l' = if decide (l = l') then Some (with_released (with_canceled s)) else m_heap m !! l'.
Proof.
  intros Hs Hne. unfold cleanupSession, quiet, shift, container_of, forceRemoveContainer, on_ref. rewrite Hs.
  cbn [with_heap m_heap]. rewrite lookup_insert_eq. cbn [with_canceled ts_containerName]. rewrite bool_decide_false by done.
  set (m1 := docker _ _). assert (m_heap m1 !! l = Some (with_canceled s)) as Hs1 by apply lookup_insert_eq.
  destruct (release_effect l _ m1 Hs1) as (E1&E2&E3&E4&E5). rewrite E1, E2, E3, E4. do 4 (split; [done|]).
  intros l'. rewrite E5. cbn. rewrite lookup_insert. by destruct (decide _).
Qed.

Lemma cleanup_quiet k l s m : m_heap m !! l = Some s -> trim (ts_containerName s) <> "" ->
  let m' := cleanupTrackedSession (shift k quiet) l m in
  m_sessions m' = m_sessions m /\ m_docker m' = m_docker m ++ [pythonExecDockerRemoveArgs (trim (ts_containerName s))] /\
  forall l', m_heap m' !! l' = if decide (l = l') then Some (with_released (with_canceled s)) else m_heap m !! l'.
Proof. intros Hs Hne. destruct (cleanup_effect k l s m Hs Hne) as (E1&E2&_&_&E3). by split. Qed.

Lemma cleanup_all_quiet k ls m : NoDup ls -> (forall l, l ∈ ls -> exists s, m_heap m !! l = Some s /\ trim (ts_containerName s) <> "") ->
  let m' := cleanup_all (shift k quiet) ls m in
  m_sessions m' = m_sessions m /\ m_docker m' = m_docker m ++ ((fun l => pythonExecDockerRemoveArgs (trim (container_of l m))) <$> ls) /\
  forall l, m_heap m' !! l = if decide (l ∈ ls) then (fun s => with_released (with_canceled s)) <$> m_heap m !! l else m_heap m !! l.
Proof.
  revert m. induction ls as [|l ls IH]; intros m Hnd Hin; unfold cleanup_all; cbn [foldl fmap list_fmap]; [by rewrite app_nil_r|].
  apply NoDup_cons in Hnd as [Hl Hnd]. destruct (Hin l) as (s&Hs&Hne); [by left|].
  destruct (cleanup_quiet (k + 10 * l) l s m Hs Hne) as (E1&E2&E3). change (shift (10 * l) (shift k quiet)) with (shift (k + 10 * l) quiet).
  set (m1 := cleanupTrackedSession _ l m) in *.
  assert (forall l', l' ∈ ls -> m_heap m1 !! l' = m_heap m !! l') as Hsame by (intros l' Hl'; rewrite E3, decide_False; [done|]; by intros ->).
  destruct (IH m1 Hnd) as (F1&F2&F3); [intros l' Hl'; rewrite Hsame by done; apply Hin; by right|]. unfold cleanup_all in *.
  split; [congruence|]. split.
  - rewrite F2, E2, <- app_assoc. f_equal. cbn. unfold container_of at 2. rewrite Hs. f_equal. apply list_fmap_ext.
    intros i l' Hl'%list_elem_of_lookup_2. unfold container_of. by rewrite Hsame.
  - intros l'. rewrite F3, E3. destruct (decide (l = l')) as [<-|Hl'].
    + rewrite decide_False, decide_True by (done || by left). by rewrite Hs.
    + destruct (decide (l' ∈ ls)); [rewrite decide_True by (by right)|rewrite decide_False; [|by intros [|]%elem_of_cons]]; done.
Qed.

(** A session's container name survives trimming. *)

Lemma nodup_filter_snd {A B} (f : A * B -> bool) (kvs : list (A * B)) : NoDup kvs.*2 -> NoDup (List.filter f kvs).*2.
Proof.
  induction kvs as [|[a b] kvs IH]; [done|]. cbn. intros [Hb Hnd]%NoDup_cons. destruct (f (a, b)); [|by apply IH].
  apply NoDup_cons. split; [|by apply IH]. intros ([a' b']&E&Hin)%list_elem_of_fmap. apply Hb, list_elem_of_fmap. exists (a', b').
  split; [done|]. apply list_elem_of_In, filter_In in Hin as [? _]. by apply list_elem_of_In.
Qed.

Lemma table_refs_nodup m : manager_ok m -> NoDup (map_to_list (m_sessions m)).*2.
Proof.
  intros Hok. apply NoDup_fmap_2_strong; [|apply NoDup_map_to_list]. intros [k1 l1] [k2 l2] H1%elem_of_map_to_list H2%elem_of_map_to_list.
  cbn. intros ->. destruct (mo_table _ Hok _ _ H1) as (s1&Hs1&E1). destruct (mo_table _ Hok _ _ H2) as (s2&Hs2&E2).
  f_equal. rewrite <- (eo_id _ _ _ E1), <- (eo_id _ _ _ E2). congruence.
Qed.

(** Sessions, objects and docker commands after the janitor, [E] being what expired. *)
Lemma janitor_effect now m : manager_ok m ->
  let m' := cleanupExpiredSessions quiet now m in
  exists E : list (string * nat), (forall k l, (k, l) ∈ E <-> m_sessions m !! k = Some l /\ expired_ref now m l = true) /\
    (forall k, m_sessions m' !! k = if decide (k ∈ E.*1) then None else m_sessions m !! k) /\
    (forall l, m_heap m' !! l = if decide (l ∈ E.*2) then (fun s => with_released (with_canceled (dropped s))) <$> m_heap m !! l else m_heap m !! l) /\
    m_docker m' = m_docker m ++ ((fun kv => pythonExecDockerRemoveArgs (trim (terminalSessionResourceName (m_cfg m) kv.1))) <$> E).
Proof.
  intros Hok. unfold cleanupExpiredSessions, expire_all. pose proof (table_refs_nodup m Hok) as Hall. rewrite collect_is_retire by done.
  set (E := List.filter _ _). exists E. cbn [app].
  assert (forall k l, (k, l) ∈ E <-> m_sessions m !! k = Some l /\ expired_ref now m l = true) as HE.
  { intros k l. unfold E. rewrite list_elem_of_In, filter_In, <- list_elem_of_In, elem_of_map_to_list. done. }
  assert (NoDup E.*2) as Hnd by (by apply nodup_filter_snd). destruct (retire_all E m Hnd) as (R1&R2&R3). set (m1 := foldl _ m E) in *. change (quiet 0%nat m1) with m1.
  assert (forall k l, (k, l) ∈ E -> exists s, m_heap m1 !! l = Some s /\ ts_containerName s = terminalSessionResourceName (m_cfg m) k) as Hname.
  { intros k l Hl. pose proof Hl as [H1 H2]%HE. destruct (mo_table _ Hok _ _ H1) as (s&Hs&He).
    rewrite R2, decide_True, Hs by (apply list_elem_of_fmap; by exists (k, l)). exists (dropped s). split; [done|apply (eo_name _ _ _ He)]. }
  destruct (cleanup_all_quiet 1 E.*2 m1 Hnd) as (C1&C2&C3).
  { intros l ([k l']&->&Hl)%list_elem_of_fmap. destruct (Hname _ _ Hl) as (s&Hs&En). exists s. split; [done|]. rewrite En. apply resource_name_trim. }
  split; [done|]. split; [by rewrite C1|]. split.
  - intros l. rewrite C3, R2. destruct (decide _); [|done]. by destruct (m_heap m !! l).
  - rewrite C2, R3. f_equal. rewrite <- list_fmap_compose. apply list_fmap_ext. intros i [k l] Hl%list_elem_of_lookup_2.
    destruct (Hname _ _ Hl) as (s&Hs&En). cbn. unfold container_of. by rewrite Hs, En.
Qed.

(** The janitor removes exactly the sessions whose lease has
    ended: their ids are free again, their containers are removed, and their
    reservations are returned, so that the count is again the number of
    sessions that hold one; every other session is untouched, and docker is
    asked for nothing else. *)
Theorem janitor_removes_the_expired now m :
  manager_ok m ->
  let m' := cleanupExpiredSessions quiet now m in
  manager_ok m' /\ (forall sid, m_sessions m !! sid = None -> m_sessions m' !! sid = None) /\
  (forall sid l s, m_sessions m !! sid = Some l -> m_heap m !! l = Some s ->
     if expired_at now s
     then m_sessions m' !! sid = None /\ m_heap m' !! l = Some (with_released (with_canceled (dropped s))) /\
          pythonExecDockerRemoveArgs (trim (terminalSessionResourceName (m_cfg m) sid)) ∈ m_docker m'
     else m_sessions m' !! sid = Some l /\ m_heap m' !! l = Some s) /\
  (forall args, args ∈ m_docker m' -> args ∈ m_docker m \/
     exists sid l s, m_sessions m !! sid = Some l /\ m_heap m !! l = Some s /\ expired_at now s = true /\
       args = pythonExecDockerRemoveArgs (trim (terminalSessionResourceName (m_cfg m) sid))).
Proof.
  intros Hok m'. split; [eapply (moves_keep false); [apply cleanupExpired_moves; [apply quiet_ok|done]|done]|].
  destruct (janitor_effect now m Hok) as (E&HE&T&H&D). fold m' in T, H, D. split; [|split].
  - intros sid Hn. rewrite T, Hn. by destruct (decide _).
  - intros sid l s Hl Hs. rewrite T, H. assert ((sid, l) ∈ E <-> expired_at now s = true) as HEs.
    { rewrite HE. unfold expired_ref. rewrite Hs. naive_solver. }
    destruct (expired_at now s) eqn:Ex.
    + assert ((sid, l) ∈ E) as Hin by (by apply HEs). rewrite decide_True by (apply list_elem_of_fmap; by exists (sid, l)).
      rewrite decide_True by (apply list_elem_of_fmap; by exists (sid, l)). rewrite Hs. split; [done|]. split; [done|].
      rewrite D. apply elem_of_app. right. apply list_elem_of_fmap. by exists (sid, l).
    + assert (forall k' l', (k', l') ∈ E -> k' <> sid /\ l' <> l) as Hout.
      { intros k' l' [H1 H2]%HE. unfold expired_ref in H2. split; intros ->; [replace l' with l in H2 by congruence|]; rewrite Hs in H2; congruence. }
      rewrite !decide_False; [done|intros ([k' l']&->&Hin)%list_elem_of_fmap; by apply Hout in Hin as []..].
  - intros args. rewrite D. intros [?|([k l]&->&Hin)%list_elem_of_fmap]%elem_of_app; [by left|right]. pose proof Hin as [H1 H2]%HE.
    unfold expired_ref in H2. destruct (m_heap m !! l) as [s|] eqn:Hs; [|done]. by exists k, l, s.
Qed.

(** ** Closing *)
Definition close_step (others : others_t) (m : terminalSessionManager) (l : nat) : terminalSessionManager :=
  if c_PreserveOnClose (m_cfg m) then releaseCapacityReservation l m else cleanupSession (shift (2 + 10 * l) others) l m.

Lemma close_step_effect l s m : m_heap m !! l = Some s -> trim (ts_containerName s) <> "" ->
  let m' := close_step quiet m l in
  m_sessions m' = m_sessions m /\ m_cfg m' = m_cfg m /\ m_closed m' = m_closed m /\
  m_docker m' = m_docker m ++ (if c_PreserveOnClose (m_cfg m) then [] else [pythonExecDockerRemoveArgs (trim (ts_containerName s))]) /\
  exists s', ts_capacityReserved s' = false /\ forall l', m_heap m' !! l' = if decide (l = l') then Some s' else m_heap m !! l'.
Proof.
  intros Hs Hne. unfold close_step. destruct (c_PreserveOnClose (m_cfg m)).
  - destruct (release_effect l s m Hs) as (E1&E2&E3&E4&E5). rewrite E1, E2, E3, E4, app_nil_r. do 4 (split; [done|]).
    exists (with_released s). split; [done|exact E5].
  - destruct (cleanup_effect (2 + 10 * l) l s m Hs Hne) as (E1&E2&E3&E4&E5). rewrite E1, E2, E3, E4. do 4 (split; [done|]).
    exists (with_released (with_canceled s)). split; [done|exact E5].
Qed.

Lemma close_all_effect ls m : NoDup ls -> (forall l, l ∈ ls -> exists s, m_heap m !! l = Some s /\ trim (ts_containerName s) <> "") ->
  let m' := foldl (close_step quiet) m ls in
  m_sessions m' = m_sessions m /\ m_cfg m' = m_cfg m /\ m_closed m' = m_closed m /\
  m_docker m' = m_docker m ++ (if c_PreserveOnClose (m_cfg m) then [] else (fun l => pythonExecDockerRemoveArgs (trim (container_of l m))) <$> ls) /\
  (forall l s, l ∈ ls -> m_heap m' !! l = Some s -> ts_capacityReserved s = false) /\
  (forall l, l ∉ ls -> m_heap m' !! l = m_heap m !! l).
Proof.
  revert m. induction ls as [|l ls IH]; intros m Hnd Hin; cbn [foldl fmap list_fmap].
  { do 3 (split; [done|]). split; [destruct (c_PreserveOnClose _); by rewrite app_nil_r|]. split; [|done]. by intros l s ?%elem_of_nil. }
  apply NoDup_cons in Hnd as [Hl Hnd]. destruct (Hin l) as (s&Hs&Hne); [by left|].
  destruct (close_step_effect l s m Hs Hne) as (E1&E2&E3&E4&s'&Er&E5). set (m1 := close_step quiet m l) in *.
  assert (forall l', l' ∈ ls -> m_heap m1 !! l' = m_heap m !! l') as Hsame by (intros l' Hl'; rewrite E5, decide_False; [done|]; by intros ->).
  destruct (IH m1 Hnd) as (F1&F2&F3&F4&F5&F6); [intros l' Hl'; rewrite Hsame by done; apply Hin; by right|].
  split; [congruence|]. split; [congruence|]. split; [congruence|]. split; [|split].
  - rewrite F4, E2, E4, <- app_assoc. f_equal. destruct (c_PreserveOnClose (m_cfg m)); [done|]. cbn. unfold container_of at 2. rewrite Hs.
    f_equal. apply list_fmap_ext. intros i l' Hl'%list_elem_of_lookup_2. unfold container_of. by rewrite Hsame.
  - intros l' s0 [->|Hl']%elem_of_cons; [|by apply F5]. rewrite F6, E5, decide_True by done. by intros [= <-].
  - intros l' Hl'. apply not_elem_of_cons in Hl' as [Hne' Hl']. by rewrite F6, E5, decide_False by done.
Qed.

Lemma stop_timers_effect ls m : let m' := foldl (fun m l => on_ref l (with_timer None) m) m ls in
  m_cfg m' = m_cfg m /\ m_docker m' = m_docker m /\ m_closed m' = m_closed m /\
  forall l, exists f, m_heap m' !! l = f <$> m_heap m !! l /\ forall s, ts_capacityReserved (f s) = ts_capacityReserved s /\ ts_containerName (f s) = ts_containerName s.
Proof.
  revert m. induction ls as [|l ls IH]; intros m; cbn [foldl].
  { do 3 (split; [done|]). intros l. exists id. by rewrite option_fmap_id. }
  destruct (IH (on_ref l (with_timer None) m)) as (E1&E2&E3&E4). rewrite E1, E2, E3. unfold on_ref in *.
  destruct (m_heap m !! l) as [s|] eqn:Es; [|by do 3 (split; [done|])]. cbn in *. do 3 (split; [done|]). intros l'.
  destruct (E4 l') as (f&Hf&Hk). rewrite Hf, lookup_insert. destruct (decide (l = l')) as [<-|]; [|by exists f].
  exists (fun s => f (with_timer None s)). rewrite Es. split; [done|]. intros s0. by destruct (Hk (with_timer None s0)).
Qed.

Lemma no_reservations (h : gmap nat terminalSession) : (forall l s, h !! l = Some s -> ts_capacityReserved s = false) -> reserved_count h = 0.
Proof.
  intros H. unfold reserved_count. assert (reserved h = ∅) as ->; [|done]. apply map_empty. intros l. apply map_lookup_filter_None.
  right. intros s Hs. cbn. by rewrite (H l s).
Qed.

(** Closing ends everything: the table is empty, no
    reservation is held, every later command is refused; the containers are
    removed, one removal each, unless the worker is to keep them for the next
    start, when docker is asked for nothing. *)
Theorem close_leaves_nothing m :
  manager_ok m -> m_closed m = false ->
  (forall l s, m_heap m !! l = Some s -> ts_capacityReserved s = true -> exists sid, m_sessions m !! sid = Some l) ->
  let m' := Close quiet m in
  m_sessions m' = ∅ /\ m_activeSessionReservations m' = 0 /\
  (forall uuid sid lease create now, claimSession uuid sid lease create now m' = (Err not_ready, m')) /\
  exists removed, m_docker m' = m_docker m ++ removed /\
    removed = if c_PreserveOnClose (m_cfg m) then []
              else (fun kv => pythonExecDockerRemoveArgs (trim (terminalSessionResourceName (m_cfg m) kv.1))) <$> map_to_list (m_sessions m).
Proof.
  intros Hok Hc Hall m'. assert (manager_ok m') as Hok'.
  { eapply (moves_keep false); [apply Close_moves; [apply quiet_ok|done]|done]. }
  set (ls := snd <$> map_to_list (m_sessions m)). set (m1 := foldl (fun m l => on_ref l (with_timer None) m) (set_closed m) ls).
  assert (m' = foldl (close_step quiet) (with_table ∅ m1) ls) as Em by (unfold m', Close; by rewrite Hc).
  destruct (stop_timers_effect ls (set_closed m)) as (T1&T2&T3&T4). fold m1 in T1, T2, T3, T4.
  assert (forall k l, (k, l) ∈ map_to_list (m_sessions m) -> exists s, m_heap m1 !! l = Some s /\
    ts_containerName s = terminalSessionResourceName (m_cfg m) k) as Hname.
  { intros k l Hl%elem_of_map_to_list. destruct (mo_table _ Hok _ _ Hl) as (s&Hs&He). destruct (T4 l) as (f&Hf&Hk). rewrite Hf. cbn. rewrite Hs.
    exists (f s). split; [done|]. rewrite (proj2 (Hk s)). apply (eo_name _ _ _ He). }
  destruct (close_all_effect ls (with_table ∅ m1)) as (F1&F2&F3&F4&F5&F6); [by apply table_refs_nodup| |].
  { intros l ([k l']&->&Hl)%list_elem_of_fmap. destruct (Hname _ _ Hl) as (s&Hs&En). exists s. split; [done|]. rewrite En. apply resource_name_trim. }
  rewrite <- Em in F1, F2, F3, F4, F5, F6. split; [done|]. split; [|split].
  - rewrite (mo_count _ Hok'). apply no_reservations. intros l s Hs. destruct (decide (l ∈ ls)) as [Hin|Hout]; [by eapply F5|].
    rewrite F6 in Hs by done. destruct (T4 l) as (f&Hf&Hk). cbn in Hs. rewrite Hf in Hs. cbn in Hs. destruct (m_heap m !! l) as [s0|] eqn:Hs0; [|done].
    injection Hs as <-. rewrite (proj1 (Hk s0)). destruct (ts_capacityReserved s0) eqn:Er; [|done]. destruct Hout.
    destruct (Hall _ _ Hs0 Er) as [sid Hsid]. apply list_elem_of_fmap. exists (sid, l). split; [done|]. by apply elem_of_map_to_list.
  - intros. unfold claimSession. rewrite F3. cbn. by rewrite T3.
  - eexists. split; [rewrite F4; cbn; rewrite T2; done|]. cbn. rewrite T1. cbn. destruct (c_PreserveOnClose (m_cfg m)); [done|].
    unfold ls. rewrite <- list_fmap_compose. apply list_fmap_ext. intros i [k l] Hl%list_elem_of_lookup_2. destruct (Hname _ _ Hl) as (s&Hs&En).
    cbn. unfold container_of. cbn. by rewrite Hs, En.
Qed.

(** ** Renewal *)

(** A lease renewal succeeds exactly for a live session and a
    duration within the worker's bounds; it answers with the session's lease
    afterwards, the longer of the old one and the requested one, and changes
    nothing else in the table; a refused renewal changes nothing. *)
Theorem renewal_outcomes sid ttl now m :
  manager_ok m -> 0 <= c_LeaseMinSec (m_cfg m) -> c_LeaseMaxSec (m_cfg m) * second < 2 ^ 63 ->
  let '(r, m') := RenewLease sid ttl now m in
  match r with
  | Ok ms => m_closed m = false /\ c_LeaseMinSec (m_cfg m) <= ttl <= c_LeaseMaxSec (m_cfg m) /\ m_sessions m' = m_sessions m /\
      exists l s s', m_sessions m !! trim sid = Some l /\ m_heap m !! l = Some s /\ ts_destroying s = false /\ now < ts_leaseExpiresAt s /\
        m_heap m' !! l = Some s' /\ ts_leaseExpiresAt s' = Z.max (ts_leaseExpiresAt s) (time_add now (ttl * second)) /\
        ms = unix_milli (ts_leaseExpiresAt s') /\ ts_inflight s' = ts_inflight s
  | Err e => m' = m /\ (trim sid = "" \/ ~ c_LeaseMinSec (m_cfg m) <= ttl <= c_LeaseMaxSec (m_cfg m) \/ m_closed m = true \/
      forall l s, m_sessions m !! trim sid = Some l -> m_heap m !! l = Some s -> ts_destroying s = true \/ ts_leaseExpiresAt s <= now)
  end.
Proof.
  intros Hok Hmin Hmax. unfold RenewLease. case_bool_decide as Es; [by auto|]. unfold resolveLeaseDuration. cbn [default from_option].
  cbn. destruct (_ || _) eqn:Eb; bool_prop; [split; [done|]; right; left; lia|].
  destruct (m_closed m) eqn:Ec; [by auto|]. destruct (m_sessions m !! trim sid ≫= _) as [[l s]|] eqn:E.
  - destruct (slot_lookup _ _ _ _ Hok E) as (Hl&Hs&He). destruct (ts_destroying s) eqn:Ed; cbn [orb].
    { split; [done|]. do 3 right. intros l' s' Hl' Hs'. left. congruence. }
    destruct (_ <=? now) eqn:Ex; bool_prop.
    + split; [done|]. do 3 right. intros l' s' Hl' Hs'. right. replace s' with s by congruence. lia.
    + assert (i64 (ttl * second) = ttl * second) as -> by (apply i64_id; unfold second in *; nia). set (target := time_add now _). destruct (extend_session now target l s m Hs) as (s'&Hs'&E1&E2&E3). rewrite Hs'.
      split; [done|]. split; [lia|]. split; [apply extend_table|]. exists l, s, s'. rewrite E1. split_and!; (done || lia).
  - split; [done|]. do 3 right. intros l s Hl Hs. rewrite Hl in E. cbn in E. rewrite Hs in E. done.
Qed.

(** ** Witnesses *)
Definition demo_config : terminalSessionManagerConfig := mkTMConfig 60 1800 60 8 0 "img" "" "" 0 "" 1 2 false (fun x => x).
Definition docker_says (out err : string) : dockerCommandResult := mkDocker out err 0 None.
Definition demo_env (now : time) (uuid out err : string) (others : others_t) : exec_env :=
  mkXEnv now uuid (docker_says "" "") (docker_says "" "") (docker_says "" "") (docker_says out err) None others.
Definition command_in (sid : string) : terminalExecRequest := mkExecRequest "ls" sid true None.

Definition demo_ops : list worker_op :=
  [WExecute (demo_env 0 "u1" "hello world" "" quiet) (command_in "a"); WExecute (demo_env second "u2" "x" "" quiet) (command_in "");
   WRenew "a" 600 second; WJanitor quiet (61 * second)].

Lemma demo_ops_ok rec : Forall (op_ok rec) demo_ops.
Proof. repeat constructor; apply quiet_ok. Qed.

Lemma worker_sessions_stay_well_formed_witness :
  manager_ok (run_ops (demo_ops ++ [WClose quiet]) (newTerminalSessionManager demo_config)).
Proof.
  apply (worker_sessions_stay_well_formed demo_config (demo_ops ++ [WClose quiet])).
  apply Forall_app. split; [apply demo_ops_ok|]. repeat constructor; apply quiet_ok.
Defined.


Definition demo_manager : terminalSessionManager := run_ops demo_ops (newTerminalSessionManager demo_config).

Lemma demo_manager_ok : manager_ok demo_manager.
Proof.
  eapply (moves_keep false); [apply run_ops_moves; [apply demo_ops_ok|apply new_manager_ok]|apply new_manager_ok].
Qed.

(** The janitor ran at the end of ["u2"]'s lease; ["a"] was renewed. *)
Lemma demo_manager_table : m_sessions demo_manager = {[ "a" := 0%nat ]} /\ m_activeSessionReservations demo_manager = 1.
Proof. split; vm_compute; reflexivity. Qed.

Lemma worker_sessions_move_forward_witness :
  exists s', m_heap (run_op (WClose quiet) demo_manager) !! 0%nat = Some s' /\ 601 * second <= ts_leaseExpiresAt s'.
Proof.
  destruct (worker_sessions_move_forward demo_config demo_ops (WClose quiet) (demo_ops_ok _) (quiet_ok _)) as [H _].
  destruct (H 0%nat (mkTSession "a" (terminalExecContainerPrefix +:+ "a") "" (601 * second) (Some (601 * second)) false 0 false true None true))
    as (s'&Hs'&_&_&_&_&Hl); [vm_compute; reflexivity|]. exists s'. by split.
Defined.

Lemma claim_outcomes_witness :
  match claimSession "u" "b" (100 * second) false 0 demo_manager with (Err e, m') => m' = demo_manager | _ => False end.
Proof.
  pose proof (claim_outcomes "u" "b" (100 * second) false 0 demo_manager demo_manager_ok) as H. cbn zeta in H.
  destruct (claimSession "u" "b" (100 * second) false 0 demo_manager) as [[[l []]|e] m'] eqn:E; [| |apply H].
  - destruct H as (_&s&_&_&_&_&_&[?|[_ ?]]&_); done.
  - destruct H as (_&s&_&_&_&_&Hl&_). vm_compute in Hl. discriminate Hl.
Defined.

Lemma first_command_opens_the_session_witness :
  exists m', Execute (demo_env 0 "u1" "hello world" "" quiet) (command_in " a ") (newTerminalSessionManager demo_config) =
    (Some (Ok (mkRunResult "a" true "hello wo" "" 0 true false 60000)), m') /\ m_activeSessionReservations m' = 1.
Proof.
  destruct (first_command_opens_the_session (demo_env 0 "u1" "hello world" "" quiet) eq_refl eq_refl eq_refl (command_in " a ") (60 * second)
    (newTerminalSessionManager demo_config) (new_manager_ok _)) as (m'&E&_&_&Ha&_); try done; try (by right); [vm_compute; by intros [_ ?]|].
  exists m'. by split.
Defined.

Lemma janitor_removes_the_expired_witness :
  m_sessions (cleanupExpiredSessions quiet (601 * second) demo_manager) !! "a" = None.
Proof.
  destruct (janitor_removes_the_expired (601 * second) demo_manager demo_manager_ok) as (_&_&H&_).
  destruct (m_heap demo_manager !! 0%nat) as [s|] eqn:Hs; [|vm_compute in Hs; discriminate Hs].
  specialize (H "a" 0%nat s ltac:(vm_compute; reflexivity) Hs). assert (expired_at (601 * second) s = true) as E.
  { vm_compute in Hs. injection Hs as <-. vm_compute. reflexivity. }
  rewrite E in H. apply H.
Defined.

Lemma close_leaves_nothing_witness :
  m_activeSessionReservations (Close quiet demo_manager) = 0.
Proof.
  apply (close_leaves_nothing demo_manager demo_manager_ok); [vm_compute; reflexivity|]. intros [|[|l]] s Hs Hr.
  - exists "a". vm_compute. reflexivity.
  - vm_compute in Hs. injection Hs as <-. vm_compute in Hr. discriminate Hr.
  - exfalso. pose proof (mo_fresh _ demo_manager_ok _ _ Hs) as Hlt. vm_compute in Hlt. lia.
Defined.

Lemma renewal_outcomes_witness : (RenewLease "a" 1900 0 demo_manager).2 = demo_manager.
Proof.
  pose proof (renewal_outcomes "a" 1900 0 demo_manager demo_manager_ok ltac:(vm_compute; discriminate) ltac:(vm_compute; reflexivity)) as H.
  destruct (RenewLease "a" 1900 0 demo_manager) as [[ms|e] m'] eqn:E; [vm_compute in E; discriminate E|apply H].
Defined.

(** ** Observations on the code *)

(** While the first command of ["a"] runs, its lease ends and a second command
    opens ["a"] anew: the first command then gives back the slot of the new
    session, which takes a third command beside the second although the limit
    is one. *)
Definition overtaken : others_t := fun i m =>
  if bool_decide (i = 30%nat)
  then (claimSession "u" "a" (200 * second) true (61 * second) (expireSessionLease quiet (61 * second) 0 m)).2 else m.

Example stale_command_frees_a_foreign_slot :
  let m := (Execute (demo_env 0 "u" "" "" overtaken) (command_in "a") (newTerminalSessionManager demo_config)).2 in
  (ts_inflight <$> m_heap m !! 1%nat) = Some 0 /\ (claimSession "u" "a" (200 * second) true (62 * second) m).1 = Ok (1%nat, false).
Proof. split; vm_compute; reflexivity. Qed.

(** A command whose own error output mentions a missing container loses its
    session. *)
Example error_output_destroys_the_session :
  let r := Execute (demo_env 0 "u" "" "Error: No such container: db" quiet) (command_in "a") (newTerminalSessionManager demo_config) in
  r.1 = Some (Err no_session) /\ m_sessions r.2 = ∅.
Proof. split; vm_compute; reflexivity. Qed.

End WorkerClaims.
