(* ===== verification/WorkerRecoveryClaims.v ===== *)
(** Recovery across the wire: the report a worker sends for the candidates of
    its console is one the console accepts, and what it reports as recovered is
    there, with the console's lease. *)
From S2P Require Import Prelude.
From S2P Require Import Proto.
From S2P Require Import Net.
From S2P Require Import SessionRuntime.
From S2P Require Import TerminalRoutes.
From S2P Require Import WorkerTerminal.
From S2P Require Import WorkerRecovery.
From S2P Require Import WorkerProps.
From S2P Require Import WorkerClaims.

Module WorkerRecoveryClaims.
Import WorkerProps WorkerClaims.

Implicit Types (m : terminalSessionManager) (s : terminalSession).

(** ** The shape of a report *)
Lemma known_status now sid lease m st m' : recover_known now sid lease m = (Some st, m') -> valid_status st = true.
Proof.
  unfold recover_known. destruct (m_closed m); [by intros [= <- _]|]. destruct (m_sessions m !! sid ≫= _) as [[l s]|]; [|done].
  destruct (ts_destroying s); [done|]. by intros [= <- _].
Qed.

Lemma insert_status now sid name ip lease m : valid_status (recover_insert now sid name ip lease m).1 = true.
Proof.
  unfold recover_insert. destruct (m_closed m); [done|]. destruct (m_sessions m !! sid ≫= _) as [[l s]|]; [by destruct (_ || _)|done].
Qed.

Lemma running_status dk name status m st b m' : ensure_running dk name status m = (inl (st, b), m') -> st = INVALID.
Proof.
  unfold ensure_running. assert (forall m, (if bool_decide (c_DockerNetwork (m_cfg m) = "") then (inr "", m) else
      match inspectTerminalContainerIP (rd_ip dk) name m with
      | (Err _, m) => (inl (INVALID, true), m) | (Ok ip, m) => (inr ip, m) end) = (inl (st, b), m') -> st = INVALID) as Hgo.
  { intros m0. destruct (bool_decide _); [done|]. destruct (inspectTerminalContainerIP _ _ _) as [[] m2]; [done|]. by intros [= <- _ _]. }
  destruct (bool_decide _); [apply Hgo|]. destruct (bool_decide _); [|by intros [= <- _ _]].
  destruct (docker_failed _); [by intros [= <- _ _]|apply Hgo].
Qed.

Lemma attempt_status others dk now sid name lease m : valid_status (recoverOneAttempt others dk now sid name lease m).1.1 = true.
Proof.
  unfold recoverOneAttempt. destruct (recover_known now sid lease m) as [[st|] m0] eqn:Ek; [by apply known_status in Ek|].
  destruct (docker_failed (rd_inspect dk)); [done|]. destruct (cut _ _) as [labels [st|]]; [|done].
  destruct (_ || _ || _); [done|]. destruct (docker_failed _); [done|]. destruct (negb _); [done|].
  destruct (ensure_running _ _ _ _) as [[[st' b]|ip] m3] eqn:Er; [by apply running_status in Er as ->|].
  pose proof (insert_status now sid name ip lease (others 1%nat m3)) as H. by destruct (recover_insert _ _ _ _ _ _).
Qed.

Lemma attempts_status n others dk retry now sid name lease m :
  valid_status (recover_attempts n others dk retry now sid name lease m).1 = true.
Proof.
  revert m. induction n as [|n IH]; intros m; [done|]. cbn [recover_attempts]. set (i := (_ - _)%nat).
  pose proof (attempt_status (shift (10 * i) others) (dk i) now sid name lease m) as H.
  destruct (recoverOneAttempt _ _ _ _ _ _ _) as [[st b] m1]. destruct (_ || _); [done|]. destruct (negb _); [done|]. apply IH.
Qed.

Lemma candidate_status env i c m : valid_status (recover_candidate env i c m).1 = true.
Proof. unfold recover_candidate. destruct (_ && _ && _); [apply attempts_status|]. by destruct (negb _). Qed.

Definition cand_id (c : TerminalSessionRecoveryCandidate) : string := trim (cand_SessionId c).

(** One result for each candidate, in order. *)
Lemma loop_results env i cs results expected m :
  exists rs, (recover_loop env i (Some <$> cs) results expected m).1.1 = results ++ rs /\
    rr_SessionId <$> rs = cand_id <$> cs /\ Forall (fun r => valid_status (rr_Status r) = true) rs.
Proof.
  revert i results expected m. induction cs as [|c cs IH]; intros i results expected m; cbn [recover_loop fmap list_fmap].
  { exists []. by rewrite app_nil_r. }
  pose proof (candidate_status env i c m) as Hst. destruct (recover_candidate env i c m) as [st m1]. cbn in Hst.
  destruct (IH (S i) (results ++ [mkRecoveryResult (trim (cand_SessionId c)) st])
    (match st with RECOVERED => {[ terminalSessionResourceName (m_cfg m) (trim (cand_SessionId c)) ]} ∪ expected | _ => expected end) m1) as (rs&E1&E2&E3).
  exists (mkRecoveryResult (cand_id c) st :: rs). split; [|split; [cbn; by rewrite E2|by constructor]].
  by rewrite E1, <- app_assoc.
Qed.

Lemma Recover_results env cs m :
  rr_SessionId <$> (Recover env (Some <$> cs) m).1 = cand_id <$> cs /\ Forall (fun r => valid_status (rr_Status r) = true) (Recover env (Some <$> cs) m).1.
Proof.
  unfold Recover. destruct (loop_results env 0 cs [] ∅ m) as (rs&E1&E2&E3). destruct (recover_loop _ _ _ _ _ _) as [[results expected] m1].
  cbn in E1. by subst results.
Qed.

(** ** The console's side *)
Definition add_result (results : gmap string RecoveryStatus) (r : TerminalSessionRecoveryResult) : gmap string RecoveryStatus :=
  <[rr_SessionId r := rr_Status r]> results.

Lemma collect_accepts cands rs results :
  NoDup (rr_SessionId <$> rs) -> Forall (fun r => trim (rr_SessionId r) = rr_SessionId r) rs ->
  Forall (fun r => is_Some (cands !! rr_SessionId r) /\ results !! rr_SessionId r = None /\ valid_status (rr_Status r) = true) rs ->
  foldl (collect_result cands) (Ok results) (Some <$> rs) = Ok (foldl add_result results rs).
Proof.
  revert results. induction rs as [|r rs IH]; intros results Hnd Ht Hr; [done|]. cbn [foldl fmap list_fmap].
  apply NoDup_cons in Hnd as [Hin Hnd]. apply Forall_cons in Ht as [Ht Hts]. apply Forall_cons in Hr as [([z Hz]&Hn&Hv) Hrs].
  unfold collect_result at 2. rewrite Ht, Hz, Hn, Hv. cbn. apply IH; [done..|]. apply Forall_forall. intros r' Hr'.
  rewrite Forall_forall in Hrs. destruct (Hrs r' Hr') as (H1&H2&H3). split; [done|]. split; [|done]. unfold add_result. rewrite lookup_insert_ne; [done|].
  intros E. apply Hin. rewrite E. by apply list_elem_of_fmap_2.
Qed.

Lemma add_results_lookup rs results r : NoDup (rr_SessionId <$> rs) -> r ∈ rs -> foldl add_result results rs !! rr_SessionId r = Some (rr_Status r).
Proof.
  assert (forall rs results sid, sid ∉ rr_SessionId <$> rs -> foldl add_result results rs !! sid = results !! sid) as Hout.
  { clear. induction rs as [|r rs IH]; intros results sid Hs; [done|]. cbn in *. apply not_elem_of_cons in Hs as [Hne Hs].
    rewrite IH by done. unfold add_result. by rewrite lookup_insert_ne by done. }
  revert results. induction rs as [|r' rs IH]; intros results Hnd Hin; [by apply elem_of_nil in Hin|]. cbn [foldl fmap list_fmap] in *.
  apply NoDup_cons in Hnd as [Hr' Hnd]. apply elem_of_cons in Hin as [->|Hin]; [|by apply IH].
  rewrite Hout by done. apply lookup_insert_eq.
Qed.

Lemma add_results_dom rs results : dom (foldl add_result results rs) = dom results ∪ list_to_set (C := gset string) (rr_SessionId <$> rs).
Proof.
  revert results. induction rs as [|r rs IH]; intros results; cbn; [set_solver|]. rewrite IH. unfold add_result. rewrite dom_insert_L. set_solver.
Qed.

(** The candidates a console remembers for the report. *)
Lemma snapshot_dom cs x : Forall (fun c => cand_id c <> "") cs ->
  dom (recoveryCandidateSnapshot (setRecoveryCandidates cs x)) = list_to_set (C := gset string) (cand_id <$> cs).
Proof.
  intros Hne. unfold recoveryCandidateSnapshot, setRecoveryCandidates. cbn [recoveryCandidates with_recovery].
  match goal with |- dom (foldl ?f ∅ cs) = _ =>
    assert (forall acc, dom (foldl f acc cs) = dom acc ∪ list_to_set (C := gset string) (cand_id <$> cs)) as H end.
  { induction Hne as [|c cs Hc Hne IH]; intros acc; cbn; [set_solver|]. rewrite IH. unfold cand_id in *.
    rewrite bool_decide_false by done. rewrite dom_insert_L. set_solver. }
  rewrite H. set_solver.
Qed.

(** The console reads a report as the worker meant it. *)
Lemma report_read_back env cs m x :
  NoDup (cand_id <$> cs) -> Forall (fun c => cand_id c <> "") cs ->
  let results := (Recover env (Some <$> cs) m).1 in
  exists statuses, report_results (recoveryCandidateSnapshot (setRecoveryCandidates cs x)) (Some <$> results) = Ok statuses /\
    length results = length cs /\ forall r, r ∈ results -> statuses !! rr_SessionId r = Some (rr_Status r).
Proof.
  intros Hnd Hne results. destruct (Recover_results env cs m) as [Hids Hval]. fold results in Hids, Hval.
  pose proof (snapshot_dom cs x Hne) as Hdom. set (cands := recoveryCandidateSnapshot _) in *.
  assert (NoDup (rr_SessionId <$> results)) as Hnd' by (by rewrite Hids).
  assert (forall r, r ∈ results -> exists c, c ∈ cs /\ rr_SessionId r = cand_id c) as Hfrom.
  { intros r Hr%(list_elem_of_fmap_2 rr_SessionId). rewrite Hids in Hr. apply list_elem_of_fmap in Hr as (c&E&Hc). by exists c. }
  exists (foldl add_result ∅ results). split; [|split].
  - unfold report_results. rewrite collect_accepts; [|done|..].
    + rewrite bool_decide_true; [done|]. by rewrite <- !size_dom, add_results_dom, Hids, Hdom, dom_empty_L, (left_id_L ∅ (∪)).
    + apply Forall_forall. intros r (c&_&->)%Hfrom. apply trim_trim.
    + apply Forall_forall. intros r Hr. split; [|split; [apply lookup_empty|rewrite Forall_forall in Hval; by apply Hval]].
      apply elem_of_dom. rewrite Hdom. apply elem_of_list_to_set. destruct (Hfrom r Hr) as (c&Hc&->). by apply list_elem_of_fmap_2.
  - rewrite <- (length_fmap rr_SessionId results), Hids. apply length_fmap.
  - intros r Hr. by apply add_results_lookup.
Qed.

(** Console and worker agree on the recovery protocol: for the
    candidates a console sends, with distinct ids, the report of the worker,
    whatever docker answers and whatever runs meanwhile, passes the console's
    validation, and the console reads for each candidate the status the worker
    gave it. *)
Theorem recovery_reports_are_accepted env cs m x :
  NoDup (cand_id <$> cs) -> Forall (fun c => cand_id c <> "") cs ->
  let results := (Recover env (Some <$> cs) m).1 in
  exists statuses, report_results (recoveryCandidateSnapshot (setRecoveryCandidates cs x)) (Some <$> results) = Ok statuses /\
    length results = length cs /\ forall r, r ∈ results -> statuses !! rr_SessionId r = Some (rr_Status r).
Proof. apply report_read_back. Qed.

(** ** What is recovered is there *)

(** Docker commands change neither table nor sessions. *)
Record frame m m' : Prop := {
  fr_sessions : m_sessions m' = m_sessions m;
  fr_heap : m_heap m' = m_heap m;
  fr_cfg : m_cfg m' = m_cfg m }.

#[local] Instance frame_preorder : PreOrder frame.
Proof. split; [by split|]. intros m1 m2 m3 [A1 B1 C1] [A2 B2 C2]. split; congruence. Qed.

Lemma frame_remove name m : frame m (forceRemoveContainer name m).
Proof. unfold forceRemoveContainer. by destruct (bool_decide _). Qed.

Lemma frame_remove_all names m : frame m (remove_all names m).
Proof.
  unfold remove_all. revert m. induction names as [|name names IH]; intros m; [done|]. cbn [foldl]. etrans; [apply (frame_remove name)|apply IH].
Qed.

Lemma frame_inspectIP dk name m : frame m (inspectTerminalContainerIP dk name m).2.
Proof.
  unfold inspectTerminalContainerIP. destruct (dk_Err dk); [done|]. destruct (negb _); [done|]. destruct (ParseAddr _); [|done].
  by destruct (IsGlobalUnicast _).
Qed.

Lemma frame_running dk name status m : frame m (ensure_running dk name status m).2.
Proof.
  unfold ensure_running.
  assert (forall m, frame m (if bool_decide (c_DockerNetwork (m_cfg m) = "") then (inr "", m) else
      match inspectTerminalContainerIP (rd_ip dk) name m with
      | (Err _, m) => (inl (INVALID, true), m) | (Ok ip, m) => (inr ip, m) end).2) as Hgo.
  { intros m'. destruct (bool_decide _); [done|]. pose proof (frame_inspectIP (rd_ip dk) name m') as H.
    by destruct (inspectTerminalContainerIP _ _ _) as [[] m2]. }
  destruct (bool_decide _); [apply Hgo|]. destruct (bool_decide _); [|apply frame_remove].
  destruct (docker_failed _); [done|]. set (m1 := docker _ m). transitivity m1; [done|]. apply Hgo.
Qed.

(** The session of an id. *)
Definition view m (sid : string) : option terminalSession := m_sessions m !! sid ≫= fun l => m_heap m !! l.

(** What recovering [sid] may do: other sessions stay as they are; a session
    reported as recovered has the lease of its candidate. *)
Record recovers (sid : string) (lease : time) (st : RecoveryStatus) m m' : Prop := {
  rv_others sid' : sid' <> sid -> view m' sid' = view m sid';
  rv_there : st = RECOVERED -> exists s, view m' sid = Some s /\ ts_leaseExpiresAt s = lease /\ ts_destroying s = false;
  rv_cfg : m_cfg m' = m_cfg m }.

Lemma recovers_frame sid lease st m1 m2 m3 : frame m1 m2 -> recovers sid lease st m2 m3 -> recovers sid lease st m1 m3.
Proof.
  intros [A B C] [X Y Z]. split; [|done|congruence]. intros sid' Hs. rewrite X by done. unfold view. by rewrite A, B.
Qed.

Lemma recovers_nothing sid lease st m m' : frame m m' -> st <> RECOVERED -> recovers sid lease st m m'.
Proof. intros [A B C] Hst. split; [|done|done]. intros sid' _. unfold view. by rewrite A, B. Qed.

Lemma relet_effect now lease l s m : m_heap m !! l = Some s ->
  exists s', set_session_lease now lease l m = with_heap (<[l := s']> (m_heap m)) m /\ ts_leaseExpiresAt s' = lease /\ ts_destroying s' = ts_destroying s.
Proof.
  intros Hs. unfold set_session_lease, scheduleSessionLeaseTimerLocked. rewrite on_ref_closed. unfold on_ref. rewrite Hs. destruct (m_closed m).
  { by eexists. }
  cbn [with_heap m_heap]. rewrite lookup_insert_eq. cbn [with_lease ts_destroying]. unfold with_heap. cbn. rewrite insert_insert_eq.
  eexists. split; [done|]. by destruct (ts_destroying s) eqn:E.
Qed.

(** Writing the session of [sid], which may be new. *)
Lemma recovers_write sid lease l s m m' : manager_ok m -> (m_sessions m !! sid = Some l \/ l = m_next m) ->
  m_sessions m' = <[sid := l]> (m_sessions m) -> m_heap m' = <[l := s]> (m_heap m) -> m_cfg m' = m_cfg m ->
  ts_leaseExpiresAt s = lease -> ts_destroying s = false -> recovers sid lease RECOVERED m m'.
Proof.
  intros Hok Hl Et Eh Ec E1 E2. split; [|intros _; exists s; unfold view; rewrite Et, Eh, lookup_insert_eq; cbn; by rewrite lookup_insert_eq|done].
  intros sid' Hne. unfold view. rewrite Et, lookup_insert_ne by done. destruct (m_sessions m !! sid') as [l'|] eqn:El'; [|done]. cbn.
  rewrite Eh, lookup_insert_ne; [done|]. intros <-. destruct (mo_table _ Hok _ _ El') as (s'&Hs'&He').
  destruct Hl as [Hl| ->]; [|apply (mo_fresh _ Hok) in Hs'; lia]. destruct (mo_table _ Hok _ _ Hl) as (s0&Hs0&He).
  apply Hne. rewrite <- (eo_id _ _ _ He), <- (eo_id _ _ _ He'). congruence.
Qed.

Lemma relet_recovers now sid lease l s m : manager_ok m -> m_sessions m !! sid = Some l -> m_heap m !! l = Some s -> ts_destroying s = false ->
  recovers sid lease RECOVERED m (set_session_lease now lease l m).
Proof.
  intros Hok Hl Hs Hd. destruct (relet_effect now lease l s m Hs) as (s'&->&E1&E2).
  apply (recovers_write sid lease l s'); auto; [cbn; by rewrite insert_id|congruence].
Qed.

Lemma known_recovers now sid lease m : manager_ok m ->
  match recover_known now sid lease m with
  | (Some st, m') => recovers sid lease st m m'
  | (None, m') => m' = m
  end.
Proof.
  intros Hok. unfold recover_known. destruct (m_closed m); [by apply recovers_nothing|].
  destruct (m_sessions m !! sid ≫= _) as [[l s]|] eqn:E; [|done]. destruct (slot_lookup _ _ _ _ Hok E) as (Hl&Hs&He).
  destruct (ts_destroying s) eqn:Ed; [done|]. by eapply relet_recovers.
Qed.

Lemma insert_recovers now sid name ip lease m : manager_ok m ->
  let '(st, m') := recover_insert now sid name ip lease m in recovers sid lease st m m'.
Proof.
  intros Hok. unfold recover_insert. destruct (m_closed m) eqn:Ec; [by apply recovers_nothing|].
  destruct (m_sessions m !! sid ≫= _) as [[l s]|] eqn:E.
  - destruct (slot_lookup _ _ _ _ Hok E) as (Hl&Hs&He). destruct (negb _ || ts_destroying s) eqn:Ed; [by apply recovers_nothing|].
    apply orb_false_iff in Ed as [_ Ed]. by eapply relet_recovers.
  - cbn [insert_session]. unfold scheduleSessionLeaseTimerLocked. cbn [m_closed]. rewrite Ec. unfold on_ref. cbn [m_heap]. rewrite lookup_insert_eq.
    eapply (recovers_write sid lease (m_next m)); [done|by right|done|cbn; by rewrite insert_insert_eq|done..].
Qed.

Lemma attempt_recovers dk k now sid name lease m : manager_ok m ->
  let '(st, _, m') := recoverOneAttempt (shift k quiet) dk now sid name lease m in recovers sid lease st m m'.
Proof.
  intros Hok. unfold recoverOneAttempt. pose proof (known_recovers now sid lease m Hok) as Hk.
  destruct (recover_known now sid lease m) as [[st|] m0]; [done|]. subst m0. change (shift k quiet 0%nat m) with m. set (m1 := docker _ m).
  assert (frame m m1) as F1 by done. destruct (docker_failed (rd_inspect dk)); [by apply recovers_nothing|].
  destruct (cut _ _) as [labels [st|]]; [|by apply recovers_nothing].
  destruct (_ || _ || _); [apply recovers_nothing; [etrans; [done|apply frame_remove]|done]|].
  set (m2 := docker _ m1). destruct (docker_failed _); [by apply recovers_nothing|].
  destruct (negb _); [apply recovers_nothing; [|done]; transitivity m2; [done|apply frame_remove_all]|].
  pose proof (frame_running dk name st m2) as F3. pose proof (ensure_running_moves false dk name st m2) as M3.
  destruct (ensure_running dk name st m2) as [[[st' b]|ip] m3] eqn:Er; cbn in F3.
  - apply running_status in Er as ->. apply recovers_nothing; [by transitivity m2|done].
  - change (shift k quiet 1%nat m3) with m3. assert (manager_ok m3) as Hok3 by (eapply (moves_keep false m2 m3); [exact M3|]; by eapply other_fields_ok).
    pose proof (insert_recovers now sid name ip lease m3 Hok3) as Hi. destruct (recover_insert _ _ _ _ _ _) as [st' m4].
    eapply recovers_frame; [|done]. by transitivity m2.
Qed.

(** A later attempt of the same candidate. *)
Lemma recovers_again sid lease st st' m1 m2 m3 : recovers sid lease st m1 m2 -> recovers sid lease st' m2 m3 -> recovers sid lease st' m1 m3.
Proof. intros [A B C] [X Y Z]. split; [|done|congruence]. intros sid' Hs. by rewrite X, A. Qed.

Lemma attempts_recovers n dk retry now sid name lease m : manager_ok m -> name = terminalSessionResourceName (m_cfg m) sid ->
  let '(st, m') := recover_attempts n quiet dk retry now sid name lease m in recovers sid lease st m m'.
Proof.
  revert m. induction n as [|n IH]; intros m Hok Hname; [by apply recovers_nothing|]. cbn [recover_attempts]. set (i := (_ - _)%nat).
  pose proof (attempt_recovers (dk i) (10 * i) now sid name lease m Hok) as Ha.
  pose proof (attempt_moves true eq_refl (shift (10 * i) quiet) (dk i) now sid name lease m (quiet_ok _) Hok Hname) as Hm.
  destruct (recoverOneAttempt _ _ _ _ _ _ _) as [[st retryable] m1]. destruct (_ || _); [done|]. destruct (negb _); [done|].
  change (quiet (10 * i + 5)%nat m1) with m1. destruct (moves_keep _ _ _ Hm Hok) as [Hok1 _]. cbn in Hok1.
  specialize (IH m1 Hok1). rewrite (rv_cfg _ _ _ _ _ Ha) in IH. specialize (IH Hname).
  destruct (recover_attempts _ _ _ _ _ _ _ _ _) as [st' m2]. by eapply recovers_again.
Qed.

Definition cand_lease (c : TerminalSessionRecoveryCandidate) : time := of_unix_milli (cand_LeaseExpiresUnixMs c).

Lemma candidate_recovers env i c m : re_others env i = quiet -> manager_ok m ->
  let '(st, m') := recover_candidate env i c m in recovers (cand_id c) (cand_lease c) st m m' /\ manager_ok m'.
Proof.
  intros Hq Hok. pose proof (candidate_moves true eq_refl env i c m) as Hm. rewrite Hq in Hm. specialize (Hm (quiet_ok _) Hok).
  destruct (moves_keep _ _ _ Hm Hok) as [Hok' _]. revert Hok'. clear Hm. unfold recover_candidate. fold (cand_id c). rewrite Hq.
  destruct (_ && _ && _).
  - pose proof (attempts_recovers terminalRecoveryDockerMaxAttempts (re_docker env i) (re_retry env i) (re_now env) (cand_id c) _ (cand_lease c) m Hok eq_refl) as H.
    unfold recoverOne. unfold cand_lease in *. by destruct (recover_attempts _ _ _ _ _ _ _ _ _).
  - destruct (negb _); (split; [|done]); apply recovers_nothing; try done. apply frame_remove.
Qed.

Lemma loop_recovers env i cs results expected m : (forall i, re_others env i = quiet) -> manager_ok m -> NoDup (cand_id <$> cs) ->
  let '(results', _, m') := recover_loop env i (Some <$> cs) results expected m in
  (forall sid, sid ∉ cand_id <$> cs -> view m' sid = view m sid) /\
  (forall c, c ∈ cs -> mkRecoveryResult (cand_id c) RECOVERED ∉ results -> mkRecoveryResult (cand_id c) RECOVERED ∈ results' ->
     exists s, view m' (cand_id c) = Some s /\ ts_leaseExpiresAt s = cand_lease c /\ ts_destroying s = false).
Proof.
  intros Hq. revert i results expected m. induction cs as [|c cs IH]; intros i results expected m Hok Hnd; cbn [recover_loop fmap list_fmap].
  { split; [done|]. by intros c ?%elem_of_nil. }
  apply NoDup_cons in Hnd as [Hc Hnd]. pose proof (candidate_recovers env i c m (Hq i) Hok) as Hr.
  destruct (recover_candidate env i c m) as [st m1]. destruct Hr as [Hr Hok1]. fold (cand_id c).
  set (expected' := match st with RECOVERED => _ | _ => expected end). set (results1 := results ++ _).
  specialize (IH (S i) results1 expected' m1 Hok1 Hnd). pose proof (loop_results env (S i) cs results1 expected' m1) as (rs&E1&E2&_).
  destruct (recover_loop env (S i) (Some <$> cs) results1 expected' m1) as [[results' e'] m']. cbn in E1. destruct IH as [IH1 IH2]. split.
  - intros sid [Hs1 Hs2]%not_elem_of_cons. rewrite IH1 by done. by apply (rv_others _ _ _ _ _ Hr).
  - intros c' [->|Hc']%elem_of_cons Hout Hin.
    + rewrite IH1 by done. apply (rv_there _ _ _ _ _ Hr). rewrite E1 in Hin. unfold results1 in Hin.
      apply elem_of_app in Hin as [[?|H%list_elem_of_singleton]%elem_of_app|H]; [done|congruence|].
      apply (list_elem_of_fmap_2 rr_SessionId) in H. rewrite E2 in H. by destruct Hc.
    + apply IH2; [done| |done]. unfold results1. intros [?|H%list_elem_of_singleton]%elem_of_app; [done|].
      apply Hc. injection H as H _. rewrite <- H. by apply list_elem_of_fmap_2.
Qed.

(** A session the worker reports as recovered is in its table
    when the report is done, not being destroyed and with exactly the lease
    the console sent, whatever docker answered on the way; sessions that were
    not candidates are untouched. *)
Theorem recovered_sessions_are_there env cs m :
  (forall i, re_others env i = quiet) -> manager_ok m -> NoDup (cand_id <$> cs) ->
  let '(results, m') := Recover env (Some <$> cs) m in
  (forall c, c ∈ cs -> mkRecoveryResult (cand_id c) RECOVERED ∈ results ->
     exists s, view m' (cand_id c) = Some s /\ ts_leaseExpiresAt s = cand_lease c /\ ts_destroying s = false) /\
  (forall sid, sid ∉ cand_id <$> cs -> view m' sid = view m sid).
Proof.
  intros Hq Hok Hnd. unfold Recover. pose proof (loop_recovers env 0 cs [] ∅ m Hq Hok Hnd) as H.
  destruct (recover_loop _ _ _ _ _ _) as [[results expected] m1]. destruct H as [H1 H2].
  assert (frame m1 (cleanupOrphanContainers env expected m1)) as [F1 F2 _].
  { unfold cleanupOrphanContainers. set (m2 := docker _ m1). transitivity m2; [done|]. destruct (docker_failed _); [done|apply frame_remove_all]. }
  unfold view in *. rewrite F1, F2. split; [|done]. intros c Hc. apply H2; [done|]. by intros ?%elem_of_nil.
Qed.

(** ** Witnesses *)
Definition demo_candidates : list TerminalSessionRecoveryCandidate := [mkCandidate "a" 700000; mkCandidate " b" 800000; mkCandidate "c" 900000].

(** Docker has a stopped container of ["b"] and none of ["c"]. *)
Definition demo_recover_docker (i j : nat) : recover_docker :=
  let name := terminalExecContainerPrefix +:+ "b" in
  if bool_decide (i = 1%nat)
  then mkRecoverDocker (docker_says ("{}" +:+ String tab "exited") "")
         (fun _ => Some {[ terminalExecSessionLabelKey := "b"; terminalExecSchemaLabelKey := terminalExecSchemaVersion ]})
         (docker_says (name +:+ String newline "") "") (docker_says "" "") (docker_says "" "")
  else mkRecoverDocker (mkDocker "" "Error: No such container" 1 None) (fun _ => None) (docker_says "" "") (docker_says "" "") (docker_says "" "").

Definition demo_recover_env : recover_env := mkRecoverEnv 0 demo_recover_docker (fun _ _ => true) (docker_says "" "") (fun _ => quiet).

Example demo_recovery :
  (Recover demo_recover_env (Some <$> demo_candidates) demo_manager).1 =
    [mkRecoveryResult "a" RECOVERED; mkRecoveryResult "b" RECOVERED; mkRecoveryResult "c" MISSING].
Proof. vm_compute. reflexivity. Qed.

Lemma demo_candidates_distinct : NoDup (cand_id <$> demo_candidates).
Proof. change (NoDup ["a"; "b"; "c"]). repeat constructor; set_solver. Qed.

Definition demo_session : activeSession := newActiveSessionAt "n" "s" (mkHello "" "" "" ∅ "" [] "" None) 0.

Lemma recovery_reports_are_accepted_witness :
  exists statuses, report_results (recoveryCandidateSnapshot (setRecoveryCandidates demo_candidates demo_session))
    (Some <$> (Recover demo_recover_env (Some <$> demo_candidates) demo_manager).1) = Ok statuses /\ statuses !! "b" = Some RECOVERED.
Proof.
  destruct (recovery_reports_are_accepted demo_recover_env demo_candidates demo_manager demo_session demo_candidates_distinct) as (st&E&_&Hr).
  { repeat constructor; vm_compute; discriminate. }
  exists st. split; [exact E|]. apply (Hr (mkRecoveryResult "b" RECOVERED)). rewrite demo_recovery. right. left.
Defined.

Lemma recovered_sessions_are_there_witness :
  exists s, view (Recover demo_recover_env (Some <$> demo_candidates) demo_manager).2 "b" = Some s /\ ts_leaseExpiresAt s = 800 * second.
Proof.
  pose proof (recovered_sessions_are_there demo_recover_env demo_candidates demo_manager (fun _ => eq_refl) demo_manager_ok demo_candidates_distinct) as H.
  pose proof demo_recovery as Hd. destruct (Recover _ _ _) as [results m']. cbn in Hd. subst results. destruct H as [H _].
  destruct (H (mkCandidate " b" 800000)) as (s&Hs&Hl&_); [right; left|right; left|]. by exists s.
Defined.

End WorkerRecoveryClaims.
