(* ===== verification/WorkerExecutor.v ===== *)
(** Commands of a Docker worker
    (worker/worker-docker/internal/runner/capability_executor.go and
    python_runtime.go): from the dispatched command to the result frame.

    The worker decodes payloads into structs with the console's field names, so
    the decoders of the console's payloads are used. As everywhere, a payload
    stands for the JSON value it denotes; [json.Marshal] of command output that
    is not UTF-8 would replace bytes, which is not modelled. *)
From S2P Require Import Prelude.
From S2P Require Import Json.
From S2P Require Import Proto.
From S2P Require Import OwnerScope.
From S2P Require Import SessionRuntime.
From S2P Require Import TerminalRoutes.
From S2P Require Import Service.
From S2P Require Import Dispatch.
From S2P Require Import WorkerTerminal.
From S2P Require Import WorkerRecovery.
From S2P Require Import WorkerResource.
From stdpp Require Import pretty.
#[local] Open Scope string_scope.
#[local] Open Scope list_scope.
#[local] Open Scope Z_scope.

Module WorkerExecutor.

Definition echoCapabilityName : string := "echo".
Definition pythonExecCapabilityName : string := "pythonexec".
Definition terminalExecCapabilityName : string := "terminalexec".
Definition terminalLeaseRenewCapabilityName : string := "terminalleaserenew".
Definition terminalResourceCapabilityName : string := "terminalresource".

(** ** Results *)
Definition commandErrorResult (now : time) (commandID code message : string) : CommandResult :=
  mkResult commandID (Some (code, message)) PEmpty (unix_milli now).
Definition command_result (now : time) (commandID : string) (p : payload) : CommandResult := mkResult commandID None p (unix_milli now).

Definition marshal_run_result (r : terminalExecRunResult) : payload :=
  PJson (JObject [("session_id", JString (rr_SessionID r)); ("created", JBool (rr_Created r)); ("stdout", JString (rr_Stdout r));
    ("stderr", JString (rr_Stderr r)); ("exit_code", JInt (rr_ExitCode r)); ("stdout_truncated", JBool (rr_StdoutTruncated r));
    ("stderr_truncated", JBool (rr_StderrTruncated r)); ("lease_expires_unix_ms", JInt (rr_LeaseExpiresUnixMS r))]).

Definition marshal_renew_result (sessionID : string) (leaseExpiresUnixMS : Z) : payload :=
  PJson (JObject [("session_id", JString sessionID); ("lease_expires_unix_ms", JInt leaseExpiresUnixMS)]).

Definition marshal_resource_result (r : terminalResourceRunResult) : payload :=
  PJson (JObject ([("session_id", JString (rt_SessionID r)); ("file_path", JString (rt_FilePath r)); ("mime_type", JString (rt_MIMEType r));
    ("size_bytes", JInt (rt_SizeBytes r))] ++ omit_if (bool_decide (rt_Blob r = "")) ("blob", JString (b64_encode (rt_Blob r))))).

(** The error of an execution as the result reports it. [newTerminalExecError]
    is a [CommandExecutionError] here; its [Error] is its message. *)
Definition execution_error (now : time) (commandID what : string) (e : error) : CommandResult :=
  if is_ctx_error e then commandErrorResult now commandID "deadline_exceeded" "command deadline exceeded" else
  match as_command_error e with
  | Some (code, message) => commandErrorResult now commandID code message
  | None => commandErrorResult now commandID "execution_failed" (what +:+ " failed: " +:+ error_message e)
  end.

(** ** Python *)

(** What the outside answers to one execution. *)
Record python_env := mkPythonEnv {
  pe_name : res string;
  pe_create : dockerCommandResult;
  pe_start : dockerCommandResult;
  pe_inspect : dockerCommandResult }.

Record pythonExecRunner := mkRunner {
  pr_dockerImage : string;
  pr_memoryLimit : string;
  pr_cpuLimit : string;
  pr_pidsLimit : Z;
  pr_dockerNetwork : string }.

Record pythonExecRunResult := mkPythonResult {
  py_Output : string;
  py_Stderr : string;
  py_ExitCode : Z }.

Definition pythonExecDockerCreateArgsWithNetwork (r : pythonExecRunner) (containerName code : string) : list string :=
  ["create"; "--name"; containerName; "--label"; "onlyboxes.managed=true"; "--label"; "onlyboxes.capability=pythonExec";
   "--label"; "onlyboxes.runtime=worker-docker";
   "--memory"; or_text (pr_memoryLimit r) "256m"; "--cpus"; or_text (pr_cpuLimit r) "1.0";
   "--pids-limit"; pretty (or_default (pr_pidsLimit r) 128)] ++
  (if bool_decide (trim (pr_dockerNetwork r) = "") then [] else ["--network"; trim (pr_dockerNetwork r)]) ++
  ["--entrypoint"; "sh"; or_text (pr_dockerImage r) "ghcr.io/astral-sh/uv:python3.12-bookworm-slim"; "-c";
   "printf '%s' " +:+ quote +:+ "$1" +:+ quote +:+ " > /tmp/script.py && uv run /tmp/script.py"; "_"; code].

Definition pythonExecDockerStartArgs (containerName : string) : list string := ["start"; "-a"; containerName].
Definition pythonExecDockerInspectArgs (containerName : string) : list string :=
  ["inspect"; "-f"; "{{.State.Status}}|{{.State.ExitCode}}"; containerName].

Definition isTerminalPythonExecContainerState (state : string) : bool := bool_decide (trim (to_lower state) ∈ ["exited"; "dead"]).

Definition bar : ascii := ascii_of_nat 124.

Definition inspectPythonExecContainerState (env : python_env) : res (string * Z) :=
  let r := pe_inspect env in
  match dk_Err r with
  | Some e => Err e
  | None =>
      if negb (dk_ExitCode r =? 0) then Err (ErrorString (dockerCommandFailureMessage "exit code" (dk_ExitCode r) (dk_Stderr r))) else
      match split_all bar (trim (dk_Stdout r)) with
      | [status; code] =>
          match Atoi (trim code) with
          | Ok exitCode => Ok (trim status, exitCode)
          | Err e => Err (Wrapped "invalid container exit code: " e "")
          end
      | _ => Err (ErrorString ("unexpected docker inspect output: " +:+ quote +:+ trim (dk_Stdout r) +:+ quote))
      end
  end.

(** The result and the docker commands that were run. *)
Definition runPythonExecInDockerWithNetwork (env : python_env) (r : pythonExecRunner) (code : string)
    : res pythonExecRunResult * list (list string) :=
  match pe_name env with
  | Err e => (Err (Wrapped "allocate pythonExec container name: " e ""), [])
  | Ok name =>
      let created := [pythonExecDockerCreateArgsWithNetwork r name code] in
      match dk_Err (pe_create env) with
      | Some e => (Err (Wrapped "docker create failed: " e ""), created)
      | None =>
          if negb (dk_ExitCode (pe_create env) =? 0) then (Err (failed "docker create failed: " (pe_create env)), created) else
          let started := created ++ [pythonExecDockerStartArgs name] in
          let cleaned cs := cs ++ [pythonExecDockerRemoveArgs name] in
          let st := pe_start env in
          match dk_Err st with
          | Some e => (Err (if is_ctx_error e then e else Wrapped "docker start failed: " e ""), cleaned started)
          | None =>
              if dk_ExitCode st =? 0 then (Ok (mkPythonResult (dk_Stdout st) (dk_Stderr st) 0), cleaned started) else
              let inspected := started ++ [pythonExecDockerInspectArgs name] in
              match inspectPythonExecContainerState env with
              | Err e => (Err (Wrapped ("docker start failed with exit code " +:+ pretty (dk_ExitCode st) +:+ ": inspect failed: ") e ""), cleaned inspected)
              | Ok (status, exitCode) =>
                  if negb (isTerminalPythonExecContainerState status)
                  then (Err (ErrorString ("docker start failed: state=" +:+ status +:+ " " +:+
                               dockerCommandFailureMessage "exit code" (dk_ExitCode st) (dk_Stderr st))), cleaned inspected)
                  else (Ok (mkPythonResult (dk_Stdout st) (dk_Stderr st) exitCode), cleaned inspected)
              end
          end
      end
  end.

(** ** The executor *)

(** What the outside does during one command. *)
Record command_env := mkCommandEnv {
  ce_now : time;
  ce_later : time;
  ce_exec : exec_env;
  ce_resource : resource_env;
  ce_python : python_env;
  ce_runner : pythonExecRunner }.

Definition python_field (k : string) : option (json -> string -> string * bool) :=
  if equal_fold k "code" then Some (fun v s => dec_string v s) else None.
Definition message_field (k : string) : option (json -> string -> string * bool) :=
  if equal_fold k "message" then Some (fun v s => dec_string v s) else None.

Definition invalid_payload (env : command_env) (commandID message : string) : CommandResult :=
  commandErrorResult (ce_later env) commandID terminalExecCodeInvalidPayload message.

Definition buildEchoCommandResult (env : command_env) (commandID : string) (d : CommandDispatch) : CommandResult :=
  let p := cmd_PayloadJson d in
  match (if payload_empty p then Some "" else unmarshal_struct message_field "" p) with
  | None => invalid_payload env commandID "payload_json is not valid echo payload"
  | Some message =>
      if bool_decide (trim message = "") then invalid_payload env commandID "echo payload is required"
      else command_result (ce_later env) commandID p
  end.

Definition buildPythonExecCommandResult (env : command_env) (commandID : string) (d : CommandDispatch)
    : CommandResult * list (list string) :=
  if payload_empty (cmd_PayloadJson d) then (invalid_payload env commandID "pythonExec payload is required", []) else
  match unmarshal_struct python_field "" (cmd_PayloadJson d) with
  | None => (invalid_payload env commandID "payload_json is not valid pythonExec payload", [])
  | Some code =>
      if bool_decide (trim code = "") then (invalid_payload env commandID "pythonExec code is required", []) else
      match runPythonExecInDockerWithNetwork (ce_python env) (ce_runner env) code with
      | (Err e, cs) =>
          (if is_ctx_error e then commandErrorResult (ce_later env) commandID "deadline_exceeded" "command deadline exceeded"
           else commandErrorResult (ce_later env) commandID "execution_failed" ("pythonExec execution failed: " +:+ error_message e), cs)
      | (Ok r, cs) =>
          (command_result (ce_later env) commandID
             (PJson (JObject [("output", JString (py_Output r)); ("stderr", JString (py_Stderr r)); ("exit_code", JInt (py_ExitCode r))])), cs)
      end
  end.

(** [None]: the command still waits for its session. *)
Definition buildTerminalExecCommandResult (env : command_env) (commandID : string) (d : CommandDispatch) (m : terminalSessionManager)
    : option CommandResult * terminalSessionManager :=
  if payload_empty (cmd_PayloadJson d) then (Some (invalid_payload env commandID "terminalExec payload is required"), m) else
  match unmarshal_exec (cmd_PayloadJson d) with
  | None => (Some (invalid_payload env commandID "payload_json is not valid terminalExec payload"), m)
  | Some p =>
      if bool_decide (trim (ex_Command p) = "") then (Some (invalid_payload env commandID "terminalExec command is required"), m) else
      match Execute (ce_exec env) (mkExecRequest (ex_Command p) (ex_SessionID p) (ex_CreateIfMissing p) (ex_LeaseTTLSec p)) m with
      | (None, m) => (None, m)
      | (Some (Err e), m) => (Some (execution_error (ce_later env) commandID "terminalExec execution" e), m)
      | (Some (Ok r), m) => (Some (command_result (ce_later env) commandID (marshal_run_result r)), m)
      end
  end.

Definition buildTerminalLeaseRenewCommandResult (env : command_env) (commandID : string) (d : CommandDispatch) (m : terminalSessionManager)
    : CommandResult * terminalSessionManager :=
  let invalid := (invalid_payload env commandID "payload_json is not valid terminalLeaseRenew payload", m) in
  if payload_empty (cmd_PayloadJson d) then invalid else
  match unmarshal_struct lease_renew_field (mkLeaseRenew "" 0) (cmd_PayloadJson d) with
  | None => invalid
  | Some p =>
      if bool_decide (trim (lr_SessionID p) = "") || (lr_LeaseTTLSec p <=? 0) then invalid else
      match RenewLease (lr_SessionID p) (lr_LeaseTTLSec p) (xe_now (ce_exec env)) m with
      | (Err e, m) => (execution_error (ce_later env) commandID "terminalLeaseRenew" e, m)
      | (Ok lease, m) => (command_result (ce_later env) commandID (marshal_renew_result (trim (lr_SessionID p)) lease), m)
      end
  end.

Definition cloneStringMap (values : option (gmap string string)) : option (gmap string string) :=
  match values with Some h => if bool_decide (h = ∅) then None else Some h | None => None end.

Definition buildTerminalResourceCommandResult (env : command_env) (commandID : string) (d : CommandDispatch) (m : terminalSessionManager)
    : option CommandResult * terminalSessionManager :=
  if payload_empty (cmd_PayloadJson d) then (Some (invalid_payload env commandID "terminalResource payload is required"), m) else
  match unmarshal_resource (cmd_PayloadJson d) with
  | None => (Some (invalid_payload env commandID "payload_json is not valid terminalResource payload"), m)
  | Some p =>
      if bool_decide (trim (rs_SessionID p) = "") || bool_decide (trim (rs_FilePath p) = "")
      then (Some (invalid_payload env commandID "terminalResource session_id and file_path are required"), m)
      else if equal_fold (trim (rs_Action p)) terminalResourceActionExport && bool_decide (trim (rs_SignedURL p) = "")
      then (Some (invalid_payload env commandID "terminalResource signed_url is required for export"), m)
      else
        match ResolveResource (ce_exec env) (ce_resource env)
                (mkResourceRequest (rs_SessionID p) (rs_FilePath p) (rs_Action p) (rs_SignedURL p) (cloneStringMap (rs_Headers p))) m with
        | (None, m) => (None, m)
        | (Some (Err e), m) => (Some (execution_error (ce_later env) commandID "terminalResource execution" e), m)
        | (Some (Ok r), m) => (Some (command_result (ce_later env) commandID (marshal_resource_result r)), m)
        end
  end.

(** The frame, the docker commands of a Python execution, the manager. *)
Definition buildCommandResultWithContext (env : command_env) (d : CommandDispatch) (m : terminalSessionManager)
    : option CommandResult * list (list string) * terminalSessionManager :=
  let commandID := trim (cmd_CommandId d) in
  if bool_decide (commandID = "") then (Some (mkResult commandID (Some ("invalid_command_id", "command_id is required")) PEmpty 0), [], m) else
  if (0 <? cmd_DeadlineUnixMs d) && (cmd_DeadlineUnixMs d <? unix_milli (ce_now env))
  then (Some (commandErrorResult (ce_now env) commandID "deadline_exceeded" "command deadline exceeded"), [], m) else
  let capability := trim (to_lower (cmd_Capability d)) in
  if bool_decide (capability = echoCapabilityName) then (Some (buildEchoCommandResult env commandID d), [], m)
  else if bool_decide (capability = pythonExecCapabilityName)
  then let '(r, cs) := buildPythonExecCommandResult env commandID d in (Some r, cs, m)
  else if bool_decide (capability = terminalExecCapabilityName)
  then let '(r, m) := buildTerminalExecCommandResult env commandID d m in (r, [], m)
  else if bool_decide (capability = terminalLeaseRenewCapabilityName)
  then let '(r, m) := buildTerminalLeaseRenewCommandResult env commandID d m in (Some r, [], m)
  else if bool_decide (capability = terminalResourceCapabilityName)
  then let '(r, m) := buildTerminalResourceCommandResult env commandID d m in (r, [], m)
  else (Some (commandErrorResult (ce_later env) commandID "unsupported_capability"
                ("capability " +:+ quote +:+ cmd_Capability d +:+ quote +:+ " is not supported")), [], m).

End WorkerExecutor.
Export WorkerExecutor.
