(* ===== verification/EndToEnd.v ===== *)
(** A terminalExec command from the client of the console to a container of a
    Docker worker and back: the composition of the console's owner scoping
    (OwnerScope.v) with the worker's executor and session manager. *)
From S2P Require Import Prelude.
From S2P Require Import Json.
From S2P Require Import Proto.
From S2P Require Import OwnerScope.
From S2P Require Import SessionRuntime.
From S2P Require Import TerminalRoutes.
From S2P Require Import Service.
From S2P Require Import Dispatch.
From S2P Require Import WorkerTerminal.
From S2P Require Import WorkerRecovery.
From S2P Require Import WorkerResource.
From S2P Require Import WorkerExecutor.
From S2P Require Import WorkerProps.
From S2P Require Import WorkerClaims.

Module EndToEnd.
Import WorkerProps WorkerClaims.

Implicit Types (m : terminalSessionManager).

(** ** The session a command runs in *)
Lemma schedule_id now l l' m : session_of l' (scheduleSessionLeaseTimerLocked now l m) = session_of l' m.
Proof.
  unfold scheduleSessionLeaseTimerLocked, on_ref, session_of. destruct (m_closed m); [done|]. destruct (m_heap m !! l) as [s|] eqn:Es; [|done].
  cbn. rewrite lookup_insert. case_decide as E; [|done]. subst l'. rewrite Es. by destruct (ts_destroying s).
Qed.

Lemma on_ref_id f l l' m : (forall s, ts_sessionID (f s) = ts_sessionID s) -> session_of l' (on_ref l f m) = session_of l' m.
Proof.
  intros Hf. unfold on_ref, session_of. destruct (m_heap m !! l) as [s|] eqn:Es; [|done]. cbn. rewrite lookup_insert.
  case_decide as E; [|done]. subst l'. by rewrite Es, Hf.
Qed.

Lemma extend_id now target l l' m : session_of l' (extend_session_lease now target l m) = session_of l' m.
Proof.
  unfold extend_session_lease. destruct (m_heap m !! l); [|done]. destruct (_ <? _); [|done]. by rewrite schedule_id, on_ref_id.
Qed.

Lemma claim_id uuid sid lease create now m l created m' :
  manager_ok m -> sid <> "" -> claimSession uuid sid lease create now m = (Ok (l, created), m') ->
  session_of l m' = sid /\ is_Some (m_heap m' !! l).
Proof.
  intros Hok Hne. unfold claimSession. destruct (m_closed m) eqn:Ec; [done|]. rewrite bool_decide_false by done.
  destruct (m_sessions m !! sid ≫= _) as [[l0 s]|] eqn:E.
  - destruct (slot_lookup _ _ _ _ Hok E) as (Hl&Hs&He). destruct (ts_destroying s); [done|]. destruct (_ <=? _); [done|]. intros [= <- <- <-].
    rewrite extend_id, on_ref_id by done. split; [unfold session_of; rewrite Hs; apply (eo_id _ _ _ He)|].
    set (m1 := on_ref l0 _ m). assert (is_Some (m_heap m1 !! l0)) as [s1 Hs1] by (unfold m1, on_ref; rewrite Hs; cbn; rewrite lookup_insert_eq; eauto).
    destruct (extend_session now lease l0 s1 m1 Hs1) as (s'&Hs'&_). eauto.
  - destruct create; [|done]. cbn. pose proof (new_session_outcome sid lease now m Ec) as H.
    destruct (newSessionLocked sid lease now m) as [[l0|] m0]; [|done]. destruct H as (_&->&->). intros [= <- <- <-].
    unfold session_of. cbn. rewrite lookup_insert_eq. eauto.
Qed.

Lemma evolve_id rec l m m' : evolve rec m m' -> is_Some (m_heap m !! l) -> session_of l m' = session_of l m.
Proof.
  intros Hev [s Hs]. destruct (ev_heap _ _ _ Hev _ _ Hs) as (s'&Hs'&Hss). unfold session_of. rewrite Hs, Hs'. apply (ss_id _ _ _ Hss).
Qed.

(** A result names the session that was asked for. *)
Lemma Execute_id rec env req m r m' : others_ok rec (xe_others env) -> manager_ok m -> trim (xr_SessionID req) <> "" ->
  Execute env req m = (Some (Ok r), m') -> rr_SessionID r = trim (xr_SessionID req).
Proof.
  intros Ho Hok Hne. unfold Execute. destruct (bool_decide _); [done|]. destruct (resolveLeaseDuration _ _) as [d|]; [|done].
  set (lease := time_add _ _). pose proof (at_claim rec (xe_uuid env) (trim (xr_SessionID req)) lease (xr_CreateIfMissing req) (xe_now env) m) as Hat.
  destruct (claimSession _ _ _ _ _ _) as [[[l created]|] m1] eqn:Ec; [|done]. destruct (claim_id _ _ _ _ _ _ _ _ _ Hok Hne Ec) as [Hid Hsome].
  assert (manager_ok m1) as Hok1 by (by eapply atom_ok). destruct (moves_keep rec _ _ (await_moves rec env l created m1 Ho Hok1) Hok1) as [_ Hev].
  destruct (awaitSessionReady env l created m1) as [[[[]|]|] m2]; [|done..]. cbn in Hev.
  assert (session_of l m2 = trim (xr_SessionID req)) as Hid2 by (by rewrite (evolve_id rec l m1 m2)).
  unfold run_command. rewrite Hid2. destruct (dk_Err _) as [e|]; [by destruct (is_ctx_error e)|]. destruct (isNoSuchContainerMessage _); [done|].
  destruct (truncateByBytes _ _). destruct (truncateByBytes _ _). destruct (releaseSession _ _ _) as [[] m3]; [|done]. by intros [= <- <-].
Qed.

(** ** What docker is asked to do *)

(** The commands that are run inside a container. *)
Definition is_exec (args : list string) : bool := match args with "exec" :: _ => true | _ => false end.
Definition execs m : list (list string) := filter (fun args => is_exec args = true) (m_docker m).

(** Nobody else runs a command in a container meanwhile. *)
Definition no_execs (others : others_t) : Prop := forall i m, execs (others i m) = execs m.

Lemma execs_same m m' : m_docker m' = m_docker m -> execs m' = execs m.
Proof. unfold execs. by intros ->. Qed.

Lemma execs_docker args m : execs (docker args m) = execs m ++ (if is_exec args then [args] else []).
Proof. unfold execs. cbn. rewrite filter_app. f_equal. cbn. by destruct (is_exec args). Qed.

Lemma execs_remove name m : execs (forceRemoveContainer name m) = execs m.
Proof. unfold forceRemoveContainer. destruct (bool_decide _); [done|]. by rewrite execs_docker, app_nil_r. Qed.

Lemma execs_cleanup others l m : no_execs others -> execs (cleanupTrackedSession others l m) = execs m.
Proof.
  intros Ho. unfold cleanupTrackedSession, cleanupSession. set (m1 := on_ref l with_canceled m). set (m2 := others 1%nat _).
  transitivity (execs m2); [apply execs_same, docker_capacity|]. unfold m2. rewrite (Ho 1%nat), execs_remove, (Ho 0%nat).
  apply execs_same, docker_on_ref.
Qed.

Lemma no_execs_shift k others : no_execs others -> no_execs (shift k others).
Proof. intros Ho i m. apply Ho. Qed.

Lemma execs_release others sid m : no_execs others -> execs (releaseSession others sid m).2 = execs m.
Proof.
  intros Ho. unfold releaseSession. pose proof (docker_release_slot sid m) as E. destruct (release_slot sid m) as [[[lease [l|]]|] m1]; cbn [snd] in *.
  - rewrite execs_cleanup, (Ho 0%nat) by (by apply no_execs_shift). by apply execs_same.
  - by apply execs_same.
  - by apply execs_same.
Qed.

Lemma execs_create env name m : execs (createAndStartContainer env name m).2 = execs m.
Proof.
  assert (forall args m, is_exec args = false -> execs (docker args m) = execs m) as Hno by (intros args m' E; by rewrite execs_docker, E, app_nil_r).
  unfold createAndStartContainer. destruct (dk_Err (xe_create env)); [by apply Hno|]. destruct (negb _); [by apply Hno|].
  destruct (dk_Err (xe_start env)); [cbn [snd]; by rewrite execs_remove, !Hno|]. destruct (negb _); [cbn [snd]; by rewrite execs_remove, !Hno|].
  destruct (bool_decide _); [cbn [snd]; by rewrite !Hno|]. unfold inspectTerminalContainerIP.
  repeat (case_match; simplify_eq; cbn [snd]); by rewrite ?execs_remove, !Hno.
Qed.

(** A session that is ready has run nothing. *)
Lemma execs_ready env l created m m' : no_execs (xe_others env) -> awaitSessionReady env l created m = (Some (Ok tt), m') -> execs m' = execs m.
Proof.
  intros Ho. unfold awaitSessionReady. destruct created.
  - pose proof (execs_create env (container_of l m) (xe_others env 0%nat m)) as E.
    destruct (createAndStartContainer _ _ _) as [[ip|e] m1]; [|done]. cbn [snd] in E. destruct (sessionIsActive _ _); [|done]. intros [= <-].
    transitivity (execs (xe_others env 2%nat (on_ref l (with_init ip None) (xe_others env 1%nat m1)))); [by apply execs_same|].
    by rewrite (Ho 2%nat), (execs_same _ _ (docker_on_ref _ _ _)), (Ho 1%nat), E, (Ho 0%nat).
  - destruct (xe_wait env); [done|]. destruct (m_heap _ !! l) as [s|]; [|done]. destruct (negb _); [done|]. destruct (ts_initErr s); [done|].
    destruct (sessionIsActive _ _); [|done]. intros [= <-]. by rewrite (Ho 1%nat), (Ho 0%nat).
Qed.

(** The container of a claimed session is the one named after its id. *)
Lemma claim_container uuid sid lease create now m l created m' :
  manager_ok m -> sid <> "" -> claimSession uuid sid lease create now m = (Ok (l, created), m') ->
  container_of l m' = terminalSessionResourceName (m_cfg m) sid.
Proof.
  intros Hok Hne Hc. pose proof (claim_ok uuid sid lease create now m Hok) as Hok'. pose proof (claim_cases uuid sid lease create now m Hok) as H.
  pose proof (ev_cfg _ _ _ (atom_evolve false _ _ (at_claim false uuid sid lease create now m) Hok)) as Ecfg.
  rewrite Hc in Hok', Ecfg, H. cbn in Hok', Ecfg. destruct H as (_&s&Hs&_&_&H). unfold container_of. rewrite Hs.
  assert (m_sessions m' !! sid = Some l) as Ht.
  { destruct created; [destruct H as (_&_&_&->&_); by rewrite bool_decide_false, lookup_insert_eq by done|]. by destruct H as (->&?&_). }
  destruct (mo_table _ Hok' _ _ Ht) as (s'&Hs'&He). replace s with s' by congruence. by rewrite (eo_name _ _ _ He), Ecfg.
Qed.

(** A command that succeeds has run in the container of the session that was
    asked for; its output is what docker printed. *)
Lemma Execute_runs rec env req m r m' : others_ok rec (xe_others env) -> manager_ok m -> trim (xr_SessionID req) <> "" ->
  Execute env req m = (Some (Ok r), m') ->
  let ran := terminalExecDockerExecArgs (terminalSessionResourceName (m_cfg m) (trim (xr_SessionID req))) (trim (xr_Command req)) in
  exists new, m_docker m' = m_docker m ++ new /\ ran ∈ new /\
    (no_execs (xe_others env) -> execs m' = execs m ++ [ran]) /\
    truncateByBytes (dk_Stdout (xe_exec env)) (c_OutputLimitBytes (m_cfg m)) = (rr_Stdout r, rr_StdoutTruncated r).
Proof.
  intros Ho Hok Hne. pose proof (Execute_moves rec env req m Ho Hok) as Hall. unfold Execute in *. destruct (bool_decide _); [done|]. destruct (resolveLeaseDuration _ _) as [d|]; [|done].
  set (lease := time_add _ _) in *. pose proof (at_claim rec (xe_uuid env) (trim (xr_SessionID req)) lease (xr_CreateIfMissing req) (xe_now env) m) as Hat.
  pose proof (docker_claim (xe_uuid env) (trim (xr_SessionID req)) lease (xr_CreateIfMissing req) (xe_now env) m) as Hd.
  destruct (claimSession _ _ _ _ _ _) as [[[l created]|] m1] eqn:Ec; [|done]. destruct (claim_id _ _ _ _ _ _ _ _ _ Hok Hne Ec) as [_ Hsome].
  pose proof (claim_container _ _ _ _ _ _ _ _ _ Hok Hne Ec) as Hname. cbn in Hat, Hd.
  assert (manager_ok m1) as Hok1 by (by eapply atom_ok). pose proof (atom_evolve _ _ _ Hat Hok) as Hev1.
  pose proof (await_moves rec env l created m1 Ho Hok1) as Hm12. pose proof (execs_ready env l created m1) as Hex.
  destruct (awaitSessionReady env l created m1) as [[[[]|]|] m2]; [|done..]. cbn in Hm12. destruct (moves_keep _ _ _ Hm12 Hok1) as [Hok2 Hev2].
  assert (container_of l m2 = terminalSessionResourceName (m_cfg m) (trim (xr_SessionID req))) as Hname2.
  { rewrite <- Hname. destruct Hsome as [s Hs]. destruct (ev_heap _ _ _ Hev2 _ _ Hs) as (s'&Hs'&Hss). unfold container_of. rewrite Hs, Hs'. apply (ss_name _ _ _ Hss). }
  pose proof (moves_log _ _ _ Hm12) as [log1 Hlog1]. intros E. unfold run_command in E. rewrite Hname2 in E.
  set (ran := terminalExecDockerExecArgs _ _) in *. set (others := shift 30 (xe_others env)) in *. set (m3 := docker ran m2) in *.
  assert (others_ok rec others) as Ho' by (by apply shift_ok). assert (manager_ok m3) as Hok3 by (eapply (atom_ok rec); [apply at_docker|done]).
  pose proof (Ho' 0%nat m3 Hok3) as Hm34. destruct (moves_keep _ _ _ Hm34 Hok3) as [Hok4 Hev4]. set (m4 := others 0%nat m3) in *.
  destruct (dk_Err _) as [e|]; [by destruct (is_ctx_error e)|]. destruct (isNoSuchContainerMessage _); [done|].
  assert (m_cfg m4 = m_cfg m) as Ecfg by (by rewrite (ev_cfg _ _ _ Hev4); unfold m3; cbn; rewrite (ev_cfg _ _ _ Hev2), (ev_cfg _ _ _ Hev1)).
  rewrite Ecfg in E. destruct (truncateByBytes (dk_Stdout _) _) as [out ot]. destruct (truncateByBytes _ _) as [err et].
  pose proof (releaseSession_moves rec (shift 1 others) (session_of l m2) m4 (shift_ok _ _ _ Ho') Hok4) as Hm45.
  pose proof (execs_release (shift 1 others) (session_of l m2) m4) as Hex5. destruct (releaseSession _ _ _) as [[t|] m5]; [|done]. cbn in Hm45, Hex5. simplify_eq/=.
  destruct (moves_log _ _ _ Hm34) as [log2 Hlog2]. destruct (moves_log _ _ _ Hm45) as [log3 Hlog3]. change (m_docker m3) with (m_docker m2 ++ [ran]) in Hlog2.
  exists (log1 ++ [ran] ++ log2 ++ log3). split_and!; [by rewrite Hlog3, Hlog2, Hlog1, Hd, <- !app_assoc|set_solver| |done].
  intros Hno. rewrite Hex5 by (by apply no_execs_shift, no_execs_shift). unfold m4, others. rewrite (no_execs_shift 30 _ Hno 0%nat). unfold m3. rewrite execs_docker. cbn [is_exec terminalExecDockerExecArgs ran].
  by rewrite (Hex _ Hno eq_refl), (execs_same m m1 Hd).
Qed.

(** ** The result frame *)
Lemma to_map_run_result r : exists ms, marshal_run_result r = PJson (JObject ms) /\ to_map ms !! "session_id" = Some (JString (rr_SessionID r)).
Proof. eexists. split; [done|]. unfold to_map. cbn. by rewrite !lookup_insert_ne, lookup_insert_eq by done. Qed.

Lemma execution_error_reported now id what e : cr_Error (execution_error now id what e) <> None.
Proof. unfold execution_error. destruct (is_ctx_error e); [done|]. by destruct (as_command_error e) as [[]|]. Qed.

(** Containers of different owners have different names. *)
Lemma containers_differ cfg o o' s s' : (forall x y, c_hash cfg x = c_hash cfg y -> x = y) -> good_owner o -> good_owner o' ->
  trim s <> "" -> trim s' <> "" -> trim o <> trim o' ->
  terminalSessionResourceName cfg (scopeTerminalSessionID o' s') <> terminalSessionResourceName cfg (scopeTerminalSessionID o s).
Proof.
  intros Hinj [Ho Hc] [Ho' Hc'] Hs Hs' Hne E. unfold terminalSessionResourceName, terminalSessionIDHash in E. apply (inj (String.append _)) in E.
  apply Hinj in E. rewrite !trim_scope, !scope_unfold in E by done. by apply join_scope_inj in E as [? _].
Qed.

(** C4: From a client's terminalExec command to its answer: an input the console
    accepts for an owner and sends to a Docker worker is executed, if it succeeds,
    in a session scoped to that owner, the client's own session if it named one,
    whatever else runs on the worker and however docker behaves: docker was asked
    to run the client's command in the container named after that session, in no
    other unless another goroutine asked for it, and what docker answered is the
    output of the reply. Where the hash of session ids has no collisions, that
    container is no session's of another owner. The console shows the answer to
    the owner with the client's session id, and withholds it from every other
    owner. *)
Theorem terminal_commands_stay_with_their_owner rec newID o input p out d env m r cs m' :
  good_owner o -> unmarshal_exec input = Some p ->
  scopeTaskInputByOwner newID taskCapabilityTerminalExec o input = Ok out ->
  cmd_PayloadJson d = out -> trim (to_lower (cmd_Capability d)) = taskCapabilityTerminalExec ->
  manager_ok m -> others_ok rec (xe_others (ce_exec env)) ->
  buildCommandResultWithContext env d m = (Some r, cs, m') -> cr_Error r = None ->
  exists s run new, cr_PayloadJson r = marshal_run_result run /\ rr_SessionID run = scopeTerminalSessionID o s /\ trim s <> "" /\
    (trim (ex_SessionID p) <> "" -> s = trim (ex_SessionID p)) /\
    (let container := terminalSessionResourceName (m_cfg m) (scopeTerminalSessionID o s) in
     let ran := terminalExecDockerExecArgs container (trim (ex_Command p)) in
     m_docker m' = m_docker m ++ new /\ ran ∈ new /\
     (no_execs (xe_others (ce_exec env)) -> execs m' = execs m ++ [ran]) /\
     truncateByBytes (dk_Stdout (xe_exec (ce_exec env))) (c_OutputLimitBytes (m_cfg m)) = (rr_Stdout run, rr_StdoutTruncated run) /\
     ((forall x y, c_hash (m_cfg m) x = c_hash (m_cfg m) y -> x = y) -> forall o' s', good_owner o' -> trim o' <> trim o -> trim s' <> "" ->
        terminalSessionResourceName (m_cfg m) (scopeTerminalSessionID o' s') <> container)) /\
    (exists ms, restoreTaskResultOwnerScope o taskCapabilityTerminalExec (cr_PayloadJson r) = Some (PJson (JObject ms)) /\
       to_map ms !! "session_id" = Some (JString (trim s))) /\
    (forall o', good_owner o' -> trim o' <> trim o ->
       restoreTaskResultOwnerScope o' taskCapabilityTerminalExec (cr_PayloadJson r) = None).
Proof.
  intros Ho Hp Hout Hd Hcap Hok Hoth. destruct (exec_input_scoped newID o input p out (proj1 Ho) Hp Hout) as (s&create&Hs&Hu&Hsel).
  unfold buildCommandResultWithContext. destruct (bool_decide (trim (cmd_CommandId d) = "")); [by intros E Herr; simplify_eq/=|]. destruct (_ && _); [by intros E Herr; simplify_eq/=|].
  rewrite Hcap, (bool_decide_false (taskCapabilityTerminalExec = echoCapabilityName)),
    (bool_decide_false (taskCapabilityTerminalExec = pythonExecCapabilityName)), bool_decide_true by done. unfold buildTerminalExecCommandResult. rewrite Hd. destruct (payload_empty out) eqn:Eo; [by intros E Herr; simplify_eq/=|].
  rewrite Hu. cbn. destruct (bool_decide (trim (ex_Command p) = "")); [by intros E Herr; simplify_eq/=|]. set (req := mkExecRequest _ _ _ _).
  assert (trim (xr_SessionID req) = scopeTerminalSessionID o s) as Hreq by (apply trim_scope; [apply Ho|done]).
  assert (trim (xr_SessionID req) <> "") as Hne by (rewrite Hreq, scope_unfold by (done || apply Ho); done).
  destruct (Execute (ce_exec env) req m) as [[[run|e]|] m1] eqn:Ex; [| |done].
  2:{ intros E Herr. cbn in E. simplify_eq. by apply execution_error_reported in Herr. }
  intros E _. cbn in E. simplify_eq. cbn [command_result cr_PayloadJson].
  pose proof (Execute_id _ _ _ _ _ _ Hoth Hok Hne Ex) as Hrun. destruct (Execute_runs _ _ _ _ _ _ Hoth Hok Hne Ex) as (new&Hdocker). rewrite Hreq in Hrun, Hdocker.
  exists s, run, new. destruct (to_map_run_result run) as (ms&Ems&Hms). rewrite Hrun in Hms. split; [done|]. split; [done|]. split; [done|]. split.
  { intros Hne'. rewrite bool_decide_false in Hsel by done. by destruct Hsel as (->&_). }
  split. { cbv zeta. destruct Hdocker as (H1&H2&H3&H4). split_and!; [done..|]. intros. by apply containers_differ. }
  rewrite Ems. split.
  - pose proof (restore_scope o o s taskCapabilityTerminalExec ms Ho Ho Hs ltac:(by left) Hms) as H. rewrite bool_decide_true in H by done.
    destruct H as (ms'&E1&E2). exists ms'. split; [done|]. by rewrite E2, lookup_insert_eq.
  - intros o' Ho' Hne'. pose proof (restore_scope o' o s taskCapabilityTerminalExec ms Ho' Ho Hs ltac:(by left) Hms) as H.
    by rewrite bool_decide_false in H.
Qed.

(** ** Errors across the wire *)

(** The error the console sees for an error of the executor. *)
Definition console_error (now later : time) (id what : string) (e : error) : option error := oc_err (outcome_of (execution_error now id what e) later).

(** What a worker refuses reaches the console as what it is:
    the console takes the answer to a refused command as a lost session
    exactly when the worker, not shut down, does not know the session or is
    destroying it, and as a lack of room, to be retried elsewhere, exactly when
    the worker would have had to open a session and is full. *)
Theorem refusals_are_understood uuid sid lease create now m e m' later id :
  manager_ok m -> claimSession uuid sid lease create now m = (Err e, m') ->
  exists err, console_error now later id "terminalExec execution" e = Some err /\
    (isSessionNotFoundCommandError err = true <->
       m_closed m = false /\ sid <> "" /\
       (m_sessions m !! sid = None /\ create = false \/
        exists l s, m_sessions m !! sid = Some l /\ m_heap m !! l = Some s /\ ts_destroying s = true)) /\
    (isSessionCapacityCommandError err = true <->
       m_closed m = false /\ (sid = "" \/ m_sessions m !! sid = None /\ create = true) /\
       0 < c_MaxActiveSessions (m_cfg m) <= m_activeSessionReservations m).
Proof.
  intros Hok Hc. pose proof (claim_cases uuid sid lease create now m Hok) as H. rewrite Hc in H. cbn zeta in H.
  destruct H as [_ [[Hcl ->]|[(Hcl&Hs&Hk&Hcr&->)|[(Hcl&Hs&l&s&Hk&Hh&Hd&->)|[(Hcl&Hs&l&s&Hk&Hh&Hd&Hi&->)|(Hcl&Hs&Hf&->)]]]]];
    eexists; (split; [reflexivity|]).
  - split; (split; [by vm_compute|]); intros [? _]; congruence.
  - split; (split; [|try done]); [intros _; split_and!; auto|by vm_compute|]. intros (_&[?|[_ ?]]&_); congruence.
  - split; (split; [|try done]); [intros _; split_and!; [done..|]; right; by exists l, s|by vm_compute|]. intros (_&[?|[? _]]&_); congruence.
  - split; (split; [by vm_compute|]); [|intros (_&[?|[? _]]&_); congruence]. intros (_&_&[[? _]|(l'&s'&?&?&?)]); congruence.
  - split; (split; [|try done]); [by vm_compute| |intros _; split_and!; [done..|lia|lia]].
    intros (_&Hne&[[??]|(l'&s'&?&?&?)]); destruct Hs as [?|[??]]; congruence.
Qed.

(** ** Leases across the wire *)
Lemma console_reads_run_result r : is_i64 (rr_LeaseExpiresUnixMS r) = true -> 0 < rr_LeaseExpiresUnixMS r ->
  terminalSessionLeaseExpiresUnixMs (marshal_run_result r) = rr_LeaseExpiresUnixMS r.
Proof.
  intros Hi Hpos. unfold terminalSessionLeaseExpiresUnixMs, marshal_run_result, unmarshal_struct, dec_fields. cbn [payload_empty foldl fst snd].
  assert (Forall (fun k => lease_field k = None)
    ["session_id"; "created"; "stdout"; "stderr"; "exit_code"; "stdout_truncated"; "stderr_truncated"]) as Hnone
    by (repeat constructor; vm_compute; reflexivity).
  rewrite !Forall_cons in Hnone. destruct Hnone as (E1&E2&E3&E4&E5&E6&E7&_). rewrite E1, E2, E3, E4, E5, E6, E7.
  change (lease_field "lease_expires_unix_ms") with (Some dec_int). unfold dec_int. rewrite Hi. cbn -[Z.leb].
  destruct (Z.leb_spec (rr_LeaseExpiresUnixMS r) 0); [lia|done].
Qed.

(** After the first command of a session the console records
    the lease the worker keeps: the number it reads from the answer is the end
    of the lease of the session in the worker's table. *)
Theorem console_and_worker_agree_on_the_lease env req d m :
  xe_others env = quiet -> dk_Err (xe_exec env) = None -> isNoSuchContainerMessage (dk_Stderr (xe_exec env)) = false ->
  manager_ok m -> m_closed m = false -> docker_ok (xe_create env) -> docker_ok (xe_start env) -> c_DockerNetwork (m_cfg m) = "" ->
  trim (xr_Command req) <> "" -> resolveLeaseDuration (xr_LeaseTTLSec req) m = Ok d ->
  trim (xr_SessionID req) <> "" -> xr_CreateIfMissing req = true -> m_sessions m !! trim (xr_SessionID req) = None ->
  ~ 0 < c_MaxActiveSessions (m_cfg m) <= m_activeSessionReservations m ->
  let lease := time_add (xe_now env) d in
  is_i64 (unix_milli lease) = true -> 0 < unix_milli lease ->
  exists run m' l s, Execute env req m = (Some (Ok run), m') /\ m_sessions m' !! trim (xr_SessionID req) = Some l /\ m_heap m' !! l = Some s /\
    ts_leaseExpiresAt s = lease /\ terminalSessionLeaseExpiresUnixMs (marshal_run_result run) = unix_milli (ts_leaseExpiresAt s).
Proof.
  intros Hq He Hno Hok Hc Hcr Hst Hnet Hcmd Hd Hne Hcreate Hnone Hfree lease Hi Hpos.
  destruct (first_command env Hq He Hno req d m) as (m'&E&Ht&Hh&_); rewrite ?bool_decide_false by done; try done; try (by right); [by rewrite trim_trim|].
  rewrite bool_decide_false in E, Ht, Hh by done. fold lease in E, Ht, Hh.
  eexists _, m', (m_next m), _. split; [exact E|]. rewrite Ht, Hh, !lookup_insert_eq. split; [done|]. split; [done|]. split; [done|].
  by rewrite console_reads_run_result.
Qed.

(** ** Python *)

(** Once docker has created the container of a Python
    execution, its removal is the last command, whatever happens between;
    docker is asked for at most four commands, all about that container. *)
Theorem python_containers_are_removed env r code name result cs :
  pe_name env = Ok name -> docker_ok (pe_create env) ->
  runPythonExecInDockerWithNetwork env r code = (result, cs) ->
  exists between, cs = pythonExecDockerCreateArgsWithNetwork r name code :: pythonExecDockerStartArgs name :: between ++ [pythonExecDockerRemoveArgs name] /\
    (between = [] \/ between = [pythonExecDockerInspectArgs name]) /\
    (forall x, result = Ok x -> py_Output x = dk_Stdout (pe_start env) /\ py_Stderr x = dk_Stderr (pe_start env)).
Proof.
  intros Hn [Hc1 Hc2]. unfold runPythonExecInDockerWithNetwork. rewrite Hn, Hc1, Hc2. cbn [Z.eqb negb app].
  destruct (dk_Err (pe_start env)) as [e|].
  { intros [= <- <-]. exists []. split; [done|]. split; [by left|]. by destruct (is_ctx_error e). }
  destruct (dk_ExitCode (pe_start env) =? 0).
  { intros [= <- <-]. exists []. split; [done|]. split; [by left|]. by intros x [= <-]. }
  destruct (inspectPythonExecContainerState env) as [[status exitCode]|e].
  - destruct (negb _); intros [= <- <-]; exists [pythonExecDockerInspectArgs name]; (split; [done|]); (split; [by right|]); [done|]. by intros x [= <-].
  - intros [= <- <-]. exists [pythonExecDockerInspectArgs name]. split; [done|]. split; [by right|done].
Qed.

(** ** Witnesses *)
Definition demo_input : payload := PJson (JObject [("command", JString "ls"); ("session_id", JString "s1"); ("create_if_missing", JBool true)]).
Definition demo_dispatch (p : payload) : CommandDispatch := mkDispatch "cmd_1" "terminalExec" p 0.
Definition demo_resource_env : resource_env := mkResourceEnv "" (docker_says "" "") (fun _ => PEmpty) (fun _ => ErrorString "") (Ok "") (docker_says "" "") None.
Definition demo_python (exit : Z) : python_env := mkPythonEnv (Ok "c1") (docker_says "" "") (mkDocker "out" "" exit None) (docker_says "exited|3" "").
Definition demo_command_env : command_env :=
  mkCommandEnv 0 0 (demo_env 0 "u1" "hello" "" quiet) demo_resource_env (demo_python 0) (mkRunner "" "" "" 0 "").

Lemma terminal_commands_stay_with_their_owner_witness :
  exists r cs m', buildCommandResultWithContext demo_command_env (demo_dispatch (marshal_exec (mkExec "ls" "obx:alice:s1" true None)))
      (newTerminalSessionManager demo_config) = (Some r, cs, m') /\
    restoreTaskResultOwnerScope "bob" taskCapabilityTerminalExec (cr_PayloadJson r) = None /\
    exists s, execs m' = [terminalExecDockerExecArgs (terminalSessionResourceName demo_config (scopeTerminalSessionID "alice" s)) "ls"].
Proof.
  eexists _, _, _. split; [vm_compute; reflexivity|].
  destruct (terminal_commands_stay_with_their_owner false None "alice" demo_input (mkExec "ls" "s1" true None)
    (marshal_exec (mkExec "ls" "obx:alice:s1" true None)) (demo_dispatch (marshal_exec (mkExec "ls" "obx:alice:s1" true None)))
    demo_command_env (newTerminalSessionManager demo_config)
    (mkResult "cmd_1" None (marshal_run_result (mkRunResult "obx:alice:s1" true "hello" "" 0 false false 60000)) 0) []
    (buildCommandResultWithContext demo_command_env (demo_dispatch (marshal_exec (mkExec "ls" "obx:alice:s1" true None)))
       (newTerminalSessionManager demo_config)).2) as (s&run&new&_&_&_&_&(_&_&Hx&_)&_&Ho);
    [first [apply new_manager_ok|apply quiet_ok|by vm_compute]..|]. split; [apply Ho; by vm_compute|]. exists s. by apply Hx.
Defined.

Lemma refusals_are_understood_witness :
  exists err, console_error 0 0 "cmd_1" "terminalExec execution" no_session = Some err /\ isSessionNotFoundCommandError err = true.
Proof.
  destruct (refusals_are_understood "u" "b" 0 false 0 demo_manager no_session demo_manager 0 "cmd_1" demo_manager_ok) as (err&E&Hn&_);
    [vm_compute; reflexivity|]. exists err. split; [exact E|]. apply Hn. split; [vm_compute; reflexivity|]. split; [done|]. left. split; vm_compute; reflexivity.
Defined.

Lemma console_and_worker_agree_on_the_lease_witness :
  exists run m' l s, Execute (demo_env 0 "u1" "hello" "" quiet) (command_in "a") (newTerminalSessionManager demo_config) = (Some (Ok run), m') /\
    m_sessions m' !! "a" = Some l /\ m_heap m' !! l = Some s /\ ts_leaseExpiresAt s = 60 * second /\
    terminalSessionLeaseExpiresUnixMs (marshal_run_result run) = unix_milli (ts_leaseExpiresAt s).
Proof.
  apply (console_and_worker_agree_on_the_lease (demo_env 0 "u1" "hello" "" quiet) (command_in "a") (60 * second) (newTerminalSessionManager demo_config));
    first [apply new_manager_ok|done|vm_compute; by intros [_ ?]].
Defined.

Lemma python_containers_are_removed_witness :
  exists between, (runPythonExecInDockerWithNetwork (demo_python 7) (mkRunner "" "" "" 0 "") "print(1)").2 =
    pythonExecDockerCreateArgsWithNetwork (mkRunner "" "" "" 0 "") "c1" "print(1)" :: pythonExecDockerStartArgs "c1" :: between ++ [pythonExecDockerRemoveArgs "c1"].
Proof.
  destruct (python_containers_are_removed (demo_python 7) (mkRunner "" "" "" 0 "") "print(1)" "c1"
    (runPythonExecInDockerWithNetwork (demo_python 7) (mkRunner "" "" "" 0 "") "print(1)").1
    (runPythonExecInDockerWithNetwork (demo_python 7) (mkRunner "" "" "" 0 "") "print(1)").2) as (b&E&_); [done|done|by destruct (runPythonExecInDockerWithNetwork _ _ _)|].
  by exists b.
Defined.

End EndToEnd.
