(* ===== verification/Accounts.v ===== *)
(** Accounts and authentication of the console's HTTP API
    (console/internal/httpapi: console_auth.go, console_auth_account.go,
    console_auth_session.go, console_auth_handlers.go, mcp_auth.go,
    api_keys_auth.go, jit_auth.go, request_owner.go).

    The state is the database connection, the dashboard sessions kept in memory
    and the owners whose proxy routes were asked to be revoked.  A handler is a
    function of the request, of what the outside decides (the clock, random
    values, the salt of a password hash, what other requests do in between) and
    of the state. *)
From S2P Require Import Prelude.
From S2P Require Import Json.
From S2P Require Import Sql.
From S2P Require Import Service.
From S2P Require Import AuthText.
From S2P Require Import AuthSql.

Module Accounts.

Definition dashboardSessionTTL : duration := 12 * 3600 * 1000000000.
Definition dashboardPasswordHashAlgo : string := "bcrypt".
Definition accountIDPrefix : string := "acc_".
Definition tokenIDPrefix : string := "tok_".
Definition generatedTokenPrefix : string := "obx_".
Definition apiKeyPrefix : string := "obxk_".
Definition apiKeyIDPrefix : string := "apik_".
Definition jitAccountPasswordHash : string := "jit-account-no-dashboard-login".
Definition jitAccountHashAlgo : string := "jit-disabled".
Definition initialAdminAPIKeyName : string := "initial-admin".

Record SessionAccount := mkSessionAccount {
  sa_AccountID : string;
  sa_Username : string;
  sa_IsAdmin : bool }.

Record accountSessionState := mkSessionState {
  ss_Account : SessionAccount;
  ss_ExpiresAt : time }.

(** The settings, with the functions of golang.org/x/crypto/bcrypt: [generate
    salt password] and [compare hash password]. *)
Record auth_config := mkAuthConfig {
  ac_hasher : Hasher;
  ac_crypto : crypto;
  ac_bcrypt_generate : string -> string -> option string;
  ac_bcrypt_compare : string -> string -> bool;
  ac_registrationEnabled : bool;
  ac_dashboardJIT : option jitTokenVerifier;
  ac_jit : option jitTokenVerifier;
  ac_tokenQuery : string }.

Record ConsoleAuth := mkAuth {
  au_conn : Conn;
  au_sessions : gmap string accountSessionState;
  au_revoked : list string }.

Definition with_conn c a := mkAuth c (au_sessions a) (au_revoked a).
Definition with_sessions f a := mkAuth (au_conn a) (f (au_sessions a)) (au_revoked a).
Definition revoke_owner id a := mkAuth (au_conn a) (au_sessions a) (au_revoked a ++ [id]).

(** A query on the console's connection. *)
Definition on_db {A} (m : M A) (a : ConsoleAuth) : res A * ConsoleAuth :=
  let '(r, c) := m (au_conn a) in (r, with_conn c a).

(** Random values of the tries of a loop ([None]: the source of randomness
    failed), and the clock at each of them. *)
Record tries := mkTries {
  tr_value : nat -> option string;
  tr_id : nat -> option string;
  tr_now : nat -> time }.

Section config.
Context (cfg : auth_config).

Definition randomFailure : error := ErrorString "crypto/rand: read failed".

(** ** Accounts (console_auth_account.go) *)
Definition hashDashboardPassword (salt password : string) : res string :=
  match ac_bcrypt_generate cfg salt password with
  | Some h => Ok h
  | None => Err (ErrorString "bcrypt: password length exceeds 72 bytes")
  end.
Definition compareDashboardPassword (hash password : string) : bool :=
  ac_bcrypt_compare cfg (trim hash) password.

Record createAccountInput := mkCreateAccount {
  ca_Username : string;
  ca_Password : string;
  ca_IsAdmin : bool;
  ca_Now : time }.

Record createdAccount := mkCreated {
  cd_AccountID : string;
  cd_Username : string;
  cd_IsAdmin : bool;
  cd_CreatedAt : time;
  cd_UpdatedAt : time }.

Inductive accountInsertConflict :=
  | accountInsertConflictUnknown | accountInsertConflictAccountID | accountInsertConflictUsernameKey.

(** A query whose [sql.ErrNoRows] is an answer and whose other errors are
    returned. *)
Definition found {A} (m : M A) : M bool :=
  r ← catch m;
  match r with
  | Ok _ => mret true
  | Err e => if error_is e ErrNoRows then mret false else fail e
  end.

Definition classifyAccountInsertConflict (accountID usernameKey : string) : M accountInsertConflict :=
  byID ← found (GetAccountByID (trim accountID));
  if byID : bool then mret accountInsertConflictAccountID else
  byKey ← found (GetAccountByUsernameKey (trim usernameKey));
  if byKey : bool then mret accountInsertConflictUsernameKey else
  mret accountInsertConflictUnknown.

(** The loop of [createAccountWithRetry], [n] tries from the [i]-th. *)
Fixpoint create_account_loop (gen : nat -> option string) (row : Account) (n i : nat) : M createdAccount :=
  match n with
  | O => fail (ErrorString "failed to create account")
  | S n =>
      match gen i with
      | None => fail (Wrapped "generate account id: " randomFailure "")
      | Some hex =>
          let accountID := accountIDPrefix +:+ hex in
          r ← catch (InsertAccount accountID row);
          match r with
          | Ok _ =>
              let createdAt := of_unix_milli (a_CreatedAtUnixMs row) in
              mret (mkCreated accountID (a_Username row) (a_IsAdmin row) createdAt createdAt)
          | Err err =>
              if isSQLiteConstraintError err then
                conflict ← classifyAccountInsertConflict accountID (a_UsernameKey row);
                match conflict with
                | accountInsertConflictAccountID => create_account_loop gen row n (S i)
                | accountInsertConflictUsernameKey => fail (Sentinel errAccountRegistrationConflict)
                | accountInsertConflictUnknown => fail err
                end
              else fail err
          end
      end
  end.

Definition createAccountWithRetry (salt : string) (gen : nat -> option string) (input : createAccountInput) : M createdAccount :=
  match normalizeAccountUsername (ca_Username input) with
  | Err e => fail e
  | Ok (normalizedUsername, usernameKey) =>
      if bool_decide (trim (ca_Password input) = "") then fail (Sentinel errAccountPasswordRequired) else
      match hashDashboardPassword salt (ca_Password input) with
      | Err e => fail (Wrapped "hash account password: " e "")
      | Ok passwordHash =>
          let nowMS := unix_milli (ca_Now input) in
          create_account_loop gen
            (mkAccount normalizedUsername usernameKey passwordHash dashboardPasswordHashAlgo
               (ca_IsAdmin input) nowMS nowMS) 8 0
      end
  end.

(** ** API keys (api_keys_auth.go) *)
Record apiKeyRecord := mkKeyRecord {
  kr_ID : string;
  kr_AccountID : string;
  kr_Name : string;
  kr_NameKey : string;
  kr_Key : string;
  kr_KeyHash : string;
  kr_KeyMasked : string;
  kr_CreatedAt : time;
  kr_UpdatedAt : time }.

Inductive apiKeyInsertConflict :=
  | apiKeyInsertConflictUnknown | apiKeyInsertConflictName
  | apiKeyInsertConflictKeyHash | apiKeyInsertConflictKeyID.

Definition classifyAPIKeyInsertConflict (accountID nameKey keyHash keyID : string) : M apiKeyInsertConflict :=
  byName ← found (GetAPIKeyByAccountAndNameKey accountID nameKey);
  if byName : bool then mret apiKeyInsertConflictName else
  byHash ← found (GetAPIKeyByHash keyHash);
  if byHash : bool then mret apiKeyInsertConflictKeyHash else
  byID ← found (GetAPIKeyByID keyID);
  if byID : bool then mret apiKeyInsertConflictKeyID else
  mret apiKeyInsertConflictUnknown.

Definition row_of_key (r : apiKeyRecord) : ApiKey :=
  mkApiKey (kr_AccountID r) (kr_Name r) (kr_NameKey r) (kr_KeyHash r) (kr_KeyMasked r)
    (unix_milli (kr_CreatedAt r)) (unix_milli (kr_UpdatedAt r)).

Fixpoint create_key_loop (t : tries) (accountID name nameKey keyOverride : string) (n i : nat) : M apiKeyRecord :=
  match n with
  | O => fail (Sentinel errAPIKeyGenerateFailed)
  | S n =>
      match (if negb (bool_decide (keyOverride = "")) then Some keyOverride
             else (fun v => apiKeyPrefix +:+ v) <$> tr_value t i) with
      | None => fail (Sentinel errAPIKeyGenerateFailed)
      | Some keyValue =>
          match tr_id t i with
          | None => fail (Sentinel errAPIKeyIDGenerateFailed)
          | Some hex =>
              let now := tr_now t i in
              let record := mkKeyRecord (apiKeyIDPrefix +:+ hex) accountID name nameKey keyValue
                              (ac_hasher cfg keyValue) (maskToken keyValue) now now in
              r ← catch (InsertAPIKey (kr_ID record) (row_of_key record));
              match r with
              | Ok _ => mret record
              | Err err =>
                  if isSQLiteConstraintError err then
                    conflict ← classifyAPIKeyInsertConflict accountID nameKey (kr_KeyHash record) (kr_ID record);
                    match conflict with
                    | apiKeyInsertConflictName => fail (Sentinel errAPIKeyNameConflict)
                    | apiKeyInsertConflictKeyHash | apiKeyInsertConflictKeyID =>
                        create_key_loop t accountID name nameKey keyOverride n (S i)
                    | apiKeyInsertConflictUnknown => fail err
                    end
                  else fail err
              end
          end
      end
  end.

Definition createAPIKey (t : tries) (accountID name keyOverride : string) : M apiKeyRecord :=
  let normalizedAccountID := trim accountID in
  if bool_decide (normalizedAccountID = "") then fail (ErrorString "account_id is required") else
  match normalizeAPIKeyName name with
  | Err e => fail e
  | Ok (normalizedName, nameKey) =>
      create_key_loop t normalizedAccountID normalizedName nameKey keyOverride 8 0
  end.

Definition deleteAPIKey (apiKeyID accountID : string) : M unit :=
  rows ← DeleteAPIKeyByIDAndAccount apiKeyID (trim accountID);
  if rows =? 0 then fail (Sentinel errAPIKeyNotFound) else mret tt.

Definition lookupAPIKey (token : string) (a : ConsoleAuth) : option ApiKey * ConsoleAuth :=
  match on_db (GetAPIKeyByHash (ac_hasher cfg (trim token))) a with
  | (Ok (_, record), a) => (if bool_decide (trim (k_AccountID record) = "") then None else Some record, a)
  | (Err _, a) => (None, a)
  end.

(** ** Trusted tokens (mcp_auth.go) *)
Record trustedTokenRecord := mkTokenRecord {
  tk_ID : string;
  tk_AccountID : string;
  tk_Name : string;
  tk_NameKey : string;
  tk_Token : string;
  tk_TokenHash : string;
  tk_TokenMasked : string;
  tk_Generated : bool;
  tk_CreatedAt : time;
  tk_UpdatedAt : time }.

Inductive trustedTokenInsertConflict :=
  | trustedTokenInsertConflictUnknown | trustedTokenInsertConflictName
  | trustedTokenInsertConflictTokenHash | trustedTokenInsertConflictTokenID.

Definition classifyTrustedTokenInsertConflict (accountID nameKey tokenHash tokenID : string) : M trustedTokenInsertConflict :=
  byName ← found (GetTrustedTokenByAccountAndNameKey accountID nameKey);
  if byName : bool then mret trustedTokenInsertConflictName else
  byHash ← found (GetTrustedTokenByHash tokenHash);
  if byHash : bool then mret trustedTokenInsertConflictTokenHash else
  byID ← found (GetTrustedTokenByID tokenID);
  if byID : bool then mret trustedTokenInsertConflictTokenID else
  mret trustedTokenInsertConflictUnknown.

Definition row_of_token (r : trustedTokenRecord) : TrustedToken :=
  mkTrustedToken (tk_AccountID r) (tk_Name r) (tk_NameKey r) (tk_TokenHash r) (tk_TokenMasked r)
    (tk_Generated r) (unix_milli (tk_CreatedAt r)) (unix_milli (tk_UpdatedAt r)).

(** [given] is the value of the request; [None] asks for a generated one. *)
Fixpoint create_token_loop (t : tries) (accountID name nameKey : string) (given : option string) (n i : nat)
    : M trustedTokenRecord :=
  let generated := negb (bool_decide (is_Some given)) in
  match n with
  | O => fail (Sentinel (if generated then errTrustedTokenGenerateFailed else errTrustedTokenValueConflict))
  | S n =>
      match (match given with
             | Some v => Some v
             | None => (fun v => generatedTokenPrefix +:+ v) <$> tr_value t i
             end) with
      | None => fail (Sentinel errTrustedTokenGenerateFailed)
      | Some tokenValue =>
          match tr_id t i with
          | None => fail (Sentinel errTrustedTokenIDGenerateFailed)
          | Some hex =>
              let now := tr_now t i in
              let record := mkTokenRecord (tokenIDPrefix +:+ hex) accountID name nameKey tokenValue
                              (ac_hasher cfg tokenValue) (maskToken tokenValue) generated now now in
              r ← catch (InsertTrustedToken (tk_ID record) (row_of_token record));
              match r with
              | Ok _ => mret record
              | Err err =>
                  if isSQLiteConstraintError err then
                    conflict ← classifyTrustedTokenInsertConflict accountID nameKey (tk_TokenHash record) (tk_ID record);
                    match conflict with
                    | trustedTokenInsertConflictName => fail (Sentinel errTrustedTokenNameConflict)
                    | trustedTokenInsertConflictTokenHash =>
                        if generated then create_token_loop t accountID name nameKey given n (S i)
                        else fail (Sentinel errTrustedTokenValueConflict)
                    | trustedTokenInsertConflictTokenID => create_token_loop t accountID name nameKey given n (S i)
                    | trustedTokenInsertConflictUnknown => fail err
                    end
                  else fail err
              end
          end
      end
  end.

Definition createToken (t : tries) (accountID name : string) (tokenInput : option string) : M trustedTokenRecord :=
  let normalizedAccountID := trim accountID in
  if bool_decide (normalizedAccountID = "") then fail (ErrorString "account_id is required") else
  match normalizeTokenName name with
  | Err e => fail e
  | Ok (normalizedName, nameKey) =>
      match tokenInput with
      | None => create_token_loop t normalizedAccountID normalizedName nameKey None 8 0
      | Some value =>
          match normalizeTokenValue value with
          | Err e => fail e
          | Ok v => create_token_loop t normalizedAccountID normalizedName nameKey (Some v) 8 0
          end
      end
  end.

Definition deleteToken (tokenID accountID : string) : M unit :=
  rows ← DeleteTrustedTokenByIDAndAccount tokenID (trim accountID);
  if rows =? 0 then fail (Sentinel errTrustedTokenNotFound) else mret tt.

Definition lookupTrustedToken (token : string) (a : ConsoleAuth) : option TrustedToken * ConsoleAuth :=
  match on_db (GetTrustedTokenByHash (ac_hasher cfg (trim token))) a with
  | (Ok (_, record), a) => (if bool_decide (trim (tt_AccountID record) = "") then None else Some record, a)
  | (Err _, a) => (None, a)
  end.

(** ** Just-in-time accounts (jit_auth.go) *)
Definition jit_account (username : string) (nowMS : Z) : Account :=
  mkAccount username (to_lower username) jitAccountPasswordHash jitAccountHashAlgo false nowMS nowMS.

Definition ensure_tx (accountID : string) (row : Account) : M Account :=
  r ← catch (GetAccountByID accountID);
  match r with
  | Ok existing => mret existing
  | Err getErr =>
      if negb (error_is getErr ErrNoRows) then fail getErr else
      r ← catch (InsertAccount accountID row);
      match r with
      | Ok _ => mret row
      | Err insertErr =>
          if negb (isSQLiteConstraintError insertErr) then fail insertErr else
          r ← catch (GetAccountByID accountID);
          match r with
          | Ok existing => mret existing
          | Err getErr => fail (if error_is getErr ErrNoRows then insertErr else getErr)
          end
      end
  end.

(** The account of an ident, created when there is none. *)
Definition ensureJITAccount (now : time) (ident : jitAccountIdentity) (a : ConsoleAuth)
    : option (string * Account) * ConsoleAuth :=
  let accountID := trim (ji_AccountID ident) in
  let username := trim (ji_Username ident) in
  if bool_decide (accountID = "") || bool_decide (username = "") then (None, a) else
  match on_db (GetAccountByID accountID) a with
  | (Ok account, a) => (Some (accountID, account), a)
  | (Err e, a) =>
      if negb (error_is e ErrNoRows) then (None, a) else
      match on_db (WithTx (ensure_tx accountID (jit_account username (unix_milli now)))) a with
      | (Ok account, a) => (Some (accountID, account), a)
      | (Err _, a) => (None, a)
      end
  end.

Definition verifyAndEnsureJITAccount (now : time) (token : string) (a : ConsoleAuth)
    : option jitAccountIdentity * ConsoleAuth :=
  match verify (ac_crypto cfg) (ac_jit cfg) now token with
  | None => (None, a)
  | Some ident =>
      match ensureJITAccount now ident a with
      | (None, a) => (None, a)
      | (Some (id, account), a) =>
          (Some (mkIdentity (ji_Issuer ident) (ji_Subject ident) (trim id) (trim (a_Username account))), a)
      end
  end.

(** ** The first administrator (InitializeAdminAccount) *)
Record AdminAccountInitResult := mkInitResult {
  ir_AccountID : string;
  ir_Username : string;
  ir_PasswordPlaintext : string;
  ir_InitializedNow : bool;
  ir_EnvIgnored : bool;
  ir_APIKeyInitialized : bool;
  ir_APIKeyName : string;
  ir_APIKeyPlaintext : string }.

Record init_env := mkInitEnv {
  ie_suffix : option string;
  ie_secret : option string;
  ie_salt : string;
  ie_ids : nat -> option string;
  ie_now : time;
  ie_key : tries }.

Definition ResolveDashboardCredentials (env : init_env) (username password : string) : res (string * string) :=
  match (if bool_decide (trim username = "") then (fun x => "admin-" +:+ x) <$> ie_suffix env
         else Some (trim username)) with
  | None => Err randomFailure
  | Some u =>
      match (if bool_decide (password = "") then ie_secret env else Some password) with
      | None => Err randomFailure
      | Some p => Ok (u, p)
      end
  end.

Definition init_tx (env : init_env) (username password initialAPIKey : string) : M AdminAccountInitResult :=
  created ← createAccountWithRetry (ie_salt env) (ie_ids env) (mkCreateAccount username password true (ie_now env));
  if bool_decide (initialAPIKey = "")
  then mret (mkInitResult (cd_AccountID created) (cd_Username created) password true false false "" "") else
  r ← catch (createAPIKey (ie_key env) (cd_AccountID created) initialAdminAPIKeyName initialAPIKey);
  match r with
  | Err e => fail (Wrapped "create initial admin api key: " e "")
  | Ok record => mret (mkInitResult (cd_AccountID created) (cd_Username created) password true false
                         true (kr_Name record) (kr_Key record))
  end.

Definition InitializeAdminAccount (env : init_env) (envUsername envPassword initialAPIKey : string)
    : M AdminAccountInitResult :=
  r ← catch CountAdminAccounts;
  match r with
  | Err e => fail (Wrapped "count admin accounts: " e "")
  | Ok adminCount =>
      if 0 <? adminCount then
        r ← catch GetFirstAdminAccount;
        match r with
        | Err e => fail (Wrapped "load admin account: " e "")
        | Ok (id, account) =>
            mret (mkInitResult (trim id) (trim (a_Username account)) "" false
              (negb (bool_decide (envUsername = "")) || negb (bool_decide (envPassword = ""))
               || negb (bool_decide (initialAPIKey = ""))) false "" "")
        end
      else
        match ResolveDashboardCredentials env envUsername envPassword with
        | Err e => fail e
        | Ok (username, password) =>
            r ← catch (WithTx (init_tx env username password initialAPIKey));
            match r with
            | Err e => fail (Wrapped "initialize admin account: " e "")
            | Ok result => mret result
            end
        end
  end.

(** ** Dashboard sessions (console_auth_session.go) *)
Definition createSession (id : option string) (now : time) (account : SessionAccount) (a : ConsoleAuth)
    : option (string * time) * ConsoleAuth :=
  match id with
  | None => (None, a)
  | Some sessionID =>
      let expiresAt := time_add now dashboardSessionTTL in
      (Some (sessionID, expiresAt), with_sessions <[sessionID := mkSessionState account expiresAt]> a)
  end.

Definition sessionState (now : time) (sessionID : string) (a : ConsoleAuth) : option accountSessionState * ConsoleAuth :=
  match au_sessions a !! sessionID with
  | None => (None, a)
  | Some state =>
      if negb (now <? ss_ExpiresAt state) then (None, with_sessions (delete sessionID) a)
      else (Some state, a)
  end.

Definition deleteSession (sessionID : string) (a : ConsoleAuth) : ConsoleAuth :=
  with_sessions (delete sessionID) a.

Definition deleteSessionsByAccountID (accountID : string) (a : ConsoleAuth) : ConsoleAuth :=
  let normalizedAccountID := trim accountID in
  if bool_decide (normalizedAccountID = "") then a
  else with_sessions (filter (fun kv => trim (sa_AccountID (ss_Account kv.2)) <> normalizedAccountID)) a.

Definition session_of (id : string) (account : Account) : SessionAccount :=
  mkSessionAccount (trim id) (trim (a_Username account)) (a_IsAdmin account).

Definition lookupAccount (username : string) (a : ConsoleAuth) : option (string * Account) * ConsoleAuth :=
  match normalizeAccountUsername username with
  | Err _ => (None, a)
  | Ok (_, usernameKey) =>
      match on_db (GetAccountByUsernameKey usernameKey) a with
      | (Ok (id, account), a) =>
          (if bool_decide (trim id = "") || bool_decide (trim (a_PasswordHash account) = "")
           then None else Some (id, account), a)
      | (Err _, a) => (None, a)
      end
  end.

Definition verifyPassword (account : Account) (password : string) : bool :=
  if bool_decide (trim password = "") then false else
  if negb (equal_fold (trim (a_HashAlgo account)) dashboardPasswordHashAlgo) then false else
  compareDashboardPassword (a_PasswordHash account) password.

End config.

End Accounts.
Export Accounts.
