(* ===== verification/Auth.v ===== *)
(** The handlers and the middleware of authentication
    (console/internal/httpapi: console_auth_handlers.go, mcp_auth.go,
    api_keys_auth.go, request_owner.go, the wiring of NewRouter in
    worker_handler.go). *)
From S2P Require Import Prelude.
From S2P Require Import Json.
From S2P Require Import Sql.
From S2P Require Import Service.
From S2P Require Import AuthText.
From S2P Require Import AuthSql.
From S2P Require Import Accounts.

Module Auth.

(** ** Requests and responses *)

(** What a handler reads of a request: headers, the session cookie if there is
    one, query and path parameters, the body. *)
Record request := mkRequest {
  rq_authorization : string;
  rq_cookie : option string;
  rq_query : string -> option string;
  rq_param : string -> string;
  rq_body : payload;
  rq_tls : bool;
  rq_forwardedProto : string }.

(** gin's [Query] and [DefaultQuery]. *)
Definition Query (r : request) (key : string) : string := default "" (rq_query r key).
Definition DefaultQuery (r : request) (key defaultValue : string) : string := default defaultValue (rq_query r key).

Definition requestIsTLS (r : request) : bool :=
  if rq_tls r then true else
  let forwardedProto := trim (rq_forwardedProto r) in
  if bool_decide (forwardedProto = "") then false
  else equal_fold (trim (cut "," forwardedProto).1) "https".

Record accountListItem := mkAccountItem {
  al_AccountID : string;
  al_Username : string;
  al_IsAdmin : bool;
  al_CreatedAt : time;
  al_UpdatedAt : time }.

(** An item of the lists of tokens and of API keys. *)
Record credentialItem := mkCredentialItem {
  ci_ID : string;
  ci_Name : string;
  ci_Masked : string;
  ci_CreatedAt : time;
  ci_UpdatedAt : time }.

Inductive body :=
  | BNone
  | BError (msg : string)
  | BSession (account : SessionAccount) (registrationEnabled : bool)
  | BRegistered (account : SessionAccount) (createdAt updatedAt : time)
  | BAccounts (items : list accountListItem) (total page pageSize : Z)
  | BCredentials (items : list credentialItem) (total : Z)
  | BToken (record : trustedTokenRecord) (generated : bool)
  | BKey (record : apiKeyRecord).

Inductive cookie :=
  | CookieKept
  | CookieSet (sessionID : string) (expiresAt : time) (secure : bool)
  | CookieCleared (secure : bool).

Record response := mkResponse {
  rs_status : Z;
  rs_body : body;
  rs_cookie : cookie }.

Definition json_response (status : Z) (b : body) : response := mkResponse status b CookieKept.
Definition error_response (status : Z) (msg : string) : response := json_response status (BError msg).
Definition sentinel_response (status : Z) (e : sentinel) : response := error_response status (sentinel_message e).
Definition setSessionCookie (r : request) (id : string) (expiresAt : time) (x : response) : response :=
  mkResponse (rs_status x) (rs_body x) (CookieSet id expiresAt (requestIsTLS r)).
Definition clearSessionCookie (r : request) (x : response) : response :=
  mkResponse (rs_status x) (rs_body x) (CookieCleared (requestIsTLS r)).

(** ** The request's account and owner

    gin's keys and the request's context receive the same values, so one field
    stands for both. *)
Inductive auth_method := requestAuthMethodCookie | requestAuthMethodAPIKey | requestAuthMethodDashboardJIT.

Record context := mkContext {
  cx_account : option SessionAccount;
  cx_method : option auth_method;
  cx_owner : option string }.
Definition no_context : context := mkContext None None None.

Definition setRequestSessionAccount (account : SessionAccount) (c : context) : context :=
  let accountID := trim (sa_AccountID account) in
  let username := trim (sa_Username account) in
  if bool_decide (accountID = "") || bool_decide (username = "") then c
  else mkContext (Some (mkSessionAccount accountID username (sa_IsAdmin account))) (cx_method c) (cx_owner c).

Definition requestSessionAccountFromGin (c : context) : option SessionAccount :=
  account ← cx_account c;
  let accountID := trim (sa_AccountID account) in
  let username := trim (sa_Username account) in
  if bool_decide (accountID = "") || bool_decide (username = "") then None
  else Some (mkSessionAccount accountID username (sa_IsAdmin account)).

Definition setRequestOwnerID (ownerID : string) (c : context) : context :=
  let trimmedOwnerID := trim ownerID in
  if bool_decide (trimmedOwnerID = "") then c
  else mkContext (cx_account c) (cx_method c) (Some trimmedOwnerID).

Definition requestOwnerIDFromGin (c : context) : string :=
  match cx_owner c with Some o => trim o | None => "" end.

(** A middleware lets the request on with a context, or answers it. *)
Inductive gate := Next (c : context) | Stop (r : response).

(** [requireSessionAccount], [requireRequestOwnerID]: the handler's own guard. *)
Definition requireSessionAccount {A} (c : context) (s : A) (k : SessionAccount -> response * A) : response * A :=
  match requestSessionAccountFromGin c with
  | Some account => k account
  | None => (error_response 401 "authentication required", s)
  end.

Definition requireRequestOwnerID {A} (c : context) (s : A) (k : string -> response * A) : response * A :=
  let ownerID := requestOwnerIDFromGin c in
  if bool_decide (ownerID = "") then (error_response 401 "invalid or missing token", s) else k ownerID.

(** ** Request bodies *)
Record credentials := mkCredentials { rq_Username : string; rq_Password : string }.

Definition credentials_field (name : string) : option (json -> credentials -> credentials * bool) :=
  if equal_fold name "username" then Some (fun v c =>
    let '(s, bad) := dec_string v (rq_Username c) in (mkCredentials s (rq_Password c), bad))
  else if equal_fold name "password" then Some (fun v c =>
    let '(s, bad) := dec_string v (rq_Password c) in (mkCredentials (rq_Username c) s, bad))
  else None.
Definition bind_credentials : payload -> option credentials :=
  unmarshal_struct credentials_field (mkCredentials "" "").

Record changePasswordRequest := mkChangePassword { cp_Current : string; cp_New : string }.
Definition change_field (name : string) : option (json -> changePasswordRequest -> changePasswordRequest * bool) :=
  if equal_fold name "current_password" then Some (fun v c =>
    let '(s, bad) := dec_string v (cp_Current c) in (mkChangePassword s (cp_New c), bad))
  else if equal_fold name "new_password" then Some (fun v c =>
    let '(s, bad) := dec_string v (cp_New c) in (mkChangePassword (cp_Current c) s, bad))
  else None.
Definition bind_change : payload -> option changePasswordRequest :=
  unmarshal_struct change_field (mkChangePassword "" "").

(** [*string]: [null] stores the nil pointer. *)
Definition dec_string_ptr (v : json) (old : option string) : option string * bool :=
  match v with
  | JNull => (None, false)
  | _ => let '(s, bad) := dec_string v (default "" old) in (Some s, bad)
  end.

Record createTrustedTokenRequest := mkCreateToken { ct_Name : string; ct_Token : option string }.
Definition create_token_field (name : string)
    : option (json -> createTrustedTokenRequest -> createTrustedTokenRequest * bool) :=
  if equal_fold name "name" then Some (fun v c =>
    let '(s, bad) := dec_string v (ct_Name c) in (mkCreateToken s (ct_Token c), bad))
  else if equal_fold name "token" then Some (fun v c =>
    let '(s, bad) := dec_string_ptr v (ct_Token c) in (mkCreateToken (ct_Name c) s, bad))
  else None.
Definition bind_create_token : payload -> option createTrustedTokenRequest :=
  unmarshal_struct create_token_field (mkCreateToken "" None).

Definition create_key_field (name : string) : option (json -> string -> string * bool) :=
  if equal_fold name "name" then Some dec_string else None.
Definition bind_create_key : payload -> option string := unmarshal_struct create_key_field "".

(** [parsePositiveIntQuery]. *)
Definition parsePositiveIntQuery (r : request) (key : string) (defaultValue : Z) : option Z :=
  let raw := Query r key in
  if bool_decide (raw = "") then Some defaultValue else
  match Atoi raw with
  | Ok value => if value <=? 0 then None else Some value
  | Err _ => None
  end.

Definition maxPageSize : Z := 100.

(** What the outside decides during a request: the clock, the random session
    id, the salt, the random values of a loop, and what other requests did to
    the state at the points where this one has left it ([others]). *)
Record auth_env := mkAuthEnv {
  ae_now : time;
  ae_sessionID : option string;
  ae_salt : string;
  ae_tries : tries;
  ae_others : nat -> ConsoleAuth -> ConsoleAuth }.

Section handlers.
Context (cfg : auth_config).

(** ** Middleware *)
Definition invalid_key : response := error_response 401 "invalid or missing api key".

Definition RequireAuth (env : auth_env) (r : request) (a : ConsoleAuth) : gate * ConsoleAuth :=
  match parseBearerToken (rq_authorization r) with
  | Some token =>
      if isJITToken token then (Stop invalid_key, a) else
      if isDashboardJITToken token then
        match ac_dashboardJIT cfg with
        | None => (Stop invalid_key, a)
        | Some verifier =>
            match verify (ac_crypto cfg) (Some verifier) (ae_now env) token with
            | None => (Stop invalid_key, a)
            | Some ident =>
                match ensureJITAccount (ae_now env) ident a with
                | (None, a) => (Stop invalid_key, a)
                | (Some (id, account), a) =>
                    let c := setRequestSessionAccount (mkSessionAccount (trim id) (trim (a_Username account)) false) no_context in
                    (Next (mkContext (cx_account c) (Some requestAuthMethodDashboardJIT) (cx_owner c)), a)
                end
            end
        end
      else
        match lookupAPIKey cfg token a with
        | (None, a) => (Stop invalid_key, a)
        | (Some record, a) =>
            match on_db (GetAccountByID (trim (k_AccountID record))) a with
            | (Err _, a) => (Stop invalid_key, a)
            | (Ok account, a) =>
                let c := setRequestSessionAccount (session_of (trim (k_AccountID record)) account) no_context in
                (Next (mkContext (cx_account c) (Some requestAuthMethodAPIKey) (cx_owner c)), a)
            end
        end
  | None =>
      match rq_cookie r with
      | None => (Stop (error_response 401 "authentication required"), a)
      | Some sessionID =>
          if bool_decide (trim sessionID = "") then (Stop (error_response 401 "authentication required"), a) else
          match sessionState (ae_now env) sessionID a with
          | (None, a) => (Stop (clearSessionCookie r (error_response 401 "authentication required")), a)
          | (Some state, a) =>
              let c := setRequestSessionAccount (ss_Account state) no_context in
              (Next (mkContext (cx_account c) (Some requestAuthMethodCookie) (cx_owner c)), a)
          end
      end
  end.

Definition RequireCookieSession (c : context) : gate :=
  match cx_method c with
  | Some requestAuthMethodCookie => Next c
  | Some requestAuthMethodAPIKey => Stop (error_response 403 "this endpoint requires cookie session authentication")
  | _ => Stop (error_response 401 "authentication required")
  end.

Definition RequireAdmin (c : context) : gate :=
  match requestSessionAccountFromGin c with
  | None => Stop (error_response 401 "authentication required")
  | Some account => if sa_IsAdmin account then Next c else Stop (error_response 403 "admin access required")
  end.

Definition tokenQueryParam : string :=
  if bool_decide (trim (ac_tokenQuery cfg) = "") then "token" else trim (ac_tokenQuery cfg).

Definition invalid_token : response := error_response 401 "invalid or missing token".

Definition presented_token (allowQueryFallback : bool) (r : request) : option string :=
  match parseBearerToken (rq_authorization r) with
  | Some token => Some token
  | None =>
      if negb allowQueryFallback then None else
      let token := trim (Query r tokenQueryParam) in
      if bool_decide (token = "") then None else Some token
  end.

Definition requireToken (allowQueryFallback : bool) (env : auth_env) (r : request) (a : ConsoleAuth)
    : gate * ConsoleAuth :=
  match presented_token allowQueryFallback r with
  | None => (Stop invalid_token, a)
  | Some token =>
      if isJITToken token then
        match verifyAndEnsureJITAccount cfg (ae_now env) token a with
        | (None, a) => (Stop invalid_token, a)
        | (Some ident, a) => (Next (setRequestOwnerID (ji_AccountID ident) no_context), a)
        end
      else
        match lookupTrustedToken cfg token a with
        | (None, a) => (Stop invalid_token, a)
        | (Some record, a) => (Next (setRequestOwnerID (trim (tt_AccountID record)) no_context), a)
        end
  end.

(** ** Handlers of ConsoleAuth *)
Definition Login (env : auth_env) (r : request) (a : ConsoleAuth) : response * ConsoleAuth :=
  match bind_credentials (rq_body r) with
  | None => (error_response 400 "invalid request body", a)
  | Some req =>
      match lookupAccount (rq_Username req) a with
      | (None, a) => (error_response 401 "invalid username or password", a)
      | (Some (id, account), a) =>
          if negb (verifyPassword cfg account (rq_Password req))
          then (error_response 401 "invalid username or password", a) else
          let sessionAccount := session_of id account in
          match createSession (ae_sessionID env) (ae_now env) sessionAccount (ae_others env 0%nat a) with
          | (None, a) => (error_response 500 "failed to create session", a)
          | (Some (sessionID, expiresAt), a) =>
              (setSessionCookie r sessionID expiresAt
                 (json_response 200 (BSession sessionAccount (ac_registrationEnabled cfg))), a)
          end
      end
  end.

Definition Session (c : context) (a : ConsoleAuth) : response * ConsoleAuth :=
  requireSessionAccount c a (fun account =>
    (json_response 200 (BSession account (ac_registrationEnabled cfg)), a)).

Definition register_error (err : error) : response :=
  if error_is err errAccountUsernameRequired then sentinel_response 400 errAccountUsernameRequired else
  if error_is err errAccountUsernameTooLong then sentinel_response 400 errAccountUsernameTooLong else
  if error_is err errAccountPasswordRequired then sentinel_response 400 errAccountPasswordRequired else
  if error_is err errAccountRegistrationConflict then sentinel_response 409 errAccountRegistrationConflict else
  error_response 500 "failed to create account".

Definition Register (env : auth_env) (c : context) (r : request) (a : ConsoleAuth) : response * ConsoleAuth :=
  if negb (ac_registrationEnabled cfg) then (sentinel_response 403 errAccountRegistrationDisabled, a) else
  requireSessionAccount c a (fun account =>
    if negb (sa_IsAdmin account) then (error_response 403 "admin access required", a) else
    match bind_credentials (rq_body r) with
    | None => (error_response 400 "invalid request body", a)
    | Some req =>
        match on_db (createAccountWithRetry cfg (ae_salt env) (tr_id (ae_tries env))
                 (mkCreateAccount (rq_Username req) (rq_Password req) false (ae_now env))) a with
        | (Err err, a) => (register_error err, a)
        | (Ok created, a) =>
            (json_response 201 (BRegistered
               (mkSessionAccount (cd_AccountID created) (cd_Username created) (cd_IsAdmin created))
               (cd_CreatedAt created) (cd_UpdatedAt created)), a)
        end
    end).

(** The account of the session is gone: its sessions end. *)
Definition account_gone (r : request) (accountID : string) (a : ConsoleAuth) : response * ConsoleAuth :=
  (clearSessionCookie r (error_response 401 "authentication required"), deleteSessionsByAccountID accountID a).

Definition ChangePassword (env : auth_env) (c : context) (r : request) (a : ConsoleAuth) : response * ConsoleAuth :=
  requireSessionAccount c a (fun sessionAccount =>
    match bind_change (rq_body r) with
    | None => (error_response 400 "invalid request body", a)
    | Some req =>
        let currentPassword := trim (cp_Current req) in
        if bool_decide (currentPassword = "") then (sentinel_response 400 errAccountCurrentPasswordRequired, a) else
        let newPassword := trim (cp_New req) in
        if bool_decide (newPassword = "") then (sentinel_response 400 errAccountNewPasswordRequired, a) else
        let id := trim (sa_AccountID sessionAccount) in
        match on_db (GetAccountByID id) a with
        | (Err e, a) =>
            if error_is e ErrNoRows then account_gone r (sa_AccountID sessionAccount) a
            else (error_response 500 "failed to update password", a)
        | (Ok accountRecord, a) =>
            if negb (verifyPassword cfg accountRecord currentPassword)
            then (sentinel_response 401 errAccountCurrentPasswordInvalid, a) else
            match hashDashboardPassword cfg (ae_salt env) newPassword with
            | Err _ => (error_response 500 "failed to update password", a)
            | Ok newPasswordHash =>
                match on_db (UpdateAccountPasswordByID newPasswordHash dashboardPasswordHashAlgo
                         (unix_milli (ae_now env)) id) (ae_others env 0%nat a) with
                | (Err _, a) => (error_response 500 "failed to update password", a)
                | (Ok updatedRows, a) =>
                    if updatedRows =? 0 then account_gone r (sa_AccountID sessionAccount) a else
                    let renewedAccount := session_of id accountRecord in
                    let a := deleteSessionsByAccountID (sa_AccountID renewedAccount) (ae_others env 1%nat a) in
                    match createSession (ae_sessionID env) (ae_now env) renewedAccount (ae_others env 2%nat a) with
                    | (None, a) => (error_response 500 "failed to refresh session", a)
                    | (Some (sessionID, expiresAt), a) =>
                        (setSessionCookie r sessionID expiresAt (json_response 204 BNone), a)
                    end
                end
            end
        end
    end).

Definition account_item (row : string * Account) : accountListItem :=
  mkAccountItem (trim row.1) (trim (a_Username row.2)) (a_IsAdmin row.2)
    (of_unix_milli (a_CreatedAtUnixMs row.2)) (of_unix_milli (a_UpdatedAtUnixMs row.2)).

(** [(page - 1) * pageSize] is an [int]. *)
Definition page_offset (page pageSize : Z) : Z := i64 ((page - 1) * pageSize).

Definition ListAccounts (r : request) (a : ConsoleAuth) : response * ConsoleAuth :=
  match parsePositiveIntQuery r "page" 1 with
  | None => (error_response 400 "page must be a positive integer", a)
  | Some page =>
      match parsePositiveIntQuery r "page_size" 20 with
      | None => (error_response 400 "page_size must be a positive integer", a)
      | Some pageSize =>
          let pageSize := Z.min pageSize maxPageSize in
          match on_db CountAccounts a with
          | (Err _, a) => (error_response 500 "failed to list accounts", a)
          | (Ok total, a) =>
              match on_db (ListAccountsPage pageSize (page_offset page pageSize)) a with
              | (Err _, a) => (error_response 500 "failed to list accounts", a)
              | (Ok records, a) =>
                  (json_response 200 (BAccounts (account_item <$> records) total page pageSize), a)
              end
          end
      end
  end.

Definition DeleteAccount (env : auth_env) (c : context) (r : request) (a : ConsoleAuth) : response * ConsoleAuth :=
  requireSessionAccount c a (fun currentAccount =>
    let targetAccountID := trim (rq_param r "account_id") in
    if bool_decide (targetAccountID = "") then (error_response 400 "account_id is required", a) else
    if bool_decide (targetAccountID = trim (sa_AccountID currentAccount))
    then (sentinel_response 403 errAccountDeleteSelfForbidden, a) else
    match on_db (DeleteNonAdminAccountByID targetAccountID) a with
    | (Err _, a) => (error_response 500 "failed to delete account", a)
    | (Ok deletedRows, a) =>
        if deletedRows =? 0 then
          match on_db (GetAccountByID targetAccountID) (ae_others env 0%nat a) with
          | (Err lookupErr, a) =>
              if error_is lookupErr ErrNoRows then (sentinel_response 404 errAccountNotFound, a)
              else (error_response 500 "failed to delete account", a)
          | (Ok record, a) =>
              if a_IsAdmin record then (sentinel_response 403 errAccountDeleteAdminForbidden, a)
              else (sentinel_response 404 errAccountNotFound, a)
          end
        else
          let a := revoke_owner targetAccountID (ae_others env 0%nat a) in
          (json_response 204 BNone, deleteSessionsByAccountID targetAccountID (ae_others env 1%nat a))
    end).

Definition Logout (r : request) (a : ConsoleAuth) : response * ConsoleAuth :=
  (clearSessionCookie r (json_response 204 BNone),
   match rq_cookie r with Some sessionID => deleteSession sessionID a | None => a end).

(** ** Handlers of tokens and API keys *)
Definition token_item (row : string * TrustedToken) : credentialItem :=
  mkCredentialItem row.1 (tt_Name row.2) (tt_TokenMasked row.2)
    (of_unix_milli (tt_CreatedAtUnixMs row.2)) (of_unix_milli (tt_UpdatedAtUnixMs row.2)).

Definition ListTokens (c : context) (a : ConsoleAuth) : response * ConsoleAuth :=
  requireSessionAccount c a (fun account =>
    match on_db (ListTrustedTokensByAccount (sa_AccountID account)) a with
    | (Err _, a) => (error_response 500 "failed to list tokens", a)
    | (Ok records, a) =>
        let items := token_item <$> records in
        (json_response 200 (BCredentials items (Z.of_nat (length items))), a)
    end).

Definition create_token_error (err : error) : response :=
  if existsb (error_is err) [errTrustedTokenNameRequired; errTrustedTokenNameTooLong; errTrustedTokenValueRequired;
       errTrustedTokenValueTooLong; errTrustedTokenValueWhitespace]
  then error_response 400 (error_message err) else
  if existsb (error_is err) [errTrustedTokenNameConflict; errTrustedTokenValueConflict]
  then error_response 409 (error_message err) else
  error_response 500 "failed to create token".

Definition CreateToken (env : auth_env) (c : context) (r : request) (a : ConsoleAuth) : response * ConsoleAuth :=
  requireSessionAccount c a (fun account =>
    match bind_create_token (rq_body r) with
    | None => (error_response 400 "invalid request body", a)
    | Some req =>
        match on_db (createToken cfg (ae_tries env) (sa_AccountID account) (ct_Name req) (ct_Token req)) a with
        | (Err err, a) => (create_token_error err, a)
        | (Ok record, a) => (json_response 201 (BToken record (tk_Generated record)), a)
        end
    end).

Definition DeleteToken (c : context) (r : request) (a : ConsoleAuth) : response * ConsoleAuth :=
  requireSessionAccount c a (fun account =>
    let tokenID := trim (rq_param r "token_id") in
    if bool_decide (tokenID = "") then (error_response 400 "token_id is required", a) else
    match on_db (deleteToken tokenID (sa_AccountID account)) a with
    | (Err err, a) =>
        (if error_is err errTrustedTokenNotFound then error_response 404 "token not found"
         else error_response 500 "failed to delete token", a)
    | (Ok _, a) => (json_response 204 BNone, a)
    end).

Definition GetTokenValue (r : request) (a : ConsoleAuth) : response * ConsoleAuth :=
  if bool_decide (trim (rq_param r "token_id") = "") then (error_response 400 "token_id is required", a)
  else (error_response 410 "token value is only returned at creation time; delete and recreate the token to obtain a new value", a).

Definition key_item (row : string * ApiKey) : credentialItem :=
  mkCredentialItem row.1 (k_Name row.2) (k_KeyMasked row.2)
    (of_unix_milli (k_CreatedAtUnixMs row.2)) (of_unix_milli (k_UpdatedAtUnixMs row.2)).

Definition ListAPIKeys (c : context) (a : ConsoleAuth) : response * ConsoleAuth :=
  requireSessionAccount c a (fun account =>
    match on_db (ListAPIKeysByAccount (sa_AccountID account)) a with
    | (Err _, a) => (error_response 500 "failed to list api keys", a)
    | (Ok records, a) =>
        let items := key_item <$> records in
        (json_response 200 (BCredentials items (Z.of_nat (length items))), a)
    end).

Definition create_key_error (err : error) : response :=
  if existsb (error_is err) [errAPIKeyNameRequired; errAPIKeyNameTooLong] then error_response 400 (error_message err) else
  if error_is err errAPIKeyNameConflict then error_response 409 (error_message err) else
  error_response 500 "failed to create api key".

Definition CreateAPIKey (env : auth_env) (c : context) (r : request) (a : ConsoleAuth) : response * ConsoleAuth :=
  requireSessionAccount c a (fun account =>
    match bind_create_key (rq_body r) with
    | None => (error_response 400 "invalid request body", a)
    | Some name =>
        match on_db (createAPIKey cfg (ae_tries env) (sa_AccountID account) name "") a with
        | (Err err, a) => (create_key_error err, a)
        | (Ok record, a) => (json_response 201 (BKey record), a)
        end
    end).

Definition DeleteAPIKey (c : context) (r : request) (a : ConsoleAuth) : response * ConsoleAuth :=
  requireSessionAccount c a (fun account =>
    let apiKeyID := trim (rq_param r "api_key_id") in
    if bool_decide (apiKeyID = "") then (error_response 400 "api_key_id is required", a) else
    match on_db (deleteAPIKey apiKeyID (sa_AccountID account)) a with
    | (Err err, a) =>
        (if error_is err errAPIKeyNotFound then error_response 404 "api key not found"
         else error_response 500 "failed to delete api key", a)
    | (Ok _, a) => (json_response 204 BNone, a)
    end).

(** ** The routes of NewRouter that authenticate, and what they run *)
Inductive endpoint :=
  | PostLogin | PostLogout | GetAuthSession
  | PostPassword | GetAPIKeys | PostAPIKey | DeleteAPIKeyByID
  | GetTokens | PostToken | DeleteTokenByID | GetTokenByIDValue
  | PostAccount | GetAccounts | DeleteAccountByPath.

Inductive access := Public | Authenticated | CookieOnly | AdminOnly.

Definition access_of (e : endpoint) : access :=
  match e with
  | PostLogin | PostLogout => Public
  | GetAuthSession | GetAPIKeys => Authenticated
  | PostPassword | PostAPIKey | DeleteAPIKeyByID | GetTokens | PostToken | DeleteTokenByID | GetTokenByIDValue => CookieOnly
  | PostAccount | GetAccounts | DeleteAccountByPath => AdminOnly
  end.

Definition handler (e : endpoint) (env : auth_env) (c : context) (r : request) (a : ConsoleAuth) : response * ConsoleAuth :=
  match e with
  | PostLogin => Login env r a
  | PostLogout => Logout r a
  | GetAuthSession => Session c a
  | PostPassword => ChangePassword env c r a
  | GetAPIKeys => ListAPIKeys c a
  | PostAPIKey => CreateAPIKey env c r a
  | DeleteAPIKeyByID => DeleteAPIKey c r a
  | GetTokens => ListTokens c a
  | PostToken => CreateToken env c r a
  | DeleteTokenByID => DeleteToken c r a
  | GetTokenByIDValue => GetTokenValue r a
  | PostAccount => Register env c r a
  | GetAccounts => ListAccounts r a
  | DeleteAccountByPath => DeleteAccount env c r a
  end.

(** The middleware of a route; [menv] is the environment of [RequireAuth]. *)
Definition middleware (acc : access) (menv : auth_env) (r : request) (a : ConsoleAuth) : gate * ConsoleAuth :=
  match acc with
  | Public => (Next no_context, a)
  | Authenticated => RequireAuth menv r a
  | CookieOnly =>
      match RequireAuth menv r a with
      | (Next c, a) => (RequireCookieSession c, a)
      | stop => stop
      end
  | AdminOnly =>
      match RequireAuth menv r a with
      | (Next c, a) => (RequireAdmin c, a)
      | stop => stop
      end
  end.

Definition serve (e : endpoint) (menv env : auth_env) (r : request) (a : ConsoleAuth) : response * ConsoleAuth :=
  match middleware (access_of e) menv r a with
  | (Stop x, a) => (x, a)
  | (Next c, a) => handler e env c r a
  end.

End handlers.

End Auth.
Export Auth.
