(* ===== verification/AuthProps.v ===== *)
(** Accounts, sessions and tokens: the invariant of the tables ([AuthInv]), what
    each middleware and handler does ([AuthProps]) and the operations step by
    step ([AuthOps]). *)
From S2P Require Import Prelude.
From S2P Require Import Json.
From S2P Require Import Sql.
From S2P Require Import Service.
From S2P Require Import AuthText.
From S2P Require Import AuthSql.
From S2P Require Import Accounts.
From S2P Require Import Auth.

Module AuthInv.

Definition good_name (u : string) : Prop := u <> "" /\ trim u = u.
Definition good_row (a : Account) : Prop :=
  good_name (a_Username a) /\ a_UsernameKey a = to_lower (a_Username a).

(** Account ids can be scoped, names are normal and unique, tokens and keys
    belong to accounts, and no two of them share a hash or a name. *)
Record auth_db_ok (d : DB) : Prop := {
  ad_account id a : accounts d !! id = Some a -> good_id id /\ good_row a;
  ad_username i j a b : accounts d !! i = Some a -> accounts d !! j = Some b ->
    a_UsernameKey a = a_UsernameKey b -> i = j;
  ad_token i t : trusted_tokens d !! i = Some t -> is_Some (accounts d !! tt_AccountID t);
  ad_token_hash i j t u : trusted_tokens d !! i = Some t -> trusted_tokens d !! j = Some u ->
    tt_TokenHash t = tt_TokenHash u -> i = j;
  ad_token_name i j t u : trusted_tokens d !! i = Some t -> trusted_tokens d !! j = Some u ->
    tt_AccountID t = tt_AccountID u -> tt_NameKey t = tt_NameKey u -> i = j;
  ad_key i k : api_keys d !! i = Some k -> is_Some (accounts d !! k_AccountID k);
  ad_key_hash i j k l : api_keys d !! i = Some k -> api_keys d !! j = Some l ->
    k_KeyHash k = k_KeyHash l -> i = j;
  ad_key_name i j k l : api_keys d !! i = Some k -> api_keys d !! j = Some l ->
    k_AccountID k = k_AccountID l -> k_NameKey k = k_NameKey l -> i = j }.

(** ** Queries *)
Lemma exists_row_false {V} (p : string -> V -> bool) m k v :
  exists_row p m = false -> m !! k = Some v -> p k v = false.
Proof.
  unfold exists_row. intros H Hk. destruct (p k v) eqn:E; [|done].
  pose proof (count_pos p m k v Hk E). by apply Z.ltb_ge in H; lia.
Qed.

Lemma first_row_Some {V} (p : string -> V -> bool) m k v :
  first_row p m = Some (k, v) -> m !! k = Some v /\ p k v = true.
Proof.
  unfold first_row. intros H. apply head_Some_elem_of, elem_of_map_to_list, lookup_select_Some in H. done.
Qed.

Lemma first_row_None {V} (p : string -> V -> bool) m k v :
  first_row p m = None -> m !! k = Some v -> p k v = false.
Proof.
  unfold first_row. intros H Hk. destruct (p k v) eqn:E; [|done].
  assert ((k, v) ∈ map_to_list (select p m)) as Hin by by apply elem_of_map_to_list, lookup_select_Some.
  destruct (map_to_list (select p m)); [by apply elem_of_nil in Hin|done].
Qed.

(** A row that the uniqueness constraint makes the only one is the one read. *)
Lemma first_row_unique {V} (p : string -> V -> bool) m k v :
  m !! k = Some v -> p k v = true -> (forall k' v', m !! k' = Some v' -> p k' v' = true -> k' = k) ->
  first_row p m = Some (k, v).
Proof.
  intros Hk Hp Hu. destruct (first_row p m) as [[k' v']|] eqn:E.
  - apply first_row_Some in E as [E1 E2]. rewrite (Hu k' v') in E1 |- * by done. congruence.
  - pose proof (first_row_None p m k v E Hk). congruence.
Qed.

(** What the statements promise of a predicate on the tables. *)
Class AuthInv (I : DB -> Prop) : Prop := {
  inv_insert_account id row : good_id id -> good_row row -> Preserves I (InsertAccount id row);
  inv_delete_account id : Preserves I (DeleteNonAdminAccountByID id);
  inv_password h alg ms id : Preserves I (UpdateAccountPasswordByID h alg ms id);
  inv_insert_token id row : Preserves I (InsertTrustedToken id row);
  inv_delete_token id account : Preserves I (DeleteTrustedTokenByIDAndAccount id account);
  inv_insert_key id row : Preserves I (InsertAPIKey id row);
  inv_delete_key id account : Preserves I (DeleteAPIKeyByIDAndAccount id account) }.
#[export] Existing Instances inv_delete_account inv_password inv_insert_token inv_delete_token inv_insert_key inv_delete_key.

(** The tables after an inserted row: a lookup finds the new row or an old one. *)
Ltac row_cases :=
  repeat match goal with
  | H : <[_ := _]> _ !! _ = Some _ |- _ => apply lookup_insert_Some in H as [[<- <-]|[? ?]]
  | H : keep _ _ !! _ = Some _ |- _ => apply lookup_keep_Some in H as [? ?]
  | H : delete _ _ !! _ = Some _ |- _ => apply lookup_delete_Some in H as [? ?]
  end.

Lemma insert_account_ok id row d : 
  auth_db_ok d -> good_id id -> good_row row -> accounts d !! id = None ->
  exists_row (has_username_key (a_UsernameKey row)) (accounts d) = false ->
  auth_db_ok (with_accounts <[id := row]> d).
Proof.
  intros H Hid Hrow Hn Hu.
  assert (forall k a, accounts d !! k = Some a -> a_UsernameKey a <> a_UsernameKey row) as Hne.
  { intros k a Hk E. pose proof (exists_row_false _ _ _ _ Hu Hk) as Hf. unfold has_username_key in Hf.
    by rewrite bool_decide_true in Hf. }
  assert (forall k, is_Some (accounts d !! k) -> is_Some (<[id:=row]> (accounts d) !! k)) as Hm.
  { intros k. destruct (decide (k = id)) as [->|]; [by rewrite lookup_insert_eq; eauto|by rewrite lookup_insert_ne]. }
  constructor; cbn.
  - intros k a Hk. row_cases; [done|by eapply ad_account].
  - intros i j a b Hi Hj E. row_cases; [done|by destruct (Hne _ _ H1)|by destruct (Hne _ _ H1)|by eapply ad_username].
  - intros i t Ht. by eapply Hm, ad_token.
  - apply (ad_token_hash _ H).
  - apply (ad_token_name _ H).
  - intros i k Hk. by eapply Hm, ad_key.
  - apply (ad_key_hash _ H).
  - apply (ad_key_name _ H).
Qed.

Lemma delete_account_ok p id d : auth_db_ok d -> auth_db_ok (delete_account p id d).2.
Proof.
  intros H. unfold delete_account. destruct (accounts d !! id) as [a|]; [|done]. destruct (p a); [|done]. cbn.
  assert (forall k, is_Some (accounts d !! k) -> bool_decide (k = id) = false -> is_Some (delete id (accounts d) !! k)) as Hm.
  { intros k Hk Hne%bool_decide_eq_false. by rewrite lookup_delete_ne. }
  constructor; cbn.
  - intros k b Hk. row_cases. by eapply ad_account.
  - intros i j b c Hi Hj E. row_cases. by eapply ad_username.
  - intros i t Ht. row_cases. apply Hm; [by eapply ad_token|done].
  - intros i j t u Ht Hu. row_cases. by eapply ad_token_hash.
  - intros i j t u Ht Hu. row_cases. by eapply ad_token_name.
  - intros i k Hk. row_cases. apply Hm; [by eapply ad_key|done].
  - intros i j k l Hk Hl. row_cases. by eapply ad_key_hash.
  - intros i j k l Hk Hl. row_cases. by eapply ad_key_name.
Qed.

Lemma password_ok h alg ms id a d :
  auth_db_ok d -> accounts d !! id = Some a -> auth_db_ok (with_accounts <[id := set_password h alg ms a]> d).
Proof.
  intros H Ha.
  assert (forall k, is_Some (accounts d !! k) -> is_Some (<[id:=set_password h alg ms a]> (accounts d) !! k)) as Hm.
  { intros k. destruct (decide (k = id)) as [->|]; [by rewrite lookup_insert_eq; eauto|by rewrite lookup_insert_ne]. }
  constructor; cbn.
  - intros k b Hk. row_cases; [exact (ad_account _ H _ _ Ha)|by eapply ad_account].
  - intros i j b c Hi Hj E. row_cases; cbn in E; first [done|by eapply (ad_username _ H)].
  - intros i t Ht. by eapply Hm, ad_token.
  - apply (ad_token_hash _ H).
  - apply (ad_token_name _ H).
  - intros i k Hk. by eapply Hm, ad_key.
  - apply (ad_key_hash _ H).
  - apply (ad_key_name _ H).
Qed.

Lemma insert_token_ok id row d :
  auth_db_ok d -> is_Some (accounts d !! tt_AccountID row) -> trusted_tokens d !! id = None ->
  exists_row (token_named (tt_AccountID row) (tt_NameKey row)) (trusted_tokens d) = false ->
  exists_row (token_hashed (tt_TokenHash row)) (trusted_tokens d) = false ->
  auth_db_ok (with_tokens <[id := row]> d).
Proof.
  intros H Hacc Hn Hname Hhash.
  assert (forall k t, trusted_tokens d !! k = Some t -> tt_TokenHash t <> tt_TokenHash row) as Hh.
  { intros k t Hk E. pose proof (exists_row_false _ _ _ _ Hhash Hk) as Hf. unfold token_hashed in Hf. by rewrite bool_decide_true in Hf. }
  assert (forall k t, trusted_tokens d !! k = Some t -> tt_AccountID t = tt_AccountID row -> tt_NameKey t <> tt_NameKey row) as Hk.
  { intros k t Hk E1 E2. pose proof (exists_row_false _ _ _ _ Hname Hk) as Hf. unfold token_named in Hf. by rewrite !bool_decide_true in Hf. }
  constructor; cbn.
  - apply (ad_account _ H).
  - apply (ad_username _ H).
  - intros i t Ht. row_cases; [done|by eapply ad_token].
  - intros i j t u Ht Hu E. row_cases; [done|by edestruct Hh|by edestruct Hh|by eapply ad_token_hash].
  - intros i j t u Ht Hu E1 E2. row_cases; [done|by edestruct Hk|by edestruct Hk|by eapply ad_token_name].
  - apply (ad_key _ H).
  - apply (ad_key_hash _ H).
  - apply (ad_key_name _ H).
Qed.

Lemma insert_key_ok id row d :
  auth_db_ok d -> is_Some (accounts d !! k_AccountID row) -> api_keys d !! id = None ->
  exists_row (key_named (k_AccountID row) (k_NameKey row)) (api_keys d) = false ->
  exists_row (key_hashed (k_KeyHash row)) (api_keys d) = false ->
  auth_db_ok (with_api_keys <[id := row]> d).
Proof.
  intros H Hacc Hn Hname Hhash.
  assert (forall i k, api_keys d !! i = Some k -> k_KeyHash k <> k_KeyHash row) as Hh.
  { intros i k Hi E. pose proof (exists_row_false _ _ _ _ Hhash Hi) as Hf. unfold key_hashed in Hf. by rewrite bool_decide_true in Hf. }
  assert (forall i k, api_keys d !! i = Some k -> k_AccountID k = k_AccountID row -> k_NameKey k <> k_NameKey row) as Hk.
  { intros i k Hi E1 E2. pose proof (exists_row_false _ _ _ _ Hname Hi) as Hf. unfold key_named in Hf. by rewrite !bool_decide_true in Hf. }
  constructor; cbn.
  - apply (ad_account _ H).
  - apply (ad_username _ H).
  - apply (ad_token _ H).
  - apply (ad_token_hash _ H).
  - apply (ad_token_name _ H).
  - intros i k Hi. row_cases; [done|by eapply ad_key].
  - intros i j k l Hi Hj E. row_cases; [done|by edestruct Hh|by edestruct Hh|by eapply ad_key_hash].
  - intros i j k l Hi Hj E1 E2. row_cases; [done|by edestruct Hk|by edestruct Hk|by eapply ad_key_name].
Qed.

Lemma keep_tokens_ok p d : auth_db_ok d -> auth_db_ok (with_tokens (keep p) d).
Proof.
  intros H. constructor; cbn; [apply (ad_account _ H)|apply (ad_username _ H)|intros i t Ht|intros i j t u Ht Hu|
    intros i j t u Ht Hu|apply (ad_key _ H)|apply (ad_key_hash _ H)|apply (ad_key_name _ H)]; row_cases;
    [by eapply ad_token|by eapply ad_token_hash|by eapply ad_token_name].
Qed.

Lemma keep_keys_ok p d : auth_db_ok d -> auth_db_ok (with_api_keys (keep p) d).
Proof.
  intros H. constructor; cbn; [apply (ad_account _ H)|apply (ad_username _ H)|apply (ad_token _ H)|apply (ad_token_hash _ H)|
    apply (ad_token_name _ H)|intros i k Hk|intros i j k l Hk Hl|intros i j k l Hk Hl]; row_cases;
    [by eapply ad_key|by eapply ad_key_hash|by eapply ad_key_name].
Qed.

(** The results of inserts that succeeded. *)
Lemma InsertAccount_ok id row c u c' :
  InsertAccount id row c = (Ok u, c') ->
  accounts (data c) !! id = None /\ exists_row (has_username_key (a_UsernameKey row)) (accounts (data c)) = false /\
  data c' = with_accounts <[id := row]> (data c).
Proof.
  intros H%stmt_ok. destruct (accounts _ !! id); [done|]. destruct (exists_row _ _) eqn:E; [done|]. by simplify_eq.
Qed.

Lemma insert_token_inv id row c u c' :
  InsertTrustedToken id row c = (Ok u, c') ->
  trusted_tokens (data c) !! id = None /\
  exists_row (token_named (tt_AccountID row) (tt_NameKey row)) (trusted_tokens (data c)) = false /\
  exists_row (token_hashed (tt_TokenHash row)) (trusted_tokens (data c)) = false /\
  is_Some (accounts (data c) !! tt_AccountID row) /\ data c' = with_tokens <[id := row]> (data c).
Proof.
  intros H%stmt_ok. destruct (trusted_tokens _ !! id); [done|]. destruct (exists_row (token_named _ _) _); [done|].
  destruct (exists_row (token_hashed _) _); [done|]. destruct (accounts _ !! _); [|done]. simplify_eq. eauto.
Qed.

Lemma insert_key_inv id row c u c' :
  InsertAPIKey id row c = (Ok u, c') ->
  api_keys (data c) !! id = None /\
  exists_row (key_named (k_AccountID row) (k_NameKey row)) (api_keys (data c)) = false /\
  exists_row (key_hashed (k_KeyHash row)) (api_keys (data c)) = false /\
  is_Some (accounts (data c) !! k_AccountID row) /\ data c' = with_api_keys <[id := row]> (data c).
Proof.
  intros H%stmt_ok. destruct (api_keys _ !! id); [done|]. destruct (exists_row (key_named _ _) _); [done|].
  destruct (exists_row (key_hashed _) _); [done|]. destruct (accounts _ !! _); [|done]. simplify_eq. eauto.
Qed.

(** A statement preserves a predicate when its successful runs do. *)
Lemma preserves_ok {A} (I : DB -> Prop) (f : DB -> res (A * DB)) :
  (forall c a c', I (data c) -> stmt f c = (Ok a, c') -> I (data c')) -> Preserves I (stmt f).
Proof.
  intros Hf c H. destruct (stmt f c) as [[a|e] c'] eqn:E; cbn; [by eapply Hf|by rewrite (stmt_err _ _ _ _ E)].
Qed.

#[export] Instance auth_db_ok_inv : AuthInv auth_db_ok.
Proof.
  split.
  - intros id row Hid Hrow. apply preserves_ok. intros c a c' H E.
    apply InsertAccount_ok in E as (Hn & Hu & ->). by apply insert_account_ok.
  - intros id. apply preserves_write. intros d. apply delete_account_ok.
  - intros h alg ms id. apply preserves_write. intros d H. destruct (accounts d !! id) eqn:E; [by apply password_ok|done].
  - intros id row. apply preserves_ok. intros c a c' H E.
    apply insert_token_inv in E as (? & ? & ? & ? & ->). by apply insert_token_ok.
  - intros id account. apply preserves_write. intros d H. by apply keep_tokens_ok.
  - intros id row. apply preserves_ok. intros c a c' H E.
    apply insert_key_inv in E as (? & ? & ? & ? & ->). by apply insert_key_ok.
  - intros id account. apply preserves_write. intros d H. by apply keep_keys_ok.
Qed.

(** The account [id] exists, is an administrator and has this name. *)
Definition admin_is (id name : string) (d : DB) : Prop :=
  exists a, accounts d !! id = Some a /\ a_IsAdmin a = true /\ a_Username a = name.

#[export] Instance admin_is_inv id name : AuthInv (admin_is id name).
Proof.
  split.
  - intros id' row _ _. apply preserves_ok. intros c u c' (a & Ha & H) E.
    apply InsertAccount_ok in E as (Hn & _ & ->). exists a. cbn. rewrite lookup_insert_ne; [done|congruence].
  - intros id'. apply preserves_write. intros d (a & Ha & Hadm & Hname). unfold delete_account.
    destruct (accounts d !! id') as [b|] eqn:E; [|by exists a]. destruct (a_IsAdmin b) eqn:Eb; [by exists a|]. cbn.
    exists a. cbn. rewrite lookup_delete_ne; [done|congruence].
  - intros h alg ms id'. apply preserves_write. intros d (a & Ha & Hadm & Hname).
    destruct (accounts d !! id') as [b|] eqn:E; [|by exists a]. cbn. unfold admin_is. cbn.
    destruct (decide (id' = id)) as [->|]; [rewrite lookup_insert_eq|rewrite lookup_insert_ne by done]; [|by exists a].
    simplify_eq. by eexists.
  - intros id' row. apply preserves_ok. intros c u c' H E. by apply insert_token_inv in E as (? & ? & ? & ? & ->).
  - intros id' account. apply preserves_write. by intros d H.
  - intros id' row. apply preserves_ok. intros c u c' H E. by apply insert_key_inv in E as (? & ? & ? & ? & ->).
  - intros id' account. apply preserves_write. by intros d H.
Qed.

(** ** Operations *)

(** Random values are hexadecimal text. *)
Definition hex_values (gen : nat -> option string) : Prop :=
  forall i h, gen i = Some h -> forall_char is_hex h = true.

Lemma generated_id_good hex : forall_char is_hex hex = true -> good_id (accountIDPrefix +:+ hex).
Proof. intros H. apply good_id_app; [done..|]. by eapply forall_char_mono, H; apply hex_id_char. Qed.

Ltac solve_preserves :=
  repeat first
    [ apply _
    | apply preserves_bind; [|intros ?]
    | apply preserves_catch
    | apply preserves_WithTx
    | match goal with |- Preserves _ (match ?x with _ => _ end) => destruct x eqn:? end ].

Section operations.
Context (I : DB -> Prop) `{!AuthInv I} (cfg : auth_config).

#[export] Instance preserves_found {A} (m : M A) : Preserves I m -> Preserves I (found m).
Proof. intros H. unfold found. solve_preserves. Qed.

#[export] Instance preserves_count_accounts : Preserves I CountAccounts.
Proof. apply preserves_read. Qed.
#[export] Instance preserves_count_admins : Preserves I CountAdminAccounts.
Proof. apply preserves_read. Qed.

Lemma create_account_loop_preserves gen row n i :
  hex_values gen -> good_row row -> Preserves I (create_account_loop gen row n i).
Proof.
  intros Hgen Hrow. revert i. induction n as [|n IH]; intros i; cbn; [apply _|].
  destruct (gen i) as [hex|] eqn:E; [|apply _].
  assert (good_id (accountIDPrefix +:+ hex)) as Hid by by eapply generated_id_good, Hgen.
  pose proof (inv_insert_account (accountIDPrefix +:+ hex) row Hid Hrow).
  unfold classifyAccountInsertConflict. solve_preserves.
Qed.

Lemma createAccount_preserves salt gen input :
  hex_values gen -> Preserves I (createAccountWithRetry cfg salt gen input).
Proof.
  intros Hgen. unfold createAccountWithRetry, normalizeAccountUsername.
  destruct (normalize_name _ _ _ _) as [[u k]|] eqn:E; [|apply _]. apply name_ok in E as (Hu & Ht & -> & _).
  solve_preserves. apply create_account_loop_preserves; [done|]. by repeat split.
Qed.

Lemma create_key_loop_preserves t acc name key over n i : Preserves I (create_key_loop cfg t acc name key over n i).
Proof.
  revert i. induction n as [|n IH]; intros i; cbn; [apply _|].
  unfold classifyAPIKeyInsertConflict. solve_preserves.
Qed.

#[export] Instance createAPIKey_preserves t acc name over : Preserves I (createAPIKey cfg t acc name over).
Proof. unfold createAPIKey. solve_preserves. apply create_key_loop_preserves. Qed.

Lemma create_token_loop_preserves t acc name key given n i :
  Preserves I (create_token_loop cfg t acc name key given n i).
Proof.
  revert i. induction n as [|n IH]; intros i; cbn; [apply _|].
  unfold classifyTrustedTokenInsertConflict. solve_preserves.
Qed.

#[export] Instance createToken_preserves t acc name input : Preserves I (createToken cfg t acc name input).
Proof. unfold createToken. solve_preserves; apply create_token_loop_preserves. Qed.

#[export] Instance deleteAPIKey_preserves id acc : Preserves I (deleteAPIKey id acc).
Proof. unfold deleteAPIKey. solve_preserves. Qed.
#[export] Instance deleteToken_preserves id acc : Preserves I (deleteToken id acc).
Proof. unfold deleteToken. solve_preserves. Qed.

Lemma ensure_tx_preserves id row : good_id id -> good_row row -> Preserves I (ensure_tx id row).
Proof.
  intros Hid Hrow. pose proof (inv_insert_account id row Hid Hrow). unfold ensure_tx. solve_preserves.
Qed.

Lemma init_preserves env u p k :
  hex_values (ie_ids env) -> Preserves I (InitializeAdminAccount cfg env u p k).
Proof. intros H. unfold InitializeAdminAccount, init_tx. solve_preserves; by apply createAccount_preserves. Qed.

End operations.

(** ** States *)
Definition adb (a : ConsoleAuth) : DB := data (au_conn a).

Definition good_session (sa : SessionAccount) : Prop := good_id (sa_AccountID sa) /\ good_name (sa_Username sa).

(** The tables are consistent, every session names an account that can exist,
    and a session with administrator's rights names an administrator. *)
Record console_ok (a : ConsoleAuth) : Prop := {
  co_db : auth_db_ok (adb a);
  co_session sid st : au_sessions a !! sid = Some st -> good_session (ss_Account st);
  co_admin sid st : au_sessions a !! sid = Some st -> sa_IsAdmin (ss_Account st) = true ->
    admin_is (sa_AccountID (ss_Account st)) (sa_Username (ss_Account st)) (adb a) }.

(** [a'] is a later state: consistent, and every invariant of the statements
    that held still holds. *)
Record evolves (a a' : ConsoleAuth) : Prop := {
  ev_ok : console_ok a';
  ev_inv I : AuthInv I -> I (adb a) -> I (adb a') }.

Lemma evolves_refl a : console_ok a -> evolves a a.
Proof. by split. Qed.

Lemma evolves_trans a b c : evolves a b -> evolves b c -> evolves a c.
Proof. intros [_ H1] [H2 H3]. split; [done|]. intros I HI H. by apply H3, H1. Qed.

(** The tables after a query. *)
Definition Lawful {A} (m : M A) : Prop := forall I, AuthInv I -> Preserves I m.

Lemma on_db_evolves {A} (m : M A) a r a' :
  Lawful m -> console_ok a -> on_db m a = (r, a') -> evolves a a' /\ m (au_conn a) = (r, au_conn a').
Proof.
  intros Hm Hok H. unfold on_db in H. destruct (m (au_conn a)) as [r' c] eqn:E. simplify_eq.
  assert (forall I, AuthInv I -> I (adb a) -> I (data c)) as Hinv.
  { intros I HI Ha. specialize (Hm I HI (au_conn a) Ha). by rewrite E in Hm. }
  split; [|done]. split; [|done]. destruct Hok as [Hdb Hs Ha]. split; cbn.
  - apply (Hinv auth_db_ok); [apply _|done].
  - done.
  - intros sid st Hst Hadm. apply (Hinv (admin_is _ _)); [apply _|by eapply Ha].
Qed.

Lemma lawful_read_one {A} (f : DB -> option A) : Lawful (read_one f).
Proof. intros I HI. apply _. Qed.
Lemma lawful_read {A} (f : DB -> A) : Lawful (read f).
Proof. intros I HI. apply _. Qed.

(** Sessions *)
Lemma sessions_evolve f a :
  console_ok a -> (forall sid st, f (au_sessions a) !! sid = Some st -> au_sessions a !! sid = Some st) ->
  evolves a (with_sessions f a).
Proof.
  intros [Hdb Hs Ha] Hf. split; [|done]. split; [done|..]; intros sid st Hst%Hf; [by eapply Hs|by eapply Ha].
Qed.

Lemma delete_session_evolves sid a : console_ok a -> evolves a (deleteSession sid a).
Proof. intros Hok. apply sessions_evolve; [done|]. intros sid' st. by intros [_ H]%lookup_delete_Some. Qed.

Lemma delete_sessions_evolves id a : console_ok a -> evolves a (deleteSessionsByAccountID id a).
Proof.
  intros Hok. unfold deleteSessionsByAccountID. destruct (bool_decide _); [by apply evolves_refl|].
  apply sessions_evolve; [done|]. by intros sid st [H _]%map_lookup_filter_Some.
Qed.

Lemma revoke_evolves id a : console_ok a -> evolves a (revoke_owner id a).
Proof. intros [H1 H2 H3]. by split. Qed.

Lemma session_state_evolves now sid a st a' :
  console_ok a -> sessionState now sid a = (st, a') -> evolves a a' /\ au_conn a' = au_conn a /\
  match st with Some st => au_sessions a !! sid = Some st /\ now < ss_ExpiresAt st | None => True end.
Proof.
  intros Hok H. unfold sessionState in H. destruct (au_sessions a !! sid) as [s|] eqn:E; simplify_eq; [|by split_and!; [apply evolves_refl|..]].
  destruct (Z.ltb_spec now (ss_ExpiresAt s)); cbn in H; simplify_eq; [by split_and!; [apply evolves_refl|..]|].
  split_and!; [by apply delete_session_evolves|done|done].
Qed.

Lemma create_session_evolves sid now sa a r a' :
  console_ok a -> good_session sa ->
  (sa_IsAdmin sa = true -> admin_is (sa_AccountID sa) (sa_Username sa) (adb a)) ->
  createSession sid now sa a = (r, a') -> evolves a a'.
Proof.
  intros [Hdb Hs Ha] Hsa Hadm H. unfold createSession in H. destruct sid as [sid|]; simplify_eq; [|by apply evolves_refl].
  split; [|done]. split; [done|..]; cbn; intros sid' st [[<- <-]|[_ H]]%lookup_insert_Some; try done; [by eapply Hs|by eapply Ha].
Qed.

(** The session of an account found in the tables. *)
Lemma session_of_good id acc d :
  auth_db_ok d -> accounts d !! id = Some acc ->
  session_of id acc = mkSessionAccount id (a_Username acc) (a_IsAdmin acc) /\ good_session (session_of id acc).
Proof.
  intros H Ha. destruct (ad_account _ H _ _ Ha) as [Hid [[Hn Ht] _]]. unfold session_of.
  rewrite (good_id_trim _ Hid), Ht. done.
Qed.

Lemma admin_of id acc d : accounts d !! id = Some acc -> a_IsAdmin acc = true -> admin_is id (a_Username acc) d.
Proof. intros H1 H2. by exists acc. Qed.

(** ** Reading *)
Lemma on_db_read_one {A} (f : DB -> option A) a r a' :
  on_db (read_one f) a = (r, a') ->
  adb a' = adb a /\ au_sessions a' = au_sessions a /\ au_revoked a' = au_revoked a /\
  match r with
  | Ok x => f (adb a) = Some x
  | Err e => error_is e ErrNoRows = true -> f (adb a) = None
  end.
Proof.
  unfold on_db. destruct (read_one f (au_conn a)) as [r' c] eqn:E. intros H. simplify_eq. cbn.
  destruct (read_one_cases f (au_conn a)) as [Hd Hr]. rewrite E in Hd, Hr. cbn in Hd, Hr.
  split_and!; [done..|]. destruct Hr as [[msg ->]|[[Hf ->]|(x & Hf & ->)]]; cbn; auto; done.
Qed.

Lemma read_evolves {A} (f : DB -> option A) a r a' :
  console_ok a -> on_db (read_one f) a = (r, a') -> evolves a a'.
Proof. intros Hok H. by eapply on_db_evolves in H as [H _]; [|apply lawful_read_one|]. Qed.

(** ** Just-in-time accounts *)
Lemma verify_derives cr v now token i :
  verify cr v now token = Some i -> exists claims, deriveJITAccountIdentity cr claims = Some i.
Proof.
  unfold verify. destruct v as [v|]; [|done]. cbn [mbind option_bind].
  destruct (bool_decide _); [done|]. destruct (negb _); [done|].
  destruct (split_n _ _ _) as [|p0 [|p1 [|]]]; try done. destruct (bool_decide _ || _); [done|].
  destruct (raw_url_decode (trim p1)) as [sig|]; [|done]. cbn [mbind option_bind]. destruct (negb _); [done|].
  destruct (raw_url_decode (trim p0)) as [js|]; [|done]. cbn [mbind option_bind].
  destruct (unmarshal_claims _) as [claims|]; [|done]. cbn [mbind option_bind]. destruct (negb _); [done|]. eauto.
Qed.

Lemma ensure_tx_ok id row c acc c' :
  ensure_tx id row c = (Ok acc, c') -> accounts (data c') !! id = Some acc.
Proof.
  intros H. unfold ensure_tx in H. apply bind_ok in H as (r & c1 & H1%catch_data & H).
  destruct (read_one_cases (fun d => accounts d !! id) c) as [Hd Hr]. unfold GetAccountByID in H1.
  rewrite H1 in Hd, Hr. cbn in Hd, Hr. destruct r as [x|e].
  { unfold mret, M_ret in H. simplify_eq. destruct Hr as [[? ?]|[[_ ?]|(y & Hy & ?)]]; simplify_eq. by rewrite Hd. }
  destruct (negb (error_is e ErrNoRows)); [done|]. apply bind_ok in H as (r & c2 & H2%catch_data & H).
  destruct r as [u|e2].
  { unfold mret, M_ret in H. simplify_eq. apply InsertAccount_ok in H2 as (_ & _ & ->). cbn. apply lookup_insert_eq. }
  destruct (negb (isSQLiteConstraintError e2)); [done|]. apply bind_ok in H as (r & c3 & H3%catch_data & H).
  destruct r as [x|e3]; [|done]. unfold mret, M_ret in H. simplify_eq.
  destruct (read_one_cases (fun d => accounts d !! id) c2) as [Hd2 Hr2]. unfold GetAccountByID in H3.
  rewrite H3 in Hd2, Hr2. cbn in Hd2, Hr2. destruct Hr2 as [[? ?]|[[_ ?]|(y & Hy & ?)]]; simplify_eq. by rewrite Hd2.
Qed.

Lemma ensureJIT_evolves now i a r a' :
  console_ok a -> good_id (ji_AccountID i) -> good_id (ji_Username i) ->
  ensureJITAccount now i a = (r, a') ->
  evolves a a' /\ au_sessions a' = au_sessions a /\
  match r with
  | Some (id, acc) => id = ji_AccountID i /\ accounts (adb a') !! id = Some acc
  | None => True
  end.
Proof.
  intros Hok Hid Hu H. unfold ensureJITAccount in H. rewrite (good_id_trim _ Hid), (good_id_trim _ Hu) in H.
  destruct (bool_decide _ || _); [simplify_eq; by split_and!; [apply evolves_refl|..]|].
  destruct (on_db (GetAccountByID _) a) as [r1 a1] eqn:E1.
  pose proof (read_evolves _ _ _ _ Hok E1) as Hev. apply on_db_read_one in E1 as (Hd & Hs & _ & Hr).
  destruct r1 as [acc|e]; simplify_eq; [by split_and!; rewrite ?Hd|].
  destruct (negb (error_is e ErrNoRows)); simplify_eq; [by split_and!|].
  set (row := jit_account _ _) in H. destruct (on_db (WithTx _) a1) as [r2 a2] eqn:E2.
  assert (good_row row) as Hrow by (repeat split; [by destruct Hu|by apply good_id_trim]).
  pose proof E2 as E3. apply on_db_evolves in E2 as [Hev2 E2]; [|intros I HI; pose proof (ensure_tx_preserves I _ row Hid Hrow); apply _|apply Hev].
  assert (au_sessions a2 = au_sessions a1) as Hs2 by (unfold on_db in E3; destruct (WithTx _ _); by simplify_eq).
  destruct r2 as [acc|e2]; simplify_eq; (split; [by eapply evolves_trans|]; split; [congruence|]); [|done].
  split; [done|]. apply WithTx_ok in E2 as (c1 & c2 & _ & E2 & Hd2). unfold adb. rewrite Hd2. by eapply ensure_tx_ok.
Qed.

End AuthInv.
Export AuthInv.

Module AuthProps.

(** The digests are hexadecimal; what other requests do in between are steps
    of the same kind, and random values are hexadecimal. *)
Record auth_env_ok (env : auth_env) : Prop := {
  eo_ids : hex_values (tr_id (ae_tries env));
  eo_others n a : console_ok a -> evolves a (ae_others env n a) }.

Section requests.
Context (cfg : auth_config) (Hcr : crypto_ok (ac_crypto cfg)).

Lemma verified_good v now token i :
  verify (ac_crypto cfg) v now token = Some i -> good_id (ji_AccountID i) /\ good_id (ji_Username i).
Proof. intros [claims H]%verify_derives. by apply jit_identity_ok in H as (? & ? & _). Qed.

(** The three ways to reach a dashboard route, and the account the request
    then runs as. *)
Inductive authenticated (env : auth_env) (r : request) (a a' : ConsoleAuth) : context -> Prop :=
  | by_cookie sid st :
      parseBearerToken (rq_authorization r) = None -> rq_cookie r = Some sid ->
      au_sessions a !! sid = Some st -> ae_now env < ss_ExpiresAt st ->
      authenticated env r a a' (mkContext (Some (ss_Account st)) (Some requestAuthMethodCookie) None)
  | by_api_key token i k acc :
      parseBearerToken (rq_authorization r) = Some token -> isJITToken token = false -> isDashboardJITToken token = false ->
      api_keys (adb a) !! i = Some k -> k_KeyHash k = ac_hasher cfg (trim token) ->
      accounts (adb a) !! k_AccountID k = Some acc ->
      authenticated env r a a'
        (mkContext (Some (mkSessionAccount (k_AccountID k) (a_Username acc) (a_IsAdmin acc))) (Some requestAuthMethodAPIKey) None)
  | by_dashboard_jit token v i acc :
      parseBearerToken (rq_authorization r) = Some token -> isJITToken token = false -> isDashboardJITToken token = true ->
      ac_dashboardJIT cfg = Some v -> verify (ac_crypto cfg) (Some v) (ae_now env) token = Some i ->
      accounts (adb a') !! ji_AccountID i = Some acc ->
      authenticated env r a a'
        (mkContext (Some (mkSessionAccount (ji_AccountID i) (a_Username acc) false)) (Some requestAuthMethodDashboardJIT) None).

Lemma set_account sa : good_session sa -> setRequestSessionAccount sa no_context = mkContext (Some sa) None None.
Proof.
  destruct sa as [id u adm]. intros [Hid [Hu Ht]]. unfold setRequestSessionAccount. cbn in *.
  rewrite (good_id_trim _ Hid), Ht. destruct Hid as [Hid _]. by rewrite !bool_decide_false.
Qed.

Lemma row_session_good id acc adm d :
  auth_db_ok d -> accounts d !! id = Some acc -> 
  mkSessionAccount (trim id) (trim (a_Username acc)) adm = mkSessionAccount id (a_Username acc) adm /\
  good_session (mkSessionAccount id (a_Username acc) adm).
Proof.
  intros H Ha. destruct (ad_account _ H _ _ Ha) as [Hid [[Hn Ht] _]]. by rewrite (good_id_trim _ Hid), Ht.
Qed.

Lemma lookup_key_evolves token a r a' :
  console_ok a -> lookupAPIKey cfg token a = (r, a') ->
  evolves a a' /\ adb a' = adb a /\
  match r with
  | Some k => exists i, api_keys (adb a) !! i = Some k /\ k_KeyHash k = ac_hasher cfg (trim token)
  | None => True
  end.
Proof.
  intros Hok H. unfold lookupAPIKey in H. destruct (on_db _ a) as [r1 a1] eqn:E.
  pose proof (read_evolves _ _ _ _ Hok E) as Hev. apply on_db_read_one in E as (Hd & _ & _ & Hr).
  destruct r1 as [[i k]|]; simplify_eq; [|done]. split_and!; [done..|].
  destruct (bool_decide _); [done|]. apply first_row_Some in Hr as [Hk Hh%bool_decide_eq_true]. eauto.
Qed.

Lemma RequireAuth_spec env r a g a' :
  console_ok a -> RequireAuth cfg env r a = (g, a') ->
  evolves a a' /\ match g with Next c => authenticated env r a a' c | Stop _ => True end.
Proof.
  intros Hok H. unfold RequireAuth in H. destruct (parseBearerToken _) as [token|] eqn:Ep.
  - destruct (isJITToken token) eqn:Ej; [simplify_eq; by split; [apply evolves_refl|]|].
    destruct (isDashboardJITToken token) eqn:Ed.
    + destruct (ac_dashboardJIT cfg) as [v|] eqn:Ev; [|simplify_eq; by split; [apply evolves_refl|]].
      destruct (verify _ _ _ _) as [i|] eqn:Ei; [|simplify_eq; by split; [apply evolves_refl|]].
      destruct (verified_good _ _ _ _ Ei) as [Hid Hu]. destruct (ensureJITAccount _ _ _) as [r1 a1] eqn:E1.
      apply ensureJIT_evolves in E1 as (Hev & _ & Hr); [|done..].
      destruct r1 as [[id acc]|]; simplify_eq; (split; [done|]); [|done]. destruct Hr as [-> Hacc].
      destruct (row_session_good _ _ false _ (co_db _ (ev_ok _ _ Hev)) Hacc) as [-> Hg]. rewrite set_account by done.
      by eapply by_dashboard_jit.
    + destruct (lookupAPIKey _ _ _) as [r1 a1] eqn:E1. apply lookup_key_evolves in E1 as (Hev & Hd & Hr); [|done].
      destruct r1 as [k|]; [|by simplify_eq]. destruct Hr as (i & Hk & Hh).
      destruct (ad_key _ (co_db _ Hok) _ _ Hk) as [acc0 Hacc0].
      destruct (ad_account _ (co_db _ Hok) _ _ Hacc0) as [Hid _]. rewrite (good_id_trim _ Hid) in H.
      destruct (on_db _ a1) as [r2 a2] eqn:E2. pose proof (read_evolves _ _ _ _ (ev_ok _ _ Hev) E2) as Hev2.
      apply on_db_read_one in E2 as (Hd2 & _ & _ & Hr2). destruct r2 as [acc|]; simplify_eq; (split; [by eapply evolves_trans|]); [|done].
      rewrite Hd in Hr2. destruct (session_of_good _ _ _ (co_db _ Hok) Hr2) as [Es Hg]. rewrite set_account, Es by done.
      by eapply by_api_key.
  - destruct (rq_cookie r) as [sid|] eqn:Ec; [|simplify_eq; by split; [apply evolves_refl|]].
    destruct (bool_decide _); [simplify_eq; by split; [apply evolves_refl|]|].
    destruct (sessionState _ _ _) as [st a1] eqn:Es. apply session_state_evolves in Es as (Hev & _ & Hst); [|done].
    destruct st as [st|]; simplify_eq; (split; [done|]); [|done]. destruct Hst as [Hst Hnow].
    rewrite set_account by (by eapply co_session). by eapply by_cookie.
Qed.

Lemma get_account c sa : cx_account c = Some sa -> good_session sa -> requestSessionAccountFromGin c = Some sa.
Proof.
  destruct sa as [id u adm]. intros Hc [Hid [Hu Ht]]. unfold requestSessionAccountFromGin. rewrite Hc. cbn in *.
  rewrite (good_id_trim _ Hid), Ht. destruct Hid as [Hid _]. by rewrite !bool_decide_false.
Qed.

Lemma authenticated_account env r a a' c :
  console_ok a -> evolves a a' -> authenticated env r a a' c ->
  exists sa, cx_account c = Some sa /\ requestSessionAccountFromGin c = Some sa /\ good_session sa /\
    (sa_IsAdmin sa = true -> admin_is (sa_AccountID sa) (sa_Username sa) (adb a')).
Proof.
  intros Hok Hev H. assert (exists sa, cx_account c = Some sa /\ good_session sa /\
    (sa_IsAdmin sa = true -> admin_is (sa_AccountID sa) (sa_Username sa) (adb a'))) as (sa & H1 & H2 & H3).
  { destruct H as [sid st _ _ Hst _|token i k acc _ _ _ _ _ Hacc|token v i acc _ _ _ _ _ Hacc]; eexists; (split; [done|]).
    - split; [by eapply co_session|]. intros Hadm. eapply (ev_inv _ _ Hev); [apply _|by eapply co_admin].
    - destruct (row_session_good _ _ (a_IsAdmin acc) _ (co_db _ Hok) Hacc) as [_ Hg]. split; [done|]. cbn. intros Hadm.
      eapply (ev_inv _ _ Hev); [apply _|by eapply admin_of].
    - by destruct (row_session_good _ _ false _ (co_db _ (ev_ok _ _ Hev)) Hacc). }
  exists sa. split_and!; [done|by apply get_account|done|done].
Qed.

(** ** Handlers *)
Lemma lookup_account_evolves username a r a' :
  console_ok a -> lookupAccount username a = (r, a') ->
  evolves a a' /\ match r with Some (id, acc) => accounts (adb a') !! id = Some acc | None => True end.
Proof.
  intros Hok H. unfold lookupAccount in H. destruct (normalizeAccountUsername _) as [[u k]|]; [|simplify_eq; by split; [apply evolves_refl|]].
  destruct (on_db _ a) as [r1 a1] eqn:E. pose proof (read_evolves _ _ _ _ Hok E) as Hev.
  apply on_db_read_one in E as (Hd & _ & _ & Hr). destruct r1 as [[id acc]|]; simplify_eq; [|done]. split; [done|].
  apply first_row_Some in Hr as [Hr _]. destruct (bool_decide _ || _); [done|]. by rewrite Hd.
Qed.

Lemma new_session_evolves sid now id acc a b r a' :
  console_ok a -> accounts (adb a) !! id = Some acc -> evolves a b ->
  createSession sid now (session_of id acc) b = (r, a') -> evolves a a'.
Proof.
  intros Hok Hacc Hev H. destruct (session_of_good _ _ _ (co_db _ Hok) Hacc) as [Es Hg]. eapply evolves_trans; [done|].
  eapply create_session_evolves; [apply Hev|done| |done]. rewrite Es. cbn. intros Hadm.
  eapply (ev_inv _ _ Hev); [apply _|by eapply admin_of].
Qed.

Lemma Login_evolves env r a : console_ok a -> auth_env_ok env -> evolves a (Login cfg env r a).2.
Proof.
  intros Hok Henv. unfold Login. destruct (bind_credentials _) as [req|]; [|by apply evolves_refl].
  destruct (lookupAccount _ _) as [r1 a1] eqn:E. apply lookup_account_evolves in E as [Hev Hr]; [|done].
  destruct r1 as [[id acc]|]; [|done]. destruct (negb _); [done|].
  destruct (createSession _ _ _ _) as [r2 a2] eqn:E2.
  assert (evolves a a2) as H2; [|by destruct r2 as [[]|]].
  eapply evolves_trans; [done|]. eapply new_session_evolves; [apply Hev|done|apply Henv, Hev|done].
Qed.

Lemma with_session_evolves {A} c a (k : SessionAccount -> A * ConsoleAuth) (none : A) :
  console_ok a -> (forall sa, evolves a (k sa).2) ->
  evolves a (match requestSessionAccountFromGin c with Some sa => k sa | None => (none, a) end).2.
Proof. intros Hok Hk. destruct (requestSessionAccountFromGin c); [done|by apply evolves_refl]. Qed.

Lemma Register_evolves env c r a : console_ok a -> auth_env_ok env -> evolves a (Register cfg env c r a).2.
Proof.
  intros Hok Henv. unfold Register. destruct (negb _); [by apply evolves_refl|]. apply with_session_evolves; [done|].
  intros sa. destruct (negb _); [by apply evolves_refl|]. destruct (bind_credentials _) as [req|]; [|by apply evolves_refl].
  destruct (on_db _ a) as [r1 a1] eqn:E. apply on_db_evolves in E as [Hev _];
    [by destruct r1|intros I HI; apply createAccount_preserves; [done|apply Henv]|done].
Qed.

Lemma ChangePassword_evolves env c r a : console_ok a -> auth_env_ok env -> evolves a (ChangePassword cfg env c r a).2.
Proof.
  intros Hok Henv. unfold ChangePassword. apply with_session_evolves; [done|]. intros sa.
  destruct (bind_change _) as [req|]; [|by apply evolves_refl].
  destruct (bool_decide _); [by apply evolves_refl|]. destruct (bool_decide _); [by apply evolves_refl|].
  set (id := trim _). destruct (on_db (GetAccountByID id) a) as [r1 a1] eqn:E1.
  pose proof (read_evolves _ _ _ _ Hok E1) as Hev1. apply on_db_read_one in E1 as (Hd & _ & _ & Hr).
  assert (forall b x, evolves a b -> evolves a (deleteSessionsByAccountID x b)) as Hgone.
  { intros b x Hb. eapply evolves_trans; [done|]. apply delete_sessions_evolves, Hb. }
  destruct r1 as [acc|e]; [|by destruct (error_is _ _); [apply Hgone|]].
  destruct (negb _); [done|]. destruct (hashDashboardPassword _ _ _) as [h|]; [|done].
  assert (evolves a (ae_others env 0%nat a1)) as Hev2 by (eapply evolves_trans; [done|apply Henv, Hev1]).
  destruct (on_db (UpdateAccountPasswordByID _ _ _ _) _) as [r2 a2] eqn:E2.
  apply on_db_evolves in E2 as [Hev3 _]; [|intros I HI; apply _|apply Hev2].
  assert (evolves a a2) as Hev4 by by eapply evolves_trans. destruct r2 as [n|]; [|done].
  destruct (n =? 0); [by apply Hgone|].
  assert (evolves a (ae_others env 1%nat a2)) as Hev5 by (eapply evolves_trans; [done|apply Henv, Hev4]).
  set (a3 := deleteSessionsByAccountID _ _). assert (evolves a a3) as Hev6 by by apply Hgone.
  destruct (createSession _ _ _ _) as [r4 a4] eqn:E4.
  assert (evolves a a4) as H4; [|by destruct r4 as [[]|]].
  eapply new_session_evolves; [done|exact Hr|eapply evolves_trans; [exact Hev6|apply Henv, Hev6]|done].
Qed.

Lemma DeleteAccount_evolves env c r a : console_ok a -> auth_env_ok env -> evolves a (DeleteAccount env c r a).2.
Proof.
  intros Hok Henv. unfold DeleteAccount. apply with_session_evolves; [done|]. intros sa.
  destruct (bool_decide _); [by apply evolves_refl|]. destruct (bool_decide _); [by apply evolves_refl|].
  destruct (on_db (DeleteNonAdminAccountByID _) a) as [r1 a1] eqn:E1.
  apply on_db_evolves in E1 as [Hev1 _]; [|intros I HI; apply _|done]. destruct r1 as [n|]; [|done].
  assert (evolves a (ae_others env 0%nat a1)) as Hev2 by (eapply evolves_trans; [done|apply Henv, Hev1]).
  destruct (n =? 0).
  - destruct (on_db (GetAccountByID _) _) as [r2 a2] eqn:E2. pose proof (read_evolves _ _ _ _ (ev_ok _ _ Hev2) E2) as Hev3.
    assert (evolves a a2) by by eapply evolves_trans. destruct r2 as [x|]; [by destruct (a_IsAdmin x)|by destruct (error_is _ _)].
  - cbn. set (b := revoke_owner _ _). assert (evolves a b) as Hb by (eapply evolves_trans; [done|apply revoke_evolves, Hev2]).
    assert (evolves a (ae_others env 1%nat b)) as Hb' by (eapply evolves_trans; [done|apply Henv, Hb]).
    eapply evolves_trans; [done|]. apply delete_sessions_evolves, Hb'.
Qed.

Lemma ListAccounts_evolves r a : console_ok a -> evolves a (ListAccounts r a).2.
Proof.
  intros Hok. unfold ListAccounts. destruct (parsePositiveIntQuery _ _ _) as [page|]; [|by apply evolves_refl].
  destruct (parsePositiveIntQuery _ _ _) as [size|]; [|by apply evolves_refl].
  destruct (on_db CountAccounts a) as [r1 a1] eqn:E1. apply on_db_evolves in E1 as [H1 _]; [|apply lawful_read|done].
  destruct r1; [|done]. destruct (on_db _ a1) as [r2 a2] eqn:E2.
  apply on_db_evolves in E2 as [H2 _]; [|apply lawful_read|apply H1]. destruct r2; by eapply evolves_trans.
Qed.

(** A handler that answers from one query. *)
Ltac one_query :=
  match goal with |- context [on_db ?m ?x] =>
    let E := fresh in destruct (on_db m x) as [[] ?] eqn:E;
    (apply on_db_evolves in E as [? _]; [done|first [apply lawful_read|intros ? ?; apply _]|done])
  end.

Lemma handler_evolves e env c r a : console_ok a -> auth_env_ok env -> evolves a (handler cfg e env c r a).2.
Proof.
  intros Hok Henv. destruct e; cbn [handler];
    try by first [apply Login_evolves|apply ChangePassword_evolves|apply Register_evolves|
                  apply ListAccounts_evolves|apply DeleteAccount_evolves].
  all: try (apply with_session_evolves; [done|]; intros sa; cbn beta zeta).
  - unfold Logout. cbn. destruct (rq_cookie r); [by apply delete_session_evolves|by apply evolves_refl].
  - by apply evolves_refl.
  - one_query.
  - destruct (bind_create_key _); [one_query|by apply evolves_refl].
  - destruct (bool_decide _); [by apply evolves_refl|one_query].
  - one_query.
  - destruct (bind_create_token _); [one_query|by apply evolves_refl].
  - destruct (bool_decide _); [by apply evolves_refl|one_query].
  - unfold GetTokenValue. by destruct (bool_decide _); apply evolves_refl.
Qed.

(** The middleware of a protected route. *)
Lemma middleware_spec acc env r a g a' :
  console_ok a -> middleware cfg acc env r a = (g, a') ->
  evolves a a' /\
  match g with
  | Next c =>
      match acc with
      | Public => c = no_context
      | _ => authenticated env r a a' c /\
             (acc = CookieOnly -> cx_method c = Some requestAuthMethodCookie) /\
             (acc = AdminOnly -> exists sa, cx_account c = Some sa /\ sa_IsAdmin sa = true)
      end
  | Stop _ => True
  end.
Proof.
  intros Hok H. destruct acc; cbn in H; [by simplify_eq; split; [apply evolves_refl|]|..];
    destruct (RequireAuth _ _ _ _) as [g1 a1] eqn:E; apply RequireAuth_spec in E as [Hev Hg]; try done.
  - simplify_eq. split; [done|]. by destruct g.
  - destruct g1 as [c|]; simplify_eq; (split; [done|]); [|done]. unfold RequireCookieSession.
    destruct (cx_method c) as [[]|] eqn:Em; done.
  - destruct g1 as [c|]; simplify_eq; (split; [done|]); [|done].
    destruct (authenticated_account _ _ _ _ _ Hok Hev Hg) as (sa & Hc & Hget & _).
    unfold RequireAdmin. rewrite Hget. destruct (sa_IsAdmin sa) eqn:Ea; [|done]. split_and!; [done..|by exists sa].
Qed.

Lemma serve_evolves e menv env r a : console_ok a -> auth_env_ok env -> evolves a (serve cfg e menv env r a).2.
Proof.
  intros Hok Henv. unfold serve. destruct (middleware _ _ _ _ _) as [g a1] eqn:E.
  apply middleware_spec in E as [Hev _]; [|done]. destruct g as [c|]; [|done].
  eapply evolves_trans; [done|]. apply handler_evolves; [apply Hev|done].
Qed.

(** ** Tokens of the execution API *)
Inductive token_owner (fb : bool) (env : auth_env) (r : request) (a a' : ConsoleAuth) : string -> Prop :=
  | by_token token i t :
      presented_token cfg fb r = Some token -> isJITToken token = false ->
      trusted_tokens (adb a) !! i = Some t -> tt_TokenHash t = ac_hasher cfg (trim token) ->
      token_owner fb env r a a' (tt_AccountID t)
  | by_jit_token token i :
      presented_token cfg fb r = Some token -> isJITToken token = true ->
      verify (ac_crypto cfg) (ac_jit cfg) (ae_now env) token = Some i ->
      token_owner fb env r a a' (ji_AccountID i).

Lemma set_owner o : good_id o -> setRequestOwnerID o no_context = mkContext None None (Some o).
Proof. intros H. unfold setRequestOwnerID. rewrite (good_id_trim _ H). destruct H as [H _]. by rewrite bool_decide_false. Qed.

Lemma lookup_token_evolves token a r a' :
  console_ok a -> lookupTrustedToken cfg token a = (r, a') ->
  evolves a a' /\ adb a' = adb a /\
  match r with
  | Some t => exists i, trusted_tokens (adb a) !! i = Some t /\ tt_TokenHash t = ac_hasher cfg (trim token)
  | None => True
  end.
Proof.
  intros Hok H. unfold lookupTrustedToken in H. destruct (on_db _ a) as [r1 a1] eqn:E.
  pose proof (read_evolves _ _ _ _ Hok E) as Hev. apply on_db_read_one in E as (Hd & _ & _ & Hr).
  destruct r1 as [[i t]|]; simplify_eq; [|done]. split_and!; [done..|].
  destruct (bool_decide _); [done|]. apply first_row_Some in Hr as [Ht Hh%bool_decide_eq_true]. eauto.
Qed.

Lemma requireToken_spec fb env r a g a' :
  console_ok a -> requireToken cfg fb env r a = (g, a') ->
  evolves a a' /\
  match g with
  | Next c => exists o, c = mkContext None None (Some o) /\ token_owner fb env r a a' o /\
                        is_Some (accounts (adb a') !! o) /\ good_id o
  | Stop x => x = invalid_token
  end.
Proof.
  intros Hok H. unfold requireToken in H.
  destruct (presented_token _ _ _) as [token|] eqn:Ep; [|simplify_eq; by split; [apply evolves_refl|]].
  destruct (isJITToken token) eqn:Ej.
  - unfold verifyAndEnsureJITAccount in H.
    destruct (verify _ _ _ _) as [i|] eqn:Ei; [|simplify_eq; by split; [apply evolves_refl|]].
    destruct (verified_good _ _ _ _ Ei) as [Hid Hu]. destruct (ensureJITAccount _ _ _) as [r1 a1] eqn:E1.
    apply ensureJIT_evolves in E1 as (Hev & _ & Hr); [|done..].
    destruct r1 as [[id acc]|]; simplify_eq; (split; [done|]); [|done]. destruct Hr as [-> Hacc].
    cbn [ji_AccountID]. rewrite (good_id_trim _ Hid), set_owner by done. eexists. split_and!; [done|by eapply by_jit_token|by eexists|done].
  - destruct (lookupTrustedToken _ _ _) as [r1 a1] eqn:E1. apply lookup_token_evolves in E1 as (Hev & Hd & Hr); [|done].
    destruct r1 as [t|]; simplify_eq; (split; [done|]); [|done]. destruct Hr as (i & Ht & Hh).
    destruct (ad_token _ (co_db _ Hok) _ _ Ht) as [acc Hacc]. destruct (ad_account _ (co_db _ Hok) _ _ Hacc) as [Hid _].
    rewrite (good_id_trim _ Hid), set_owner by done. eexists. split_and!; [done|by eapply by_token|rewrite Hd; by eexists|done].
Qed.

End requests.

End AuthProps.
Export AuthProps.

Module AuthOps.

(** ** Reading leaves the tables alone *)
Lemma reads_only {A} (m : M A) c r c' : (forall I, Preserves I m) -> m c = (r, c') -> data c' = data c.
Proof. intros Hm E. pose proof (Hm (fun d => d = data c) c eq_refl) as H. by rewrite E in H. Qed.

Lemma found_reads {A} (m : M A) : (forall I, Preserves I m) -> forall I, Preserves I (found m).
Proof.
  intros Hm I. unfold found. apply preserves_bind; [by apply preserves_catch|]. intros [|e]; [apply _|].
  destruct (error_is e ErrNoRows); apply _.
Qed.

Ltac solve_reads :=
  intros I; repeat first
    [ apply found_reads; intros ?; apply preserves_read_one
    | apply preserves_bind; [|intros []]
    | apply preserves_ret ].

Lemma classify_account_reads id key I : Preserves I (classifyAccountInsertConflict id key).
Proof. revert I. unfold classifyAccountInsertConflict. solve_reads. Qed.
Lemma classify_token_reads acc key hash id I : Preserves I (classifyTrustedTokenInsertConflict acc key hash id).
Proof. revert I. unfold classifyTrustedTokenInsertConflict. solve_reads. Qed.
Lemma classify_key_reads acc key hash id I : Preserves I (classifyAPIKeyInsertConflict acc key hash id).
Proof. revert I. unfold classifyAPIKeyInsertConflict. solve_reads. Qed.

(** ** Creating accounts *)
Lemma create_account_loop_ok gen row n i c cd c' :
  create_account_loop gen row n i c = (Ok cd, c') ->
  exists j hex, gen j = Some hex /\ (i <= j < i + n)%nat /\ cd_AccountID cd = accountIDPrefix +:+ hex /\
    cd_Username cd = a_Username row /\ cd_IsAdmin cd = a_IsAdmin row /\
    accounts (data c) !! cd_AccountID cd = None /\
    exists_row (has_username_key (a_UsernameKey row)) (accounts (data c)) = false /\
    data c' = with_accounts <[cd_AccountID cd := row]> (data c).
Proof.
  revert i c. induction n as [|n IH]; intros i c H; cbn in H; [done|].
  destruct (gen i) as [hex|] eqn:Eg; [|done]. apply bind_ok in H as (r & c1 & H1%catch_data & H).
  destruct r as [u|e].
  - unfold mret, M_ret in H. simplify_eq. apply InsertAccount_ok in H1 as (Hn & Hu & Hd).
    exists i, hex. split_and!; try done; lia.
  - unfold InsertAccount in H1. apply stmt_err in H1. destruct (isSQLiteConstraintError e); [|done].
    apply bind_ok in H as (x & c2 & H2%reads_only & H); [|intros I; apply classify_account_reads].
    destruct x; try done. apply IH in H as (j & hex' & ? & ? & ? & ? & ? & Hn & Hu & Hd).
    rewrite H2, H1 in Hn, Hu, Hd. exists j, hex'. split_and!; try done; lia.
Qed.

Lemma create_account_loop_err gen row n i c e c' :
  create_account_loop gen row n i c = (Err e, c') -> data c' = data c.
Proof.
  revert i c. induction n as [|n IH]; intros i c H; cbn in H; [unfold fail in H; by simplify_eq|].
  destruct (gen i) as [hex|]; [|unfold fail in H; by simplify_eq].
  apply bind_err in H as [H|(r & c1 & H1%catch_data & H)]; [unfold catch in H; by destruct (InsertAccount _ _ _)|].
  destruct r as [u|e1]; [done|]. unfold InsertAccount in H1. apply stmt_err in H1.
  destruct (isSQLiteConstraintError e1); [|unfold fail in H; by simplify_eq].
  apply bind_err in H as [H|(x & c2 & H2 & H)].
  - apply reads_only in H; [congruence|intros I; apply classify_account_reads].
  - apply reads_only in H2; [|intros I; apply classify_account_reads].
    destruct x; [unfold fail in H; simplify_eq; congruence|apply IH in H; congruence|unfold fail in H; simplify_eq; congruence].
Qed.

Section config.
Context (cfg : auth_config).

(** What a created account is. *)
Lemma createAccount_ok salt gen input c cd c' :
  createAccountWithRetry cfg salt gen input c = (Ok cd, c') ->
  exists u h j hex, normalizeAccountUsername (ca_Username input) = Ok (u, to_lower u) /\
    u <> "" /\ trim u = u /\ u = trim (ca_Username input) /\
    trim (ca_Password input) <> "" /\ ac_bcrypt_generate cfg salt (ca_Password input) = Some h /\
    gen j = Some hex /\ (j < 8)%nat /\ cd_AccountID cd = accountIDPrefix +:+ hex /\
    cd_Username cd = u /\ cd_IsAdmin cd = ca_IsAdmin input /\ accounts (data c) !! cd_AccountID cd = None /\
    data c' = with_accounts <[cd_AccountID cd := mkAccount u (to_lower u) h dashboardPasswordHashAlgo
      (ca_IsAdmin input) (unix_milli (ca_Now input)) (unix_milli (ca_Now input))]> (data c).
Proof.
  intros H. unfold createAccountWithRetry in H. destruct (normalizeAccountUsername _) as [[u k]|] eqn:En; [|done].
  pose proof En as Hn. apply name_ok in Hn as (Hu & Ht & -> & _ & Hv). rewrite <- Hv in *.
  destruct (bool_decide_reflect (trim (ca_Password input) = "")) as [|Hp]; [done|].
  unfold hashDashboardPassword in H. destruct (ac_bcrypt_generate _ _ _) as [h|] eqn:Eh; [|done].
  apply create_account_loop_ok in H as (j & hex & ? & ? & ? & ? & ? & ? & ? & ?).
  exists u, h, j, hex. split_and!; try done. lia.
Qed.

Lemma createAccount_err salt gen input c e c' :
  createAccountWithRetry cfg salt gen input c = (Err e, c') -> data c' = data c.
Proof.
  intros H. unfold createAccountWithRetry in H. destruct (normalizeAccountUsername _) as [[u k]|]; [|unfold fail in H; by simplify_eq].
  destruct (bool_decide _); [unfold fail in H; by simplify_eq|].
  destruct (hashDashboardPassword _ _ _); [by apply create_account_loop_err in H|unfold fail in H; by simplify_eq].
Qed.

(** ** Creating tokens and keys *)
Lemma create_token_loop_ok t acc name key given n i c r c' :
  create_token_loop cfg t acc name key given n i c = (Ok r, c') ->
  tk_AccountID r = acc /\ tk_Name r = name /\ tk_NameKey r = key /\ tk_TokenHash r = ac_hasher cfg (tk_Token r) /\
  (match given with
   | Some v => tk_Token r = v
   | None => exists j v, tr_value t j = Some v /\ tk_Token r = generatedTokenPrefix +:+ v
   end) /\
  trusted_tokens (data c) !! tk_ID r = None /\ data c' = with_tokens <[tk_ID r := row_of_token r]> (data c).
Proof.
  revert i c. induction n as [|n IH]; intros i c H; cbn in H; [done|].
  destruct (match given with Some v => Some v | None => _ end) as [v|] eqn:Ev; [|done].
  destruct (tr_id t i) as [hex|]; [|done]. apply bind_ok in H as (x & c1 & H1%catch_data & H). destruct x as [u|e].
  - unfold mret, M_ret in H. simplify_eq. apply insert_token_inv in H1 as (Hn & _ & _ & _ & Hd). cbn.
    split_and!; try done. destruct given as [w|]; [by simplify_eq|]. destruct (tr_value t i) as [w|] eqn:Ew; [|done].
    cbn in Ev. simplify_eq. eauto.
  - unfold InsertTrustedToken in H1. apply stmt_err in H1. destruct (isSQLiteConstraintError e); [|done].
    apply bind_ok in H as (x & c2 & H2%reads_only & H); [|intros I; apply classify_token_reads].
    rewrite <- H1, <- H2. destruct x; try done; [destruct (negb _); [|done]|]; by apply IH in H.
Qed.

Lemma createToken_ok t acc name input c r c' :
  createToken cfg t acc name input c = (Ok r, c') ->
  tk_AccountID r = trim acc /\ tk_TokenHash r = ac_hasher cfg (tk_Token r) /\
  (match input with
   | Some v => normalizeTokenValue v = Ok (tk_Token r)
   | None => exists j v, tr_value t j = Some v /\ tk_Token r = generatedTokenPrefix +:+ v
   end) /\
  trusted_tokens (data c) !! tk_ID r = None /\ data c' = with_tokens <[tk_ID r := row_of_token r]> (data c).
Proof.
  intros H. unfold createToken in H. destruct (bool_decide _); [done|].
  destruct (normalizeTokenName name) as [[u k]|]; [|done]. destruct input as [v|].
  - destruct (normalizeTokenValue v) as [w|] eqn:Ev; [|done].
    apply create_token_loop_ok in H as (? & _ & _ & ? & E & ? & ?). split_and!; try done. by rewrite E.
  - apply create_token_loop_ok in H as (? & _ & _ & ? & ? & ? & ?). done.
Qed.

(** ** The first administrator *)
Lemma init_admin env u p k c x c' :
  auth_db_ok (data c) -> hex_values (ie_ids env) ->
  InitializeAdminAccount cfg env u p k c = (Ok x, c') ->
  admin_is (ir_AccountID x) (ir_Username x) (data c').
Proof.
  intros Hok Hhex H. unfold InitializeAdminAccount in H. apply bind_ok in H as (n & c1 & H1%catch_data & H).
  pose proof (reads_only CountAdminAccounts _ _ _ (fun I => preserves_read I _) H1) as Hd1.
  destruct n as [n|]; [|done]. destruct (0 <? n).
  - apply bind_ok in H as (y & c2 & H2%catch_data & H). destruct y as [[id a]|]; [|done].
    unfold mret, M_ret in H. simplify_eq. unfold GetFirstAdminAccount, read_one in H2. apply stmt_ok in H2.
    unfold one_row in H2. destruct (head _) as [y|] eqn:Eh; [|done]. injection H2 as -> Hd2.
    apply head_Some_elem_of, elem_of_order_by, elem_of_map_to_list, lookup_select_Some in Eh as [Ha Hadm].
    rewrite Hd1 in Ha. destruct (ad_account _ Hok _ _ Ha) as [Hid [[_ Ht] _]]. cbn.
    rewrite (good_id_trim _ Hid), Ht. exists a. by rewrite <- Hd2, Hd1.
  - destruct (ResolveDashboardCredentials _ _ _) as [[u' p']|]; [|done].
    apply bind_ok in H as (y & c2 & H2%catch_data & H). destruct y as [y|]; [|done]. unfold mret, M_ret in H. simplify_eq.
    apply WithTx_ok in H2 as (c3 & c4 & Hd3 & H2 & Hd4). rewrite Hd4. clear Hd4.
    unfold init_tx in H2. apply bind_ok in H2 as (cd & c5 & H5 & H2).
    apply createAccount_ok in H5 as (w & h & j & hex & _ & _ & _ & _ & _ & _ & _ & _ & _ & Hw & _ & _ & Hd5).
    assert (admin_is (cd_AccountID cd) (cd_Username cd) (data c5)) as Hadm.
    { rewrite Hd5. eexists. split; [apply lookup_insert_eq|done]. }
    destruct (bool_decide _); [unfold mret, M_ret in H2; by simplify_eq|].
    apply bind_ok in H2 as (z & c6 & H6%catch_data & H2). destruct z as [z|]; [|done]. unfold mret, M_ret in H2. simplify_eq. cbn.
    pose proof (createAPIKey_preserves (admin_is (cd_AccountID cd) (cd_Username cd)) cfg (ie_key env) (cd_AccountID cd)
      initialAdminAPIKeyName k c5 Hadm) as Hf. by rewrite H6 in Hf.
Qed.

End config.

End AuthOps.
Export AuthOps.
