(* ===== verification/AuthClaims.v ===== *)
(** Properties of authentication: who a request runs as, what every history of
    requests keeps, and what creating, deleting and changing credentials does. *)
From S2P Require Import Prelude.
From S2P Require Import Json.
From S2P Require Import Sql.
From S2P Require Import Service.
From S2P Require Import OwnerScope.
From S2P Require Import AuthText.
From S2P Require Import AuthSql.
From S2P Require Import Accounts.
From S2P Require Import Auth.
From S2P Require Import AuthProps.

Module AuthClaims.

(** ** Histories *)
Inductive auth_op :=
  | OServe (e : endpoint) (menv env : auth_env) (r : request)
  | OToken (fallback : bool) (env : auth_env) (r : request)
  | OInit (env : init_env) (username password key : string).

Definition run_auth (cfg : auth_config) (a : ConsoleAuth) (o : auth_op) : ConsoleAuth :=
  match o with
  | OServe e menv env r => (serve cfg e menv env r a).2
  | OToken fb env r => (requireToken cfg fb env r a).2
  | OInit env u p k => (on_db (InitializeAdminAccount cfg env u p k) a).2
  end.

Definition op_ok (o : auth_op) : Prop :=
  match o with
  | OServe _ _ env _ => auth_env_ok env
  | OToken _ _ _ => True
  | OInit env _ _ _ => hex_values (ie_ids env)
  end.

Section claims.
Context (cfg : auth_config) (Hcr : crypto_ok (ac_crypto cfg)).

Lemma run_auth_evolves a o : console_ok a -> op_ok o -> evolves a (run_auth cfg a o).
Proof.
  intros Hok Ho. destruct o as [e menv env r|fb env r|env u p k]; cbn in *.
  - by apply serve_evolves.
  - destruct (requireToken _ _ _ _ _) as [g a'] eqn:E. by apply requireToken_spec in E as [? _].
  - destruct (on_db _ a) as [x a'] eqn:E. apply on_db_evolves in E as [? _]; [done| |done].
    intros I HI. by apply init_preserves.
Qed.

Lemma history_evolves ops a : console_ok a -> Forall op_ok ops -> evolves a (foldl (run_auth cfg) a ops).
Proof.
  intros Hok H. revert a Hok. induction H as [|o ops Ho _ IH]; intros a Hok; cbn; [by apply evolves_refl|].
  pose proof (run_auth_evolves a o Hok Ho) as Hev. eapply evolves_trans; [done|]. apply IH, Hev.
Qed.

(** A request that is not let on is answered with 401. *)
Lemma stop_status env r a x a' : RequireAuth cfg env r a = (Stop x, a') -> rs_status x = 401 \/ rs_status x = 403.
Proof.
  intros H. left. unfold RequireAuth in H.
  repeat match goal with
  | H : context [match ?y with _ => _ end] |- _ => destruct y; simplify_eq; try done
  end.
Qed.

(** ** The properties *)

(** C7: In every history of requests, start-ups, faults and interleavings, the
    account tables stay consistent: ids can be scoped, user names are unique,
    tokens and API keys belong to existing accounts and have unique hashes and
    names, sessions name proper accounts, and a session with administrator's
    rights names an account that is an administrator. *)
Theorem account_tables_stay_consistent ops a :
  console_ok a -> Forall op_ok ops -> console_ok (foldl (run_auth cfg) a ops).
Proof. intros Hok Hops. apply (history_evolves ops a Hok Hops). Qed.

(** C23: Once the first administrator was initialised, an administrator exists
    in every later state: no request deletes it, renames it or takes its
    rights away. *)
Theorem an_administrator_always_remains env u p k a x a' ops :
  console_ok a -> hex_values (ie_ids env) -> Forall op_ok ops ->
  on_db (InitializeAdminAccount cfg env u p k) a = (Ok x, a') ->
  admin_is (ir_AccountID x) (ir_Username x) (adb (foldl (run_auth cfg) a' ops)).
Proof.
  intros Hok Hhex Hops H. apply on_db_evolves in H as [Hev H]; [|intros I HI; by apply init_preserves|done].
  apply init_admin in H; [|apply Hok|done].
  pose proof (history_evolves ops a' (ev_ok _ _ Hev) Hops) as Hev2. by eapply (ev_inv _ _ Hev2); [apply _|].
Qed.

(** C5: A protected route runs its handler only for an authenticated account:
    the live session of the cookie, the account of the stored API key, or the
    account of a verified dashboard token, which is never an administrator.
    The account is always set, so no handler falls back to the rights of the
    system; cookie routes see cookie sessions only, and the account of an
    administrator's route is an administrator in the tables.  Everything else
    is answered with 401 or 403. *)
Theorem routes_enforce_their_access e env r a g a' :
  console_ok a -> access_of e <> Public -> middleware cfg (access_of e) env r a = (g, a') ->
  match g with
  | Next c =>
      authenticated cfg env r a a' c /\
      (exists sa, requestSessionAccountFromGin c = Some sa /\
        (sa_IsAdmin sa = true -> admin_is (sa_AccountID sa) (sa_Username sa) (adb a')) /\
        (access_of e = AdminOnly -> sa_IsAdmin sa = true)) /\
      (access_of e = CookieOnly -> cx_method c = Some requestAuthMethodCookie)
  | Stop x => rs_status x = 401 \/ rs_status x = 403
  end.
Proof.
  intros Hok Hacc H. pose proof H as H0. apply middleware_spec in H as [Hev Hg]; [|done..]. destruct g as [c|x].
  - destruct (access_of e) eqn:Ea; [done|..]; destruct Hg as (Ha & H1 & H2);
      destruct (authenticated_account _ _ _ _ _ _ Hok Hev Ha) as (sa & Hc & Hget & _ & Hadm);
      (split_and!; [done| |done]); exists sa; (split_and!; [done|done|]); intros E; try done.
    destruct (H2 E) as (sa' & Hc' & ?). congruence.
  - clear Hg Hev Hok Hcr. destruct (access_of e); [done|..]; cbn in H0;
      destruct (RequireAuth _ _ _ _) as [[c|y] b] eqn:E; simplify_eq; try (by eapply stop_status in E).
    + unfold RequireCookieSession in *. destruct (cx_method c) as [[]|]; simplify_eq; auto.
    + unfold RequireAdmin in *. destruct (requestSessionAccountFromGin c) as [sa|]; [destruct (sa_IsAdmin sa)|]; simplify_eq; auto.
Qed.

(** C6: The execution API runs a request as the owner of the token it presents:
    the account of the stored token with the same hash, or the account derived
    from a verified just-in-time token.  That account exists, its id can be
    scoped, and everything else is answered with 401. *)
Theorem tokens_authenticate_their_owner fb env r a g a' :
  console_ok a -> requireToken cfg fb env r a = (g, a') ->
  match g with
  | Next c => exists o, requestOwnerIDFromGin c = o /\ token_owner cfg fb env r a a' o /\
                        is_Some (accounts (adb a') !! o) /\ good_owner o
  | Stop x => rs_status x = 401
  end.
Proof.
  intros Hok H. apply requireToken_spec in H as [_ Hg]; [|done..]. destruct g as [c|x]; [|by subst x].
  destruct Hg as (o & -> & Ho & Hacc & Hid). exists o. split_and!; [by apply good_id_trim|done..|by apply good_id_owner].
Qed.

(** Other requests leave the state alone. *)
Definition quiet (env : auth_env) : Prop := forall n a, ae_others env n a = a.

Lemma delete_account_204 env c r a x a' :
  quiet env -> DeleteAccount env c r a = (x, a') -> rs_status x = 204 ->
  let id := trim (rq_param r "account_id") in
  id <> "" /\ exists acc, accounts (adb a) !! id = Some acc /\ a_IsAdmin acc = false /\
    adb a' = cascade_accounts (fun y => bool_decide (y = id)) (with_accounts (delete id) (adb a)) /\
    au_sessions a' = filter (fun kv => trim (sa_AccountID (ss_Account kv.2)) <> id) (au_sessions a) /\
    au_revoked a' = au_revoked a ++ [id].
Proof.
  intros Hq H Hx id. unfold DeleteAccount, requireSessionAccount in H.
  destruct (requestSessionAccountFromGin c) as [sa|]; [|by simplify_eq]. fold id in H.
  destruct (bool_decide_reflect (id = "")) as [|Hne]; [by simplify_eq|]. destruct (bool_decide _); [by simplify_eq|].
  unfold on_db in H. destruct (DeleteNonAdminAccountByID id (au_conn a)) as [[n|e] c1] eqn:E; [|by simplify_eq].
  apply write_ok in E. rewrite !Hq in H. destruct (n =? 0) eqn:En.
  { destruct (GetAccountByID id _) as [[y|e] c2]; [destruct (a_IsAdmin y)|destruct (error_is e ErrNoRows)];
      injection H as <- _; discriminate Hx. }
  injection H as <- <-. split; [done|]. unfold delete_account in E. unfold deleteSessionsByAccountID.
  assert (trim id = id) as -> by apply trim_trim. rewrite bool_decide_false by done. cbn.
  destruct (accounts (data (au_conn a)) !! id) as [acc|] eqn:Ea; [|injection E as <- _; discriminate En].
  destruct (a_IsAdmin acc) eqn:Eadm; [injection E as <- _; discriminate En|]. injection E as <- Ed. exists acc. by split_and!.
Qed.

(** A deleted account is locked out.  Only accounts without administrator's
    rights are deleted; the deletion revokes the owner's proxy routes and
    removes the account with its tokens, API keys, proxy routes and sessions,
    and nothing of any other account.  From then on no request runs as the
    account, unless a signed just-in-time token creates it again. *)
Theorem deleted_account_is_locked_out env c r a x a' :
  console_ok a -> quiet env -> DeleteAccount env c r a = (x, a') -> rs_status x = 204 ->
  let id := trim (rq_param r "account_id") in
  (exists acc, accounts (adb a) !! id = Some acc /\ a_IsAdmin acc = false) /\
  accounts (adb a') = delete id (accounts (adb a)) /\ id ∈ au_revoked a' /\
  (forall k p, proxy_routes (adb a') !! k = Some p <-> proxy_routes (adb a) !! k = Some p /\ p_OwnerID p <> id) /\
  (forall i t, trusted_tokens (adb a') !! i = Some t <-> trusted_tokens (adb a) !! i = Some t /\ tt_AccountID t <> id) /\
  (forall sid st, au_sessions a' !! sid = Some st <-> au_sessions a !! sid = Some st /\ sa_AccountID (ss_Account st) <> id) /\
  (forall fb env' r' o a'', token_owner cfg fb env' r' a' a'' o -> o = id ->
     exists token, presented_token cfg fb r' = Some token /\ isJITToken token = true) /\
  (forall env' r' c' sa a'', authenticated cfg env' r' a' a'' c' -> cx_account c' = Some sa -> sa_AccountID sa = id ->
     cx_method c' = Some requestAuthMethodDashboardJIT).
Proof.
  intros Hok Hq H Hx id. apply delete_account_204 in H as (Hne & acc & Hacc & Hadm & Hd & Hs & Hr); [|done..].
  fold id in Hne, Hacc, Hd, Hs, Hr.
  assert (forall sid st, au_sessions a' !! sid = Some st <-> au_sessions a !! sid = Some st /\ sa_AccountID (ss_Account st) <> id) as Hss.
  { intros sid st. rewrite Hs, map_lookup_filter_Some. cbn. split; intros [H1 H2]; (split; [done|]);
      [|rewrite (good_id_trim (sa_AccountID (ss_Account st))) by (by eapply co_session); done].
    by rewrite (good_id_trim (sa_AccountID (ss_Account st))) in H2 by (by eapply co_session). }
  assert (forall i t, trusted_tokens (adb a') !! i = Some t <-> trusted_tokens (adb a) !! i = Some t /\ tt_AccountID t <> id) as Hts.
  { intros i t. rewrite Hd. cbn. rewrite lookup_keep_Some, bool_decide_eq_false. done. }
  split_and!; [by exists acc|by rewrite Hd|rewrite Hr; apply elem_of_app; right; by left|..]; [|done|done|..].
  - intros k p. rewrite Hd. cbn. rewrite lookup_keep_Some, bool_decide_eq_false. done.
  - intros fb env' r' o a'' Ho ->. inversion Ho as [token i t ? ? Ht ? Eo|token i ? ? ? Eo]; [|eauto].
    apply Hts in Ht as [_ Ht]. done.
  - intros env' r' c' sa a'' Ha Hc Hid. inversion Ha as [sid st ? ? Hst ? Ec|token i k acc' ? ? ? Hk ? Ha' Ec|token v i acc' ? ? ? ? ? ? Ec]; subst c';
      cbn in *; simplify_eq; [by apply Hss in Hst as [_ Hst]| |done].
    cbn in Hid. rewrite Hid, Hd in Ha'. cbn in Ha'. by rewrite lookup_delete_eq in Ha'.
Qed.

(** ** Passwords *)

(** What bcrypt promises: a generated hash is text without spaces around it
    and accepts its password. *)
Record bcrypt_ok : Prop := {
  bc_compare salt p h : ac_bcrypt_generate cfg salt p = Some h -> ac_bcrypt_compare cfg h p = true;
  bc_text salt p h : ac_bcrypt_generate cfg salt p = Some h -> h <> "" /\ trim h = h }.

Lemma generated_password_verifies salt p h row :
  bcrypt_ok -> trim p <> "" -> ac_bcrypt_generate cfg salt p = Some h ->
  a_PasswordHash row = h -> a_HashAlgo row = dashboardPasswordHashAlgo -> verifyPassword cfg row p = true.
Proof.
  intros Hb Hp Hh E1 E. unfold verifyPassword. rewrite bool_decide_false by done. rewrite E. cbn.
  unfold compareDashboardPassword. rewrite E1. rewrite (proj2 (bc_text Hb _ _ _ Hh)). by eapply bc_compare.
Qed.

Lemma change_password_204 env c r a x a' sa req :
  quiet env -> requestSessionAccountFromGin c = Some sa -> bind_change (rq_body r) = Some req ->
  ChangePassword cfg env c r a = (x, a') -> rs_status x = 204 ->
  let id := trim (sa_AccountID sa) in
  exists acc h sid, accounts (adb a) !! id = Some acc /\ verifyPassword cfg acc (trim (cp_Current req)) = true /\
    trim (trim (cp_New req)) <> "" /\ ac_bcrypt_generate cfg (ae_salt env) (trim (cp_New req)) = Some h /\
    ae_sessionID env = Some sid /\
    rs_cookie x = CookieSet sid (time_add (ae_now env) dashboardSessionTTL) (requestIsTLS r) /\
    adb a' = with_accounts <[id := set_password h dashboardPasswordHashAlgo (unix_milli (ae_now env)) acc]> (adb a) /\
    au_sessions a' = <[sid := mkSessionState (session_of id acc) (time_add (ae_now env) dashboardSessionTTL)]>
      (au_sessions (deleteSessionsByAccountID (trim id) a)).
Proof.
  intros Hq Hc Hb H Hx id. unfold ChangePassword, requireSessionAccount in H. rewrite Hc, Hb in H.
  destruct (bool_decide _); [by simplify_eq|]. destruct (bool_decide_reflect (trim (cp_New req) = "")) as [|Hnew]; [by simplify_eq|].
  fold id in H. destruct (on_db (GetAccountByID id) a) as [r1 a1] eqn:E1. apply on_db_read_one in E1 as (Hd1 & Hs1 & _ & Hr1).
  destruct r1 as [acc|e]; [|destruct (error_is e ErrNoRows); [injection H as <- _|injection H as <- _]; discriminate Hx].
  destruct (verifyPassword cfg acc _) eqn:Ev; [|injection H as <- _; discriminate Hx]. cbn [negb] in H.
  unfold hashDashboardPassword in H. destruct (ac_bcrypt_generate _ _ _) as [h|] eqn:Eh; [|injection H as <- _; discriminate Hx].
  rewrite !Hq in H. unfold on_db in H. destruct (UpdateAccountPasswordByID _ _ _ _ _) as [[n|e] c2] eqn:E2;
    [|injection H as <- _; discriminate Hx]. apply write_ok in E2. change (data (au_conn a1)) with (adb a1) in E2.
  rewrite Hd1, Hr1 in E2. injection E2 as <- Hd2. cbn -[deleteSessionsByAccountID] in H. unfold createSession in H.
  destruct (ae_sessionID env) as [sid|]; [|injection H as <- _; discriminate Hx]. injection H as <- <-.
  exists acc, h, sid. rewrite trim_trim, !Hq. split_and!; try done.
  - unfold deleteSessionsByAccountID. transitivity (data c2); [by destruct (bool_decide _)|by rewrite <- Hd2].
  - unfold deleteSessionsByAccountID. cbn. destruct (bool_decide _); cbn; by rewrite Hs1.
Qed.

(** A password change needs the current password.  Afterwards the account
    has the new one and is otherwise unchanged, every session it had is over
    except the new one of the response, and the sessions of other accounts are
    as they were. *)
Theorem password_change_ends_the_other_sessions env c r a x a' sa req :
  console_ok a -> quiet env -> bcrypt_ok ->
  requestSessionAccountFromGin c = Some sa -> bind_change (rq_body r) = Some req ->
  ChangePassword cfg env c r a = (x, a') -> rs_status x = 204 ->
  let id := trim (sa_AccountID sa) in
  exists acc acc' sid, accounts (adb a) !! id = Some acc /\ verifyPassword cfg acc (trim (cp_Current req)) = true /\
    accounts (adb a') = <[id := acc']> (accounts (adb a)) /\ verifyPassword cfg acc' (trim (cp_New req)) = true /\
    a_Username acc' = a_Username acc /\ a_IsAdmin acc' = a_IsAdmin acc /\
    rs_cookie x = CookieSet sid (time_add (ae_now env) dashboardSessionTTL) (requestIsTLS r) /\
    au_sessions a' !! sid = Some (mkSessionState (session_of id acc) (time_add (ae_now env) dashboardSessionTTL)) /\
    (forall sid' st, sid' <> sid ->
       au_sessions a' !! sid' = Some st <-> au_sessions a !! sid' = Some st /\ sa_AccountID (ss_Account st) <> id).
Proof.
  intros Hok Hq Hbc Hc Hb H Hx id. eapply change_password_204 in H as (acc & h & sid & Hacc & Hv & Hn & Hh & Hsid & Hck & Hd & Hs); [|done..].
  fold id in Hacc, Hd, Hs. destruct (ad_account _ (co_db _ Hok) _ _ Hacc) as [Hid _]. rewrite (good_id_trim _ Hid) in Hs.
  eexists acc, _, sid. split_and!; [done|done|by rewrite Hd|by eapply generated_password_verifies|done|done|done|..].
  - rewrite Hs. apply lookup_insert_eq.
  - intros sid' st Hne. rewrite Hs, lookup_insert_ne by done. unfold deleteSessionsByAccountID.
    rewrite (good_id_trim _ Hid), bool_decide_false by apply Hid. cbn. rewrite map_lookup_filter_Some. cbn.
    split; intros [H1 H2]; (split; [done|]);
      [|rewrite (good_id_trim (sa_AccountID (ss_Account st))) by (by eapply co_session); done].
    by rewrite (good_id_trim (sa_AccountID (ss_Account st))) in H2 by (by eapply co_session).
Qed.

(** ** Round trips *)
Lemma on_db_read_found {A} (f : DB -> option A) a x :
  faults (au_conn a) = [] -> f (adb a) = Some x -> exists a', on_db (read_one f) a = (Ok x, a') /\ adb a' = adb a /\ au_sessions a' = au_sessions a.
Proof.
  intros Hf Hx. unfold on_db, read_one, stmt, one_row. rewrite Hf. unfold adb in Hx. rewrite Hx. eexists. done.
Qed.

Lemma on_db_read_none {A} (f : DB -> option A) a :
  f (adb a) = None -> exists e a', on_db (read_one f) a = (Err e, a').
Proof.
  intros Hx. destruct (on_db (read_one f) a) as [[x|e] a'] eqn:E; [|eauto].
  apply on_db_read_one in E as (_ & _ & _ & E). congruence.
Qed.

Lemma register_201 env c r a x a' req :
  bind_credentials (rq_body r) = Some req -> Register cfg env c r a = (x, a') -> rs_status x = 201 ->
  exists cd, on_db (createAccountWithRetry cfg (ae_salt env) (tr_id (ae_tries env))
      (mkCreateAccount (rq_Username req) (rq_Password req) false (ae_now env))) a = (Ok cd, a') /\
    rs_body x = BRegistered (mkSessionAccount (cd_AccountID cd) (cd_Username cd) (cd_IsAdmin cd)) (cd_CreatedAt cd) (cd_UpdatedAt cd).
Proof.
  intros Hb H Hx. unfold Register, requireSessionAccount in H. destruct (negb _); [by simplify_eq|].
  destruct (requestSessionAccountFromGin c) as [sa|]; [|by simplify_eq]. destruct (negb _); [by simplify_eq|].
  rewrite Hb in H. destruct (on_db _ a) as [[cd|e] a1] eqn:E; simplify_eq; [by eexists|].
  unfold register_error in Hx. by repeat destruct (error_is e _).
Qed.

(** A registered account can log in with its name and password: the login
    opens a session of twelve hours for that account, without administrator's
    rights. *)
Theorem registered_account_can_log_in env env' c r r' a x a' req sid :
  console_ok a -> auth_env_ok env -> quiet env' -> bcrypt_ok ->
  bind_credentials (rq_body r) = Some req -> Register cfg env c r a = (x, a') -> rs_status x = 201 ->
  faults (au_conn a') = [] -> bind_credentials (rq_body r') = Some req -> ae_sessionID env' = Some sid ->
  exists id t1 t2 y b, rs_body x = BRegistered (mkSessionAccount id (trim (rq_Username req)) false) t1 t2 /\
    accounts (adb a) !! id = None /\ Login cfg env' r' a' = (y, b) /\ rs_status y = 200 /\
    au_sessions b = <[sid := mkSessionState (mkSessionAccount id (trim (rq_Username req)) false)
                              (time_add (ae_now env') dashboardSessionTTL)]> (au_sessions a').
Proof.
  intros Hok Henv Hq Hbc Hb H Hx Hf Hb' Hsid.
  pose proof (Register_evolves cfg env c r a Hok Henv) as Hev. rewrite H in Hev. cbn in Hev.
  destruct (register_201 _ _ _ _ _ _ _ Hb H Hx) as (cd & E & Hbody).
  apply on_db_evolves in E as [_ E]; [|intros I HI; apply createAccount_preserves; [done|apply Henv]|done].
  apply createAccount_ok in E as (u & h & j & hex & Hn & Hu & Ht & Htr & Hp & Hh & Hg & _ & Hid & Hcu & Hadm & Hnone & Hd).
  cbn in Hn, Htr, Hp, Hh, Hadm, Hd. set (row := mkAccount _ _ _ _ _ _ _) in Hd.
  assert (accounts (adb a') !! cd_AccountID cd = Some row) as Hrow.
  { unfold adb. rewrite Hd. cbn. apply lookup_insert_eq. }
  rewrite <- Htr in *. rewrite Hcu, Hadm in Hbody. exists (cd_AccountID cd), (cd_CreatedAt cd), (cd_UpdatedAt cd).
  destruct (Login cfg env' r' a') as [y b] eqn:El. exists y, b. do 3 (split; [done|]). revert El.
  unfold Login. rewrite Hb'. unfold lookupAccount. rewrite Hn.
  destruct (on_db_read_found (fun d => first_row (has_username_key (to_lower u)) (accounts d)) a' (cd_AccountID cd, row) Hf) as (a2 & E2 & Hd2 & Hs2).
  { apply first_row_unique; [done|by apply bool_decide_eq_true|]. intros k' v' Hk' Hv'%bool_decide_eq_true.
    by eapply (ad_username _ (co_db _ (ev_ok _ _ Hev))). }
  unfold GetAccountByUsernameKey. rewrite E2. destruct (session_of_good _ _ _ (co_db _ (ev_ok _ _ Hev)) Hrow) as [Es [[Hg1 _] _]].
  destruct (ad_account _ (co_db _ (ev_ok _ _ Hev)) _ _ Hrow) as [Hgid _].
  rewrite (good_id_trim _ Hgid), bool_decide_false by apply Hgid.
  destruct (bc_text Hbc _ _ _ Hh) as [Hhne Hht]. rewrite bool_decide_false by (cbn; by rewrite Hht). cbn [orb].
  rewrite (generated_password_verifies _ _ _ row Hbc Hp Hh) by done. cbn [negb]. rewrite Hq, Hsid. cbn -[session_of].
  rewrite Es. intros [= <- <-]. cbn. by rewrite Hs2.
Qed.

Lemma created_token_text t acc name input c r c' :
  hex_values (tr_value t) -> createToken cfg t acc name input c = (Ok r, c') ->
  tk_Token r <> "" /\ trim (tk_Token r) = tk_Token r /\ has_space (tk_Token r) = false.
Proof.
  intros Hhex H. apply createToken_ok in H as (_ & _ & Hv & _). destruct input as [v|]; [by eapply token_value_ok|].
  destruct Hv as (j & v & Hj & ->).
  assert (forall_char plain (generatedTokenPrefix +:+ v) = true) as Hp.
  { eapply forall_char_mono; [apply id_char_plain|]. rewrite forall_char_app. cbn.
    eapply forall_char_mono; [apply hex_id_char|]. by eapply Hhex. }
  split_and!; [done|by apply plain_trimmed|by apply plain_has_space].
Qed.

Lemma present_bearer fb req token :
  token <> "" -> trim token = token -> has_space token = false ->
  rq_authorization req = "Bearer " +:+ token -> presented_token cfg fb req = Some token.
Proof. intros H1 H2 H3 E. unfold presented_token. by rewrite E, parse_bearer. Qed.

(** A created token, given or generated, lets its bearer in as the account
    that created it, until it is deleted; then it is refused.  (A value with
    the prefix of just-in-time tokens is the exception.) *)
Theorem created_token_authenticates t acc name input a r a' env req :
  console_ok a -> hex_values (tr_value t) -> on_db (createToken cfg t acc name input) a = (Ok r, a') ->
  isJITToken (tk_Token r) = false -> rq_authorization req = "Bearer " +:+ tk_Token r ->
  (faults (au_conn a') = [] ->
     exists b, requireToken cfg false env req a' = (Next (mkContext None None (Some (trim acc))), b)) /\
  (forall b, on_db (deleteToken (tk_ID r) acc) a' = (Ok tt, b) ->
     exists b', requireToken cfg false env req b = (Stop invalid_token, b')).
Proof.
  intros Hok Hhex H Hj Hreq. apply on_db_evolves in H as [Hev H]; [|intros I HI; apply _|done].
  destruct (created_token_text _ _ _ _ _ _ _ Hhex H) as (Hne & Ht & Hs).
  apply createToken_ok in H as (Hacc & Hhash & _ & _ & Hd).
  assert (trusted_tokens (adb a') !! tk_ID r = Some (row_of_token r)) as Hrow.
  { unfold adb. rewrite Hd. cbn. apply lookup_insert_eq. }
  pose proof (co_db _ (ev_ok _ _ Hev)) as Hdb. unfold requireToken. rewrite (present_bearer _ _ _ Hne Ht Hs Hreq), Hj. split.
  - intros Hf. destruct (ad_token _ Hdb _ _ Hrow) as [x Hx]. destruct (ad_account _ Hdb _ _ Hx) as [Hid _]. cbn in Hid.
    rewrite Hacc in Hid. unfold lookupTrustedToken. rewrite Ht, <- Hhash.
    destruct (on_db_read_found (fun d => first_row (token_hashed (tk_TokenHash r)) (trusted_tokens d)) a' (tk_ID r, row_of_token r) Hf)
      as (b & Eb & _ & _).
    { apply first_row_unique; [done|by apply bool_decide_eq_true|]. intros k' v' Hk' Hv'%bool_decide_eq_true.
      by eapply (ad_token_hash _ Hdb). }
    unfold GetTrustedTokenByHash. rewrite Eb. change (tt_AccountID (row_of_token r)) with (tk_AccountID r).
    rewrite Hacc, (good_id_trim _ Hid), bool_decide_false by apply Hid.
    change (tt_AccountID (row_of_token r)) with (tk_AccountID r). rewrite Hacc, (good_id_trim _ Hid), set_owner by done. eauto.
  - intros b Hb. unfold on_db in Hb. destruct (deleteToken (tk_ID r) acc (au_conn a')) as [y c] eqn:Ed.
    injection Hb as -> <-. unfold deleteToken in Ed. apply bind_ok in Ed as (n & c1 & Ed%write_ok & E1). destruct (n =? 0); [done|]. unfold mret, M_ret in E1. simplify_eq.
    injection Ed as _ Ed. unfold lookupTrustedToken. rewrite Ht, <- Hhash.
    destruct (on_db_read_none (fun d => first_row (token_hashed (tk_TokenHash r)) (trusted_tokens d)) (with_conn c a')) as (e & b & Eb).
    { destruct (first_row _ _) as [[i u]|] eqn:Ef; [|done]. apply first_row_Some in Ef as [Hi Hu%bool_decide_eq_true].
      unfold adb in Hi. cbn in Hi. rewrite <- Ed in Hi. cbn in Hi. apply lookup_keep_Some in Hi as [Hi Hk]. change (data (au_conn a')) with (adb a') in Hi.
      assert (i = tk_ID r) as -> by by eapply (ad_token_hash _ Hdb). rewrite Hrow in Hi. simplify_eq.
      cbn in Hk. by rewrite !bool_decide_true in Hk. }
    unfold GetTrustedTokenByHash. rewrite Eb. eauto.
Qed.

End claims.

(** ** Just-in-time tokens *)
Lemma verify_sound cr v now token i :
  verify cr (Some v) now token = Some i -> jv_tokenPrefix v <> "" ->
  has_prefix (jv_tokenPrefix v) (trim token) = true /\
  exists p0 p1 js claims, trim_prefix (jv_tokenPrefix v) (trim token) = p0 +:+ String "." p1 /\
    raw_url_decode (trim p1) = Some (hmac_sha256 cr (jv_key v) (jv_tokenPrefix v +:+ trim p0)) /\
    raw_url_decode (trim p0) = Some js /\ unmarshal_claims (json_value cr js) = Some claims /\
    claims_allowed v now claims = true /\ deriveJITAccountIdentity cr claims = Some i.
Proof.
  intros H Hp. unfold verify in H. cbn [mbind option_bind] in H. rewrite (bool_decide_false (jv_tokenPrefix v = "")) in H by done.
  destruct (bool_decide _); [done|]. destruct (has_prefix _ _) eqn:Epre; [|done]. split; [done|]. cbn [negb] in H.
  cbn [split_n] in H. destruct (cut "." _) as [p0 [p1|]] eqn:Ec; [|done]. apply cut_some in Ec as [Ec _].
  destruct (bool_decide _ || _); [done|]. destruct (raw_url_decode (trim p1)) as [sig|] eqn:Esig; [|done]. cbn [mbind option_bind] in H.
  destruct (bool_decide_reflect (sig = hmac_sha256 cr (jv_key v) (jv_tokenPrefix v +:+ trim p0))) as [->|]; [|done]. cbn [negb] in H.
  destruct (raw_url_decode (trim p0)) as [js|] eqn:Ejs; [|done]. cbn [mbind option_bind] in H.
  destruct (unmarshal_claims _) as [claims|] eqn:Ecl; [|done]. cbn [mbind option_bind] in H.
  destruct (claims_allowed v now claims) eqn:Eal; [|done]. exists p0, p1, js, claims. by split_and!.
Qed.

(** The prefixes of the two channels. *)
Lemma prefixes_differ s : has_prefix jitTokenPrefix s = true -> has_prefix dashboardJitTokenPrefix s = false.
Proof.
  intros H. apply has_prefix_inv in H. rewrite H. reflexivity.
Qed.

(** A just-in-time token is accepted only with a signature of its channel's
    key over the channel's prefix and the payload, before it expires, and with
    the scope of the channel; the identity is the one of its claims: an account
    id that can be scoped, of at most 62 bytes, and never a generated one.  A
    token that one channel accepts, the other refuses whatever its key is. *)
Theorem jit_tokens_are_signed_for_their_channel cr key v now token i :
  crypto_ok cr -> newJITTokenVerifier key = Some v \/ newDashboardJITTokenVerifier key = Some v ->
  verify cr (Some v) now token = Some i ->
  (exists p0 p1 js claims, trim token = jv_tokenPrefix v +:+ p0 +:+ String "." p1 /\
     raw_url_decode (trim p1) = Some (hmac_sha256 cr (trim key) (jv_tokenPrefix v +:+ trim p0)) /\
     raw_url_decode (trim p0) = Some js /\ unmarshal_claims (json_value cr js) = Some claims /\
     claims_allowed v now claims = true /\ deriveJITAccountIdentity cr claims = Some i) /\
  good_id (ji_AccountID i) /\ (String.length (ji_AccountID i) <= 62)%nat /\
  (forall hex, forall_char is_hex hex = true -> ji_AccountID i <> accountIDPrefix +:+ hex) /\
  (forall key' v', jv_tokenPrefix v' <> jv_tokenPrefix v ->
     newJITTokenVerifier key' = Some v' \/ newDashboardJITTokenVerifier key' = Some v' -> verify cr (Some v') now token = None).
Proof.
  intros Hcr Hv H.
  assert (forall key v, newJITTokenVerifier key = Some v \/ newDashboardJITTokenVerifier key = Some v ->
    jv_key v = trim key /\ (jv_tokenPrefix v = jitTokenPrefix \/ jv_tokenPrefix v = dashboardJitTokenPrefix)) as Hnew.
  { intros k w [Hw|Hw]; unfold newJITTokenVerifier, newDashboardJITTokenVerifier in Hw; destruct (bool_decide _); simplify_eq; auto. }
  destruct (Hnew _ _ Hv) as [Hk Hp].
  assert (jv_tokenPrefix v <> "") as Hne by (by destruct Hp as [-> | ->]).
  destruct (verify_sound _ _ _ _ _ H Hne) as (Hpre & p0 & p1 & js & claims & Ht & Hsig & Hjs & Hcl & Hal & Hi).
  destruct (jit_identity_ok _ _ _ Hcr Hi) as (Hid & _ & Hlen & Hjit). split_and!; [|done|done|..].
  - exists p0, p1, js, claims. rewrite <- Hk. split_and!; try done. rewrite (has_prefix_inv _ _ Hpre) at 1. by rewrite Ht.
  - intros hex Hhex. by apply jit_id_not_hex.
  - intros key' v' Hd Hv'. destruct (verify cr (Some v') now token) as [i'|] eqn:E; [|done]. exfalso.
    destruct (Hnew _ _ Hv') as [_ Hp']. destruct (verify_sound _ _ _ _ _ E) as [Hpre' _]; [by destruct Hp' as [-> | ->]|].
    destruct Hp as [E1|E1], Hp' as [E2|E2]; rewrite E1, E2 in *; try done;
      [pose proof (prefixes_differ _ Hpre)|pose proof (prefixes_differ _ Hpre')]; congruence.
Qed.


(** C22: Clients of different accounts are isolated from the token up: for two
    requests that the execution API admits for different owners, in whatever
    states, no session id of one is the scoped id of a session of the other,
    and neither can read an id of the other back. *)
Theorem token_holders_are_isolated cfg fb fb' env env' r r' a a' c c' b b' s s' :
  crypto_ok (ac_crypto cfg) -> console_ok a -> console_ok a' ->
  requireToken cfg fb env r a = (Next c, b) -> requireToken cfg fb' env' r' a' = (Next c', b') ->
  requestOwnerIDFromGin c <> requestOwnerIDFromGin c' -> trim s <> "" -> trim s' <> "" ->
  scopeTerminalSessionID (requestOwnerIDFromGin c) s <> scopeTerminalSessionID (requestOwnerIDFromGin c') s' /\
  unscopeTerminalSessionID (requestOwnerIDFromGin c') (scopeTerminalSessionID (requestOwnerIDFromGin c) s) = None.
Proof.
  intros Hcr Hok Hok' H H' Hne Hs Hs'. apply requireToken_spec in H as [_ (o & -> & _ & _ & Ho)]; [|done..].
  apply requireToken_spec in H' as [_ (o' & -> & _ & _ & Ho')]; [|done..].
  assert (forall x, good_id x -> requestOwnerIDFromGin (mkContext None None (Some x)) = x) as Hx by apply good_id_trim.
  rewrite (Hx o Ho), (Hx o' Ho') in *. apply owners_have_disjoint_sessions; try done; try by apply good_id_owner.
  by rewrite (good_id_trim o Ho), (good_id_trim o' Ho').
Qed.

(** ** Witnesses *)

(** Stand-ins for the cryptography: the digest of everything is the same, a
    signature is the key before the message, a password hash shows the
    password. *)
Definition demo_crypto : crypto :=
  mkCrypto (fun _ => "00112233445566778899aabb") (fun key msg => key +:+ msg)
    (fun _ => PJson (JObject [("iss", JString "Acme"); ("sub", JString "bot"); ("scope", JString "dashboard")])).
Definition demo_cfg : auth_config :=
  mkAuthConfig (fun s => "h:" +:+ s) demo_crypto
    (fun _ p => Some (("$" +:+ p) +:+ "$$")) (fun h p => bool_decide (h = ("$" +:+ p) +:+ "$$"))
    true (newDashboardJITTokenVerifier "dk") (newJITTokenVerifier "mk") "token".

Definition demo_root : Account := mkAccount "Root" "root" "$top$$" "bcrypt" true 1 1.
Definition demo_bob : Account := mkAccount "Bob" "bob" "$pw$$" "bcrypt" false 2 2.
Definition demo_db : DB :=
  mkDB ∅ ∅ ∅ ∅ ∅ ∅ ∅ {[ "acc_a0" := demo_root; "acc_b1" := demo_bob ]}
    {[ "tok_1" := mkTrustedToken "acc_b1" "ci" "ci" "h:secret" "******" false 3 3 ]}
    {[ "apik_1" := mkApiKey "acc_a0" "ops" "ops" "h:obxk_1" "******" 3 3 ]}.
Definition demo_auth : ConsoleAuth :=
  mkAuth (mkConn demo_db [])
    {[ "s1" := mkSessionState (mkSessionAccount "acc_a0" "Root" true) 1000;
       "s2" := mkSessionState (mkSessionAccount "acc_b1" "Bob" false) 1000 ]} [].

Definition demo_tries : tries := mkTries (fun _ => Some "ff") (fun _ => Some "c2") (fun _ => 5).
Definition demo_env : auth_env := mkAuthEnv 10 (Some "s9") "salt" demo_tries (fun _ a => a).
Definition demo_request (authorization : string) (cookie : option string) (param : string) (b : payload) : request :=
  mkRequest authorization cookie (fun _ => None) (fun _ => param) b true "".

Lemma demo_crypto_ok : crypto_ok demo_crypto.
Proof. by split. Qed.

Lemma demo_bcrypt_ok : bcrypt_ok demo_cfg.
Proof.
  split; cbn; intros salt p h [= <-]; [by apply bool_decide_eq_true|]. split; [done|].
  apply (trimmed_join "$" ("$" +:+ p) "$"); [done..|]. rewrite !string_app_cons. by apply no_lead_plain.
Qed.

Lemma demo_env_ok : auth_env_ok demo_env.
Proof. split; [intros i h [= <-]; done|]. intros n a. apply evolves_refl. Qed.

Lemma demo_quiet : quiet demo_env.
Proof. done. Qed.

Ltac demo_rows :=
  repeat match goal with
  | H : <[_ := _]> _ !! _ = Some _ |- _ => apply lookup_insert_Some in H as [[<- <-]|[? H]]
  | H : {[ _ := _ ]} !! _ = Some _ |- _ => apply lookup_singleton_Some in H as [<- <-]
  end.

Lemma demo_db_ok : auth_db_ok demo_db.
Proof.
  constructor; cbn; intros; demo_rows; try done; by eexists.
Qed.

Lemma demo_ok : console_ok demo_auth.
Proof.
  constructor; cbn; [apply demo_db_ok|intros sid st Hst; demo_rows; done|].
  intros sid st Hst Hadm. demo_rows; [|done]. by exists demo_root.
Qed.

Definition demo_history : list auth_op :=
  [OServe PostToken demo_env demo_env (demo_request "" (Some "s2") "" (PJson (JObject [("name", JString "dev")])));
   OToken true demo_env (demo_request "Bearer obx_ff" None "" PEmpty);
   OServe DeleteAccountByPath demo_env demo_env (demo_request "bearer obxk_1" None "acc_b1" PEmpty);
   OToken true demo_env (demo_request "Bearer obx_ff" None "" PEmpty)].

Lemma demo_history_ok : Forall op_ok demo_history.
Proof. unfold demo_history. repeat (apply List.Forall_cons; [first [exact I|exact demo_env_ok]|]). apply List.Forall_nil. Qed.

Lemma account_tables_stay_consistent_witness :
  console_ok (foldl (run_auth demo_cfg) demo_auth demo_history) /\
  accounts (adb (foldl (run_auth demo_cfg) demo_auth demo_history)) = {[ "acc_a0" := demo_root ]}.
Proof.
  split; [|by vm_compute].
  apply (account_tables_stay_consistent demo_cfg demo_crypto_ok); [apply demo_ok|apply demo_history_ok].
Defined.

Definition demo_init : init_env := mkInitEnv (Some "0a") (Some "0b") "salt" (fun _ => Some "0c") 7 demo_tries.
Definition demo_empty : ConsoleAuth := mkAuth (mkConn empty_db []) ∅ [].

Lemma demo_empty_ok : console_ok demo_empty.
Proof. split; [split|..]; cbn; intros; by simplify_map_eq. Qed.

Definition demo_started : ConsoleAuth := (on_db (InitializeAdminAccount demo_cfg demo_init "" "" "key1") demo_empty).2.

Lemma an_administrator_always_remains_witness :
  exists x, (on_db (InitializeAdminAccount demo_cfg demo_init "" "" "key1") demo_empty).1 = Ok x /\
    ir_AccountID x = "acc_0c" /\ ir_Username x = "admin-0a" /\
    admin_is "acc_0c" "admin-0a" (adb (foldl (run_auth demo_cfg) demo_started demo_history)).
Proof.
  eexists. split_and!; [by vm_compute|by vm_compute|by vm_compute|].
  apply (an_administrator_always_remains demo_cfg demo_crypto_ok demo_init "" "" "key1" demo_empty
           (mkInitResult "acc_0c" "admin-0a" "0b" true false true "initial-admin" "key1") demo_started demo_history);
    [apply demo_empty_ok|by intros i h [= <-]|apply demo_history_ok|by vm_compute].
Defined.

Lemma routes_enforce_their_access_witness :
  exists c a', middleware demo_cfg (access_of PostAccount) demo_env (demo_request "Bearer obxk_1" None "" PEmpty) demo_auth = (Next c, a') /\
    exists sa, requestSessionAccountFromGin c = Some sa /\ sa_IsAdmin sa = true /\ admin_is (sa_AccountID sa) (sa_Username sa) (adb a').
Proof.
  destruct (middleware demo_cfg (access_of PostAccount) demo_env (demo_request "Bearer obxk_1" None "" PEmpty) demo_auth) as [g a'] eqn:E.
  pose proof (routes_enforce_their_access demo_cfg demo_crypto_ok PostAccount demo_env (demo_request "Bearer obxk_1" None "" PEmpty)
    demo_auth g a' demo_ok ltac:(done) E) as H. vm_compute in E. destruct g as [c|]; [|done].
  exists c, a'. split; [done|]. destruct H as (_ & (sa & H1 & H2 & H3) & _). exists sa. split; [done|]. split; [by apply H3|]. by apply H2, H3.
Defined.

Lemma tokens_authenticate_their_owner_witness :
  exists c a', requireToken demo_cfg false demo_env (demo_request "bearer secret" None "" PEmpty) demo_auth = (Next c, a') /\
    requestOwnerIDFromGin c = "acc_b1" /\ good_owner "acc_b1".
Proof.
  destruct (requireToken demo_cfg false demo_env (demo_request "bearer secret" None "" PEmpty) demo_auth) as [g a'] eqn:E.
  pose proof (tokens_authenticate_their_owner demo_cfg demo_crypto_ok false demo_env (demo_request "bearer secret" None "" PEmpty)
    demo_auth g a' demo_ok E) as H. vm_compute in E. destruct g as [c|]; [|done]. injection E as <- <-.
  destruct H as (o & <- & _ & _ & H). eexists _, _. split; [done|]. split; [by vm_compute|exact H].
Defined.

Definition demo_root_context : context :=
  mkContext (Some (mkSessionAccount "acc_a0" "Root" true)) (Some requestAuthMethodCookie) None.

Lemma deleted_account_is_locked_out_witness :
  let r := demo_request "" (Some "s1") "acc_b1" PEmpty in
  let a' := (DeleteAccount demo_env demo_root_context r demo_auth).2 in
  accounts (adb a') = delete "acc_b1" (accounts demo_db) /\ "acc_b1" ∈ au_revoked a' /\ au_sessions a' !! "s2" = None.
Proof.
  cbn zeta. destruct (DeleteAccount demo_env demo_root_context (demo_request "" (Some "s1") "acc_b1" PEmpty) demo_auth) as [x a'] eqn:E.
  pose proof (deleted_account_is_locked_out demo_cfg demo_env demo_root_context (demo_request "" (Some "s1") "acc_b1" PEmpty)
    demo_auth x a' demo_ok demo_quiet E) as H.
  assert (rs_status x = 204) as Hx by (vm_compute in E; by injection E as <- _).
  destruct (H Hx) as (_ & H1 & H2 & _ & _ & H3 & _). split_and!; [exact H1|exact H2|].
  destruct (au_sessions a' !! "s2") as [st|] eqn:Es; [|done]. apply H3 in Es as [Es Hne]. cbn in Es. injection Es as <-. by destruct Hne.
Defined.

Definition demo_change : payload :=
  PJson (JObject [("current_password", JString "pw"); ("new_password", JString "next")]).
Definition demo_bob_context : context :=
  mkContext (Some (mkSessionAccount "acc_b1" "Bob" false)) (Some requestAuthMethodCookie) None.

Lemma password_change_ends_the_other_sessions_witness :
  let r := demo_request "" (Some "s2") "" demo_change in
  let a' := (ChangePassword demo_cfg demo_env demo_bob_context r demo_auth).2 in
  exists acc', accounts (adb a') !! "acc_b1" = Some acc' /\ verifyPassword demo_cfg acc' "next" = true /\ au_sessions a' !! "s2" = None.
Proof.
  cbn zeta. destruct (ChangePassword demo_cfg demo_env demo_bob_context (demo_request "" (Some "s2") "" demo_change) demo_auth) as [x a'] eqn:E. cbn [snd].
  pose proof (password_change_ends_the_other_sessions demo_cfg demo_env demo_bob_context (demo_request "" (Some "s2") "" demo_change)
    demo_auth x a' (mkSessionAccount "acc_b1" "Bob" false) (mkChangePassword "pw" "next") demo_ok demo_quiet demo_bcrypt_ok eq_refl eq_refl E) as H.
  assert (rs_status x = 204 /\ exists b, rs_cookie x = CookieSet "s9" (time_add 10 dashboardSessionTTL) b) as [Hx [b Hc]].
  { vm_compute in E. injection E as <- _. split; [done|]. by eexists. }
  destruct (H Hx) as (acc & acc' & sid & _ & _ & H1 & H2 & _ & _ & H3 & _ & H4). rewrite Hc in H3. injection H3 as <- _.
  exists acc'. split_and!; [|exact H2|].
  - rewrite H1. apply lookup_insert_eq.
  - destruct (au_sessions a' !! "s2") as [st|] eqn:Es; [|done]. apply H4 in Es as [Es Hne]; [|done]. cbn in Es. injection Es as <-. by destruct Hne.
Defined.

Definition demo_carol : payload := PJson (JObject [("username", JString " Carol "); ("password", JString "pass")]).
Definition demo_registered : ConsoleAuth :=
  (Register demo_cfg demo_env demo_root_context (demo_request "" (Some "s1") "" demo_carol) demo_auth).2.

Lemma registered_account_can_log_in_witness :
  exists y b, Login demo_cfg demo_env (demo_request "" None "" demo_carol) demo_registered = (y, b) /\ rs_status y = 200 /\
    exists st, au_sessions b !! "s9" = Some st /\ sa_Username (ss_Account st) = "Carol" /\ sa_IsAdmin (ss_Account st) = false.
Proof.
  destruct (registered_account_can_log_in demo_cfg demo_env demo_env demo_root_context (demo_request "" (Some "s1") "" demo_carol)
    (demo_request "" None "" demo_carol) demo_auth
    (Register demo_cfg demo_env demo_root_context (demo_request "" (Some "s1") "" demo_carol) demo_auth).1 demo_registered
    (mkCredentials " Carol " "pass") "s9" demo_ok demo_env_ok demo_quiet demo_bcrypt_ok eq_refl)
    as (id & t1 & t2 & y & b & Hb & _ & H1 & H2 & H3); [apply surjective_pairing|by vm_compute..|].
  exists y, b. split; [exact H1|]. split; [exact H2|]. eexists. split; [rewrite H3; apply lookup_insert_eq|].
  split; reflexivity.
Defined.

Definition demo_created : res trustedTokenRecord * ConsoleAuth :=
  on_db (createToken demo_cfg demo_tries "acc_b1" "dev" None) demo_auth.

Lemma created_token_authenticates_witness :
  exists b, requireToken demo_cfg false demo_env (demo_request "Bearer obx_ff" None "" PEmpty) demo_created.2 =
    (Next (mkContext None None (Some "acc_b1")), b).
Proof.
  apply (created_token_authenticates demo_cfg demo_tries "acc_b1" "dev" None demo_auth
    (mkTokenRecord "tok_c2" "acc_b1" "dev" "dev" "obx_ff" "h:obx_ff" "******" true 5 5) demo_created.2 demo_env
    (demo_request "Bearer obx_ff" None "" PEmpty) demo_ok); [by intros i h [= <-]|by vm_compute|by vm_compute|by vm_compute|by vm_compute].
Defined.

(** The payload "aa" and its signature: the key, the prefix and the payload in
    base64. *)
Definition demo_jit : string := "obx_jit_v1.aa.bWtvYnhfaml0X3YxLmFh".

Lemma jit_tokens_are_signed_for_their_channel_witness :
  exists i, verify demo_crypto (newJITTokenVerifier "mk") 0 demo_jit = Some i /\
    ji_AccountID i = "acc_jit_acme_bot_001122334455" /\
    verify demo_crypto (newDashboardJITTokenVerifier "mk") 0 demo_jit = None.
Proof.
  destruct (verify demo_crypto (newJITTokenVerifier "mk") 0 demo_jit) as [i|] eqn:E; [|by vm_compute in E].
  exists i. split; [done|].
  destruct (jit_tokens_are_signed_for_their_channel demo_crypto "mk" (mkVerifier "mk" jitTokenPrefix "") 0 demo_jit i demo_crypto_ok
    (or_introl eq_refl) E) as (_ & _ & _ & _ & H). split.
  - vm_compute in E. by injection E as <-.
  - apply (H "mk" (mkVerifier "mk" dashboardJitTokenPrefix dashboardJitScope)); [done|by right].
Defined.

Lemma token_holders_are_isolated_witness :
  exists c c', (requireToken demo_cfg false demo_env (demo_request "Bearer secret" None "" PEmpty) demo_auth).1 = Next c /\
    (requireToken demo_cfg false demo_env (demo_request ("Bearer " +:+ demo_jit) None "" PEmpty) demo_auth).1 = Next c' /\
    scopeTerminalSessionID (requestOwnerIDFromGin c) "s" <> scopeTerminalSessionID (requestOwnerIDFromGin c') "s".
Proof.
  exists (mkContext None None (Some "acc_b1")), (mkContext None None (Some "acc_jit_acme_bot_001122334455")).
  split; [by vm_compute|]. split; [by vm_compute|].
  apply (token_holders_are_isolated demo_cfg false false demo_env demo_env (demo_request "Bearer secret" None "" PEmpty)
    (demo_request ("Bearer " +:+ demo_jit) None "" PEmpty) demo_auth demo_auth _ _
    (requireToken demo_cfg false demo_env (demo_request "Bearer secret" None "" PEmpty) demo_auth).2
    (requireToken demo_cfg false demo_env (demo_request ("Bearer " +:+ demo_jit) None "" PEmpty) demo_auth).2 "s" "s"
    demo_crypto_ok demo_ok demo_ok); by vm_compute.
Defined.

(** ** Where the code does not do what it means to *)

(** A login that was already checked when the account is deleted opens its
    session afterwards, and the session of the deleted account is accepted:
    a cookie is not checked against the accounts. *)
Definition racing_env : auth_env :=
  mkAuthEnv 10 (Some "s9") "salt" demo_tries (fun _ a =>
    (DeleteAccount demo_env demo_root_context (demo_request "" (Some "s1") "acc_b1" PEmpty) a).2).
Definition demo_bob_login : payload := PJson (JObject [("username", JString "bob"); ("password", JString "pw")]).

Example login_can_survive_the_deletion :
  let a := (Login demo_cfg racing_env (demo_request "" None "" demo_bob_login) demo_auth).2 in
  accounts (adb a) !! "acc_b1" = None /\
  (RequireAuth demo_cfg demo_env (demo_request "" (Some "s9") "" PEmpty) a).1 = Next demo_bob_context.
Proof. split; vm_compute; reflexivity. Qed.

(** Passwords keep the spaces around them when an account is created or logs
    in, and lose them when the password is changed: a password with a space at
    its end opens a session but cannot be changed. *)
Definition demo_spaced : ConsoleAuth :=
  mkAuth (mkConn (with_accounts <["acc_c2" := mkAccount "Carol" "carol" "$pass $$" "bcrypt" false 4 4]> demo_db) [])
    {[ "s3" := mkSessionState (mkSessionAccount "acc_c2" "Carol" false) 1000 ]} [].

Example spaced_password_cannot_be_changed :
  rs_status (Login demo_cfg demo_env (demo_request "" None "" (PJson (JObject [("username", JString "carol"); ("password", JString "pass ")])))
    demo_spaced).1 = 200 /\
  rs_status (serve demo_cfg PostPassword demo_env demo_env (demo_request "" (Some "s3") ""
    (PJson (JObject [("current_password", JString "pass "); ("new_password", JString "next")]))) demo_spaced).1 = 401.
Proof. split; vm_compute; reflexivity. Qed.

(** A token value with the prefix of just-in-time tokens can be created, but
    its bearer is taken for one with a just-in-time token and refused. *)
Example jit_like_token_is_accepted_and_never_works :
  let '(r, a) := on_db (createToken demo_cfg demo_tries "acc_b1" "dev" (Some "obx_jit_v1.mine")) demo_auth in
  is_ok r = true /\
  (requireToken demo_cfg false demo_env (demo_request "Bearer obx_jit_v1.mine" None "" PEmpty) a).1 = Stop invalid_token.
Proof. vm_compute. split; reflexivity. Qed.

(** The initial API key is stored as configured, while a presented key is
    trimmed: a configured key with a space at its end never matches. *)
Example initial_key_with_a_space_never_works :
  let '(r, a) := on_db (InitializeAdminAccount demo_cfg demo_init "" "" "key1 ") demo_empty in
  is_ok r = true /\ (lookupAPIKey demo_cfg "key1 " a).1 = None.
Proof. vm_compute. split; reflexivity. Qed.

(** The offset of a page is computed in 64 bits and can wrap to zero: a page
    far behind the last one shows the accounts of the first page. *)
Example far_page_shows_the_first_accounts :
  page_offset (2 ^ 62 + 1) 4 = 0 /\ is_i64 (2 ^ 62 + 1) = true.
Proof. split; reflexivity. Qed.

End AuthClaims.
Export AuthClaims.
