(* ===== verification/Rest.v ===== *)
(** The HTTP handlers of workers, terminal sessions, tasks and commands
    (console/internal/httpapi: worker_handler.go, worker_stats.go,
    session_handler.go, task_handler.go, command_handler.go,
    sandbox_metadata.go, tool_capability.go), over the service of the console. *)
From S2P Require Import Prelude.
From S2P Require Import Json.
From S2P Require Import Sql.
From S2P Require Import Proto.
From S2P Require Import Registry.
From S2P Require Import RouteStore.
From S2P Require Import OwnerScope.
From S2P Require Import TerminalRoutes.
From S2P Require Import SessionRuntime.
From S2P Require Import Service.
From S2P Require Import Dispatch.
From S2P Require Import DispatchProps.
From S2P Require Import Tasks.
From S2P Require Import Submit.
From S2P Require Import Connect.
From S2P Require Import AuthText.
From S2P Require Import Accounts.
From S2P Require Import Auth.

Module Rest.

(** ** The handler and its surroundings *)

(** The fields the handlers read; [h_...] is [false] where the interface or
    pointer is nil.  The store is the one of the service. *)
Record WorkerHandler := mkHandler {
  h_offlineTTL : duration;
  h_store : bool;
  h_dispatcher : bool;
  h_provisioning : bool;
  h_inflightStats : bool;
  h_sessions : bool;
  h_buildVersion : string }.

(** What the outside decides during a request: the clock at every call of
    [nowFn], the ids of a new worker, what the service sees while it submits a
    task or dispatches a command, and what other requests do to the service
    between two calls of a handler. *)
Record rest_env := mkRestEnv {
  re_now : nat -> time;
  re_ids : nat -> res string * res string;
  re_submit : submit_env;
  re_attempts : option duration -> nat -> attempt_env;
  re_others : RegistryService -> RegistryService }.

(** ** Responses *)
Record workerItem := mkWorkerItem {
  wi_NodeID : string;
  wi_NodeName : string;
  wi_ExecutorKind : string;
  wi_Capabilities : list CapabilityDeclaration;
  wi_Labels : gmap string string;
  wi_Version : string;
  wi_Status : WorkerStatus;
  wi_RegisteredAt : time;
  wi_LastSeenAt : time }.

Record CapabilityInflightEntry := mkInflightEntry {
  ie_Name : string;
  ie_Inflight : Z;
  ie_MaxInflight : Z }.

Record WorkerInflightSnapshot := mkInflightSnapshot {
  is_NodeID : string;
  is_ActiveSessionCount : Z;
  is_Known : bool;
  is_MaxActiveSessions : Z;
  is_Capabilities : list CapabilityInflightEntry }.

Record sessionItem := mkSessionItem {
  si_AccountID : string;
  si_SessionID : string;
  si_WorkerID : string;
  si_Status : string;
  si_LeaseExpiresAt : time;
  si_LastUsedAt : time;
  si_CreatedAt : time }.

Record taskErrorBody := mkTaskError { te_Code : string; te_Message : string }.

Record taskResponse := mkTaskResponse {
  tr_TaskID : string;
  tr_RequestID : string;
  tr_CommandID : string;
  tr_Capability : string;
  tr_Status : TaskStatus;
  tr_Result : payload;
  tr_Error : option taskErrorBody;
  tr_CreatedAt : time;
  tr_UpdatedAt : time;
  tr_DeadlineAt : time;
  tr_CompletedAt : option time;
  tr_StatusURL : string }.

Record terminalCommandResponse := mkTerminalResponse {
  tc_SessionID : string;
  tc_Created : bool;
  tc_Stdout : string;
  tc_Stderr : string;
  tc_ExitCode : Z;
  tc_StdoutTruncated : bool;
  tc_StderrTruncated : bool;
  tc_LeaseExpiresUnixMS : Z }.

Record computerUseWorkerItem := mkCUWorker {
  cw_WorkerID : string;
  cw_NodeName : string;
  cw_Status : string;
  cw_Capabilities : option (list CapabilityDeclaration) }.   (** [None] is the nil slice *)

Record computerUseResult := mkCUResult {
  cu_WorkerList : option (list computerUseWorkerItem);
  cu_Stdout : string;
  cu_Stderr : string;
  cu_ExitCode : Z;
  cu_StdoutTruncated : bool;
  cu_StderrTruncated : bool }.

Record sandboxMetadataCapability := mkSandboxCapability {
  sm_Name : string;
  sm_Available : bool;
  sm_OnlineNodes : Z;
  sm_MaxInflight : Z }.

Record sandboxMetadataLimits := mkSandboxLimits {
  sl_MaxTaskTimeoutMS : Z;
  sl_MaxTaskWaitMS : Z;
  sl_MaxTerminalTimeoutMS : Z;
  sl_DefaultTerminalLeaseSec : Z;
  sl_MaxTerminalLeaseSec : Z }.

Record sandboxMetadataResponse := mkSandbox {
  sb_Provider : string;
  sb_APIVersion : string;
  sb_Version : string;
  sb_Limits : sandboxMetadataLimits;
  sb_Capabilities : list sandboxMetadataCapability;
  sb_Workers : WorkerStats }.

Inductive rest_body :=
  | RNone
  | RError (msg : string)
  | RWorkers (items : list workerItem) (total page pageSize : Z)
  | RWorkerSecret (nodeID workerType secret : string)
  | RStats (stats : WorkerStats) (staleAfterSec : Z) (generatedAt : time)
  | RInflight (workers : list WorkerInflightSnapshot) (generatedAt : time)
  | RSandbox (m : sandboxMetadataResponse)
  | RSessions (items : list sessionItem) (total page pageSize : Z)
  | RSession (item : sessionItem)
  | RTask (t : taskResponse)
  | REcho (message : string)
  | RTerminal (t : terminalCommandResponse)
  | RComputerUse (v : json).

Record reply := mkReply { rp_status : Z; rp_body : rest_body }.
Definition fail (status : Z) (msg : string) : reply := mkReply status (RError msg).

(** [gin.Recovery] answers a request whose handler panicked. *)
Definition panicked : reply := mkReply 500 RNone.

(** ** Who asks *)
Definition resolveWorkerAccessScope (c : context) : option (string * bool) :=
  match requestSessionAccountFromGin c with
  | Some account =>
      let ownerID := trim (sa_AccountID account) in
      if bool_decide (ownerID = "") then None else Some (ownerID, sa_IsAdmin account)
  | None => Some ("system", true)
  end.

Definition with_scope (c : context) (s : RegistryService) (k : string -> bool -> reply * RegistryService)
    : reply * RegistryService :=
  match resolveWorkerAccessScope c with
  | None => (fail 401 "authentication required", s)
  | Some (ownerID, isAdmin) => k ownerID isAdmin
  end.

Definition with_owner (c : context) (s : RegistryService) (k : string -> reply * RegistryService)
    : reply * RegistryService :=
  let ownerID := requestOwnerIDFromGin c in
  if bool_decide (ownerID = "") then (fail 401 "invalid or missing token", s) else k ownerID.

(** ** Workers (worker_handler.go) *)
Definition worker_status (raw : string) : option WorkerStatus :=
  if bool_decide (raw = "all") then Some StatusAll
  else if bool_decide (raw = "online") then Some StatusOnline
  else if bool_decide (raw = "offline") then Some StatusOffline else None.

Definition item_of_view (v : WorkerView) : workerItem :=
  let w := v_Worker v in
  mkWorkerItem (w_NodeID w) (w_NodeName w) (w_ExecutorKind w) (w_Capabilities w) (w_Labels w) (w_Version w)
    (v_Status v) (w_RegisteredAt w) (w_LastSeenAt w).

Definition ListWorkers (h : WorkerHandler) (env : rest_env) (c : context) (r : request) (s : RegistryService)
    : reply * RegistryService :=
  with_scope c s (fun ownerID isAdmin =>
    match parsePositiveIntQuery r "page" 1 with
    | None => (fail 400 "page must be a positive integer", s)
    | Some page =>
        match parsePositiveIntQuery r "page_size" 20 with
        | None => (fail 400 "page_size must be a positive integer", s)
        | Some pageSize =>
            let pageSize := if maxPageSize <? pageSize then maxPageSize else pageSize in
            match worker_status (DefaultQuery r "status" "all") with
            | None => (fail 400 "status must be one of all|online|offline", s)
            | Some status =>
                let owner := if isAdmin then "" else ownerID in
                let ty := if isAdmin then "" else WorkerTypeSys in
                match query (Some ([], 0)) (ListScoped status page pageSize (re_now env 0%nat) (h_offlineTTL h) owner ty) s with
                | (None, s) => (panicked, s)
                | (Some (workers, total), s) =>
                    (mkReply 200 (RWorkers (item_of_view <$> workers) total page pageSize), s)
                end
            end
        end
    end).

Definition create_worker_field (name : string) : option (json -> string -> string * bool) :=
  if equal_fold name "type" then Some dec_string else None.

Definition CreateWorker (h : WorkerHandler) (env : rest_env) (c : context) (r : request) (s : RegistryService)
    : reply * RegistryService :=
  with_scope c s (fun ownerID isAdmin =>
    if negb (h_provisioning h) then (fail 503 "worker provisioning is unavailable", s) else
    match unmarshal_struct create_worker_field "" (rq_body r) with
    | None => (fail 400 "invalid request body", s)
    | Some type =>
        let workerType := trim (to_lower type) in
        if negb (bool_decide (workerType = WorkerTypeNormal)) && negb (bool_decide (workerType = WorkerTypeSys))
        then (fail 400 "type must be one of normal|worker-sys", s) else
        if negb isAdmin && bool_decide (workerType = WorkerTypeNormal)
        then (fail 403 "only admin can create normal worker", s) else
        match CreateProvisionedWorkerForOwner (re_ids env) ownerID workerType (re_now env 0%nat) (h_offlineTTL h) s with
        | (Err err, s) =>
            (if error_is err ErrInvalidWorkerType then fail 400 "type must be one of normal|worker-sys"
             else fail 500 "failed to create worker", s)
        | (Ok (nodeID, workerSecret), s) => (mkReply 201 (RWorkerSecret nodeID workerType workerSecret), s)
        end
    end).

Definition owns_worker (ownerID : string) (v : WorkerView) : bool :=
  let label k := default "" (w_Labels (v_Worker v) !! k) in
  bool_decide (trim (label LabelOwnerIDKey) = ownerID) &&
  bool_decide (trim (to_lower (label LabelWorkerTypeKey)) = WorkerTypeSys).

Definition revoke_worker (node : string) (s : RegistryService) : reply * RegistryService :=
  match DeleteProvisionedWorker node s with
  | (Err _, s) => (fail 500 "failed to delete worker", s)
  | (Ok false, s) => (fail 404 "worker not found", s)
  | (Ok true, s) => (mkReply 204 RNone, s)
  end.

Definition DeleteWorker (h : WorkerHandler) (env : rest_env) (c : context) (r : request) (s : RegistryService)
    : reply * RegistryService :=
  with_scope c s (fun ownerID isAdmin =>
    let node := trim (rq_param r "node_id") in
    if bool_decide (node = "") then (fail 400 "node_id is required", s) else
    if negb (h_provisioning h) then (fail 503 "worker provisioning is unavailable", s) else
    if isAdmin then revoke_worker node s else
    match query None (GetByNodeID node (re_now env 0%nat) (h_offlineTTL h)) s with
    | (None, s) => (fail 404 "worker not found", s)
    | (Some worker, s) =>
        if negb (owns_worker ownerID worker) then (fail 404 "worker not found", s)
        else revoke_worker node (re_others env s)
    end).

Definition GetWorkerStartupCommand (r : request) (s : RegistryService) : reply * RegistryService :=
  if bool_decide (trim (rq_param r "node_id") = "") then (fail 400 "node_id is required", s)
  else (fail 410 "worker secret is returned only when creating the worker; delete and recreate to get a new startup command", s).

(** ** Statistics (worker_stats.go, InflightStats of service_dispatch.go) *)
Definition defaultStaleAfterSec : Z := 30.

Definition WorkerStatsHandler (h : WorkerHandler) (env : rest_env) (c : context) (r : request) (s : RegistryService)
    : reply * RegistryService :=
  with_scope c s (fun ownerID isAdmin =>
    match parsePositiveIntQuery r "stale_after_sec" defaultStaleAfterSec with
    | None => (fail 400 "stale_after_sec must be a positive integer", s)
    | Some staleAfterSec =>
        let now := re_now env 0%nat in
        let owner := if isAdmin then "" else ownerID in
        let ty := if isAdmin then "" else WorkerTypeSys in
        let '(stats, s) := query (mkWorkerStats 0 0 0 0)
          (StatsScoped now (h_offlineTTL h) (i64 (staleAfterSec * second)) owner ty) s in
        (mkReply 200 (RStats stats staleAfterSec now), s)
    end).

Definition inflight_of (x : activeSession) : WorkerInflightSnapshot :=
  let capacity := terminalCapacity x in
  mkInflightSnapshot (nodeID x) (cs_activeSessionCount capacity) (cs_known capacity) (cs_maxActiveSessions capacity)
    ((fun e => mkInflightEntry e.1 e.2.1 e.2.2) <$> allCapabilitiesSnapshot x).

Definition InflightStats (s : RegistryService) : list WorkerInflightSnapshot :=
  omap (fun kv => inflight_of <$> svc_heap s !! kv.2) (map_to_list (svc_sessions s)).

Definition WorkerInflight (h : WorkerHandler) (env : rest_env) (c : context) (s : RegistryService)
    : reply * RegistryService :=
  with_scope c s (fun ownerID isAdmin =>
    if negb (h_inflightStats h) then (mkReply 200 (RInflight [] (re_now env 0%nat)), s) else
    let snapshots := InflightStats s in
    if isAdmin then (mkReply 200 (RInflight snapshots (re_now env 0%nat)), s) else
    let '(nodeIDs, s) := query [] (ListNodeIDsByOwnerAndType ownerID WorkerTypeSys) (re_others env s) in
    let allowedNodeIDs : gset string := list_to_set (trim <$> nodeIDs) in
    (mkReply 200 (RInflight (filter (fun snap => trim (is_NodeID snap) ∈ allowedNodeIDs) snapshots) (re_now env 0%nat)), s)).

(** ** Terminal sessions (session_handler.go) *)
Definition defaultSessionPageSize : Z := 20.

Definition unixMilliTime (ms : Z) : time := if ms <=? 0 then zero_time else of_unix_milli ms.

Definition sessionItemFromView (v : TerminalSessionView) : sessionItem :=
  mkSessionItem (sv_AccountID v) (sv_SessionID v) (sv_WorkerID v) (sv_Status v)
    (unixMilliTime (sv_LeaseExpiresUnixMs v)) (unixMilliTime (sv_LastUsedUnixMs v))
    (unixMilliTime (sv_CreatedAtUnixMs v)).

(** The owner whose sessions are meant; the empty owner is every account. *)
Definition resolveConsoleSessionOwner (c : context) (r : request) (requireAdminAccountID : bool) : string + reply :=
  match resolveWorkerAccessScope c with
  | None => inr (fail 401 "authentication required")
  | Some (accountOwner, isAdmin) =>
      let requested := trim (Query r "account_id") in
      if isAdmin then
        if requireAdminAccountID && bool_decide (requested = "") then inr (fail 400 "account_id is required")
        else inl requested
      else if negb (bool_decide (requested = "")) && negb (bool_decide (requested = accountOwner))
      then inr (fail 404 "session not found") else inl accountOwner
  end.

(** [views[start:end]] with [start] and [end] as the handler computes them;
    [None] is the panic of the slice expression. *)
Definition session_page {A} (page pageSize : Z) (views : list A) : option (list A) :=
  let total := Z.of_nat (length views) in
  let start := i64 (i64 (page - 1) * pageSize) in
  let start := if total <? start then total else start in
  let stop := i64 (start + pageSize) in
  let stop := if total <? stop then total else stop in
  if (start <? 0) || (stop <? start) then None
  else Some (take (Z.to_nat (stop - start)) (drop (Z.to_nat start) views)).

Definition with_session_owner (c : context) (r : request) (requireAdminAccountID : bool) (h : WorkerHandler)
    (s : RegistryService) (k : string -> reply * RegistryService) : reply * RegistryService :=
  match resolveConsoleSessionOwner c r requireAdminAccountID with
  | inr x => (x, s)
  | inl ownerID => if negb (h_sessions h) then (fail 503 "session registry is unavailable", s) else k ownerID
  end.

Definition ListSessions (h : WorkerHandler) (env : rest_env) (c : context) (r : request) (s : RegistryService)
    : reply * RegistryService :=
  with_session_owner c r false h s (fun ownerID =>
    match parsePositiveIntQuery r "page" 1 with
    | None => (fail 400 "page must be a positive integer", s)
    | Some page =>
        match parsePositiveIntQuery r "page_size" defaultSessionPageSize with
        | None => (fail 400 "page_size must be a positive integer", s)
        | Some pageSize =>
            if maxPageSize <? pageSize then (fail 400 "page_size must be <= 100", s) else
            let '(views, s) := run_routes (ListTerminalSessions ownerID (unix_milli (re_now env 0%nat))) s in
            (match session_page page pageSize views with
             | None => panicked
             | Some items => mkReply 200 (RSessions (sessionItemFromView <$> items) (Z.of_nat (length views)) page pageSize)
             end, s)
        end
    end).

Definition with_session_id (r : request) (s : RegistryService) (k : string -> reply * RegistryService)
    : reply * RegistryService :=
  let sessionID := trim (rq_param r "session_id") in
  if bool_decide (sessionID = "") then (fail 404 "session not found", s) else k sessionID.

Definition GetSession (h : WorkerHandler) (env : rest_env) (c : context) (r : request) (s : RegistryService)
    : reply * RegistryService :=
  with_session_owner c r true h s (fun ownerID =>
    with_session_id r s (fun sessionID =>
      match run_routes (GetTerminalSession ownerID sessionID (unix_milli (re_now env 0%nat))) s with
      | (None, s) => (fail 404 "session not found", s)
      | (Some view, s) => (mkReply 200 (RSession (sessionItemFromView view)), s)
      end)).

Definition DeleteSession (h : WorkerHandler) (env : rest_env) (c : context) (r : request) (s : RegistryService)
    : reply * RegistryService :=
  with_session_owner c r true h s (fun ownerID =>
    with_session_id r s (fun sessionID =>
      match run_routes (DeleteTerminalSession ownerID sessionID (unix_milli (re_now env 0%nat))) s with
      | (Err _, s) => (fail 500 "failed to delete session", s)
      | (Ok false, s) => (fail 404 "session not found", s)
      | (Ok true, s) => (mkReply 204 RNone, s)
      end)).

Definition renew_field (name : string) : option (json -> Z -> Z * bool) :=
  if equal_fold name "lease_ttl_sec" then Some dec_int else None.

Definition renew_failure (err : error) : reply :=
  if error_is err ErrTerminalLeaseInvalid then fail 400 (error_message err) else
  if error_is err ErrTerminalSessionNotFound then fail 404 "session not found" else
  if error_is err ErrTerminalSessionUnavailable || error_is err ErrContextCanceled
  then fail 503 "session is unavailable" else
  if error_is err ErrContextDeadlineExceeded then fail 504 "session lease renewal timed out" else
  match as_command_error err with
  | Some (code, msg) =>
      if bool_decide (code = "invalid_payload") then fail 400 (command_error_message code msg)
      else fail 502 "failed to renew session lease"
  | None => fail 502 "failed to renew session lease"
  end.

Definition RenewSessionLease (h : WorkerHandler) (env : rest_env) (c : context) (r : request) (s : RegistryService)
    : reply * RegistryService :=
  with_session_owner c r true h s (fun ownerID =>
    with_session_id r s (fun sessionID =>
      match unmarshal_struct renew_field 0 (rq_body r) with
      | None => (fail 400 "invalid request body", s)
      | Some leaseTTLSec =>
          if leaseTTLSec <=? 0 then (fail 400 "lease_ttl_sec must be positive", s) else
          match RenewTerminalSessionLease (re_attempts env None) ownerID sessionID leaseTTLSec
                  (re_now env 0%nat) (re_now env 1%nat) s with
          | (Err err, s) => (renew_failure err, s)
          | (Ok view, s) => (mkReply 200 (RSession (sessionItemFromView view)), s)
          end
      end)).

(** ** Tasks (task_handler.go) *)
Definition defaultTaskWaitMS : Z := 1500.
Definition defaultTaskTimeoutMS : Z := 60000.
Definition maxTaskWaitMS : Z := 60000.
Definition maxTaskTimeoutMS : Z := 600000.

Record submitTaskRequest := mkSubmitBody {
  sq_Capability : string;
  sq_Input : option json;          (** [json.RawMessage]; [None] is absent *)
  sq_Mode : string;
  sq_WaitMS : option Z;
  sq_TimeoutMS : option Z;
  sq_RequestID : string }.

Definition submit_field (name : string) : option (json -> submitTaskRequest -> submitTaskRequest * bool) :=
  if equal_fold name "capability" then Some (fun v q => let '(x, bad) := dec_string v (sq_Capability q) in
    (mkSubmitBody x (sq_Input q) (sq_Mode q) (sq_WaitMS q) (sq_TimeoutMS q) (sq_RequestID q), bad))
  else if equal_fold name "input" then Some (fun v q =>
    (mkSubmitBody (sq_Capability q) (Some v) (sq_Mode q) (sq_WaitMS q) (sq_TimeoutMS q) (sq_RequestID q), false))
  else if equal_fold name "mode" then Some (fun v q => let '(x, bad) := dec_string v (sq_Mode q) in
    (mkSubmitBody (sq_Capability q) (sq_Input q) x (sq_WaitMS q) (sq_TimeoutMS q) (sq_RequestID q), bad))
  else if equal_fold name "wait_ms" then Some (fun v q => let '(x, bad) := dec_int_ptr v (sq_WaitMS q) in
    (mkSubmitBody (sq_Capability q) (sq_Input q) (sq_Mode q) x (sq_TimeoutMS q) (sq_RequestID q), bad))
  else if equal_fold name "timeout_ms" then Some (fun v q => let '(x, bad) := dec_int_ptr v (sq_TimeoutMS q) in
    (mkSubmitBody (sq_Capability q) (sq_Input q) (sq_Mode q) (sq_WaitMS q) x (sq_RequestID q), bad))
  else if equal_fold name "request_id" then Some (fun v q => let '(x, bad) := dec_string v (sq_RequestID q) in
    (mkSubmitBody (sq_Capability q) (sq_Input q) (sq_Mode q) (sq_WaitMS q) (sq_TimeoutMS q) x, bad))
  else None.
Definition bind_submit : payload -> option submitTaskRequest :=
  unmarshal_struct submit_field (mkSubmitBody "" None "" None None "").

(** [TaskMode] is a string type. *)
Definition mode_text (m : TaskMode) : string :=
  match m with TaskModeSync => "sync" | TaskModeAsync => "async" | TaskModeAuto => "auto" end.

Definition raw_payload (v : option json) : payload := match v with Some v => PJson v | None => PEmpty end.

(** [time.Duration(ms) * time.Millisecond]. *)
Definition duration_ms (ms : Z) : duration := i64 (ms * millisecond).

Definition terminalExecSessionNotFoundCode : string := "session_not_found".
Definition terminalExecSessionBusyCode : string := "session_busy".
Definition terminalExecSessionCapacityCode : string := "session_capacity_exceeded".
Definition terminalExecSessionUnavailableCode : string := "session_unavailable".
Definition terminalExecInvalidPayloadCode : string := "invalid_payload".
Definition terminalTaskNoWorkerCode : string := "no_worker".
Definition terminalTaskNoCapacityCode : string := "no_capacity".
Definition terminalTaskTimeoutCode : string := "timeout".

(** [status.Convert(err).Message()] of an error that carries a status. *)
Definition status_message (e : error) : string :=
  match e with StatusError _ msg => msg | _ => error_message e end.

Definition writeTaskSubmitError (err : error) : reply :=
  if error_is err ErrTaskRequestInProgress then fail 409 "task request already in progress" else
  if error_is err ErrNoCapabilityWorker then fail 503 "no online worker supports requested capability" else
  if error_is err ErrTargetWorkerOffline then fail 503 (sentinel_message ErrTargetWorkerOffline) else
  if error_is err ErrTargetWorkerCapabilityUnavailable
  then fail 503 (sentinel_message ErrTargetWorkerCapabilityUnavailable) else
  if error_is err ErrNoWorkerCapacity then fail 429 "no online worker capacity for requested capability" else
  match as_command_error err with
  | Some (code, msg) =>
      if equal_fold (trim code) terminalExecSessionUnavailableCode
      then fail 503 (command_error_message code msg) else fail 502 (command_error_message code msg)
  | None =>
      if error_is err ErrContextDeadlineExceeded then fail 504 "task timed out" else
      if bool_decide (status_code err = InvalidArgument) then fail 400 (status_message err)
      else fail 502 "failed to submit task"
  end.

Definition mapTaskTerminalStatusToHTTP (t : TaskSnapshot) : Z :=
  match ts_Status t with
  | Succeeded => 200
  | Timeout => 504
  | Canceled => 409
  | Failed =>
      let code := ts_ErrorCode t in
      if bool_decide (code = "no_capacity") || bool_decide (code = terminalExecSessionCapacityCode) then 429
      else if bool_decide (code = "no_worker") || bool_decide (code = terminalExecSessionUnavailableCode) then 503
      else 502
  | _ => 200
  end.

(** [url.PathEscape]. *)
Definition path_char (a : ascii) : bool :=
  is_alnum a || existsb (Ascii.eqb a) ["-"; "_"; "."; "~"; "$"; "&"; "+"; ":"; "="; "@"]%char.

Definition hex_upper (n : N) : ascii := ascii_of_N (if (n <? 10)%N then 48 + n else 55 + n)%N.

Fixpoint PathEscape (s : string) : string :=
  match s with
  | EmptyString => ""
  | String a s =>
      if path_char a then String a (PathEscape s)
      else String "%" (String (hex_upper (N_of_ascii a / 16)) (String (hex_upper (N_of_ascii a mod 16)) (PathEscape s)))
  end.

Definition taskStatusURL (taskID : string) : string := "/api/v1/tasks/" +:+ PathEscape taskID.

Definition buildTaskResponse (t : TaskSnapshot) : taskResponse :=
  mkTaskResponse (ts_TaskID t) (ts_RequestID t) (ts_CommandID t) (ts_Capability t) (ts_Status t) (ts_ResultJSON t)
    (if negb (bool_decide (trim (ts_ErrorCode t) = "")) || negb (bool_decide (trim (ts_ErrorMessage t) = ""))
     then Some (mkTaskError (ts_ErrorCode t) (ts_ErrorMessage t)) else None)
    (ts_CreatedAt t) (ts_UpdatedAt t) (ts_DeadlineAt t) (ts_CompletedAt t) "".

Definition with_status_url (url : string) (x : taskResponse) : taskResponse :=
  mkTaskResponse (tr_TaskID x) (tr_RequestID x) (tr_CommandID x) (tr_Capability x) (tr_Status x) (tr_Result x)
    (tr_Error x) (tr_CreatedAt x) (tr_UpdatedAt x) (tr_DeadlineAt x) (tr_CompletedAt x) url.

(** The request the handler hands to the service, or its refusal. *)
Definition submit_request_of (ownerID : string) (r : request) : SubmitTaskRequest + reply :=
  match bind_submit (rq_body r) with
  | None => inr (fail 400 "invalid request body")
  | Some req =>
      let waitMS := default defaultTaskWaitMS (sq_WaitMS req) in
      let timeoutMS := default defaultTaskTimeoutMS (sq_TimeoutMS req) in
      if (waitMS <=? 0) || (maxTaskWaitMS <? waitMS) then inr (fail 400 "wait_ms must be between 1 and 60000") else
      if (timeoutMS <=? 0) || (maxTaskTimeoutMS <? timeoutMS) then inr (fail 400 "timeout_ms must be between 1 and 600000") else
      match ParseTaskMode (sq_Mode req) with
      | Err err => inr (fail 400 (error_message err))
      | Ok mode => inl (mkSubmit (sq_Capability req) (raw_payload (sq_Input req)) (mode_text mode)
                          (duration_ms waitMS) (duration_ms timeoutMS) (trim (sq_RequestID req)) ownerID)
      end
  end.

Definition submit_reply (result : SubmitTaskResult) : reply :=
  let response := buildTaskResponse (str_Task result) in
  if str_Completed result then mkReply (mapTaskTerminalStatusToHTTP (str_Task result)) (RTask response)
  else mkReply 202 (RTask (with_status_url (taskStatusURL (ts_TaskID (str_Task result))) response)).

(** The goroutine that a submission starts is returned with the reply. *)
Definition SubmitTaskHandler (h : WorkerHandler) (env : rest_env) (c : context) (r : request) (s : RegistryService)
    : (reply * option task_job) * RegistryService :=
  if negb (h_dispatcher h) then ((fail 503 "task dispatcher is unavailable", None), s) else
  let ownerID := requestOwnerIDFromGin c in
  if bool_decide (ownerID = "") then ((fail 401 "invalid or missing token", None), s) else
  match submit_request_of ownerID r with
  | inr x => ((x, None), s)
  | inl req =>
      match SubmitTask (re_submit env) req s with
      | ((Err err, job), s) => ((writeTaskSubmitError err, job), s)
      | ((Ok result, job), s) => ((submit_reply result, job), s)
      end
  end.

Definition GetTaskHandler (h : WorkerHandler) (c : context) (r : request) (s : RegistryService)
    : reply * RegistryService :=
  if negb (h_dispatcher h) then (fail 503 "task dispatcher is unavailable", s) else
  with_owner c s (fun ownerID =>
    match GetTask (trim (rq_param r "task_id")) ownerID s with
    | (None, s) => (fail 404 "task not found", s)
    | (Some task, s) => (mkReply 200 (RTask (buildTaskResponse task)), s)
    end).

Definition zero_snapshot : TaskSnapshot :=
  mkSnapshot "" "" "" "" Queued PEmpty "" "" zero_time zero_time zero_time None.

Definition CancelTaskHandler (h : WorkerHandler) (env : rest_env) (c : context) (r : request) (s : RegistryService)
    : reply * RegistryService :=
  if negb (h_dispatcher h) then (fail 503 "task dispatcher is unavailable", s) else
  with_owner c s (fun ownerID =>
    let '((result, task), s) := CancelTask (trim (rq_param r "task_id")) ownerID (re_now env 0%nat) s in
    let response := RTask (buildTaskResponse (default zero_snapshot task)) in
    (match result with
     | Err err =>
         if error_is err ErrTaskNotFound then fail 404 "task not found"
         else if error_is err ErrTaskTerminal then mkReply 409 response
         else fail 500 "failed to cancel task"
     | Ok _ => mkReply 200 response
     end, s)).

(** ** Commands (command_handler.go) *)
Definition defaultEchoTimeoutMS : Z := 5000.
Definition minEchoTimeoutMS : Z := 1.
Definition maxEchoTimeoutMS : Z := 60000.
Definition minCommandTimeoutMS : Z := 1.

Record echoCommandRequest := mkEchoRequest { eq_Message : string; eq_TimeoutMS : option Z }.
Definition echo_request_field (name : string) : option (json -> echoCommandRequest -> echoCommandRequest * bool) :=
  if equal_fold name "message" then Some (fun v q =>
    let '(x, bad) := dec_string v (eq_Message q) in (mkEchoRequest x (eq_TimeoutMS q), bad))
  else if equal_fold name "timeout_ms" then Some (fun v q =>
    let '(x, bad) := dec_int_ptr v (eq_TimeoutMS q) in (mkEchoRequest (eq_Message q) x, bad))
  else None.

Definition echo_failure (err : error) : reply :=
  if error_is err ErrNoWorkerCapacity then fail 429 "no online worker capacity for requested capability" else
  if error_is err ErrNoEchoWorker then fail 503 "no online worker supports echo" else
  if error_is err ErrEchoTimeout then fail 504 "echo command timed out" else
  match as_command_error err with
  | Some (code, msg) => fail 502 (command_error_message code msg)
  | None => if error_is err ErrContextDeadlineExceeded then fail 504 "echo command timed out"
            else fail 502 "failed to execute echo command"
  end.

Definition EchoCommand (h : WorkerHandler) (env : rest_env) (r : request) (s : RegistryService)
    : reply * RegistryService :=
  if negb (h_dispatcher h) then (fail 503 "echo command dispatcher is unavailable", s) else
  match unmarshal_struct echo_request_field (mkEchoRequest "" None) (rq_body r) with
  | None => (fail 400 "invalid request body", s)
  | Some req =>
      if bool_decide (trim (eq_Message req) = "") then (fail 400 "message is required", s) else
      let timeoutMS := default defaultEchoTimeoutMS (eq_TimeoutMS req) in
      if (timeoutMS <? minEchoTimeoutMS) || (maxEchoTimeoutMS <? timeoutMS)
      then (fail 400 "timeout_ms must be between 1 and 60000", s) else
      match DispatchEcho (re_attempts env (Some (duration_ms timeoutMS))) (eq_Message req) s with
      | (Err err, s) => (echo_failure err, s)
      | (Ok result, s) => (mkReply 200 (REcho result), s)
      end
  end.

Record terminalCommandRequest := mkTerminalRequest {
  tq_Command : string;
  tq_SessionID : string;
  tq_CreateIfMissing : bool;
  tq_LeaseTTLSec : option Z;
  tq_TimeoutMS : option Z;
  tq_RequestID : string }.

Definition terminal_request_field (name : string)
    : option (json -> terminalCommandRequest -> terminalCommandRequest * bool) :=
  if equal_fold name "command" then Some (fun v q => let '(x, bad) := dec_string v (tq_Command q) in
    (mkTerminalRequest x (tq_SessionID q) (tq_CreateIfMissing q) (tq_LeaseTTLSec q) (tq_TimeoutMS q) (tq_RequestID q), bad))
  else if equal_fold name "session_id" then Some (fun v q => let '(x, bad) := dec_string v (tq_SessionID q) in
    (mkTerminalRequest (tq_Command q) x (tq_CreateIfMissing q) (tq_LeaseTTLSec q) (tq_TimeoutMS q) (tq_RequestID q), bad))
  else if equal_fold name "create_if_missing" then Some (fun v q => let '(x, bad) := dec_bool v (tq_CreateIfMissing q) in
    (mkTerminalRequest (tq_Command q) (tq_SessionID q) x (tq_LeaseTTLSec q) (tq_TimeoutMS q) (tq_RequestID q), bad))
  else if equal_fold name "lease_ttl_sec" then Some (fun v q => let '(x, bad) := dec_int_ptr v (tq_LeaseTTLSec q) in
    (mkTerminalRequest (tq_Command q) (tq_SessionID q) (tq_CreateIfMissing q) x (tq_TimeoutMS q) (tq_RequestID q), bad))
  else if equal_fold name "timeout_ms" then Some (fun v q => let '(x, bad) := dec_int_ptr v (tq_TimeoutMS q) in
    (mkTerminalRequest (tq_Command q) (tq_SessionID q) (tq_CreateIfMissing q) (tq_LeaseTTLSec q) x (tq_RequestID q), bad))
  else if equal_fold name "request_id" then Some (fun v q => let '(x, bad) := dec_string v (tq_RequestID q) in
    (mkTerminalRequest (tq_Command q) (tq_SessionID q) (tq_CreateIfMissing q) (tq_LeaseTTLSec q) (tq_TimeoutMS q) x, bad))
  else None.
Definition bind_terminal : payload -> option terminalCommandRequest :=
  unmarshal_struct terminal_request_field (mkTerminalRequest "" "" false None None "").

Definition terminal_response_field (name : string)
    : option (json -> terminalCommandResponse -> terminalCommandResponse * bool) :=
  let set f : option (json -> terminalCommandResponse -> terminalCommandResponse * bool) := Some f in
  if equal_fold name "session_id" then set (fun v t => let '(x, bad) := dec_string v (tc_SessionID t) in
    (mkTerminalResponse x (tc_Created t) (tc_Stdout t) (tc_Stderr t) (tc_ExitCode t) (tc_StdoutTruncated t)
       (tc_StderrTruncated t) (tc_LeaseExpiresUnixMS t), bad))
  else if equal_fold name "created" then set (fun v t => let '(x, bad) := dec_bool v (tc_Created t) in
    (mkTerminalResponse (tc_SessionID t) x (tc_Stdout t) (tc_Stderr t) (tc_ExitCode t) (tc_StdoutTruncated t)
       (tc_StderrTruncated t) (tc_LeaseExpiresUnixMS t), bad))
  else if equal_fold name "stdout" then set (fun v t => let '(x, bad) := dec_string v (tc_Stdout t) in
    (mkTerminalResponse (tc_SessionID t) (tc_Created t) x (tc_Stderr t) (tc_ExitCode t) (tc_StdoutTruncated t)
       (tc_StderrTruncated t) (tc_LeaseExpiresUnixMS t), bad))
  else if equal_fold name "stderr" then set (fun v t => let '(x, bad) := dec_string v (tc_Stderr t) in
    (mkTerminalResponse (tc_SessionID t) (tc_Created t) (tc_Stdout t) x (tc_ExitCode t) (tc_StdoutTruncated t)
       (tc_StderrTruncated t) (tc_LeaseExpiresUnixMS t), bad))
  else if equal_fold name "exit_code" then set (fun v t => let '(x, bad) := dec_int v (tc_ExitCode t) in
    (mkTerminalResponse (tc_SessionID t) (tc_Created t) (tc_Stdout t) (tc_Stderr t) x (tc_StdoutTruncated t)
       (tc_StderrTruncated t) (tc_LeaseExpiresUnixMS t), bad))
  else if equal_fold name "stdout_truncated" then set (fun v t => let '(x, bad) := dec_bool v (tc_StdoutTruncated t) in
    (mkTerminalResponse (tc_SessionID t) (tc_Created t) (tc_Stdout t) (tc_Stderr t) (tc_ExitCode t) x
       (tc_StderrTruncated t) (tc_LeaseExpiresUnixMS t), bad))
  else if equal_fold name "stderr_truncated" then set (fun v t => let '(x, bad) := dec_bool v (tc_StderrTruncated t) in
    (mkTerminalResponse (tc_SessionID t) (tc_Created t) (tc_Stdout t) (tc_Stderr t) (tc_ExitCode t)
       (tc_StdoutTruncated t) x (tc_LeaseExpiresUnixMS t), bad))
  else if equal_fold name "lease_expires_unix_ms" then set (fun v t => let '(x, bad) := dec_int v (tc_LeaseExpiresUnixMS t) in
    (mkTerminalResponse (tc_SessionID t) (tc_Created t) (tc_Stdout t) (tc_Stderr t) (tc_ExitCode t)
       (tc_StdoutTruncated t) (tc_StderrTruncated t) x, bad))
  else None.
Definition unmarshal_terminal : payload -> option terminalCommandResponse :=
  unmarshal_struct terminal_response_field (mkTerminalResponse "" false "" "" 0 false false 0).

(** Both failure tables trim the code and give an empty message a default. *)
Definition failure_message (t : TaskSnapshot) (fallback : string) : string :=
  let message := trim (ts_ErrorMessage t) in if bool_decide (message = "") then fallback else message.

Definition mapTerminalTaskFailure (t : TaskSnapshot) : Z * string :=
  let code := trim (ts_ErrorCode t) in
  let message := failure_message t "terminal command failed" in
  if bool_decide (code = terminalExecSessionNotFoundCode) then (404, message)
  else if bool_decide (code = terminalExecSessionBusyCode) then (409, message)
  else if bool_decide (code = terminalExecSessionCapacityCode) then (429, message)
  else if bool_decide (code = terminalExecSessionUnavailableCode) then (503, message)
  else if bool_decide (code = terminalTaskNoWorkerCode) then (503, "no online worker supports requested capability")
  else if bool_decide (code = terminalTaskNoCapacityCode) then (429, "no online worker capacity for requested capability")
  else if bool_decide (code = terminalExecInvalidPayloadCode) then (400, message)
  else if bool_decide (code = terminalTaskTimeoutCode) || bool_decide (code = "deadline_exceeded") then (504, message)
  else (502, message).

Definition mapComputerUseTaskFailure (t : TaskSnapshot) : Z * string :=
  let code := trim (ts_ErrorCode t) in
  let message := failure_message t "computerUse command failed" in
  if bool_decide (code = terminalTaskNoWorkerCode) then (503, "no online worker supports requested capability")
  else if bool_decide (code = terminalTaskNoCapacityCode) then (429, "no online worker capacity for requested capability")
  else if bool_decide (code = terminalExecSessionBusyCode) then (409, message)
  else if bool_decide (code = terminalExecInvalidPayloadCode) then (400, message)
  else if bool_decide (code = terminalTaskTimeoutCode) || bool_decide (code = "deadline_exceeded") then (504, message)
  else (502, message).

(** The answer of a command whose task the service returned. *)
Definition command_reply (decode : payload -> option rest_body) (invalid : string)
    (failure : TaskSnapshot -> Z * string) (result : SubmitTaskResult) : reply :=
  if negb (str_Completed result) then fail 504 "task timed out" else
  let task := str_Task result in
  match ts_Status task with
  | Succeeded =>
      match decode (ts_ResultJSON task) with
      | Some b => mkReply 200 b
      | None => fail 502 invalid
      end
  | Timeout => fail 504 "task timed out"
  | Canceled => fail 409 "task canceled"
  | Failed => let '(status, message) := failure task in fail status message
  | _ => fail 502 "unexpected task status"
  end.

Definition terminal_reply : SubmitTaskResult -> reply :=
  command_reply (fun p => RTerminal <$> unmarshal_terminal p) "invalid terminalExec result payload" mapTerminalTaskFailure.

(** The synchronous submission of a command. *)
Definition command_submit (capability : string) (input : payload) (timeoutMS : Z) (requestID ownerID : string)
    : SubmitTaskRequest :=
  mkSubmit capability input (mode_text TaskModeSync) 0 (duration_ms timeoutMS) (trim requestID) ownerID.

Definition run_submission (env : rest_env) (req : SubmitTaskRequest + reply) (answer : SubmitTaskResult -> reply)
    (s : RegistryService) : (reply * option task_job) * RegistryService :=
  match req with
  | inr x => ((x, None), s)
  | inl req =>
      match SubmitTask (re_submit env) req s with
      | ((Err err, job), s) => ((writeTaskSubmitError err, job), s)
      | ((Ok result, job), s) => ((answer result, job), s)
      end
  end.

Definition terminal_submit (ownerID : string) (r : request) : SubmitTaskRequest + reply :=
  match bind_terminal (rq_body r) with
  | None => inr (fail 400 "invalid request body")
  | Some req =>
      if bool_decide (trim (tq_Command req) = "") then inr (fail 400 "command is required") else
      let timeoutMS := default defaultTaskTimeoutMS (tq_TimeoutMS req) in
      if (timeoutMS <? minCommandTimeoutMS) || (maxTaskTimeoutMS <? timeoutMS)
      then inr (fail 400 "timeout_ms must be between 1 and 600000") else
      inl (command_submit "terminalExec"
        (marshal_exec (mkExec (tq_Command req) (trim (tq_SessionID req)) (tq_CreateIfMissing req) (tq_LeaseTTLSec req)))
        timeoutMS (tq_RequestID req) ownerID)
  end.

Definition TerminalCommand (h : WorkerHandler) (env : rest_env) (c : context) (r : request) (s : RegistryService)
    : (reply * option task_job) * RegistryService :=
  if negb (h_dispatcher h) then ((fail 503 "task dispatcher is unavailable", None), s) else
  let ownerID := requestOwnerIDFromGin c in
  if bool_decide (ownerID = "") then ((fail 401 "invalid or missing token", None), s) else
  run_submission env (terminal_submit ownerID r) terminal_reply s.

Record computerUseCommandRequest := mkCURequest {
  uq_Command : string;
  uq_WorkerID : option json;
  uq_TimeoutMS : option Z;
  uq_RequestID : string }.

Definition computer_request_field (name : string)
    : option (json -> computerUseCommandRequest -> computerUseCommandRequest * bool) :=
  if equal_fold name "command" then Some (fun v q => let '(x, bad) := dec_string v (uq_Command q) in
    (mkCURequest x (uq_WorkerID q) (uq_TimeoutMS q) (uq_RequestID q), bad))
  else if equal_fold name "worker_id" then Some (fun v q =>
    (mkCURequest (uq_Command q) (Some v) (uq_TimeoutMS q) (uq_RequestID q), false))
  else if equal_fold name "timeout_ms" then Some (fun v q => let '(x, bad) := dec_int_ptr v (uq_TimeoutMS q) in
    (mkCURequest (uq_Command q) (uq_WorkerID q) x (uq_RequestID q), bad))
  else if equal_fold name "request_id" then Some (fun v q => let '(x, bad) := dec_string v (uq_RequestID q) in
    (mkCURequest (uq_Command q) (uq_WorkerID q) (uq_TimeoutMS q) x, bad))
  else None.
Definition bind_computer : payload -> option computerUseCommandRequest :=
  unmarshal_struct computer_request_field (mkCURequest "" None None "").

(** The worker a request names: [inl] its id, empty when there is none. *)
Definition requested_worker (req : computerUseCommandRequest) : string + reply :=
  match uq_WorkerID req with
  | None => inl ""
  | Some v =>
      let '(workerID, bad) := dec_string v "" in
      if bad then inr (fail 400 "worker_id is invalid") else
      let workerID := trim workerID in
      if bool_decide (workerID = "") then inr (fail 400 "worker_id is invalid") else
      if bool_decide (trim (uq_Command req) = "") then inr (fail 400 "command is required") else inl workerID
  end.

Definition marshal_computer (command workerID : string) : payload :=
  PJson (JObject (
    omit_if (bool_decide (command = "")) ("command", JString command) ++
    omit_if (bool_decide (workerID = "")) ("worker_id", JString workerID))).

Definition computer_submit (ownerID : string) (r : request) : SubmitTaskRequest + reply :=
  match bind_computer (rq_body r) with
  | None => inr (fail 400 "invalid request body")
  | Some req =>
      match requested_worker req with
      | inr x => inr x
      | inl workerID =>
          let timeoutMS := default defaultTaskTimeoutMS (uq_TimeoutMS req) in
          if (timeoutMS <? minCommandTimeoutMS) || (maxTaskTimeoutMS <? timeoutMS)
          then inr (fail 400 "timeout_ms must be between 1 and 600000") else
          inl (command_submit "computerUse" (marshal_computer (uq_Command req) workerID) timeoutMS (uq_RequestID req) ownerID)
      end
  end.

(** Decoding into a slice: the elements, decoded over those already there. *)
Fixpoint dec_elements {A} (dec : json -> A -> A * bool) (zero : A) (l : list json) (old : list A) : list A * bool :=
  match l with
  | [] => ([], false)
  | v :: l =>
      let '(x, bad) := dec v (default zero (head old)) in
      let '(xs, bad') := dec_elements dec zero l (tail old) in (x :: xs, bad || bad')
  end.

Definition dec_slice {A} (dec : json -> A -> A * bool) (zero : A) (v : json) (old : option (list A))
    : option (list A) * bool :=
  match v with
  | JNull => (None, false)
  | JArray l => let '(xs, bad) := dec_elements dec zero l (default [] old) in (Some xs, bad)
  | _ => (old, true)
  end.

Definition dec_struct {S} (field : string -> option (json -> S -> S * bool)) (v : json) (old : S) : S * bool :=
  match v with
  | JObject ms => dec_fields field ms old
  | JNull => (old, false)
  | _ => (old, true)
  end.

Definition dec_int32 (v : json) (old : Z) : Z * bool :=
  match v with
  | JInt z => if (- 2 ^ 31 <=? z) && (z <? 2 ^ 31) then (z, false) else (old, true)
  | JNull => (old, false)
  | _ => (old, true)
  end.

Definition capability_field (name : string) : option (json -> CapabilityDeclaration -> CapabilityDeclaration * bool) :=
  if equal_fold name "name" then Some (fun v d =>
    let '(x, bad) := dec_string v (cd_Name d) in (mkCapability x (cd_MaxInflight d), bad))
  else if equal_fold name "max_inflight" then Some (fun v d =>
    let '(x, bad) := dec_int32 v (cd_MaxInflight d) in (mkCapability (cd_Name d) x, bad))
  else None.

Definition cu_worker_field (name : string) : option (json -> computerUseWorkerItem -> computerUseWorkerItem * bool) :=
  if equal_fold name "worker_id" then Some (fun v w => let '(x, bad) := dec_string v (cw_WorkerID w) in
    (mkCUWorker x (cw_NodeName w) (cw_Status w) (cw_Capabilities w), bad))
  else if equal_fold name "node_name" then Some (fun v w => let '(x, bad) := dec_string v (cw_NodeName w) in
    (mkCUWorker (cw_WorkerID w) x (cw_Status w) (cw_Capabilities w), bad))
  else if equal_fold name "status" then Some (fun v w => let '(x, bad) := dec_string v (cw_Status w) in
    (mkCUWorker (cw_WorkerID w) (cw_NodeName w) x (cw_Capabilities w), bad))
  else if equal_fold name "capabilities" then Some (fun v w =>
    let '(x, bad) := dec_slice (dec_struct capability_field) (mkCapability "" 0) v (cw_Capabilities w) in
    (mkCUWorker (cw_WorkerID w) (cw_NodeName w) (cw_Status w) x, bad))
  else None.

Definition cu_result_field (name : string) : option (json -> computerUseResult -> computerUseResult * bool) :=
  if equal_fold name "worker_list" then Some (fun v u =>
    let '(x, bad) := dec_slice (dec_struct cu_worker_field) (mkCUWorker "" "" "" None) v (cu_WorkerList u) in
    (mkCUResult x (cu_Stdout u) (cu_Stderr u) (cu_ExitCode u) (cu_StdoutTruncated u) (cu_StderrTruncated u), bad))
  else if equal_fold name "stdout" then Some (fun v u => let '(x, bad) := dec_string v (cu_Stdout u) in
    (mkCUResult (cu_WorkerList u) x (cu_Stderr u) (cu_ExitCode u) (cu_StdoutTruncated u) (cu_StderrTruncated u), bad))
  else if equal_fold name "stderr" then Some (fun v u => let '(x, bad) := dec_string v (cu_Stderr u) in
    (mkCUResult (cu_WorkerList u) (cu_Stdout u) x (cu_ExitCode u) (cu_StdoutTruncated u) (cu_StderrTruncated u), bad))
  else if equal_fold name "exit_code" then Some (fun v u => let '(x, bad) := dec_int v (cu_ExitCode u) in
    (mkCUResult (cu_WorkerList u) (cu_Stdout u) (cu_Stderr u) x (cu_StdoutTruncated u) (cu_StderrTruncated u), bad))
  else if equal_fold name "stdout_truncated" then Some (fun v u => let '(x, bad) := dec_bool v (cu_StdoutTruncated u) in
    (mkCUResult (cu_WorkerList u) (cu_Stdout u) (cu_Stderr u) (cu_ExitCode u) x (cu_StderrTruncated u), bad))
  else if equal_fold name "stderr_truncated" then Some (fun v u => let '(x, bad) := dec_bool v (cu_StderrTruncated u) in
    (mkCUResult (cu_WorkerList u) (cu_Stdout u) (cu_Stderr u) (cu_ExitCode u) (cu_StdoutTruncated u) x, bad))
  else None.
Definition unmarshal_computer : payload -> option computerUseResult :=
  unmarshal_struct cu_result_field (mkCUResult None "" "" 0 false false).

Definition cu_worker_json (w : computerUseWorkerItem) : json :=
  JObject [("worker_id", JString (cw_WorkerID w)); ("node_name", JString (cw_NodeName w));
           ("status", JString (cw_Status w));
           ("capabilities", match cw_Capabilities w with None => JNull | Some cs => JArray (capability_json <$> cs) end)].

(** [computerUseResult.MarshalJSON]. *)
Definition marshal_cu_result (u : computerUseResult) : json :=
  match cu_WorkerList u with
  | Some l => JObject [("worker_list", JArray (cu_worker_json <$> l))]
  | None => JObject [("stdout", JString (cu_Stdout u)); ("stderr", JString (cu_Stderr u)); ("exit_code", JInt (cu_ExitCode u));
                     ("stdout_truncated", JBool (cu_StdoutTruncated u)); ("stderr_truncated", JBool (cu_StderrTruncated u))]
  end.

Definition computer_reply : SubmitTaskResult -> reply :=
  command_reply (fun p => (fun u => RComputerUse (marshal_cu_result u)) <$> unmarshal_computer p)
    "invalid computerUse result payload" mapComputerUseTaskFailure.

Definition ComputerUseCommand (h : WorkerHandler) (env : rest_env) (c : context) (r : request) (s : RegistryService)
    : (reply * option task_job) * RegistryService :=
  if negb (h_dispatcher h) then ((fail 503 "task dispatcher is unavailable", None), s) else
  let ownerID := requestOwnerIDFromGin c in
  if bool_decide (ownerID = "") then ((fail 401 "invalid or missing token", None), s) else
  run_submission env (computer_submit ownerID r) computer_reply s.

(** ** Sandbox metadata (sandbox_metadata.go, tool_capability.go, build_meta.go) *)
Definition normalizeToolCapabilityKey (value : string) : string := trim (to_lower value).

Definition consoleVersion (h : WorkerHandler) : string :=
  let version := trim (h_buildVersion h) in if bool_decide (version = "") then "dev" else version.

Definition onlineNodeIDsForCapability (h : WorkerHandler) (ownerID capability : string) (now : time) (s : RegistryService)
    : list string * RegistryService :=
  let normalizedCapability := normalizeToolCapabilityKey capability in
  if bool_decide (normalizedCapability = "computeruse") || bool_decide (normalizedCapability = "readimage")
  then query [] (ListOnlineNodeIDsByOwnerTypeAndCapability (trim ownerID) WorkerTypeSys normalizedCapability
                   now (h_offlineTTL h)) s
  else query [] (ListOnlineNodeIDsByCapability normalizedCapability now (h_offlineTTL h)) s.

Definition max_declared (capability : string) (declared : list CapabilityDeclaration) (maxInflight : Z) : Z :=
  foldl (fun m d => if bool_decide (normalizeToolCapabilityKey (cd_Name d) = capability) && (m <? cd_MaxInflight d)
                    then cd_MaxInflight d else m) maxInflight declared.

Fixpoint max_inflight_loop (h : WorkerHandler) (nodeIDs : list string) (capability : string) (now : time) (maxInflight : Z)
    (s : RegistryService) : Z * RegistryService :=
  match nodeIDs with
  | [] => (maxInflight, s)
  | node :: nodeIDs =>
      match query None (GetByNodeID node now (h_offlineTTL h)) s with
      | (None, s) => max_inflight_loop h nodeIDs capability now maxInflight s
      | (Some worker, s) =>
          max_inflight_loop h nodeIDs capability now
            (max_declared capability (w_Capabilities (v_Worker worker)) maxInflight) s
      end
  end.

Definition maxInflightForCapability (h : WorkerHandler) (nodeIDs : list string) (capability : string) (now : time)
    (s : RegistryService) : Z * RegistryService :=
  max_inflight_loop h nodeIDs (normalizeToolCapabilityKey capability) now 0 s.

Definition capability_metadata (h : WorkerHandler) (ownerID capability : string) (now : time) (s : RegistryService)
    : sandboxMetadataCapability * RegistryService :=
  let '(onlineNodes, s) := onlineNodeIDsForCapability h ownerID capability now s in
  let '(maxInflight, s) := maxInflightForCapability h onlineNodes capability now s in
  let count := Z.of_nat (length onlineNodes) in
  (mkSandboxCapability capability (0 <? count) count maxInflight, s).

Fixpoint metadata_loop (h : WorkerHandler) (ownerID : string) (capabilities : list string) (now : time) (s : RegistryService)
    : list sandboxMetadataCapability * RegistryService :=
  match capabilities with
  | [] => ([], s)
  | capability :: capabilities =>
      let '(m, s) := capability_metadata h ownerID capability now s in
      let '(out, s) := metadata_loop h ownerID capabilities now s in (m :: out, s)
  end.

Definition metadata_capabilities : list string :=
  ["echo"; "pythonExec"; "terminalExec"; "terminalResource"; "computerUse"; "readImage"].

Definition sandboxCapabilityMetadata (h : WorkerHandler) (ownerID : string) (now : time) (s : RegistryService)
    : list sandboxMetadataCapability * RegistryService :=
  let '(out, s) := metadata_loop h ownerID metadata_capabilities now s in
  (merge_sort (fun x y => String.le (sm_Name x) (sm_Name y)) out, s).

Definition SandboxMetadata (h : WorkerHandler) (env : rest_env) (c : context) (s : RegistryService)
    : reply * RegistryService :=
  with_owner c s (fun ownerID =>
    if negb (h_store h) then (fail 503 "worker registry is unavailable", s) else
    let now := re_now env 0%nat in
    let '(stats, s) := query (mkWorkerStats 0 0 0 0)
      (StatsScoped now (h_offlineTTL h) (defaultStaleAfterSec * second) "" "") s in
    let '(capabilities, s) := sandboxCapabilityMetadata h ownerID now s in
    (mkReply 200 (RSandbox (mkSandbox "onlyboxes" "2026-05-25" (consoleVersion h)
       (mkSandboxLimits maxTaskTimeoutMS maxTaskWaitMS maxTaskTimeoutMS 60 86400) capabilities stats)), s)).

(** ** The routes of NewRouter and what they run *)
Inductive rest_endpoint :=
  | PostEcho | PostTerminal | PostComputerUse | GetSandboxMetadata
  | PostTask | GetTaskByPath | PostTaskCancel
  | GetWorkers | GetWorkerStats | GetWorkerInflight | PostWorker | DeleteWorkerByPath | GetStartupCommand
  | GetSessions | GetSessionByPath | PostSessionRenew | DeleteSessionByPath.

(** The routes of [execAPI] take execution tokens, those of [management] the
    credentials of the dashboard. *)
Definition takes_token (e : rest_endpoint) : bool :=
  match e with
  | PostEcho | PostTerminal | PostComputerUse | GetSandboxMetadata | PostTask | GetTaskByPath | PostTaskCancel => true
  | _ => false
  end.

Definition rest_middleware (cfg : auth_config) (e : rest_endpoint) (menv : auth_env) (r : request) (a : ConsoleAuth)
    : gate * ConsoleAuth :=
  if takes_token e then requireToken cfg false menv r a else RequireAuth cfg menv r a.

Definition no_job (x : reply * RegistryService) : (reply * option task_job) * RegistryService := ((x.1, None), x.2).

Definition rest_handler (h : WorkerHandler) (e : rest_endpoint) (env : rest_env) (c : context) (r : request)
    (s : RegistryService) : (reply * option task_job) * RegistryService :=
  match e with
  | PostEcho => no_job (EchoCommand h env r s)
  | PostTerminal => TerminalCommand h env c r s
  | PostComputerUse => ComputerUseCommand h env c r s
  | GetSandboxMetadata => no_job (SandboxMetadata h env c s)
  | PostTask => SubmitTaskHandler h env c r s
  | GetTaskByPath => no_job (GetTaskHandler h c r s)
  | PostTaskCancel => no_job (CancelTaskHandler h env c r s)
  | GetWorkers => no_job (ListWorkers h env c r s)
  | GetWorkerStats => no_job (WorkerStatsHandler h env c r s)
  | GetWorkerInflight => no_job (WorkerInflight h env c s)
  | PostWorker => no_job (CreateWorker h env c r s)
  | DeleteWorkerByPath => no_job (DeleteWorker h env c r s)
  | GetStartupCommand => no_job (GetWorkerStartupCommand r s)
  | GetSessions => no_job (ListSessions h env c r s)
  | GetSessionByPath => no_job (GetSession h env c r s)
  | PostSessionRenew => no_job (RenewSessionLease h env c r s)
  | DeleteSessionByPath => no_job (DeleteSession h env c r s)
  end.

(** A request to a route: the middleware answers it or hands it on. *)
Definition rest_serve (cfg : auth_config) (h : WorkerHandler) (e : rest_endpoint) (menv : auth_env) (env : rest_env)
    (r : request) (a : ConsoleAuth) (s : RegistryService)
    : ((response + reply) * option task_job) * (ConsoleAuth * RegistryService) :=
  match rest_middleware cfg e menv r a with
  | (Stop x, a) => ((inl x, None), (a, s))
  | (Next c, a) => let '((x, job), s) := rest_handler h e env c r s in ((inr x, job), (a, s))
  end.

End Rest.
Export Rest.
