(* ===== verification/RestProps.v ===== *)
(** What the handlers of [Rest] give to whom: lemmas on the worker lists, the
    terminal sessions, the submitted requests and the task that answers a
    submission. *)
From S2P Require Import Prelude.
From S2P Require Import Json.
From S2P Require Import Sql.
From S2P Require Import Proto.
From S2P Require Import Registry.
From S2P Require Import RouteStore.
From S2P Require Import OwnerScope.
From S2P Require Import TerminalRoutes.
From S2P Require Import TerminalRoutesProps.
From S2P Require Import SessionRuntime.
From S2P Require Import Service.
From S2P Require Import Dispatch.
From S2P Require Import DispatchProps.
From S2P Require Import Tasks.
From S2P Require Import Submit.
From S2P Require Import TaskProps.
From S2P Require Import SubmitProps.
From S2P Require Import Connect.
From S2P Require Import ConnectProps.
From S2P Require Import AuthText.
From S2P Require Import AuthSql.
From S2P Require Import Accounts.
From S2P Require Import Auth.
From S2P Require Import AuthProps.
From S2P Require Import Rest.

Module RestProps.

(** ** Who asks *)
Lemma caller_scope cfg menv r a c a' account :
  crypto_ok (ac_crypto cfg) -> console_ok a -> RequireAuth cfg menv r a = (Next c, a') -> cx_account c = Some account ->
  resolveWorkerAccessScope c = Some (sa_AccountID account, sa_IsAdmin account) /\ good_id (sa_AccountID account).
Proof.
  intros Hcr Hok H Hc. apply RequireAuth_spec in H as [Hev Hau]; [|done..].
  destruct (authenticated_account _ _ _ _ _ _ Hok Hev Hau) as (sa & Hc' & Hg & [Hid _] & _).
  assert (sa = account) as -> by congruence. unfold resolveWorkerAccessScope. rewrite Hg, (good_id_trim _ Hid).
  destruct Hid as [Hne Hid]. by rewrite bool_decide_false.
Qed.

(** ** Workers *)

(** In the tables [d], the worker [n] is a worker-sys of the account [o]. *)
Definition owned_sys (o n : string) (d : DB) : Prop :=
  is_Some (worker_nodes d !! n) /\
  trim (default "" (worker_labels d !! (n, LabelOwnerIDKey))) = o /\
  trim (to_lower (default "" (worker_labels d !! (n, LabelWorkerTypeKey)))) = WorkerTypeSys.

Definition owns_in (o n : string) (s : RegistryService) : Prop := exists d, svc_db s = Some d /\ owned_sys o n d.

(** The labels of one node in the list of all labels. *)
Lemma lookup_all_labels (n : string) (m : gmap (string * string) string) k :
  labels_of_rows (omap (fun row : (string * string) * string => if bool_decide (row.1.1 = n) then Some (row.1.2, row.2) else None)
    (order_by pair_le (map_to_list m))) !! k = m !! (n, k).
Proof.
  set (l := omap _ _). assert (forall k v, (k, v) ∈ l <-> m !! (n, k) = Some v) as Hin.
  { intros k' v. unfold l. rewrite list_elem_of_omap. split.
    - intros ([[n' k2] v2] & Hin & E). case_bool_decide; cbn in *; simplify_eq.
      by rewrite elem_of_order_by, elem_of_map_to_list in Hin.
    - intros Hm. exists ((n, k'), v). rewrite elem_of_order_by, elem_of_map_to_list. cbn. by rewrite bool_decide_true. }
  assert (NoDup l.*1) as Hnd.
  { unfold l. generalize (proj2 (NoDup_order_by pair_le _) (NoDup_map_to_list m)).
    assert (forall x v v', (x, v) ∈ order_by pair_le (map_to_list m) -> (x, v') ∈ order_by pair_le (map_to_list m) -> v = v') as Hf.
    { intros x v v'. rewrite !elem_of_order_by, !elem_of_map_to_list. congruence. }
    revert Hf. generalize (order_by pair_le (map_to_list m)). clear. intros l. induction l as [|[[n1 k1] v1] l IH]; [constructor|].
    intros Hf [Hx Hl]%NoDup_cons. cbn. assert (NoDup (omap (fun row : (string * string) * string => if bool_decide (row.1.1 = n) then Some (row.1.2, row.2) else None) l).*1) as IH'.
    { apply IH; [|done]. intros x v v' H1 H2. eapply (Hf x); by right. }
    case_bool_decide as E; [|done]. cbn. apply NoDup_cons. split; [|done].
    rewrite list_elem_of_fmap. intros ([k2 v2] & -> & Hin). apply list_elem_of_omap in Hin as ([[n3 k3] v3] & Hin & E3).
    case_bool_decide; cbn in *; simplify_eq. assert (v1 = v2) as -> by (eapply Hf; [by left|by right]). done. }
  rewrite labels_of_rows_list_to_map by done. apply option_eq. intros v. rewrite <- elem_of_list_to_map by done. apply Hin.
Qed.

Lemma or_else_ok {A} (fallback : A) (m : M A) c a c' :
  or_else fallback m c = (Ok a, c') -> a <> fallback -> m c = (Ok a, c').
Proof.
  unfold or_else. intros (r & c1 & Hc%catch_data & E)%bind_ok Hne. injection E as Hr ->. destruct r; cbn in *; congruence.
Qed.

Lemma views_in_scope status now ttl o ty c views c' v :
  listFilteredViews status now ttl o ty c = (Ok views, c') -> v ∈ views ->
  let n := w_NodeID (v_Worker v) in
  is_Some (worker_nodes (data c) !! n) /\ (forall k, w_Labels (v_Worker v) !! k = worker_labels (data c) !! (n, k)) /\
  view_matches status (v_Status v) (trim o) (normalizeWorkerType ty) (w_Labels (v_Worker v)) = true.
Proof.
  intros H Hv n. apply or_else_ok in H; [|by intros ->; apply not_elem_of_nil in Hv].
  apply bind_ok in H as (nodes & c1 & [E1 D1]%read_ok & H). apply bind_ok in H as (caps & c2 & [E2 D2]%read_ok & H).
  apply bind_ok in H as (labels & c3 & [E3 D3]%read_ok & H). injection H as <- _.
  apply list_elem_of_omap in Hv as ([id row] & Hin & E). destruct (view_matches _ _ _ _ _) eqn:Em in E; [|done]. injection E as <-.
  unfold n. cbn -[labels_of_rows] in *. rewrite <- E1, elem_of_order_by, elem_of_map_to_list in Hin. split; [done|]. split; [|done].
  intros k. rewrite <- E3, D2, D1. apply lookup_all_labels.
Qed.

Lemma scoped_views_owned status now ttl o c views c' v :
  trim o = o -> o <> "" -> listFilteredViews status now ttl o WorkerTypeSys c = (Ok views, c') -> v ∈ views ->
  owned_sys o (w_NodeID (v_Worker v)) (data c).
Proof.
  intros Ht Ho H Hv. destruct (views_in_scope _ _ _ _ _ _ _ _ _ H Hv) as (Hn & Hl & Hm).
  unfold view_matches in Hm. rewrite Ht, (bool_decide_false (o = "")) in Hm by done. cbn [orb] in Hm.
  apply andb_prop in Hm as [_ [Hm1 Hm2]%andb_prop]. apply bool_decide_eq_true in Hm1.
  apply orb_prop in Hm2 as [Hm2|Hm2]; apply bool_decide_eq_true in Hm2; [by vm_compute in Hm2|].
  rewrite Hl in Hm1. unfold resolveWorkerType, normalizeWorkerType in Hm2. rewrite Hl in Hm2. by split_and!.
Qed.

(** A page of a list holds elements of the list. *)
Lemma slice_elem {A} n m (l : list A) x : x ∈ take n (drop m l) -> x ∈ l.
Proof. rewrite elem_of_take. intros (i & Hi & _). rewrite lookup_drop in Hi. by eapply list_elem_of_lookup_2. Qed.

Lemma paginate_elem {A} page size (l page_items : list A) total x :
  paginate page size l = Some (page_items, total) -> x ∈ page_items -> x ∈ l.
Proof.
  intros H Hx. unfold paginate in H. destruct (_ <=? i64 _); [injection H as <- _; by apply not_elem_of_nil in Hx|].
  destruct (_ || _); [done|]. injection H as <- _. by eapply slice_elem.
Qed.

Lemma session_page_elem {A} page size (l items : list A) x : session_page page size l = Some items -> x ∈ items -> x ∈ l.
Proof.
  intros H Hx. unfold session_page in H. destruct ((_ <? 0) || _); [done|]. injection H as <-. by eapply slice_elem.
Qed.

Section workers.
Context (h : WorkerHandler) (env : rest_env) (c : context) (r : request) (o : string).
Context (Hscope : resolveWorkerAccessScope c = Some (o, false)) (Ho : good_id o).
Implicit Types (s : RegistryService).

Lemma owner_text : trim o = o /\ o <> "".
Proof. split; [by apply good_id_trim|by destruct Ho]. Qed.

Lemma listed_workers s items total page size s' item :
  ListWorkers h env c r s = (mkReply 200 (RWorkers items total page size), s') -> item ∈ items ->
  owns_in o (wi_NodeID item) s.
Proof.
  unfold ListWorkers, with_scope. rewrite Hscope. cbn [negb].
  destruct (parsePositiveIntQuery _ _ _) as [p|]; [|done]. destruct (parsePositiveIntQuery _ _ _) as [sz|]; [|done].
  destruct (worker_status _) as [st|]; [|done]. destruct (query _ _ s) as [[[ws t]|] s1] eqn:Eq; [|done].
  intros [= <- _ _ _ _] Hi. apply list_elem_of_fmap in Hi as (v & -> & Hv).
  apply query_not_default in Eq as (c1 & c2 & Hc & Hm & _); [|intros [= -> ->]; by apply not_elem_of_nil in Hv].
  apply bind_ok in Hm as (views & c3 & Hl & Hp). injection Hp as Hp _. eapply paginate_elem in Hp; [|done].
  exists (data c1). unfold svc_db. rewrite Hc. split; [done|]. destruct owner_text. by eapply scoped_views_owned.
Qed.

Lemma listed_inflight s snaps t s' x :
  h_inflightStats h = true -> WorkerInflight h env c s = (mkReply 200 (RInflight snaps t), s') -> x ∈ snaps ->
  exists n, trim n = trim (is_NodeID x) /\ owns_in o n (re_others env s).
Proof.
  intros Hh. unfold WorkerInflight, with_scope. rewrite Hscope, Hh. cbn [negb].
  destruct (query _ _ _) as [nodes s1] eqn:Eq. intros [= <- _ _] Hx. apply list_elem_of_filter in Hx as [Hx _].
  apply elem_of_list_to_set, list_elem_of_fmap in Hx as (n & Hn & Hin). exists n. split; [done|].
  apply query_not_default in Eq as (c1 & c2 & Hc & Hm & _); [|intros ->; by apply not_elem_of_nil in Hin].
  exists (data c1). unfold svc_db. rewrite Hc. split; [done|]. destruct owner_text as [Ht Hne].
  unfold ListNodeIDsByOwnerAndType in Hm. rewrite Ht, (bool_decide_false (o = "")), bool_decide_false in Hm by done. cbn [orb] in Hm.
  apply or_else_ok in Hm; [|intros ->; by apply not_elem_of_nil in Hin]. apply read_ok in Hm as [<- _].
  rewrite elem_of_order_by in Hin. apply list_elem_of_omap in Hin as ([n' w] & Hw%elem_of_map_to_list & E).
  destruct (label_is _ _ _ _ && _) eqn:El; [|done]. injection E as ->. apply andb_prop in El as [E1 E2].
  apply bool_decide_eq_true in E1, E2. unfold owned_sys, LabelOwnerIDKey, LabelWorkerTypeKey. rewrite E1, E2. cbn [default].
  by split_and!; [eexists|..].
Qed.

Lemma refused_delete s :
  let '(x, s') := DeleteWorker h env c r s in
  owns_in o (trim (rq_param r "node_id")) s \/ (rp_status x ∈ [400; 404; 503] /\ probe s s').
Proof.
  unfold DeleteWorker, with_scope. rewrite Hscope. set (node := trim _).
  assert (forall st msg, st ∈ [400; 404; 503] -> rp_status (fail st msg) ∈ [400; 404; 503]) as Hst by done.
  destruct (bool_decide (node = "")); [right; split; [apply Hst; set_solver|done]|].
  destruct (negb _); [right; split; [apply Hst; set_solver|done]|].
  pose proof (probe_query None (GetByNodeID node (re_now env 0%nat) (h_offlineTTL h)) s (ro_GetByNodeID _ _ _)) as Hp.
  destruct (query _ _ s) as [[v|] s1] eqn:Eq; cbn [snd] in Hp; [|right; split; [apply Hst; set_solver|done]].
  apply query_not_default in Eq as (c1 & c2 & Hc & Hm & _); [|done]. apply GetByNodeID_labels in Hm as [Hn Hl].
  unfold node in Hn, Hl. rewrite trim_trim in Hn, Hl.
  unfold owns_worker. rewrite !Hl. destruct (bool_decide _ && bool_decide _) eqn:Eb; cbn [negb];
    [|right; split; [apply Hst; set_solver|done]].
  destruct (revoke_worker _ _) as [x s2]. left. exists (data c1). unfold svc_db. rewrite Hc. split; [done|].
  apply andb_prop in Eb as [E1 E2]. apply bool_decide_eq_true in E1, E2. by split_and!.
Qed.

(** The labels of a worker that was just provisioned. *)
Lemma provisioned_owned ids ty now ttl s id secret s' :
  CreateProvisionedWorkerForOwner ids o ty now ttl s = (Ok (id, secret), s') ->
  normalizeProvisioningWorkerType ty = WorkerTypeSys -> owns_in o (trim id) s'.
Proof.
  intros H Hty. unfold CreateProvisionedWorkerForOwner in H. destruct owner_text as [Ht Hne].
  rewrite Ht, (bool_decide_false (o = "")), Hty, bool_decide_false in H by done.
  apply provision_loop_ok in H as [_ (s0 & s1 & s2 & algo & _ & Q1 & P & Q2)].
  apply query_not_default in Q1 as (c0 & c1 & _ & Hseed & E1); [|done]. apply seed_ok in Hseed as (_ & _ & (w & Hw & _) & Hl & _).
  apply put_credential_ok in P as [_ E2]. apply query_not_default in Q2 as (c2 & c3 & Hc2 & Hput & E3); [|done].
  assert (c2 = c1) as -> by (subst s2 s1; cbn in Hc2; congruence).
  apply store_credential_ok in Hput as (row & _ & _ & Hn & Hlab). exists (data c3). split; [by subst s'|].
  unfold owned_sys. rewrite Hn, Hlab, Hw. rewrite (Hl LabelOwnerIDKey o), (Hl LabelWorkerTypeKey WorkerTypeSys) by done. by split_and!.
Qed.

Lemma created_worker s :
  let '(x, s') := CreateWorker h env c r s in
  rp_status x = 201 -> exists id secret, rp_body x = RWorkerSecret id WorkerTypeSys secret /\ owns_in o (trim id) s'.
Proof.
  unfold CreateWorker, with_scope. rewrite Hscope. destruct (negb _); [done|]. destruct (unmarshal_struct _ _ _) as [ty|]; [|done].
  set (wt := trim (to_lower ty)). destruct (negb (bool_decide (wt = WorkerTypeNormal)) && _) eqn:E1; [done|].
  destruct (negb false && _) eqn:E2; [done|]. cbn [negb andb] in E2. apply bool_decide_eq_false in E2.
  assert (wt = WorkerTypeSys) as Hty.
  { rewrite (bool_decide_false (wt = WorkerTypeNormal)) in E1 by done. cbn in E1. by apply negb_false_iff, bool_decide_eq_true in E1. }
  rewrite Hty. destruct (CreateProvisionedWorkerForOwner _ _ _ _ _ s) as [[[id secret]|e] s'] eqn:Ec.
  - intros _. exists id, secret. split; [done|]. by eapply provisioned_owned.
  - by destruct (error_is e _).
Qed.

End workers.

(** ** Terminal sessions *)
Section sessions.
Implicit Types (s : RegistryService) (x : Routes Conn).

Lemma listed_account o now x v :
  trim o <> "" -> v ∈ (ListTerminalSessions o now x).1 -> sv_AccountID v = trim o.
Proof.
  intros Ho. unfold ListTerminalSessions. cbn [fst]. rewrite elem_of_order_by, list_elem_of_omap.
  intros ([sid rt] & _ & Hv). unfold owner_view, normalizeTaskOwnerID in Hv. rewrite (bool_decide_false (trim o = "")) in Hv by done.
  destruct (lease_expired _ _); [done|]. destruct (negb _); [done|].
  destruct (parseScopedTerminalSessionID sid) as [[acc ext]|]; [|done]. cbn [negb andb] in Hv.
  destruct (bool_decide (acc = trim o)) eqn:E; [|done]. injection Hv as <-. by apply bool_decide_eq_true in E.
Qed.

Lemma found_account o sid now x v x' :
  GetTerminalSession o sid now x = (Some v, x') -> sv_AccountID v = trim o /\ sv_SessionID v = trim sid.
Proof.
  unfold GetTerminalSession. destruct (_ || _); [done|]. destruct (terminalSessionRouteSnapshot _ _ _) as [[rt|] x1]; [|done].
  destruct (isConfirmedActiveTerminalSessionRoute _ _); [|done]. by intros [= <- _].
Qed.

Lemma renewed_account envs o sid ttl now later s v s' :
  RenewTerminalSessionLease envs o sid ttl now later s = (Ok v, s') -> sv_AccountID v = trim o /\ sv_SessionID v = trim sid.
Proof.
  unfold RenewTerminalSessionLease, normalizeTaskOwnerID. destruct (_ || _); [done|]. destruct (ttl <=? 0); [done|].
  destruct (run_routes _ s) as [[view|] s1]; [|done]. destruct (negb _); [done|].
  destruct (dispatchCommand _ _ _ _ _) as [[[outcome|e] w] s2]; [|done]. destruct (oc_err outcome); [done|].
  destruct (unmarshal_struct _ _ _) as [[rsid lease]|]; [|done]. destruct (negb _ || _); [done|].
  unfold run_routes. destruct (GetTerminalSession _ _ _ _) as [[v'|] x] eqn:Eg; [|done]. intros [= <- _].
  apply found_account in Eg as [-> ->]. by rewrite !trim_trim.
Qed.

(** Whatever comes of it, a deletion changes only the route it names. *)
Lemma delete_only o sid now x :
  only_changes (scopeTerminalSessionID o sid) x (DeleteTerminalSession o sid now x).2.
Proof.
  unfold DeleteTerminalSession, normalizeTaskOwnerID. destruct (bool_decide _ || bool_decide _) eqn:Eg; [done|].
  bool_prop. rewrite scope_trim. set (sc := scopeTerminalSessionID o sid).
  assert (trim sc = sc) as Ht by (by apply trim_scope).
  pose proof (snapshot_only sc now x) as Hsnap. destruct (terminalSessionRouteSnapshot sc now x) as [[rt|] x1];
    rewrite Ht in Hsnap; destruct Hsnap as [Ho Hr]; [|done].
  destruct (Hr rt eq_refl) as [-> _]. destruct (negb _); [done|]. pose proof (clear_only sc (NodeID rt) x) as Hc.
  destruct (clearTerminalSessionRoute sc (NodeID rt) x) as [[[]|e] x2]; rewrite Ht in Hc; by destruct Hc.
Qed.

Context (h : WorkerHandler) (env : rest_env) (c : context) (r : request) (o : string).
Context (Hscope : resolveWorkerAccessScope c = Some (o, false)) (Ho : good_id o).

(** A non-admin reaches the account's own sessions, or gets no further. *)
Lemma session_owner b :
  resolveConsoleSessionOwner c r b =
  if bool_decide (trim (Query r "account_id") ∈ [""; o]) then inl o else inr (fail 404 "session not found").
Proof.
  unfold resolveConsoleSessionOwner. rewrite Hscope. generalize (trim (Query r "account_id")) as q. intros q.
  destruct (decide (q = "")) as [->|Hne]; [by rewrite (bool_decide_true (_ ∈ _)) by (left)|].
  rewrite (bool_decide_false (q = "")) by done. destruct (decide (q = o)) as [->|Hno].
  - by rewrite (bool_decide_true (o = o)), (bool_decide_true (_ ∈ _)) by first [done|right; left].
  - rewrite (bool_decide_false (q = o)) by done. rewrite bool_decide_false; [done|].
    intros [?|[?|[]%not_elem_of_nil]%elem_of_cons]%elem_of_cons; done.
Qed.

Lemma with_owner_cases b s k :
  with_session_owner c r b h s k = k o \/
  exists st msg, with_session_owner c r b h s k = (fail st msg, s).
Proof.
  unfold with_session_owner. rewrite session_owner. destruct (bool_decide _); [|right; eauto].
  destruct (negb _); [right; eauto|by left].
Qed.

Lemma list_sessions_owned s items total page size s' it :
  ListSessions h env c r s = (mkReply 200 (RSessions items total page size), s') -> it ∈ items -> si_AccountID it = o.
Proof.
  unfold ListSessions. match goal with |- context [with_session_owner c r false h s ?k] =>
    destruct (with_owner_cases false s k) as [->|(st & msg & ->)] end; [|done].
  destruct (parsePositiveIntQuery _ _ _); [|done]. destruct (parsePositiveIntQuery _ _ _); [|done].
  destruct (maxPageSize <? _); [done|]. unfold run_routes. destruct (ListTerminalSessions _ _ _) as [views x] eqn:El.
  destruct (session_page _ _ _) as [vs|] eqn:Ep; [|done]. intros [= <- _ _ _ _] Hi.
  apply list_elem_of_fmap in Hi as (v & -> & Hv). eapply session_page_elem in Hv; [|done].
  pose proof (good_id_trim _ Ho) as Ht. cbn [sessionItemFromView si_AccountID]. rewrite <- Ht.
  eapply listed_account; [rewrite Ht; by destruct Ho|]. by rewrite El.
Qed.

Lemma with_id_cases s k :
  with_session_id r s k = k (trim (rq_param r "session_id")) \/ with_session_id r s k = (fail 404 "session not found", s).
Proof. unfold with_session_id. destruct (bool_decide _); auto. Qed.

Ltac enter_session s :=
  match goal with |- context [with_session_owner c r true h s ?f] =>
    destruct (with_owner_cases true s f) as [->|(? & ? & ->)]; [cbv beta|done] end;
  match goal with |- context [with_session_id r s ?f] => destruct (with_id_cases s f) as [->| ->]; [|done] end.

Lemma get_session_owned s it :
  rp_body (GetSession h env c r s).1 = RSession it ->
  si_AccountID it = o /\ si_SessionID it = trim (rq_param r "session_id").
Proof.
  unfold GetSession. enter_session s. unfold run_routes. destruct (GetTerminalSession _ _ _ _) as [[v|] x] eqn:Eg; [|done].
  intros [= <-]. apply found_account in Eg as [E1 E2]. cbn. by rewrite E1, E2, trim_trim, good_id_trim.
Qed.

Lemma renew_session_owned s it :
  rp_body (RenewSessionLease h env c r s).1 = RSession it ->
  si_AccountID it = o /\ si_SessionID it = trim (rq_param r "session_id").
Proof.
  unfold RenewSessionLease. enter_session s. destruct (unmarshal_struct _ _ _); [|done]. destruct (_ <=? 0); [done|].
  destruct (RenewTerminalSessionLease _ _ _ _ _ _ _) as [[v|e] s1] eqn:Er.
  - intros [= <-]. apply renewed_account in Er as [E1 E2]. cbn. by rewrite E1, E2, trim_trim, good_id_trim.
  - unfold renew_failure. by repeat case_match.
Qed.

Lemma delete_session_owned s :
  only_changes (scopeTerminalSessionID o (trim (rq_param r "session_id"))) (svc_routes s) (svc_routes (DeleteSession h env c r s).2).
Proof.
  unfold DeleteSession. enter_session s. unfold run_routes.
  match goal with |- context [DeleteTerminalSession ?a ?b ?n ?x] => pose proof (delete_only a b n x) as Hd;
    destruct (DeleteTerminalSession a b n x) as [[[]|e] x'] end; exact Hd.
Qed.

End sessions.

(** ** The task that answers a submission *)
Section answers.
Implicit Types (s : RegistryService) (t : Task).

Definition answered (o : string) (res : SubmitTaskResult) s : Prop :=
  exists id t, tasks_of s !! id = Some t /\ str_Task res = snapshotTask id t /\ t_OwnerID t = o.

Definition owner_at (id o : string) s : Prop := forall t, tasks_of s !! id = Some t -> t_OwnerID t = o.

(** Other goroutines do not give a task to another owner. *)
Definition keeps_owners (f : RegistryService -> RegistryService) : Prop :=
  forall s id o, owner_at id o s -> owner_at id o (f s).

Lemma snapshot_answered id o s res s' : owner_at id o s -> snapshot_now id s = (Ok res, s') -> answered o res s'.
Proof.
  intros Ho H. unfold snapshot_now in H. pose proof (getTaskByID_at id s) as Hat.
  destruct (getTaskByID id s) as [[t|] s1] eqn:Eg; [|done]. injection H as <- <-. cbn [snd] in Hat.
  apply getTaskByID_some in Eg. rewrite task_at_of in Eg. exists id, t. rewrite <- task_at_of, Hat, task_at_of. by auto.
Qed.

Lemma snapshot_tasks_of id s : tasks_of (snapshot_now id s).2 = tasks_of s.
Proof. apply snapshot_now_id. Qed.

Lemma resolve_answered env id runtime mode o s res s' :
  keeps_owners (se_others env) -> owner_at id o s ->
  resolveSubmitTaskResult env id runtime mode s = (Ok res, s') -> answered o res s'.
Proof.
  intros Hk Ho. unfold resolveSubmitTaskResult. destruct (bool_decide _); [done|].
  pose proof (snapshot_tasks_of id s) as Ht. destruct (snapshot_now id s) as [[snap|e] s1] eqn:Es; [|done]. cbn [snd] in Ht.
  assert (owner_at id o s1) as Ho1 by (unfold owner_at; by rewrite Ht).
  destruct (_ || _); [intros [= <- <-]; exact (snapshot_answered _ _ _ _ _ Ho Es)|]. destruct (negb runtime); [by apply snapshot_answered|].
  destruct (se_wait_ctx env); [done|]. apply snapshot_answered. by apply Hk.
Qed.

Lemma inserted_row id row s x s' :
  run_db unavailable (InsertTask id row) s = (Ok x, s') -> tasks_of s' = <[id := row]> (tasks_of s).
Proof.
  intros H. destruct (run_db_cases unavailable (InsertTask id row) s) as [[_ E]|(c&Hc&E)]; rewrite E in H; [done|].
  injection H as H1 <-. unfold tasks_of, svc_db. rewrite Hc. cbn.
  destruct (InsertTask id row c) as [q c'] eqn:Ei. cbn in *. subst q. apply stmt_ok in Ei.
  destruct (tasks (data c) !! id); [done|]. destruct (_ && _); [done|]. by injection Ei as _ <-.
Qed.

Lemma finish_owner id' o id st result code msg at_ now s :
  owner_at id' o s -> owner_at id' o (finishTask id st result code msg at_ now s).2.
Proof.
  intros Ho. unfold finishTask. destruct (bool_decide _); [done|]. unfold MarkTaskTerminal.
  match goal with |- context [run_db _ (write (update_task ?i ?f)) s] => pose proof (run_update_cases i f s) as Hu;
    destruct (run_db _ (write (update_task i f)) s) as [[rows|e] s1] end.
  - assert (owner_at id' o (completeTaskRuntime (trim id) s1)) as H1; [|by destruct (rows =? 0)].
    unfold owner_at. intros t. rewrite <- task_at_of, complete_at.
    destruct Hu as (_&_&_&_&[(_&(u&Hu&_&Hu')&Hother)|(_&Hsame&_)]).
    + destruct (decide (id' = trim id)) as [->|Hne].
      * rewrite Hu'. intros [= <-]. cbn. apply Ho. by rewrite <- task_at_of.
      * rewrite Hother by done. rewrite task_at_of. apply Ho.
    + rewrite Hsame, task_at_of. apply Ho.
  - destruct Hu as (_&_&_&_&Hsame&_). intros t. cbn [snd]. rewrite <- task_at_of, complete_at, Hsame, task_at_of. apply Ho.
Qed.

Lemma insert_answered env owner request capability prepared input intent mode timeout s res job s' :
  keeps_owners (se_others env) ->
  submit_insert env owner request capability prepared input intent mode timeout s = ((Ok res, job), s') -> answered owner res s'.
Proof.
  intros Hk. unfold submit_insert. destruct (se_taskID env) as [id|e]; [|done].
  destruct (run_db _ _ s) as [[x|e] s1] eqn:Er.
  - apply inserted_row in Er. assert (owner_at id owner s1) as Ho.
    { intros t. rewrite Er, lookup_insert_eq. by intros [= <-]. }
    destruct (pt_immediateResult prepared) as [result|].
    + pose proof (fun a b => finish_owner id owner id Succeeded result "" "" a b s1 Ho) as Hf.
      specialize (Hf (se_now env) (se_now env)). destruct (finishTask _ _ _ _ _ _ _ s1) as [[u|e] s2]; [|done]. cbn [snd] in Hf.
      set (s3 := if bool_decide _ then s2 else _). assert (tasks_of s3 = tasks_of s2) as E3 by apply tasks_release.
      pose proof (getTaskByID_at id s3) as Hat. destruct (getTaskByID id s3) as [[t|] s4] eqn:Eg; [|done].
      intros [= <- _ <-]. apply getTaskByID_some in Eg. rewrite task_at_of in Eg. exists id, t. cbn [snd] in Hat.
      rewrite <- task_at_of, Hat, task_at_of. split_and!; [done|done|]. apply Hf. by rewrite <- E3.
    + set (s3 := if bool_decide _ then setTaskRuntime id s1 else _).
      assert (owner_at id owner s3) as H3 by (unfold owner_at, s3; rewrite tasks_release; exact Ho).
      destruct (resolveSubmitTaskResult _ _ _ _ s3) as [q s4] eqn:Es. intros [= -> _ <-]. by eapply resolve_answered.
  - destruct (negb _ && _); [|done]. pose proof (get_request_at owner request s1) as Hat.
    destruct (getTaskByOwnerAndRequest owner request s1) as [[[eid t]|] s2] eqn:Eg; [|done]. cbn [snd] in Hat.
    apply get_request_found in Eg as (Ht & Hto & _). assert (owner_at eid owner s2) as Ho.
    { intros u. rewrite <- task_at_of, Hat, task_at_of, Ht. by intros [= <-]. }
    destruct (resolveSubmitTaskResult _ _ _ _ s2) as [q s3] eqn:Es. intros [= -> _ <-].
    eapply resolve_answered in Es as (id' & u & H1 & H2 & H3); [|done..]. exists id', u. by rewrite tasks_release.
Qed.

Lemma submit_answered env req s res job s' :
  keeps_owners (se_others env) -> SubmitTask env req s = ((Ok res, job), s') -> answered (trim (sr_OwnerID req)) res s'.
Proof.
  intros Hk. unfold SubmitTask. destruct (bool_decide _); [done|]. destruct (_ || _); [done|].
  destruct (bool_decide _); [done|]. destruct (ParseTaskMode _); [|done]. destruct (negb _); [done|].
  destruct (prepareTaskInput _ _ _ _ s) as [[prepared|e] s1]; [|done]. destruct (scopeTaskInputByOwner _ _ _ _); [|done].
  destruct (maxTaskTimeout <? _); [done|]. destruct (maxTaskWait <? _); [done|]. unfold normalizeTaskOwnerID.
  generalize (maybePruneExpiredTasks (se_now env) s1). intros s2. unfold submit_request. cbv zeta.
  assert (forall (rel : RegistryService -> RegistryService) s3 inp it md tm rq cp, (match availability prepared (trim (sr_OwnerID req)) (se_now env) s3 with
    | (Ok _, s) => submit_insert env (trim (sr_OwnerID req)) rq cp prepared inp it md tm s
    | (Err e, s) => ((Err e, None), rel s)
    end) = ((Ok res, job), s') -> answered (trim (sr_OwnerID req)) res s') as Hc.
  { intros rel s3 inp it md tm rq cp. destruct (availability _ _ _ s3) as [[u|e] s4]; [|done]. by apply insert_answered. }
  destruct (bool_decide (trim (sr_RequestID req) = "")) eqn:Eq; [exact (Hc (fun s => s) _ _ _ _ _ _ _)|].
  destruct (bool_decide (taskRequestScopeKey _ _ ∈ _)); [done|]. set (s3 := with_svc_reservations _ s2). pose proof (get_request_at (trim (sr_OwnerID req)) (trim (sr_RequestID req)) s3) as Hat.
  destruct (getTaskByOwnerAndRequest _ _ s3) as [[[id t]|] s4] eqn:Eg; [|exact (Hc (release_request _) _ _ _ _ _ _ _)].
  cbn [snd] in Hat. apply get_request_found in Eg as (Ht & Hto & _). destruct (resolveSubmitTaskResult _ _ _ _ s4) as [q s5] eqn:Es.
  intros [= -> _ <-]. eapply resolve_answered in Es as (id' & u & H1 & H2 & H3); [|done|].
  - exists id', u. split_and!; [exact H1|done..].
  - intros u. rewrite <- task_at_of, Hat, task_at_of, Ht. by intros [= <-].
Qed.

End answers.

(** ** Sandbox metadata *)
Section metadata.
Implicit Types (s : RegistryService) (d : DB).

(** A query that only reads leaves a healthy service as it is. *)
Lemma set_db_same d s : healthy s d -> set_db d s = s.
Proof.
  unfold healthy, svc_conn, set_db. destruct s as [? rt]. destruct rt. cbn. by intros ->.
Qed.

Lemma healthy_read {A} (dflt : A) (m : M A) s d a :
  healthy s d -> m (mkConn d []) = (Ok a, mkConn d []) -> query dflt m s = (a, s).
Proof. intros Hs Hm. rewrite (healthy_query dflt m s d a d Hs Hm). by rewrite set_db_same. Qed.

Lemma or_else_read {A} (x : A) (f : DB -> A) d : or_else x (read f) (mkConn d []) = (Ok (f d), mkConn d []).
Proof. done. Qed.

(** The reported nodes are those the dispatcher chooses from. *)
Lemma reported_nodes h o capability now s :
  h_offlineTTL h = offlineTTL s -> trim o <> "" ->
  onlineNodeIDsForCapability h o capability now s = listOnlineNodeIDsForCapability capability o now s.
Proof.
  intros Ht Ho. unfold onlineNodeIDsForCapability, listOnlineNodeIDsForCapability, normalizeTaskOwnerID,
    normalizeToolCapabilityKey, normalizeCapability, computerUseCapabilityName, readImageCapabilityName.
  rewrite Ht, (bool_decide_false (trim o = "")) by done. by destruct (_ || _).
Qed.

Lemma healthy_nodes capability o now s d :
  healthy s d -> (listOnlineNodeIDsForCapability capability o now s).2 = s.
Proof.
  intros Hs. unfold listOnlineNodeIDsForCapability. destruct (_ || _).
  - destruct (bool_decide _); [done|]. unfold ListOnlineNodeIDsByOwnerTypeAndCapability.
    destruct (_ || _); [by rewrite (healthy_read [] _ s d [] Hs)|]. by erewrite (healthy_read [] _ s d _ Hs) by apply or_else_read.
  - unfold ListOnlineNodeIDsByCapability. destruct (bool_decide _); [by rewrite (healthy_read [] _ s d [] Hs)|].
    by erewrite (healthy_read [] _ s d _ Hs) by apply or_else_read.
Qed.

(** The limits a worker's row declares. *)
Definition declares (d : DB) (node capability : string) (limit : Z) : Prop :=
  is_Some (worker_nodes d !! trim node) /\
  exists name z, worker_capabilities d !! (trim node, name) = Some z /\
    normalizeToolCapabilityKey name = capability /\ i32 z = limit.

Lemma healthy_worker node now ttl s d :
  healthy s d -> exists v, query None (GetByNodeID node now ttl) s = (v, s) /\
    forall capability limit, trim node <> "" -> declares d node capability limit <->
      exists w cap, v = Some w /\ cap ∈ w_Capabilities (v_Worker w) /\
        normalizeToolCapabilityKey (cd_Name cap) = capability /\ cd_MaxInflight cap = limit.
Proof.
  intros Hs. unfold GetByNodeID. destruct (bool_decide (trim node = "")) eqn:Et.
  { apply bool_decide_eq_true in Et. exists None. split; [by apply (healthy_read None _ s d None Hs)|]. by intros ? ? []. }
  destruct (worker_nodes d !! trim node) as [w|] eqn:Ew.
  - eexists. split.
    { apply (healthy_read None _ s d _ Hs). unfold or_else, GetWorkerNodeByID, read_one, stmt, catch, mbind, M_bind, one_row. cbn.
      rewrite Ew. reflexivity. }
    intros capability limit _. unfold declares. rewrite Ew. split.
    + intros (_ & name & z & Hz & Hn & Hl). eexists _, (mkCapability name (i32 z)). split; [done|]. cbn. split; [|done].
      apply list_elem_of_fmap. exists (name, z). split; [done|]. apply list_elem_of_fmap. exists ((trim node, name), z).
      rewrite elem_of_order_by, elem_of_map_to_list, lookup_select_Some. split; [done|]. by rewrite bool_decide_true.
    + intros (v & cap & [= <-] & Hin & Hn & Hl). split; [done|]. cbn in Hin. apply list_elem_of_fmap in Hin as ([name z] & -> & Hin).
      apply list_elem_of_fmap in Hin as ([[n' name'] z'] & [= -> ->] & Hin).
      rewrite elem_of_order_by, elem_of_map_to_list, lookup_select_Some in Hin. destruct Hin as [Hin He%bool_decide_eq_true]. cbn in *. subst.
      by eauto.
  - exists None. split.
    { apply (healthy_read None _ s d _ Hs). unfold or_else, GetWorkerNodeByID, read_one, stmt, catch, mbind, M_bind, one_row. cbn.
      by rewrite Ew. }
    intros capability limit _. unfold declares. rewrite Ew. split; [by intros [[] _]|by intros (? & ? & ? & _)].
Qed.

(** [out] is the largest of [m] and the numbers of [P]. *)
Definition largest (m : Z) (P : Z -> Prop) (out : Z) : Prop :=
  m <= out /\ (forall z, P z -> z <= out) /\ (out = m \/ P out).

Lemma max_declared_largest capability caps m :
  largest m (fun z => exists cap, cap ∈ caps /\ normalizeToolCapabilityKey (cd_Name cap) = capability /\ cd_MaxInflight cap = z)
    (max_declared capability caps m).
Proof.
  unfold max_declared. revert m. induction caps as [|cap caps IH]; intros m; cbn.
  - split; [lia|]. split; [by intros z (? & []%not_elem_of_nil & _)|by left].
  - set (m' := if _ && _ then _ else m). destruct (IH m') as (H1 & H2 & H3).
    assert (m <= m' /\ (m' = m \/ normalizeToolCapabilityKey (cd_Name cap) = capability /\ m' = cd_MaxInflight cap) /\
      (normalizeToolCapabilityKey (cd_Name cap) = capability -> cd_MaxInflight cap <= m')) as (A & B & C).
    { unfold m'. case_bool_decide; cbn; [|by split_and!; [lia|left|]]. destruct (Z.ltb_spec m (cd_MaxInflight cap)); split_and!; auto; lia. }
    split; [lia|]. split.
    + intros z (x & [->|Hx]%elem_of_cons & Hn & Hz); [specialize (C Hn); lia|]. apply H2. eauto.
    + destruct H3 as [E|(x & Hx & Hn & Hz)]; [|right; exists x; split; [by right|done]]. rewrite E.
      destruct B as [->|[Hn ->]]; [by left|]. right. exists cap. split; [by left|done].
Qed.

Lemma max_loop_largest h nodes capability now m s d :
  healthy s d -> (forall n, n ∈ nodes -> trim n <> "") ->
  let '(out, s') := max_inflight_loop h nodes capability now m s in
  s' = s /\ largest m (fun z => exists n, n ∈ nodes /\ declares d n capability z) out.
Proof.
  intros Hs. revert m. induction nodes as [|n nodes IH]; intros m Hn; cbn [max_inflight_loop].
  - split; [done|]. split; [lia|]. split; [by intros z (? & []%not_elem_of_nil & _)|by left].
  - destruct (healthy_worker n now (h_offlineTTL h) s d Hs) as (v & -> & Hd).
    assert (exists m1, match v with
      | None => max_inflight_loop h nodes capability now m s
      | Some w => max_inflight_loop h nodes capability now (max_declared capability (w_Capabilities (v_Worker w)) m) s end
      = max_inflight_loop h nodes capability now m1 s /\ largest m (declares d n capability) m1) as (m1 & E & L).
    { destruct v as [w|].
      - eexists. split; [done|]. destruct (max_declared_largest capability (w_Capabilities (v_Worker w)) m) as (A & B & C).
        split; [done|]. split.
        + intros z Hz. apply Hd in Hz as (w' & cap & [= <-] & ?); [|apply Hn; by left]. apply B. eauto.
        + destruct C as [C|(cap & C)]; [by left|right]. apply Hd; [apply Hn; by left|]. eauto.
      - exists m. split; [done|]. split; [lia|]. split; [|by left]. intros z Hz. apply Hd in Hz as (? & ? & [=] & _). apply Hn. by left. }
    rewrite E. specialize (IH m1 ltac:(intros n' Hn'; apply Hn; by right)).
    destruct (max_inflight_loop _ _ _ _ m1 s) as [out s']. destruct IH as [-> (H1 & H2 & H3)]. destruct L as (L1 & L2 & L3).
    split; [done|]. split; [lia|]. split.
    + intros z (n' & [->|Hin]%elem_of_cons & Hz); [specialize (L2 z Hz); lia|]. eauto.
    + destruct H3 as [->|(n' & Hin & Hz)]; [|right; exists n'; split; [by right|done]].
      destruct L3 as [->|L3]; [by left|]. right. exists n. split; [by left|done].
Qed.

End metadata.

(** ** Paths *)

(** [url.PathUnescape], as the server applies it to a path. *)
Definition unhex (a : ascii) : option N :=
  let n := N_of_ascii a in
  if ((48 <=? n) && (n <=? 57))%N then Some (n - 48)%N
  else if ((97 <=? n) && (n <=? 102))%N then Some (n - 87)%N
  else if ((65 <=? n) && (n <=? 70))%N then Some (n - 55)%N else None.

Fixpoint PathUnescape (s : string) : option string :=
  match s with
  | EmptyString => Some ""
  | String a s =>
      if Ascii.eqb a "%" then
        match s with
        | String x (String y s) =>
            match unhex x, unhex y with
            | Some hi, Some lo => String (ascii_of_N (16 * hi + lo)) <$> PathUnescape s
            | _, _ => None
            end
        | _ => None
        end
      else String a <$> PathUnescape s
  end.

Lemma unhex_escaped a :
  match unhex (hex_upper (N_of_ascii a / 16)), unhex (hex_upper (N_of_ascii a mod 16)) with
  | Some hi, Some lo => ascii_of_N (16 * hi + lo) = a
  | _, _ => False
  end.
Proof. destruct a as [[] [] [] [] [] [] [] []]; vm_compute; reflexivity. Qed.

Lemma path_char_plain a : path_char a = true -> Ascii.eqb a "%" = false.
Proof. intros H. destruct (Ascii.eqb_spec a "%") as [->|]; done. Qed.

Lemma path_escape_round_trip s : PathUnescape (PathEscape s) = Some s.
Proof.
  induction s as [|a s IH]; [done|]. cbn [PathEscape]. destruct (path_char a) eqn:E; cbn [PathUnescape].
  - by rewrite (path_char_plain a E), IH.
  - rewrite Ascii.eqb_refl. pose proof (unhex_escaped a) as H. 
    destruct (unhex (hex_upper (N_of_ascii a / 16))) as [hi|]; [|done]. destruct (unhex (hex_upper (N_of_ascii a mod 16))) as [lo|]; [|done].
    by rewrite IH, H.
Qed.

(** ** Request bodies *)

(** What every field decoder keeps, the decoded struct has. *)
Lemma unmarshal_keeps {S} (P : S -> Prop) field zero p (x : S) :
  P zero -> (forall name dec v s, field name = Some dec -> P s -> P (dec v s).1) ->
  unmarshal_struct field zero p = Some x -> P x.
Proof.
  intros H0 Hf H. destruct p as [| |[| | | | | |ms]]; try done; cbn in H; [by simplify_eq|].
  assert (forall acc, P acc.1 -> P (foldl (fun acc kv => let '(s, bad) := acc in
    match field kv.1 with Some dec => let '(s', bad') := dec kv.2 s in (s', bad || bad') | None => (s, bad) end) acc ms).1) as Hl.
  { clear H. induction ms as [|[k v] ms IH]; intros [y b] Hy; [done|]. cbn. apply IH. cbn in Hy. destruct (field k) as [dec|] eqn:E; [|exact Hy].
    pose proof (Hf k dec v y E Hy) as Hd. by destruct (dec v y). }
  specialize (Hl (zero, false) H0). unfold dec_fields in H. destruct (foldl _ _ _) as [y []]; [done|]. by simplify_eq.
Qed.

Lemma dec_int_ptr_i64 v old :
  (forall z, old = Some z -> is_i64 z = true) -> forall z, (dec_int_ptr v old).1 = Some z -> is_i64 z = true.
Proof.
  intros Ho z. assert (is_i64 (default 0 old) = true) as H0 by (destruct old; [by apply Ho|done]).
  destruct v; cbn; try (intros [= <-]; exact H0).
  destruct (is_i64 z0) eqn:E; cbn; by intros [= <-].
Qed.

Lemma terminal_lease_i64 p q z : bind_terminal p = Some q -> tq_LeaseTTLSec q = Some z -> is_i64 z = true.
Proof.
  intros H. revert z. apply (unmarshal_keeps (fun q => forall z, tq_LeaseTTLSec q = Some z -> is_i64 z = true)
    terminal_request_field (mkTerminalRequest "" "" false None None "") p q); [done| |exact H].
  clear. intros name dec v s Hd Hs. unfold terminal_request_field in Hd.
  repeat (destruct (equal_fold _ _); [injection Hd as <-; revert Hs; clear; intros Hs;
    first [ match goal with |- context [dec_int_ptr v (tq_LeaseTTLSec s)] =>
              pose proof (dec_int_ptr_i64 v (tq_LeaseTTLSec s) Hs) as H; by destruct (dec_int_ptr v (tq_LeaseTTLSec s)) end
          | by destruct (dec_string _ _) | by destruct (dec_bool _ _) | by destruct (dec_int_ptr _ _) ]|]). done.
Qed.

Lemma duration_ms_range ms : 0 < ms <= maxTaskTimeoutMS -> duration_ms ms = ms * millisecond.
Proof. unfold maxTaskTimeoutMS, duration_ms, millisecond. intros H. apply i64_id. lia. Qed.

End RestProps.
Export RestProps.
