(* ===== verification/RestClaims.v ===== *)
(** Properties of the HTTP handlers of workers, terminal sessions, tasks and
    commands: what an account can see and change, what becomes of the requests
    they hand to the service, and examples of what they get wrong. *)
From S2P Require Import Prelude.
From S2P Require Import Json.
From S2P Require Import Sql.
From S2P Require Import Proto.
From S2P Require Import Registry.
From S2P Require Import RouteStore.
From S2P Require Import OwnerScope.
From S2P Require Import TerminalRoutes.
From S2P Require Import TerminalRoutesProps.
From S2P Require Import SessionRuntime.
From S2P Require Import Service.
From S2P Require Import Dispatch.
From S2P Require Import DispatchProps.
From S2P Require Import Tasks.
From S2P Require Import Submit.
From S2P Require Import TaskProps.
From S2P Require Import SubmitProps.
From S2P Require Import Connect.
From S2P Require Import ConnectProps.
From S2P Require Import AuthText.
From S2P Require Import AuthSql.
From S2P Require Import Accounts.
From S2P Require Import Auth.
From S2P Require Import AuthProps.
From S2P Require Import Rest.
From S2P Require Import RestProps.
From S2P Require Import AuthClaims.

Module RestClaims.

(** ** Scope *)

(** C8: An account that is not an administrator manages its own computers
    only. For every request that the dashboard admits for it: the workers it
    is shown, in the list and in the load report, are worker-sys labelled with
    its id; a worker it creates is a worker-sys of its own; and unless the
    worker it names for deletion is such a worker, the deletion is refused and
    the service stays as it was, whichever statements of the database fail. *)
Theorem accounts_manage_only_their_workers cfg menv r a c a' account h env s :
  crypto_ok (ac_crypto cfg) -> console_ok a -> RequireAuth cfg menv r a = (Next c, a') ->
  cx_account c = Some account -> sa_IsAdmin account = false ->
  let o := sa_AccountID account in
  (forall items total page size s' item,
     ListWorkers h env c r s = (mkReply 200 (RWorkers items total page size), s') -> item ∈ items ->
     owns_in o (wi_NodeID item) s) /\
  (forall snaps t s' x, h_inflightStats h = true ->
     WorkerInflight h env c s = (mkReply 200 (RInflight snaps t), s') -> x ∈ snaps ->
     exists n, trim n = trim (is_NodeID x) /\ owns_in o n (re_others env s)) /\
  (let '(x, s') := CreateWorker h env c r s in
   rp_status x = 201 -> exists id secret, rp_body x = RWorkerSecret id WorkerTypeSys secret /\ owns_in o (trim id) s') /\
  (let '(x, s') := DeleteWorker h env c r s in
   owns_in o (trim (rq_param r "node_id")) s \/ (rp_status x ∈ [400; 404; 503] /\ probe s s')).
Proof.
  intros Hcr Hok Hauth Hacc Hadm o. destruct (caller_scope _ _ _ _ _ _ _ Hcr Hok Hauth Hacc) as [Hs Ho]. rewrite Hadm in Hs.
  split_and!.
  - intros. by eapply listed_workers.
  - intros. by eapply listed_inflight.
  - by apply created_worker.
  - by apply refused_delete.
Qed.

(** C9: An account that is not an administrator reaches its own terminal
    sessions only. For every request that the dashboard admits for it: naming
    another account is answered with 404 and changes nothing; the sessions
    shown in a list, by a lookup and by a renewal are its own, and the last two
    show the session that was named; and a deletion leaves the route and the
    stored row of every other session as they were. *)
Theorem accounts_reach_only_their_sessions cfg menv r a c a' account h env s :
  crypto_ok (ac_crypto cfg) -> console_ok a -> RequireAuth cfg menv r a = (Next c, a') ->
  cx_account c = Some account -> sa_IsAdmin account = false ->
  let o := sa_AccountID account in
  let sid := trim (rq_param r "session_id") in
  (trim (Query r "account_id") ∉ [""; o] ->
   forall e, e ∈ [GetSessions; GetSessionByPath; PostSessionRenew; DeleteSessionByPath] ->
   rest_handler h e env c r s = ((fail 404 "session not found", None), s)) /\
  (forall items total page size s' it,
     ListSessions h env c r s = (mkReply 200 (RSessions items total page size), s') -> it ∈ items -> si_AccountID it = o) /\
  (forall it, rp_body (GetSession h env c r s).1 = RSession it \/ rp_body (RenewSessionLease h env c r s).1 = RSession it ->
     si_AccountID it = o /\ si_SessionID it = sid) /\
  only_changes (scopeTerminalSessionID o sid) (svc_routes s) (svc_routes (DeleteSession h env c r s).2).
Proof.
  intros Hcr Hok Hauth Hacc Hadm o sid. destruct (caller_scope _ _ _ _ _ _ _ Hcr Hok Hauth Hacc) as [Hs Ho]. rewrite Hadm in Hs.
  split_and!.
  - intros Hq e He. repeat (apply elem_of_cons in He as [->|He]); [..|by apply not_elem_of_nil in He]; cbn [rest_handler];
      unfold ListSessions, GetSession, RenewSessionLease, DeleteSession, with_session_owner;
      by rewrite (session_owner c r o Hs), bool_decide_false.
  - intros. by eapply list_sessions_owned.
  - intros it [H|H]; [by eapply get_session_owned|by eapply renew_session_owned].
  - by apply delete_session_owned.
Qed.

(** ** Tasks *)
Lemma submit_error_body err : exists msg, rp_body (writeTaskSubmitError err) = RError msg.
Proof. unfold writeTaskSubmitError, fail. repeat case_match; eexists; reflexivity. Qed.

Lemma terminal_status_not_202 t : mapTaskTerminalStatusToHTTP t <> 202.
Proof. unfold mapTaskTerminalStatusToHTTP. by repeat case_match. Qed.

(** C10: A task that a submission leaves running can be followed. The status URL of the
    202 answer decodes to the task's id; looking that id up, while the
    database answers, gives the token's owner the same description of the task,
    and gives any other owner 404, without changing the service. Other
    goroutines run meanwhile; they do not hand a task to another owner. *)
Theorem accepted_task_can_be_followed h env c r s t job s' d :
  keeps_owners (se_others (re_submit env)) ->
  SubmitTaskHandler h env c r s = ((mkReply 202 (RTask t), job), s') -> healthy s' d ->
  trim (tr_TaskID t) = tr_TaskID t -> tr_TaskID t <> "" ->
  (exists path, tr_StatusURL t = "/api/v1/tasks/" +:+ path /\ PathUnescape path = Some (tr_TaskID t)) /\
  forall c' r', rq_param r' "task_id" = tr_TaskID t -> requestOwnerIDFromGin c' <> "" ->
    GetTaskHandler h c' r' s' =
    if bool_decide (requestOwnerIDFromGin c' = requestOwnerIDFromGin c)
    then (mkReply 200 (RTask (with_status_url "" t)), s') else (fail 404 "task not found", s').
Proof.
  intros Hk H Hs' Ht Hne. unfold SubmitTaskHandler in H. destruct (h_dispatcher h) eqn:Eh; cbn [negb] in H; [|done].
  destruct (bool_decide (requestOwnerIDFromGin c = "")); [done|]. destruct (submit_request_of _ r) as [req|x] eqn:Er.
  2:{ unfold submit_request_of in Er. destruct (bind_submit _); [|by simplify_eq]. destruct (_ || _); [by simplify_eq|].
      destruct (_ || _); [by simplify_eq|]. destruct (ParseTaskMode _); by simplify_eq. }
  assert (sr_OwnerID req = requestOwnerIDFromGin c) as Eo.
  { unfold submit_request_of in Er. destruct (bind_submit _); [|done]. destruct (_ || _); [done|].
    destruct (_ || _); [done|]. destruct (ParseTaskMode _); by simplify_eq. }
  destruct (SubmitTask _ req s) as [[[res|e] j] s1] eqn:Es; [|destruct (submit_error_body e) as [msg Hm]; injection H as H _ _; by rewrite H in Hm].
  unfold submit_reply in H. destruct (str_Completed res).
  { injection H as H _ _. by pose proof (terminal_status_not_202 (str_Task res)). }
  injection H as <- _ <-. apply submit_answered in Es as (id & row & Hrow & Eres & Howner); [|done]. cbn [tr_TaskID tr_StatusURL with_status_url buildTaskResponse] in *.
  rewrite Eres in *. cbn [ts_TaskID snapshotTask] in *. rewrite Eo in Howner.
  split; [exists (PathEscape id); split; [done|apply path_escape_round_trip]|].
  intros c' r' Hr' Hc'. unfold GetTaskHandler, with_owner. rewrite Eh, (bool_decide_false (requestOwnerIDFromGin c' = "")), Hr' by done. cbn [negb].
  unfold GetTask. rewrite !Ht, bool_decide_false, (healthy_get s1 d id Hs') by done. fold (set_db d s1). rewrite set_db_same by done.
  assert (tasks d !! id = Some row) as -> by (unfold tasks_of, svc_db in Hrow; by rewrite Hs' in Hrow).
  assert (forall c, trim (requestOwnerIDFromGin c) = requestOwnerIDFromGin c) as Hown.
  { intros x. unfold requestOwnerIDFromGin. destruct (cx_owner x); [apply trim_trim|done]. }
  unfold normalizeTaskOwnerID. rewrite Howner, !Hown. destruct (decide (requestOwnerIDFromGin c = requestOwnerIDFromGin c')) as [E|E].
  - by rewrite !bool_decide_true.
  - by rewrite !bool_decide_false by congruence.
Qed.

(** What the service demands of a submission, whatever the task is. *)
Record fits (o : string) (req : SubmitTaskRequest) : Prop := {
  fit_owner : sr_OwnerID req = o;
  fit_mode : exists mode, ParseTaskMode (sr_Mode req) = Ok mode;
  fit_wait : 0 <= sr_Wait req <= maxTaskWait;
  fit_timeout : 0 < sr_Timeout req <= maxTaskTimeout;
  fit_input : sr_InputJSON req = PEmpty \/ json_valid (sr_InputJSON req) = true }.

Lemma mode_text_parses m : ParseTaskMode (mode_text m) = Ok m.
Proof. by destruct m. Qed.

Lemma timeout_fits ms : (ms <? minCommandTimeoutMS) || (maxTaskTimeoutMS <? ms) = false -> 0 < duration_ms ms <= maxTaskTimeout.
Proof.
  unfold minCommandTimeoutMS. intros [H1%Z.ltb_ge H2%Z.ltb_ge]%orb_false_iff. rewrite duration_ms_range by lia.
  unfold maxTaskTimeoutMS, maxTaskTimeout, minute, second, millisecond in *. lia.
Qed.

Lemma command_fits capability input ms request o :
  (ms <? minCommandTimeoutMS) || (maxTaskTimeoutMS <? ms) = false -> json_valid input = true ->
  fits o (command_submit capability input ms request o).
Proof.
  intros Ht Hi. split; cbn; [done|by eexists|unfold maxTaskWait, second; lia|by apply timeout_fits|by right].
Qed.

(** What the handlers of tasks and commands hand to the service is never
    refused for its form: the owner is the token's, the mode is known, the
    wait and the timeout are within the limits of the service, whose units
    differ from the handlers', and the input is valid JSON. The payload of a
    terminal command decodes, in the service, to the command, session id,
    creation flag and lease of the request; that of a computer-use command to
    its command and its worker. *)
Theorem submitted_requests_fit_the_service o r :
  (forall req, submit_request_of o r = inl req -> fits o req) /\
  (forall req, terminal_submit o r = inl req -> fits o req /\
     exists q, bind_terminal (rq_body r) = Some q /\
       unmarshal_exec (sr_InputJSON req) =
       Some (mkExec (tq_Command q) (trim (tq_SessionID q)) (tq_CreateIfMissing q) (tq_LeaseTTLSec q))) /\
  (forall req, computer_submit o r = inl req -> fits o req /\
     exists q w, bind_computer (rq_body r) = Some q /\ requested_worker q = inl w /\
       exists m, unmarshal_map (sr_InputJSON req) = Some (Some m) /\
         (m !! "worker_id" = if bool_decide (w = "") then None else Some (JString w)) /\
         (m !! "command" = if bool_decide (uq_Command q = "") then None else Some (JString (uq_Command q)))).
Proof.
  split_and!.
  - intros req. unfold submit_request_of. destruct (bind_submit _) as [q|]; [|done]. destruct (_ || _) eqn:Ew; [done|].
    destruct (_ || _) eqn:Et in |- *; [done|]. destruct (ParseTaskMode _) as [m|]; [|done]. intros [= <-].
    apply orb_false_iff in Ew as [W1%Z.leb_gt W2%Z.ltb_ge], Et as [T1%Z.leb_gt T2%Z.ltb_ge].
    split; cbn; [done|eexists; apply mode_text_parses| | |by destruct (sq_Input q); [right|left]];
      rewrite duration_ms_range by (unfold maxTaskTimeoutMS, maxTaskWaitMS in *; lia);
      unfold maxTaskWaitMS, maxTaskTimeoutMS, maxTaskWait, maxTaskTimeout, minute, second, millisecond in *; lia.
  - intros req. unfold terminal_submit. destruct (bind_terminal _) as [q|] eqn:Eb; [|done]. destruct (bool_decide _); [done|].
    destruct (_ || _) eqn:Et; [done|]. intros [= <-]. split; [by apply command_fits|]. exists q. split; [done|].
    apply unmarshal_marshal_exec. cbn. intros z. by apply (terminal_lease_i64 _ _ _ Eb).
  - intros req. unfold computer_submit. destruct (bind_computer _) as [q|] eqn:Eb; [|done]. destruct (requested_worker q) as [w|] eqn:Ew; [|done].
    destruct (_ || _) eqn:Et; [done|]. intros [= <-]. split; [by apply command_fits|]. exists q, w. do 2 (split; [done|]).
    eexists. split; [reflexivity|]. destruct (bool_decide (uq_Command q = "")), (bool_decide (w = "")); split; reflexivity.
Qed.

(** ** Metadata *)

(** An entry that tells what the dispatcher sees. *)
Definition tells_the_truth (o : string) (now : time) (s : RegistryService) (d : DB) (e : sandboxMetadataCapability) : Prop :=
  let nodes := (listOnlineNodeIDsForCapability (sm_Name e) o now s).1 in
  sm_OnlineNodes e = Z.of_nat (length nodes) /\ (sm_Available e = true <-> nodes <> []) /\
  largest 0 (fun z => exists n, n ∈ nodes /\ declares d n (normalizeToolCapabilityKey (sm_Name e)) z) (sm_MaxInflight e).

Definition named_nodes (d : DB) : Prop := forall n k v, worker_capabilities d !! (n, k) = Some v -> trim n <> "".

Lemma listed_nodes_named capability o now s d n :
  healthy s d -> named_nodes d -> n ∈ (listOnlineNodeIDsForCapability capability o now s).1 -> trim n <> "".
Proof.
  intros Hs Hn. unfold listOnlineNodeIDsForCapability. destruct (_ || _).
  - destruct (bool_decide _); [by intros []%not_elem_of_nil|]. unfold ListOnlineNodeIDsByOwnerTypeAndCapability.
    destruct (_ || _); [rewrite (healthy_read [] _ s d [] Hs) by done; by intros []%not_elem_of_nil|].
    erewrite (healthy_read [] _ s d _ Hs) by apply or_else_read. cbn [fst]. rewrite elem_of_order_by, list_elem_of_omap.
    intros ([[m name] z] & Hin%elem_of_map_to_list & E). apply Hn in Hin. repeat case_match; by simplify_eq.
  - unfold ListOnlineNodeIDsByCapability. destruct (bool_decide _);
      [rewrite (healthy_read [] _ s d [] Hs) by done; by intros []%not_elem_of_nil|].
    erewrite (healthy_read [] _ s d _ Hs) by apply or_else_read. cbn [fst]. rewrite elem_of_order_by, list_elem_of_omap.
    intros ([[m name] z] & Hin%elem_of_map_to_list & E). apply Hn in Hin. repeat case_match; by simplify_eq.
Qed.

Lemma capability_entry h o capability now s d :
  healthy s d -> named_nodes d -> h_offlineTTL h = offlineTTL s -> trim o <> "" ->
  exists e, capability_metadata h o capability now s = (e, s) /\ sm_Name e = capability /\ tells_the_truth o now s d e.
Proof.
  intros Hs Hn Ht Ho. unfold capability_metadata, maxInflightForCapability. rewrite reported_nodes by done.
  pose proof (healthy_nodes capability o now s d Hs) as E. pose proof (fun n => listed_nodes_named capability o now s d n Hs Hn) as Hl.
  unfold tells_the_truth. destruct (listOnlineNodeIDsForCapability capability o now s) as [nodes s1] eqn:En. cbn [fst snd] in *. subst s1.
  pose proof (max_loop_largest h nodes (normalizeToolCapabilityKey capability) now 0 s d Hs Hl) as Hm.
  destruct (max_inflight_loop _ _ _ _ _ s) as [m s2]. destruct Hm as [-> Hm]. eexists. split; [done|]. split; [done|].
  cbn [sm_Name sm_OnlineNodes sm_Available sm_MaxInflight]. rewrite En. split; [done|]. split; [|exact Hm].
  rewrite Z.ltb_lt. destruct nodes; cbn; [|split; [done|lia]]. split; [lia|done].
Qed.

Lemma metadata_entries h o capabilities now s d :
  healthy s d -> named_nodes d -> h_offlineTTL h = offlineTTL s -> trim o <> "" ->
  exists l, metadata_loop h o capabilities now s = (l, s) /\ sm_Name <$> l = capabilities /\
    forall e, e ∈ l -> tells_the_truth o now s d e.
Proof.
  intros Hs Hn Ht Ho. induction capabilities as [|capability l IH]; cbn [metadata_loop].
  - exists []. split; [done|]. split; [done|]. by intros e []%not_elem_of_nil.
  - destruct (capability_entry h o capability now s d Hs Hn Ht Ho) as (e & -> & Hname & He). destruct IH as (es & -> & Hns & Hes).
    exists (e :: es). split; [done|]. split; [cbn; by rewrite Hname, Hns|]. intros e' [->|H']%elem_of_cons; auto.
Qed.

(** The sandbox metadata tells what the dispatcher would do. With a
    database that answers and the same offline limit, the answer lists the six
    capabilities, and for each of them the number of online nodes is the number
    of nodes the dispatcher chooses from for this owner, it is available exactly when there is
    one, and the reported limit is the largest that one of them declares; the
    service is not changed. *)
Theorem metadata_agrees_with_the_dispatcher h env c s d :
  healthy s d -> named_nodes d -> h_store h = true -> h_offlineTTL h = offlineTTL s ->
  requestOwnerIDFromGin c <> "" ->
  exists m, SandboxMetadata h env c s = (mkReply 200 (RSandbox m), s) /\
    (sm_Name <$> sb_Capabilities m) ≡ₚ metadata_capabilities /\
    forall e, e ∈ sb_Capabilities m -> tells_the_truth (requestOwnerIDFromGin c) (re_now env 0%nat) s d e.
Proof.
  intros Hs Hn Hh Ht Ho. unfold SandboxMetadata, with_owner. rewrite (bool_decide_false (requestOwnerIDFromGin c = "")), Hh by done.
  cbn [negb]. set (o := requestOwnerIDFromGin c) in *. set (now := re_now env 0%nat).
  assert (trim o <> "") as Hto.
  { unfold o, requestOwnerIDFromGin in *. destruct (cx_owner c); [by rewrite trim_trim|done]. }
  erewrite (healthy_read _ (StatsScoped _ _ _ _ _) s d _ Hs) by reflexivity. unfold sandboxCapabilityMetadata.
  destruct (metadata_entries h o metadata_capabilities now s d Hs Hn Ht Hto) as (l & -> & Hl & He).
  eexists. split; [done|]. cbn [sb_Capabilities]. split.
  - rewrite <- Hl. apply fmap_Permutation, merge_sort_Permutation.
  - intros e. rewrite merge_sort_Permutation. apply He.
Qed.

(** ** The hypotheses hold: the account Bob and its computer [w2] *)
Definition demo_rest_db : DB :=
  mkDB {[ "w2" := mkWorkerNode "sid2" true "" "host" "1" 0 1000 ]} {[ ("w2", "computerUse") := 1 ]}
    {[ ("w2", LabelOwnerIDKey) := "acc_b1"; ("w2", LabelWorkerTypeKey) := "worker-sys" ]} ∅ ∅ ∅ ∅ ∅ ∅ ∅.
Definition demo_rest_service : RegistryService :=
  with_svc_routes (with_store (Some (mkConn demo_rest_db [])) (svc_routes demo_service)) demo_sys_service.
Definition demo_handler : WorkerHandler := mkHandler (60 * second) true true true true true "".
Definition demo_rest_env : rest_env :=
  mkRestEnv (fun _ => demo_now) (fun _ => (Ok "w9", Ok "secret")) demo_submit_env (fun _ _ => DispatchProps.demo_env) (fun s => s).
Definition demo_bob_request (param : string) (b : payload) : request := demo_request "" (Some "s2") param b.
Definition demo_bob_account : SessionAccount := mkSessionAccount "acc_b1" "Bob" false.
Definition demo_bob_context : context := mkContext (Some demo_bob_account) (Some requestAuthMethodCookie) None.
Definition demo_token_context : context := mkContext None None (Some "acc_b1").

Lemma demo_bob_admitted param b :
  RequireAuth demo_cfg AuthClaims.demo_env (demo_bob_request param b) demo_auth =
  (Next demo_bob_context, (RequireAuth demo_cfg AuthClaims.demo_env (demo_bob_request param b) demo_auth).2).
Proof. vm_compute. reflexivity. Qed.

Definition demo_create_body : payload := PJson (JObject [("type", JString "Worker-Sys")]).

Lemma accounts_manage_only_their_workers_witness :
  (exists id secret, rp_body (CreateWorker demo_handler demo_rest_env demo_bob_context (demo_bob_request "w1" demo_create_body) demo_rest_service).1 =
     RWorkerSecret id WorkerTypeSys secret) /\
  (owns_in "acc_b1" "w1" demo_rest_service \/
   rp_status (DeleteWorker demo_handler demo_rest_env demo_bob_context (demo_bob_request "w1" demo_create_body) demo_rest_service).1 ∈ [400; 404; 503]).
Proof.
  destruct (accounts_manage_only_their_workers demo_cfg AuthClaims.demo_env (demo_bob_request "w1" demo_create_body) demo_auth demo_bob_context
    _ demo_bob_account demo_handler demo_rest_env demo_rest_service demo_crypto_ok demo_ok (demo_bob_admitted _ _) eq_refl eq_refl)
    as (_ & _ & H1 & H2).
  assert (rp_status (CreateWorker demo_handler demo_rest_env demo_bob_context (demo_bob_request "w1" demo_create_body) demo_rest_service).1 = 201) as E
    by (vm_compute; reflexivity).
  destruct (CreateWorker _ _ _ _ _) as [x s1], (DeleteWorker _ _ _ _ _) as [y s2]. split.
  - destruct (H1 E) as (id & secret & Hb & _). by exists id, secret.
  - destruct H2 as [H2|[H2 _]]; [by left|by right].
Defined.

Lemma accounts_reach_only_their_sessions_witness :
  only_changes (scopeTerminalSessionID "acc_b1" "s") (svc_routes demo_rest_service)
    (svc_routes (DeleteSession demo_handler demo_rest_env demo_bob_context (demo_bob_request "s" PEmpty) demo_rest_service).2).
Proof.
  apply (accounts_reach_only_their_sessions demo_cfg AuthClaims.demo_env (demo_bob_request "s" PEmpty) demo_auth demo_bob_context
    _ demo_bob_account demo_handler demo_rest_env demo_rest_service demo_crypto_ok demo_ok (demo_bob_admitted _ _) eq_refl eq_refl).
Defined.

Definition demo_submit_body : payload :=
  PJson (JObject [("capability", JString "terminalExec"); ("input", JObject [("command", JString "ls")]); ("mode", JString "async")]).
Definition demo_submission := SubmitTaskHandler demo_handler demo_rest_env (mkContext None None (Some "o1"))
  (demo_request "Bearer secret" None "" demo_submit_body) demo_task_service.

Lemma accepted_task_can_be_followed_witness : exists t job s',
  demo_submission = ((mkReply 202 (RTask t), job), s') /\ tr_StatusURL t = "/api/v1/tasks/t9" /\
  (GetTaskHandler demo_handler (mkContext None None (Some "o1")) (demo_request "" None (tr_TaskID t) PEmpty) s').1 =
  mkReply 200 (RTask (with_status_url "" t)).
Proof.
  destruct demo_submission as [[[st b] job] s'] eqn:E.
  assert (st = 202 /\ exists t d, b = RTask t /\ tr_TaskID t = "t9" /\ tr_StatusURL t = "/api/v1/tasks/t9" /\ healthy s' d)
    as [-> (t & d & -> & Hid & Hurl & Hs)].
  { vm_compute in E. injection E as <- <- <- <-. split; [reflexivity|]. eexists _, _. split; [reflexivity|].
    split; [reflexivity|]. split; [reflexivity|]. reflexivity. }
  exists t, job, s'. split; [reflexivity|]. split; [exact Hurl|].
  destruct (accepted_task_can_be_followed demo_handler demo_rest_env _ _ _ t job s' d ltac:(intros ? ? ? H; exact H) E Hs
    ltac:(rewrite Hid; reflexivity) ltac:(rewrite Hid; discriminate)) as [_ H].
  rewrite H; [reflexivity|reflexivity|discriminate].
Defined.

Definition demo_terminal_body : payload :=
  PJson (JObject [("command", JString "ls"); ("session_id", JString " s1 "); ("lease_ttl_sec", JInt 30); ("timeout_ms", JInt 600000)]).

Lemma submitted_requests_fit_the_service_witness :
  exists req, terminal_submit "o1" (demo_request "" None "" demo_terminal_body) = inl req /\ fits "o1" req /\
    unmarshal_exec (sr_InputJSON req) = Some (mkExec "ls" "s1" false (Some 30)).
Proof.
  destruct (terminal_submit "o1" (demo_request "" None "" demo_terminal_body)) as [req|] eqn:E; [|vm_compute in E; discriminate].
  exists req. split; [reflexivity|]. destruct (submitted_requests_fit_the_service "o1" (demo_request "" None "" demo_terminal_body)) as (_ & H & _).
  destruct (H req E) as (Hf & q & Hq & He). split; [exact Hf|]. vm_compute in Hq. injection Hq as <-. exact He.
Defined.

Lemma metadata_agrees_with_the_dispatcher_witness :
  exists m, SandboxMetadata demo_handler demo_rest_env demo_token_context demo_rest_service = (mkReply 200 (RSandbox m), demo_rest_service) /\
    forall e, e ∈ sb_Capabilities m -> tells_the_truth "acc_b1" demo_now demo_rest_service demo_rest_db e.
Proof.
  destruct (metadata_agrees_with_the_dispatcher demo_handler demo_rest_env demo_token_context demo_rest_service demo_rest_db)
    as (m & H1 & _ & H2); [reflexivity| |reflexivity|reflexivity|discriminate|exists m; split; [exact H1|exact H2]].
  intros n k v. unfold demo_rest_db. cbn. intros [[= <- <-] _]%lookup_singleton_Some. discriminate.
Defined.

(** ** What the handlers get wrong *)

(** A page number that the query parser accepts makes the offset wrap around:
    the handler panics instead of answering with an empty page. *)
Example far_session_page_panics :
  Atoi "92233720368547760" = Ok 92233720368547760 /\ session_page 92233720368547760 100 ["s1"] = None.
Proof. split; vm_compute; reflexivity. Qed.

End RestClaims.
Export RestClaims.
