(* ===== verification/Proxy.v ===== *)
(** Proxy routes: public host names that lead to a port inside a terminal
    session.  The service resolves a session to its worker and authorizes a
    request (console/internal/grpcserver/proxy_routes.go); the HTTP handler
    creates, lists and deletes routes and answers the front proxy
    (console/internal/httpapi/proxy_routes.go).

    The handler keeps its routes in memory beside the rows of the store.  The
    service calls [RevokeSessionRoutes] while it removes a terminal session
    ([revoked] of [TerminalRoutes]); [settle] is those calls, made before any
    other step sees the handler. *)
From stdpp Require Import pretty.
From S2P Require Import Prelude.
From S2P Require Import Json.
From S2P Require Import Net.
From S2P Require Import Sql.
From S2P Require Import Proto.
From S2P Require Import Registry.
From S2P Require Import RouteStore.
From S2P Require Import OwnerScope.
From S2P Require Import AuthText.
From S2P Require Import JsonText.
From S2P Require Import Sha256.
From S2P Require Import ProxyToken.
From S2P Require Import Url.
From S2P Require Import TerminalRoutes.
From S2P Require Import SessionRuntime.
From S2P Require Import Service.
From S2P Require Import ProxySession.
From S2P Require Import Dispatch.
From S2P Require Import Accounts.
From S2P Require Import Auth.
From S2P Require Import Rest.
Local Open Scope Z_scope.

Module Proxy.

(** ** The service: grpcserver/proxy_routes.go *)
Definition proxyRouteTokenTTL : duration := 15 * second.

Record ProxySessionTarget := mkTarget { pt_WorkerID : string; pt_ScopedSessionID : string }.

Record ProxyAuthorization := mkAuthorization {
  pa_Upstream : string;
  pa_UpstreamHost : string;
  pa_Token : string;
  pa_TrafficToken : string }.

(** What the outside does during a call: the clock when the caller's is zero,
    the other goroutines between the lookup of the route and of the worker's
    session, and a command sent to a worker. *)
Record resolve_env := mkResolveEnv {
  re_wall : time;
  re_between : RegistryService -> RegistryService;
  re_attempt : attempt_env }.

Definition proxyTerminalSessionWorker (env : resolve_env) (scopedSessionID : string) (now : time) (s : RegistryService)
    : option string * RegistryService :=
  let nowMs := routeNowUnixMs (re_wall env) now in
  let s := with_svc_routes (maybePruneTerminalSessionRoutes nowMs (svc_routes s)) s in
  match run_routes (terminalSessionRouteSnapshot scopedSessionID nowMs) s with
  | (None, s) => (None, s)
  | (Some route, s) =>
      if negb (ReservationID route =? 0) || negb (bool_decide (RecoveryState route = terminalSessionRecoveryReady)) ||
         bool_decide (trim (NodeID route) = "")
      then (None, s) else (Some (NodeID route), s)
  end.

Definition supports_proxy (x : activeSession) : bool :=
  hasCapability taskCapabilityTerminalExec x &&
  ((negb (bool_decide (trim (proxyEndpoint x) = "")) && negb (bool_decide (routeTokenKey x = ""))) ||
   (negb (bool_decide (trim (proxyDirect x) = "")) && hasCapability taskCapabilityTerminalProxy x)).

Definition sessionSupportsProxy (session : option activeSession) : bool :=
  match session with Some x => supports_proxy x | None => false end.

Definition ResolveProxySession (env : resolve_env) (ownerID externalSessionID : string) (now : time) (s : RegistryService)
    : res ProxySessionTarget * RegistryService :=
  if negb (proxyEnabled (cfg_proxy (svc_config s))) then (Err (Sentinel ErrProxyWorkerUnavailable), s) else
  let scopedSessionID := scopeTerminalSessionID ownerID externalSessionID in
  if bool_decide (trim scopedSessionID = "") then (Err (Sentinel ErrProxySessionNotFound), s) else
  match proxyTerminalSessionWorker env scopedSessionID now s with
  | (None, s) => (Err (Sentinel ErrProxySessionNotFound), s)
  | (Some workerID, s) =>
      let s := re_between env s in
      if negb (sessionSupportsProxy (getSession workerID s)) then (Err (Sentinel ErrProxyWorkerUnavailable), s) else
      (Ok (mkTarget workerID scopedSessionID), s)
  end.

Definition directProxyResolvePayload (sessionID : string) (port : Z) : payload :=
  PJson (JObject [("session_id", JString sessionID); ("port", JInt port)]).

Definition resolve_result_field (name : string) : option (json -> string * string -> (string * string) * bool) :=
  if equal_fold name "url" then Some (fun v c => let '(x, bad) := dec_string v c.1 in ((x, c.2), bad)) else
  if equal_fold name "traffic_token" then Some (fun v c => let '(x, bad) := dec_string v c.2 in ((c.1, x), bad)) else None.

Definition directProxyResolveResult : payload -> option (string * string) := unmarshal_struct resolve_result_field ("", "").

Definition domain_allows (hostname domain : string) : bool :=
  let domain := trim_suffix "." (to_lower (trim domain)) in
  negb (bool_decide (domain = "")) && has_suffix ("." +:+ domain) hostname.

Definition validateDirectProxyURL (raw : string) (allowedDomains : list string) : res URL :=
  match Parse raw with
  | None => Err (ErrorString "direct proxy URL must be an HTTPS origin")
  | Some parsed =>
      if negb (bool_decide (u_Scheme parsed = "https")) || bool_decide (u_Host parsed = "") ||
         negb (bool_decide (URLPort parsed = "")) || u_User parsed || negb (bool_decide (u_RawQuery parsed = "")) ||
         negb (bool_decide (u_Fragment parsed = ""))
      then Err (ErrorString "direct proxy URL must be an HTTPS origin") else
      if negb (bool_decide (u_Path parsed = "")) && negb (bool_decide (u_Path parsed = "/"))
      then Err (ErrorString "direct proxy URL must not contain a path") else
      let hostname := to_lower (Hostname parsed) in
      if negb (existsb (domain_allows hostname) allowedDomains) then Err (ErrorString "direct proxy URL is outside allowed domains") else
      Ok parsed
  end.

Definition authorizeDirectProxyRoute (env : resolve_env) (session : activeSession) (scopedSessionID : string) (port : Z)
    (s : RegistryService) : res ProxyAuthorization * RegistryService :=
  let unavailable : res ProxyAuthorization := Err (Sentinel ErrProxyWorkerUnavailable) in
  match pickSessionForNodeAndCapability (nodeID session) taskCapabilityTerminalProxy s with
  | (Err _, s) => (unavailable, s)
  | (Ok picked, s) =>
      match dispatchCommandAttempt (re_attempt env) taskCapabilityTerminalProxy (directProxyResolvePayload scopedSessionID port)
              "" picked 0 None s with
      | (Err _, s) => (unavailable, s)
      | (Ok attempt, s) =>
          match oc_err (dar_outcome attempt) with
          | Some e => (if isSessionNotFoundCommandError e then Err (Sentinel ErrProxySessionNotFound) else unavailable, s)
          | None =>
              match directProxyResolveResult (oc_payloadJSON (dar_outcome attempt)) with
              | None => (unavailable, s)
              | Some (url, trafficToken) =>
                  let upstream := trim url in
                  match validateDirectProxyURL upstream (proxyAllowedDirectDomains (cfg_proxy (svc_config s))) with
                  | Err _ => (unavailable, s)
                  | Ok parsed => (Ok (mkAuthorization upstream (u_Host parsed) "" (trim trafficToken)), s)
                  end
              end
          end
      end
  end.

Definition AuthorizeProxyRoute (env : resolve_env) (workerID scopedSessionID : string) (port : Z) (routeExpiresAt now : time)
    (s : RegistryService) : res ProxyAuthorization * RegistryService :=
  if negb (proxyEnabled (cfg_proxy (svc_config s))) then (Err (Sentinel ErrProxyWorkerUnavailable), s) else
  let workerID := trim workerID in
  let scopedSessionID := trim scopedSessionID in
  if bool_decide (workerID = "") || bool_decide (scopedSessionID = "") || (port <? 1) || (65535 <? port)
  then (Err (Sentinel ErrProxySessionNotFound), s) else
  let now := if is_zero now then re_wall env else now in
  if routeExpiresAt <=? now then (Err (Sentinel ErrProxySessionNotFound), s) else
  match proxyTerminalSessionWorker env scopedSessionID now s with
  | (None, s) => (Err (Sentinel ErrProxySessionNotFound), s)
  | (Some mappedWorkerID, s) =>
      if negb (bool_decide (mappedWorkerID = workerID)) then (Err (Sentinel ErrProxySessionNotFound), s) else
      let s := re_between env s in
      match getSession workerID s with
      | None => (Err (Sentinel ErrProxyWorkerUnavailable), s)
      | Some session =>
          if negb (supports_proxy session) then (Err (Sentinel ErrProxyWorkerUnavailable), s) else
          if negb (bool_decide (proxyDirect session = "")) then authorizeDirectProxyRoute env session scopedSessionID port s else
          let expiresAt := time_add now proxyRouteTokenTTL in
          let expiresAt := if routeExpiresAt <? expiresAt then routeExpiresAt else expiresAt in
          match ProxyToken.Sign (routeTokenKey session) (ProxyToken.mkClaims workerID scopedSessionID port (unix_milli expiresAt)) with
          | Err e => (Err (Wrapped "sign proxy route token: " e ""), s)
          | Ok token => (Ok (mkAuthorization ("http://" +:+ proxyEndpoint session) "" token ""), s)
          end
      end
  end.

(** ** Keys and host names: httpapi/proxy_routes.go *)
Definition proxyRouteKeyBytes : Z := 16.
Definition proxyRouteKeyMinLength : Z := 8.
Definition proxyRouteKeyMaxLength : Z := 26.
Definition proxyBaseDomainMaxBytes : Z := 253 - 1 - proxyRouteKeyMaxLength.
Definition proxyRouteCreateAttempts : nat := 8.
Definition proxyRouteMaxTTL : duration := 7 * 24 * hour.
Definition defaultProxyRoutePageSize : Z := 20.

(** [base32.StdEncoding] without padding, in lower case. *)
Definition base32_char (v : Z) : ascii := chr (if v <? 26 then 97 + v else 24 + v).
Definition base32_lower (raw : list Z) : string :=
  let n := 8 * Z.of_nat (length raw) in
  let chars := (n + 4) / 5 in
  let v := foldl (fun acc b => acc * 256 + b) 0 raw * 2 ^ (5 * chars - n) in
  String.string_of_list_ascii
    ((fun i => base32_char ((v / 32 ^ (chars - 1 - Z.of_nat i)) mod 32)) <$> seq 0 (Z.to_nat chars)).

(** [random]: the bytes [io.ReadFull] reads. *)
Definition generateProxyRouteKey (random : res (list Z)) (length : Z) : res string :=
  if (length <? proxyRouteKeyMinLength) || (proxyRouteKeyMaxLength <? length)
  then Err (ErrorString "route key length is invalid") else
  match random with
  | Err e => Err e
  | Ok raw => Ok (take_str (Z.to_nat length) (base32_lower raw))
  end.

Definition route_key_char (a : ascii) : bool := between 97 122 a || between 50 55 a.
Definition validProxyRouteKey (value : string) : bool :=
  negb ((len value <? proxyRouteKeyMinLength) || (proxyRouteKeyMaxLength <? len value)) && forall_char route_key_char value.

Definition domain_label (label : string) : bool :=
  negb (bool_decide (label = "")) && (len label <=? 63) && negb (has_prefix "-" label) && negb (has_suffix "-" label) &&
  forall_char (fun a => between 97 122 a || between 48 57 a || Ascii.eqb a "-") label.

Definition normalizeProxyBaseDomain (value : string) : res string :=
  let domain := to_lower (trim value) in
  if bool_decide (domain = "") then Err (ErrorString "proxy public base domain is required") else
  if (proxyBaseDomainMaxBytes <? len domain) || any_char (in_set "/:") domain || has_prefix "." domain || has_suffix "." domain
  then Err (ErrorString "proxy public base domain is invalid") else
  let labels := ProxyToken.split "." domain in
  if (length labels <? 2)%nat then Err (ErrorString "proxy public base domain must contain at least two labels") else
  if negb (forallb domain_label labels) then Err (ErrorString "proxy public base domain is invalid") else
  Ok domain.

Definition normalizeProxyPublicScheme (value : string) : res string :=
  let scheme := to_lower (trim value) in
  if negb (bool_decide (scheme = "http")) && negb (bool_decide (scheme = "https"))
  then Err (ErrorString "proxy public scheme must be http or https") else Ok scheme.

Definition secureStringEqual (provided expected : string) : bool :=
  bool_decide (Sum256 (trim provided) = Sum256 expected).

(** ** The handler *)
Record proxyRouteRecord := mkProxyRecord {
  pr_RouteKey : string;
  pr_OwnerID : string;
  pr_SessionID : string;
  pr_ScopedSessionID : string;
  pr_Port : Z;
  pr_WorkerID : string;
  pr_CreatedAt : time;
  pr_ExpiresAt : time }.

#[export] Instance proxyRouteRecord_eq_dec : EqDecision proxyRouteRecord.
Proof. solve_decision. Defined.

(** The settings of [ProxyRouteHandler]; its [routes] are in [World]. *)
Record ProxyRouteHandler := mkProxyHandler {
  ph_baseDomain : string;
  ph_publicScheme : string;
  ph_internalToken : string;
  ph_routeTTL : duration;
  ph_routeKeyLength : Z;
  ph_maxPerAccount : Z;
  ph_maxPerSession : Z }.

Definition NewProxyRouteHandler (baseDomain publicScheme internalToken : string) (routeTTL : duration)
    (routeKeyLength maxPerAccount maxPerSession : Z) : res ProxyRouteHandler :=
  match normalizeProxyBaseDomain baseDomain with
  | Err e => Err e
  | Ok normalizedDomain =>
      match normalizeProxyPublicScheme publicScheme with
      | Err e => Err e
      | Ok normalizedScheme =>
          let internalToken := trim internalToken in
          if bool_decide (internalToken = "") then Err (ErrorString "proxy internal auth token is required") else
          if (routeTTL <=? 0) || (proxyRouteMaxTTL <? routeTTL)
          then Err (ErrorString "proxy route TTL must be between 1 second and 7 days") else
          if (routeKeyLength <? proxyRouteKeyMinLength) || (proxyRouteKeyMaxLength <? routeKeyLength)
          then Err (ErrorString ("proxy route key length must be between " +:+ pretty proxyRouteKeyMinLength +:+ " and " +:+
                                 pretty proxyRouteKeyMaxLength)) else
          if maxPerAccount <=? 0 then Err (ErrorString "proxy route max per account must be positive") else
          if maxPerSession <=? 0 then Err (ErrorString "proxy route max per session must be positive") else
          Ok (mkProxyHandler normalizedDomain normalizedScheme internalToken routeTTL routeKeyLength maxPerAccount maxPerSession)
      end
  end.

Record World := mkWorld {
  w_svc : RegistryService;
  w_routes : gmap string proxyRouteRecord }.

Definition with_svc (s : RegistryService) (w : World) : World := mkWorld s (w_routes w).
Definition with_proxy_table (m : gmap string proxyRouteRecord) (w : World) : World := mkWorld (w_svc w) m.

Definition pruneLocked (now : time) (m : gmap string proxyRouteRecord) : gmap string proxyRouteRecord :=
  keep (fun _ record => pr_ExpiresAt record <=? now) m.

Definition RevokeOwnerRoutes (ownerID : string) (m : gmap string proxyRouteRecord) : gmap string proxyRouteRecord :=
  let ownerID := trim ownerID in
  if bool_decide (ownerID = "") then m else keep (fun _ record => bool_decide (pr_OwnerID record = ownerID)) m.

Definition RevokeSessionRoutes (scopedSessionIDs : list string) (m : gmap string proxyRouteRecord) : gmap string proxyRouteRecord :=
  let sessionIDs := List.filter (fun s => negb (bool_decide (s = ""))) (trim <$> scopedSessionIDs) in
  keep (fun _ record => bool_decide (pr_ScopedSessionID record ∈ sessionIDs)) m.

(** [SetProxyRouteSessionRevoker] with the handler. *)
Definition set_revoked (l : option (list string)) (r : Routes Conn) : Routes Conn :=
  mkRoutes (terminalSessionToNode r) (terminalNodeToSessionIDIndex r) (terminalRouteReservationSeq r)
    (terminalRouteTTL r) (lastTerminalRoutePruneUnixMs r) (terminalRouteStore r) l.
Definition SetProxyRouteSessionRevoker (s : RegistryService) : RegistryService :=
  with_svc_routes (set_revoked (Some []) (svc_routes s)) s.

(** The calls of the revoker that a step of the service made. *)
Definition settle (w : World) : World :=
  match revoked (svc_routes (w_svc w)) with
  | None => w
  | Some log => mkWorld (SetProxyRouteSessionRevoker (w_svc w))
                  (foldl (fun m sid => RevokeSessionRoutes [sid] m) (w_routes w) log)
  end.

Definition run_svc {A} (f : RegistryService -> A * RegistryService) (w : World) : A * World :=
  let '(a, s) := f (w_svc w) in (a, settle (with_svc s w)).

(** A statement of the store. *)
Definition no_proxy_store : error := ErrorString "proxy route store is required".
Definition run_store {A} (m : M A) (w : World) : res A * World :=
  let '(r, s) := run_db no_proxy_store m (w_svc w) in (r, with_svc s w).

Definition proxyRouteRecordToStore (record : proxyRouteRecord) : ProxyRoute :=
  (pr_RouteKey record, mkProxyRow (pr_OwnerID record) (pr_SessionID record) (pr_ScopedSessionID record) (pr_WorkerID record)
     (pr_Port record) (unix_milli (pr_CreatedAt record)) (unix_milli (pr_ExpiresAt record))).

Definition proxyRouteRecordFromStore (route : ProxyRoute) : proxyRouteRecord :=
  let '(key, p) := route in
  mkProxyRecord (trim key) (trim (p_OwnerID p)) (trim (p_SessionID p)) (trim (p_ScopedSessionID p)) (p_Port p)
    (trim (p_WorkerID p)) (of_unix_milli (p_CreatedAtUnixMs p)) (of_unix_milli (p_ExpiresAtUnixMs p)).

Definition validPersistedProxyRoute (record : proxyRouteRecord) (now : time) : bool :=
  validProxyRouteKey (pr_RouteKey record) && negb (bool_decide (pr_OwnerID record = "")) &&
  negb (bool_decide (pr_SessionID record = "")) && (len (pr_SessionID record) <=? 256) &&
  negb (bool_decide (pr_ScopedSessionID record = "")) && negb (bool_decide (pr_WorkerID record = "")) &&
  (1 <=? pr_Port record) && (pr_Port record <=? 65535) &&
  (pr_CreatedAt record <? pr_ExpiresAt record) && (now <? pr_ExpiresAt record).

(** The loop of [Restore]. *)
Fixpoint load_records (now : time) (persisted : list ProxyRoute) (m : gmap string proxyRouteRecord)
    : res (gmap string proxyRouteRecord) :=
  match persisted with
  | [] => Ok m
  | route :: persisted =>
      let record := proxyRouteRecordFromStore route in
      if negb (validPersistedProxyRoute record now) then Err (ErrorString "persisted proxy route is invalid") else
      if bool_decide (is_Some (m !! pr_RouteKey record)) then Err (ErrorString "persisted proxy route is duplicated") else
      load_records now persisted (<[pr_RouteKey record := record]> m)
  end.

Definition Restore (wall now : time) (w : World) : res unit * World :=
  let now := if is_zero now then wall else now in
  match run_store (RouteStore.DeleteExpiredProxyRoutes (unix_milli now)) w with
  | (Err e, w) => (Err (Wrapped "delete expired proxy routes: " e ""), w)
  | (Ok _, w) =>
      match run_store (LoadActiveProxyRoutes (unix_milli now)) w with
      | (Err e, w) => (Err (Wrapped "load proxy routes: " e ""), w)
      | (Ok persisted, w) =>
          match load_records now persisted ∅ with
          | Err e => (Err e, w)
          | Ok routes =>
              if negb (bool_decide (w_routes w = ∅)) then (Err (ErrorString "proxy routes are already initialized"), w) else
              (Ok tt, with_proxy_table routes w)
          end
      end
  end.

Definition PruneExpired (wall now : time) (w : World) : res Z * World :=
  let now := if is_zero now then wall else now in
  match run_store (RouteStore.DeleteExpiredProxyRoutes (unix_milli now)) w with
  | (Err e, w) => (Err (Wrapped "delete expired proxy routes: " e ""), w)
  | (Ok _, w) =>
      let pruned := pruneLocked now (w_routes w) in
      (Ok (Z.of_nat (size (w_routes w)) - Z.of_nat (size pruned)), with_proxy_table pruned w)
  end.

(** *** createRoute, listRoutes, getRoute, deleteRoute *)
Definition owner_count (ownerID : string) (m : gmap string proxyRouteRecord) : Z :=
  Z.of_nat (size (keep (fun _ r => negb (bool_decide (pr_OwnerID r = ownerID))) m)).
Definition session_count (ownerID sessionID : string) (m : gmap string proxyRouteRecord) : Z :=
  Z.of_nat (size (keep (fun _ r => negb (bool_decide (pr_OwnerID r = ownerID) && bool_decide (pr_SessionID r = sessionID))) m)).

Fixpoint create_loop (h : ProxyRouteHandler) (attempts : nat) (random : nat -> res (list Z)) (ownerID sessionID : string) (port : Z)
    (target : ProxySessionTarget) (now : time) (w : World) : res proxyRouteRecord * World :=
  match attempts with
  | O => (Err (ErrorString "failed to allocate unique proxy route key"), w)
  | S attempts =>
      match generateProxyRouteKey (random attempts) (ph_routeKeyLength h) with
      | Err e => (Err e, w)
      | Ok routeKey =>
          if bool_decide (is_Some (w_routes w !! routeKey)) then create_loop h attempts random ownerID sessionID port target now w else
          let record := mkProxyRecord routeKey ownerID sessionID (pt_ScopedSessionID target) port (pt_WorkerID target) now
                          (time_add now (ph_routeTTL h)) in
          match run_store (RouteStore.InsertProxyRoute (proxyRouteRecordToStore record)) w with
          | (Err e, w) => (Err e, w)
          | (Ok false, w) => create_loop h attempts random ownerID sessionID port target now w
          | (Ok true, w) => (Ok record, with_proxy_table (<[routeKey := record]> (w_routes w)) w)
          end
      end
  end.

Inductive create_error := AccountLimitReached | SessionLimitReached | CreateFailed (e : error).

Definition createRoute (h : ProxyRouteHandler) (random : nat -> res (list Z)) (ownerID sessionID : string) (port : Z)
    (target : ProxySessionTarget) (now : time) (w : World) : (proxyRouteRecord + create_error) * World :=
  let w := with_proxy_table (pruneLocked now (w_routes w)) w in
  if ph_maxPerAccount h <=? owner_count ownerID (w_routes w) then (inr AccountLimitReached, w) else
  if ph_maxPerSession h <=? session_count ownerID sessionID (w_routes w) then (inr SessionLimitReached, w) else
  match create_loop h proxyRouteCreateAttempts random ownerID sessionID port target now w with
  | (Ok record, w) => (inl record, w)
  | (Err e, w) => (inr (CreateFailed e), w)
  end.

(** Newest first, then by key. *)
Definition record_le (a b : proxyRouteRecord) : bool :=
  if pr_CreatedAt a =? pr_CreatedAt b then str_le (pr_RouteKey a) (pr_RouteKey b) else pr_CreatedAt b <? pr_CreatedAt a.

Definition listRoutes (ownerID : string) (now : time) (w : World) : list proxyRouteRecord * World :=
  let m := pruneLocked now (w_routes w) in
  (order_by record_le
     (List.filter (fun r => bool_decide (ownerID = "") || bool_decide (pr_OwnerID r = ownerID)) (snd <$> map_to_list m)),
   with_proxy_table m w).

Definition getRoute (routeKey : string) (now : time) (w : World) : option proxyRouteRecord * World :=
  let m := pruneLocked now (w_routes w) in (m !! routeKey, with_proxy_table m w).

Definition deleteRoute (ownerID routeKey : string) (now : time) (w : World) : res bool * World :=
  let m := pruneLocked now (w_routes w) in
  let w := with_proxy_table m w in
  match m !! routeKey with
  | None => (Ok false, w)
  | Some record =>
      if negb (bool_decide (pr_OwnerID record = ownerID)) then (Ok false, w) else
      match run_store (RouteStore.DeleteProxyRoute routeKey ownerID) w with
      | (Err e, w) => (Err e, w)
      | (Ok _, w) => (Ok true, with_proxy_table (delete routeKey m) w)
      end
  end.

(** *** Requests *)
Record proxyRouteResponse := mkRouteResponse {
  rr_RouteKey : string;
  rr_AccountID : string;
  rr_SessionID : string;
  rr_Port : Z;
  rr_URL : string;
  rr_CreatedAt : time;
  rr_ExpiresAt : time }.

Inductive proxy_body :=
  | PxNone
  | PxError (msg : string)
  | PxRoute (r : proxyRouteResponse)
  | PxRoutes (items : list proxyRouteResponse) (total page pageSize : Z)
  | PxHeaders (headers : list (string * string)).

Record proxy_reply := mkProxyReply { px_status : Z; px_body : proxy_body }.
Definition refuse (status : Z) (msg : string) : proxy_reply := mkProxyReply status (PxError msg).

Definition routeResponse (h : ProxyRouteHandler) (r : proxyRouteRecord) : proxyRouteResponse :=
  mkRouteResponse (pr_RouteKey r) (pr_OwnerID r) (pr_SessionID r) (pr_Port r)
    (ph_publicScheme h +:+ "://" +:+ pr_RouteKey r +:+ "." +:+ ph_baseDomain h) (pr_CreatedAt r) (pr_ExpiresAt r).

Definition proxyRouteOwnerID (c : context) : option string :=
  match requestSessionAccountFromGin c with
  | Some account => let id := trim (sa_AccountID account) in if bool_decide (id = "") then None else Some id
  | None => None
  end.

Definition create_route_field (name : string) : option (json -> string * Z -> (string * Z) * bool) :=
  if equal_fold name "session_id" then Some (fun v c => let '(x, bad) := dec_string v c.1 in ((x, c.2), bad)) else
  if equal_fold name "port" then Some (fun v c => let '(x, bad) := dec_int v c.2 in ((c.1, x), bad)) else None.
Definition createProxyRouteRequest : payload -> option (string * Z) := unmarshal_struct create_route_field ("", 0).

(** The clock at its readings, the random source, and the other goroutines
    between the steps of a handler. *)
Record proxy_env := mkProxyEnv {
  px_now : nat -> time;
  px_random : nat -> res (list Z);
  px_others : World -> World;
  px_resolve : resolve_env }.

Definition resolve_failure (e : error) : proxy_reply :=
  if error_is e ErrProxySessionNotFound then refuse 404 "session not found" else
  if error_is e ErrProxyWorkerUnavailable then refuse 503 "session worker proxy is unavailable" else
  refuse 500 "failed to resolve session".

Definition create_failure (e : create_error) : proxy_reply :=
  match e with
  | AccountLimitReached => refuse 429 "account proxy route limit reached"
  | SessionLimitReached => refuse 429 "session proxy route limit reached"
  | CreateFailed e =>
      if error_is e ErrProxySessionNotFound || error_is e ErrProxyRouteTerminalSessionNotFound
      then refuse 404 "session not found" else refuse 500 "failed to create proxy route"
  end.

Definition Create (h : ProxyRouteHandler) (env : proxy_env) (c : context) (body : payload) (w : World) : proxy_reply * World :=
  match proxyRouteOwnerID c with
  | None => (refuse 401 "authentication required", w)
  | Some ownerID =>
      match createProxyRouteRequest body with
      | None => (refuse 400 "invalid request body", w)
      | Some (rawSessionID, port) =>
          let sessionID := trim rawSessionID in
          if bool_decide (sessionID = "") then (refuse 400 "session_id is required", w) else
          if 256 <? len sessionID then (refuse 400 "session_id is too long", w) else
          if (port <? 1) || (65535 <? port) then (refuse 400 "port must be between 1 and 65535", w) else
          let resolveNow := px_now env 0%nat in
          match run_svc (ResolveProxySession (px_resolve env) ownerID sessionID resolveNow) w with
          | (Err e, w) => (resolve_failure e, w)
          | (Ok target, w) =>
              let createNow := px_now env 1%nat in
              let createNow := if createNow <? resolveNow then resolveNow else createNow in
              match createRoute h (px_random env) ownerID sessionID port target createNow (px_others env w) with
              | (inr e, w) => (create_failure e, w)
              | (inl record, w) => (mkProxyReply 201 (PxRoute (routeResponse h record)), w)
              end
          end
      end
  end.

Definition List (h : ProxyRouteHandler) (env : proxy_env) (c : context) (r : request) (w : World) : proxy_reply * World :=
  match requestSessionAccountFromGin c with
  | None => (refuse 401 "authentication required", w)
  | Some account =>
      let ownerID := trim (sa_AccountID account) in
      if bool_decide (ownerID = "") then (refuse 401 "authentication required", w) else
      let requestedOwnerID := trim (Query r "account_id") in
      if negb (sa_IsAdmin account) && negb (bool_decide (requestedOwnerID = "")) && negb (bool_decide (requestedOwnerID = ownerID))
      then (refuse 404 "proxy route not found", w) else
      let ownerID := if sa_IsAdmin account then requestedOwnerID else ownerID in
      match parsePositiveIntQuery r "page" 1 with
      | None => (refuse 400 "page must be a positive integer", w)
      | Some page =>
          match parsePositiveIntQuery r "page_size" defaultProxyRoutePageSize with
          | None => (refuse 400 "page_size must be a positive integer", w)
          | Some pageSize =>
              if maxPageSize <? pageSize then (refuse 400 "page_size must be <= 100", w) else
              let '(records, w) := listRoutes ownerID (px_now env 0%nat) w in
              (match session_page page pageSize records with
               | None => mkProxyReply 500 PxNone
               | Some items => mkProxyReply 200 (PxRoutes (routeResponse h <$> items) (Z.of_nat (length records)) page pageSize)
               end, w)
          end
      end
  end.

Definition Delete (env : proxy_env) (c : context) (r : request) (w : World) : proxy_reply * World :=
  match proxyRouteOwnerID c with
  | None => (refuse 401 "authentication required", w)
  | Some ownerID =>
      let routeKey := to_lower (trim (rq_param r "route_key")) in
      if negb (validProxyRouteKey routeKey) then (refuse 404 "proxy route not found", w) else
      match deleteRoute ownerID routeKey (px_now env 0%nat) w with
      | (Err _, w) => (refuse 500 "failed to delete proxy route", w)
      | (Ok false, w) => (refuse 404 "proxy route not found", w)
      | (Ok true, w) => (mkProxyReply 204 PxNone, w)
      end
  end.

Definition routeKeyFromHost (h : ProxyRouteHandler) (rawHost : string) : option string :=
  let host := to_lower (trim rawHost) in
  if bool_decide (host = "") then None else
  let host := match SplitHostPort host with Some (parsedHost, _) => parsedHost | None => host end in
  let suffix := "." +:+ ph_baseDomain h in
  if negb (has_suffix suffix host) then None else
  let routeKey := trim_suffix suffix host in
  if negb (validProxyRouteKey routeKey) then None else Some routeKey.

Definition upstream_headers (a : ProxyAuthorization) (originalHost : string) : list (string * string) :=
  let host := trim (pa_UpstreamHost a) in
  let host := if bool_decide (host = "") then trim originalHost else host in
  [("X-Onlyboxes-Upstream", pa_Upstream a); ("X-Onlyboxes-Upstream-Host", host)] ++
  (if bool_decide (pa_Token a = "") then [] else [(ProxyToken.HeaderName, pa_Token a)]) ++
  (if bool_decide (pa_TrafficToken a = "") then [] else [("X-Onlyboxes-Upstream-Traffic-Token", pa_TrafficToken a)]).

(** [internalToken] and [originalHost] are the headers of the front proxy. *)
Definition Resolve (h : ProxyRouteHandler) (env : proxy_env) (internalToken originalHost : string) (w : World)
    : proxy_reply * World :=
  if negb (secureStringEqual internalToken (ph_internalToken h)) then (mkProxyReply 401 PxNone, w) else
  match routeKeyFromHost h originalHost with
  | None => (mkProxyReply 403 PxNone, w)
  | Some routeKey =>
      match getRoute routeKey (px_now env 0%nat) w with
      | (None, w) => (mkProxyReply 403 PxNone, w)
      | (Some record, w) =>
          match run_svc (AuthorizeProxyRoute (px_resolve env) (pr_WorkerID record) (pr_ScopedSessionID record) (pr_Port record)
                           (pr_ExpiresAt record) (px_now env 1%nat)) (px_others env w) with
          | (Err e, w) =>
              (mkProxyReply (if error_is e ErrProxySessionNotFound || error_is e ErrProxyWorkerUnavailable then 403 else 500) PxNone, w)
          | (Ok a, w) => (mkProxyReply 204 (PxHeaders (upstream_headers a originalHost)), w)
          end
      end
  end.

End Proxy.
Export Proxy.
