(* ===== verification/ProxyProps.v ===== *)
(** The invariant of the proxy routes beside the route table of the service,
    and what each handler of [Proxy] does to it. *)
From S2P Require Import Prelude.
From S2P Require Import Json.
From S2P Require Import Net.
From S2P Require Import Sql.
From S2P Require Import Proto.
From S2P Require Import Registry.
From S2P Require Import RouteStore.
From S2P Require Import OwnerScope.
From S2P Require Import AuthText.
From S2P Require Import JsonText.
From S2P Require Import ProxyToken.
From S2P Require Import Url.
From S2P Require Import TerminalRoutes.
From S2P Require Import TerminalRoutesProps.
From S2P Require Import SessionRuntime.
From S2P Require Import Service.
From S2P Require Import ProxySession.
From S2P Require Import Dispatch.
From S2P Require Import DispatchProps.
From S2P Require Import Tasks.
From S2P Require Import Connect.
From S2P Require Import ConnectProps.
From S2P Require Import Accounts.
From S2P Require Import Auth.
From S2P Require Import Rest.
From S2P Require Import Proxy.

Module ProxyProps.

(** ** Steps of the service *)

(** A step that keeps the invariant of the route table and reports every
    session it removes to the revoker. *)
Definition steady (s s' : RegistryService) : Prop := step_ok (svc_routes s) (svc_routes s').

#[export] Instance steady_preorder : PreOrder steady.
Proof. split; [intros s; unfold steady; reflexivity|]. intros s1 s2 s3. unfold steady. apply transitivity. Qed.

Definition steady_fun (f : RegistryService -> RegistryService) : Prop := forall s, steady s (f s).

Section service.
Implicit Types (s : RegistryService).

Lemma steady_run_routes {A} (f : Routes Conn -> A * Routes Conn) s :
  (forall r, step_ok r (f r).2) -> steady s (run_routes f s).2.
Proof. intros Hf. unfold run_routes, steady. specialize (Hf (svc_routes s)). by destruct (f (svc_routes s)). Qed.

Lemma steady_same s s' : svc_routes s' = svc_routes s -> steady s s'.
Proof. unfold steady. intros ->. reflexivity. Qed.

Lemma steady_on_session {A} (d : A) sid f s : steady s (on_session d sid f s).2.
Proof. apply steady_same. unfold on_session. destruct (svc_heap s !! sid); [|done]. by destruct (f _). Qed.

Lemma steady_route_change s s' : route_change s s' -> steady s s'.
Proof. by intros (_&_&H). Qed.

Lemma steady_attempt env capability p sid s :
  steady_fun (Dispatch.ae_others env) -> steady s (dispatchCommandAttempt env capability p "" sid 0 None s).2.
Proof.
  intros Ho. unfold dispatchCommandAttempt. destruct (Dispatch.ae_commandID env) as [cmd|e].
  - pose proof (steady_on_session (Err (ErrorString "")) sid (registerPending cmd capability) s) as H1.
    destruct (on_session _ _ (registerPending cmd capability) s) as [[ch|e] s1]; cbn [snd] in H1.
    + pose proof (attempt_body_keeps (steady s) env capability p "" sid (session_node sid s) 0 None cmd ch s1) as Hb.
      destruct (attempt_body _ _ _ _ _ _ _ _ _ _ _) as [r s2]. cbn [snd] in *.
      etrans; [apply Hb|apply steady_on_session]; [| | |done|done].
      * intros s3 s4 Hc%steady_route_change H. by etrans.
      * intros s3 a b c H. etrans; [done|apply steady_on_session].
      * intros s3 H. etrans; [done|apply Ho].
    + cbn [snd]. etrans; [exact H1|]. etrans; [apply (steady_on_session tt sid (fun x => (tt, releaseCapability capability x)) s1)|]. apply steady_route_change, rollback_change.
  - cbn [snd]. etrans; [apply (steady_on_session tt sid (fun x => (tt, releaseCapability capability x)) s)|]. apply steady_route_change, rollback_change.
Qed.

Lemma steady_pick node capability s : steady s (pickSessionForNodeAndCapability node capability s).2.
Proof.
  unfold pickSessionForNodeAndCapability. case_bool_decide as Ec; [done|]. destruct (session_ref _ s) as [[sid x]|]; [|done].
  destruct (_ || _); [done|]. pose proof (steady_on_session false sid (tryAcquireCapability capability) s) as Hs.
  by destruct (on_session _ _ _ s) as [[]].
Qed.

Lemma steady_worker env sid now s : steady s (proxyTerminalSessionWorker env sid now s).2.
Proof.
  unfold proxyTerminalSessionWorker. set (ms := routeNowUnixMs _ _). set (s1 := with_svc_routes _ s).
  assert (steady s s1) as H1 by apply maybe_prune_step.
  pose proof (steady_run_routes (terminalSessionRouteSnapshot sid ms) s1 (snapshot_step sid ms)) as H2.
  destruct (run_routes _ s1) as [[route|] s2]; cbn [snd] in *; [|by etrans]. destruct (_ || _); by etrans.
Qed.

(** What the outside may do during a call. *)
Definition resolve_ok (env : resolve_env) : Prop :=
  steady_fun (re_between env) /\ steady_fun (Dispatch.ae_others (re_attempt env)).

Lemma steady_resolve env owner sid now s : resolve_ok env -> steady s (ResolveProxySession env owner sid now s).2.
Proof.
  intros [Hb _]. unfold ResolveProxySession. destruct (proxyEnabled _); cbn [negb]; [|done]. case_bool_decide as Ec; [done|].
  pose proof (steady_worker env (scopeTerminalSessionID owner sid) now s) as H.
  destruct (proxyTerminalSessionWorker _ _ _ s) as [[worker|] s1]; cbn [snd] in *; [|done].
  destruct (sessionSupportsProxy _); cbn [negb snd]; (etrans; [exact H|apply Hb]).
Qed.

Lemma steady_direct env x sid port s : resolve_ok env -> steady s (authorizeDirectProxyRoute env x sid port s).2.
Proof.
  intros [_ Ha]. unfold authorizeDirectProxyRoute.
  pose proof (steady_pick (nodeID x) taskCapabilityTerminalProxy s) as H1.
  destruct (pickSessionForNodeAndCapability _ _ s) as [[picked|] s1]; cbn [snd] in *; [|done].
  pose proof (steady_attempt (re_attempt env) taskCapabilityTerminalProxy (directProxyResolvePayload sid port) picked s1 Ha) as H2.
  destruct (dispatchCommandAttempt _ _ _ _ _ _ _ s1) as [[attempt|] s2]; cbn [snd] in *; [|by etrans].
  repeat case_match; by etrans.
Qed.

Lemma steady_authorize env worker sid port expires now s :
  resolve_ok env -> steady s (AuthorizeProxyRoute env worker sid port expires now s).2.
Proof.
  intros Hok. unfold AuthorizeProxyRoute. destruct (proxyEnabled _); cbn [negb]; [|done]. destruct (_ || _); [done|].
  set (now' := if is_zero now then _ else _). destruct (expires <=? now'); [done|].
  pose proof (steady_worker env (trim sid) now' s) as H. destruct (proxyTerminalSessionWorker _ _ _ s) as [[mapped|] s1]; cbn [snd] in *; [|done].
  destruct (bool_decide (mapped = trim worker)); cbn [negb]; [|done]. assert (steady s (re_between env s1)) as H2 by (etrans; [done|apply Hok]).
  destruct (getSession _ _) as [x|]; [|done]. destruct (supports_proxy x); cbn [negb]; [|done].
  destruct (bool_decide (proxyDirect x = "")); cbn [negb]; [by destruct (ProxyToken.Sign _ _)|].
  etrans; [exact H2|]. by apply steady_direct.
Qed.

End service.

(** ** The statements of the proxy routes leave the terminal sessions alone *)
#[export] Instance core_InsertProxyRoute r : KeepsCore (RouteStore.InsertProxyRoute r).
Proof.
  intros C. unfold RouteStore.InsertProxyRoute. destruct (negb _); [apply _|]. destruct (normalizeProxyRoute r) as [key p].
  apply preserves_WithTx, preserves_bind; [unfold GetTerminalSessionRouteBySession; apply _|]. intros [row|e]; [|destruct (error_is _ _); apply _].
  destruct (_ || _); [apply _|]. apply preserves_bind; [|intros; apply _]. apply preserves_stmt.
  intros d a d' Hd E. destruct (negb _); [done|]. destruct (proxy_routes d !! key); [by simplify_eq|].
  cbv zeta in E. destruct (_ && _) in E; [|done]. by injection E as _ <-.
Qed.
#[export] Instance core_DeleteProxyRoute k o : KeepsCore (RouteStore.DeleteProxyRoute k o).
Proof. intros C. unfold RouteStore.DeleteProxyRoute. apply preserves_bind; [|intros; apply _]. by apply write_core. Qed.
#[export] Instance core_DeleteExpiredProxyRoutes now : KeepsCore (RouteStore.DeleteExpiredProxyRoutes now).
Proof. by apply write_core. Qed.
#[export] Instance core_LoadActiveProxyRoutes now : KeepsCore (LoadActiveProxyRoutes now).
Proof. intros C. unfold LoadActiveProxyRoutes, ListActiveProxyRoutes. apply _. Qed.

(** ** The invariant *)

(** A record under its key: the names it was made from, and the terminal
    session it leads to is routed to its worker. *)
Definition record_ok (routes : gmap string terminalSessionRoute) (k : string) (r : proxyRouteRecord) : Prop :=
  pr_RouteKey r = k /\ validProxyRouteKey k = true /\
  trim (pr_OwnerID r) = pr_OwnerID r /\ pr_OwnerID r <> "" /\ trim (pr_SessionID r) = pr_SessionID r /\ pr_SessionID r <> "" /\
  len (pr_SessionID r) <= 256 /\ 1 <= pr_Port r <= 65535 /\
  pr_ScopedSessionID r = scopeTerminalSessionID (pr_OwnerID r) (pr_SessionID r) /\
  exists t, routes !! pr_ScopedSessionID r = Some t /\ NodeID t = pr_WorkerID r.

Definition limits_ok (h : ProxyRouteHandler) (m : gmap string proxyRouteRecord) : Prop :=
  (forall owner, owner_count owner m <= ph_maxPerAccount h) /\
  (forall owner sid, session_count owner sid m <= ph_maxPerSession h).

Record world_ok (h : ProxyRouteHandler) (w : World) : Prop := {
  wo_svc : routes_ok (svc_routes (w_svc w));
  wo_log : revoked (svc_routes (w_svc w)) = Some [];
  wo_record k r : w_routes w !! k = Some r -> record_ok (terminalSessionToNode (svc_routes (w_svc w))) k r;
  wo_limits : limits_ok h (w_routes w) }.

Definition keeps_world (h : ProxyRouteHandler) (f : World -> World) : Prop := forall w, world_ok h w -> world_ok h (f w).

Section invariant.
Context (h : ProxyRouteHandler).
Implicit Types (w : World) (m : gmap string proxyRouteRecord) (s : RegistryService).

(** *** Removing routes *)
Lemma keep_size_le (p : string -> proxyRouteRecord -> bool) m : (size (keep p m) <= size m)%nat.
Proof. apply map_subseteq_size, map_subseteq_spec. intros k r. rewrite lookup_keep_Some. tauto. Qed.

Lemma keep_comm (p q : string -> proxyRouteRecord -> bool) m : keep p (keep q m) = keep q (keep p m).
Proof. rewrite !keep_keep. apply keep_ext. intros k r _. apply orb_comm. Qed.

Lemma limits_keep p m : limits_ok h m -> limits_ok h (keep p m).
Proof.
  unfold limits_ok, owner_count, session_count. intros [H1 H2]. split.
  - intros o. specialize (H1 o). rewrite keep_comm. pose proof (keep_size_le p (keep (fun _ r => negb (bool_decide (pr_OwnerID r = o))) m)). lia.
  - intros o sid. specialize (H2 o sid). rewrite keep_comm. match goal with |- context[keep p ?x] => pose proof (keep_size_le p x) end. lia.
Qed.

Lemma world_keep p w : world_ok h w -> world_ok h (with_proxy_table (keep p (w_routes w)) w).
Proof.
  intros [Hs Hl Hr Hm]. split; cbn; [done..| |by apply limits_keep]. intros k r [Hk _]%lookup_keep_Some. by apply Hr.
Qed.

Lemma world_prune now w : world_ok h w -> world_ok h (with_proxy_table (pruneLocked now (w_routes w)) w).
Proof. apply world_keep. Qed.

Lemma world_revoke_owner o w : world_ok h w -> world_ok h (with_proxy_table (RevokeOwnerRoutes o (w_routes w)) w).
Proof. intros Hw. unfold RevokeOwnerRoutes. case_bool_decide; [by destruct w|by apply world_keep]. Qed.

(** *** The revoker *)
Definition names (sid : string) (r : proxyRouteRecord) : bool :=
  bool_decide (trim sid = pr_ScopedSessionID r) && negb (bool_decide (trim sid = "")).

Lemma revoke_log log m :
  foldl (fun m sid => RevokeSessionRoutes [sid] m) m log = keep (fun _ r => existsb (fun sid => names sid r) log) m.
Proof.
  revert m. induction log as [|sid log IH]; intros m; cbn [foldl]; [symmetry; apply keep_none|].
  rewrite IH. unfold RevokeSessionRoutes. rewrite keep_keep. apply keep_ext. intros k r _. cbn [existsb]. f_equal.
  unfold names. cbn [fmap list_fmap List.filter]. destruct (bool_decide_reflect (trim sid = "")) as [E|E]; cbn [negb].
  - rewrite andb_false_r. apply bool_decide_false. apply not_elem_of_nil.
  - rewrite andb_true_r. apply bool_decide_ext. rewrite list_elem_of_singleton. naive_solver.
Qed.

(** A step of the service, with the calls of the revoker it made. *)
Lemma settle_ok w s : world_ok h w -> steady (w_svc w) s -> world_ok h (settle (with_svc s w)).
Proof.
  intros [Hs Hl Hr Hm] Hst. destruct (Hst Hs) as [Hs' (log&Elog&Hlog)]. rewrite Hl in Elog. cbn in Elog.
  unfold settle. cbn [w_svc with_svc w_routes]. rewrite Elog. split; cbn [w_svc w_routes].
  - destruct Hs' as [A B C D]. by split.
  - done.
  - intros k r. rewrite revoke_log, lookup_keep_Some. intros [Hk Hno].
    destruct (Hr k r Hk) as (?&?&?&?&?&?&?&?&Hsc&t&Ht&Hn). do 9 (split; [done|]).
    destruct (Hlog _ _ Ht) as [(t'&Ht'&En)|Hin]; [exists t'; split; [done|congruence]|].
    exfalso. destruct (ok_route _ Hs _ _ Ht) as (Htr&Hne&_). apply not_true_iff_false in Hno. apply Hno, existsb_exists.
    exists (pr_ScopedSessionID r). rewrite <- list_elem_of_In. split; [done|]. unfold names. rewrite Htr.
    rewrite bool_decide_true, bool_decide_false by done. done.
  - rewrite revoke_log. by apply limits_keep.
Qed.

Lemma run_svc_ok {A} (f : RegistryService -> A * RegistryService) w :
  (forall s, steady s (f s).2) -> world_ok h w -> world_ok h (run_svc f w).2.
Proof.
  intros Hf Hw. unfold run_svc. specialize (Hf (w_svc w)). destruct (f (w_svc w)) as [a s]. cbn in *. by apply settle_ok.
Qed.

(** *** The store *)
Lemma run_store_ok {A} (q : M A) w : KeepsCore q -> world_ok h w ->
  world_ok h (run_store q w).2 /\ w_routes (run_store q w).2 = w_routes w /\
  terminalSessionToNode (svc_routes (w_svc (run_store q w).2)) = terminalSessionToNode (svc_routes (w_svc w)).
Proof.
  intros Hq [Hs Hl Hr Hm]. unfold run_store.
  pose proof (calm_run_db no_proxy_store q (w_svc w) Hq) as (_&_&_&_&Hst&_).
  assert (forall r s, run_db no_proxy_store q (w_svc w) = (r, s) ->
    terminalSessionToNode (svc_routes s) = terminalSessionToNode (svc_routes (w_svc w)) /\
    revoked (svc_routes s) = revoked (svc_routes (w_svc w))) as Hsame.
  { intros r s. unfold run_db. destruct (svc_conn _); [|by intros [= _ <-]]. destruct (q _) as [r' c']. by intros [= _ <-]. }
  destruct (run_db no_proxy_store q (w_svc w)) as [r s]. destruct (Hsame _ _ eq_refl) as [E1 E2]. cbn [snd] in *.
  split; [|done]. destruct (Hst Hs) as [Hs' _]. split; cbn [w_svc w_routes with_svc]; [done|congruence| |done].
  intros k r' Hk. rewrite E1. by apply Hr.
Qed.

(** *** Adding a route *)
Lemma keep_insert_fresh (p : string -> proxyRouteRecord -> bool) m k r : m !! k = None ->
  (size (keep p (<[k := r]> m)) = size (keep p m) + if p k r then 0 else 1)%nat.
Proof.
  intros Hk. assert (keep p m !! k = None) as Hn by by rewrite lookup_keep, Hk. destruct (p k r) eqn:Ep.
  - rewrite Nat.add_0_r. f_equal. apply map_eq. intros k'. rewrite !lookup_keep, lookup_insert. case_decide as E; [|done].
    subst k'. rewrite Hk. cbn. by rewrite Ep.
  - rewrite Nat.add_1_r, <- (map_size_insert_None k r) by done. f_equal. apply map_eq. intros k'.
    rewrite lookup_insert, !lookup_keep, lookup_insert. case_decide as E; [|done]. subst k'. cbn. by rewrite Ep.
Qed.

Lemma limits_insert m k r : m !! k = None -> limits_ok h m ->
  owner_count (pr_OwnerID r) m < ph_maxPerAccount h -> session_count (pr_OwnerID r) (pr_SessionID r) m < ph_maxPerSession h ->
  limits_ok h (<[k := r]> m).
Proof.
  intros Hk [H1 H2] Ho Hs. unfold limits_ok, owner_count, session_count in *. split.
  - intros o. rewrite keep_insert_fresh by done. specialize (H1 o). case_bool_decide; subst; cbn [negb]; lia.
  - intros o sid. rewrite keep_insert_fresh by done. specialize (H2 o sid).
    destruct (bool_decide_reflect (pr_OwnerID r = o)); cbn [andb negb]; [|lia].
    destruct (bool_decide_reflect (pr_SessionID r = sid)); subst; cbn [negb]; lia.
Qed.

(** The row of an accepted route refers to a terminal session on its worker. *)
Lemma insert_row_parent key p w w' :
  routes_ok (svc_routes (w_svc w)) -> run_store (RouteStore.InsertProxyRoute (key, p)) w = (Ok true, w') ->
  exists t, terminalSessionToNode (svc_routes (w_svc w)) !! trim (p_ScopedSessionID p) = Some t /\
    ReservationID t = 0 /\ NodeID t = trim (p_WorkerID p) /\ p_CreatedAtUnixMs p < LeaseExpiresUnixMs t.
Proof.
  intros Hok H. unfold run_store in H. destruct (run_db_cases no_proxy_store (RouteStore.InsertProxyRoute (key, p)) (w_svc w))
    as [[_ E]|(c&Hc&E)]; rewrite E in H; [done|]. injection H as H _. clear E.
  destruct (RouteStore.InsertProxyRoute (key, p) c) as [x c'] eqn:Ei. cbn in H. subst x.
  unfold RouteStore.InsertProxyRoute in Ei. destruct (negb _); [done|]. cbn [normalizeProxyRoute] in Ei.
  apply WithTx_ok in Ei as (c1&c2&Hc1&Ei&_). apply bind_ok in Ei as (lookup&c3&El&Ei). apply catch_data in El.
  destruct lookup as [row|e]; [|by destruct (error_is _ _)]. cbn [p_ScopedSessionID p_WorkerID p_CreatedAtUnixMs] in *.
  destruct (_ || _) eqn:Eg in Ei; [done|]. bool_prop. unfold GetTerminalSessionRouteBySession in El.
  destruct (read_one_cases (fun d => terminal_session_routes d !! trim (p_ScopedSessionID p)) c1)
    as [_ [[? E]|[[_ E]|(row'&Er&E)]]]; rewrite El in E; try done. injection E as <-. rewrite Hc1 in Er.
  assert (row_at (svc_routes (w_svc w)) (trim (p_ScopedSessionID p)) = Some row) as Hat.
  { unfold row_at. unfold svc_conn in Hc. rewrite Hc. exact Er. }
  destruct (ok_rows _ Hok _ _ Hat) as (_&t&Ht&Hid&Hn&Hlease). exists t. split_and!; [done|done|congruence|lia].
Qed.

(** Generated keys are valid. *)
Lemma take_str_min n (s : string) : String.length (take_str n s) = Nat.min n (String.length s).
Proof. revert s. induction n as [|n IH]; intros [|a s]; cbn; [done..|]. by rewrite IH. Qed.

Lemma base32_lower_key raw n : length raw = 16%nat -> (8 <= n <= 26)%nat -> validProxyRouteKey (take_str n (base32_lower raw)) = true.
Proof.
  intros Hl Hn. assert (forall v, 0 <= v < 32 -> route_key_char (base32_char v) = true) as Hc.
  { intros v Hv. assert (exists k, (k < 32)%nat /\ v = Z.of_nat k) as (k&Hk&->) by (exists (Z.to_nat v); lia).
    do 32 (destruct k as [|k]; [by vm_compute|]). lia. }
  assert (String.length (base32_lower raw) = 26%nat) as Hlen.
  { unfold base32_lower. rewrite ProxyToken.string_of_list_length, length_fmap, length_seq, Hl. reflexivity. }
  unfold validProxyRouteKey. apply andb_true_iff. split.
  - unfold len, proxyRouteKeyMinLength, proxyRouteKeyMaxLength. rewrite take_str_min, Hlen. apply negb_true_iff, orb_false_iff. split; apply Z.ltb_ge; lia.
  - apply forall_char_take. unfold base32_lower. rewrite ProxyToken.forall_char_list. apply forallb_forall.
    intros a Ha. apply list_elem_of_In, list_elem_of_fmap in Ha as (i&->&_). apply Hc, Z.mod_pos_bound. done.
Qed.

Definition random_ok (random : nat -> res (list Z)) : Prop := forall i raw, random i = Ok raw -> length raw = 16%nat.

Lemma generated_key random i n key : random_ok random ->
  generateProxyRouteKey (random i) n = Ok key -> validProxyRouteKey key = true.
Proof.
  intros Hr. unfold generateProxyRouteKey. destruct (_ || _) eqn:E; [done|]. bool_prop.
  destruct (random i) as [raw|] eqn:Er; [|done]. intros [= <-]. unfold proxyRouteKeyMinLength, proxyRouteKeyMaxLength in *.
  apply base32_lower_key; [by eapply Hr|lia].
Qed.

(** *** createRoute *)

(** What a target of [ResolveProxySession] for this owner and session is. *)
Definition target_ok (owner sid : string) (target : ProxySessionTarget) : Prop :=
  pt_ScopedSessionID target = scopeTerminalSessionID owner sid /\ trim (pt_WorkerID target) = pt_WorkerID target.

Definition named (owner sid : string) (port : Z) : Prop :=
  trim owner = owner /\ owner <> "" /\ trim sid = sid /\ sid <> "" /\ len sid <= 256 /\ 1 <= port <= 65535.

(** The record a creation stores. *)
Definition new_record (key owner sid : string) (port : Z) (target : ProxySessionTarget) (now : time) : proxyRouteRecord :=
  mkProxyRecord key owner sid (pt_ScopedSessionID target) port (pt_WorkerID target) now (time_add now (ph_routeTTL h)).

Lemma create_loop_ok n random owner sid port target now : forall w,
  random_ok random -> world_ok h w -> named owner sid port -> target_ok owner sid target ->
  owner_count owner (w_routes w) < ph_maxPerAccount h -> session_count owner sid (w_routes w) < ph_maxPerSession h ->
  let '(r, w') := create_loop h n random owner sid port target now w in
  world_ok h w' /\ terminalSessionToNode (svc_routes (w_svc w')) = terminalSessionToNode (svc_routes (w_svc w)) /\
  match r with
  | Err _ => w_routes w' = w_routes w
  | Ok record => exists key, record = new_record key owner sid port target now /\ validProxyRouteKey key = true /\
      w_routes w !! key = None /\ w_routes w' = <[key := record]> (w_routes w) /\
      exists t, terminalSessionToNode (svc_routes (w_svc w)) !! pt_ScopedSessionID target = Some t /\
        ReservationID t = 0 /\ NodeID t = pt_WorkerID target /\ unix_milli now < LeaseExpiresUnixMs t
  end.
Proof.
  induction n as [|n IH]; intros w Hrand Hw Hn Ht Ho Hs; cbn [create_loop]; [done|].
  destruct (generateProxyRouteKey (random n) _) as [key|e] eqn:Eg; [|done]. apply (generated_key _ _ _ _ Hrand) in Eg.
  case_bool_decide as Ek; [by apply IH|]. apply eq_None_not_Some in Ek. fold (new_record key owner sid port target now).
  set (record := new_record key owner sid port target now). unfold proxyRouteRecordToStore.
  set (q := RouteStore.InsertProxyRoute _). destruct (run_store_ok q w _ Hw) as (Hw1&Er&Et).
  pose proof (insert_row_parent key (proxyRouteRecordToStore record).2 w) as Hp. unfold proxyRouteRecordToStore in Hp. cbn [snd] in Hp.
  destruct (run_store q w) as [[[]|e] w1] eqn:Eq; cbn [snd] in *; [| |done].
  2:{ specialize (IH w1). rewrite Er, Et in IH. by apply IH. }
  destruct (Hp w1 (wo_svc _ _ Hw) Eq) as (t&Htab&Hid&Hnode&Hlease). cbn in Htab, Hnode, Hlease.
  destruct Hn as (Ho1&Ho2&Hs1&Hs2&Hs3&Hport). destruct Ht as [Hsc Hwk].
  assert (trim (pt_ScopedSessionID target) = pt_ScopedSessionID target) as Htrim
    by (rewrite Hsc; apply trim_scope; congruence).
  rewrite Htrim in Htab. rewrite Hwk in Hnode.
  cbv beta iota. split; [|split; [by rewrite <- Et|exists key; split_and!; [done|done|done|by cbn; rewrite Er|by exists t]]].
  destruct Hw1 as [A B C D]. split; cbn [w_svc w_routes with_proxy_table]; [done|done| |].
  - intros k r. rewrite lookup_insert. case_decide as E; [|apply C]. subst k. intros [= <-]. cbn.
    unfold record_ok. cbn. split_and!; try (done || lia). exists t. by rewrite Et.
  - rewrite Er in *. by apply limits_insert.
Qed.

Lemma create_ok random owner sid port target now w :
  random_ok random -> world_ok h w -> named owner sid port -> target_ok owner sid target ->
  let '(r, w') := createRoute h random owner sid port target now w in
  world_ok h w' /\ terminalSessionToNode (svc_routes (w_svc w')) = terminalSessionToNode (svc_routes (w_svc w)) /\
  match r with
  | inr _ => w_routes w' = pruneLocked now (w_routes w)
  | inl record => exists key, record = new_record key owner sid port target now /\ validProxyRouteKey key = true /\
      pruneLocked now (w_routes w) !! key = None /\ w_routes w' = <[key := record]> (pruneLocked now (w_routes w)) /\
      exists t, terminalSessionToNode (svc_routes (w_svc w)) !! pt_ScopedSessionID target = Some t /\
        ReservationID t = 0 /\ NodeID t = pt_WorkerID target /\ unix_milli now < LeaseExpiresUnixMs t
  end.
Proof.
  intros Hrand Hw Hn Ht. unfold createRoute. set (w1 := with_proxy_table _ w).
  assert (world_ok h w1) as Hw1 by by apply world_prune.
  destruct (_ <=? _) eqn:E1; [done|]. destruct (ph_maxPerSession h <=? _) eqn:E2; [done|]. apply Z.leb_gt in E1, E2.
  pose proof (create_loop_ok proxyRouteCreateAttempts random owner sid port target now w1 Hrand Hw1 Hn Ht E1 E2) as H.
  by destruct (create_loop _ _ _ _ _ _ _ _ w1) as [[record|e] w2].
Qed.

(** *** Resolving a session *)
Lemma worker_of env sid now s node s' : routes_ok (svc_routes s) ->
  proxyTerminalSessionWorker env sid now s = (Some node, s') ->
  let ms := routeNowUnixMs (re_wall env) now in
  exists t, terminalSessionToNode (maybePruneTerminalSessionRoutes ms (svc_routes s)) !! trim sid = Some t /\
    terminalSessionToNode (svc_routes s') !! trim sid = Some t /\
    NodeID t = node /\ trim node = node /\ node <> "" /\ ReservationID t = 0 /\ RecoveryState t = terminalSessionRecoveryReady /\
    ~ (0 < LeaseExpiresUnixMs t <= ms).
Proof.
  intros Hok. unfold proxyTerminalSessionWorker. cbv zeta. set (ms := routeNowUnixMs _ _).
  set (s1 := with_svc_routes _ s). assert (routes_ok (svc_routes s1)) as Hok1 by by apply maybe_prune_step.
  unfold run_routes, terminalSessionRouteSnapshot. cbv zeta. case_bool_decide; [done|].
  change (svc_routes s1) with (maybePruneTerminalSessionRoutes ms (svc_routes s)) in *.
  set (rt := maybePruneTerminalSessionRoutes ms (svc_routes s)) in *.
  destruct (terminalSessionToNode rt !! trim sid) as [t|] eqn:Et; [|done].
  destruct ((0 <? _) && _) eqn:El; [by destruct (call_store _ _ rt) as [[]]|].
  destruct (_ || _) eqn:Eg; [done|]. bool_prop. intros [= <- <-]. exists t. destruct (ok_route _ Hok1 _ _ Et) as (_&_&Htr&Hne&_).
  split_and!; try done; apply andb_false_iff in El; lia.
Qed.

Lemma resolve_target env owner sid now s target s' : routes_ok (svc_routes s) ->
  ResolveProxySession env owner sid now s = (Ok target, s') -> target_ok owner sid target.
Proof.
  intros Hok. unfold ResolveProxySession. destruct (negb _); [done|]. case_bool_decide; [done|].
  destruct (proxyTerminalSessionWorker _ _ _ s) as [[node|] s1] eqn:Ew; [|done].
  destruct (worker_of _ _ _ _ _ _ Hok Ew) as (t&_&_&_&Htr&_). destruct (negb _); [done|]. intros [= <- _]. done.
Qed.

(** *** The handlers keep the invariant *)
Definition env_ok (env : proxy_env) : Prop :=
  keeps_world h (px_others env) /\ resolve_ok (px_resolve env) /\ random_ok (px_random env).

Lemma named_of c body owner raw port : proxyRouteOwnerID c = Some owner -> createProxyRouteRequest body = Some (raw, port) ->
  trim raw <> "" -> (256 <? len (trim raw)) = false -> (port <? 1) || (65535 <? port) = false -> named owner (trim raw) port.
Proof.
  intros Ho _ Hne Hl Hp. unfold proxyRouteOwnerID in Ho. destruct (requestSessionAccountFromGin c); [|done].
  case_bool_decide; simplify_eq. unfold named. rewrite !trim_trim. apply orb_false_iff in Hp. split_and!; try done; lia.
Qed.

Lemma Create_ok env c body w : env_ok env -> world_ok h w -> world_ok h (Create h env c body w).2.
Proof.
  intros (Ho&Hr&Hrand) Hw. unfold Create. destruct (proxyRouteOwnerID c) as [owner|] eqn:Ec; [|done].
  destruct (createProxyRouteRequest body) as [[raw port]|] eqn:Eb; [|done]. case_bool_decide as Hne; [done|].
  destruct (256 <? _) eqn:El; [done|]. destruct (_ || _) eqn:Ep; [done|].
  pose proof (run_svc_ok (ResolveProxySession (px_resolve env) owner (trim raw) (px_now env 0%nat)) w
    (fun s => steady_resolve _ _ _ _ s Hr) Hw) as H1. unfold run_svc in *.
  destruct (ResolveProxySession _ _ _ _ (w_svc w)) as [[target|e] s1] eqn:Et; cbn [snd] in *; [|done].
  apply (resolve_target _ _ _ _ _ _ _ (wo_svc _ _ Hw)) in Et.
  set (now := if _ <? _ then _ else _). pose proof (create_ok (px_random env) owner (trim raw) port target now (px_others env (settle (with_svc s1 w)))
    Hrand (Ho _ H1) (named_of _ _ _ _ _ Ec Eb Hne El Ep) Et) as H2.
  destruct (createRoute _ _ _ _ _ _ _ _) as [[record|e] w2]; by destruct H2.
Qed.

Lemma List_ok env c r w : world_ok h w -> world_ok h (List h env c r w).2.
Proof.
  intros Hw. unfold List. destruct (requestSessionAccountFromGin c) as [account|]; [|done]. case_bool_decide; [done|].
  destruct (_ && _); [done|]. do 2 (destruct (parsePositiveIntQuery _ _ _); [|done]). destruct (_ <? _); [done|].
  cbn. by apply world_prune.
Qed.

Lemma delete_keep k m : delete k m = keep (fun k' _ => bool_decide (k' = k)) m.
Proof.
  apply map_eq. intros k'. rewrite lookup_keep, lookup_delete. case_decide as E.
  - subst. destruct (m !! k'); cbn; [|done]. by rewrite bool_decide_true.
  - destruct (m !! k'); cbn; [|done]. by rewrite bool_decide_false.
Qed.

Lemma deleteRoute_cases owner key now w : world_ok h w ->
  let '(r, w') := deleteRoute owner key now w in
  world_ok h w' /\ terminalSessionToNode (svc_routes (w_svc w')) = terminalSessionToNode (svc_routes (w_svc w)) /\
  match r with
  | Ok true => (exists record, pruneLocked now (w_routes w) !! key = Some record /\ pr_OwnerID record = owner) /\
      w_routes w' = delete key (pruneLocked now (w_routes w))
  | _ => w_routes w' = pruneLocked now (w_routes w)
  end.
Proof.
  intros Hw. unfold deleteRoute. set (m := pruneLocked now (w_routes w)). set (w1 := with_proxy_table m w).
  assert (world_ok h w1) as Hw1 by by apply world_prune. destruct (m !! key) as [record|] eqn:Ek; [|done].
  case_bool_decide as Eo; cbn [negb]; [|done]. set (q := RouteStore.DeleteProxyRoute key owner).
  destruct (run_store_ok q w1 _ Hw1) as (Hw2&Er&Et). destruct (run_store q w1) as [[b|e] w2]; cbn [snd] in *; [|done].
  split_and!; [|done|by eauto|done]. change m with (w_routes w1). rewrite <- Er, delete_keep. by apply world_keep.
Qed.

Lemma Delete_cases env c r w : world_ok h w ->
  let '(reply, w') := Delete env c r w in
  let key := to_lower (trim (rq_param r "route_key")) in
  (px_status reply <> 204 /\ (w_routes w' = w_routes w \/ w_routes w' = pruneLocked (px_now env 0%nat) (w_routes w))) \/
  (exists record, reply = mkProxyReply 204 PxNone /\ proxyRouteOwnerID c = Some (pr_OwnerID record) /\
    pruneLocked (px_now env 0%nat) (w_routes w) !! key = Some record /\ w_routes w' = delete key (pruneLocked (px_now env 0%nat) (w_routes w))).
Proof.
  intros Hw. unfold Delete. destruct (proxyRouteOwnerID c) as [owner|]; [|left; split; [done|by left]].
  destruct (negb _); [left; split; [done|by left]|]. set (key := to_lower _).
  pose proof (deleteRoute_cases owner key (px_now env 0%nat) w Hw) as H. destruct (deleteRoute _ _ _ w) as [[[]|e] w1].
  - destruct H as (_&_&(record&Hk&<-)&Hm). right. by exists record.
  - destruct H as (_&_&Hm). left. split; [done|by right].
  - destruct H as (_&_&Hm). left. split; [done|by right].
Qed.

Lemma Delete_ok env c r w : world_ok h w -> world_ok h (Delete env c r w).2.
Proof.
  intros Hw. unfold Delete. destruct (proxyRouteOwnerID c) as [owner|]; [|done]. destruct (negb _); [done|].
  set (key := to_lower _). pose proof (deleteRoute_cases owner key (px_now env 0%nat) w Hw) as H.
  destruct (deleteRoute _ _ _ w) as [[[]|] w1]; by destruct H.
Qed.

Lemma Resolve_ok env tok host w : env_ok env -> world_ok h w -> world_ok h (Resolve h env tok host w).2.
Proof.
  intros (Ho&Hr&_) Hw. unfold Resolve. destruct (negb _); [done|]. destruct (routeKeyFromHost h host) as [key|]; [|done].
  unfold getRoute. set (m := pruneLocked _ _). set (w1 := with_proxy_table m w).
  assert (world_ok h w1) as Hw1 by by apply world_prune. destruct (m !! key) as [record|]; [|done].
  pose proof (run_svc_ok (AuthorizeProxyRoute (px_resolve env) (pr_WorkerID record) (pr_ScopedSessionID record) (pr_Port record)
    (pr_ExpiresAt record) (px_now env 1%nat)) (px_others env w1) (fun s => steady_authorize _ _ _ _ _ _ s Hr) (Ho _ Hw1)) as H.
  by destruct (run_svc _ _) as [[a|e] w2].
Qed.

Lemma PruneExpired_ok wall now w : world_ok h w -> world_ok h (PruneExpired wall now w).2.
Proof.
  intros Hw. unfold PruneExpired. set (q := RouteStore.DeleteExpiredProxyRoutes _). destruct (run_store_ok q w _ Hw) as (Hw1&_&_).
  destruct (run_store q w) as [[z|e] w1]; cbn [snd] in *; [|done]. by apply world_prune.
Qed.

End invariant.

(** ** Sequences of steps *)

(** The requests and timers of the handler, the operations of the route table,
    and connections that come and go (they change no route). *)
Inductive proxy_op :=
  | OpCreateRoute (env : proxy_env) (c : context) (body : payload)
  | OpListRoutes (env : proxy_env) (c : context) (r : request)
  | OpDeleteProxy (env : proxy_env) (c : context) (r : request)
  | OpResolveRoute (env : proxy_env) (internalToken originalHost : string)
  | OpPruneRoutes (wall now : time)
  | OpRevokeOwner (ownerID : string)
  | OpTerminal (op : route_op)
  | OpConnections (table : gmap string string) (heap : gmap string activeSession).

Definition run_proxy_op (h : ProxyRouteHandler) (op : proxy_op) (w : World) : World :=
  match op with
  | OpCreateRoute env c body => (Create h env c body w).2
  | OpListRoutes env c r => (List h env c r w).2
  | OpDeleteProxy env c r => (Delete env c r w).2
  | OpResolveRoute env tok host => (Resolve h env tok host w).2
  | OpPruneRoutes wall now => (PruneExpired wall now w).2
  | OpRevokeOwner o => with_proxy_table (RevokeOwnerRoutes o (w_routes w)) w
  | OpTerminal op => settle (with_svc (with_svc_routes (run_route_op op (svc_routes (w_svc w))) (w_svc w)) w)
  | OpConnections t x => with_svc (with_svc_sessions t x (w_svc w)) w
  end.

Definition run_proxy_ops (h : ProxyRouteHandler) (ops : list proxy_op) (w : World) : World := foldl (fun w op => run_proxy_op h op w) w ops.

Definition op_ok (h : ProxyRouteHandler) (op : proxy_op) : Prop :=
  match op with
  | OpCreateRoute env _ _ | OpResolveRoute env _ _ => env_ok h env
  | _ => True
  end.

Lemma run_proxy_op_ok h op w : op_ok h op -> world_ok h w -> world_ok h (run_proxy_op h op w).
Proof.
  intros Hop Hw. destruct op; cbn [run_proxy_op op_ok] in *.
  - by apply Create_ok.
  - by apply List_ok.
  - by apply Delete_ok.
  - by apply Resolve_ok.
  - by apply PruneExpired_ok.
  - by apply world_revoke_owner.
  - apply settle_ok; [done|]. unfold steady. cbn. apply run_route_op_step.
  - destruct Hw as [A B C D]. by split.
Qed.

Lemma run_proxy_ops_ok h ops w : Forall (op_ok h) ops -> world_ok h w -> world_ok h (run_proxy_ops h ops w).
Proof.
  intros Hops. revert w. induction Hops as [|op ops Hop _ IH]; intros w Hw; [done|]. cbn. by apply IH, run_proxy_op_ok.
Qed.

(** ** Host names *)
Section hosts.

(** A text whose fields satisfy [p] has only such characters and separators. *)
Lemma split_n_chars (p : ascii -> bool) sep n : forall s, forallb (forall_char p) (split_n n sep s) = true ->
  (String.length s < n)%nat -> forall_char (fun a => p a || Ascii.eqb a sep) s = true.
Proof.
  induction n as [|n IH]; intros s Hs Hn; [lia|]. cbn [split_n] in Hs. destruct n as [|n].
  - destruct s; [done|]. cbn in Hn. lia.
  - destruct (cut sep s) as [x [y|]] eqn:Ec.
    + apply cut_some in Ec as [-> _]. cbn [forallb] in Hs. apply andb_true_iff in Hs as [Hx Hy].
      rewrite forall_char_app. cbn [forall_char]. rewrite Ascii.eqb_refl, orb_true_r. cbn [andb].
      rewrite (IH y); [|exact Hy|rewrite string_length_app in Hn; cbn in Hn; lia]. rewrite andb_true_r.
      eapply forall_char_mono; [|exact Hx]. intros a ->. done.
    + apply ProxyToken.cut_none_inv in Ec as <-. cbn [forallb] in Hs. rewrite andb_true_r in Hs.
      eapply forall_char_mono; [|exact Hs]. intros a ->. done.
Qed.

(** Characters of the host names of routes: lower case, no brackets or colons. *)
Definition host_name_char (a : ascii) : bool := between 97 122 a || between 48 57 a || Ascii.eqb a "-" || Ascii.eqb a ".".

Lemma host_name_cases a : host_name_char a = true ->
  plain a = true /\ lower_ascii a = a /\ a <> ":"%char /\ a <> "["%char /\ a <> "]"%char.
Proof. intros H. destruct a as [[] [] [] [] [] [] [] []]; try discriminate H; by vm_compute. Qed.

Lemma host_name_no s c : forall_char host_name_char s = true -> host_name_char c = false -> contains_char c s = false.
Proof. intros Hs Hc. by eapply forall_char_contains. Qed.

Lemma host_name_lower s : forall_char host_name_char s = true -> to_lower s = s.
Proof.
  induction s as [|a s IH]; [done|]. cbn [forall_char to_lower]. intros [Ha Hs]%andb_true_iff.
  rewrite IH by done. by destruct (host_name_cases a Ha) as (_&->&_).
Qed.

Lemma host_name_plain s : forall_char host_name_char s = true -> forall_char plain s = true.
Proof. apply forall_char_mono. intros a Ha. by destruct (host_name_cases a Ha). Qed.

Lemma base_domain_chars value d : normalizeProxyBaseDomain value = Ok d -> d <> "" /\ forall_char host_name_char d = true.
Proof.
  unfold normalizeProxyBaseDomain. set (domain := to_lower (trim value)). case_bool_decide as Hd; [done|]. destruct (_ || _); [done|].
  destruct (_ <? _)%nat; [done|]. destruct (forallb domain_label _) eqn:El; cbn [negb]; [|done]. intros [= <-]. split; [done|].
  eapply forall_char_mono; [|apply (split_n_chars (fun a => between 97 122 a || between 48 57 a || Ascii.eqb a "-") "." (S (String.length domain)))].
  - intros a Ha. unfold host_name_char. by rewrite orb_true_iff in Ha |- *.
  - apply forallb_forall. intros label Hl. apply (proj1 (forallb_forall _ _) El) in Hl. unfold domain_label in Hl. by bool_prop.
  - lia.
Qed.

Lemma route_key_host key : validProxyRouteKey key = true -> forall_char host_name_char key = true /\ key <> "".
Proof.
  unfold validProxyRouteKey. intros [Hl Hk]%andb_true_iff. split.
  - eapply forall_char_mono; [|exact Hk]. intros a Ha. unfold route_key_char, host_name_char, between in *.
    apply orb_true_iff in Ha as [Ha|Ha]; bool_prop; [rewrite !(proj2 (Z.leb_le _ _)) by done; done|].
    rewrite (proj2 (Z.leb_le 48 (byte a))), (proj2 (Z.leb_le (byte a) 57)) by lia. by rewrite orb_true_r.
  - intros ->. done.
Qed.

(** The host of a route, with or without a port, gives its key. *)
Lemma route_host_key h key port : (exists value, normalizeProxyBaseDomain value = Ok (ph_baseDomain h)) ->
  validProxyRouteKey key = true -> forall_char json_digit port = true ->
  routeKeyFromHost h (key +:+ "." +:+ ph_baseDomain h) = Some key /\
  routeKeyFromHost h (key +:+ "." +:+ ph_baseDomain h +:+ ":" +:+ port) = Some key.
Proof.
  intros [value Hb] Hk Hp. apply base_domain_chars in Hb as [_ Hb]. destruct (route_key_host key Hk) as [Hkc Hne].
  set (host := key +:+ "." +:+ ph_baseDomain h).
  assert (forall_char host_name_char host = true) as Hh by (unfold host; rewrite !forall_char_app, Hkc, Hb; done).
  assert (host <> "") as Hhne by (unfold host; destruct key; [done|by rewrite string_app_cons]).
  assert (forall_char plain port = true /\ to_lower port = port /\ contains_char ":" port = false /\ contains_char "]" port = false /\
    contains_char "[" port = false) as (Hpp&Hpl&Hp1&Hp2&Hp3).
  { assert (forall_char host_name_char port = true) as Hph.
    { eapply forall_char_mono; [|exact Hp]. intros a Ha. unfold json_digit in Ha. unfold host_name_char. by rewrite Ha, orb_true_r. }
    split_and!; [by apply host_name_plain|by apply host_name_lower|by apply host_name_no..]. }
  assert (forall x, x = host \/ x = host +:+ ":" +:+ port -> to_lower (trim x) = x /\ x <> "" /\
    match SplitHostPort x with Some (parsedHost, _) => parsedHost | None => x end = host) as Hx.
  { intros x Hx. assert (forall_char plain x = true /\ to_lower x = x) as [Hpx Hlx].
    { destruct Hx as [->| ->]; [split; [by apply host_name_plain|by apply host_name_lower]|].
      rewrite !forall_char_app, !to_lower_app, Hpp, Hpl, (host_name_plain _ Hh), (host_name_lower _ Hh). done. }
    rewrite plain_trimmed by done. split; [done|].
    destruct host as [|a host'] eqn:Eh; [done|]. destruct (host_name_cases a) as (_&_&Hc1&Hc2&_); [cbn in Hh; by bool_prop|].
    split; [by destruct Hx as [->| ->]|]. assert (contains_char "[" (String a host') = false /\ contains_char "]" (String a host') = false /\
      contains_char ":" (String a host') = false) as (Hn1&Hn2&Hn3) by (split_and!; by apply host_name_no).
    assert (forall y, SplitHostPort (String a y) = match cut ":" (String a y) with
      | (host, Some port) => if contains_char ":" port || contains_char "[" (String a y) || contains_char "]" (String a y) then None else Some (host, port)
      | _ => None end) as Hsplit.
    { intros y. unfold SplitHostPort. destruct a as [[] [] [] [] [] [] [] []]; done. }
    destruct Hx as [->| ->]; [rewrite Hsplit, ProxyToken.cut_none by done; done|].
    rewrite string_app_cons, Hsplit, <- string_app_cons. change (":" +:+ port) with (String ":" port). rewrite cut_app by done.
    assert (forall c, contains_char c (String a host' +:+ String ":" port) = contains_char c (String a host') || Ascii.eqb ":" c || contains_char c port) as Hca.
    { intros c. clear. induction (String a host') as [|b s IH]; [done|]. rewrite string_app_cons. cbn. rewrite IH. by rewrite !orb_assoc. }
    rewrite !Hca, Hp1, Hn1, Hn2, Hp2, Hp3. done. }
  assert (forall x, x = host \/ x = host +:+ ":" +:+ port -> routeKeyFromHost h x = Some key) as Hfin.
  { intros x (Hl&Hxne&Hs)%Hx. unfold routeKeyFromHost. rewrite Hl, bool_decide_false, Hs by done. unfold host.
    rewrite has_suffix_app, trim_suffix_app, Hk. done. }
  split; [by apply Hfin; left|]. apply Hfin. right. unfold host. by rewrite !string_app_assoc.
Qed.

End hosts.

(** ** Authorization *)
Section authorization.
Implicit Types (s : RegistryService).

(** The claims of a token: the session, its port, and an expiry that neither
    the route's nor fifteen seconds exceed. *)
Definition route_claims (worker sid : string) (port : Z) (expires now : time) : ProxyToken.Claims :=
  ProxyToken.mkClaims worker sid port (unix_milli (Z.min expires (time_add now proxyRouteTokenTTL))).

Definition clock (env : resolve_env) (now : time) : time := if is_zero now then re_wall env else now.

(** What an authorization rests on: the terminal session is confirmed, ready
    and on this worker, whose connection supports proxying; the request goes to
    the worker's endpoint with a signed token, or to an allowed domain. *)
Definition authorized (env : resolve_env) (worker sid : string) (port : Z) (expires now : time) s (a : ProxyAuthorization) s' : Prop :=
  let ms := unix_milli (clock env now) in
  proxyEnabled (cfg_proxy (svc_config s)) = true /\ 1 <= port <= 65535 /\ clock env now < expires /\
  (exists t, terminalSessionToNode (maybePruneTerminalSessionRoutes ms (svc_routes s)) !! sid = Some t /\ NodeID t = worker /\
    ReservationID t = 0 /\ RecoveryState t = terminalSessionRecoveryReady /\ ~ (0 < LeaseExpiresUnixMs t <= ms)) /\
  exists s1 x, steady s s1 /\ getSession worker s1 = Some x /\ hasCapability taskCapabilityTerminalExec x = true /\
    ((proxyDirect x = "" /\ trim (proxyEndpoint x) <> "" /\ pa_Upstream a = "http://" +:+ proxyEndpoint x /\ pa_TrafficToken a = "" /\
      ProxyToken.Sign (routeTokenKey x) (route_claims worker sid port expires (clock env now)) = Ok (pa_Token a) /\ s' = s1) \/
     (proxyDirect x <> "" /\ pa_Token a = "" /\
      exists u, validateDirectProxyURL (pa_Upstream a) (proxyAllowedDirectDomains (cfg_proxy (svc_config s'))) = Ok u /\ pa_UpstreamHost a = u_Host u)).

Lemma route_clock env now : routeNowUnixMs (re_wall env) (clock env now) = unix_milli (clock env now).
Proof. unfold routeNowUnixMs, clock. destruct (is_zero now) eqn:E; [by destruct (is_zero (re_wall env))|by rewrite E]. Qed.

Lemma direct_spec env x sid port s a s' : authorizeDirectProxyRoute env x sid port s = (Ok a, s') ->
  pa_Token a = "" /\ exists u, validateDirectProxyURL (pa_Upstream a) (proxyAllowedDirectDomains (cfg_proxy (svc_config s'))) = Ok u /\ pa_UpstreamHost a = u_Host u.
Proof.
  unfold authorizeDirectProxyRoute. destruct (pickSessionForNodeAndCapability _ _ s) as [[picked|] s1]; [|done].
  destruct (dispatchCommandAttempt _ _ _ _ _ _ _ s1) as [[attempt|] s2]; [|done]. destruct (oc_err _) as [e|]; [by destruct (isSessionNotFoundCommandError e)|].
  destruct (directProxyResolveResult _) as [[url traffic]|]; [|done].
  destruct (validateDirectProxyURL (trim url) _) as [u|] eqn:E; [|done]. intros [= <- <-]. split; [done|]. by exists u.
Qed.

Lemma authorize_spec env worker sid port expires now s a s' : resolve_ok env -> routes_ok (svc_routes s) -> trim worker = worker -> trim sid = sid ->
  AuthorizeProxyRoute env worker sid port expires now s = (Ok a, s') -> authorized env worker sid port expires now s a s'.
Proof.
  intros Hr Hok Hw Hs. unfold AuthorizeProxyRoute, authorized. rewrite Hw, Hs. fold (clock env now). set (now' := clock env now).
  destruct (proxyEnabled _); cbn [negb]; [|done]. destruct (_ || _) eqn:Eg; [done|]. bool_prop. destruct (expires <=? now') eqn:Ex; [done|].
  pose proof (steady_worker env sid now' s) as Hst. destruct (proxyTerminalSessionWorker env sid now' s) as [[node|] s1] eqn:Ew; [|done].
  destruct (worker_of _ _ _ _ _ _ Hok Ew) as (t&Ht&_&Hn&_&_&Hid&Hrec&Hlease). cbv zeta in *. unfold now' in Ht, Hlease. rewrite route_clock in Ht, Hlease.
  fold now' in Ht, Hlease. rewrite Hs in Ht. case_bool_decide as En; cbn [negb]; [|done]. cbn [snd] in Hst.
  assert (steady s (re_between env s1)) as Hb by (etrans; [done|apply Hr]). set (s2 := re_between env s1) in *.
  destruct (getSession worker s2) as [x|] eqn:Es; [|done]. destruct (supports_proxy x) eqn:Esp; cbn [negb]; [|done].
  unfold supports_proxy in Esp. apply andb_true_iff in Esp as [Hexec Hsup].
  destruct (bool_decide_reflect (proxyDirect x = "")) as [Ed|Ed]; cbn [negb].
  - destruct (ProxyToken.Sign _ _) as [token|] eqn:Esig; [|done]. intros [= <- <-]. split; [done|]. split; [lia|]. split; [lia|]. split; [by exists t; subst|].
    exists s2, x. split_and!; [done..|]. left. cbn. split_and!; try done.
    + rewrite Ed in Hsup. change (trim "") with "" in Hsup. cbn in Hsup. rewrite orb_false_r in Hsup. by bool_prop.
    + unfold route_claims. rewrite <- Esig. do 3 f_equal. destruct (expires <? time_add now' proxyRouteTokenTTL) eqn:Em; lia.
  - intros Hd. pose proof (direct_spec _ _ _ _ _ _ _ Hd) as [Ht0 Hu]. split; [done|]. split; [lia|]. split; [lia|]. split; [by exists t; subst|].
    exists s2, x. split_and!; [done..|]. by right.
Qed.

End authorization.

(** ** Restore *)
Section restore.

(** A row as a creation writes it. *)
Definition row_named (k : string) (p : ProxyRow) : Prop :=
  validProxyRouteKey k = true /\ trim (p_OwnerID p) = p_OwnerID p /\ p_OwnerID p <> "" /\
  trim (p_SessionID p) = p_SessionID p /\ p_SessionID p <> "" /\ len (p_SessionID p) <= 256 /\
  p_ScopedSessionID p = scopeTerminalSessionID (p_OwnerID p) (p_SessionID p) /\ trim (p_WorkerID p) = p_WorkerID p /\ p_WorkerID p <> "" /\
  1 <= p_Port p <= 65535 /\ p_CreatedAtUnixMs p < p_ExpiresAtUnixMs p.

Definition rows_named (d : DB) : Prop := forall k p, proxy_routes d !! k = Some p -> row_named k p.

(** The record a row is restored to. *)
Definition restored (k : string) (p : ProxyRow) : proxyRouteRecord :=
  mkProxyRecord k (p_OwnerID p) (p_SessionID p) (p_ScopedSessionID p) (p_Port p) (p_WorkerID p)
    (of_unix_milli (p_CreatedAtUnixMs p)) (of_unix_milli (p_ExpiresAtUnixMs p)).

Lemma key_trimmed k : validProxyRouteKey k = true -> trim k = k.
Proof. intros H. by apply plain_trimmed, host_name_plain, route_key_host. Qed.

Lemma from_store k p : row_named k p -> proxyRouteRecordFromStore (k, p) = restored k p.
Proof.
  intros (Hk&Ho&Hone&Hs&Hsne&_&Hsc&Hw&_). unfold proxyRouteRecordFromStore, restored. rewrite (key_trimmed k Hk), Ho, Hs, Hw.
  f_equal. rewrite Hsc. apply trim_scope; congruence.
Qed.

Lemma restored_valid now k p : row_named k p -> unix_milli now < p_ExpiresAtUnixMs p -> validPersistedProxyRoute (restored k p) now = true.
Proof.
  intros (Hk&Ho&Hone&Hs&Hsne&Hl&Hsc&Hw&Hwne&Hp&Hce) He. unfold validPersistedProxyRoute, restored. cbn.
  rewrite Hk. rewrite !bool_decide_false by (done || (rewrite Hsc; apply scope_nonempty; congruence)).
  unfold of_unix_milli, unix_milli in *. repeat (apply andb_true_iff; split); try done; try lia.
  apply Z.ltb_lt. pose proof (Z.div_mod now (10 ^ 6) ltac:(lia)). pose proof (Z.mod_pos_bound now (10 ^ 6) ltac:(lia)). nia.
Qed.

Lemma load_records_spec now l : forall m, NoDup l.*1 -> (forall k p, (k, p) ∈ l -> m !! k = None /\ row_named k p /\ unix_milli now < p_ExpiresAtUnixMs p) ->
  load_records now l m = Ok (foldl (fun m kp => <[kp.1 := restored kp.1 kp.2]> m) m l).
Proof.
  induction l as [|[k p] l IH]; intros m Hnd Hl; [done|]. cbn [load_records foldl]. destruct (Hl k p) as (Hm&Hn&He); [by left|].
  rewrite from_store, restored_valid by done. cbn [negb restored pr_RouteKey]. rewrite bool_decide_false by by rewrite Hm; intros [].
  cbn in Hnd. apply NoDup_cons in Hnd as [Hk Hnd]. apply IH; [done|]. intros k' p' Hin. destruct (Hl k' p') as (Hm'&?&?); [by right|].
  split; [|done]. rewrite lookup_insert_ne; [done|]. cbn. intros ->. apply Hk, list_elem_of_fmap. by exists (k', p').
Qed.

Lemma fold_restored_records l : forall (m0 : gmap string proxyRouteRecord) k, NoDup l.*1 ->
  foldl (fun m kp => <[kp.1 := restored kp.1 kp.2]> m) m0 l !! k =
  match (list_to_map l : gmap string ProxyRow) !! k with Some p => Some (restored k p) | None => m0 !! k end.
Proof.
  induction l as [|[k' p] l IH]; intros m0 k; cbn; [done|]. intros [Hk Hl]%NoDup_cons. rewrite IH by done.
  destruct (decide (k' = k)) as [->|Hne].
  - rewrite lookup_insert_eq, not_elem_of_list_to_map_1 by done. by rewrite lookup_insert_eq.
  - by rewrite !lookup_insert_ne.
Qed.

(** The rows that have not expired become the routes; only a failing statement
    prevents it. *)
Lemma Restore_spec wall now w d : is_zero now = false -> svc_db (w_svc w) = Some d -> rows_named d -> w_routes w = ∅ ->
  match Restore wall now w with
  | (Ok _, w') => (forall k, w_routes w' !! k =
      proxy_routes d !! k ≫= fun p => if p_ExpiresAtUnixMs p <=? unix_milli now then None else Some (restored k p)) /\
      terminalSessionToNode (svc_routes (w_svc w')) = terminalSessionToNode (svc_routes (w_svc w)) /\
      revoked (svc_routes (w_svc w')) = revoked (svc_routes (w_svc w)) /\
      (routes_ok (svc_routes (w_svc w)) -> routes_ok (svc_routes (w_svc w')))
  | (Err e, w') => w_routes w' = ∅ /\ exists pre e', e = Wrapped pre e' "" /\ exists c r c', r = Err e' /\
      (RouteStore.DeleteExpiredProxyRoutes (unix_milli now) c = (r, c') \/ exists r', r' = Err e' /\ LoadActiveProxyRoutes (unix_milli now) c = (r', c'))
  end.
Proof.
  intros Hz Hd Hrows Hempty. unfold Restore. rewrite Hz. set (ms := unix_milli now). unfold run_store.
  set (q1 := RouteStore.DeleteExpiredProxyRoutes ms). set (q2 := LoadActiveProxyRoutes ms).
  pose proof (calm_run_db no_proxy_store q1 (w_svc w) _) as (_&_&_&_&Hst1&_).
  destruct (run_db_cases no_proxy_store q1 (w_svc w)) as [[Hn _]|(c&Hc&E)]; [unfold svc_db in Hd; by rewrite Hn in Hd|]. rewrite E in *.
  unfold svc_db in Hd. rewrite Hc in Hd. cbn in Hd. injection Hd as Hd. destruct (q1 c) as [[z|e] c1] eqn:E1; cbn [fst snd] in *.
  2:{ split; [done|]. eexists _, e. split; [done|]. exists c, (Err e), c1. split; [done|by left]. }
  set (s1 := with_svc_routes (with_store (Some c1) (svc_routes (w_svc w))) (w_svc w)) in *. cbn [w_svc with_svc].
  pose proof (calm_run_db no_proxy_store q2 s1 _) as (_&_&_&_&Hst2&_).
  destruct (run_db_cases no_proxy_store q2 s1) as [[Hn _]|(c1'&Hc1&E')]; [done|]. rewrite E' in *. cbn in Hc1. injection Hc1 as <-.
  destruct (q2 c1) as [[persisted|e] c2] eqn:E2; cbn [fst snd] in *.
  2:{ split; [done|]. eexists _, e. split; [done|]. exists c1, (Err e), c2. split; [done|]. right. by exists (Err e). }
  apply write_ok in E1. apply (f_equal snd) in E1. cbn [snd] in E1. apply read_ok in E2 as [<- _].
  rewrite <- E1, Hd. cbn [proxy_routes with_proxy_routes].
  set (l := map_to_list (select _ _)).
  assert (forall k p, (k, p) ∈ order_by proxy_le l <-> proxy_routes d !! k = Some p /\ ms < p_ExpiresAtUnixMs p) as Hl.
  { intros k p. unfold l. rewrite elem_of_order_by, elem_of_map_to_list, lookup_select_Some, lookup_keep_Some, Z.ltb_lt. split; [tauto|].
    intros [Hk He]. rewrite (proj2 (Z.leb_gt _ _)) by done. done. }
  assert (NoDup (order_by proxy_le l).*1) as Hnd.
  { apply NoDup_fmap_2_strong; [|apply NoDup_order_by, NoDup_map_to_list].
    intros [k1 p1] [k2 p2] H1%Hl H2%Hl. cbn. intros ->. destruct H1, H2. by simplify_eq. }
  rewrite load_records_spec; [|done|].
  2:{ intros k p [Hk He]%Hl. split_and!; [apply lookup_empty|by apply Hrows|done]. }
  cbn [w_routes with_svc]. rewrite Hempty, bool_decide_true by done. cbn [negb w_routes w_svc with_proxy_table with_svc].
  split_and!; [|done|done|intros Hok; apply Hst2; by apply Hst1]. intros k. rewrite fold_restored_records by done.
  destruct (list_to_map (order_by proxy_le l) !! k) as [p|] eqn:Ek.
  - apply elem_of_list_to_map in Ek; [|done]. apply Hl in Ek as [-> He]. cbn. by rewrite (proj2 (Z.leb_gt _ _)).
  - rewrite lookup_empty. destruct (proxy_routes d !! k) as [p|] eqn:Ep; cbn; [|done]. destruct (_ <=? _) eqn:Ee; [done|].
    apply Z.leb_gt in Ee. apply not_elem_of_list_to_map_2 in Ek. exfalso. apply Ek, list_elem_of_fmap. exists (k, p). split; [done|]. by apply Hl.
Qed.

End restore.

(** ** What a creation leaves in the store *)
Section stored.
Context (h : ProxyRouteHandler).

Lemma run_store_db {A} (q : M A) w r w' : run_store q w = (r, w') ->
  (svc_conn (w_svc w) = None /\ r = Err no_proxy_store) \/
  exists c c', svc_conn (w_svc w) = Some c /\ q c = (r, c') /\ svc_db (w_svc w) = Some (data c) /\ svc_db (w_svc w') = Some (data c').
Proof.
  unfold run_store, svc_db. destruct (run_db_cases no_proxy_store q (w_svc w)) as [[Hn E]|(c&Hc&E)]; rewrite E; intros [= <- <-]; [by left|].
  right. exists c, (q c).2. rewrite Hc. by destruct (q c).
Qed.

(** An insert adds exactly its row, or leaves the database alone. *)
Lemma insert_row_db key p w b w' d : svc_db (w_svc w) = Some d ->
  run_store (RouteStore.InsertProxyRoute (key, p)) w = (Ok b, w') ->
  validProxyRoute (normalizeProxyRoute (key, p)) = true /\
  svc_db (w_svc w') = Some (if b then with_proxy_routes <[trim key := (normalizeProxyRoute (key, p)).2]> d else d) /\
  (b = true -> proxy_routes d !! trim key = None).
Proof.
  intros Hd H. apply run_store_db in H as [[_ H]|(c&c'&_&Hq&Hc&Hc')]; [done|]. rewrite Hd in Hc. injection Hc as ->. rewrite Hc'. clear Hd Hc'.
  unfold RouteStore.InsertProxyRoute in Hq. destruct (validProxyRoute _); cbn [negb] in Hq; [|done]. split; [done|].
  cbn [normalizeProxyRoute snd] in *. set (row := mkProxyRow _ _ _ _ _ _ _) in *.
  apply WithTx_ok in Hq as (c1&c2&E1&Hq&->). rewrite <- E1. clear E1. apply bind_ok in Hq as (lookup&c3&El&Hq). apply catch_data in El.
  assert (data c3 = data c1) as <-.
  { unfold GetTerminalSessionRouteBySession in El. pose proof (proj1 (read_one_cases (fun d => terminal_session_routes d !! p_ScopedSessionID row) c1)) as E.
    by rewrite El in E. }
  destruct lookup as [t|e]; [|by destruct (error_is _ _)]. destruct (_ || _); [done|]. apply bind_ok in Hq as (rows&c4&Ei&Hq). injection Hq as <- <-.
  apply stmt_ok in Ei. destruct (negb _); [done|]. destruct (proxy_routes (data c3) !! trim key) eqn:Ek; [by injection Ei as <- ->|].
  cbv zeta in Ei. destruct (_ && _) in Ei; [|done]. by injection Ei as <- <-.
Qed.

(** The row of a record that is not changed by trimming. *)
Lemma row_of_record record : validProxyRouteKey (pr_RouteKey record) = true ->
  trim (pr_OwnerID record) = pr_OwnerID record -> trim (pr_SessionID record) = pr_SessionID record ->
  trim (pr_ScopedSessionID record) = pr_ScopedSessionID record -> trim (pr_WorkerID record) = pr_WorkerID record ->
  normalizeProxyRoute (proxyRouteRecordToStore record) = proxyRouteRecordToStore record.
Proof. intros Hk H1 H2 H3 H4. unfold proxyRouteRecordToStore. cbn. by rewrite (key_trimmed _ Hk), H1, H2, H3, H4. Qed.

Lemma create_loop_stored n random owner sid port target now d : forall w,
  random_ok random -> named owner sid port -> target_ok owner sid target -> svc_db (w_svc w) = Some d ->
  match create_loop h n random owner sid port target now w with
  | (Ok record, w') => svc_db (w_svc w') = Some (with_proxy_routes <[pr_RouteKey record := (proxyRouteRecordToStore record).2]> d) /\
      row_named (pr_RouteKey record) (proxyRouteRecordToStore record).2 /\ proxy_routes d !! pr_RouteKey record = None
  | _ => True
  end.
Proof.
  induction n as [|n IH]; intros w Hrand Hn Ht Hd; cbn [create_loop]; [done|].
  destruct (generateProxyRouteKey (random n) _) as [key|e] eqn:Eg; [|done]. apply (generated_key _ _ _ _ Hrand) in Eg.
  case_bool_decide as Ek; [by apply IH|]. set (record := mkProxyRecord key _ _ _ _ _ _ _).
  pose proof Hn as (Ho1&Ho2&Hs1&Hs2&Hs3&Hport). pose proof Ht as [Hsc Hwk].
  pose proof (row_of_record record Eg Ho1 Hs1 ltac:(cbn; rewrite Hsc; apply trim_scope; congruence) Hwk) as Hrow.
  destruct (run_store _ w) as [[[]|e] w1] eqn:Eq; [| |done].
  - unfold proxyRouteRecordToStore in Eq. apply (insert_row_db _ _ _ _ _ _ Hd) in Eq as (Hv&Hd1&Hfresh).
    fold (proxyRouteRecordToStore record) in Hv, Hd1. rewrite Hrow in Hv, Hd1. cbn [pr_RouteKey record] in *. rewrite (key_trimmed _ Eg) in *.
    split_and!; [done| |by apply Hfresh]. unfold validProxyRoute in Hv. cbn in Hv. bool_prop. unfold row_named. cbn. split_and!; done || lia.
  - apply IH; try done. unfold proxyRouteRecordToStore in Eq. by apply (insert_row_db _ _ _ _ _ _ Hd) in Eq as (_&->&_).
Qed.

Lemma create_stored random owner sid port target now w record w' d :
  random_ok random -> named owner sid port -> target_ok owner sid target -> svc_db (w_svc w) = Some d ->
  createRoute h random owner sid port target now w = (inl record, w') ->
  svc_db (w_svc w') = Some (with_proxy_routes <[pr_RouteKey record := (proxyRouteRecordToStore record).2]> d) /\
  row_named (pr_RouteKey record) (proxyRouteRecordToStore record).2.
Proof.
  intros Hrand Hn Ht Hd. unfold createRoute. destruct (_ <=? _); [done|]. destruct (_ <=? _); [done|].
  pose proof (create_loop_stored proxyRouteCreateAttempts random owner sid port target now d
    (with_proxy_table (pruneLocked now (w_routes w)) w) Hrand Hn Ht Hd) as H.
  destruct (create_loop _ _ _ _ _ _ _ _ _) as [[r|e] w1]; [|done]. intros [= <- <-]. by destruct H as (?&?&_).
Qed.

Lemma create_record random owner sid port target now w record w' :
  createRoute h random owner sid port target now w = (inl record, w') -> exists key, record = new_record h key owner sid port target now.
Proof.
  unfold createRoute. destruct (_ <=? _); [done|]. destruct (_ <=? _); [done|]. set (w1 := with_proxy_table _ w). clearbody w1.
  assert (forall n w, match create_loop h n random owner sid port target now w with
    | (Ok r, _) => exists key, r = new_record h key owner sid port target now | _ => True end) as H.
  { clear. induction n as [|n IH]; intros w; cbn [create_loop]; [done|]. destruct (generateProxyRouteKey _ _) as [key|]; [|done].
    case_bool_decide; [apply IH|]. destruct (run_store _ w) as [[[]|] w1]; [by exists key|apply IH|done]. }
  specialize (H proxyRouteCreateAttempts w1). destruct (create_loop _ _ _ _ _ _ _ _ w1) as [[r|] w2]; [|done]. by intros [= <- _].
Qed.

End stored.

(** ** A route that is created is served *)
Section serving.
Context (h : ProxyRouteHandler).

Lemma Create_created env c body w resp w' : env_ok h env -> world_ok h w ->
  Create h env c body w = (mkProxyReply 201 (PxRoute resp), w') ->
  exists record, resp = routeResponse h record /\ world_ok h w' /\ w_routes w' !! pr_RouteKey record = Some record /\
    proxyRouteOwnerID c = Some (pr_OwnerID record) /\ pr_ExpiresAt record = time_add (pr_CreatedAt record) (ph_routeTTL h).
Proof.
  intros He Hw H. pose proof (Create_ok h env c body w He Hw) as Hw'. rewrite H in Hw'. cbn [snd] in Hw'. destruct He as (Ho&Hr&Hrand).
  unfold Create in H. destruct (proxyRouteOwnerID c) as [owner|] eqn:Ec; [|done].
  destruct (createProxyRouteRequest body) as [[raw port]|] eqn:Eb; [|done]. case_bool_decide as Hne; [done|].
  destruct (256 <? _) eqn:El; [done|]. destruct (_ || _) eqn:Ep in H; [done|].
  pose proof (run_svc_ok h (ResolveProxySession (px_resolve env) owner (trim raw) (px_now env 0%nat)) w
    (fun s => steady_resolve _ _ _ _ s Hr) Hw) as H1. unfold run_svc in *.
  destruct (ResolveProxySession _ _ _ _ (w_svc w)) as [[target|e] s1] eqn:Et; cbn [snd] in *.
  2:{ unfold resolve_failure in H. repeat case_match; done. }
  apply (resolve_target _ _ _ _ _ _ _ (wo_svc _ _ Hw)) in Et. set (now := if _ <? _ then _ else _) in H.
  pose proof (create_ok h (px_random env) owner (trim raw) port target now (px_others env (settle (with_svc s1 w)))
    Hrand (Ho _ H1) (named_of _ _ _ _ _ Ec Eb Hne El Ep) Et) as H2.
  destruct (createRoute _ _ _ _ _ _ _ _) as [[record|e] w2].
  2:{ unfold create_failure in H. repeat case_match; done. }
  destruct H2 as (_&_&key&Hrec&_&_&Htab&_). injection H as <- <-. exists record. split_and!; [done|done| |by rewrite Hrec|by rewrite Hrec].
  rewrite Htab, Hrec. cbn. by rewrite lookup_insert_eq.
Qed.

(** A route to a live session of a connected worker. *)
Record live (w : World) (r : proxyRouteRecord) (x : activeSession) (now : time) : Prop := {
  lv_enabled : proxyEnabled (cfg_proxy (svc_config (w_svc w))) = true;
  lv_now : is_zero now = false /\ 0 < unix_milli now;
  lv_expires : now < pr_ExpiresAt r /\ is_i64 (unix_milli (pr_ExpiresAt r)) = true;
  lv_session : exists t, terminalSessionToNode (svc_routes (w_svc w)) !! pr_ScopedSessionID r = Some t /\ ReservationID t = 0 /\
    RecoveryState t = terminalSessionRecoveryReady /\ unix_milli now < LeaseExpiresUnixMs t;
  lv_worker : getSession (pr_WorkerID r) (w_svc w) = Some x /\ hasCapability taskCapabilityTerminalExec x = true /\
    proxyDirect x = "" /\ trim (proxyEndpoint x) <> "" /\ routeTokenKey x <> "" }.

Lemma worker_serves env sid now s t : routes_ok (svc_routes s) -> trim sid = sid -> sid <> "" -> is_zero now = false -> 0 < unix_milli now ->
  terminalSessionToNode (svc_routes s) !! sid = Some t -> ReservationID t = 0 -> RecoveryState t = terminalSessionRecoveryReady ->
  unix_milli now < LeaseExpiresUnixMs t ->
  exists rt, proxyTerminalSessionWorker env sid now s = (Some (NodeID t), with_svc_routes rt s).
Proof.
  intros Hok Hs Hne Hz Hpos Ht Hid Hready Hlease. unfold proxyTerminalSessionWorker, routeNowUnixMs. rewrite Hz. set (ms := unix_milli now) in *.
  set (rt := maybePruneTerminalSessionRoutes ms (svc_routes s)).
  assert (terminalSessionToNode rt !! sid = Some t) as Ht' by (apply active_not_pruned; [lia|done|done]).
  unfold run_routes, terminalSessionRouteSnapshot. cbn [svc_routes with_svc_routes]. fold rt. rewrite Hs, bool_decide_false, Ht' by done.
  rewrite (proj2 (Z.leb_gt _ _)) by done. rewrite andb_false_r, Hid, Hready. cbn [negb Z.eqb orb]. rewrite bool_decide_true by done.
  destruct (ok_route _ Hok _ _ Ht) as (_&_&Htr&Hnne&_). rewrite Htr, bool_decide_false by done. by exists rt.
Qed.

Lemma authorize_serves env w k r x now : world_ok h w -> record_ok (terminalSessionToNode (svc_routes (w_svc w))) k r -> live w r x now ->
  (forall s, re_between env s = s) ->
  exists token s', AuthorizeProxyRoute env (pr_WorkerID r) (pr_ScopedSessionID r) (pr_Port r) (pr_ExpiresAt r) now (w_svc w) =
    (Ok (mkAuthorization ("http://" +:+ proxyEndpoint x) "" token ""), s') /\
    ProxyToken.Sign (routeTokenKey x) (route_claims (pr_WorkerID r) (pr_ScopedSessionID r) (pr_Port r) (pr_ExpiresAt r) now) = Ok token.
Proof.
  intros Hw (_&_&Ho&Hone&Hs&Hsne&_&Hport&Hsc&t&Htab&Hnode) [Hen [Hz Hpos] [Hexp Hi] (t'&Ht'&Hid&Hready&Hlease) (Hx&Hexec&Hdir&Hep&Hkey)] Hb.
  rewrite Htab in Ht'. injection Ht' as <-. destruct (ok_route _ (wo_svc _ _ Hw) _ _ Htab) as (Hst&Hsn&Hnt&Hnn&_). rewrite Hnode in Hnt, Hnn.
  destruct (worker_serves env _ now _ t (wo_svc _ _ Hw) Hst Hsn Hz Hpos Htab Hid Hready Hlease) as [rt Ert]. rewrite Hnode in Ert.
  assert (exists token, ProxyToken.Sign (routeTokenKey x) (route_claims (pr_WorkerID r) (pr_ScopedSessionID r) (pr_Port r) (pr_ExpiresAt r) now) = Ok token)
    as [token Etok].
  { unfold ProxyToken.Sign. rewrite bool_decide_false by done. unfold ProxyToken.validateClaims, route_claims.
    cbn [ProxyToken.WorkerID ProxyToken.SessionID ProxyToken.Port ProxyToken.ExpiresAtUnixMs].
    rewrite Hnt, Hst, !bool_decide_false by done. rewrite (proj2 (Z.ltb_ge _ _)), (proj2 (Z.ltb_ge _ _)) by lia. cbn [orb].
    assert (unix_milli now <= unix_milli (Z.min (pr_ExpiresAt r) (time_add now proxyRouteTokenTTL))) as Hm.
    { apply unix_milli_mono. unfold time_add, proxyRouteTokenTTL, second. lia. }
    rewrite (proj2 (Z.leb_gt _ _)) by lia. eauto. }
  exists token, (with_svc_routes rt (w_svc w)). split; [|done]. unfold AuthorizeProxyRoute. rewrite Hen, Hnt, Hst, Hz. cbn [negb].
  rewrite !bool_decide_false by done. rewrite (proj2 (Z.ltb_ge _ _)), (proj2 (Z.ltb_ge _ _)), (proj2 (Z.leb_gt _ _)) by lia. cbn [orb].
  rewrite Ert, bool_decide_true, Hb by done. cbn [negb]. change (getSession (pr_WorkerID r) (with_svc_routes rt (w_svc w))) with (getSession (pr_WorkerID r) (w_svc w)).
  rewrite Hx. unfold supports_proxy. rewrite Hexec, Hdir. rewrite !(bool_decide_false _ Hep), !(bool_decide_false _ Hkey). cbn [andb orb negb].
  rewrite bool_decide_true by done. cbn [negb]. unfold route_claims in Etok.
  replace (if pr_ExpiresAt r <? time_add now proxyRouteTokenTTL then pr_ExpiresAt r else time_add now proxyRouteTokenTTL)
    with (Z.min (pr_ExpiresAt r) (time_add now proxyRouteTokenTTL)) by (destruct (_ <? _) eqn:E; lia).
  by rewrite Etok.
Qed.

(** The front proxy is sent to the worker with a token. *)
Lemma Resolve_serves env tok host w k r x : world_ok h w -> (forall w, px_others env w = w) -> (forall s, re_between (px_resolve env) s = s) ->
  trim tok = ph_internalToken h -> routeKeyFromHost h host = Some k -> w_routes w !! k = Some r -> px_now env 0%nat < pr_ExpiresAt r ->
  live w r x (px_now env 1%nat) ->
  exists token, (Resolve h env tok host w).1 = mkProxyReply 204 (PxHeaders
      [("X-Onlyboxes-Upstream", "http://" +:+ proxyEndpoint x); ("X-Onlyboxes-Upstream-Host", trim host); (ProxyToken.HeaderName, token)]) /\
    ProxyToken.Sign (routeTokenKey x) (route_claims (pr_WorkerID r) (pr_ScopedSessionID r) (pr_Port r) (pr_ExpiresAt r) (px_now env 1%nat)) = Ok token.
Proof.
  intros Hw Hoth Hbet Htok Hhost Hk Hexp Hlive. unfold Resolve, secureStringEqual. rewrite Htok, bool_decide_true by done. cbn [negb]. rewrite Hhost.
  unfold getRoute. set (m := pruneLocked _ _). assert (m !! k = Some r) as Hm.
  { unfold m, pruneLocked. apply lookup_keep_Some. split; [done|]. by apply Z.leb_gt. }
  rewrite Hm, Hoth. set (w1 := with_proxy_table m w). assert (world_ok h w1) as Hw1 by by apply world_prune.
  pose proof (wo_record _ _ Hw1 _ _ Hm) as Hrec. destruct Hlive as [A B C D E].
  destruct (authorize_serves (px_resolve env) w1 k r x _ Hw1 Hrec ltac:(by split) Hbet) as (token&s'&Ha&Hsig).
  exists token. split; [|done]. unfold run_svc. rewrite Ha. cbn [fst]. unfold upstream_headers. cbn [pa_Upstream pa_UpstreamHost pa_Token pa_TrafficToken].
  assert (token <> "") as Hne by (apply ProxyToken.Sign_shape in Hsig as (_&_&->); done).
  rewrite (bool_decide_false _ Hne). done.
Qed.

End serving.

End ProxyProps.
Export ProxyProps.
