(* ===== verification/ProxyClaims.v ===== *)
(** What the proxy routes guarantee: they live and die with their terminal
    sessions and stay within their limits, lead nowhere else than to their
    owner's session, are served once created and after a restart, and accounts
    touch only their own; route tokens are accepted exactly when the console
    signed them; workers are reached only inside the allowed networks and
    domains. *)
From S2P Require Import Prelude.
From S2P Require Import Json.
From S2P Require Import Net.
From S2P Require Import Sql.
From S2P Require Import Proto.
From S2P Require Import Registry.
From S2P Require Import RouteStore.
From S2P Require Import OwnerScope.
From S2P Require Import AuthText.
From S2P Require Import JsonText.
From S2P Require Import Sha256.
From S2P Require Import ProxyToken.
From S2P Require Import Url.
From S2P Require Import TerminalRoutes.
From S2P Require Import TerminalRoutesProps.
From S2P Require Import SessionRuntime.
From S2P Require Import Service.
From S2P Require Import ProxySession.
From S2P Require Import Dispatch.
From S2P Require Import DispatchProps.
From S2P Require Import Connect.
From S2P Require Import ConnectProps.
From S2P Require Import Accounts.
From S2P Require Import Auth.
From S2P Require Import Rest.
From S2P Require Import RestProps.
From S2P Require Import Proxy.
From S2P Require Import ProxyProps.

Module ProxyClaims.

(** C11: In every state reached by requests, timers, connections and operations
    of the route table, each proxy route is stored under its own valid key,
    names its owner's session, and that terminal session is routed to the
    worker the route was made for: removing or losing the session removes the
    route. No account and no session has more routes than configured. *)
Theorem proxy_routes_follow_their_sessions h ops w :
  world_ok h w -> Forall (op_ok h) ops ->
  let w' := run_proxy_ops h ops w in
  (forall k r, w_routes w' !! k = Some r ->
     pr_RouteKey r = k /\ validProxyRouteKey k = true /\
     pr_ScopedSessionID r = scopeTerminalSessionID (pr_OwnerID r) (pr_SessionID r) /\ 1 <= pr_Port r <= 65535 /\
     exists t, terminalSessionToNode (svc_routes (w_svc w')) !! pr_ScopedSessionID r = Some t /\ NodeID t = pr_WorkerID r) /\
  (forall owner, owner_count owner (w_routes w') <= ph_maxPerAccount h) /\
  (forall owner sid, session_count owner sid (w_routes w') <= ph_maxPerSession h).
Proof.
  intros Hw Hops. destruct (run_proxy_ops_ok h ops w Hops Hw) as [_ _ Hrec Hlim]. cbv zeta. split; [|exact Hlim].
  intros k r Hk. destruct (Hrec k r Hk) as (?&?&_&_&_&_&_&?&?&?). done.
Qed.

(** C12: A request the front proxy is let through for came with the internal
    token, on the host of an unexpired route; at that moment the session the
    route's owner named was confirmed, ready and held by the route's worker,
    and the request is sent to that worker with a token for that session and
    port alone, which expires with the route or within fifteen seconds, or to
    an allowed direct address. *)
Theorem proxied_requests_reach_the_owners_session h env tok host w reply w' :
  world_ok h w -> env_ok h env -> Resolve h env tok host w = (reply, w') -> px_status reply = 204 ->
  Sum256 (trim tok) = Sum256 (ph_internalToken h) /\
  exists key r a s', routeKeyFromHost h host = Some key /\ w_routes w !! key = Some r /\ px_now env 0%nat < pr_ExpiresAt r /\
    pr_ScopedSessionID r = scopeTerminalSessionID (pr_OwnerID r) (pr_SessionID r) /\
    reply = mkProxyReply 204 (PxHeaders (upstream_headers a host)) /\
    authorized (px_resolve env) (pr_WorkerID r) (pr_ScopedSessionID r) (pr_Port r) (pr_ExpiresAt r) (px_now env 1%nat)
      (w_svc (px_others env (with_proxy_table (pruneLocked (px_now env 0%nat) (w_routes w)) w))) a s'.
Proof.
  intros Hw (Hoth&Hres&_) H H204. unfold Resolve, secureStringEqual in H. case_bool_decide as Etok; cbn [negb] in H; [|by injection H as <- _].
  split; [done|]. destruct (routeKeyFromHost h host) as [key|] eqn:Ehost; [|by injection H as <- _].
  unfold getRoute in H. set (m := pruneLocked _ _) in *. destruct (m !! key) as [r|] eqn:Em; [|by injection H as <- _].
  set (w1 := with_proxy_table m w) in *. assert (world_ok h w1) as Hw1 by by apply world_prune.
  destruct (wo_record _ _ Hw1 _ _ Em) as (_&_&Ho&Hone&Hs&Hsne&_&_&Hsc&t&Htab&Hnode).
  destruct (ok_route _ (wo_svc _ _ Hw1) _ _ Htab) as (Hst&_&Hnt&_). rewrite Hnode in Hnt.
  unfold run_svc in H. destruct (AuthorizeProxyRoute _ _ _ _ _ _ _) as [[a|e] s'] eqn:Ea.
  2:{ injection H as <- _. cbn in H204. by destruct (_ || _). }
  injection H as <- _. exists key, r, a, s'. apply lookup_keep_Some in Em as [Hk He]. apply Z.leb_gt in He.
  split_and!; [done|done|done|done|done|]. apply authorize_spec in Ea; [exact Ea|done|apply (wo_svc h), Hoth, Hw1|done|done].
Qed.

(** A route that was created is served: a request to the host of the URL
    the account was given, with or without a port, is sent to the endpoint of
    the worker that holds the session, with a token that the worker verifies
    with the key of its own secret, as naming exactly this session and port,
    until the route expires or fifteen seconds have passed. *)
Theorem created_route_is_served h env env' c body w w' resp tok secret x port :
  world_ok h w -> env_ok h env -> (exists value, normalizeProxyBaseDomain value = Ok (ph_baseDomain h)) ->
  Create h env c body w = (mkProxyReply 201 (PxRoute resp), w') ->
  (forall w, px_others env' w = w) -> (forall s, re_between (px_resolve env') s = s) ->
  trim tok = ph_internalToken h -> forall_char json_digit port = true ->
  px_now env' 0%nat < rr_ExpiresAt resp -> ProxyToken.DeriveKey secret = Ok (routeTokenKey x) ->
  (forall r, w_routes w' !! rr_RouteKey resp = Some r -> live w' r x (px_now env' 1%nat) /\
     utf8_ok (pr_WorkerID r) = true /\ utf8_ok (pr_ScopedSessionID r) = true /\
     (String.length (pr_WorkerID r) + String.length (pr_ScopedSessionID r) <= ProxyToken.maxTokenIDs)%nat) ->
  exists r token, w_routes w' !! rr_RouteKey resp = Some r /\ resp = routeResponse h r /\
    forall host, host = rr_RouteKey resp +:+ "." +:+ ph_baseDomain h \/ host = rr_RouteKey resp +:+ "." +:+ ph_baseDomain h +:+ ":" +:+ port ->
    (Resolve h env' tok host w').1 = mkProxyReply 204 (PxHeaders
      [("X-Onlyboxes-Upstream", "http://" +:+ proxyEndpoint x); ("X-Onlyboxes-Upstream-Host", trim host); (ProxyToken.HeaderName, token)]) /\
    forall wall at_, is_zero at_ = false ->
      let claims := route_claims (pr_WorkerID r) (pr_ScopedSessionID r) (pr_Port r) (pr_ExpiresAt r) (px_now env' 1%nat) in
      ProxyToken.Verify wall (routeTokenKey x) token at_ =
        if ProxyToken.ExpiresAtUnixMs claims <=? unix_milli at_ then Err (Sentinel ErrExpiredToken) else Ok claims.
Proof.
  intros Hw He Hbase Hc Hoth Hbet Htok Hport Hexp Hkey Hcond.
  destruct (Create_created h env c body w resp w' He Hw Hc) as (r&->&Hw'&Hr&_&_). cbn [routeResponse rr_RouteKey rr_ExpiresAt] in *.
  destruct (Hcond r Hr) as (Hlive&Hu1&Hu2&Hlen). pose proof (wo_record _ _ Hw' _ _ Hr) as (_&Hvk&_).
  assert (routeKeyFromHost h (pr_RouteKey r +:+ "." +:+ ph_baseDomain h) = Some (pr_RouteKey r) /\
    routeKeyFromHost h (pr_RouteKey r +:+ "." +:+ ph_baseDomain h +:+ ":" +:+ port) = Some (pr_RouteKey r)) as [Hh1 Hh2] by by apply route_host_key.
  destruct (Resolve_serves h env' tok _ w' _ r x Hw' Hoth Hbet Htok Hh1 Hr Hexp Hlive) as (token&H1&Hsig).
  exists r, token. split_and!; [done..|]. intros host Hhost. split.
  - destruct Hhost as [->| ->]; [done|].
    destruct (Resolve_serves h env' tok _ w' _ r x Hw' Hoth Hbet Htok Hh2 Hr Hexp Hlive) as (token'&H2&Hsig'). congruence.
  - intros wall at_ Hz. cbv zeta. set (claims := route_claims _ _ _ _ _) in *. assert (is_i64 (ProxyToken.ExpiresAtUnixMs claims) = true) as Hi.
    { destruct Hlive as [_ [_ Hpos] [Hne Hi] _ _]. unfold claims, route_claims. cbn [ProxyToken.ExpiresAtUnixMs].
      assert (unix_milli (Z.min (pr_ExpiresAt r) (time_add (px_now env' 1%nat) proxyRouteTokenTTL)) <= unix_milli (pr_ExpiresAt r)) by (apply unix_milli_mono; lia).
      assert (unix_milli (px_now env' 1%nat) <= unix_milli (Z.min (pr_ExpiresAt r) (time_add (px_now env' 1%nat) proxyRouteTokenTTL)))
        by (apply unix_milli_mono; unfold time_add, proxyRouteTokenTTL, second; lia).
      unfold is_i64 in *. lia. }
    rewrite (ProxyToken.Verify_Sign wall (routeTokenKey x) claims token at_ Hsig Hu1 Hu2 Hi), Hz; [done|].
    by eapply ProxyToken.Sign_length.
Qed.

(** Routes survive a restart of the console. After a route was created, a
    console that starts on the same database restores this route and every
    other stored one that has not expired, with the same key, owner, session,
    worker and port and with times cut to milliseconds, and no other route;
    only a failing statement stops it, and then no route is served. *)
Theorem proxy_routes_survive_a_restart h random owner sid port target now w record w' d wall later w2 :
  random_ok random -> named owner sid port -> target_ok owner sid target -> svc_db (w_svc w) = Some d -> rows_named d ->
  createRoute h random owner sid port target now w = (inl record, w') ->
  svc_db (w_svc w2) = svc_db (w_svc w') -> w_routes w2 = ∅ -> is_zero later = false ->
  unix_milli later < unix_milli (pr_ExpiresAt record) ->
  match Restore wall later w2 with
  | (Ok _, w3) =>
      w_routes w3 !! pr_RouteKey record = Some (mkProxyRecord (pr_RouteKey record) owner sid (scopeTerminalSessionID owner sid) port
        (pt_WorkerID target) (of_unix_milli (unix_milli now)) (of_unix_milli (unix_milli (time_add now (ph_routeTTL h))))) /\
      forall k, k <> pr_RouteKey record -> w_routes w3 !! k =
        proxy_routes d !! k ≫= fun p => if p_ExpiresAtUnixMs p <=? unix_milli later then None else Some (restored k p)
  | (Err _, w3) => w_routes w3 = ∅ /\ exists c e c',
      RouteStore.DeleteExpiredProxyRoutes (unix_milli later) c = (Err e, c') \/ LoadActiveProxyRoutes (unix_milli later) c = (Err e, c')
  end.
Proof.
  intros Hrand Hn Ht Hd Hrows Hc Hdb Hempty Hz Hlive.
  pose proof (create_record h _ _ _ _ _ _ _ _ _ Hc) as (key&Hrec). destruct (create_stored h _ _ _ _ _ _ _ _ _ d Hrand Hn Ht Hd Hc) as [Hd' Hrow].
  rewrite Hd' in Hdb. set (d' := with_proxy_routes _ d) in Hdb.
  assert (rows_named d') as Hrows'.
  { intros k p. cbn. rewrite lookup_insert. case_decide as E; [subst k; by intros [= <-]|apply Hrows]. }
  pose proof (Restore_spec wall later w2 d' Hz Hdb Hrows' Hempty) as H. destruct (Restore wall later w2) as [[[]|e] w3].
  - destruct H as (Htab&_). split; [|intros k Hk; rewrite Htab; cbn; by rewrite lookup_insert_ne].
    rewrite Htab. cbn. rewrite lookup_insert_eq. cbn. rewrite (proj2 (Z.leb_gt _ _)) by done. subst record. cbn. by rewrite (proj1 Ht).
  - destruct H as (He&pre&e'&_&c&r&c'&->&[H|(r'&->&H)]); (split; [done|]); exists c, e', c'; auto.
Qed.

(** Accounts touch only their own proxy routes. An ordinary account is
    listed only its own live routes, whatever it asks for; a deletion removes
    one live route, of the caller, under the key it named and answers 204, or
    it removes nothing; and a route is created for the caller. *)
Theorem accounts_touch_only_their_proxy_routes h env c account r w :
  world_ok h w -> requestSessionAccountFromGin c = Some account ->
  let owner := trim (sa_AccountID account) in
  (sa_IsAdmin account = false -> forall items total page size, (List h env c r w).1 = mkProxyReply 200 (PxRoutes items total page size) ->
     forall item, item ∈ items -> rr_AccountID item = owner /\
       exists record, w_routes w !! rr_RouteKey item = Some record /\ item = routeResponse h record /\ px_now env 0%nat < pr_ExpiresAt record) /\
  (let '(reply, w') := Delete env c r w in
     let key := to_lower (trim (rq_param r "route_key")) in
     (px_status reply = 204 -> exists record, w_routes w !! key = Some record /\ pr_OwnerID record = owner /\ w_routes w' !! key = None) /\
     (forall k record, w_routes w !! k = Some record -> px_now env 0%nat < pr_ExpiresAt record ->
        w_routes w' !! k = Some record \/ (px_status reply = 204 /\ k = key))) /\
  (env_ok h env -> forall body resp w', Create h env c body w = (mkProxyReply 201 (PxRoute resp), w') -> rr_AccountID resp = owner).
Proof.
  intros Hw Ha. cbv zeta. split_and!.
  - intros Hadm items total page size Hl item Hin. unfold List in Hl. rewrite Ha, Hadm in Hl. cbn [negb andb] in Hl.
    case_bool_decide as Hne; [done|]. destruct (_ && _) in Hl; [done|]. do 2 (destruct (parsePositiveIntQuery _ _ _); [|done]).
    destruct (_ <? _); [done|]. unfold listRoutes in Hl. cbv zeta in Hl. destruct (session_page _ _ _) as [views|] eqn:Ep; cbn [fst] in Hl; [|done].
    injection Hl as <- _ _ _. apply list_elem_of_fmap in Hin as (record&->&Hin). eapply session_page_elem in Hin; [|done].
    apply elem_of_order_by, list_elem_of_In, filter_In in Hin as [Hin Ho]. rewrite bool_decide_false in Ho by done. cbn [orb] in Ho.
    apply bool_decide_eq_true in Ho. split; [done|]. apply list_elem_of_In, list_elem_of_fmap in Hin as ([k x]&->&Hin).
    apply elem_of_map_to_list, lookup_keep_Some in Hin as [Hk He]. apply Z.leb_gt in He. exists x. split_and!; [|done|done].
    destruct (wo_record _ _ Hw _ _ Hk) as (Ek&_). cbn. by rewrite Ek.
  - pose proof (Delete_cases h env c r w Hw) as H. unfold proxyRouteOwnerID in H. rewrite Ha in H.
    destruct (Delete env c r w) as [reply w']. destruct H as [[Hs [Hm|Hm]]|(record&Hs&Ho&Hk&Hm)].
    + split; [done|]. intros k rec Hk He. left. by rewrite Hm.
    + split; [done|]. intros k rec Hk He. left. rewrite Hm. apply lookup_keep_Some. split; [done|by apply Z.leb_gt].
    + apply lookup_keep_Some in Hk as [Hk _]. case_bool_decide; [done|]. injection Ho as Ho. rewrite Hm. split.
      * intros _. exists record. split_and!; [done|by rewrite <- Ho|apply lookup_delete_eq].
      * intros k rec Hr He. destruct (decide (k = to_lower (trim (rq_param r "route_key")))) as [->|Hne]; [right; by rewrite Hs|left].
        rewrite lookup_delete_ne by done. apply lookup_keep_Some. split; [done|by apply Z.leb_gt].
  - intros He body resp w' Hc. destruct (Create_created h env c body w resp w' He Hw Hc) as (record&->&_&_&Ho&_). cbn.
    unfold proxyRouteOwnerID in Ho. rewrite Ha in Ho. case_bool_decide; [done|]. by injection Ho.
Qed.

(** Requests leave the console only for places it allows. The endpoint of
    a connected worker is a unicast address of an allowed network with an
    allowed port, and its route tokens are signed with the key of its own
    secret; direct mode needs the capability and excludes an endpoint; and a
    direct address is an https origin without credentials, port, path or query
    whose host name ends in a dot and an allowed domain. *)
Theorem worker_proxy_targets_are_allowed settings node sid hello at_ secret y raw u :
  configureSessionProxy settings (newActiveSessionAt node sid hello at_) hello secret = Ok y ->
  validateDirectProxyURL raw (proxyAllowedDirectDomains settings) = Ok u ->
  (proxyEndpoint y <> "" -> endpoint_allowed settings (proxyEndpoint y) /\ ProxyToken.DeriveKey secret = Ok (routeTokenKey y) /\ proxyDirect y = "") /\
  (proxyDirect y <> "" -> proxyDirect y = ProxyToken.ProxyDirectE2B /\ hasCapability taskCapabilityTerminalProxy y = true) /\
  u_Scheme u = "https" /\ u_User u = false /\ URLPort u = "" /\ u_RawQuery u = "" /\ u_Fragment u = "" /\ (u_Path u = "" \/ u_Path u = "/") /\
  exists domain x, domain ∈ proxyAllowedDirectDomains settings /\ trim_suffix "." (to_lower (trim domain)) <> "" /\
    to_lower (Hostname u) = x +:+ "." +:+ trim_suffix "." (to_lower (trim domain)).
Proof.
  intros Hy Hu. destruct (configured_modes settings _ _ _ _ Hy eq_refl eq_refl) as [H1 H2]. split; [done|]. split; [done|].
  unfold validateDirectProxyURL in Hu. destruct (Parse raw) as [p|]; [|done]. destruct (_ || _) eqn:Eg in Hu; [done|]. bool_prop.
  destruct (_ && _) eqn:Ep in Hu; [done|]. cbv zeta in Hu. destruct (existsb _ _) eqn:Ed in Hu; cbn [negb] in Hu; [|done]. injection Hu as <-.
  split_and!; [by bool_prop..| |].
  - apply andb_false_iff in Ep as [Ep|Ep]; bool_prop; auto.
  - apply existsb_elem in Ed as (domain&Hd&Ha). unfold domain_allows in Ha. bool_prop.
    match goal with H : has_suffix _ _ = true |- _ => apply has_suffix_inv in H as [x Hx] end. by exists domain, x.
Qed.

(** An address with a zone passes the test of the domain. *)
Example direct_target_zone :
  match validateDirectProxyURL "https://[2001:db8::1%25.e2b.app]" ["e2b.app"] with
  | Ok u => Hostname u = "2001:db8::1%.e2b.app" /\ URLPort u = ""
  | Err _ => False
  end.
Proof. by vm_compute. Qed.

(** C27: A token the console signs is accepted by the worker with the same key
    until it expires, with exactly the claims that were signed; and whatever a
    worker accepts carries the MAC of its payload under the worker's key, names
    a worker, a session and a port, and has not expired. *)
Theorem route_tokens_are_authentic wall key now :
  (forall claims token, ProxyToken.Sign key claims = Ok token ->
     utf8_ok (ProxyToken.WorkerID claims) = true -> utf8_ok (ProxyToken.SessionID claims) = true ->
     is_i64 (ProxyToken.ExpiresAtUnixMs claims) = true ->
     (String.length (ProxyToken.WorkerID claims) + String.length (ProxyToken.SessionID claims) <= ProxyToken.maxTokenIDs)%nat ->
     ProxyToken.Verify wall key token now =
       if ProxyToken.ExpiresAtUnixMs claims <=? unix_milli (if is_zero now then wall else now)
       then Err (Sentinel ErrExpiredToken) else Ok claims) /\
  (forall token claims, ProxyToken.Verify wall key token now = Ok claims ->
     trim (ProxyToken.WorkerID claims) <> "" /\ trim (ProxyToken.SessionID claims) <> "" /\ 1 <= ProxyToken.Port claims <= 65535 /\
     unix_milli (if is_zero now then wall else now) < ProxyToken.ExpiresAtUnixMs claims /\
     exists payload sig text, trim token = ProxyToken.Prefix +:+ payload +:+ String "." sig /\
       raw_url_decode sig = Some (hmac key (ProxyToken.Prefix +:+ payload)) /\
       raw_url_decode payload = Some text /\ ProxyToken.unmarshal_claims (read_json text) = Some claims).
Proof.
  split.
  - intros claims token Hs Hw Hsid Hi Hl. apply ProxyToken.Verify_Sign; try done. by eapply ProxyToken.Sign_length.
  - intros token claims (_&Hv&He&Hp)%ProxyToken.Verify_sound. destruct (ProxyToken.valid_claims_bounds _ Hv).
    unfold ProxyToken.validateClaims in Hv. case_bool_decide; [done|]. case_bool_decide; [done|]. split_and!; done || lia.
Qed.

(** ** Witnesses *)

(** One worker holds the session s1 of o1 and advertises an endpoint. *)
Definition demo_proxy_db : DB :=
  mkDB {[ "w1" := mkWorkerNode "sid" false "" "docker" "1" 0 1000 ]} {[ ("w1", "terminalExec") := 2 ]} ∅ ∅ ∅ ∅ ∅
    {[ "o1" := mkAccount "Bob" "bob" "h" "bcrypt" false 0 0 ]} ∅ ∅.
Definition demo_proxy_table : Routes Conn :=
  run_route_ops [OpReserve demo_tid "w1" 1000; OpCommit demo_tid "w1" 1 50000 1500]
    (RestoreTerminalSessionRoutes 1000 (fresh_routes (30 * minute) (Some (mkConn demo_proxy_db [])) (Some []))).2.
Definition demo_proxy_settings : ProxySettings := mkProxySettings true [mkPrefix (V4 (10 * 2 ^ 24)) 8] [8091] ["e2b.app"].
Definition demo_proxy_hello : ConnectHello :=
  mkHello "w1" "" "docker" {[ ProxyToken.ProxyEndpointLabel := "10.1.2.3:8091" ]} "1" [Some (mkCapability "terminalExec" 2)] "secret" None.
Definition demo_proxy_key : string := match ProxyToken.DeriveKey "secret" with Ok k => k | Err _ => "" end.
Definition demo_proxy_session : activeSession :=
  match configureSessionProxy demo_proxy_settings (newActiveSessionAt "w1" "sid" demo_proxy_hello 0) demo_proxy_hello "secret" with
  | Ok x => x | Err _ => newActiveSessionAt "w1" "sid" demo_proxy_hello 0 end.
Definition demo_proxy_service : RegistryService :=
  with_svc_sessions {[ "w1" := "sid" ]} {[ "sid" := demo_proxy_session ]}
    (with_svc_routes demo_proxy_table (ConfigureProxy true [mkPrefix (V4 (10 * 2 ^ 24)) 8] [8091] ["e2b.app"] (NewRegistryService None ∅ 5 60))).
Definition demo_proxy_world : World := mkWorld demo_proxy_service ∅.
Definition demo_handler : ProxyRouteHandler := mkProxyHandler "boxes.example.com" "https" "internal" hour 26 2 1.
Definition demo_resolve : resolve_env := mkResolveEnv demo_now (fun s => s) DispatchProps.demo_env.
Definition demo_proxy_env : proxy_env := mkProxyEnv (fun _ => demo_now) (fun i => Ok (replicate 16 (Z.of_nat i))) (fun w => w) demo_resolve.
Definition demo_proxy_account : SessionAccount := mkSessionAccount "o1" "Bob" false.
Definition demo_proxy_context : context := mkContext (Some demo_proxy_account) (Some requestAuthMethodCookie) None.
Definition demo_create_body : payload := PJson (JObject [("session_id", JString "s1"); ("port", JInt 8080)]).
Definition demo_create_result : proxy_reply * World := Create demo_handler demo_proxy_env demo_proxy_context demo_create_body demo_proxy_world.

Example demo_handler_made : NewProxyRouteHandler " Boxes.Example.com" "HTTPS" "internal " hour 26 2 1 = Ok demo_handler.
Proof. by vm_compute. Qed.
Example demo_created_status : px_status demo_create_result.1 = 201.
Proof. by vm_compute. Qed.

Lemma demo_world_ok : world_ok demo_handler demo_proxy_world.
Proof.
  split; [|by vm_compute|done|].
  - change (routes_ok demo_proxy_table). apply reachable_ok, run_route_ops_reachable. by eapply (reach_restored 1000 (30 * minute) (mkConn demo_proxy_db []) (Some [])).
  - split; intros; by vm_compute.
Qed.

Lemma demo_proxy_env_ok : env_ok demo_handler demo_proxy_env.
Proof.
  split; [intros w Hw; exact Hw|]. split; [split; intros s; apply steady_same; reflexivity|]. intros i raw [= <-]. reflexivity.
Qed.

Lemma proxy_routes_follow_their_sessions_witness :
  let create := OpCreateRoute demo_proxy_env demo_proxy_context demo_create_body in
  size (w_routes (run_proxy_ops demo_handler [create] demo_proxy_world)) = 1%nat /\
  owner_count "o1" (w_routes (run_proxy_ops demo_handler [create; create] demo_proxy_world)) <= 2 /\
  size (w_routes (run_proxy_ops demo_handler [create; OpTerminal (OpDeleteByNode "w1")] demo_proxy_world)) = 0%nat.
Proof.
  split; [vm_compute; reflexivity|]. split; [|vm_compute; reflexivity].
  set (create := OpCreateRoute _ _ _). assert (Forall (op_ok demo_handler) [create; create]) as Hops
    by (repeat (apply List.Forall_cons; [exact demo_proxy_env_ok|]); apply List.Forall_nil).
  destruct (proxy_routes_follow_their_sessions demo_handler [create; create] demo_proxy_world demo_world_ok Hops) as (_&H&_). exact (H "o1").
Defined.

Definition demo_route_key : string := match px_body demo_create_result.1 with PxRoute r => rr_RouteKey r | _ => "" end.
Definition demo_route_host : string := demo_route_key +:+ ".boxes.example.com".
Definition demo_created_world : World := demo_create_result.2.

Lemma demo_created_ok : world_ok demo_handler demo_created_world.
Proof. apply Create_ok; [exact demo_proxy_env_ok|exact demo_world_ok]. Qed.

Lemma proxied_requests_reach_the_owners_session_witness :
  exists reply w', Resolve demo_handler demo_proxy_env " internal" demo_route_host demo_created_world = (reply, w') /\ px_status reply = 204 /\
    exists key, routeKeyFromHost demo_handler demo_route_host = Some key /\ is_Some (w_routes demo_created_world !! key).
Proof.
  destruct (Resolve demo_handler demo_proxy_env " internal" demo_route_host demo_created_world) as [reply w'] eqn:E.
  assert (px_status reply = 204) as H204.
  { replace reply with (Resolve demo_handler demo_proxy_env " internal" demo_route_host demo_created_world).1 by (rewrite E; reflexivity).
    vm_compute. reflexivity. }
  exists reply, w'. split; [reflexivity|]. split; [exact H204|].
  destruct (proxied_requests_reach_the_owners_session demo_handler demo_proxy_env " internal" demo_route_host demo_created_world reply w'
    demo_created_ok demo_proxy_env_ok E H204) as (_&key&r&_&_&Hk&Hr&_). exists key. split; [exact Hk|]. rewrite Hr. by eexists.
Defined.
Definition demo_route_response : proxyRouteResponse :=
  match px_body demo_create_result.1 with PxRoute r => r | _ => mkRouteResponse "" "" "" 0 "" 0 0 end.
Definition demo_proxy_record : proxyRouteRecord :=
  mkProxyRecord demo_route_key "o1" "s1" demo_tid 8080 "w1" demo_now (time_add demo_now hour).

Lemma demo_create_eq : Create demo_handler demo_proxy_env demo_proxy_context demo_create_body demo_proxy_world =
  (mkProxyReply 201 (PxRoute demo_route_response), demo_created_world).
Proof. vm_compute. reflexivity. Qed.

Lemma demo_lookup : w_routes demo_created_world !! demo_route_key = Some demo_proxy_record.
Proof. vm_compute. reflexivity. Qed.

Lemma demo_live : live demo_created_world demo_proxy_record demo_proxy_session demo_now.
Proof.
  split; [vm_compute; reflexivity|split; vm_compute; reflexivity|split; vm_compute; reflexivity| |].
  - exists (mkRoute "w1" 1500 50000 1500 terminalSessionRecoveryReady 0 1 0). split_and!; vm_compute; reflexivity.
  - split_and!; [vm_compute; reflexivity|vm_compute; reflexivity|vm_compute; reflexivity|vm_compute; discriminate|vm_compute; discriminate].
Qed.

Lemma created_route_is_served_witness :
  exists r token, w_routes demo_created_world !! demo_route_key = Some r /\
    (Resolve demo_handler demo_proxy_env "internal" (demo_route_host +:+ ":443") demo_created_world).1 = mkProxyReply 204 (PxHeaders
      [("X-Onlyboxes-Upstream", "http://10.1.2.3:8091"); ("X-Onlyboxes-Upstream-Host", demo_route_host +:+ ":443"); (ProxyToken.HeaderName, token)]).
Proof.
  destruct (created_route_is_served demo_handler demo_proxy_env demo_proxy_env demo_proxy_context demo_create_body demo_proxy_world
    demo_created_world demo_route_response "internal" "secret" demo_proxy_session "443" demo_world_ok demo_proxy_env_ok) as (r&token&Hr&_&Hs).
  - exists "boxes.example.com". vm_compute. reflexivity.
  - exact demo_create_eq.
  - intros w. reflexivity.
  - intros s. reflexivity.
  - vm_compute. reflexivity.
  - vm_compute. reflexivity.
  - vm_compute. reflexivity.
  - vm_compute. reflexivity.
  - intros r Hr. change (rr_RouteKey demo_route_response) with demo_route_key in Hr. rewrite demo_lookup in Hr. injection Hr as <-.
    split; [exact demo_live|]. split; [vm_compute; reflexivity|]. split; [vm_compute; reflexivity|]. apply Nat.leb_le. vm_compute. reflexivity.
  - exists r, token. split; [exact Hr|]. destruct (Hs (demo_route_host +:+ ":443")) as [H _]; [right; vm_compute; reflexivity|].
    rewrite H. vm_compute. reflexivity.
Defined.

Definition demo_target : ProxySessionTarget := mkTarget "w1" demo_tid.
Definition demo_fresh_record : proxyRouteRecord * World :=
  match createRoute demo_handler (px_random demo_proxy_env) "o1" "s1" 8080 demo_target demo_now demo_proxy_world with
  | (inl record, w) => (record, w) | (inr _, w) => (demo_proxy_record, w) end.

Definition demo_proxy_data : DB := default empty_db (svc_db demo_proxy_service).

Lemma demo_data_eq : svc_db (w_svc demo_proxy_world) = Some demo_proxy_data /\ proxy_routes demo_proxy_data = ∅.
Proof. split; vm_compute; reflexivity. Qed.

Lemma demo_fresh_eq : createRoute demo_handler (px_random demo_proxy_env) "o1" "s1" 8080 demo_target demo_now demo_proxy_world =
  (inl demo_fresh_record.1, demo_fresh_record.2).
Proof. vm_compute. reflexivity. Qed.

Lemma same_database s m : svc_db (w_svc (mkWorld s m)) = svc_db s.
Proof. reflexivity. Qed.

Lemma demo_restored_status : (Restore 0 (of_unix_milli 3000) (mkWorld (w_svc demo_fresh_record.2) ∅)).1 = Ok tt.
Proof. vm_compute. reflexivity. Qed.

Lemma proxy_routes_survive_a_restart_witness :
  match Restore 0 (of_unix_milli 3000) (mkWorld (w_svc demo_fresh_record.2) ∅) with
  | (Ok _, w3) => w_routes w3 !! demo_route_key = Some demo_proxy_record
  | (Err _, w3) => False
  end.
Proof.
  assert (named "o1" "s1" 8080) as Hn by (vm_compute; split_and!; (reflexivity || discriminate)).
  assert (target_ok "o1" "s1" demo_target) as Ht by (vm_compute; split; reflexivity).
  assert (rows_named demo_proxy_data) as Hr by (intros k p; rewrite (proj2 demo_data_eq), lookup_empty; discriminate).
  assert (unix_milli (of_unix_milli 3000) < unix_milli (pr_ExpiresAt demo_fresh_record.1)) as He by (vm_compute; reflexivity).
  assert (is_zero (of_unix_milli 3000) = false) as Hz by (vm_compute; reflexivity).
  pose proof (proxy_routes_survive_a_restart demo_handler (px_random demo_proxy_env) "o1" "s1" 8080 demo_target demo_now demo_proxy_world
    demo_fresh_record.1 demo_fresh_record.2 demo_proxy_data 0 (of_unix_milli 3000) (mkWorld (w_svc demo_fresh_record.2) ∅)
    (proj2 (proj2 demo_proxy_env_ok)) Hn Ht (proj1 demo_data_eq) Hr demo_fresh_eq (same_database _ _) eq_refl Hz He) as H.
  pose proof demo_restored_status as E. destruct (Restore _ _ _) as [r w3]. cbn [fst] in E. subst r. destruct H as [H _].
  assert (pr_RouteKey demo_fresh_record.1 = demo_route_key) as Ek by (vm_compute; reflexivity). rewrite Ek in H. rewrite H. vm_compute. reflexivity.
Defined.
Definition demo_route_request : request :=
  mkRequest "" None (fun _ => None) (fun name => if bool_decide (name = "route_key") then " " +:+ demo_route_key else "") PEmpty true "".

Lemma demo_listed : (List demo_handler demo_proxy_env demo_proxy_context demo_route_request demo_created_world).1 =
  mkProxyReply 200 (PxRoutes [demo_route_response] 1 1 20).
Proof. vm_compute. reflexivity. Qed.

Lemma demo_deleted : px_status (Delete demo_proxy_env demo_proxy_context demo_route_request demo_created_world).1 = 204.
Proof. vm_compute. reflexivity. Qed.

Lemma accounts_touch_only_their_proxy_routes_witness :
  rr_AccountID demo_route_response = "o1" /\
  exists record, w_routes demo_created_world !! to_lower (trim (rq_param demo_route_request "route_key")) = Some record /\ pr_OwnerID record = "o1".
Proof.
  assert (requestSessionAccountFromGin demo_proxy_context = Some demo_proxy_account) as Ha by (vm_compute; reflexivity).
  destruct (accounts_touch_only_their_proxy_routes demo_handler demo_proxy_env demo_proxy_context demo_proxy_account demo_route_request
    demo_created_world demo_created_ok Ha) as (Hl&Hd&_).
  split.
  - destruct (Hl eq_refl _ _ _ _ demo_listed demo_route_response) as [H _]; [by left|]. exact H.
  - pose proof demo_deleted as Hs. destruct (Delete _ _ _ _) as [reply w']. cbn [fst] in Hs. destruct Hd as [Hd _].
    destruct (Hd Hs) as (record&Hk&Ho&_). exists record. split; [exact Hk|]. rewrite Ho. vm_compute. reflexivity.
Defined.

Definition demo_direct_url : URL := mkURL "https" "" false "8080-abc.e2b.app" "" "" "".

Lemma demo_direct : validateDirectProxyURL "https://8080-abc.e2b.app" ["e2b.app"] = Ok demo_direct_url.
Proof. vm_compute. reflexivity. Qed.

Lemma demo_configured : configureSessionProxy demo_proxy_settings (newActiveSessionAt "w1" "sid" demo_proxy_hello 0) demo_proxy_hello "secret" =
  Ok demo_proxy_session.
Proof. vm_compute. reflexivity. Qed.

Lemma worker_proxy_targets_are_allowed_witness :
  endpoint_allowed demo_proxy_settings (proxyEndpoint demo_proxy_session) /\ u_Scheme demo_direct_url = "https".
Proof.
  destruct (worker_proxy_targets_are_allowed demo_proxy_settings "w1" "sid" demo_proxy_hello 0 "secret" demo_proxy_session
    "https://8080-abc.e2b.app" demo_direct_url demo_configured demo_direct) as (H&_&Hu&_).
  split; [|exact Hu]. apply H. vm_compute. discriminate.
Defined.

Lemma route_tokens_are_authentic_witness :
  exists token, ProxyToken.Sign demo_proxy_key (ProxyToken.mkClaims "w1" demo_tid 8080 17000) = Ok token /\
    ProxyToken.Verify 0 demo_proxy_key token demo_now = Ok (ProxyToken.mkClaims "w1" demo_tid 8080 17000).
Proof.
  destruct (route_tokens_are_authentic 0 demo_proxy_key demo_now) as [H _].
  destruct (ProxyToken.Sign demo_proxy_key (ProxyToken.mkClaims "w1" demo_tid 8080 17000)) as [token|e] eqn:E.
  - exists token. split; [reflexivity|]. rewrite (H _ _ E); [vm_compute; reflexivity|vm_compute; reflexivity|vm_compute; reflexivity|vm_compute; reflexivity|].
    apply Nat.leb_le. vm_compute. reflexivity.
  - exfalso. revert E. vm_compute. discriminate.
Defined.

End ProxyClaims.
Export ProxyClaims.
