(* ===== verification/Source.v ===== *)
(** Where settings come from (console/internal/config/source.go, and the same
    file of the workers): environment variables first, then the values of
    config.toml, which are flattened to the text an environment variable would
    have.  The TOML decoder, the environment and the files are inputs; the
    order of a table is the one in which the map is visited. *)
From stdpp Require Import pretty.
From S2P Require Import Prelude.
From S2P Require Import Json.
From S2P Require Import Sql.
From S2P Require Import JsonText.
From S2P Require Import Net.
From S2P Require Import ProxyToken.
Local Open Scope Z_scope.

Module Source.

(** A decoded TOML value; a float is the text that [FormatFloat] prints. *)
Inductive toml :=
  | TString (s : string)
  | TBool (b : bool)
  | TInt (z : Z)
  | TFloat (text : string)
  | TArray (items : list toml)
  | TTable (entries : list (string * toml))
  | TOther.

(** The process: its environment, the candidate beside the executable, the
    files that exist, and what decoding one gives; [None] is a missing file. *)
Record process := mkProcess {
  os_LookupEnv : string -> option string;
  os_candidate : option string;
  os_fileExists : string -> bool;
  toml_DecodeFile : string -> option (res (list (string * toml))) }.

Definition Getenv (p : process) (key : string) : string := default "" (os_LookupEnv p key).

Record source := mkSource {
  src_path : string;
  src_values : gmap string string;
  src_env : string -> option string }.

Definition configFileName : string := "config.toml".

(** *** Values as text *)
Definition encodeArray (items : list (option string)) : option string :=
  (fun encoded => json_text (JArray (JString <$> encoded))) <$> mapM id items.

(** Each program writes a table in its own way. *)
Definition table_encoder := list (string * option string) -> string.

Fixpoint encodeValue (encodeTable : table_encoder) (value : toml) : option string :=
  match value with
  | TString s => Some s
  | TBool b => Some (if b then "true" else "false")
  | TInt z => Some (pretty z)
  | TFloat text => Some text
  | TArray items => encodeArray (map (encodeValue encodeTable) items)
  | TTable entries => Some (encodeTable (map (fun kv => (kv.1, encodeValue encodeTable kv.2)) entries))
  | TOther => None
  end.

Definition full_key (prefix key : string) : string :=
  if bool_decide (prefix = "") then to_lower key else prefix +:+ "_" +:+ to_lower key.

Fixpoint flatten_value (encodeTable : table_encoder) (fullKey : string) (value : toml) (values : gmap string string)
    : gmap string string :=
  let values :=
    match value with
    | TTable entries =>
        foldl (fun values kv => flatten_value encodeTable (full_key fullKey kv.1) kv.2 values) values entries
    | _ => values
    end in
  match encodeValue encodeTable value with
  | Some encoded => <[fullKey := encoded]> values
  | None => values
  end.

Definition flattenInto (encodeTable : table_encoder) (values : gmap string string) (prefix : string)
    (table : list (string * toml)) : gmap string string :=
  foldl (fun values kv => flatten_value encodeTable (full_key prefix kv.1) kv.2 values) values table.

Definition flatten (encodeTable : table_encoder) (raw : list (string * toml)) : gmap string string :=
  flattenInto encodeTable ∅ "" raw.

(** *** The source *)
Definition configFilePath (configFileEnvKey : string) (p : process) : string * bool :=
  let explicit := trim (Getenv p configFileEnvKey) in
  if negb (bool_decide (explicit = "")) then (explicit, true) else
  match os_candidate p with
  | Some candidate => if os_fileExists p candidate then (candidate, false)
                      else if os_fileExists p configFileName then (configFileName, false) else ("", false)
  | None => if os_fileExists p configFileName then (configFileName, false) else ("", false)
  end.

(** [Err] is [log.Fatalf]. *)
Definition newSource (configFileEnvKey : string) (encodeTable : table_encoder) (p : process) : res source :=
  let '(path, explicit) := configFilePath configFileEnvKey p in
  if bool_decide (path = "") then Ok (mkSource "" ∅ (os_LookupEnv p)) else
  match toml_DecodeFile p path with
  | None => if explicit then Err (ErrorString ("failed to load config file " +:+ path))
            else Ok (mkSource "" ∅ (os_LookupEnv p))
  | Some (Err e) => Err (Wrapped ("failed to load config file " +:+ path +:+ ": ") e "")
  | Some (Ok raw) => Ok (mkSource path (flatten encodeTable raw) (os_LookupEnv p))
  end.

Section keys.
Context (envPrefix : string).

Definition fileKey (envKey : string) : string := to_lower (trim_prefix envPrefix envKey).

Definition lookup_key (s : source) (envKey : string) : option string :=
  match src_env s envKey with
  | Some value => Some value
  | None => src_values s !! fileKey envKey
  end.

Definition get (s : source) (envKey : string) : string := default "" (lookup_key s envKey).

(** *** Readers of a setting *)
Definition stringValue (s : source) (key defaultValue : string) : string :=
  let value := get s key in if bool_decide (value = "") then defaultValue else value.

Definition trimmedStringValue (s : source) (key defaultValue : string) : string :=
  let value := trim (get s key) in if bool_decide (value = "") then defaultValue else value.

(** An integer with a test; anything else is the default. *)
Definition int_value (ok : Z -> bool) (s : source) (key : string) (defaultValue : Z) : Z :=
  let value := trim (get s key) in
  if bool_decide (value = "") then defaultValue else
  match Atoi value with
  | Err _ => defaultValue
  | Ok parsed => if ok parsed then parsed else defaultValue
  end.

Definition positiveInt : source -> string -> Z -> Z := int_value (fun n => 0 <? n).
Definition nonNegativeInt : source -> string -> Z -> Z := int_value (fun n => 0 <=? n).
Definition percent : source -> string -> Z -> Z := int_value (fun n => (0 <=? n) && (n <=? 100)).
Definition boundedInt (s : source) (key : string) (defaultValue minValue maxValue : Z) : Z :=
  int_value (fun n => (minValue <=? n) && (n <=? maxValue)) s key defaultValue.

Definition boolValue (s : source) (key : string) (defaultValue : bool) : bool :=
  let value := trim (to_lower (get s key)) in
  if bool_decide (value ∈ ["1"; "true"; "yes"; "on"]) then true else
  if bool_decide (value ∈ ["0"; "false"; "no"; "off"]) then false else defaultValue.

Definition choice (values : list string) (s : source) (key defaultValue : string) : string :=
  let value := trim (to_lower (get s key)) in if bool_decide (value ∈ values) then value else defaultValue.

Definition logLevel : source -> string -> string -> string := choice ["debug"; "info"; "warn"; "error"].
Definition logFormat : source -> string -> string -> string := choice ["json"; "text"].

End keys.

(** *** Lists *)

(** [json.Unmarshal] of an array into a slice: [null] leaves what the slice
    holds at this place. *)
Fixpoint dec_items {A} (dec : json -> A -> A * bool) (zero : A) (old : list A) (l : list json) : list A * bool :=
  match l with
  | [] => ([], false)
  | v :: l =>
      let '(x, bad) := dec v (default zero (head old)) in
      let '(xs, bad') := dec_items dec zero (tail old) l in
      (x :: xs, bad || bad')
  end.

Definition unmarshal_items {A} (dec : json -> A -> A * bool) (zero : A) (old : list A) (text : string) : option (list A) :=
  match read_json text with
  | PJson (JArray l) => let '(xs, bad) := dec_items dec zero old l in if bad then None else Some xs
  | PJson JNull => Some []
  | _ => None
  end.

(** The first of each value, in order. *)
Fixpoint dedup {A} `{EqDecision A} (seen : list A) (l : list A) : list A :=
  match l with
  | [] => []
  | x :: l => if bool_decide (x ∈ seen) then dedup seen l else x :: dedup (x :: seen) l
  end.

(** The items of a setting that is a JSON array or a comma separated text. *)
Definition text_items (value : string) : option (list string) :=
  if has_prefix "[" value then unmarshal_items dec_string "" [] value else Some (ProxyToken.split "," value).

(** ** Ranges *)
Section ranges.

Lemma int_value_ok prefix ok s key d : ok d = true -> ok (int_value prefix ok s key d) = true.
Proof.
  intros Hd. unfold int_value. case_bool_decide; [done|]. destruct (Atoi _) as [n|]; [|done]. by destruct (ok n) eqn:E.
Qed.

Lemma positive_int prefix s key d : 0 < d -> 0 < positiveInt prefix s key d.
Proof. intros Hd. apply Z.ltb_lt, (int_value_ok prefix (fun n => 0 <? n)). by apply Z.ltb_lt. Qed.

Lemma log_level_ok prefix s key : logLevel prefix s key "info" ∈ ["debug"; "info"; "warn"; "error"].
Proof. unfold logLevel, choice. case_bool_decide; [done|]. right. left. Qed.
Lemma log_format_ok prefix s key : logFormat prefix s key "json" ∈ ["json"; "text"].
Proof. unfold logFormat, choice. case_bool_decide; [done|]. left. Qed.

End ranges.

End Source.
