(* ===== verification/ConsoleConfig.v ===== *)
(** The settings of the console (console/internal/config/config.go), read from
    a [Source], and the table encoding of its config file. *)
From S2P Require Import Prelude.
From S2P Require Import Json.
From S2P Require Import Sql.
From S2P Require Import AuthText.
From S2P Require Import JsonText.
From S2P Require Import Net.
From S2P Require Import ProxyToken.
From S2P Require Import Url.
From S2P Require Import Service.
From S2P Require Import Source.
Import Source.

Module ConsoleConfig.

(** ** strings.ToUpper and netip.ParsePrefix *)
Definition upper_ascii (a : ascii) : ascii := if between 97 122 a then chr (byte a - 32) else a.
Fixpoint to_upper (s : string) : string :=
  match s with EmptyString => EmptyString | String a s => String (upper_ascii a) (to_upper s) end.

Definition ParsePrefix (s : string) : option Net.Prefix :=
  match rcut "/" s with
  | None => None
  | Some (addr, bitsStr) =>
      match ParseAddr addr with
      | None => None
      | Some ip =>
          if negb (bool_decide (Zone ip = "")) then None else
          if match bitsStr with String c (String _ _) => negb (between 49 57 c) | _ => false end then None else
          match Atoi bitsStr with
          | Err _ => None
          | Ok bits =>
              let maxBits := match ip with V4 _ => 32 | V6 _ _ => 128 end in
              if (bits <? 0) || (maxBits <? bits) then None else Some (mkPrefix ip bits)
          end
      end
  end.

Definition Masked (p : Net.Prefix) : Net.Prefix :=
  mkPrefix (match p_addr p with
            | V4 n => V4 (n / 2 ^ (32 - p_bits p) * 2 ^ (32 - p_bits p))
            | V6 n _ => V6 (n / 2 ^ (128 - p_bits p) * 2 ^ (128 - p_bits p)) ""
            end) (p_bits p).

Example prefix_examples :
  (Masked <$> ParsePrefix "10.1.2.3/8") = Some (mkPrefix (V4 (10 * 2 ^ 24)) 8) /\ ParsePrefix "10.0.0.0/33" = None /\
  ParsePrefix "10.0.0.0/08" = None /\ ParsePrefix "10.0.0.0/+8" = None /\ ParsePrefix "10.0.0.0" = None /\
  (Masked <$> ParsePrefix "fd00::1/16") = Some (mkPrefix (V6 (0xfd00 * 2 ^ 112) "") 16) /\ ParsePrefix "fe80::1%eth0/64" = None.
Proof. vm_compute. done. Qed.

(** ** source.go *)
Definition configFileEnvKey : string := "CONSOLE_CONFIG_FILE".
Definition envPrefix : string := "CONSOLE_".

(** [key=value] pairs in the order of the keys. *)
Definition encodeTable (table : list (string * option string)) : string :=
  join "," (omap (fun kv => (fun value => kv.1 +:+ "=" +:+ value) <$> kv.2)
              (order_by (fun a b => str_le a.1 b.1) table)).

(** ** config.go *)
Definition defaultHTTPAddr : string := ":8089".
Definition defaultGRPCAddr : string := ":50051".
Definition defaultOfflineTTLSec : Z := 15.
Definition defaultReplayWindowSec : Z := 60.
Definition defaultHeartbeatIntervalSec : Z := 5.
Definition defaultDBPath : string := "./db/onlyboxes-console.db".
Definition defaultDBBusyTimeoutMS : Z := 5000.
Definition defaultTaskRetentionDays : Z := 30.
Definition defaultExportUploadTTLSec : Z := 15 * 60.
Definition defaultExportDownloadTTLSec : Z := 60 * 60.
Definition defaultMCPTokenQueryParam : string := "token".
Definition defaultProxyRouteTTLSec : Z := 24 * 60 * 60.
Definition defaultProxyRouteKeyLength : Z := 26.
Definition minProxyRouteKeyLength : Z := 8.
Definition maxProxyRouteKeyLength : Z := 26.
Definition defaultProxyRouteMaxPerAccount : Z := 16.
Definition defaultProxyRouteMaxPerSession : Z := 2.
Definition defaultProxyWorkerPort : Z := 8091.
Definition defaultProxyPublicScheme : string := "https".
Definition defaultProxyDirectDomain : string := "e2b.app".
Definition defaultLogLevel : string := "info".
Definition defaultLogFormat : string := "json".
Definition defaultLogAddSource : bool := false.

Record MCPToolOverride := mkOverride {
  ov_Name : option string;
  ov_Title : option string;
  ov_Description : option string;
  ov_ParamDescriptions : gmap string string }.

Record Config := mkConsoleConfig {
  ConfigFile : string;
  HTTPAddr : string;
  GRPCAddr : string;
  OfflineTTL : duration;
  ReplayWindow : duration;
  HeartbeatIntervalSec : Z;
  WorkerConnectionPolicy : WorkerConnectionConflictPolicy;
  DashboardUsername : string;
  DashboardPassword : string;
  InitialAdminAPIKey : string;
  JITSigningKey : string;
  DashboardJITSigningKey : string;
  DBPath : string;
  DBBusyTimeoutMS : Z;
  HashKey : string;
  TaskRetentionDays : Z;
  ExportFileEndpoint : string;
  ExportFileRegion : string;
  ExportFileBucketName : string;
  ExportFilePrefix : string;
  ExportFileAK : string;
  ExportFileSK : string;
  ExportFileUploadTTL : duration;
  ExportFileDownloadTTL : duration;
  ExportReturnSchema : string;
  EnableRegistration : bool;
  HiddenTools : gset string;
  MCPTokenQueryParam : string;
  ComputerUseSessionIDPrefix : string;
  MCPToolOverrides : gmap string MCPToolOverride;
  ProxyEnabled : bool;
  ProxyPublicBaseDomain : string;
  ProxyPublicScheme : string;
  ProxyInternalAuthToken : string;
  ProxyAllowedWorkerCIDRs : list Net.Prefix;
  ProxyAllowedWorkerPorts : list Z;
  ProxyAllowedDirectDomains : list string;
  ProxyRouteTTL : duration;
  ProxyRouteKeyLength : Z;
  ProxyRouteMaxPerAccount : Z;
  ProxyRouteMaxPerSession : Z;
  LogLevel : string;
  LogFormat : string;
  LogAddSource : bool }.

Definition ExportFileEnabled (c : Config) : bool :=
  negb (bool_decide (ExportFileEndpoint c = "")) && negb (bool_decide (ExportFileRegion c = "")) &&
  negb (bool_decide (ExportFileBucketName c = "")) && negb (bool_decide (ExportFilePrefix c = "")) &&
  negb (bool_decide (ExportFileAK c = "")) && negb (bool_decide (ExportFileSK c = "")).

(** *** Readers *)
Definition cget : source -> string -> string := get envPrefix.

Definition computerUseSessionIDPrefix (s : source) : string :=
  let value := trim (default "" (lookup_key envPrefix s "CONSOLE_COMPUTER_USE_SESSION_ID_PREFIX")) in
  if bool_decide (value = "") then defaultComputerUseSessionIDPrefix else value.

Definition normalizeToolKey (value : string) : string := trim (to_lower value).

Definition stringSet (s : source) (key : string) : gset string :=
  let raw := trim (cget s key) in
  if bool_decide (raw = "") then ∅ else
  match text_items raw with
  | None => ∅
  | Some items => list_to_set (List.filter (fun item => negb (bool_decide (item = ""))) (normalizeToolKey <$> items))
  end.

Definition parseCIDRList (raw : string) : list Net.Prefix :=
  let value := trim raw in
  if bool_decide (value = "") then [] else
  match text_items value with
  | None => []
  | Some items => dedup [] (omap (fun item => Masked <$> ParsePrefix (trim item)) items)
  end.

Definition valid_port (port : Z) : bool := (1 <=? port) && (port <=? 65535).

(** The items of a JSON array must be numbers here. *)
Definition port_items (value : string) : option (list Z) :=
  if has_prefix "[" value then unmarshal_items dec_int 0 [] value
  else Some (omap (fun part => match Atoi (trim part) with Ok port => Some port | Err _ => None end) (ProxyToken.split "," value)).

Definition parsePortList (raw : string) : list Z :=
  let value := trim raw in
  if bool_decide (value = "") then [defaultProxyWorkerPort] else
  match port_items value with
  | None => []
  | Some items => dedup [] (List.filter valid_port items)
  end.

Definition parseDomainList (raw : string) : list string :=
  let value := trim raw in
  let items := ProxyToken.split "," value in
  match (if has_prefix "[" value then unmarshal_items dec_string "" items value else Some items) with
  | None => []
  | Some items =>
      dedup [] (List.filter (fun domain => negb (bool_decide (domain = "")) && negb (any_char (in_set "/:@?#*") domain))
                  ((fun item => trim_suffix "." (to_lower (trim item))) <$> items))
  end.

Definition exportReturnSchema (s : source) (key : string) : string :=
  let value := trim (to_upper (cget s key)) in
  if bool_decide (value ∈ ["ALL"; "SIGNED_URL"; "OBJECTKEY"]) then value else "ALL".

Definition workerConnectionConflictPolicy (s : source) (key : string) : WorkerConnectionConflictPolicy :=
  if bool_decide (trim (to_upper (cget s key)) = "REJECT") then WorkerConnectionConflictPolicyReject
  else WorkerConnectionConflictPolicyReplace.

(** *** Overrides of the MCP tools *)
Definition mcpToolParamCatalog : list (string * list string) :=
  [("echo", ["message"; "timeout_ms"]);
   ("pythonExec", ["code"; "timeout_ms"]);
   ("terminalExec", ["command"; "session_id"; "create_if_missing"; "lease_ttl_sec"; "timeout_ms"]);
   ("computerUse", ["command"; "worker_id"; "timeout_ms"; "request_id"]);
   ("readImage", ["session_id"; "file_path"; "timeout_ms"]);
   ("exportFile", ["session_id"; "file_path"; "timeout_ms"])].

(** [first] at index 0. *)
Fixpoint env_segment (first : bool) (name : string) : string :=
  match name with
  | EmptyString => EmptyString
  | String a name =>
      (if negb first && between 65 90 a then String "_" else id) (String (upper_ascii a) (env_segment false name))
  end.
Definition toolNameToEnvSegment (name : string) : string := env_segment true name.
Definition paramNameToEnvSegment (name : string) : string := to_upper name.

Definition tool_key (toolName suffix : string) : string := "CONSOLE_MCP_TOOL_" +:+ toolNameToEnvSegment toolName +:+ suffix.

Definition tool_override (s : source) (toolName : string) (params : list string) : MCPToolOverride :=
  mkOverride (lookup_key envPrefix s (tool_key toolName "_NAME")) (lookup_key envPrefix s (tool_key toolName "_TITLE"))
    (lookup_key envPrefix s (tool_key toolName "_DESCRIPTION"))
    (list_to_map (omap (fun param =>
       (fun v => (param, v)) <$>
         lookup_key envPrefix s (tool_key toolName ("_PARAM_" +:+ paramNameToEnvSegment param +:+ "_DESCRIPTION"))) params)).

Definition override_set (o : MCPToolOverride) : bool :=
  bool_decide (is_Some (ov_Name o)) || bool_decide (is_Some (ov_Title o)) || bool_decide (is_Some (ov_Description o)) ||
  negb (bool_decide (ov_ParamDescriptions o = ∅)).

Definition mcpToolOverrides (s : source) : gmap string MCPToolOverride :=
  list_to_map (omap (fun entry =>
    let override := tool_override s entry.1 entry.2 in
    if override_set override then Some (entry.1, override) else None) mcpToolParamCatalog).

(** *** Load *)
Definition seconds (n : Z) : duration := i64 (n * second).

Definition load_config (s : source) : Config :=
  let int := positiveInt envPrefix s in
  mkConsoleConfig (src_path s) (stringValue envPrefix s "CONSOLE_HTTP_ADDR" defaultHTTPAddr)
    (stringValue envPrefix s "CONSOLE_GRPC_ADDR" defaultGRPCAddr)
    (seconds (int "CONSOLE_OFFLINE_TTL_SEC" defaultOfflineTTLSec))
    (seconds (int "CONSOLE_REPLAY_WINDOW_SEC" defaultReplayWindowSec))
    (i32 (int "CONSOLE_HEARTBEAT_INTERVAL_SEC" defaultHeartbeatIntervalSec))
    (workerConnectionConflictPolicy s "CONSOLE_WORKER_CONNECTION_CONFLICT_POLICY")
    (cget s "CONSOLE_DASHBOARD_USERNAME") (cget s "CONSOLE_DASHBOARD_PASSWORD") (cget s "CONSOLE_INITIAL_ADMIN_API_KEY")
    (cget s "CONSOLE_JIT_SIGNING_KEY") (cget s "CONSOLE_DASHBOARD_JIT_SIGNING_KEY")
    (stringValue envPrefix s "CONSOLE_DB_PATH" defaultDBPath) (int "CONSOLE_DB_BUSY_TIMEOUT_MS" defaultDBBusyTimeoutMS)
    (cget s "CONSOLE_HASH_KEY") (int "CONSOLE_TASK_RETENTION_DAYS" defaultTaskRetentionDays)
    (trim (cget s "CONSOLE_EXPORT_FILE_ENDPOINT")) (trim (cget s "CONSOLE_EXPORT_FILE_REGION"))
    (trim (cget s "CONSOLE_EXPORT_FILE_BUCKET_NAME")) (trim (cget s "CONSOLE_EXPORT_FILE_EXPORT_PREFIX"))
    (trim (cget s "CONSOLE_EXPORT_FILE_AK")) (trim (cget s "CONSOLE_EXPORT_FILE_SK"))
    (seconds (int "CONSOLE_EXPORT_FILE_UPLOAD_PRESIGN_TTL_SEC" defaultExportUploadTTLSec))
    (seconds (int "CONSOLE_EXPORT_FILE_DOWNLOAD_PRESIGN_TTL_SEC" defaultExportDownloadTTLSec))
    (exportReturnSchema s "CONSOLE_EXPORT_RETURN_SCHEMA") (boolValue envPrefix s "CONSOLE_ENABLE_REGISTRATION" false)
    (stringSet s "CONSOLE_HIDDEN_TOOLS")
    (trimmedStringValue envPrefix s "CONSOLE_MCP_TOKEN_QUERY_PARAM" defaultMCPTokenQueryParam)
    (computerUseSessionIDPrefix s) (mcpToolOverrides s) (boolValue envPrefix s "CONSOLE_PROXY_ENABLED" false)
    (trim (to_lower (cget s "CONSOLE_PROXY_PUBLIC_BASE_DOMAIN")))
    (to_lower (trimmedStringValue envPrefix s "CONSOLE_PROXY_PUBLIC_SCHEME" defaultProxyPublicScheme))
    (trim (cget s "CONSOLE_PROXY_INTERNAL_AUTH_TOKEN"))
    (parseCIDRList (cget s "CONSOLE_PROXY_ALLOWED_WORKER_CIDRS"))
    (parsePortList (cget s "CONSOLE_PROXY_ALLOWED_WORKER_PORTS"))
    (parseDomainList (trimmedStringValue envPrefix s "CONSOLE_PROXY_ALLOWED_DIRECT_DOMAINS" defaultProxyDirectDomain))
    (seconds (int "CONSOLE_PROXY_ROUTE_TTL_SEC" defaultProxyRouteTTLSec))
    (boundedInt envPrefix s "CONSOLE_PROXY_ROUTE_KEY_LENGTH" defaultProxyRouteKeyLength minProxyRouteKeyLength maxProxyRouteKeyLength)
    (int "CONSOLE_PROXY_ROUTE_MAX_PER_ACCOUNT" defaultProxyRouteMaxPerAccount)
    (int "CONSOLE_PROXY_ROUTE_MAX_PER_SESSION" defaultProxyRouteMaxPerSession)
    (logLevel envPrefix s "CONSOLE_LOG_LEVEL" defaultLogLevel) (logFormat envPrefix s "CONSOLE_LOG_FORMAT" defaultLogFormat)
    (boolValue envPrefix s "CONSOLE_LOG_ADD_SOURCE" defaultLogAddSource).

Definition Load (p : process) : res Config :=
  match newSource configFileEnvKey encodeTable p with
  | Ok s => Ok (load_config s)
  | Err e => Err e
  end.

End ConsoleConfig.
