(* ===== verification/Startup.v ===== *)
(** The start of the console (console/cmd/console/main.go): the settings, the
    recovery of the database, the first administrator, the service with its
    restored terminal session routes, and the restored proxy routes; and the
    timers that prune. *)
From S2P Require Import Prelude.
From S2P Require Import Json.
From S2P Require Import Net.
From S2P Require Import Sql.
From S2P Require Import Proto.
From S2P Require Import Registry.
From S2P Require Import RouteStore.
From S2P Require Import TerminalRoutes.
From S2P Require Import TerminalRoutesProps.
From S2P Require Import SessionRuntime.
From S2P Require Import Service.
From S2P Require Import Dispatch.
From S2P Require Import Tasks.
From S2P Require Import AuthSql.
From S2P Require Import Accounts.
From S2P Require Import AuthProps.
From S2P Require Import OwnerScope.
From S2P Require Import Proxy.
From S2P Require Import ProxyProps.
From S2P Require Import Source.
From S2P Require Import ConsoleConfig.
Import Source.

Module Startup.

(** What the outside decides: the process, the clock at its readings, opening
    the file of the database and the object store, the hashing of secrets. *)
Record boot_env := mkBootEnv {
  be_process : process;
  be_open : res unit;
  be_openMs : Z;
  be_auth : auth_config;
  be_init : init_env;
  be_hasher : option Hasher;
  be_routesNow : time;
  be_proxyNow : time;
  be_objectstore : res unit }.

Record console := mkConsole {
  co_config : ConsoleConfig.Config;
  co_admin : AdminAccountInitResult;
  co_world : World;
  co_proxy : option ProxyRouteHandler;
  co_export : bool;
  co_dashboardJIT : option string }.

(** The service with the settings, before anything is restored. *)
Definition configured_service (cfg : ConsoleConfig.Config) (hasher : option Hasher) (hashes : gmap string string) (c : Conn)
    : RegistryService :=
  let s := NewRegistryService (Some c) hashes (ConsoleConfig.HeartbeatIntervalSec cfg)
             (i32 (Z.quot (ConsoleConfig.OfflineTTL cfg) second)) in
  let s := SetHasher hasher s in
  let s := SetWorkerConnectionConflictPolicy (ConsoleConfig.WorkerConnectionPolicy cfg) s in
  let s := SetTaskRetention (i64 (i64 (ConsoleConfig.TaskRetentionDays cfg * 24) * hour)) s in
  let s := SetComputerUseSessionIDPrefix (ConsoleConfig.ComputerUseSessionIDPrefix cfg) s in
  ConfigureProxy (ConsoleConfig.ProxyEnabled cfg) (ConsoleConfig.ProxyAllowedWorkerCIDRs cfg)
    (ConsoleConfig.ProxyAllowedWorkerPorts cfg) (ConsoleConfig.ProxyAllowedDirectDomains cfg) s.

(** [fatal]: the process exits. *)
Definition fatal {A} (message : string) (e : error) : res A := Err (Wrapped (message +:+ ": ") e "").

Definition start_proxy (env : boot_env) (cfg : ConsoleConfig.Config) (s : RegistryService)
    : res (option ProxyRouteHandler * World) :=
  if negb (ConsoleConfig.ProxyEnabled cfg) then Ok (None, mkWorld s ∅) else
  if bool_decide (ConsoleConfig.ProxyAllowedDirectDomains cfg = [])
  then Err (ErrorString "CONSOLE_PROXY_ALLOWED_DIRECT_DOMAINS must contain at least one valid domain when proxy is enabled") else
  match NewProxyRouteHandler (ConsoleConfig.ProxyPublicBaseDomain cfg) (ConsoleConfig.ProxyPublicScheme cfg)
          (ConsoleConfig.ProxyInternalAuthToken cfg) (ConsoleConfig.ProxyRouteTTL cfg) (ConsoleConfig.ProxyRouteKeyLength cfg)
          (ConsoleConfig.ProxyRouteMaxPerAccount cfg) (ConsoleConfig.ProxyRouteMaxPerSession cfg) with
  | Err e => fatal "failed to initialize proxy routes" e
  | Ok h =>
      match Restore (be_proxyNow env) (be_proxyNow env) (mkWorld s ∅) with
      | (Err e, _) => fatal "failed to restore proxy routes" e
      | (Ok _, w) => Ok (Some h, with_svc (SetProxyRouteSessionRevoker (w_svc w)) w)
      end
  end.

(** The two keys of just-in-time tokens must differ. *)
Definition dashboard_key (cfg : ConsoleConfig.Config) : res (option string) :=
  let trimmed := trim (ConsoleConfig.DashboardJITSigningKey cfg) in
  if bool_decide (trimmed = "") then Ok None else
  if bool_decide (trimmed = trim (ConsoleConfig.JITSigningKey cfg))
  then Err (ErrorString "CONSOLE_DASHBOARD_JIT_SIGNING_KEY must differ from CONSOLE_JIT_SIGNING_KEY") else Ok (Some trimmed).

Definition start_service (env : boot_env) (cfg : ConsoleConfig.Config) (admin : AdminAccountInitResult)
    (hashes : gmap string string) (c : Conn) : res console :=
  match run_routes (RestoreTerminalSessionRoutes (unix_milli (be_routesNow env))) (configured_service cfg (be_hasher env) hashes c) with
  | (Err e, _) => fatal "failed to restore terminal session routes" e
  | (Ok _, s) =>
      match start_proxy env cfg s with
      | Err e => Err e
      | Ok (proxy, w) =>
          match (if ConsoleConfig.ExportFileEnabled cfg then be_objectstore env else Ok tt) with
          | Err e => fatal "failed to initialize export objectstore" e
          | Ok _ =>
              match dashboard_key cfg with
              | Err e => Err e
              | Ok key => Ok (mkConsole cfg admin w proxy (ConsoleConfig.ExportFileEnabled cfg) key)
              end
          end
      end
  end.

Definition main (env : boot_env) (c : Conn) : res console :=
  match ConsoleConfig.Load (be_process env) with
  | Err e => Err e
  | Ok cfg =>
      match be_open env with
      | Err e => fatal "failed to initialize persistence" e
      | Ok _ =>
          match startup_recovery (ConsoleConfig.TaskRetentionDays cfg) (be_openMs env) c with
          | (Err e, _) => fatal "failed to initialize persistence" e
          | (Ok _, c) =>
              match InitializeAdminAccount (be_auth env) (be_init env) (ConsoleConfig.DashboardUsername cfg)
                      (ConsoleConfig.DashboardPassword cfg) (ConsoleConfig.InitialAdminAPIKey cfg) c with
              | (Err e, _) => fatal "failed to initialize admin account" e
              | (Ok admin, c) =>
                  match ListCredentialHashes c with
                  | (Ok hashes, c) => start_service env cfg admin hashes c
                  | (Err e, _) => Err e
                  end
              end
          end
      end
  end.

(** ** The timers *)
Inductive tick := TickOffline (now : time) | TickTasks (now : time) | TickRoutes (now : time) | TickProxy (now : time).

Definition on_tick (offlineTTL : duration) (t : tick) (w : World) : World :=
  match t with
  | TickOffline now => with_svc (query 0 (PruneOffline now offlineTTL) (w_svc w)).2 w
  | TickTasks now => with_svc (PruneExpiredTasks now (w_svc w)).2 w
  | TickRoutes now => settle (with_svc (run_routes (PruneExpiredTerminalSessionRoutes (unix_milli now)) (w_svc w)).2 w)
  | TickProxy now => (PruneExpired now now w).2
  end.

End Startup.
Export Startup.
