(* ===== verification/StartupProps.v ===== *)
(** What the console is after its start: the settings are in their ranges, the
    lists of a configuration file read back, and the restored routes satisfy
    the invariant of every later step. *)
From S2P Require Import Prelude.
From S2P Require Import Json.
From S2P Require Import Net.
From S2P Require Import AuthText.
From S2P Require Import Sql.
From S2P Require Import Proto.
From S2P Require Import JsonText.
From S2P Require Import ProxyToken.
From S2P Require Import Url.
From S2P Require Import Registry.
From S2P Require Import RouteStore.
From S2P Require Import TerminalRoutes.
From S2P Require Import TerminalRoutesProps.
From S2P Require Import SessionRuntime.
From S2P Require Import Service.
From S2P Require Import AuthSql.
From S2P Require Import Accounts.
From S2P Require Import AuthProps.
From S2P Require Import OwnerScope.
From S2P Require Import Proxy.
From S2P Require Import ProxyProps.
From S2P Require Import Source.
From S2P Require Import ConsoleConfig.
From S2P Require Import Startup.
Import Source.

Module StartupProps.

(** ** The database at the start *)

(** Every proxy route belongs to a stored terminal session on its worker. *)
Definition parents (d : DB) : Prop := forall k p, proxy_routes d !! k = Some p ->
  exists r, terminal_session_routes d !! p_ScopedSessionID p = Some r /\ r_NodeID r = p_WorkerID p.

Definition boot_db (d : DB) : Prop := parents d /\ rows_wf (terminal_session_routes d) /\ rows_named d.

Section database.

Lemma boot_same d d' : boot_db d -> proxy_routes d' = proxy_routes d -> terminal_session_routes d' = terminal_session_routes d -> boot_db d'.
Proof. unfold boot_db, parents, rows_named. intros H -> ->. exact H. Qed.

Lemma boot_fewer p d : boot_db d -> boot_db (with_proxy_routes (keep p) d).
Proof.
  intros (H1&H2&H3). split_and!; [|exact H2|]; intros k r [Hk _]%lookup_keep_Some; [by apply (H1 k)|by apply (H3 k)].
Qed.

Lemma boot_delete_routes p d : boot_db d -> boot_db (delete_routes p d).2.
Proof.
  intros (H1&H2&H3). unfold delete_routes. cbn [snd]. split_and!; cbn.
  - intros k row [Hk Hg]%lookup_keep_Some. destruct (H1 k row Hk) as (r&Hr&Hn). rewrite Hr, bool_decide_true in Hg by done. cbn in Hg.
    exists r. split; [|done]. by apply lookup_keep_Some.
  - intros sid row [Hs _]%lookup_keep_Some. by apply H2.
  - intros k row [Hk _]%lookup_keep_Some. by apply H3.
Qed.

Lemma preserves_wrap {A} (I : DB -> Prop) prefix (m : M A) : Preserves I m -> Preserves I (wrap_error prefix m).
Proof. intros H c Hc. unfold wrap_error. specialize (H c Hc). by destruct (m c) as [[]]. Qed.

#[export] Instance boot_startup days ms : Preserves boot_db (startup_recovery days ms).
Proof.
  unfold startup_recovery. apply preserves_bind; [|intros _; apply preserves_bind; [|intros _; apply preserves_bind; [|intros _; apply _]]];
    apply preserves_wrap, preserves_write; intros d Hd; [by apply boot_delete_routes|by apply (boot_same d)..].
Qed.

Lemma boot_stmt {A} (f : DB -> res (A * DB)) :
  (forall d a d', f d = Ok (a, d') -> proxy_routes d' = proxy_routes d /\ terminal_session_routes d' = terminal_session_routes d) ->
  Preserves boot_db (stmt f).
Proof. intros Hf. apply preserves_stmt. intros d a d' Hd [H1 H2]%Hf. by apply (boot_same d). Qed.

Lemma boot_delete_account p id d : boot_db d -> boot_db (delete_account p id d).2.
Proof.
  intros Hd. unfold delete_account. destruct (accounts d !! id) as [a|]; [|done]. destruct (p a); [|done]. cbn [snd].
  unfold cascade_accounts. eapply boot_same; [apply (boot_fewer (fun _ r => bool_decide (p_OwnerID r = id)) d Hd)| |]; try reflexivity.
Qed.

#[export] Instance boot_auth : AuthInv boot_db.
Proof.
  split; intros.
  - apply boot_stmt. intros d a d' E. repeat case_match; by simplify_eq.
  - apply preserves_write. intros d. apply boot_delete_account.
  - apply preserves_write. intros d Hd. destruct (accounts d !! id); [by apply (boot_same d)|done].
  - apply boot_stmt. intros d a d' E. repeat case_match; by simplify_eq.
  - apply preserves_write. intros d Hd. by apply (boot_same d).
  - apply boot_stmt. intros d a d' E. repeat case_match; by simplify_eq.
  - apply preserves_write. intros d Hd. by apply (boot_same d).
Qed.

(** *** What is left of the stored routes *)

(** The stored terminal session routes whose lease ends after [ms], and the proxy
    routes of their sessions. *)
Record survivors (ms : Z) (d d' : DB) : Prop := {
  sv_sessions sid row : terminal_session_routes d' !! sid = Some row <->
    terminal_session_routes d !! sid = Some row /\ ms < r_LeaseExpiresUnixMs row;
  sv_proxies k p : proxy_routes d' !! k = Some p <->
    proxy_routes d !! k = Some p /\ exists row, terminal_session_routes d !! p_ScopedSessionID p = Some row /\ ms < r_LeaseExpiresUnixMs row }.

Lemma survivors_delete ms d : parents d -> survivors ms d (delete_routes (fun _ r => r_LeaseExpiresUnixMs r <=? ms) d).2.
Proof.
  intros Hp. unfold delete_routes. cbn [snd]. split; cbn.
  - intros sid row. by rewrite lookup_keep_Some, Z.leb_gt.
  - intros k p. rewrite lookup_keep_Some. split; intros [Hk H]; (split; [done|]); destruct (Hp k p Hk) as (r&Hr&Hn).
    + rewrite Hr, bool_decide_true in H by done. cbn in H. apply Z.leb_gt in H. by exists r.
    + destruct H as (row&Hrow&H). rewrite Hrow. replace row with r by congruence. rewrite bool_decide_true by done. cbn. apply Z.leb_gt. congruence.
Qed.

Lemma survivors_same ms d d1 d2 : survivors ms d d1 -> proxy_routes d2 = proxy_routes d1 -> terminal_session_routes d2 = terminal_session_routes d1 ->
  survivors ms d d2.
Proof. intros [H1 H2] E1 E2. by split; rewrite ?E1, ?E2. Qed.

(** The statements of the start that concern other tables. *)
Definition same_routes (d0 d : DB) : Prop := proxy_routes d = proxy_routes d0 /\ terminal_session_routes d = terminal_session_routes d0.

Lemma same_routes_stmt {A} d0 (f : DB -> res (A * DB)) : (forall d a d', f d = Ok (a, d') -> same_routes d d') -> Preserves (same_routes d0) (stmt f).
Proof. intros Hf. apply preserves_stmt. intros d a d' [E1 E2] [E3 E4]%Hf. split; congruence. Qed.

#[local] Instance insert_account_keeps d0 id row : Preserves (same_routes d0) (InsertAccount id row).
Proof. apply same_routes_stmt. intros d a d' E. repeat case_match; by simplify_eq. Qed.

#[local] Instance insert_key_keeps d0 id row : Preserves (same_routes d0) (InsertAPIKey id row).
Proof. apply same_routes_stmt. intros d a d' E. repeat case_match; by simplify_eq. Qed.

Lemma account_loop_keeps d0 gen row n i : Preserves (same_routes d0) (create_account_loop gen row n i).
Proof.
  revert i. induction n as [|n IH]; intros i; cbn; [apply _|]. unfold classifyAccountInsertConflict, found. solve_preserves.
Qed.

Lemma key_loop_keeps d0 cfg t acc name key over n i : Preserves (same_routes d0) (create_key_loop cfg t acc name key over n i).
Proof. revert i. induction n as [|n IH]; intros i; cbn; [apply _|]. unfold classifyAPIKeyInsertConflict, found. solve_preserves. Qed.

Lemma init_keeps_routes d0 cfg env u p k : Preserves (same_routes d0) (InitializeAdminAccount cfg env u p k).
Proof.
  unfold InitializeAdminAccount, init_tx, createAccountWithRetry, createAPIKey. solve_preserves; (apply account_loop_keeps || apply key_loop_keeps || apply preserves_read).
Qed.

Lemma startup_survivors days ms c c' : parents (data c) -> startup_recovery days ms c = (Ok tt, c') -> survivors ms (data c) (data c').
Proof.
  intros Hp H. unfold startup_recovery in H. apply bind_ok in H as (n1&c1&H1&H). apply bind_ok in H as (n2&c2&H2&H). apply bind_ok in H as (n3&c3&H3&H).
  apply wrap_ok, write_ok in H1, H2, H3. apply (f_equal snd) in H1, H2, H3. cbn [snd] in H1, H2, H3. injection H as <-.
  apply (survivors_same ms _ (data c1)); [|by rewrite <- H3, <- H2..]. rewrite <- H1. by apply survivors_delete.
Qed.

(** *** The restored terminal session routes *)
Lemma boot_routes now ttl c rv s : boot_db (data c) -> RestoreTerminalSessionRoutes now (fresh_routes ttl (Some c) rv) = (Ok tt, s) ->
  routes_ok s /\ revoked s = rv /\ exists c', terminalRouteStore s = Some c' /\ boot_db (data c') /\ survivors now (data c) (data c') /\
    terminalSessionToNode s = restored_route <$> terminal_session_routes (data c').
Proof.
  intros Hd H. pose proof (restore_cases now ttl c rv (proj1 (proj2 Hd))) as Hc. cbv zeta in Hc. rewrite H in Hc.
  destruct Hc as (_&Hok&Htab&(c'&Hc'&Hrows)&_&Hrv). split; [done|]. split; [done|]. exists c'. split; [done|].
  enough (boot_db (data c') /\ survivors now (data c) (data c')) as [Hb Hs] by (split; [exact Hb|]; split; [exact Hs|]; by rewrite Htab, <- Hrows).
  unfold RestoreTerminalSessionRoutes in H. cbn [terminalRouteStore fresh_routes] in H.
  cbn [store_delete_expired store_load registry_route_store] in H.
  pose proof (preserves_write boot_db (delete_routes (fun _ r => r_LeaseExpiresUnixMs r <=? now)) (boot_delete_routes _) c Hd) as H1.
  change (write _) with (RouteStore.DeleteExpiredTerminalSessionRoutes now) in H1.
  destruct (RouteStore.DeleteExpiredTerminalSessionRoutes now c) as [[z|e] c1] eqn:Ed; [|done]. cbn [snd] in H1.
  apply write_ok in Ed. apply (f_equal snd) in Ed. cbn [snd] in Ed. pose proof (survivors_delete now (data c) (proj1 Hd)) as Hsv. rewrite Ed in Hsv.
  destruct (LoadActiveTerminalSessionRoutes now c1) as [[l|e] c2] eqn:El; [|done]. apply read_ok in El as [_ El].
  destruct (foldl _ _ l) as [[routes index]|]; [|done]. destruct (_ || _) in H; [done|]. injection H as <-.
  cbn in Hc'. injection Hc' as <-. by rewrite El.
Qed.

Lemma restored_leases now ttl c rv s : rows_wf (terminal_session_routes (data c)) ->
  RestoreTerminalSessionRoutes now (fresh_routes ttl (Some c) rv) = (Ok tt, s) ->
  forall sid t, terminalSessionToNode s !! sid = Some t ->
    ReservationID t = 0 /\ RecoveryState t = terminalSessionRecoveryUnavailable /\ now < LeaseExpiresUnixMs t.
Proof.
  intros Hwf H. pose proof (restore_cases now ttl c rv Hwf) as Hc. cbv zeta in Hc. rewrite H in Hc. destruct Hc as (_&_&Htab&_).
  intros sid t. rewrite Htab, lookup_fmap. destruct (keep _ _ !! sid) as [row|] eqn:E; [|done]. intros [= <-].
  apply lookup_keep_Some in E as [_ E]. apply Z.leb_gt in E. done.
Qed.

End database.
(** ** The console after its start *)
Section start.

Lemma configured_routes cfg hasher hashes c :
  svc_routes (configured_service cfg hasher hashes c) = fresh_routes defaultTerminalRouteTTL (Some c) None.
Proof. unfold configured_service, SetTaskRetention. by destruct (_ <=? 0). Qed.

Lemma svc_config_routes r s : svc_config (with_svc_routes r s) = svc_config s.
Proof. reflexivity. Qed.

Lemma configured_proxy cfg hasher hashes c :
  cfg_proxy (svc_config (configured_service cfg hasher hashes c)) =
  mkProxySettings (ConsoleConfig.ProxyEnabled cfg) (ConsoleConfig.ProxyAllowedWorkerCIDRs cfg) (ConsoleConfig.ProxyAllowedWorkerPorts cfg)
    (ConsoleConfig.ProxyAllowedDirectDomains cfg).
Proof. reflexivity. Qed.

Lemma boot_proxy env cfg s c h w : boot_db (data c) -> is_zero (be_proxyNow env) = false ->
  routes_ok (svc_routes s) -> terminalRouteStore (svc_routes s) = Some c ->
  terminalSessionToNode (svc_routes s) = restored_route <$> terminal_session_routes (data c) ->
  start_proxy env cfg s = Ok (Some h, w) ->
  routes_ok (svc_routes (w_svc w)) /\ revoked (svc_routes (w_svc w)) = Some [] /\
  terminalSessionToNode (svc_routes (w_svc w)) = restored_route <$> terminal_session_routes (data c) /\
  (forall k r, w_routes w !! k = Some r -> record_ok (terminalSessionToNode (svc_routes (w_svc w))) k r) /\
  (forall k, w_routes w !! k =
    proxy_routes (data c) !! k ≫= fun p => if p_ExpiresAtUnixMs p <=? unix_milli (be_proxyNow env) then None else Some (restored k p)).
Proof.
  intros Hd Hz Hok Hc Htab H. unfold start_proxy in H. destruct (negb _); [done|]. case_bool_decide; [done|].
  destruct (NewProxyRouteHandler _ _ _ _ _ _ _) as [h'|]; [|done].
  pose proof (Restore_spec (be_proxyNow env) (be_proxyNow env) (mkWorld s ∅) (data c) Hz) as Hr. cbn [w_svc w_routes] in Hr.
  destruct (Restore _ _ _) as [[[]|e] w1]; [|done]. injection H as <- <-.
  destruct Hr as (Hl&Ht&_&Hok1); [by unfold svc_db, svc_conn; rewrite Hc|apply Hd|done|]. cbn [w_svc w_routes with_svc].
  rewrite Htab in Ht. destruct (Hok1 Hok) as [A B C D]. change (terminalSessionToNode (svc_routes (SetProxyRouteSessionRevoker (w_svc w1))))
    with (terminalSessionToNode (svc_routes (w_svc w1))).
  split; [by split|]. split; [done|]. split; [exact Ht|]. split; [|exact Hl].
  intros k r. rewrite Hl. destruct (proxy_routes (data c) !! k) as [p|] eqn:Ek; cbn; [|done]. destruct (_ <=? _); [done|]. intros [= <-].
  destruct Hd as (Hp&Hwf&Hn). destruct (Hn k p Ek) as (Hk&Ho&Hone&Hs&Hsne&Hlen&Hsc&_&_&Hport&_). destruct (Hp k p Ek) as (row&Hrow&Hnode).
  unfold record_ok, restored. cbn. split_and!; try done; try lia. exists (restored_route row). rewrite Ht, lookup_fmap, Hrow. split; [done|].
  cbn. destruct (Hwf _ _ Hrow) as (_&Htr&_). congruence.
Qed.

Lemma main_cases env c co : boot_db (data c) -> hex_values (ie_ids (be_init env)) -> main env c = Ok co ->
  exists c1 hashes s, boot_db (data c1) /\ survivors (be_openMs env) (data c) (data c1) /\
    run_routes (RestoreTerminalSessionRoutes (unix_milli (be_routesNow env))) (configured_service (co_config co) (be_hasher env) hashes c1) = (Ok tt, s) /\
    start_proxy env (co_config co) s = Ok (co_proxy co, co_world co).
Proof.
  intros Hd Hhex H. unfold main in H. destruct (ConsoleConfig.Load _) as [cfg|]; [|done]. destruct (be_open env); [|done].
  pose proof (boot_startup (ConsoleConfig.TaskRetentionDays cfg) (be_openMs env) c Hd) as H1.
  destruct (startup_recovery _ _ c) as [[[]|] c1] eqn:Es; [|done]. cbn [snd] in H1. apply startup_survivors in Es; [|apply Hd].
  pose proof (init_preserves boot_db (be_auth env) (be_init env) (ConsoleConfig.DashboardUsername cfg) (ConsoleConfig.DashboardPassword cfg)
    (ConsoleConfig.InitialAdminAPIKey cfg) Hhex c1 H1) as H2.
  pose proof (init_keeps_routes (data c1) (be_auth env) (be_init env) (ConsoleConfig.DashboardUsername cfg) (ConsoleConfig.DashboardPassword cfg)
    (ConsoleConfig.InitialAdminAPIKey cfg) c1 (conj eq_refl eq_refl)) as [K1 K2].
  destruct (InitializeAdminAccount _ _ _ _ _ c1) as [[admin|] c2]; [|done]. cbn [snd] in H2, K1, K2.
  assert (Preserves (fun d => d = data c2) ListCredentialHashes) as H3.
  { unfold ListCredentialHashes. apply ok_or_else, preserves_bind; [apply preserves_read|intros; apply _]. }
  specialize (H3 c2 eq_refl).
  destruct (ListCredentialHashes c2) as [[hashes|] c3] eqn:El; [|done]. cbn [snd] in H3.
  unfold start_service in H. destruct (run_routes _ _) as [[[]|] s] eqn:Er; [|done]. destruct (start_proxy env cfg s) as [[proxy w]|] eqn:Ep; [|done].
  destruct (if ConsoleConfig.ExportFileEnabled cfg then _ else _); [|done]. destruct (dashboard_key cfg); [|done]. injection H as <-.
  exists c3, hashes, s. cbn [co_config co_proxy co_world]. rewrite H3. split; [exact H2|]. split; [by eapply survivors_same|]. split; [exact Er|exact Ep].
Qed.

Lemma start_enabled env cfg s h w : start_proxy env cfg s = Ok (Some h, w) -> ConsoleConfig.ProxyEnabled cfg = true.
Proof. unfold start_proxy. by destruct (ConsoleConfig.ProxyEnabled cfg). Qed.

Lemma start_config env cfg s h w : start_proxy env cfg s = Ok (Some h, w) -> svc_config (w_svc w) = svc_config s.
Proof.
  unfold start_proxy. destruct (negb _); [done|]. case_bool_decide; [done|]. destruct (NewProxyRouteHandler _ _ _ _ _ _ _); [|done].
  assert (forall wall now w0, svc_config (w_svc (Restore wall now w0).2) = svc_config (w_svc w0)) as Hr.
  { assert (forall A (q : M A) w0, svc_config (w_svc (run_store q w0).2) = svc_config (w_svc w0)) as Hq.
    { intros A q w0. unfold run_store, run_db. destruct (svc_conn _); [|done]. by destruct (q _). }
    intros wall now w0. unfold Restore. pose proof (Hq _ (RouteStore.DeleteExpiredProxyRoutes (unix_milli (if is_zero now then wall else now))) w0) as E1.
    destruct (run_store _ w0) as [[z|] w1]; cbn [snd] in *; [|done].
    pose proof (Hq _ (LoadActiveProxyRoutes (unix_milli (if is_zero now then wall else now))) w1) as E2.
    destruct (run_store _ w1) as [[l|] w2]; cbn [snd] in *; [|congruence]. destruct (load_records _ _ _); [|cbn; congruence].
    destruct (negb _); cbn; congruence. }
  specialize (Hr (be_proxyNow env) (be_proxyNow env) (mkWorld s ∅)). destruct (Restore _ _ _) as [[[]|] w1]; [|done].
  by intros [= _ <-].
Qed.

End start.

End StartupProps.
Export StartupProps.
