(* ===== verification/StartupClaims.v ===== *)
(** What the start of the console guarantees: settings within their ranges,
    lists of a configuration file that read back, and restored routes that
    satisfy the invariant of every later step. *)
From stdpp Require Import pretty.
From S2P Require Import Prelude.
From S2P Require Import Json.
From S2P Require Import Net.
From S2P Require Import AuthText.
From S2P Require Import Sql.
From S2P Require Import Proto.
From S2P Require Import JsonText.
From S2P Require Import ProxyToken.
From S2P Require Import Url.
From S2P Require Import Registry.
From S2P Require Import RouteStore.
From S2P Require Import TerminalRoutes.
From S2P Require Import TerminalRoutesProps.
From S2P Require Import SessionRuntime.
From S2P Require Import Service.
From S2P Require Import AuthSql.
From S2P Require Import Accounts.
From S2P Require Import AuthProps.
From S2P Require Import OwnerScope.
From S2P Require Import Proxy.
From S2P Require Import ProxyProps.
From S2P Require Import DispatchProps.
From S2P Require Import AuthClaims.
From S2P Require Import ProxyClaims.
From S2P Require Import Source.
From S2P Require Import ConsoleConfig.
From S2P Require Import Startup.
From S2P Require Import StartupProps.
Import Source.

Local Open Scope Z_scope.

Module StartupClaims.

(** ** Settings *)
Section settings.

Lemma dedup_elem {A} `{EqDecision A} (l : list A) : forall seen x, x ∈ dedup seen l <-> x ∈ l /\ x ∉ seen.
Proof.
  induction l as [|y l IH]; intros seen x; cbn; [set_solver|]. case_bool_decide as E.
  - rewrite IH. set_solver.
  - rewrite !elem_of_cons, IH. destruct (decide (x = y)) as [->|Hne]; set_solver.
Qed.

Lemma dedup_nodup {A} `{EqDecision A} (l : list A) : forall seen, NoDup (dedup seen l).
Proof.
  induction l as [|y l IH]; intros seen; cbn; [constructor|]. case_bool_decide; [apply IH|]. constructor; [|apply IH].
  rewrite dedup_elem. set_solver.
Qed.

Lemma ports_ok raw : NoDup (ConsoleConfig.parsePortList raw) /\ Forall (fun port => 1 <= port <= 65535) (ConsoleConfig.parsePortList raw).
Proof.
  unfold ConsoleConfig.parsePortList. case_bool_decide; [split; [apply NoDup_singleton|by repeat constructor]|].
  destruct (ConsoleConfig.port_items _) as [items|]; [|split; constructor]. split; [apply dedup_nodup|]. apply Forall_forall. intros port Hp.
  apply dedup_elem in Hp as [Hp _]. apply list_elem_of_In, filter_In in Hp as [_ Hp]. unfold ConsoleConfig.valid_port in Hp. lia.
Qed.

Lemma masked_contains q : 0 <= p_bits q <= 32 \/ (0 <= p_bits q <= 128 /\ forall n, p_addr q <> V4 n) -> Zone (p_addr q) = "" ->
  ConsoleConfig.Masked (ConsoleConfig.Masked q) = ConsoleConfig.Masked q /\ Contains (ConsoleConfig.Masked q) (p_addr q) = true.
Proof.
  intros Hb Hz. destruct q as [[n|n z] bits]; cbn in *.
  - assert (0 < 2 ^ (32 - bits)) by (apply Z.pow_pos_nonneg; destruct Hb as [|[_ Hb]]; [lia..|by destruct (Hb n)]).
    unfold ConsoleConfig.Masked, Contains. cbn. rewrite Z.div_mul by lia. split; [done|apply Z.eqb_refl].
  - assert (0 < 2 ^ (128 - bits)) by (apply Z.pow_pos_nonneg; lia).
    unfold ConsoleConfig.Masked, Contains. cbn. subst z. rewrite Z.div_mul by lia. split; [done|apply Z.eqb_refl].
Qed.

Lemma parse_prefix s q : ConsoleConfig.ParsePrefix s = Some q ->
  Zone (p_addr q) = "" /\ (0 <= p_bits q <= 32 \/ (0 <= p_bits q <= 128 /\ forall n, p_addr q <> V4 n)).
Proof.
  unfold ConsoleConfig.ParsePrefix. destruct (rcut _ _) as [[addr bits]|]; [|done]. destruct (ParseAddr addr) as [ip|]; [|done].
  case_bool_decide; cbn [negb]; [|done]. destruct (match bits with String _ (String _ _) => _ | _ => _ end); [done|].
  destruct (Atoi bits) as [n|]; [|done]. destruct (_ || _) eqn:E; [done|]. intros [= <-]. cbn. split; [done|]. bool_prop. destruct ip; [left; lia|right]. split; [lia|done].
Qed.

(** A network as it is configured: it contains the address it was written with. *)
Lemma cidrs_ok raw : NoDup (ConsoleConfig.parseCIDRList raw) /\
  Forall (fun q => ConsoleConfig.Masked q = q /\ exists item p, ConsoleConfig.ParsePrefix item = Some p /\ q = ConsoleConfig.Masked p /\
    Contains q (p_addr p) = true) (ConsoleConfig.parseCIDRList raw).
Proof.
  unfold ConsoleConfig.parseCIDRList. case_bool_decide; [split; constructor|]. destruct (text_items _) as [items|]; [|split; constructor].
  split; [apply dedup_nodup|]. apply Forall_forall. intros q Hq. apply dedup_elem in Hq as [Hq _].
  apply list_elem_of_omap in Hq as (item&_&Hq). apply fmap_Some in Hq as (p&Hp&->). pose proof (parse_prefix _ _ Hp) as [Hz Hb].
  destruct (masked_contains p Hb Hz) as [H1 H2]. split; [done|]. by exists (trim item), p.
Qed.

Lemma domains_ok raw : NoDup (ConsoleConfig.parseDomainList raw) /\
  Forall (fun domain => domain <> "" /\ any_char (in_set "/:@?#*") domain = false) (ConsoleConfig.parseDomainList raw).
Proof.
  unfold ConsoleConfig.parseDomainList. destruct (if has_prefix _ _ then _ else _) as [items|]; [|split; constructor].
  split; [apply dedup_nodup|]. apply Forall_forall. intros domain Hd. apply dedup_elem in Hd as [Hd _].
  apply list_elem_of_In, filter_In in Hd as [_ Hd]. by bool_prop.
Qed.

End settings.

(** Whatever the environment and the configuration file contain, the
    settings the console runs with are in their ranges: route keys of 8 to 26
    characters, positive limits, timeouts and retention, distinct valid ports,
    distinct networks that are masked and contain the address they were written
    with, distinct domains that are plain names, and a known log level, log
    format and export schema. *)
Theorem settings_are_in_range p c : ConsoleConfig.Load p = Ok c ->
  8 <= ConsoleConfig.ProxyRouteKeyLength c <= 26 /\ 0 < ConsoleConfig.ProxyRouteMaxPerAccount c /\ 0 < ConsoleConfig.ProxyRouteMaxPerSession c /\
  0 < ConsoleConfig.DBBusyTimeoutMS c /\ 0 < ConsoleConfig.TaskRetentionDays c /\
  NoDup (ConsoleConfig.ProxyAllowedWorkerPorts c) /\ Forall (fun port => 1 <= port <= 65535) (ConsoleConfig.ProxyAllowedWorkerPorts c) /\
  NoDup (ConsoleConfig.ProxyAllowedWorkerCIDRs c) /\
  Forall (fun q => ConsoleConfig.Masked q = q /\ exists item p, ConsoleConfig.ParsePrefix item = Some p /\ q = ConsoleConfig.Masked p /\
    Contains q (p_addr p) = true) (ConsoleConfig.ProxyAllowedWorkerCIDRs c) /\
  NoDup (ConsoleConfig.ProxyAllowedDirectDomains c) /\
  Forall (fun domain => domain <> "" /\ any_char (in_set "/:@?#*") domain = false) (ConsoleConfig.ProxyAllowedDirectDomains c) /\
  ConsoleConfig.LogLevel c ∈ ["debug"; "info"; "warn"; "error"] /\ ConsoleConfig.LogFormat c ∈ ["json"; "text"] /\
  ConsoleConfig.ExportReturnSchema c ∈ ["ALL"; "SIGNED_URL"; "OBJECTKEY"] /\ ConsoleConfig.ComputerUseSessionIDPrefix c <> "".
Proof.
  unfold ConsoleConfig.Load. destruct (newSource _ _ _) as [s|]; [|done]. intros [= <-].
  cbn [ConsoleConfig.load_config ConsoleConfig.ProxyRouteKeyLength ConsoleConfig.ProxyRouteMaxPerAccount ConsoleConfig.ProxyRouteMaxPerSession
    ConsoleConfig.DBBusyTimeoutMS ConsoleConfig.TaskRetentionDays ConsoleConfig.ProxyAllowedWorkerPorts ConsoleConfig.ProxyAllowedWorkerCIDRs
    ConsoleConfig.ProxyAllowedDirectDomains ConsoleConfig.LogLevel ConsoleConfig.LogFormat ConsoleConfig.ExportReturnSchema
    ConsoleConfig.ComputerUseSessionIDPrefix].
  pose proof (int_value_ok ConsoleConfig.envPrefix (fun n => (8 <=? n) && (n <=? 26)) s "CONSOLE_PROXY_ROUTE_KEY_LENGTH" 26 eq_refl) as Hk.
  split; [change (8 <= int_value ConsoleConfig.envPrefix (fun n => (8 <=? n) && (n <=? 26)) s "CONSOLE_PROXY_ROUTE_KEY_LENGTH" 26 <= 26); cbv beta in Hk; lia|].
  do 4 (split; [by apply positive_int|]). split; [apply ports_ok|]. split; [apply ports_ok|]. split; [apply cidrs_ok|]. split; [apply cidrs_ok|].
  split; [apply domains_ok|]. split; [apply domains_ok|]. split; [apply log_level_ok|]. split; [apply log_format_ok|]. split.
  - unfold ConsoleConfig.exportReturnSchema. case_bool_decide; [done|by left].
  - unfold ConsoleConfig.computerUseSessionIDPrefix. by case_bool_decide.
Qed.

(** ** Lists of the configuration file *)
Section lists.

Lemma no_lead_rev_plain c s : plain c = true -> no_lead_rev (String c s) = true.
Proof.
  intros Hc. destruct s as [|b s]; [unfold plain in Hc; cbn; by destruct (is_space1 c)|].
  unfold no_lead_rev. assert (is_space1 c = false) as -> by (unfold plain in Hc; by destruct (is_space1 c)).
  rewrite (proj2 (plain_space2 c b Hc)). cbn. destruct s as [|d s]; [done|]. by rewrite (proj2 (proj2 (plain_space3 c d b Hc))).
Qed.

Lemma trim_enclosed a s b : plain a = true -> plain b = true -> trim (String a (s +:+ String b "")) = String a (s +:+ String b "").
Proof.
  intros Ha Hb. set (x := String a (s +:+ String b "")). unfold trim. rewrite no_lead_trim_left by by apply no_lead_plain. unfold trim_right.
  assert (exists t, String.rev x = String b t) as [t Ht].
  { exists (String.rev (String a s)). unfold x. rewrite <- string_app_cons, string_rev_app. done. }
  rewrite no_lead_rev_trim; [apply string_rev_involutive|]. rewrite Ht. by apply no_lead_rev_plain.
Qed.

Lemma dec_strings l : forall old, dec_items dec_string "" old (JString <$> l) = (l, false).
Proof. induction l as [|x l IH]; intros old; cbn; [done|]. by rewrite IH. Qed.

Lemma strings_depth l : json_depth (JArray (JString <$> l)) = 1%nat.
Proof. cbn. f_equal. induction l as [|x l IH]; [done|]. exact IH. Qed.

Lemma unmarshal_strings l old : Forall (fun item => utf8_ok item = true) l ->
  unmarshal_items dec_string "" old (json_text (JArray (JString <$> l))) = Some l.
Proof.
  intros Hl. unfold unmarshal_items. rewrite read_json_text.
  - by rewrite dec_strings.
  - cbn. induction Hl as [|x l Hx _ IH]; [done|]. cbn. by rewrite Hx.
  - rewrite strings_depth. unfold maxNestingDepth. lia.
Qed.

Lemma array_value {A} (item : A -> toml) (text : A -> string) l : (forall x, encodeValue ConsoleConfig.encodeTable (item x) = Some (text x)) ->
  encodeValue ConsoleConfig.encodeTable (TArray (item <$> l)) = Some (json_text (JArray (JString <$> (text <$> l)))).
Proof.
  intros Hi. cbn. unfold encodeArray. assert (mapM id (map (encodeValue ConsoleConfig.encodeTable) (item <$> l)) = Some (text <$> l)) as ->; [|done].
  induction l as [|x l IH]; [done|]. cbn. rewrite Hi. cbn. by rewrite IH.
Qed.

Lemma array_trimmed l : trim (json_text (JArray l)) = json_text (JArray l) /\ has_prefix "[" (json_text (JArray l)) = true /\ json_text (JArray l) <> "".
Proof. rewrite array_text. split; [by apply trim_enclosed|]. split; [apply (has_prefix_app "[")|discriminate]. Qed.

Lemma ascii_utf8 s : forall_char (fun a => byte a <? 0x80) s = true -> utf8_ok s = true.
Proof.
  unfold utf8_ok. induction s as [|a s IH]; [done|]. cbn [forall_char String.length utf8_runes valid_rune]. intros [Ha Hs]%andb_true_iff.
  rewrite Ha. by apply IH.
Qed.

Lemma digits_ascii s : forall_char json_digit s = true -> forall_char (fun a => byte a <? 0x80) s = true.
Proof. apply forall_char_mono. intros a. unfold json_digit, between. lia. Qed.

Lemma pretty_utf8 (z : Z) : utf8_ok (pretty z) = true.
Proof.
  apply ascii_utf8. destruct z as [|p|p]; [done|..].
  - change (pretty (Z.pos p)) with (pretty (N.pos p)). destruct (pretty_pos_text p) as (c&t&->&_&_&H&_). by apply digits_ascii.
  - change (pretty (Z.neg p)) with ("-" +:+ pretty (N.pos p)). destruct (pretty_pos_text p) as (c&t&->&_&_&H&_).
    rewrite forall_char_app. by apply digits_ascii.
Qed.

Lemma numbers_printable (l : list Z) : printable (JArray (JString <$> (pretty <$> l))) = true.
Proof. cbn. induction l as [|z l IH]; [done|]. cbn. by rewrite pretty_utf8, IH. Qed.

(** Numbers are written as texts, which the reader of ports does not take. *)
Lemma dec_int_strings x l old : (dec_items dec_int 0 old (JString <$> (x :: l))).2 = true.
Proof. cbn. by destruct (dec_items _ _ _ _). Qed.

End lists.

(** Lists of a configuration file read back: an array of texts is written
    as the text of an environment variable from which the networks, the direct
    domains and the hidden tools are read item by item, as from the array
    itself. *)
Theorem file_lists_read_back l s key : Forall (fun item => utf8_ok item = true) l ->
  exists text, encodeValue ConsoleConfig.encodeTable (TArray (TString <$> l)) = Some text /\
    ConsoleConfig.parseCIDRList text = dedup [] (omap (fun item => ConsoleConfig.Masked <$> ConsoleConfig.ParsePrefix (trim item)) l) /\
    ConsoleConfig.parseDomainList text =
      dedup [] (List.filter (fun domain => negb (bool_decide (domain = "")) && negb (any_char (in_set "/:@?#*") domain))
                  ((fun item => trim_suffix "." (to_lower (trim item))) <$> l)) /\
    (get ConsoleConfig.envPrefix s key = text -> ConsoleConfig.stringSet s key =
      list_to_set (List.filter (fun item => negb (bool_decide (item = ""))) (ConsoleConfig.normalizeToolKey <$> l))).
Proof.
  intros Hl. exists (json_text (JArray (JString <$> l))).
  split; [rewrite (array_value TString id) by done; by rewrite list_fmap_id|].
  destruct (array_trimmed (JString <$> l)) as (Ht&Hp&Hne). split_and!.
  - unfold ConsoleConfig.parseCIDRList, text_items. rewrite Ht, bool_decide_false, Hp by done. by rewrite unmarshal_strings.
  - unfold ConsoleConfig.parseDomainList. rewrite Ht, Hp. by rewrite unmarshal_strings.
  - intros Hk. unfold ConsoleConfig.stringSet, ConsoleConfig.cget, text_items. rewrite Hk, Ht, bool_decide_false, Hp by done. by rewrite unmarshal_strings.
Qed.

(** The ports of a configuration file are lost: every array of numbers is read
    as the empty list, also the one of the example that comes with the console. *)
Example file_ports_are_lost x l : exists text,
  encodeValue ConsoleConfig.encodeTable (TArray (TInt <$> (x :: l))) = Some text /\ ConsoleConfig.parsePortList text = [].
Proof.
  eexists. split; [by apply (array_value TInt pretty)|]. set (texts := pretty <$> (x :: l)).
  destruct (array_trimmed (JString <$> texts)) as (Ht&Hp&Hne). unfold ConsoleConfig.parsePortList, ConsoleConfig.port_items, unmarshal_items.
  rewrite Ht, bool_decide_false, Hp by done. rewrite read_json_text.
  - pose proof (dec_int_strings (pretty x) (pretty <$> l) []) as H. change (pretty x :: (pretty <$> l)) with texts in H.
    destruct (dec_items _ _ _ _) as [xs bad]. cbn in H. by rewrite H.
  - apply numbers_printable.
  - rewrite strings_depth. unfold maxNestingDepth. lia.
Qed.

(** ** The start *)

(** A stored terminal session route that outlives the start. *)
Definition live_row (env : boot_env) (row : RouteRow) : Prop :=
  be_openMs env < r_LeaseExpiresUnixMs row /\ unix_milli (be_routesNow env) < r_LeaseExpiresUnixMs row.

Section restored.
Context (env : boot_env) (d d1 d2 : DB) (H1 : survivors (be_openMs env) d d1) (H2 : survivors (unix_milli (be_routesNow env)) d1 d2).

Lemma live_sessions sid row : terminal_session_routes d2 !! sid = Some row <-> terminal_session_routes d !! sid = Some row /\ live_row env row.
Proof. rewrite (sv_sessions _ _ _ H2), (sv_sessions _ _ _ H1). unfold live_row. tauto. Qed.

Lemma restored_sessions sid t : (restored_route <$> terminal_session_routes d2) !! sid = Some t <->
  exists row, terminal_session_routes d !! sid = Some row /\ live_row env row /\ t = restored_route row.
Proof.
  rewrite lookup_fmap, fmap_Some. split.
  - intros (row&[Hr Hv]%live_sessions&->). by exists row.
  - intros (row&Hr&Hv&->). exists row. by rewrite live_sessions.
Qed.

Lemma restored_proxies k r :
  (proxy_routes d2 !! k ≫= fun p => if p_ExpiresAtUnixMs p <=? unix_milli (be_proxyNow env) then None else Some (restored k p)) = Some r <->
  exists p row, proxy_routes d !! k = Some p /\ unix_milli (be_proxyNow env) < p_ExpiresAtUnixMs p /\
    terminal_session_routes d !! p_ScopedSessionID p = Some row /\ live_row env row /\ r = restored k p.
Proof.
  rewrite bind_Some. split.
  - intros (p&Hp&E). destruct (_ <=? _) eqn:Ee; [done|]. apply Z.leb_gt in Ee. injection E as <-.
    apply (sv_proxies _ _ _ H2) in Hp as [Hp (row&Hrow&Hlive)]. apply (sv_proxies _ _ _ H1) in Hp as [Hp _].
    apply (sv_sessions _ _ _ H1) in Hrow as [Hrow Hopen]. by exists p, row.
  - intros (p&row&Hp&He&Hrow&[Ho Hr]&->). exists p. rewrite (proj2 (Z.leb_gt _ _)) by done. split; [|done].
    apply (sv_proxies _ _ _ H2). split; [apply (sv_proxies _ _ _ H1); eauto|]. exists row. split; [|done]. by apply (sv_sessions _ _ _ H1).
Qed.

End restored.

(** C15: A console that starts does so in a consistent state: its terminal
    sessions are exactly those of the database whose lease has not ended,
    unavailable until their workers report them; its proxy routes are exactly the
    stored ones that have not expired and whose session has not, with the stored
    key, owner, session, worker, port and times, each leading to its owner's
    session on its worker; the settings of the proxy are those of the
    configuration; so the invariant of every later step holds, if the stored
    routes are within the configured limits. *)
Theorem console_starts_consistently env c co h :
  boot_db (data c) -> hex_values (ie_ids (be_init env)) -> is_zero (be_proxyNow env) = false ->
  main env c = Ok co -> co_proxy co = Some h ->
  let sessions := terminalSessionToNode (svc_routes (w_svc (co_world co))) in
  (forall sid t, sessions !! sid = Some t <->
     exists row, terminal_session_routes (data c) !! sid = Some row /\ live_row env row /\ t = restored_route row) /\
  (forall sid t, sessions !! sid = Some t -> ReservationID t = 0 /\ RecoveryState t = terminalSessionRecoveryUnavailable) /\
  (forall k r, w_routes (co_world co) !! k = Some r <->
     exists p row, proxy_routes (data c) !! k = Some p /\ unix_milli (be_proxyNow env) < p_ExpiresAtUnixMs p /\
       terminal_session_routes (data c) !! p_ScopedSessionID p = Some row /\ live_row env row /\ r = restored k p) /\
  (forall k r, w_routes (co_world co) !! k = Some r -> record_ok sessions k r) /\
  cfg_proxy (svc_config (w_svc (co_world co))) = mkProxySettings true (ConsoleConfig.ProxyAllowedWorkerCIDRs (co_config co))
    (ConsoleConfig.ProxyAllowedWorkerPorts (co_config co)) (ConsoleConfig.ProxyAllowedDirectDomains (co_config co)) /\
  (limits_ok h (w_routes (co_world co)) -> world_ok h (co_world co)).
Proof.
  intros Hd Hhex Hz H Hh sessions. destruct (main_cases env c co Hd Hhex H) as (c1&hashes&s&Hd1&Hsv1&Hr&Hp). rewrite Hh in Hp.
  unfold run_routes in Hr. destruct (RestoreTerminalSessionRoutes _ _) as [u rt] eqn:Er. injection Hr as -> <-.
  rewrite configured_routes in Er. pose proof (configured_proxy (co_config co) (be_hasher env) hashes c1) as Hset.
  set (s0 := configured_service _ _ _ _) in *. clearbody s0. pose proof (restored_leases _ _ _ _ _ (proj1 (proj2 Hd1)) Er) as Hlease.
  destruct (boot_routes _ _ _ _ _ Hd1 Er) as (Hok&_&c2&Hc2&Hd2&Hsv2&Htab).
  pose proof (start_config _ _ _ _ _ Hp) as Hcfg. destruct (boot_proxy env _ (with_svc_routes rt s0) c2 h _ Hd2 Hz Hok Hc2 Htab Hp) as (Hok'&Hrv&Htab'&Hrec&Hl).
  fold sessions in Htab', Hrec. split_and!.
  - intros sid t. rewrite Htab'. by eapply restored_sessions.
  - intros sid t. rewrite Htab', <- Htab. intros Ht. by destruct (Hlease sid t Ht) as (?&?&_).
  - intros k r. rewrite Hl. by eapply restored_proxies.
  - exact Hrec.
  - rewrite Hcfg, svc_config_routes, Hset. by rewrite (start_enabled _ _ _ _ _ Hp).
  - intros Hlim. by split.
Qed.

(** ** Witnesses *)
Definition demo_vars : gmap string string :=
  list_to_map [("CONSOLE_PROXY_ENABLED", " Yes"); ("CONSOLE_PROXY_PUBLIC_BASE_DOMAIN", "Boxes.Example.com");
               ("CONSOLE_PROXY_INTERNAL_AUTH_TOKEN", "internal"); ("CONSOLE_PROXY_ROUTE_MAX_PER_SESSION", "-3")].
Definition demo_file : list (string * toml) :=
  [("proxy_allowed_worker_cidrs", TArray [TString "10.0.0.1/8"; TString "nonsense"]);
   ("proxy", TTable [("Route", TTable [("key_length", TInt 27); ("ttl_sec", TInt 60)])]); ("hidden_tools", TString "Echo, ")].
Definition demo_process : process :=
  mkProcess (fun key => demo_vars !! key) (Some "/opt/config.toml") (fun _ => true) (fun _ => Some (Ok demo_file)).
Definition demo_loaded : ConsoleConfig.Config :=
  match ConsoleConfig.Load demo_process with Ok c => c | Err _ => ConsoleConfig.load_config (mkSource "" ∅ (fun _ => None)) end.

Example demo_settings :
  ConsoleConfig.ProxyEnabled demo_loaded = true /\ ConsoleConfig.ProxyRouteTTL demo_loaded = 60 * second /\
  ConsoleConfig.ProxyRouteKeyLength demo_loaded = 26 /\ ConsoleConfig.ProxyRouteMaxPerSession demo_loaded = 2 /\
  ConsoleConfig.ProxyAllowedWorkerCIDRs demo_loaded = [mkPrefix (V4 (10 * 2 ^ 24)) 8] /\ ConsoleConfig.HiddenTools demo_loaded = {[ "echo" ]} /\
  ConsoleConfig.ProxyAllowedWorkerPorts demo_loaded = [8091] /\ ConsoleConfig.OfflineTTL demo_loaded = 15 * second.
Proof. split_and!; vm_compute; reflexivity. Qed.

Lemma settings_are_in_range_witness : 8 <= ConsoleConfig.ProxyRouteKeyLength demo_loaded <= 26.
Proof.
  assert (ConsoleConfig.Load demo_process = Ok demo_loaded) as E by (vm_compute; reflexivity).
  destruct (settings_are_in_range demo_process demo_loaded E) as [H _]. exact H.
Defined.

Lemma file_lists_read_back_witness : exists text,
  encodeValue ConsoleConfig.encodeTable (TArray [TString "10.0.0.1/8"; TString "nonsense"]) = Some text /\
  ConsoleConfig.parseCIDRList text = [mkPrefix (V4 (10 * 2 ^ 24)) 8].
Proof.
  destruct (file_lists_read_back ["10.0.0.1/8"; "nonsense"] (mkSource "" ∅ (fun _ => None)) "X") as (text&Ht&Hc&_).
  - repeat (apply List.Forall_cons; [vm_compute; reflexivity|]). apply List.Forall_nil.
  - exists text. split; [exact Ht|]. rewrite Hc. vm_compute. reflexivity.
Defined.

Definition demo_stored_key : string := "aaaaaaaabbbbbbbbccccccccdd".
Definition demo_stored : DB :=
  mkDB {[ "w1" := mkWorkerNode "sid" false "" "docker" "1" 0 1000 ]} ∅ ∅ ∅ ∅ {[ demo_tid := mkRouteRow "w1" 50000 1500 1500 1500 ]}
    {[ demo_stored_key := mkProxyRow "o1" "s1" demo_tid "w1" 8080 2000 3602000 ]}
    {[ "o1" := mkAccount "Bob" "bob" "h" "bcrypt" true 0 0 ]} ∅ ∅.
Definition demo_boot : boot_env :=
  mkBootEnv demo_process (Ok tt) 3000 AuthClaims.demo_cfg demo_init None (of_unix_milli 3000) (of_unix_milli 3000) (Ok tt).

Lemma demo_stored_ok : boot_db demo_stored.
Proof.
  unfold boot_db, parents, rows_wf, rows_named, demo_stored. cbn [proxy_routes terminal_session_routes]. split_and!.
  - intros k p [<- <-]%lookup_singleton_Some. exists (mkRouteRow "w1" 50000 1500 1500 1500). split; [apply lookup_singleton_eq|reflexivity].
  - intros sid row [<- <-]%lookup_singleton_Some. split_and!; vm_compute; (reflexivity || discriminate).
  - intros k p [<- <-]%lookup_singleton_Some. unfold row_named. split_and!; vm_compute; (reflexivity || discriminate).
Qed.

Definition demo_console : res console := main demo_boot (mkConn demo_stored []).

Definition demo_restored_map : gmap string proxyRouteRecord :=
  {[ demo_stored_key := restored demo_stored_key (mkProxyRow "o1" "s1" demo_tid "w1" 8080 2000 3602000) ]}.

Lemma demo_console_check :
  match demo_console with
  | Ok co => match co_proxy co with
             | Some h => bool_decide (w_routes (co_world co) = demo_restored_map) && (ph_maxPerAccount h =? 16) && (ph_maxPerSession h =? 2)
             | None => false
             end
  | Err _ => false
  end = true.
Proof. vm_compute. reflexivity. Qed.

Lemma demo_console_routes :
  match demo_console with
  | Ok co => match co_proxy co with
             | Some h => w_routes (co_world co) = demo_restored_map /\ ph_maxPerAccount h = 16 /\ ph_maxPerSession h = 2
             | None => False
             end
  | Err _ => False
  end.
Proof.
  pose proof demo_console_check as H. destruct demo_console as [co|]; [|discriminate H]. destruct (co_proxy co); [|discriminate H].
  apply andb_true_iff in H as [H H2]. apply andb_true_iff in H as [H H1]. apply bool_decide_eq_true in H. apply Z.eqb_eq in H1, H2. done.
Qed.

Lemma demo_limits h : ph_maxPerAccount h = 16 -> ph_maxPerSession h = 2 -> limits_ok h demo_restored_map.
Proof.
  intros H1 H2. split; intros; unfold owner_count, session_count.
  all: match goal with |- context[keep ?p ?m] => pose proof (keep_size_le p m) as Hs end.
  all: unfold demo_restored_map in *; rewrite map_size_singleton in Hs; lia.
Qed.

Lemma console_starts_consistently_witness :
  match demo_console with
  | Ok co => match co_proxy co with Some h => w_routes (co_world co) = demo_restored_map /\ world_ok h (co_world co) | None => False end
  | Err _ => False
  end.
Proof.
  assert (hex_values (ie_ids (be_init demo_boot))) as Hhex by (intros i h [= <-]; vm_compute; reflexivity).
  assert (is_zero (be_proxyNow demo_boot) = false) as Hz by (vm_compute; reflexivity).
  pose proof demo_console_routes as Hd. pose proof (console_starts_consistently demo_boot (mkConn demo_stored [])) as H. fold demo_console in H.
  destruct demo_console as [co|e]; [|exact Hd]. specialize (H co). destruct (co_proxy co) as [h|]; [|exact Hd]. destruct Hd as (Ew&E1&E2).
  destruct (H h demo_stored_ok Hhex Hz eq_refl eq_refl) as (_&_&_&_&_&Hw). split; [exact Ew|]. apply Hw. rewrite Ew. by apply demo_limits.
Defined.

End StartupClaims.
Export StartupClaims.
