(* ===== verification/ParseFloat.v ===== *)
(** strconv.ParseFloat with 64 bits: which texts it accepts and the exact value
    they denote.  The rounding to a float is kept as far as it decides whether
    the result overflows or is zero. *)
From S2P Require Import Prelude.
From S2P Require Import AuthText.
From S2P Require Import JsonText.

Module ParseFloat.

(** A finite value is a sign and a fraction. *)
Inductive float := FNaN | FInf (neg : bool) | FNum (neg : bool) (num den : Z).

Definition sign_of (s : string) : bool * string :=
  match s with
  | String a t => if Ascii.eqb a "-" then (true, t) else if Ascii.eqb a "+" then (false, t) else (false, s)
  | EmptyString => (false, s)
  end.

(** [special]. *)
Definition special (s : string) : option float :=
  if equal_fold s "nan" then Some FNaN else
  let '(neg, t) := sign_of s in
  if equal_fold t "inf" || equal_fold t "infinity" then Some (FInf neg) else None.

Definition hex_digit (a : ascii) : option Z :=
  if between 48 57 a then Some (byte a - 48) else
  if between 97 102 (lower_ascii a) then Some (byte (lower_ascii a) - 87) else None.
Definition digit_of (hex : bool) (a : ascii) : option Z :=
  if hex then hex_digit a else if between 48 57 a then Some (byte a - 48) else None.

(** The mantissa: its digits as one number, how many stood after the point,
    whether there was a digit and an underscore, and the rest. *)
Fixpoint mantissa (hex sawdot sawdigits under : bool) (m : Z) (frac : nat) (s : string)
    : Z * nat * bool * bool * string :=
  match s with
  | EmptyString => (m, frac, sawdigits, under, s)
  | String a t =>
      if Ascii.eqb a "_" then mantissa hex sawdot sawdigits true m frac t else
      if Ascii.eqb a "." then (if sawdot then (m, frac, sawdigits, under, s) else mantissa hex true sawdigits under m frac t) else
      match digit_of hex a with
      | Some d => mantissa hex sawdot true under (m * (if hex then 16 else 10) + d) (if sawdot then S frac else frac) t
      | None => (m, frac, sawdigits, under, s)
      end
  end.

(** The digits of an exponent, held below 100000. *)
Fixpoint exp_digits (e : Z) (under : bool) (s : string) : Z * bool * string :=
  match s with
  | EmptyString => (e, under, s)
  | String a t =>
      if Ascii.eqb a "_" then exp_digits e true t else
      if between 48 57 a then exp_digits (if e <? 10000 then e * 10 + (byte a - 48) else e) under t else (e, under, s)
  end.

Definition exponent (s : string) : option (Z * bool * string) :=
  let '(neg, t) := sign_of s in
  match t with
  | String a _ => if between 48 57 a then let '(e, under, rest) := exp_digits 0 false t in Some ((if neg then - e else e), under, rest) else None
  | EmptyString => None
  end.

(** [underscoreOK]: underscores stand between digits. *)
Inductive seen := SawStart | SawDigit | SawUnder | SawOther.
Fixpoint underscore_loop (hex : bool) (saw : seen) (s : string) : bool :=
  match s with
  | EmptyString => match saw with SawUnder => false | _ => true end
  | String a s =>
      match digit_of hex a with
      | Some _ => underscore_loop hex SawDigit s
      | None =>
          if Ascii.eqb a "_" then match saw with SawDigit => underscore_loop hex SawUnder s | _ => false end else
          match saw with SawUnder => false | _ => underscore_loop hex SawOther s end
      end
  end.
Definition base_prefix (s : string) : option (bool * string) :=
  match s with
  | String "0" (String b t) =>
      let b := lower_ascii b in
      if Ascii.eqb b "x" then Some (true, t) else if Ascii.eqb b "b" || Ascii.eqb b "o" then Some (false, t) else None
  | _ => None
  end.
Definition underscoreOK (s : string) : bool :=
  let s := (sign_of s).2 in
  match base_prefix s with
  | Some (hex, t) => underscore_loop hex SawDigit t
  | None => underscore_loop false SawStart s
  end.

(** [num / den] scaled by [base ^ e]. *)
Definition scaled (num base e : Z) : Z * Z := if 0 <=? e then (num * base ^ e, 1) else (num, base ^ (- e)).

Definition overflows (num den : Z) : bool := den * (2 ^ 1024 - 2 ^ 970) <=? num.
Definition rounds_to_zero (num den : Z) : bool := num * 2 ^ 1075 <=? den.

(** [readFloat] and the range check. *)
Definition ParseFloat (s : string) : option float :=
  match special s with
  | Some f => Some f
  | None =>
      let '(neg, t) := sign_of s in
      let hex := match t with String "0" (String x (String _ _)) => Ascii.eqb (lower_ascii x) "x" | _ => false end in
      let '(m, frac, sawdigits, under, rest) := mantissa hex false false false 0 0 (if hex then drop_str 2 t else t) in
      if negb sawdigits then None else
      match rest with
      | String c rest' =>
          if Ascii.eqb (lower_ascii c) (if hex then "p" else "e") then
            match exponent rest' with
            | Some (e, under', "") =>
                let '(num, den) := if hex then scaled m 2 (e - 4 * Z.of_nat frac) else scaled m 10 (e - Z.of_nat frac) in
                if (under || under') && negb (underscoreOK s) then None else
                if overflows num den then None else Some (FNum neg num den)
            | _ => None
            end
          else None
      | EmptyString =>
          if hex then None else
          let '(num, den) := scaled m 10 (- Z.of_nat frac) in
          if under && negb (underscoreOK s) then None else
          if overflows num den then None else Some (FNum neg num den)
      end
  end.

(** [parsed <= 0]; it is false for NaN. *)
Definition not_positive (f : float) : bool :=
  match f with
  | FNaN => false
  | FInf neg => neg
  | FNum neg num den => neg || rounds_to_zero num den
  end.

Definition accepted (s : string) : bool := match ParseFloat s with Some f => negb (not_positive f) | None => false end.

Example float_examples :
  accepted "1.5" = true /\ accepted "0" = false /\ accepted "-1" = false /\ accepted "1_0" = true /\ accepted "1__0" = false /\
  accepted "0x1p4" = true /\ accepted "0x10" = false /\ accepted "1e" = false /\ accepted "." = false /\ accepted ".5" = true /\
  accepted "1e-400" = false /\ accepted "5e-324" = true /\ accepted "1e400" = false /\ accepted "NaN" = true /\ accepted "+Inf" = true /\
  accepted "-inf" = false /\ accepted "2 " = false.
Proof. vm_compute. done. Qed.

End ParseFloat.
