(* ===== verification/DockerConfig.v ===== *)
(** The settings of the docker worker (worker-docker/internal/config), what it
    checks before it starts (internal/runner: runner.go, sandbox_proxy.go,
    docker_network.go), and the hello it introduces itself with
    (hello_builder.go). *)
From stdpp Require Import pretty.
From S2P Require Import Prelude.
From S2P Require Import Json.
From S2P Require Import Sql.
From S2P Require Import Proto.
From S2P Require Import AuthText.
From S2P Require Import JsonText.
From S2P Require Import Net.
From S2P Require Import ProxyToken.
From S2P Require Import ParseFloat.
From S2P Require Import Source.
From S2P Require Import WorkerTerminal.
Import Source.
Local Open Scope Z_scope.

Module DockerConfig.

(** ** source.go *)
Definition configFileEnvKey : string := "WORKER_CONFIG_FILE".
Definition envPrefix : string := "WORKER_".

(** A JSON object, its keys in order. *)
Definition encodeTable (table : list (string * option string)) : string :=
  json_text (JObject (omap (fun kv => (fun value => (kv.1, JString value)) <$> kv.2) (order_by (fun a b => str_le a.1 b.1) table))).

(** ** config.go *)
Definition defaultConsoleTarget : string := "127.0.0.1:50051".
Definition defaultHeartbeatInterval : Z := 5.
Definition defaultHeartbeatJitter : Z := 20.
Definition defaultExecutorKind : string := "docker".
Definition defaultPythonExecImage : string := "ghcr.io/astral-sh/uv:python3.12-bookworm-slim".
Definition defaultPythonExecMemoryMiB : Z := 256.
Definition defaultPythonExecCPULimit : string := "1.0".
Definition defaultPythonExecMaxProcesses : Z := 128.
Definition defaultTerminalExecImage : string := "coolfan1024/onlyboxes-runtime:default".
Definition defaultTerminalExecMemoryMiB : Z := 256.
Definition defaultTerminalExecCPULimit : string := "1.0".
Definition defaultTerminalExecMaxProcesses : Z := 128.
Definition defaultTerminalLeaseMin : Z := 60.
Definition defaultTerminalLeaseMax : Z := 1800.
Definition defaultTerminalLeaseTTL : Z := 60.
Definition defaultTerminalOutputMax : Z := 1024 * 1024.
Definition defaultTerminalSessionInflight : Z := 1.
Definition defaultTerminalMaxActiveSessions : Z := 0.
Definition defaultProxyListenAddr : string := ":8091".
Definition defaultLogLevel : string := "info".
Definition defaultLogFormat : string := "json".
Definition defaultLogAddSource : bool := false.
Definition defaultMaxInflight : Z := 4.

Record Config := mkDockerConfig {
  ConfigFile : string;
  ConsoleGRPCTarget : string;
  ConsoleTLS : bool;
  WorkerID : string;
  WorkerSecret : string;
  HeartbeatInterval : duration;
  HeartbeatJitter : Z;
  CallTimeout : duration;
  NodeName : string;
  ExecutorKind : string;
  PythonExecDockerImage : string;
  PythonExecMemoryLimit : string;
  PythonExecCPULimit : string;
  PythonExecPidsLimit : Z;
  TerminalExecDockerImage : string;
  TerminalExecMemoryLimit : string;
  TerminalExecCPULimit : string;
  TerminalExecPidsLimit : Z;
  DockerNetwork : string;
  Labels : gmap string string;
  TerminalLeaseMinSec : Z;
  TerminalLeaseMaxSec : Z;
  TerminalLeaseDefaultSec : Z;
  TerminalOutputLimitBytes : Z;
  TerminalExportMaxBytes : Z;
  TerminalSessionMaxInflight : Z;
  TerminalMaxActiveSessions : Z;
  EchoMaxInflight : Z;
  PythonExecMaxInflight : Z;
  TerminalExecMaxInflight : Z;
  TerminalResourceMaxInflight : Z;
  ProxyEnabled : bool;
  ProxyListenAddr : string;
  ProxyAdvertiseAddr : string;
  LogLevel : string;
  LogFormat : string;
  LogAddSource : bool }.

Definition wget : source -> string -> string := get envPrefix.

Definition dockerCPULimit (s : source) (key defaultValue : string) : string :=
  let value := trim (wget s key) in
  if bool_decide (value = "") then defaultValue else
  match ParseFloat.ParseFloat value with
  | None => defaultValue
  | Some parsed => if ParseFloat.not_positive parsed then defaultValue else value
  end.

Definition dockerMemoryLimitMiB (s : source) (key : string) (defaultValueMiB : Z) : string :=
  pretty (positiveInt envPrefix s key defaultValueMiB) +:+ "m".

(** ceil(2.5 * heartbeatSec), with the wrap-around of int. *)
Definition defaultCallTimeoutSec (heartbeatSec : Z) : Z :=
  let heartbeatSec := if heartbeatSec <=? 0 then defaultHeartbeatInterval else heartbeatSec in
  Z.quot (i64 (i64 (heartbeatSec * 5) + 1)) 2.

Definition clampInt (value minValue maxValue : Z) : Z :=
  if value <? minValue then minValue else if maxValue <? value then maxValue else value.

Definition normalizeLabels (raw : gmap string string) : gmap string string :=
  foldl (fun labels kv => let key := trim kv.1 in if bool_decide (key = "") then labels else <[key := trim kv.2]> labels) ∅ (map_to_list raw).

Definition label_part (labels : gmap string string) (part : string) : gmap string string :=
  let entry := trim part in
  if bool_decide (entry = "") then labels else
  match split_n 2 "=" entry with
  | [key; value] => let key := trim key in if bool_decide (key = "") then labels else <[key := trim value]> labels
  | _ => labels
  end.

Definition json_labels (raw : string) : option (gmap string string) :=
  match read_json raw with
  | PJson v => let '(m, bad) := dec_string_map v (Some ∅) in if bad then None else Some (default ∅ m)
  | _ => None
  end.

Definition parseLabels (raw : string) : gmap string string :=
  if bool_decide (trim raw = "") then ∅ else
  match (if has_prefix "{" (trim raw) then json_labels raw else None) with
  | Some decoded => normalizeLabels decoded
  | None => foldl label_part ∅ (ProxyToken.split "," raw)
  end.

Definition seconds (n : Z) : duration := i64 (n * second).

Definition load_config (s : source) : Config :=
  let int := positiveInt envPrefix s in
  let heartbeatSec := int "WORKER_HEARTBEAT_INTERVAL_SEC" defaultHeartbeatInterval in
  let callTimeoutSec := int "WORKER_CALL_TIMEOUT_SEC" (defaultCallTimeoutSec heartbeatSec) in
  let leaseMin := int "WORKER_TERMINAL_LEASE_MIN_SEC" defaultTerminalLeaseMin in
  let leaseMax := int "WORKER_TERMINAL_LEASE_MAX_SEC" defaultTerminalLeaseMax in
  let leaseMax := if leaseMax <? leaseMin then leaseMin else leaseMax in
  let leaseDefault := clampInt (int "WORKER_TERMINAL_LEASE_DEFAULT_SEC" defaultTerminalLeaseTTL) leaseMin leaseMax in
  mkDockerConfig (src_path s) (stringValue envPrefix s "WORKER_CONSOLE_GRPC_TARGET" defaultConsoleTarget)
    (negb (bool_decide (wget s "WORKER_CONSOLE_INSECURE" = "true"))) (trim (wget s "WORKER_ID")) (trim (wget s "WORKER_SECRET"))
    (seconds heartbeatSec) (percent envPrefix s "WORKER_HEARTBEAT_JITTER_PCT" defaultHeartbeatJitter) (seconds callTimeoutSec)
    (wget s "WORKER_NODE_NAME") defaultExecutorKind
    (stringValue envPrefix s "WORKER_PYTHON_EXEC_DOCKER_IMAGE" defaultPythonExecImage)
    (dockerMemoryLimitMiB s "WORKER_PYTHON_EXEC_MEMORY_MIB" defaultPythonExecMemoryMiB)
    (dockerCPULimit s "WORKER_PYTHON_EXEC_CPUS" defaultPythonExecCPULimit)
    (int "WORKER_PYTHON_EXEC_MAX_PROCESSES" defaultPythonExecMaxProcesses)
    (stringValue envPrefix s "WORKER_TERMINAL_EXEC_DOCKER_IMAGE" defaultTerminalExecImage)
    (dockerMemoryLimitMiB s "WORKER_TERMINAL_EXEC_MEMORY_MIB" defaultTerminalExecMemoryMiB)
    (dockerCPULimit s "WORKER_TERMINAL_EXEC_CPUS" defaultTerminalExecCPULimit)
    (int "WORKER_TERMINAL_EXEC_MAX_PROCESSES" defaultTerminalExecMaxProcesses)
    (trim (wget s "WORKER_DOCKER_NETWORK")) (parseLabels (wget s "WORKER_LABELS")) leaseMin leaseMax leaseDefault
    (int "WORKER_TERMINAL_OUTPUT_LIMIT_BYTES" defaultTerminalOutputMax) (int "WORKER_TERMINAL_EXPORT_MAX_BYTES" 0)
    (int "WORKER_TERMINAL_SESSION_MAX_INFLIGHT" defaultTerminalSessionInflight)
    (nonNegativeInt envPrefix s "WORKER_TERMINAL_MAX_ACTIVE_SESSIONS" defaultTerminalMaxActiveSessions)
    (int "WORKER_ECHO_MAX_INFLIGHT" defaultMaxInflight) (int "WORKER_PYTHON_EXEC_MAX_INFLIGHT" defaultMaxInflight)
    (int "WORKER_TERMINAL_EXEC_MAX_INFLIGHT" defaultMaxInflight) (int "WORKER_TERMINAL_RESOURCE_MAX_INFLIGHT" defaultMaxInflight)
    (boolValue envPrefix s "WORKER_PROXY_ENABLED" false)
    (trim (stringValue envPrefix s "WORKER_PROXY_LISTEN_ADDR" defaultProxyListenAddr))
    (trim (wget s "WORKER_PROXY_ADVERTISE_ADDR"))
    (logLevel envPrefix s "WORKER_LOG_LEVEL" defaultLogLevel) (logFormat envPrefix s "WORKER_LOG_FORMAT" defaultLogFormat)
    (boolValue envPrefix s "WORKER_LOG_ADD_SOURCE" defaultLogAddSource).

Definition Load (p : process) : res Config :=
  match newSource configFileEnvKey encodeTable p with
  | Ok s => Ok (load_config s)
  | Err e => Err e
  end.

(** ** Checks before the start (runner.go, sandbox_proxy.go) *)
Definition maxProtocolInt32 : Z := 2 ^ 31 - 1.

Definition validateTerminalMaxActiveSessions (maxActiveSessions : Z) : res unit :=
  if (maxActiveSessions <? 0) || (maxProtocolInt32 <? maxActiveSessions)
  then Err (ErrorString "WORKER_TERMINAL_MAX_ACTIVE_SESSIONS must be between 0 and 2147483647") else Ok tt.

Definition port_of (rawPort : string) : option Z :=
  match Atoi rawPort with Ok port => if (port <? 1) || (65535 <? port) then None else Some port | Err _ => None end.

(** [Some None]: the host is empty. *)
Definition listen_address (listenHost : string) : option (option Addr) :=
  if bool_decide (trim listenHost = "") then Some None else
  match ParseAddr (trim listenHost) with
  | Some a => if bool_decide (Zone a = "") then Some (Some (Unmap a)) else None
  | None => None
  end.

Definition validateProxyConfig (cfg : Config) : res unit :=
  if negb (ProxyEnabled cfg) then Ok tt else
  if bool_decide (trim (ProxyListenAddr cfg) = "") then Err (ErrorString "WORKER_PROXY_LISTEN_ADDR is required when proxy is enabled") else
  match SplitHostPort (trim (ProxyListenAddr cfg)) with
  | None => Err (ErrorString "WORKER_PROXY_LISTEN_ADDR must be an IP address with port")
  | Some (listenHost, listenRawPort) =>
      match listen_address listenHost with
      | None => Err (ErrorString "WORKER_PROXY_LISTEN_ADDR host must be an IP address")
      | Some listenAddress =>
          match port_of listenRawPort with
          | None => Err (ErrorString "WORKER_PROXY_LISTEN_ADDR port must be between 1 and 65535")
          | Some listenPort =>
              match SplitHostPort (trim (ProxyAdvertiseAddr cfg)) with
              | None => Err (ErrorString "WORKER_PROXY_ADVERTISE_ADDR must be an IP address with port")
              | Some (host, rawPort) =>
                  match ParseAddr (trim host) with
                  | None => Err (ErrorString "WORKER_PROXY_ADVERTISE_ADDR host must be a unicast IP address")
                  | Some address =>
                      if negb (bool_decide (Zone address = "")) then Err (ErrorString "WORKER_PROXY_ADVERTISE_ADDR host must be a unicast IP address") else
                      let address := Unmap address in
                      if negb (IsGlobalUnicast address) then Err (ErrorString "WORKER_PROXY_ADVERTISE_ADDR host must be a unicast IP address") else
                      if match listenAddress with
                         | Some l => negb (IsUnspecified l) && negb (bool_decide (l = address))
                         | None => false
                         end
                      then Err (ErrorString "WORKER_PROXY_LISTEN_ADDR host must be unspecified or match WORKER_PROXY_ADVERTISE_ADDR") else
                      match port_of rawPort with
                      | None => Err (ErrorString "WORKER_PROXY_ADVERTISE_ADDR port must be between 1 and 65535")
                      | Some port =>
                          if negb (port =? listenPort)
                          then Err (ErrorString "WORKER_PROXY_ADVERTISE_ADDR port must match WORKER_PROXY_LISTEN_ADDR") else Ok tt
                      end
                  end
              end
          end
      end
  end.

(** ** docker_network.go *)
Definition terminalProxyDockerNetwork : string := "onlyboxes-sandbox".

Definition resolveDockerNetworks (cfg : Config) : string * string :=
  let configured := trim (DockerNetwork cfg) in
  if negb (bool_decide (configured = "")) then (configured, configured) else
  if ProxyEnabled cfg then (terminalProxyDockerNetwork, "") else ("", "").

Definition inspectSandboxDockerNetwork (result : dockerCommandResult) : res bool :=
  match dk_Err result with
  | Some e => Err (Wrapped "inspect sandbox docker network: " e "")
  | None =>
      if negb (dk_ExitCode result =? 0) then
        let message := to_lower (dk_Stderr result) in
        if contains_text message "not found" || contains_text message "no such network" then Ok false
        else Err (ErrorString (dockerCommandFailureMessage "inspect sandbox docker network exit code" (dk_ExitCode result) (dk_Stderr result)))
      else
      match ProxyToken.split "|" (trim (dk_Stdout result)) with
      | [driver; icc] =>
          if negb (bool_decide (trim driver = "bridge")) then Err (ErrorString "sandbox docker network must use the bridge driver") else
          if negb (bool_decide (trim (to_lower icc) = "false"))
          then Err (ErrorString "sandbox docker network must disable inter-container communication") else Ok true
      | _ => Err (ErrorString "sandbox docker network must use the bridge driver")
      end
  end.

(** The three docker commands: inspect, create, inspect again. *)
Definition ensureSandboxDockerNetwork (inspect create again : dockerCommandResult) : res unit :=
  match inspectSandboxDockerNetwork inspect with
  | Err e => Err e
  | Ok true => Ok tt
  | Ok false =>
      match dk_Err create with
      | Some e => Err (Wrapped "create sandbox docker network: " e "")
      | None =>
          if negb (dk_ExitCode create =? 0) then
            match inspectSandboxDockerNetwork again with
            | Ok true => Ok tt
            | _ => Err (ErrorString (dockerCommandFailureMessage "create sandbox docker network exit code" (dk_ExitCode create) (dk_Stderr create)))
            end
          else
          match inspectSandboxDockerNetwork again with
          | Err e => Err e
          | Ok true => Ok tt
          | Ok false => Err (ErrorString "sandbox docker network was not found after creation")
          end
      end
  end.

(** ** hello_builder.go *)
Definition echoCapabilityName : string := "echo".
Definition pythonExecCapabilityDeclared : string := "pythonExec".
Definition terminalExecCapabilityDeclared : string := "terminalExec".
Definition terminalLeaseRenewCapabilityDeclared : string := "terminalLeaseRenew".
Definition terminalResourceCapabilityDeclared : string := "terminalResource".

Definition hello_labels (cfg : Config) : gmap string string :=
  let labels := keep (fun key _ => bool_decide (trim key = ProxyToken.ProxyEndpointLabel)) (Labels cfg) in
  if ProxyEnabled cfg then <[ProxyToken.ProxyEndpointLabel := trim (ProxyAdvertiseAddr cfg)]> labels else labels.

Definition buildHello (version : string) (activeSessionCount : Z) (cfg : Config) : res ConnectHello :=
  match validateTerminalMaxActiveSessions (TerminalMaxActiveSessions cfg) with
  | Err e => Err e
  | Ok _ =>
      if activeSessionCount <? 0 then Err (ErrorString "terminal active session count must be non-negative") else
      let nodeName := trim (NodeName cfg) in
      let nodeName := if bool_decide (nodeName = "") then "worker-docker-" +:+ take_str 8 (WorkerID cfg) else nodeName in
      Ok (mkHello (WorkerID cfg) nodeName (ExecutorKind cfg) (hello_labels cfg) version
            [Some (mkCapability echoCapabilityName (i32 (EchoMaxInflight cfg)));
             Some (mkCapability pythonExecCapabilityDeclared (i32 (PythonExecMaxInflight cfg)));
             Some (mkCapability terminalExecCapabilityDeclared (i32 (TerminalExecMaxInflight cfg)));
             Some (mkCapability terminalLeaseRenewCapabilityDeclared (i32 (TerminalExecMaxInflight cfg)));
             Some (mkCapability terminalResourceCapabilityDeclared (i32 (TerminalResourceMaxInflight cfg)))]
            (WorkerSecret cfg) (Some (mkCapacity (i32 (TerminalMaxActiveSessions cfg)) activeSessionCount)))
  end.

(** The manager that [Run] makes. *)
Definition manager_config (cfg : Config) (hash : string -> string) : terminalSessionManagerConfig :=
  mkTMConfig (TerminalLeaseMinSec cfg) (TerminalLeaseMaxSec cfg) (TerminalLeaseDefaultSec cfg) (TerminalOutputLimitBytes cfg)
    (TerminalExportMaxBytes cfg) (TerminalExecDockerImage cfg) (TerminalExecMemoryLimit cfg) (TerminalExecCPULimit cfg)
    (TerminalExecPidsLimit cfg) (resolveDockerNetworks cfg).1 (TerminalSessionMaxInflight cfg) (TerminalMaxActiveSessions cfg) true hash.

End DockerConfig.
