(* ===== verification/ReverseProxy.v ===== *)
(** net/http as the worker's sandbox proxy uses it: headers with their canonical
    names, and [httputil.ReverseProxy] with a [Rewrite] function (Go 1.24).
    Bodies, trailers and interim responses are not part of the model. *)
From S2P Require Import Prelude.
From S2P Require Import Json.
From S2P Require Import Net.
From S2P Require Import Sql.
From S2P Require Import OwnerScope.
From S2P Require Import AuthText.
From S2P Require Import JsonText.
From S2P Require Import ProxyToken.
From S2P Require Import Url.

Local Open Scope Z_scope.

Module ReverseProxy.

(** ** Headers *)
Abbreviation header := (gmap string (list string)).

Definition validHeaderFieldByte (a : ascii) : bool := is_alnum a || in_set "!#$%&'*+-.^_`|~" a.

Definition upper_ascii (a : ascii) : ascii := if between 97 122 a then chr (byte a - 32) else a.

Fixpoint canonical (upper : bool) (s : string) : string :=
  match s with
  | EmptyString => ""
  | String a s => String (if upper then upper_ascii a else lower_ascii a) (canonical (Ascii.eqb a "-") s)
  end.

Definition CanonicalHeaderKey (s : string) : string := if forall_char validHeaderFieldByte s then canonical true s else s.

Definition Values (name : string) (h : header) : list string := default [] (h !! CanonicalHeaderKey name).
Definition Del (name : string) (h : header) : header := delete (CanonicalHeaderKey name) h.
Definition SetHeader (name value : string) (h : header) : header := <[CanonicalHeaderKey name := [value]]> h.
Definition Add (name value : string) (h : header) : header := <[CanonicalHeaderKey name := Values name h ++ [value]]> h.
Definition GetHeader (name : string) (h : header) : string := default "" (head (Values name h)).

Definition del_all (names : list string) (h : header) : header := foldl (fun h name => Del name h) h names.

(** ** Requests and responses *)
Record http_request := mkHTTP {
  hr_Method : string;
  hr_Host : string;
  hr_Scheme : string;    (** of the URL *)
  hr_URLHost : string;
  hr_Path : string;
  hr_RawPath : string;
  hr_RawQuery : string;
  hr_Header : header }.

Record http_response := mkResponse { rs_StatusCode : Z; rs_Header : header }.

Definition with_header (h : header) (r : http_request) : http_request :=
  mkHTTP (hr_Method r) (hr_Host r) (hr_Scheme r) (hr_URLHost r) (hr_Path r) (hr_RawPath r) (hr_RawQuery r) h.
Definition with_host (host : string) (r : http_request) : http_request :=
  mkHTTP (hr_Method r) host (hr_Scheme r) (hr_URLHost r) (hr_Path r) (hr_RawPath r) (hr_RawQuery r) (hr_Header r).
Definition with_query (query : string) (r : http_request) : http_request :=
  mkHTTP (hr_Method r) (hr_Host r) (hr_Scheme r) (hr_URLHost r) (hr_Path r) (hr_RawPath r) query (hr_Header r).

(** ** Paths and queries *)
Definition path_plain (a : ascii) : bool := is_alnum a || in_set "-_.~$&+,/:;=@" a.

Definition hex_upper (d : Z) : ascii := chr (if d <? 10 then 48 + d else 55 + d).
Definition percent (a : ascii) : string := String "%" (String (hex_upper (byte a / 16)) (String (hex_upper (byte a mod 16)) "")).

Fixpoint escape_with (plain : ascii -> bool) (s : string) : string :=
  match s with
  | EmptyString => ""
  | String a s => (if plain a then String a "" else percent a) +:+ escape_with plain s
  end.

Definition validEncodedPath (s : string) : bool := forall_char (fun a => path_plain a || in_set "!'()*[]%" a) s.

Definition EscapedPath (path rawPath : string) : string :=
  if negb (bool_decide (rawPath = "")) && validEncodedPath rawPath && bool_decide (unescape encodePath rawPath = Some path)
  then rawPath
  else if bool_decide (path = "*") then "*" else escape_with path_plain path.

(** [joinURLPath] for a target without a path. *)
Definition singleJoiningSlash (path : string) : string := if has_prefix "/" path then path else "/" +:+ path.
Definition joinURLPath (path rawPath : string) : string * string :=
  if bool_decide (rawPath = "") then (singleJoiningSlash path, "") else
  let escaped := EscapedPath path rawPath in
  if has_prefix "/" escaped then (path, escaped) else ("/" +:+ path, "/" +:+ escaped).

(** [ProxyRequest.SetURL] for a target of a scheme and a host. *)
Definition SetURL (scheme host : string) (r : http_request) : http_request :=
  let '(path, rawPath) := joinURLPath (hr_Path r) (hr_RawPath r) in
  mkHTTP (hr_Method r) "" scheme host path rawPath (hr_RawQuery r) (hr_Header r).

Fixpoint plus_to_space (s : string) : string :=
  match s with
  | EmptyString => ""
  | String a s => String (if Ascii.eqb a "+" then " " else a)%char (plus_to_space s)
  end.
Definition QueryUnescape (s : string) : option string := unescape encodePath (plus_to_space s).

Fixpoint QueryEscape (s : string) : string :=
  match s with
  | EmptyString => ""
  | String a s =>
      (if Ascii.eqb a " " then "+" else if is_alnum a || in_set "-_.~" a then String a "" else percent a) +:+ QueryEscape s
  end.

Definition parse_pair (m : gmap string (list string)) (part : string) : gmap string (list string) :=
  if contains_char ";" part || bool_decide (part = "") then m else
  let '(key, value) := cut "=" part in
  match QueryUnescape key, QueryUnescape (default "" value) with
  | Some key, Some value => <[key := default [] (m !! key) ++ [value]]> m
  | _, _ => m
  end.
Definition ParseQuery (query : string) : gmap string (list string) := foldl parse_pair ∅ (ProxyToken.split "&" query).

Definition Encode (m : gmap string (list string)) : string :=
  join "&" (mjoin ((fun kv => (fun v => QueryEscape kv.1 +:+ "=" +:+ QueryEscape v) <$> kv.2) <$>
    order_by (fun a b => str_le a.1 b.1) (map_to_list m))).

Fixpoint clean_query (s : string) : bool :=
  match s with
  | EmptyString => true
  | String a s =>
      if Ascii.eqb a ";" then false else
      if Ascii.eqb a "%" then
        match s with
        | String b (String c s) => bool_decide (is_Some (hex_value b)) && bool_decide (is_Some (hex_value c)) && clean_query s
        | _ => false
        end
      else clean_query s
  end.
Definition cleanQueryParams (s : string) : string := if clean_query s then s else Encode (ParseQuery s).

(** ** Connection headers *)
Definition hopHeaders : list string :=
  ["Connection"; "Proxy-Connection"; "Keep-Alive"; "Proxy-Authenticate"; "Proxy-Authorization"; "Te"; "Trailer";
   "Transfer-Encoding"; "Upgrade"].

Fixpoint trim_front (set s : string) : string :=
  match s with
  | EmptyString => ""
  | String a t => if in_set set a then trim_front set t else s
  end.
Definition trim_set (set s : string) : string := String.rev (trim_front set (String.rev (trim_front set s))).

Definition http_space : string := String " " (String (chr 9) "").
Definition ascii_space : string := http_space +:+ String (chr 10) (String (chr 13) "").

(** The names listed in the Connection header. *)
Definition connection_names (h : header) : list string :=
  List.filter (fun s => negb (bool_decide (s = "")))
    (trim_set ascii_space <$> mjoin (ProxyToken.split "," <$> default [] (h !! "Connection"))).

Definition removeHopByHopHeaders (h : header) : header := del_all hopHeaders (del_all (connection_names h) h).

Definition tokenEqual (s t : string) : bool := forall_char (fun a => byte a <? 128) s && bool_decide (to_lower s = to_lower t).
Definition HeaderValuesContainsToken (values : list string) (token : string) : bool :=
  existsb (fun v => existsb (fun s => tokenEqual (trim_set http_space s) token) (ProxyToken.split "," v)) values.

Definition upgradeType (h : header) : string :=
  if HeaderValuesContainsToken (default [] (h !! "Connection")) "Upgrade" then GetHeader "Upgrade" h else "".

Definition IsPrint (s : string) : bool := forall_char (between 32 126) s.

(** ** [ReverseProxy.ServeHTTP] *)
Inductive answer :=
  | BadGateway                             (** the error handler ran *)
  | Response (status : Z) (h : header)
  | Switched (h : header).                 (** 101, then bytes both ways *)

(** The outbound request before [Rewrite]; [None]: an invalid upgrade. *)
Definition outbound (req : http_request) : option http_request :=
  let reqUpType := upgradeType (hr_Header req) in
  if negb (IsPrint reqUpType) then None else
  let h := removeHopByHopHeaders (hr_Header req) in
  let h := if HeaderValuesContainsToken (default [] (hr_Header req !! "Te")) "trailers" then SetHeader "Te" "trailers" h else h in
  let h := if bool_decide (reqUpType = "") then h else SetHeader "Upgrade" reqUpType (SetHeader "Connection" "Upgrade" h) in
  let h := del_all ["Forwarded"; "X-Forwarded-For"; "X-Forwarded-Host"; "X-Forwarded-Proto"] h in
  Some (with_query (cleanQueryParams (hr_RawQuery req)) (with_header h req)).

Definition set_user_agent (r : http_request) : http_request :=
  match hr_Header r !! "User-Agent" with
  | Some _ => r
  | None => with_header (SetHeader "User-Agent" "" (hr_Header r)) r
  end.

Definition deliver (modifyResponse : header -> header) (out : http_request) (response : res http_response) : answer :=
  match response with
  | Err _ => BadGateway
  | Ok response =>
      if rs_StatusCode response =? 101 then
        let h := modifyResponse (rs_Header response) in
        let reqUpType := upgradeType (hr_Header out) in
        let resUpType := upgradeType h in
        if negb (IsPrint resUpType) || negb (tokenEqual reqUpType resUpType) then BadGateway else Switched h
      else Response (rs_StatusCode response) (modifyResponse (removeHopByHopHeaders (rs_Header response)))
  end.

(** [transport]: what the target answers; the request it got is part of the result. *)
Definition ServeReverse (rewrite : http_request -> http_request -> http_request) (modifyResponse : header -> header)
    (transport : http_request -> res http_response) (req : http_request) : option http_request * answer :=
  match outbound req with
  | None => (None, BadGateway)
  | Some out =>
      let out := set_user_agent (rewrite req out) in
      (Some out, deliver modifyResponse out (transport out))
  end.

End ReverseProxy.
