(* ===== verification/WorkerProxy.v ===== *)
(** The sandbox proxy of the docker worker
    (worker-docker/internal/runner/sandbox_proxy.go): it takes a request that
    carries a route token, finds the container of the token's session and passes
    the request on.

    The end of a session cancels the requests that were passed on to it; that
    cancellation and the sockets of the server are not part of the model. *)
From stdpp Require Import pretty.
From S2P Require Import Prelude.
From S2P Require Import Net.
From S2P Require Import Proto.
From S2P Require Import ProxyToken.
From S2P Require Import ReverseProxy.
From S2P Require Import WorkerTerminal.
Import ReverseProxy.
Local Open Scope Z_scope.

Module WorkerProxy.

Definition proxyInternalAuthHeader : string := "X-Onlyboxes-Internal-Token".
Definition proxyOriginalHostHeader : string := "X-Original-Host".
Definition proxyUpstreamHeader : string := "X-Onlyboxes-Upstream".

(** The headers between the front proxy and the worker. *)
Definition internal_headers : list string :=
  [ProxyToken.HeaderName; proxyInternalAuthHeader; proxyOriginalHostHeader; proxyUpstreamHeader].

Record sandboxProxyHandler := mkSandboxProxy { sp_workerID : string; sp_key : string }.

(** [manager]: whether there is one. *)
Definition newSandboxProxyHandler (workerID workerSecret : string) (manager : bool) : res sandboxProxyHandler :=
  let workerID := trim workerID in
  if bool_decide (workerID = "") then Err (ErrorString "worker ID is required") else
  if negb manager then Err (ErrorString "terminal session manager is required") else
  match ProxyToken.DeriveKey workerSecret with
  | Err e => Err e
  | Ok key => Ok (mkSandboxProxy workerID key)
  end.

(** The [ModifyResponse] of the handler's reverse proxy. *)
Definition modifyResponse : header -> header := del_all internal_headers.

Definition copyTrustedForwardingHeader (source : header) (destination : header) (name : string) : header :=
  foldl (fun h value => Add name value h) (Del name destination) (Values name source).

Definition forwarded_headers : list string := ["X-Forwarded-For"; "X-Forwarded-Host"; "X-Forwarded-Proto"; "X-Request-ID"].

(** [target]: scheme and host of the URL in the request's context. *)
Definition rewriteSandboxProxyRequest (target : option (string * string)) (inr out : http_request) : http_request :=
  match target with
  | None => out
  | Some (scheme, host) =>
      let out := with_host (hr_Host inr) (SetURL scheme host out) in
      let h := del_all internal_headers (hr_Header out) in
      with_header (foldl (copyTrustedForwardingHeader (hr_Header inr)) h forwarded_headers) out
  end.

(** What the client sees. *)
Inductive served :=
  | Failed (status : Z) (message : string)
  | Proxied (a : answer)
  | Dropped            (** the request was given up *)
  | Waiting.           (** the container is not ready yet *)

Record served_request := mkServed { sv_sent : option http_request; sv_reply : served }.

Definition fail (status : Z) (message : string) : served_request := mkServed None (Failed status message).

(** What the outside does during a request: the clock, the manager's other
    goroutines, the end of the request's context, and the sandbox. *)
Record proxy_request_env := mkProxyRequestEnv {
  pe_now : time;
  pe_others : others_t;
  pe_ctxErr : option error;
  pe_upstream : http_request -> res http_response }.

Definition ServeHTTP (h : sandboxProxyHandler) (env : proxy_request_env) (request : http_request) (m : terminalSessionManager)
    : served_request * terminalSessionManager :=
  if bool_decide (hr_Method request = "CONNECT") then (fail 405 "method not allowed", m) else
  match Values ProxyToken.HeaderName (hr_Header request) with
  | [token] =>
      let now := pe_now env in
      match ProxyToken.Verify now (sp_key h) token now with
      | Err _ => (fail 401 "invalid route token", m)
      | Ok claims =>
          if negb (bool_decide (trim (ProxyToken.WorkerID claims) = sp_workerID h)) then (fail 401 "invalid route token", m) else
          match ResolveProxyTarget (pe_others env) (pe_ctxErr env) (ProxyToken.SessionID claims) now m with
          | (None, m) => (mkServed None Waiting, m)
          | (Some (Err e), m) =>
              if error_is e ErrContextCanceled || error_is e ErrContextDeadlineExceeded then (mkServed None Dropped, m)
              else (fail 404 "sandbox session not found", m)
          | (Some (Ok None), m) => (fail 404 "sandbox session not found", m)
          | (Some (Ok (Some ip)), m) =>
              let target := ("http", JoinHostPort ip (pretty (ProxyToken.Port claims))) in
              let request := with_header (del_all internal_headers (hr_Header request)) request in
              let '(sent, a) := ServeReverse (rewriteSandboxProxyRequest (Some target)) modifyResponse (pe_upstream env) request in
              (mkServed sent (Proxied a), m)
          end
      end
  | _ => (fail 401 "invalid route token", m)
  end.

End WorkerProxy.
