(* ===== verification/WorkerProxyProps.v ===== *)
(** Lemmas about the worker's sandbox proxy: what happens to the headers, the
    target and the path of a request that is passed on, and when a request is
    passed on at all. *)
From stdpp Require Import pretty.
From S2P Require Import Prelude.
From S2P Require Import Net.
From S2P Require Import Proto.
From S2P Require Import ProxyToken.
From S2P Require Import ReverseProxy.
From S2P Require Import WorkerTerminal.
From S2P Require Import WorkerProxy.
Import ReverseProxy.
Import WorkerProxy.
Local Open Scope Z_scope.

Module WorkerProxyProps.

Implicit Types (h : header) (m : terminalSessionManager).

(** ** Headers *)
Section headers.

Lemma lookup_del_all names h k :
  del_all names h !! k = if bool_decide (k ∈ CanonicalHeaderKey <$> names) then None else h !! k.
Proof.
  unfold del_all. revert h. induction names as [|n names IH]; intros h; [done|]. cbn [foldl fmap list_fmap]. rewrite IH. unfold Del.
  destruct (decide (k = CanonicalHeaderKey n)) as [->|Hn].
  - rewrite (bool_decide_true (_ ∈ _ :: _)) by left. rewrite lookup_delete_eq. by case_bool_decide.
  - rewrite lookup_delete_ne by done. do 2 case_bool_decide; set_solver.
Qed.

Lemma del_all_gone names h n : n ∈ names -> Values n (del_all names h) = [].
Proof. intros Hn. unfold Values. rewrite lookup_del_all, bool_decide_true; [done|]. by apply list_elem_of_fmap_2. Qed.

Lemma add_all name values h : foldl (fun h value => Add name value h) h values =
  match values with [] => h | _ => <[CanonicalHeaderKey name := Values name h ++ values]> h end.
Proof.
  revert h. induction values as [|v values IH]; intros h; [done|]. cbn [foldl]. rewrite IH. unfold Add, Values.
  destruct values as [|v' values]; [done|]. rewrite lookup_insert_eq. cbn [default from_option id]. rewrite insert_insert_eq. by rewrite <- app_assoc.
Qed.

(** A trusted header ends with the values it came with; no other one changes. *)
Lemma copy_trusted src dst name k :
  Values name (copyTrustedForwardingHeader src dst name) = Values name src /\
  (k <> CanonicalHeaderKey name -> copyTrustedForwardingHeader src dst name !! k = dst !! k).
Proof.
  unfold copyTrustedForwardingHeader. rewrite add_all. set (vs := Values name src). split.
  - destruct vs as [|v vs]; unfold Values, Del.
    + by rewrite lookup_delete_eq.
    + by rewrite lookup_insert_eq, lookup_delete_eq.
  - intros Hk. destruct vs; unfold Del; [by rewrite lookup_delete_ne|]. by rewrite lookup_insert_ne, lookup_delete_ne.
Qed.

Lemma copy_all_trusted src names : forall dst, NoDup (CanonicalHeaderKey <$> names) ->
  (forall n, n ∈ names -> Values n (foldl (copyTrustedForwardingHeader src) dst names) = Values n src) /\
  (forall k, k ∉ CanonicalHeaderKey <$> names -> (foldl (copyTrustedForwardingHeader src) dst names) !! k = dst !! k).
Proof.
  induction names as [|name names IH]; intros dst Hd; cbn [foldl]; [split; [by intros n ?%elem_of_nil|done]|].
  cbn [fmap list_fmap] in Hd. apply NoDup_cons in Hd as [Hnot Hd]. destruct (IH (copyTrustedForwardingHeader src dst name) Hd) as [IH1 IH2].
  split.
  - intros n [->|Hn]%elem_of_cons; [|by apply IH1]. unfold Values at 1. rewrite IH2 by done.
    exact (proj1 (copy_trusted src dst name "")).
  - intros k Hk. cbn [fmap list_fmap] in Hk. rewrite IH2 by set_solver. apply copy_trusted. set_solver.
Qed.

Lemma header_names : CanonicalHeaderKey <$> internal_headers = internal_headers /\ NoDup (CanonicalHeaderKey <$> forwarded_headers) /\
  (forall n, n ∈ internal_headers -> (n ∉ CanonicalHeaderKey <$> forwarded_headers) /\ n <> "User-Agent").
Proof.
  split; [by vm_compute|]. split; [by apply (bool_decide_unpack _); vm_compute|]. intros n Hn.
  assert (forallb (fun n => bool_decide (n ∉ CanonicalHeaderKey <$> forwarded_headers) && bool_decide (n <> "User-Agent")) internal_headers = true) as H by by vm_compute.
  rewrite forallb_forall in H. specialize (H n). rewrite list_elem_of_In in Hn. apply H in Hn. by bool_prop.
Qed.

(** The agent is only ever filled in. *)
Lemma user_agent_lookup r k : k <> "User-Agent" -> hr_Header (set_user_agent r) !! k = hr_Header r !! k.
Proof. intros Hk. unfold set_user_agent. case_match; [done|]. cbn. unfold SetHeader. by rewrite lookup_insert_ne. Qed.

End headers.

(** ** The request that is passed on *)
Section passing.

Record passed_on (scheme host : string) (req out : http_request) : Prop := {
  po_scheme : hr_Scheme out = scheme;
  po_target : hr_URLHost out = host;
  po_host : hr_Host out = hr_Host req;
  po_method : hr_Method out = hr_Method req;
  po_path : (hr_Path out, hr_RawPath out) = joinURLPath (hr_Path req) (hr_RawPath req);
  po_query : hr_RawQuery out = cleanQueryParams (hr_RawQuery req);
  po_internal n : n ∈ internal_headers -> hr_Header out !! n = None;
  po_forwarded n : n ∈ forwarded_headers -> Values n (hr_Header out) = Values n (hr_Header req) }.

Lemma rewrite_fields target inr out : let r := rewriteSandboxProxyRequest (Some target) inr out in
  hr_Scheme r = target.1 /\ hr_URLHost r = target.2 /\ hr_Host r = hr_Host inr /\ hr_Method r = hr_Method out /\
  (hr_Path r, hr_RawPath r) = joinURLPath (hr_Path out) (hr_RawPath out) /\ hr_RawQuery r = hr_RawQuery out /\
  hr_Header r = foldl (copyTrustedForwardingHeader (hr_Header inr)) (del_all internal_headers (hr_Header out)) forwarded_headers.
Proof. destruct target as [scheme host]. unfold rewriteSandboxProxyRequest, SetURL. by destruct (joinURLPath _ _). Qed.

Lemma agent_fields r : hr_Scheme (set_user_agent r) = hr_Scheme r /\ hr_URLHost (set_user_agent r) = hr_URLHost r /\
  hr_Host (set_user_agent r) = hr_Host r /\ hr_Method (set_user_agent r) = hr_Method r /\
  (hr_Path (set_user_agent r), hr_RawPath (set_user_agent r)) = (hr_Path r, hr_RawPath r) /\ hr_RawQuery (set_user_agent r) = hr_RawQuery r.
Proof. unfold set_user_agent. by case_match. Qed.

Lemma outbound_shape req o : outbound req = Some o ->
  exists h, o = with_query (cleanQueryParams (hr_RawQuery req)) (with_header h req).
Proof.
  unfold outbound. destruct (negb _); [done|]. set (h := del_all _ _). clearbody h. intros [= <-]. by exists h.
Qed.

(** Whatever the Connection header asks to remove, whatever the target answers. *)
Lemma reverse_passes target modify transport req out a :
  ServeReverse (rewriteSandboxProxyRequest (Some target)) modify transport req = (Some out, a) ->
  passed_on target.1 target.2 req out /\ a = deliver modify out (transport out).
Proof.
  unfold ServeReverse. destruct (outbound req) as [o|] eqn:Eo; [|done]. apply outbound_shape in Eo as [h0 Eo].
  set (r := rewriteSandboxProxyRequest (Some target) req o). cbv zeta. intros [Ho Ha]%pair_equal_spec. apply (inj Some) in Ho. subst out a. split; [|done].
  destruct (rewrite_fields target req o) as (F1&F2&F3&F4&F5&F6&F7). fold r in F1, F2, F3, F4, F5, F6, F7.
  destruct (agent_fields r) as (A1&A2&A3&A4&A5&A6). destruct header_names as (Hin&Hnd&Hdis).
  destruct (copy_all_trusted (hr_Header req) forwarded_headers (del_all internal_headers (hr_Header o)) Hnd) as [C1 C2]. rewrite <- F7 in C1, C2.
  clearbody r. subst o. cbn in F4, F5, F6.
  split; try congruence.
  - intros n Hn. destruct (Hdis n Hn). rewrite user_agent_lookup, C2, lookup_del_all, Hin, bool_decide_true by done. done.
  - intros n Hn. rewrite <- (C1 n Hn). unfold Values. rewrite user_agent_lookup; [done|].
    intros E. assert ("User-Agent" ∈ CanonicalHeaderKey <$> forwarded_headers) as H0 by (rewrite <- E; by apply list_elem_of_fmap_2).
    revert H0. apply (bool_decide_unpack (~ _)). by vm_compute.
Qed.

(** Nor does an internal header come back. *)
Lemma deliver_clean out r n hd : n ∈ internal_headers ->
  (deliver modifyResponse out r = Switched hd \/ exists st, deliver modifyResponse out r = Response st hd) -> hd !! n = None.
Proof.
  intros Hn H. assert (exists g, hd = modifyResponse g) as [g ->].
  { unfold deliver in H. destruct r as [rs|e]; [|by destruct H as [|[]]]. destruct (rs_StatusCode rs =? 101).
    - destruct (_ || _); [by destruct H as [|[]]|]. destruct H as [[= <-]|[? [=]]]. by eexists.
    - destruct H as [[=]|[? [= _ <-]]]. by eexists. }
  unfold modifyResponse. rewrite lookup_del_all, bool_decide_true; [done|]. by rewrite (proj1 header_names).
Qed.

End passing.

(** ** The container of a session *)
Section target.

(** The session [sid] runs at [l] in the container at [ip] when it is looked at
    for the second time. *)
Definition runs_at (sid : string) (ip : string) (now : time) m : Prop :=
  exists l s a, m_sessions m !! sid = Some l /\ m_heap m !! l = Some s /\ ts_destroying s = false /\ ts_initErr s = None /\
    ts_ready s = true /\ now < ts_leaseExpiresAt s /\ ParseAddr (trim (ts_containerIP s)) = Some a /\ IsUnspecified a = false /\ ip = AddrString (Unmap a).

Lemma proxy_target_spec sid l now m ip r m' : proxy_target sid l now m = (Some ip, r, m') ->
  ts_ready <$> m_heap m !! l = Some true -> r = false /\ m' = m /\ runs_at sid ip now m.
Proof.
  unfold proxy_target. destruct (m_heap m !! l) as [s|] eqn:El; [|done]. case_bool_decide as Et; cbn [negb orb]; [|done].
  destruct (ts_destroying s) eqn:Ed; [done|]. destruct (ts_initErr s) eqn:Ei; [done|]. cbn [orb bool_decide].
  destruct (bool_decide _) eqn:Eb in |- *; [done|]. destruct (ts_leaseExpiresAt s <=? now) eqn:Ee; [done|]. apply Z.leb_gt in Ee.
  destruct (ParseAddr _) as [a|] eqn:Ea; [|done]. destruct (IsUnspecified a) eqn:Eu; [done|]. intros [= <- <- <-] [= Hr].
  split_and!; [done|done|]. by exists l, s, a.
Qed.

Lemma resolve_target_spec others ctx sid now m ip m' :
  ResolveProxyTarget others ctx sid now m = (Some (Ok (Some ip)), m') ->
  ctx = None /\ trim sid <> "" /\ m' = others 0%nat m /\ runs_at (trim sid) ip now m'.
Proof.
  unfold ResolveProxyTarget. case_bool_decide; [done|]. destruct (_ ≫= _) as [[l s]|]; [|done]. destruct (ts_destroying s); [done|].
  destruct ctx; [done|]. case_bool_decide as Er; cbn [negb]; [|done].
  destruct (proxy_target _ l now _) as [[[ip'|] []] m1] eqn:Et; intros [= <- <-] || done.
  - by apply proxy_target_spec in Et as [? _].
  - apply proxy_target_spec in Et as (_&->&Hr); done.
Qed.

(** Conversely such a session is found, if it is there already when the request
    comes. *)
Lemma resolve_target_found others sid now m l s ip :
  sid <> "" -> trim sid = sid -> m_sessions m !! sid = Some l -> m_heap m !! l = Some s -> ts_destroying s = false ->
  runs_at sid ip now (others 0%nat m) -> m_sessions (others 0%nat m) !! sid = Some l ->
  ResolveProxyTarget others None sid now m = (Some (Ok (Some ip)), others 0%nat m).
Proof.
  intros Hne Ht Hl Hs Hd (l'&s'&a&Hl'&Hs'&Hd'&Hi&Hr&He&Ha&Hu&->) Hsame. rewrite Hsame in Hl'. injection Hl' as <-.
  unfold ResolveProxyTarget. rewrite Ht, bool_decide_false, Hl by done. cbn [mbind option_bind]. rewrite Hs. cbn [fmap option_fmap option_map].
  rewrite Hd, Hs'. cbn [fmap option_fmap option_map]. rewrite Hr, bool_decide_true by done. cbn [negb].
  unfold proxy_target. rewrite Hs', Hsame, bool_decide_true, Hd', Hi, Ha, Hu by done. cbn [negb orb]. rewrite bool_decide_false by (by intros [? ?]).
  by rewrite (proj2 (Z.leb_gt _ _)).
Qed.

End target.

(** ** When a request is passed on *)
Section serving.

Lemma without_internal scheme host req out :
  passed_on scheme host (with_header (del_all internal_headers (hr_Header req)) req) out -> passed_on scheme host req out.
Proof.
  intros [H1 H2 H3 H4 H5 H6 H7 H8]. split; try done. intros n Hn. rewrite H8 by done. unfold Values.
  change (hr_Header (with_header _ _)) with (del_all internal_headers (hr_Header req)).
  rewrite lookup_del_all, (proj1 header_names), bool_decide_false; [done|]. intros Hi. destruct header_names as (_&_&Hd).
  destruct (Hd _ Hi) as [Hnot _]. by apply Hnot, list_elem_of_fmap_2.
Qed.

(** A request is passed on for one token only, which names this worker and a
    session that runs. *)
Definition admitted (hd : sandboxProxyHandler) (env : proxy_request_env) (req : http_request) m (claims : ProxyToken.Claims) (ip : string) : Prop :=
  hr_Method req <> "CONNECT" /\
  (exists token, Values ProxyToken.HeaderName (hr_Header req) = [token] /\ ProxyToken.Verify (pe_now env) (sp_key hd) token (pe_now env) = Ok claims) /\
  trim (ProxyToken.WorkerID claims) = sp_workerID hd /\
  ResolveProxyTarget (pe_others env) (pe_ctxErr env) (ProxyToken.SessionID claims) (pe_now env) m = (Some (Ok (Some ip)), pe_others env 0%nat m).

Lemma serve_sound hd env req m sv m' out : ServeHTTP hd env req m = (sv, m') -> sv_sent sv = Some out ->
  exists claims ip, admitted hd env req m claims ip /\ m' = pe_others env 0%nat m /\
    passed_on "http" (JoinHostPort ip (pretty (ProxyToken.Port claims))) req out /\
    sv_reply sv = Proxied (deliver modifyResponse out (pe_upstream env out)).
Proof.
  unfold ServeHTTP. case_bool_decide as Em; [by intros [= <- _]|].
  destruct (Values _ _) as [|token [|]] eqn:Ev; [by intros [= <- _]| |by intros [= <- _]].
  destruct (ProxyToken.Verify _ _ _ _) as [claims|] eqn:Ec; [|by intros [= <- _]]. case_bool_decide as Ew; cbn [negb]; [|by intros [= <- _]].
  destruct (ResolveProxyTarget _ _ _ _ _) as [[[[ip|]|e]|] m1] eqn:Er; [|by intros [= <- _]|destruct (_ || _); by intros [= <- _]|by intros [= <- _]].
  destruct (resolve_target_spec _ _ _ _ _ _ _ Er) as (_&_&->&_).
  destruct (ServeReverse _ _ _ _) as [sent a] eqn:Es. intros [= <- <-]. cbn. intros ->.
  apply reverse_passes in Es as [Hp ->]. exists claims, ip. split; [|split; [done|split; [by apply without_internal|done]]].
  split; [done|]. split; [by exists token|done].
Qed.

Lemma serve_complete hd env req m claims ip : admitted hd env req m claims ip -> IsPrint (upgradeType (del_all internal_headers (hr_Header req))) = true ->
  exists out, ServeHTTP hd env req m = (mkServed (Some out) (Proxied (deliver modifyResponse out (pe_upstream env out))), pe_others env 0%nat m) /\
    passed_on "http" (JoinHostPort ip (pretty (ProxyToken.Port claims))) req out.
Proof.
  intros (Hm&(token&Hv&Hc)&Hw&Hr) Hu. unfold ServeHTTP. rewrite bool_decide_false, Hv, Hc, Hw, bool_decide_true, Hr by done. cbn [negb].
  set (req' := with_header _ _). set (target := ("http", _)).
  destruct (ServeReverse (rewriteSandboxProxyRequest (Some target)) modifyResponse (pe_upstream env) req') as [sent a] eqn:Es.
  destruct sent as [out|].
  - pose proof (reverse_passes _ _ _ _ _ _ Es) as [Hp ->]. exists out. split; [done|]. by apply without_internal.
  - exfalso. unfold ServeReverse, outbound in Es. replace (hr_Header req') with (del_all internal_headers (hr_Header req)) in Es by done.
    rewrite Hu in Es. discriminate.
Qed.

End serving.

End WorkerProxyProps.
