(* ===== verification/DockerClaims.v ===== *)
(** What the settings of a docker worker guarantee, and that the console, the
    front proxy and the worker agree on proxied requests. *)
From stdpp Require Import pretty.
From S2P Require Import Prelude.
From S2P Require Import Json.
From S2P Require Import Sql.
From S2P Require Import Proto.
From S2P Require Import AuthText.
From S2P Require Import JsonText.
From S2P Require Import Net.
From S2P Require Import Sha256.
From S2P Require Import ProxyToken.
From S2P Require Import OwnerScope.
From S2P Require Import SessionRuntime.
From S2P Require Import Service.
From S2P Require Import ProxySession.
From S2P Require Import TerminalRoutes.
From S2P Require Import TerminalRoutesProps.
From S2P Require Import Proxy.
From S2P Require Import ProxyProps.
From S2P Require Import DispatchProps.
From S2P Require Import ProxyClaims.
From S2P Require Import Connect.
From S2P Require Import Source.
From S2P Require Import WorkerTerminal.
From S2P Require Import WorkerClaims.
From S2P Require Import DockerConfig.
From S2P Require Import ReverseProxy.
From S2P Require Import WorkerProxy.
From S2P Require Import WorkerProxyProps.
Import Source.
Import ReverseProxy.
Import WorkerProxy.
Import WorkerProxyProps.
Local Open Scope Z_scope.

Module DockerClaims.

Abbreviation worker_config := DockerConfig.Config.

(** ** Settings *)
Section settings.

Lemma clamp_between v lo hi : lo <= hi -> lo <= DockerConfig.clampInt v lo hi <= hi.
Proof. intros H. unfold DockerConfig.clampInt. destruct (v <? lo) eqn:E1; [lia|]. destruct (hi <? v) eqn:E2; lia. Qed.

Definition lease_settings (cfg : worker_config) : Prop :=
  0 < DockerConfig.TerminalLeaseMinSec cfg <= DockerConfig.TerminalLeaseDefaultSec cfg /\
  DockerConfig.TerminalLeaseDefaultSec cfg <= DockerConfig.TerminalLeaseMaxSec cfg /\
  0 < DockerConfig.TerminalOutputLimitBytes cfg /\ 0 < DockerConfig.TerminalSessionMaxInflight cfg /\
  0 <= DockerConfig.TerminalMaxActiveSessions cfg.

Lemma loaded_leases s : lease_settings (DockerConfig.load_config s).
Proof.
  unfold lease_settings, DockerConfig.load_config.
  cbn [DockerConfig.TerminalLeaseMinSec DockerConfig.TerminalLeaseDefaultSec DockerConfig.TerminalLeaseMaxSec
    DockerConfig.TerminalOutputLimitBytes DockerConfig.TerminalSessionMaxInflight DockerConfig.TerminalMaxActiveSessions].
  set (lo := positiveInt _ s "WORKER_TERMINAL_LEASE_MIN_SEC" _). set (hi0 := positiveInt _ s "WORKER_TERMINAL_LEASE_MAX_SEC" _).
  assert (0 < lo) by by apply positive_int. set (hi := if hi0 <? lo then lo else hi0). assert (lo <= hi) by (unfold hi; destruct (hi0 <? lo) eqn:E; lia).
  match goal with |- context [DockerConfig.clampInt ?v lo hi] => pose proof (clamp_between v lo hi) as Hc; set (mid := DockerConfig.clampInt v lo hi) in * end.
  split_and!; try lia; [by apply positive_int|by apply positive_int|].
  apply Z.leb_le, (int_value_ok _ (fun n => 0 <=? n)). done.
Qed.

(** The manager runs with the settings as they are. *)
Lemma manager_settings cfg hash : lease_settings cfg ->
  let c := m_cfg (newTerminalSessionManager (DockerConfig.manager_config cfg hash)) in
  c_LeaseMinSec c = DockerConfig.TerminalLeaseMinSec cfg /\ c_LeaseMaxSec c = DockerConfig.TerminalLeaseMaxSec cfg /\
  c_LeaseDefaultSec c = DockerConfig.TerminalLeaseDefaultSec cfg /\ c_OutputLimitBytes c = DockerConfig.TerminalOutputLimitBytes cfg /\
  c_SessionMaxInflight c = DockerConfig.TerminalSessionMaxInflight cfg /\ c_MaxActiveSessions c = DockerConfig.TerminalMaxActiveSessions cfg.
Proof.
  intros (H1&H2&H3&H4&H5). unfold newTerminalSessionManager, DockerConfig.manager_config, or_default.
  cbn [m_cfg c_LeaseMinSec c_LeaseMaxSec c_LeaseDefaultSec c_OutputLimitBytes c_SessionMaxInflight c_MaxActiveSessions].
  repeat (rewrite (proj2 (Z.leb_gt _ _)) by lia). split_and!; lia.
Qed.

End settings.

(** ** The hello *)
Section hello.

Lemma hello_shape version n cfg hello : DockerConfig.buildHello version n cfg = Ok hello ->
  0 <= DockerConfig.TerminalMaxActiveSessions cfg < 2 ^ 31 /\ 0 <= n /\ NodeId hello = DockerConfig.WorkerID cfg /\
  WorkerSecret hello = DockerConfig.WorkerSecret cfg /\ Labels hello = DockerConfig.hello_labels cfg /\
  HelloTerminalSessionCapacity hello = Some (mkCapacity (DockerConfig.TerminalMaxActiveSessions cfg) n).
Proof.
  unfold DockerConfig.buildHello, DockerConfig.validateTerminalMaxActiveSessions, DockerConfig.maxProtocolInt32.
  destruct (_ || _) eqn:E; [done|]. destruct (n <? 0) eqn:En; [done|]. intros [= <-]. cbn [NodeId WorkerSecret Labels HelloTerminalSessionCapacity].
  bool_prop. split_and!; try done; try lia. rewrite i32_id by lia. done.
Qed.

Lemma hello_endpoint cfg : DockerConfig.hello_labels cfg !! ProxyToken.ProxyEndpointLabel =
  if DockerConfig.ProxyEnabled cfg then Some (trim (DockerConfig.ProxyAdvertiseAddr cfg)) else None.
Proof.
  unfold DockerConfig.hello_labels. destruct (DockerConfig.ProxyEnabled cfg); [by rewrite lookup_insert_eq|].
  rewrite lookup_keep. destruct (_ !! _) as [v|]; [|done]. cbn [mbind option_bind]. by rewrite bool_decide_true.
Qed.

End hello.

(** ** The endpoint *)
Section endpoint.

Definition listens_at (raw : string) (address : Addr) (port : Z) : Prop :=
  exists listenHost rawPort, SplitHostPort (trim raw) = Some (listenHost, rawPort) /\ Atoi rawPort = Ok port /\
    (trim listenHost = "" \/ exists l, ParseAddr (trim listenHost) = Some l /\ (IsUnspecified (Unmap l) = true \/ Unmap l = address)).

Lemma port_of_spec raw port : DockerConfig.port_of raw = Some port -> Atoi raw = Ok port /\ 1 <= port <= 65535.
Proof. unfold DockerConfig.port_of. destruct (Atoi raw) as [p|]; [|done]. destruct (_ || _) eqn:E; [done|]. intros [= <-]. bool_prop. split; [done|lia]. Qed.

Lemma listen_address_spec listenHost la : DockerConfig.listen_address listenHost = Some la ->
  match la with
  | None => trim listenHost = ""
  | Some u => exists l, ParseAddr (trim listenHost) = Some l /\ u = Unmap l
  end.
Proof.
  unfold DockerConfig.listen_address. case_bool_decide as E; [by intros [= <-]|]. destruct (ParseAddr _) as [l|]; [|done].
  case_bool_decide; [|done]. intros [= <-]. by exists l.
Qed.

Lemma validated cfg : DockerConfig.validateProxyConfig cfg = Ok tt -> DockerConfig.ProxyEnabled cfg = true ->
  exists host rawPort a port, SplitHostPort (trim (DockerConfig.ProxyAdvertiseAddr cfg)) = Some (host, rawPort) /\
    ParseAddr (trim host) = Some a /\ Zone a = "" /\ IsGlobalUnicast (Unmap a) = true /\ Atoi rawPort = Ok port /\ 1 <= port <= 65535 /\
    listens_at (DockerConfig.ProxyListenAddr cfg) (Unmap a) port.
Proof.
  intros H He. unfold DockerConfig.validateProxyConfig in H. rewrite He in H. cbn [negb] in H. destruct (bool_decide _); [done|].
  destruct (SplitHostPort (trim (DockerConfig.ProxyListenAddr cfg))) as [[lh lp]|] eqn:El; [|done].
  destruct (DockerConfig.listen_address lh) as [la|] eqn:Ela; [|done]. destruct (DockerConfig.port_of lp) as [lport|] eqn:Elp; [|done].
  destruct (SplitHostPort (trim (DockerConfig.ProxyAdvertiseAddr cfg))) as [[host rawPort]|]; [|done]. destruct (ParseAddr (trim host)) as [a|] eqn:Ea; [|done].
  case_bool_decide as Ez; cbn [negb] in H; [|done]. destruct (IsGlobalUnicast (Unmap a)) eqn:Eg; cbn [negb] in H; [|done].
  destruct (match la with Some l => _ | None => false end) eqn:Em; [done|]. destruct (DockerConfig.port_of rawPort) as [port|] eqn:Ep; [|done].
  destruct (port =? lport) eqn:Eq; cbn [negb] in H; [|done]. apply Z.eqb_eq in Eq as <-.
  apply port_of_spec in Ep as [Ep ?], Elp as [Elp _]. apply listen_address_spec in Ela.
  exists host, rawPort, a, port. split_and!; try done || lia. exists lh, lp. split_and!; [done|done|]. destruct la as [u|]; [right|by left].
  destruct Ela as (l&Hl&->). exists l. split; [done|]. destruct (IsUnspecified (Unmap l)); [by left|right]. cbn [negb andb] in Em. by case_bool_decide.
Qed.

Definition allowed (settings : ProxySettings) (address : Addr) (port : Z) : bool :=
  existsb (fun allowedPort => allowedPort =? port) (proxyAllowedWorkerPorts settings) &&
  existsb (fun prefix => Contains prefix address) (proxyAllowedWorkerCIDRs settings).

End endpoint.

(** A docker worker that starts with the proxy enabled advertises the
    address it listens on: the port is the listener's and the listener is bound
    to this address or to all. A console with the proxy enabled then takes the
    connection exactly if the address and the port are allowed, and sends
    requests to this address with tokens under the key with which the worker's
    proxy checks them; labels set by hand cannot replace the endpoint. *)
Theorem worker_and_console_agree_on_the_endpoint settings cfg version n hello x :
  DockerConfig.validateProxyConfig cfg = Ok tt -> DockerConfig.ProxyEnabled cfg = true -> DockerConfig.buildHello version n cfg = Ok hello ->
  proxyEnabled settings = true -> trim (DockerConfig.WorkerID cfg) <> "" -> trim (DockerConfig.WorkerSecret cfg) <> "" ->
  trim (default "" (Labels hello !! ProxyToken.ProxyDirectLabel)) = "" ->
  exists address port key, listens_at (DockerConfig.ProxyListenAddr cfg) address port /\ IsGlobalUnicast address = true /\ 1 <= port <= 65535 /\
    newSandboxProxyHandler (DockerConfig.WorkerID cfg) (DockerConfig.WorkerSecret cfg) true = Ok (mkSandboxProxy (trim (DockerConfig.WorkerID cfg)) key) /\
    if allowed settings address port
    then configureSessionProxy settings x hello (trim (WorkerSecret hello)) =
           Ok (with_proxy (JoinHostPort (AddrString address) (pretty port)) key (proxyDirect x) x)
    else is_ok (configureSessionProxy settings x hello (trim (WorkerSecret hello))) = false.
Proof.
  intros Hv He Hh Hs Hid Hsec Hdir. apply hello_shape in Hh as (_&_&_&Hws&Hl&_). rewrite Hl in Hdir.
  destruct (validated _ Hv He) as (host&rawPort&a&port&Hsp&Ha&Hz&Hg&Hp&Hb&Hlis).
  assert (forall raw, trim raw = trim (DockerConfig.WorkerSecret cfg) -> ProxyToken.DeriveKey raw = Ok (hmac (trim (DockerConfig.WorkerSecret cfg)) ProxyToken.keyDerivationLabel)) as Hk.
  { intros raw Hr. unfold ProxyToken.DeriveKey. rewrite Hr. by rewrite bool_decide_false. }
  exists (Unmap a), port, (hmac (trim (DockerConfig.WorkerSecret cfg)) ProxyToken.keyDerivationLabel). split_and!; try done || lia.
  { unfold newSandboxProxyHandler. rewrite bool_decide_false by done. cbn [negb]. by rewrite Hk. }
  set (key := hmac _ _) in *. clearbody key. unfold configureSessionProxy. rewrite Hs, Hl, hello_endpoint, He, Hdir, Hws. cbn [negb default from_option id].
  change (to_lower "") with "". rewrite !trim_trim, (bool_decide_true ("" = "")) by done. cbn [negb]. rewrite andb_false_r.
  rewrite bool_decide_false by (intros E; by rewrite E in Hsp).
  unfold normalizeAllowedProxyEndpoint. rewrite trim_trim, Hsp, Ha, Hz, (bool_decide_true ("" = "")), Hg, Hp by done. cbn [negb].
  rewrite (proj2 (Z.ltb_ge _ _)), (proj2 (Z.ltb_ge _ _)) by lia. cbn [orb]. unfold allowed.
  destruct (existsb (fun allowedPort => _) _); cbn [negb andb]; [|done]. destruct (existsb (fun prefix => _) _); cbn [negb]; [|done].
  rewrite Hk by apply trim_trim. done.
Qed.

(** Whatever the environment and the configuration file of a docker worker
    contain, the terminal leases it allows are positive and ordered, minimum,
    default, maximum, the output limit and the commands per session are
    positive, and its session manager runs with exactly these numbers. If the
    worker has an id of at most the length the console takes, the hello it
    builds passes the console's checks, reports the number of its sessions and
    their limit, and names a proxy endpoint if and only if the proxy is on. *)
Theorem docker_settings_fit_the_console s version n hash hello :
  let cfg := DockerConfig.load_config s in
  let c := m_cfg (newTerminalSessionManager (DockerConfig.manager_config cfg hash)) in
  lease_settings cfg /\
  (c_LeaseMinSec c, c_LeaseMaxSec c, c_LeaseDefaultSec c, c_OutputLimitBytes c, c_SessionMaxInflight c, c_MaxActiveSessions c) =
    (DockerConfig.TerminalLeaseMinSec cfg, DockerConfig.TerminalLeaseMaxSec cfg, DockerConfig.TerminalLeaseDefaultSec cfg,
     DockerConfig.TerminalOutputLimitBytes cfg, DockerConfig.TerminalSessionMaxInflight cfg, DockerConfig.TerminalMaxActiveSessions cfg) /\
  (DockerConfig.WorkerID cfg <> "" -> (String.length (DockerConfig.WorkerID cfg) <= maxNodeIDLength)%nat ->
   DockerConfig.buildHello version n cfg = Ok hello ->
   validateHello hello = Ok tt /\ HelloTerminalSessionCapacity hello = Some (mkCapacity (DockerConfig.TerminalMaxActiveSessions cfg) n) /\
   (is_Some (Labels hello !! ProxyToken.ProxyEndpointLabel) <-> DockerConfig.ProxyEnabled cfg = true)).
Proof.
  cbv zeta. pose proof (loaded_leases s) as Hs. assert (trim (DockerConfig.WorkerID (DockerConfig.load_config s)) = DockerConfig.WorkerID (DockerConfig.load_config s)) as Ht
    by apply trim_trim.
  set (cfg := DockerConfig.load_config s) in *. clearbody cfg.
  destruct (manager_settings cfg hash Hs) as (M1&M2&M3&M4&M5&M6). split; [done|]. split; [by rewrite M1, M2, M3, M4, M5, M6|].
  intros Hid Hlen Hh. apply hello_shape in Hh as (Hmax&Hn&Hnode&_&Hl&Hcap). split_and!; [|done|].
  - unfold validateHello, validateNodeID. rewrite Hnode, Ht, bool_decide_false by done. rewrite (proj2 (Nat.ltb_ge _ _)) by lia. rewrite Hcap.
    cbn [MaxActiveSessions Proto.ActiveSessionCount]. by rewrite !(proj2 (Z.ltb_ge _ _)) by lia.
  - rewrite Hl, hello_endpoint. destruct (DockerConfig.ProxyEnabled cfg); [split; [done|by eexists]|]. split; [by intros []|done].
Qed.

(** C14: The worker passes a request into a sandbox only for exactly one route
    token that verifies under the worker's key, has not expired and names this
    worker, and then to the container of the session the token names, which
    exists, is ready and has time left on its lease, at the port the token
    names. The sandbox gets the method, the host, the path and the trusted
    forwarding headers of the request, whatever its Connection header lists,
    and none of the internal headers; nor are these in the response. *)
Theorem sandbox_requests_are_authorized hd env req m sv m' out :
  ServeHTTP hd env req m = (sv, m') -> sv_sent sv = Some out ->
  exists claims ip, admitted hd env req m claims ip /\
    runs_at (trim (ProxyToken.SessionID claims)) ip (pe_now env) m' /\ 1 <= ProxyToken.Port claims <= 65535 /\
    unix_milli (pe_now env) < ProxyToken.ExpiresAtUnixMs claims /\
    passed_on "http" (JoinHostPort ip (pretty (ProxyToken.Port claims))) req out /\
    (forall n hd, n ∈ internal_headers -> sv_reply sv = Proxied (Switched hd) \/ (exists st, sv_reply sv = Proxied (Response st hd)) -> hd !! n = None).
Proof.
  intros H Hout. destruct (serve_sound _ _ _ _ _ _ _ H Hout) as (claims&ip&Had&->&Hp&Hr). exists claims, ip. split; [done|].
  destruct Had as (_&(token&_&Hv)&_&Hres). apply resolve_target_spec in Hres as (_&_&_&Hrun).
  apply ProxyToken.Verify_sound in Hv as (_&Hval&Hexp&_). destruct (ProxyToken.valid_claims_bounds _ Hval) as [Hport _].
  split_and!; try done || lia. { by destruct (is_zero (pe_now env)). }
  intros n h' Hn Hcase. rewrite Hr in Hcase. apply (deliver_clean out (pe_upstream env out) n h' Hn).
  destruct Hcase as [[= ->]|[st [= ->]]]; [by left|right; by exists st].
Qed.

(** ** From the public host name to the container *)
Section end_to_end.

(** The token of an authorization is taken by the worker until it expires. *)
Lemma worker_takes_token hd env req m r token x now ip l s :
  ProxyToken.Sign (routeTokenKey x) (route_claims (pr_WorkerID r) (pr_ScopedSessionID r) (pr_Port r) (pr_ExpiresAt r) now) = Ok token ->
  is_i64 (ProxyToken.ExpiresAtUnixMs (route_claims (pr_WorkerID r) (pr_ScopedSessionID r) (pr_Port r) (pr_ExpiresAt r) now)) = true ->
  utf8_ok (pr_WorkerID r) = true -> utf8_ok (pr_ScopedSessionID r) = true ->
  (String.length (pr_WorkerID r) + String.length (pr_ScopedSessionID r) <= ProxyToken.maxTokenIDs)%nat ->
  hd = mkSandboxProxy (trim (pr_WorkerID r)) (routeTokenKey x) -> hr_Method req <> "CONNECT" ->
  Values ProxyToken.HeaderName (hr_Header req) = [token] -> is_zero (pe_now env) = false -> pe_ctxErr env = None ->
  unix_milli (pe_now env) < unix_milli (Z.min (pr_ExpiresAt r) (time_add now proxyRouteTokenTTL)) ->
  trim (pr_ScopedSessionID r) = pr_ScopedSessionID r -> pr_ScopedSessionID r <> "" ->
  m_sessions m !! pr_ScopedSessionID r = Some l -> m_heap m !! l = Some s -> ts_destroying s = false ->
  m_sessions (pe_others env 0%nat m) !! pr_ScopedSessionID r = Some l ->
  runs_at (pr_ScopedSessionID r) ip (pe_now env) (pe_others env 0%nat m) ->
  admitted hd env req m (route_claims (pr_WorkerID r) (pr_ScopedSessionID r) (pr_Port r) (pr_ExpiresAt r) now) ip.
Proof.
  intros Hsig Hi Hu1 Hu2 Hlen -> Hm Htok Hz Hctx Hexp Hts Hne Hl Hh Hd Hl' Hrun. set (claims := route_claims _ _ _ _ _) in *.
  split; [done|]. split; [exists token; split; [done|]|split; [done|]].
  - pose proof (ProxyToken.Verify_Sign (pe_now env) (routeTokenKey x) claims token (pe_now env) Hsig Hu1 Hu2 Hi (ProxyToken.Sign_length _ _ _ Hsig Hi Hlen)) as Hv.
    cbn [sp_key]. rewrite Hv, Hz. change (ProxyToken.ExpiresAtUnixMs claims) with (unix_milli (Z.min (pr_ExpiresAt r) (time_add now proxyRouteTokenTTL))).
    by rewrite (proj2 (Z.leb_gt _ _)).
  - rewrite Hctx. by eapply resolve_target_found.
Qed.

Lemma token_expiry_fits w r x now : live w r x now ->
  is_i64 (ProxyToken.ExpiresAtUnixMs (route_claims (pr_WorkerID r) (pr_ScopedSessionID r) (pr_Port r) (pr_ExpiresAt r) now)) = true.
Proof.
  intros [_ [_ Hpos] [Hne Hi] _ _]. unfold route_claims. cbn [ProxyToken.ExpiresAtUnixMs].
  assert (unix_milli (Z.min (pr_ExpiresAt r) (time_add now proxyRouteTokenTTL)) <= unix_milli (pr_ExpiresAt r)) by (apply unix_milli_mono; lia).
  assert (unix_milli now <= unix_milli (Z.min (pr_ExpiresAt r) (time_add now proxyRouteTokenTTL)))
    by (apply unix_milli_mono; unfold time_add, proxyRouteTokenTTL, second; lia).
  unfold is_i64 in *. lia.
Qed.

(** The worker holds the session, in the container at [ip], when the request
    comes and after the other goroutines had their turn. *)
Definition holds_session (env : proxy_request_env) m sid ip : Prop :=
  exists l s, m_sessions m !! sid = Some l /\ m_heap m !! l = Some s /\ ts_destroying s = false /\
    m_sessions (pe_others env 0%nat m) !! sid = Some l /\ runs_at sid ip (pe_now env) (pe_others env 0%nat m).

End end_to_end.

(** C13: From the public host name to the container. The front proxy asks the
    console about the host of a live route and is sent to the endpoint of the
    worker that holds the session; when it passes the request on there with the
    token it was given, at most fifteen seconds later and before the route
    expires, the worker forwards it to the container of this session, at the
    port of the route. Only the secret the worker was provisioned with is
    shared between the two sides. It is meant that no other goroutine changes the
    console while it answers, that the worker holds the session throughout, and
    that the request carries just this token, is no CONNECT and asks for no upgrade
    with unprintable characters; the ids are valid text and together short enough
    for a token to be parsed. *)
Theorem proxied_requests_end_in_the_container h env tok host w k r x workerID secret hd wenv m ip :
  world_ok h w -> (forall w, px_others env w = w) -> (forall s, re_between (px_resolve env) s = s) ->
  trim tok = ph_internalToken h -> routeKeyFromHost h host = Some k -> w_routes w !! k = Some r -> px_now env 0%nat < pr_ExpiresAt r ->
  live w r x (px_now env 1%nat) -> ProxyToken.DeriveKey secret = Ok (routeTokenKey x) ->
  utf8_ok (pr_WorkerID r) = true -> utf8_ok (pr_ScopedSessionID r) = true ->
  (String.length (pr_WorkerID r) + String.length (pr_ScopedSessionID r) <= ProxyToken.maxTokenIDs)%nat ->
  trim workerID = pr_WorkerID r -> newSandboxProxyHandler workerID secret true = Ok hd ->
  holds_session wenv m (pr_ScopedSessionID r) ip -> is_zero (pe_now wenv) = false -> pe_ctxErr wenv = None ->
  unix_milli (pe_now wenv) < unix_milli (Z.min (pr_ExpiresAt r) (time_add (px_now env 1%nat) proxyRouteTokenTTL)) ->
  exists token, (Resolve h env tok host w).1 = mkProxyReply 204 (PxHeaders
      [("X-Onlyboxes-Upstream", "http://" +:+ proxyEndpoint x); ("X-Onlyboxes-Upstream-Host", trim host); (ProxyToken.HeaderName, token)]) /\
    forall req, hr_Method req <> "CONNECT" -> Values ProxyToken.HeaderName (hr_Header req) = [token] ->
      IsPrint (upgradeType (del_all internal_headers (hr_Header req))) = true ->
      exists out, ServeHTTP hd wenv req m = (mkServed (Some out) (Proxied (deliver modifyResponse out (pe_upstream wenv out))), pe_others wenv 0%nat m) /\
        passed_on "http" (JoinHostPort ip (pretty (pr_Port r))) req out.
Proof.
  intros Hw Hoth Hbet Htok Hhost Hk Hexp Hlive Hkey Hu1 Hu2 Hlen Hid Hhd (l&s&Hl&Hs&Hd&Hl'&Hrun) Hz Hctx Hbefore.
  destruct (Resolve_serves h env tok host w k r x Hw Hoth Hbet Htok Hhost Hk Hexp Hlive) as (token&Hres&Hsig).
  exists token. split; [exact Hres|]. intros req Hm Hv Hup. pose proof (token_expiry_fits _ _ _ _ Hlive) as Hi.
  destruct (wo_record _ _ Hw _ _ Hk) as (_&_&_&_&_&_&_&_&_&t&Htab&Hnode). destruct (ok_route _ (wo_svc _ _ Hw) _ _ Htab) as (Hst&Hsn&Hnt&_).
  rewrite Hnode in Hnt. assert (hd = mkSandboxProxy (trim (pr_WorkerID r)) (routeTokenKey x)) as Ehd.
  { unfold newSandboxProxyHandler in Hhd. rewrite Hid, Hkey in Hhd. cbn [negb] in Hhd. destruct (bool_decide _); [done|]. injection Hhd as <-. by rewrite Hnt. }
  pose proof (worker_takes_token hd wenv req m r token x _ ip l s Hsig Hi Hu1 Hu2 Hlen Ehd Hm Hv Hz Hctx Hbefore Hst Hsn Hl Hs Hd Hl' Hrun) as Had.
  exact (serve_complete _ _ _ _ _ _ Had Hup).
Qed.

(** ** Witnesses *)

Definition demo_worker_env (key : string) : option string :=
  if bool_decide (key = "WORKER_ID") then Some " w1" else if bool_decide (key = "WORKER_SECRET") then Some "secret " else
  if bool_decide (key = "WORKER_TERMINAL_LEASE_MAX_SEC") then Some "30" else
  if bool_decide (key = "WORKER_PROXY_ENABLED") then Some "on" else
  if bool_decide (key = "WORKER_PROXY_ADVERTISE_ADDR") then Some "[::ffff:10.1.2.3]:8091" else
  if bool_decide (key = "WORKER_LABELS") then Some "zone=a, obx.proxy_endpoint=8.8.8.8:80" else None.
Definition demo_worker_source : source := mkSource "" ∅ demo_worker_env.
Definition demo_worker_config : worker_config := DockerConfig.load_config demo_worker_source.
Definition demo_worker_hello : ConnectHello :=
  match DockerConfig.buildHello "dev" 0 demo_worker_config with Ok hello => hello | Err _ => demo_proxy_hello end.

Lemma demo_worker_hello_eq : DockerConfig.buildHello "dev" 0 demo_worker_config = Ok demo_worker_hello.
Proof. vm_compute. reflexivity. Qed.

Lemma docker_settings_fit_the_console_witness :
  DockerConfig.TerminalLeaseMaxSec demo_worker_config = 60 /\ validateHello demo_worker_hello = Ok tt /\
  Labels demo_worker_hello !! "zone" = Some "a" /\ Labels demo_worker_hello !! ProxyToken.ProxyEndpointLabel = Some "[::ffff:10.1.2.3]:8091".
Proof.
  split; [vm_compute; reflexivity|]. split; [|split; vm_compute; reflexivity].
  destruct (docker_settings_fit_the_console demo_worker_source "dev" 0 (fun x => x) demo_worker_hello) as (_&_&H).
  apply H; [vm_compute; discriminate|apply Nat.leb_le; vm_compute; reflexivity|exact demo_worker_hello_eq].
Defined.

Lemma worker_and_console_agree_on_the_endpoint_witness :
  exists address port key, address = V4 (10 * 2 ^ 24 + 1 * 2 ^ 16 + 2 * 2 ^ 8 + 3) /\ port = 8091 /\
    configureSessionProxy demo_proxy_settings demo_proxy_session demo_worker_hello "secret" =
      Ok (with_proxy "10.1.2.3:8091" key (proxyDirect demo_proxy_session) demo_proxy_session).
Proof.
  destruct (worker_and_console_agree_on_the_endpoint demo_proxy_settings demo_worker_config "dev" 0 demo_worker_hello demo_proxy_session)
    as (address&port&key&Hl&Hg&Hp&Hn&Hc).
  - vm_compute. reflexivity.
  - vm_compute. reflexivity.
  - exact demo_worker_hello_eq.
  - reflexivity.
  - vm_compute. discriminate.
  - vm_compute. discriminate.
  - vm_compute. reflexivity.
  - exists (V4 (10 * 2 ^ 24 + 1 * 2 ^ 16 + 2 * 2 ^ 8 + 3)), 8091, demo_proxy_key. split; [reflexivity|]. split; [reflexivity|].
    vm_compute. reflexivity.
Defined.

(** The session of the demonstration, in a container. *)
Definition demo_container : terminalSession :=
  mkTSession demo_tid "c" " 172.18.0.2" (time_add demo_now hour) None false 0 false true None true.
Definition demo_sandboxes : terminalSessionManager :=
  let m := newTerminalSessionManager (DockerConfig.manager_config demo_worker_config (fun x => x)) in
  mkManager (m_cfg m) {[ demo_tid := 0%nat ]} {[ 0%nat := demo_container ]} 1 1 false 0 0 [].
Definition demo_request_env : proxy_request_env :=
  mkProxyRequestEnv demo_now (fun _ m => m) None (fun _ => Ok (mkResponse 200 {[ proxyUpstreamHeader := ["spoofed"]; "Content-Type" := ["text/html"] ]})).
Definition demo_sandbox_proxy : sandboxProxyHandler := mkSandboxProxy "w1" demo_proxy_key.

Lemma demo_holds : holds_session demo_request_env demo_sandboxes demo_tid "172.18.0.2".
Proof.
  exists 0%nat, demo_container. split; [vm_compute; reflexivity|]. split; [vm_compute; reflexivity|]. split; [reflexivity|]. split; [vm_compute; reflexivity|].
  exists 0%nat, demo_container, (V4 (172 * 2 ^ 24 + 18 * 2 ^ 16 + 2)). repeat (split; [vm_compute; reflexivity|]). vm_compute. reflexivity.
Qed.

(** A browser's request as the front proxy passes it on, with an attempt to get
    rid of the forwarding header. *)
Definition demo_front_request (token : string) : http_request :=
  mkHTTP "GET" demo_route_host "" "" "/index.html" "" "a=b"
    {[ ProxyToken.HeaderName := [token]; "X-Forwarded-For" := ["203.0.113.7"]; "Connection" := ["keep-alive, X-Forwarded-For"] ]}.

Lemma proxied_requests_end_in_the_container_witness :
  exists token out, (Resolve demo_handler demo_proxy_env "internal" demo_route_host demo_created_world).1 = mkProxyReply 204 (PxHeaders
      [("X-Onlyboxes-Upstream", "http://10.1.2.3:8091"); ("X-Onlyboxes-Upstream-Host", demo_route_host); (ProxyToken.HeaderName, token)]) /\
    sv_sent (ServeHTTP demo_sandbox_proxy demo_request_env (demo_front_request token) demo_sandboxes).1 = Some out /\
    hr_URLHost out = "172.18.0.2:8080" /\ Values "x-forwarded-for" (hr_Header out) = ["203.0.113.7"].
Proof.
  destruct (proxied_requests_end_in_the_container demo_handler demo_proxy_env "internal" demo_route_host demo_created_world demo_route_key
    demo_proxy_record demo_proxy_session " w1" " secret" demo_sandbox_proxy demo_request_env demo_sandboxes "172.18.0.2" demo_created_ok) as (token&Hr&Hs).
  1,2: intros ?; reflexivity.
  1,2: vm_compute; reflexivity.
  - exact demo_lookup.
  - vm_compute. reflexivity.
  - exact demo_live.
  - vm_compute. reflexivity.
  - vm_compute. reflexivity.
  - vm_compute. reflexivity.
  - apply Nat.leb_le. vm_compute. reflexivity.
  - vm_compute. reflexivity.
  - vm_compute. reflexivity.
  - exact demo_holds.
  - vm_compute. reflexivity.
  - reflexivity.
  - vm_compute. reflexivity.
  - destruct (Hs (demo_front_request token)) as (out&Ho&Hp).
    + discriminate.
    + vm_compute. reflexivity.
    + vm_compute. reflexivity.
    + exists token, out. split; [rewrite Hr; vm_compute; reflexivity|]. split; [rewrite Ho; reflexivity|]. split; [rewrite (po_target _ _ _ _ Hp); vm_compute; reflexivity|].
      pose proof (po_forwarded _ _ _ _ Hp "X-Forwarded-For") as Hf.
      transitivity (Values "X-Forwarded-For" (hr_Header out)); [unfold Values; do 2 f_equal; vm_compute; reflexivity|].
      rewrite Hf; [vm_compute; reflexivity|]. left.
Defined.

Definition demo_claims : ProxyToken.Claims := ProxyToken.mkClaims "w1" demo_tid 8080 17000.
Definition demo_signed : string := match ProxyToken.Sign demo_proxy_key demo_claims with Ok token => token | Err _ => "" end.

Lemma sandbox_requests_are_authorized_witness :
  exists sv m' out, ServeHTTP demo_sandbox_proxy demo_request_env (demo_front_request demo_signed) demo_sandboxes = (sv, m') /\ sv_sent sv = Some out /\
    hr_Header out !! ProxyToken.HeaderName = None.
Proof.
  destruct (ServeHTTP demo_sandbox_proxy demo_request_env (demo_front_request demo_signed) demo_sandboxes) as [sv m'] eqn:E.
  assert (is_Some (sv_sent sv)) as [out Hout].
  { replace sv with (ServeHTTP demo_sandbox_proxy demo_request_env (demo_front_request demo_signed) demo_sandboxes).1 by (rewrite E; reflexivity).
    vm_compute. eexists. reflexivity. }
  exists sv, m', out. split; [reflexivity|]. split; [exact Hout|].
  destruct (sandbox_requests_are_authorized _ _ _ _ _ _ _ E Hout) as (claims&ip&_&_&_&_&Hp&_). apply (po_internal _ _ _ _ Hp). left.
Defined.

(** A limit that does not fit the protocol's 32 bits is not refused. *)
Example large_inflight_wraps :
  exists cfg hello, DockerConfig.EchoMaxInflight cfg = 3000000000 /\ DockerConfig.buildHello "dev" 0 cfg = Ok hello /\
    head (Capabilities hello) = Some (Some (mkCapability "echo" (-1294967296))).
Proof.
  exists (DockerConfig.load_config (mkSource "" ∅ (fun key => if bool_decide (key = "WORKER_ECHO_MAX_INFLIGHT") then Some "3000000000" else demo_worker_env key))).
  eexists. split; [vm_compute; reflexivity|]. split; [vm_compute; reflexivity|]. vm_compute. reflexivity.
Qed.

End DockerClaims.
