(* ===== verification/WorkerClient.v ===== *)
(** The client side of a docker worker's connection
    (worker-docker/internal/runner: session_client.go and [Run] of runner.go):
    the handshake, heartbeats, received frames, and reconnection.

    A select statement is an input that says which case was taken; dialling, the
    gRPC stream and random numbers are inputs as well. *)
From stdpp Require Import pretty.
From S2P Require Import Prelude.
From S2P Require Import Json.
From S2P Require Import Sql.
From S2P Require Import Proto.
From S2P Require Import AuthText.
From S2P Require Import JsonText.
From S2P Require Import OwnerScope.
From S2P Require Import Dispatch.
From S2P Require Import WorkerTerminal.
From S2P Require Import WorkerRecovery.
From S2P Require Import WorkerResource.
From S2P Require Import WorkerExecutor.
From S2P Require Import DockerConfig.
From S2P Require Import WorkerProxy.
Local Open Scope Z_scope.

Module WorkerClient.

Definition minHeartbeatInterval : duration := 1 * second.
Definition initialReconnectDelay : duration := 1 * second.
Definition maxReconnectDelay : duration := 15 * second.

(** ** Durations *)
Definition durationFromServer (seconds : Z) (fallback : duration) : duration :=
  if 0 <? seconds then i64 (seconds * second) else
  if fallback <=? 0 then 5 * second else fallback.

(** [random max]: what [rand.Int] gives below [max]. *)
Definition jitterDuration (random : Z -> res Z) (base : duration) (jitterPct : Z) : duration :=
  let base := if base <=? 0 then minHeartbeatInterval else base in
  if jitterPct <=? 0 then base else
  let maxDelta := Z.quot (i64 (base * jitterPct)) 100 in
  if maxDelta <=? 0 then base else
  match random (i64 (maxDelta * 2 + 1)) with
  | Err _ => base
  | Ok n =>
      let jittered := i64 (base + (n - maxDelta)) in
      if jittered <? minHeartbeatInterval then minHeartbeatInterval else jittered
  end.

Definition nextReconnectDelay (current : duration) : duration :=
  if current <=? 0 then initialReconnectDelay else
  let next := i64 (current * 2) in
  if maxReconnectDelay <? next then maxReconnectDelay else next.

(** [ended]: the context ended before the timer. *)
Definition waitReconnectDelay (ended : option error) (delay : duration) : res duration :=
  match ended with
  | Some e => Err e
  | None => Ok (if delay <=? 0 then initialReconnectDelay else delay)
  end.

(** ** Waiting for a frame *)
Inductive first_of := FirstContext (e : error) | FirstTimer | FirstResult.

Definition recvWithTimeout (timeout : duration) (first : first_of) (result : res ConnectResponse) : res ConnectResponse :=
  if timeout <=? 0 then result else
  match first with
  | FirstContext e => Err e
  | FirstTimer => Err (Sentinel ErrContextDeadlineExceeded)
  | FirstResult => result
  end.

(** [ended]: the context or its time ended first; the recovery then goes on in
    the background. *)
Definition recoverTerminalSessionsWithTimeout (ended : option error) (env : recover_env)
    (candidates : list TerminalSessionRecoveryCandidate) (m : terminalSessionManager)
    : res (list TerminalSessionRecoveryResult) * terminalSessionManager :=
  let '(results, m) := Recover env (Some <$> candidates) m in
  (match ended with Some e => Err e | None => Ok results end, m).

(** ** Channels of a session *)
Definition outboundCapacity : nat := 64.
Definition errorCapacity : nat := 4.

Definition reportSessionErr (errCh : list error) (e : error) : list error :=
  if (length errCh <? errorCapacity)%nat then errCh ++ [e] else errCh.

(** The two cases of the select; [None]: neither can be taken yet. *)
Definition enqueueRequest (prefer_ctx : bool) (ctx : option error) (req : ConnectRequest) (outbound : list ConnectRequest)
    : option (res (list ConnectRequest)) :=
  let send := if (length outbound <? outboundCapacity)%nat then Some (Ok (outbound ++ [req])) else None in
  match ctx, send with
  | Some e, Some r => Some (if prefer_ctx then Err e else r)
  | Some e, None => Some (Err e)
  | None, r => r
  end.

(** ** Sending and receiving *)

(** [sends]: the requests taken from the channel and what sending each gives.
    What was sent, and the error that ended the loop. *)
Fixpoint senderLoop (sends : list (option ConnectRequest * res unit)) : list ConnectRequest * option error :=
  match sends with
  | [] => ([], None)
  | (None, _) :: sends => senderLoop sends
  | (Some req, Ok _) :: sends => let '(sent, e) := senderLoop sends in (req :: sent, e)
  | (Some _, Err e) :: _ => ([], Some (Wrapped "stream send failed: " e ""))
  end.

(** What the loop does with a frame; a command runs in a goroutine of its own. *)
Inductive reaction := GiveAck (intervalSec : Z) | RunCommand (d : CommandDispatch).

(** Each frame comes with whether the context ended before an acknowledgement
    was taken. *)
Fixpoint receiverLoop (frames : list (res ConnectResponse * bool)) : list reaction * option error :=
  match frames with
  | [] => ([], None)
  | (Err e, _) :: _ => ([], Some (Wrapped "stream receive failed: " e ""))
  | (Ok (HeartbeatAck intervalSec), ended) :: frames =>
      if ended then ([], None) else let '(done, e) := receiverLoop frames in (GiveAck intervalSec :: done, e)
  | (Ok (CommandDispatchFrame d), _) :: frames => let '(done, e) := receiverLoop frames in (RunCommand d :: done, e)
  | (Ok _, _) :: _ => ([], Some (ErrorString "unexpected response frame"))
  end.

(** The goroutine of a command: its frame, if it got an answer. *)
Definition runCommand (env : command_env) (d : CommandDispatch) (m : terminalSessionManager)
    : option ConnectRequest * terminalSessionManager :=
  let '(result, _, m) := buildCommandResultWithContext env d m in (CommandResultFrame <$> result, m).

(** ** Heartbeats *)
Inductive wait_case := WaitContext (e : error) | WaitError (e : error) | WaitTimer.
Inductive ack_case := AckContext (e : error) | AckError (e : error) | AckTimer | AckReceived (intervalSec : Z).

Record beat := mkBeat {
  bt_random : Z -> res Z;
  bt_wait : wait_case;
  bt_activeSessionCount : Z;
  bt_enqueue : option error;     (** the context ended before there was room *)
  bt_ack : ack_case }.

(** The waits and the frames, and the error that ended the loop; without one it
    still runs. *)
Fixpoint heartbeatLoop (jitter : Z) (workerID sessionID : string) (interval : duration) (consecutiveAckTimeouts : Z) (beats : list beat)
    : list (duration * HeartbeatFrame) * option error :=
  match beats with
  | [] => ([], None)
  | b :: beats =>
      let waitFor := jitterDuration (bt_random b) interval jitter in
      match bt_wait b with
      | WaitContext e | WaitError e => ([], Some e)
      | WaitTimer =>
          match bt_enqueue b with
          | Some e => ([], Some (Wrapped "enqueue heartbeat: " e ""))
          | None =>
              let frame := mkHeartbeat workerID sessionID (bt_activeSessionCount b) in
              let go interval timeouts :=
                let '(sent, e) := heartbeatLoop jitter workerID sessionID interval timeouts beats in ((waitFor, frame) :: sent, e) in
              match bt_ack b with
              | AckContext e | AckError e => ([(waitFor, frame)], Some e)
              | AckTimer =>
                  let timeouts := consecutiveAckTimeouts + 1 in
                  if 2 <=? timeouts then ([(waitFor, frame)], Some (Sentinel ErrContextDeadlineExceeded)) else go interval timeouts
              | AckReceived intervalSec => go (durationFromServer intervalSec interval) 0
              end
          end
      end
  end.

(** ** A session *)
Record session_env := mkSessionEnv {
  sn_dial : res unit;
  sn_open : res unit;
  sn_activeSessionCount : Z;
  sn_sendHello : res unit;
  sn_ack : first_of * res ConnectResponse;
  sn_recoverEnded : option error;
  sn_recover : recover_env;
  sn_sendReport : res unit;
  sn_recoveryAck : first_of * res ConnectResponse;
  sn_beats : list beat }.

(** How a session ended, or that its heartbeats go on. *)
Inductive session_state := Ended (e : error) | Beating.

(** The frames of the handshake that were sent, the heartbeats, and the state. *)
Definition runSession (version : string) (cfg : DockerConfig.Config) (env : session_env) (m : terminalSessionManager)
    : list ConnectRequest * list (duration * HeartbeatFrame) * session_state * terminalSessionManager :=
  let failed sent text e := (sent, [], Ended (Wrapped text e ""), m) in
  match sn_dial env with
  | Err e => failed [] "dial console: " e
  | Ok _ =>
  match sn_open env with
  | Err e => failed [] "open connect stream: " e
  | Ok _ =>
  match DockerConfig.buildHello version (sn_activeSessionCount env) cfg with
  | Err e => failed [] "build hello: " e
  | Ok hello =>
  match sn_sendHello env with
  | Err e => failed [] "send hello: " e
  | Ok _ =>
  match recvWithTimeout (DockerConfig.CallTimeout cfg) (sn_ack env).1 (sn_ack env).2 with
  | Err e => failed [Hello hello] "recv connect_ack: " e
  | Ok (ConnectAck ackSessionID intervalSec candidates) =>
      let sessionID := trim ackSessionID in
      if bool_decide (sessionID = "") then ([Hello hello], [], Ended (ErrorString "connect_ack.session_id is required"), m) else
      let heartbeatInterval := durationFromServer intervalSec (DockerConfig.HeartbeatInterval cfg) in
      match recoverTerminalSessionsWithTimeout (sn_recoverEnded env) (sn_recover env) candidates m with
      | (Err e, m) => ([Hello hello], [], Ended (Wrapped "recover terminal sessions: " e ""), m)
      | (Ok results, m) =>
          let sent := [Hello hello; RecoveryReport (Some <$> results)] in
          match sn_sendReport env with
          | Err e => ([Hello hello], [], Ended (Wrapped "send terminal session recovery report: " e ""), m)
          | Ok _ =>
              match recvWithTimeout (DockerConfig.CallTimeout cfg) (sn_recoveryAck env).1 (sn_recoveryAck env).2 with
              | Err e => (sent, [], Ended (Wrapped "recv terminal session recovery ack: " e ""), m)
              | Ok RecoveryAck =>
                  let '(beats, e) := heartbeatLoop (DockerConfig.HeartbeatJitter cfg) (DockerConfig.WorkerID cfg) sessionID
                    heartbeatInterval 0 (sn_beats env) in
                  (sent, beats, match e with Some e => Ended e | None => Beating end, m)
              | Ok _ => (sent, [], Ended (ErrorString "unexpected response while waiting for terminal session recovery ack"), m)
              end
          end
      end
  | Ok _ => ([Hello hello], [], Ended (ErrorString "unexpected first response frame"), m)
  end end end end end.

(** ** Logging *)

(** The summary of a command for the log; [text] is the payload. *)
Definition commandDispatchSummaryForLog (capability text : string) : string :=
  let parseFailed := "payload_len=" +:+ pretty (len text) +:+ " summary=parse_failed" in
  let p := read_json text in
  let capability := trim (to_lower capability) in
  let flag (b : bool) := if b then "true" else "false" in
  if bool_decide (capability = echoCapabilityName) then
    match unmarshal_struct message_field "" p with
    | Some message => if bool_decide (trim message = "") then parseFailed else "message_len=" +:+ pretty (len message)
    | None => parseFailed
    end
  else if bool_decide (capability = pythonExecCapabilityName) then
    match unmarshal_struct python_field "" p with
    | Some code => if bool_decide (trim code = "") then parseFailed else "code_len=" +:+ pretty (len code)
    | None => parseFailed
    end
  else if bool_decide (capability = terminalExecCapabilityName) then
    match unmarshal_exec p with
    | Some d =>
        if bool_decide (trim (ex_Command d) = "") then parseFailed else
        "command_len=" +:+ pretty (len (ex_Command d)) +:+
        " session_id_present=" +:+ flag (negb (bool_decide (trim (ex_SessionID d) = ""))) +:+
        " create_if_missing=" +:+ flag (ex_CreateIfMissing d) +:+
        " lease_ttl_sec=" +:+ match ex_LeaseTTLSec d with Some z => pretty z | None => "default" end
    | None => parseFailed
    end
  else if bool_decide (capability = terminalLeaseRenewCapabilityName) then
    match unmarshal_struct lease_renew_field (mkLeaseRenew "" 0) p with
    | Some d =>
        if bool_decide (trim (lr_SessionID d) = "") || (lr_LeaseTTLSec d <=? 0) then parseFailed else
        "session_id_present=true lease_ttl_sec=" +:+ pretty (lr_LeaseTTLSec d)
    | None => parseFailed
    end
  else if bool_decide (capability = terminalResourceCapabilityName) then
    match unmarshal_resource p with
    | Some d =>
        let path := trim (rs_FilePath d) in
        if bool_decide (trim (rs_SessionID d) = "") || bool_decide (path = "") then parseFailed else
        let action := trim (to_lower (rs_Action d)) in
        let actionSummary :=
          if bool_decide (action = "") then "default" else
          if bool_decide (action = terminalResourceActionValidate) then terminalResourceActionValidate else
          if bool_decide (action = terminalResourceActionRead) then terminalResourceActionRead else
          if bool_decide (action = terminalResourceActionExport) then terminalResourceActionExport else "invalid" in
        "action=" +:+ actionSummary +:+ " session_id_present=true file_path_len=" +:+ pretty (len path) +:+
        " signed_url_present=" +:+ flag (negb (bool_decide (trim (rs_SignedURL d) = "")))
    | None => parseFailed
    end
  else "payload_len=" +:+ pretty (len text) +:+ " summary=unsupported_capability".

(** ** runner.go: [Run] *)

(** What [Run] has made when it starts to connect. *)
Record worker := mkWorker {
  wk_manager : terminalSessionManager;
  wk_runner : pythonExecRunner;
  wk_proxy : option WorkerProxy.sandboxProxyHandler }.

(** The three docker commands of the network. *)
Record docker_network := mkDockerNetwork { dn_inspect : dockerCommandResult; dn_create : dockerCommandResult; dn_again : dockerCommandResult }.

Definition newPythonExecRunner (dockerImage memoryLimit cpuLimit : string) (pidsLimit : Z) (dockerNetwork : string) : pythonExecRunner :=
  mkRunner dockerImage memoryLimit cpuLimit pidsLimit (trim dockerNetwork).

Definition start_worker (cfg : DockerConfig.Config) (net : docker_network) (hash : string -> string) : res worker :=
  if bool_decide (trim (DockerConfig.WorkerID cfg) = "") then Err (ErrorString "WORKER_ID is required") else
  if bool_decide (trim (DockerConfig.WorkerSecret cfg) = "") then Err (ErrorString "WORKER_SECRET is required") else
  match DockerConfig.validateTerminalMaxActiveSessions (DockerConfig.TerminalMaxActiveSessions cfg) with
  | Err e => Err e
  | Ok _ =>
  match DockerConfig.validateProxyConfig cfg with
  | Err e => Err e
  | Ok _ =>
      let '(terminalDockerNetwork, pythonDockerNetwork) := DockerConfig.resolveDockerNetworks cfg in
      match (if bool_decide (terminalDockerNetwork = "") then Ok tt
             else DockerConfig.ensureSandboxDockerNetwork (dn_inspect net) (dn_create net) (dn_again net)) with
      | Err e => Err (Wrapped "initialize sandbox docker network: " e "")
      | Ok _ =>
          let manager := newTerminalSessionManager (DockerConfig.manager_config cfg hash) in
          let runner := newPythonExecRunner (DockerConfig.PythonExecDockerImage cfg) (DockerConfig.PythonExecMemoryLimit cfg)
            (DockerConfig.PythonExecCPULimit cfg) (DockerConfig.PythonExecPidsLimit cfg) pythonDockerNetwork in
          if negb (DockerConfig.ProxyEnabled cfg) then Ok (mkWorker manager runner None) else
          match WorkerProxy.newSandboxProxyHandler (DockerConfig.WorkerID cfg) (DockerConfig.WorkerSecret cfg) true with
          | Err e => Err (Wrapped "initialize sandbox proxy: " e "")
          | Ok handler => Ok (mkWorker manager runner (Some handler))
          end
      end
  end end.

(** Why the worker stops: its context ended, or the server of its proxy did. *)
Inductive stop := StopContext (e : error) | StopProxy (e : error).
Definition stop_error (s : stop) : error :=
  match s with StopContext e => e | StopProxy e => Wrapped "sandbox proxy server: " e "" end.

(** One round of the loop: whether the worker was stopped before, the session,
    whether it was stopped after, and while it waited. *)
Record round := mkRound {
  rd_before : option stop;
  rd_session : res unit;
  rd_after : option stop;
  rd_wait : option error }.

(** The delays that were waited, and the result; without one it goes on. *)
Fixpoint connect_loop (reconnectDelay : duration) (rounds : list round) : list duration * option (res unit) :=
  match rounds with
  | [] => ([], None)
  | r :: rounds =>
      match rd_before r with
      | Some s => ([], Some (Err (stop_error s)))
      | None =>
          match rd_session r with
          | Ok _ => ([], Some (Ok tt))
          | Err e =>
              match rd_after r with
              | Some s => ([], Some (Err (stop_error s)))
              | None =>
                  let reconnectDelay := if bool_decide (status_code e = FailedPrecondition) then initialReconnectDelay else reconnectDelay in
                  match waitReconnectDelay (rd_wait r) reconnectDelay with
                  | Err e => ([], Some (Err e))
                  | Ok waited =>
                      let '(waits, result) := connect_loop (nextReconnectDelay reconnectDelay) rounds in (waited :: waits, result)
                  end
              end
          end
      end
  end.

(** [proxyStart]: what ends the start of the proxy's server, if anything does. *)
Definition Run (cfg : DockerConfig.Config) (net : docker_network) (hash : string -> string) (proxyStart : option stop) (rounds : list round)
    : list duration * option (res unit) :=
  match start_worker cfg net hash with
  | Err e => ([], Some (Err e))
  | Ok _ =>
      match (if DockerConfig.ProxyEnabled cfg then proxyStart else None) with
      | Some s => ([], Some (Err (stop_error s)))
      | None => connect_loop initialReconnectDelay rounds
      end
  end.

End WorkerClient.
