(* ===== verification/WorkerClientClaims.v ===== *)
(** What the client side of a docker worker's connection promises: a handshake
    the console takes, heartbeats in bounded time, reconnection without end,
    and a log that says nothing of what users run. *)
From stdpp Require Import pretty.
From S2P Require Import Prelude.
From S2P Require Import Json.
From S2P Require Import Sql.
From S2P Require Import Proto.
From S2P Require Import AuthText.
From S2P Require Import JsonText.
From S2P Require Import OwnerScope.
From S2P Require Import SessionRuntime.
From S2P Require Import TerminalRoutes.
From S2P Require Import Service.
From S2P Require Import Dispatch.
From S2P Require Import Connect.
From S2P Require Import WorkerTerminal.
From S2P Require Import WorkerRecovery.
From S2P Require Import WorkerResource.
From S2P Require Import WorkerExecutor.
From S2P Require Import WorkerClaims.
From S2P Require Import WorkerRecoveryClaims.
From S2P Require Import Source.
From S2P Require Import DockerConfig.
From S2P Require Import WorkerProxy.
From S2P Require Import WorkerClient.
From S2P Require Import DockerClaims.
Import WorkerRecoveryClaims.
Import WorkerClient.

Local Open Scope Z_scope.

Module WorkerClientClaims.

(** ** Reconnection *)
Section reconnection.

(** How many rounds ago the delay last started at its beginning. *)
Fixpoint streaks (k : nat) (errors : list error) : list nat :=
  match errors with
  | [] => []
  | e :: errors => let k := if bool_decide (status_code e = FailedPrecondition) then 0%nat else k in k :: streaks (S k) errors
  end.

Definition backoff (k : nat) : duration := Z.min (2 ^ Z.of_nat k) 15 * second.

Lemma backoff_range k : second <= backoff k <= 15 * second.
Proof. unfold backoff, second. assert (1 <= 2 ^ Z.of_nat k) by (apply Z.pow_le_mono_r with (b := 0); lia). lia. Qed.

Lemma next_backoff k : nextReconnectDelay (backoff k) = backoff (S k).
Proof.
  pose proof (backoff_range k) as H. unfold nextReconnectDelay. rewrite (proj2 (Z.leb_gt _ _)) by (unfold second in *; lia).
  rewrite i64_id by (unfold second in *; lia). unfold backoff, maxReconnectDelay, second in *. rewrite Nat2Z.inj_succ, Z.pow_succ_r by lia.
  destruct (_ <? _) eqn:E; [apply Z.ltb_lt in E|apply Z.ltb_ge in E]; lia.
Qed.

Definition interrupted (e : error) : round := mkRound None (Err e) None None.

Lemma loop_waits errors : forall k, connect_loop (backoff k) (interrupted <$> errors) = (backoff <$> streaks k errors, None).
Proof.
  induction errors as [|e errors IH]; intros k; [done|]. cbn [fmap list_fmap connect_loop interrupted rd_before rd_session rd_after rd_wait streaks].
  set (k' := if bool_decide _ then 0%nat else k).
  replace (if bool_decide (status_code e = FailedPrecondition) then initialReconnectDelay else backoff k) with (backoff k')
    by (unfold k'; by destruct (bool_decide _)).
  cbn [waitReconnectDelay]. rewrite next_backoff. change (foldr _ _ _) with (interrupted <$> errors). rewrite IH.
  pose proof (backoff_range k'). rewrite (proj2 (Z.leb_gt _ _)) by (unfold second in *; lia). done.
Qed.

End reconnection.

(** C28: A worker whose sessions are interrupted keeps reconnecting as long as
    it is not stopped. It waits one second, then twice as long each time up to
    fifteen seconds; only an interruption with the status FailedPrecondition, a
    replaced or refused session, starts the delay again, a session that lasted
    does not. *)
Theorem worker_keeps_reconnecting errors :
  connect_loop initialReconnectDelay (interrupted <$> errors) = (backoff <$> streaks 0 errors, None) /\
  forall wait, wait ∈ (connect_loop initialReconnectDelay (interrupted <$> errors)).1 -> second <= wait <= 15 * second.
Proof.
  pose proof (loop_waits errors 0) as H. change (backoff 0) with initialReconnectDelay in H. rewrite H. split; [done|]. cbn [fst]. intros wait (k&->&_)%list_elem_of_fmap. apply backoff_range.
Qed.

(** ** Heartbeats *)
Section heartbeats.

Definition random_below (random : Z -> res Z) : Prop := forall max n, random max = Ok n -> 0 <= n < max.

Definition maxInterval : duration := 2 ^ 31 * second.

Lemma jitter_delta base pct : second <= base <= maxInterval -> 0 < pct <= 100 -> Z.quot (i64 (base * pct)) 100 <= base.
Proof.
  intros Hb Hp. unfold maxInterval, second in *. assert (- 2 ^ 63 <= i64 (base * pct) < 2 ^ 63) as Hi by apply i64_range. assert (0 <= base * pct <= base * 100) as Hm by nia.
  destruct (Z_lt_le_dec (base * pct) (2 ^ 63)) as [Hs|Hl].
  - rewrite i64_id by lia. rewrite Z.quot_div_nonneg by lia. apply Z.div_le_upper_bound; lia.
  - transitivity (2 ^ 63 / 100); [|apply Z.div_le_upper_bound; lia]. destruct (Z_lt_le_dec (i64 (base * pct)) 0) as [Hneg|Hpos].
    + pose proof (Z.quot_opp_l (i64 (base * pct)) 100 ltac:(lia)). pose proof (Z.quot_pos (- i64 (base * pct)) 100 ltac:(lia) ltac:(lia)).
      pose proof (Z.div_pos (2 ^ 63) 100). lia.
    + rewrite Z.quot_div_nonneg by lia. apply Z.div_le_mono; lia.
Qed.

(** A wait is at least a second and at most twice the interval. *)
Lemma jitter_range random base pct : random_below random -> second <= base <= maxInterval -> 0 <= pct <= 100 ->
  second <= jitterDuration random base pct <= 2 * base.
Proof.
  intros Hr Hb Hp. assert (0 < second) by done. unfold jitterDuration. rewrite (proj2 (Z.leb_gt base 0)) by lia.
  destruct (pct <=? 0) eqn:E0; [lia|]. apply Z.leb_gt in E0. pose proof (jitter_delta base pct Hb ltac:(lia)) as Hd. set (delta := Z.quot _ _) in *.
  destruct (delta <=? 0) eqn:Ed; [lia|]. apply Z.leb_gt in Ed. destruct (random _) as [n|] eqn:En; [|lia]. apply Hr in En.
  unfold maxInterval, second, minHeartbeatInterval in *. rewrite i64_id in En by lia. rewrite i64_id by lia.
  destruct (_ <? _) eqn:E; [apply Z.ltb_lt in E|apply Z.ltb_ge in E]; unfold second in *; lia.
Qed.

Lemma server_interval z fallback : z < 2 ^ 31 -> second <= fallback <= maxInterval -> second <= durationFromServer z fallback <= maxInterval.
Proof.
  intros Hz Hf. unfold durationFromServer. destruct (0 <? z) eqn:E; [apply Z.ltb_lt in E|].
  - unfold maxInterval, second in *. rewrite i64_id by lia. lia.
  - rewrite (proj2 (Z.leb_gt _ _)) by (unfold second in *; lia). done.
Qed.

(** The interval in force at each beat. *)
Fixpoint intervals (interval : duration) (beats : list beat) : list duration :=
  match beats with
  | [] => []
  | b :: beats => interval :: intervals (match bt_ack b with AckReceived z => durationFromServer z interval | _ => interval end) beats
  end.

(** Nothing but acknowledgements and missing ones. *)
Definition undisturbed (b : beat) : Prop :=
  bt_wait b = WaitTimer /\ bt_enqueue b = None /\ match bt_ack b with AckTimer => True | AckReceived z => z < 2 ^ 31 | _ => False end.

Definition missed (b : beat) : bool := match bt_ack b with AckTimer => true | _ => false end.

(** How many beats until two in a row are missed; [before]: the last one was. *)
Fixpoint until_lost (before : bool) (beats : list beat) : option nat :=
  match beats with
  | [] => None
  | b :: beats => if before && missed b then Some 1%nat else S <$> until_lost (missed b) beats
  end.

Lemma loop_spec jitter w sid beats : forall interval before, Forall undisturbed beats ->
  heartbeatLoop jitter w sid interval (if before : bool then 1 else 0) beats =
    let sent := zip_with (fun b interval => (jitterDuration (bt_random b) interval jitter, mkHeartbeat w sid (bt_activeSessionCount b)))
                  beats (intervals interval beats) in
    match until_lost before beats with
    | Some k => (take k sent, Some (Sentinel ErrContextDeadlineExceeded))
    | None => (sent, None)
    end.
Proof.
  induction beats as [|b beats IH]; intros interval before Hall; [done|]. apply Forall_cons in Hall as [(Hw&He&Ha) Hall].
  cbn [heartbeatLoop until_lost intervals zip_with]. rewrite Hw, He. cbv zeta. unfold missed at 1 2 in |- *. destruct (bt_ack b) as [| | |z] eqn:Eb; try done.
  - destruct before; cbn [andb].
    + change (2 <=? 1 + 1) with true. done.
    + change (2 <=? 0 + 1) with false. cbn iota. pose proof (IH interval true Hall) as H. cbv zeta iota in H. change (0 + 1) with 1. rewrite H. by destruct (until_lost true beats).
  - rewrite andb_false_r. pose proof (IH (durationFromServer z interval) false Hall) as H. cbv zeta iota in H. rewrite H. by destruct (until_lost false beats).
Qed.

Lemma intervals_range beats : forall interval, Forall undisturbed beats -> second <= interval <= maxInterval ->
  Forall (fun i => second <= i <= maxInterval) (intervals interval beats).
Proof.
  induction beats as [|b beats IH]; intros interval Hall Hi; [constructor|]. apply Forall_cons in Hall as [(_&_&Ha) Hall]. constructor; [done|].
  apply IH; [done|]. destruct (bt_ack b); try done. by apply server_interval.
Qed.

Lemma until_lost_spec beats : forall before,
  match until_lost before beats with
  | Some k => (k <= length beats)%nat /\
      ((before = true /\ exists b, beats !! 0%nat = Some b /\ missed b = true) \/
       exists i b b', beats !! i = Some b /\ beats !! S i = Some b' /\ missed b && missed b' = true)
  | None => (before = true -> forall b, beats !! 0%nat = Some b -> missed b = false) /\
      forall i b b', beats !! i = Some b -> beats !! S i = Some b' -> missed b && missed b' = false
  end.
Proof.
  induction beats as [|b beats IH]; intros before; cbn [until_lost]; [split; [done|intros i ? ? H; by rewrite lookup_nil in H]|].
  destruct (before && missed b) eqn:E.
  - apply andb_true_iff in E as [-> Hm]. split; [cbn; lia|]. left. split; [done|]. by exists b.
  - specialize (IH (missed b)). destruct (until_lost (missed b) beats) as [k|]; cbn [fmap option_fmap option_map].
    + destruct IH as [Hk [[Hm (b'&Hb'&Hm')]|(i&b1&b2&H1&H2&H3)]]; (split; [cbn; lia|right]).
      * exists 0%nat, b, b'. by rewrite Hm, Hm'.
      * by exists (S i), b1, b2.
    + destruct IH as [H1 H2]. split; [intros -> b' [= <-]; done|]. intros [|i] b1 b2 Hb1 Hb2; [|by eapply H2].
      injection Hb1 as <-. destruct (missed b) eqn:Em; [|done]. by apply (H1 eq_refl).
Qed.

End heartbeats.

(** The heartbeats of a session, while nothing but acknowledgements
    arrives or stays away: the worker sends one after each wait, with its own id
    and session and the number of its sessions. A wait is at least a second and
    at most twice the interval the console last asked for, for every jitter
    setting. The session ends exactly when two acknowledgements in a row stay
    away, and with the second of them. *)
Theorem heartbeats_are_timely jitter workerID sessionID interval beats :
  0 <= jitter <= 100 -> second <= interval <= maxInterval -> Forall undisturbed beats -> Forall (fun b => random_below (bt_random b)) beats ->
  let '(sent, e) := heartbeatLoop jitter workerID sessionID interval 0 beats in
  (forall i wait frame, sent !! i = Some (wait, frame) -> exists b current, beats !! i = Some b /\ intervals interval beats !! i = Some current /\
     frame = mkHeartbeat workerID sessionID (bt_activeSessionCount b) /\ second <= wait <= 2 * current) /\
  (match until_lost false beats with
   | Some k => length sent = k /\ e = Some (Sentinel ErrContextDeadlineExceeded)
   | None => length sent = length beats /\ e = None
   end) /\
  (e = None <-> forall i b b', beats !! i = Some b -> beats !! S i = Some b' -> missed b && missed b' = false).
Proof.
  intros Hj Hi Hall Hr. pose proof (loop_spec jitter workerID sessionID beats interval false Hall) as H. cbn [andb] in H. cbv zeta in H.
  pose proof (intervals_range beats interval Hall Hi) as Hrange. set (full := zip_with _ _ _) in H. rewrite H.
  assert (length (intervals interval beats) = length beats) as Hlen by (clear; revert interval; induction beats; intros; cbn; auto).
  assert (length full = length beats) as Hfull by (unfold full; rewrite length_zip_with; lia).
  assert (forall i wait frame, full !! i = Some (wait, frame) -> exists b current, beats !! i = Some b /\ intervals interval beats !! i = Some current /\
     frame = mkHeartbeat workerID sessionID (bt_activeSessionCount b) /\ second <= wait <= 2 * current) as Hin.
  { intros i wait frame Hx. unfold full in Hx. apply lookup_zip_with_Some in Hx as (b&current&[= -> ->]&Hb&Hc). exists b, current. split_and!; try done.
    all: apply jitter_range; [by eapply Forall_lookup_1 in Hr|by eapply Forall_lookup_1 in Hrange|done]. }
  pose proof (until_lost_spec beats false) as Hu. destruct (until_lost false beats) as [k|] eqn:Ek.
  - destruct Hu as (Hk&Hu). split; [intros i wait frame Hx; apply lookup_take_Some in Hx as [Hx _]; eauto|].
    split; [split; [rewrite length_take; lia|done]|]. split; [done|]. intros Hno. exfalso. destruct Hu as [[? _]|(i&b&b'&H1&H2&H3)]; [done|]. by rewrite (Hno i b b' H1 H2) in H3.
  - split; [done|]. split; [done|]. split; [|done]. intros _ i b b' H1 H2. by apply (proj2 Hu i).
Qed.

(** ** The handshake *)
Section handshake.

Lemma loop_frames jitter w sid beats : forall interval n, Forall (fun wf => hb_NodeId wf.2 = w /\ hb_SessionId wf.2 = sid) (heartbeatLoop jitter w sid interval n beats).1.
Proof.
  induction beats as [|b beats IH]; intros interval n; [constructor|]. cbn [heartbeatLoop].
  destruct (bt_wait b); [constructor|constructor|]. destruct (bt_enqueue b); [constructor|].
  destruct (bt_ack b) as [e|e| |z]; try (by repeat constructor).
  - destruct (2 <=? _); [by repeat constructor|]. specialize (IH interval (n + 1)). destruct (heartbeatLoop _ _ _ _ _ _). by constructor.
  - specialize (IH (durationFromServer z interval) 0). destruct (heartbeatLoop _ _ _ _ _ _). by constructor.
Qed.

Lemma recv_ok timeout first r v : recvWithTimeout timeout first r = Ok v -> r = Ok v.
Proof. unfold recvWithTimeout. destruct (timeout <=? 0); [done|]. by destruct first. Qed.

(** The frames a session can have sent. *)
Definition handshake_frames (version : string) (cfg : DockerConfig.Config) (env : session_env) (m : terminalSessionManager) (sent : list ConnectRequest) : Prop :=
  sent = [] \/ exists hello, DockerConfig.buildHello version (sn_activeSessionCount env) cfg = Ok hello /\
    (sent = [Hello hello] \/ exists cs, sent = [Hello hello; RecoveryReport (Some <$> (Recover (sn_recover env) (Some <$> cs) m).1)]).

End handshake.

(** A session that ended before it sent a frame, after its hello, and after its
    report. *)
Ltac nothing_sent := intros [= <- <- <- <-]; split; [by left|by intros []].
Ltac stopped Hone := let H := fresh in let H1 := fresh in let H2 := fresh in
  intros H; apply Hone in H as [H1 H2]; split; [exact H1|by intros ?%H2].
Ltac unanswered Htwo := let H := fresh in intros H; split; [by eapply Htwo|]; injection H as _ <- <- _; by intros [].

(** C26: The handshake of a docker worker. It sends its hello first and then one
    recovery report and nothing else; heartbeats begin only after the console
    acknowledged both, and every one carries the worker's id and the session the
    console named. The report has one result for each candidate the console sent;
    if these have distinct ids, none of them empty, the console's validation takes it and reads the
    status of each session as the worker found it. *)
Theorem docker_worker_handshake version cfg env m sent beats state m' :
  runSession version cfg env m = (sent, beats, state, m') ->
  handshake_frames version cfg env m sent /\
  (state = Beating \/ beats <> [] ->
   exists hello ackID intervalSec cs, (sn_ack env).2 = Ok (ConnectAck ackID intervalSec cs) /\ (sn_recoveryAck env).2 = Ok RecoveryAck /\
     trim ackID <> "" /\ sent = [Hello hello; RecoveryReport (Some <$> (Recover (sn_recover env) (Some <$> cs) m).1)] /\
     m' = (Recover (sn_recover env) (Some <$> cs) m).2 /\
     Forall (fun wf => hb_NodeId wf.2 = DockerConfig.WorkerID cfg /\ hb_SessionId wf.2 = trim ackID) beats /\
     forall x, NoDup (cand_id <$> cs) -> Forall (fun c => cand_id c <> "") cs ->
       exists statuses, report_results (recoveryCandidateSnapshot (setRecoveryCandidates cs x)) (Some <$> (Recover (sn_recover env) (Some <$> cs) m).1) = Ok statuses /\
         forall r, r ∈ (Recover (sn_recover env) (Some <$> cs) m).1 -> statuses !! rr_SessionId r = Some (rr_Status r)).
Proof.
  unfold runSession, handshake_frames. destruct (sn_dial env) as [[]|]; [|nothing_sent].
  destruct (sn_open env) as [[]|]; [|nothing_sent].
  destruct (DockerConfig.buildHello _ _ _) as [hello|] eqn:Eh; [|nothing_sent].
  destruct (sn_sendHello env) as [[]|]; [|nothing_sent].
  assert (forall st (mx : terminalSessionManager), ([Hello hello], [], Ended st, mx) = (sent, beats, state, m') -> (sent = [] \/ exists hello0, Ok hello = Ok hello0 /\
    (sent = [Hello hello0] \/ exists cs, sent = [Hello hello0; RecoveryReport (Some <$> (Recover (sn_recover env) (Some <$> cs) m).1)])) /\ ~ (state = Beating \/ beats <> [])) as Hone.
  { intros st mx [= <- <- <- _]. split; [right; exists hello; by auto|by intros []]. }
  destruct (recvWithTimeout _ (sn_ack env).1 _) as [ack|] eqn:Ea; [|stopped Hone].
  destruct ack as [ackID intervalSec cs|z|d|]; try (stopped Hone).
  case_bool_decide as Eid; [stopped Hone|].
  unfold recoverTerminalSessionsWithTimeout. destruct (Recover (sn_recover env) (Some <$> cs) m) as [results m1] eqn:Er.
  destruct (sn_recoverEnded env); [stopped Hone|].
  destruct (sn_sendReport env) as [[]|]; [|stopped Hone].
  assert (forall b st (mx : terminalSessionManager), ([Hello hello; RecoveryReport (Some <$> results)], b, st, mx) = (sent, beats, state, m') ->
    sent = [] \/ exists hello0, Ok hello = Ok hello0 /\ (sent = [Hello hello0] \/ exists cs, sent = [Hello hello0; RecoveryReport (Some <$> (Recover (sn_recover env) (Some <$> cs) m).1)])) as Htwo.
  { intros b st mx [= <- _ _ _]. right. exists hello. split; [done|]. right. exists cs. by rewrite Er. }
  destruct (recvWithTimeout _ (sn_recoveryAck env).1 _) as [ack|] eqn:Eb; [|unanswered Htwo].
  destruct ack; try (unanswered Htwo).
  pose proof (loop_frames (DockerConfig.HeartbeatJitter cfg) (DockerConfig.WorkerID cfg) (trim ackID) (sn_beats env)
    (durationFromServer intervalSec (DockerConfig.HeartbeatInterval cfg)) 0) as Hf.
  destruct (heartbeatLoop _ _ _ _ _ _) as [bs e]. intros H. split; [by eapply Htwo|]. injection H as <- <- <- <-. intros _.
  apply recv_ok in Ea, Eb. exists hello, ackID, intervalSec, cs. rewrite Er. split_and!; try done.
  intros x Hnd Hne. pose proof (report_read_back (sn_recover env) cs m x Hnd Hne) as (statuses&H1&_&H2). rewrite Er in H1, H2. by exists statuses.
Qed.

(** ** Witnesses *)

Definition demo_random (max : Z) : res Z := if 0 <? max then Ok 0 else Err (ErrorString "no range").
Lemma demo_random_below : random_below demo_random.
Proof. intros max n. unfold demo_random. destruct (0 <? max) eqn:E; [|done]. intros [= <-]. apply Z.ltb_lt in E. lia. Qed.

Definition demo_beat (ack : ack_case) : beat := mkBeat demo_random WaitTimer 1 None ack.
Definition demo_beats : list beat := [demo_beat (AckReceived 10); demo_beat AckTimer; demo_beat (AckReceived 0); demo_beat AckTimer; demo_beat AckTimer; demo_beat AckTimer].

Lemma heartbeats_are_timely_witness :
  let '(sent, e) := heartbeatLoop 20 "w1" "sid" (5 * second) 0 demo_beats in
  length sent = 5%nat /\ e = Some (Sentinel ErrContextDeadlineExceeded) /\ sent.*1 = [4 * second; 8 * second; 8 * second; 8 * second; 8 * second].
Proof.
  pose proof (heartbeats_are_timely 20 "w1" "sid" (5 * second) demo_beats) as H.
  assert (sent_ok : (heartbeatLoop 20 "w1" "sid" (5 * second) 0 demo_beats).1.*1 = [4 * second; 8 * second; 8 * second; 8 * second; 8 * second])
    by (vm_compute; reflexivity).
  destruct (heartbeatLoop 20 "w1" "sid" (5 * second) 0 demo_beats) as [sent e]. cbn [fst] in sent_ok.
  destruct H as (_&[Hl He]&_).
  - lia.
  - unfold maxInterval, second; lia.
  - repeat constructor.
  - repeat (constructor; [exact demo_random_below|]). constructor.
  - split; [exact Hl|]. split; [exact He|exact sent_ok].
Defined.

Definition demo_session_env : session_env :=
  mkSessionEnv (Ok tt) (Ok tt) 1 (Ok tt) (FirstResult, Ok (ConnectAck " sid" 10 demo_candidates)) None demo_recover_env (Ok tt)
    (FirstResult, Ok RecoveryAck) demo_beats.

Lemma docker_worker_handshake_witness :
  exists hello sent beats e m', runSession "dev" DockerClaims.demo_worker_config demo_session_env WorkerClaims.demo_manager = (sent, beats, Ended e, m') /\
    length beats = 5%nat /\ sent = [Hello hello; RecoveryReport (Some <$> (Recover demo_recover_env (Some <$> demo_candidates) WorkerClaims.demo_manager).1)] /\
    Forall (fun wf => hb_NodeId wf.2 = "w1" /\ hb_SessionId wf.2 = "sid") beats.
Proof.
  destruct (runSession "dev" DockerClaims.demo_worker_config demo_session_env WorkerClaims.demo_manager) as [[[sent beats] state] m'] eqn:E.
  assert ((runSession "dev" DockerClaims.demo_worker_config demo_session_env WorkerClaims.demo_manager).1.2 = Ended (Sentinel ErrContextDeadlineExceeded) /\
    length (runSession "dev" DockerClaims.demo_worker_config demo_session_env WorkerClaims.demo_manager).1.1.2 = 5%nat) as [H1 H2] by (vm_compute; split; reflexivity).
  rewrite E in H1, H2. cbn [fst snd] in H1, H2.
  destruct (docker_worker_handshake _ _ _ _ _ _ _ _ E) as [_ H].
  destruct H as (hello&ackID&z&cs&Ha&_&_&Hs&_&Hf&_); [right; intros ->; discriminate|].
  cbn [sn_ack demo_session_env snd] in Ha. injection Ha as <- <- <-.
  exists hello, sent, beats, (Sentinel ErrContextDeadlineExceeded), m'. rewrite H1. split; [reflexivity|]. split; [exact H2|]. split; [exact Hs|].
  exact Hf.
Defined.

End WorkerClientClaims.
