(* ===== verification/McpSchema.v ===== *)
(** The JSON schemas of the MCP tools and the overrides of their texts
    (console/internal/httpapi/mcp_tool_specs.go).  A schema is a Go value of type
    [map[string]any]: maps are shared and updated in place, so they live in a
    store and a value refers to them. *)
From S2P Require Import Prelude.
From S2P Require Import OwnerScope.
From S2P Require Import Rest.

Module McpSchema.

(** ** Values and the store of maps *)
Abbreviation ref := nat.

Inductive any :=
  | AString (s : string)
  | AInt (z : Z)
  | ABool (b : bool)
  | AStrings (l : list string)
  | AList (l : list any)
  | AMap (l : ref).

(** The maps in the order of their creation. *)
Abbreviation heap := (list (gmap string any)).

(** A composite literal of the package. *)
Inductive literal :=
  | LString (s : string)
  | LInt (z : Z)
  | LBool (b : bool)
  | LStrings (l : list string)
  | LList (l : list literal)
  | LMap (m : list (string * literal)).

Fixpoint alloc (v : literal) (h : heap) : any * heap :=
  match v with
  | LString s => (AString s, h)
  | LInt z => (AInt z, h)
  | LBool b => (ABool b, h)
  | LStrings l => (AStrings l, h)
  | LList l =>
      let '(l, h) := (fix go (l : list literal) (h : heap) : list any * heap :=
        match l with
        | [] => ([], h)
        | v :: l => let '(x, h) := alloc v h in let '(xs, h) := go l h in (x :: xs, h)
        end) l h in (AList l, h)
  | LMap m =>
      let '(m, h) := (fix go (m : list (string * literal)) (h : heap) : gmap string any * heap :=
        match m with
        | [] => (∅, h)
        | (k, v) :: m => let '(x, h) := alloc v h in let '(xs, h) := go m h in (<[k := x]> xs, h)
        end) m h in (AMap (length h), h ++ [m])
  end.

(** ** The schemas *)
Definition minMCPTaskTimeoutMS : Z := 1.
Definition defaultMCPTaskTimeoutMS : Z := defaultTaskTimeoutMS.
Definition maxMCPTaskTimeoutMS : Z := maxTaskTimeoutMS.
Definition defaultMCPEchoTimeoutMS : Z := defaultEchoTimeoutMS.
Definition minMCPTerminalLeaseSec : Z := 1.
Definition maxMCPTerminalLeaseSec : Z := 86400.

Definition object (required : list string) (properties : list (string * literal)) : literal :=
  LMap [("type", LString "object"); ("additionalProperties", LBool false);
        ("required", LStrings required); ("properties", LMap properties)].

Definition described (type description : string) (rest : list (string * literal)) : literal :=
  LMap ([("type", LString type); ("description", LString description)] ++ rest).

Definition typed (type : string) : literal := LMap [("type", LString type)].

(** The property [timeout_ms] of the tools that submit a task. *)
Definition task_timeout : string * literal :=
  ("timeout_ms", described "integer" "Optional synchronous execution timeout in milliseconds for this tool call."
     [("minimum", LInt minMCPTaskTimeoutMS); ("maximum", LInt maxMCPTaskTimeoutMS); ("default", LInt defaultMCPTaskTimeoutMS)]).

Definition mcpEchoInputSchema : literal := object ["message"]
  [("message", described "string" "Message to be echoed back unchanged. Empty or whitespace-only values are rejected." []);
   ("timeout_ms", described "integer" "Optional end-to-end dispatch timeout in milliseconds."
      [("minimum", LInt minEchoTimeoutMS); ("maximum", LInt maxEchoTimeoutMS); ("default", LInt defaultMCPEchoTimeoutMS)])].

Definition mcpEchoOutputSchema : literal := object ["message"]
  [("message", described "string" "Echoed message returned by the worker." [])].

Definition mcpPythonExecInputSchema : literal := object ["code"]
  [("code", described "string" "Python source code to execute in the worker sandbox. Third-party packages cannot be installed at runtime; to use them you must declare dependencies via PEP 723 inline script metadata (a '# /// script' block at the top of the file) — this is the only supported mechanism. Empty or whitespace-only values are rejected." []);
   task_timeout].

Definition mcpPythonExecOutputSchema : literal := object ["output"; "stderr"; "exit_code"]
  [("output", described "string" "Captured stdout from Python execution." []);
   ("stderr", described "string" "Captured stderr from Python execution." []);
   ("exit_code", described "integer" "Process exit code from Python execution. Non-zero is reported as normal tool output." [])].

Definition mcpTerminalExecInputSchema : literal := object ["command"]
  [("command", described "string" "Shell command to run in the session container via sh -lc. Empty or whitespace-only values are rejected." []);
   ("session_id", described "string" "Optional session identifier. Reuse it to keep filesystem state." []);
   ("create_if_missing", described "boolean" "When true and session_id is missing on worker, create the session instead of returning session_not_found. IDs using the reserved Computer Use prefix are rejected."
      [("default", LBool false)]);
   ("lease_ttl_sec", described "integer" "Optional lease duration in seconds for session expiry extension."
      [("minimum", LInt minMCPTerminalLeaseSec); ("maximum", LInt maxMCPTerminalLeaseSec)]);
   task_timeout].

Definition mcpTerminalExecOutputSchema : literal :=
  object ["session_id"; "created"; "stdout"; "stderr"; "exit_code"; "stdout_truncated"; "stderr_truncated"; "lease_expires_unix_ms"]
  [("session_id", typed "string"); ("created", typed "boolean"); ("stdout", typed "string"); ("stderr", typed "string");
   ("exit_code", typed "integer"); ("stdout_truncated", typed "boolean"); ("stderr_truncated", typed "boolean");
   ("lease_expires_unix_ms", typed "integer")].

Definition mcpComputerUseInputSchema : literal := object []
  [("command", described "string" "Shell command to run on worker-sys host via /bin/sh -lc. Empty or whitespace-only values are rejected." []);
   ("worker_id", described "string" "Optional caller-owned worker-sys ID. Omit it to return worker_list without executing a command." []);
   task_timeout;
   ("request_id", described "string" "Optional idempotency key scoped to the caller account." [])].

Definition mcpComputerUseOutputProperties : literal := LMap
  [("worker_list", LMap [("type", LString "array");
     ("items", object ["worker_id"; "node_name"; "status"; "capabilities"]
        [("worker_id", typed "string"); ("node_name", typed "string");
         ("status", LMap [("type", LString "string"); ("enum", LStrings ["online"; "offline"])]);
         ("capabilities", typed "array")])]);
   ("stdout", typed "string"); ("stderr", typed "string"); ("exit_code", typed "integer");
   ("stdout_truncated", typed "boolean"); ("stderr_truncated", typed "boolean")].

Definition mcpComputerUseOutputSchema : literal := LMap
  [("type", LString "object"); ("additionalProperties", LBool false); ("properties", mcpComputerUseOutputProperties);
   ("oneOf", LList [LMap [("required", LStrings ["worker_list"])];
                    LMap [("required", LStrings ["stdout"; "stderr"; "exit_code"; "stdout_truncated"; "stderr_truncated"])]])].

Definition mcpReadImageInputSchema : literal := object ["session_id"; "file_path"]
  [("session_id", described "string" "Terminal session identifier returned by terminalExec, or CU:<worker_id> using the configured prefix for a caller-owned worker-sys." []);
   ("file_path", described "string" "Path to the file in the terminal session filesystem." []);
   task_timeout].

Definition mcpExportFileInputSchema : literal := object ["session_id"; "file_path"]
  [("session_id", described "string" "Terminal session identifier, or CU:<worker_id> using the configured prefix for a caller-owned worker-sys." []);
   ("file_path", described "string" "Path to the file in the terminal session filesystem." []);
   task_timeout].

Definition mcpExportFileOutputSchemaSignedURL : string * literal :=
  ("signed_url", described "string" "Presigned download URL for the exported object." []).
Definition mcpExportFileOutputSchemaObjectKey : string * literal :=
  ("object_key", described "string" "Object key written to the configured bucket." []).
Definition mcpExportFileOutputSchemaFileName : string * literal :=
  ("filename", described "string" "Original basename derived from file_path." []).

Definition ExportReturnSchemaAll : string := "ALL".
Definition ExportReturnSchemaSignedURL : string := "SIGNED_URL".
Definition ExportReturnSchemaObjectKey : string := "OBJECTKEY".

Definition exportFileOutputSchemaForMode (schema : string) : literal :=
  if bool_decide (schema = ExportReturnSchemaSignedURL)
  then object ["signed_url"] [mcpExportFileOutputSchemaSignedURL]
  else if bool_decide (schema = ExportReturnSchemaObjectKey)
  then object ["object_key"; "filename"] [mcpExportFileOutputSchemaObjectKey; mcpExportFileOutputSchemaFileName]
  else object ["signed_url"; "object_key"; "filename"]
         [mcpExportFileOutputSchemaSignedURL; mcpExportFileOutputSchemaObjectKey; mcpExportFileOutputSchemaFileName].

(** ** Overrides of the texts *)

(** Go's [regexp] with [^[a-zA-Z0-9_-]{1,64}$]. *)
Definition mcpToolNamePattern (s : string) : bool :=
  forall_char (fun a => is_alnum a || Ascii.eqb a "_" || Ascii.eqb a "-")%char s &&
  (1 <=? String.length s)%nat && (String.length s <=? 64)%nat.

Definition applyToolDescriptionOverride (defaultValue : string) (override : option string) : string :=
  match override with
  | None => defaultValue
  | Some v => if bool_decide (v = "") then defaultValue else v
  end.

Definition applyToolTitleOverride (defaultValue : string) (override : option string) : string :=
  match override with
  | None => defaultValue
  | Some v => if bool_decide (v = "") then defaultValue else v
  end.

Definition applyToolNameOverride (defaultValue : string) (override : option string) : string :=
  match override with
  | None => defaultValue
  | Some v => if bool_decide (v = "") then defaultValue else if negb (mcpToolNamePattern v) then defaultValue else v
  end.

(** ** Deep copies *)

(** [range] over a map of values, each copied into the store by [f]. *)
Fixpoint copy_entries (f : any -> heap -> option (any * heap)) (l : list (string * any)) (h : heap)
    : option (list (string * any) * heap) :=
  match l with
  | [] => Some ([], h)
  | (k, v) :: l => '(w, h) ← f v h; '(l, h) ← copy_entries f l h; Some ((k, w) :: l, h)
  end.

Fixpoint copy_items (f : any -> heap -> option (any * heap)) (l : list any) (h : heap) : option (list any * heap) :=
  match l with
  | [] => Some ([], h)
  | v :: l => '(w, h) ← f v h; '(l, h) ← copy_items f l h; Some (w :: l, h)
  end.

(** [n] bounds the nesting; [None] is a schema nested deeper. *)
Fixpoint deepCopyValue (n : nat) (v : any) (h : heap) : option (any * heap) :=
  match v, n with
  | AMap l, S n =>
      m ← h !! l;
      '(kvs, h) ← copy_entries (deepCopyValue n) (map_to_list m) h;
      Some (AMap (length h), h ++ [list_to_map kvs])
  | AMap _, O => None
  | AList l, S n => '(l, h) ← copy_items (deepCopyValue n) l h; Some (AList l, h)
  | AList _, O => None
  | _, _ => Some (v, h)
  end.

Definition schemaDepth : nat := 8.

Definition deepCopySchema (src : ref) (h : heap) : option (ref * heap) :=
  match deepCopyValue schemaDepth (AMap src) h with
  | Some (AMap l, h) => Some (l, h)
  | _ => None
  end.

(** ** Overrides of the parameters *)
Definition member_map (m : gmap string any) (k : string) : option ref :=
  match m !! k with Some (AMap l) => Some l | _ => None end.
Definition member_strings (m : gmap string any) (k : string) : list string :=
  match m !! k with Some (AStrings l) => l | _ => [] end.

Record override_state := mkOverrideState {
  os_heap : heap;
  os_required : list string;
  os_hiddenAny : bool }.

(** One turn of the loop; [outProps] is [None] where the map is nil. *)
Definition override_param (outProps : option ref) (st : override_state) (entry : string * option string) : override_state :=
  let '(name, val) := entry in
  match val, outProps with
  | Some val, Some l =>
      let props := default ∅ (os_heap st !! l) in
      match props !! name with
      | None => st
      | Some prop =>
          if bool_decide (val = "") then
            let wasRequired := bool_decide (name ∈ os_required st) in
            mkOverrideState (<[l := delete name props]> (os_heap st))
              (if wasRequired then filter (fun r => r <> name) (os_required st) else os_required st) true
          else match prop with
               | AMap p =>
                   mkOverrideState (<[p := <["description" := AString val]> (default ∅ (os_heap st !! p))]> (os_heap st))
                     (os_required st) (os_hiddenAny st)
               | _ => st
               end
      end
  | _, _ => st
  end.

Definition write_back (m : gmap string any) (outRequired : list string) (hiddenAny : bool) : gmap string any :=
  let m := if bool_decide (is_Some (m !! "required")) then
             if bool_decide (outRequired = []) then delete "required" m else <["required" := AStrings outRequired]> m
           else m in
  if hiddenAny then <["additionalProperties" := ABool true]> m else m.

(** [paramOverrides] is the map as [range] visits it. *)
Definition applyInputSchemaOverride (base : ref) (paramOverrides : list (string * option string)) (h : heap) : option (ref * heap) :=
  if bool_decide (paramOverrides = []) then Some (base, h) else
  m ← h !! base;
  let properties := match member_map m "properties" with Some l => default ∅ (h !! l) | None => ∅ end in
  if negb (existsb (fun e => bool_decide (is_Some (properties !! e.1))) paramOverrides) then Some (base, h) else
  '(out, h) ← deepCopySchema base h;
  m ← h !! out;
  let st := foldl (override_param (member_map m "properties")) (mkOverrideState h (member_strings m "required") false) paramOverrides in
  m ← os_heap st !! out;
  Some (out, <[out := write_back m (os_required st) (os_hiddenAny st)]> (os_heap st)).

End McpSchema.
Export McpSchema.
