(* ===== verification/McpTools.v ===== *)
(** The handlers of the MCP tools (console/internal/httpapi:
    mcp_tool_handlers.go, mcp_resource_registry.go, mcp_export_file.go,
    mcp_errors.go) and the object store they export to
    (console/internal/objectstore/objectstore.go).  The MCP library, which
    decodes the inputs and writes the results, and the AWS library, which signs
    the addresses, are outside. *)
From S2P Require Import Prelude.
From S2P Require Import Json.
From S2P Require Import Sql.
From S2P Require Import OwnerScope.
From S2P Require Import SessionRuntime.
From S2P Require Import Service.
From S2P Require Import Dispatch.
From S2P Require Import Tasks.
From S2P Require Import Submit.
From S2P Require Import Accounts.
From S2P Require Import Auth.
From S2P Require Import Rest.
From S2P Require Import JsonText.
From S2P Require Import ProxyToken.
From S2P Require Import Url.
From S2P Require Import ReverseProxy.
From S2P Require Import WorkerResource.
From S2P Require Import McpSchema.

Module McpTools.

(** ** Errors (mcp_errors.go) *)
Inductive tool_error :=
  | RPCError (code : Z) (message : string)     (** [*jsonrpc.Error] *)
  | PlainError (message : string).

Definition CodeInvalidParams : Z := -32602.

Definition invalidParamsError (message : string) : tool_error :=
  let trimmed := trim message in
  RPCError CodeInvalidParams (if bool_decide (trimmed = "") then "invalid params" else trimmed).

Definition mapMCPToolEchoError (err : error) : tool_error :=
  if error_is err ErrNoWorkerCapacity then PlainError "no online worker capacity for requested capability" else
  if error_is err ErrNoEchoWorker then PlainError "no online worker supports echo" else
  if error_is err ErrEchoTimeout then PlainError "echo command timed out" else
  match as_command_error err with
  | Some (code, msg) => PlainError (command_error_message code msg)
  | None => if error_is err ErrContextDeadlineExceeded then PlainError "echo command timed out"
            else PlainError "failed to execute echo command"
  end.

Definition mapMCPToolTaskSubmitError (err : error) : tool_error :=
  if error_is err ErrTaskRequestInProgress then PlainError "task request already in progress" else
  if error_is err ErrNoCapabilityWorker then PlainError "no online worker supports requested capability" else
  if error_is err ErrTargetWorkerOffline then PlainError (sentinel_message ErrTargetWorkerOffline) else
  if error_is err ErrTargetWorkerCapabilityUnavailable
  then PlainError (sentinel_message ErrTargetWorkerCapabilityUnavailable) else
  if error_is err ErrNoWorkerCapacity then PlainError "no online worker capacity for requested capability" else
  match as_command_error err with
  | Some (code, msg) => PlainError (command_error_message code msg)
  | None =>
      if error_is err ErrContextDeadlineExceeded then PlainError "task timed out" else
      if bool_decide (status_code err = InvalidArgument) then PlainError (status_message err)
      else PlainError "failed to submit task"
  end.

Definition formatTaskFailureError (task : TaskSnapshot) : tool_error :=
  let errorCode := trim (ts_ErrorCode task) in
  let errorMessage := trim (ts_ErrorMessage task) in
  let hasCode := negb (bool_decide (errorCode = "")) in
  let hasMessage := negb (bool_decide (errorMessage = "")) in
  PlainError (if hasCode && hasMessage then errorCode +:+ ": " +:+ errorMessage
              else if hasMessage then errorMessage
              else if hasCode then errorCode else "task failed").

(** ** Inputs and outputs *)
Record mcpEchoToolInput := mkEchoInput { ei_Message : string; ei_TimeoutMS : option Z }.
Record mcpPythonExecToolInput := mkPythonInput { pi_Code : string; pi_TimeoutMS : option Z }.
Record mcpPythonExecToolOutput := mkPythonOutput { po_Output : string; po_Stderr : string; po_ExitCode : Z }.
Record mcpTerminalExecToolInput := mkTerminalInput {
  ti_Command : string;
  ti_SessionID : string;
  ti_CreateIfMissing : bool;
  ti_LeaseTTLSec : option Z;
  ti_TimeoutMS : option Z }.
Record mcpComputerUseToolInput := mkComputerInput {
  ci_Command : string;
  ci_WorkerID : option string;
  ci_TimeoutMS : option Z;
  ci_RequestID : string }.
(** [mcpReadImageToolInput] and [mcpExportFileToolInput] have the same fields. *)
Record mcpFileToolInput := mkFileInput { fi_SessionID : string; fi_FilePath : string; fi_TimeoutMS : option Z }.
Record mcpExportFileToolOutput := mkExportOutput { eo_SignedURL : string; eo_ObjectKey : string; eo_FileName : string }.

Inductive mcp_content := TextContent (text : string) | ImageContent (mimeType data : string).

(** What the outside decides during a call: what the service sees at its first
    and second submission, what other requests do in between, and the id of a
    new object. *)
Record mcp_env := mkMcpEnv {
  me_submit : nat -> submit_env;
  me_attempts : option duration -> nat -> attempt_env;
  me_others : RegistryService -> RegistryService;
  me_objectID : string }.

(** A call answers with a value or an error; with it the goroutines that its
    submissions started. *)
Definition answer (A : Type) : Type := ((A + tool_error) * list task_job) * RegistryService.
Definition refuse {A} (e : tool_error) (s : RegistryService) : answer A := ((inr e, []), s).
Definition job_list (job : option task_job) : list task_job := match job with Some j => [j] | None => [] end.

Definition requestOwnerIDFromContext (c : context) : string := match cx_owner c with Some o => trim o | None => "" end.

(** ** Tasks *)
Definition task_status_text (st : TaskStatus) : string :=
  match st with
  | Queued => "queued" | Dispatched => "dispatched" | Running => "running"
  | Succeeded => "succeeded" | Failed => "failed" | Timeout => "timeout" | Canceled => "canceled"
  end.

(** The end of the tools that run a task: its result, decoded, or why there is none. *)
Definition task_answer {A} (name : string) (unexpected : TaskStatus -> string) (decode : payload -> option A)
    (result : SubmitTaskResult) : A + tool_error :=
  if negb (str_Completed result) then inr (PlainError (name +:+ " task did not complete")) else
  let task := str_Task result in
  match ts_Status task with
  | Succeeded =>
      match decode (ts_ResultJSON task) with
      | Some x => inl x
      | None => inr (PlainError ("invalid " +:+ name +:+ " result payload"))
      end
  | Timeout => inr (PlainError "task timed out")
  | Canceled => inr (PlainError "task canceled")
  | Failed => inr (formatTaskFailureError task)
  | st => inr (PlainError (unexpected st))
  end.

Definition unexpected_status (st : TaskStatus) : string := "unexpected task status: " +:+ task_status_text st.

Definition submit_and_answer {A} (env : submit_env) (req : SubmitTaskRequest) (k : SubmitTaskResult -> A + tool_error)
    (s : RegistryService) : answer A :=
  match SubmitTask env req s with
  | ((Err err, job), s) => ((inr (mapMCPToolTaskSubmitError err), job_list job), s)
  | ((Ok result, job), s) => ((k result, job_list job), s)
  end.

(** The synchronous submission of a tool. *)
Definition tool_submit (capability : string) (input : payload) (timeout : duration) (requestID ownerID : string) : SubmitTaskRequest :=
  mkSubmit capability input (mode_text TaskModeSync) 0 timeout requestID ownerID.

Definition task_timeout_ms (timeoutMS : option Z) : Z + tool_error :=
  let timeoutMS := default defaultMCPTaskTimeoutMS timeoutMS in
  if (timeoutMS <? minMCPTaskTimeoutMS) || (maxMCPTaskTimeoutMS <? timeoutMS)
  then inr (invalidParamsError "timeout_ms must be between 1 and 600000") else inl timeoutMS.

(** The checks that every tool with a task makes last. *)
Definition with_task {A} (dispatcher : bool) (c : context) (timeoutMS : option Z) (s : RegistryService)
    (k : Z -> string -> answer A) : answer A :=
  match task_timeout_ms timeoutMS with
  | inr e => refuse e s
  | inl timeoutMS =>
      if negb dispatcher then refuse (PlainError "task dispatcher is unavailable") s else
      let ownerID := requestOwnerIDFromContext c in
      if bool_decide (ownerID = "") then refuse (PlainError "request owner is required") s else k timeoutMS ownerID
  end.

(** ** Echo *)
Definition handleMCPEchoTool (dispatcher : bool) (env : mcp_env) (input : mcpEchoToolInput) (s : RegistryService) : answer string :=
  if bool_decide (trim (ei_Message input) = "") then refuse (invalidParamsError "message is required") s else
  let timeoutMS := default defaultMCPEchoTimeoutMS (ei_TimeoutMS input) in
  if (timeoutMS <? minEchoTimeoutMS) || (maxEchoTimeoutMS <? timeoutMS)
  then refuse (invalidParamsError "timeout_ms must be between 1 and 60000") s else
  if negb dispatcher then refuse (PlainError "echo command dispatcher is unavailable") s else
  match DispatchEcho (me_attempts env (Some (duration_ms timeoutMS))) (ei_Message input) s with
  | (Err err, s) => refuse (mapMCPToolEchoError err) s
  | (Ok result, s) => ((inl result, []), s)
  end.

(** ** Python *)
Definition marshal_python (code : string) : payload := PJson (JObject [("code", JString code)]).

Definition python_output_field (k : string) : option (json -> mcpPythonExecToolOutput -> mcpPythonExecToolOutput * bool) :=
  if equal_fold k "output" then Some (fun v o =>
    let '(x, bad) := dec_string v (po_Output o) in (mkPythonOutput x (po_Stderr o) (po_ExitCode o), bad))
  else if equal_fold k "stderr" then Some (fun v o =>
    let '(x, bad) := dec_string v (po_Stderr o) in (mkPythonOutput (po_Output o) x (po_ExitCode o), bad))
  else if equal_fold k "exit_code" then Some (fun v o =>
    let '(x, bad) := dec_int v (po_ExitCode o) in (mkPythonOutput (po_Output o) (po_Stderr o) x, bad))
  else None.
Definition unmarshal_python : payload -> option mcpPythonExecToolOutput :=
  unmarshal_struct python_output_field (mkPythonOutput "" "" 0).

Definition handleMCPPythonExecTool (dispatcher : bool) (env : mcp_env) (c : context) (input : mcpPythonExecToolInput)
    (s : RegistryService) : answer mcpPythonExecToolOutput :=
  if bool_decide (trim (pi_Code input) = "") then refuse (invalidParamsError "code is required") s else
  with_task dispatcher c (pi_TimeoutMS input) s (fun timeoutMS ownerID =>
    submit_and_answer (me_submit env 0%nat)
      (tool_submit "pythonExec" (marshal_python (pi_Code input)) (duration_ms timeoutMS) "" ownerID)
      (task_answer "pythonExec" unexpected_status unmarshal_python) s).

(** ** Terminal *)
Definition handleMCPTerminalExecTool (dispatcher : bool) (env : mcp_env) (c : context) (input : mcpTerminalExecToolInput)
    (s : RegistryService) : answer terminalCommandResponse :=
  if bool_decide (trim (ti_Command input) = "") then refuse (invalidParamsError "command is required") s else
  if match ti_LeaseTTLSec input with Some z => z <? minMCPTerminalLeaseSec | None => false end
  then refuse (invalidParamsError "lease_ttl_sec must be positive") s else
  with_task dispatcher c (ti_TimeoutMS input) s (fun timeoutMS ownerID =>
    submit_and_answer (me_submit env 0%nat)
      (tool_submit "terminalExec"
         (marshal_exec (mkExec (ti_Command input) (trim (ti_SessionID input)) (ti_CreateIfMissing input) (ti_LeaseTTLSec input)))
         (duration_ms timeoutMS) "" ownerID)
      (task_answer "terminalExec" unexpected_status unmarshal_terminal) s).

(** ** Computer use *)
Definition tool_worker (input : mcpComputerUseToolInput) : string + tool_error :=
  match ci_WorkerID input with
  | None => inl ""
  | Some workerID =>
      let workerID := trim workerID in
      if bool_decide (workerID = "") then inr (invalidParamsError "worker_id is invalid") else
      if bool_decide (trim (ci_Command input) = "") then inr (invalidParamsError "command is required") else inl workerID
  end.

Definition handleMCPComputerUseTool (dispatcher : bool) (env : mcp_env) (c : context) (input : mcpComputerUseToolInput)
    (s : RegistryService) : answer computerUseResult :=
  match tool_worker input with
  | inr e => refuse e s
  | inl workerID =>
      with_task dispatcher c (ci_TimeoutMS input) s (fun timeoutMS ownerID =>
        submit_and_answer (me_submit env 0%nat)
          (tool_submit "computerUse" (marshal_computer (ci_Command input) workerID) (duration_ms timeoutMS)
             (trim (ci_RequestID input)) ownerID)
          (task_answer "computerUse" unexpected_status unmarshal_computer) s)
  end.

(** ** Files (mcp_resource_registry.go) *)
Record mcpTerminalResourceResult := mkToolResource {
  tr_SessionID : string;
  tr_FilePath : string;
  tr_MIMEType : string;
  tr_SizeBytes : Z;
  tr_Blob : string }.

(** A [[]byte] field: base64 text, or an array of bytes. *)
Definition dec_uint8 (v : json) (old : Z) : Z * bool :=
  match v with
  | JInt z => if (0 <=? z) && (z <? 256) then (z, false) else (old, true)
  | JNull => (old, false)
  | _ => (old, true)
  end.
Definition dec_bytes (v : json) (old : string) : string * bool :=
  match v with
  | JNull => ("", false)
  | JString t => match b64_decode t with Some x => (x, false) | None => (old, true) end
  | JArray l =>
      let '(bytes, bad) := dec_elements dec_uint8 0 l (byte <$> String.list_ascii_of_string old) in
      (String.string_of_list_ascii (chr <$> bytes), bad)
  | _ => (old, true)
  end.

Definition tool_resource_field (k : string) : option (json -> mcpTerminalResourceResult -> mcpTerminalResourceResult * bool) :=
  if equal_fold k "session_id" then Some (fun v r => let '(x, bad) := dec_string v (tr_SessionID r) in
    (mkToolResource x (tr_FilePath r) (tr_MIMEType r) (tr_SizeBytes r) (tr_Blob r), bad))
  else if equal_fold k "file_path" then Some (fun v r => let '(x, bad) := dec_string v (tr_FilePath r) in
    (mkToolResource (tr_SessionID r) x (tr_MIMEType r) (tr_SizeBytes r) (tr_Blob r), bad))
  else if equal_fold k "mime_type" then Some (fun v r => let '(x, bad) := dec_string v (tr_MIMEType r) in
    (mkToolResource (tr_SessionID r) (tr_FilePath r) x (tr_SizeBytes r) (tr_Blob r), bad))
  else if equal_fold k "size_bytes" then Some (fun v r => let '(x, bad) := dec_int v (tr_SizeBytes r) in
    (mkToolResource (tr_SessionID r) (tr_FilePath r) (tr_MIMEType r) x (tr_Blob r), bad))
  else if equal_fold k "blob" then Some (fun v r => let '(x, bad) := dec_bytes v (tr_Blob r) in
    (mkToolResource (tr_SessionID r) (tr_FilePath r) (tr_MIMEType r) (tr_SizeBytes r) x, bad))
  else None.
Definition unmarshal_tool_resource : payload -> option mcpTerminalResourceResult :=
  unmarshal_struct tool_resource_field (mkToolResource "" "" "" 0 "").

(** [i] counts the submissions of the call. *)
Definition callResourceCapability (dispatcher : bool) (env : mcp_env) (i : nat) (c : context) (capability : string)
    (p : terminalResourceScopedPayload) (timeout : duration) (s : RegistryService) : answer mcpTerminalResourceResult :=
  if negb dispatcher then refuse (PlainError "task dispatcher is unavailable") s else
  let capabilityName := trim capability in
  if bool_decide (capabilityName = "") then refuse (PlainError "resource capability is required") s else
  let timeoutValue := if timeout <=? 0 then duration_ms defaultMCPTaskTimeoutMS else timeout in
  let ownerID := requestOwnerIDFromContext c in
  if bool_decide (ownerID = "") then refuse (PlainError "request owner is required") s else
  submit_and_answer (me_submit env i) (tool_submit capabilityName (marshal_resource p) timeoutValue "" ownerID)
    (task_answer capabilityName (fun _ => "unexpected task status") unmarshal_tool_resource) s.

Definition normalizeMIME (mimeType : string) : string :=
  let normalized := trim mimeType in if bool_decide (normalized = "") then "application/octet-stream" else normalized.

Definition isImageMIME (mimeType : string) : bool := has_prefix "image/" (to_lower (trim mimeType)).

Definition isComputerUseSessionID (sessionID prefix : string) : bool :=
  let normalizedPrefix := trim prefix in
  let normalizedPrefix := if bool_decide (normalizedPrefix = "") then "CU:" else normalizedPrefix in
  has_prefix normalizedPrefix (trim sessionID).

(** The capability that reads the files of a session. *)
Definition resource_capability (sessionID prefix : string) : string :=
  if isComputerUseSessionID sessionID prefix then "readImage" else "terminalResource".

(** ** Images *)
Definition unsupported_mime (mimeType : string) : mcp_content :=
  TextContent ("unsupported mime type: " +:+ mimeType +:+ "; expected image/*").

(** The checks of the tools on files. *)
Definition with_file {A} (dispatcher : bool) (input : mcpFileToolInput) (s : RegistryService)
    (k : string -> string -> duration -> answer A) : answer A :=
  let sessionID := trim (fi_SessionID input) in
  if bool_decide (sessionID = "") then refuse (invalidParamsError "session_id is required") s else
  let filePath := trim (fi_FilePath input) in
  if bool_decide (filePath = "") then refuse (invalidParamsError "file_path is required") s else
  match task_timeout_ms (fi_TimeoutMS input) with
  | inr e => refuse e s
  | inl timeoutMS =>
      if negb dispatcher then refuse (PlainError "task dispatcher is unavailable") s
      else k sessionID filePath (duration_ms timeoutMS)
  end.

Definition handleMCPReadImageTool (dispatcher : bool) (env : mcp_env) (computerUseSessionIDPrefix : string) (c : context)
    (input : mcpFileToolInput) (s : RegistryService) : answer mcp_content :=
  with_file dispatcher input s (fun sessionID filePath timeout =>
    let call i action := callResourceCapability dispatcher env i c
      (resource_capability sessionID computerUseSessionIDPrefix) (mkResource sessionID filePath action "" None) timeout in
    match call 0%nat "validate" s with
    | ((inr e, jobs), s) => ((inr e, jobs), s)
    | ((inl validated, jobs), s) =>
        let mimeType := normalizeMIME (tr_MIMEType validated) in
        if negb (isImageMIME mimeType) then ((inl (unsupported_mime mimeType), jobs), s) else
        match call 1%nat "read" (me_others env s) with
        | ((inr e, jobs'), s) => ((inr e, jobs ++ jobs'), s)
        | ((inl readResult, jobs'), s) =>
            let readMIMEType := normalizeMIME (tr_MIMEType readResult) in
            ((inl (if negb (isImageMIME readMIMEType) then unsupported_mime readMIMEType
                   else ImageContent readMIMEType (tr_Blob readResult)), jobs ++ jobs'), s)
        end
    end).

End McpTools.
Export McpTools.
