(* ===== verification/McpExport.v ===== *)
(** The export of a session's file to the object store
    (console/internal/httpapi/mcp_export_file.go,
    console/internal/objectstore/objectstore.go).  The AWS library, which signs
    the addresses, is a parameter. *)
From S2P Require Import Prelude.
From S2P Require Import Json.
From S2P Require Import Net.
From S2P Require Import OwnerScope.
From S2P Require Import Service.
From S2P Require Import Auth.
From S2P Require Import Rest.
From S2P Require Import JsonText.
From S2P Require Import ProxyToken.
From S2P Require Import Url.
From S2P Require Import ReverseProxy.
From S2P Require Import McpSchema.
From S2P Require Import McpTools.

Module McpExport.

(** ** The object store (objectstore.go) *)
Record store_config := mkStoreConfig {
  sc_Endpoint : string;
  sc_Region : string;
  sc_BucketName : string;
  sc_AccessKey : string;
  sc_SecretKey : string }.

Inductive presign_op := PutObject | GetObject.

(** The client of the AWS library for an endpoint, a region and credentials:
    the address it signs for a bucket, a key and an expiry. *)
Definition aws : Type := string -> string -> string -> string -> presign_op -> string -> string -> duration -> res string.

Record Store := mkStore {
  st_bucketName : string;
  st_presign : presign_op -> string -> string -> duration -> res string }.

Definition missing_fields (endpoint region bucketName accessKey secretKey : string) : list string :=
  omap (fun f => if bool_decide (f.1 = "") then Some f.2 else None)
    [(endpoint, "endpoint"); (region, "region"); (bucketName, "bucket_name"); (accessKey, "access_key"); (secretKey, "secret_key")].

Definition NewStore (sdk : aws) (cfg : store_config) : res Store :=
  let endpoint := trim (sc_Endpoint cfg) in
  let region := trim (sc_Region cfg) in
  let bucketName := trim (sc_BucketName cfg) in
  let accessKey := trim (sc_AccessKey cfg) in
  let secretKey := trim (sc_SecretKey cfg) in
  let missing := missing_fields endpoint region bucketName accessKey secretKey in
  if negb (bool_decide (missing = [])) then
    Err (ErrorString ("objectstore config is incomplete: missing " +:+ join ", " missing)) else
  match Parse endpoint with
  | Some parsedEndpoint =>
      if bool_decide (u_Scheme parsedEndpoint = "") || bool_decide (u_Host parsedEndpoint = "")
      then Err (ErrorString "objectstore endpoint must be a valid absolute URL")
      else Ok (mkStore bucketName (sdk endpoint region accessKey secretKey))
  | None => Err (ErrorString "objectstore endpoint must be a valid absolute URL")
  end.

Definition presign (op : presign_op) (what : string) (s : Store) (objectKey : string) (expiresIn : duration) : res string :=
  let key := trim objectKey in
  if bool_decide (key = "") then Err (ErrorString "object key is required") else
  if expiresIn <=? 0 then Err (ErrorString "presign expiry must be positive") else
  match st_presign s op (st_bucketName s) key expiresIn with
  | Err e => Err (Wrapped (what +:+ ": ") e "")
  | Ok url => Ok url
  end.

Definition PresignUpload : Store -> string -> duration -> res string := presign PutObject "presign upload".
Definition PresignDownload : Store -> string -> duration -> res string := presign GetObject "presign download".

(** ** Object keys (mcp_export_file.go) *)

(** [strings.Trim(s, cutset)] for one character. *)
Fixpoint trim_left_char (a : ascii) (s : string) : string :=
  match s with
  | String b s' => if Ascii.eqb a b then trim_left_char a s' else s
  | EmptyString => EmptyString
  end.
Definition trim_right_char (a : ascii) (s : string) : string := String.rev (trim_left_char a (String.rev s)).
Definition trim_char (a : ascii) (s : string) : string := trim_right_char a (trim_left_char a s).

(** [filepath.Base] where the separator is a slash. *)
Definition Base (path : string) : string :=
  if bool_decide (path = "") then "." else
  let path := trim_right_char "/" path in
  let path := match rcut "/" path with Some (_, base) => base | None => path end in
  if bool_decide (path = "") then "/" else path.

Definition exportFileName (filePath : string) : string :=
  let base := trim (Base (trim filePath)) in
  if bool_decide (base = "") || bool_decide (base = ".") || bool_decide (base = "/") then "file" else base.

(** [unicode.IsControl]: U+0000 to U+001F and U+007F to U+009F. *)
Definition control_rune (r : string) : bool :=
  match r with
  | String a "" => (byte a <? 0x20) || (byte a =? 0x7F)
  | String a (String b "") => (byte a =? 0xC2) && (byte b <? 0xA0)
  | _ => false
  end.

Definition forbidden_rune (r : string) : bool := bool_decide (r = "/") || bool_decide (r = String backslash "") || control_rune r.

(** The loop over the runes; a byte that starts no rune is read as U+FFFD. *)
Fixpoint sanitize_runes (fuel : nat) (s : string) : string :=
  match fuel, s with
  | S fuel, String a s' =>
      match valid_rune s with
      | Some (r, s'') => (if forbidden_rune r then "_" else r) +:+ sanitize_runes fuel s''
      | None => replacement +:+ sanitize_runes fuel s'
      end
  | _, _ => ""
  end.

Definition sanitizeExportObjectKeySegment (value fallback : string) : string :=
  let trimmed := trim value in
  if bool_decide (trimmed = "") then fallback else
  let sanitized := trim_char "/" (trim (sanitize_runes (String.length trimmed) trimmed)) in
  if bool_decide (sanitized = "") then fallback else sanitized.

Definition buildExportObjectKey (objectID exportPrefix sessionID filePath : string) : string :=
  let normalizedPrefix := trim_char "/" (trim exportPrefix) in
  let sessionSegment := sanitizeExportObjectKeySegment sessionID "session" in
  let fileName := sanitizeExportObjectKeySegment (exportFileName filePath) "file" in
  let objectID := sanitizeExportObjectKeySegment objectID "object" in
  join "/" ((if bool_decide (normalizedPrefix = "") then [] else [normalizedPrefix]) ++ [sessionSegment; objectID +:+ "-" +:+ fileName]).

(** ** Headers and expiry *)
Definition exportStoreUploadHeaders (uploadURL : string) : option (gmap string string) :=
  match Parse (trim uploadURL) with
  | None => None
  | Some parsed =>
      let signed := default "" (default [] (ReverseProxy.ParseQuery (u_RawQuery parsed) !! "X-Amz-SignedHeaders") !! 0%nat) in
      if existsb (fun header => bool_decide (to_lower (trim header) = "x-amz-acl")) (ProxyToken.split ";" signed)
      then Some {["x-amz-acl" := "public-read"]} else None
  end.

Definition exportFileUploadPresignTTL : duration := 15 * 60 * second.
Definition exportFileDownloadPresignTTL : duration := 3600 * second.
Definition normalizeExportPresignTTL (value fallback : duration) : duration := if 0 <? value then value else fallback.

(** ** The tool *)
Record export_settings := mkExport {
  xs_store : option Store;
  xs_prefix : string;
  xs_uploadTTL : duration;
  xs_downloadTTL : duration;
  xs_returnSchema : string }.

Definition handleMCPExportFileTool (dispatcher : bool) (env : mcp_env) (x : export_settings)
    (computerUseSessionIDPrefix : string) (c : context) (input : mcpFileToolInput) (s : RegistryService)
    : answer mcpExportFileToolOutput :=
  with_file dispatcher input s (fun sessionID filePath timeout =>
    match xs_store x with
    | None => refuse (PlainError "exportFile is unavailable") s
    | Some store =>
        let objectKey := buildExportObjectKey (me_objectID env) (xs_prefix x) sessionID filePath in
        match PresignUpload store objectKey (normalizeExportPresignTTL (xs_uploadTTL x) exportFileUploadPresignTTL) with
        | Err _ => refuse (PlainError "failed to generate upload URL") s
        | Ok uploadURL =>
            match callResourceCapability dispatcher env 0%nat c (resource_capability sessionID computerUseSessionIDPrefix)
                    (mkResource sessionID filePath "export" uploadURL (exportStoreUploadHeaders uploadURL)) timeout s with
            | ((inr e, jobs), s) => ((inr e, jobs), s)
            | ((inl resourceResult, jobs), s) =>
                if bool_decide (trim (tr_SessionID resourceResult) = "")
                then ((inr (PlainError "invalid exportFile result payload"), jobs), s) else
                let fileName := exportFileName filePath in
                if bool_decide (xs_returnSchema x = ExportReturnSchemaObjectKey)
                then ((inl (mkExportOutput "" objectKey fileName), jobs), s) else
                match PresignDownload store objectKey (normalizeExportPresignTTL (xs_downloadTTL x) exportFileDownloadPresignTTL) with
                | Err _ => ((inr (PlainError "failed to generate download URL"), jobs), s)
                | Ok downloadURL =>
                    ((inl (if bool_decide (xs_returnSchema x = ExportReturnSchemaSignedURL)
                           then mkExportOutput downloadURL "" "" else mkExportOutput downloadURL objectKey fileName), jobs), s)
                end
            end
        end
    end).

Example key_1 : buildExportObjectKey "id" " /exports/ " "s/1" "/work/a b.png" = "exports/s_1/id-a b.png".
Proof. by vm_compute. Qed.
Example headers_1 : exportStoreUploadHeaders "https://s3/b/k?X-Amz-SignedHeaders=host%3Bx-amz-acl&X-Amz-Date=1" = Some {["x-amz-acl" := "public-read"]}.
Proof. by vm_compute. Qed.
Example headers_2 : exportStoreUploadHeaders "https://s3/b/k?X-Amz-SignedHeaders=host" = None.
Proof. by vm_compute. Qed.

End McpExport.
Export McpExport.
