(* ===== verification/McpServer.v ===== *)
(** The MCP server (console/internal/httpapi: mcp_handler.go, tool_capability.go,
    the texts of mcp_tool_specs.go): the tools it registers under their exposed
    names and the list of tools it shows.  The MCP library is outside: what it
    answers to a request reaches the middleware as an argument. *)
From S2P Require Import Prelude.
From S2P Require Import JsonText.
From S2P Require Import ConsoleConfig.
From S2P Require Import Rest.
From S2P Require Import McpSchema.
From S2P Require Import McpTools.
From S2P Require Import McpExport.

Module McpServer.

(** ** Texts *)
Definition dquote : string := String JsonText.quote "".

Definition mcpEchoToolTitle : string := "Echo Message".
Definition mcpPythonExecToolTitle : string := "Python Execute".
Definition mcpTerminalExecToolTitle : string := "Terminal Execute".
Definition mcpComputerUseToolTitle : string := "Computer Use".
Definition mcpReadImageToolTitle : string := "Read Image".
Definition mcpExportFileToolTitle : string := "Export File".

Definition mcpEchoToolDescription : string :=
  "Echoes the input message exactly as returned by an online worker. Use this tool for connectivity checks, request tracing, and latency baselines. Do not use it for code execution, file operations, or long-running work. timeout_ms is an end-to-end dispatch timeout in milliseconds (1-60000, default 5000).".

Definition mcpPythonExecToolDescription : string :=
  "Executes Python code in an ephemeral container and returns stdout, stderr, and exit_code. Each invocation runs in a fresh, isolated environment that is destroyed immediately upon completion — no filesystem state, installed packages, or variables persist across calls. If you need to retain files or share state between steps, use terminalExec instead. Third-party packages are NOT available by default and cannot be installed via pip at runtime. The only way to use third-party dependencies is PEP 723 inline script metadata: add a '# /// script' block at the top of your code to declare dependencies (e.g. '# dependencies = [" +:+ dquote +:+ "requests" +:+ dquote +:+ "]') — they will be automatically installed before execution. Do not use it for long-running jobs. timeout_ms is a synchronous execution timeout in milliseconds (1-600000, default 60000). A non-zero exit_code is returned as normal tool output, not as a protocol error.".

Definition mcpTerminalExecToolDescription : string :=
  "Executes shell commands in a container-backed terminal session. Sessions are ephemeral by default but can be made persistent by reusing session_id across calls. Commands are executed with sh -lc, and common tools are preinstalled (python3/pip/venv, git, curl/wget, jq, ripgrep, fd-find, tree, file, zip/unzip, sqlite3, agent-browser). For headless browser automation, run `agent-browser --help` for usage. Omitting session_id creates a new session per call with no state carried over — equivalent to a one-shot execution. To retain filesystem state across calls, supply the same session_id on every call. create_if_missing controls what happens when the given session_id does not exist on the worker: false (default) returns a session_not_found error; true creates the session instead. Session IDs using the configured Computer Use prefix (CU: by default) cannot be created by terminalExec. lease_ttl_sec extends session lease within configured bounds. timeout_ms is a synchronous execution timeout in milliseconds (1-600000, default 60000).".

Definition mcpComputerUseToolDescription : string :=
  "Lists caller-owned worker-sys instances when worker_id is omitted. When worker_id is provided, executes a shell command directly on that worker's host OS via /bin/sh -lc. Host execution is not container-isolated and is stateless. timeout_ms is a synchronous execution timeout in milliseconds (1-600000, default 60000). request_id provides idempotency for retries.".

Definition mcpReadImageToolDescription : string :=
  "Reads a file and returns it as inline image content when mime type is image/*. For unsupported mime types, returns a text explanation. A session_id beginning with the configured Computer Use prefix (CU: by default) routes to the caller-owned worker-sys whose worker ID follows the prefix; other values route to terminalResource for terminal sessions.".

Definition mcpExportFileToolDescription : string :=
  "Exports a file from a session to the configured S3-compatible object store and returns a presigned download URL, object key, and filename. Pass the session_id returned by terminalExec for a terminal session, or CU:<worker_id> (using the configured prefix) for a caller-owned worker-sys host. timeout_ms is a synchronous execution timeout in milliseconds (1-600000, default 60000).".

(** ** Hidden tools (tool_capability.go) *)
Definition publicCapabilities : gset string := list_to_set ["echo"; "pythonexec"; "terminalexec"; "computeruse"; "readimage"].
Definition isPublicCapability (capability : string) : bool := bool_decide (normalizeToolCapabilityKey capability ∈ publicCapabilities).

Definition isCapabilityHidden (hiddenTools : gset string) (capability : string) : bool :=
  let key := normalizeToolCapabilityKey capability in
  if bool_decide (key = "") then false else bool_decide (key ∈ hiddenTools).

(** ** Tools *)
Record annotations := mkAnnotations {
  an_Title : string;
  an_ReadOnly : bool;
  an_Destructive : bool;
  an_Idempotent : bool;
  an_OpenWorld : bool }.

Record tool := mkTool {
  tl_Name : string;
  tl_Title : string;
  tl_Description : string;
  tl_Annotations : annotations;
  tl_InputSchema : ref;
  tl_OutputSchema : option ref }.

(** What the source fixes of a tool: its capability, which is its default name,
    its default texts, its hints and the schemas. *)
Record tool_spec := mkSpec {
  sp_capability : string;
  sp_title : string;
  sp_description : string;
  sp_hints : bool * bool * bool * bool;      (** read only, destructive, idempotent, open world *)
  sp_input : ref;
  sp_output : option ref }.

(** The schemas of the package, in the store as its initialisation leaves it;
    the output schema of an export is made when the server is. *)
Definition package_literals : list literal :=
  [mcpEchoInputSchema; mcpEchoOutputSchema; mcpPythonExecInputSchema; mcpPythonExecOutputSchema;
   mcpTerminalExecInputSchema; mcpTerminalExecOutputSchema; mcpComputerUseInputSchema; mcpComputerUseOutputSchema;
   mcpReadImageInputSchema; mcpExportFileInputSchema].

Fixpoint load_literals (l : list literal) (h : heap) : list ref * heap :=
  match l with
  | [] => ([], h)
  | v :: l =>
      let '(x, h) := alloc v h in
      let '(refs, h) := load_literals l h in
      (match x with AMap r => r | _ => 0%nat end :: refs, h)
  end.

Definition package_refs : list ref := (load_literals package_literals []).1.
Definition package_heap : heap := (load_literals package_literals []).2.
Definition schema_ref (i : nat) : ref := default 0%nat (package_refs !! i).

Definition echo_spec : tool_spec := mkSpec "echo" mcpEchoToolTitle mcpEchoToolDescription
  (true, false, true, false) (schema_ref 0) (Some (schema_ref 1)).
Definition python_spec : tool_spec := mkSpec "pythonExec" mcpPythonExecToolTitle mcpPythonExecToolDescription
  (false, true, false, true) (schema_ref 2) (Some (schema_ref 3)).
Definition terminal_spec : tool_spec := mkSpec "terminalExec" mcpTerminalExecToolTitle mcpTerminalExecToolDescription
  (false, true, false, true) (schema_ref 4) (Some (schema_ref 5)).
Definition computer_spec : tool_spec := mkSpec "computerUse" mcpComputerUseToolTitle mcpComputerUseToolDescription
  (false, true, false, true) (schema_ref 6) (Some (schema_ref 7)).
Definition image_spec : tool_spec := mkSpec "readImage" mcpReadImageToolTitle mcpReadImageToolDescription
  (true, false, true, false) (schema_ref 8) None.
Definition export_spec (output : ref) : tool_spec := mkSpec "exportFile" mcpExportFileToolTitle mcpExportFileToolDescription
  (true, false, false, false) (schema_ref 9) (Some output).

(** ** Exposed names *)
Definition builtinDefaultNames : list string := ["echo"; "pythonExec"; "terminalExec"; "computerUse"; "readImage"; "exportFile"].

(** [defaultNameToCap]: every tool is its own default name. *)
Definition defaultNameToCap (name : string) : option string :=
  if bool_decide (name ∈ builtinDefaultNames) then Some name else None.

(** [names] is [nameToCapabilityID]; [None] is the panic. *)
Definition owned_by_other (names : gmap string string) (name capabilityID : string) : bool :=
  match names !! name with Some owner => negb (bool_decide (owner = capabilityID)) | None => false end.

Definition resolveExposedName (names : gmap string string) (capabilityID defaultName : string) (override : option string)
    : option (string * gmap string string) :=
  let final := applyToolNameOverride defaultName override in
  let final :=
    if bool_decide (final = defaultName) then final else
    if match defaultNameToCap final with Some other => negb (bool_decide (other = capabilityID)) | None => false end then defaultName
    else if owned_by_other names final capabilityID then defaultName else final in
  if owned_by_other names final capabilityID then None else Some (final, <[final := capabilityID]> names).

(** ** Registration *)
Record server := mkServer {
  sv_tools : list (string * tool);            (** with their capabilities, in order *)
  sv_names : gmap string string;
  sv_heap : heap }.

Definition no_override : ConsoleConfig.MCPToolOverride := ConsoleConfig.mkOverride None None None ∅.
Definition resolveOverride (overrides : gmap string ConsoleConfig.MCPToolOverride) (name : string) : ConsoleConfig.MCPToolOverride :=
  default no_override (overrides !! name).

Definition param_entries (m : gmap string string) : list (string * option string) :=
  (fun kv => (kv.1, Some kv.2)) <$> map_to_list m.

(** One tool: its name, its texts, its schema, and [mcp.AddTool]. *)
Definition add_tool (overrides : gmap string ConsoleConfig.MCPToolOverride) (sv : server) (spec : tool_spec) : option server :=
  let o := resolveOverride overrides (sp_capability spec) in
  let title := applyToolTitleOverride (sp_title spec) (ConsoleConfig.ov_Title o) in
  '(name, names) ← resolveExposedName (sv_names sv) (sp_capability spec) (sp_capability spec) (ConsoleConfig.ov_Name o);
  '(input, h) ← applyInputSchemaOverride (sp_input spec) (param_entries (ConsoleConfig.ov_ParamDescriptions o)) (sv_heap sv);
  let '(readOnly, destructive, idempotent, openWorld) := sp_hints spec in
  Some (mkServer (sv_tools sv ++ [(sp_capability spec,
    mkTool name title (applyToolDescriptionOverride (sp_description spec) (ConsoleConfig.ov_Description o))
      (mkAnnotations title readOnly destructive idempotent openWorld) input (sp_output spec))]) names h).

Fixpoint add_tools (overrides : gmap string ConsoleConfig.MCPToolOverride) (sv : server) (specs : list tool_spec) : option server :=
  match specs with
  | [] => Some sv
  | spec :: specs => sv ← add_tool overrides sv spec; add_tools overrides sv specs
  end.

Definition exports_files (x : export_settings) : bool :=
  bool_decide (is_Some (xs_store x)) && negb (bool_decide (trim (xs_prefix x) = "")).

(** The specifications the server registers and the store they refer to. *)
Definition server_specs (x : export_settings) : list tool_spec * heap :=
  let specs := [echo_spec; python_spec; terminal_spec; computer_spec; image_spec] in
  if exports_files x then
    match alloc (exportFileOutputSchemaForMode (xs_returnSchema x)) package_heap with
    | (AMap output, h) => (specs ++ [export_spec output], h)
    | (_, h) => (specs, h)
    end
  else (specs, package_heap).

(** [None] is the panic of [resolveExposedName]. *)
Definition NewMCPHandler (x : export_settings) (toolOverrides : gmap string ConsoleConfig.MCPToolOverride) : option server :=
  let '(specs, h) := server_specs x in add_tools toolOverrides (mkServer [] ∅ h) specs.

(** ** Listing *)
Inductive mcp_result :=
  | ListToolsResult (tools : option (list (option tool)))     (** a nil result, nil tools *)
  | OtherResult.

Definition shown_tool (names : gmap string string) (hiddenTools : gset string) (t : option tool) : option (option tool) :=
  match t with
  | None => None
  | Some x =>
      let capID := default (tl_Name x) (names !! tl_Name x) in
      if isCapabilityHidden hiddenTools capID then None else Some t
  end.

(** The middleware that [NewMCPHandler] installs, on what the next handler answers. *)
Definition hide_tools (sv : server) (hiddenTools : gset string) (method : string) (next : res mcp_result) : res mcp_result :=
  if bool_decide (hiddenTools = ∅) then next else
  match next with
  | Err e => Err e
  | Ok result =>
      if negb (bool_decide (method = "tools/list")) then Ok result else
      match result with
      | ListToolsResult (Some tools) => Ok (ListToolsResult (Some (omap (shown_tool (sv_names sv) hiddenTools) tools)))
      | _ => Ok result
      end
  end.

End McpServer.
Export McpServer.
