(* ===== verification/McpProps.v ===== *)
(** The MCP server: schemas as a store of shared maps and their copies
    ([McpSchemaProps]), the registration and the list of the tools
    ([McpProps]). *)
From S2P Require Import Prelude.
From S2P Require Import McpSchema.
From S2P Require Import ConsoleConfig.
From S2P Require Import McpTools.
From S2P Require Import McpExport.
From S2P Require Import McpServer.

Module McpSchemaProps.

(** ** What a schema says *)
Record schema_view := mkView {
  vw_properties : gmap string (gmap string any);
  vw_required : option (list string);
  vw_additional : option any;
  vw_rest : gmap string any }.

Definition strings_of (v : any) : option (list string) := match v with AStrings l => Some l | _ => None end.
Definition ref_of (v : any) : option ref := match v with AMap l => Some l | _ => None end.
Definition rest_members (m : gmap string any) : gmap string any :=
  delete "properties" (delete "required" (delete "additionalProperties" m)).

Definition read_props (h : heap) (props : gmap string any) : gmap string (gmap string any) :=
  omap (fun v => q ← ref_of v; h !! q) props.
Lemma lookup_read_props h props k : read_props h props !! k = (v ← props !! k; q ← ref_of v; h !! q).
Proof. apply lookup_omap. Qed.

Definition view (h : heap) (l : ref) : option schema_view :=
  m ← h !! l; p ← member_map m "properties"; props ← h !! p;
  Some (mkView (read_props h props) (m !! "required" ≫= strings_of)
          (m !! "additionalProperties") (rest_members m)).

(** ** What an override asks for *)
Definition hides (po : gmap string (option string)) (k : string) : bool := bool_decide (po !! k = Some (Some "")).

Definition new_property (po : gmap string (option string)) (k : string) (p : gmap string any) : option (gmap string any) :=
  match po !! k with
  | Some (Some d) => if bool_decide (d = "") then None else Some (<["description" := AString d]> p)
  | _ => Some p
  end.

Definition none_if_empty (l : list string) : option (list string) := if bool_decide (l = []) then None else Some l.

Definition kept (po : gmap string (option string)) (props : gmap string (gmap string any)) (r : string) : Prop :=
  hides po r = false \/ props !! r = None.
#[global] Instance kept_dec po props r : Decision (kept po props r) := _.

Definition hidden_any (po : gmap string (option string)) (props : gmap string (gmap string any)) : bool :=
  bool_decide (map_Exists (fun k _ => hides po k = true) props).

Definition override_view (entries : list (string * option string)) (v : schema_view) : schema_view :=
  let po : gmap string (option string) := list_to_map entries in
  let props := vw_properties v in
  if bool_decide (map_Forall (fun k _ => props !! k = None) po) then v else
  mkView (map_imap (new_property po) props)
    (r ← vw_required v; none_if_empty (filter (kept po props) r))
    (if hidden_any po props then Some (ABool true) else vw_additional v) (vw_rest v).

(** The shape of the tools' input schemas: properties that hold no maps. *)
Definition flat (v : any) : bool := match v with AMap _ | AList _ => false | _ => true end.
Definition flat_map (m : gmap string any) : Prop := map_Forall (fun _ v => flat v = true) m.

Definition input_property (h : heap) (v : any) : Prop :=
  match v with AMap q => match h !! q with Some m => flat_map m | None => False end | _ => False end.
#[global] Instance flat_map_dec m : Decision (flat_map m) := _.
#[global] Instance input_property_dec h v : Decision (input_property h v).
Proof. destruct v; cbn; try apply _. destruct (h !! l); apply _. Defined.

Definition input_schema (h : heap) (l : ref) : bool :=
  match h !! l with
  | None => false
  | Some m =>
      match member_map m "properties" with
      | None => false
      | Some p =>
          match h !! p with
          | None => false
          | Some props =>
              bool_decide (flat_map (delete "properties" m)) && bool_decide (map_Forall (fun _ v => input_property h v) props) &&
              match m !! "required" with Some (AStrings _) => true | _ => false end
          end
      end
  end.

(** ** Copies *)
Lemma copy_flat n v h : flat v = true -> deepCopyValue n v h = Some (v, h).
Proof. by destruct v, n. Qed.

Lemma copy_entries_flat n l h : Forall (fun kv => flat kv.2 = true) l -> copy_entries (deepCopyValue n) l h = Some (l, h).
Proof.
  induction l as [|[k v] l IH]; [done|]. intros [Hv Hl]%Forall_cons. cbn in *.
  rewrite (copy_flat _ _ _ Hv). cbn. by rewrite (IH Hl).
Qed.

Lemma deepCopy_map n l h : deepCopyValue (S n) (AMap l) h =
  (m ← h !! l; '(kvs, h) ← copy_entries (deepCopyValue n) (map_to_list m) h; Some (AMap (length h), h ++ [list_to_map kvs])).
Proof. done. Qed.

Lemma copy_flat_map n l m h : h !! l = Some m -> flat_map m -> deepCopyValue (S n) (AMap l) h = Some (AMap (length h), h ++ [m]).
Proof.
  intros Hl Hm. cbn. rewrite Hl. cbn. rewrite copy_entries_flat.
  - cbn. by rewrite list_to_map_to_list.
  - apply Forall_forall. intros [k v] Hkv. apply elem_of_map_to_list in Hkv. by apply (Hm k v).
Qed.

(** The copies of flat maps: new references, each to the same map. *)
Definition copied (h0 h h' : heap) (kv kw : string * any) : Prop :=
  kv.1 = kw.1 /\ exists q q' m, kv.2 = AMap q /\ kw.2 = AMap q' /\ (length h <= q' < length h')%nat /\
                 h0 !! q = Some m /\ h' !! q' = Some m.

Lemma copied_mono h0 h1 h h' kv kw : (length h <= length h1)%nat -> copied h0 h1 h' kv kw -> copied h0 h h' kv kw.
Proof. intros Hle (?&q&q'&m&?&?&?&?&?). split; [done|]. exists q, q', m. split_and!; try done; lia. Qed.

Lemma copy_entries_maps n l h0 h : h0 `prefix_of` h -> Forall (fun kv => input_property h0 kv.2) l ->
  exists l' h', copy_entries (deepCopyValue (S n)) l h = Some (l', h') /\ h `prefix_of` h' /\
    Forall2 (copied h0 h h') l l' /\ NoDup l'.*2.
Proof.
  revert h. induction l as [|[k v] l IH]; intros h Hh Hl.
  { exists [], h. split_and!; try done. constructor. }
  apply Forall_cons in Hl as [Hv Hl]. cbn in Hv. destruct v as [| | | | |q]; try done. cbn in Hv.
  destruct (h0 !! q) as [m|] eqn:Hq0; [|done]. pose proof (prefix_lookup_Some _ _ _ _ Hq0 Hh) as Hq.
  destruct (IH (h ++ [m])) as (l'&h'&E&Hp&H2&Hnd); [by apply prefix_app_r|done|].
  exists ((k, AMap (length h)) :: l'), h'. cbn [copy_entries]. rewrite (copy_flat_map _ _ _ _ Hq Hv). cbn [mbind option_bind].
  rewrite E. pose proof (prefix_length _ _ Hp) as Hlen. rewrite length_app in Hlen. cbn in Hlen.
  split_and!; [done|by etrans; [apply prefix_app_r|]| |].
  - constructor.
    + split; [done|]. exists q, (length h), m. split_and!; try done; [lia|].
      eapply prefix_lookup_Some; [|done]. by apply list_lookup_middle.
    + eapply Forall2_impl; [apply H2|]. intros kv kw. apply copied_mono. rewrite length_app; lia.
  - cbn. constructor; [|done]. intros ([??]&Hr&Hin)%list_elem_of_fmap. cbn in Hr. subst.
    apply list_elem_of_lookup in Hin as [i Hi]. destruct (Forall2_lookup_r _ _ _ _ _ H2 Hi) as (?&_&_&?&q'&?&_&Heq&Hb&_).
    cbn in Heq. simplify_eq.
    rewrite length_app in Hb. cbn in Hb. lia.
Qed.

(** The copy of a schema: a new map over a new map of new properties. *)
Record copy_of (h : heap) (m props : gmap string any) (out p' : ref) (props' : gmap string any) (h' : heap) : Prop := {
  co_prefix : h `prefix_of` h';
  co_fresh : (length h <= p')%nat /\ (length h <= out)%nat /\ p' <> out;
  co_out : h' !! out = Some (<["properties" := AMap p']> m);
  co_props : h' !! p' = Some props';
  co_refs : forall k v, props' !! k = Some v -> exists q' x, v = AMap q' /\ (length h <= q')%nat /\ q' <> p' /\ q' <> out /\ h' !! q' = Some x;
  co_inj : forall k k' v, props' !! k = Some v -> props' !! k' = Some v -> k = k';
  co_same : read_props h' props' = read_props h props;
}.

Lemma copy_props n h p props : h !! p = Some props -> map_Forall (fun _ v => input_property h v) props ->
  exists l' h1, deepCopyValue (S (S n)) (AMap p) h = Some (AMap (length h1), h1 ++ [list_to_map l']) /\
    h `prefix_of` h1 /\ Forall2 (copied h h h1) (map_to_list props) l' /\ NoDup l'.*2.
Proof.
  intros Hp Hprops. destruct (copy_entries_maps n (map_to_list props) h h) as (l'&h1&E&?&?&?); [done| |].
  { apply Forall_forall. intros [k v] Hkv. apply elem_of_map_to_list in Hkv. by apply (Hprops k v). }
  exists l', h1. rewrite deepCopy_map, Hp. cbn [mbind option_bind]. by rewrite E.
Qed.

Lemma copy_entries_app f l1 l2 h : copy_entries f (l1 ++ l2) h =
  ('(r1, h) ← copy_entries f l1 h; '(r2, h) ← copy_entries f l2 h; Some (r1 ++ r2, h)).
Proof.
  revert h. induction l1 as [|[k v] l1 IH]; intros h; cbn; [by destruct (copy_entries f l2 h) as [[??]|]|].
  destruct (f v h) as [[w h1]|]; [|done]. cbn. rewrite IH. destruct (copy_entries f l1 h1) as [[? h2]|]; [|done]. cbn.
  by destruct (copy_entries f l2 h2) as [[??]|].
Qed.

Lemma copy_top n h m p p' h2 : m !! "properties" = Some (AMap p) -> flat_map (delete "properties" m) ->
  deepCopyValue n (AMap p) h = Some (AMap p', h2) ->
  exists l', copy_entries (deepCopyValue n) (map_to_list m) h = Some (l', h2) /\ list_to_map l' = <["properties" := AMap p']> m.
Proof.
  intros Hm Hflat Hcopy. assert (("properties", AMap p) ∈ map_to_list m) as Hin by by apply elem_of_map_to_list.
  apply list_elem_of_split in Hin as (l1&l2&E).
  pose proof (NoDup_fst_map_to_list m) as Hnd. rewrite E, fmap_app, fmap_cons in Hnd. cbn in Hnd.
  assert (Forall (fun kv => flat kv.2 = true) (l1 ++ l2)) as Hf.
  { apply Forall_forall. intros [k v] Hkv. apply (Hflat k). apply lookup_delete_Some. split.
    - intros <-. apply NoDup_app in Hnd as (_&Hd&[Hn _]%NoDup_cons). apply elem_of_app in Hkv as [Hkv|Hkv].
      + eapply Hd; [apply (list_elem_of_fmap_2 fst _ _ Hkv)|apply elem_of_cons; by left].
      + apply Hn. apply (list_elem_of_fmap_2 fst _ _ Hkv).
    - apply elem_of_map_to_list. rewrite E. set_solver. }
  apply Forall_app in Hf as [Hf1 Hf2]. exists (l1 ++ ("properties", AMap p') :: l2). split.
  - rewrite E, copy_entries_app, (copy_entries_flat _ _ _ Hf1). cbn. rewrite Hcopy. cbn. by rewrite (copy_entries_flat _ _ _ Hf2).
  - assert (forall v, NoDup (l1 ++ ("properties", v) :: l2).*1) as Hnd' by (intros v; by rewrite fmap_app, fmap_cons).
    assert (forall v : any, list_to_map (l1 ++ ("properties", v) :: l2) =@{gmap string any} <["properties" := v]> (list_to_map (l1 ++ l2))) as Hl.
    { intros v. rewrite <- list_to_map_cons. apply list_to_map_proper; [done|by rewrite Permutation_middle]. }
    rewrite Hl. rewrite <- (list_to_map_to_list m), E, Hl. by rewrite insert_insert_eq.
Qed.

Lemma copied_keys h0 h h' l l' : Forall2 (copied h0 h h') l l' -> l'.*1 = l.*1.
Proof. induction 1 as [|kv kw l l' (E&_) _ IH]; [done|]. rewrite !fmap_cons, IH. by rewrite E. Qed.

Lemma copied_lookup h h1 props l' k w : Forall2 (copied h h h1) (map_to_list props) l' ->
  (list_to_map l' : gmap string any) !! k = Some w -> exists v, props !! k = Some v /\ copied h h h1 (k, v) (k, w).
Proof.
  intros H2 Hk. apply elem_of_list_to_map_2, list_elem_of_lookup in Hk as [i Hi].
  destruct (Forall2_lookup_r _ _ _ _ _ H2 Hi) as ([k' v]&Hv&Hc). pose proof Hc as (E&_). cbn in E. subst k'.
  exists v. split; [|done]. apply elem_of_map_to_list, list_elem_of_lookup. eauto.
Qed.

Lemma copied_dom h h1 props l' k : Forall2 (copied h h h1) (map_to_list props) l' ->
  (list_to_map l' : gmap string any) !! k = None -> props !! k = None.
Proof.
  intros H2 Hk. apply not_elem_of_list_to_map in Hk. rewrite (copied_keys _ _ _ _ _ H2) in Hk.
  apply eq_None_not_Some. intros [v Hv]. apply Hk. apply elem_of_map_to_list in Hv. by apply (list_elem_of_fmap_2 fst) in Hv.
Qed.

Lemma deepCopy_input h base m p props : h !! base = Some m -> m !! "properties" = Some (AMap p) -> h !! p = Some props ->
  flat_map (delete "properties" m) -> map_Forall (fun _ v => input_property h v) props ->
  exists out p' props' h', deepCopySchema base h = Some (out, h') /\ copy_of h m props out p' props' h'.
Proof.
  intros Hb Hm Hp Hflat Hprops. destruct (copy_props 5 h p props Hp Hprops) as (l'&h1&E&Hpre&H2&Hnd).
  destruct (copy_top 7 h m p _ _ Hm Hflat E) as (lt&Et&Hlt).
  pose proof (prefix_length _ _ Hpre) as Hlen.
  exists (S (length h1)), (length h1), (list_to_map l'), ((h1 ++ [list_to_map l']) ++ [<["properties" := AMap (length h1)]> m]).
  assert (h1 `prefix_of` (h1 ++ [list_to_map l']) ++ [<["properties" := AMap (length h1)]> m]) as Hpre2.
  { rewrite <- app_assoc. by apply prefix_app_r. }
  split; [|constructor].
  - unfold deepCopySchema, schemaDepth. rewrite deepCopy_map, Hb. cbn [mbind option_bind]. rewrite Et. cbn [mbind option_bind].
    rewrite Hlt, length_app. cbn [length]. by rewrite Nat.add_1_r.
  - by etrans.
  - lia.
  - apply list_lookup_middle. by rewrite length_app, Nat.add_1_r.
  - rewrite <- app_assoc. by apply list_lookup_middle.
  - intros k v Hv. destruct (copied_lookup _ _ _ _ _ _ H2 Hv) as (?&_&_&?&q'&x&_&Hq&?&_&Hx). exists q', x. cbn in Hq.
    split_and!; [done|lia..|by apply (prefix_lookup_Some _ _ _ _ Hx)].
  - intros k k' v Hk Hk'. apply elem_of_list_to_map_2, list_elem_of_lookup in Hk as [i Hi], Hk' as [j Hj].
    assert (l'.*2 !! i = Some v) as Hi2 by by rewrite list_lookup_fmap, Hi.
    assert (l'.*2 !! j = Some v) as Hj2 by by rewrite list_lookup_fmap, Hj.
    pose proof (NoDup_lookup _ _ _ _ Hnd Hi2 Hj2). subst. rewrite Hi in Hj. by simplify_eq.
  - apply map_eq. intros k. rewrite !lookup_read_props. destruct (list_to_map l' !! k) as [w|] eqn:Ek.
    + destruct (copied_lookup _ _ _ _ _ _ H2 Ek) as (v&->&_&q&q'&x&Eq&Eq'&_&Hx&Hx'). cbn in Eq, Eq'. subst v w. cbn.
      rewrite Hx. by apply (prefix_lookup_Some _ _ _ _ Hx').
    + by rewrite (copied_dom _ _ _ _ _ H2 Ek).
Qed.

Lemma prefix_insert {A} (h h' : list A) l x : h `prefix_of` h' -> (length h <= l)%nat -> h `prefix_of` <[l := x]> h'.
Proof. intros [k ->] Hl. rewrite insert_app_r_alt by done. by apply prefix_app_r. Qed.

Lemma filter_absent (x : string) (l : list string) : x ∉ l -> filter (fun r => r <> x) l = l.
Proof.
  induction l as [|y l IH]; [done|]. intros [Hx Hl]%not_elem_of_cons. rewrite filter_cons_True by done. by rewrite IH.
Qed.

(** ** The loop *)

(** What the loop does to the properties, the required names and the flag. *)
Definition plain_state : Type := gmap string (gmap string any) * list string * bool.
Definition plain_step (st : plain_state) (entry : string * option string) : plain_state :=
  let '(props, required, hiddenAny) := st in
  match entry.2, props !! entry.1 with
  | Some val, Some p =>
      if bool_decide (val = "") then (delete entry.1 props, filter (fun r => r <> entry.1) required, true)
      else (<[entry.1 := <["description" := AString val]> p]> props, required, hiddenAny)
  | _, _ => st
  end.

Section loop.
  Context (h : heap) (m : gmap string any) (out p' : ref).

  (** The state of the loop and the plain state it stands for. *)
Record stands_for (st : override_state) (ps : plain_state) : Prop := {
    sf_old : h `prefix_of` os_heap st;
    sf_fresh : (length h <= p')%nat /\ (length h <= out)%nat /\ p' <> out;
    sf_out : os_heap st !! out = Some m;
    sf_props : exists props', os_heap st !! p' = Some props' /\
      (forall k v, props' !! k = Some v -> exists q' x, v = AMap q' /\ (length h <= q')%nat /\ q' <> p' /\ q' <> out /\ os_heap st !! q' = Some x) /\
      (forall k k' v, props' !! k = Some v -> props' !! k' = Some v -> k = k') /\
      read_props (os_heap st) props' = ps.1.1;
    sf_required : os_required st = ps.1.2;
    sf_hidden : os_hiddenAny st = ps.2 }.

Lemma stands_hide st props required hiddenAny k pr v : stands_for st (props, required, hiddenAny) ->
    os_heap st !! p' = Some pr -> pr !! k = Some v ->
    stands_for (mkOverrideState (<[p' := delete k pr]> (os_heap st))
                  (if bool_decide (k ∈ os_required st) then filter (fun r => r <> k) (os_required st) else os_required st) true)
      (delete k props, filter (fun r => r <> k) required, true).
  Proof.
    intros [Hold (Hf1&Hf2&Hf3) Hout (pr0&Hpr0&Hrefs&Hinj&Hview) Hreq Hhid] Hpr Hk. assert (pr0 = pr) as -> by congruence.
    pose proof (lookup_lt_Some _ _ _ Hpr) as Hlt. split; cbn in *; [by apply prefix_insert|done|by rewrite list_lookup_insert_ne| | |done].
    - exists (delete k pr). split; [by apply list_lookup_insert_eq|]. split_and!.
      + intros k' w [? Hw]%lookup_delete_Some. destruct (Hrefs _ _ Hw) as (q&x&?&?&?&?&?). exists q, x.
        split_and!; try done. by rewrite list_lookup_insert_ne.
      + intros k1 k2 w [_ H1]%lookup_delete_Some [_ H2]%lookup_delete_Some. by apply (Hinj k1 k2 w).
      + rewrite <- Hview. apply map_eq. intros k'. rewrite lookup_read_props. destruct (decide (k' = k)) as [->|Hne].
        { by rewrite !lookup_delete_eq. }
        rewrite !lookup_delete_ne, lookup_read_props by done. destruct (pr !! k') as [w|] eqn:Hw; [|done].
        destruct (Hrefs _ _ Hw) as (q&x&->&?&?&?&?). cbn. by rewrite list_lookup_insert_ne.
    - subst. case_bool_decide; [done|]. symmetry. by apply filter_absent.
  Qed.

Lemma stands_describe st props required hiddenAny k pr q x val : stands_for st (props, required, hiddenAny) ->
    os_heap st !! p' = Some pr -> pr !! k = Some (AMap q) -> os_heap st !! q = Some x ->
    stands_for (mkOverrideState (<[q := <["description" := AString val]> x]> (os_heap st)) (os_required st) (os_hiddenAny st))
      (<[k := <["description" := AString val]> x]> props, required, hiddenAny).
  Proof.
    intros [Hold Hf Hout (pr0&Hpr0&Hrefs&Hinj&Hview) Hreq Hhid] Hpr Hk Hx. assert (pr0 = pr) as -> by congruence.
    destruct (Hrefs _ _ Hk) as (q0&?&[= <-]&Hq1&Hq2&Hq3&_). pose proof (lookup_lt_Some _ _ _ Hx) as Hlt.
    split; cbn in *; [by apply prefix_insert|done|by rewrite list_lookup_insert_ne| |done|done].
    exists pr. split; [by rewrite list_lookup_insert_ne|]. split_and!; [|done|].
    - intros k' w Hw. destruct (Hrefs _ _ Hw) as (q'&x'&->&?&?&?&Hq'). exists q'. destruct (decide (q' = q)) as [->|Hne].
      + eexists. split_and!; try done. by apply list_lookup_insert_eq.
      + exists x'. split_and!; try done. by rewrite list_lookup_insert_ne.
    - rewrite <- Hview. apply map_eq. intros k'. rewrite lookup_read_props. destruct (decide (k' = k)) as [->|Hne].
      { rewrite Hk, lookup_insert_eq. cbn. by apply list_lookup_insert_eq. }
      rewrite lookup_insert_ne, lookup_read_props by done. destruct (pr !! k') as [w|] eqn:Hw; [|done].
      destruct (Hrefs _ _ Hw) as (q'&x'&->&?&?&?&Hq'). cbn. rewrite list_lookup_insert_ne; [done|].
      intros <-. apply Hne. by apply (Hinj _ _ (AMap q)).
  Qed.

Lemma override_param_stands st ps e : stands_for st ps -> stands_for (override_param (Some p') st e) (plain_step ps e).
  Proof.
    destruct e as [k [val|]], ps as [[props required] hid]; [|done]. intros Hst.
    pose proof Hst as [_ _ _ (pr&Hpr&Hrefs&_&Hview) _ _]. cbn in Hview. cbn [override_param plain_step fst snd].
    rewrite Hpr. cbn [default from_option id]. rewrite <- Hview, lookup_read_props. destruct (pr !! k) as [v|] eqn:Hk; [|by rewrite Hview].
    destruct (Hrefs _ _ Hk) as (q&x&->&_&_&_&Hx). cbn [ref_of mbind option_bind]. rewrite Hx. cbn [default from_option id].
    rewrite Hview. case_bool_decide; [by eapply stands_hide|by eapply stands_describe].
  Qed.

Lemma override_loop_stands l st ps : stands_for st ps ->
    stands_for (foldl (override_param (Some p')) st l) (foldl plain_step ps l).
  Proof. revert st ps. induction l as [|e l IH]; [done|]. intros st ps H. by apply IH, override_param_stands. Qed.
End loop.

(** ** The loop at once *)
Section closed_form.
  Context (k : string) (val : option string) (po : gmap string (option string)) (props : gmap string (gmap string any)).
  Hypothesis (Hk : po !! k = None).

Lemma hides_insert_ne x : x <> k -> hides (<[k := val]> po) x = hides po x.
  Proof. intros. unfold hides. by rewrite lookup_insert_ne. Qed.
Lemma hides_absent : hides po k = false.
  Proof. unfold hides. by rewrite Hk. Qed.
Lemma hides_insert_eq : hides (<[k := val]> po) k = bool_decide (val = Some "").
  Proof. unfold hides. rewrite lookup_insert_eq. apply bool_decide_ext. naive_solver. Qed.

Lemma new_property_ne x : x <> k -> new_property (<[k := val]> po) x = new_property po x.
  Proof. intros. unfold new_property. by rewrite lookup_insert_ne. Qed.

  (** An entry that hides nothing. *)
Lemma entry_keeps : val <> Some "" \/ props !! k = None ->
    (forall r, kept (<[k := val]> po) props r <-> kept po props r) /\
    hidden_any (<[k := val]> po) props = hidden_any po props.
  Proof.
    intros Hv. assert (forall r, is_Some (props !! r) -> hides (<[k := val]> po) r = hides po r) as Hh.
    { intros r [p Hr]. destruct (decide (r = k)) as [->|]; [|by apply hides_insert_ne].
      rewrite hides_insert_eq, hides_absent. apply bool_decide_false. destruct Hv; congruence. }
    split.
    - intros r. unfold kept. destruct (props !! r) eqn:Hr; [rewrite Hh by eauto; done|naive_solver].
    - unfold hidden_any. apply bool_decide_ext. split; intros (r&p&Hr&Hx); exists r, p; (split; [done|]);
        [rewrite <- Hh by eauto|rewrite Hh by eauto]; done.
  Qed.

Lemma imap_no_override : val = None \/ props !! k = None ->
    map_imap (new_property (<[k := val]> po)) props = map_imap (new_property po) props.
  Proof.
    intros Hv. apply map_eq. intros x. rewrite !map_lookup_imap. destruct (decide (x = k)) as [->|Hx].
    - destruct (props !! k) as [p|] eqn:Hp; [|done]. cbn. unfold new_property. rewrite Hk, lookup_insert_eq.
      by destruct Hv as [->|?].
    - by rewrite new_property_ne.
  Qed.

Lemma imap_describe p d : props !! k = Some p -> val = Some d -> d <> "" ->
    map_imap (new_property po) (<[k := <["description" := AString d]> p]> props) = map_imap (new_property (<[k := val]> po)) props.
  Proof.
    intros Hp -> Hd. apply map_eq. intros x. rewrite !map_lookup_imap. destruct (decide (x = k)) as [->|Hx].
    - rewrite lookup_insert_eq, Hp. cbn. unfold new_property. rewrite Hk, lookup_insert_eq. by rewrite bool_decide_false.
    - rewrite lookup_insert_ne by done. f_equal. unfold new_property. by rewrite lookup_insert_ne.
  Qed.

Lemma imap_hide p : props !! k = Some p -> val = Some "" ->
    map_imap (new_property po) (delete k props) = map_imap (new_property (<[k := val]> po)) props.
  Proof.
    intros Hp ->. apply map_eq. intros x. rewrite !map_lookup_imap. destruct (decide (x = k)) as [->|Hx].
    - rewrite lookup_delete_eq, Hp. cbn. unfold new_property. by rewrite lookup_insert_eq.
    - rewrite lookup_delete_ne by done. f_equal. unfold new_property. by rewrite lookup_insert_ne.
  Qed.

Lemma kept_hide r : val = Some "" -> is_Some (props !! k) ->
    kept po (delete k props) r /\ r <> k <-> kept (<[k := val]> po) props r.
  Proof.
    intros Hv [p Hp]. unfold kept. destruct (decide (r = k)) as [->|Hr].
    - rewrite hides_insert_eq, (bool_decide_true _ Hv). rewrite Hp. naive_solver.
    - rewrite hides_insert_ne, lookup_delete_ne by done. naive_solver.
  Qed.

Lemma hidden_hide : val = Some "" -> is_Some (props !! k) -> hidden_any (<[k := val]> po) props = true.
  Proof. intros Hv [p Hp]. apply bool_decide_true. exists k, p. split; [done|]. by rewrite hides_insert_eq, Hv. Qed.
End closed_form.

Lemma same_names po (props props' : gmap string (gmap string any)) : (forall r, is_Some (props !! r) <-> is_Some (props' !! r)) ->
  (forall r, kept po props r <-> kept po props' r) /\ hidden_any po props = hidden_any po props'.
Proof.
  intros Hs. split.
  - intros r. unfold kept. by rewrite !eq_None_not_Some, Hs.
  - unfold hidden_any. apply bool_decide_ext. split; intros (r&p&Hr&Hx);
      (assert (is_Some (props !! r) /\ is_Some (props' !! r)) as [[x Hxx] [y Hy]] by (rewrite Hs, Hr || rewrite <- Hs, Hr; eauto));
      [exists r, y|exists r, x]; done.
Qed.

Lemma insert_same_names k (p : gmap string any) (props : gmap string (gmap string any)) : is_Some (props !! k) ->
  forall r, is_Some (<[k := p]> props !! r) <-> is_Some (props !! r).
Proof. intros Hk r. rewrite lookup_insert. case_decide; subst; naive_solver. Qed.

Lemma plain_loop l props required hid : NoDup l.*1 ->
  let po : gmap string (option string) := list_to_map l in
  foldl plain_step (props, required, hid) l =
  (map_imap (new_property po) props, filter (kept po props) required, hid || hidden_any po props).
Proof.
  revert props required hid. induction l as [|[k val] l IH]; intros props required hid Hnd; cbn.
  { unfold hidden_any. rewrite bool_decide_false, orb_false_r by (intros (?&?&_&Hh); done). repeat f_equal.
    - apply map_eq. intros x. rewrite map_lookup_imap. by destruct (props !! x).
    - induction required as [|r required IHr]; [done|]. rewrite filter_cons_True by (left; done). by f_equal. }
  apply NoDup_cons in Hnd as [Hk Hnd]. apply not_elem_of_list_to_map in Hk. cbn in Hk.
  destruct val as [val|]; [destruct (props !! k) as [p|] eqn:Hp; [case_bool_decide as Hv|]|]; rewrite IH by done.
  - subst. rewrite (imap_hide k (Some "") _ props p Hp eq_refl), list_filter_filter, hidden_hide, orb_true_r by eauto.
    f_equal. f_equal. apply list_filter_iff. intros r. apply kept_hide; eauto.
  - assert (Some val <> Some "" \/ props !! k = None) as Hne by (left; congruence).
    destruct (entry_keeps k (Some val) _ props Hk Hne) as [Hr ->].
    rewrite (imap_describe k (Some val) _ props Hk p val Hp eq_refl Hv).
    destruct (same_names (list_to_map l) _ props (insert_same_names k (<["description" := AString val]> p) props (ex_intro _ p Hp))) as [Hs ->].
    f_equal. f_equal. apply list_filter_iff. intros r. by rewrite Hs, Hr.
  - destruct (entry_keeps k (Some val) _ props Hk (or_intror Hp)) as [Hr ->]. rewrite (imap_no_override k (Some val)) by auto.
    f_equal. f_equal. apply list_filter_iff. intros r. by rewrite Hr.
  - destruct (entry_keeps k None _ props Hk) as [Hr ->]; [by left|]. rewrite (imap_no_override k None) by auto.
    f_equal. f_equal. apply list_filter_iff. intros r. by rewrite Hr.
Qed.

(** ** The whole operation *)
Lemma input_schema_inv h base : input_schema h base = true -> exists m p props required,
  h !! base = Some m /\ m !! "properties" = Some (AMap p) /\ h !! p = Some props /\ flat_map (delete "properties" m) /\
  map_Forall (fun _ v => input_property h v) props /\ m !! "required" = Some (AStrings required).
Proof.
  unfold input_schema, member_map. intros H. destruct (h !! base) as [m|]; [|done].
  destruct (m !! "properties") as [[]|] eqn:Ep; try done. destruct (h !! l) as [props|] eqn:El; [|done].
  apply andb_true_iff in H as [[H1%bool_decide_eq_true H2%bool_decide_eq_true]%andb_true_iff H3].
  destruct (m !! "required") as [[]|] eqn:Er; try done. exists m, l, props. eauto 10.
Qed.

Lemma read_props_None h props k :
  map_Forall (fun _ v => input_property h v) props ->
  read_props h props !! k = None <-> props !! k = None.
Proof.
  intros Hprops. rewrite lookup_read_props. destruct (props !! k) as [v|] eqn:Hk; [|done]. cbn.
  specialize (Hprops _ _ Hk). destruct v; try done. cbn in *. by destruct (h !! l).
Qed.

Lemma hit_iff (props : gmap string any) (view : gmap string (gmap string any)) (l : list (string * option string)) :
  NoDup l.*1 -> (forall k, view !! k = None <-> props !! k = None) ->
  negb (existsb (fun e => bool_decide (is_Some (props !! e.1))) l) =
  bool_decide (map_Forall (fun k _ => view !! k = None) (list_to_map l : gmap string (option string))).
Proof.
  intros Hnd Hv. apply eq_bool_prop_intro. rewrite negb_True, bool_decide_spec. split.
  - intros Hn k v Hk. apply elem_of_list_to_map_2 in Hk. apply Hv, eq_None_not_Some. intros Hs. apply Hn.
    apply Is_true_true, existsb_exists. exists (k, v). split; [by apply list_elem_of_In|]. by apply bool_decide_eq_true.
  - intros Hall Hx. apply Is_true_true, existsb_exists in Hx as ([k v]&Hin&Hs%bool_decide_eq_true). apply list_elem_of_In in Hin.
    apply (elem_of_list_to_map_1 _ _ _ Hnd), Hall, Hv in Hin. cbn in Hs. rewrite Hin in Hs. by destruct Hs.
Qed.

Lemma copy_stands h m props out p' props' h' required : copy_of h m props out p' props' h' ->
  stands_for h (<["properties" := AMap p']> m) out p' (mkOverrideState h' required false) (read_props h props, required, false).
Proof. intros []. split; try done. exists props'. by split_and!. Qed.

Definition named (k : string) : bool := bool_decide (k ∈ ["properties"; "required"; "additionalProperties"]).

Lemma rest_lookup m k : rest_members m !! k = if named k then None else m !! k.
Proof.
  unfold rest_members, named. rewrite !lookup_delete. case_bool_decide as Hk.
  - set_unfold. repeat case_decide; naive_solver.
  - set_unfold. repeat case_decide; naive_solver.
Qed.

Lemma rest_insert m k v : named k = true -> rest_members (<[k := v]> m) = rest_members m.
Proof.
  intros Hk. apply map_eq. intros x. rewrite !rest_lookup. destruct (named x) eqn:Hx; [done|].
  apply lookup_insert_ne. intros ->. congruence.
Qed.

Lemma rest_delete m k : named k = true -> rest_members (delete k m) = rest_members m.
Proof.
  intros Hk. apply map_eq. intros x. rewrite !rest_lookup. destruct (named x) eqn:Hx; [done|].
  apply lookup_delete_ne. intros ->. congruence.
Qed.

Lemma write_back_spec m required r hid : m !! "required" = Some (AStrings required) ->
  let m' := write_back m r hid in
  m' !! "properties" = m !! "properties" /\ m' !! "required" ≫= strings_of = none_if_empty r /\
  m' !! "additionalProperties" = (if hid then Some (ABool true) else m !! "additionalProperties") /\ rest_members m' = rest_members m.
Proof.
  intros Hm. cbn zeta. unfold write_back, none_if_empty. rewrite Hm, (bool_decide_true (is_Some _)) by eauto.
  case_bool_decide; destruct hid; split_and!;
    repeat first [rewrite lookup_insert_ne by done | rewrite lookup_delete_ne by done | rewrite lookup_insert_eq | rewrite lookup_delete_eq
                 | rewrite rest_insert by done | rewrite rest_delete by done]; done.
Qed.

(** A schema whose properties are all in the store. *)
Definition closed (h : heap) (l : ref) : Prop :=
  exists m p props, h !! l = Some m /\ m !! "properties" = Some (AMap p) /\ h !! p = Some props /\
    map_Forall (fun _ v => exists q x, v = AMap q /\ h !! q = Some x) props.

Lemma closed_prefix h h' l : h `prefix_of` h' -> closed h l -> closed h' l /\ view h' l = view h l.
Proof.
  intros Hp (m&p&props&Hl&Hm&Hprops&Hall).
  pose proof (prefix_lookup_Some _ _ _ _ Hl Hp) as Hl'. pose proof (prefix_lookup_Some _ _ _ _ Hprops Hp) as Hprops'. split.
  - exists m, p, props. split_and!; try done. intros k v Hk. destruct (Hall k v Hk) as (q&x&->&Hq). exists q, x.
    split; [done|]. by apply (prefix_lookup_Some _ _ _ _ Hq).
  - unfold view, member_map. rewrite Hl, Hl'. cbn [mbind option_bind]. rewrite Hm. cbn [mbind option_bind]. rewrite Hprops, Hprops'.
    cbn [mbind option_bind]. do 2 f_equal. apply map_eq. intros k. rewrite !lookup_read_props. destruct (props !! k) as [v|] eqn:Hk; [|done].
    destruct (Hall k v Hk) as (q&x&->&Hq). cbn. by rewrite Hq, (prefix_lookup_Some _ _ _ _ Hq Hp).
Qed.

Lemma input_schema_closed h l : input_schema h l = true -> closed h l.
Proof.
  intros (m&p&props&_&Hl&Hm&Hprops&_&Hall&_)%input_schema_inv. exists m, p, props. split_and!; try done.
  intros k v Hk. specialize (Hall k v Hk). destruct v; try done. cbn in Hall. destruct (h !! l0) eqn:E; [|done]. eauto.
Qed.

Lemma input_schema_prefix h h' l : h `prefix_of` h' -> input_schema h l = true -> input_schema h' l = true.
Proof.
  intros Hp (m&p&props&required&Hl&Hm&Hprops&Hflat&Hall&Hreq)%input_schema_inv.
  unfold input_schema, member_map. rewrite (prefix_lookup_Some _ _ _ _ Hl Hp), Hm, (prefix_lookup_Some _ _ _ _ Hprops Hp), Hreq, andb_true_r.
  apply andb_true_iff. split; apply bool_decide_eq_true; [done|]. intros k v Hk. specialize (Hall k v Hk).
  destruct v; try done. cbn in *. destruct (h !! l0) eqn:E; [|done]. by rewrite (prefix_lookup_Some _ _ _ _ E Hp).
Qed.

Lemma final_closed h m out p' st ps required r hid :
  stands_for h m out p' st ps -> m !! "properties" = Some (AMap p') -> m !! "required" = Some (AStrings required) ->
  closed (<[out := write_back m r hid]> (os_heap st)) out.
Proof.
  intros [Hold (Hf1&Hf2&Hf3) Hout (pr&Hpr&Hrefs&_&Hview) _ _] Hp Hm. destruct (write_back_spec m required r hid Hm) as (W1&_).
  exists (write_back m r hid), p', pr. split_and!; [by apply list_lookup_insert_eq; eapply lookup_lt_Some|by rewrite W1|by rewrite list_lookup_insert_ne|].
  intros k v Hk. destruct (Hrefs _ _ Hk) as (q&x&->&_&_&Hq&Hx). exists q, x. split; [done|]. by rewrite list_lookup_insert_ne.
Qed.

Lemma final_view h m out p' st ps required r hid :
  stands_for h m out p' st ps -> m !! "properties" = Some (AMap p') -> m !! "required" = Some (AStrings required) ->
  view (<[out := write_back m r hid]> (os_heap st)) out =
  Some (mkView ps.1.1 (none_if_empty r) (if hid then Some (ABool true) else m !! "additionalProperties") (rest_members m)).
Proof.
  intros [Hold (Hf1&Hf2&Hf3) Hout (pr&Hpr&Hrefs&_&Hview) _ _] Hp Hm. destruct (write_back_spec m required r hid Hm) as (W1&W2&W3&W4).
  unfold view, member_map. rewrite list_lookup_insert_eq by by eapply lookup_lt_Some. cbn [mbind option_bind].
  rewrite W1, Hp. cbn [mbind option_bind]. rewrite list_lookup_insert_ne, Hpr by done. cbn [mbind option_bind].
  rewrite W2, W3, W4, <- Hview. do 2 f_equal. apply map_eq. intros k. rewrite !lookup_read_props.
  destruct (pr !! k) as [v|] eqn:Hk; [|done]. destruct (Hrefs _ _ Hk) as (q&x&->&_&_&Hq&_). cbn. by rewrite list_lookup_insert_ne.
Qed.

Lemma override_refines h base po : input_schema h base = true -> NoDup po.*1 ->
  exists out h', applyInputSchemaOverride base po h = Some (out, h') /\ h `prefix_of` h' /\
    view h' out = override_view po <$> view h base /\ closed h' out.
Proof.
  intros Hin. pose proof (input_schema_closed _ _ Hin) as Hcl. revert Hin. intros (m&p&props&required&Hb&Hm&Hp&Hflat&Hprops&Hreq)%input_schema_inv Hnd.
  assert (view h base = Some (mkView (read_props h props) (Some required) (m !! "additionalProperties") (rest_members m))) as Hview.
  { unfold view, member_map. rewrite Hb. cbn [mbind option_bind]. rewrite Hm. cbn [mbind option_bind]. rewrite Hp. cbn [mbind option_bind].
    by rewrite Hreq. }
  pose proof (hit_iff props (read_props h props) po Hnd (fun k => read_props_None h props k Hprops)) as Hhit.
  rewrite Hview. cbn [fmap option_fmap option_map]. unfold applyInputSchemaOverride, override_view. cbn [vw_properties vw_required vw_additional vw_rest].
  destruct (decide (po = [])) as [->|Hpo].
  { rewrite (bool_decide_true ([] = [])) by done. exists base, h. by split_and!. }
  rewrite (bool_decide_false _ Hpo).
  assert (member_map m "properties" = Some p) as Hmm by (unfold member_map; by rewrite Hm).
  rewrite Hb. cbn [mbind option_bind]. rewrite Hmm, Hp. cbn [default from_option id]. rewrite Hhit.
  case_bool_decide; [by exists base, h|].
  destruct (deepCopy_input h base m p props) as (out&p'&props'&h'&E&Hc); [done..|]. rewrite E. cbn [mbind option_bind].
  rewrite (co_out _ _ _ _ _ _ _ Hc). cbn [mbind option_bind]. unfold member_map, member_strings.
  rewrite lookup_insert_eq, lookup_insert_ne, Hreq by done.
  pose proof (override_loop_stands _ _ _ _ po _ _ (copy_stands _ _ _ _ _ _ _ required Hc)) as Hst.
  set (st := foldl (override_param (Some p')) _ po) in *. rewrite (plain_loop po) in Hst by done.
  rewrite (sf_out _ _ _ _ _ _ Hst). cbn [mbind option_bind]. eexists _, _. split; [done|]. split; [|split].
  { apply prefix_insert; [apply (sf_old _ _ _ _ _ _ Hst)|apply (sf_fresh _ _ _ _ _ _ Hst)]. }
  2: { eapply (final_closed _ _ _ _ _ _ required _ _ Hst); [by rewrite lookup_insert_eq|by rewrite lookup_insert_ne]. }
  erewrite (final_view _ _ _ _ _ _ required _ _ Hst); [|by rewrite lookup_insert_eq|by rewrite lookup_insert_ne].
  rewrite (sf_required _ _ _ _ _ _ Hst), (sf_hidden _ _ _ _ _ _ Hst), lookup_insert_ne by done. cbn. do 2 f_equal.
  by apply rest_insert.
Qed.

End McpSchemaProps.

Import McpSchemaProps.

Module McpProps.

(** ** Names *)

(** A name stands for one tool, and a built-in name for its own. *)
Definition names_ok (names : gmap string string) : Prop :=
  forall name capability, names !! name = Some capability -> name ∈ builtinDefaultNames -> name = capability.

Lemma owned_by_other_false names name c : owned_by_other names name c = false <-> names !! name = None \/ names !! name = Some c.
Proof.
  unfold owned_by_other. destruct (names !! name) as [o|] eqn:E; [|naive_solver].
  rewrite negb_false_iff, bool_decide_eq_true. naive_solver.
Qed.

Lemma default_name names c : names_ok names -> c ∈ builtinDefaultNames -> owned_by_other names c c = false.
Proof.
  intros Hok Hc. apply owned_by_other_false. destruct (names !! c) as [o|] eqn:E; [|by left]. right. f_equal. symmetry. by apply Hok.
Qed.

Lemma resolve_exposed names c override : names_ok names -> c ∈ builtinDefaultNames ->
  exists name, resolveExposedName names c c override = Some (name, <[name := c]> names) /\
    (names !! name = None \/ names !! name = Some c) /\ (name ∈ builtinDefaultNames -> name = c) /\
    (name = c \/ name = applyToolNameOverride c override).
Proof.
  intros Hok Hc. pose proof (default_name _ _ Hok Hc) as Hd. unfold resolveExposedName.
  set (final := applyToolNameOverride c override).
  destruct (decide (final = c)) as [E|E]; [rewrite (bool_decide_true (final = c)) by done; rewrite E, Hd; exists c; split_and!; auto; by apply owned_by_other_false|].
  rewrite (bool_decide_false (final = c)) by done. unfold defaultNameToCap. case_bool_decide as Hb.
  - rewrite bool_decide_false by done. cbn [negb]. rewrite Hd. exists c. split_and!; auto. by apply owned_by_other_false.
  - destruct (owned_by_other names final c) eqn:Ho; [rewrite Hd; exists c; split_and!; auto; by apply owned_by_other_false|].
    rewrite Ho. exists final. split_and!; auto; [by apply owned_by_other_false|done].
Qed.

(** ** Registration *)
Lemma param_entries_NoDup m : NoDup (param_entries m).*1.
Proof. unfold param_entries. rewrite <- list_fmap_compose. apply NoDup_fst_map_to_list. Qed.

(** What a registered tool owes to its specification and the overrides. *)
Definition registered (h0 h : heap) (overrides : gmap string ConsoleConfig.MCPToolOverride) (spec : tool_spec) (ct : string * tool) : Prop :=
  let o := resolveOverride overrides (sp_capability spec) in
  ct.1 = sp_capability spec /\
  (tl_Name ct.2 = sp_capability spec \/ tl_Name ct.2 = applyToolNameOverride (sp_capability spec) (ConsoleConfig.ov_Name o)) /\
  tl_Title ct.2 = applyToolTitleOverride (sp_title spec) (ConsoleConfig.ov_Title o) /\
  tl_Description ct.2 = applyToolDescriptionOverride (sp_description spec) (ConsoleConfig.ov_Description o) /\
  tl_OutputSchema ct.2 = sp_output spec /\
  view h (tl_InputSchema ct.2) = override_view (param_entries (ConsoleConfig.ov_ParamDescriptions o)) <$> view h0 (sp_input spec) /\
  closed h (tl_InputSchema ct.2).

(** The state of the registration after the tools of [specs]. *)
Record registering (h0 : heap) (overrides : gmap string ConsoleConfig.MCPToolOverride) (specs : list tool_spec) (sv : server) : Prop := {
  rg_heap : h0 `prefix_of` sv_heap sv;
  rg_tools : Forall2 (registered h0 (sv_heap sv) overrides) specs (sv_tools sv);
  rg_distinct : NoDup (tl_Name <$> (sv_tools sv).*2);
  rg_names : forall name c, sv_names sv !! name = Some c <-> exists t, (c, t) ∈ sv_tools sv /\ tl_Name t = name;
  rg_ok : names_ok (sv_names sv) }.

Lemma registered_prefix h0 h h' overrides spec ct : h `prefix_of` h' ->
  registered h0 h overrides spec ct -> registered h0 h' overrides spec ct.
Proof. intros Hp (?&?&?&?&?&Hv&Hc). destruct (closed_prefix _ _ _ Hp Hc) as [? E]. split_and!; try done. by rewrite E. Qed.

Definition spec_ok (h0 : heap) (spec : tool_spec) : Prop :=
  input_schema h0 (sp_input spec) = true /\ sp_capability spec ∈ builtinDefaultNames.

Lemma add_tool_registers h0 overrides specs sv spec : registering h0 overrides specs sv -> spec_ok h0 spec ->
  sp_capability spec ∉ sp_capability <$> specs ->
  exists sv', add_tool overrides sv spec = Some sv' /\ registering h0 overrides (specs ++ [spec]) sv'.
Proof.
  intros [Hh Ht Hd Hn Hok] [Hin Hcap] Hnew. set (o := resolveOverride overrides (sp_capability spec)).
  destruct (resolve_exposed (sv_names sv) _ (ConsoleConfig.ov_Name o) Hok Hcap) as (name&En&Hfree&Hbuiltin&Hname).
  destruct (override_refines (sv_heap sv) (sp_input spec) (param_entries (ConsoleConfig.ov_ParamDescriptions o)))
    as (input&h'&Ei&Hp&Hv&Hc); [by eapply input_schema_prefix|apply param_entries_NoDup|].
  destruct (closed_prefix _ _ _ Hh (input_schema_closed _ _ Hin)) as [_ Hbase].
  assert (Forall (fun ct => ct.1 <> sp_capability spec) (sv_tools sv)) as Hcaps.
  { apply Forall_forall. intros ct Hct E. apply list_elem_of_lookup in Hct as [i Hi].
    destruct (Forall2_lookup_r _ _ _ _ _ Ht Hi) as (sp&Hsp&Hr&_). apply Hnew. rewrite <- E, Hr. apply list_elem_of_fmap_2.
    apply list_elem_of_lookup. eauto. }
  assert (sv_names sv !! name = None) as Hnone.
  { destruct Hfree as [?|Hf]; [done|]. apply Hn in Hf as (t&Hin'&_). eapply Forall_forall in Hcaps; [|done]. done. }
  unfold add_tool. fold o. rewrite En. cbn [mbind option_bind]. rewrite Ei. cbn [mbind option_bind].
  destruct (sp_hints spec) as [[[??]?]?] eqn:Eh. eexists. split; [done|]. split; cbn [sv_heap sv_tools sv_names].
  - by etrans.
  - apply Forall2_app.
    + eapply Forall2_impl; [exact Ht|]. intros sp ct. by apply registered_prefix.
    + constructor; [|done]. split_and!; try done. cbn. by rewrite Hv, Hbase.
  - rewrite !fmap_app. apply NoDup_app. split_and!; [done| |apply NoDup_singleton].
    intros n (t&->&(ct&->&Hct)%list_elem_of_fmap)%list_elem_of_fmap. cbn. rewrite list_elem_of_singleton. intros E.
    assert (sv_names sv !! name = Some ct.1) as E'; [|congruence]. apply Hn. exists ct.2. by destruct ct.
  - intros n c. rewrite lookup_insert. case_decide as E.
    + subst n. split; [intros [= <-]; eexists; split; [apply elem_of_app; right; by apply list_elem_of_singleton|done]|].
      intros (t&[Hold|[= -> ->]%list_elem_of_singleton]%elem_of_app&Et); [|done].
      assert (sv_names sv !! name = Some c) by (apply Hn; eauto). congruence.
    + rewrite Hn. split; intros (t&Hct&Et); exists t; (split; [|done]); [apply elem_of_app; by left|].
      apply elem_of_app in Hct as [?|[= -> ->]%list_elem_of_singleton]; done.
  - intros n c. rewrite lookup_insert. case_decide as E; [intros [= <-]; subst; auto|apply Hok].
Qed.

Lemma add_tools_register h0 overrides specs done sv : registering h0 overrides done sv -> Forall (spec_ok h0) specs ->
  NoDup (sp_capability <$> done ++ specs) ->
  exists sv', add_tools overrides sv specs = Some sv' /\ registering h0 overrides (done ++ specs) sv'.
Proof.
  revert done sv. induction specs as [|spec specs IH]; intros done sv Hr Hs Hnd.
  { exists sv. by rewrite app_nil_r. }
  apply Forall_cons in Hs as [Hspec Hs]. destruct (add_tool_registers _ _ _ _ spec Hr Hspec) as (sv1&E1&Hr1).
  { rewrite fmap_app, fmap_cons in Hnd. apply NoDup_app in Hnd as (_&Hd&_). intros Hin. eapply Hd; [done|]. set_solver. }
  cbn [add_tools]. rewrite E1. cbn [mbind option_bind]. rewrite cons_middle, app_assoc in Hnd |- *. by apply IH.
Qed.

(** ** The server *)
Lemma alloc_export schema h : exists output h', alloc (exportFileOutputSchemaForMode schema) h = (AMap output, h') /\ h `prefix_of` h'.
Proof.
  unfold exportFileOutputSchemaForMode. repeat case_bool_decide; cbn; eexists _, _; (split; [reflexivity|]);
    repeat apply prefix_app_r; done.
Qed.

Lemma package_schemas : forallb (fun i => input_schema package_heap (schema_ref i)) [0; 2; 4; 6; 8; 9]%nat = true.
Proof. vm_compute. reflexivity. Qed.

#[local] Opaque package_heap package_refs schema_ref.

(** A specification is of a built-in tool and its schema is one of the package. *)
Definition built_in (spec : tool_spec) : Prop :=
  exists i, sp_input spec = schema_ref i /\ i ∈ [0; 2; 4; 6; 8; 9]%nat /\ sp_capability spec ∈ builtinDefaultNames.

Lemma specs_built_in x : Forall built_in (server_specs x).1.
Proof.
  assert (Forall built_in [echo_spec; python_spec; terminal_spec; computer_spec; image_spec]) as Hbase.
  { apply Forall_forall. intros spec Hspec.
    repeat apply elem_of_cons in Hspec as [->|Hspec]; [exists 0%nat|exists 2%nat|exists 4%nat|exists 6%nat|exists 8%nat|by apply not_elem_of_nil in Hspec];
      (split; [done|]); split; apply (bool_decide_eq_true_1 _); reflexivity. }
  unfold server_specs. destruct (exports_files x); cbn [fst snd]; [|done].
  destruct (alloc_export (xs_returnSchema x) package_heap) as (output&h&E&Hh). rewrite E. cbn [fst snd].
  apply Forall_app. split; [done|]. constructor; [|constructor]. exists 9%nat.
  split; [done|]. split; apply (bool_decide_eq_true_1 _); reflexivity.
Qed.

Lemma specs_heap x : package_heap `prefix_of` (server_specs x).2.
Proof.
  unfold server_specs. destruct (exports_files x); cbn [fst snd]; [|reflexivity].
  destruct (alloc_export (xs_returnSchema x) package_heap) as (output&h&E&Hh). by rewrite E.
Qed.

Lemma specs_NoDup x : NoDup (sp_capability <$> (server_specs x).1).
Proof.
  unfold server_specs. destruct (exports_files x); cbn [fst snd]; [|apply (bool_decide_eq_true_1 _); reflexivity].
  destruct (alloc_export (xs_returnSchema x) package_heap) as (output&h&E&Hh). rewrite E. cbn [fst snd].
  rewrite fmap_app. apply (bool_decide_eq_true_1 _); reflexivity.
Qed.

Lemma built_in_ok h spec : package_heap `prefix_of` h -> built_in spec -> spec_ok h spec.
Proof.
  intros Hh (i&Hi&Hin&Hc). split; [|done]. rewrite Hi. eapply input_schema_prefix; [done|].
  pose proof package_schemas as Hp. rewrite forallb_forall in Hp. apply Hp. by apply list_elem_of_In.
Qed.

Lemma specs_ok x : Forall (spec_ok (server_specs x).2) (server_specs x).1.
Proof. eapply Forall_impl; [apply specs_built_in|]. intros spec. apply built_in_ok, specs_heap. Qed.

Lemma server_registers x overrides : exists sv, NewMCPHandler x overrides = Some sv /\
  registering (server_specs x).2 overrides (server_specs x).1 sv.
Proof.
  pose proof (specs_ok x) as Hs. pose proof (specs_NoDup x) as Hnd. unfold NewMCPHandler. destruct (server_specs x) as [specs h] eqn:E. cbn [fst snd] in *.
  apply (add_tools_register h overrides specs []); [|done|done]. split; try done; cbn; [apply NoDup_nil_2|].
  intros name c. rewrite lookup_empty. split; [done|]. by intros (t&?%not_elem_of_nil&_).
Qed.

End McpProps.
