(* ===== verification/McpClaims.v ===== *)
(** What the MCP server shows. *)
From S2P Require Import Prelude.
From S2P Require Import ConsoleConfig.
From S2P Require Import McpSchema.
From S2P Require Import McpProps.
From S2P Require Import McpExport.
From S2P Require Import McpServer.
Import McpSchemaProps McpProps.

Module McpClaims.

(** ** Names *)
Lemma default_names_valid : Forall (fun n => mcpToolNamePattern n = true) builtinDefaultNames.
Proof. repeat constructor. Qed.

Lemma name_override_valid c o : mcpToolNamePattern c = true -> mcpToolNamePattern (applyToolNameOverride c o) = true.
Proof.
  unfold applyToolNameOverride. intros Hc. destruct o as [v|]; [|done]. case_bool_decide; [done|].
  by destruct (mcpToolNamePattern v) eqn:E.
Qed.

Lemma registering_lookup h0 overrides specs sv ct : registering h0 overrides specs sv -> ct ∈ sv_tools sv ->
  exists spec, spec ∈ specs /\ registered h0 (sv_heap sv) overrides spec ct.
Proof.
  intros [_ Ht _ _ _] Hin. apply list_elem_of_lookup in Hin as [i Hi].
  destruct (Forall2_lookup_r _ _ _ _ _ Ht Hi) as (spec&Hs&Hr). exists spec. split; [|done]. apply list_elem_of_lookup. eauto.
Qed.

(** Whatever names the operator gives the MCP tools, the server starts (the
    panic on a duplicate name is not reached), registers every tool once, in
    order, under names that are pairwise distinct and match the pattern of tool
    names; no tool carries another tool's built-in name; and the table from
    exposed names to capabilities holds exactly the registered tools. *)
Theorem mcp_tools_have_their_own_names x overrides : exists sv,
  NewMCPHandler x overrides = Some sv /\
  (sv_tools sv).*1 = sp_capability <$> (server_specs x).1 /\
  NoDup (tl_Name <$> (sv_tools sv).*2) /\
  (forall name c, sv_names sv !! name = Some c <-> exists t, (c, t) ∈ sv_tools sv /\ tl_Name t = name) /\
  Forall (fun ct => mcpToolNamePattern (tl_Name ct.2) = true /\
                    (tl_Name ct.2 ∈ builtinDefaultNames -> tl_Name ct.2 = ct.1)) (sv_tools sv).
Proof.
  destruct (server_registers x overrides) as (sv&E&Hr). exists sv. pose proof (specs_ok x) as Hs. pose proof Hr as [_ Ht Hd Hn Hok].
  split_and!; try done.
  - clear -Ht. induction Ht as [|spec ct specs tools (E&_) _ IH]; [done|]. by rewrite !fmap_cons, IH, E.
  - apply Forall_forall. intros [c t] Hin. destruct (registering_lookup _ _ _ _ _ Hr Hin) as (spec&Hspec&Hc&Hname&_). cbn in *.
    eapply Forall_forall in Hs as [_ Hcap]; [|done].
    assert (mcpToolNamePattern (sp_capability spec) = true) as Hv by by apply (proj1 (Forall_forall _ _) default_names_valid).
    split; [destruct Hname as [->| ->]; [done|by apply name_override_valid]|]. apply Hok. apply Hn. eauto.
Qed.

(** ** Listing *)
Lemma filter_keeps {A} (P : A -> Prop) `{!forall x, Decision (P x)} (l : list A) : Forall P l -> filter P l = l.
Proof. induction 1 as [|x l Hx _ IH]; [done|]. rewrite filter_cons_True by done. by rewrite IH. Qed.

Definition listed (l : list (string * tool)) : mcp_result := ListToolsResult (Some (Some <$> l.*2)).

(** C30: Whatever the tools are renamed to, a hidden capability stays hidden: of
    registered tools that the library lists, in any order and any number, the
    middleware keeps exactly those whose capability is not hidden, in the same
    order; it changes no other answer. *)
Theorem hidden_tools_stay_hidden x overrides hiddenTools sv l :
  NewMCPHandler x overrides = Some sv -> l ⊆ sv_tools sv ->
  hide_tools sv hiddenTools "tools/list" (Ok (listed l)) =
    Ok (listed (filter (fun ct => isCapabilityHidden hiddenTools ct.1 = false) l)) /\
  (forall method next, method <> "tools/list" -> hide_tools sv hiddenTools method next = next) /\
  (forall method e, hide_tools sv hiddenTools method (Err e) = Err e).
Proof.
  intros E Hl. destruct (server_registers x overrides) as (sv'&E'&Hr). rewrite E in E'. injection E' as <-. pose proof Hr as [_ _ Hd Hn _].
  assert (forall h c, h = ∅ -> isCapabilityHidden h c = false) as Hempty.
  { intros h c ->. unfold isCapabilityHidden. case_bool_decide; [done|]. apply bool_decide_false. set_solver. }
  split_and!.
  - unfold hide_tools. case_bool_decide as Hh.
    { f_equal. unfold listed. do 4 f_equal. symmetry. apply filter_keeps. apply Forall_forall. auto. }
    cbn [negb]. unfold listed. do 3 f_equal. clear Hh.
    induction l as [|[c t] l IH]; [done|]. cbn [fmap list_fmap omap list_omap snd].
    assert (sv_names sv !! tl_Name t = Some c) as Hc by (apply Hn; exists t; set_solver).
    unfold shown_tool at 1. rewrite Hc. cbn [default from_option id]. rewrite filter_cons. cbn [fst].
    destruct (isCapabilityHidden hiddenTools c) eqn:Ei; [rewrite decide_False by done|rewrite decide_True by done; cbn; f_equal]; apply IH; set_solver.
  - intros method next Hm. unfold hide_tools. case_bool_decide; [done|]. destruct next; [|done]. by rewrite (bool_decide_false (method = _)).
  - intros method e. unfold hide_tools. by case_bool_decide.
Qed.

Definition demo_texts : gmap string ConsoleConfig.MCPToolOverride :=
  {[ "echo" := ConsoleConfig.mkOverride (Some "say") None None {[ "timeout_ms" := "" ]} ]}.
Definition demo_settings : export_settings := mkExport None "" 0 0 "ALL".
Definition demo_mcp : server := default (mkServer [] ∅ []) (NewMCPHandler demo_settings demo_texts).
Definition tool_names (r : res mcp_result) : list string :=
  match r with Ok (ListToolsResult (Some l)) => omap (fun t => tl_Name <$> t) l | _ => [] end.

Lemma hidden_tools_stay_hidden_witness :
  tool_names (Ok (listed (sv_tools demo_mcp))) = ["say"; "pythonExec"; "terminalExec"; "computerUse"; "readImage"] /\
  tool_names (hide_tools demo_mcp {[ "echo" ]} "tools/list" (Ok (listed (sv_tools demo_mcp)))) =
    ["pythonExec"; "terminalExec"; "computerUse"; "readImage"].
Proof.
  split; [vm_compute; reflexivity|].
  assert (NewMCPHandler demo_settings demo_texts = Some demo_mcp) as E.
  { destruct (server_registers demo_settings demo_texts) as (sv & E & _). unfold demo_mcp. rewrite E. reflexivity. }
  destruct (hidden_tools_stay_hidden demo_settings demo_texts {[ "echo" ]} demo_mcp (sv_tools demo_mcp) E (fun x H => H)) as [H _].
  rewrite H. vm_compute. reflexivity.
Defined.

(** ** Schemas *)

(** The package's input schemas take no other members and require only
    parameters they describe. *)
Definition strict_view (v : schema_view) : bool :=
  match vw_additional v with Some (ABool false) => true | _ => false end &&
  match vw_required v with Some r => forallb (fun k => bool_decide (is_Some (vw_properties v !! k))) r | None => true end.

Lemma package_strict : forallb (fun i => match view package_heap (schema_ref i) with Some v => strict_view v | None => false end)
  [0; 2; 4; 6; 8; 9]%nat = true.
Proof. vm_compute. reflexivity. Qed.

#[local] Opaque package_heap package_refs schema_ref.

Lemma built_in_view spec : built_in spec -> exists v, view package_heap (sp_input spec) = Some v /\ strict_view v = true.
Proof.
  intros (i&Hi&Hin&_). pose proof package_strict as Hp. rewrite forallb_forall in Hp. apply list_elem_of_In, Hp in Hin. rewrite Hi.
  destruct (view package_heap (schema_ref i)) as [v|]; [|done]. exists v. split; [reflexivity|exact Hin].
Qed.

Lemma Forall2_weaken {A B} (P R : A -> B -> Prop) (Q : A -> Prop) l k : Forall2 P l k -> Forall Q l ->
  (forall x y, P x y -> Q x -> R x y) -> Forall2 R l k.
Proof. intros H HQ HR. induction H as [|x y l k Hxy _ IH]; [constructor|]. apply Forall_cons in HQ as [??]. constructor; auto. Qed.

Lemma strict_inv v : strict_view v = true -> vw_additional v = Some (ABool false) /\
  (forall r k, vw_required v = Some r -> k ∈ r -> is_Some (vw_properties v !! k)).
Proof.
  unfold strict_view. intros [Ha Hr]%andb_true_iff. split.
  - destruct (vw_additional v) as [[| |[]| | |]|]; done.
  - intros r k E Hk. rewrite E in Hr. rewrite forallb_forall in Hr. by apply (bool_decide_eq_true_1 _), Hr, list_elem_of_In.
Qed.

(** What is left of a property under the operator's texts for the parameters. *)
Definition shown_property (texts : gmap string string) (k : string) (p : gmap string any) : option (gmap string any) :=
  match texts !! k with
  | None => Some p
  | Some d => if bool_decide (d = "") then None else Some (<["description" := AString d]> p)
  end.

Definition hides_some (texts : gmap string string) (v : schema_view) : Prop :=
  map_Exists (fun k _ => texts !! k = Some "") (vw_properties v).

(** The required parameters that stay. *)
Definition still_required (texts : gmap string string) (v : schema_view) : list string :=
  filter (fun k => texts !! k <> Some "") (default [] (vw_required v)).

Lemma filter_every {A} (P : A -> Prop) `{forall x, Decision (P x)} (l : list A) : (forall x, x ∈ l -> P x) -> filter P l = l.
Proof.
  induction l as [|x l IH]; intros H1; [done|]. rewrite filter_cons_True by (apply H1; by left). f_equal. apply IH. intros y Hy. apply H1. by right.
Qed.

Lemma filter_agree {A} (P Q : A -> Prop) `{forall x, Decision (P x), forall x, Decision (Q x)} (l : list A) :
  (forall x, x ∈ l -> P x <-> Q x) -> filter P l = filter Q l.
Proof.
  induction l as [|x l IH]; intros H1; [done|]. rewrite !filter_cons, IH by (intros; apply H1; by right).
  specialize (H1 x ltac:(by left)). by repeat case_decide; naive_solver.
Qed.

Lemma entries_map m : list_to_map (param_entries m) =@{gmap string (option string)} Some <$> m.
Proof.
  unfold param_entries. rewrite <- (list_to_map_to_list m) at 2. rewrite <- list_to_map_fmap. f_equal.
Qed.

Lemma override_view_spec texts v w : strict_view v = true -> override_view (param_entries texts) v = w ->
  (forall k, vw_properties w !! k = vw_properties v !! k ≫= shown_property texts k) /\
  default [] (vw_required w) = still_required texts v /\
  (forall r k, vw_required w = Some r -> k ∈ r -> is_Some (vw_properties w !! k)) /\
  vw_additional w = Some (ABool (bool_decide (hides_some texts v))) /\ vw_rest w = vw_rest v.
Proof.
  intros [Ha Hr]%strict_inv <-. unfold override_view. rewrite entries_map. case_bool_decide as Hnone.
  - assert (forall k, is_Some (vw_properties v !! k) -> texts !! k = None) as Hno.
    { intros k [p Hp]. destruct (texts !! k) as [d|] eqn:E; [|done]. specialize (Hnone k (Some d)). rewrite lookup_fmap, E in Hnone.
      rewrite (Hnone eq_refl) in Hp. done. }
    split_and!; [| |by apply Hr| |done].
    2: { unfold still_required. destruct (vw_required v) as [r|]; [|done]. symmetry. apply filter_every. intros k Hk. by rewrite Hno by eauto. }
    + intros k. destruct (vw_properties v !! k) as [p|] eqn:Hp; [|done]. cbn. unfold shown_property. by rewrite Hno by eauto.
    + rewrite Ha, bool_decide_false; [done|]. intros (k&p&Hp&Hk). by rewrite Hno in Hk by eauto.
  - cbn [vw_properties vw_required vw_additional vw_rest]. clear Hnone.
    assert (forall k, map_imap (new_property (Some <$> texts)) (vw_properties v) !! k = vw_properties v !! k ≫= shown_property texts k) as Hp.
    { intros k. rewrite map_lookup_imap. destruct (vw_properties v !! k) as [p|]; [|done]. cbn. unfold new_property, shown_property.
      rewrite lookup_fmap. by destruct (texts !! k). }
    split_and!; [done| | | |done].
    + unfold still_required. destruct (vw_required v) as [r0|]; [|done]. cbn. transitivity (filter (fun k => texts !! k <> Some "") r0); [|done].
      assert (filter (kept (Some <$> texts) (vw_properties v)) r0 = filter (fun k => texts !! k <> Some "") r0) as <-; [|unfold none_if_empty; by case_bool_decide as E; [rewrite E|]].
      apply filter_agree. intros k Hk. destruct (Hr _ _ eq_refl Hk) as [p Hk']. unfold kept, hides. rewrite Hk', lookup_fmap.
      destruct (texts !! k) as [d|]; cbn; [|naive_solver]. rewrite bool_decide_eq_false. naive_solver.
    + intros r k E Hk. rewrite Hp. destruct (vw_required v) as [r0|] eqn:E0; [|done]. cbn in E. unfold none_if_empty in E.
      case_bool_decide; [done|]. injection E as <-. apply list_elem_of_filter in Hk as [[Hh|Hn] Hk].
      * destruct (Hr _ _ eq_refl Hk) as [p ->]. cbn. unfold shown_property. unfold hides in Hh. rewrite lookup_fmap in Hh.
        destruct (texts !! k) as [d|]; [|by eauto]. apply bool_decide_eq_false in Hh. rewrite bool_decide_false; [by eauto|]. by intros ->.
      * destruct (Hr _ _ eq_refl Hk) as [p Hp']. congruence.
    + unfold hidden_any. rewrite Ha. assert (forall k, hides (Some <$> texts) k = true <-> texts !! k = Some "") as Hh.
      { intros k. unfold hides. rewrite bool_decide_eq_true, lookup_fmap. destruct (texts !! k); cbn; naive_solver. }
      case_bool_decide as H1; case_bool_decide as H2; try done.
      * destruct H2. destruct H1 as (k&p&?&?%Hh). by exists k, p.
      * destruct H1. destruct H2 as (k&p&?&?%Hh). by exists k, p.
Qed.

(** C31: Whatever texts the operator gives the parameters, each tool shows its
    own input schema with just those changes: a text replaces the description
    and an empty text removes the parameter; required are exactly the parameters
    that were required before and are not removed, in their order, all of them
    described; further members are admitted exactly when a parameter was removed;
    the rest of the schema stays. The schemas of the package are left as they were,
    although the new ones are made by writing into maps. *)
Theorem exposed_schemas_are_consistent x overrides : exists sv,
  NewMCPHandler x overrides = Some sv /\ package_heap `prefix_of` sv_heap sv /\
  Forall2 (fun spec ct =>
    let texts := ConsoleConfig.ov_ParamDescriptions (resolveOverride overrides (sp_capability spec)) in
    exists v w, view package_heap (sp_input spec) = Some v /\ view (sv_heap sv) (tl_InputSchema ct.2) = Some w /\
      (forall k, vw_properties w !! k = vw_properties v !! k ≫= shown_property texts k) /\
      default [] (vw_required w) = still_required texts v /\
      (forall r k, vw_required w = Some r -> k ∈ r -> is_Some (vw_properties w !! k)) /\
      vw_additional w = Some (ABool (bool_decide (hides_some texts v))) /\ vw_rest w = vw_rest v)
    (server_specs x).1 (sv_tools sv).
Proof.
  destruct (server_registers x overrides) as (sv&E&[Hh Ht _ _ _]). pose proof (specs_heap x) as Hp. exists sv. split_and!; [done|by etrans|].
  eapply Forall2_weaken; [exact Ht|apply specs_built_in|]. intros spec ct (_&_&_&_&_&Hv&_) Hb. destruct (built_in_view _ Hb) as (v&Hpv&Hs).
  rewrite (proj2 (closed_prefix _ _ _ Hp (input_schema_closed _ _ (proj1 (built_in_ok _ _ (reflexivity _) Hb))))), Hpv in Hv. cbn in Hv.
  eexists v, _. split; [done|]. split; [exact Hv|]. by apply override_view_spec.
Qed.

End McpClaims.
