(* ===== verification/McpToolProps.v ===== *)
(** Lemmas on the MCP tools: base64 texts are undone by decoding, the files a
    worker reports are read back by the console, and object keys are made of
    clean segments. *)
From S2P Require Import Prelude.
From S2P Require Import Json.
From S2P Require Import Net.
From S2P Require Import OwnerScope.
From S2P Require Import AuthText.
From S2P Require Import JsonText.
From S2P Require Import ProxyToken.
From S2P Require Import WorkerResource.
From S2P Require Import WorkerExecutor.
From S2P Require Import McpTools.
From S2P Require Import McpExport.
Import ProxyToken.

Module McpToolProps.

(** ** Base64 *)
Lemma b64_char_value v : 0 <= v < 64 ->
  b64_value (b64_char v) = Some v /\ b64_pad (b64_char v) = false /\ byte (b64_char v) <> 10 /\ byte (b64_char v) <> 13.
Proof.
  intros H. assert (exists n, (n < 64)%nat /\ v = Z.of_nat n) as (n&Hn&->) by (exists (Z.to_nat v); lia).
  do 64 (destruct n as [|n]; [by vm_compute|]). lia.
Qed.

(** The encoder's shifts and masks are divisions. *)
Lemma sextet_high a : Z.shiftr (byte a) 2 = byte a / 4.
Proof. by rewrite Z.shiftr_div_pow2. Qed.
Lemma sextet_low a k : 0 <= k -> Z.land (Z.shiftl (byte a) k) 63 = (byte a * 2 ^ k) mod 64.
Proof. intros. change 63 with (Z.ones 6). by rewrite Z.land_ones, Z.shiftl_mul_pow2. Qed.
Lemma sextet_join a b k l : 0 <= k -> 0 <= l -> 0 <= byte b / 2 ^ l < 2 ^ k ->
  Z.land (Z.lor (Z.shiftl (byte a) k) (Z.shiftr (byte b) l)) 63 = (byte a * 2 ^ k + byte b / 2 ^ l) mod 64.
Proof. intros Hk Hl Hkl. change 63 with (Z.ones 6). by rewrite Z.land_ones, Z.shiftr_div_pow2, lor_add. Qed.
Lemma sextet_last a : Z.land (byte a) 63 = byte a mod 64.
Proof. change 63 with (Z.ones 6). by rewrite Z.land_ones. Qed.

Ltac sextet_arith := repeat match goal with |- context[byte ?a] => pose proof (byte_range a); generalize dependent (byte a); intros end;
  cbn; Z.div_mod_to_equations; lia.

(** The groups of four that the encoder writes. *)
Lemma b64_value_char v : 0 <= v < 64 -> b64_value (b64_char v) = Some v.
Proof. intros. by apply b64_char_value. Qed.
Lemma b64_pad_char v : 0 <= v < 64 -> b64_pad (b64_char v) = false.
Proof. intros. by apply b64_char_value. Qed.

Lemma b64_groups_encode bs : b64_groups (b64_encode_list bs) = Some bs.
Proof.
  assert (forall z a, z mod 256 = byte a -> byte_of z = a) as Hbyte by exact octet_chr.
  assert (forall a b k l c, 0 <= k -> 0 <= l -> 0 <= b / 2 ^ l < 2 ^ k -> (a * 2 ^ k + b / 2 ^ l) mod 256 = byte c ->
            byte_of (Z.lor (Z.shiftl a k) (Z.shiftr b l)) = c) as Hjoin by exact octet_join.
  assert (b64_pad (byte_of 61) = true) as Hpad by by vm_compute.
  induction bs as [|a|a b|a b c rest IH] using list_ind3; [done| | |]; cbn [b64_encode_list].
  - rewrite sextet_high, sextet_low by done. cbn [b64_groups]. rewrite !b64_value_char, Hpad by sextet_arith.
    cbn. do 2 f_equal. apply Hjoin; [done..| |]; sextet_arith.
  - rewrite sextet_high, sextet_low, sextet_join by (done || sextet_arith). cbn [b64_groups].
    rewrite !b64_value_char, Hpad, b64_pad_char by sextet_arith. cbn [andb]. rewrite bool_decide_true by done.
    do 2 f_equal; [|f_equal]; apply Hjoin; try done; sextet_arith.
  - rewrite sextet_high, sextet_last, !sextet_join by (done || sextet_arith). cbn [b64_groups].
    rewrite !b64_value_char, !b64_pad_char, IH by sextet_arith. cbn [fmap option_fmap option_map].
    do 2 f_equal; [|f_equal; [|f_equal]].
    1-2: apply Hjoin; try done; sextet_arith.
    apply Hbyte. rewrite lor_add by (done || sextet_arith). sextet_arith.
Qed.

(** What holds of the 64 characters and of the padding holds of every text. *)
Lemma b64_encode_all (P : ascii -> Prop) bs : (forall v, 0 <= v < 64 -> P (b64_char v)) -> P (byte_of 61) -> Forall P (b64_encode_list bs).
Proof.
  intros Hc Hp. induction bs as [|a|a b|a b c rest IH] using list_ind3; [constructor| | |]; cbn [b64_encode_list].
  - rewrite sextet_high, sextet_low by done. repeat constructor; try apply Hp; apply Hc; sextet_arith.
  - rewrite sextet_high, sextet_low, sextet_join by (done || sextet_arith). repeat constructor; try apply Hp; apply Hc; sextet_arith.
  - rewrite sextet_high, sextet_last, !sextet_join by (done || sextet_arith). repeat constructor; try exact IH; apply Hc; sextet_arith.
Qed.

Lemma b64_encode_plain bs : Forall (fun c => byte c <> 10 /\ byte c <> 13) (b64_encode_list bs).
Proof. apply b64_encode_all; [|by vm_compute]. intros v Hv. by destruct (b64_char_value v Hv) as (_&_&?&?). Qed.

Lemma b64_decode_encode t : b64_decode (b64_encode t) = Some t.
Proof.
  unfold b64_decode, b64_encode. rewrite String.list_ascii_of_string_of_list_ascii.
  assert (filter (fun c => byte c <> 10 /\ byte c <> 13) (b64_encode_list (String.list_ascii_of_string t)) = b64_encode_list (String.list_ascii_of_string t)) as E.
  { generalize (b64_encode_plain (String.list_ascii_of_string t)). generalize (b64_encode_list (String.list_ascii_of_string t)).
    induction 1 as [|x l Hx _ IH]; [done|]. rewrite filter_cons_True by done. by rewrite IH. }
  rewrite E, b64_groups_encode. cbn. by rewrite String.string_of_list_ascii_of_string.
Qed.

(** ** A file's report *)
Lemma restore_members (x session path mime : string) (size : Z) (blob : json) :
  marshal_map (<["session_id" := JString session]> (to_map
    [("session_id", JString x); ("file_path", JString path); ("mime_type", JString mime); ("size_bytes", JInt size)])) =
  PJson (JObject [("file_path", JString path); ("mime_type", JString mime); ("session_id", JString session); ("size_bytes", JInt size)]) /\
  marshal_map (<["session_id" := JString session]> (to_map
    [("session_id", JString x); ("file_path", JString path); ("mime_type", JString mime); ("size_bytes", JInt size); ("blob", blob)])) =
  PJson (JObject [("blob", blob); ("file_path", JString path); ("mime_type", JString mime); ("session_id", JString session); ("size_bytes", JInt size)]).
Proof. split; vm_compute; reflexivity. Qed.

Ltac read_fields :=
  unfold unmarshal_tool_resource, unmarshal_struct, dec_fields; cbn [app foldl fst snd];
  repeat match goal with
  | |- context [tool_resource_field ?k] =>
      let f := eval cbv -[dec_string dec_int dec_bytes] in (tool_resource_field k) in change (tool_resource_field k) with f
  end.

(** The console reads a worker's report back, under the client's name of the session. *)
Lemma resource_read_back o session path mime size blob : good_owner o -> trim session = session -> session <> "" -> is_i64 size = true ->
  exists p, restoreTaskResultOwnerScope o taskCapabilityTerminalResource
      (marshal_resource_result (mkResourceResult (scopeTerminalSessionID o session) path mime size blob)) = Some p /\
    unmarshal_tool_resource p = Some (mkToolResource session path mime size blob).
Proof.
  intros [Ho Hc] Ht Hs Hsize. unfold restoreTaskResultOwnerScope, marshal_resource_result, normalizeTaskOwnerID.
  rewrite (bool_decide_false (trim o = "")) by done. cbn [orb payload_empty].
  assert (scopeTerminalSessionID o session = scopeTerminalSessionID (trim o) session) as ->
    by (rewrite !scope_unfold, trim_trim by (rewrite ?trim_trim, ?Ht; done); done).
  cbn [rt_SessionID rt_FilePath rt_MIMEType rt_SizeBytes rt_Blob unmarshal_map].
  assert (unscopeTerminalSessionID (trim o) (scopeTerminalSessionID (trim o) session) = Some session) as Hu
    by (rewrite unscope_scope by (rewrite ?trim_trim, ?Ht; done); by rewrite Ht).
  generalize dependent (scopeTerminalSessionID (trim o) session). intros x Hu.
  change (bool_decide (taskCapabilityTerminalResource = taskCapabilityTerminalExec)) with false.
  change (bool_decide (taskCapabilityTerminalResource = taskCapabilityTerminalResource)) with true. cbn [negb andb default from_option id].
  destruct (restore_members x session path mime size (JString (b64_encode blob))) as [E1 E2].
  case_bool_decide as Hb; cbn [omit_if app]; cbn [app].
  - assert (forall m : gmap string json, m = to_map [("session_id", JString x); ("file_path", JString path); ("mime_type", JString mime); ("size_bytes", JInt size)] ->
      m !! "session_id" = Some (JString x)) as Hl by (intros m ->; vm_compute; reflexivity).
    rewrite (Hl _ eq_refl), Hu, E1. eexists. split; [done|]. subst blob. read_fields. cbn -[is_i64]. by rewrite Hsize.
  - assert (forall m : gmap string json, m = to_map [("session_id", JString x); ("file_path", JString path); ("mime_type", JString mime); ("size_bytes", JInt size);
      ("blob", JString (b64_encode blob))] -> m !! "session_id" = Some (JString x)) as Hl.
    { intros m ->. generalize (JString (b64_encode blob)). intros. vm_compute. reflexivity. }
    rewrite (Hl _ eq_refl), Hu, E2. eexists. split; [done|]. read_fields. cbn -[is_i64 b64_decode b64_encode]. rewrite b64_decode_encode. by rewrite Hsize.
Qed.

(** ** Object keys *)

(** No separator, no control character: those of ASCII are bytes, U+0080 to U+009F
    are pairs of bytes. *)
Definition clean_char (a : ascii) : bool :=
  negb (Ascii.eqb a "/") && negb (Ascii.eqb a backslash) && negb ((byte a <? 0x20) || (byte a =? 0x7F)).
Definition is_c1 (a b : ascii) : bool := (byte a =? 0xC2) && (0x80 <=? byte b) && (byte b <? 0xA0).
Fixpoint no_c1 (t : string) : bool :=
  match t with
  | String a t' => match t' with String b _ => negb (is_c1 a b) | EmptyString => true end && no_c1 t'
  | EmptyString => true
  end.
Definition clean (t : string) : Prop := forall_char clean_char t = true /\ no_c1 t = true.
Definition clean_segment (t : string) : Prop := t <> "" /\ clean t.

Lemma no_c1_app x y : no_c1 (x +:+ y) = true -> no_c1 x = true /\ no_c1 y = true.
Proof.
  induction x as [|a x IH]; [done|]. rewrite string_app_cons. cbn [no_c1]. intros [H Hr]%andb_true_iff. destruct (IH Hr) as [IH1 IH2]. split; [|done].
  destruct x as [|b x]; [done|]. rewrite IH1, andb_true_r. exact H.
Qed.

(** Text within clean text is clean. *)
Lemma clean_within x y z : clean (x +:+ y +:+ z) -> clean y.
Proof.
  intros [Hf Hc]. rewrite !forall_char_app in Hf. apply andb_true_iff in Hf as [_ [Hf _]%andb_true_iff].
  apply no_c1_app in Hc as [_ [Hc _]%no_c1_app]. done.
Qed.

Lemma no_c1_cons a t : (byte a =? 0xC2) = false -> no_c1 t = true -> no_c1 (String a t) = true.
Proof. intros Ha Ht. cbn [no_c1]. rewrite Ht, andb_true_r. destruct t; [done|]. unfold is_c1. by rewrite Ha. Qed.

(** A rune before text that is free of them. *)
Lemma rune_no_c1 t r t' y : valid_rune t = Some (r, t') -> control_rune r = false -> no_c1 y = true -> no_c1 (r +:+ y) = true.
Proof.
  intros H Hc Hy. destruct t as [|a t]; [done|]. cbn [valid_rune] in H.
  repeat case_match; simplify_eq; rewrite ?string_app_cons, ?string_app_nil_l;
    unfold control_rune, accept3, accept4, is_cont, between in *; bool_prop;
    repeat first [exact Hy | apply no_c1_cons; [lia|]].
  cbn [no_c1]. apply andb_true_iff. split; [unfold is_c1; lia|]. apply no_c1_cons; [lia|done].
Qed.

Lemma high_char_clean a : 0x80 <= byte a -> clean_char a = true.
Proof.
  intros Ha. unfold clean_char. destruct (Ascii.eqb_spec a "/") as [->|]; [by vm_compute in Ha|].
  destruct (Ascii.eqb_spec a backslash) as [->|]; [by vm_compute in Ha|]. cbn. lia.
Qed.

Lemma wide_rune_high a t r t' : (byte a <? 0x80) = false -> valid_rune (String a t) = Some (r, t') -> forall_char is_hi r = true.
Proof.
  unfold valid_rune. intros Ea. rewrite Ea. intros H.
  repeat case_match; simplify_eq; cbn [forall_char]; unfold is_hi, accept3, accept4, is_cont, between in *; lia.
Qed.

Lemma rune_clean t r t' : valid_rune t = Some (r, t') -> forbidden_rune r = false -> forall_char clean_char r = true.
Proof.
  intros H Hf. destruct t as [|a t]; [done|]. destruct (byte a <? 0x80) eqn:Ea.
  - unfold valid_rune in H. rewrite Ea in H. injection H as <- <-. unfold forbidden_rune, control_rune in Hf. cbn [forall_char].
    rewrite andb_true_r. unfold clean_char.
    apply orb_false_iff in Hf as [[Hs%bool_decide_eq_false Hb%bool_decide_eq_false]%orb_false_iff Hc].
    rewrite Hc. destruct (Ascii.eqb_spec a "/") as [->|]; [done|]. destruct (Ascii.eqb_spec a backslash) as [->|]; done.
  - eapply forall_char_mono; [|by eapply wide_rune_high]. intros b Hb. apply high_char_clean. unfold is_hi in Hb. lia.
Qed.

Lemma sanitize_nonempty n t : (String.length t <= n)%nat -> t <> "" -> sanitize_runes n t <> "".
Proof.
  assert (forall x y, x <> "" -> x +:+ y <> "") as Happ.
  { intros x y Hx [Hxe _]%string_app_eq_nil. done. }
  intros Hn Ht. destruct t as [|a t], n as [|n]; try done; [cbn in Hn; lia|]. cbn [sanitize_runes].
  destruct (valid_rune (String a t)) as [[r t']|] eqn:Hr; apply Happ; [|done].
  destruct (forbidden_rune r); [done|]. intros ->. apply valid_rune_shorter in Hr as [_ Hr]. cbn in Hr. lia.
Qed.

Lemma sanitize_clean n t : (String.length t <= n)%nat -> clean (sanitize_runes n t).
Proof.
  revert t. induction n as [|n IH]; intros t Hn; [done|]. destruct t as [|a t]; [done|]. cbn [sanitize_runes].
  destruct (valid_rune (String a t)) as [[r t']|] eqn:Hr.
  - destruct (IH t') as [IH1 IH2]. { apply valid_rune_shorter in Hr as [Hl Hr]. cbn in Hl, Hn. lia. }
    destruct (forbidden_rune r) eqn:Hf; split; rewrite ?forall_char_app; try (apply andb_true_iff; split; [|exact IH1]).
    + done.
    + by apply no_c1_cons.
    + by eapply rune_clean.
    + eapply rune_no_c1; [done| |done]. unfold forbidden_rune in Hf. by apply orb_false_iff in Hf as [_ Hf].
  - destruct (IH t) as [IH1 IH2]; [cbn in Hn; lia|]. split; [rewrite forall_char_app, IH1; by vm_compute|].
    unfold replacement. by repeat (apply no_c1_cons; [done|]).
Qed.

(** *** What trimming leaves is within the text *)
Lemma trim_within t : exists x y, t = x +:+ trim t +:+ y.
Proof.
  destruct (trim_left_suffix t) as [x Hx]. destruct (trim_right_prefix (trim_left t)) as [y Hy]. exists x, y. unfold trim. by rewrite <- Hy.
Qed.

Lemma trim_left_char_suffix a t : exists x, t = x +:+ trim_left_char a t.
Proof.
  induction t as [|b t [x IH]]; [by exists ""|]. cbn. destruct (Ascii.eqb a b); [|by exists ""].
  exists (String b x). rewrite string_app_cons. by f_equal.
Qed.

Lemma trim_char_within a t : exists x y, t = x +:+ trim_char a t +:+ y.
Proof.
  destruct (trim_left_char_suffix a t) as [x Hx]. set (u := trim_left_char a t) in *. unfold trim_char, trim_right_char. fold u.
  destruct (trim_left_char_suffix a (String.rev u)) as [z Hz]. exists x, (String.rev z). rewrite Hx at 1. f_equal.
  rewrite <- (string_rev_involutive u) at 1. rewrite Hz at 1. by rewrite string_rev_app.
Qed.

Lemma sanitize_segment value fallback : clean_segment fallback -> clean_segment (sanitizeExportObjectKeySegment value fallback).
Proof.
  intros Hf. unfold sanitizeExportObjectKeySegment. case_bool_decide as Ht; [done|]. case_bool_decide; [done|]. split; [done|].
  set (u := sanitize_runes _ _). destruct (trim_within u) as (x&y&E). destruct (trim_char_within "/" (trim u)) as (x'&y'&E').
  eapply clean_within. rewrite <- E'. eapply clean_within. rewrite <- E. by apply sanitize_clean.
Qed.

End McpToolProps.
