(* ===== verification/McpToolClaims.v ===== *)
(** What the MCP tools do: their checks, their agreement with the REST
    commands, the images and the exports. *)
From S2P Require Import Prelude.
From S2P Require Import Json.
From S2P Require Import Sql.
From S2P Require Import Net.
From S2P Require Import OwnerScope.
From S2P Require Import Service.
From S2P Require Import Proto.
From S2P Require Import Registry.
From S2P Require Import RouteStore.
From S2P Require Import TerminalRoutes.
From S2P Require Import SessionRuntime.
From S2P Require Import Dispatch.
From S2P Require Import DispatchProps.
From S2P Require Import Tasks.
From S2P Require Import Submit.
From S2P Require Import Accounts.
From S2P Require Import Auth.
From S2P Require Import SubmitProps.
From S2P Require Import TaskProps.
From S2P Require Import Rest.
From S2P Require Import AuthClaims.
From S2P Require Import WorkerResource.
From S2P Require Import WorkerExecutor.
From S2P Require Import McpSchema.
From S2P Require Import McpTools.
From S2P Require Import McpExport.
From S2P Require Import McpToolProps.
Import McpToolProps.

Module McpToolClaims.

(** ** Checks *)

(** A call is refused with the service untouched, or it is one submission in
    the caller's name within the bounds. *)
Definition checked {A} (env : mcp_env) (c : context) (s : RegistryService) (x : answer A) : Prop :=
  (exists e, x = refuse e s) \/
  exists req k, x = submit_and_answer (me_submit env 0%nat) req k s /\
    sr_OwnerID req = requestOwnerIDFromContext c /\ requestOwnerIDFromContext c <> "" /\
    sr_Mode req = "sync" /\ duration_ms 1 <= sr_Timeout req <= duration_ms 600000.

(** An error of the protocol is a refusal. *)
Definition refuses {A} (s : RegistryService) (x : answer A) : Prop :=
  forall code msg, x.1.1 = inr (RPCError code msg) -> code = CodeInvalidParams /\ x = refuse (RPCError code msg) s.

Lemma task_timeout_bounds t ms : task_timeout_ms t = inl ms -> duration_ms 1 <= duration_ms ms <= duration_ms 600000.
Proof.
  unfold task_timeout_ms, minMCPTaskTimeoutMS, maxMCPTaskTimeoutMS, maxTaskTimeoutMS. case_match eqn:E; [done|]. intros [= <-].
  apply orb_false_iff in E as [E1 E2]. unfold duration_ms, millisecond. rewrite !i64_id by lia. lia.
Qed.

Lemma with_task_checked {A} d env c t s (k : Z -> string -> answer A) :
  (forall ms, task_timeout_ms t = inl ms -> requestOwnerIDFromContext c <> "" -> checked env c s (k ms (requestOwnerIDFromContext c))) ->
  checked env c s (with_task d c t s k).
Proof.
  intros Hk. unfold with_task. destruct (task_timeout_ms t) as [ms|e] eqn:Et; [|left; eauto].
  destruct d; [|left; eauto]. cbn [negb]. case_bool_decide; [left; eauto|]. by apply Hk.
Qed.

Lemma submit_checked {A} env c s capability input ms requestID (k : SubmitTaskResult -> A + tool_error) t :
  task_timeout_ms t = inl ms -> requestOwnerIDFromContext c <> "" ->
  checked env c s (submit_and_answer (me_submit env 0%nat)
    (tool_submit capability input (duration_ms ms) requestID (requestOwnerIDFromContext c)) k s).
Proof. intros Ht Ho. right. eexists _, _. split; [done|]. split_and!; try done; by eapply task_timeout_bounds. Qed.

Lemma submit_plain {A} env req (k : SubmitTaskResult -> A + tool_error) s code msg :
  (forall r, k r <> inr (RPCError code msg)) -> (submit_and_answer env req k s).1.1 <> inr (RPCError code msg).
Proof.
  intros Hk. unfold submit_and_answer. destruct (SubmitTask env req s) as [[[r|e] job] s']; cbn; [by apply Hk|].
  unfold mapMCPToolTaskSubmitError. repeat case_match; done.
Qed.

Lemma task_answer_plain {A} name unexpected (decode : payload -> option A) r code msg :
  task_answer name unexpected decode r <> inr (RPCError code msg).
Proof. unfold task_answer, formatTaskFailureError. repeat case_match; done. Qed.

Lemma invalid_refuses {A} msg s : refuses s (refuse (A := A) (invalidParamsError msg) s).
Proof. intros code m. unfold invalidParamsError. intros [= <- <-]. done. Qed.
Lemma plain_refuses {A} msg s : refuses s (refuse (A := A) (PlainError msg) s).
Proof. intros code m. done. Qed.

Lemma submit_refuses {A} env req name unexpected (decode : payload -> option A) s :
  refuses s (submit_and_answer env req (task_answer name unexpected decode) s).
Proof. intros code msg H. exfalso. revert H. apply submit_plain. intros r. apply task_answer_plain. Qed.

Lemma timeout_refuses {A} t e s : task_timeout_ms t = inr e -> refuses s (refuse (A := A) e s).
Proof. unfold task_timeout_ms. case_match; [|done]. intros [= <-]. apply invalid_refuses. Qed.

Lemma with_task_refuses {A} d c t s (k : Z -> string -> answer A) :
  (forall ms, refuses s (k ms (requestOwnerIDFromContext c))) -> refuses s (with_task d c t s k).
Proof.
  intros Hk. unfold with_task. destruct (task_timeout_ms t) as [ms|e] eqn:E; [|by eapply timeout_refuses].
  destruct d; [|apply plain_refuses]. cbn [negb]. case_bool_decide; [apply plain_refuses|apply Hk].
Qed.

Lemma call_resource_plain d env i c capability p timeout s code msg :
  (callResourceCapability d env i c capability p timeout s).1.1 <> inr (RPCError code msg).
Proof.
  unfold callResourceCapability. destruct d; [|done]. cbn [negb]. case_bool_decide; [done|]. case_bool_decide; [done|].
  apply submit_plain. intros r. apply task_answer_plain.
Qed.

Lemma with_file_refuses {A} d input s (k : string -> string -> duration -> answer A) :
  (forall x y t code msg, (k x y t).1.1 <> inr (RPCError code msg)) -> refuses s (with_file d input s k).
Proof.
  intros Hk. unfold with_file. case_bool_decide; [apply invalid_refuses|]. case_bool_decide; [apply invalid_refuses|].
  destruct (task_timeout_ms _) as [ms|e] eqn:E; [|by eapply timeout_refuses]. destruct d; [|apply plain_refuses].
  intros code msg Hr. exact (False_ind _ (Hk _ _ _ _ _ Hr)).
Qed.

(** C32: The MCP tools check a call before anything happens.  A call of the
    Python, terminal or computer tool is refused with the console's state as it
    was and nothing started, or it is one synchronous submission in the name of
    the authenticated caller, with a timeout between one millisecond and ten
    minutes; and every protocol error, of any tool, is the code for invalid
    parameters and such a refusal. *)
Theorem mcp_calls_are_checked d env c x prefix s :
  (forall i, checked env c s (handleMCPPythonExecTool d env c i s) /\ refuses s (handleMCPPythonExecTool d env c i s)) /\
  (forall i, checked env c s (handleMCPTerminalExecTool d env c i s) /\ refuses s (handleMCPTerminalExecTool d env c i s)) /\
  (forall i, checked env c s (handleMCPComputerUseTool d env c i s) /\ refuses s (handleMCPComputerUseTool d env c i s)) /\
  (forall i, refuses s (handleMCPEchoTool d env i s)) /\
  (forall i, refuses s (handleMCPReadImageTool d env prefix c i s)) /\
  (forall i, refuses s (handleMCPExportFileTool d env x prefix c i s)).
Proof.
  split_and!; intros i.
  - unfold handleMCPPythonExecTool. case_bool_decide; [split; [left; eauto|apply invalid_refuses]|].
    split; [apply with_task_checked; intros; by eapply submit_checked|apply with_task_refuses; intros; apply submit_refuses].
  - unfold handleMCPTerminalExecTool. case_bool_decide; [split; [left; eauto|apply invalid_refuses]|].
    case_match; [split; [left; eauto|apply invalid_refuses]|].
    split; [apply with_task_checked; intros; by eapply submit_checked|apply with_task_refuses; intros; apply submit_refuses].
  - unfold handleMCPComputerUseTool. destruct (tool_worker i) as [w|e] eqn:E.
    + split; [apply with_task_checked; intros; by eapply submit_checked|apply with_task_refuses; intros; apply submit_refuses].
    + split; [left; eauto|]. unfold tool_worker in E. repeat case_match; simplify_eq; apply invalid_refuses.
  - unfold handleMCPEchoTool. case_bool_decide; [apply invalid_refuses|]. case_match; [apply invalid_refuses|].
    destruct d; [|apply plain_refuses]. cbn [negb]. destruct (DispatchEcho _ _ _) as [[r|e] s']; [done|].
    intros code msg. unfold mapMCPToolEchoError. cbn. repeat case_match; done.
  - apply with_file_refuses. intros id path t code msg. cbv beta zeta.
    destruct (callResourceCapability d env 0%nat c (resource_capability id prefix) (mkResource id path "validate" "" None) t s) as [[[v|e] jobs] s1] eqn:E1; cycle 1.
    { pose proof (call_resource_plain d env 0%nat c (resource_capability id prefix) (mkResource id path "validate" "" None) t s code msg) as P.
      rewrite E1 in P. cbn in *. congruence. }
    case_match; [done|]. destruct (callResourceCapability d env 1%nat c (resource_capability id prefix) (mkResource id path "read" "" None) t _) as [[[v'|e'] jobs'] s2] eqn:E2; [done|].
    pose proof (call_resource_plain d env 1%nat c (resource_capability id prefix) (mkResource id path "read" "" None) t (me_others env s1) code msg) as P.
    rewrite E2 in P. cbn in *. congruence.
  - apply with_file_refuses. intros id path t code msg. destruct (xs_store x) as [store|]; [|done]. cbn zeta.
    destruct (PresignUpload _ _ _) as [url|]; [|done].
    destruct (callResourceCapability d env 0%nat c (resource_capability id prefix) (mkResource id path "export" url (exportStoreUploadHeaders url)) t s) as [[[v|e] jobs] s1] eqn:E1.
    + case_bool_decide; [done|]. case_bool_decide; [done|]. by destruct (PresignDownload _ _ _).
    + pose proof (call_resource_plain d env 0%nat c (resource_capability id prefix) (mkResource id path "export" url (exportStoreUploadHeaders url)) t s code msg) as P.
      rewrite E1 in P. cbn in *. congruence.
Qed.

(** ** Exports *)
Definition under (prefix session objectID name : string) : string :=
  (if bool_decide (prefix = "") then "" else prefix +:+ "/") +:+ session +:+ "/" +:+ objectID +:+ "-" +:+ name.

Lemma export_key objectID prefix session path :
  let s := sanitizeExportObjectKeySegment session "session" in
  let i := sanitizeExportObjectKeySegment objectID "object" in
  let n := sanitizeExportObjectKeySegment (exportFileName path) "file" in
  clean_segment s /\ clean_segment i /\ clean_segment n /\ buildExportObjectKey objectID prefix session path = under (trim_char "/" (trim prefix)) s i n.
Proof.
  split_and!; try (apply sanitize_segment; split; [done|split; by vm_compute]).
  unfold buildExportObjectKey, under. case_bool_decide; cbn [app join]; rewrite ?string_app_assoc; done.
Qed.

Lemma resource_call d env i c session prefix p timeout s v jobs s' :
  callResourceCapability d env i c (resource_capability session prefix) p timeout s = ((inl v, jobs), s') ->
  exists r job wait, SubmitTask (me_submit env i) (tool_submit (resource_capability session prefix) (marshal_resource p) wait "" (requestOwnerIDFromContext c)) s =
    ((Ok r, job), s') /\ jobs = job_list job.
Proof.
  unfold callResourceCapability. destruct (negb d); [done|]. assert (trim (resource_capability session prefix) = resource_capability session prefix) as ->.
  { unfold resource_capability. destruct (isComputerUseSessionID _ _); by vm_compute. }
  case_bool_decide; [done|]. case_bool_decide; [done|]. unfold submit_and_answer. set (wait := if _ <=? 0 then _ else _).
  destruct (SubmitTask _ _ s) as [[[r|e] job] s1] eqn:E; [|done]. intros Hv. simplify_eq. by exists r, job, wait.
Qed.

(** C33: When an export succeeds, the file went to one object key under the
    configured prefix: the prefix, a segment for the session and a segment for
    the object, neither empty nor with a separator or a control character, so a
    session id or file name adds no level to the key.  The one task that was
    submitted, for the caller, asks the worker of the session to export the file to
    the URL that was signed for uploading to that key; unless only the key is asked
    for, the download is signed for that key too; and the answer holds what the
    configured schema promises and nothing else.  (The segment of the session may be
    two dots, see [dots_are_a_segment]; the segment of the object never is.) *)
Theorem exports_stay_under_the_prefix d env x prefix c i s out jobs s' :
  handleMCPExportFileTool d env x prefix c i s = ((inl out, jobs), s') ->
  let session := trim (fi_SessionID i) in
  let path := trim (fi_FilePath i) in
  let ss := sanitizeExportObjectKeySegment session "session" in
  let oi := sanitizeExportObjectKeySegment (me_objectID env) "object" in
  let nm := sanitizeExportObjectKeySegment (exportFileName path) "file" in
  let key := under (trim_char "/" (trim (xs_prefix x))) ss oi nm in
  clean_segment ss /\ clean_segment oi /\ clean_segment nm /\
  exists store url r job wait, xs_store x = Some store /\
    PresignUpload store key (normalizeExportPresignTTL (xs_uploadTTL x) exportFileUploadPresignTTL) = Ok url /\
    SubmitTask (me_submit env 0%nat) (tool_submit (resource_capability session prefix)
      (marshal_resource (mkResource session path "export" url (exportStoreUploadHeaders url))) wait "" (requestOwnerIDFromContext c)) s = ((Ok r, job), s') /\
    jobs = job_list job /\
    let name := exportFileName path in
    let download := PresignDownload store key (normalizeExportPresignTTL (xs_downloadTTL x) exportFileDownloadPresignTTL) in
    if bool_decide (xs_returnSchema x = ExportReturnSchemaObjectKey) then out = mkExportOutput "" key name
    else exists signed, download = Ok signed /\
      out = if bool_decide (xs_returnSchema x = ExportReturnSchemaSignedURL) then mkExportOutput signed "" "" else mkExportOutput signed key name.
Proof.
  intros H session path ss oi nm key. destruct (export_key (me_objectID env) (xs_prefix x) session path) as (Hs&Ho&Hn&Hk). fold ss oi nm key in Hs, Ho, Hn, Hk.
  split; [exact Hs|]. split; [exact Ho|]. split; [exact Hn|]. revert H. unfold handleMCPExportFileTool, with_file. fold session path.
  repeat (case_bool_decide; [done|]). destruct (task_timeout_ms _) as [ms|]; [|done]. destruct d; [|done]. cbn [negb].
  destruct (xs_store x) as [store|]; [|done]. cbn zeta. rewrite Hk. destruct (PresignUpload _ _ _) as [url|] eqn:Eu; [|done].
  destruct (callResourceCapability _ _ _ _ _ _ _ _) as [[[v|e] jobs'] s1] eqn:Ec; [|done]. case_bool_decide; [done|].
  destruct (resource_call _ _ _ _ _ _ _ _ _ _ _ _ Ec) as (r&job&wait&Es&->). intros Heq. exists store, url, r, job, wait.
  assert (s1 = s' /\ jobs = job_list job) as [<- ->] by (clear -Heq; repeat case_match; by simplify_eq).
  split_and!; try done. case_bool_decide; [by simplify_eq|].
  destruct (PresignDownload _ _ _) as [signed|]; [|done]. exists signed. split; [done|]. by simplify_eq.
Qed.

(** A session that a client named [".."] is a segment of its own. *)
Example dots_are_a_segment : buildExportObjectKey "5f6c" "exports" ".." "/a.png" = "exports/../5f6c-a.png".
Proof. by vm_compute. Qed.

(** ** The tools and the REST commands *)

(** A tool's call and a request to a command agree: one state, the same
    goroutine, and the tool has a result exactly when the request is answered
    200 with it. *)
Definition agree {A} (body : A -> rest_body) (x : answer A) (y : (reply * option task_job) * RegistryService) : Prop :=
  x.2 = y.2 /\ x.1.2 = job_list y.1.2 /\ forall a, x.1.1 = inl a <-> y.1.1 = mkReply 200 (body a).

Lemma fail_agrees {A} (body : A -> rest_body) e status msg s : status <> 200 ->
  agree body (refuse e s) ((fail status msg, None), s).
Proof. intros Hs. split_and!; [done..|]. intros a. unfold refuse, fail. cbn. split; congruence. Qed.

Lemma submit_error_status err : rp_status (writeTaskSubmitError err) <> 200.
Proof. unfold writeTaskSubmitError. repeat case_match; done. Qed.

Lemma submission_agrees {A} (body : A -> rest_body) renv env req name decode invalid failure s :
  re_submit renv = me_submit env 0%nat -> (forall a b, body a = body b -> a = b) ->
  (forall t, (failure t).1 <> 200) ->
  agree body (submit_and_answer (me_submit env 0%nat) req (task_answer name unexpected_status decode) s)
    (run_submission renv (inl req) (command_reply (fun p => body <$> decode p) invalid failure) s).
Proof.
  intros He Hbody Hf. unfold submit_and_answer, run_submission. rewrite He.
  destruct (SubmitTask (me_submit env 0%nat) req s) as [[[r|e] job] s']; (split_and!; [done..|]); intros a; cbn [fst snd].
  - unfold task_answer, command_reply. destruct (negb (str_Completed r)); [split; [done|unfold fail; congruence]|].
    specialize (Hf (str_Task r)). destruct (ts_Status (str_Task r)); unfold fail; try (split; [done|congruence]).
    + destruct (decode _) as [b|]; cbn; [|split; [done|congruence]]. split; [by intros [= <-]|]. intros [= E%Hbody]. by subst.
    + destruct (failure (str_Task r)) as [status msg]. cbn in Hf. split; [done|congruence].
  - pose proof (submit_error_status e) as Hs. split; [done|]. intros E. rewrite E in Hs. done.
Qed.

Lemma terminal_failure_status t : (mapTerminalTaskFailure t).1 <> 200.
Proof. unfold mapTerminalTaskFailure. repeat case_match; done. Qed.
Lemma computer_failure_status t : (mapComputerUseTaskFailure t).1 <> 200.
Proof. unfold mapComputerUseTaskFailure. repeat case_match; done. Qed.

(** The terminal tool is the terminal command.  For a REST request that
    carries the same fields as a tool call (and no request id, which the tool
    has not), by the same caller and under the same circumstances, the tool
    leaves the console in the same state, with the same goroutine running, and
    returns a result exactly when the request is answered 200 with that result;
    the lease must be positive, which only the tool checks. *)
Theorem terminal_tool_is_the_terminal_command env renv h c r i s :
  bind_terminal (rq_body r) = Some (mkTerminalRequest (ti_Command i) (ti_SessionID i) (ti_CreateIfMissing i) (ti_LeaseTTLSec i) (ti_TimeoutMS i) "") ->
  re_submit renv = me_submit env 0%nat ->
  match ti_LeaseTTLSec i with Some z => 1 <= z | None => True end ->
  agree RTerminal (handleMCPTerminalExecTool (h_dispatcher h) env c i s) (TerminalCommand h renv c r s).
Proof.
  intros Hb He Hl. unfold handleMCPTerminalExecTool, TerminalCommand, terminal_submit. rewrite Hb. cbn [tq_Command tq_TimeoutMS tq_SessionID tq_CreateIfMissing tq_LeaseTTLSec tq_RequestID].
  assert (match ti_LeaseTTLSec i with Some z => z <? minMCPTerminalLeaseSec | None => false end = false) as ->.
  { destruct (ti_LeaseTTLSec i); [|done]. unfold minMCPTerminalLeaseSec. lia. }
  unfold with_task, task_timeout_ms. change (requestOwnerIDFromGin c) with (requestOwnerIDFromContext c).
  change (minMCPTaskTimeoutMS) with minCommandTimeoutMS. change maxMCPTaskTimeoutMS with maxTaskTimeoutMS. change defaultMCPTaskTimeoutMS with defaultTaskTimeoutMS.
  destruct (h_dispatcher h); cbn [negb].
  - destruct (bool_decide (requestOwnerIDFromContext c = "")); cbn [run_submission];
      (destruct (bool_decide (trim (ti_Command i) = "")); [by apply fail_agrees|]);
      (destruct (_ || _); [by apply fail_agrees|]); [by apply fail_agrees|].
    apply submission_agrees; [done|by intros ?? [= ->]|apply terminal_failure_status].
  - destruct (bool_decide (trim (ti_Command i) = "")); [by apply fail_agrees|].
    destruct (_ || _); by apply fail_agrees.
Qed.

(** ** Images *)

(** The console's answer to a submission: the task succeeded, with what a
    worker reported on a file. *)
Definition reported (o : string) (r : SubmitTaskResult) (w : terminalResourceRunResult) : Prop :=
  str_Completed r = true /\ ts_Status (str_Task r) = Succeeded /\
  restoreTaskResultOwnerScope o taskCapabilityTerminalResource (marshal_resource_result w) = Some (ts_ResultJSON (str_Task r)).

Lemma reported_answer o r session path mime size blob : good_owner o -> trim session = session -> session <> "" -> is_i64 size = true ->
  reported o r (mkResourceResult (scopeTerminalSessionID o session) path mime size blob) ->
  forall name unexpected, task_answer name unexpected unmarshal_tool_resource r = inl (mkToolResource session path mime size blob).
Proof.
  intros Ho Ht Hs Hz (Hc&Hst&Hr) name unexpected. destruct (resource_read_back o session path mime size blob) as (p&E&Hp); [done..|].
  rewrite E in Hr. injection Hr as Hr. unfold task_answer. rewrite Hc, Hst, <- Hr, Hp. done.
Qed.

(** The submission of a file's action. *)
Definition file_submit (o session path action : string) (timeout : duration) : SubmitTaskRequest :=
  tool_submit "terminalResource" (marshal_resource (mkResource session path action "" None)) timeout "" o.

(** An image in a session reaches the caller byte for byte.  When both
    submissions of the image tool succeed with the reports of a worker on the
    file, the second with its content, the tool answers with an image of the
    reported type whose data is exactly the content the worker read, through
    the worker's base64 and JSON, the console's restoring of the session's name
    and the tool's decoding. *)
Theorem images_arrive_unchanged o env c prefix i s r0 r1 job0 job1 s0 s1 mime0 mime1 size0 size1 blob0 blob1 ms :
  let session := trim (fi_SessionID i) in let path := trim (fi_FilePath i) in
  let scoped := scopeTerminalSessionID o session in
  good_owner o -> requestOwnerIDFromContext c = o -> session <> "" -> path <> "" -> task_timeout_ms (fi_TimeoutMS i) = inl ms ->
  isComputerUseSessionID session prefix = false ->
  SubmitTask (me_submit env 0%nat) (file_submit o session path "validate" (duration_ms ms)) s = ((Ok r0, job0), s0) ->
  SubmitTask (me_submit env 1%nat) (file_submit o session path "read" (duration_ms ms)) (me_others env s0) = ((Ok r1, job1), s1) ->
  is_i64 size0 = true -> is_i64 size1 = true ->
  reported o r0 (mkResourceResult scoped path mime0 size0 blob0) -> reported o r1 (mkResourceResult scoped path mime1 size1 blob1) ->
  isImageMIME (normalizeMIME mime0) = true -> isImageMIME (normalizeMIME mime1) = true ->
  handleMCPReadImageTool true env prefix c i s =
    ((inl (ImageContent (normalizeMIME mime1) blob1), job_list job0 ++ job_list job1), s1).
Proof.
  intros session path scoped Ho Hc Hs Hp Ht Hcu E0 E1 Hz0 Hz1 H0 H1 Hm0 Hm1. unfold handleMCPReadImageTool, with_file.
  fold session path. rewrite !bool_decide_false by done. rewrite Ht. cbn [negb]. unfold resource_capability. rewrite Hcu. cbv zeta.
  assert (forall e j p st, callResourceCapability true e j c "terminalResource" p (duration_ms ms) st =
    submit_and_answer (me_submit e j) (tool_submit "terminalResource" (marshal_resource p) (duration_ms ms) "" o)
      (task_answer "terminalResource" (fun _ => "unexpected task status") unmarshal_tool_resource) st) as Hcall.
  { intros e j p st. unfold callResourceCapability. cbn [negb]. change (trim "terminalResource") with "terminalResource".
    rewrite (bool_decide_false (_ = "")) by done. rewrite Hc. rewrite bool_decide_false by (destruct Ho as [Ho _]; by intros ->).
    apply task_timeout_bounds in Ht. assert ((duration_ms ms <=? 0) = false) as ->; [|done]. change (duration_ms 1) with millisecond in Ht. unfold millisecond in Ht. lia. }
  rewrite Hcall. unfold submit_and_answer at 1. unfold file_submit in E0. rewrite E0.
  rewrite (reported_answer o r0 session path mime0 size0 blob0) by (done || apply trim_trim). cbn [tr_MIMEType]. rewrite Hm0. cbn [negb].
  rewrite Hcall. unfold submit_and_answer. unfold file_submit in E1. rewrite E1.
  rewrite (reported_answer o r1 session path mime1 size1 blob1) by (done || apply trim_trim). cbn [tr_MIMEType tr_Blob]. by rewrite Hm1.
Qed.

(** ** The hypotheses hold: a worker that serves files *)
Definition demo_file_hello : ConnectHello :=
  mkHello "w1" "" "docker" ∅ "1" [Some (mkCapability "terminalResource" 2); Some (mkCapability "terminalExec" 2)] "secret" None.
Definition demo_file_db : DB :=
  mkDB {[ "w1" := mkWorkerNode "sid" false "" "docker" "1" 0 1000 ]}
    {[ ("w1", "terminalResource") := 2; ("w1", "terminalExec") := 2 ]} ∅ ∅ ∅ ∅ ∅ ∅ ∅ ∅.
Definition demo_file_service : RegistryService :=
  with_svc_sessions {[ "w1" := "sid" ]} {[ "sid" := markRecoveryComplete (newActiveSessionAt "w1" "sid" demo_file_hello 0) ]}
    (with_svc_routes (with_store (Some (mkConn demo_file_db [])) demo_routes) demo_service).

(** While the caller waits, the task ends with what the worker reported. *)
Definition demo_report (blob : string) : terminalResourceRunResult :=
  mkResourceResult (scopeTerminalSessionID "o1" "s1") "/a.png" "image/png" 3 blob.
Definition demo_restored (blob : string) : payload :=
  default PEmpty (restoreTaskResultOwnerScope "o1" taskCapabilityTerminalResource (marshal_resource_result (demo_report blob))).
Definition demo_wait (taskID blob : string) : submit_env :=
  mkSubmitEnv demo_now (Some (Ok "s9")) (Ok taskID) None
    (fun s => (finishTask taskID Succeeded (demo_restored blob) "" "" demo_now demo_now s).2).
Definition demo_mcp_env : mcp_env :=
  mkMcpEnv (fun i => match i with 0%nat => demo_wait "t8" "" | _ => demo_wait "t9" "PNG" end)
    (fun _ _ => DispatchProps.demo_env) (fun s => s) "5f6c".
Definition demo_caller : context := mkContext None None (Some "o1").
Definition demo_file_input : mcpFileToolInput := mkFileInput " s1 " "/a.png" None.
Definition demo_store : Store := mkStore "bucket" (fun op b k _ => Ok ("https://s3/" +:+ b +:+ "/" +:+ k)).
Definition demo_exports : export_settings := mkExport (Some demo_store) "/exports/" 0 0 "ALL".
Definition demo_export_run := handleMCPExportFileTool true demo_mcp_env demo_exports "" demo_caller demo_file_input demo_file_service.

(** The parts of a submission and of an answer, and that they are the whole. *)
Definition submitted (x : (res SubmitTaskResult * option task_job) * RegistryService) : SubmitTaskResult :=
  match x.1.1 with Ok r => r | Err _ => mkSubmitResult zero_snapshot false end.
Definition accepted (x : (res SubmitTaskResult * option task_job) * RegistryService) : bool :=
  match x.1.1 with Ok _ => true | Err _ => false end.
Lemma submitted_whole x : accepted x = true -> x = ((Ok (submitted x), x.1.2), x.2).
Proof. by destruct x as [[[r|e] j] s]. Qed.
Definition export_of (x : answer mcpExportFileToolOutput) : mcpExportFileToolOutput :=
  match x.1.1 with inl o => o | inr _ => mkExportOutput "" "" "" end.
Lemma export_whole x : bool_decide (eo_FileName (export_of x) = "") = false -> x = ((inl (export_of x), x.1.2), x.2).
Proof. by destruct x as [[[r|e] j] s]. Qed.

Lemma exports_stay_under_the_prefix_witness :
  export_of demo_export_run = mkExportOutput "https://s3/bucket/exports/s1/5f6c-a.png" "exports/s1/5f6c-a.png" "a.png" /\
  exists job, demo_export_run.1.2 = job_list job.
Proof.
  split; [vm_compute; reflexivity|].
  assert (bool_decide (eo_FileName (export_of demo_export_run) = "") = false) as Hok by (vm_compute; reflexivity).
  destruct (exports_stay_under_the_prefix true demo_mcp_env demo_exports "" demo_caller demo_file_input demo_file_service _ _ _
    (export_whole demo_export_run Hok)) as (_ & _ & _ & store & url & r & job & wait & _ & _ & _ & Hj & _).
  exists job. exact Hj.
Defined.

Definition demo_submit0 := SubmitTask (demo_wait "t8" "") (file_submit "o1" "s1" "/a.png" "validate" (duration_ms 60000)) demo_file_service.
Definition demo_submit1 := SubmitTask (demo_wait "t9" "PNG") (file_submit "o1" "s1" "/a.png" "read" (duration_ms 60000)) demo_submit0.2.

Lemma images_arrive_unchanged_witness :
  (handleMCPReadImageTool true demo_mcp_env "" demo_caller demo_file_input demo_file_service).1.1 = inl (ImageContent "image/png" "PNG").
Proof.
  assert (accepted demo_submit0 = true /\ accepted demo_submit1 = true) as [A0 A1] by (split; vm_compute; reflexivity).
  assert (reported "o1" (submitted demo_submit0) (demo_report "") /\ reported "o1" (submitted demo_submit1) (demo_report "PNG")) as [H0 H1]
    by (split; split; [vm_compute; reflexivity|split; vm_compute; reflexivity|vm_compute; reflexivity|split; vm_compute; reflexivity]).
  assert (good_owner "o1") as Ho by (split; [discriminate|reflexivity]).
  exact (f_equal (fun x : answer mcp_content => x.1.1)
    (images_arrive_unchanged "o1" demo_mcp_env demo_caller "" demo_file_input demo_file_service _ _ _ _ _ _
      "image/png" "image/png" 3 3 "" "PNG" 60000 Ho eq_refl ltac:(discriminate) ltac:(discriminate) eq_refl eq_refl
      (submitted_whole demo_submit0 A0) (submitted_whole demo_submit1 A1) eq_refl eq_refl H0 H1 eq_refl eq_refl)).
Defined.

Definition demo_tool_body : payload := PJson (JObject [("command", JString "ls"); ("session_id", JString "s1"); ("lease_ttl_sec", JInt 30)]).
Definition demo_tool_input : mcpTerminalExecToolInput := mkTerminalInput "ls" "s1" false (Some 30) None.
Definition demo_tool_rest_env : rest_env := mkRestEnv (fun _ => demo_now) (fun _ => (Ok "w9", Ok "secret")) (demo_wait "t8" "") (fun _ _ => DispatchProps.demo_env) (fun s => s).
Definition demo_tool_handler : WorkerHandler := mkHandler (60 * second) true true true true true "".

Lemma terminal_tool_is_the_terminal_command_witness :
  let x := handleMCPTerminalExecTool true demo_mcp_env demo_caller demo_tool_input demo_file_service in
  let y := TerminalCommand demo_tool_handler demo_tool_rest_env demo_caller (demo_request "" None "" demo_tool_body) demo_file_service in
  agree RTerminal x y /\ length x.1.2 = 1%nat.
Proof.
  split; [|vm_compute; reflexivity].
  apply (terminal_tool_is_the_terminal_command demo_mcp_env demo_tool_rest_env demo_tool_handler demo_caller
    (demo_request "" None "" demo_tool_body) demo_tool_input demo_file_service); [reflexivity|reflexivity|cbn; lia].
Defined.

End McpToolClaims.
