(* ===== verification/FilePath.v ===== *)
(** Lexical paths (path/filepath where the separator is a slash): [Clean],
    [Abs], [Rel] and [Ext] as the workers use them, and what [Rel] says of two
    absolute paths. *)
From S2P Require Import Prelude.
From S2P Require Import AuthText.
From S2P Require Import Net.
From S2P Require Import ProxyToken.
From S2P Require Import Url.

Module FilePath.

Definition rooted (path : string) : bool := has_prefix "/" path.
Definition IsAbs : string -> bool := rooted.

(** ** Clean *)

(** The elements kept so far, last first. *)
Definition push_element (root : bool) (kept : list string) (e : string) : list string :=
  if bool_decide (e = "") || bool_decide (e = ".") then kept
  else if bool_decide (e = "..") then
    match kept with
    | top :: rest => if bool_decide (top = "..") then ".." :: kept else rest
    | [] => if root then [] else [".."]
    end
  else e :: kept.

Definition elements (path : string) : list string := ProxyToken.split "/" path.

Definition path_text (root : bool) (l : list string) : string :=
  let text := (if root then "/" else "") +:+ join "/" l in if bool_decide (text = "") then "." else text.

Definition Clean (path : string) : string :=
  let root := rooted path in path_text root (rev (foldl (push_element root) [] (elements path))).

(** [filepath.Abs]: [cwd] is the working directory. *)
Definition Abs (cwd : res string) (path : string) : res string :=
  if IsAbs path then Ok (Clean path) else
  match cwd with
  | Err e => Err e
  | Ok wd => Ok (Clean (wd +:+ "/" +:+ path))
  end.

(** ** Rel *)

(** The elements as [Rel] walks over them: the root is one empty element. *)
Definition rel_elements (path : string) : list string := if bool_decide (path = "/") then [""] else elements path.

Fixpoint drop_common (b t : list string) : list string * list string :=
  match b, t with
  | x :: b', y :: t' => if bool_decide (x = y) then drop_common b' t' else (b, t)
  | _, _ => (b, t)
  end.

(** [None] is an error. *)
Definition Rel (basepath targpath : string) : option string :=
  let base := Clean basepath in
  let targ := Clean targpath in
  if bool_decide (targ = base) then Some "." else
  let base := if bool_decide (base = ".") then "" else base in
  if xorb (rooted base) (rooted targ) then None else
  if bool_decide (base = "") then Some targ else
  let '(b, t) := drop_common (rel_elements base) (rel_elements targ) in
  match b, t with
  | [], _ => Some (join "/" t)
  | e :: _, _ :: _ => if bool_decide (e = "..") then None else Some (join "/" ((const ".." <$> b) ++ t))
  | _, [] => Some (join "/" (const ".." <$> b))
  end.

(** [filepath.Ext]: from the last dot of the last element. *)
Definition Ext (path : string) : string :=
  let base := match rcut "/" path with Some (_, base) => base | None => path end in
  match rcut "." base with Some (_, ext) => "." +:+ ext | None => "" end.

Example clean_1 : Clean "/a/./b//../c/" = "/a/c" /\ Clean "../x/.." = ".." /\ Clean "" = "." /\ Clean "/../a" = "/a" /\ Clean "/" = "/".
Proof. by vm_compute. Qed.
Example rel_1 : Rel "/a/b" "/a/b/c/d" = Some "c/d" /\ Rel "/a/b" "/a/c" = Some "../c" /\ Rel "/" "/x" = Some "x" /\ Rel "/a" "/" = Some ".." /\
  Rel "a" "/b" = None /\ Rel "." "b/c" = Some "b/c".
Proof. by vm_compute. Qed.
Example ext_1 : Ext "/a.b/c" = "" /\ Ext "/x/y.tar.gz" = ".gz" /\ Ext "y." = ".".
Proof. by vm_compute. Qed.

(** ** Absolute clean paths *)

(** An element that stands for itself. *)
Definition proper (e : string) : Prop := e <> "" /\ e <> "." /\ e <> ".." /\ contains_char "/" e = false.

(** The clean absolute path of proper elements. *)
Definition abs_path (l : list string) : string := "/" +:+ join "/" l.

Lemma split_n_join n l : l <> [] -> (length l <= n)%nat -> Forall (fun e => contains_char "/" e = false) l ->
  split_n n "/" (join "/" l) = l.
Proof.
  revert n. induction l as [|e l IH]; intros n Hl Hn Hc; [done|]. apply Forall_cons in Hc as [He Hc]. destruct n as [|n]; [cbn in Hn; lia|].
  destruct l as [|e' l].
  - cbn [join]. destruct n as [|n]; [done|]. cbn [split_n]. by rewrite ProxyToken.cut_none.
  - destruct n as [|n]; [cbn in Hn; lia|]. change (join "/" (e :: e' :: l)) with (e +:+ String "/" (join "/" (e' :: l))).
    change (split_n (S (S n)) "/" (e +:+ String "/" (join "/" (e' :: l)))) with
      (match cut "/" (e +:+ String "/" (join "/" (e' :: l))) with (x, None) => [x] | (x, Some y) => x :: split_n (S n) "/" y end).
    rewrite cut_app by done. rewrite IH; [done|done|cbn in *; lia|done].
Qed.

Lemma join_length l : (length l <= S (String.length (join "/" l)))%nat.
Proof.
  induction l as [|e l IH]; [cbn; lia|]. destruct l as [|e' l]; [cbn; lia|].
  change (join "/" (e :: e' :: l)) with (e +:+ String "/" (join "/" (e' :: l))). rewrite string_length_app. cbn [String.length length] in *. lia.
Qed.

Lemma elements_join l : l <> [] -> Forall (fun e => contains_char "/" e = false) l -> elements (join "/" l) = l.
Proof. intros Hl Hc. apply split_n_join; [done|apply join_length|done]. Qed.

Lemma contains_char_app c s t : contains_char c (s +:+ t) = contains_char c s || contains_char c t.
Proof. induction s as [|a s IH]; [done|]. rewrite string_app_cons. cbn [contains_char]. by rewrite IH, orb_assoc. Qed.

Lemma proper_no_slash l : Forall proper l -> Forall (fun e => contains_char "/" e = false) l.
Proof. intros H. eapply Forall_impl; [exact H|]. by intros e (_&_&_&?). Qed.

Lemma elements_abs l : Forall proper l -> elements (abs_path l) = "" :: match l with [] => [""] | _ => l end.
Proof.
  intros Hl. destruct l as [|e l]; [done|].
  change (abs_path (e :: l)) with (join "/" ("" :: e :: l)). apply elements_join; [done|]. constructor; [done|]. by apply proper_no_slash.
Qed.

Lemma abs_path_inj l l' : Forall proper l -> Forall proper l' -> abs_path l = abs_path l' -> l = l'.
Proof.
  intros Hl Hl' E. apply (f_equal elements) in E. rewrite !elements_abs in E by done. injection E as E.
  destruct l as [|e l], l' as [|e' l']; try done; injection E; intros; subst.
  - by apply Forall_cons in Hl' as [(?&_) _].
  - by apply Forall_cons in Hl as [(?&_) _].
Qed.

Lemma rooted_abs l : rooted (abs_path l) = true.
Proof. unfold rooted, has_prefix, abs_path. cbn. by destruct (join "/" l). Qed.

(** ** [Clean] *)
Lemma push_proper root kept l : Forall proper l -> foldl (push_element root) kept l = rev l ++ kept.
Proof.
  revert kept. induction l as [|e l IH]; intros kept Hl; [done|]. apply Forall_cons in Hl as [(H1&H2&H3&_) Hl]. cbn.
  unfold push_element at 2. rewrite !bool_decide_false by done. cbn [orb]. rewrite IH by done. by rewrite <- app_assoc.
Qed.

Lemma clean_abs_path l : Forall proper l -> Clean (abs_path l) = abs_path l.
Proof.
  intros Hl. unfold Clean. rewrite rooted_abs, elements_abs by done. cbn [foldl].
  change (push_element true [] "") with (@nil string).
  assert (foldl (push_element true) [] match l with [] => [""] | _ => l end = rev l) as ->.
  { destruct l; [done|]. rewrite push_proper by done. apply app_nil_r. }
  rewrite rev_involutive. done.
Qed.

Lemma push_rooted kept l : Forall (fun e => contains_char "/" e = false) l -> Forall proper kept ->
  Forall proper (foldl (push_element true) kept l).
Proof.
  revert kept. induction l as [|e l IH]; intros kept Hl Hk; [done|]. apply Forall_cons in Hl as [He Hl]. cbn. apply IH; [done|].
  unfold push_element. case_bool_decide as H1; [done|]. case_bool_decide as H2; [done|]. cbn [orb]. case_bool_decide as H3.
  - destruct kept as [|top rest]; [done|]. apply Forall_cons in Hk as [(_&_&Ht&_) Hk]. by rewrite bool_decide_false.
  - constructor; [done|done].
Qed.

Lemma cut_no_sep sep s x y : cut sep s = (x, y) -> contains_char sep x = false.
Proof.
  revert x y. induction s as [|a s IH]; intros x y H; cbn in H; [by simplify_eq|].
  destruct (Ascii.eqb_spec a sep) as [->|Hne]; [by simplify_eq|]. destruct (cut sep s) as [x' y'] eqn:E. simplify_eq. cbn.
  rewrite (IH _ _ eq_refl). destruct (Ascii.eqb_spec a sep); [done|]. done.
Qed.

Lemma split_n_clean n sep s : (String.length s < n)%nat -> Forall (fun e => contains_char sep e = false) (split_n n sep s).
Proof.
  revert s. induction n as [|n IH]; intros s Hn; [lia|]. destruct n as [|n].
  - destruct s; [|cbn in Hn; lia]. repeat constructor.
  - change (split_n (S (S n)) sep s) with (match cut sep s with (x, None) => [x] | (x, Some y) => x :: split_n (S n) sep y end).
    destruct (cut sep s) as [x [y|]] eqn:E; constructor; try (by eapply cut_no_sep); [|constructor].
    apply IH. apply cut_some in E as [-> _]. rewrite string_length_app in Hn. cbn [String.length] in Hn. lia.
Qed.

Lemma elements_clean path : Forall (fun e => contains_char "/" e = false) (elements path).
Proof. apply split_n_clean. lia. Qed.

(** The elements of a rooted path, with what [.] and [..] stand for. *)
Definition segments (path : string) : list string := rev (foldl (push_element true) [] (elements path)).

(** A rooted path cleans to the path of its segments. *)
Lemma clean_rooted path : rooted path = true -> Forall proper (segments path) /\ Clean path = abs_path (segments path).
Proof.
  intros Hr. split.
  - apply Forall_rev. apply push_rooted; [apply elements_clean|constructor].
  - unfold Clean. rewrite Hr. unfold path_text, abs_path. by rewrite bool_decide_false by done.
Qed.

Lemma segments_abs l : Forall proper l -> segments (abs_path l) = l.
Proof.
  intros Hl. pose proof (clean_abs_path l Hl) as E. destruct (clean_rooted (abs_path l) (rooted_abs l)) as [Hp E'].
  rewrite E in E'. by apply abs_path_inj in E'.
Qed.

Lemma segments_clean path : rooted path = true -> rooted (Clean path) = true /\ segments (Clean path) = segments path.
Proof. intros Hr. destruct (clean_rooted path Hr) as [Hp ->]. by rewrite rooted_abs, segments_abs. Qed.

(** A relative path of parent references and then proper elements. *)
Definition rel_path (n : nat) (l : list string) : string := join "/" (replicate n ".." ++ l).

Lemma push_dots n kept : Forall (fun e => e = "..") kept -> foldl (push_element false) kept (replicate n "..") = replicate n ".." ++ kept.
Proof.
  revert kept. induction n as [|n IH]; intros kept Hk; [done|]. cbn.
  assert (push_element false kept ".." = ".." :: kept) as ->.
  { unfold push_element. cbn. destruct kept as [|top rest]; [done|]. apply Forall_cons in Hk as [-> _]. done. }
  rewrite IH by by constructor. clear IH Hk. induction n as [|n IH]; [done|]. cbn. by rewrite IH.
Qed.

Lemma rel_no_slash n l : Forall proper l -> Forall (fun e => contains_char "/" e = false) (replicate n ".." ++ l).
Proof. intros Hl. apply Forall_app. split; [|by apply proper_no_slash]. by apply Forall_replicate. Qed.

Lemma join_head_char e l : e <> "" -> contains_char "/" e = false -> rooted (join "/" (e :: l)) = false.
Proof.
  intros He Hc. destruct e as [|a e]; [done|]. cbn in Hc. apply orb_false_iff in Hc as [Ha _].
  assert (exists t, join "/" (String a e :: l) = String a t) as [t ->].
  { destruct l; cbn [join]; [eauto|]. rewrite string_app_cons. eauto. }
  unfold rooted, has_prefix. cbn [String.prefix]. destruct (ascii_dec "/" a) as [<-|]; [discriminate Ha|done].
Qed.

Lemma rel_path_rooted n l : Forall proper l -> (0 < n + length l)%nat -> rooted (rel_path n l) = false.
Proof.
  intros Hl Hn. unfold rel_path. destruct n as [|n]; cbn [replicate app].
  - destruct l as [|e l]; [cbn in Hn; lia|]. apply Forall_cons in Hl as [(?&_&_&?) _]. by apply join_head_char.
  - by apply join_head_char.
Qed.

Lemma join_nonempty e l : e <> "" -> join "/" (e :: l) <> "".
Proof. intros He. destruct l; cbn [join]; [done|]. by destruct e; rewrite ?string_app_cons. Qed.

Lemma clean_rel_path n l : Forall proper l -> (0 < n + length l)%nat -> Clean (rel_path n l) = rel_path n l.
Proof.
  intros Hl Hn. unfold Clean. rewrite rel_path_rooted by done.
  assert (replicate n ".." ++ l <> []) as Hne by (intros E; apply (f_equal length) in E; rewrite length_app, length_replicate in E; cbn in E; lia).
  unfold rel_path. rewrite elements_join by (done || by apply rel_no_slash).
  rewrite foldl_app, push_dots, app_nil_r, push_proper by (done || constructor). rewrite rev_app_distr, rev_involutive.
  assert (rev (replicate n "..") = replicate n "..") as ->.
  { clear. induction n as [|n IH]; [done|]. cbn. rewrite IH. clear IH. induction n as [|n IH]; [done|]. cbn. by rewrite IH. }
  unfold path_text. rewrite string_app_nil_l, bool_decide_false; [done|].
  destruct n as [|n]; cbn [replicate app]; [|by apply join_nonempty]. destruct l as [|e l]; [cbn in Hn; lia|].
  apply Forall_cons in Hl as [(?&_) _]. by apply join_nonempty.
Qed.

(** ** [Rel] *)
Definition apart (b t : list string) : Prop := match b, t with x :: _, y :: _ => x <> y | _, _ => True end.

Lemma drop_common_spec b t : exists c b' t', drop_common b t = (b', t') /\ b = c ++ b' /\ t = c ++ t' /\ apart b' t'.
Proof.
  revert t. induction b as [|x b IH]; intros t; [by exists [], [], t|]. destruct t as [|y t]; [by exists [], (x :: b), []|]. cbn.
  case_bool_decide as E; [|by exists [], (x :: b), (y :: t)]. subst. destruct (IH t) as (c&b'&t'&->&->&->&?). by exists (y :: c), b', t'.
Qed.

Lemma rel_elements_abs l : Forall proper l -> rel_elements (abs_path l) = "" :: l.
Proof.
  intros Hl. unfold rel_elements. destruct l as [|e l]; [done|]. rewrite elements_abs by done. rewrite bool_decide_false; [done|].
  change "/" with (abs_path []). intros E. by apply abs_path_inj in E.
Qed.

(** Two absolute paths: what is left of both below their common directory. *)
Lemma rel_abs b t : Forall proper b -> Forall proper t -> exists c b' t', b = c ++ b' /\ t = c ++ t' /\ apart b' t' /\
  Rel (abs_path b) (abs_path t) = Some (if bool_decide (t = b) then "." else rel_path (length b') t').
Proof.
  intros Hb Ht. destruct (drop_common_spec b t) as (c&b'&t'&E&Eb&Et&Ha). exists c, b', t'. split_and!; [done..|].
  unfold Rel. rewrite !clean_abs_path by done. destruct (decide (t = b)) as [Heq|Hne].
  - rewrite (bool_decide_true (t = b)) by done. by rewrite bool_decide_true by by rewrite Heq.
  - rewrite (bool_decide_false (t = b)) by done.
    rewrite (bool_decide_false (abs_path t = abs_path b)) by (intros ?; by apply Hne, abs_path_inj).
    rewrite (bool_decide_false (abs_path b = ".")) by done. rewrite !rooted_abs.
    cbn [xorb]. rewrite (bool_decide_false (abs_path b = "")) by done. rewrite !rel_elements_abs by done. cbn [drop_common].
    rewrite bool_decide_true, E by done. unfold rel_path.
    assert (forall l : list string, const ".." <$> l = replicate (length l) "..") as Hc by (induction l as [|? l IHl]; [done|]; cbn; by rewrite IHl).
    rewrite Hc. destruct b' as [|e b']; [done|]. destruct t' as [|e' t']; [by rewrite app_nil_r|].
    rewrite bool_decide_false; [done|]. rewrite Eb in Hb. apply Forall_app in Hb as [_ [(_&_&?&_) _]%Forall_cons]. done.
Qed.

Lemma rel_rooted base target : rooted base = true -> rooted target = true ->
  Rel base target = Rel (abs_path (segments base)) (abs_path (segments target)).
Proof.
  intros Hb Ht. destruct (clean_rooted base Hb) as [Pb Eb], (clean_rooted target Ht) as [Pt Et].
  unfold Rel. rewrite Eb, Et, !clean_abs_path by done. done.
Qed.

(** An absolute path of [Abs]. *)
Lemma abs_rooted cwd path p : (forall wd, cwd = Ok wd -> rooted wd = true) -> Abs cwd path = Ok p -> rooted p = true.
Proof.
  intros Hc. unfold Abs, IsAbs. destruct (rooted path) eqn:E; [intros [= <-]; by apply segments_clean|].
  destruct cwd as [wd|]; [|done]. intros [= <-]. specialize (Hc wd eq_refl). apply segments_clean. unfold rooted, has_prefix in *.
  destruct wd as [|a wd]; [done|]. rewrite string_app_cons. cbn [String.prefix] in *. destruct (ascii_dec "/" a); [|done]. by destruct (wd +:+ _).
Qed.

End FilePath.
Export FilePath.
