(* ===== verification/SysConfig.v ===== *)
(** The settings of the host worker (worker-sys/internal/config) and the hello
    it introduces itself with (internal/runner/hello_builder.go).  Its
    source.go, its label parser and its default call timeout are word for word
    those of the docker worker, so the definitions of Source and DockerConfig
    are used. *)
From S2P Require Import Prelude.
From S2P Require Import Json.
From S2P Require Import Proto.
From S2P Require Import AuthText.
From S2P Require Import JsonText.
From S2P Require Import Source.
From S2P Require Import DockerConfig.
Import Source.
Local Open Scope Z_scope.

Module SysConfig.

(** ** config.go *)
Definition defaultExecutorKind : string := "sys".
Definition defaultComputerUseOutputMaxByte : Z := 1024 * 1024.
Definition computerUseWhitelistModePrefix : string := "prefix".
Definition computerUseWhitelistModeExact : string := "exact".
Definition computerUseWhitelistModeAllowAll : string := "allow_all".
Definition defaultMaxInflight : Z := 1.

Record Config := mkSysConfig {
  ConfigFile : string;
  ConsoleGRPCTarget : string;
  ConsoleTLS : bool;
  WorkerID : string;
  WorkerSecret : string;
  HeartbeatInterval : duration;
  HeartbeatJitter : Z;
  CallTimeout : duration;
  NodeName : string;
  ExecutorKind : string;
  Labels : gmap string string;
  ComputerUseOutputLimitByte : Z;
  ComputerUseWhitelistMode : string;
  ComputerUseWhitelist : list string;
  ReadImageAllowedPaths : list string;
  ComputerUseMaxInflight : Z;
  ReadImageMaxInflight : Z;
  LogLevel : string;
  LogFormat : string;
  LogAddSource : bool }.

Definition parseComputerUseWhitelistMode (raw : string) : string :=
  let mode := to_lower (trim raw) in
  if bool_decide (mode ∈ [computerUseWhitelistModePrefix; computerUseWhitelistModeExact; computerUseWhitelistModeAllowAll])
  then mode else computerUseWhitelistModeExact.

(** The loop that trims the entries, skips blank ones and keeps each once. *)
Definition keep_entry (acc : list string * gset string) (entry : string) : list string * gset string :=
  let '(result, seen) := acc in
  let value := trim entry in
  if bool_decide (value = "") then acc else
  if bool_decide (value ∈ seen) then acc else (result ++ [value], {[value]} ∪ seen).

Definition text_list (raw : string) : list string :=
  if bool_decide (trim raw = "") then [] else
  match unmarshal_items dec_string "" [] raw with
  | None => []
  | Some decoded => (foldl keep_entry ([], ∅) decoded).1
  end.

Definition parseComputerUseWhitelist : string -> list string := text_list.
Definition parseReadImageAllowedPaths : string -> list string := text_list.

Definition load_config (s : source) : Config :=
  let wget := DockerConfig.wget in
  let envPrefix := DockerConfig.envPrefix in
  let int := positiveInt envPrefix s in
  let heartbeatSec := int "WORKER_HEARTBEAT_INTERVAL_SEC" DockerConfig.defaultHeartbeatInterval in
  let heartbeatJitter := percent envPrefix s "WORKER_HEARTBEAT_JITTER_PCT" DockerConfig.defaultHeartbeatJitter in
  let callTimeoutSec := int "WORKER_CALL_TIMEOUT_SEC" (DockerConfig.defaultCallTimeoutSec heartbeatSec) in
  let outputLimit := int "WORKER_COMPUTER_USE_OUTPUT_LIMIT_BYTES" defaultComputerUseOutputMaxByte in
  let whitelistMode := parseComputerUseWhitelistMode (wget s "WORKER_COMPUTER_USE_COMMAND_WHITELIST_MODE") in
  let whitelist := parseComputerUseWhitelist (wget s "WORKER_COMPUTER_USE_COMMAND_WHITELIST") in
  let readImageAllowedPaths := parseReadImageAllowedPaths (wget s "WORKER_READ_IMAGE_ALLOWED_PATHS") in
  mkSysConfig (src_path s) (stringValue envPrefix s "WORKER_CONSOLE_GRPC_TARGET" DockerConfig.defaultConsoleTarget)
    (negb (bool_decide (wget s "WORKER_CONSOLE_INSECURE" = "true"))) (trim (wget s "WORKER_ID")) (trim (wget s "WORKER_SECRET"))
    (DockerConfig.seconds heartbeatSec) heartbeatJitter (DockerConfig.seconds callTimeoutSec)
    (wget s "WORKER_NODE_NAME") defaultExecutorKind (DockerConfig.parseLabels (wget s "WORKER_LABELS"))
    outputLimit whitelistMode whitelist readImageAllowedPaths
    (int "WORKER_COMPUTER_USE_MAX_INFLIGHT" defaultMaxInflight) (int "WORKER_READ_IMAGE_MAX_INFLIGHT" defaultMaxInflight)
    (logLevel envPrefix s "WORKER_LOG_LEVEL" DockerConfig.defaultLogLevel)
    (logFormat envPrefix s "WORKER_LOG_FORMAT" DockerConfig.defaultLogFormat)
    (boolValue envPrefix s "WORKER_LOG_ADD_SOURCE" DockerConfig.defaultLogAddSource).

Definition Load (p : process) : res Config :=
  match newSource DockerConfig.configFileEnvKey DockerConfig.encodeTable p with
  | Ok s => Ok (load_config s)
  | Err e => Err e
  end.

(** ** hello_builder.go *)
Definition computerUseCapabilityName : string := "computeruse".
Definition computerUseCapabilityDeclared : string := "computerUse".
Definition readImageCapabilityName : string := "readimage".
Definition readImageCapabilityDeclared : string := "readImage".

Definition maxInflightOrDefault (value : Z) : Z := if value <=? 0 then 1 else value.

(** [goos] and [goarch] are those of the machine. *)
Definition buildHello (version goos goarch : string) (cfg : Config) : res ConnectHello :=
  let nodeName := trim (NodeName cfg) in
  let nodeName := if bool_decide (nodeName = "") then "worker-sys-" +:+ take_str 8 (WorkerID cfg) else nodeName in
  Ok (mkHello (WorkerID cfg) nodeName (ExecutorKind cfg) (<["arch" := goarch]> (<["goos" := goos]> (Labels cfg))) version
        [Some (mkCapability computerUseCapabilityDeclared (i32 (maxInflightOrDefault (ComputerUseMaxInflight cfg))));
         Some (mkCapability readImageCapabilityDeclared (i32 (maxInflightOrDefault (ReadImageMaxInflight cfg))))]
        (WorkerSecret cfg) None).

(** ** What a list setting holds *)
Section lists.

Definition entries_ok (acc : list string * gset string) : Prop :=
  NoDup acc.1 /\ Forall (fun e => e <> "" /\ trim e = e) acc.1 /\ forall e, e ∈ acc.2 <-> e ∈ acc.1.

Lemma keep_entry_ok acc entry : entries_ok acc -> entries_ok (keep_entry acc entry).
Proof.
  destruct acc as [l seen]. intros (Hn&Hf&Hs). unfold keep_entry. case_bool_decide as H1; [done|]. case_bool_decide as H2; [done|].
  cbn in *. assert (trim entry ∉ l) as Hnot by by rewrite <- Hs. unfold entries_ok. cbn [fst snd]. split_and!.
  - apply NoDup_app. split_and!; [done| |apply NoDup_singleton]. by intros e He ->%list_elem_of_singleton.
  - apply Forall_app. split; [done|]. constructor; [|constructor]. split; [done|]. apply trim_trim.
  - intros e. rewrite elem_of_union, elem_of_singleton, elem_of_app, list_elem_of_singleton, Hs. tauto.
Qed.

Lemma keep_entries_ok l : forall acc, entries_ok acc -> entries_ok (foldl keep_entry acc l).
Proof. induction l as [|e l IH]; intros acc H; [done|]. cbn. by apply IH, keep_entry_ok. Qed.

Lemma text_list_ok raw : NoDup (text_list raw) /\ Forall (fun e => e <> "" /\ trim e = e) (text_list raw).
Proof.
  unfold text_list. case_bool_decide; [by split; constructor|]. destruct (unmarshal_items _ _ _ _) as [decoded|]; [|by split; constructor].
  destruct (keep_entries_ok decoded ([], ∅)) as (?&?&?); [|done]. split_and!; [constructor|constructor|]. cbn. set_solver.
Qed.

(** Every entry of the array is there, trimmed. *)
Lemma keep_entries_elem l : forall acc e, entries_ok acc -> e ∈ (foldl keep_entry acc l).1 <-> e ∈ acc.1 \/ e <> "" /\ e ∈ trim <$> l.
Proof.
  induction l as [|x l IH]; intros acc e H; cbn [foldl fmap list_fmap].
  - rewrite elem_of_nil. tauto.
  - rewrite IH by by apply keep_entry_ok. destruct acc as [r seen]. destruct H as (_&_&Hs). cbn in Hs. unfold keep_entry.
    change (foldr _ _ _) with (trim <$> l). rewrite elem_of_cons.
    case_bool_decide as H1; [cbn; split; [tauto|]; intros [?|[? [->|?]]]; tauto|]. case_bool_decide as H2; cbn [fst].
    + rewrite Hs in H2. split; [tauto|]. intros [?|[? [->|?]]]; tauto.
    + rewrite elem_of_app, list_elem_of_singleton. split; [intros [[?| ->]|?]; tauto|]. intros [?|[? [?|?]]]; tauto.
Qed.

End lists.

End SysConfig.
