(* ===== verification/SysExecutor.v ===== *)
(** Commands of the host worker (worker-sys/internal/runner): computer_use.go,
    read_image.go and capability_executor.go.

    What the shell answers, the file system at each system call, MIME tables
    and the upload's HTTP exchange are inputs.  A file is known by its identity
    (device and inode), which is what [os.SameFile] compares. *)
From stdpp Require Import pretty.
From S2P Require Import Prelude.
From S2P Require Import Json.
From S2P Require Import Proto.
From S2P Require Import AuthText.
From S2P Require Import JsonText.
From S2P Require Import OwnerScope.
From S2P Require Import Dispatch.
From S2P Require Import WorkerTerminal.
From S2P Require Import WorkerResource.
From S2P Require Import WorkerExecutor.
From S2P Require Import Net.
From S2P Require Import ProxyToken.
From S2P Require Import Url.
From S2P Require Import FilePath.
From S2P Require Import SysConfig.
Local Open Scope Z_scope.

Module SysExecutor.

(** ** computer_use.go *)
Definition computerUseCodeInvalidPayload : string := "invalid_payload".
Definition computerUseCodeCommandNotAllowed : string := "command_not_allowed".

(** [newComputerUseError] and [newReadImageError]. *)
Definition coded (code message : string) : error := CommandExecutionError (trim code) (trim message).

Record computerUseRunResult := mkComputerUseResult {
  cu_Stdout : string;
  cu_Stderr : string;
  cu_ExitCode : Z;
  cu_StdoutTruncated : bool;
  cu_StderrTruncated : bool }.

Record computerUseExecutor := mkComputerUse {
  outputLimitBytes : Z;
  whitelistMode : string;
  whitelist : list string }.

Definition newComputerUseExecutor (limit : Z) (mode : string) (list : list string) : computerUseExecutor :=
  mkComputerUse (if limit <=? 0 then 1024 * 1024 else limit) mode list.

Definition isCommandAllowed (e : computerUseExecutor) (command : string) : bool :=
  if bool_decide (whitelistMode e = SysConfig.computerUseWhitelistModeAllowAll) then true else
  if bool_decide (whitelistMode e = SysConfig.computerUseWhitelistModePrefix)
  then existsb (fun entry => has_prefix entry command) (whitelist e)
  else existsb (fun entry => bool_decide (command = entry)) (whitelist e).

(** How [exec.Cmd.Run] ended: [ShellWaitDelay] is [exec.ErrWaitDelay],
    [ShellExit] an [exec.ExitError]. *)
Inductive shell_end :=
  | ShellDone (exitCode : Z)
  | ShellExit (exitCode : Z)
  | ShellWaitDelay
  | ShellError (e : error).

Record shell_answer := mkShell { sh_stdout : string; sh_stderr : string; sh_end : shell_end }.

(** The arguments of the shell, away from Windows. *)
Definition buildShellCommand (command : string) : list string := ["/bin/sh"; "-lc"; command].

(** The result, and the commands given to a shell. *)
Definition computerUse_Execute (shell : list string -> shell_answer) (e : computerUseExecutor) (command : string)
    : res computerUseRunResult * list (list string) :=
  let command := trim command in
  if bool_decide (command = "") then (Err (coded computerUseCodeInvalidPayload "command is required"), []) else
  if negb (isCommandAllowed e command)
  then (Err (coded computerUseCodeCommandNotAllowed "command is blocked by whitelist policy"), []) else
  let args := buildShellCommand command in
  let answer := shell args in
  let finished exitCode :=
    let '(stdout, stdoutTruncated) := truncateByBytes (sh_stdout answer) (outputLimitBytes e) in
    let '(stderr, stderrTruncated) := truncateByBytes (sh_stderr answer) (outputLimitBytes e) in
    Ok (mkComputerUseResult stdout stderr exitCode stdoutTruncated stderrTruncated) in
  (match sh_end answer with
   | ShellDone exitCode | ShellExit exitCode => finished exitCode
   | ShellWaitDelay => Err (Sentinel ErrContextDeadlineExceeded)
   | ShellError e => Err (if is_ctx_error e then e else Wrapped "shell execution failed: " e "")
   end, [args]).

(** ** read_image.go: paths *)
Definition readImageCodeInvalidPayload : string := "invalid_payload".
Definition readImageCodeSessionNotFound : string := "session_not_found".
Definition readImageCodeFileNotFound : string := "file_not_found".
Definition readImageCodePathIsDirectory : string := "path_is_directory".
Definition readImageCodePathNotAllowed : string := "path_not_allowed".
Definition readImageSessionComputerUse : string := "computerUse".
Definition readImageActionValidate : string := "validate".
Definition readImageActionRead : string := "read".
Definition readImageActionExport : string := "export".
Definition readImageDetectSniffByteLimit : nat := 512.

Record file_info := mkInfo { fi_id : Z; fi_dir : bool; fi_size : Z }.

(** The file system at a moment.  [None] is an error that is
    [os.ErrNotExist]. An open file is its identity; [fs_FileStat] says whether it
    is a directory, and its size. *)
Record file_system := mkFS {
  fs_cwd : res string;
  fs_EvalSymlinks : string -> option (res string);
  fs_Stat : string -> option (res file_info);
  fs_Open : string -> option (res Z);
  fs_FileStat : Z -> res (bool * Z);
  fs_content : Z -> res string }.

(** The system calls of one execution, in order. *)
Inductive moment := AtNormalize | AtOpen | AtFileStat | AtReal | AtRule (i : nat) | AtStat | AtSniff | AtRead | AtExportOpen | AtExportStat | AtUpload.

Record readImagePathRule := mkRule { rule_path : string; rule_isDir : bool }.

(** [None] is an error. *)
Definition normalizeReadImagePath (cwd : res string) (rawPath : string) : option string :=
  let pathValue := trim rawPath in
  if bool_decide (pathValue = "") then None else
  match Abs cwd (Clean pathValue) with
  | Ok absPath => Some (Clean absPath)
  | Err _ => None
  end.

Definition hasTrailingPathSeparator (pathValue : string) : bool := has_suffix "/" pathValue || has_suffix (String backslash "") pathValue.

Definition compileReadImagePathRule (fs : file_system) (rawPath : string) : option readImagePathRule :=
  let pathValue := trim rawPath in
  if bool_decide (pathValue = "") then None else
  match normalizeReadImagePath (fs_cwd fs) pathValue with
  | None => None
  | Some normalizedPath =>
      let isDir := match fs_Stat fs normalizedPath with Some (Ok info) => fi_dir info | _ => hasTrailingPathSeparator pathValue end in
      Some (mkRule normalizedPath isDir)
  end.

Definition rule_key (rule : readImagePathRule) : string := rule_path rule +:+ (if rule_isDir rule then "|dir" else "|file").

Definition add_rule (fs : file_system) (acc : list readImagePathRule * gset string) (entry : string)
    : list readImagePathRule * gset string :=
  let '(rules, seen) := acc in
  match compileReadImagePathRule fs entry with
  | None => acc
  | Some rule => if bool_decide (rule_key rule ∈ seen) then acc else (rules ++ [rule], {[rule_key rule]} ∪ seen)
  end.

Definition compileReadImagePathRules (fs : file_system) (allowedPaths : list string) : list readImagePathRule :=
  (foldl (add_rule fs) ([], ∅) allowedPaths).1.

Definition readImagePathWithin (basePath targetPath : string) : bool :=
  match Rel basePath targetPath with
  | None => false
  | Some rel =>
      let cleanRel := Clean rel in
      if bool_decide (cleanRel = ".") then true else
      if bool_decide (cleanRel = "..") || has_prefix "../" cleanRel then false else negb (IsAbs cleanRel)
  end.

Definition readImagePathsEqual (left right : string) : bool :=
  match Rel left right with
  | None => false
  | Some rel => bool_decide (Clean rel = ".")
  end.

Definition readImagePathRuleMatches (rule : readImagePathRule) (pathValue : string) : bool :=
  if rule_isDir rule then readImagePathWithin (rule_path rule) pathValue else readImagePathsEqual (rule_path rule) pathValue.

Definition isPathLexicallyAllowed (rules : list readImagePathRule) (pathValue : string) : bool :=
  existsb (fun rule => readImagePathRuleMatches rule pathValue) rules.

(** [None]: the error is [os.ErrNotExist]. *)
Definition evalReadImageRealPath (fs : file_system) (pathValue : string) : option (res string) :=
  match fs_EvalSymlinks fs pathValue with
  | None => None
  | Some (Err e) => Some (Err e)
  | Some (Ok resolved) =>
      match Abs (fs_cwd fs) resolved with
      | Err e => Some (Err e)
      | Ok absPath => Some (Ok (Clean absPath))
      end
  end.

Fixpoint allowed_by (world : moment -> file_system) (i : nat) (rules : list readImagePathRule) (resolvedPath : string) : res bool :=
  match rules with
  | [] => Ok false
  | rule :: rules =>
      match evalReadImageRealPath (world (AtRule i)) (rule_path rule) with
      | None => allowed_by world (S i) rules resolvedPath
      | Some (Err e) => Err e
      | Some (Ok resolvedRulePath) =>
          if (if rule_isDir rule then readImagePathWithin resolvedRulePath resolvedPath else readImagePathsEqual resolvedRulePath resolvedPath)
          then Ok true else allowed_by world (S i) rules resolvedPath
      end
  end.

Definition isPathReallyAllowed (world : moment -> file_system) (rules : list readImagePathRule) (pathValue : string) : option (res bool) :=
  if bool_decide (rules = []) then Some (Ok false) else
  match evalReadImageRealPath (world AtReal) pathValue with
  | None => None
  | Some (Err e) => Some (Err e)
  | Some (Ok resolvedPath) => Some (allowed_by world 0 rules resolvedPath)
  end.

Definition not_allowed : error := coded readImageCodePathNotAllowed "file path is not allowed".

Definition ensureReadImagePathBinding (world : moment -> file_system) (rules : list readImagePathRule) (pathValue : string)
    (openedInfo : file_info) : res unit :=
  match isPathReallyAllowed world rules pathValue with
  | None => Err not_allowed
  | Some (Err e) => Err e
  | Some (Ok false) => Err not_allowed
  | Some (Ok true) =>
      match fs_Stat (world AtStat) pathValue with
      | None => Err not_allowed
      | Some (Err e) => Err e
      | Some (Ok currentInfo) =>
          if fi_dir currentInfo then Err not_allowed else
          if negb (fi_id openedInfo =? fi_id currentInfo) then Err not_allowed else Ok tt
      end
  end.

(** ** read_image.go: files *)
Record readImageRequest := mkReadRequest {
  rd_SessionID : string;
  rd_FilePath : string;
  rd_Action : string;
  rd_SignedURL : string }.

Record readImageRunResult := mkReadResult {
  ir_SessionID : string;
  ir_FilePath : string;
  ir_MIMEType : string;
  ir_SizeBytes : Z;
  ir_Blob : string }.

(** A request that went out. *)
Record upload := mkUpload { up_URL : string; up_ContentLength : Z; up_Body : string }.

(** What the outside does during one execution: [rn_ctx] is [ctx.Err] at its
    beginning, [rn_request] the error of building the request, [rn_do] the
    status, its text and the body of the answer. *)
Record read_env := mkReadEnv {
  rn_ctx : option error;
  rn_world : moment -> file_system;
  rn_TypeByExtension : string -> string;
  rn_ParseMediaType : string -> option string;
  rn_DetectContentType : string -> string;
  rn_request : string -> option error;
  rn_do : res (Z * string * string) }.

Definition normalizeReadImageAction (action : string) : string :=
  let a := trim (to_lower action) in
  if bool_decide (a = "") then readImageActionValidate else
  if bool_decide (a ∈ [readImageActionValidate; readImageActionRead; readImageActionExport]) then a else "".

Definition openReadImageFile (world : moment -> file_system) (filePath : string) : res (Z * file_info) :=
  match fs_Open (world AtOpen) filePath with
  | None => Err (coded readImageCodeFileNotFound "file not found")
  | Some (Err e) => Err e
  | Some (Ok file) =>
      match fs_FileStat (world AtFileStat) file with
      | Err e => Err e
      | Ok (isDir, size) =>
          if isDir then Err (coded readImageCodePathIsDirectory "path is directory") else Ok (file, mkInfo file isDir size)
      end
  end.

(** The media type without its parameters, where it parses. *)
Definition media_type (env : read_env) (mimeType : string) : string :=
  match rn_ParseMediaType env mimeType with
  | Some parsed => if bool_decide (trim parsed = "") then mimeType else parsed
  | None => mimeType
  end.

Definition detectReadImageMIMEFromFile (env : read_env) (filePath : string) (file : Z) : res string :=
  let ext := to_lower (trim (Ext filePath)) in
  let known := if bool_decide (ext = "") then "" else trim (rn_TypeByExtension env ext) in
  if negb (bool_decide (known = "")) then Ok (media_type env known) else
  match fs_content (rn_world env AtSniff) file with
  | Err e => Err e
  | Ok content =>
      let buf := take_str readImageDetectSniffByteLimit content in
      if bool_decide (buf = "") then Ok "application/octet-stream" else
      let detected := trim (rn_DetectContentType env buf) in
      if bool_decide (detected = "") then Ok "application/octet-stream" else Ok (media_type env detected)
  end.

(** The file is opened again by its path; the result, and what went out. *)
Definition putFileToSignedURL (env : read_env) (signedURL filePath : string) : res unit * list upload :=
  match fs_Open (rn_world env AtExportOpen) filePath with
  | None => (Err (ErrorString "open export file: file does not exist"), [])
  | Some (Err e) => (Err (Wrapped "open export file: " e ""), [])
  | Some (Ok file) =>
      match fs_FileStat (rn_world env AtExportStat) file with
      | Err e => (Err (Wrapped "stat export file: " e ""), [])
      | Ok (_, size) =>
          match rn_request env signedURL with
          | Some e => (Err (Wrapped "build upload request: " e ""), [])
          | None =>
              let sent := match fs_content (rn_world env AtUpload) file with
                          | Ok body => [mkUpload signedURL size body]
                          | Err _ => []
                          end in
              match rn_do env with
              | Err e => (Err (Wrapped "upload export file: " e ""), sent)
              | Ok (code, text, body) =>
                  if (code <? 200) || (300 <=? code) then
                    let message := trim (take_str (Z.to_nat 1024) body) in
                    let message := if bool_decide (message = "") then text else message in
                    (Err (ErrorString ("upload export file failed: " +:+ message)), sent)
                  else (Ok tt, sent)
              end
          end
      end
  end.

Definition readImage_failed (text : string) (e : error) : error := Wrapped text e "".

(** An error of the executor's own kind is kept. *)
Definition or_coded (text : string) (e : error) : error :=
  match as_command_error e with Some (code, message) => CommandExecutionError code message | None => readImage_failed text e end.

(** [Execute] from the check of the session on. *)
Definition readImage_run (env : read_env) (rules : list readImagePathRule) (req : readImageRequest)
    : res readImageRunResult * list upload :=
  if negb (bool_decide (trim (rd_SessionID req) = readImageSessionComputerUse))
  then (Err (coded readImageCodeSessionNotFound "session not found"), []) else
  let filePath := trim (rd_FilePath req) in
  if bool_decide (filePath = "") then (Err (coded readImageCodeInvalidPayload "session_id and file_path are required"), []) else
  let action := normalizeReadImageAction (rd_Action req) in
  if bool_decide (action = "") then (Err (coded readImageCodeInvalidPayload "action must be validate or read"), []) else
  match normalizeReadImagePath (fs_cwd (rn_world env AtNormalize)) filePath with
  | None => (Err not_allowed, [])
  | Some normalizedPath =>
  if negb (isPathLexicallyAllowed rules normalizedPath) then (Err not_allowed, []) else
  match openReadImageFile (rn_world env) normalizedPath with
  | Err e => (Err (or_coded "open file failed: " e), [])
  | Ok (file, openedInfo) =>
  match ensureReadImagePathBinding (rn_world env) rules normalizedPath openedInfo with
  | Err e => (Err (or_coded "validate file binding failed: " e), [])
  | Ok _ =>
  match detectReadImageMIMEFromFile env normalizedPath file with
  | Err e => (Err (readImage_failed "detect mime type from file failed: " e), [])
  | Ok mimeType =>
      let result size blob := mkReadResult readImageSessionComputerUse normalizedPath mimeType size blob in
      if bool_decide (action = readImageActionExport) then
        let signedURL := trim (rd_SignedURL req) in
        if bool_decide (signedURL = "") then (Err (coded readImageCodeInvalidPayload "signed_url is required for export"), []) else
        match putFileToSignedURL env signedURL normalizedPath with
        | (Err e, sent) => (Err e, sent)
        | (Ok _, sent) => (Ok (result (fi_size openedInfo) ""), sent)
        end
      else if negb (bool_decide (action = readImageActionRead)) then (Ok (result (fi_size openedInfo) ""), []) else
      match fs_content (rn_world env AtRead) file with
      | Err e => (Err (readImage_failed "read file failed: " e), [])
      | Ok blob => (Ok (result (len blob) blob), [])
      end
  end end end end.

Definition readImage_Execute (env : read_env) (rules : list readImagePathRule) (req : readImageRequest)
    : res readImageRunResult * list upload :=
  match rn_ctx env with
  | Some e => if is_ctx_error e then (Err e, []) else readImage_run env rules req
  | None => readImage_run env rules req
  end.

(** ** capability_executor.go *)
Definition computerUse_field (k : string) : option (json -> string -> string * bool) :=
  if equal_fold k "command" then Some (fun v s => dec_string v s) else None.

Definition readImage_field (k : string) : option (json -> readImageRequest -> readImageRequest * bool) :=
  if equal_fold k "session_id" then Some (fun v p =>
    let '(x, b) := dec_string v (rd_SessionID p) in (mkReadRequest x (rd_FilePath p) (rd_Action p) (rd_SignedURL p), b))
  else if equal_fold k "file_path" then Some (fun v p =>
    let '(x, b) := dec_string v (rd_FilePath p) in (mkReadRequest (rd_SessionID p) x (rd_Action p) (rd_SignedURL p), b))
  else if equal_fold k "action" then Some (fun v p =>
    let '(x, b) := dec_string v (rd_Action p) in (mkReadRequest (rd_SessionID p) (rd_FilePath p) x (rd_SignedURL p), b))
  else if equal_fold k "signed_url" then Some (fun v p =>
    let '(x, b) := dec_string v (rd_SignedURL p) in (mkReadRequest (rd_SessionID p) (rd_FilePath p) (rd_Action p) x, b))
  else None.

Definition marshal_computerUse (r : computerUseRunResult) : payload :=
  PJson (JObject [("stdout", JString (cu_Stdout r)); ("stderr", JString (cu_Stderr r)); ("exit_code", JInt (cu_ExitCode r));
    ("stdout_truncated", JBool (cu_StdoutTruncated r)); ("stderr_truncated", JBool (cu_StderrTruncated r))]).

Definition marshal_readImage (r : readImageRunResult) : payload :=
  PJson (JObject ([("session_id", JString (ir_SessionID r)); ("file_path", JString (ir_FilePath r)); ("mime_type", JString (ir_MIMEType r));
    ("size_bytes", JInt (ir_SizeBytes r))] ++ omit_if (bool_decide (ir_Blob r = "")) ("blob", JString (b64_encode (ir_Blob r))))).

(** The worker during one command: when it arrives and when it is answered. *)
Record sys_env := mkSysEnv {
  sy_now : time;
  sy_later : time;
  sy_shell : list string -> shell_answer;
  sy_computerUse : computerUseExecutor;
  sy_read : read_env;
  sy_rules : list readImagePathRule }.

(** What a command did outside. *)
Record effects := mkEffects { ef_shell : list (list string); ef_uploads : list upload }.
Definition no_effects : effects := mkEffects [] [].

Definition buildComputerUseCommandResult (env : sys_env) (commandID : string) (d : CommandDispatch) : CommandResult * effects :=
  let invalid message := (commandErrorResult (sy_later env) commandID computerUseCodeInvalidPayload message, no_effects) in
  if payload_empty (cmd_PayloadJson d) then invalid "computerUse payload is required" else
  match unmarshal_struct computerUse_field "" (cmd_PayloadJson d) with
  | None => invalid "payload_json is not valid computerUse payload"
  | Some command =>
      if bool_decide (trim command = "") then invalid "computerUse command is required" else
      let '(result, args) := computerUse_Execute (sy_shell env) (sy_computerUse env) command in
      (match result with
       | Err e => execution_error (sy_later env) commandID "computerUse execution" e
       | Ok r => command_result (sy_later env) commandID (marshal_computerUse r)
       end, mkEffects args [])
  end.

Definition buildReadImageCommandResult (env : sys_env) (commandID : string) (d : CommandDispatch) : CommandResult * effects :=
  let invalid message := (commandErrorResult (sy_later env) commandID readImageCodeInvalidPayload message, no_effects) in
  if payload_empty (cmd_PayloadJson d) then invalid "readImage payload is required" else
  match unmarshal_struct readImage_field (mkReadRequest "" "" "" "") (cmd_PayloadJson d) with
  | None => invalid "payload_json is not valid readImage payload"
  | Some decoded =>
      if bool_decide (trim (rd_SessionID decoded) = "") || bool_decide (trim (rd_FilePath decoded) = "")
      then invalid "readImage session_id and file_path are required" else
      let '(result, sent) := readImage_Execute (sy_read env) (sy_rules env) decoded in
      (match result with
       | Err e => execution_error (sy_later env) commandID "readImage execution" e
       | Ok r => command_result (sy_later env) commandID (marshal_readImage r)
       end, mkEffects [] sent)
  end.

Definition buildCommandResultWithContext (env : sys_env) (d : CommandDispatch) : CommandResult * effects :=
  let commandID := trim (cmd_CommandId d) in
  if bool_decide (commandID = "") then (mkResult commandID (Some ("invalid_command_id", "command_id is required")) PEmpty 0, no_effects) else
  if (0 <? cmd_DeadlineUnixMs d) && (cmd_DeadlineUnixMs d <? unix_milli (sy_now env))
  then (commandErrorResult (sy_now env) commandID "deadline_exceeded" "command deadline exceeded", no_effects) else
  let capability := trim (to_lower (cmd_Capability d)) in
  if bool_decide (capability = SysConfig.computerUseCapabilityName) then buildComputerUseCommandResult env commandID d else
  if bool_decide (capability = SysConfig.readImageCapabilityName) then buildReadImageCommandResult env commandID d else
  (commandErrorResult (sy_later env) commandID "unsupported_capability"
     ("capability " +:+ q +:+ cmd_Capability d +:+ q +:+ " is not supported"), no_effects).

End SysExecutor.
