(* ===== verification/SysClient.v ===== *)
(** The client side of the host worker's connection (worker-sys/internal/runner:
    session_client.go and [Run] of runner.go): the handshake, heartbeats,
    reconnection, and the slots that bound how many commands run at a time.

    As in WorkerClient, a select statement is an input that says which case was
    taken.  Sending, waiting for a frame, the durations of the server, the
    delays between sessions and the channels are word for word those of the
    docker worker, so its definitions are used. *)
From S2P Require Import Prelude.
From S2P Require Import Json.
From S2P Require Import Proto.
From S2P Require Import AuthText.
From S2P Require Import JsonText.
From S2P Require Import OwnerScope.
From S2P Require Import Dispatch.
From S2P Require Import WorkerTerminal.
From S2P Require Import WorkerExecutor.
From S2P Require Import WorkerClient.
From S2P Require Import SysConfig.
From S2P Require Import SysExecutor.
Import SysExecutor.
Local Open Scope Z_scope.

Module SysClient.

Definition sessionBusyErrorCode : string := "session_busy".
Definition sessionBusyErrorMessage : string := "session busy".

(** ** Slots *)

(** A channel of tokens: what it can hold and what it holds. *)
Record slot_channel := mkSlots { sc_cap : nat; sc_free : nat }.

Abbreviation commandSlots := (gmap string slot_channel).

Definition newSlotChannel (capacity : Z) : slot_channel :=
  let capacity := if capacity <=? 0 then 1 else capacity in mkSlots (Z.to_nat capacity) (Z.to_nat capacity).

Definition newCommandSlots (cfg : SysConfig.Config) : commandSlots :=
  <[SysConfig.computerUseCapabilityName := newSlotChannel (SysConfig.ComputerUseMaxInflight cfg)]>
  (<[SysConfig.readImageCapabilityName := newSlotChannel (SysConfig.ReadImageMaxInflight cfg)]> ∅).

Definition tryAcquire (capability : string) (s : commandSlots) : bool * commandSlots :=
  match s !! capability with
  | None => (true, s)
  | Some ch =>
      match sc_free ch with
      | O => (false, s)
      | S n => (true, <[capability := mkSlots (sc_cap ch) n]> s)
      end
  end.

Definition release (capability : string) (s : commandSlots) : commandSlots :=
  match s !! capability with
  | None => s
  | Some ch => if (sc_free ch <? sc_cap ch)%nat then <[capability := mkSlots (sc_cap ch) (S (sc_free ch))]> s else s
  end.

(** ** A session's goroutines *)
Record session := mkSession {
  ss_slots : commandSlots;
  ss_running : list CommandDispatch;       (** a goroutine each *)
  ss_outbound : list ConnectRequest;
  ss_acks : list Z;
  ss_errors : list error;
  ss_receiving : bool }.

Definition start_session (cfg : SysConfig.Config) : session := mkSession (newCommandSlots cfg) [] [] [] [] true.

Definition with_error (e : error) (s : session) : session :=
  mkSession (ss_slots s) (ss_running s) (ss_outbound s) (ss_acks s) (WorkerClient.reportSessionErr (ss_errors s) e) (ss_receiving s).

Definition capability_of (d : CommandDispatch) : string := trim (to_lower (cmd_Capability d)).

Definition buildSessionBusyCommandResult (now : time) (d : CommandDispatch) : ConnectRequest :=
  CommandResultFrame (commandErrorResult now (trim (cmd_CommandId d)) sessionBusyErrorCode sessionBusyErrorMessage).

(** [None]: neither the context had ended nor was there room.  [prefer_ctx]: the
    select takes the context where both can be taken. *)
Definition tryEnqueueRequest (prefer_ctx ended : bool) (req : ConnectRequest) (outbound : list ConnectRequest) : option (list ConnectRequest) :=
  if ended && (prefer_ctx || negb (length outbound <? WorkerClient.outboundCapacity)%nat) then None else
  if (length outbound <? WorkerClient.outboundCapacity)%nat then Some (outbound ++ [req]) else None.

(** Whether the receiver goes on, and the session. *)
Definition handleCommandDispatch (now : time) (prefer_ctx ended : bool) (d : CommandDispatch) (s : session) : bool * session :=
  let '(acquired, slots) := tryAcquire (capability_of d) (ss_slots s) in
  if acquired then (true, mkSession slots (ss_running s ++ [d]) (ss_outbound s) (ss_acks s) (ss_errors s) (ss_receiving s)) else
  match tryEnqueueRequest prefer_ctx ended (buildSessionBusyCommandResult now d) (ss_outbound s) with
  | Some outbound => (true, mkSession slots (ss_running s) outbound (ss_acks s) (ss_errors s) (ss_receiving s))
  | None => (false, if ended then s else with_error (ErrorString "enqueue session_busy result: outbound queue is full") s)
  end.

(** The goroutine of a command gives its result away and releases its slot;
    [None]: it still waits. *)
Definition finish_command (prefer_ctx : bool) (ctx : option error) (d : CommandDispatch) (result : ConnectRequest) (s : session)
    : option session :=
  match WorkerClient.enqueueRequest prefer_ctx ctx result (ss_outbound s) with
  | None => None
  | Some sent =>
      let outbound := match sent with Ok outbound => outbound | Err _ => ss_outbound s end in
      let errors := match sent with
                    | Ok _ => ss_errors s
                    | Err e => if is_ctx_error e then ss_errors s
                               else WorkerClient.reportSessionErr (ss_errors s) (Wrapped "enqueue command result: " e "")
                    end in
      Some (mkSession (release (capability_of d) (ss_slots s)) (ss_running s) outbound (ss_acks s) errors (ss_receiving s))
  end.

Definition ackCapacity : nat := 16.

(** What the receiver does with a frame; [None]: it waits for the heartbeat
    loop to take an acknowledgement. *)
Definition receive (now : time) (prefer_ctx ended : bool) (frame : res ConnectResponse) (s : session) : option (bool * session) :=
  match frame with
  | Err e => Some (false, with_error (Wrapped "stream receive failed: " e "") s)
  | Ok (HeartbeatAck intervalSec) =>
      let room := (length (ss_acks s) <? ackCapacity)%nat in
      if ended && (prefer_ctx || negb room) then Some (false, s) else
      if room then Some (true, mkSession (ss_slots s) (ss_running s) (ss_outbound s) (ss_acks s ++ [intervalSec]) (ss_errors s) (ss_receiving s)) else None
  | Ok (CommandDispatchFrame d) => Some (handleCommandDispatch now prefer_ctx ended d s)
  | Ok _ => Some (false, with_error (ErrorString "unexpected response frame") s)
  end.

(** ** What happens in a session, one step at a time

    [ctx] is the context's error once it has ended. The receiver takes a frame,
    a command is answered (its result is that of the executor), the sender takes
    a request, the heartbeat loop takes an acknowledgement. *)
Inductive session_step (env : sys_env) : session -> session -> Prop :=
  | step_receive now prefer_ctx ended frame s s' on :
      ss_receiving s = true -> receive now prefer_ctx ended frame s = Some (on, s') ->
      session_step env s (mkSession (ss_slots s') (ss_running s') (ss_outbound s') (ss_acks s') (ss_errors s') on)
  | step_finish prefer_ctx ctx d before after s s' :
      ss_running s = before ++ d :: after ->
      finish_command prefer_ctx ctx d (CommandResultFrame (buildCommandResultWithContext env d).1)
        (mkSession (ss_slots s) (before ++ after) (ss_outbound s) (ss_acks s) (ss_errors s) (ss_receiving s)) = Some s' ->
      session_step env s s'
  | step_send req outbound s :
      ss_outbound s = req :: outbound ->
      session_step env s (mkSession (ss_slots s) (ss_running s) outbound (ss_acks s) (ss_errors s) (ss_receiving s))
  | step_ack a acks s :
      ss_acks s = a :: acks ->
      session_step env s (mkSession (ss_slots s) (ss_running s) (ss_outbound s) acks (ss_errors s) (ss_receiving s)).

(** ** Heartbeats *)

(** [random max]: what [rand.Int] gives below [max]. *)
Definition jitterDuration (random : Z -> res Z) (base : duration) (jitterPct : Z) : duration :=
  let at_least d := if d <? WorkerClient.minHeartbeatInterval then WorkerClient.minHeartbeatInterval else d in
  if base <=? 0 then WorkerClient.minHeartbeatInterval else
  if jitterPct <=? 0 then at_least base else
  let jitterPct := if 100 <? jitterPct then 100 else jitterPct in
  let jitterRange := Z.quot (i64 (base * jitterPct)) 100 in
  if jitterRange <=? 0 then at_least base else
  match random (i64 (i64 (jitterRange * 2) + 1)) with
  | Err _ => at_least base
  | Ok n => at_least (i64 (base + i64 (n - jitterRange)))
  end.

Import WorkerClient.

Fixpoint heartbeatLoop (jitter : Z) (workerID sessionID : string) (interval : duration) (consecutiveAckTimeouts : Z) (beats : list beat)
    : list (duration * HeartbeatFrame) * option error :=
  match beats with
  | [] => ([], None)
  | b :: beats =>
      let waitFor := jitterDuration (bt_random b) interval jitter in
      match bt_wait b with
      | WaitContext e | WaitError e => ([], Some e)
      | WaitTimer =>
          match bt_enqueue b with
          | Some e => ([], Some (Wrapped "enqueue heartbeat: " e ""))
          | None =>
              let frame := mkHeartbeat workerID sessionID 1 in
              let go interval timeouts :=
                let '(sent, e) := heartbeatLoop jitter workerID sessionID interval timeouts beats in ((waitFor, frame) :: sent, e) in
              match bt_ack b with
              | AckContext e | AckError e => ([(waitFor, frame)], Some e)
              | AckTimer =>
                  let timeouts := consecutiveAckTimeouts + 1 in
                  if 2 <=? timeouts then ([(waitFor, frame)], Some (Sentinel ErrContextDeadlineExceeded)) else go interval timeouts
              | AckReceived intervalSec => go (durationFromServer intervalSec interval) 0
              end
          end
      end
  end.

(** ** A session *)
Record sys_session_env := mkSysSession {
  sn_version : string;
  sn_goos : string;
  sn_goarch : string;
  sn_dial : res unit;
  sn_open : res unit;
  sn_sendHello : res unit;
  sn_ack : first_of * res ConnectResponse;
  sn_beats : list beat }.

(** The frames of the handshake that were sent, the heartbeats, the state. *)
Definition runSession (cfg : SysConfig.Config) (env : sys_session_env)
    : list ConnectRequest * list (duration * HeartbeatFrame) * session_state :=
  let failed sent text e := (sent, [], Ended (Wrapped text e "")) in
  match sn_dial env with
  | Err e => failed [] "dial console: " e
  | Ok _ =>
  match sn_open env with
  | Err e => failed [] "open connect stream: " e
  | Ok _ =>
  match SysConfig.buildHello (sn_version env) (sn_goos env) (sn_goarch env) cfg with
  | Err e => failed [] "build hello: " e
  | Ok hello =>
  match sn_sendHello env with
  | Err e => failed [] "send hello: " e
  | Ok _ =>
  match recvWithTimeout (SysConfig.CallTimeout cfg) (sn_ack env).1 (sn_ack env).2 with
  | Err e => failed [Hello hello] "recv connect_ack: " e
  | Ok (ConnectAck ackSessionID intervalSec _) =>
      let sessionID := trim ackSessionID in
      if bool_decide (sessionID = "") then ([Hello hello], [], Ended (ErrorString "connect_ack.session_id is required")) else
      let heartbeatInterval := durationFromServer intervalSec (SysConfig.HeartbeatInterval cfg) in
      let '(beats, e) := heartbeatLoop (SysConfig.HeartbeatJitter cfg) (SysConfig.WorkerID cfg) sessionID heartbeatInterval 0 (sn_beats env) in
      ([Hello hello], beats, match e with Some e => Ended e | None => Beating end)
  | Ok _ => ([Hello hello], [], Ended (ErrorString "unexpected first response frame"))
  end end end end end.

(** ** Logging: the text of a command, in full. *)
Definition commandDispatchTextForLog (capability text : string) : string :=
  let p := read_json text in
  let rawPayload := trim text in
  if bool_decide (capability = SysConfig.computerUseCapabilityName) then
    match unmarshal_struct computerUse_field "" p with
    | Some command => if bool_decide (trim command = "") then rawPayload else trim command
    | None => rawPayload
    end
  else if bool_decide (capability = SysConfig.readImageCapabilityName) then
    match unmarshal_struct readImage_field (mkReadRequest "" "" "" "") p with
    | Some d =>
        let filePath := trim (rd_FilePath d) in
        if bool_decide (filePath = "") then rawPayload else
        let action := normalizeReadImageAction (rd_Action d) in
        if bool_decide (action = "") then filePath else action +:+ " " +:+ filePath
    | None => rawPayload
    end
  else rawPayload.

(** ** runner.go: [Run] *)

(** The executors that [Run] installs; [fs] is the file system at that time. *)
Definition install (cfg : SysConfig.Config) (fs : file_system) : computerUseExecutor * list readImagePathRule :=
  (newComputerUseExecutor (SysConfig.ComputerUseOutputLimitByte cfg) (SysConfig.ComputerUseWhitelistMode cfg)
     (SysConfig.ComputerUseWhitelist cfg), compileReadImagePathRules fs (SysConfig.ReadImageAllowedPaths cfg)).

(** [rd_before], [rd_after] and [rd_wait] of a round are the context's errors. *)
Definition Run (cfg : SysConfig.Config) (rounds : list round) : list duration * option (res unit) :=
  if bool_decide (trim (SysConfig.WorkerID cfg) = "") then ([], Some (Err (ErrorString "WORKER_ID is required"))) else
  if bool_decide (trim (SysConfig.WorkerSecret cfg) = "") then ([], Some (Err (ErrorString "WORKER_SECRET is required"))) else
  connect_loop initialReconnectDelay rounds.

End SysClient.
