(* ===== verification/SysProps.v ===== *)
(** Lemmas about the host worker: paths compared by their segments, files that
    may be read, commands that may run, and the slots of a session. *)
From S2P Require Import Prelude.
From S2P Require Import Json.
From S2P Require Import Proto.
From S2P Require Import AuthText.
From S2P Require Import JsonText.
From S2P Require Import OwnerScope.
From S2P Require Import Dispatch.
From S2P Require Import Net.
From S2P Require Import ProxyToken.
From S2P Require Import Url.
From S2P Require Import WorkerTerminal.
From S2P Require Import WorkerExecutor.
From S2P Require Import WorkerClient.
From S2P Require Import FilePath.
From S2P Require Import SysConfig.
From S2P Require Import SysExecutor.
From S2P Require Import SysClient.
Import SysExecutor.
Import SysClient.
Local Open Scope Z_scope.

Module SysProps.

(** ** Paths *)
Section paths.

Lemma dots_first n l : (0 < n)%nat -> let p := rel_path n l in bool_decide (p = "..") || has_prefix "../" p = true.
Proof.
  destruct n as [|n]; [lia|]. intros _. cbv zeta. unfold rel_path. cbn [replicate app].
  destruct (replicate n ".." ++ l) as [|e rest]; [done|]. change (join "/" (".." :: e :: rest)) with ("../" +:+ join "/" (e :: rest)).
  rewrite has_prefix_app. apply orb_true_r.
Qed.

Lemma proper_first e l : Forall proper (e :: l) -> let p := join "/" (e :: l) in
  p <> "." /\ p <> ".." /\ has_prefix "../" p = false /\ rooted p = false.
Proof.
  intros [(H1&H2&H3&Hs) Hl]%Forall_cons. cbv zeta.
  assert (forall x : string, contains_char "/" x = false -> x <> e -> join "/" (e :: l) <> x) as Hne.
  { intros x Hx Hxe. destruct l as [|e' l]; [by intros <-|]. change (join "/" (e :: e' :: l)) with (e +:+ String "/" (join "/" (e' :: l))).
    intros <-. by rewrite contains_char_app, orb_true_r in Hx. }
  split_and!; [by apply Hne|by apply Hne| |by apply join_head_char].
  unfold has_prefix. destruct (String.prefix _ _) eqn:E; [|done]. exfalso. apply has_prefix_inv in E. set (t := trim_prefix _ _) in E. clearbody t.
  destruct l as [|e' l].
  - cbn [join] in E. subst e. by rewrite contains_char_app in Hs.
  - change (join "/" (e :: e' :: l)) with (e +:+ String "/" (join "/" (e' :: l))) in E.
    apply (f_equal (cut "/")) in E. rewrite cut_app in E by done. change ("../" +:+ t) with (".." +:+ String "/" t) in E.
    rewrite cut_app in E by done. by injection E as E.
Qed.

Lemma rel_of base target : rooted base = true -> rooted target = true -> exists c b' t',
  segments base = c ++ b' /\ segments target = c ++ t' /\ apart b' t' /\ Forall proper t' /\
  Rel base target = Some (if bool_decide (segments target = segments base) then "." else rel_path (length b') t').
Proof.
  intros Hb Ht. destruct (clean_rooted base Hb) as [Pb _], (clean_rooted target Ht) as [Pt _]. rewrite rel_rooted by done.
  destruct (rel_abs _ _ Pb Pt) as (c&b'&t'&Eb&Et&Ha&E). exists c, b', t'. split_and!; [done..| |done].
  rewrite Et in Pt. by apply Forall_app in Pt as [_ ?].
Qed.

Lemma within_segments base target : rooted base = true -> rooted target = true ->
  readImagePathWithin base target = true <-> segments base `prefix_of` segments target.
Proof.
  intros Hb Ht. destruct (rel_of base target Hb Ht) as (c&b'&t'&Eb&Et&Ha&Pt&Er). unfold readImagePathWithin. rewrite Er.
  case_bool_decide as Heq; [by rewrite Heq|]. destruct (decide (b' = [])) as [->|Hb'].
  - rewrite app_nil_r in Eb. destruct t' as [|e t']; [rewrite app_nil_r in Et; congruence|].
    rewrite clean_rel_path by (done || cbn; lia). unfold rel_path. cbn [length replicate app].
    destruct (proper_first e t' Pt) as (N1&N2&N3&N4). rewrite (bool_decide_false _ N1), (bool_decide_false _ N2), N3. unfold IsAbs. rewrite N4.
    split; [|done]. intros _. rewrite Eb, Et. by exists (e :: t').
  - assert (0 < length b')%nat by (destruct b'; [done|cbn; lia]). rewrite clean_rel_path by (done || lia).
    pose proof (dots_first (length b') t' ltac:(lia)) as Hd. cbv zeta in Hd.
    rewrite (bool_decide_false (rel_path _ _ = ".")).
    2: { intros E. by rewrite E in Hd. }
    rewrite Hd. split; [done|]. rewrite Eb, Et. intros [k Hk]. exfalso. rewrite <- app_assoc in Hk. apply app_inv_head in Hk. subst t'.
    by destruct b'.
Qed.

Lemma equal_segments left right : rooted left = true -> rooted right = true ->
  readImagePathsEqual left right = true <-> segments left = segments right.
Proof.
  intros Hl Hr. destruct (rel_of left right Hl Hr) as (c&b'&t'&Eb&Et&Ha&Pt&Er). unfold readImagePathsEqual. rewrite Er.
  case_bool_decide as Heq; [by rewrite Heq|]. destruct (decide (0 < length b' + length t')%nat) as [Hpos|Hz].
  - rewrite clean_rel_path by done. split; [|congruence]. intros H%(bool_decide_eq_true_1 _). exfalso.
    destruct b' as [|x b']; [|by pose proof (dots_first (length (x :: b')) t' ltac:(cbn; lia)) as Hd; cbv zeta in Hd; rewrite H in Hd].
    destruct t' as [|e t']; [cbn in Hpos; lia|]. by destruct (proper_first e t' Pt) as (N1&_).
  - destruct b', t'; cbn in Hz; try lia. congruence.
Qed.

End paths.

(** ** Files *)
Section files.
Context (world : moment -> file_system).

Definition inside (rule : readImagePathRule) (ruleReal real : string) : Prop :=
  if rule_isDir rule then segments ruleReal `prefix_of` segments real else segments ruleReal = segments real.

(** [os.Getwd] gives an absolute path. *)
Definition absolute_cwd : Prop := forall m wd, fs_cwd (world m) = Ok wd -> rooted wd = true.

(** The file is the one that the path names after its real path was found
    inside an allowed one. *)
Definition bound (rules : list readImagePathRule) (path : string) (file : Z) : Prop :=
  isPathLexicallyAllowed rules path = true /\ fs_Open (world AtOpen) path = Some (Ok file) /\
  (exists real i rule ruleReal,
     evalReadImageRealPath (world AtReal) path = Some (Ok real) /\ rules !! i = Some rule /\
     evalReadImageRealPath (world (AtRule i)) (rule_path rule) = Some (Ok ruleReal) /\ inside rule ruleReal real) /\
  exists info, fs_Stat (world AtStat) path = Some (Ok info) /\ fi_dir info = false /\ fi_id info = file.

Lemma real_rooted m path real : absolute_cwd -> evalReadImageRealPath (world m) path = Some (Ok real) -> rooted real = true.
Proof.
  intros Hc. unfold evalReadImageRealPath. destruct (fs_EvalSymlinks _ _) as [[r|]|]; [|done..]. destruct (Abs _ _) as [p|] eqn:E; [|done].
  intros [= <-]. apply segments_clean. eapply abs_rooted; [|exact E]. intros wd. apply Hc.
Qed.

Lemma allowed_by_inside rules real : absolute_cwd -> rooted real = true -> forall i, allowed_by world i rules real = Ok true ->
  exists k rule ruleReal, rules !! k = Some rule /\ evalReadImageRealPath (world (AtRule (i + k))) (rule_path rule) = Some (Ok ruleReal) /\
    inside rule ruleReal real.
Proof.
  intros Hc Hr. induction rules as [|rule rules IH]; intros i H; [done|]. cbn [allowed_by] in H.
  assert (allowed_by world (S i) rules real = Ok true -> exists k rule' ruleReal, (rule :: rules) !! k = Some rule' /\
    evalReadImageRealPath (world (AtRule (i + k))) (rule_path rule') = Some (Ok ruleReal) /\ inside rule' ruleReal real) as Hrest.
  { intros Hr'. destruct (IH _ Hr') as (k&r&rr&?&E&?). exists (S k), r, rr. split_and!; [done| |done]. by rewrite Nat.add_succ_r. }
  destruct (evalReadImageRealPath _ _) as [[ruleReal|]|] eqn:E; [|done|by apply Hrest]. pose proof (real_rooted _ _ _ Hc E) as Hrr.
  destruct (if rule_isDir rule then _ else _) eqn:Ei; [|by apply Hrest]. exists 0%nat, rule, ruleReal. rewrite Nat.add_0_r. split_and!; [done..|].
  unfold inside. destruct (rule_isDir rule); [by apply within_segments|by apply equal_segments].
Qed.

Lemma binding_bound rules path file dir size : absolute_cwd -> isPathLexicallyAllowed rules path = true -> fs_Open (world AtOpen) path = Some (Ok file) ->
  ensureReadImagePathBinding world rules path (mkInfo file dir size) = Ok tt -> bound rules path file.
Proof.
  intros Hc Hl Ho. unfold ensureReadImagePathBinding, isPathReallyAllowed. case_bool_decide; [done|].
  destruct (evalReadImageRealPath _ _) as [[real|]|] eqn:Er; [|done..]. destruct (allowed_by _ _ _ _) as [[|]|] eqn:Ea; [|done..].
  destruct (fs_Stat _ _) as [[info|]|] eqn:Es; [|done..]. destruct (fi_dir info) eqn:Ed; [done|]. cbn [fi_id].
  destruct (file =? fi_id info) eqn:Ei; [|done]. intros _. apply Z.eqb_eq in Ei. split_and!; [done..| |by exists info].
  destruct (allowed_by_inside rules real Hc (real_rooted _ _ _ Hc Er) 0 Ea) as (k&rule&rr&?&?&?). by exists real, k, rule, rr.
Qed.

End files.

(** What a call that answers, or sends something, has checked. *)
Lemma run_bound env rules req r sent : absolute_cwd (rn_world env) -> readImage_run env rules req = (r, sent) -> is_ok r = true \/ sent <> [] ->
  exists path file, normalizeReadImagePath (fs_cwd (rn_world env AtNormalize)) (trim (rd_FilePath req)) = Some path /\ bound (rn_world env) rules path file /\
    forall result, r = Ok result -> ir_FilePath result = path /\
      (normalizeReadImageAction (rd_Action req) = readImageActionRead -> fs_content (rn_world env AtRead) file = Ok (ir_Blob result)) /\
      (normalizeReadImageAction (rd_Action req) <> readImageActionRead -> ir_Blob result = "") /\
      (normalizeReadImageAction (rd_Action req) <> readImageActionExport -> sent = []).
Proof.
  intros Hc H Hok. assert (forall e, (Err e, []) = (r, sent) -> False) as Hno by (by intros e [= <- <-]; destruct Hok).
  unfold readImage_run in H. destruct (negb _); [by apply Hno in H|]. case_bool_decide; [by apply Hno in H|]. case_bool_decide; [by apply Hno in H|].
  destruct (normalizeReadImagePath _ _) as [path|]; [|by apply Hno in H]. destruct (isPathLexicallyAllowed rules path) eqn:El; [|by apply Hno in H].
  cbn [negb] in H. unfold openReadImageFile in H. destruct (fs_Open _ _) as [[file|]|] eqn:Eo; [|by apply Hno in H..].
  destruct (fs_FileStat _ _) as [[dir size]|]; [|by apply Hno in H]. destruct dir; [by apply Hno in H|].
  destruct (ensureReadImagePathBinding _ _ _ _) as [[]|] eqn:Eb; [|by apply Hno in H].
  destruct (detectReadImageMIMEFromFile _ _ _) as [mime|]; [|by apply Hno in H].
  exists path, file. split; [done|]. split; [by eapply binding_bound|]. clear Eb Hno. intros result ->.
  case_bool_decide as He; [|case_bool_decide as Hr; cbn [negb] in H].
  - rewrite He. case_bool_decide; [done|]. destruct (putFileToSignedURL _ _ _) as [[|] ?]; [|done]. by injection H as <- <-.
  - rewrite Hr. destruct (fs_content _ _) as [blob|]; [|done]. injection H as <- <-. split_and!; [done| |done|done]. done.
  - injection H as <- <-. split_and!; done.
Qed.

Lemma execute_run env rules req r sent : readImage_Execute env rules req = (r, sent) -> is_ok r = true \/ sent <> [] ->
  readImage_run env rules req = (r, sent).
Proof. unfold readImage_Execute. destruct (rn_ctx env) as [e|]; [|done]. destruct (is_ctx_error e); [|done]. by intros [= <- <-] [?|?]. Qed.

(** ** Commands *)
Section commands.

Definition allows (e : computerUseExecutor) (command : string) : Prop :=
  whitelistMode e = SysConfig.computerUseWhitelistModeAllowAll \/
  exists entry, entry ∈ whitelist e /\
    (command = entry \/ whitelistMode e = SysConfig.computerUseWhitelistModePrefix /\ has_prefix entry command = true).

Lemma allowed_iff e command : whitelistMode e ∈ [SysConfig.computerUseWhitelistModePrefix; SysConfig.computerUseWhitelistModeExact; SysConfig.computerUseWhitelistModeAllowAll] ->
  isCommandAllowed e command = true <-> allows e command.
Proof.
  intros Hm. unfold isCommandAllowed, allows. case_bool_decide as H1; [tauto|]. case_bool_decide as H2; rewrite existsb_exists; split.
  - intros (x&Hx%list_elem_of_In&?). right. exists x. auto.
  - intros [?|(x&Hx&[->|[_ ?]])]; [done| |]; (exists x; split; [by apply list_elem_of_In|]); [|done]. pose proof (has_prefix_app x "") as Hp. by rewrite string_app_nil_r in Hp.
  - intros (x&Hx%list_elem_of_In&->%(bool_decide_eq_true_1 _)). right. exists x. auto.
  - intros [?|(x&Hx&[->|[? _]])]; [done| |done]. exists x. split; [by apply list_elem_of_In|]. by apply bool_decide_eq_true_2.
Qed.

Lemma shell_allowed shell e command : (computerUse_Execute shell e command).2 <> [] ->
  (computerUse_Execute shell e command).2 = [buildShellCommand (trim command)] /\ trim command <> "" /\ isCommandAllowed e (trim command) = true.
Proof.
  unfold computerUse_Execute. case_bool_decide; [done|]. destruct (isCommandAllowed _ _); [|done]. done.
Qed.

Lemma dispatched_shell env d : let calls := ef_shell (SysExecutor.buildCommandResultWithContext env d).2 in
  calls <> [] -> exists raw, unmarshal_struct computerUse_field "" (cmd_PayloadJson d) = Some raw /\
    calls = (computerUse_Execute (sy_shell env) (sy_computerUse env) raw).2.
Proof.
  cbv zeta. unfold SysExecutor.buildCommandResultWithContext. case_bool_decide; [done|]. destruct (_ && _); [done|]. case_bool_decide.
  - unfold buildComputerUseCommandResult. destruct (payload_empty _); [done|]. destruct (unmarshal_struct _ _ _) as [raw|]; [|done].
    case_bool_decide; [done|]. exists raw. split; [done|]. by destruct (computerUse_Execute _ _ _).
  - case_bool_decide; [|done]. unfold buildReadImageCommandResult. destruct (payload_empty _); [done|]. destruct (unmarshal_struct _ _ _); [|done].
    destruct (_ || _); [done|]. by destruct (readImage_Execute _ _ _).
Qed.

Lemma mode_known raw : SysConfig.parseComputerUseWhitelistMode raw ∈ [SysConfig.computerUseWhitelistModePrefix; SysConfig.computerUseWhitelistModeExact; SysConfig.computerUseWhitelistModeAllowAll].
Proof. unfold SysConfig.parseComputerUseWhitelistMode. case_bool_decide; [done|]. set_solver. Qed.

End commands.

(** ** Slots *)
Section slots.

(** The commands of a capability that hold a slot. *)
Definition running (c : string) (s : session) : nat := length (filter (fun d => capability_of d = c) (ss_running s)).

(** Each channel has a token for every slot that no command holds. *)
Definition slots_ok (cfg : SysConfig.Config) (s : session) : Prop :=
  forall c, match newCommandSlots cfg !! c with
       | Some ch => exists free, ss_slots s !! c = Some (mkSlots (sc_cap ch) free) /\ (free + running c s)%nat = sc_cap ch
       | None => ss_slots s !! c = None
       end.

Lemma new_slots_full cfg c ch : newCommandSlots cfg !! c = Some ch -> ch = mkSlots (sc_cap ch) (sc_cap ch).
Proof. unfold newCommandSlots. rewrite !lookup_insert_Some, lookup_empty. by intros [[_ <-]|[_ [[_ <-]|[_ [=]]]]]. Qed.

Lemma new_slots_ok cfg : slots_ok cfg (start_session cfg).
Proof.
  intros c. destruct (newCommandSlots cfg !! c) as [ch|] eqn:E; [|done]. exists (sc_cap ch). cbn [start_session ss_slots]. rewrite E.
  split; [f_equal; by eapply new_slots_full|]. unfold running. cbn. lia.
Qed.

(** Only slots and running commands count. *)
Lemma slots_ok_same cfg s s' : ss_slots s' = ss_slots s -> ss_running s' = ss_running s -> slots_ok cfg s -> slots_ok cfg s'.
Proof. intros E1 E2 H c. specialize (H c). unfold running in *. by rewrite E1, E2. Qed.

Lemma running_app c l l' out acks errs rcv slots : running c (mkSession slots (l ++ l') out acks errs rcv) =
  (length (filter (fun d => capability_of d = c) l) + length (filter (fun d => capability_of d = c) l'))%nat.
Proof. unfold running. cbn [ss_running]. by rewrite filter_app, length_app. Qed.

Lemma acquired_slots_ok cfg d s slots out acks errs rcv : slots_ok cfg s -> tryAcquire (capability_of d) (ss_slots s) = (true, slots) ->
  slots_ok cfg (mkSession slots (ss_running s ++ [d]) out acks errs rcv).
Proof.
  intros H E c. specialize (H c). rewrite running_app. cbn [ss_slots]. change (length (filter _ (ss_running s))) with (running c s).
  rewrite filter_cons, filter_nil. unfold tryAcquire in E. destruct (decide (capability_of d = c)) as [<-|Hne].
  - destruct (newCommandSlots cfg !! _) as [ch|].
    + destruct H as (free&Hs&Hf). rewrite Hs in E. cbn [sc_free sc_cap] in E. destruct free as [|free]; [done|]. injection E as <-.
      exists free. rewrite lookup_insert_eq. split; [done|]. cbn [length]. lia.
    + rewrite H in E. by injection E as <-.
  - destruct (newCommandSlots cfg !! c) as [ch|].
    + destruct H as (free&Hs&Hf). exists free. cbn [length]. rewrite Nat.add_0_r. split; [|done].
      destruct (ss_slots s !! capability_of d) as [ch'|]; [destruct (sc_free ch'); [done|]|]; injection E as <-; [|done]. by rewrite lookup_insert_ne.
    + destruct (ss_slots s !! capability_of d) as [ch'|]; [destruct (sc_free ch'); [done|]|]; injection E as <-; [|done]. by rewrite lookup_insert_ne.
Qed.

Lemma released_slots_ok cfg d before after s out acks errs rcv : slots_ok cfg s -> ss_running s = before ++ d :: after ->
  slots_ok cfg (mkSession (release (capability_of d) (ss_slots s)) (before ++ after) out acks errs rcv).
Proof.
  intros H E c. specialize (H c). rewrite running_app. cbn [ss_slots].
  assert (running c s = length (filter (fun d => capability_of d = c) before) + (if decide (capability_of d = c) then 1 else 0) +
    length (filter (fun d => capability_of d = c) after))%nat as Hr.
  { unfold running. rewrite E, filter_app, length_app, filter_cons. destruct (decide _); cbn [length]; lia. }
  unfold release. destruct (decide (capability_of d = c)) as [<-|Hne].
  - destruct (newCommandSlots cfg !! _) as [ch|].
    + destruct H as (free&Hs&Hf). rewrite Hs. cbn [sc_free sc_cap]. rewrite (proj2 (Nat.ltb_lt _ _)) by lia. exists (S free).
      rewrite lookup_insert_eq. split; [done|lia].
    + by rewrite H.
  - assert ((match ss_slots s !! capability_of d with Some ch => if (sc_free ch <? sc_cap ch)%nat
        then <[capability_of d:=mkSlots (sc_cap ch) (S (sc_free ch))]> (ss_slots s) else ss_slots s | None => ss_slots s end) !! c = ss_slots s !! c) as ->.
    { destruct (ss_slots s !! capability_of d) as [ch'|]; [|done]. destruct (_ <? _)%nat; [|done]. by rewrite lookup_insert_ne. }
    destruct (newCommandSlots cfg !! c) as [ch|]; [|done]. destruct H as (free&Hs&Hf). exists free. split; [done|lia].
Qed.

Lemma dispatch_ok cfg now prefer ended d s on s' : slots_ok cfg s -> handleCommandDispatch now prefer ended d s = (on, s') -> slots_ok cfg s'.
Proof.
  intros H. unfold handleCommandDispatch. destruct (tryAcquire _ _) as [[|] slots] eqn:E.
  - intros [= <- <-]. by apply acquired_slots_ok.
  - assert (slots = ss_slots s) as ->.
    { unfold tryAcquire in E. destruct (ss_slots s !! _) as [ch|]; [|done]. destruct (sc_free ch); [|done]. by injection E as <-. }
    destruct (tryEnqueueRequest _ _ _ _); intros [= <- <-]; [by eapply slots_ok_same|]. destruct ended; [done|]. by eapply slots_ok_same.
Qed.

Lemma step_ok cfg env s s' : slots_ok cfg s -> session_step env s s' -> slots_ok cfg s'.
Proof.
  intros H Hs. destruct Hs as [now prefer ended frame s s' on _ Hf|prefer ctx d before after s s' E Hf|req out s E|a acks s E];
    try by eapply slots_ok_same.
  - eapply (slots_ok_same _ s'); [done..|]. destruct frame as [[| |d|]|e]; unfold receive in Hf; cbv zeta in Hf; [by injection Hf as <- <-| | |by injection Hf as <- <-..].
    + destruct (_ && _); [by injection Hf as <- <-|]. destruct (_ <? _)%nat; [|done]. injection Hf as <- <-. by eapply slots_ok_same.
    + injection Hf as Hf. by eapply dispatch_ok.
  - unfold finish_command in Hf. destruct (WorkerClient.enqueueRequest _ _ _ _); [|done]. injection Hf as <-. by apply (released_slots_ok _ _ _ _ s).
Qed.

Lemma reached_slots_ok cfg env s : rtc (session_step env) (start_session cfg) s -> slots_ok cfg s.
Proof. intros H. pose proof (new_slots_ok cfg) as Hs. induction H as [|s s' s'' Hstep _ IH]; [done|]. by eapply IH, step_ok. Qed.

(** How many commands of a capability may run; [None]: without a bound. *)
Definition limit (cfg : SysConfig.Config) (c : string) : option Z :=
  if bool_decide (c = SysConfig.computerUseCapabilityName) then Some (SysConfig.maxInflightOrDefault (SysConfig.ComputerUseMaxInflight cfg)) else
  if bool_decide (c = SysConfig.readImageCapabilityName) then Some (SysConfig.maxInflightOrDefault (SysConfig.ReadImageMaxInflight cfg)) else None.

Lemma slots_limit cfg c : (fun ch => Z.of_nat (sc_cap ch)) <$> newCommandSlots cfg !! c = limit cfg c.
Proof.
  assert (forall z, Z.of_nat (sc_cap (newSlotChannel z)) = SysConfig.maxInflightOrDefault z) as Hz.
  { intros z. unfold newSlotChannel, SysConfig.maxInflightOrDefault. destruct (z <=? 0) eqn:E; [done|]. apply Z.leb_gt in E. cbn. lia. }
  unfold limit, newCommandSlots. case_bool_decide as H1; [subst; rewrite lookup_insert_eq; cbn [fmap option_fmap option_map]; by rewrite Hz|].
  rewrite lookup_insert_ne by done. case_bool_decide as H2; [subst; rewrite lookup_insert_eq; cbn [fmap option_fmap option_map]; by rewrite Hz|].
  by rewrite lookup_insert_ne, lookup_empty by done.
Qed.

Lemma busy_enqueued prefer ended req out out' : tryEnqueueRequest prefer ended req out = Some out' -> out' = out ++ [req].
Proof. unfold tryEnqueueRequest. destruct (_ && _); [done|]. destruct (_ <? _)%nat; [|done]. by intros [= <-]. Qed.

Lemma declared_limit cfg c n version goos goarch hello : limit cfg c = Some n -> n < 2 ^ 31 ->
  SysConfig.buildHello version goos goarch cfg = Ok hello -> exists name, to_lower name = c /\ Some (mkCapability name n) ∈ Capabilities hello.
Proof.
  intros Hl Hn [= <-]. cbn [Capabilities]. unfold limit in Hl.
  assert (0 < n) as Hpos.
  { revert Hl. unfold SysConfig.maxInflightOrDefault. repeat case_bool_decide; [| |done]; (destruct (_ <=? 0) eqn:E; intros [= <-]; [done|]; by apply Z.leb_gt in E). }
  case_bool_decide as H1; [|case_bool_decide as H2; [|done]]; injection Hl as <-; subst c.
  - exists SysConfig.computerUseCapabilityDeclared. split; [done|]. rewrite i32_id by lia. left.
  - exists SysConfig.readImageCapabilityDeclared. split; [done|]. rewrite (i32_id (SysConfig.maxInflightOrDefault (SysConfig.ReadImageMaxInflight cfg))) by lia. right. left.
Qed.

End slots.

End SysProps.
