(* ===== verification/SysClaims.v ===== *)
(** What the host worker promises: it reads files inside the allowed paths
    only, it runs whitelisted commands only, and its slots bound how many
    commands run at a time. *)
From S2P Require Import Prelude.
From S2P Require Import Json.
From S2P Require Import Proto.
From S2P Require Import AuthText.
From S2P Require Import JsonText.
From S2P Require Import OwnerScope.
From S2P Require Import Dispatch.
From S2P Require Import Source.
From S2P Require Import WorkerTerminal.
From S2P Require Import WorkerExecutor.
From S2P Require Import WorkerClient.
From S2P Require Import FilePath.
From S2P Require Import DockerConfig.
From S2P Require Import SysConfig.
From S2P Require Import SysExecutor.
From S2P Require Import SysClient.
From S2P Require Import SysProps.
Import SysExecutor.
Import SysClient.
Import SysProps.
Local Open Scope Z_scope.

Module SysClaims.

(** A path is under an allowed directory exactly when the directory's
    segments begin the path's: no sibling that shares only letters of its name,
    and no way out by [..]. A rule for a file allows that file alone. *)
Theorem paths_are_compared_by_segments base target : rooted base = true -> rooted target = true ->
  (readImagePathWithin base target = true <-> segments base `prefix_of` segments target) /\
  (readImagePathsEqual base target = true <-> segments base = segments target).
Proof. intros Hb Ht. by split; [apply within_segments|apply equal_segments]. Qed.

Lemma paths_are_compared_by_segments_witness :
  readImagePathWithin "/data/img" "/data/img/a/../b.png" = true /\ readImagePathWithin "/data/img" "/data/img2/b.png" = false /\
  readImagePathWithin "/data/img" "/data/img/../../etc/x" = false /\ segments "/data/img" `prefix_of` segments "/data/img/a/../b.png".
Proof.
  split_and!; [reflexivity|reflexivity|reflexivity|].
  apply (paths_are_compared_by_segments "/data/img" "/data/img/a/../b.png"); reflexivity.
Defined.

(** C34: Whatever happens to the file system while a readImage command runs, and
    wherever links lead, a command that answers has opened a file whose real
    path it found inside the real path of an allowed rule, and the path still
    named that file afterwards. What [read] answers is that file's content. *)
Theorem only_allowed_images_are_read env rules req result sent :
  absolute_cwd (rn_world env) -> readImage_Execute env rules req = (Ok result, sent) ->
  exists path file, normalizeReadImagePath (fs_cwd (rn_world env AtNormalize)) (trim (rd_FilePath req)) = Some path /\
    bound (rn_world env) rules path file /\ ir_FilePath result = path /\
    (normalizeReadImageAction (rd_Action req) = readImageActionRead -> fs_content (rn_world env AtRead) file = Ok (ir_Blob result)) /\
    (normalizeReadImageAction (rd_Action req) <> readImageActionRead -> ir_Blob result = "") /\
    (normalizeReadImageAction (rd_Action req) <> readImageActionExport -> sent = []).
Proof.
  intros Hc H. apply execute_run in H; [|by left]. destruct (run_bound _ _ _ _ _ Hc H ltac:(by left)) as (path&file&?&?&Hr).
  exists path, file. destruct (Hr result eq_refl) as (?&?&?&?). done.
Qed.

(** A directory with an image, and a link out of it. *)
Definition sample_files : file_system :=
  mkFS (Ok "/home") (fun p => Some (Ok (if bool_decide (p = "/data/link.png") then "/etc/secret" else p)))
    (fun p => Some (Ok (if bool_decide (p = "/data") then mkInfo 1 true 0 else if bool_decide (p = "/data/link.png") then mkInfo 3 false 6 else mkInfo 2 false 3)))
    (fun p => Some (Ok (if bool_decide (p = "/data/link.png") then 3 else 2))) (fun f => Ok (false, if f =? 2 then 3 else 6))
    (fun f => Ok (if f =? 2 then "PNG" else "secret")).

Definition sample_env (world : moment -> file_system) : read_env :=
  mkReadEnv None world (fun _ => "image/png") Some (fun _ => "image/png") (fun _ => None) (Ok (200, "200 OK", "")).

Definition sample_rules : list readImagePathRule := compileReadImagePathRules sample_files ["/data"].

Lemma sample_cwd : absolute_cwd (fun _ => sample_files).
Proof. by intros m wd [= <-]. Qed.

Lemma only_allowed_images_are_read_witness :
  let env := sample_env (fun _ => sample_files) in
  (readImage_Execute env sample_rules (mkReadRequest "computerUse" "/data/link.png" "read" "")).1 = Err not_allowed /\
  exists path file, normalizeReadImagePath (Ok "/home") "/data/x/../a.png" = Some path /\ bound (fun _ => sample_files) sample_rules path file.
Proof.
  split; [vm_compute; reflexivity|].
  destruct (only_allowed_images_are_read (sample_env (fun _ => sample_files)) sample_rules
    (mkReadRequest "computerUse" "/data/x/../a.png" "read" "") (mkReadResult "computerUse" "/data/a.png" "image/png" 3 "PNG") [])
    as (path&file&H1&H2&_); [exact sample_cwd|vm_compute; reflexivity|].
  exists path, file. split; [exact H1|exact H2].
Defined.

(** An export opens the path once more after these checks: the file that goes
    out can be one that no rule allows. *)
Theorem export_can_send_another_file : exists world,
  absolute_cwd world /\
  (let '(result, sent) := readImage_Execute (sample_env world) sample_rules
     (mkReadRequest "computerUse" "/data/a.png" "export" "https://store/put") in
   is_ok result = true /\ sent = [mkUpload "https://store/put" 6 "secret"]) /\
  (forall real, evalReadImageRealPath (world AtExportOpen) "/data/a.png" = Some (Ok real) ->
     existsb (fun rule => readImagePathRuleMatches rule real) sample_rules = false).
Proof.
  exists (fun m => match m with
    | AtExportOpen => mkFS (Ok "/home") (fun _ => Some (Ok "/etc/secret")) (fun _ => Some (Ok (mkInfo 3 false 6))) (fun _ => Some (Ok 3))
                        (fs_FileStat sample_files) (fs_content sample_files)
    | _ => sample_files
    end). split_and!.
  - by intros [] wd [= <-].
  - by vm_compute.
  - intros real. cbn. intros [= <-]. by vm_compute.
Qed.

Lemma whitelist_written raw entry : entry ∈ SysConfig.text_list raw ->
  exists items item, Source.unmarshal_items dec_string "" [] raw = Some items /\ item ∈ items /\ entry = trim item /\ entry <> "".
Proof.
  unfold SysConfig.text_list. case_bool_decide; [by intros ?%not_elem_of_nil|].
  destruct (Source.unmarshal_items _ _ _ _) as [items|]; [|by intros ?%not_elem_of_nil].
  rewrite SysConfig.keep_entries_elem by (split; [constructor|split; [constructor|set_solver]]).
  intros [?%not_elem_of_nil|[Hne (item&->&Hi)%list_elem_of_fmap]]; [done|]. by exists items, item.
Qed.

(** C35: A shell of the host worker is started at most once per command, with
    the command of the payload, and only where the settings allow it: in the
    mode allow_all, or because an entry of the configured list, without the blanks
    around it and not blank itself, is the command or, in the mode prefix, begins
    it. With neither setting given nothing runs. (The blanks are gone in the mode
    prefix too, although the README relies on them: see [blanks_are_lost].) *)
Theorem only_whitelisted_commands_run s fs now later shell read d :
  let cfg := SysConfig.load_config s in
  let '(executor, rules) := install cfg fs in
  let calls := ef_shell (buildCommandResultWithContext (mkSysEnv now later shell executor read rules) d).2 in
  (calls <> [] -> exists raw, unmarshal_struct computerUse_field "" (cmd_PayloadJson d) = Some raw /\
     calls = [buildShellCommand (trim raw)] /\ trim raw <> "" /\
     (SysConfig.ComputerUseWhitelistMode cfg = SysConfig.computerUseWhitelistModeAllowAll \/
      exists items item, Source.unmarshal_items dec_string "" [] (DockerConfig.wget s "WORKER_COMPUTER_USE_COMMAND_WHITELIST") = Some items /\ item ∈ items /\
        let entry := trim item in entry <> "" /\
        (trim raw = entry \/ SysConfig.ComputerUseWhitelistMode cfg = SysConfig.computerUseWhitelistModePrefix /\ has_prefix entry (trim raw) = true))) /\
  (DockerConfig.wget s "WORKER_COMPUTER_USE_COMMAND_WHITELIST_MODE" = "" ->
   DockerConfig.wget s "WORKER_COMPUTER_USE_COMMAND_WHITELIST" = "" -> calls = []).
Proof.
  cbv zeta. unfold install. set (cfg := SysConfig.load_config s). set (executor := newComputerUseExecutor _ _ _).
  set (env := mkSysEnv _ _ _ _ _ _).
  assert (ef_shell (buildCommandResultWithContext env d).2 <> [] -> exists raw, unmarshal_struct computerUse_field "" (cmd_PayloadJson d) = Some raw /\
    ef_shell (buildCommandResultWithContext env d).2 = [buildShellCommand (trim raw)] /\ trim raw <> "" /\ allows executor (trim raw)) as Hcalls.
  { intros Hne. pose proof Hne as (raw&E&Ec)%dispatched_shell. exists raw. rewrite Ec in *. apply shell_allowed in Hne as (->&?&Ha).
    split_and!; [done..|]. apply allowed_iff in Ha; [done|]. apply mode_known. }
  split.
  - intros Hne. destruct (Hcalls Hne) as (raw&?&?&?&Ha). exists raw. split_and!; [done..|]. destruct Ha as [?|(entry&He&?)]; [by left|].
    right. destruct (whitelist_written _ _ He) as (items&item&?&?&->&?). by exists items, item.
  - intros Hmode Hlist. destruct (ef_shell _) as [|args calls] eqn:Ec; [done|]. exfalso. destruct Hcalls as (raw&_&_&_&Ha); [done|].
    assert (whitelistMode executor = SysConfig.computerUseWhitelistModeExact /\ whitelist executor = []) as [Em El].
    { unfold executor. cbn [whitelistMode whitelist newComputerUseExecutor]. unfold cfg, SysConfig.load_config.
      cbn [SysConfig.ComputerUseWhitelistMode SysConfig.ComputerUseWhitelist]. by rewrite Hmode, Hlist. }
    destruct Ha as [Ha|(entry&He&_)]; [by rewrite Em in Ha|]. rewrite El in He. by apply not_elem_of_nil in He.
Qed.

Definition ls_setting : string -> option string := fun k =>
  if bool_decide (k = "WORKER_COMPUTER_USE_COMMAND_WHITELIST") then Some ("[" +:+ q +:+ " ls " +:+ q +:+ "]") else None.
Definition calls_with (setting : string -> option string) (command : string) : list (list string) :=
  let '(executor, rules) := install (SysConfig.load_config (Source.mkSource "" ∅ setting)) sample_files in
  ef_shell (buildCommandResultWithContext (mkSysEnv 0 0 (fun _ => mkShell "" "" (ShellDone 0)) executor (sample_env (fun _ => sample_files)) rules)
    (mkDispatch "c1" "computerUse" (PJson (JObject [("command", JString command)])) 0)).2.

Definition ls_calls : string -> list (list string) := calls_with ls_setting.

(** The second example of the README: it means to allow the commands that start
    with ["echo "] and ["time "]. *)
Definition readme_setting : string -> option string := fun k =>
  if bool_decide (k = "WORKER_COMPUTER_USE_COMMAND_WHITELIST_MODE") then Some "prefix" else
  if bool_decide (k = "WORKER_COMPUTER_USE_COMMAND_WHITELIST") then Some ("[" +:+ q +:+ "echo " +:+ q +:+ "," +:+ q +:+ "time " +:+ q +:+ "]") else None.

Example blanks_are_lost : calls_with readme_setting "timeout 9 id" = [buildShellCommand "timeout 9 id"] /\ calls_with readme_setting "id" = [].
Proof. split; vm_compute; reflexivity. Qed.

Lemma only_whitelisted_commands_run_witness :
  ls_calls "ls; id" = [] /\ exists raw, ls_calls "ls" = [buildShellCommand (trim raw)] /\ trim raw <> "".
Proof.
  split; [vm_compute; reflexivity|].
  destruct (proj1 (only_whitelisted_commands_run (Source.mkSource "" ∅ ls_setting) sample_files 0 0 (fun _ => mkShell "" "" (ShellDone 0))
    (sample_env (fun _ => sample_files)) (mkDispatch "c1" "computerUse" (PJson (JObject [("command", JString "ls")])) 0)))
    as (raw&_&Hc&Hr&_); [vm_compute; discriminate|].
  exists raw. split; [exact Hc|exact Hr].
Defined.

(** C36: At every moment of a session, however commands arrive and end, no more
    commands of a capability run than its setting allows, which is the limit the
    hello declares (where it fits an int32); a slot is never lost and none is
    counted twice: a command is taken exactly when fewer run, otherwise it is
    answered session_busy, or the session ends. The other capability's commands
    play no part. *)
Theorem slots_bound_the_commands cfg env s c n :
  rtc (session_step env) (start_session cfg) s -> limit cfg c = Some n ->
  Z.of_nat (running c s) <= n /\
  (forall now prefer ended d, capability_of d = c ->
     let '(on, s') := handleCommandDispatch now prefer ended d s in
     (Z.of_nat (running c s) < n -> on = true /\ ss_running s' = ss_running s ++ [d] /\ ss_outbound s' = ss_outbound s) /\
     (Z.of_nat (running c s) = n -> ss_running s' = ss_running s /\ (on = true -> ss_outbound s' = ss_outbound s ++ [buildSessionBusyCommandResult now d]))) /\
  (n < 2 ^ 31 -> forall version goos goarch hello, SysConfig.buildHello version goos goarch cfg = Ok hello ->
     exists name, to_lower name = c /\ Some (mkCapability name n) ∈ Capabilities hello).
Proof.
  intros Hr Hl0. pose proof Hl0 as Hl. pose proof (reached_slots_ok _ _ _ Hr c) as Hc. rewrite <- slots_limit in Hl.
  destruct (newCommandSlots cfg !! c) as [ch|] eqn:Ech; [|done]. injection Hl as <-. destruct Hc as (free&Hs&Hf). split_and!.
  - lia.
  - intros now prefer ended d Hd. unfold handleCommandDispatch, tryAcquire. rewrite Hd, Hs. cbn [sc_free sc_cap]. destruct free as [|free].
    + destruct (tryEnqueueRequest _ _ _ _) as [out|] eqn:Eq; (split; [lia|intros _]).
      * split; [done|]. intros _. by apply busy_enqueued in Eq.
      * split; [by destruct ended|]. done.
    + split; [done|]. lia.
  - intros Hn version goos goarch hello Hh. by eapply declared_limit.
Qed.

Definition one_slot : SysConfig.Config := SysConfig.load_config (Source.mkSource "" ∅ (fun _ => None)).
Definition first_command : CommandDispatch := mkDispatch "c1" " ComputerUse" (PJson (JObject [("command", JString "ls")])) 0.
Definition one_running : session := mkSession (release "" (tryAcquire "computeruse" (newCommandSlots one_slot)).2) [first_command] [] [] [] true.
Definition idle_env : sys_env :=
  mkSysEnv 0 0 (fun _ => mkShell "" "" (ShellDone 0)) (newComputerUseExecutor 0 "" []) (sample_env (fun _ => sample_files)) sample_rules.

Lemma slots_bound_the_commands_witness :
  limit one_slot "computeruse" = Some 1 /\ Z.of_nat (running "computeruse" one_running) <= 1 /\
  (handleCommandDispatch 0 false false first_command one_running).1 = true /\
  (handleCommandDispatch 0 false false (mkDispatch "c2" "readImage" PEmpty 0) one_running).2 <> one_running.
Proof.
  split_and!; [vm_compute; reflexivity| |vm_compute; reflexivity|vm_compute; discriminate].
  apply (slots_bound_the_commands one_slot idle_env one_running "computeruse" 1); [|vm_compute; reflexivity].
  apply rtc_once.
  change one_running with (mkSession (ss_slots one_running) (ss_running one_running) (ss_outbound one_running) (ss_acks one_running) (ss_errors one_running) true).
  eapply (step_receive idle_env 0 false false (Ok (CommandDispatchFrame first_command))); [vm_compute; reflexivity|vm_compute; reflexivity].
Defined.

End SysClaims.
