(* ===== verification/E2bClient.v ===== *)
(** The client of the e2b service
    (worker-bridge-e2b/internal/e2b/client.go): sandboxes over its HTTP API,
    commands and files over the daemon of a sandbox.

    What the service, the daemon and the clock answer are inputs; a request body
    is the JSON value it denotes. Of an HTTP client the model has the timeout. *)
From stdpp Require Import pretty.
From S2P Require Import Prelude.
From S2P Require Import Json.
From S2P Require Import OwnerScope.
From S2P Require Import AuthText.
From S2P Require Import JsonText.
From S2P Require Import Rest.
From S2P Require Import WorkerRecovery.
Local Open Scope Z_scope.

Module E2bClient.

Definition envdPort : Z := 49983.
Definition envdProcessCleanupTimeout : duration := 3 * second.
Definition envdProcessTagCleanupGrace : duration := 250 * millisecond.
Definition envdProcessCleanupRetryWait : duration := 25 * millisecond.

Record Config := mkClientConfig {
  cc_APIKey : string;
  cc_APIURL : string;
  cc_Domain : string;
  cc_SandboxURL : string;
  cc_RequestTimeout : duration;
  cc_RestrictPublicTraffic : bool }.

Record Client := mkClient {
  cl_apiKey : string;
  cl_apiURL : string;
  cl_domain : string;
  cl_sandboxURL : string;
  cl_timeout : duration;      (** of [controlHTTP]; the connections of [sandboxHTTP] have it too *)
  cl_restrictPublicTraffic : bool }.

Record Sandbox := mkSandbox {
  sb_ID : string;
  sb_Domain : string;
  sb_EnvdVersion : string;
  sb_AccessToken : string;
  sb_TrafficAccessToken : string }.

Record SandboxInfo := mkSandboxInfo {
  in_ID : string;
  in_State : string;
  in_EnvdVersion : string;
  in_Metadata : option (gmap string string) }.

Record CommandResult := mkCommandResult {
  cr_Stdout : string;
  cr_Stderr : string;
  cr_ExitCode : Z;
  cr_StdoutTruncated : bool;
  cr_StderrTruncated : bool }.

Record File := mkFile { fl_Content : string; fl_MIMEType : string; fl_Size : Z }.

(** ** Errors *)
Inductive client_error :=
  | HTTPError (StatusCode : Z) (Status Message : string)
  | ErrSandboxNotFound (cause : string)   (** wrapped, with the text of its cause *)
  | ErrFileNotFound
  | ErrFileTooLarge
  | Failure (e : error)
  | Within (pre : string) (e : client_error) (post : string).

#[export] Instance client_error_eq_dec : EqDecision client_error.
Proof. solve_decision. Defined.

Inductive answer (A : Type) := Good (a : A) | Bad (e : client_error).
Arguments Good {A} a.
Arguments Bad {A} e.

Definition failure {A} (text : string) : answer A := Bad (Failure (ErrorString text)).

Fixpoint client_error_message (e : client_error) : string :=
  match e with
  | HTTPError _ status message => "E2B API returned " +:+ status +:+ ": " +:+ message
  | ErrSandboxNotFound cause => "sandbox not found: " +:+ cause
  | ErrFileNotFound => "file not found"
  | ErrFileTooLarge => "file exceeds limit"
  | Failure e => error_message e
  | Within pre e post => pre +:+ client_error_message e +:+ post
  end.

Fixpoint isHTTPStatus (e : client_error) (statusCode : Z) : bool :=
  match e with HTTPError code _ _ => code =? statusCode | Within _ e _ => isHTTPStatus e statusCode | _ => false end.

(** [errors.Is] for [ErrSandboxNotFound] and for the errors of a context. *)
Fixpoint is_sandbox_not_found (e : client_error) : bool :=
  match e with ErrSandboxNotFound _ => true | Within _ e _ => is_sandbox_not_found e | _ => false end.
Fixpoint is_context_error (e : client_error) : bool :=
  match e with
  | Failure e => error_is e ErrContextDeadlineExceeded || error_is e ErrContextCanceled
  | Within _ e _ => is_context_error e
  | _ => false
  end.

(** ** The service *)
Definition slash : ascii := "/"%char.

Fixpoint trim_slashes (s : string) : string :=
  match s with String c t => if Ascii.eqb c slash then trim_slashes t else s | EmptyString => "" end.

(** [strings.TrimRight] of slashes. *)
Definition TrimRightSlash (s : string) : string := String.rev (trim_slashes (String.rev s)).

Definition NewClient (cfg : Config) : answer Client :=
  if bool_decide (trim (cc_APIKey cfg) = "") then failure "E2B API key is required" else
  let apiURL := TrimRightSlash (trim (cc_APIURL cfg)) in
  let apiURL := if bool_decide (apiURL = "") then "https://api.e2b.app" else apiURL in
  let domain := trim (cc_Domain cfg) in
  let domain := if bool_decide (domain = "") then "e2b.app" else domain in
  let requestTimeout := if cc_RequestTimeout cfg <=? 0 then 60 * second else cc_RequestTimeout cfg in
  Good (mkClient (trim (cc_APIKey cfg)) apiURL domain (TrimRightSlash (trim (cc_SandboxURL cfg))) requestTimeout (cc_RestrictPublicTraffic cfg)).

Record request := mkRequest {
  rq_Method : string;
  rq_URL : string;
  rq_Header : list (string * string);
  rq_Body : option json }.

Record response := mkResponse {
  rp_StatusCode : Z;
  rp_Status : string;
  rp_Body : string;          (** all of it *)
  rp_Read : option error;    (** an error after it *)
  rp_ContentType : string;
  rp_ContentLength : Z }.

Definition message_field (k : string) : option (json -> string * Z -> string * Z * bool) :=
  if equal_fold k "message" then Some (fun v p => let '(x, b) := dec_string v p.1 in (x, p.2, b))
  else if equal_fold k "code" then Some (fun v p => let '(x, b) := dec_int v p.2 in (p.1, x, b)) else None.

(** [json.Unmarshal] with its error ignored: what was decoded stays. *)
Definition decoded_message (body : string) : string :=
  match read_json body with PJson (JObject ms) => (dec_fields message_field ms ("", 0)).1.1 | _ => "" end.

Definition responseError (resp : response) : client_error :=
  let body := take_str 4096 (rp_Body resp) in
  let message := trim (decoded_message body) in
  let message := if bool_decide (message = "") then trim body else message in
  let message := if bool_decide (message = "") then rp_Status resp else message in
  HTTPError (rp_StatusCode resp) (rp_Status resp) message.

Section service.

(** What the service answers to a request; what the decoder reads at the start
    of a body, and its error. *)
Variable serve : request -> res response.
Variable decode : string -> payload * error.

Definition controlRequest (c : Client) (method path : string) (input : option json) : request :=
  mkRequest method (cl_apiURL c +:+ path)
    ([("X-API-Key", cl_apiKey c); ("User-Agent", "onlyboxes-worker-bridge-e2b")] ++
     match input with Some _ => [("Content-Type", "application/json")] | None => [] end) input.

(** [unmarshal]: how [output] is decoded; [None]: there is no output. *)
Definition controlJSON {A} (c : Client) (method path : string) (input : option json) (zero : A) (unmarshal : option (payload -> option A)) : answer A :=
  match serve (controlRequest c method path input) with
  | Err e => Bad (Failure (Wrapped "E2B API request: " e ""))
  | Ok resp =>
      if (rp_StatusCode resp <? 200) || (300 <=? rp_StatusCode resp) then Bad (responseError resp) else
      match unmarshal with
      | None => Good zero
      | Some unmarshal =>
          if rp_StatusCode resp =? 204 then Good zero else
          let '(p, e) := decode (rp_Body resp) in
          match unmarshal p with Some a => Good a | None => Bad (Failure (Wrapped "decode E2B API response: " e "")) end
      end
  end.

(** The answer of the service about a sandbox. *)
Record created := mkCreated {
  cd_SandboxID : string;
  cd_EnvdVersion : string;
  cd_EnvdAccessToken : string;
  cd_TrafficAccessToken : string;
  cd_Domain : option string }.

Definition dec_string_ptr (v : json) (old : option string) : option string * bool :=
  match v with JNull => (None, false) | _ => let '(x, b) := dec_string v (default "" old) in (Some x, b) end.

Definition created_field (k : string) : option (json -> created -> created * bool) :=
  if equal_fold k "sandboxID" then Some (fun v p => let '(x, b) := dec_string v (cd_SandboxID p) in
    (mkCreated x (cd_EnvdVersion p) (cd_EnvdAccessToken p) (cd_TrafficAccessToken p) (cd_Domain p), b))
  else if equal_fold k "envdVersion" then Some (fun v p => let '(x, b) := dec_string v (cd_EnvdVersion p) in
    (mkCreated (cd_SandboxID p) x (cd_EnvdAccessToken p) (cd_TrafficAccessToken p) (cd_Domain p), b))
  else if equal_fold k "envdAccessToken" then Some (fun v p => let '(x, b) := dec_string v (cd_EnvdAccessToken p) in
    (mkCreated (cd_SandboxID p) (cd_EnvdVersion p) x (cd_TrafficAccessToken p) (cd_Domain p), b))
  else if equal_fold k "trafficAccessToken" then Some (fun v p => let '(x, b) := dec_string v (cd_TrafficAccessToken p) in
    (mkCreated (cd_SandboxID p) (cd_EnvdVersion p) (cd_EnvdAccessToken p) x (cd_Domain p), b))
  else if equal_fold k "domain" then Some (fun v p => let '(x, b) := dec_string_ptr v (cd_Domain p) in
    (mkCreated (cd_SandboxID p) (cd_EnvdVersion p) (cd_EnvdAccessToken p) (cd_TrafficAccessToken p) x, b))
  else None.

Definition no_sandbox : created := mkCreated "" "" "" "" None.
Definition unmarshal_created : payload -> option created := unmarshal_struct created_field no_sandbox.

Definition domain_of (c : Client) (r : created) : string :=
  match cd_Domain r with Some d => if bool_decide (trim d = "") then cl_domain c else trim d | None => cl_domain c end.

Definition json_map (m : gmap string string) : json :=
  JObject ((fun kv => (kv.1, JString kv.2)) <$> merge_sort (fun a b => String.le a.1 b.1) (map_to_list m)).

Definition create_body (c : Client) (template : string) (timeoutSec : Z) (metadata : gmap string string) : json :=
  JObject ([("templateID", JString template); ("timeout", JInt timeoutSec); ("autoPause", JBool false); ("secure", JBool true);
            ("allow_internet_access", JBool true); ("metadata", json_map metadata); ("envVars", JObject [])] ++
           if cl_restrictPublicTraffic c then [("network", JObject [("allowPublicTraffic", JBool false)])] else []).

Definition CreateWithMetadata (c : Client) (template : string) (timeoutSec : Z) (metadata : gmap string string) : answer Sandbox :=
  let template := trim template in
  if bool_decide (template = "") then failure "E2B template is required" else
  if timeoutSec <=? 0 then failure "E2B sandbox timeout must be positive" else
  match controlJSON c "POST" "/sandboxes" (Some (create_body c template timeoutSec metadata)) no_sandbox (Some unmarshal_created) with
  | Bad e => Bad e
  | Good r =>
      if bool_decide (trim (cd_SandboxID r) = "") then failure "E2B create response did not include sandboxID" else
      Good (mkSandbox (cd_SandboxID r) (domain_of c r) (cd_EnvdVersion r) (cd_EnvdAccessToken r) (cd_TrafficAccessToken r))
  end.

Definition Create (c : Client) (template : string) (timeoutSec : Z) : answer Sandbox :=
  CreateWithMetadata c template timeoutSec {["onlyboxes.worker" := "worker-bridge-e2b"]}.

(** [url.QueryEscape]. *)
Fixpoint QueryEscape (s : string) : string :=
  match s with
  | EmptyString => ""
  | String a s =>
      if is_alnum a || existsb (Ascii.eqb a) ["-"; "_"; "."; "~"]%char then String a (QueryEscape s)
      else if Ascii.eqb a " " then String "+" (QueryEscape s)
      else String "%" (String (hex_upper (N_of_ascii a / 16)) (String (hex_upper (N_of_ascii a mod 16)) (QueryEscape s)))
  end.

Definition list_path (metadata : gmap string string) : string :=
  if bool_decide (metadata = ∅) then "/sandboxes" else
  let parts := (fun kv => QueryEscape kv.1 +:+ "=" +:+ QueryEscape kv.2) <$> merge_sort (fun a b => String.le a.1 b.1) (map_to_list metadata) in
  "/sandboxes?metadata=" +:+ QueryEscape (String.concat "&" parts).

Definition info_field (k : string) : option (json -> SandboxInfo -> SandboxInfo * bool) :=
  if equal_fold k "sandboxID" then Some (fun v p => let '(x, b) := dec_string v (in_ID p) in
    (mkSandboxInfo x (in_State p) (in_EnvdVersion p) (in_Metadata p), b))
  else if equal_fold k "state" then Some (fun v p => let '(x, b) := dec_string v (in_State p) in
    (mkSandboxInfo (in_ID p) x (in_EnvdVersion p) (in_Metadata p), b))
  else if equal_fold k "envdVersion" then Some (fun v p => let '(x, b) := dec_string v (in_EnvdVersion p) in
    (mkSandboxInfo (in_ID p) (in_State p) x (in_Metadata p), b))
  else if equal_fold k "metadata" then Some (fun v p => let '(x, b) := dec_string_map v (in_Metadata p) in
    (mkSandboxInfo (in_ID p) (in_State p) (in_EnvdVersion p) x, b))
  else None.

(** [null] stores nothing in an element, and the nil slice in its place. *)
Definition unmarshal_infos (p : payload) : option (list SandboxInfo) :=
  match p with
  | PJson JNull => Some []
  | PJson (JArray vs) => mapM (fun v => unmarshal_struct info_field (mkSandboxInfo "" "" "" None) (PJson v)) vs
  | _ => None
  end.

Definition List_ (c : Client) (metadata : gmap string string) : answer (list SandboxInfo) :=
  controlJSON c "GET" (list_path metadata) None [] (Some unmarshal_infos).

Definition timeout_body (timeoutSec : Z) : json := JObject [("timeout", JInt timeoutSec)].
Definition sandbox_path (sandboxID rest : string) : string := "/sandboxes/" +:+ PathEscape (trim sandboxID) +:+ rest.

(** A sandbox that the service does not know. *)
Definition or_not_found {A} (r : answer A) : answer A :=
  match r with Bad e => if isHTTPStatus e 404 then Bad (ErrSandboxNotFound (client_error_message e)) else Bad e | Good a => Good a end.

Definition Connect (c : Client) (sandboxID : string) (timeoutSec : Z) : answer Sandbox :=
  if timeoutSec <=? 0 then failure "E2B sandbox timeout must be positive" else
  match or_not_found (controlJSON c "POST" (sandbox_path sandboxID "/connect") (Some (timeout_body timeoutSec)) no_sandbox (Some unmarshal_created)) with
  | Bad e => Bad e
  | Good r =>
      let id := trim (cd_SandboxID r) in
      Good (mkSandbox (if bool_decide (id = "") then trim sandboxID else id) (domain_of c r) (cd_EnvdVersion r) (cd_EnvdAccessToken r) (cd_TrafficAccessToken r))
  end.

Definition SetTimeout (c : Client) (sandboxID : string) (timeoutSec : Z) : answer unit :=
  if timeoutSec <=? 0 then failure "E2B sandbox timeout must be positive" else
  or_not_found (controlJSON c "POST" (sandbox_path sandboxID "/timeout") (Some (timeout_body timeoutSec)) tt None).

Definition Kill (c : Client) (sandboxID : string) : answer unit :=
  match controlJSON c "DELETE" (sandbox_path sandboxID "") None tt None with
  | Bad e => if isHTTPStatus e 404 then Good tt else Bad e
  | Good _ => Good tt
  end.

End service.

(** ** Proxied requests *)
Definition ProxyURL (sandbox : Sandbox) (port : Z) : answer (string * string) :=
  if bool_decide (trim (sb_ID sandbox) = "") then failure "sandbox is required" else
  if (port <? 1) || (65535 <? port) then failure "sandbox port must be between 1 and 65535" else
  let domain := trim (sb_Domain sandbox) in
  if bool_decide (domain = "") || existsb (fun c => bool_decide (c ∈ String.list_ascii_of_string "/:@?#")) (String.list_ascii_of_string domain)
  then failure "sandbox domain is invalid" else
  let trafficToken := trim (sb_TrafficAccessToken sandbox) in
  if bool_decide (trafficToken = "") then failure "sandbox traffic access token is required" else
  Good ("https://" +:+ pretty port +:+ "-" +:+ sb_ID sandbox +:+ "." +:+ domain, trafficToken).

(** ** The daemon of a sandbox *)
Definition sandboxBaseURL (c : Client) (sandbox : Sandbox) : string :=
  if negb (bool_decide (cl_sandboxURL c = "")) then cl_sandboxURL c else
  let domain := trim (sb_Domain sandbox) in
  let domain := if bool_decide (domain = "") then cl_domain c else domain in
  if bool_decide (domain = "e2b.app") then "https://sandbox.e2b.app" else
  "https://" +:+ pretty envdPort +:+ "-" +:+ sb_ID sandbox +:+ "." +:+ domain.

Definition applySandboxHeaders (sandbox : Sandbox) : list (string * string) :=
  [("E2b-Sandbox-Id", sb_ID sandbox); ("E2b-Sandbox-Port", pretty envdPort); ("User-Agent", "onlyboxes-worker-bridge-e2b")] ++
  (if bool_decide (sb_AccessToken sandbox = "") then [] else [("X-Access-Token", sb_AccessToken sandbox)]).

Record limitedBuffer := mkBuffer { lb_buf : string; lb_limit : Z; lb_truncated : bool }.

Definition Write (b : limitedBuffer) (data : string) : limitedBuffer :=
  if bool_decide (data = "") then b else
  if lb_limit b <? 0 then mkBuffer (lb_buf b +:+ data) (lb_limit b) (lb_truncated b) else
  if lb_limit b =? 0 then mkBuffer (lb_buf b) (lb_limit b) true else
  let remaining := lb_limit b - len (lb_buf b) in
  if remaining <=? 0 then mkBuffer (lb_buf b) (lb_limit b) true else
  if remaining <? len data then mkBuffer (lb_buf b +:+ take_str (Z.to_nat remaining) data) (lb_limit b) true
  else mkBuffer (lb_buf b +:+ data) (lb_limit b) (lb_truncated b).

(** The events of a process. *)
Inductive event := NoEvent | StartEvent (pid : Z) | DataEvent (stdout stderr : string) | EndEvent (exitCode : Z) (error : string) | KeepAlive.

(** An error of an RPC, and whether its code is [NotFound]. *)
Record rpc_error := mkRPC { re_notFound : bool; re_error : error }.

Definition rpc_failed (text : string) (e : rpc_error) : client_error :=
  if re_notFound e then ErrSandboxNotFound (error_message (re_error e)) else Failure (Wrapped text (re_error e) "").

Record progress := mkProgress {
  pg_pid : Z;
  pg_ended : bool;
  pg_exit : Z;
  pg_stdout : limitedBuffer;
  pg_stderr : limitedBuffer }.

(** The loop over the stream; [Some]: it returned early. *)
Fixpoint receive (events : list event) (p : progress) : progress * option client_error :=
  match events with
  | [] => (p, None)
  | StartEvent pid :: events => receive events (mkProgress pid (pg_ended p) (pg_exit p) (pg_stdout p) (pg_stderr p))
  | DataEvent out err :: events =>
      receive events (mkProgress (pg_pid p) (pg_ended p) (pg_exit p) (Write (pg_stdout p) out) (Write (pg_stderr p) err))
  | EndEvent code e :: events =>
      let p := mkProgress (pg_pid p) true code (pg_stdout p) (pg_stderr p) in
      if negb (bool_decide (e = "")) && (code =? 0) then (p, Some (Failure (ErrorString ("E2B command failed: " +:+ e)))) else receive events p
  | (NoEvent | KeepAlive) :: events => receive events p
  end.

(** ** Stopping a process *)
Inductive selector := ByPid (pid : Z) | ByTag (tag : string).

(** One signal: its answer, the time after it, whether the context ended while
    it waited. *)
Record attempt := mkAttempt { at_answer : option rpc_error; at_now : time; at_ended : option error }.

(** The signals sent, and the result; without one the loop goes on. *)
Fixpoint stop_loop (pid : Z) (tag : string) (tagDeadline : time) (attempts : list attempt) : list selector * option (option error) :=
  let s := if pid =? 0 then ByTag tag else ByPid pid in
  match attempts with
  | [] => ([], None)
  | a :: attempts =>
      match at_answer a with
      | None => ([s], Some None)
      | Some e =>
          if negb (pid =? 0) && re_notFound e then ([s], Some None) else
          if negb (pid =? 0) || negb (re_notFound e) then ([s], Some (Some (re_error e))) else
          if negb (at_now a <? tagDeadline) then ([s], Some None) else
          match at_ended a with
          | Some e => ([s], Some (Some e))
          | None => let '(sent, r) := stop_loop pid tag tagDeadline attempts in (s :: sent, r)
          end
      end
  end.

Definition stopProcess (pid : Z) (tag : string) (started : time) (attempts : list attempt) : list selector * option (option error) :=
  stop_loop pid tag (started + envdProcessTagCleanupGrace) attempts.

(** ** Commands *)
Record run_env := mkRunEnv {
  rv_tag : string;
  rv_start : option rpc_error;            (** [Start] *)
  rv_events : list event;
  rv_end : option rpc_error;              (** the stream's error *)
  rv_stop : time * list attempt }.

(** The result, and the signals to a process that did not end. [None]: it is
    still being stopped. *)
Definition Run (env : run_env) (sandbox : Sandbox) (maxOutputBytes : Z) : option (answer CommandResult) * list selector :=
  if bool_decide (trim (sb_ID sandbox) = "") then (Some (failure "sandbox is required"), []) else
  match rv_start env with
  | Some e => (Some (Bad (rpc_failed "start E2B command: " e)), [])
  | None =>
      let empty := mkBuffer "" maxOutputBytes false in
      let '(p, early) := receive (rv_events env) (mkProgress 0 false 0 empty empty) in
      let result :=
        match early, rv_end env with
        | Some e, _ => Bad e
        | None, Some e => Bad (rpc_failed "receive E2B command output: " e)
        | None, None =>
            if negb (pg_ended p) then failure "E2B command ended without an end event" else
            Good (mkCommandResult (lb_buf (pg_stdout p)) (lb_buf (pg_stderr p)) (pg_exit p) (lb_truncated (pg_stdout p)) (lb_truncated (pg_stderr p)))
        end in
      if pg_ended p then (Some result, []) else
      match stopProcess (pg_pid p) (rv_tag env) (rv_stop env).1 (rv_stop env).2 with
      | (sent, None) => (None, sent)
      | (sent, Some None) => (Some result, sent)
      | (sent, Some (Some e)) =>
          (Some match result with
                | Good _ => Bad (Failure (Wrapped "stop incomplete E2B command: " e ""))
                | Bad err => Bad (Within "" err ("; stop incomplete E2B command: " +:+ error_message e))
                end, sent)
      end
  end.

(** ** Files *)
Section files.

Variable serve : request -> res response.
(** [mime.TypeByExtension] of the path's extension, [http.DetectContentType]. *)
Variable type_of_path : string -> string.
Variable detect : string -> string.

Definition OpenFile (c : Client) (sandbox : Sandbox) (filePath : string) : answer (response * string) :=
  if bool_decide (trim (sb_ID sandbox) = "") then failure "sandbox is required" else
  let endpoint := sandboxBaseURL c sandbox +:+ "/files?path=" +:+ QueryEscape filePath in
  match serve (mkRequest "GET" endpoint (applySandboxHeaders sandbox) None) with
  | Err e => Bad (Failure (Wrapped "download E2B file: " e ""))
  | Ok resp =>
      if rp_StatusCode resp =? 404 then Bad ErrFileNotFound else
      if (rp_StatusCode resp <? 200) || (300 <=? rp_StatusCode resp) then Bad (responseError resp) else
      let mimeType := trim (default "" (head (split_all ";" (rp_ContentType resp)))) in
      let mimeType := if bool_decide (mimeType = "") || bool_decide (mimeType = "application/octet-stream") then type_of_path filePath else mimeType in
      Good (resp, if bool_decide (mimeType = "") then "application/octet-stream" else mimeType)
  end.

Definition ReadFile (c : Client) (sandbox : Sandbox) (filePath : string) (maxBytes : Z) : answer File :=
  match OpenFile c sandbox filePath with
  | Bad e => Bad e
  | Good (resp, openedType) =>
      if (0 <=? maxBytes) && (maxBytes <? rp_ContentLength resp) then Bad ErrFileTooLarge else
      (** a reader that stops at the limit does not see an error after it *)
      let limited := (0 <=? maxBytes) && (maxBytes <? len (rp_Body resp)) in
      let content := if limited then take_str (Z.to_nat (maxBytes + 1)) (rp_Body resp) else rp_Body resp in
      match (if limited then None else rp_Read resp) with
      | Some e => Bad (Failure (Wrapped "read E2B file: " e ""))
      | None =>
          if (0 <=? maxBytes) && (maxBytes <? len content) then Bad ErrFileTooLarge else
          Good (mkFile content (if bool_decide (openedType = "") then detect content else openedType) (len content))
      end
  end.

End files.

End E2bClient.
