(* ===== verification/E2bTerminal.v ===== *)
(** Terminal sessions of the bridge to e2b
    (worker-bridge-e2b/internal/runner: terminal_exec.go, terminal_resource.go,
    session_recovery.go).

    [E2bTerminal]: each critical section of the manager's mutex is an operation on
    the record [manager]. [E2bSteps]: the goroutines of commands, of the janitor
    and of [Close] are programs of such sections ([pc]), and [step] interleaves
    them with the clock and with the service that keeps the sandboxes.
    [leaseSyncMu] is the field [se_syncing]. The wait group of cleanups, which only
    orders the last ones, is left out. *)
From stdpp Require Import pretty.
From S2P Require Import Prelude.
From S2P Require Import Proto.
From S2P Require Import WorkerTerminal.
From S2P Require Import E2bClient.
Import E2bClient.
Local Open Scope Z_scope.

Module E2bTerminal.

Definition defaultTerminalLeaseMinSec : Z := 60.
Definition defaultTerminalLeaseMaxSec : Z := 1800.
Definition defaultTerminalLeaseSec : Z := 300.
Definition defaultTerminalOutputLimitBytes : Z := 1024 * 1024.
Definition defaultTerminalSessionMaxInflight : Z := 128.

(** The zero time is before every other one. *)
Definition timeZero : time := -62135596800 * second.

Record session := mkSession {
  se_sessionID : string;
  se_sandbox : option Sandbox;
  se_desiredLeaseExpiresAt : time;
  se_confirmedLeaseExpiresAt : time;
  se_remoteTimeoutExpiresAt : time;
  se_syncing : bool;
  se_inflight : Z;
  se_destroying : bool;
  se_capacityReserved : bool;
  se_ready : bool;
  se_initErr : option client_error }.

Definition with_inflight (n : Z) (s : session) : session :=
  mkSession (se_sessionID s) (se_sandbox s) (se_desiredLeaseExpiresAt s) (se_confirmedLeaseExpiresAt s) (se_remoteTimeoutExpiresAt s)
    (se_syncing s) n (se_destroying s) (se_capacityReserved s) (se_ready s) (se_initErr s).
Definition with_destroying (s : session) : session :=
  mkSession (se_sessionID s) (se_sandbox s) (se_desiredLeaseExpiresAt s) (se_confirmedLeaseExpiresAt s) (se_remoteTimeoutExpiresAt s)
    (se_syncing s) (se_inflight s) true (se_capacityReserved s) (se_ready s) (se_initErr s).
Definition with_leases (desired confirmed remote : time) (s : session) : session :=
  mkSession (se_sessionID s) (se_sandbox s) desired confirmed remote
    (se_syncing s) (se_inflight s) (se_destroying s) (se_capacityReserved s) (se_ready s) (se_initErr s).
Definition with_syncing (b : bool) (s : session) : session :=
  mkSession (se_sessionID s) (se_sandbox s) (se_desiredLeaseExpiresAt s) (se_confirmedLeaseExpiresAt s) (se_remoteTimeoutExpiresAt s)
    b (se_inflight s) (se_destroying s) (se_capacityReserved s) (se_ready s) (se_initErr s).
Definition with_init (sb : option Sandbox) (err : option client_error) (s : session) : session :=
  mkSession (se_sessionID s) sb (se_desiredLeaseExpiresAt s) (se_confirmedLeaseExpiresAt s) (se_remoteTimeoutExpiresAt s)
    (se_syncing s) (se_inflight s) (se_destroying s) (se_capacityReserved s) true err.

Record managerConfig := mkManagerConfig {
  c_LeaseMinSec : Z;
  c_LeaseMaxSec : Z;
  c_LeaseDefaultSec : Z;
  c_OutputLimitBytes : Z;
  c_ExportMaxBytes : Z;
  c_ExportMode : string;
  c_SessionMaxInflight : Z;
  c_MaxActiveSessions : Z;
  c_PreserveOnClose : bool }.

(** [e_sessions] holds references into [e_heap]; [e_closed] is also the done
    channel of the janitor. *)
Record manager := mkManager {
  e_cfg : managerConfig;
  e_sessions : gmap string nat;
  e_heap : list session;
  e_reservations : Z;
  e_closed : bool;
  e_createWG : Z }.

Definition clampTerminalValue (value minValue maxValue : Z) : Z :=
  if value <? minValue then minValue else if maxValue <? value then maxValue else value.

Definition normalizeTerminalExportMode (mode : string) : string := if equal_fold (trim mode) "worker" then "worker" else "sandbox".

Definition newTerminalSessionManager (cfg : managerConfig) : manager :=
  let or_default x d := if x <=? 0 then d else x in
  let leaseMin := or_default (c_LeaseMinSec cfg) defaultTerminalLeaseMinSec in
  let leaseMax := or_default (c_LeaseMaxSec cfg) defaultTerminalLeaseMaxSec in
  let leaseMax := if leaseMax <? leaseMin then leaseMin else leaseMax in
  let leaseDefault := clampTerminalValue (or_default (c_LeaseDefaultSec cfg) defaultTerminalLeaseSec) leaseMin leaseMax in
  mkManager (mkManagerConfig leaseMin leaseMax leaseDefault (or_default (c_OutputLimitBytes cfg) defaultTerminalOutputLimitBytes)
               (c_ExportMaxBytes cfg) (normalizeTerminalExportMode (c_ExportMode cfg))
               (or_default (c_SessionMaxInflight cfg) defaultTerminalSessionMaxInflight)
               (if c_MaxActiveSessions cfg <? 0 then 0 else c_MaxActiveSessions cfg) (c_PreserveOnClose cfg))
    ∅ [] 0 false 0.

Definition ActiveSessionCount (m : manager) : Z := i32 (e_reservations m).

(** Changes of the parts. *)
Definition set_table (t : gmap string nat) (m : manager) : manager :=
  mkManager (e_cfg m) t (e_heap m) (e_reservations m) (e_closed m) (e_createWG m).
Definition on_ref (l : nat) (f : session -> session) (m : manager) : manager :=
  mkManager (e_cfg m) (e_sessions m) (alter f l (e_heap m)) (e_reservations m) (e_closed m) (e_createWG m).
Definition set_reservations (n : Z) (m : manager) : manager :=
  mkManager (e_cfg m) (e_sessions m) (e_heap m) n (e_closed m) (e_createWG m).
Definition created_one (m : manager) : manager :=
  mkManager (e_cfg m) (e_sessions m) (e_heap m) (e_reservations m) (e_closed m) (e_createWG m - 1).
Definition set_closed (m : manager) : manager :=
  mkManager (e_cfg m) (e_sessions m) (e_heap m) (e_reservations m) true (e_createWG m).

Definition find_session (sid : string) (m : manager) : option (nat * session) :=
  l ← e_sessions m !! sid; s ← e_heap m !! l; Some (l, s).

Definition resolveLeaseDuration (m : manager) (value : option Z) : res duration :=
  let seconds := default (c_LeaseDefaultSec (e_cfg m)) value in
  if (seconds <? c_LeaseMinSec (e_cfg m)) || (c_LeaseMaxSec (e_cfg m) <? seconds)
  then Err (newTerminalExecError terminalExecCodeInvalidPayload
              ("lease_ttl_sec must be between " +:+ pretty (c_LeaseMinSec (e_cfg m)) +:+ " and " +:+ pretty (c_LeaseMaxSec (e_cfg m))))
  else Ok (i64 (seconds * second)).

(** ** Claiming a session *)
Record retiredTerminalSession := mkRetired { rt_sandbox : option Sandbox; rt_capacityReserved : bool }.

Definition retire (s : session) : retiredTerminalSession := mkRetired (se_sandbox s) (se_capacityReserved s).

Definition capacityAvailableLocked (m : manager) : bool :=
  (c_MaxActiveSessions (e_cfg m) <=? 0) || (e_reservations m <? c_MaxActiveSessions (e_cfg m)).

Definition new_session (sid : string) (leaseTarget : time) (capacityReserved : bool) : session :=
  mkSession sid None leaseTarget timeZero timeZero false 1 false capacityReserved false None.

Definition newSessionWithReservationLocked (sid : string) (leaseTarget : time) (capacityReserved incrementReservation : bool) (m : manager)
    : nat * manager :=
  let l := length (e_heap m) in
  (l, mkManager (e_cfg m) (<[sid := l]> (e_sessions m)) (e_heap m ++ [new_session sid leaseTarget capacityReserved])
        (if capacityReserved && incrementReservation then e_reservations m + 1 else e_reservations m) (e_closed m) (e_createWG m + 1)).

Definition capacity_exceeded : error := newTerminalExecError terminalExecCodeSessionCapacityExceeded terminalExecCapacityMessage.

Definition newSessionLocked (sid : string) (leaseTarget : time) (m : manager) : res nat * manager :=
  if negb (capacityAvailableLocked m) then (Err capacity_exceeded, m) else
  let '(l, m) := newSessionWithReservationLocked sid leaseTarget true true m in (Ok l, m).

Definition raise_desired (leaseTarget : time) (s : session) : session :=
  with_leases (Z.max (se_desiredLeaseExpiresAt s) leaseTarget) (se_confirmedLeaseExpiresAt s) (se_remoteTimeoutExpiresAt s) s.

(** A claim that succeeds, with whether it has to create the sandbox. *)
Inductive claim := Claimed (l : nat) (created : bool) | Refused (e : error).

Definition claim_new (r : res nat) : claim := match r with Ok l => Claimed l true | Err e => Refused e end.

(** The claim, a session to clean up before anything else, the manager. *)
Definition claimSession (now : time) (uuid sid : string) (leaseTarget : time) (createIfMissing : bool) (m : manager)
    : claim * option retiredTerminalSession * manager :=
  if e_closed m then (Refused not_ready, None, m) else
  if bool_decide (sid = "") then let '(r, m) := newSessionLocked uuid leaseTarget m in (claim_new r, None, m) else
  let missing :=
    if negb createIfMissing then (Refused no_session, None, m)
    else let '(r, m) := newSessionLocked sid leaseTarget m in (claim_new r, None, m) in
  match find_session sid m with
  | None => missing
  | Some (l, existing) =>
      if se_destroying existing then (Refused no_session, None, m) else
      if (se_inflight existing =? 0) && (se_confirmedLeaseExpiresAt existing <=? now) then
        if negb createIfMissing then (Refused no_session, Some (retire existing), set_table (delete sid (e_sessions m)) m) else
        if negb (se_capacityReserved existing) && negb (capacityAvailableLocked m) then (Refused capacity_exceeded, None, m) else
        let '(l', m') := newSessionWithReservationLocked sid leaseTarget true (negb (se_capacityReserved existing))
                           (set_table (delete sid (e_sessions m)) m) in
        (Claimed l' true, Some (mkRetired (se_sandbox existing) false), m')
      else if c_SessionMaxInflight (e_cfg m) <=? se_inflight existing
      then (Refused (newTerminalExecError terminalExecCodeSessionBusy terminalExecBusyMessage), None, m)
      else (Claimed l false, None, on_ref l (fun s => raise_desired leaseTarget (with_inflight (se_inflight s + 1) s)) m)
  end.

(** The claim of [RenewLease]. *)
Definition renew_claim (now : time) (sid : string) (leaseTarget : time) (m : manager) : res nat * manager :=
  if e_closed m then (Err not_ready, m) else
  match find_session sid m with
  | Some (l, s) =>
      if se_destroying s || bool_decide (se_sandbox s = None) || (se_confirmedLeaseExpiresAt s <=? now) then (Err no_session, m)
      else (Ok l, on_ref l (fun s => raise_desired leaseTarget (with_inflight (se_inflight s + 1) s)) m)
  | None => (Err no_session, m)
  end.

(** ** Creating and keeping the sandbox *)
Definition secondsUntil (now target : time) : Z := Z.max 1 (Z.quot (target - now) second + 1).

(** [awaitSessionReady] of the creator, when the service has answered. *)
Definition create_end (l : nat) (leaseExpiresAt : time) (result : answer Sandbox) (m : manager) : manager :=
  match result with
  | Good sb => on_ref l (fun s => with_leases (se_desiredLeaseExpiresAt s) leaseExpiresAt leaseExpiresAt (with_init (Some sb) None s)) m
  | Bad e => on_ref l (fun s => with_init None (Some e) s) m
  end.

(** What [syncSandboxTimeout] finds under the mutex: nothing to do, or the two
    times; [None]: there is no sandbox. *)
Inductive sync_plan := SyncDone | SyncSet (leaseExpires targetExpires : time) (sb : option Sandbox).

Definition sync_target (deadline : option time) (s : session) : time :=
  match deadline with Some d => Z.max (se_desiredLeaseExpiresAt s) d | None => se_desiredLeaseExpiresAt s end.

Definition raise_confirmed (leaseExpires : time) (s : session) : session :=
  with_leases (se_desiredLeaseExpiresAt s) (Z.max (se_confirmedLeaseExpiresAt s) leaseExpires) (se_remoteTimeoutExpiresAt s) s.

Definition sync_begin (deadline : option time) (l : nat) (s : session) (m : manager) : sync_plan * manager :=
  let target := sync_target deadline s in
  if target <=? se_remoteTimeoutExpiresAt s then (SyncDone, on_ref l (raise_confirmed (se_desiredLeaseExpiresAt s)) m)
  else (SyncSet (se_desiredLeaseExpiresAt s) target (se_sandbox s), on_ref l (with_syncing true) m).

Definition raise_remote (targetExpires : time) (s : session) : session :=
  with_leases (se_desiredLeaseExpiresAt s) (se_confirmedLeaseExpiresAt s) (Z.max (se_remoteTimeoutExpiresAt s) targetExpires) s.

(** The service has answered; the lock is given back. *)
Definition sync_end (l : nat) (leaseExpires targetExpires : time) (ok : bool) (m : manager) : manager :=
  on_ref l (fun s => with_syncing false (if ok then raise_confirmed leaseExpires (raise_remote targetExpires s) else s)) m.

(** ** Giving a session back *)
Definition releaseSession (sid : string) (m : manager) : option time * option retiredTerminalSession * manager :=
  match find_session sid m with
  | None => (None, None, m)
  | Some (l, s) =>
      let n := if 0 <? se_inflight s then se_inflight s - 1 else se_inflight s in
      let m := on_ref l (with_inflight n) m in
      if se_destroying s && (n =? 0)
      then (Some (se_confirmedLeaseExpiresAt s), Some (retire s), set_table (delete sid (e_sessions m)) m)
      else (Some (se_confirmedLeaseExpiresAt s), None, m)
  end.

Definition releaseAndDestroySession (sid : string) (m : manager) : option retiredTerminalSession * manager :=
  match find_session sid m with
  | None => (None, m)
  | Some (l, s) =>
      let n := if 0 <? se_inflight s then se_inflight s - 1 else se_inflight s in
      let m := on_ref l (fun s => with_inflight n (with_destroying s)) m in
      if n =? 0 then (Some (retire s), set_table (delete sid (e_sessions m)) m) else (None, m)
  end.

(** [cleanupRetiredSession] after the sandbox was killed. *)
Definition free_slot (r : retiredTerminalSession) (m : manager) : manager :=
  if rt_capacityReserved r && (0 <? e_reservations m) then set_reservations (e_reservations m - 1) m else m.

Definition expired (now : time) (s : session) : bool :=
  negb (se_destroying s || (0 <? se_inflight s) || (now <? se_confirmedLeaseExpiresAt s)).

Definition retire_if (p : session -> bool) (acc : list retiredTerminalSession * manager) (sid : string) : list retiredTerminalSession * manager :=
  let '(rs, m) := acc in
  match find_session sid m with
  | Some (_, s) => if p s then (rs ++ [retire s], set_table (delete sid (e_sessions m)) m) else acc
  | None => acc
  end.

Definition session_ids (m : manager) : list string := (map_to_list (e_sessions m)).*1.

Definition cleanupExpiredSessions (now : time) (m : manager) : list retiredTerminalSession * manager :=
  foldl (retire_if (expired now)) ([], m) (session_ids m).

(** [Close] after the creations have ended: the table is emptied; sandboxes that
    are to be kept are not killed. *)
Definition close_all (m : manager) : list retiredTerminalSession * manager :=
  let '(rs, m') := foldl (retire_if (fun _ => true)) ([], m) (session_ids m) in
  ((fun r => if c_PreserveOnClose (e_cfg m) then mkRetired None (rt_capacityReserved r) else r) <$> rs, m').

(** ** Proxied requests *)
Definition ResolveProxy (sessionID : string) (port : Z) (now : time) (m : manager) : answer (string * string) :=
  if (port <? 1) || (65535 <? port) then Bad (Failure (newTerminalExecError terminalExecCodeInvalidPayload "port must be between 1 and 65535")) else
  let sid := trim sessionID in
  if bool_decide (sid = "") then Bad (Failure (newTerminalExecError terminalExecCodeInvalidPayload "session_id is required")) else
  match find_session sid m with
  | Some (_, s) =>
      match se_sandbox s with
      | Some sb => if se_destroying s || (se_confirmedLeaseExpiresAt s <=? now) then Bad (Failure no_session) else ProxyURL sb port
      | None => Bad (Failure no_session)
      end
  | None => Bad (Failure no_session)
  end.

(** ** session_recovery.go *)
Definition set_lease (lease : time) (s : session) : session := with_leases lease lease lease s.

(** The first critical section: [Some] is the status. *)
Definition recover_known (sid : string) (lease : time) (m : manager) : option RecoveryStatus * manager :=
  if e_closed m then (Some INVALID, m) else
  match find_session sid m with
  | Some (l, s) => if se_destroying s then (None, m) else (Some RECOVERED, on_ref l (set_lease lease) m)
  | None => (None, m)
  end.

(** The second one, after the service has connected to the sandbox. *)
Definition recover_insert (sid : string) (lease : time) (sb : Sandbox) (m : manager) : RecoveryStatus * manager :=
  if e_closed m then (INVALID, m) else
  match find_session sid m with
  | Some (l, s) =>
      if match se_sandbox s with Some old => negb (bool_decide (sb_ID old = sb_ID sb)) || se_destroying s | None => true end
      then (INVALID, m) else (RECOVERED, on_ref l (set_lease lease) m)
  | None =>
      let l := length (e_heap m) in
      (RECOVERED, mkManager (e_cfg m) (<[sid := l]> (e_sessions m))
         (e_heap m ++ [mkSession sid (Some sb) lease lease lease false 0 false true true None])
         (e_reservations m + 1) (e_closed m) (e_createWG m))
  end.

(** What finds a session's sandbox again. *)
Definition terminalSessionWorkerMetadataKey : string := "onlyboxes.worker".
Definition terminalSessionWorkerMetadata : string := "worker-bridge-e2b".
Definition terminalSessionMetadataKey : string := "onlyboxes.session_id_hash".
Definition terminalSessionSchemaKey : string := "onlyboxes.schema_version".
Definition terminalSessionSchemaVersion : string := "1".

Section recovery.

(** SHA-256 in hexadecimal. *)
Variable sha256 : string -> string.

Definition terminalSessionIDHash (sid : string) : string := sha256 (trim sid).

Definition terminalSessionMetadata (sid : string) : gmap string string :=
  <[terminalSessionWorkerMetadataKey := terminalSessionWorkerMetadata]>
  (<[terminalSessionMetadataKey := terminalSessionIDHash sid]> {[terminalSessionSchemaKey := terminalSessionSchemaVersion]}).

Definition metadata_value (info : SandboxInfo) (key : string) : string := default "" (default ∅ (in_Metadata info) !! key).

Definition recover_matches (sid : string) (infos : list SandboxInfo) : list SandboxInfo :=
  filter (fun info => metadata_value info terminalSessionMetadataKey = terminalSessionIDHash sid /\
    metadata_value info terminalSessionSchemaKey = terminalSessionSchemaVersion /\
    metadata_value info terminalSessionWorkerMetadataKey = terminalSessionWorkerMetadata) infos.

(** What is done with the sandboxes that the service lists: nothing more, ask it
    to kill them, connect to one. *)
Inductive recover_plan := PlanStatus (status : RecoveryStatus) | PlanKill (ids : list string) | PlanConnect (id : string).

Definition plan_recovery (sid : string) (infos : answer (list SandboxInfo)) : recover_plan :=
  match infos with
  | Bad _ => PlanStatus INVALID
  | Good [] => PlanStatus MISSING
  | Good infos =>
      match recover_matches sid infos with
      | [] => PlanStatus INVALID
      | [info] => PlanConnect (in_ID info)
      | infos => PlanKill (filter (fun id => trim id <> "") (in_ID <$> infos))
      end
  end.

(** [connect id]: what the service answers; [m1], [m2]: the manager at the two
    critical sections. The status, the sandboxes killed, the manager. *)
Definition recoverOne (infos : answer (list SandboxInfo)) (connect : string -> answer Sandbox) (sid : string) (lease : time) (m1 : manager)
    (others : manager -> manager) : RecoveryStatus * list string * manager :=
  match recover_known sid lease m1 with
  | (Some status, m) => (status, [], m)
  | (None, m) =>
      match plan_recovery sid infos with
      | PlanStatus status => (status, [], m)
      | PlanKill ids => (INVALID, ids, m)
      | PlanConnect id =>
          match connect id with
          | Bad e => (if is_sandbox_not_found e then MISSING else INVALID, [], m)
          | Good sb =>
              if bool_decide (trim (sb_ID sb) = "") then (INVALID, [], m)
              else let '(status, m) := recover_insert sid lease sb (others m) in (status, [], m)
          end
      end
  end.

(** What the service answers about one candidate, and what the others do. *)
Record recover_env := mkRecoverEnv {
  rv_infos : answer (list SandboxInfo);
  rv_connect : string -> answer Sandbox;
  rv_others : manager -> manager }.

(** The results, the sandboxes killed, the manager. *)
Fixpoint Recover (now : time) (envs : nat -> recover_env) (candidates : list (option TerminalSessionRecoveryCandidate)) (m : manager)
    : list TerminalSessionRecoveryResult * list string * manager :=
  match candidates with
  | [] => ([], [], m)
  | None :: candidates => Recover now (fun i => envs (S i)) candidates m
  | Some candidate :: candidates =>
      let sid := trim (cand_SessionId candidate) in
      let lease := of_unix_milli (cand_LeaseExpiresUnixMs candidate) in
      let '(status, killed, m) :=
        if negb (bool_decide (sid = "")) && (0 <? cand_LeaseExpiresUnixMs candidate) && (now <? lease)
        then recoverOne (rv_infos (envs 0%nat)) (rv_connect (envs 0%nat)) sid lease m (rv_others (envs 0%nat))
        else (INVALID, [], m) in
      let '(results, killed', m) := Recover now (fun i => envs (S i)) candidates m in
      (mkRecoveryResult sid status :: results, killed ++ killed', m)
  end.

End recovery.

End E2bTerminal.

Import E2bTerminal.

Module E2bSteps.

(** What a claimed session is for: [Execute] and [ResolveResource] work in the
    sandbox, [RenewLease] does not. *)
Inductive job := Work | Renew.

(** After the cleanup of retired sessions: nothing, the creation of the session
    that replaces one, or the end of a creation that failed. *)
Inductive after := Nothing | ThenCreate (l : nat) | ThenCreated.

(** Where a goroutine is; [l] is the session it has claimed. *)
Inductive pc :=
  | Create (l : nat)                                            (** about to ask for the sandbox *)
  | Creating (l : nat) (leaseExpiresAt started : time)          (** the service is asked *)
  | Await (l : nat)                                             (** waits for [ready] *)
  | Sync (l : nat) (k : job)
  | Setting (l : nat) (leaseExpires targetExpires started : time) (k : job)
  | Working (l : nat)
  | Release (l : nat)
  | Destroy (l : nat) (creator : bool)
  | Killing (r : retiredTerminalSession) (rs : list retiredTerminalSession) (k : after)
  | Freeing (r : retiredTerminalSession) (rs : list retiredTerminalSession) (k : after)
  | Recovering (sid : string) (lease : time)                    (** a candidate of the console *)
  | Listing (sid : string) (lease : time)                       (** the service is asked for its sandboxes *)
  | Purging (sid : string) (ids : list string)                  (** more than one was found *)
  | Connecting (sid : string) (lease : time) (id : string) (started : time).

(** The process and the service: [c_remote] is when the service ends each
    sandbox that it keeps. *)
Record config := mkConfig {
  c_manager : manager;
  c_threads : list pc;
  c_remote : gmap string time;
  c_now : time }.

(** The goroutine that cleans up and then goes on. *)
Definition cleaning (rs : list retiredTerminalSession) (k : after) : list pc :=
  match rs, k with
  | r :: rs, _ => [Killing r rs k]
  | [], ThenCreate l => [Create l]
  | [], _ => []
  end.

Definition created_after (rs : list retiredTerminalSession) (k : after) (m : manager) : manager :=
  match rs, k with [], ThenCreated => created_one m | _, _ => m end.

(** The goroutine of a claim. *)
Definition claimant (c : claim) (r : option retiredTerminalSession) : list pc :=
  match c, r with
  | Claimed l true, Some r => [Killing r [] (ThenCreate l)]
  | Claimed l true, None => [Create l]
  | Claimed l false, _ => [Await l]
  | Refused _, Some r => [Killing r [] Nothing]
  | Refused _, None => []
  end.

(** What the service answers. *)
Inductive ending := Done | Missing | ContextEnd | OtherError.

Definition after_sync (l : nat) (k : job) : pc := match k with Work => Working l | Renew => Release l end.

(** How a failed [syncSandboxTimeout] ends; [RenewLease] does not destroy the
    session where its context ended. *)
Definition sync_failed (l : nat) (k : job) (a : ending) : pc :=
  match a, k with
  | Missing, _ | ContextEnd, Work => Destroy l false
  | _, _ => Release l
  end.

Definition work_ended (l : nat) (a : ending) : pc :=
  match a with Missing | ContextEnd => Destroy l false | Done | OtherError => Release l end.

Definition id_of (l : nat) (m : manager) : string := match e_heap m !! l with Some s => se_sessionID s | None => "" end.

(** The service ends a sandbox [secs] seconds after it took the request. *)
Definition remote_end (taken secs : Z) : time := taken + secs * second.

(** The session is in the table. *)
Definition listed (m : manager) (l : nat) (s : session) : Prop := e_heap m !! l = Some s /\ e_sessions m !! se_sessionID s = Some l.

(** An id that the service gave to no session before. *)
Definition new_id (sb : Sandbox) (m : manager) : Prop :=
  forall l s old, e_heap m !! l = Some s -> se_sandbox s = Some old -> sb_ID old <> sb_ID sb.

(** A goroutine's own step: the manager, the service, what the goroutine
    becomes. *)
Inductive moves (now : time) : manager -> gmap string time -> pc -> manager -> gmap string time -> list pc -> Prop :=
  | move_create m w l s :
      e_heap m !! l = Some s -> moves now m w (Create l) m w [Creating l (se_desiredLeaseExpiresAt s) now]
  | move_created m w l lease started sb taken :
      new_id sb m -> started <= taken <= now ->
      moves now m w (Creating l lease started) (created_one (create_end l lease (Good sb) m))
        (<[sb_ID sb := remote_end taken (secondsUntil started lease)]> w) [Sync l Work]
  | move_create_failed m w l lease started e :
      moves now m w (Creating l lease started) (create_end l lease (Bad e) m) w [Destroy l true]
  | move_ready m w l s :
      e_heap m !! l = Some s -> se_ready s = true ->
      moves now m w (Await l) m w [if bool_decide (se_initErr s = None) then Sync l Work else Release l]
  | move_await_ended m w l : moves now m w (Await l) m w [Release l]
  | move_sync_done m w l k deadline s m' :
      e_heap m !! l = Some s -> se_syncing s = false -> sync_begin deadline l s m = (SyncDone, m') ->
      moves now m w (Sync l k) m' w [after_sync l k]
  | move_sync_set m w l k deadline s m' lease target sb :
      e_heap m !! l = Some s -> se_syncing s = false -> sync_begin deadline l s m = (SyncSet lease target (Some sb), m') ->
      moves now m w (Sync l k) m' w [Setting l lease target now k]
  | move_sync_none m w l k deadline s m' lease target :
      e_heap m !! l = Some s -> se_syncing s = false -> sync_begin deadline l s m = (SyncSet lease target None, m') ->
      moves now m w (Sync l k) m w [sync_failed l k OtherError]
  | move_set m w l lease target started k s sb taken :
      e_heap m !! l = Some s -> se_sandbox s = Some sb -> is_Some (w !! sb_ID sb) -> started <= taken <= now ->
      moves now m w (Setting l lease target started k) (sync_end l lease target true m)
        (<[sb_ID sb := remote_end taken (secondsUntil started target)]> w) [after_sync l k]
  | move_set_failed m w l lease target started k s sb taken a w' :
      e_heap m !! l = Some s -> se_sandbox s = Some sb -> a <> Done -> started <= taken <= now ->
      (** the service may have taken the request all the same *)
      (w' = w \/ is_Some (w !! sb_ID sb) /\ w' = <[sb_ID sb := remote_end taken (secondsUntil started target)]> w) ->
      moves now m w (Setting l lease target started k) (sync_end l lease target false m) w' [sync_failed l k a]
  | move_worked m w l a : moves now m w (Working l) m w [work_ended l a]
  | move_release m w l t r m' :
      releaseSession (id_of l m) m = (t, r, m') -> moves now m w (Release l) m' w (cleaning (option_list r) Nothing)
  | move_destroy m w l creator r m' :
      releaseAndDestroySession (id_of l m) m = (r, m') ->
      let k := if creator : bool then ThenCreated else Nothing in
      moves now m w (Destroy l creator) (created_after (option_list r) k m') w (cleaning (option_list r) k)
  | move_kill m w r rs k w' :
      (** a kill may fail; without a sandbox there is nothing to kill *)
      w' = w \/ (exists sb, rt_sandbox r = Some sb /\ w' = delete (sb_ID sb) w) ->
      moves now m w (Killing r rs k) m w' [Freeing r rs k]
  | move_free m w r rs k :
      moves now m w (Freeing r rs k) (created_after rs k (free_slot r m)) w (cleaning rs k)
  | move_known m w sid lease status m' :
      recover_known sid lease m = (status, m') ->
      moves now m w (Recovering sid lease) m' w (match status with Some _ => [] | None => [Listing sid lease] end)
  | move_listed m w sid lease hash infos :
      (** whatever the service answers, and whatever the hash of the session ids *)
      moves now m w (Listing sid lease) m w
        match plan_recovery hash sid infos with
        | PlanStatus _ => []
        | PlanKill ids => [Purging sid ids]
        | PlanConnect id => [Connecting sid lease id now]
        end
  | move_purge m w sid id ids w' :
      w' = w \/ w' = delete id w -> moves now m w (Purging sid (id :: ids)) m w' [Purging sid ids]
  | move_purged m w sid : moves now m w (Purging sid []) m w []
  | move_connect_failed m w sid lease id started taken w' :
      started <= taken <= now ->
      (w' = w \/ is_Some (w !! id) /\ w' = <[id := remote_end taken (secondsUntil started lease)]> w) ->
      moves now m w (Connecting sid lease id started) m w' [].

(** The sandboxes that a cleanup is about to kill. *)
Definition sandbox_of (r : retiredTerminalSession) : list string := match rt_sandbox r with Some sb => [sb_ID sb] | None => [] end.
Definition doomed (t : pc) : list string :=
  match t with Killing r rs _ => sandbox_of r ++ (rs ≫= sandbox_of) | Freeing _ rs _ => rs ≫= sandbox_of | _ => [] end.

(** Everything that happens; candidates are only recovered where [recovering], each
    by a goroutine of its own. *)
Inductive step (recovering : bool) (c : config) : config -> Prop :=
  | step_tick now : c_now c <= now -> step recovering c (mkConfig (c_manager c) (c_threads c) (c_remote c) now)
  | step_claim uuid sid target createIfMissing out r m :
      e_sessions (c_manager c) !! uuid = None ->
      claimSession (c_now c) uuid sid target createIfMissing (c_manager c) = (out, r, m) ->
      step recovering c (mkConfig m (c_threads c ++ claimant out r) (c_remote c) (c_now c))
  | step_renew sid target l m :
      renew_claim (c_now c) sid target (c_manager c) = (Ok l, m) ->
      step recovering c (mkConfig m (c_threads c ++ [Sync l Renew]) (c_remote c) (c_now c))
  | step_thread before t after m w ts :
      c_threads c = before ++ t :: after -> moves (c_now c) (c_manager c) (c_remote c) t m w ts ->
      step recovering c (mkConfig m (before ++ ts ++ after) w (c_now c))
  | step_janitor rs m :
      cleanupExpiredSessions (c_now c) (c_manager c) = (rs, m) ->
      step recovering c (mkConfig m (c_threads c ++ cleaning rs Nothing) (c_remote c) (c_now c))
  | step_closing : step recovering c (mkConfig (set_closed (c_manager c)) (c_threads c) (c_remote c) (c_now c))
  | step_close rs m :
      e_closed (c_manager c) = true -> e_createWG (c_manager c) = 0 -> close_all (c_manager c) = (rs, m) ->
      step recovering c (mkConfig m (c_threads c ++ cleaning rs Nothing) (c_remote c) (c_now c))
  | step_candidate sid lease :
      recovering = true -> sid <> "" ->
      step recovering c (mkConfig (c_manager c) (c_threads c ++ [Recovering sid lease]) (c_remote c) (c_now c))
  | step_connected before after sid lease started sb taken status m :
      (** the service connects to the sandbox that it is asked for *)
      recovering = true -> c_threads c = before ++ Connecting sid lease (sb_ID sb) started :: after -> trim (sb_ID sb) <> "" ->
      is_Some (c_remote c !! sb_ID sb) -> started <= taken <= c_now c -> recover_insert sid lease sb (c_manager c) = (status, m) ->
      step recovering c (mkConfig m (before ++ after) (<[sb_ID sb := remote_end taken (secondsUntil started lease)]> (c_remote c)) (c_now c)).

Definition start (cfg : managerConfig) (remote : gmap string time) (now : time) : config :=
  mkConfig (newTerminalSessionManager cfg) [] remote now.

End E2bSteps.
