(* ===== verification/E2bInv.v ===== *)
(** The invariants of the bridge to e2b: what its critical sections change
    ([E2bProps]), the counters of the sessions and of the reserved slots
    ([E2bInv]), and the time for which the service keeps a sandbox
    ([E2bLease]). *)
From stdpp Require Import relations.
From S2P Require Import Prelude.
From S2P Require Import Proto.
From S2P Require Import WorkerTerminal.
From S2P Require Import E2bClient.
From S2P Require Import E2bTerminal.
Import E2bClient.
Import E2bTerminal.
Import E2bSteps.
Local Open Scope Z_scope.

Module E2bProps.

(** ** Sums over the heap *)
Definition b2n (b : bool) : nat := if b then 1 else 0.

Fixpoint sum_below (f : nat -> nat) (n : nat) : nat := match n with O => O | S n => (sum_below f n + f n)%nat end.

Lemma sum_below_ext f g n : (forall i, (i < n)%nat -> f i = g i) -> sum_below f n = sum_below g n.
Proof. induction n as [|n IH]; intros H; [done|]. cbn. rewrite IH, H; [done|lia|]. intros i Hi. apply H. lia. Qed.

Lemma sum_below_change f g n l : (l < n)%nat -> (forall i, (i < n)%nat -> i <> l -> f i = g i) ->
  (sum_below f n + g l = sum_below g n + f l)%nat.
Proof.
  induction n as [|n IH]; intros Hl H; [lia|]. cbn. destruct (decide (l = n)) as [->|Hne].
  - rewrite (sum_below_ext f g n); [lia|]. intros i Hi. apply H; lia.
  - assert (sum_below f n + g l = sum_below g n + f l)%nat as E by (apply IH; [lia|]; intros i Hi; apply H; lia).
    rewrite (H n) by lia. lia.
Qed.

(** ** Counts *)
Definition holder (t : pc) : option nat :=
  match t with
  | Create l | Creating l _ _ | Await l | Sync l _ | Setting l _ _ _ _ | Working l | Release l | Destroy l _ => Some l
  | Killing _ _ (ThenCreate l) | Freeing _ _ (ThenCreate l) => Some l
  | Killing _ _ _ | Freeing _ _ _ | Recovering _ _ | Listing _ _ | Purging _ _ | Connecting _ _ _ _ => None
  end.

Definition pending (t : pc) : list retiredTerminalSession :=
  match t with Killing r rs _ | Freeing r rs _ => r :: rs | _ => [] end.

Definition held1 (t : pc) (l : nat) : nat := b2n (bool_decide (holder t = Some l)).
Definition reserved (rs : list retiredTerminalSession) : nat := sum_list (b2n ∘ rt_capacityReserved <$> rs).

Lemma reserved_app rs rs' : reserved (rs ++ rs') = (reserved rs + reserved rs')%nat.
Proof. unfold reserved. induction rs as [|r rs IH]; [done|]. cbn. rewrite IH. lia. Qed.

(** How many goroutines have claimed a session, and how many slots retired
    sessions still occupy. *)
Definition held (ts : list pc) (l : nat) : nat := sum_list ((fun t => held1 t l) <$> ts).
Definition pending_slots (ts : list pc) : nat := sum_list (reserved ∘ pending <$> ts).

Definition slot (m : manager) (l : nat) : nat :=
  match e_heap m !! l with
  | Some s => b2n (bool_decide (e_sessions m !! se_sessionID s = Some l) && se_capacityReserved s)
  | None => 0
  end.
Definition slots (m : manager) : nat := sum_below (slot m) (length (e_heap m)).

Definition wiped (m : manager) : Prop := e_closed m = true /\ e_sessions m = ∅.

(** The table refers to sessions under their own ids, and the reservations are
    those of the sessions in the table and of the retired ones. *)
Record InvT (m : manager) (pend : nat) : Prop := {
  t_table : forall sid l, e_sessions m !! sid = Some l -> exists s, e_heap m !! l = Some s /\ se_sessionID s = sid;
  t_res : e_reservations m = Z.of_nat (slots m + pend) }.

(** A claimed session stays in the table; its counter is the number of claims,
    and one that is being destroyed waits for them. *)
Record InvH (m : manager) (hold : nat -> nat) : Prop := {
  h_hold : forall l, (0 < hold l)%nat -> exists s, e_heap m !! l = Some s /\ (e_sessions m !! se_sessionID s = Some l \/ wiped m);
  h_count : forall l s, listed m l s -> se_inflight s = Z.of_nat (hold l) /\ (se_destroying s = true -> 0 < se_inflight s) }.

Lemma find_listed m pend sid l s : InvT m pend -> find_session sid m = Some (l, s) -> listed m l s /\ se_sessionID s = sid.
Proof.
  intros HT. unfold find_session. destruct (e_sessions m !! sid) as [l'|] eqn:E; [|done]. cbn. destruct (e_heap m !! l') as [s'|] eqn:E'; [|done].
  cbn. intros [= <- <-]. destruct (t_table _ _ HT _ _ E) as (s''&E''&<-). rewrite E' in E''. injection E'' as <-. done.
Qed.

Lemma listed_find m l s : listed m l s -> find_session (se_sessionID s) m = Some (l, s).
Proof. intros [H1 H2]. unfold find_session. rewrite H2. cbn. by rewrite H1. Qed.

Lemma listed_lt m l s : listed m l s -> (l < length (e_heap m))%nat.
Proof. intros [H _]. by eapply lookup_lt_Some. Qed.

Lemma slot_listed m l s : listed m l s -> slot m l = b2n (se_capacityReserved s).
Proof. intros [H1 H2]. unfold slot. by rewrite H1, bool_decide_true. Qed.

(** ** Changes of a session that the counts do not see *)
Definition same_core (s s' : session) : Prop :=
  se_sessionID s' = se_sessionID s /\ se_capacityReserved s' = se_capacityReserved s /\ se_inflight s' = se_inflight s /\ se_destroying s' = se_destroying s.

Lemma on_ref_lookup m l f l' : e_heap (on_ref l f m) !! l' = if decide (l' = l) then f <$> e_heap m !! l else e_heap m !! l'.
Proof. cbn [on_ref e_heap]. case_decide as H; [subst; apply list_lookup_alter_eq|]. by apply list_lookup_alter_ne. Qed.

Lemma slots_on_ref m l f : (forall s, e_heap m !! l = Some s -> se_sessionID (f s) = se_sessionID s /\ se_capacityReserved (f s) = se_capacityReserved s) ->
  slots (on_ref l f m) = slots m.
Proof.
  intros Hf. unfold slots. cbn [on_ref e_heap]. rewrite length_alter. apply sum_below_ext. intros i _. unfold slot. rewrite on_ref_lookup.
  case_decide as H; [subst i|done]. destruct (e_heap m !! l) as [s|] eqn:E; [|done]. cbn. by destruct (Hf s eq_refl) as [-> ->].
Qed.

Lemma table_on_ref m pend l f : (forall s, e_heap m !! l = Some s -> se_sessionID (f s) = se_sessionID s /\ se_capacityReserved (f s) = se_capacityReserved s) ->
  InvT m pend -> InvT (on_ref l f m) pend.
Proof.
  intros Hf [H1 H2]. split.
  - intros sid l' E. destruct (H1 sid l' E) as (s&Es&<-). rewrite on_ref_lookup. case_decide as H; [subst l'|by exists s].
    exists (f s). rewrite Es. split; [done|]. by apply Hf.
  - rewrite slots_on_ref by done. exact H2.
Qed.

Lemma holds_same_core m hold l f : (forall s, e_heap m !! l = Some s -> same_core s (f s)) -> InvH m hold -> InvH (on_ref l f m) hold.
Proof.
  intros Hf [H1 H2]. split.
  - intros l' Hl. destruct (H1 l' Hl) as (s&Es&Hs). rewrite on_ref_lookup. case_decide as H; [subst l'|by exists s].
    exists (f s). rewrite Es. split; [done|]. destruct (Hf s Es) as (->&_). exact Hs.
  - intros l' s' [Es' Ht]. rewrite on_ref_lookup in Es'. case_decide as H; [subst l'|by apply (H2 l' s')].
    destruct (e_heap m !! l) as [s|] eqn:Es; [|done]. injection Es' as <-. destruct (Hf s eq_refl) as (Ei&_&En&Ed).
    cbn [on_ref e_sessions] in Ht. rewrite Ei in Ht. rewrite En, Ed. by apply H2.
Qed.

(** ** Removing a session from the table *)
Lemma retire_slots m pend l s : InvT m pend -> listed m l s ->
  slots m = (slots (set_table (delete (se_sessionID s) (e_sessions m)) m) + b2n (se_capacityReserved s))%nat.
Proof.
  intros HT Hl. unfold slots. cbn [set_table e_heap]. set (m' := set_table _ m).
  assert (slot m' l = 0%nat) as E0.
  { unfold slot. cbn [m' set_table e_heap e_sessions]. destruct Hl as [-> _]. by rewrite lookup_delete_eq. }
  pose proof (sum_below_change (slot m) (slot m') _ l (listed_lt _ _ _ Hl)) as Hs. rewrite E0, (slot_listed m l s Hl) in Hs.
  rewrite <- Hs; [lia|]. intros i Hi Hne. unfold slot. cbn [m' set_table e_heap e_sessions]. destruct (e_heap m !! i) as [si|] eqn:Ei; [|done].
  destruct (decide (se_sessionID si = se_sessionID s)) as [E|E]; [|by rewrite lookup_delete_ne].
  rewrite E, lookup_delete_eq. destruct Hl as [_ ->]. rewrite bool_decide_false; [done|]. congruence.
Qed.

Lemma retire_table m pend l s : InvT m pend -> listed m l s ->
  InvT (set_table (delete (se_sessionID s) (e_sessions m)) m) (pend + b2n (se_capacityReserved s)).
Proof.
  intros HT Hl. pose proof (retire_slots _ _ _ _ HT Hl) as Hs. destruct HT as [H1 H2]. split.
  - intros sid l'. cbn [set_table e_sessions e_heap]. rewrite lookup_delete_Some. intros [_ E]. by apply H1.
  - cbn [set_table e_reservations]. rewrite H2. lia.
Qed.

Lemma retire_holds m hold l s : InvH m hold -> listed m l s -> hold l = 0%nat ->
  InvH (set_table (delete (se_sessionID s) (e_sessions m)) m) hold.
Proof.
  intros [H1 H2] Hl H0. split.
  - intros l' Hh. destruct (H1 l' Hh) as (s'&Es&Hs). exists s'. split; [done|]. cbn [set_table e_sessions].
    destruct Hs as [Hs|[Hc He]]; [|right; split; [done|]; cbn; by rewrite He, delete_empty]. left. rewrite lookup_delete_ne; [done|].
    intros E. rewrite <- E in Hs. destruct Hl as [_ Hl]. rewrite Hs in Hl. injection Hl as ->. lia.
  - intros l' s' [Es Ht]. cbn [set_table e_sessions e_heap] in *. apply lookup_delete_Some in Ht as [_ Ht]. by apply H2.
Qed.

(** ** Giving a session back *)
Lemma on_ref_listed m l s f : listed m l s -> se_sessionID (f s) = se_sessionID s -> listed (on_ref l f m) l (f s).
Proof. intros [H1 H2] E. split; [rewrite on_ref_lookup; case_decide; [by rewrite H1|done]|]. cbn. by rewrite E. Qed.

(** One claim less, or one more. *)
Lemma holds_change m hold hold' l s f : InvH m hold -> listed m l s -> se_sessionID (f s) = se_sessionID s ->
  (forall l', l' <> l -> hold' l' = hold l') -> se_inflight (f s) = Z.of_nat (hold' l) -> (se_destroying (f s) = true -> 0 < se_inflight (f s)) ->
  InvH (on_ref l f m) hold'.
Proof.
  intros [H1 H2] [Es Et] Ei Hh Hn Hd. split.
  - intros l' Hl. rewrite on_ref_lookup. case_decide as H; [subst l'; exists (f s); rewrite Es; split; [done|]; left; cbn; by rewrite Ei|].
    apply H1. by rewrite <- Hh.
  - intros l' s' [Es' Ht]. rewrite on_ref_lookup in Es'. case_decide as H.
    + subst l'. rewrite Es in Es'. injection Es' as <-. done.
    + rewrite Hh by done. by apply H2.
Qed.

Lemma id_find m l : (exists s, e_heap m !! l = Some s /\ (e_sessions m !! se_sessionID s = Some l \/ wiped m)) ->
  (exists s, listed m l s /\ find_session (id_of l m) m = Some (l, s)) \/ wiped m /\ find_session (id_of l m) m = None.
Proof.
  intros (s&Es&[Ht|Hw]); unfold id_of; rewrite Es.
  - left. exists s. split; [done|]. by apply listed_find.
  - right. split; [done|]. unfold find_session. destruct Hw as [_ ->]. done.
Qed.

Definition less (hold : nat -> nat) (l : nat) (l' : nat) : nat := if decide (l' = l) then (hold l - 1)%nat else hold l'.

Lemma holds_less_wiped m hold l : wiped m -> InvH m hold -> InvH m (less hold l).
Proof.
  intros Hw [H1 H2]. split.
  - intros l' Hl. apply H1. unfold less in Hl. case_decide; [subst; lia|done].
  - intros l' s' [_ Ht]. by rewrite (proj2 Hw), lookup_empty in Ht.
Qed.

(** The last claim goes and takes the session out of the table. *)
Lemma drop_last m pend hold l s f : InvT m pend -> InvH m hold -> listed m l s -> hold l = 1%nat ->
  (forall s, se_sessionID (f s) = se_sessionID s /\ se_capacityReserved (f s) = se_capacityReserved s) ->
  let m' := set_table (delete (se_sessionID s) (e_sessions m)) (on_ref l f m) in
  InvT m' (pend + b2n (se_capacityReserved s)) /\ InvH m' (less hold l).
Proof.
  intros HT HH Hs H1 Hf. destruct (Hf s) as [Ei Er]. split.
  - rewrite <- Er, <- Ei. apply (retire_table (on_ref l f m) pend l (f s)); [by apply table_on_ref|by apply on_ref_listed].
  - destruct HH as [K1 K2]. split; cbn [set_table e_heap e_sessions].
    + intros l' Hh. assert (l' <> l) as Hne by (intros ->; unfold less in Hh; case_decide; [lia|done]).
      unfold less in Hh. rewrite decide_False in Hh by done. destruct (K1 l' Hh) as (s'&Es'&Ht'). exists s'.
      rewrite on_ref_lookup, decide_False by done. split; [done|].
      destruct Ht' as [Ht'|[Hc He]]; [left|right; split; [done|]; cbn; by rewrite He, delete_empty].
      rewrite lookup_delete_ne; [done|]. intros E. destruct Hs as [_ Hs]. rewrite E, Ht' in Hs. congruence.
    + intros l' s' [Es' Ht']. cbn [set_table e_heap e_sessions] in *. apply lookup_delete_Some in Ht' as [Hne Ht'].
      rewrite on_ref_lookup in Es'. destruct Hs as [Es Ht]. case_decide as H.
      * subst l'. rewrite Es in Es'. injection Es' as <-. congruence.
      * unfold less. rewrite decide_False by done. by apply K2.
Qed.

(** Another one stays. *)
Lemma drop_one m pend hold l s f : InvT m pend -> InvH m hold -> listed m l s -> (0 < hold l)%nat ->
  (forall s, se_sessionID (f s) = se_sessionID s /\ se_capacityReserved (f s) = se_capacityReserved s) ->
  se_inflight (f s) = se_inflight s - 1 -> (se_destroying (f s) = true -> 0 < se_inflight (f s)) ->
  InvT (on_ref l f m) pend /\ InvH (on_ref l f m) (less hold l).
Proof.
  intros HT HH Hs Hl Hf Hn Hd. destruct (h_count _ _ HH l s Hs) as [En _]. split; [by apply table_on_ref|].
  eapply holds_change; [done|done|by destruct (Hf s)| | |done].
  - intros l' Hne. unfold less. by rewrite decide_False.
  - unfold less. rewrite decide_True by done. lia.
Qed.

Lemma reserved_one s : reserved (option_list (Some (retire s))) = b2n (se_capacityReserved s).
Proof. unfold reserved. cbn. lia. Qed.

Lemma release_keeps m pend hold l t r m' : InvT m pend -> InvH m hold -> (0 < hold l)%nat -> releaseSession (id_of l m) m = (t, r, m') ->
  InvT m' (pend + reserved (option_list r)) /\ InvH m' (less hold l).
Proof.
  intros HT HH Hl. unfold releaseSession. destruct (id_find m l (h_hold _ _ HH l Hl)) as [(s&Hs&Hfind)|[Hw ->]].
  2: { intros [= <- <- <-]. cbn. rewrite Nat.add_0_r. split; [done|]. by apply holds_less_wiped. }
  rewrite Hfind. apply (find_listed _ _ _ _ _ HT) in Hfind as [_ Hid]. rewrite <- Hid.
  destruct (h_count _ _ HH l s Hs) as [En Ed]. rewrite (proj2 (Z.ltb_lt _ _)) by lia. destruct (se_destroying s && _) eqn:E; intros [= <- <- <-].
  - apply andb_true_iff in E as [_ E%Z.eqb_eq]. rewrite reserved_one. apply drop_last; try done. lia.
  - cbn. rewrite Nat.add_0_r. apply andb_false_iff in E. eapply drop_one; try done. cbn. intros Hd. destruct E as [E|E%Z.eqb_neq]; [congruence|lia].
Qed.

Lemma destroy_keeps m pend hold l r m' : InvT m pend -> InvH m hold -> (0 < hold l)%nat -> releaseAndDestroySession (id_of l m) m = (r, m') ->
  InvT m' (pend + reserved (option_list r)) /\ InvH m' (less hold l).
Proof.
  intros HT HH Hl. unfold releaseAndDestroySession. destruct (id_find m l (h_hold _ _ HH l Hl)) as [(s&Hs&Hfind)|[Hw ->]].
  2: { intros [= <- <-]. cbn. rewrite Nat.add_0_r. split; [done|]. by apply holds_less_wiped. }
  rewrite Hfind. apply (find_listed _ _ _ _ _ HT) in Hfind as [_ Hid]. rewrite <- Hid.
  destruct (h_count _ _ HH l s Hs) as [En Ed]. rewrite (proj2 (Z.ltb_lt _ _)) by lia. destruct (_ =? 0) eqn:E; intros [= <- <-].
  - apply Z.eqb_eq in E. rewrite reserved_one. apply drop_last; try done. lia.
  - apply Z.eqb_neq in E. cbn. rewrite Nat.add_0_r. eapply drop_one; try done. cbn. lia.
Qed.

(** ** New sessions *)
Definition more (hold : nat -> nat) (l : nat) (l' : nat) : nat := if decide (l' = l) then S (hold l) else hold l'.

Lemma append_slots m sid s n closed wg : InvT m n -> e_sessions m !! sid = None -> se_sessionID s = sid -> forall res,
  slots (mkManager (e_cfg m) (<[sid := length (e_heap m)]> (e_sessions m)) (e_heap m ++ [s]) res closed wg) = (slots m + b2n (se_capacityReserved s))%nat.
Proof.
  intros HT Hsid Hs res. unfold slots. cbn [e_heap]. rewrite length_app. cbn [length]. rewrite Nat.add_1_r. cbn [sum_below]. f_equal.
  - apply sum_below_ext. intros i Hi. unfold slot. cbn [e_heap e_sessions]. rewrite lookup_app_l by done.
    destruct (e_heap m !! i) as [si|]; [|done]. destruct (decide (se_sessionID si = sid)) as [E|E]; [|by rewrite lookup_insert_ne].
    rewrite E, lookup_insert_eq, Hsid. rewrite !bool_decide_false; [done|done|]. intros [= Ei]. lia.
  - unfold slot. cbn [e_heap e_sessions]. rewrite lookup_app_r, Nat.sub_diag by lia. cbn. by rewrite Hs, lookup_insert_eq, bool_decide_true.
Qed.

Lemma append_table m pend0 pend sid s res wg : InvT m pend0 -> e_sessions m !! sid = None -> se_sessionID s = sid ->
  res = Z.of_nat (slots m + b2n (se_capacityReserved s) + pend) ->
  InvT (mkManager (e_cfg m) (<[sid := length (e_heap m)]> (e_sessions m)) (e_heap m ++ [s]) res (e_closed m) wg) pend.
Proof.
  intros HT Hsid Hs Hres. split.
  - intros sid' l'. cbn [e_sessions e_heap]. rewrite lookup_insert_Some. intros [[<- <-]|[Hne E]].
    + exists s. rewrite lookup_app_r, Nat.sub_diag by lia. done.
    + destruct (t_table _ _ HT _ _ E) as (s'&Es'&?). exists s'. rewrite lookup_app_l by by eapply lookup_lt_Some. done.
  - cbn [e_reservations]. by rewrite (append_slots m sid s pend0), Hres.
Qed.

Lemma fresh_unheld m hold : InvH m hold -> hold (length (e_heap m)) = 0%nat.
Proof.
  intros HH. destruct (hold _) eqn:E; [done|]. destruct (h_hold _ _ HH (length (e_heap m)) ltac:(lia)) as (s&Es&_). apply lookup_lt_Some in Es. lia.
Qed.

(** [n]: whether the new session comes with a claim. *)
Lemma append_holds m hold sid s res wg (n : bool) : InvH m hold -> e_closed m = false -> e_sessions m !! sid = None -> se_sessionID s = sid ->
  se_inflight s = Z.of_nat (b2n n) -> se_destroying s = false ->
  InvH (mkManager (e_cfg m) (<[sid := length (e_heap m)]> (e_sessions m)) (e_heap m ++ [s]) res (e_closed m) wg)
    (if n then more hold (length (e_heap m)) else hold).
Proof.
  intros HH Hc Hsid Hs Hn Hd. pose proof (fresh_unheld _ _ HH) as H0. set (l := length (e_heap m)) in *.
  assert (forall l', (if n then more hold l else hold) l' = if decide (l' = l) then b2n n else hold l') as Hh.
  { intros l'. destruct n; unfold more; case_decide as H; try done; by subst; rewrite ?H0. }
  destruct HH as [H1 H2]. split.
  - intros l' Hl. rewrite Hh in Hl. cbn [e_heap e_sessions]. case_decide as H.
    + subst l'. exists s. unfold l. rewrite lookup_app_r, Nat.sub_diag by lia. split; [done|]. left. by rewrite Hs, lookup_insert_eq.
    + destruct (H1 l' Hl) as (s'&Es'&[Ht|[Hw _]]); [|congruence]. exists s'. rewrite lookup_app_l by by eapply lookup_lt_Some.
      split; [done|]. left. rewrite lookup_insert_ne; [done|]. intros E. by rewrite <- E, Hsid in Ht.
  - intros l' s' [Es Ht]. cbn [e_heap e_sessions] in *. rewrite Hh. apply lookup_insert_Some in Ht as [[E <-]|[Hne Ht]].
    + fold l in Es. unfold l in Es. rewrite lookup_app_r, Nat.sub_diag in Es by lia. injection Es as <-. rewrite decide_True by done. by rewrite Hd.
    + destruct (decide (l' = l)) as [->|Hl']; [|].
      * unfold l in Es. rewrite lookup_app_r, Nat.sub_diag in Es by lia. injection Es as <-. congruence.
      * apply H2. split; [|done]. apply lookup_lt_Some in Es as Hlt. rewrite length_app in Hlt. cbn in Hlt. unfold l in Hl'.
        by rewrite lookup_app_l in Es by lia.
Qed.

Lemma find_none m sid : (forall sid l, e_sessions m !! sid = Some l -> exists s, e_heap m !! l = Some s /\ se_sessionID s = sid) ->
  find_session sid m = None -> e_sessions m !! sid = None.
Proof.
  intros Ht. unfold find_session. destruct (e_sessions m !! sid) as [l|] eqn:E; [|done]. cbn. destruct (Ht _ _ E) as (s&->&_). done.
Qed.

Definition claimed (hold : nat -> nat) (out : claim) : nat -> nat := match out with Claimed l _ => more hold l | Refused _ => hold end.

Lemma new_keeps m pend hold sid target r m' : InvT m pend -> InvH m hold -> e_closed m = false -> e_sessions m !! sid = None ->
  newSessionLocked sid target m = (r, m') -> InvT m' pend /\ InvH m' (claimed hold (claim_new r)).
Proof.
  intros HT HH Hc Hsid. unfold newSessionLocked. destruct (negb _); [by intros [= <- <-]|].
  unfold newSessionWithReservationLocked. cbn [andb]. intros [= <- <-]. split.
  - eapply append_table; [done..|]. cbn [se_capacityReserved new_session b2n]. rewrite (t_res _ _ HT). lia.
  - by apply (append_holds m hold sid (new_session sid target true) _ _ true).
Qed.

(** One claim more on a session in the table. *)
Lemma join_keeps m pend hold l s target : InvT m pend -> InvH m hold -> listed m l s -> se_destroying s = false ->
  let m' := on_ref l (fun s => raise_desired target (with_inflight (se_inflight s + 1) s)) m in InvT m' pend /\ InvH m' (more hold l).
Proof.
  intros HT HH Hs Hd. destruct (h_count _ _ HH l s Hs) as [En _]. split; [by apply table_on_ref|].
  eapply holds_change; [done|done|done| | |].
  - intros l' Hne. unfold more. by rewrite decide_False.
  - unfold more. rewrite decide_True by done. cbn. lia.
  - cbn. by rewrite Hd.
Qed.

Lemma claim_keeps m pend hold now uuid sid target create out r m' : InvT m pend -> InvH m hold -> e_sessions m !! uuid = None ->
  claimSession now uuid sid target create m = (out, r, m') ->
  InvT m' (pend + reserved (option_list r)) /\ InvH m' (claimed hold out).
Proof.
  intros HT HH Hu. unfold claimSession. destruct (e_closed m) eqn:Hc; [intros [= <- <- <-]; by rewrite Nat.add_0_r|].
  case_bool_decide.
  { destruct (newSessionLocked _ _ _) as [r' m1] eqn:E. intros [= <- <- <-]. rewrite Nat.add_0_r. by eapply new_keeps. }
  destruct (find_session sid m) as [[l s]|] eqn:Ef.
  2: { destruct create; cbn [negb]; [|intros [= <- <- <-]; by rewrite Nat.add_0_r].
       destruct (newSessionLocked _ _ _) as [r' m1] eqn:E. intros [= <- <- <-]. rewrite Nat.add_0_r. eapply new_keeps; [done..| |done].
       apply find_none; [apply (t_table _ _ HT)|done]. }
  apply (find_listed _ _ _ _ _ HT) in Ef as [Hs <-]. destruct (se_destroying s) eqn:Hd; [intros [= <- <- <-]; by rewrite Nat.add_0_r|].
  destruct (h_count _ _ HH l s Hs) as [En _]. destruct ((se_inflight s =? 0) && _) eqn:Ex.
  - apply andb_true_iff in Ex as [E0%Z.eqb_eq _]. assert (hold l = 0%nat) as H0 by lia.
    pose proof (retire_table _ _ _ _ HT Hs) as HT1. pose proof (retire_holds _ _ _ _ HH Hs H0) as HH1.
    destruct create; cbn [negb]; [|intros [= <- <- <-]; by rewrite reserved_one].
    destruct (negb (se_capacityReserved s) && _); [intros [= <- <- <-]; by rewrite Nat.add_0_r|]. unfold newSessionWithReservationLocked.
    intros [= <- <- <-]. rewrite Nat.add_0_r. split.
    + apply (append_table _ _ pend (se_sessionID s) (new_session (se_sessionID s) target true) _ (e_createWG m + 1) HT1 (lookup_delete_eq _ _) eq_refl).
      cbn [se_capacityReserved new_session b2n]. pose proof (t_res _ _ HT1) as Hres. cbn [set_table e_reservations] in Hres.
      destruct (se_capacityReserved s); cbn [negb andb b2n] in *; lia.
    + by apply (append_holds _ hold (se_sessionID s) (new_session (se_sessionID s) target true) _ _ true HH1 Hc (lookup_delete_eq _ _)).
  - destruct (c_SessionMaxInflight (e_cfg m) <=? se_inflight s); [intros [= <- <- <-]; by rewrite Nat.add_0_r|]. intros H'. injection H' as <- <- <-. rewrite Nat.add_0_r. by eapply join_keeps.
Qed.

Lemma renew_keeps m pend hold now sid target l m' : InvT m pend -> InvH m hold -> renew_claim now sid target m = (Ok l, m') ->
  InvT m' pend /\ InvH m' (more hold l).
Proof.
  intros HT HH. unfold renew_claim. destruct (e_closed m); [done|]. destruct (find_session sid m) as [[l' s]|] eqn:Ef; [|done].
  apply (find_listed _ _ _ _ _ HT) in Ef as [Hs <-]. destruct (_ || _) eqn:E; [done|]. intros [= <- <-].
  apply orb_false_iff in E as [[E _]%orb_false_iff _]. by eapply join_keeps.
Qed.

(** ** Cleaning up, the janitor, closing *)
Lemma free_keeps m pend hold r : InvT m (pend + b2n (rt_capacityReserved r)) -> InvH m hold -> InvT (free_slot r m) pend /\ InvH (free_slot r m) hold.
Proof.
  intros HT HH. unfold free_slot. pose proof (t_res _ _ HT) as Hr. destruct (rt_capacityReserved r); cbn [andb b2n] in *.
  - rewrite (proj2 (Z.ltb_lt _ _)) by lia. split; [|by destruct HH]. destruct HT as [H1 H2]. split; [done|]. cbn [set_reservations e_reservations].
    change (slots (set_reservations _ m)) with (slots m). lia.
  - rewrite Nat.add_0_r in HT. done.
Qed.

Lemma created_keeps m pend hold : InvT m pend -> InvH m hold -> InvT (created_one m) pend /\ InvH (created_one m) hold.
Proof. intros [H1 H2] [K1 K2]. done. Qed.

(** A loop over ids that retires the sessions with a property. *)
Lemma retire_loop_table p ids : forall rs m pend rs' m', InvT m (pend + reserved rs) -> foldl (retire_if p) (rs, m) ids = (rs', m') ->
  InvT m' (pend + reserved rs') /\ e_heap m' = e_heap m /\ e_closed m' = e_closed m.
Proof.
  induction ids as [|sid ids IH]; intros rs m pend rs' m' HT; cbn [foldl]; [by intros [= <- <-]|]. unfold retire_if at 2.
  destruct (find_session sid m) as [[l s]|] eqn:Ef; [|by apply IH]. destruct (p s); [|by apply IH].
  apply (find_listed _ _ _ _ _ HT) in Ef as [Hs <-]. intros E. eapply IH in E as (?&Eh&Ec); [by rewrite Eh, Ec|].
  pose proof (retire_table _ _ _ _ HT Hs) as H. rewrite reserved_app, Nat.add_assoc. by rewrite <- (reserved_one s) in H.
Qed.

Lemma retire_loop_holds p ids hold : (forall s, p s = true -> se_inflight s <= 0) -> forall rs m pend rs' m',
  InvT m (pend + reserved rs) -> InvH m hold -> foldl (retire_if p) (rs, m) ids = (rs', m') -> InvH m' hold.
Proof.
  intros Hp. induction ids as [|sid ids IH]; intros rs m pend rs' m' HT HH; cbn [foldl]; [by intros [= <- <-]|]. unfold retire_if at 2.
  destruct (find_session sid m) as [[l s]|] eqn:Ef; [|by eapply IH]. destruct (p s) eqn:Eps; [|by eapply IH].
  apply (find_listed _ _ _ _ _ HT) in Ef as [Hs <-]. apply Hp in Eps. destruct (h_count _ _ HH l s Hs) as [En _]. apply (IH _ _ pend).
  - pose proof (retire_table _ _ _ _ HT Hs) as H. rewrite reserved_app, Nat.add_assoc. by rewrite <- (reserved_one s) in H.
  - eapply retire_holds; [done|exact Hs|lia].
Qed.

Lemma expired_idle now s : expired now s = true -> se_inflight s <= 0.
Proof.
  unfold expired. intros H%negb_true_iff. apply orb_false_iff in H as [[_ H]%orb_false_iff _]. by apply Z.ltb_ge in H.
Qed.

Lemma janitor_keeps m pend hold now rs m' : InvT m pend -> InvH m hold -> cleanupExpiredSessions now m = (rs, m') ->
  InvT m' (pend + reserved rs) /\ InvH m' hold.
Proof.
  intros HT HH E. unfold cleanupExpiredSessions in E. split.
  - eapply retire_loop_table in E as [? _]; [done|]. by rewrite Nat.add_0_r.
  - eapply retire_loop_holds in E; [done|apply expired_idle| |done]. by rewrite Nat.add_0_r.
Qed.

(** Everything is retired. *)
Lemma retire_all_lookup sid ids : forall rs m rs' m', foldl (retire_if (fun _ => true)) (rs, m) ids = (rs', m') ->
  (sid ∈ ids -> is_Some (e_heap m !! default 0%nat (e_sessions m !! sid))) -> (sid ∉ ids -> e_sessions m !! sid = None) -> e_sessions m' !! sid = None.
Proof.
  induction ids as [|sid' ids IH]; intros rs m rs' m'; cbn [foldl]; [intros [= <- <-] _ Hn; apply Hn; by intros ?%not_elem_of_nil|].
  unfold retire_if at 2. destruct (find_session sid' m) as [[l s]|] eqn:Ef; intros E Hin Hno.
  - eapply IH; [exact E| |]; cbn [set_table e_heap e_sessions].
    + intros Hs. destruct (decide (sid = sid')) as [->|Hne].
      * rewrite lookup_delete_eq. unfold find_session in Ef. destruct (e_sessions m !! sid') as [l'|]; [|done]. cbn in *.
        destruct (e_heap m !! l') as [s'|] eqn:E'; [|done]. destruct (e_heap m) eqn:Eh; [done|]. by eexists.
      * rewrite lookup_delete_ne by done. apply Hin. by right.
    + intros Hs. destruct (decide (sid = sid')) as [->|Hne]; [apply lookup_delete_eq|]. rewrite lookup_delete_ne by done.
      apply Hno. by intros [?|?]%elem_of_cons.
  - eapply IH; [exact E| |]; [intros Hs; apply Hin; by right|]. intros Hs. destruct (decide (sid = sid')) as [->|Hne].
    + unfold find_session in Ef. destruct (e_sessions m !! sid') as [l|] eqn:El; [|done]. cbn in Ef.
      destruct (Hin ltac:(left)) as [s Hs']. cbn in Hs'. by rewrite Hs' in Ef.
    + apply Hno. by intros [?|?]%elem_of_cons.
Qed.

Lemma reserved_kept (b : bool) rs : reserved ((fun r => if b then mkRetired None (rt_capacityReserved r) else r) <$> rs) = reserved rs.
Proof. unfold reserved. rewrite <- list_fmap_compose. f_equal. apply list_fmap_ext. intros _ r _. by destruct b. Qed.

Lemma close_keeps m pend hold rs m' : InvT m pend -> InvH m hold -> e_closed m = true -> close_all m = (rs, m') ->
  InvT m' (pend + reserved rs) /\ InvH m' hold /\ wiped m'.
Proof.
  intros HT HH Hc. unfold close_all. destruct (foldl _ _ _) as [rs1 m1] eqn:E. intros [= <- <-]. rewrite reserved_kept.
  pose proof E as (HT'&Eh&Ec)%(retire_loop_table _ _ [] m pend); [|by rewrite Nat.add_0_r].
  assert (wiped m1) as Hw.
  { split; [by rewrite Ec|]. apply map_empty. intros sid. eapply retire_all_lookup; [exact E| |]; unfold session_ids; intros Hs.
    - apply list_elem_of_fmap in Hs as ([sid' l]&->&Hs). apply elem_of_map_to_list in Hs. cbn. rewrite Hs. cbn.
      destruct (t_table _ _ HT _ _ Hs) as (s&->&_). done.
    - destruct (e_sessions m !! sid) as [l|] eqn:El; [|done]. destruct Hs. apply list_elem_of_fmap. exists (sid, l). split; [done|].
      by apply elem_of_map_to_list. }
  split_and!; [done| |done]. destruct HH as [H1 H2]. split.
  - intros l Hl. destruct (H1 l Hl) as (s&Es&_). exists s. rewrite Eh. split; [done|]. by right.
  - intros l s [_ Ht]. by rewrite (proj2 Hw), lookup_empty in Ht.
Qed.

End E2bProps.

Import E2bProps.

Module E2bInv.

(** ** Sums over goroutines *)
Definition creating1 (t : pc) : nat :=
  match t with
  | Create _ | Creating _ _ _ | Destroy _ true => 1
  | Killing _ _ (ThenCreate _ | ThenCreated) | Freeing _ _ (ThenCreate _ | ThenCreated) => 1
  | _ => 0
  end.
Definition creations (ts : list pc) : nat := sum_list (creating1 <$> ts).

Lemma held_app ts ts' l : held (ts ++ ts') l = (held ts l + held ts' l)%nat.
Proof. unfold held. induction ts as [|t ts IH]; [done|]. cbn. rewrite IH. lia. Qed.
Lemma pending_app ts ts' : pending_slots (ts ++ ts') = (pending_slots ts + pending_slots ts')%nat.
Proof. unfold pending_slots. induction ts as [|t ts IH]; [done|]. cbn. rewrite IH. lia. Qed.
Lemma creations_app ts ts' : creations (ts ++ ts') = (creations ts + creations ts')%nat.
Proof. unfold creations. induction ts as [|t ts IH]; [done|]. cbn. rewrite IH. lia. Qed.

Lemma held_one t l : held [t] l = held1 t l.
Proof. unfold held. cbn. lia. Qed.
Lemma pending_one t : pending_slots [t] = reserved (pending t).
Proof. unfold pending_slots. cbn. lia. Qed.
Lemma creations_one t : creations [t] = creating1 t.
Proof. unfold creations. cbn. lia. Qed.

Definition held_after (k : after) (l : nat) : nat := match k with ThenCreate l' => b2n (bool_decide (Some l' = Some l)) | _ => 0 end.
Definition creating_after (k : after) : nat := match k with Nothing => 0 | _ => 1 end.

Lemma cleaning_held rs k l : held (cleaning rs k) l = held_after k l.
Proof. destruct rs as [|r rs]; [destruct k|]; cbn [cleaning]; rewrite ?held_one; try destruct k; done. Qed.
Lemma cleaning_pending rs k : pending_slots (cleaning rs k) = reserved rs.
Proof. destruct rs as [|r rs]; [by destruct k|]. cbn [cleaning]. by rewrite pending_one. Qed.
Lemma cleaning_creations rs k : creations (cleaning rs k) = match rs, k with [], ThenCreated => 0%nat | _, _ => creating_after k end.
Proof. destruct rs as [|r rs]; [by destruct k|]. cbn [cleaning]. rewrite creations_one. by destruct k. Qed.

Lemma holds_ext m hold hold' : (forall l, hold' l = hold l) -> InvH m hold -> InvH m hold'.
Proof.
  intros E [H1 H2]. split.
  - intros l Hl. apply H1. by rewrite <- E.
  - intros l s Hs. rewrite E. by apply H2.
Qed.

(** ** A goroutine's own step *)
Record Inv (m : manager) (hold : nat -> nat) (pend creating : nat) : Prop := {
  i_table : InvT m pend;
  i_holds : InvH m hold;
  i_creating : e_createWG m = Z.of_nat creating }.

Definition with_thread (hold : nat -> nat) (ts : list pc) (l : nat) : nat := (hold l + held ts l)%nat.

(** The goroutine goes on with the same session; the counts do not see the change. *)
Lemma same_keeps m hold pend creating t t' l f : holder t = Some l -> holder t' = Some l -> pending t = pending t' -> creating1 t = creating1 t' ->
  (forall s, e_heap m !! l = Some s -> same_core s (f s)) ->
  Inv m (with_thread hold [t]) (pend + pending_slots [t]) (creating + creations [t]) ->
  Inv (on_ref l f m) (with_thread hold [t']) (pend + pending_slots [t']) (creating + creations [t']).
Proof.
  intros Ht Ht' Hp Hc Hf [H1 H2 H3]. rewrite pending_one, creations_one in *. rewrite <- Hp, <- Hc. split; [|apply holds_same_core; [done|]|done].
  - apply table_on_ref; [|done]. intros s Es. by destruct (Hf s Es) as (?&?&_).
  - eapply holds_ext; [|exact H2]. intros l'. unfold with_thread. rewrite !held_one. unfold held1. by rewrite Ht, Ht'.
Qed.

Lemma on_ref_same l m : on_ref l (fun s => s) m = m.
Proof. unfold on_ref. rewrite list_alter_id by done. by destruct m. Qed.

(** ... and nothing else changes. *)
Lemma idle_keeps m hold pend creating t t' l : holder t = Some l -> holder t' = Some l -> pending t = pending t' -> creating1 t = creating1 t' ->
  Inv m (with_thread hold [t]) (pend + pending_slots [t]) (creating + creations [t]) ->
  Inv m (with_thread hold [t']) (pend + pending_slots [t']) (creating + creations [t']).
Proof. intros Ht Ht' Hp Hc HI. rewrite <- (on_ref_same l m). by eapply (same_keeps m hold pend creating t t' l). Qed.

Lemma held1_less hold t l : holder t = Some l -> forall l', less (with_thread hold [t]) l l' = hold l'.
Proof.
  intros Ht l'. unfold less, with_thread. rewrite !held_one. unfold held1. rewrite Ht. case_decide as H.
  - subst l'. rewrite bool_decide_true by done. cbn. lia.
  - rewrite bool_decide_false by congruence. cbn. lia.
Qed.

Lemma held1_pos hold t l : holder t = Some l -> (0 < with_thread hold [t] l)%nat.
Proof. intros Ht. unfold with_thread. rewrite held_one. unfold held1. rewrite Ht, bool_decide_true by done. cbn. lia. Qed.

(** A session is given back. *)
Lemma back_keeps m m' hold pend creating t l r k : holder t = Some l -> pending t = [] -> held_after k = (fun _ => 0%nat) ->
  creating1 t = creating_after k -> e_createWG m' = e_createWG m ->
  Inv m (with_thread hold [t]) (pend + pending_slots [t]) (creating + creations [t]) ->
  (InvT m (pend + pending_slots [t]) -> InvH m (with_thread hold [t]) -> (0 < with_thread hold [t] l)%nat ->
     InvT m' ((pend + pending_slots [t]) + reserved r) /\ InvH m' (less (with_thread hold [t]) l)) ->
  Inv (created_after r k m') (with_thread hold (cleaning r k)) (pend + pending_slots (cleaning r k)) (creating + creations (cleaning r k)).
Proof.
  intros Ht Hp Hk Hc Hw [H1 H2 H3] Hop. destruct (Hop H1 H2 (held1_pos _ _ _ Ht)) as [K1 K2]. rewrite creations_one in H3.
  rewrite pending_one, Hp, Nat.add_0_r in K1. assert (InvH m' (with_thread hold (cleaning r k))) as K2'.
  { eapply holds_ext; [|exact K2]. intros l'. rewrite (held1_less _ _ _ Ht). unfold with_thread. rewrite cleaning_held, Hk. lia. }
  rewrite cleaning_pending, cleaning_creations. unfold created_after. destruct r as [|r rs]; [destruct k|]; cbn [creating_after] in *;
    (split; [by destruct K1|by destruct K2'|cbn [created_one e_createWG]; lia]).
Qed.

Lemma release_wg sid m t r m' : releaseSession sid m = (t, r, m') -> e_createWG m' = e_createWG m.
Proof. unfold releaseSession. destruct (find_session _ _) as [[l s]|]; [|by intros [= _ _ <-]]. by destruct (_ && _); intros [= _ _ <-]. Qed.
Lemma destroy_wg sid m r m' : releaseAndDestroySession sid m = (r, m') -> e_createWG m' = e_createWG m.
Proof. unfold releaseAndDestroySession. destruct (find_session _ _) as [[l s]|]; [|by intros [= _ <-]]. by destruct (_ =? 0); intros [= _ <-]. Qed.

Lemma clean_keeps m hold pend creating r rs k : Inv m (with_thread hold [Freeing r rs k]) (pend + pending_slots [Freeing r rs k]) (creating + creations [Freeing r rs k]) ->
  Inv (created_after rs k (free_slot r m)) (with_thread hold (cleaning rs k)) (pend + pending_slots (cleaning rs k)) (creating + creations (cleaning rs k)).
Proof.
  intros [H1 H2 H3]. rewrite pending_one in H1. rewrite creations_one in H3. cbn [pending] in H1.
  replace (pend + reserved (r :: rs))%nat with ((pend + reserved rs) + b2n (rt_capacityReserved r))%nat in H1 by (unfold reserved; cbn; lia).
  destruct (free_keeps _ _ _ _ H1 H2) as [K1 K2]. assert (e_createWG (free_slot r m) = e_createWG m) as Hw by (unfold free_slot; by destruct (_ && _)).
  assert (InvH (free_slot r m) (with_thread hold (cleaning rs k))) as K2'.
  { eapply holds_ext; [|exact K2]. intros l. unfold with_thread. rewrite cleaning_held, held_one. by destruct k. }
  rewrite cleaning_pending, cleaning_creations. unfold created_after. destruct rs as [|r' rs]; [destruct k|]; cbn [creating1 creating_after] in *;
    (split; [by destruct K1|by destruct K2'|cbn [created_one e_createWG]; try destruct k; cbn in *; lia]).
Qed.

Lemma created_nothing rs m : created_after rs Nothing m = m.
Proof. by destruct rs. Qed.

Lemma inv_ext m hold hold' pend pend' creating creating' : (forall l, hold' l = hold l) -> pend' = pend -> creating' = creating ->
  Inv m hold pend creating -> Inv m hold' pend' creating'.
Proof. intros Hh -> -> [H1 H2 H3]. split; [done| |done]. by eapply holds_ext. Qed.

Lemma recover_known_keeps m pend hold sid lease status m' : InvT m pend -> InvH m hold -> recover_known sid lease m = (status, m') ->
  InvT m' pend /\ InvH m' hold /\ e_createWG m' = e_createWG m.
Proof.
  intros HT HH. unfold recover_known. destruct (e_closed m); [by intros [= _ <-]|]. destruct (find_session _ _) as [[l s]|]; [|by intros [= _ <-]].
  destruct (se_destroying s); intros [= _ <-]; [done|]. split_and!; [by apply table_on_ref|by apply holds_same_core|done].
Qed.

(** The goroutines of a recovery claim nothing and reserve nothing. *)
Definition recovers (t : pc) : bool :=
  match t with Recovering _ _ | Listing _ _ | Purging _ _ | Connecting _ _ _ _ => true | _ => false end.

Lemma recovers_counts ts l : forallb recovers ts = true -> held ts l = 0%nat /\ pending_slots ts = 0%nat /\ creations ts = 0%nat.
Proof.
  induction ts as [|t ts IH]; [done|]. cbn [forallb]. intros [Ht Hts]%andb_true_iff. destruct (IH Hts) as (E1&E2&E3).
  unfold held, pending_slots, creations in *. cbn. rewrite E1, E2, E3. by destruct t.
Qed.

Lemma recovers_keeps m hold pend creating ts ts' : forallb recovers ts = true -> forallb recovers ts' = true ->
  Inv m (with_thread hold ts) (pend + pending_slots ts) (creating + creations ts) ->
  Inv m (with_thread hold ts') (pend + pending_slots ts') (creating + creations ts').
Proof.
  intros H H'. destruct (recovers_counts ts 0 H) as (_&Ep&Ec), (recovers_counts ts' 0 H') as (_&Ep'&Ec'). apply inv_ext; [|by rewrite Ep, Ep'|by rewrite Ec, Ec'].
  intros l. unfold with_thread. by rewrite (proj1 (recovers_counts ts l H)), (proj1 (recovers_counts ts' l H')).
Qed.

Lemma moves_keeps now m w t m' w' ts hold pend creating : moves now m w t m' w' ts ->
  Inv m (with_thread hold [t]) (pend + pending_slots [t]) (creating + creations [t]) ->
  Inv m' (with_thread hold ts) (pend + pending_slots ts) (creating + creations ts).
Proof.
  intros Hm HI. destruct Hm as [m w l s Es|m w l lease started sb taken Hn Ht|m w l lease started e|m w l s Es Hr|m w l
    |m w l k deadline s m' Es Hy E|m w l k deadline s m' lease target sb Es Hy E|m w l k deadline s m' lease target Es Hy E
    |m w l lease target started k s sb taken Es Hsb Hi Ht|m w l lease target started k s sb taken a w' Es Hsb Ha Ht Hw
    |m w l a|m w l t r m' E|m w l creator r m' E|m w r rs k w' Hw|m w r rs k|m w sid lease status m' E|m w sid lease hash infos|m w sid id ids w' Hw|m w sid
    |m w sid lease id started taken w' Ht Hw].
  - by eapply (idle_keeps m hold pend creating _ _ l); [..|exact HI].
  - assert (Inv (create_end l lease (Good sb) m) (with_thread hold [Creating l lease started]) (pend + pending_slots [Creating l lease started])
      (creating + creations [Creating l lease started])) as [H1 H2 H3] by by eapply (same_keeps m hold pend creating _ _ l); [..|exact HI].
    rewrite pending_one, creations_one in *. split; [by destruct H1| |cbn in *; lia].
    eapply holds_ext with (hold := with_thread hold [Creating l lease started]); [|destruct H2; split; eassumption].
    intros l'. unfold with_thread. by rewrite !held_one.
  - by eapply (same_keeps m hold pend creating _ _ l); [..|exact HI].
  - case_bool_decide; by eapply (idle_keeps m hold pend creating _ _ l); [..|exact HI].
  - by eapply (idle_keeps m hold pend creating _ _ l); [..|exact HI].
  - unfold sync_begin in E. destruct (_ <=? _); [|done]. injection E as <-. destruct k; by eapply (same_keeps m hold pend creating _ _ l); [..|exact HI].
  - unfold sync_begin in E. destruct (_ <=? _); [done|]. injection E as <- <- _ <-. by eapply (same_keeps m hold pend creating _ _ l); [..|exact HI].
  - destruct k; by eapply (idle_keeps m hold pend creating _ _ l); [..|exact HI].
  - destruct k; by eapply (same_keeps m hold pend creating _ _ l); [..|exact HI].
  - destruct a, k; by eapply (same_keeps m hold pend creating _ _ l); [..|exact HI].
  - destruct a; by eapply (idle_keeps m hold pend creating _ _ l); [..|exact HI].
  - rewrite <- (created_nothing (option_list r) m').
    eapply (back_keeps m m' hold pend creating (Release l) l (option_list r) Nothing); [done..|by eapply release_wg|done|]. intros. by eapply release_keeps.
  - eapply (back_keeps m m' hold pend creating (Destroy l creator) l (option_list r)); [done|done|by destruct creator|by destruct creator|by eapply destroy_wg|done|].
    intros. by eapply destroy_keeps.
  - destruct HI as [H1 H2 H3]. rewrite pending_one, creations_one in *. split; [done| |done].
    eapply holds_ext; [|exact H2]. intros l. unfold with_thread. by rewrite !held_one.
  - by apply clean_keeps.
  - apply (recovers_keeps _ _ _ _ [Recovering sid lease]); [done|by destruct status|]. destruct HI as [H1 H2 H3].
    destruct (recover_known_keeps _ _ _ _ _ _ _ H1 H2 E) as (K1&K2&K3). split; [done|done|congruence].
  - eapply recovers_keeps; [..|exact HI]; [done|by destruct (plan_recovery _ _ _)].
  - by eapply recovers_keeps; [..|exact HI].
  - by eapply recovers_keeps; [..|exact HI].
  - by eapply recovers_keeps; [..|exact HI].
Qed.

(** ** Every step *)
Definition InvC (c : config) : Prop :=
  Inv (c_manager c) (held (c_threads c)) (pending_slots (c_threads c)) (creations (c_threads c)).

Lemma new_wg sid target m r m' : newSessionLocked sid target m = (r, m') ->
  e_createWG m' = e_createWG m + Z.of_nat (match r with Ok _ => 1 | Err _ => 0 end).
Proof. unfold newSessionLocked, newSessionWithReservationLocked. destruct (negb _); intros [= <- <-]; cbn; lia. Qed.

(** What a claim adds to the creations, and that it joins a session only with nothing to clean up. *)
Lemma claim_wg now uuid sid target create m out r m' : claimSession now uuid sid target create m = (out, r, m') ->
  e_createWG m' = e_createWG m + Z.of_nat (match out with Claimed _ true => 1 | _ => 0 end) /\
  (forall l, out = Claimed l false -> r = None).
Proof.
  assert (forall id r1 m1, newSessionLocked id target m = (r1, m1) ->
    e_createWG m1 = e_createWG m + Z.of_nat (match claim_new r1 with Claimed _ true => 1 | _ => 0 end)) as Hnew.
  { intros id r1 m1 E. rewrite (new_wg _ _ _ _ _ E). by destruct r1. }
  unfold claimSession. destruct (e_closed m); [intros [= <- <- <-]; split; [lia|done]|]. case_bool_decide.
  { destruct (newSessionLocked _ _ _) as [r1 m1] eqn:E. intros [= <- <- <-]. split; [by eapply Hnew|by destruct r1]. }
  destruct (find_session sid m) as [[l s]|].
  2: { destruct create; cbn [negb]; [|intros [= <- <- <-]; split; [lia|done]].
       destruct (newSessionLocked _ _ _) as [r1 m1] eqn:E. intros [= <- <- <-]. split; [by eapply Hnew|by destruct r1]. }
  destruct (se_destroying s); [intros [= <- <- <-]; split; [lia|done]|]. destruct (_ && _).
  - destruct create; cbn [negb]; [|intros [= <- <- <-]; split; [cbn; lia|done]].
    destruct (negb _ && _); [intros [= <- <- <-]; split; [lia|done]|]. unfold newSessionWithReservationLocked.
    intros [= <- <- <-]. split; [cbn; lia|done].
  - destruct (_ <=? se_inflight s); [intros [= <- <- <-]; split; [lia|done]|]. intros H'. injection H' as <- <- <-. split; [cbn; lia|done].
Qed.

Lemma claimed_held hold ts out r l : (forall l, out = Claimed l false -> r = None) -> (forall l, hold l = held ts l) ->
  (held (ts ++ claimant out r) l = claimed hold out l)%nat.
Proof.
  intros Hr Hh. rewrite held_app, <- Hh. unfold claimed, more. destruct out as [l' created|e]; [destruct created, r; cbn [claimant]| destruct r; cbn [claimant]].
  all: unfold held, held1; cbn; try lia.
  all: case_decide as E; [subst; rewrite bool_decide_true by done|rewrite bool_decide_false by congruence]; cbn; (lia || congruence).
Qed.

Lemma claimant_pending out r : (forall l, out = Claimed l false -> r = None) -> pending_slots (claimant out r) = reserved (option_list r).
Proof.
  intros Hr. destruct out as [l []|e], r as [r|]; cbn [claimant]; try (rewrite pending_one; done); try done. by rewrite (Hr l eq_refl) in *.
Qed.

Lemma claimant_creations out r : creations (claimant out r) = match out with Claimed _ true => 1%nat | _ => 0%nat end.
Proof. by destruct out as [l []|e], r as [r|]. Qed.

(** One goroutine apart from the others. *)
Lemma focus m before ts after : Inv m (held (before ++ ts ++ after)) (pending_slots (before ++ ts ++ after)) (creations (before ++ ts ++ after)) <->
  Inv m (with_thread (held (before ++ after)) ts) (pending_slots (before ++ after) + pending_slots ts) (creations (before ++ after) + creations ts).
Proof.
  split; apply inv_ext; try intros l; unfold with_thread; rewrite ?held_app, ?pending_app, ?creations_app; lia.
Qed.

(** Goroutines that clean up are added. *)
Lemma add_cleaning m m' ts rs : e_createWG m' = e_createWG m -> e_createWG m = Z.of_nat (creations ts) ->
  InvT m' (pending_slots ts + reserved rs) -> InvH m' (held ts) ->
  Inv m' (held (ts ++ cleaning rs Nothing)) (pending_slots (ts ++ cleaning rs Nothing)) (creations (ts ++ cleaning rs Nothing)).
Proof.
  intros E Hc HT HH. rewrite pending_app, cleaning_pending, creations_app, cleaning_creations. split; [done| |destruct rs; cbn; lia].
  eapply holds_ext; [|exact HH]. intros l. rewrite held_app, cleaning_held. cbn. lia.
Qed.

Lemma retire_loop_wg p ids : forall rs m rs' m', foldl (retire_if p) (rs, m) ids = (rs', m') -> e_createWG m' = e_createWG m.
Proof.
  induction ids as [|sid ids IH]; intros rs m rs' m'; cbn [foldl]; [by intros [= _ <-]|]. unfold retire_if at 2.
  destruct (find_session sid m) as [[l s]|]; [|by apply IH]. destruct (p s); [|by apply IH]. intros E. by apply IH in E as ->.
Qed.

Lemma recover_insert_keeps m pend hold sid lease sb status m' : InvT m pend -> InvH m hold ->
  recover_insert sid lease sb m = (status, m') -> InvT m' pend /\ InvH m' hold /\ e_createWG m' = e_createWG m.
Proof.
  intros HT HH. unfold recover_insert. destruct (e_closed m) eqn:Hc; [by intros [= _ <-]|]. destruct (find_session sid m) as [[l s]|] eqn:Ef.
  - destruct (match se_sandbox s with Some _ => _ | None => _ end); intros [= _ <-]; [done|].
    split_and!; [by apply table_on_ref|by apply holds_same_core|done].
  - intros [= _ <-]. rewrite <- Hc. assert (e_sessions m !! sid = None) as Hs.
    { unfold find_session in Ef. destruct (e_sessions m !! sid) as [l|] eqn:El; [|done]. destruct (t_table _ _ HT _ _ El) as (s&Es&_). cbn in Ef. by rewrite Es in Ef. }
    split_and!; [|by apply (append_holds _ _ _ _ _ _ false)|done]. eapply append_table; [done..|]. cbn. rewrite (t_res _ _ HT). lia.
Qed.

Lemma claimed_keeps m ts now uuid sid target create out r m' : e_sessions m !! uuid = None ->
  claimSession now uuid sid target create m = (out, r, m') -> Inv m (held ts) (pending_slots ts) (creations ts) ->
  Inv m' (held (ts ++ claimant out r)) (pending_slots (ts ++ claimant out r)) (creations (ts ++ claimant out r)).
Proof.
  intros Hu E [H1 H2 H3]. destruct (claim_keeps _ _ _ _ _ _ _ _ _ _ _ H1 H2 Hu E) as [K1 K2]. destruct (claim_wg _ _ _ _ _ _ _ _ _ E) as [Hw Hr].
  split.
  - by rewrite pending_app, claimant_pending.
  - eapply holds_ext; [|exact K2]. intros l. by apply claimed_held.
  - rewrite Hw, H3, creations_app, claimant_creations. lia.
Qed.

Lemma step_keeps recovering c c' : step recovering c c' -> InvC c -> InvC c'.
Proof.
  unfold InvC. intros Hs HI. destruct c as [m ts w now]. destruct Hs as [now'|uuid sid target create out r m' Hu E|sid target l m' E|before t after m' w' ts' Et Hm
    |rs m' E| |rs m' Hc Hw E|sid lease Hr Hsid|before after sid lease started sb taken status m' Hr Et Hb Hi Ht E]; cbn [c_manager c_threads c_now c_remote] in *.
  - done.
  - by eapply claimed_keeps.
  - destruct HI as [H1 H2 H3]. destruct (renew_keeps _ _ _ _ _ _ _ _ H1 H2 E) as [K1 K2].
    rewrite pending_app, creations_app, pending_one, creations_one. cbn. rewrite !Nat.add_0_r. split; [done| |].
    + eapply holds_ext; [|exact K2]. intros l'. pose proof (claimed_held (held ts) ts (Claimed l false) None l') as Hh. cbn [claimed claimant] in Hh. rewrite <- Hh by done. by rewrite !held_app.
    + rewrite <- H3. unfold renew_claim in E. destruct (e_closed m); [done|]. destruct (find_session _ _) as [[? s]|]; [|done]. destruct (_ || _); [done|].
      by injection E as _ <-.
  - subst ts. apply (focus _ before [t] after) in HI. apply focus. by eapply moves_keeps.
  - destruct HI as [H1 H2 H3]. destruct (janitor_keeps _ _ _ _ _ _ H1 H2 E) as [K1 K2]. apply (add_cleaning m); [by eapply retire_loop_wg|done..].
  - destruct HI as [[H1 H1'] [H2 H2'] H3]. split; [done| |done]. split; [|done]. intros l Hl. destruct (H2 l Hl) as (s&Es&[Ht|[Hc He]]); exists s; eauto.
    split; [done|]. by right.
  - destruct HI as [H1 H2 H3]. destruct (close_keeps _ _ _ _ _ H1 H2 Hc E) as (K1&K2&_). apply (add_cleaning m); [|done..].
    unfold close_all in E. destruct (foldl _ _ _) as [rs1 m1] eqn:E1. injection E as _ <-. by eapply retire_loop_wg.
  - rewrite <- (app_nil_r (ts ++ _)), <- app_assoc. apply (focus m ts [_] []), (recovers_keeps m _ _ _ []); [done..|]. apply (focus m ts [] []). by rewrite !app_nil_r.
  - subst ts. apply (focus _ before [_] after) in HI. apply (recovers_keeps m _ _ _ _ []) in HI; [|done..]. apply (focus _ before [] after) in HI.
    destruct HI as [H1 H2 H3]. destruct (recover_insert_keeps _ _ _ _ _ _ _ _ H1 H2 E) as (K1&K2&K3). split; [done|done|cbn in *; congruence].
Qed.

Lemma start_inv cfg remote now : InvC (start cfg remote now).
Proof. split; [by split|split; [intros l Hl; unfold held in Hl; cbn in Hl; lia|by intros l s [? _]]|done]. Qed.

Lemma reachable_inv recovering cfg remote now c : rtc (step recovering) (start cfg remote now) c -> InvC c.
Proof.
  intros H. pose proof (start_inv cfg remote now) as H0. induction H as [c|c c1 c2 Hs _ IH]; [done|]. apply IH. by eapply step_keeps.
Qed.

End E2bInv.

Import E2bInv.

Module E2bLease.

(** ** What a recovery relies on *)

(** The bridge is done with the session [sid]: it is not in the table, and no
    sandbox of an earlier session of that id is still being cleaned up. *)
Definition gone (sid : string) (m : manager) (ts : list pc) : Prop :=
  e_sessions m !! sid = None /\
  forall l s sb t, e_heap m !! l = Some s -> se_sandbox s = Some sb -> se_sessionID s = sid -> t ∈ ts -> sb_ID sb ∉ doomed t.

(** The sandbox [id], which the service found for the session [sid], was the sandbox
    of no other session: its metadata is what the bridge gave it, and the hashes
    of two ids differ. *)
Definition belongs (sid id : string) (m : manager) : Prop :=
  forall l s sb, e_heap m !! l = Some s -> se_sandbox s = Some sb -> sb_ID sb = id -> se_sessionID s = sid.

Definition steady (m : manager) (ts : list pc) (t : pc) : Prop :=
  match t with
  | Recovering sid lease =>
      (** the console knows only leases that the bridge told it *)
      forall l s, find_session sid m = Some (l, s) -> se_destroying s = false -> lease <= se_confirmedLeaseExpiresAt s
  | Listing sid _ => gone sid m ts
  | Purging sid ids => gone sid m ts /\ forall id, id ∈ ids -> belongs sid id m
  | Connecting sid _ id _ => gone sid m ts /\ belongs sid id m
  | _ => True
  end.

Definition calm (c : config) : Prop := forall t, t ∈ c_threads c -> steady (c_manager c) (c_threads c) t.

(** The sandboxes that a goroutine is about to kill. *)
Definition targets (t : pc) : list string := match t with Purging _ ids => ids | _ => doomed t end.

(** No session of the table has this sandbox. *)
Definition foreign (id : string) (m : manager) : Prop := forall l s sb, listed m l s -> se_sandbox s = Some sb -> sb_ID sb <> id.

Lemma gone_foreign sid id m ts : gone sid m ts -> belongs sid id m -> foreign id m.
Proof. intros [Hs _] Hb l s sb [Es Ht] Eb E. pose proof (Hb _ _ _ Es Eb E) as Ei. congruence. Qed.

(** The session a goroutine is going to create, and the change of the timeout
    that it has asked for. *)
Definition creator (t : pc) : list nat :=
  match t with
  | Create l | Creating l _ _ | Killing _ _ (ThenCreate l) | Freeing _ _ (ThenCreate l) => [l]
  | _ => []
  end.
Definition setting (t : pc) : list (nat * (time * time)) := match t with Setting l lease target _ _ => [(l, (lease, target))] | _ => [] end.

(** [D]: the sandboxes about to be killed, [C]: the sessions to create, [S]: the
    changes of timeouts under way. *)
Record Lease (m : manager) (w : gmap string time) (D : list string) (C : list nat) (S : list (nat * (time * time))) : Prop := {
  l_creators : NoDup C;
  l_create : forall l, l ∈ C -> exists s, e_heap m !! l = Some s /\ se_sandbox s = None;
  l_settings : NoDup S.*1;
  l_setting : forall l lease target, (l, (lease, target)) ∈ S -> lease <= target /\
    exists s, e_heap m !! l = Some s /\ is_Some (se_sandbox s) /\ se_remoteTimeoutExpiresAt s <= target /\ se_syncing s = true;
  l_known : forall id, id ∈ D -> exists l s sb, e_heap m !! l = Some s /\ se_sandbox s = Some sb /\ sb_ID sb = id;
  l_doomed : forall id l s sb, id ∈ D -> listed m l s -> se_sandbox s = Some sb -> sb_ID sb <> id;
  l_distinct : forall l l' s s' sb sb', listed m l s -> listed m l' s' -> se_sandbox s = Some sb -> se_sandbox s' = Some sb' -> sb_ID sb = sb_ID sb' -> l = l';
  l_remote : forall l s sb, listed m l s -> se_sandbox s = Some sb -> exists e, w !! sb_ID sb = Some e /\ se_remoteTimeoutExpiresAt s <= e;
  l_confirmed : forall l s, e_heap m !! l = Some s -> se_confirmedLeaseExpiresAt s <= se_remoteTimeoutExpiresAt s }.

Lemma NoDup_part {A} (l k : list A) : l ⊆+ k -> NoDup k -> NoDup l.
Proof. intros [k' ->]%submseteq_Permutation H. by apply NoDup_app in H as [? _]. Qed.

Lemma lease_less m w D D' C C' S S' : D' ⊆ D -> C' ⊆+ C -> S' ⊆+ S -> Lease m w D C S -> Lease m w D' C' S'.
Proof.
  intros HD HC HS [L1 L2 L3 L4 L5 L6 L7 L8 L9]. split; try done.
  - by eapply NoDup_part.
  - intros l Hl. apply L2. by eapply elem_of_submseteq.
  - eapply NoDup_part; [by apply fmap_submseteq|done].
  - intros l lease target Hl. eapply L4. by eapply elem_of_submseteq.
  - intros id Hd. apply L5. by apply HD.
  - intros id l s sb Hd. apply L6. by apply HD.
Qed.

Lemma on_ref_inv m l f l' s' : e_heap (on_ref l f m) !! l' = Some s' ->
  exists s, e_heap m !! l' = Some s /\ (l' = l /\ s' = f s \/ l' <> l /\ s' = s).
Proof.
  rewrite on_ref_lookup. case_decide as H; [subst|intros E; exists s'; auto]. destruct (e_heap m !! l) as [s|]; [|done]. intros [= <-]. exists s. auto.
Qed.

(** Only the sessions count. *)
Lemma lease_same m m' w D C S : e_heap m' = e_heap m -> e_sessions m' = e_sessions m -> Lease m w D C S -> Lease m' w D C S.
Proof.
  intros E1 E2 [L1 L2 L3 L4 L5 L6 L7 L8 L9]. unfold listed in *. split; unfold listed; rewrite ?E1, ?E2; done.
Qed.

(** A session changes: its timeout stays below the service's, and nothing that a
    change under way relies on goes. *)
Lemma lease_change m w D C S l f :
  (forall s, e_heap m !! l = Some s -> se_sessionID (f s) = se_sessionID s /\ se_sandbox (f s) = se_sandbox s /\
     se_confirmedLeaseExpiresAt (f s) <= se_remoteTimeoutExpiresAt (f s) /\
     (l ∈ S.*1 -> se_syncing (f s) = se_syncing s /\ se_remoteTimeoutExpiresAt (f s) <= se_remoteTimeoutExpiresAt s) /\
     (forall sb, listed m l s -> se_sandbox s = Some sb -> exists e, w !! sb_ID sb = Some e /\ se_remoteTimeoutExpiresAt (f s) <= e)) ->
  Lease m w D C S -> Lease (on_ref l f m) w D C S.
Proof.
  intros Hf [L1 L2 L3 L4 L5 L6 L7 L8 L9].
  assert (forall l' s, e_heap m !! l' = Some s -> exists s', e_heap (on_ref l f m) !! l' = Some s' /\ se_sandbox s' = se_sandbox s /\
    (s' = s \/ l' = l /\ s' = f s)) as Hto.
  { intros l' s Es. rewrite on_ref_lookup. case_decide; [subst|by eauto]. rewrite Es. exists (f s). destruct (Hf s Es) as (_&?&_). eauto. }
  assert (forall l' s', listed (on_ref l f m) l' s' -> exists s, listed m l' s /\ se_sandbox s = se_sandbox s' /\ (s' = s \/ l' = l /\ s' = f s)) as Hl.
  { intros l' s' [(s&Es&[[-> ->]|[_ ->]])%on_ref_inv Ht]; exists s.
    - destruct (Hf s Es) as (Ei&Eb&_). rewrite Ei in Ht. split; [by split|]. auto.
    - split; [by split|]. auto. }
  split; try done.
  - intros l' Hc. destruct (L2 _ Hc) as (s&Es&En). destruct (Hto _ _ Es) as (s'&Es'&Eb&_); exists s'. by rewrite Eb.
  - intros l' lease target Hs. destruct (L4 _ _ _ Hs) as (Hlt&s&Es&Hb&Hr&Hy). split; [done|].
    destruct (Hto _ _ Es) as (s'&Es'&Eb&Hs'); exists s'. rewrite Eb. split; [done|]. split; [done|].
    destruct Hs' as [->|[-> ->]]; [done|]. apply Hf in Es as (_&_&_&H&_). apply (list_elem_of_fmap_2 fst) in Hs.
    destruct (H Hs) as [-> Hr']. split; [lia|done].
  - intros id Hd. destruct (L5 _ Hd) as (l'&s&sb&Es&Eb&Ei). destruct (Hto _ _ Es) as (s'&Es'&Eb'&_); exists l', s', sb. by rewrite Eb'.
  - intros id l' s' sb Hd (s&Hs&Eb&_)%Hl. rewrite <- Eb. by eapply L6.
  - intros l1 l2 s1 s2 sb sb' (s&Hs&Eb&_)%Hl (s'&Hs'&Eb'&_)%Hl. rewrite <- Eb, <- Eb'. by eapply L7.
  - intros l' s' sb (s&Hs&Eb&[->|[-> ->]])%Hl; [by eapply L8|]. intros E. rewrite <- Eb in E. destruct (Hf s (proj1 Hs)) as (_&_&_&_&H). by apply H.
  - intros l' s' (s&Es&[[-> ->]|[_ ->]])%on_ref_inv; [by apply Hf|by eapply L9].
Qed.

(** ... where nothing grows. *)
Definition safe (s s' : session) : Prop :=
  se_sessionID s' = se_sessionID s /\ se_sandbox s' = se_sandbox s /\ se_syncing s' = se_syncing s /\
  se_remoteTimeoutExpiresAt s' <= se_remoteTimeoutExpiresAt s /\ se_confirmedLeaseExpiresAt s' <= se_remoteTimeoutExpiresAt s'.

Lemma lease_on_ref m w D C S l f : (forall s, e_heap m !! l = Some s -> safe s (f s)) -> Lease m w D C S -> Lease (on_ref l f m) w D C S.
Proof.
  intros Hf HL. apply lease_change; [|done]. intros s Es. destruct (Hf s Es) as (?&?&?&?&?). split_and!; [done..|].
  intros sb Hs Eb. destruct (l_remote _ _ _ _ _ HL _ _ _ Hs Eb) as (e&?&?). exists e. split; [done|lia].
Qed.

(** A session leaves the table: its sandbox is to be killed. *)
Lemma lease_retire m w D C S l s : listed m l s -> Lease m w D C S ->
  Lease (set_table (delete (se_sessionID s) (e_sessions m)) m) w (sandbox_of (retire s) ++ D) C S.
Proof.
  intros Hls [L1 L2 L3 L4 L5 L6 L7 L8 L9].
  assert (forall l' s', listed (set_table (delete (se_sessionID s) (e_sessions m)) m) l' s' -> listed m l' s' /\ l' <> l) as Hl.
  { intros l' s' [Es Ht]. cbn in *. apply lookup_delete_Some in Ht as [Hne Ht]. split; [done|]. intros ->. destruct Hls as [Es' _]. congruence. }
  assert (forall id, id ∈ sandbox_of (retire s) -> exists sb, se_sandbox s = Some sb /\ sb_ID sb = id) as Hr.
  { intros id. unfold sandbox_of, retire. cbn. destruct (se_sandbox s) as [sb|]; [|by intros ?%not_elem_of_nil]. intros ->%list_elem_of_singleton. eauto. }
  split; try done.
  - intros id [Hd|Hd]%elem_of_app; [|by apply L5]. destruct (Hr _ Hd) as (sb&Eb&<-). exists l, s, sb. by destruct Hls.
  - intros id l' s' sb [Hd|Hd]%elem_of_app [Hl1 Hl2]%Hl Eb; [|by eapply L6]. destruct (Hr _ Hd) as (sb'&Eb'&<-). intros E. by eapply Hl2, L7.
  - intros l1 l2 s1 s2 sb sb' [H1 _]%Hl [H2 _]%Hl. by eapply L7.
  - intros l' s' sb [H1 _]%Hl. by eapply L8.
Qed.

(** A session is added. *)
Definition added (sid : string) (s : session) (res wg : Z) (m : manager) : manager :=
  mkManager (e_cfg m) (<[sid := length (e_heap m)]> (e_sessions m)) (e_heap m ++ [s]) res (e_closed m) wg.

Lemma added_heap sid s res wg m l s' : e_heap m !! l = Some s' -> e_heap (added sid s res wg m) !! l = Some s'.
Proof. intros E. cbn. rewrite lookup_app_l; [done|by eapply lookup_lt_Some]. Qed.
Lemma added_new sid s res wg m : e_heap (added sid s res wg m) !! length (e_heap m) = Some s.
Proof. cbn. by rewrite lookup_app_r, Nat.sub_diag by lia. Qed.
Lemma added_inv sid s res wg m l s' : e_heap (added sid s res wg m) !! l = Some s' -> e_heap m !! l = Some s' \/ l = length (e_heap m) /\ s' = s.
Proof. cbn. rewrite lookup_app_Some, list_lookup_singleton_Some. intros [?|[H [E <-]]]; [by left|right; split; [lia|done]]. Qed.
Lemma added_listed sid s res wg m l s' : se_sessionID s = sid -> listed (added sid s res wg m) l s' -> listed m l s' \/ l = length (e_heap m) /\ s' = s.
Proof.
  intros Hs [[E|E]%added_inv Ht]; [|by right]. left. split; [done|]. cbn in Ht. apply lookup_insert_Some in Ht as [[_ <-]|[_ Ht]]; [|done].
  apply lookup_lt_Some in E. lia.
Qed.

Lemma lease_added m w D C S sid target b res wg : Lease m w D C S ->
  Lease (added sid (new_session sid target b) res wg m) w D (length (e_heap m) :: C) S.
Proof.
  intros [L1 L2 L3 L4 L5 L6 L7 L8 L9]. set (s0 := new_session sid target b).
  assert (forall l s sb, listed (added sid s0 res wg m) l s -> se_sandbox s = Some sb -> listed m l s) as Hl by (by intros l s sb [?|[_ ->]]%added_listed).
  split.
  - apply NoDup_cons. split; [|done]. intros (s&Es&_)%L2. apply lookup_lt_Some in Es. lia.
  - intros l [->|Hc]%elem_of_cons; [exists s0; by rewrite added_new|]. destruct (L2 _ Hc) as (s&Es&En). exists s. by rewrite (added_heap _ _ _ _ _ _ s).
  - done.
  - intros l lease tgt Hs. destruct (L4 _ _ _ Hs) as (?&s&Es&?). split; [done|]. exists s. by rewrite (added_heap _ _ _ _ _ _ s).
  - intros id Hd. destruct (L5 _ Hd) as (l&s&sb&Es&?). exists l, s, sb. by rewrite (added_heap _ _ _ _ _ _ s).
  - intros id l s sb Hd Hs Eb. eapply L6; [done|by eapply Hl|done].
  - intros l l' s s' sb sb' Hs Hs' Eb Eb'. eapply L7; [by eapply Hl|by eapply Hl|done..].
  - intros l s sb Hs Eb. eapply L8; [by eapply Hl|done].
  - intros l s [Es|[_ ->]]%added_inv; [by eapply L9|done].
Qed.

(** The service keeps a sandbox at least until the time it was asked for. *)
Lemma remote_end_le now target taken : now <= taken -> target <= remote_end taken (secondsUntil now target).
Proof.
  intros H. unfold remote_end, secondsUntil, second. change (10 ^ 9) with 1000000000. pose proof (Z.quot_rem' (target - now) 1000000000) as Hq.
  pose proof (Z.rem_bound_abs (target - now) 1000000000 ltac:(lia)) as Hr. lia.
Qed.

(** ** Operations *)
Lemma new_lease m w D C S sid target r m' : newSessionLocked sid target m = (r, m') -> Lease m w D C S ->
  Lease m' w D (match r with Ok l => [l] | Err _ => [] end ++ C) S.
Proof.
  unfold newSessionLocked. destruct (negb _); [by intros [= <- <-]|]. unfold newSessionWithReservationLocked. intros [= <- <-] HL. by apply lease_added.
Qed.

Lemma join_lease m w D C S l target : Lease m w D C S ->
  Lease (on_ref l (fun s => raise_desired target (with_inflight (se_inflight s + 1) s)) m) w D C S.
Proof. intros HL. apply lease_on_ref; [|done]. intros s Es. pose proof (l_confirmed _ _ _ _ _ HL _ _ Es). unfold safe. cbn. split_and!; done || lia. Qed.

Definition created_by (out : claim) : list nat := match out with Claimed l true => [l] | _ => [] end.

Lemma claim_lease m w D C S pend now uuid sid target create out r m' : InvT m pend -> claimSession now uuid sid target create m = (out, r, m') ->
  Lease m w D C S -> Lease m' w ((option_list r ≫= sandbox_of) ++ D) (created_by out ++ C) S.
Proof.
  intros HT. unfold claimSession. destruct (e_closed m); [by intros [= <- <- <-]|]. case_bool_decide.
  { destruct (newSessionLocked _ _ _) as [r1 m1] eqn:E. intros [= <- <- <-] HL. apply (new_lease _ _ _ _ _ _ _ _ _ E) in HL. by destruct r1. }
  destruct (find_session sid m) as [[l s]|] eqn:Ef.
  2: { destruct create; cbn [negb]; [|by intros [= <- <- <-]].
       destruct (newSessionLocked _ _ _) as [r1 m1] eqn:E. intros [= <- <- <-] HL. apply (new_lease _ _ _ _ _ _ _ _ _ E) in HL. by destruct r1. }
  apply (find_listed _ _ _ _ _ HT) in Ef as [Hs <-]. destruct (se_destroying s); [by intros [= <- <- <-]|]. destruct (_ && _).
  - destruct create; cbn [negb]; [|intros [= <- <- <-] HL; cbn; rewrite app_nil_r; by apply (lease_retire _ _ _ _ _ l s)].
    destruct (negb _ && _); [by intros [= <- <- <-]|]. unfold newSessionWithReservationLocked. intros [= <- <- <-] HL.
    cbn. rewrite app_nil_r. change (sandbox_of (mkRetired _ false)) with (sandbox_of (retire s)).
    apply (lease_added (set_table _ m)). by apply (lease_retire _ _ _ _ _ l s).
  - destruct (_ <=? se_inflight s); [by intros [= <- <- <-]|]. intros H'. injection H' as <- <- <-. apply join_lease.
Qed.

Lemma renew_lease m w D C S now sid target l m' : renew_claim now sid target m = (Ok l, m') -> Lease m w D C S -> Lease m' w D C S.
Proof.
  unfold renew_claim. destruct (e_closed m); [done|]. destruct (find_session _ _) as [[l' s]|]; [|done]. destruct (_ || _); [done|].
  intros [= <- <-]. apply join_lease.
Qed.

Lemma counted_lease m w D C S l n (b : bool) : Lease m w D C S -> Lease (on_ref l (fun s => with_inflight n (if b then with_destroying s else s)) m) w D C S.
Proof.
  intros HL. apply lease_on_ref; [|done]. intros s Es. pose proof (l_confirmed _ _ _ _ _ HL _ _ Es). unfold safe. destruct b; cbn; split_and!; done || lia.
Qed.

Lemma release_lease m w D C S pend sid t r m' : InvT m pend -> releaseSession sid m = (t, r, m') -> Lease m w D C S ->
  Lease m' w ((option_list r ≫= sandbox_of) ++ D) C S.
Proof.
  intros HT. unfold releaseSession. destruct (find_session _ _) as [[l s]|] eqn:Ef; [|by intros [= _ <- <-]].
  apply (find_listed _ _ _ _ _ HT) in Ef as [Hs <-]. intros E HL. set (n := if 0 <? se_inflight s then _ else _) in E.
  pose proof (counted_lease _ _ _ _ _ l n false HL) as HL'. destruct (_ && _); injection E as _ <- <-; [|done].
  pose proof (on_ref_listed m l s (with_inflight n) Hs eq_refl) as Hs'. cbn. rewrite app_nil_r. by apply (lease_retire _ _ _ _ _ _ _ Hs') in HL'.
Qed.

Lemma destroy_lease m w D C S pend sid r m' : InvT m pend -> releaseAndDestroySession sid m = (r, m') -> Lease m w D C S ->
  Lease m' w ((option_list r ≫= sandbox_of) ++ D) C S.
Proof.
  intros HT. unfold releaseAndDestroySession. destruct (find_session _ _) as [[l s]|] eqn:Ef; [|by intros [= <- <-]].
  apply (find_listed _ _ _ _ _ HT) in Ef as [Hs <-]. intros E HL. set (n := if 0 <? se_inflight s then _ else _) in E.
  pose proof (counted_lease _ _ _ _ _ l n true HL) as HL'. destruct (_ =? 0); injection E as <- <-; [|done].
  pose proof (on_ref_listed m l s (fun s => with_inflight n (with_destroying s)) Hs eq_refl) as Hs'. cbn. rewrite app_nil_r.
  by apply (lease_retire _ _ _ _ _ _ _ Hs') in HL'.
Qed.

Lemma loop_lease p ids w D C S : forall rs m pend rs' m', InvT m (pend + reserved rs) -> foldl (retire_if p) (rs, m) ids = (rs', m') ->
  Lease m w ((rs ≫= sandbox_of) ++ D) C S -> Lease m' w ((rs' ≫= sandbox_of) ++ D) C S.
Proof.
  induction ids as [|sid ids IH]; intros rs m pend rs' m' HT; cbn [foldl]; [by intros [= <- <-]|]. unfold retire_if at 2.
  destruct (find_session sid m) as [[l s]|] eqn:Ef; [|by eapply IH]. destruct (p s); [|by eapply IH].
  apply (find_listed _ _ _ _ _ HT) in Ef as [Hs <-]. intros E HL. eapply (IH _ _ pend); [|exact E|].
  - pose proof (retire_table _ _ _ _ HT Hs) as H. rewrite reserved_app, Nat.add_assoc. by rewrite <- (reserved_one s) in H.
  - eapply lease_less; [..|apply (lease_retire _ _ _ _ _ _ _ Hs HL)]; [|done..].
    intros id. rewrite bind_app. cbn. rewrite app_nil_r. set_solver.
Qed.

Lemma janitor_lease m w D C S pend now rs m' : InvT m pend -> cleanupExpiredSessions now m = (rs, m') -> Lease m w D C S ->
  Lease m' w ((rs ≫= sandbox_of) ++ D) C S.
Proof. intros HT E HL. unfold cleanupExpiredSessions in E. eapply (loop_lease _ _ _ _ _ _ _ _ pend); [|exact E|done]. by rewrite Nat.add_0_r. Qed.

Lemma close_lease m w D C S pend rs m' : InvT m pend -> close_all m = (rs, m') -> Lease m w D C S -> Lease m' w ((rs ≫= sandbox_of) ++ D) C S.
Proof.
  intros HT. unfold close_all. destruct (foldl _ _ _) as [rs1 m1] eqn:E. intros [= <- <-] HL.
  eapply (loop_lease _ _ _ D _ _ _ _ pend) in E; [|by rewrite Nat.add_0_r|exact HL]. eapply lease_less; [|done..|exact E].
  intros id. rewrite !elem_of_app. intros [H|H]; [left|by right]. apply list_elem_of_bind in H as (r&Hid&Hr). apply list_elem_of_fmap in Hr as (r'&->&Hr).
  apply list_elem_of_bind. exists r'. split; [|done]. destruct (c_PreserveOnClose _); [|done]. by apply not_elem_of_nil in Hid.
Qed.

(** ** The sandbox and its timeout *)
Lemma sync_done_lease m w D C S l s deadline m' : e_heap m !! l = Some s -> sync_begin deadline l s m = (SyncDone, m') ->
  Lease m w D C S -> Lease m' w D C S.
Proof.
  unfold sync_begin. intros Es E HL. destruct (_ <=? _) eqn:Ht; [|done]. injection E as <-. apply Z.leb_le in Ht.
  apply lease_on_ref; [|done]. intros s' Es'. rewrite Es in Es'. injection Es' as <-. pose proof (l_confirmed _ _ _ _ _ HL _ _ Es).
  unfold safe. cbn. unfold sync_target in Ht. split_and!; try done; destruct deadline; lia.
Qed.

Lemma sync_set_lease m w D C S l s deadline m' lease target sb : e_heap m !! l = Some s -> se_syncing s = false ->
  sync_begin deadline l s m = (SyncSet lease target (Some sb), m') -> Lease m w D C S -> Lease m' w D C ((l, (lease, target)) :: S).
Proof.
  unfold sync_begin. intros Es Hy E HL. destruct (_ <=? _) eqn:Ht; [done|]. injection E as <- <- Hsb <-. apply Z.leb_gt in Ht.
  assert (l ∉ S.*1) as Hn.
  { intros ([l' [lease' target']]&->&Hs)%list_elem_of_fmap. cbn in *. destruct (l_setting _ _ _ _ _ HL _ _ _ Hs) as (_&s'&Es'&_&_&Hy').
    rewrite Es in Es'. congruence. }
  assert (Lease (on_ref l (with_syncing true) m) w D C S) as HL'.
  { apply lease_change; [|done]. intros s' Es'. pose proof (l_confirmed _ _ _ _ _ HL _ _ Es') as Hc. split_and!; [done..|].
    intros sb' Hs' Eb. by apply (l_remote _ _ _ _ _ HL l s'). }
  destruct HL' as [L1 L2 L3 L4 L5 L6 L7 L8 L9]. split; try done; [cbn; by apply NoDup_cons|]. intros l' lease target [[= -> -> ->]|Hs]%elem_of_cons; [|by apply L4].
  split; [unfold sync_target; destruct deadline; lia|]. exists (with_syncing true s). rewrite on_ref_lookup, decide_True, Es by done. cbn.
  split_and!; [done|by rewrite Hsb|lia|done].
Qed.

(** The service has taken a request, or not. *)
Definition taken_by (w w' : gmap string time) (id : string) (target : time) : Prop := w' = w \/ exists e, target <= e /\ w' = <[id := e]> w.

Lemma set_lease_remote m w w' D C S l lease target s sb : Lease m w D C ((l, (lease, target)) :: S) -> e_heap m !! l = Some s -> se_sandbox s = Some sb ->
  listed m l s \/ e_sessions m = ∅ -> taken_by w w' (sb_ID sb) target -> Lease m w' D C ((l, (lease, target)) :: S).
Proof.
  intros [L1 L2 L3 L4 L5 L6 L7 L8 L9] Es Eb Hls [->|(e&He&->)]; [by split|]. split; try done. intros l' s' sb' Hs' Eb'.
  destruct Hls as [Hls|Hno]; [|destruct Hs' as [_ Ht]; by rewrite Hno in Ht]. destruct (decide (sb_ID sb' = sb_ID sb)) as [E|E].
  - rewrite E, lookup_insert_eq. exists e. split; [done|]. pose proof (L7 _ _ _ _ _ _ Hs' Hls Eb' Eb E) as ->.
    destruct (L4 l lease target ltac:(left)) as (_&s1&Es1&_&Hr&_). destruct Hs' as [Es' _]. rewrite Es' in Es1. injection Es1 as <-. lia.
  - rewrite lookup_insert_ne by done. by eapply L8.
Qed.

Lemma sync_end_lease m w D C S l lease target ok s sb : Lease m w D C ((l, (lease, target)) :: S) -> e_heap m !! l = Some s -> se_sandbox s = Some sb ->
  (ok = true -> exists e, w !! sb_ID sb = Some e /\ target <= e) -> Lease (sync_end l lease target ok m) w D C S.
Proof.
  intros HL Es Eb Hok. destruct (l_setting _ _ _ _ _ HL l lease target ltac:(left)) as (Hlt&_). pose proof (l_settings _ _ _ _ _ HL) as [Hn _]%NoDup_cons.
  pose proof (lease_less _ _ D D C C _ S ltac:(done) ltac:(done) (submseteq_cons _ _ S ltac:(done)) HL) as HL'. clear HL. rename HL' into HL.
  apply lease_change; [|done]. intros s' Es'. rewrite Es in Es'. injection Es' as <-. pose proof (l_confirmed _ _ _ _ _ HL _ _ Es) as Hc.
  split_and!; [by destruct ok|by destruct ok|destruct ok; cbn; lia|done|]. intros sb' Hs' Eb'. rewrite Eb in Eb'. injection Eb' as <-.
  destruct (l_remote _ _ _ _ _ HL _ _ _ Hs' Eb) as (e&Ee&He). exists e. split; [done|]. destruct ok; [|done]. destruct (Hok eq_refl) as (e'&Ee'&He').
  rewrite Ee in Ee'. injection Ee' as <-. cbn. lia.
Qed.

(** The sandbox has been created. *)
Lemma created_inv l lease sb m l' s' : listed (create_end l lease (Good sb) m) l' s' ->
  l' = l /\ se_sandbox s' = Some sb /\ se_remoteTimeoutExpiresAt s' = lease \/ l' <> l /\ listed m l' s'.
Proof. intros [(s&Es&[[-> ->]|[Hne ->]])%on_ref_inv Ht]; [by left|]. right. by split. Qed.

Lemma created_lease m w D C S l lease sb e : Lease m w D (l :: C) S -> new_id sb m -> lease <= e ->
  Lease (created_one (create_end l lease (Good sb) m)) (<[sb_ID sb := e]> w) D C S.
Proof.
  intros [L1 L2 L3 L4 L5 L6 L7 L8 L9] Hnew He. apply NoDup_cons in L1 as [Hn L1]. destruct (L2 l ltac:(left)) as (s0&Es0&En0).
  set (m' := create_end l lease (Good sb) m). assert (forall l' s, l' <> l -> e_heap m !! l' = Some s -> e_heap m' !! l' = Some s) as Hto.
  { intros l' s Hne Es. unfold m'. cbn [create_end]. by rewrite on_ref_lookup, decide_False. }
  assert (forall id, id ∈ D -> id <> sb_ID sb) as HD by (intros id (l'&s&old&Es&Eb&<-)%L5; by eapply Hnew).
  apply (lease_same m'); [done..|]. split; try done.
  - intros l' Hc. destruct (L2 l' ltac:(by right)) as (s&Es&Eb). exists s. split; [|done]. apply Hto; [|done]. by intros ->.
  - intros l' le ta Hs. destruct (L4 _ _ _ Hs) as (?&s&Es&[sb' Eb]&?). split; [done|]. exists s. split; [|by eauto]. apply Hto; [|done]. intros ->.
    rewrite Es0 in Es. congruence.
  - intros id Hd. destruct (L5 _ Hd) as (l'&s&old&Es&Eb&Ei). exists l', s, old. split; [|done]. apply Hto; [|done]. intros ->. rewrite Es0 in Es. congruence.
  - intros id l' s' old Hd [(->&Eb&_)|[Hne Hs]]%created_inv Eo; [|by eapply L6]. rewrite Eb in Eo. injection Eo as <-. by apply not_eq_sym, HD.
  - intros l1 l2 s1 s2 sb1 sb2 [(->&Eb1&_)|[Hn1 H1]]%created_inv [(->&Eb2&_)|[Hn2 H2]]%created_inv E1 E2 E; [done| | |by eapply L7].
    + rewrite Eb1 in E1. injection E1 as <-. by destruct (Hnew l2 s2 sb2 (proj1 H2) E2).
    + rewrite Eb2 in E2. injection E2 as <-. by destruct (Hnew l1 s1 sb1 (proj1 H1) E1).
  - intros l' s' sb' [(->&Eb&Hr)|[Hne Hs]]%created_inv E.
    + rewrite Eb in E. injection E as <-. rewrite lookup_insert_eq. exists e. split; [done|lia].
    + rewrite lookup_insert_ne; [by eapply L8|]. apply not_eq_sym. by eapply Hnew; [apply Hs|].
  - intros l' s' (s&Es&[[-> ->]|[_ ->]])%on_ref_inv; [done|by eapply L9].
Qed.

Lemma create_failed_lease m w D C S l lease e : Lease m w D (l :: C) S -> Lease (create_end l lease (Bad e) m) w D C S.
Proof.
  intros HL. destruct (l_create _ _ _ _ _ HL l ltac:(left)) as (s&Es&En). eapply (lease_less _ _ D D (l :: C) C S S); [done|by apply submseteq_cons|done|].
  apply lease_on_ref; [|done]. intros s' Es'. rewrite Es in Es'. injection Es' as <-. pose proof (l_confirmed _ _ _ _ _ HL _ _ Es). by unfold safe.
Qed.

(** A sandbox was killed. *)
Lemma kill_lease m w D D' C S id : Lease m w (id :: D ++ D') C S -> Lease m (delete id w) (D ++ D') C S.
Proof.
  intros HL. assert (Lease m w (D ++ D') C S) as [L1 L2 L3 L4 L5 L6 L7 L8 L9] by (eapply lease_less; [..|exact HL]; [set_solver|done..]).
  split; try done. intros l s sb Hs Eb. rewrite lookup_delete_ne; [by eapply L8|]. apply not_eq_sym. eapply (l_doomed _ _ _ _ _ HL); [left|done..].
Qed.

(** The service changes a sandbox of no session. *)
Lemma lease_foreign m w w' D C S id : (forall id', id' <> id -> w' !! id' = w !! id') -> foreign id m -> Lease m w D C S -> Lease m w' D C S.
Proof.
  intros Hw Hf [L1 L2 L3 L4 L5 L6 L7 L8 L9]. split; try done. intros l s sb Hs Eb. rewrite Hw by (by eapply Hf). by eapply L8.
Qed.

Lemma lease_inserted m w D C S id e : foreign id m -> Lease m w D C S -> Lease m (<[id := e]> w) D C S.
Proof. apply lease_foreign. intros id' Hne. by rewrite lookup_insert_ne. Qed.

(** A recovery finds its session alive. *)
Lemma known_lease m w D C S pend sid lease status m' : InvT m pend -> recover_known sid lease m = (status, m') ->
  (forall l s, find_session sid m = Some (l, s) -> se_destroying s = false -> lease <= se_confirmedLeaseExpiresAt s) ->
  Lease m w D C S -> Lease m' w D C S.
Proof.
  intros HT E Hl HL. unfold recover_known in E. destruct (e_closed m); [by injection E as _ <-|]. destruct (find_session sid m) as [[l s]|] eqn:Ef; [|by injection E as _ <-].
  specialize (Hl l s eq_refl). destruct (se_destroying s); injection E as _ <-; [done|]. specialize (Hl eq_refl). apply (find_listed _ _ _ _ _ HT) in Ef as [[Es _] _].
  apply lease_on_ref; [|done]. intros s' Es'. rewrite Es in Es'. injection Es' as <-. pose proof (l_confirmed _ _ _ _ _ HL _ _ Es).
  unfold safe. cbn. split_and!; done || lia.
Qed.

(** ** Every step *)
Definition lease_of (m : manager) (w : gmap string time) (ts : list pc) : list string -> list nat -> list (nat * (time * time)) -> Prop :=
  fun D C S => Lease m w ((ts ≫= doomed) ++ D) ((ts ≫= creator) ++ C) ((ts ≫= setting) ++ S).

Lemma lease_one m w t D C S : lease_of m w [t] D C S <-> Lease m w (doomed t ++ D) (creator t ++ C) (setting t ++ S).
Proof. unfold lease_of. cbn. by rewrite !app_nil_r. Qed.

(** The goroutine goes on without new obligations. *)
Lemma lease_next m w t t' D C S : doomed t' = doomed t -> creator t' = creator t -> setting t' = setting t -> lease_of m w [t] D C S -> lease_of m w [t'] D C S.
Proof. rewrite !lease_one. by intros -> -> ->. Qed.

Lemma cleaning_lease m w rs k D C S : lease_of m w (cleaning rs k) D C S <->
  Lease m w ((rs ≫= sandbox_of) ++ D) (match k with ThenCreate l => [l] | _ => [] end ++ C) S.
Proof.
  destruct rs as [|r rs]; [by destruct k|]. cbn [cleaning]. rewrite lease_one. by destruct k.
Qed.

Lemma lease_created m w rs k D C S : Lease m w D C S -> Lease (created_after rs k m) w D C S.
Proof. destruct rs; [destruct k|]; try done. by apply lease_same. Qed.

Lemma set_taken w w' id started taken target ok : (w' = w \/ w' = <[id := remote_end taken (secondsUntil started target)]> w) -> started <= taken ->
  (ok = true -> w' = <[id := remote_end taken (secondsUntil started target)]> w) ->
  taken_by w w' id target /\ (ok = true -> exists e, w' !! id = Some e /\ target <= e).
Proof.
  intros Hw Ht Hok. pose proof (remote_end_le started target taken Ht) as He. split.
  - destruct Hw as [->| ->]; [by left|right]. by eexists.
  - intros Htrue. rewrite (Hok Htrue), lookup_insert_eq. by eexists.
Qed.

Lemma setting_ended m w w' l lease target started taken k k' s sb ok D C S : e_heap m !! l = Some s -> se_sandbox s = Some sb ->
  listed m l s \/ e_sessions m = ∅ -> (w' = w \/ w' = <[sb_ID sb := remote_end taken (secondsUntil started target)]> w) -> started <= taken ->
  (ok = true -> w' = <[sb_ID sb := remote_end taken (secondsUntil started target)]> w) -> doomed k' = [] -> creator k' = [] -> setting k' = [] ->
  lease_of m w [Setting l lease target started k] D C S -> lease_of (sync_end l lease target ok m) w' [k'] D C S.
Proof.
  intros Es Eb Hl Hw Ht Hok H1 H2 H3. destruct (set_taken _ _ _ _ _ _ _ Hw Ht Hok) as [Htk Hok']. rewrite !lease_one, H1, H2, H3. cbn. intros HL.
  eapply sync_end_lease; [|exact Es|exact Eb|exact Hok']. by eapply set_lease_remote.
Qed.

Lemma moves_lease now m w t m' w' ts hold pend creating D C S all : moves now m w t m' w' ts -> steady m all t ->
  Inv m (with_thread hold [t]) (pend + pending_slots [t]) (creating + creations [t]) -> lease_of m w [t] D C S -> lease_of m' w' ts D C S.
Proof.
  intros Hm Hst [HT HH _]. assert (forall l s, holder t = Some l -> e_heap m !! l = Some s -> listed m l s \/ e_sessions m = ∅) as Hheld.
  { intros l s Ht Es. destruct (h_hold _ _ HH l (held1_pos _ _ _ Ht)) as (s'&Es'&[H|[_ H]]); [left|by right]. rewrite Es in Es'. by injection Es' as <-. }
  destruct Hm as [m w l s Es|m w l lease started sb taken Hn Ht|m w l lease started e|m w l s Es Hr|m w l
    |m w l k deadline s m' Es Hy E|m w l k deadline s m' lease target sb Es Hy E|m w l k deadline s m' lease target Es Hy E
    |m w l lease target started k s sb taken Es Hsb Hi Ht|m w l lease target started k s sb taken a w' Es Hsb Ha Ht Hw
    |m w l a|m w l t r m' E|m w l creator r m' E|m w r rs k w' Hw|m w r rs k|m w sid lease status m' E|m w sid lease hash infos|m w sid id ids w' Hw|m w sid
    |m w sid lease id started taken w' Ht Hw].
  - done.
  - rewrite !lease_one. intros HL. apply created_lease; [done..|]. apply remote_end_le. lia.
  - rewrite !lease_one. apply create_failed_lease.
  - case_bool_decide; by apply lease_next.
  - by apply lease_next.
  - rewrite !lease_one. intros HL. apply (sync_done_lease _ _ _ _ _ _ _ _ _ Es E) in HL. by destruct k.
  - rewrite !lease_one. intros HL. by apply (sync_set_lease _ _ _ _ _ _ _ _ _ _ _ _ Es Hy E) in HL.
  - by destruct k; apply lease_next.
  - eapply setting_ended; [done|done|by apply Hheld|by right|lia|done|by destruct k..].
  - eapply (setting_ended _ _ _ _ _ _ _ taken); [done|done|by apply Hheld| |lia|done|by destruct a, k..]. destruct Hw as [->|[_ ->]]; auto.
  - destruct a; by apply lease_next.
  - rewrite cleaning_lease, lease_one. by eapply release_lease.
  - rewrite cleaning_lease, lease_one. intros HL. apply lease_created. replace (match _ with ThenCreate l => [l] | _ => [] end) with (@nil nat) by by destruct creator.
    by eapply destroy_lease.
  - destruct Hw as [->|(sb&Er&->)]; rewrite !lease_one; cbn [doomed]; intros HL.
    + eapply lease_less; [..|exact HL]; [set_solver|by destruct k..].
    + unfold sandbox_of in HL at 1. rewrite Er in HL. by apply kill_lease in HL.
  - rewrite cleaning_lease, lease_one. intros HL. apply lease_created. unfold free_slot. destruct (_ && _); [apply (lease_same m); [done..|]|]; by destruct k.
  - intros HL. apply lease_one in HL. apply (known_lease _ _ _ _ _ _ _ _ _ _ HT E Hst) in HL. destruct status; [exact HL|by apply lease_one].
  - by destruct (plan_recovery _ _ _).
  - rewrite !lease_one. destruct Hst as [Hg Hb]. pose proof (gone_foreign _ id _ _ Hg (Hb id ltac:(by left))) as Hf. destruct Hw as [->| ->]; [done|].
    apply (lease_foreign _ _ _ _ _ _ id); [|done]. intros id' Hne. by rewrite lookup_delete_ne.
  - done.
  - intros HL. apply lease_one in HL. destruct Hst as [Hg Hb]. destruct Hw as [->|[_ ->]]; [exact HL|]. apply lease_inserted; [by eapply gone_foreign|exact HL].
Qed.

Definition LeaseC (c : config) : Prop := lease_of (c_manager c) (c_remote c) (c_threads c) [] [] [].

Lemma bind_focus {A B} (f : A -> list B) before ts after : ((before ++ ts ++ after) ≫= f) ++ [] ≡ₚ (ts ≫= f) ++ ((before ++ after) ≫= f).
Proof. rewrite !bind_app, app_nil_r. by rewrite Permutation_app_swap_app. Qed.

Lemma lease_focus m w before ts after : lease_of m w (before ++ ts ++ after) [] [] [] <->
  lease_of m w ts ((before ++ after) ≫= doomed) ((before ++ after) ≫= creator) ((before ++ after) ≫= setting).
Proof.
  unfold lease_of. pose proof (bind_focus doomed before ts after) as HD. pose proof (bind_focus creator before ts after) as HC.
  pose proof (bind_focus setting before ts after) as HS.
  split; apply lease_less; try (by rewrite ?HC, ?HS); intros id; by rewrite HD.
Qed.

(** A goroutine is added at the end. *)
Lemma lease_add m w ts ts' : lease_of m w ts' (ts ≫= doomed) (ts ≫= creator) (ts ≫= setting) -> lease_of m w (ts ++ ts') [] [] [].
Proof. intros H. rewrite <- (app_nil_r ts'). apply lease_focus. by rewrite app_nil_r. Qed.

Lemma lease_all m w ts : lease_of m w ts [] [] [] <-> Lease m w (ts ≫= doomed) (ts ≫= creator) (ts ≫= setting).
Proof. unfold lease_of. by rewrite !app_nil_r. Qed.

Lemma lease_claimant m w out r D C S : (forall l, out = Claimed l false -> r = None) ->
  Lease m w ((option_list r ≫= sandbox_of) ++ D) (created_by out ++ C) S -> lease_of m w (claimant out r) D C S.
Proof.
  intros Hr HL. destruct out as [l []|e], r as [r|]; cbn [claimant]; unfold lease_of; cbn in *; rewrite ?app_nil_r in *; try done. by specialize (Hr l eq_refl).
Qed.

(** A session is found again after a restart. *)
Lemma recovered_lease m w ts sid lease sb e res wg : Lease m w (ts ≫= doomed) (ts ≫= creator) (ts ≫= setting) -> e_sessions m !! sid = None ->
  (forall l s old, listed m l s -> se_sandbox s = Some old -> sb_ID old <> sb_ID sb) -> (forall t, t ∈ ts -> sb_ID sb ∉ doomed t) -> lease <= e ->
  Lease (added sid (mkSession sid (Some sb) lease lease lease false 0 false true true None) res wg m) (<[sb_ID sb := e]> w)
    (ts ≫= doomed) (ts ≫= creator) (ts ≫= setting).
Proof.
  intros [L1 L2 L3 L4 L5 L6 L7 L8 L9] Hsid Hf Hd He. set (s0 := mkSession _ _ _ _ _ _ _ _ _ _ _).
  pose proof (added_heap sid s0 res wg m) as Hto.
  assert (forall l s, listed (added sid s0 res wg m) l s -> listed m l s \/ l = length (e_heap m) /\ s = s0) as Hfrom by (intros; by eapply added_listed). split; try done.
  - intros l (s&Es&En)%L2. exists s. by rewrite (Hto _ s).
  - intros l le tg Hs. destruct (L4 _ _ _ Hs) as (?&s&Es&?). split; [done|]. exists s. by rewrite (Hto _ s).
  - intros id Hi. destruct (L5 _ Hi) as (l&s&old&Es&?). exists l, s, old. by rewrite (Hto _ s).
  - intros id l s old Hi [Hs|[_ ->]]%Hfrom; [by eapply L6|]. intros [= <-]. apply list_elem_of_bind in Hi as (t&Hi&Ht).
    intros <-. by apply (Hd t Ht).
  - intros l1 l2 s1 s2 sb1 sb2 [H1|[-> ->]]%Hfrom [H2|[-> ->]]%Hfrom E1 E2 E; [..|done].
    + by eapply L7.
    + injection E2 as <-. by destruct (Hf _ _ _ H1 E1).
    + injection E1 as <-. by destruct (Hf _ _ _ H2 E2).
  - intros l s old [Hs|[_ ->]]%Hfrom E.
    + rewrite lookup_insert_ne; [by eapply L8|]. apply not_eq_sym. by eapply Hf.
    + injection E as <-. rewrite lookup_insert_eq. by exists e.
  - intros l s [Es|[_ ->]]%added_inv; [by eapply L9|done].
Qed.

Lemma insert_lease m w ts sid lease sb status m' started taken pend : InvT m pend -> gone sid m ts -> belongs sid (sb_ID sb) m -> started <= taken ->
  recover_insert sid lease sb m = (status, m') -> Lease m w (ts ≫= doomed) (ts ≫= creator) (ts ≫= setting) ->
  Lease m' (<[sb_ID sb := remote_end taken (secondsUntil started lease)]> w) (ts ≫= doomed) (ts ≫= creator) (ts ≫= setting).
Proof.
  intros HT Hg Hb Ht E HL. pose proof (gone_foreign _ _ _ _ Hg Hb) as Hf. unfold recover_insert in E.
  destruct (e_closed m) eqn:Hc; [injection E as _ <-; by apply lease_inserted|]. unfold find_session in E. rewrite (proj1 Hg) in E. cbn in E. injection E as _ <-.
  eapply (lease_same (added sid _ (e_reservations m + 1) (e_createWG m) m)); [done|done|]. apply recovered_lease; [done|apply Hg|done| |by apply remote_end_le].
  intros t Hin Hd. assert (sb_ID sb ∈ ts ≫= doomed) as Hi by (apply list_elem_of_bind; eauto). destruct (l_known _ _ _ _ _ HL _ Hi) as (l&s&old&Es&Eb&Ei).
  eapply (proj2 Hg l s old t); [done|done|by eapply Hb|done|by rewrite Ei].
Qed.

Lemma step_lease recovering c c' : step recovering c c' -> calm c -> InvC c -> LeaseC c -> LeaseC c'.
Proof.
  unfold LeaseC, calm. intros Hs Hcalm HI HL. pose proof (i_table _ _ _ _ HI) as HT. destruct c as [m ts w now].
  destruct Hs as [now'|uuid sid target create out r m' Hu E|sid target l m' E|before t after m' w' ts' Et Hm
    |rs m' E| |rs m' Hc Hw E|sid lease Hr Hsid|before after sid lease started sb taken status m' Hr Et Hb Hi Ht E]; cbn [c_manager c_threads c_now c_remote] in *.
  - done.
  - apply lease_all in HL. apply lease_add, lease_claimant; [by apply (claim_wg _ _ _ _ _ _ _ _ _ E)|]. by eapply claim_lease.
  - apply lease_all in HL. apply lease_add, lease_one. by eapply renew_lease.
  - subst ts. pose proof (Hcalm t ltac:(set_solver)) as Hst. apply (focus _ before [t] after) in HI. apply (lease_focus _ _ before [t] after) in HL.
    apply lease_focus. by eapply moves_lease.
  - apply lease_all in HL. apply lease_add, cleaning_lease. by eapply janitor_lease.
  - by apply (lease_same m).
  - apply lease_all in HL. apply lease_add, cleaning_lease. by eapply close_lease.
  - apply lease_all in HL. by apply lease_add, lease_one.
  - subst ts. destruct (Hcalm _ ltac:(apply elem_of_app; right; by left)) as [Hg Hbl].
    assert (forall A (f : pc -> list A), f (Connecting sid lease (sb_ID sb) started) = [] -> (before ++ Connecting sid lease (sb_ID sb) started :: after) ≫= f = (before ++ after) ≫= f) as Hsame.
    { intros A f Hf. rewrite !bind_app. cbn. by rewrite Hf. }
    apply lease_all in HL. pose proof (insert_lease _ _ _ _ _ _ _ _ _ _ _ HT Hg Hbl (proj1 Ht) E HL) as HL'. rewrite !Hsame in HL' by done. by apply lease_all.
Qed.

Lemma start_lease cfg remote now : LeaseC (start cfg remote now).
Proof.
  split; cbn; [by constructor| |by constructor|..].
  - by intros l ?%not_elem_of_nil.
  - by intros l lease target ?%not_elem_of_nil.
  - by intros id ?%not_elem_of_nil.
  - by intros id l s sb ?%not_elem_of_nil.
  - by intros l l' s s' sb sb' [? _].
  - by intros l s sb [? _].
  - by intros l s ?.
Qed.

(** *** Without recoveries there is nothing to rely on *)
Definition no_recovery (ts : list pc) : Prop := forallb (fun t => negb (recovers t)) ts = true.

Lemma no_recovery_app ts ts' : no_recovery (ts ++ ts') <-> no_recovery ts /\ no_recovery ts'.
Proof. unfold no_recovery. rewrite forallb_app. apply andb_true_iff. Qed.

Lemma no_recovery_cleaning rs k : no_recovery (cleaning rs k).
Proof. by destruct rs as [|r rs]; [destruct k|]. Qed.

Lemma moves_no_recovery now m w t m' w' ts : moves now m w t m' w' ts -> no_recovery [t] -> no_recovery ts.
Proof. intros Hm Ht. destruct Hm; try done; try apply no_recovery_cleaning; unfold no_recovery, after_sync, sync_failed, work_ended; cbn; by repeat case_match. Qed.

Lemma step_no_recovery c c' : step false c c' -> no_recovery (c_threads c) -> no_recovery (c_threads c').
Proof.
  intros Hs Hp. destruct Hs as [now'|uuid sid target create out r m' Hu E|sid target l m' E|before t after m' w' ts' Et Hm
    |rs m' E| |rs m' Hc Hw E|sid lease Hr Hsid|before after sid lease started sb taken status m' Hr Et Hb Hi Ht E]; cbn [c_threads] in *; try done.
  - apply no_recovery_app. split; [done|]. by destruct out as [l []|], r.
  - by apply no_recovery_app.
  - rewrite Et in Hp. apply no_recovery_app in Hp as [H1 (H2&H3)%(no_recovery_app [t])]. rewrite !no_recovery_app. split_and!; [done|by eapply moves_no_recovery|done].
  - apply no_recovery_app. split; [done|apply no_recovery_cleaning].
  - apply no_recovery_app. split; [done|apply no_recovery_cleaning].
Qed.

Lemma no_recovery_calm c : no_recovery (c_threads c) -> calm c.
Proof.
  intros Hp t Ht. unfold no_recovery in Hp. rewrite forallb_forall in Hp. apply list_elem_of_In, Hp in Ht. by destruct t.
Qed.

Lemma calm_run recovering cfg remote now c : rtc (fun c c' => step recovering c c' /\ (recovering = true -> calm c')) (start cfg remote now) c ->
  InvC c /\ LeaseC c /\ calm c.
Proof.
  intros H. assert (recovering = false -> no_recovery (c_threads (start cfg remote now))) as Hp by done.
  assert (calm (start cfg remote now)) as Hc by (by intros t ?%not_elem_of_nil).
  pose proof (start_inv cfg remote now) as HI. pose proof (start_lease cfg remote now) as HL.
  induction H as [c|c c1 c2 [Hs Hc1] _ IH]; [done|]. assert (recovering = false -> no_recovery (c_threads c1)) as Hp1.
  { intros ->. eapply step_no_recovery; [exact Hs|by apply Hp]. }
  apply IH; [exact Hp1| |by eapply step_keeps|by eapply step_lease]. destruct recovering; [by apply Hc1|by apply no_recovery_calm, Hp1].
Qed.

End E2bLease.
