(* ===== verification/E2bClaims.v ===== *)
(** What the bridge to e2b promises: its counters are those of the commands, the
    sessions stay within the limit, and a lease that a client was told is kept by
    the service. *)
From stdpp Require Import relations.
From S2P Require Import Prelude.
From S2P Require Import Proto.
From S2P Require Import WorkerTerminal.
From S2P Require Import E2bClient.
From S2P Require Import E2bTerminal.
From S2P Require Import E2bInv.
Import E2bClient.
Import E2bTerminal.
Import E2bSteps.
Import E2bProps.
Import E2bInv.
Import E2bLease.
Local Open Scope Z_scope.

Module E2bClaims.

(** ** The limit of sessions *)
Definition within (m : manager) : Prop := 0 < c_MaxActiveSessions (e_cfg m) -> e_reservations m <= c_MaxActiveSessions (e_cfg m).

(** The limit is the same, and it is kept if it was. *)
Definition keeps (m m' : manager) : Prop := e_cfg m' = e_cfg m /\ (within m -> within m').

Lemma keeps_less m m' : e_cfg m' = e_cfg m -> e_reservations m' <= e_reservations m -> keeps m m'.
Proof. intros E H. split; [done|]. unfold within. rewrite E. lia. Qed.

Ltac no_more := apply keeps_less; [done|cbn; lia].

Lemma new_within sid target m r m' : newSessionLocked sid target m = (r, m') -> keeps m m'.
Proof.
  unfold newSessionLocked, capacityAvailableLocked. destruct (negb _) eqn:E; [intros [= _ <-]; no_more|].
  unfold newSessionWithReservationLocked. intros [= _ <-]. split; [done|]. unfold within. cbn. lia.
Qed.

Lemma claim_within now uuid sid target create m out r m' : claimSession now uuid sid target create m = (out, r, m') -> keeps m m'.
Proof.
  assert (forall sid r1 m1, newSessionLocked sid target m = (r1, m1) -> keeps m m1) as Hnew by (intros; by eapply new_within).
  unfold claimSession. destruct (e_closed m); [intros [= _ _ <-]; no_more|]. case_bool_decide.
  { destruct (newSessionLocked _ _ _) as [r1 m1] eqn:E. intros [= _ _ <-]. by eapply Hnew. }
  destruct (find_session sid m) as [[l s]|].
  2: { destruct create; cbn [negb]; [|intros [= _ _ <-]; no_more].
       destruct (newSessionLocked _ _ _) as [r1 m1] eqn:E. intros [= _ _ <-]. by eapply Hnew. }
  destruct (se_destroying s); [intros [= _ _ <-]; no_more|]. destruct (_ && _).
  - destruct create; cbn [negb]; [|intros [= _ _ <-]; no_more].
    destruct (negb _ && _) eqn:Ec; [intros [= _ _ <-]; no_more|]. unfold newSessionWithReservationLocked. intros [= _ _ <-].
    split; [done|]. unfold within, capacityAvailableLocked in *. cbn. destruct (se_capacityReserved s); cbn in *; lia.
  - destruct (_ <=? se_inflight s); [intros [= _ _ <-]; no_more|]. intros H'. injection H' as _ _ <-. no_more.
Qed.

Lemma loop_within p ids : forall rs m rs' m', foldl (retire_if p) (rs, m) ids = (rs', m') -> e_cfg m' = e_cfg m /\ e_reservations m' = e_reservations m.
Proof.
  induction ids as [|sid ids IH]; intros rs m rs' m'; cbn [foldl]; [by intros [= _ <-]|]. unfold retire_if at 2.
  destruct (find_session sid m) as [[l s]|]; [|by apply IH]. destruct (p s); [|by apply IH]. intros E. by apply IH in E.
Qed.

Lemma created_within rs k m m' : keeps m m' -> keeps m (created_after rs k m').
Proof. intros H. by destruct rs; [destruct k|]. Qed.

Lemma free_within r m : keeps m (free_slot r m).
Proof. unfold free_slot. destruct (_ && _); no_more. Qed.

Lemma moves_keep_within now m w t m' w' ts : moves now m w t m' w' ts -> keeps m m'.
Proof.
  intros Hm. destruct Hm as [m w l s Es|m w l lease started sb taken Hn Ht|m w l lease started e|m w l s Es Hr|m w l
    |m w l k deadline s m' Es Hy E|m w l k deadline s m' lease target sb Es Hy E|m w l k deadline s m' lease target Es Hy E
    |m w l lease target started k s sb taken Es Hsb Hi Ht|m w l lease target started k s sb taken a w' Es Hsb Ha Ht Hw
    |m w l a|m w l t r m' E|m w l creator r m' E|m w r rs k w' Hw|m w r rs k|m w sid lease status m' E|m w sid lease hash infos|m w sid id ids w' Hw|m w sid
    |m w sid lease id started taken w' Ht Hw]; try no_more.
  - unfold sync_begin in E. destruct (_ <=? _); [|done]. injection E as <-. no_more.
  - unfold sync_begin in E. destruct (_ <=? _); [done|]. injection E as _ _ _ <-. no_more.
  - unfold releaseSession in E. destruct (find_session _ _) as [[l' s]|]; [|injection E as _ _ <-; no_more].
    destruct (_ && _); injection E as _ _ <-; no_more.
  - apply created_within. unfold releaseAndDestroySession in E. destruct (find_session _ _) as [[l' s]|]; [|injection E as _ <-; no_more].
    destruct (_ =? 0); injection E as _ <-; no_more.
  - apply created_within, free_within.
  - unfold recover_known in E. destruct (e_closed m); [injection E as _ <-; no_more|]. destruct (find_session _ _) as [[l s]|]; [|injection E as _ <-; no_more].
    destruct (se_destroying s); injection E as _ <-; no_more.
Qed.

Lemma step_within c c' : step false c c' -> keeps (c_manager c) (c_manager c').
Proof.
  intros Hs. destruct Hs as [now'|uuid sid target create out r m' Hu E|sid target l m' E|before t after m' w' ts' Et Hm
    |rs m' E| |rs m' Hc Hw E|sid lease Hr Hsid|before after sid lease started sb taken status m' Hr Et Hb Hi Ht E]; cbn [c_manager]; try done; try no_more.
  - by eapply claim_within.
  - unfold renew_claim in E. destruct (e_closed _); [done|]. destruct (find_session _ _) as [[l' s]|]; [|done]. destruct (_ || _); [done|].
    injection E as _ <-. no_more.
  - by eapply moves_keep_within.
  - apply loop_within in E as [E1 E2]. apply keeps_less; [done|lia].
  - unfold close_all in E. destruct (foldl _ _ _) as [rs1 m1] eqn:E1. injection E as _ <-. apply loop_within in E1 as [E1 E2]. apply keeps_less; [done|lia].
Qed.

Lemma reachable_within cfg remote now c : rtc (step false) (start cfg remote now) c -> e_cfg (c_manager c) = e_cfg (newTerminalSessionManager cfg) /\ within (c_manager c).
Proof.
  intros H. assert (forall c c', rtc (step false) c c' -> keeps (c_manager c) (c_manager c')) as Hk.
  { intros c1 c2 Hr. induction Hr as [|c1 c2 c3 Hs _ IH]; [no_more|]. apply step_within in Hs as [E1 K1]. destruct IH as [E2 K2]. split; [congruence|auto]. }
  destruct (Hk _ _ H) as [E K]. split; [done|]. apply K. unfold within. cbn. lia.
Qed.

(** C20: The bridge's bookkeeping is exact, whatever commands, the janitor, a
    shutdown and recoveries interleave. In every reachable configuration a session
    that a command has claimed stays in the table under its id until the command
    gives it back (or the shutdown has emptied the table), so that giving it back
    by id reaches no other session; its counter is the number of commands that
    use it; a session marked for destruction is still used by someone who will
    remove it; and the reserved slots are those of the sessions in the table and
    of the retired ones whose sandboxes are still being cleaned up. Without
    recoveries the slots never exceed the configured limit. *)
Theorem e2b_counters_are_exact recovering cfg remote now c :
  rtc (step recovering) (start cfg remote now) c ->
  let m := c_manager c in
  (forall t l, t ∈ c_threads c -> holder t = Some l -> exists s, e_heap m !! l = Some s /\ (listed m l s \/ wiped m)) /\
  (forall l s, listed m l s -> se_inflight s = Z.of_nat (length (filter (fun t => holder t = Some l) (c_threads c))) /\
     (se_destroying s = true -> 0 < se_inflight s)) /\
  e_reservations m = Z.of_nat (slots m + pending_slots (c_threads c)) /\
  (recovering = false -> 0 < c_MaxActiveSessions cfg -> e_reservations m <= c_MaxActiveSessions cfg).
Proof.
  cbv zeta. intros Hr. pose proof (reachable_inv _ _ _ _ _ Hr) as [[HT HT'] [HH HH'] HC].
  assert (forall ts l, held ts l = length (filter (fun t => holder t = Some l) ts)) as Hheld.
  { intros ts l. induction ts as [|t ts IH]; [done|]. unfold held in *. cbn. rewrite IH. unfold held1. case_decide; [by rewrite bool_decide_true|by rewrite bool_decide_false]. }
  split_and!; [| |done|].
  - intros t l Ht Hl. assert (0 < held (c_threads c) l)%nat as Hpos.
    { rewrite Hheld. apply list_elem_of_split in Ht as (ts1&ts2&->). rewrite filter_app, length_app, filter_cons_True by done. cbn. lia. }
    destruct (HH l Hpos) as (s&Es&[Hs|Hw]); exists s; (split; [done|]); [left; by split|by right].
  - intros l s Hs. rewrite <- Hheld. by apply HH'.
  - intros -> Hmax. destruct (reachable_within _ _ _ _ Hr) as [E Hw]. unfold within in Hw. rewrite E in Hw. cbn in Hw.
    destruct (c_MaxActiveSessions cfg <? 0) eqn:El; lia.
Qed.

(** C21: A lease that the bridge has confirmed is kept by the service. In every
    reachable configuration the service knows the sandbox of each session in the
    table and will not end it before the session's confirmed lease, although
    commands and renewals set its timeout concurrently and the service may take a
    request that it answers with an error; no such sandbox is among those that a
    goroutine is about to kill; and no two sessions share one. Without recoveries
    this holds in every run. With recoveries it holds while they are [calm]: the
    console names no lease longer than the one confirmed; while the bridge asks the
    service for the sandboxes of a session, connects to one or kills duplicates, it
    neither has the session in its table nor is still cleaning a sandbox of it up;
    and the service finds for a session only sandboxes that were made for it. The
    code checks the second only when it looks the session up first, so that a
    recovery may bring back a sandbox that is about to be killed, see
    [recovery_revives_a_doomed_sandbox]. *)
Theorem e2b_leases_are_backed recovering cfg remote now c :
  rtc (fun c c' => step recovering c c' /\ (recovering = true -> calm c')) (start cfg remote now) c ->
  (forall l s sb, listed (c_manager c) l s -> se_sandbox s = Some sb ->
     (exists e, c_remote c !! sb_ID sb = Some e /\ se_confirmedLeaseExpiresAt s <= e) /\
     (forall t, t ∈ c_threads c -> sb_ID sb ∉ targets t)) /\
  (forall l l' s s' sb sb', listed (c_manager c) l s -> listed (c_manager c) l' s' -> se_sandbox s = Some sb -> se_sandbox s' = Some sb' ->
     sb_ID sb = sb_ID sb' -> l = l').
Proof.
  intros Hr. destruct (calm_run _ _ _ _ _ Hr) as (_&HL&Hcalm). apply lease_all in HL. split; [|apply (l_distinct _ _ _ _ _ HL)].
  intros l s sb Hs Eb. split.
  - destruct (l_remote _ _ _ _ _ HL l s sb Hs Eb) as (e&Ee&He). exists e. split; [done|].
    pose proof (l_confirmed _ _ _ _ _ HL l s (proj1 Hs)). lia.
  - intros t Ht Hd. assert (sb_ID sb ∈ doomed t -> False) as Hdoom.
    { intros Hd'. eapply (l_doomed _ _ _ _ _ HL); [|exact Hs|exact Eb|done]. apply list_elem_of_bind. eauto. }
    pose proof (Hcalm t Ht) as Hst. destruct t; cbn in Hd; try by apply Hdoom.
    destruct Hst as [Hg Hb]. by eapply (gone_foreign _ (sb_ID sb) _ _ Hg (Hb _ Hd)).
Qed.

(** ** A run *)
Definition cfg1 : managerConfig := mkManagerConfig 60 1800 300 1024 0 "" 2 1 false.
Definition box1 : Sandbox := mkSandbox "sb1" "e2b.app" "0.2" "a" "t".
Definition lease1 : time := 300 * second.
Definition run1 : config :=
  let m := snd (claimSession 0 "u1" "" lease1 true (newTerminalSessionManager cfg1)) in
  mkConfig m [Create 0] ∅ 0.
Definition run3 : config :=
  mkConfig (created_one (create_end 0 lease1 (Good box1) (c_manager run1))) [Sync 0 Work] {["sb1" := remote_end 0 (secondsUntil 0 lease1)]} 0.

Lemma run1_reached recovering : rtc (step recovering) (start cfg1 ∅ 0) run1.
Proof. apply rtc_once. by apply (step_claim recovering (start cfg1 ∅ 0) "u1" "" lease1 true (Claimed 0 true) None). Qed.

Lemma run3_path (P : config -> Prop) recovering : (forall c, no_recovery (c_threads c) -> P c) ->
  rtc (fun c c' => step recovering c c' /\ P c') (start cfg1 ∅ 0) run3.
Proof.
  intros HP. apply (rtc_l _ _ run1); [split; [|by apply HP]|apply (rtc_l _ _ (mkConfig (c_manager run1) [Creating 0 lease1 0] ∅ 0)); [|apply rtc_once]; (split; [|by apply HP])].
  - by apply (step_claim recovering (start cfg1 ∅ 0) "u1" "" lease1 true (Claimed 0 true) None).
  - apply (step_thread recovering run1 [] (Create 0) [] (c_manager run1) ∅ [Creating 0 lease1 0] eq_refl).
    by apply (move_create 0 (c_manager run1) ∅ 0 (new_session "u1" lease1 true)).
  - apply (step_thread recovering (mkConfig (c_manager run1) [Creating 0 lease1 0] ∅ 0) [] (Creating 0 lease1 0) [] (c_manager run3) (c_remote run3) [Sync 0 Work] eq_refl).
    apply (move_created 0 (c_manager run1) ∅ 0 lease1 0 box1 0); [|cbn; lia]. intros l s old Es. destruct l as [|l]; [by injection Es as <-|done].
Qed.

(** The session of [run3] is destroyed, and then recovered and its sandbox killed at
    the same time. *)
Definition doomed_run (ts : list pc) (m : manager) : config := mkConfig m ts (c_remote run3) 0.
Definition out_of_use : manager := snd (releaseAndDestroySession "u1" (c_manager run3)).
Definition retired1 : retiredTerminalSession := mkRetired (Some box1) true.
Definition info1 : SandboxInfo := mkSandboxInfo "sb1" "running" "0.2" (Some (terminalSessionMetadata (fun x => x) "u1")).
Definition revived : config :=
  let m := snd (recover_insert "u1" lease1 box1 out_of_use) in
  mkConfig m [Killing retired1 [] Nothing] (<["sb1" := remote_end 0 (secondsUntil 0 lease1)]> (c_remote run3)) 0.

Example recovery_revives_a_doomed_sandbox :
  rtc (step true) run3 revived /\
  exists l s, listed (c_manager revived) l s /\ se_sandbox s = Some box1 /\ exists t, t ∈ c_threads revived /\ sb_ID box1 ∈ targets t.
Proof.
  split; [|exists 1%nat, (mkSession "u1" (Some box1) lease1 lease1 lease1 false 0 false true true None); split_and!;
    [split; vm_compute; reflexivity|reflexivity|exists (Killing retired1 [] Nothing); split; [by left|by left]]].
  eapply rtc_l; [eapply (step_thread true run3 [] (Sync 0 Work) [] (c_manager run3) (c_remote run3) [Working 0] eq_refl);
    by apply (move_sync_done 0 (c_manager run3) (c_remote run3) 0 Work None (with_leases lease1 lease1 lease1 (with_init (Some box1) None (new_session "u1" lease1 true))))|].
  eapply rtc_l; [eapply (step_thread true (doomed_run [Working 0] (c_manager run3)) [] (Working 0) [] _ _ _ eq_refl), (move_worked 0 _ _ 0 ContextEnd)|].
  eapply rtc_l; [eapply (step_thread true (doomed_run [Destroy 0 false] (c_manager run3)) [] (Destroy 0 false) [] _ _ _ eq_refl);
    by apply (move_destroy 0 (c_manager run3) (c_remote run3) 0 false (Some retired1) out_of_use)|].
  eapply rtc_l; [by apply (step_candidate true (doomed_run [Killing retired1 [] Nothing] out_of_use) "u1" lease1)|].
  eapply rtc_l; [eapply (step_thread true (doomed_run [Killing retired1 [] Nothing; Recovering "u1" lease1] out_of_use) [Killing retired1 [] Nothing] (Recovering "u1" lease1) [] out_of_use _ _ eq_refl);
    by apply (move_known 0 out_of_use (c_remote run3) "u1" lease1 None)|].
  eapply rtc_l; [eapply (step_thread true (doomed_run [Killing retired1 [] Nothing; Listing "u1" lease1] out_of_use) [Killing retired1 [] Nothing] (Listing "u1" lease1) [] out_of_use _ _ eq_refl);
    apply (move_listed 0 out_of_use (c_remote run3) "u1" lease1 (fun x => x) (Good [info1]))|].
  apply rtc_once. apply (step_connected true (doomed_run [Killing retired1 [] Nothing; Connecting "u1" lease1 "sb1" 0] out_of_use)
    [Killing retired1 [] Nothing] [] "u1" lease1 0 box1 0 RECOVERED); [done|done|done|by eexists|cbn; lia|vm_compute; reflexivity].
Qed.

Lemma e2b_counters_are_exact_witness :
  rtc (step false) (start cfg1 ∅ 0) run1 /\ e_reservations (c_manager run1) = 1 /\ slots (c_manager run1) = 1%nat /\ e_reservations (c_manager run1) <= 1.
Proof.
  split; [apply run1_reached|]. destruct (e2b_counters_are_exact false cfg1 ∅ 0 run1 (run1_reached false)) as (_&_&H1&H2).
  split; [reflexivity|]. split; [reflexivity|]. apply H2; [reflexivity|cbn; lia].
Defined.

(** A new process finds the sandbox of ["u1"] again. *)
Definition restarted (ts : list pc) : config := mkConfig (newTerminalSessionManager cfg1) ts {["sb1" := 9 * second]} 0.
Definition found_again : config :=
  let m := snd (recover_insert "u1" lease1 box1 (newTerminalSessionManager cfg1)) in
  mkConfig m [] (<["sb1" := remote_end 0 (secondsUntil 0 lease1)]> {["sb1" := 9 * second]}) 0.

Lemma found_again_path : rtc (fun c c' => step true c c' /\ (true = true -> calm c')) (start cfg1 {["sb1" := 9 * second]} 0) found_again.
Proof.
  eapply rtc_l; [split; [by apply (step_candidate true (restarted []) "u1" lease1)|]|].
  { intros _ t [->|?%not_elem_of_nil]%elem_of_cons; [|done]. intros l s. by vm_compute. }
  eapply rtc_l; [split; [eapply (step_thread true (restarted [Recovering "u1" lease1]) [] (Recovering "u1" lease1) [] (newTerminalSessionManager cfg1) _ _ eq_refl);
    by apply (move_known 0 (newTerminalSessionManager cfg1) _ "u1" lease1 None)|]|].
  { intros _ t [->|?%not_elem_of_nil]%elem_of_cons; [|done]. by split. }
  eapply rtc_l; [split; [eapply (step_thread true (restarted [Listing "u1" lease1]) [] (Listing "u1" lease1) [] (newTerminalSessionManager cfg1) _ _ eq_refl);
    apply (move_listed 0 (newTerminalSessionManager cfg1) _ "u1" lease1 (fun x => x) (Good [info1]))|]|].
  { intros _ t [->|?%not_elem_of_nil]%elem_of_cons; [|done]. by split. }
  apply rtc_once. split; [|by intros _ t ?%not_elem_of_nil].
  apply (step_connected true (restarted [Connecting "u1" lease1 "sb1" 0]) [] [] "u1" lease1 0 box1 0 RECOVERED); [done|done|done|by eexists|cbn; lia|vm_compute; reflexivity].
Qed.

Lemma e2b_leases_are_backed_witness :
  (exists e, c_remote run3 !! "sb1" = Some e /\ lease1 <= e) /\ (exists e, c_remote found_again !! "sb1" = Some e /\ lease1 <= e).
Proof.
  split.
  - destruct (e2b_leases_are_backed false cfg1 ∅ 0 run3 (run3_path (fun c => false = true -> calm c) false (fun _ _ H => False_rect _ (Bool.diff_false_true H)))) as [H _].
    destruct (H 0%nat (with_leases lease1 lease1 lease1 (with_init (Some box1) None (new_session "u1" lease1 true))) box1) as [He _];
      [by split|reflexivity|exact He].
  - destruct (e2b_leases_are_backed true cfg1 {["sb1" := 9 * second]} 0 found_again found_again_path) as [H _].
    destruct (H 0%nat (mkSession "u1" (Some box1) lease1 lease1 lease1 false 0 false true true None) box1) as [He _];
      [split; vm_compute; reflexivity|reflexivity|exact He].
Defined.

End E2bClaims.
