(* ===== verification/E2bCommands.v ===== *)
(** Commands of the bridge to e2b (worker-bridge-e2b/internal/runner:
    terminal_exec.go, terminal_resource.go, python_runtime.go,
    capability_executor.go): what each does with its session and what it runs in
    the sandbox ([E2bCommands]), and the way from a dispatched command to the frame
    of its result ([E2bExecutor]).

    The session manager, of which [E2bSteps] has the interleavings, and the
    sandbox's daemon answer the calls of a command through [execution]. As
    everywhere, a payload stands for the JSON value it denotes. *)
From stdpp Require Import pretty.
From S2P Require Import Prelude.
From S2P Require Import Json.
From S2P Require Import Proto.
From S2P Require Import OwnerScope.
From S2P Require Import AuthText.
From S2P Require Import JsonText.
From S2P Require Import Dispatch.
From S2P Require Import WorkerTerminal.
From S2P Require Import WorkerResource.
From S2P Require Import WorkerExecutor.
From S2P Require Import E2bClient.
From S2P Require Import E2bTerminal.
Import E2bClient.
Import E2bTerminal.
Import E2bSteps.
Local Open Scope Z_scope.

Module E2bCommands.

(** ** The service, as a command sees it (e2b_backend.go) *)
Record source_file := mkSource { sf_Body : string; sf_End : option error; sf_Size : Z }.

Record e2bBackend := mkBackend {
  bk_Run : Sandbox -> string -> Z -> answer CommandResult;
  bk_ReadFile : Sandbox -> string -> Z -> answer File;
  bk_OpenFile : Sandbox -> string -> answer source_file }.

(** How a claimed session is given back. *)
Inductive given_back := Released | Destroyed.

Record execution := mkExecution {
  xn_claim : string -> time -> bool -> res (string * bool);   (** the session's id, and whether it is new *)
  xn_ready : option client_error;                             (** [awaitSessionReady] *)
  xn_sync : option client_error;                              (** [syncSandboxTimeout] *)
  xn_sandbox : Sandbox;
  xn_backend : e2bBackend;
  xn_released : option time }.                                (** [releaseSession] after success *)

Definition terminal_error {A} (e : error) : answer A := Bad (Failure e).
Definition invalid {A} (message : string) : answer A := terminal_error (newTerminalExecError terminalExecCodeInvalidPayload message).

(** ** terminal_exec.go *)

(** The end of a step that failed: the error that is returned, and how the
    session is given back. *)
Definition step_failed {A} (e : client_error) (otherwise : client_error) : answer A * list given_back :=
  if is_context_error e then (Bad e, [Destroyed]) else
  if is_sandbox_not_found e then (terminal_error no_session, [Destroyed]) else (Bad otherwise, [Released]).

Definition timeout_failed (e : client_error) : client_error := Within "extend E2B sandbox timeout: " e "".

(** [use]: what is done in the sandbox, [finish]: the result once the session
    has been released. *)
Definition in_session {A B} (xn : execution) (use : answer A) (finish : A -> time -> B) : answer B * list given_back :=
  match xn_ready xn with
  | Some e => (Bad e, [])
  | None =>
      match xn_sync xn with
      | Some e => step_failed e (timeout_failed e)
      | None =>
          match use with
          | Bad e => step_failed e e
          | Good a =>
              (match xn_released xn with None => terminal_error no_session | Some lease => Good (finish a lease) end, [Released])
          end
      end
  end.

Definition Execute (xn : execution) (m : manager) (now : time) (req : terminalExecRequest) : answer terminalExecRunResult * list given_back :=
  let command := trim (xr_Command req) in
  if bool_decide (command = "") then (invalid "command is required", []) else
  match resolveLeaseDuration m (xr_LeaseTTLSec req) with
  | Err e => (terminal_error e, [])
  | Ok leaseDuration =>
      match xn_claim xn (trim (xr_SessionID req)) (time_add now leaseDuration) (xr_CreateIfMissing req) with
      | Err e => (terminal_error e, [])
      | Ok (sid, created) =>
          in_session xn (bk_Run (xn_backend xn) (xn_sandbox xn) command (c_OutputLimitBytes (e_cfg m)))
            (fun r lease => mkRunResult sid created (cr_Stdout r) (cr_Stderr r) (cr_ExitCode r) (cr_StdoutTruncated r) (cr_StderrTruncated r) (unix_milli lease))
      end
  end.

(** [claimed]: what [renew_claim] answers. *)
Definition RenewLease (claimed : string -> time -> res unit) (sync : option client_error) (released : option time) (m : manager) (now : time)
    (req : terminalLeaseRenewPayload) : answer (string * Z) * list given_back :=
  let sid := trim (lr_SessionID req) in
  if bool_decide (sid = "") then (invalid "session_id is required", []) else
  match resolveLeaseDuration m (Some (lr_LeaseTTLSec req)) with
  | Err e => (terminal_error e, [])
  | Ok leaseDuration =>
      match claimed sid (time_add now leaseDuration) with
      | Err e => (terminal_error e, [])
      | Ok _ =>
          match sync with
          | Some e => if is_sandbox_not_found e then (terminal_error no_session, [Destroyed]) else (Bad (timeout_failed e), [Released])
          | None => (match released with None => terminal_error no_session | Some lease => Good (sid, unix_milli lease) end, [Released])
          end
      end
  end.

(** ** terminal_resource.go *)
Definition terminalResourceCodeFileNotFound : string := "file_not_found".
Definition terminalResourceCodePathIsDir : string := "path_is_directory".
Definition terminalExportLimitMarker : string := "ONLYBOXES_EXPORT_FILE_TOO_LARGE".
Definition octet_stream : string := "application/octet-stream".

Definition terminalResourceErrorMessage (code fallback : string) : string :=
  if negb (bool_decide (trim fallback = "")) then trim fallback
  else if bool_decide (code = terminalResourceCodeFileNotFound) then "file not found"
  else if bool_decide (code = terminalResourceCodePathIsDir) then "path is directory"
  else if bool_decide (code = terminalResourceCodeFileTooLarge) then "file exceeds limit"
  else "terminal resource operation failed".

Definition dq (s : string) : string := quote +:+ s +:+ quote.
Definition apostrophe : string := "'".

Definition probe_script (filePath : string) : string :=
  "import base64,json,mimetypes,os; p=base64.b64decode(" +:+ dq (b64_encode filePath) +:+ ").decode(); " +:+
  "print(json.dumps(({" +:+ dq "error" +:+ ":" +:+ dq "file_not_found" +:+ "," +:+ dq "message" +:+ ":" +:+ dq "file not found" +:+
  "} if not os.path.exists(p) else " +:+
  "({" +:+ dq "error" +:+ ":" +:+ dq "path_is_directory" +:+ "," +:+ dq "message" +:+ ":" +:+ dq "path is directory" +:+
  "} if os.path.isdir(p) else " +:+
  "{" +:+ dq "mime_type" +:+ ":mimetypes.guess_type(p)[0] or " +:+ dq octet_stream +:+ "," +:+ dq "size_bytes" +:+ ":os.path.getsize(p)}))))".

Definition probe_command (filePath : string) : string := "python3 -c " +:+ apostrophe +:+ probe_script filePath +:+ apostrophe.

(** [decode]: the error of the JSON decoder. *)
Definition probeResource (bk : e2bBackend) (sb : Sandbox) (decode : string -> error) (filePath : string) : answer terminalResourceProbeResult :=
  match bk_Run bk sb (probe_command filePath) (64 * 1024) with
  | Bad e => Bad e
  | Good output =>
      if negb (cr_ExitCode output =? 0)
      then failure ("probe resource failed: exit_code=" +:+ pretty (cr_ExitCode output) +:+ " stderr=" +:+ trim (cr_Stderr output)) else
      let text := trim (cr_Stdout output) in
      match unmarshal_struct probe_field (mkProbe "" "" "" 0 "") (read_json text) with
      | None => Bad (Failure (Wrapped "decode resource metadata: " (decode text) ""))
      | Some p =>
          if negb (bool_decide (pb_Error p = ""))
          then terminal_error (newTerminalExecError (pb_Error p) (terminalResourceErrorMessage (pb_Error p) (pb_Message p))) else
          Good (mkProbe "" (pb_Message p) (if bool_decide (pb_MIMEType p = "") then octet_stream else pb_MIMEType p) (pb_Size p) "")
      end
  end.

(** *** The reader that stops an export at the limit *)

(** What the source still has, and how it ends. *)
Record source := mkReader { so_rest : string; so_end : option error }.

Inductive read_end := More | EOF | ReadError (e : error) | TooLarge.

(** A source gives up to [n] bytes, [k] of them if it likes, and one at least. *)
Definition source_read (n k : nat) (s : source) : string * read_end * source :=
  if bool_decide (so_rest s = "") then ("", match so_end s with None => EOF | Some e => ReadError e end, s) else
  let got := Nat.min n (S k) in (take_str got (so_rest s), More, mkReader (drop_str got (so_rest s)) (so_end s)).

Record exportLimitReader := mkLimitReader { el_source : source; el_remaining : Z }.

(** [Read] of a buffer of [n] bytes. *)
Definition Read (n k : nat) (r : exportLimitReader) : string * read_end * exportLimitReader :=
  if bool_decide (n = 0%nat) then ("", More, r) else
  if 0 <? el_remaining r then
    let n := if el_remaining r <? Z.of_nat n then Z.to_nat (el_remaining r) else n in
    let '(data, e, s) := source_read n k (el_source r) in (data, e, mkLimitReader s (el_remaining r - len data))
  else
    let '(data, e, s) := source_read 1 k (el_source r) in
    if bool_decide (data = "") then ("", e, mkLimitReader s (el_remaining r)) else ("", TooLarge, mkLimitReader s (el_remaining r)).

(** The upload reads with buffers and as the source delivers; [None]: it has not
    come to an end. *)
Fixpoint read_through (reads : list (nat * nat)) (r : exportLimitReader) : string * option read_end :=
  match reads with
  | [] => ("", None)
  | (n, k) :: reads =>
      match Read n k r with
      | (data, More, r) => let '(rest, e) := read_through reads r in (data +:+ rest, e)
      | (data, e, _) => (data, Some e)
      end
  end.

(** *** Exports *)

(** The request; without a content length the body is sent in chunks. *)
Record put := mkPut { pu_URL : string; pu_Header : list (string * string); pu_ContentLength : option Z }.

(** What the other end of the upload does: how the body is read, an answer
    before the end of it, the answer after it; [up_build]: the error of a request
    that cannot be built. *)
Record upload_env := mkUploadEnv {
  up_build : put -> option error;
  up_reads : put -> list (nat * nat);
  up_early : put -> option (res response);
  up_final : put -> res response }.

Definition upload_failed (resp : response) : client_error :=
  let message := trim (take_str 1024 (rp_Body resp)) in
  Failure (ErrorString ("upload export file failed: " +:+ if bool_decide (message = "") then rp_Status resp else message)).

Definition export_too_large {A} : answer A := terminal_error (newTerminalExecError terminalResourceCodeFileTooLarge "file exceeds export limit").

Definition upload_headers (headers : gmap string string) : list (string * string) :=
  omap (fun kv => if bool_decide (trim kv.1 = "") then None else Some (trim kv.1, kv.2)) (map_to_list headers).

Definition exportResourceThroughWorker (bk : e2bBackend) (up : upload_env) (exportMaxBytes : Z) (sb : Sandbox) (filePath signedURL : string)
    (headers : gmap string string) : answer unit :=
  match bk_OpenFile bk sb filePath with
  | Bad ErrFileNotFound => terminal_error (newTerminalExecError terminalResourceCodeFileNotFound "file not found")
  | Bad e => Bad e
  | Good file =>
      if (0 <? exportMaxBytes) && (exportMaxBytes <? sf_Size file) then export_too_large else
      let req := mkPut signedURL (upload_headers headers) (if 0 <=? sf_Size file then Some (sf_Size file) else None) in
      match up_build up req with
      | Some e => Bad (Failure (Wrapped "build export request: " e ""))
      | None =>
          let sent := if 0 <? exportMaxBytes
                      then (read_through (up_reads up req) (mkLimitReader (mkReader (sf_Body file) (sf_End file)) exportMaxBytes)).2
                      else Some (match sf_End file with None => EOF | Some e => ReadError e end) in
          let answered r :=
            match r with
            | Err e => Bad (Failure (Wrapped "upload export file: " e ""))
            | Ok resp => if (rp_StatusCode resp <? 200) || (300 <=? rp_StatusCode resp) then Bad (upload_failed resp) else Good tt
            end in
          match up_early up req, sent with
          | Some r, _ => answered r
          | None, Some TooLarge => export_too_large
          | None, Some (ReadError e) => Bad (Failure (Wrapped "upload export file: " e ""))
          | None, _ => answered (up_final up req)
          end
      end
  end.

(** The Python program that is run in the sandbox is a constant of the source. *)
Definition buildSandboxExportCommand (sandboxExportScript filePath signedURL : string) (headers : gmap string string) (maxBytes : Z) : string :=
  let payload := JObject ([("file_path", JString filePath); ("signed_url", JString signedURL)] ++
    omit_if (bool_decide (headers = ∅)) ("headers", json_map headers) ++ omit_if (maxBytes =? 0) ("max_bytes", JInt maxBytes)) in
  "python3 -c " +:+ apostrophe +:+ "exec(__import__(" +:+ dq "base64" +:+ ").b64decode(" +:+ dq (b64_encode sandboxExportScript) +:+ "))" +:+
  apostrophe +:+ " " +:+ b64_encode (json_text payload).

Definition exportResourceFromSandbox (bk : e2bBackend) (sandboxExportScript : string) (exportMaxBytes : Z) (sb : Sandbox)
    (filePath signedURL : string) (headers : gmap string string) : answer unit :=
  match bk_Run bk sb (buildSandboxExportCommand sandboxExportScript filePath signedURL headers exportMaxBytes) (64 * 1024) with
  | Bad e => Bad (Within "run sandbox export: " e "")
  | Good output =>
      if cr_ExitCode output =? 0 then Good tt else
      let message := trim (cr_Stderr output) in
      let message := if bool_decide (message = "") then trim (cr_Stdout output) else message in
      let message := if bool_decide (message = "") then "upload command failed" else message in
      if contains_text message terminalExportLimitMarker then export_too_large
      else failure ("sandbox export failed: exit_code=" +:+ pretty (cr_ExitCode output) +:+ ": " +:+ message)
  end.

Record resource_env := mkResourceEnv {
  ro_script : string;
  ro_decode : string -> error;
  ro_upload : upload_env }.

Definition exportResource (env : resource_env) (cfg : managerConfig) (bk : e2bBackend) (sb : Sandbox) (filePath signedURL : string)
    (headers : gmap string string) : answer unit :=
  if bool_decide (c_ExportMode cfg = "sandbox")
  then exportResourceFromSandbox bk (ro_script env) (c_ExportMaxBytes cfg) sb filePath signedURL headers
  else exportResourceThroughWorker bk (ro_upload env) (c_ExportMaxBytes cfg) sb filePath signedURL headers.

(** *** Resources *)
Definition read_failed {A} (e : client_error) : answer A :=
  match e with
  | ErrFileNotFound => terminal_error (newTerminalExecError terminalResourceCodeFileNotFound "file not found")
  | ErrFileTooLarge => terminal_error (newTerminalExecError terminalResourceCodeFileTooLarge "file exceeds read limit")
  | _ => Bad e
  end.

Definition resolveResource (env : resource_env) (cfg : managerConfig) (bk : e2bBackend) (sb : Sandbox) (sid filePath action signedURL : string)
    (headers : gmap string string) : answer terminalResourceRunResult :=
  match probeResource bk sb (ro_decode env) filePath with
  | Bad e => Bad e
  | Good probe =>
      let result := mkResourceResult sid filePath (pb_MIMEType probe) (pb_Size probe) "" in
      if bool_decide (action = terminalResourceActionValidate) then Good result
      else if bool_decide (action = terminalResourceActionRead) then
        match bk_ReadFile bk sb filePath (c_OutputLimitBytes cfg) with
        | Bad e => read_failed e
        | Good file => Good (mkResourceResult sid filePath (fl_MIMEType file) (fl_Size file) (fl_Content file))
        end
      else if bool_decide (action = terminalResourceActionExport) then
        if (0 <? c_ExportMaxBytes cfg) && (c_ExportMaxBytes cfg <? pb_Size probe) then export_too_large else
        match exportResource env cfg bk sb filePath signedURL headers with Bad e => Bad e | Good _ => Good result end
      else invalid "invalid action"
  end.

Definition ResolveResource (env : resource_env) (xn : execution) (m : manager) (req : terminalResourceRequest)
    : answer terminalResourceRunResult * list given_back :=
  let sid := trim (rq_SessionID req) in
  let filePath := trim (rq_FilePath req) in
  if bool_decide (sid = "") || bool_decide (filePath = "") then (invalid "session_id and file_path are required", []) else
  let action := normalizeTerminalResourceAction (rq_Action req) in
  if bool_decide (action = "") then (invalid "action must be validate, read, or export", []) else
  if bool_decide (action = terminalResourceActionExport) && bool_decide (trim (rq_SignedURL req) = "")
  then (invalid "signed_url is required for export", []) else
  match xn_claim xn sid timeZero false with
  | Err e => (terminal_error e, [])
  | Ok (id, _) =>
      in_session xn (resolveResource env (e_cfg m) (xn_backend xn) (xn_sandbox xn) id filePath action (rq_SignedURL req) (default ∅ (rq_Headers req)))
        (fun r _ => r)
  end.

(** ** python_runtime.go *)
Record pythonExecRunner := mkRunner { pr_template : string; pr_timeoutSec : Z }.

Definition newPythonExecRunner (template : string) (timeoutSec : Z) : pythonExecRunner := mkRunner (trim template) timeoutSec.

Definition python_command (code : string) : string :=
  "printf " +:+ apostrophe +:+ "%s" +:+ apostrophe +:+ " " +:+ apostrophe +:+ b64_encode code +:+ apostrophe +:+
  " | base64 -d > /tmp/onlyboxes-pythonexec.py && uv run /tmp/onlyboxes-pythonexec.py".

Definition python_timeout (r : pythonExecRunner) (deadline : option time) (now : time) : Z :=
  let timeoutSec :=
    match deadline with
    | Some d => let remaining := Z.quot (d - now) second + 1 in
                if (0 <? remaining) && (remaining <? pr_timeoutSec r) then remaining else pr_timeoutSec r
    | None => pr_timeoutSec r
    end in
  if timeoutSec <=? 0 then 60 else timeoutSec.

(** [create]: the answer to [Create] with this template and timeout. The result,
    and the sandboxes that were killed. *)
Definition python_Execute (bk : e2bBackend) (create : string -> Z -> answer Sandbox) (r : pythonExecRunner) (deadline : option time) (now : time)
    (code : string) : answer pythonExecRunResult * list string :=
  match create (pr_template r) (python_timeout r deadline now) with
  | Bad e => (Bad (Within "create E2B python sandbox: " e ""), [])
  | Good sb =>
      (match bk_Run bk sb (python_command code) (-1) with
       | Bad e => Bad e
       | Good result => Good (mkPythonResult (cr_Stdout result) (cr_Stderr result) (cr_ExitCode result))
       end, [sb_ID sb])
  end.

End E2bCommands.

Import E2bCommands.

Module E2bExecutor.

Definition terminalProxyCapabilityName : string := "terminalproxy".

(** What the rest of the process and the service do during one command. *)
Record command_env := mkCommandEnv {
  ce_now : time;
  ce_later : time;                  (** when the result is made *)
  ce_manager : manager;
  ce_execution : execution;
  ce_renew : (string -> time -> res unit) * option client_error * option time;
  ce_resource : resource_env;
  ce_runner : E2bCommands.pythonExecRunner;
  ce_create : string -> Z -> answer Sandbox }.

Definition commandErrorResult (env : command_env) (commandID code message : string) : Proto.CommandResult :=
  mkResult commandID (Some (code, message)) PEmpty (unix_milli (ce_later env)).
Definition command_result (env : command_env) (commandID : string) (v : json) : Proto.CommandResult :=
  mkResult commandID None (PJson v) (unix_milli (ce_later env)).
Definition invalid_payload (env : command_env) (commandID message : string) : Proto.CommandResult :=
  commandErrorResult env commandID terminalExecCodeInvalidPayload message.

(** [errors.As] for a [terminalExecError]. *)
Fixpoint as_terminal_error (e : client_error) : option (string * string) :=
  match e with Failure e => as_command_error e | Within _ e _ => as_terminal_error e | _ => None end.

Definition execution_error (env : command_env) (commandID what : string) (e : client_error) : Proto.CommandResult :=
  if is_context_error e then commandErrorResult env commandID "deadline_exceeded" "command deadline exceeded" else
  match as_terminal_error e with
  | Some (code, message) => commandErrorResult env commandID code message
  | None => commandErrorResult env commandID "execution_failed" (what +:+ " failed: " +:+ client_error_message e)
  end.

Definition answered {A} (env : command_env) (commandID what : string) (marshal : A -> json) (r : answer A) : Proto.CommandResult :=
  match r with Bad e => execution_error env commandID what e | Good a => command_result env commandID (marshal a) end.

Definition json_of (p : payload) : json := match p with PJson v => v | _ => JNull end.

Definition buildEchoCommandResult (env : command_env) (commandID : string) (d : CommandDispatch) : Proto.CommandResult :=
  match (if payload_empty (cmd_PayloadJson d) then Some "" else unmarshal_struct WorkerExecutor.message_field "" (cmd_PayloadJson d)) with
  | None => invalid_payload env commandID "payload_json is not valid echo payload"
  | Some message =>
      if bool_decide (trim message = "") then invalid_payload env commandID "echo payload is required"
      else command_result env commandID (json_of (cmd_PayloadJson d))
  end.

(** The frame, and the sandboxes that were killed. The code has its own text for
    an error and does not ask for its code. *)
Definition buildPythonExecCommandResult (env : command_env) (commandID : string) (d : CommandDispatch) : Proto.CommandResult * list string :=
  if payload_empty (cmd_PayloadJson d) then (invalid_payload env commandID "pythonExec payload is required", []) else
  match unmarshal_struct python_field "" (cmd_PayloadJson d) with
  | None => (invalid_payload env commandID "payload_json is not valid pythonExec payload", [])
  | Some code =>
      if bool_decide (trim code = "") then (invalid_payload env commandID "pythonExec code is required", []) else
      let deadline := if 0 <? cmd_DeadlineUnixMs d then Some (of_unix_milli (cmd_DeadlineUnixMs d)) else None in
      match python_Execute (xn_backend (ce_execution env)) (ce_create env) (ce_runner env) deadline (ce_now env) code with
      | (Bad e, killed) =>
          (if is_context_error e then commandErrorResult env commandID "deadline_exceeded" "command deadline exceeded"
           else commandErrorResult env commandID "execution_failed" ("pythonExec execution failed: " +:+ client_error_message e), killed)
      | (Good r, killed) =>
          (command_result env commandID (JObject [("output", JString (py_Output r)); ("stderr", JString (py_Stderr r)); ("exit_code", JInt (py_ExitCode r))]), killed)
      end
  end.

Definition buildTerminalExecCommandResult (env : command_env) (commandID : string) (d : CommandDispatch) : Proto.CommandResult :=
  if payload_empty (cmd_PayloadJson d) then invalid_payload env commandID "terminalExec payload is required" else
  match unmarshal_exec (cmd_PayloadJson d) with
  | None => invalid_payload env commandID "payload_json is not valid terminalExec payload"
  | Some p =>
      if bool_decide (trim (ex_Command p) = "") then invalid_payload env commandID "terminalExec command is required" else
      answered env commandID "terminalExec execution" (fun r => json_of (marshal_run_result r))
        (E2bCommands.Execute (ce_execution env) (ce_manager env) (ce_now env)
           (mkExecRequest (ex_Command p) (ex_SessionID p) (ex_CreateIfMissing p) (ex_LeaseTTLSec p))).1
  end.

Definition buildTerminalLeaseRenewCommandResult (env : command_env) (commandID : string) (d : CommandDispatch) : Proto.CommandResult :=
  let wrong := invalid_payload env commandID "payload_json is not valid terminalLeaseRenew payload" in
  if payload_empty (cmd_PayloadJson d) then wrong else
  match unmarshal_struct lease_renew_field (mkLeaseRenew "" 0) (cmd_PayloadJson d) with
  | None => wrong
  | Some p =>
      if bool_decide (trim (lr_SessionID p) = "") || (lr_LeaseTTLSec p <=? 0) then wrong else
      let '(claimed, sync, released) := ce_renew env in
      answered env commandID "terminalLeaseRenew" (fun r => json_of (marshal_renew_result r.1 r.2))
        (E2bCommands.RenewLease claimed sync released (ce_manager env) (ce_now env) p).1
  end.

Definition buildTerminalResourceCommandResult (env : command_env) (commandID : string) (d : CommandDispatch) : Proto.CommandResult :=
  if payload_empty (cmd_PayloadJson d) then invalid_payload env commandID "terminalResource payload is required" else
  match unmarshal_resource (cmd_PayloadJson d) with
  | None => invalid_payload env commandID "payload_json is not valid terminalResource payload"
  | Some p =>
      if bool_decide (trim (rs_SessionID p) = "") || bool_decide (trim (rs_FilePath p) = "")
      then invalid_payload env commandID "terminalResource session_id and file_path are required"
      else if equal_fold (trim (rs_Action p)) terminalResourceActionExport && bool_decide (trim (rs_SignedURL p) = "")
      then invalid_payload env commandID "terminalResource signed_url is required for export"
      else answered env commandID "terminalResource execution" (fun r => json_of (marshal_resource_result r))
             (E2bCommands.ResolveResource (ce_resource env) (ce_execution env) (ce_manager env)
                (mkResourceRequest (rs_SessionID p) (rs_FilePath p) (rs_Action p) (rs_SignedURL p) (cloneStringMap (rs_Headers p)))).1
  end.

Record terminalProxyPayload := mkProxyPayload { pp_SessionID : string; pp_Port : Z }.

Definition proxy_field (k : string) : option (json -> terminalProxyPayload -> terminalProxyPayload * bool) :=
  if equal_fold k "session_id" then Some (fun v p => let '(x, b) := dec_string v (pp_SessionID p) in (mkProxyPayload x (pp_Port p), b))
  else if equal_fold k "port" then Some (fun v p => let '(x, b) := dec_int v (pp_Port p) in (mkProxyPayload (pp_SessionID p) x, b))
  else None.

Definition marshal_proxy (r : string * string) : json :=
  JObject (("url", JString r.1) :: omit_if (bool_decide (r.2 = "")) ("traffic_token", JString r.2)).

Definition buildTerminalProxyCommandResult (env : command_env) (commandID : string) (d : CommandDispatch) : Proto.CommandResult :=
  let wrong := invalid_payload env commandID "terminalProxy requires session_id and a port between 1 and 65535" in
  match unmarshal_struct proxy_field (mkProxyPayload "" 0) (cmd_PayloadJson d) with
  | None => wrong
  | Some p =>
      if bool_decide (trim (pp_SessionID p) = "") || (pp_Port p <? 1) || (65535 <? pp_Port p) then wrong else
      match ResolveProxy (pp_SessionID p) (pp_Port p) (ce_now env) (ce_manager env) with
      | Good r => command_result env commandID (marshal_proxy r)
      | Bad e =>
          match as_terminal_error e with
          | Some (code, message) => commandErrorResult env commandID code message
          | None => commandErrorResult env commandID "execution_failed" ("terminalProxy resolution failed: " +:+ client_error_message e)
          end
      end
  end.

(** The frame, and the sandboxes that a Python execution killed. *)
Definition buildCommandResultWithContext (env : command_env) (d : CommandDispatch) : Proto.CommandResult * list string :=
  let commandID := trim (cmd_CommandId d) in
  if bool_decide (commandID = "") then (mkResult commandID (Some ("invalid_command_id", "command_id is required")) PEmpty 0, []) else
  if (0 <? cmd_DeadlineUnixMs d) && (cmd_DeadlineUnixMs d <? unix_milli (ce_now env))
  then (commandErrorResult env commandID "deadline_exceeded" "command deadline exceeded", []) else
  let capability := trim (to_lower (cmd_Capability d)) in
  if bool_decide (capability = echoCapabilityName) then (buildEchoCommandResult env commandID d, [])
  else if bool_decide (capability = pythonExecCapabilityName) then buildPythonExecCommandResult env commandID d
  else if bool_decide (capability = terminalExecCapabilityName) then (buildTerminalExecCommandResult env commandID d, [])
  else if bool_decide (capability = terminalLeaseRenewCapabilityName) then (buildTerminalLeaseRenewCommandResult env commandID d, [])
  else if bool_decide (capability = terminalResourceCapabilityName) then (buildTerminalResourceCommandResult env commandID d, [])
  else if bool_decide (capability = terminalProxyCapabilityName) then (buildTerminalProxyCommandResult env commandID d, [])
  else (commandErrorResult env commandID "unsupported_capability"
          ("capability " +:+ quote +:+ cmd_Capability d +:+ quote +:+ " is not supported"), []).

End E2bExecutor.
