(* ===== verification/E2bCommandClaims.v ===== *)
(** What the commands of the bridge to e2b guarantee: no process is left running,
    output and exports respect their limits, and what a client sends stays inside
    its word of a shell command. *)
From stdpp Require Import pretty.
From S2P Require Import Prelude.
From S2P Require Import Json.
From S2P Require Import OwnerScope.
From S2P Require Import AuthText.
From S2P Require Import JsonText.
From S2P Require Import WorkerTerminal.
From S2P Require Import WorkerResource.
From S2P Require Import WorkerExecutor.
From S2P Require Import McpToolProps.
From S2P Require Import E2bClient.
From S2P Require Import E2bTerminal.
From S2P Require Import E2bCommands.
Import McpToolProps.
Import E2bClient.
Import E2bTerminal.
Import E2bSteps.
Import E2bCommands.
Local Open Scope Z_scope.

Module E2bCommandClaims.

(** ** Texts that are cut *)
Lemma len_app s t : len (s +:+ t) = len s + len t.
Proof. unfold len. rewrite string_length_app. lia. Qed.
Lemma len_nonneg s : 0 <= len s.
Proof. unfold len. lia. Qed.
Lemma len_zero s : len s = 0 -> s = "".
Proof. by destruct s. Qed.

Lemma take_str_all n s : len s <= Z.of_nat n -> take_str n s = s.
Proof.
  unfold len. revert n. induction s as [|a s IH]; intros n H; [by destruct n|]. cbn [String.length] in H. destruct n as [|n]; [lia|].
  cbn. by rewrite IH by lia.
Qed.
Lemma take_str_0 s : take_str 0 s = "".
Proof. by destruct s. Qed.
Lemma take_str_len n s : len (take_str n s) = Z.min (Z.of_nat n) (len s).
Proof.
  unfold len. revert n. induction s as [|a s IH]; intros [|n]; cbn [take_str String.length]; [lia..|]. specialize (IH n). lia.
Qed.
Lemma take_drop_str n s : take_str n s +:+ drop_str n s = s.
Proof. revert n. induction s as [|a s IH]; intros [|n]; [done..|]. change (String a (take_str n s +:+ drop_str n s) = String a s). by rewrite IH. Qed.
Lemma take_str_app n s t : take_str n (s +:+ t) = take_str n s +:+ take_str (n - String.length s) t.
Proof.
  revert n. induction s as [|a s IH]; intros n; [by rewrite Nat.sub_0_r; destruct n|]. destruct n as [|n]; [by rewrite !take_str_0|]. change (String a (take_str n (s +:+ t)) = String a (take_str n s +:+ take_str (n - String.length s) t)). by rewrite IH.
Qed.
Lemma drop_str_len n s : len (drop_str n s) = Z.max 0 (len s - Z.of_nat n).
Proof.
  unfold len. revert n. induction s as [|a s IH]; intros [|n]; cbn [drop_str String.length]; [lia..|]. specialize (IH n). lia.
Qed.

(** ** Output *)

(** What a buffer of this limit keeps of a text. *)
Definition kept (limit : Z) (text : string) : string := if limit <? 0 then text else take_str (Z.to_nat limit) text.
Definition cut_off (limit : Z) (text : string) : bool := (0 <=? limit) && (limit <? len text).
Definition holds (limit : Z) (text : string) : limitedBuffer := mkBuffer (kept limit text) limit (cut_off limit text).

Lemma kept_len limit text : 0 <= limit -> len (kept limit text) = Z.min limit (len text).
Proof. intros H. unfold kept. rewrite (proj2 (Z.ltb_ge _ _)) by lia. rewrite take_str_len. lia. Qed.

Lemma write_holds limit text data : Write (holds limit text) data = holds limit (text +:+ data).
Proof.
  unfold Write, holds. cbn [lb_limit lb_buf lb_truncated]. case_bool_decide as Hd; [subst; by rewrite string_app_nil_r|].
  assert (0 < len data) as Hpos. { destruct (Z.eq_dec (len data) 0) as [E|E]; [by apply len_zero in E|]. pose proof (len_nonneg data). lia. }
  destruct (Z.ltb_spec limit 0) as [Hneg|Hlim].
  { unfold kept, cut_off. rewrite (proj2 (Z.ltb_lt _ _)), (proj2 (Z.leb_gt _ _)) by lia. done. }
  rewrite kept_len by lia. unfold cut_off. rewrite !(proj2 (Z.leb_le 0 limit)), len_app by lia. cbn [andb].
  assert (kept limit (text +:+ data) = kept limit text +:+ take_str (Z.to_nat limit - String.length text) data) as Ek.
  { unfold kept. rewrite (proj2 (Z.ltb_ge _ _)) by lia. apply take_str_app. }
  assert (forall n, Z.of_nat n <= limit - len text \/ limit <= len text -> (Z.to_nat limit - String.length text)%nat = Z.to_nat (limit - len text)) as Hn
    by (intros; unfold len; lia).
  rewrite Ek, (Hn 0%nat) by (unfold len; lia). destruct (Z.eqb_spec limit 0) as [->|H0].
  { f_equal; [|pose proof (len_nonneg text); symmetry; apply Z.ltb_lt; lia].
    replace (Z.to_nat (0 - len text)) with 0%nat by (pose proof (len_nonneg text); lia). by rewrite take_str_0, string_app_nil_r. }
  destruct (Z.leb_spec (limit - Z.min limit (len text)) 0) as [Hf|Hf].
  { f_equal; [|symmetry; apply Z.ltb_lt; lia]. replace (Z.to_nat (limit - len text)) with 0%nat by lia. by rewrite take_str_0, string_app_nil_r. }
  replace (Z.min limit (len text)) with (len text) in * by lia. destruct (Z.ltb_spec (limit - len text) (len data)) as [Hc|Hc].
  - f_equal. symmetry. apply Z.ltb_lt. lia.
  - rewrite take_str_all by lia. f_equal. rewrite !(proj2 (Z.ltb_ge _ _)) by lia. done.
Qed.

(** What a process wrote, and how it ended. *)
Fixpoint stdout_of (events : list event) : string :=
  match events with [] => "" | DataEvent out _ :: events => out +:+ stdout_of events | _ :: events => stdout_of events end.
Fixpoint stderr_of (events : list event) : string :=
  match events with [] => "" | DataEvent _ err :: events => err +:+ stderr_of events | _ :: events => stderr_of events end.
Fixpoint last_pid (pid : Z) (events : list event) : Z :=
  match events with [] => pid | StartEvent pid :: events => last_pid pid events | _ :: events => last_pid pid events end.
Fixpoint last_exit (end_ : option Z) (events : list event) : option Z :=
  match events with [] => end_ | EndEvent code _ :: events => last_exit (Some code) events | _ :: events => last_exit end_ events end.

Definition exit_of (p : progress) : option Z := if pg_ended p then Some (pg_exit p) else None.

Lemma receive_spec limit events : forall p out err p' early, pg_stdout p = holds limit out -> pg_stderr p = holds limit err ->
  receive events p = (p', early) ->
  match early with
  | Some _ => pg_ended p' = true
  | None => pg_stdout p' = holds limit (out +:+ stdout_of events) /\ pg_stderr p' = holds limit (err +:+ stderr_of events) /\
      pg_pid p' = last_pid (pg_pid p) events /\ exit_of p' = last_exit (exit_of p) events
  end.
Proof.
  induction events as [|ev events IH]; intros p out err p' early Ho He; cbn [receive].
  { intros [= <- <-]. cbn. by rewrite !string_app_nil_r. }
  destruct ev as [|pid|o e|code e|]; cbn [stdout_of stderr_of last_pid last_exit]; [by apply IH| | | |by apply IH].
  - intros E. by apply (IH _ out err) in E.
  - rewrite <- !string_app_assoc. intros E. apply (IH _ (out +:+ o) (err +:+ e)) in E; [done|cbn..]; rewrite ?Ho, ?He; apply write_holds.
  - destruct (negb _ && _); [by intros [= <- <-]|]. intros E. by apply (IH _ out err) in E.
Qed.

Lemma receive_unended events : forall p, (forall code e, EndEvent code e ∉ events) -> pg_ended p = false -> exists p', receive events p = (p', None) /\ pg_ended p' = false.
Proof.
  induction events as [|ev events IH]; intros p Hno Hp; [by exists p|].
  assert (forall code e, EndEvent code e ∉ events) as Hno' by (intros code e H; eapply Hno; right; exact H).
  destruct ev as [|pid|o e|code e|]; cbn [receive]; try by apply IH. destruct (Hno code e). left.
Qed.

(** *** Stopping *)
Definition selected (pid : Z) (tag : string) : selector := if pid =? 0 then ByTag tag else ByPid pid.

Lemma stop_sends pid tag deadline attempts : Forall (fun s => s = selected pid tag) (stop_loop pid tag deadline attempts).1 /\
  ((0 < length attempts)%nat -> (stop_loop pid tag deadline attempts).1 <> []).
Proof.
  induction attempts as [|a attempts IH]; cbn [stop_loop length]; [split; [constructor|lia]|]. fold (selected pid tag).
  destruct (at_answer a) as [e|]; [|split; [by repeat constructor|done]].
  destruct (_ && _); [split; [by repeat constructor|done]|]. destruct (_ || _); [split; [by repeat constructor|done]|].
  destruct (negb _); [split; [by repeat constructor|done]|]. destruct (at_ended a); [split; [by repeat constructor|done]|].
  destruct (stop_loop _ _ _ _) as [sent r]. cbn in *. split; [constructor; [done|apply IH]|done].
Qed.

(** The signals are at least the wait apart. *)
Fixpoint spaced (before : time) (attempts : list attempt) : Prop :=
  match attempts with [] => True | a :: attempts => before <= at_now a /\ spaced (at_now a + envdProcessCleanupRetryWait) attempts end.

Lemma stop_ends pid tag deadline n attempts : forall before, deadline <= before + Z.of_nat n * envdProcessCleanupRetryWait -> spaced before attempts ->
  (n < length attempts)%nat ->
  is_Some (stop_loop pid tag deadline attempts).2 /\ (length (stop_loop pid tag deadline attempts).1 <= S n)%nat.
Proof.
  revert attempts. induction n as [|n IH]; intros [|a attempts] before Hd Hs Hl; cbn [length] in Hl; try lia; cbn [stop_loop].
  all: destruct Hs as [Ha Hs]; destruct (at_answer a) as [e|]; [|split; [done|cbn; lia]].
  all: destruct (negb (pid =? 0) && _); [split; [done|cbn; lia]|]; destruct (_ || _); [split; [done|cbn; lia]|].
  - rewrite (proj2 (Z.ltb_ge _ _)) by lia. split; [done|cbn; lia].
  - destruct (negb _); [split; [done|cbn; lia]|]. destruct (at_ended a); [split; [done|cbn; lia]|].
    destruct (IH attempts (at_now a + envdProcessCleanupRetryWait)) as [H1 H2]; [lia|done|lia|]. destruct (stop_loop _ _ _ _) as [sent r]. split; [done|].
    cbn in *. lia.
Qed.

(** C37: A command in a sandbox leaves no process behind unnoticed, and its output
    is exact. A result is only given once the process has ended: then nothing was
    signalled, the exit code is the one the process ended with, and each stream is
    everything it wrote, cut at the limit and marked as truncated exactly when
    there was more. If the daemon's stream breaks off before that, there is an
    error, and the process is killed - by its number if that is known, by its tag
    otherwise - with at most eleven signals, however often the daemon does not
    find it. *)
Theorem e2b_runs_are_bounded_and_stopped env sb limit :
  (forall r sent, E2bClient.Run env sb limit = (Some (Good r), sent) ->
     sent = [] /\ last_exit None (rv_events env) = Some (cr_ExitCode r) /\
     cr_Stdout r = kept limit (stdout_of (rv_events env)) /\ cr_StdoutTruncated r = cut_off limit (stdout_of (rv_events env)) /\
     cr_Stderr r = kept limit (stderr_of (rv_events env)) /\ cr_StderrTruncated r = cut_off limit (stderr_of (rv_events env))) /\
  (trim (sb_ID sb) <> "" -> rv_start env = None -> (forall code e, EndEvent code e ∉ rv_events env) ->
     let '(result, sent) := E2bClient.Run env sb limit in
     (forall r, result <> Some (Good r)) /\
     Forall (fun s => s = selected (last_pid 0 (rv_events env)) (rv_tag env)) sent /\
     ((0 < length (rv_stop env).2)%nat -> sent <> []) /\
     (spaced (rv_stop env).1 (rv_stop env).2 -> (10 < length (rv_stop env).2)%nat -> is_Some result /\ (length sent <= 11)%nat)).
Proof.
  unfold E2bClient.Run. set (p0 := mkProgress 0 false 0 (mkBuffer "" limit false) (mkBuffer "" limit false)).
  assert (mkBuffer "" limit false = holds limit "") as Hempty.
  { unfold holds, kept, cut_off. change (len "") with 0. f_equal; [destruct (limit <? 0); [done|by destruct (Z.to_nat limit)]|].
    destruct (Z.leb_spec 0 limit), (Z.ltb_spec limit 0); lia || done. }
  destruct (receive (rv_events env) p0) as [p early] eqn:Er. pose proof (receive_spec limit (rv_events env) p0 "" "" _ _ Hempty Hempty Er) as Hspec. split.
  - intros r sent. case_bool_decide; [by intros [=]|]. destruct (rv_start env); [by intros [=]|].
    destruct (pg_ended p) eqn:Ep.
    + intros [= E <-]. split; [done|]. destruct early as [e|]; [done|]. destruct (rv_end env); [done|]. cbn in E. injection E as <-.
      destruct Hspec as (->&->&_&Hexit). unfold exit_of in Hexit. rewrite Ep in Hexit. by cbn.
    + destruct (stopProcess _ _ _ _) as [sent' [[e|]|]]; [| |done].
      * destruct early; [done|]. by destruct (rv_end env).
      * destruct early; [done|]. by destruct (rv_end env).
  - intros Hid Hstart Hno. rewrite bool_decide_false, Hstart by done. destruct (receive_unended (rv_events env) p0 Hno eq_refl) as (p1&E1&Hp1).
    rewrite Er in E1. injection E1 as <- ->. destruct Hspec as (_&_&Hpid&_). cbn in Hpid. rewrite Hp1, <- Hpid. cbn [negb]. unfold stopProcess.
    set (deadline := (rv_stop env).1 + envdProcessTagCleanupGrace). destruct (stop_sends (pg_pid p) (rv_tag env) deadline (rv_stop env).2) as [Hf Hne].
    pose proof (stop_ends (pg_pid p) (rv_tag env) deadline 10 (rv_stop env).2 (rv_stop env).1 ltac:(unfold deadline, envdProcessTagCleanupGrace, envdProcessCleanupRetryWait, millisecond; lia)) as Hends.
    destruct (stop_loop _ _ _ _) as [sent [[e|]|]]; cbn [fst snd] in *; (split_and!; [by destruct (rv_end env)|done|done|]); intros Hs Hl; destruct (Hends Hs Hl) as [Hr Hl'];
      (split; [done|lia]) || by destruct Hr.
Qed.

Definition broken_run : run_env :=
  mkRunEnv "t" None [StartEvent 7; DataEvent "ab" ""] None (0, [mkAttempt (Some (mkRPC true (ErrorString "gone"))) 1 None]).
Definition whole_run : run_env := mkRunEnv "t" None [StartEvent 7; DataEvent "ab" "x"; DataEvent "cd" ""; EndEvent 3 ""] None (0, []).

Lemma e2b_runs_are_bounded_and_stopped_witness :
  E2bClient.Run whole_run (mkSandbox "sb" "" "" "" "") 3 = (Some (Good (mkCommandResult "abc" "x" 3 true false)), []) /\
  kept 3 (stdout_of (rv_events whole_run)) = "abc" /\ (E2bClient.Run broken_run (mkSandbox "sb" "" "" "" "") 3).2 <> [].
Proof.
  destruct (e2b_runs_are_bounded_and_stopped whole_run (mkSandbox "sb" "" "" "" "") 3) as [H _].
  destruct (H (mkCommandResult "abc" "x" 3 true false) [] eq_refl) as (_&_&H1&_). split; [reflexivity|]. split; [symmetry; exact H1|].
  destruct (e2b_runs_are_bounded_and_stopped broken_run (mkSandbox "sb" "" "" "" "") 3) as [_ H'].
  assert (forall code e, EndEvent code e ∉ rv_events broken_run) as Hno by (intros code e Hin; cbn in Hin; set_solver).
  destruct (H' ltac:(done) eq_refl Hno) as (_&_&Hne&_). apply Hne. cbn. lia.
Defined.

(** ** Exports *)
Definition source_end (end_ : option error) : read_end := match end_ with None => EOF | Some e => ReadError e end.

Lemma kept_split got limit s : 0 <= limit -> Z.of_nat got <= limit ->
  kept limit s = take_str got s +:+ kept (limit - len (take_str got s)) (drop_str got s) /\
  cut_off (limit - len (take_str got s)) (drop_str got s) = cut_off limit s.
Proof.
  intros Hl Hg. assert (len (take_str got s) = Z.min (Z.of_nat got) (len s)) as Ht by apply take_str_len. pose proof (len_nonneg s) as Hn. split.
  - unfold kept. rewrite !(proj2 (Z.ltb_ge _ _)) by lia. rewrite <- (take_drop_str got s) at 1. rewrite take_str_app, take_str_all by lia. f_equal. f_equal.
    unfold len in *. lia.
  - unfold cut_off. rewrite drop_str_len, !(proj2 (Z.leb_le 0 _)) by lia. cbn [andb]. apply eq_true_iff_eq. rewrite !Z.ltb_lt. lia.
Qed.

Lemma read_through_spec end_ reads : forall body limit, 0 <= limit -> Forall (fun r => (0 < r.1)%nat) reads -> len body < Z.of_nat (length reads) ->
  read_through reads (mkLimitReader (mkReader body end_) limit) = (kept limit body, Some (if cut_off limit body then TooLarge else source_end end_)).
Proof.
  induction reads as [|[n k] reads IH]; intros body limit Hl Hr Hlen; [pose proof (len_nonneg body); cbn in Hlen; lia|].
  apply Forall_cons in Hr as [Hn Hr]. cbn [fst] in Hn. cbn [length] in Hlen. cbn [read_through]. unfold Read, source_read.
  rewrite bool_decide_false by lia. cbn [el_remaining el_source so_rest so_end]. destruct (decide (body = "")) as [->|Hb].
  { assert (forall limit, 0 <= limit -> kept limit "" = "" /\ cut_off limit "" = false) as He.
    { intros z Hz. unfold kept, cut_off. change (len "") with 0. rewrite !(proj2 (Z.ltb_ge _ _)) by lia. split; [by destruct (Z.to_nat z)|apply andb_false_r]. }
    destruct (He limit Hl) as [-> ->]. rewrite bool_decide_true by done. destruct (0 <? limit); by destruct end_. }
  rewrite bool_decide_false by done. assert (0 < len body) as Hpos.
  { destruct (Z.eq_dec (len body) 0) as [E|E]; [by apply len_zero in E|]. pose proof (len_nonneg body). lia. }
  destruct (Z.ltb_spec 0 limit) as [Hlim|Hlim].
  - set (n' := if limit <? Z.of_nat n then Z.to_nat limit else n). assert ((0 < n')%nat /\ Z.of_nat n' <= limit) as [Hn1 Hn2]
      by (unfold n'; destruct (Z.ltb_spec limit (Z.of_nat n)); lia).
    set (got := Nat.min n' (S k)). destruct (kept_split got limit body Hl ltac:(unfold got; lia)) as [-> <-]. rewrite IH; [done| |done|].
    + rewrite take_str_len. unfold got. lia.
    + rewrite drop_str_len. unfold got. lia.
  - replace limit with 0 by lia. destruct body as [|a body]; [done|]. by destruct end_.
Qed.

(** C38: An export through the worker sends no more than the limit, and nothing but
    the file. However the transport sizes its buffers and however the sandbox
    delivers the file, reading comes to an end within one read per byte and one
    more; what has been read is the file cut at the limit, the upload fails as too
    large exactly when the file is longer, and otherwise it ends the way the file
    does. In particular, of an upload target that does not answer before the end of
    the body: a file that fits is sent whole, and one that does not is never reported
    as exported. *)
Theorem exports_respect_the_limit limit body end_ reads : 0 < limit -> Forall (fun r => (0 < r.1)%nat) reads -> len body < Z.of_nat (length reads) ->
  let '(sent, ended) := read_through reads (mkLimitReader (mkReader body end_) limit) in
  len sent <= limit /\ sent = take_str (Z.to_nat limit) body /\
  ended = Some (if limit <? len body then TooLarge else source_end end_) /\
  (forall bk up sb filePath signedURL headers size,
     bk_OpenFile bk sb filePath = Good (mkSource body end_ size) -> (forall req, up_reads up req = reads /\ up_early up req = None) ->
     exportResourceThroughWorker bk up limit sb filePath signedURL headers = Good tt -> sent = body /\ end_ = None).
Proof.
  intros Hl Hr Hlen. pose proof (read_through_spec end_ reads body limit ltac:(lia) Hr Hlen) as Hspec. rewrite Hspec. split_and!.
  - rewrite kept_len by lia. lia.
  - unfold kept. by rewrite (proj2 (Z.ltb_ge _ _)) by lia.
  - unfold cut_off. by rewrite (proj2 (Z.leb_le _ _)) by lia.
  - intros bk up sb filePath signedURL headers size Ho Hup. unfold exportResourceThroughWorker. rewrite Ho. cbn [sf_Size sf_Body sf_End].
    rewrite (proj2 (Z.ltb_lt _ _)) by lia. cbn [andb]. destruct (limit <? size); [done|]. set (req := mkPut _ _ _). destruct (Hup req) as [-> ->].
    destruct (up_build up req); [done|]. rewrite Hspec. cbn [snd]. unfold cut_off. rewrite (proj2 (Z.leb_le _ _)) by lia. cbn [andb].
    destruct (Z.ltb_spec limit (len body)); [done|]. destruct end_; [done|]. intros _. split; [|done].
    unfold kept. rewrite (proj2 (Z.ltb_ge _ _)), take_str_all by lia. done.
Qed.

Lemma exports_respect_the_limit_witness :
  let reads := [(4, 1); (1, 0); (8, 7); (8, 7); (8, 7); (8, 7)]%nat in
  read_through reads (mkLimitReader (mkReader "hello" None) 3) = ("hel", Some TooLarge) /\
  len (read_through reads (mkLimitReader (mkReader "hello" None) 3)).1 <= 3.
Proof.
  pose proof (exports_respect_the_limit 3 "hello" None [(4, 1); (1, 0); (8, 7); (8, 7); (8, 7); (8, 7)]%nat ltac:(lia) ltac:(repeat constructor; cbn; lia) ltac:(reflexivity)) as H.
  split; [reflexivity|]. exact (proj1 H).
Defined.

(** ** What a client's text can reach in the shell *)
Definition shell_plain (c : ascii) : bool := is_alnum c || existsb (Ascii.eqb c) ["+"; "/"; "="; "-"; "_"; "."; "%"; "|"; ">"; "&"]%char.
Definition shell_quote (c : ascii) : bool := Ascii.eqb c "'".
Definition appended (cur : option string) (t : string) : option string := Some (default "" cur +:+ t).

(** The words of a command line: blanks separate them, and between apostrophes
    everything stands for itself. [None]: a character that a shell would interpret
    in some other way. Operators count as words. *)
Fixpoint words (cur : option string) (quoted : bool) (s : string) : option (list string) :=
  match s with
  | EmptyString => if quoted then None else Some (option_list cur)
  | String c s =>
      if quoted then (if shell_quote c then words cur false s else words (appended cur (String c "")) true s)
      else if Ascii.eqb c " " then (fun ws => option_list cur ++ ws) <$> words None false s
      else if shell_quote c then words (appended cur "") true s
      else if shell_plain c then words (appended cur (String c "")) false s else None
  end.
Definition shell_words : string -> option (list string) := words None false.

Lemma words_quoted t w rest : forall_char (fun c => negb (shell_quote c)) t = true ->
  words (Some w) true (t +:+ apostrophe +:+ rest) = words (Some (w +:+ t)) false rest.
Proof.
  revert w. induction t as [|c t IH]; intros w H; [by rewrite string_app_nil_r|]. cbn [forall_char] in H. apply andb_true_iff in H as [Hc Ht].
  apply negb_true_iff in Hc. change (String c t +:+ apostrophe +:+ rest) with (String c (t +:+ apostrophe +:+ rest)). cbn [words]. rewrite Hc.
  unfold appended. cbn [default]. rewrite IH by done. by rewrite string_app_assoc.
Qed.

Lemma plain_not_blank c : shell_plain c = true -> Ascii.eqb c " " = false /\ shell_quote c = false.
Proof.
  intros H. unfold shell_quote. split; apply not_true_is_false; intros E%Ascii.eqb_eq; subst; by vm_compute in H.
Qed.

Lemma words_plain t w rest : forall_char shell_plain t = true -> words (Some w) false (t +:+ rest) = words (Some (w +:+ t)) false rest.
Proof.
  revert w. induction t as [|c t IH]; intros w H; [by rewrite string_app_nil_r|]. cbn [forall_char] in H. apply andb_true_iff in H as [Hc Ht].
  destruct (plain_not_blank c Hc) as [H1 H2]. change (String c t +:+ rest) with (String c (t +:+ rest)). cbn [words]. rewrite H1, H2, Hc.
  unfold appended. cbn [default]. rewrite IH by done. by rewrite string_app_assoc.
Qed.

Lemma words_plain_start t rest : forall_char shell_plain t = true -> t <> "" -> words None false (t +:+ rest) = words (Some t) false rest.
Proof.
  destruct t as [|c t]; [done|]. intros H _. cbn [forall_char] in H. apply andb_true_iff in H as [Hc Ht]. destruct (plain_not_blank c Hc) as [H1 H2].
  change (String c t +:+ rest) with (String c (t +:+ rest)). cbn [words]. rewrite H1, H2, Hc. unfold appended. cbn [default]. by rewrite words_plain.
Qed.

(** Base64 text is plain everywhere. *)
Definition b64_plain (c : ascii) : bool := is_alnum c || existsb (Ascii.eqb c) ["+"; "/"; "="]%char.

Lemma forall_char_of_list (p : ascii -> bool) t : Forall (fun c => p c = true) t -> forall_char p (String.string_of_list_ascii t) = true.
Proof. induction 1 as [|c t Hc _ IH]; [done|]. cbn. by rewrite Hc. Qed.

Lemma b64_encode_chars t : forall_char b64_plain (b64_encode t) = true.
Proof.
  unfold b64_encode. apply forall_char_of_list, b64_encode_all; [|done]. intros v H.
  assert (exists n, (n < 64)%nat /\ v = Z.of_nat n) as (n&Hn&->) by (exists (Z.to_nat v); lia).
  do 64 (destruct n as [|n]; [by vm_compute|]). lia.
Qed.

Lemma forall_char_impl (p q : ascii -> bool) t : (forall c, p c = true -> q c = true) -> forall_char p t = true -> forall_char q t = true.
Proof. intros H. induction t as [|c t IH]; [done|]. cbn. rewrite !andb_true_iff. naive_solver. Qed.

Lemma b64_shell t : forall_char shell_plain (b64_encode t) = true /\ forall_char (fun c => negb (shell_quote c)) (b64_encode t) = true.
Proof.
  pose proof (b64_encode_chars t) as H. assert (forall c, b64_plain c = true -> shell_plain c = true) as Hp.
  { unfold b64_plain, shell_plain. intros c. rewrite !orb_true_iff. cbn [existsb]. rewrite !orb_true_iff. tauto. }
  split; [by eapply forall_char_impl|]. eapply forall_char_impl; [|exact H]. intros c Hc%Hp. by destruct (plain_not_blank c Hc) as [_ ->].
Qed.

Lemma b64_nonempty t : t <> "" -> b64_encode t <> "".
Proof. destruct t as [|a [|b [|c t]]]; done. Qed.

Lemma probe_script_unquoted filePath : forall_char (fun c => negb (shell_quote c)) (probe_script filePath) = true.
Proof.
  unfold probe_script, dq. repeat rewrite forall_char_app. by rewrite (proj2 (b64_shell filePath)).
Qed.

(** The JSON value that the program in the sandbox is given. *)
Definition export_value (filePath signedURL : string) (headers : gmap string string) (maxBytes : Z) : json :=
  JObject ([("file_path", JString filePath); ("signed_url", JString signedURL)] ++
    omit_if (bool_decide (headers = ∅)) ("headers", json_map headers) ++ omit_if (maxBytes =? 0) ("max_bytes", JInt maxBytes)).

Lemma words_next w rest : words (Some w) false (" " +:+ rest) = cons w <$> words None false rest.
Proof. done. Qed.

Lemma words_word t rest : forall_char shell_plain t = true -> t <> "" -> words None false (t +:+ " " +:+ rest) = cons t <$> words None false rest.
Proof. intros. by rewrite words_plain_start. Qed.

Lemma words_last t : forall_char shell_plain t = true -> t <> "" -> words None false t = Some [t].
Proof. intros. rewrite <- (string_app_nil_r t) at 1. by rewrite words_plain_start. Qed.

(** A quoted word. *)
Lemma words_quoted_word t rest : forall_char (fun c => negb (shell_quote c)) t = true ->
  words None false (apostrophe +:+ t +:+ apostrophe +:+ rest) = words (Some t) false rest.
Proof. intros H. change (words None false (apostrophe +:+ t +:+ apostrophe +:+ rest)) with (words (Some "") true (t +:+ apostrophe +:+ rest)). by rewrite words_quoted. Qed.

Lemma python_line code rest : words None false ("printf " +:+ apostrophe +:+ "%s" +:+ apostrophe +:+ " " +:+ apostrophe +:+ b64_encode code +:+ apostrophe +:+ " " +:+ rest) =
  (fun ws => "printf" :: "%s" :: b64_encode code :: ws) <$> words None false rest.
Proof.
  change ("printf " +:+ ?x) with ("printf" +:+ " " +:+ x). rewrite words_word, words_quoted_word, words_next, words_quoted_word, words_next by (done || apply b64_shell).
  by destruct (words None false rest).
Qed.

Lemma python3_line script rest : forall_char (fun c => negb (shell_quote c)) script = true ->
  words None false ("python3 -c " +:+ apostrophe +:+ script +:+ apostrophe +:+ rest) = (fun ws => "python3" :: "-c" :: ws) <$> words (Some script) false rest.
Proof.
  intros H. change ("python3 -c " +:+ ?x) with ("python3" +:+ " " +:+ "-c" +:+ " " +:+ x). rewrite !words_word, words_quoted_word by done.
  by destruct (words (Some script) false rest).
Qed.

(** The program that runs an export: the text of the program it runs is base64. *)
Definition export_script (script : string) : string :=
  "exec(__import__(" +:+ dq "base64" +:+ ").b64decode(" +:+ dq (b64_encode script) +:+ "))".

Lemma export_script_unquoted script : forall_char (fun c => negb (shell_quote c)) (export_script script) = true.
Proof. unfold export_script, dq. repeat rewrite forall_char_app. by rewrite (proj2 (b64_shell script)). Qed.

Lemma map_depth m : (json_depth (json_map m) <= 1)%nat.
Proof.
  unfold json_map. cbn. apply le_n_S. induction (merge_sort _ _) as [|kv l IH]; [done|]. cbn. exact IH.
Qed.

Lemma export_depth filePath signedURL headers maxBytes : (json_depth (export_value filePath signedURL headers maxBytes) <= 2)%nat.
Proof.
  pose proof (map_depth headers). unfold export_value, omit_if. destruct (bool_decide _), (maxBytes =? 0); cbn -[json_map]; lia.
Qed.

(** C39: What a client sends stays inside its word of a shell command. The
    commands that the bridge makes of a path, of the target of an export and of a
    Python program are read by a shell as the same words whatever these texts are,
    except for one word that is base64, or a Python expression in which only a
    base64 literal varies; and decoding it gives back the text, byte for byte, or
    the JSON value that was to be passed. *)
Theorem e2b_commands_stay_quoted filePath signedURL headers maxBytes script code :
  shell_words (probe_command filePath) = Some ["python3"; "-c"; probe_script filePath] /\
  forall_char b64_plain (b64_encode filePath) = true /\ b64_decode (b64_encode filePath) = Some filePath /\
  (exists payload, shell_words (buildSandboxExportCommand script filePath signedURL headers maxBytes) =
       Some ["python3"; "-c"; export_script script; payload] /\
     forall v, v = export_value filePath signedURL headers maxBytes -> printable v = true -> read_json (default "" (b64_decode payload)) = PJson v) /\
  (exists program, shell_words (python_command code) = Some ["printf"; "%s"; program; "|"; "base64"; "-d"; ">"; "/tmp/onlyboxes-pythonexec.py";
       "&&"; "uv"; "run"; "/tmp/onlyboxes-pythonexec.py"] /\ b64_decode program = Some code).
Proof.
  unfold shell_words. split_and!; [|apply b64_encode_chars|apply b64_decode_encode| |].
  - unfold probe_command. rewrite <- (string_app_nil_r apostrophe) at 2. by rewrite python3_line by apply probe_script_unquoted.
  - set (v0 := export_value filePath signedURL headers maxBytes). exists (b64_encode (json_text v0)). split.
    + unfold buildSandboxExportCommand. fold (export_value filePath signedURL headers maxBytes). fold v0.
      assert (forall rest, "exec(__import__(" +:+ dq "base64" +:+ ").b64decode(" +:+ dq (b64_encode script) +:+ "))" +:+ rest = export_script script +:+ rest) as E
        by (intros; unfold export_script; by rewrite !string_app_assoc).
      rewrite E, python3_line, words_next, words_last by (done || apply b64_shell || apply export_script_unquoted || by apply b64_nonempty). done.
    + intros v -> Hp. rewrite b64_decode_encode. cbn [default]. apply read_json_text; [done|]. etransitivity; [apply export_depth|]. unfold maxNestingDepth. lia.
  - exists (b64_encode code). split; [|apply b64_decode_encode]. unfold python_command.
    change (" | base64 -d > /tmp/onlyboxes-pythonexec.py && uv run /tmp/onlyboxes-pythonexec.py") with
      (" " +:+ "| base64 -d > /tmp/onlyboxes-pythonexec.py && uv run /tmp/onlyboxes-pythonexec.py").
    by rewrite python_line.
Qed.

Lemma e2b_commands_stay_quoted_witness :
  let path := "a'; rm -rf / #" in
  forall_char (fun c => negb (shell_quote c)) path = false /\ shell_words (probe_command path) = Some ["python3"; "-c"; probe_script path].
Proof. split; [reflexivity|]. exact (proj1 (e2b_commands_stay_quoted "a'; rm -rf / #" "" ∅ 0 "" "")). Defined.

(** ** Commands and the steps of their goroutines *)
Definition ending_of (e : client_error) : ending :=
  if is_context_error e then ContextEnd else if is_sandbox_not_found e then Missing else OtherError.

Definition pc_of (l : nat) (g : given_back) : pc := match g with Released => Release l | Destroyed => Destroy l false end.

(** How the goroutine goes on where the use of the sandbox ended like this. *)
Definition session_end (l : nat) (k : job) (sync use : option client_error) : pc :=
  match sync with
  | Some e => sync_failed l k (ending_of e)
  | None =>
      match k with
      | Renew => after_sync l Renew
      | Work => work_ended l (match use with Some e => ending_of e | None => Done end)
      end
  end.

Definition is_good {A} (r : answer A) : bool := match r with Good _ => true | Bad _ => false end.

Definition failure_of {A} (r : answer A) : option client_error := match r with Good _ => None | Bad e => Some e end.

(** A command that claimed a session and waited for it gives it back once, as the
    steps say for the way in which the extension of the sandbox's timeout and the
    use of the sandbox, of the claimed id, ended; it succeeds only if both did and
    it is released. Any other command gives nothing back and fails. *)
Definition follows {A B} (l : nat) (k : job) (claim : option B) (ready sync : option client_error) (use : B -> option client_error)
    (r : answer A) (back : list given_back) : Prop :=
  match claim, ready with
  | Some id, None => exists g, back = [g] /\ pc_of l g = session_end l k sync (use id) /\
      (is_good r = true -> sync = None /\ use id = None /\ g = Released)
  | _, _ => back = [] /\ is_good r = false
  end.

(** The sessions that the operations claim, if they do. *)
Definition ok_of {A} (r : res A) : option A := match r with Ok a => Some a | Err _ => None end.
Definition execute_claim (xn : execution) (m : manager) (now : time) (req : terminalExecRequest) : option (string * bool) :=
  if bool_decide (trim (xr_Command req) = "") then None else
  ok_of (resolveLeaseDuration m (xr_LeaseTTLSec req)) ≫= fun d =>
  ok_of (xn_claim xn (trim (xr_SessionID req)) (time_add now d) (xr_CreateIfMissing req)).
Definition resource_claim (xn : execution) (req : terminalResourceRequest) : option (string * bool) :=
  let action := normalizeTerminalResourceAction (rq_Action req) in
  if bool_decide (trim (rq_SessionID req) = "") || bool_decide (trim (rq_FilePath req) = "") || bool_decide (action = "") ||
     bool_decide (action = terminalResourceActionExport) && bool_decide (trim (rq_SignedURL req) = "") then None else
  ok_of (xn_claim xn (trim (rq_SessionID req)) timeZero false).
Definition renewal_claim (claimed : string -> time -> res unit) (m : manager) (now : time) (req : terminalLeaseRenewPayload) : option unit :=
  if bool_decide (trim (lr_SessionID req) = "") then None else
  ok_of (resolveLeaseDuration m (Some (lr_LeaseTTLSec req))) ≫= fun d => ok_of (claimed (trim (lr_SessionID req)) (time_add now d)).

Lemma not_found_is_no_context_error e : is_sandbox_not_found e = true -> is_context_error e = false.
Proof. by induction e. Qed.

Lemma step_failed_spec {A} l (e otherwise : client_error) : exists g, (step_failed (A := A) e otherwise).2 = [g] /\
  pc_of l g = sync_failed l Work (ending_of e) /\ pc_of l g = work_ended l (ending_of e) /\ is_good (step_failed (A := A) e otherwise).1 = false.
Proof.
  unfold step_failed, ending_of. destruct (is_context_error e); [by exists Destroyed|]. destruct (is_sandbox_not_found e); [by exists Destroyed|by exists Released].
Qed.

Lemma in_session_follows {A B C} l xn (id : C) (work : C -> answer A) (finish : A -> time -> B) :
  follows l Work (Some id) (xn_ready xn) (xn_sync xn) (fun id => failure_of (work id))
    (in_session xn (work id) finish).1 (in_session xn (work id) finish).2.
Proof.
  unfold in_session, follows. destruct (xn_ready xn); [done|]. destruct (xn_sync xn) as [e|].
  - destruct (step_failed_spec (A := B) l e (timeout_failed e)) as (g&Eg&Hpc&_&Hb). exists g. split_and!; [done..|]. by rewrite Hb.
  - destruct (work id) as [a|e].
    + exists Released. by destruct (xn_released xn).
    + destruct (step_failed_spec (A := B) l e e) as (g&Eg&_&Hpc&Hb). exists g. split_and!; [done..|]. by rewrite Hb.
Qed.

(** A session whose sandbox is gone when the command starts is destroyed; it is
    released where the command fails in another way. *)
Definition used (result : answer CommandResult) : execution :=
  mkExecution (fun _ _ _ => Ok ("s1", true)) None None (mkSandbox "sb1" "e2b.app" "0.2" "a" "t")
    (mkBackend (fun _ _ _ => result) (fun _ _ _ => Bad ErrFileNotFound) (fun _ _ => Bad ErrFileNotFound)) (Some 0).
Example missing_sandbox_destroys_the_session :
  let m := newTerminalSessionManager (mkManagerConfig 60 1800 300 1024 0 "" 2 1 false) in
  (Execute (used (Bad (ErrSandboxNotFound "gone"))) m 0 (mkExecRequest "ls" "s1" false None)).2 = [Destroyed] /\
  (Execute (used (Bad (HTTPError 500 "" ""))) m 0 (mkExecRequest "ls" "s1" false None)).2 = [Released].
Proof. split; reflexivity. Qed.

(** C40: Commands give their sessions back as the state machine of the manager
    says. Running a command, using a file and renewing a lease give the session
    back exactly once where they claimed it and waited for it. How is decided by
    the errors of the client: it is destroyed where the sandbox is gone, when its
    timeout is extended or when it runs the command or uses the file, and where a
    context ended in those steps (in a renewal it is then released); otherwise it is
    released. A command that reports success has extended the sandbox's timeout,
    done its work in the sandbox and released the session. A command that was
    refused, claimed no session or could not wait gives nothing back itself and
    fails. *)
Theorem e2b_commands_follow_their_steps xn claimed sync released m now l :
  (forall req, follows l Work (execute_claim xn m now req) (xn_ready xn) (xn_sync xn)
     (fun _ => failure_of (bk_Run (xn_backend xn) (xn_sandbox xn) (trim (xr_Command req)) (c_OutputLimitBytes (e_cfg m))))
     (Execute xn m now req).1 (Execute xn m now req).2) /\
  (forall env req, follows l Work (resource_claim xn req) (xn_ready xn) (xn_sync xn)
     (fun id => failure_of (resolveResource env (e_cfg m) (xn_backend xn) (xn_sandbox xn) id.1 (trim (rq_FilePath req))
        (normalizeTerminalResourceAction (rq_Action req)) (rq_SignedURL req) (default ∅ (rq_Headers req))))
     (ResolveResource env xn m req).1 (ResolveResource env xn m req).2) /\
  (forall req, follows l Renew (renewal_claim claimed m now req) None sync (fun _ => None)
     (RenewLease claimed sync released m now req).1 (RenewLease claimed sync released m now req).2).
Proof.
  split_and!.
  - intros req. unfold Execute, execute_claim. case_bool_decide; [done|]. destruct (resolveLeaseDuration _ _); [|done]. cbn [ok_of mbind option_bind].
    destruct (xn_claim _ _ _ _) as [[sid created]|]; [|done]. cbn [ok_of].
    apply (in_session_follows l xn (sid, created) (fun _ => bk_Run (xn_backend xn) (xn_sandbox xn) (trim (xr_Command req)) (c_OutputLimitBytes (e_cfg m)))).
  - intros env req. unfold ResolveResource, resource_claim. destruct (bool_decide (trim (rq_SessionID req) = "") || _); [done|]. case_bool_decide; [done|].
    cbn [orb]. destruct (_ && _); [done|]. destruct (xn_claim _ _ _ _) as [[id new]|]; [|done]. cbn [ok_of].
    apply (in_session_follows l xn (id, new) (fun id => resolveResource env (e_cfg m) (xn_backend xn) (xn_sandbox xn) id.1 (trim (rq_FilePath req))
      (normalizeTerminalResourceAction (rq_Action req)) (rq_SignedURL req) (default ∅ (rq_Headers req)))).
  - intros req. unfold RenewLease, renewal_claim. case_bool_decide; [done|]. destruct (resolveLeaseDuration _ _); [|done]. cbn [ok_of mbind option_bind].
    destruct (claimed _ _); [|done]. cbn [ok_of follows]. destruct sync as [e|]; [|exists Released; by destruct released].
    destruct (is_sandbox_not_found e) eqn:En; [exists Destroyed|exists Released]; (split_and!; [done| |done]); cbn [session_end]; unfold ending_of;
      [by rewrite not_found_is_no_context_error, En|]. rewrite En. by destruct (is_context_error e).
Qed.

End E2bCommandClaims.
