(* ===== verification/E2bWorker.v ===== *)
(** The bridge to e2b as a process (worker-bridge-e2b/internal: config/config.go,
    config/source.go; runner: hello_builder.go, session_client.go, runner.go):
    its settings, the hello, a session with the console, reconnection.

    What the files share word for word with those of the docker worker - the
    source of settings, heartbeats, the loops that send and receive - is used from
    Source, DockerConfig and WorkerClient. *)
From stdpp Require Import pretty.
From S2P Require Import Prelude.
From S2P Require Import Json.
From S2P Require Import Proto.
From S2P Require Import Sql.
From S2P Require Import AuthText.
From S2P Require Import ProxyToken.
From S2P Require Import Source.
From S2P Require Import WorkerTerminal.
From S2P Require Import DockerConfig.
From S2P Require Import WorkerClient.
From S2P Require Import E2bClient.
From S2P Require Import E2bTerminal.
From S2P Require Import E2bCommands.
Import Source.
Local Open Scope Z_scope.

Module E2bWorker.

(** ** config.go *)
Definition defaultExecutorKind : string := "e2b".
Definition defaultE2BAPIURL : string := "https://api.e2b.app".
Definition defaultE2BDomain : string := "e2b.app".
Definition defaultE2BRequestTimeout : Z := 60.
Definition defaultE2BPythonTimeout : Z := 300.
Definition defaultTerminalLeaseTTL : Z := 300.
Definition defaultTerminalExportMode : string := "sandbox".
Definition defaultTerminalSessionInflight : Z := 128.
Definition defaultEchoMaxInflight : Z := 128.
Definition defaultPythonExecMaxInflight : Z := 32.
Definition defaultTerminalExecMaxInflight : Z := 64.
Definition defaultResourceMaxInflight : Z := 128.

Record Config := mkE2bConfig {
  ConfigFile : string;
  ConsoleGRPCTarget : string;
  ConsoleTLS : bool;
  WorkerID : string;
  WorkerSecret : string;
  HeartbeatInterval : duration;
  HeartbeatJitter : Z;
  CallTimeout : duration;
  NodeName : string;
  ExecutorKind : string;
  Labels : gmap string string;
  E2BAPIKey : string;
  E2BAPIURL : string;
  E2BDomain : string;
  E2BSandboxURL : string;
  E2BPythonTemplate : string;
  E2BTerminalTemplate : string;
  E2BRequestTimeout : duration;
  E2BPythonTimeoutSec : Z;
  TerminalLeaseMinSec : Z;
  TerminalLeaseMaxSec : Z;
  TerminalLeaseDefaultSec : Z;
  TerminalOutputLimitBytes : Z;
  TerminalExportMaxBytes : Z;
  TerminalExportMode : string;
  TerminalSessionMaxInflight : Z;
  TerminalMaxActiveSessions : Z;
  EchoMaxInflight : Z;
  PythonExecMaxInflight : Z;
  TerminalExecMaxInflight : Z;
  TerminalResourceMaxInflight : Z;
  ProxyEnabled : bool;
  LogLevel : string;
  LogFormat : string;
  LogAddSource : bool }.

(** The names that the provider uses count in the environment only. *)
Definition getWithEnvAliases (s : source) (envKey alias : string) : string :=
  match src_env s envKey with
  | Some value => value
  | None =>
      match src_env s alias with
      | Some value => value
      | None => default "" (src_values s !! fileKey DockerConfig.envPrefix envKey)
      end
  end.

Definition positiveIntValue (raw : string) (fallback : Z) : Z :=
  match Atoi (trim raw) with Ok value => if value <=? 0 then fallback else value | Err _ => fallback end.

Definition or_text (value fallback : string) : string := if bool_decide (value = "") then fallback else value.

Definition load_config (s : source) : Config :=
  let envPrefix := DockerConfig.envPrefix in
  let wget := DockerConfig.wget s in
  let int := positiveInt envPrefix s in
  let heartbeatSec := int "WORKER_HEARTBEAT_INTERVAL_SEC" DockerConfig.defaultHeartbeatInterval in
  let heartbeatJitter := percent envPrefix s "WORKER_HEARTBEAT_JITTER_PCT" DockerConfig.defaultHeartbeatJitter in
  let callTimeoutSec := int "WORKER_CALL_TIMEOUT_SEC" (DockerConfig.defaultCallTimeoutSec heartbeatSec) in
  let leaseMin := int "WORKER_TERMINAL_LEASE_MIN_SEC" DockerConfig.defaultTerminalLeaseMin in
  let leaseMax := int "WORKER_TERMINAL_LEASE_MAX_SEC" DockerConfig.defaultTerminalLeaseMax in
  let leaseMax := if leaseMax <? leaseMin then leaseMin else leaseMax in
  let leaseDefault := DockerConfig.clampInt (int "WORKER_TERMINAL_LEASE_DEFAULT_SEC" defaultTerminalLeaseTTL) leaseMin leaseMax in
  mkE2bConfig (src_path s) (trimmedStringValue envPrefix s "WORKER_CONSOLE_GRPC_TARGET" DockerConfig.defaultConsoleTarget)
    (negb (boolValue envPrefix s "WORKER_CONSOLE_INSECURE" false)) (trim (wget "WORKER_ID")) (trim (wget "WORKER_SECRET"))
    (DockerConfig.seconds heartbeatSec) heartbeatJitter (DockerConfig.seconds callTimeoutSec) (trim (wget "WORKER_NODE_NAME")) defaultExecutorKind
    (DockerConfig.parseLabels (wget "WORKER_LABELS"))
    (trim (getWithEnvAliases s "WORKER_E2B_API_KEY" "E2B_API_KEY"))
    (or_text (E2bClient.TrimRightSlash (trim (getWithEnvAliases s "WORKER_E2B_API_URL" "E2B_API_URL"))) defaultE2BAPIURL)
    (or_text (trim (getWithEnvAliases s "WORKER_E2B_DOMAIN" "E2B_DOMAIN")) defaultE2BDomain)
    (E2bClient.TrimRightSlash (trim (getWithEnvAliases s "WORKER_E2B_SANDBOX_URL" "E2B_SANDBOX_URL")))
    (trim (getWithEnvAliases s "WORKER_E2B_PYTHON_TEMPLATE" "E2B_PYTHON_EXEC_TEMPLATE"))
    (trim (getWithEnvAliases s "WORKER_E2B_TERMINAL_TEMPLATE" "E2B_TERMINAL_EXEC_TEMPLATE"))
    (DockerConfig.seconds (int "WORKER_E2B_REQUEST_TIMEOUT_SEC" defaultE2BRequestTimeout))
    (positiveIntValue (getWithEnvAliases s "WORKER_E2B_PYTHON_TIMEOUT_SEC" "E2B_SANDBOX_TIMEOUT_SEC") defaultE2BPythonTimeout)
    leaseMin leaseMax leaseDefault
    (int "WORKER_TERMINAL_OUTPUT_LIMIT_BYTES" DockerConfig.defaultTerminalOutputMax)
    (nonNegativeInt envPrefix s "WORKER_TERMINAL_EXPORT_MAX_BYTES" 0)
    (choice envPrefix ["worker"; "sandbox"] s "WORKER_TERMINAL_EXPORT_MODE" defaultTerminalExportMode)
    (int "WORKER_TERMINAL_SESSION_MAX_INFLIGHT" defaultTerminalSessionInflight)
    (nonNegativeInt envPrefix s "WORKER_TERMINAL_MAX_ACTIVE_SESSIONS" DockerConfig.defaultTerminalMaxActiveSessions)
    (int "WORKER_ECHO_MAX_INFLIGHT" defaultEchoMaxInflight) (int "WORKER_PYTHON_EXEC_MAX_INFLIGHT" defaultPythonExecMaxInflight)
    (int "WORKER_TERMINAL_EXEC_MAX_INFLIGHT" defaultTerminalExecMaxInflight)
    (int "WORKER_TERMINAL_RESOURCE_MAX_INFLIGHT" defaultResourceMaxInflight)
    (boolValue envPrefix s "WORKER_PROXY_ENABLED" false)
    (logLevel envPrefix s "WORKER_LOG_LEVEL" DockerConfig.defaultLogLevel)
    (logFormat envPrefix s "WORKER_LOG_FORMAT" DockerConfig.defaultLogFormat)
    (boolValue envPrefix s "WORKER_LOG_ADD_SOURCE" false).

Definition Load (p : process) : res Config :=
  match newSource DockerConfig.configFileEnvKey DockerConfig.encodeTable p with
  | Ok s => Ok (load_config s)
  | Err e => Err e
  end.

(** ** hello_builder.go *)
Definition terminalProxyCapabilityDeclared : string := "terminalProxy".

Definition hello_labels (cfg : Config) : gmap string string :=
  let labels := keep (fun key _ => bool_decide (trim key = ProxyToken.ProxyDirectLabel) || bool_decide (trim key = ProxyToken.ProxyEndpointLabel)) (Labels cfg) in
  if ProxyEnabled cfg then <[ProxyToken.ProxyDirectLabel := ProxyToken.ProxyDirectE2B]> labels else labels.

Definition buildHello (version : string) (activeSessionCount : Z) (cfg : Config) : res ConnectHello :=
  match DockerConfig.validateTerminalMaxActiveSessions (TerminalMaxActiveSessions cfg) with
  | Err e => Err e
  | Ok _ =>
      if activeSessionCount <? 0 then Err (ErrorString "terminal active session count must be non-negative") else
      let nodeName := trim (NodeName cfg) in
      let nodeName := if bool_decide (nodeName = "") then "worker-bridge-e2b-" +:+ take_str 8 (WorkerID cfg) else nodeName in
      let capability name n := Some (mkCapability name (i32 n)) in
      Ok (mkHello (WorkerID cfg) nodeName (ExecutorKind cfg) (hello_labels cfg) version
            ([capability DockerConfig.echoCapabilityName (EchoMaxInflight cfg);
              capability DockerConfig.pythonExecCapabilityDeclared (PythonExecMaxInflight cfg);
              capability DockerConfig.terminalExecCapabilityDeclared (TerminalExecMaxInflight cfg);
              capability DockerConfig.terminalLeaseRenewCapabilityDeclared (TerminalExecMaxInflight cfg);
              capability DockerConfig.terminalResourceCapabilityDeclared (TerminalResourceMaxInflight cfg)] ++
             if ProxyEnabled cfg then [capability terminalProxyCapabilityDeclared (TerminalResourceMaxInflight cfg)] else [])
            (WorkerSecret cfg) (Some (mkCapacity (i32 (TerminalMaxActiveSessions cfg)) activeSessionCount)))
  end.

(** ** session_client.go *)
Import WorkerClient.

(** [ended]: the context or its time ended first; the recovery goes on. *)
Definition recoverTerminalSessionsWithTimeout (ended : option error) (results : list TerminalSessionRecoveryResult)
    : res (list TerminalSessionRecoveryResult) :=
  match ended with Some e => Err e | None => Ok results end.

(** [sn_results]: what [Recover] answers to the candidates. *)
Record session_env := mkSessionEnv {
  sn_dial : res unit;
  sn_open : res unit;
  sn_activeSessionCount : Z;
  sn_sendHello : res unit;
  sn_ack : first_of * res ConnectResponse;
  sn_recoverEnded : option error;
  sn_results : list TerminalSessionRecoveryCandidate -> list TerminalSessionRecoveryResult;
  sn_sendReport : res unit;
  sn_recoveryAck : first_of * res ConnectResponse;
  sn_beats : list beat }.

(** The frames that were sent, the heartbeats, whether the console accepted the
    worker, and the state. *)
Definition runSessionWithStatus (version : string) (cfg : Config) (env : session_env)
    : list ConnectRequest * list (duration * HeartbeatFrame) * bool * session_state :=
  let failed sent connected text e := (sent, [], connected, Ended (Wrapped text e "")) in
  match sn_dial env with
  | Err e => failed [] false "dial console: " e
  | Ok _ =>
  match sn_open env with
  | Err e => failed [] false "open connect stream: " e
  | Ok _ =>
  match buildHello version (sn_activeSessionCount env) cfg with
  | Err e => failed [] false "build hello: " e
  | Ok hello =>
  match sn_sendHello env with
  | Err e => failed [] false "send hello: " e
  | Ok _ =>
  match recvWithTimeout (CallTimeout cfg) (sn_ack env).1 (sn_ack env).2 with
  | Err e => failed [Hello hello] false "recv connect_ack: " e
  | Ok (ConnectAck ackSessionID intervalSec candidates) =>
      let sessionID := trim ackSessionID in
      if bool_decide (sessionID = "") then ([Hello hello], [], false, Ended (ErrorString "connect_ack.session_id is required")) else
      let heartbeatInterval := durationFromServer intervalSec (HeartbeatInterval cfg) in
      match recoverTerminalSessionsWithTimeout (sn_recoverEnded env) (sn_results env candidates) with
      | Err e => failed [Hello hello] true "recover terminal sessions: " e
      | Ok results =>
          let sent := [Hello hello; RecoveryReport (Some <$> results)] in
          match sn_sendReport env with
          | Err e => failed [Hello hello] true "send terminal session recovery report: " e
          | Ok _ =>
              match recvWithTimeout (CallTimeout cfg) (sn_recoveryAck env).1 (sn_recoveryAck env).2 with
              | Err e => failed sent true "recv terminal session recovery ack: " e
              | Ok RecoveryAck =>
                  let '(beats, e) := heartbeatLoop (HeartbeatJitter cfg) (WorkerID cfg) sessionID heartbeatInterval 0 (sn_beats env) in
                  (sent, beats, true, match e with Some e => Ended e | None => Beating end)
              | Ok _ => (sent, [], true, Ended (ErrorString "unexpected response while waiting for terminal session recovery ack"))
              end
          end
      end
  | Ok _ => ([Hello hello], [], false, Ended (ErrorString "unexpected first response frame"))
  end end end end end.

(** ** runner.go: [Run] *)
Definition manager_config (cfg : Config) : E2bTerminal.managerConfig :=
  E2bTerminal.mkManagerConfig (TerminalLeaseMinSec cfg) (TerminalLeaseMaxSec cfg) (TerminalLeaseDefaultSec cfg) (TerminalOutputLimitBytes cfg)
    (TerminalExportMaxBytes cfg) (TerminalExportMode cfg) (TerminalSessionMaxInflight cfg) (TerminalMaxActiveSessions cfg) true.

Record worker := mkWorker { wk_client : E2bClient.Client; wk_manager : E2bTerminal.manager; wk_runner : E2bCommands.pythonExecRunner }.

Definition required (value message : string) : option error := if bool_decide (trim value = "") then Some (ErrorString message) else None.

(** The first error of a list of checks. *)
Definition first_error (checks : list (option error)) : option error := head (omap id checks).

Definition start_worker (cfg : Config) : res worker :=
  match first_error
    [required (WorkerID cfg) "WORKER_ID is required"; required (WorkerSecret cfg) "WORKER_SECRET is required";
     required (E2BAPIKey cfg) "WORKER_E2B_API_KEY is required"; required (E2BPythonTemplate cfg) "WORKER_E2B_PYTHON_TEMPLATE is required";
     required (E2BTerminalTemplate cfg) "WORKER_E2B_TERMINAL_TEMPLATE is required";
     match DockerConfig.validateTerminalMaxActiveSessions (TerminalMaxActiveSessions cfg) with Err e => Some e | Ok _ => None end] with
  | Some e => Err e
  | None =>
      match E2bClient.NewClient (E2bClient.mkClientConfig (E2BAPIKey cfg) (E2BAPIURL cfg) (E2BDomain cfg) (E2BSandboxURL cfg) (E2BRequestTimeout cfg) (ProxyEnabled cfg)) with
      | E2bClient.Bad e => Err (ErrorString ("configure E2B client: " +:+ E2bClient.client_error_message e))
      | E2bClient.Good client =>
          Ok (mkWorker client (E2bTerminal.newTerminalSessionManager (manager_config cfg))
                (E2bCommands.newPythonExecRunner (E2BPythonTemplate cfg) (E2BPythonTimeoutSec cfg)))
      end
  end.

(** One round of the loop: the context's end before the session, how the session
    ended and whether it had been accepted, the context's end after it, and while
    the worker waited. *)
Record round := mkRound {
  rd_before : option error;
  rd_session : res unit;
  rd_connected : bool;
  rd_after : option error;
  rd_wait : option error }.

(** The delays that were waited, and the result; without one it goes on. *)
Fixpoint connect_loop (reconnectDelay : duration) (rounds : list round) : list duration * option (res unit) :=
  match rounds with
  | [] => ([], None)
  | r :: rounds =>
      match rd_before r with
      | Some e => ([], Some (Err e))
      | None =>
          match rd_session r with
          | Ok _ => ([], Some (Ok tt))
          | Err e =>
              let reconnectDelay := if rd_connected r then initialReconnectDelay else reconnectDelay in
              match rd_after r with
              | Some e => ([], Some (Err e))
              | None =>
                  let reconnectDelay := if bool_decide (status_code e = FailedPrecondition) then initialReconnectDelay else reconnectDelay in
                  match waitReconnectDelay (rd_wait r) reconnectDelay with
                  | Err e => ([], Some (Err e))
                  | Ok waited => let '(waits, result) := connect_loop (nextReconnectDelay reconnectDelay) rounds in (waited :: waits, result)
                  end
              end
          end
      end
  end.

Definition Run (cfg : Config) (rounds : list round) : list duration * option (res unit) :=
  match start_worker cfg with
  | Err e => ([], Some (Err e))
  | Ok _ => connect_loop initialReconnectDelay rounds
  end.

End E2bWorker.
